(* ===== verification/_CoqProject ===== *)
-Q . S2P
Prelude.v
CString.v
Buffer.v
Uri.v
Chunked.v
HttpTime.v
SimpleMap.v
HttpRequest.v
RequestSpec.v
HttpParams.v
ResponseParse.v
Dll.v
Event.v
EventInv.v
EventDelivery.v
StreamBuffers.v
RingBuffer.v
InputBuffer.v
Json.v
JsonProof.v
JsonPrint.v
HttpResponse.v
ResponseText.v
AlignHash.v
AlignHashProof.v
Mime.v
SendFile.v
Cache.v
CacheProof.v
Timer.v
TimerProof.v
LoopServices.v
Socket.v
HttpServerProto.v
HttpServerView.v
HttpServerInv.v
HttpServerRun.v
