(* ===== verification/Prelude.v ===== *)
(** Verification of nxweb, an event-driven web server in C.

    * The program

    A request travels through the program as follows.  [lib/nxd_socket.c] reads
    bytes from a socket when the event loop ([lib/nx_event.c]) says that they
    have arrived; the server protocol ([lib/nxd_http_server_proto.c]) collects
    them in a buffer ([lib/nx_buffer.c]) until the headers are complete, has
    them parsed ([lib/http_utils.c]), gives the body to a consumer
    ([lib/nxd_buffer.c]) and publishes that a request was received; a handler
    answers from a string, a file ([lib/mime.c] gives its type) or the memory
    cache ([lib/cache.c]); the protocol prints the headers of the response and
    copies its body to the socket, chunked if its length is not known.

    * The files, bottom up

    - [Prelude]: the state-and-error monad [M S A] ([Err BadPtr] is an access
      outside a block or through a bad pointer, [Err AssertFail] a failed
      assertion, [Err NoFuel] a loop that was cut off), its rules ([wp]),
      blocks of memory, machine integers, lemmas on lists.
    - [CString] (misc.h, misc.c, nxweb.h), [Buffer] (nx_buffer.c): strings,
      numbers, the buffer of a request.
    - [Uri], [HttpTime], [SimpleMap], [HttpParams] (http_utils.c, nxweb.h):
      escaping and paths, dates, lists of names and values, parameters.
    - [Chunked] (http_utils.c): the chunked transfer coding, both ways.
    - [HttpRequest], [RequestSpec], [ResponseParse]: the parsers of requests and
      of the responses of a backend, and what a request text means.
    - [HttpResponse], [ResponseText]: the headers that are sent.
    - [Json], [JsonProof], [JsonPrint] (nxjson.c).
    - [AlignHash], [AlignHashProof] (alignhash_tpl.h); its two clients [Mime]
      with [SendFile] (mime.c, nxweb_send_file), and [Cache], [CacheProof].
    - [Dll], [Event], [EventInv], [EventDelivery] (nx_event.c): the queue of
      events, streams, publishers, delivery.  [Timer], [TimerProof]: the timers
      and how long the loop sleeps.
    - [StreamBuffers], [RingBuffer], [InputBuffer] (nxd_buffer.c): components
      that run on the loop of [Event].
    - [LoopServices]: the event loop with its timers as an interface, the class
      [LoopServices] of what a protocol may rely on, with the instance
      [server_loop] made of [Event] and [Timer].  [Socket] and
      [HttpServerProto] (nxd_socket.c, nxd_http_server_proto.c) are written
      against the interface.  [HttpServerView] is what the protocol sees of its
      loop, [HttpServerInv] its invariant and its theorems for any loop that
      keeps the promise, [HttpServerRun] a connection on [server_loop].

    Definitions keep the names of the functions they model; the part of a long
    function that has a definition of its own is named after what it does.

    * Representation

    Memory that is written in place is a block (a list of byte values with
    checked accesses); strings that are only read are lists of bytes.  Objects
    that are shared (events, streams, cache records, timers) are names in
    finite maps, and every list that is linked through them is modelled with
    its pointers.  Integers are [Z], with the width written out where it can be
    exceeded.  A section under a mutex is one step.

    * What the theorems show

    - Safety: for any bytes the parsers (requests, responses, chunked bodies,
      JSON, paths) return, stay inside their block and, where they accept, give
      what the specification says ([parse_http_request_safe],
      [parse_http_request_refines], [parse_http_response_safe],
      [decode_chunked_stream_refines], [nx_json_parse_refines], ...).
    - Printers stay inside the room they reserve and print what they should
      ([prepare_response_headers_text], [response_framing_unique], ...).
    - Round trips between printers and parsers.
    - The event loop: no assertion fails and no dangling pointer is followed in
      any reachable state, no wake-up is lost, messages arrive in order, timers
      fire when they are due, the loop does not sleep past a timer.
    - Refinement: the ring buffer is a bounded queue, the hash table a finite
      map, the memory cache a list of entries with exact reference counts.
    - The server protocol: in every state a connection reaches, by any order of
      reads, writes, answers and acts of other components, the state agrees with
      the timers and the streams and no operation that may come next fails
      ([server_proto_safe]); the socket gets what was announced, in order
      ([server_proto_output]); the input is split at the first empty line
      ([server_proto_receive_headers]) and the body handed over byte by byte
      ([server_proto_body_read]).
    - Defects found are stated as theorems too; the manifest lists them.

    * Fuel

    Loops run by [loop n], which fails with [NoFuel] after [n] rounds; each
    theorem on a loop shows that its fuel is enough.  Loops over a block of
    memory get its length and a little more ([mem_loop]: length + 2; the chunked
    decoder: twice the length + 2; the JSON parser: twice the length), the
    number printers the width of the number + 1, walks over linked lists the
    size of the map that holds their nodes and a little more, hash probes the
    number of buckets + 1, the eviction of the cache the size of its table + 1,
    the processing of timers the number of timers + 1, the transfer of a stream
    event the 50 rounds of the code and 2.

    * Assumptions

    Allocation: [nx_alloc] gives blocks of the size asked for, aligned to 64
    bytes, or fails where an oracle [malloc] says so.  libc functions that are
    used on strings and numbers (strtol, strtod, gmtime_r, ...) are defined; the
    system calls are parameters.

    * Not modelled

    TLS sockets, worker threads, process management, the access log and the
    configuration file (operating system and library calls); the content
    filters, templates, subrequests, the HTTP client protocol and the proxy, the
    streamer, connections with their handlers and modules; of [lib/nx_event.c]
    the registration with epoll and the round of [nxe_run].  Vendored hash
    functions are parameters.  Log messages are left out everywhere. *)
From Stdlib Require Export ZArith Lia Ascii String.
From stdpp Require Export base list option gmap strings.
Open Scope Z_scope.

(** ** Bytes and character literals

    A C [char] stored in memory is its unsigned value, a [Z] in [0, 256).
    [ch] and [bs] turn a literal into its code(s) when the term is elaborated,
    so the definitions hold plain numerals that [lia] understands. *)

Abbreviation bytes := (list Z) (only parsing).

Definition code_of (c : ascii) : Z := Z.of_N (N_of_ascii c).
Definition codes_of (s : string) : list Z := map code_of (list_ascii_of_string s).

Abbreviation ch c := (ltac:(let v := eval vm_compute in (code_of c%char) in exact v)) (only parsing).
Abbreviation bs s := (ltac:(let v := eval vm_compute in (codes_of s%string) in exact v)) (only parsing).

(** Machine integers: the wrap-around of the widths the code uses. *)
Definition wrapu (w : Z) (z : Z) : Z := z mod 2 ^ w.
Definition wraps (w : Z) (z : Z) : Z := (z + 2 ^ (w - 1)) mod 2 ^ w - 2 ^ (w - 1).
(** The value of a byte read through a (signed) [char] lvalue. *)
Definition schar (c : Z) : Z := if c <? 128 then c else c - 256.

Lemma wrapu_small (w z : Z) : 0 <= z < 2 ^ w -> wrapu w z = z.
Proof. apply Z.mod_small. Qed.

Lemma wraps_small (w z : Z) : 0 < w -> - 2 ^ (w - 1) <= z < 2 ^ (w - 1) -> wraps w z = z.
Proof.
  intros Hw Hz. unfold wraps.
  assert (2 ^ w = 2 * 2 ^ (w - 1)) as ->.
  { rewrite <- Z.pow_succ_r by lia. f_equal. lia. }
  rewrite Z.mod_small; lia.
Qed.

(** ** State and error monad

    The state type is a component's own; an operation either returns a value
    and a state or stops with the reason: an access outside the memory it was
    given, a failed [assert], or (a bound of the model, excluded by the
    theorems) a loop that used all its fuel. *)
Inductive err := BadPtr | AssertFail | NoFuel.

Inductive res (A : Type) := Ok (a : A) | Err (e : err).
Arguments Ok {A} a.
Arguments Err {A} e.

#[export] Instance err_eq_dec : EqDecision err.
Proof. solve_decision. Defined.

Definition M (S A : Type) : Type := S -> res (A * S).

Definition ret {S A} (a : A) : M S A := fun s => Ok (a, s).
Definition fail {S A} (e : err) : M S A := fun _ => Err e.
Definition bind {S A B} (c : M S A) (k : A -> M S B) : M S B :=
  fun s => match c s with Ok (a, s') => k a s' | Err e => Err e end.
Definition get {S} : M S S := fun s => Ok (s, s).
Definition put {S} (s : S) : M S unit := fun _ => Ok (tt, s).
Definition modify {S} (f : S -> S) : M S unit := fun s => Ok (tt, f s).
Definition assert_ {S} (b : bool) : M S unit := if b then ret tt else fail AssertFail.
Definition lift_opt {S A} (e : err) (o : option A) : M S A :=
  match o with Some a => ret a | None => fail e end.

Declare Scope cmonad_scope.
Delimit Scope cmonad_scope with cm.
Notation "'let!' x ':=' c 'in' k" := (bind c (fun x => k))
  (at level 200, x name, c at level 200, k at level 200, right associativity) : cmonad_scope.
Notation "'let!' ' p ':=' c 'in' k" := (bind c (fun '(p) => k))
  (at level 200, p pattern, c at level 200, k at level 200, right associativity) : cmonad_scope.
Notation "'do!' c 'in' k" := (bind c (fun _ => k))
  (at level 200, c at level 200, k at level 200, right associativity) : cmonad_scope.
Notation "'if!' b 'then' c 'in' k" := (bind (if b then c else ret tt) (fun _ => k))
  (at level 200, b at level 200, c at level 200, k at level 200, right associativity) : cmonad_scope.
Open Scope cmonad_scope.

(** A loop: the body returns [inl] of the next loop state or [inr] of the
    result; at most [fuel] rounds. *)
Fixpoint loop {S X R} (fuel : nat) (body : X -> M S (X + R)) (x : X) : M S R :=
  match fuel with
  | O => fail NoFuel
  | Datatypes.S n =>
      let! r := body x in
      match r with inl x' => loop n body x' | inr v => ret v end
  end.

(** ** Weakest preconditions (total correctness) *)

Definition wp {S A} (c : M S A) (Q : A -> S -> Prop) (s : S) : Prop :=
  match c s with Ok (a, s') => Q a s' | Err _ => False end.

Section wp_rules.
Context {S : Type}.
Implicit Types s : S.

Lemma wp_ret {A} (a : A) (Q : A -> S -> Prop) s : Q a s -> wp (ret a) Q s.
Proof. done. Qed.

Lemma wp_bind {A B} (c : M S A) (k : A -> M S B) Q s :
  wp c (fun a s' => wp (k a) Q s') s -> wp (bind c k) Q s.
Proof. unfold wp, bind. by destruct (c s) as [[a s']|e]. Qed.

Lemma wp_mono {A} (c : M S A) (P Q : A -> S -> Prop) s :
  wp c P s -> (forall a s', P a s' -> Q a s') -> wp c Q s.
Proof. unfold wp. destruct (c s) as [[a s']|e]; eauto. Qed.

Lemma wp_get (Q : S -> S -> Prop) s : Q s s -> wp get Q s.
Proof. done. Qed.
Lemma wp_put (s' : S) (Q : unit -> S -> Prop) s : Q tt s' -> wp (put s') Q s.
Proof. done. Qed.
Lemma wp_modify (f : S -> S) (Q : unit -> S -> Prop) s : Q tt (f s) -> wp (modify f) Q s.
Proof. done. Qed.
Lemma wp_assert (b : bool) (Q : unit -> S -> Prop) s : b = true -> Q tt s -> wp (assert_ b) Q s.
Proof. by intros ->. Qed.

Lemma wp_elim {A} (c : M S A) Q s :
  wp c Q s -> exists a s', c s = Ok (a, s') /\ Q a s'.
Proof. unfold wp. destruct (c s) as [[a s']|e]; naive_solver. Qed.

Lemma wp_intro {A} (c : M S A) Q s a s' : c s = Ok (a, s') -> Q a s' -> wp c Q s.
Proof. unfold wp. by intros ->. Qed.

(** The rule for loops: an invariant and a measure that decreases each
    round; fuel above the initial measure is enough. *)
Lemma wp_loop {X R} (I : X -> S -> Prop) (mu : X -> nat) (body : X -> M S (X + R)) Q :
  (forall x s, I x s ->
     wp (body x) (fun r s' => match r with
                              | inl x' => I x' s' /\ (mu x' < mu x)%nat
                              | inr v => Q v s'
                              end) s) ->
  forall fuel x s, I x s -> (mu x < fuel)%nat -> wp (loop fuel body x) Q s.
Proof.
  intros Hbody fuel. induction fuel as [|n IH]; intros x s HI Hf; [lia|].
  cbn [loop]. apply wp_bind. eapply wp_mono; [by apply Hbody|].
  intros [x'|v] s'; cbn.
  - intros [HI' Hmu]. apply IH; [done|lia].
  - by intros HQ.
Qed.

Lemma loop_S {X R} n (body : X -> M S (X + R)) x :
  loop (Datatypes.S n) body x =
  bind (body x) (fun r => match r with inl x' => loop n body x' | inr v => ret v end).
Proof. done. Qed.

(** A finished loop does not depend on the fuel it was given. *)
Lemma loop_fuel_mono {X R} (body : X -> M S (X + R)) n n' x s v :
  (n <= n')%nat -> loop n body x s = Ok v -> loop n' body x s = Ok v.
Proof.
  revert n' x s. induction n as [|n IH]; intros n' x s Hn Hl; [done|].
  destruct n' as [|n']; [lia|]. revert Hl. cbn [loop]. unfold bind.
  destruct (body x s) as [[[x'|r] s']|e]; [|done|done].
  apply IH. lia.
Qed.
End wp_rules.

(** ** C memory

    One block of bytes; a pointer into it is its offset.  Reading or writing
    outside the block is [BadPtr], as it is undefined in C. *)
Abbreviation mem := (list Z) (only parsing).

Definition zlen {A} (l : list A) : Z := Z.of_nat (length l).

Definition peek (m : mem) (p : Z) : option Z :=
  if 0 <=? p then m !! Z.to_nat p else None.
Definition poke (m : mem) (p v : Z) : mem := <[Z.to_nat p := v]> m.

Definition rd (p : Z) : M mem Z := fun m =>
  match peek m p with Some v => Ok (v, m) | None => Err BadPtr end.
Definition wr (p v : Z) : M mem unit := fun m =>
  match peek m p with Some _ => Ok (tt, poke m p (wrapu 8 v)) | None => Err BadPtr end.

(** A string loop reads at most one byte past each position of the block, so
    the length of the block bounds its rounds. *)
Definition mem_loop {X R} (body : X -> M mem (X + R)) (x : X) : M mem R :=
  fun m => loop (S (S (length m))) body x m.

Definition is_byte (c : Z) : Prop := 0 <= c < 256.
Abbreviation all_bytes l := (Forall is_byte l).

#[export] Instance is_byte_dec c : Decision (is_byte c).
Proof. unfold is_byte. apply _. Defined.

(** [cstr m p s]: the NUL-terminated string at [p] is [s]. *)
Definition cstr (m : mem) (p : Z) (s : bytes) : Prop :=
  0 <= p /\ (forall i c, s !! i = Some c -> peek m (p + Z.of_nat i) = Some c /\ c <> 0) /\
  peek m (p + zlen s) = Some 0.

(** [bytes_at m p s]: the block holds [s] at [p]. *)
Definition bytes_at (m : mem) (p : Z) (s : bytes) : Prop :=
  forall i c, s !! i = Some c -> peek m (p + Z.of_nat i) = Some c.

(** [same_outside m m' a b]: [m'] differs from [m] at most in [a, b). *)
Definition same_outside (m m' : mem) (a b : Z) : Prop :=
  length m' = length m /\ forall q, q < a \/ b <= q -> peek m' q = peek m q.

Section mem_lemmas.
Implicit Types (m : list Z) (p v : Z).

Lemma zlen_app {A} (l k : list A) : zlen (l ++ k) = zlen l + zlen k.
Proof. unfold zlen. rewrite length_app. lia. Qed.
Lemma zlen_cons {A} (x : A) l : zlen (x :: l) = 1 + zlen l.
Proof. unfold zlen. cbn [length]. lia. Qed.
Lemma zlen_nil {A} : zlen (@nil A) = 0.
Proof. done. Qed.
Lemma zlen_0_inv {A} (l : list A) : zlen l = 0 -> l = [].
Proof. destruct l; [done|]. unfold zlen. cbn. lia. Qed.
Lemma zlen_nonneg {A} (l : list A) : 0 <= zlen l.
Proof. unfold zlen. lia. Qed.

Lemma peek_Some m p v : peek m p = Some v -> 0 <= p < zlen m.
Proof.
  unfold peek, zlen. destruct (Z.leb_spec 0 p); [|done].
  intros Hl%lookup_lt_Some. lia.
Qed.
Lemma peek_is_Some m p : 0 <= p < zlen m -> exists v, peek m p = Some v.
Proof.
  unfold peek, zlen. intros Hp. destruct (Z.leb_spec 0 p); [|lia].
  destruct (lookup_lt_is_Some_2 m (Z.to_nat p)) as [v Hv]; [lia|eauto].
Qed.
Lemma length_poke m p v : length (poke m p v) = length m.
Proof. apply length_insert. Qed.
Lemma zlen_poke m p v : zlen (poke m p v) = zlen m.
Proof. unfold zlen. by rewrite length_poke. Qed.
Lemma peek_poke_eq m p v : 0 <= p < zlen m -> peek (poke m p v) p = Some v.
Proof.
  intros Hp. unfold peek, poke, zlen in *. destruct (Z.leb_spec 0 p); [|lia].
  apply list_lookup_insert_eq. lia.
Qed.
Lemma peek_poke_ne m p q v : 0 <= p -> p <> q -> peek (poke m p v) q = peek m q.
Proof.
  intros Hp Hq. unfold peek, poke. destruct (Z.leb_spec 0 q); [|done].
  apply list_lookup_insert_ne. lia.
Qed.
Lemma peek_poke m p q v :
  0 <= p < zlen m -> peek (poke m p v) q = if p =? q then Some v else peek m q.
Proof.
  intros Hp. destruct (Z.eqb_spec p q) as [->|Hne].
  - by apply peek_poke_eq.
  - apply peek_poke_ne; lia.
Qed.

Lemma wp_rd m p (Q : Z -> list Z -> Prop) :
  0 <= p < zlen m -> (forall v, peek m p = Some v -> Q v m) -> wp (rd p) Q m.
Proof.
  intros [v Hv]%peek_is_Some HQ. unfold wp, rd. rewrite Hv. auto.
Qed.
Lemma wp_rd' m p v (Q : Z -> list Z -> Prop) :
  peek m p = Some v -> Q v m -> wp (rd p) Q m.
Proof. unfold wp, rd. by intros ->. Qed.
Lemma wp_wr m p v (Q : unit -> list Z -> Prop) :
  0 <= p < zlen m -> Q tt (poke m p (wrapu 8 v)) -> wp (wr p v) Q m.
Proof. intros [w Hw]%peek_is_Some HQ. unfold wp, wr. by rewrite Hw. Qed.

Lemma wp_mem_loop {X R} (I : X -> list Z -> Prop) (mu : X -> nat)
    (body : X -> M (list Z) (X + R)) Q x m :
  I x m -> (mu x <= S (length m))%nat ->
  (forall x m, I x m ->
     wp (body x) (fun r m' => match r with
                              | inl x' => I x' m' /\ (mu x' < mu x)%nat
                              | inr v => Q v m'
                              end) m) ->
  wp (mem_loop body x) Q m.
Proof.
  intros HI Hmu Hb. unfold mem_loop. unfold wp at 1.
  change (wp (loop (S (S (length m))) body x) Q m).
  eapply wp_loop; [exact Hb|done|lia].
Qed.

Lemma cstr_nil m p : 0 <= p -> peek m p = Some 0 -> cstr m p [].
Proof. intros Hp H0. split; [done|]. split; [by intros [|]|]. by rewrite zlen_nil, Z.add_0_r. Qed.
Lemma cstr_cons m p c s : cstr m p (c :: s) <-> 0 <= p /\ c <> 0 /\ peek m p = Some c /\ cstr m (p + 1) s.
Proof.
  unfold cstr. rewrite zlen_cons. split.
  - intros (Hp & Hs & H0). destruct (Hs 0%nat c) as [Hc Hn]; [done|].
    rewrite Z.add_0_r in Hc. split; [done|]. split; [done|]. split; [done|].
    split; [lia|]. split.
    + intros i d Hi. specialize (Hs (S i) d Hi) as [Hd Hnd].
      split; [|done]. rewrite <- Hd. f_equal. lia.
    + rewrite <- H0. f_equal. lia.
  - intros (Hp & Hn & Hc & _ & Hs & H0). split; [done|]. split.
    + intros [|i] d Hi; cbn in Hi; simplify_eq.
      * by rewrite Z.add_0_r.
      * specialize (Hs i d Hi) as [Hd Hnd]. split; [|done]. rewrite <- Hd. f_equal. lia.
    + rewrite <- H0. f_equal. lia.
Qed.
Lemma cstr_nil_inv m p : cstr m p [] -> 0 <= p /\ peek m p = Some 0.
Proof. intros (Hp & _ & H0). rewrite zlen_nil, Z.add_0_r in H0. done. Qed.
Lemma cstr_bounds m p s : cstr m p s -> 0 <= p /\ p + zlen s < zlen m.
Proof. intros (Hp & _ & H0). split; [done|]. apply peek_Some in H0. lia. Qed.

(** A store outside the string leaves it in place. *)
Lemma cstr_poke m p s q v :
  cstr m p s -> 0 <= q -> q < p \/ p + zlen s < q -> cstr (poke m q v) p s.
Proof.
  intros (Hp & Hs & H0) Hq Hout. split; [done|]. split.
  - intros i c Hi. specialize (Hs i c Hi) as [Hc Hn]. split; [|done].
    apply lookup_lt_Some in Hi. unfold zlen in *. rewrite peek_poke_ne; [done|lia|lia].
  - rewrite peek_poke_ne; [done|lia|]. pose proof (zlen_nonneg s). lia.
Qed.

(** A string is determined by its address. *)
Lemma cstr_inj m p s s' : cstr m p s -> cstr m p s' -> s = s'.
Proof.
  revert p s'. induction s as [|c s IH]; intros p [|c' s'] H1 H2; [done|..].
  - apply cstr_nil_inv in H1 as [_ H1]. apply cstr_cons in H2 as (_ & ? & H2 & _). congruence.
  - apply cstr_nil_inv in H2 as [_ H2]. apply cstr_cons in H1 as (_ & ? & H1 & _). congruence.
  - apply cstr_cons in H1 as (_ & _ & Hc & H1). apply cstr_cons in H2 as (_ & _ & Hc' & H2).
    rewrite Hc in Hc'. injection Hc' as ->. f_equal. by eapply IH.
Qed.

(** Every address up to a NUL starts a string that ends by it. *)
Lemma cstr_exists m p e : 0 <= p <= e -> peek m e = Some 0 -> exists s, cstr m p s /\ p + zlen s <= e.
Proof.
  intros Hp He. remember (Z.to_nat (e - p)) as k eqn:Hk. revert p Hp Hk.
  induction k as [|k IH]; intros p Hp Hk.
  - assert (p = e) as -> by lia. exists []. split; [apply cstr_nil; [lia|done]|]. rewrite zlen_nil. lia.
  - destruct (peek_is_Some m p) as [c Hc]; [pose proof (peek_Some _ _ _ He); lia|].
    destruct (decide (c = 0)) as [->|Hn].
    + exists []. split; [apply cstr_nil; [lia|done]|]. rewrite zlen_nil. lia.
    + destruct (IH (p + 1)) as (s & Hs & Hle); [lia..|].
      exists (c :: s). rewrite zlen_cons. split; [|lia]. apply cstr_cons. split; [lia|]. done.
Qed.

Lemma cstr_app m p s t : cstr m p (s ++ t) -> cstr m (p + zlen s) t.
Proof.
  revert p. induction s as [|c s IH]; intros p; cbn [app].
  - by rewrite zlen_nil, Z.add_0_r.
  - intros (_ & _ & _ & H)%cstr_cons. rewrite zlen_cons. apply IH in H.
    by replace (p + (1 + zlen s)) with (p + 1 + zlen s) by lia.
Qed.
Lemma cstr_nonzero m p s : cstr m p s -> Forall (fun c => c <> 0) s.
Proof.
  intros (_ & Hs & _). apply Forall_lookup. intros i c Hi. by apply (Hs i).
Qed.
(** Storing a NUL inside a string cuts it. *)
Lemma cstr_cut m p s c t :
  cstr m p (s ++ c :: t) -> cstr (poke m (p + zlen s) 0) p s.
Proof.
  intros H. pose proof (cstr_bounds _ _ _ H) as [H0 Hb]. rewrite zlen_app, zlen_cons in Hb.
  pose proof (zlen_nonneg s). pose proof (zlen_nonneg t).
  destruct H as (_ & Hs & _). split; [done|]. split.
  - intros i d Hi. destruct (Hs i d) as [Hd Hn]; [by rewrite lookup_app, Hi|].
    split; [|done]. apply lookup_lt_Some in Hi. rewrite peek_poke_ne; [done|lia|unfold zlen; lia].
  - apply peek_poke_eq. lia.
Qed.

Lemma bytes_at_nil m p : bytes_at m p [].
Proof. by intros [|]. Qed.
Lemma bytes_at_cons m p c s : bytes_at m p (c :: s) <-> peek m p = Some c /\ bytes_at m (p + 1) s.
Proof.
  unfold bytes_at. split.
  - intros H. split; [specialize (H 0%nat c eq_refl); by rewrite Z.add_0_r in H|].
    intros i d Hi. specialize (H (S i) d Hi). rewrite <- H. f_equal. lia.
  - intros [Hc H] [|i] d Hi; cbn in Hi; simplify_eq; [by rewrite Z.add_0_r|].
    rewrite <- (H i d Hi). f_equal. lia.
Qed.
Lemma bytes_at_poke m p s q v :
  bytes_at m p s -> 0 <= q -> q < p \/ p + zlen s <= q -> bytes_at (poke m q v) p s.
Proof.
  intros H Hq Hout i c Hi. specialize (H i c Hi). apply lookup_lt_Some in Hi.
  unfold zlen in *. rewrite peek_poke_ne; [done|lia|lia].
Qed.
Lemma cstr_bytes_at m p s : cstr m p s -> bytes_at m p (s ++ [0]).
Proof.
  intros (_ & Hs & H0) i c. destruct (decide (i < length s)%nat).
  - rewrite lookup_app_l by done. intros Hi. by apply (Hs i c).
  - rewrite lookup_app_r by lia. destruct (i - length s)%nat as [|k] eqn:E; [|by destruct k].
    intros [= <-]. rewrite <- H0. f_equal. unfold zlen. lia.
Qed.
Lemma same_outside_bytes_at m m' a b p s :
  same_outside m m' a b -> bytes_at m p s -> p + zlen s <= a \/ b <= p -> bytes_at m' p s.
Proof.
  intros [L P] H Hout i c Hi. pose proof (lookup_lt_Some _ _ _ Hi). unfold zlen in *.
  rewrite P by lia. by apply H.
Qed.

Lemma same_outside_refl m a b : same_outside m m a b.
Proof. done. Qed.
Lemma same_outside_trans m1 m2 m3 a b :
  same_outside m1 m2 a b -> same_outside m2 m3 a b -> same_outside m1 m3 a b.
Proof. intros [L1 P1] [L2 P2]. split; [congruence|]. intros q Hq. rewrite P2, P1; auto. Qed.
Lemma same_outside_poke m a b p v : 0 <= p -> a <= p < b -> same_outside m (poke m p v) a b.
Proof. intros H0 Hp. split; [apply length_poke|]. intros q Hq. apply peek_poke_ne; lia. Qed.
Lemma same_outside_weaken m m' a b a' b' :
  same_outside m m' a b -> a' <= a -> b <= b' -> same_outside m m' a' b'.
Proof. intros [L P] Ha Hb. split; [done|]. intros q Hq. apply P. lia. Qed.
Lemma same_outside_zlen m m' a b : same_outside m m' a b -> zlen m' = zlen m.
Proof. intros [L _]. unfold zlen. by rewrite L. Qed.
Lemma same_outside_cstr m m' a b p s :
  same_outside m m' a b -> cstr m p s -> p + zlen s < a \/ b <= p -> cstr m' p s.
Proof.
  intros [L P] (Hp & Hs & H0) Hout. pose proof (zlen_nonneg s). split; [done|]. split.
  - intros i c Hi. pose proof (lookup_lt_Some _ _ _ Hi). unfold zlen in *.
    rewrite P by lia. by apply Hs.
  - rewrite P by lia. done.
Qed.
End mem_lemmas.

(** ** Automation *)

Create HintDb nx.
#[export] Hint Resolve zlen_nonneg peek_is_Some : nx.
Create HintDb nxlen.
#[export] Hint Rewrite @zlen_app @zlen_cons @zlen_nil zlen_poke length_poke @length_app : nxlen.

(** [wp_steps] runs the monadic operations that need no choice. *)
Ltac wp_step :=
  lazymatch goal with
  | |- wp (ret _) _ _ => apply wp_ret
  | |- wp (bind _ _) _ _ => apply wp_bind
  | |- wp get _ _ => apply wp_get
  | |- wp (put _) _ _ => apply wp_put
  | |- wp (modify _) _ _ => apply wp_modify
  | |- wp (if ?b then _ else _) _ _ => destruct b eqn:?
  | |- wp (match ?x with _ => _ end) _ _ => destruct x eqn:?
  end.
Ltac wp_steps := repeat (wp_step; cbn beta iota).

(** Boolean tests of the code as propositions. *)
Ltac bool_to_prop :=
  repeat match goal with
  | H : negb _ = true |- _ => apply negb_true_iff in H
  | H : negb _ = false |- _ => apply negb_false_iff in H
  | H : andb _ _ = true |- _ => apply andb_true_iff in H; destruct H
  | H : orb _ _ = false |- _ => apply orb_false_iff in H; destruct H
  | H : (_ <=? _) = true |- _ => apply Z.leb_le in H
  | H : (_ <=? _) = false |- _ => apply Z.leb_gt in H
  | H : (_ <? _) = true |- _ => apply Z.ltb_lt in H
  | H : (_ <? _) = false |- _ => apply Z.ltb_ge in H
  | H : (_ =? _) = true |- _ => apply Z.eqb_eq in H
  | H : (_ =? _) = false |- _ => apply Z.eqb_neq in H
  end.
Ltac blia := bool_to_prop; autorewrite with nxlen in *; lia.

(** Widening and chaining the frames of two steps. *)
Ltac so_weaken H := eapply same_outside_weaken; [exact H|lia|lia].
Ltac so_trans H1 H2 := eapply same_outside_trans; [so_weaken H1|so_weaken H2].

(** Run a closed computation. *)
Ltac run := vm_compute; reflexivity.
