(* ===== verification/CString.v ===== *)
(** C strings: the standard library's string functions on a block of bytes,
    the case-insensitive comparisons of include/nxweb/nxweb.h, and the number
    formatting and trimming helpers of include/nxweb/misc.h and lib/misc.c.

    A function that only reads its arguments takes the contents of the string
    (a list of bytes, without the terminator); a function that works in place
    runs on the block that holds the string. *)
From S2P Require Import Prelude.
Open Scope Z_scope.

(** ** The standard library on a block of bytes *)

(** [strlen(p)], as the address of the terminator. *)
Definition str_end (p : Z) : M mem Z :=
  mem_loop (fun q =>
    let! c := rd q in
    if c =? 0 then ret (inr q) else ret (inl (q + 1))) p.
Definition strlen (p : Z) : M mem Z := let! q := str_end p in ret (q - p).

Definition strchr (p : Z) (c : Z) : M mem (option Z) :=
  mem_loop (fun q =>
    let! d := rd q in
    if d =? c then ret (inr (Some q))
    else if d =? 0 then ret (inr None) else ret (inl (q + 1))) p.

(** [memchr(p, c, n)] *)
Definition memchr (p : Z) (c : Z) (n : Z) : M mem (option Z) :=
  mem_loop (fun q =>
    if p + n <=? q then ret (inr None) else
    let! d := rd q in
    if d =? c then ret (inr (Some q)) else ret (inl (q + 1))) p.

(** The contents of the string at [p]. *)
Definition read_str (p : Z) : M mem bytes :=
  let! e := str_end p in
  fun m => Ok (take (Z.to_nat (e - p)) (drop (Z.to_nat p) m), m).

(** Copies of [n] bytes; [memmove] behaves as if through a temporary. *)
Definition read_bytes (p n : Z) : M mem bytes := fun m =>
  if (0 <=? p) && (0 <=? n) && (p + n <=? zlen m)
  then Ok (take (Z.to_nat n) (drop (Z.to_nat p) m), m) else Err BadPtr.
Definition write_bytes (p : Z) (s : bytes) : M mem unit := fun m =>
  if (0 <=? p) && (p + zlen s <=? zlen m)
  then Ok (tt, take (Z.to_nat p) m ++ s ++ drop (Z.to_nat p + length s) m)
  else Err BadPtr.
Definition memmove (d s n : Z) : M mem unit :=
  let! l := read_bytes s n in write_bytes d l.

(** [strncmp(s, lit, strlen(lit)) == 0] on string contents. *)
Fixpoint is_prefix (lit s : bytes) : bool :=
  match lit, s with
  | [], _ => true
  | _, [] => false
  | a :: lit', b :: s' => (a =? b) && is_prefix lit' s'
  end.

(** [strchr], [strrchr] on string contents: the index of the byte. *)
Fixpoint index_of (c : Z) (s : bytes) : option nat :=
  match s with
  | [] => None
  | d :: s' => if d =? c then Some O else S <$> index_of c s'
  end.
Fixpoint last_index_of (c : Z) (s : bytes) : option nat :=
  match s with
  | [] => None
  | d :: s' =>
      match last_index_of c s' with
      | Some i => Some (S i)
      | None => if d =? c then Some O else None
      end
  end.

(** [strtol(s, &end, base)]: white space, a sign, an optional 0x, digits; the
    value saturates to the range of [long]; the number of bytes consumed is 0
    when there are no digits. *)
Definition is_space (c : Z) : bool := (c =? 32) || ((9 <=? c) && (c <=? 13)).
Definition digit_val (c : Z) : Z :=
  if (48 <=? c) && (c <=? 57) then c - 48
  else if (97 <=? c) && (c <=? 122) then c - 87
  else if (65 <=? c) && (c <=? 90) then c - 55 else 99.
Fixpoint strtol_digits (base : Z) (s : bytes) (acc : Z) (n : Z) : Z * Z :=
  match s with
  | c :: s' =>
      if digit_val c <? base then strtol_digits base s' (acc * base + digit_val c) (n + 1)
      else (acc, n)
  | [] => (acc, n)
  end.
Definition LONG_MAX : Z := 2 ^ 63 - 1.
Definition LONG_MIN : Z := - 2 ^ 63.
Definition clamp_long (z : Z) : Z := Z.max LONG_MIN (Z.min LONG_MAX z).
Fixpoint skip_spaces (s : bytes) : bytes :=
  match s with c :: s' => if is_space c then skip_spaces s' else s | [] => [] end.
Definition strtol (s : bytes) (base : Z) : Z * Z :=
  let s1 := skip_spaces s in
  let '(neg, s2) := match s1 with
                    | 45 :: r => (true, r)
                    | 43 :: r => (false, r)
                    | _ => (false, s1)
                    end in
  let s3 := match s2 with
            | 48 :: x :: h :: r =>
                if (base =? 16) && ((x =? ch "x") || (x =? ch "X")) && (digit_val h <? 16)
                then h :: r else s2
            | _ => s2
            end in
  let '(v, n) := strtol_digits base s3 0 0 in
  if n =? 0 then (0, 0)
  else (clamp_long (if (neg : bool) then - v else v), zlen s - zlen s3 + n).
Definition atol (s : bytes) : Z := fst (strtol s 10).
(** [atoi] is [strtol] converted to [int]. *)
Definition atoi (s : bytes) : Z := wraps 32 (fst (strtol s 10)).

(** ** include/nxweb/nxweb.h: case folding *)

Definition nx_tolower (c : Z) : Z := if (ch "A" <=? c) && (c <=? ch "Z") then c + (ch "a" - ch "A") else c.
Definition nx_toupper (c : Z) : Z := if (ch "a" <=? c) && (c <=? ch "z") then c - (ch "a" - ch "A") else c.

(** [nx_strtolower(dst, src)] where both strings are blocks of their own. *)
Definition nx_strtolower (src : bytes) : bytes := map nx_tolower src.
Definition nx_strtoupper (src : bytes) : bytes := map nx_toupper src.

(** [nx_strntolower(dst, src, len)] inside one block; also copies the
    terminator when it comes within [len] bytes, and stops there. *)
Definition nx_strntolower (dst src len : Z) : M mem unit :=
  mem_loop (fun '(d, s, n) =>
    if n =? 0 then ret (inr tt) else
    let! c := rd s in
    do! wr d (nx_tolower c) in
    if nx_tolower c =? 0 then ret (inr tt) else ret (inl (d + 1, s + 1, n - 1)))
  (dst, src, len).

(** [nx_strtolower(p, p)]: in place. *)
Definition nx_strtolower_inplace (p : Z) : M mem unit :=
  mem_loop (fun q =>
    let! c := rd q in
    do! wr q (nx_tolower c) in
    if nx_tolower c =? 0 then ret (inr tt) else ret (inl (q + 1))) p.

Definition hd0 (s : bytes) : Z := match s with [] => 0 | c :: _ => c end.

(** The difference the comparison loops compute: both [nx_tolower] results are
    [char]s. *)
Definition fold_diff (a b : Z) : Z := schar (nx_tolower a) - schar (nx_tolower b).

Fixpoint nx_strcasecmp (s1 s2 : bytes) : Z :=
  let r := fold_diff (hd0 s1) (hd0 s2) in
  if r =? 0 then
    match s1 with
    | [] => r
    | _ :: s1' => nx_strcasecmp s1' (tail s2)
    end
  else r.

Fixpoint nx_strncasecmp_loop (s1 s2 : bytes) (len : Z) : Z :=
  let r := fold_diff (hd0 s1) (hd0 s2) in
  if r =? 0 then
    if len =? 0 then r else
    match s1 with
    | [] => r
    | _ :: s1' => nx_strncasecmp_loop s1' (tail s2) (len - 1)
    end
  else r.
Definition nx_strncasecmp (s1 s2 : bytes) (len : Z) : Z :=
  if len <=? 0 then 0 else nx_strncasecmp_loop s1 s2 len.

(** ** include/nxweb/nxweb.h: prefix and host matching *)

(** [lit[0..n)] against [s] as [strncmp] does, both as string contents. *)
Definition strncmp_eq (s1 s2 : bytes) (n : nat) : bool :=
  bool_decide (take n s1 = take n s2).

Definition byte_at (s : bytes) (i : nat) : Z := hd0 (drop i s).

Definition nxweb_url_prefix_match (url : bytes) (url_len : Z) (prefix : bytes) (prefix_len : Z) : bool :=
  if url_len <? prefix_len then false else
  let endc := byte_at url (Z.to_nat prefix_len) in
  if negb (endc =? 0) && negb (endc =? ch "/") && negb (endc =? ch "?") && negb (endc =? ch ";") then false else
  if prefix_len =? 1 then true else
  if negb (byte_at url 1 =? byte_at prefix 1) then false else
  strncmp_eq url prefix (Z.to_nat prefix_len).

Definition nxweb_vhost_match (host : bytes) (host_len : Z) (vhost_suffix : bytes) (vhost_suffix_len : Z) : bool :=
  if hd0 vhost_suffix =? ch "." then
    if vhost_suffix_len =? host_len + 1 then strncmp_eq host (tail vhost_suffix) (Z.to_nat host_len)
    else if vhost_suffix_len <=? host_len then
      strncmp_eq (drop (Z.to_nat (host_len - vhost_suffix_len)) host) vhost_suffix (Z.to_nat vhost_suffix_len)
    else false
  else (vhost_suffix_len =? host_len) && strncmp_eq host vhost_suffix (Z.to_nat host_len).

(** ** include/nxweb/misc.h: numbers as text *)

Definition HEX_DIGIT (n : Z) : Z :=
  let n := Z.land n 15 in if n <? 10 then n + ch "0" else n - 10 + ch "A".

(** Writes the decimal digits of the [unsigned long] [n] so that they end
    at [buf + buf_size]; returns where they start. *)
Definition uint_to_decimal_string (n : Z) (buf buf_size : Z) : M mem Z :=
  let p := buf + buf_size - 1 in
  do! wr p 0 in
  if n =? 0 then
    do! wr (p - 1) (ch "0") in ret (p - 1)
  else
    loop (S (Z.to_nat buf_size)) (fun '(p, n) =>
      if n =? 0 then ret (inr p) else
      do! wr (p - 1) (n mod 10 + ch "0") in
      ret (inl (p - 1, n / 10))) (p, n).

(** [num_digits] low digits of [n] in base [base], most significant first. *)
Definition digits_zeropad (base : Z) (digit : Z -> Z) (n : Z) (buf num_digits : Z) (null_terminate : bool) : M mem Z :=
  if! null_terminate then wr (buf + num_digits) 0 in
  do! mem_loop (fun '(p, n, k) =>
    if k =? 0 then ret (inr tt) else
    do! wr (p - 1) (digit n) in
    ret (inl (p - 1, n / base, k - 1))) (buf + num_digits, n, num_digits) in
  ret buf.

Definition uint_to_decimal_string_zeropad (n buf num_digits : Z) (null_terminate : bool) : M mem Z :=
  digits_zeropad 10 (fun n => n mod 10 + ch "0") n buf num_digits null_terminate.
Definition uint_to_hex_string_zeropad (n buf num_digits : Z) (null_terminate : bool) : M mem Z :=
  digits_zeropad 16 HEX_DIGIT n buf num_digits null_terminate.
Definition uint64_to_hex_string_zeropad (n buf num_digits : Z) (null_terminate : bool) : M mem Z :=
  digits_zeropad 16 HEX_DIGIT n buf num_digits null_terminate.

(** A caller's local array: the text a formatter leaves in [char buf[size]]. *)
Definition local_text (size : Z) (f : M mem Z) : res bytes :=
  match f (replicate (Z.to_nat size) 0) with
  | Ok (p, m) => match read_str p m with Ok (s, _) => Ok s | Err e => Err e end
  | Err e => Err e
  end.

(** ** lib/misc.c: [nxweb_trunc_space] *)

Definition nxweb_trunc_space (str : Z) : M mem Z :=
  let! c := rd str in
  if c =? 0 then ret str else
  let! p := mem_loop (fun p =>
      let! c := rd p in
      if negb (c =? 0) && (c <=? 32) then ret (inl (p + 1)) else ret (inr p)) str in
  let! c := rd p in
  if c =? 0 then ret p else
  let! e := str_end p in
  do! mem_loop (fun e =>
      let! c := rd (e - 1) in
      if c <=? 32 then do! wr (e - 1) 0 in ret (inl (e - 1)) else ret (inr tt)) e in
  ret p.

(** * Lemmas *)

Section string_loops.
Implicit Types (m : list Z) (p q : Z) (s : list Z).

Lemma wp_str_end m p s (Q : Z -> list Z -> Prop) :
  cstr m p s -> Q (p + zlen s) m -> wp (str_end p) Q m.
Proof.
  intros Hs HQ. unfold str_end.
  eapply (wp_mem_loop (fun q m' => m' = m /\ exists t, cstr m q t /\ q + zlen t = p + zlen s)
            (fun q => Z.to_nat (zlen m - q))).
  - split; [done|]. by exists s.
  - pose proof (cstr_bounds _ _ _ Hs). unfold zlen in *. lia.
  - intros q m' [-> (t & Ht & Hq)]. pose proof (cstr_bounds _ _ _ Ht). pose proof (zlen_nonneg t).
    apply wp_bind. destruct t as [|c t].
    + apply cstr_nil_inv in Ht as [_ Ht]. eapply wp_rd'; [done|]. cbn. rewrite zlen_nil in Hq.
      by replace q with (p + zlen s) by lia.
    + apply cstr_cons in Ht as (_ & Hn & Hc & Ht). eapply wp_rd'; [done|]. cbn beta.
      rewrite (proj2 (Z.eqb_neq c 0) Hn). apply wp_ret. rewrite zlen_cons in *.
      split; [|lia]. split; [done|]. exists t. split; [done|lia].
Qed.

Lemma wp_read_str m p s (Q : bytes -> list Z -> Prop) :
  cstr m p s -> Q s m -> wp (read_str p) Q m.
Proof.
  intros Hs HQ. unfold read_str. apply wp_bind. eapply wp_str_end; [done|].
  unfold wp. replace (take _ _) with s; [done|].
  replace (p + zlen s - p) with (zlen s) by lia.
  destruct Hs as (Hp & Hs & H0). unfold zlen. rewrite Nat2Z.id.
  apply list_eq_same_length with (length s); [|done|].
  - rewrite length_take, length_drop. apply peek_Some in H0. unfold zlen in H0. lia.
  - intros i c c' Hi Hc Hc'. destruct (Hs i c Hc) as [Hpk _]. rewrite lookup_take_lt in Hc' by done.
    rewrite lookup_drop in Hc'. unfold peek in Hpk. destruct (Z.leb_spec 0 (p + Z.of_nat i)); [|done].
    replace (Z.to_nat (p + Z.of_nat i)) with (Z.to_nat p + i)%nat in Hpk by lia. congruence.
Qed.

(** [strchr] of a non-NUL byte finds its first occurrence. *)
Lemma wp_strchr m p c s (Q : option Z -> list Z -> Prop) :
  cstr m p s -> c <> 0 ->
  Q ((fun i => p + Z.of_nat i) <$> index_of c s) m -> wp (strchr p c) Q m.
Proof.
  intros Hs Hc HQ. unfold strchr.
  eapply (wp_mem_loop (fun q m' => m' = m /\ exists t, cstr m q t /\
             (fun i => q + Z.of_nat i) <$> index_of c t = (fun i => p + Z.of_nat i) <$> index_of c s)
            (fun q => Z.to_nat (zlen m - q))).
  - split; [done|]. by exists s.
  - pose proof (cstr_bounds _ _ _ Hs). unfold zlen in *. lia.
  - intros q m' [-> (t & Ht & Hq)]. pose proof (cstr_bounds _ _ _ Ht). pose proof (zlen_nonneg t).
    apply wp_bind. destruct t as [|d t].
    + apply cstr_nil_inv in Ht as [_ Ht]. eapply wp_rd'; [done|]. cbn beta.
      rewrite (proj2 (Z.eqb_neq 0 c)) by done. cbn in Hq |- *. by rewrite Hq.
    + apply cstr_cons in Ht as (_ & Hn & Hd & Ht). eapply wp_rd'; [done|]. cbn beta. cbn [index_of] in Hq.
      destruct (Z.eqb_spec d c) as [->|Hne].
      * apply wp_ret. cbn in Hq. by rewrite Z.add_0_r in Hq; rewrite Hq.
      * rewrite (proj2 (Z.eqb_neq d 0) Hn). apply wp_ret. rewrite zlen_cons in *.
        split; [|lia]. split; [done|]. exists t. split; [done|]. rewrite <- Hq.
        destruct (index_of c t); cbn; [|done]. f_equal. lia.
Qed.

Lemma index_of_Some c s i :
  index_of c s = Some i -> exists s1 s2, s = s1 ++ c :: s2 /\ length s1 = i /\ ~ In c s1.
Proof.
  revert i. induction s as [|d s IH]; intros i; [done|]. cbn [index_of].
  destruct (Z.eqb_spec d c) as [->|Hne].
  - intros [= <-]. exists [], s. cbn. tauto.
  - destruct (index_of c s) as [j|]; [|done]. intros [= <-].
    destruct (IH j) as (s1 & s2 & -> & <- & Hn); [done|]. exists (d :: s1), s2. cbn. naive_solver.
Qed.
Lemma index_of_None c s : index_of c s = None -> ~ In c s.
Proof.
  induction s as [|d s IH]; [by intros _ []|]. cbn [index_of In].
  destruct (Z.eqb_spec d c) as [->|Hne]; [done|]. destruct (index_of c s); [done|].
  intros _ [?|?]; [done|by apply IH].
Qed.
Lemma index_of_app c s1 s2 : ~ In c s1 -> index_of c (s1 ++ c :: s2) = Some (length s1).
Proof.
  induction s1 as [|d s IH]; cbn; intros Hn.
  - by rewrite Z.eqb_refl.
  - destruct (Z.eqb_spec d c); [naive_solver|]. rewrite IH by naive_solver. done.
Qed.
End string_loops.

(** ** Comparisons *)

Lemma nx_tolower_byte c : is_byte c -> is_byte (nx_tolower c).
Proof. unfold is_byte, nx_tolower. intros Hc. destruct (_ && _) eqn:E; blia. Qed.
Lemma nx_tolower_nonzero c : is_byte c -> c <> 0 -> nx_tolower c <> 0.
Proof. unfold is_byte, nx_tolower. intros Hc Hn. destruct (_ && _) eqn:E; blia. Qed.

Lemma fold_diff_zero a b : is_byte a -> is_byte b -> fold_diff a b = 0 <-> nx_tolower a = nx_tolower b.
Proof.
  intros Ha%nx_tolower_byte Hb%nx_tolower_byte. unfold fold_diff, schar, is_byte in *.
  destruct (Z.ltb_spec (nx_tolower a) 128), (Z.ltb_spec (nx_tolower b) 128); lia.
Qed.

(** Contents of a C string: bytes, none of them NUL. *)
Definition cbytes (s : bytes) : Prop := Forall (fun c => is_byte c /\ c <> 0) s.

#[export] Instance cbytes_dec s : Decision (cbytes s).
Proof. unfold cbytes. apply _. Defined.

Lemma nx_strncasecmp_loop_zero s1 s2 len :
  cbytes s1 -> cbytes s2 -> 0 <= len ->
  nx_strncasecmp_loop s1 s2 len = 0 <->
  nx_strtolower (take (Z.to_nat (len + 1)) s1) = nx_strtolower (take (Z.to_nat (len + 1)) s2).
Proof.
  intros H1. revert s2 len. induction H1 as [|c s1 [Hc Hn] H1 IH]; intros s2 len H2 Hl; cbn [nx_strncasecmp_loop].
  - rewrite take_nil. destruct H2 as [|d s2 [Hd Hdn] H2]; cbn [hd0].
    + rewrite take_nil. destruct (len =? 0); done.
    + replace (Z.to_nat (len + 1)) with (S (Z.to_nat len)) by lia. cbn [take nx_strtolower map].
      destruct (Z.eqb_spec (fold_diff 0 d) 0) as [E|E]; [|naive_solver].
      apply fold_diff_zero in E; [|done..]. by apply nx_tolower_nonzero in Hd.
  - replace (Z.to_nat (len + 1)) with (S (Z.to_nat len)) by lia. cbn [take nx_strtolower map].
    destruct H2 as [|d s2 [Hd Hdn] H2]; cbn [hd0 tail].
    + destruct (Z.eqb_spec (fold_diff c 0) 0) as [E|E]; [|naive_solver].
      apply fold_diff_zero in E; [|done..]. by apply nx_tolower_nonzero in Hc.
    + cbn [take nx_strtolower map].
      destruct (Z.eqb_spec (fold_diff c d) 0) as [E|E].
      * pose proof E as E'. apply fold_diff_zero in E'; [|done..]. destruct (Z.eqb_spec len 0) as [->|Hl0].
        { rewrite E'. change (Z.to_nat 0) with O. rewrite !take_0. cbn. naive_solver. }
        rewrite IH by (done || lia). replace (len - 1 + 1) with len by lia. rewrite E'.
        unfold nx_strtolower in *. split; [by intros ->|by intros [= ->]].
      * split; [done|]. intros [= Ht _]. by apply fold_diff_zero.
Qed.

Lemma nx_strcasecmp_zero s1 s2 :
  cbytes s1 -> cbytes s2 ->
  nx_strcasecmp s1 s2 = 0 <-> nx_strtolower s1 = nx_strtolower s2.
Proof.
  intros H1. revert s2. induction H1 as [|c s1 [Hc Hn] H1 IH]; intros s2 H2; cbn [nx_strcasecmp].
  - destruct H2 as [|d s2 [Hd Hdn] H2]; cbn [hd0 nx_strtolower map]; [done|].
    destruct (Z.eqb_spec (fold_diff 0 d) 0) as [E|E]; [|naive_solver].
    apply fold_diff_zero in E; [|done..]. by apply nx_tolower_nonzero in Hd.
  - destruct H2 as [|d s2 [Hd Hdn] H2]; cbn [hd0 tail nx_strtolower map].
    + destruct (Z.eqb_spec (fold_diff c 0) 0) as [E|E]; [|naive_solver].
      apply fold_diff_zero in E; [|done..]. by apply nx_tolower_nonzero in Hc.
    + destruct (Z.eqb_spec (fold_diff c d) 0) as [E|E].
      * pose proof E as E'. apply fold_diff_zero in E'; [|done..]. rewrite IH, E' by done.
        unfold nx_strtolower in *. split; [by intros ->|by intros [= ->]].
      * split; [done|]. intros [= Ht _]. by apply fold_diff_zero.
Qed.

(** ** Decimal and hexadecimal text *)

Definition is_digit (c : Z) : Prop := 48 <= c <= 57.
Definition dec_step (acc c : Z) : Z := acc * 10 + (c - 48).
Definition dec_value (s : bytes) : Z := fold_left dec_step s 0.

Lemma pow10_succ k : 0 < k -> 10 ^ k = 10 * 10 ^ (k - 1).
Proof. intros. rewrite <- Z.pow_succ_r by lia. f_equal. lia. Qed.

Lemma wp_uint_to_decimal_string n buf size m (Q : Z -> list Z -> Prop) :
  0 <= buf -> 2 <= size -> buf + size <= zlen m -> 0 <= n < 10 ^ (size - 1) ->
  (forall p s m', cstr m' p s -> dec_value s = n -> Forall is_digit s -> s <> [] ->
     (n <> 0 -> hd0 s <> ch "0") -> buf <= p -> p + zlen s = buf + size - 1 ->
     same_outside m m' buf (buf + size) -> Q p m') ->
  wp (uint_to_decimal_string n buf size) Q m.
Proof.
  intros Hb Hsz Hm Hn HQ. unfold uint_to_decimal_string.
  apply wp_bind, wp_wr; [lia|]. set (p0 := buf + size - 1) in *. change (wrapu 8 0) with 0.
  assert (Hm0 : same_outside m (poke m p0 0) buf (buf + size)) by (apply same_outside_poke; lia).
  assert (Hs0 : cstr (poke m p0 0) p0 []).
  { apply cstr_nil; [lia|]. apply peek_poke_eq. lia. }
  destruct (Z.eqb_spec n 0) as [->|Hn0].
  - apply wp_bind, wp_wr; [rewrite zlen_poke; lia|]. apply wp_ret.
    apply (HQ (p0 - 1) [48]); [|done|by repeat constructor|done|done|lia|rewrite zlen_cons, zlen_nil; lia|].
    + apply cstr_cons. split; [lia|]. split; [done|]. rewrite peek_poke_eq by (rewrite zlen_poke; lia).
      split; [done|]. replace (p0 - 1 + 1) with p0 by lia. apply cstr_poke; [done|lia|lia].
    + eapply same_outside_trans; [done|]. apply same_outside_poke; lia.
  - eapply (wp_loop (fun '(p, n') m' => exists s, cstr m' p s /\ fold_left dec_step s n' = n /\ Forall is_digit s /\
              buf <= p /\ p + zlen s = p0 /\ 0 <= n' < 10 ^ (p - buf) /\ same_outside m m' buf (buf + size) /\
              (n' = 0 -> s <> [] /\ hd0 s <> 48))
            (fun '(p, n') => Z.to_nat (p - buf))).
    + intros [p n'] m' (s & Hs & Hv & Hd & Hp & Hl & Hn' & Hsame & Hz).
      destruct (Z.eqb_spec n' 0) as [->|Hne].
      * apply wp_ret. destruct Hz as [Hne Hh]; [done|]. by eapply HQ.
      * assert (buf < p). { destruct (decide (p = buf)) as [->|]; [|lia]. rewrite Z.sub_diag in Hn'. lia. }
        pose proof (same_outside_zlen _ _ _ _ Hsame) as Hlen. pose proof (zlen_nonneg s).
        rewrite (pow10_succ (p - buf)) in Hn' by lia.
        pose proof (Z.mod_pos_bound n' 10 ltac:(lia)). pose proof (Z.div_mod n' 10 ltac:(lia)).
        apply wp_bind, wp_wr; [lia|]. apply wp_ret. rewrite wrapu_small by lia.
        split; [|lia]. exists (n' mod 10 + 48 :: s).
        assert (Hs' : cstr (poke m' (p - 1) (n' mod 10 + 48)) (p - 1) (n' mod 10 + 48 :: s)).
        { apply cstr_cons. split; [lia|]. split; [lia|]. split; [apply peek_poke_eq; lia|].
          replace (p - 1 + 1) with p by lia. apply cstr_poke; [done|lia|lia]. }
        rewrite zlen_cons. split; [done|]. split.
        { rewrite <- Hv. cbn [fold_left]. f_equal. unfold dec_step. lia. }
        split; [constructor; [unfold is_digit; lia|done]|]. split; [lia|]. split; [lia|].
        split; [split; [apply Z.div_pos; lia|apply Z.div_lt_upper_bound; [lia|]; replace (p - 1 - buf) with (p - buf - 1) by lia; lia]|].
        split; [eapply same_outside_trans; [done|apply same_outside_poke; lia]|].
        intros Hq. split; [done|]. cbn [hd0]. lia.
    + exists []. cbn [fold_left]. change (zlen (@nil Z)) with 0. replace (p0 - buf) with (size - 1) by lia.
      split_and!; try done; try constructor; lia.
    + lia.
Qed.

Lemma dec_value_acc s acc : Forall is_digit s -> 0 <= acc -> fold_left dec_step s acc >= acc.
Proof.
  revert acc. induction s as [|c s IH]; intros acc Hd Ha; cbn [fold_left]; [lia|].
  apply Forall_cons in Hd as [Hc Hd]. unfold is_digit in Hc.
  assert (acc <= dec_step acc c) by (unfold dec_step; lia).
  specialize (IH (dec_step acc c) Hd ltac:(lia)). lia.
Qed.

Lemma digit_val_digit c : is_digit c -> digit_val c = c - 48.
Proof.
  unfold is_digit, digit_val. intros. destruct ((48 <=? c) && (c <=? 57)) eqn:E; [done|].
  apply andb_false_iff in E as [?|?]; blia.
Qed.

(** [strtol] reads back what the decimal formatter wrote. *)
Lemma strtol_digits_dec s t acc n :
  Forall is_digit s -> (match t with c :: _ => 10 <=? digit_val c | [] => true end) = true ->
  strtol_digits 10 (s ++ t) acc n = (fold_left dec_step s acc, n + zlen s).
Proof.
  revert acc n. induction s as [|c s IH]; intros acc n Hd Ht; cbn [app].
  - rewrite zlen_nil, Z.add_0_r. destruct t as [|c t]; cbn [strtol_digits]; [done|].
    destruct (Z.ltb_spec (digit_val c) 10); [blia|done].
  - apply Forall_cons in Hd as [Hc Hd]. cbn [strtol_digits]. rewrite (digit_val_digit c Hc).
    unfold is_digit in Hc. rewrite (proj2 (Z.ltb_lt (c - 48) 10)) by lia.
    rewrite IH by done. cbn [fold_left]. rewrite zlen_cons. f_equal. lia.
Qed.

Lemma strtol_dec s t :
  Forall is_digit s -> s <> [] -> (match t with c :: _ => 10 <=? digit_val c | [] => true end) = true ->
  dec_value s <= LONG_MAX -> strtol (s ++ t) 10 = (dec_value s, zlen s).
Proof.
  intros Hd Hne Ht Hv. destruct s as [|c s]; [done|]. pose proof Hd as Hd'.
  apply Forall_cons in Hd as [Hc Hd]. unfold is_digit in Hc.
  unfold strtol. cbn [app skip_spaces].
  replace (is_space c) with false.
  2: { symmetry. unfold is_space. apply orb_false_iff. split; [blia|]. apply andb_false_iff. right. apply Z.leb_gt. lia. }
  assert (Hm : forall (A : Type) (x y z : A), match c with 45 => x | 43 => y | _ => z end = z).
  { intros. repeat (destruct c as [|c|c]; try lia; try done; destruct c; try done). }
  assert (Hs2 : (match c :: s ++ t with 45 :: r => (true, r) | 43 :: r => (false, r) | _ => (false, c :: s ++ t) end)
                = (false, c :: s ++ t)) by (apply (Hm _ (true, s ++ t) (false, s ++ t))).
  rewrite Hs2. cbn beta iota.
  assert (Hs3 : match c :: s ++ t with
            | 48 :: x :: h :: r =>
                if (10 =? 16) && ((x =? ch "x") || (x =? ch "X")) && (digit_val h <? 16)
                then h :: r else c :: s ++ t
            | _ => c :: s ++ t
            end = c :: s ++ t).
  { change (10 =? 16) with false. cbn [andb]. destruct (s ++ t) as [|? [|? ?]];
    repeat (destruct c as [|c|c]; try done; destruct c; try done). }
  rewrite Hs3. change (c :: s ++ t) with ((c :: s) ++ t). rewrite strtol_digits_dec by done.
  fold (dec_value (c :: s)). pose proof (zlen_nonneg s). rewrite zlen_cons in *.
  destruct (Z.eqb_spec (0 + (1 + zlen s)) 0); [lia|]. rewrite zlen_app, zlen_cons. f_equal; [|lia].
  assert (0 <= dec_value (c :: s)) by (pose proof (dec_value_acc _ 0 Hd' ltac:(lia)); unfold dec_value; lia).
  unfold clamp_long, LONG_MIN, LONG_MAX in *. lia.
Qed.

(** Value of a digit string in base [b], digits read by [dv]. *)
Definition pos_value (b : Z) (dv : Z -> Z) (s : bytes) : Z :=
  fold_left (fun acc c => acc * b + dv c) s 0.

Lemma wp_digits_zeropad b dg dv n buf k (nt : bool) m (Q : Z -> list Z -> Prop) :
  0 < b -> (forall x, is_byte (dg x) /\ dv (dg x) = x mod b) ->
  0 <= buf -> 0 <= k -> buf + k + (if nt then 1 else 0) <= zlen m ->
  (forall s m', bytes_at m' buf s -> zlen s = k -> Forall (fun c => exists x, c = dg x) s ->
     pos_value b dv s = n mod b ^ k ->
     (nt = true -> peek m' (buf + k) = Some 0) ->
     same_outside m m' buf (buf + k + (if nt then 1 else 0)) -> Q buf m') ->
  wp (digits_zeropad b dg n buf k nt) Q m.
Proof.
  intros Hb0 Hdg Hb Hk Hm HQ. unfold digits_zeropad.
  set (e := buf + k + (if nt then 1 else 0)) in *.
  assert (Hfirst : wp (if nt then wr (buf + k) 0 else ret tt)
            (fun _ m' => (nt = true -> peek m' (buf + k) = Some 0) /\ same_outside m m' buf e) m).
  { destruct nt; [|apply wp_ret; split; [done|apply same_outside_refl]].
    apply wp_wr; [lia|]. split; [intros _; apply peek_poke_eq; lia|].
    apply same_outside_poke; lia. }
  apply wp_bind. eapply wp_mono; [apply Hfirst|]. intros _ m0 [Hnul Hs0].
  pose proof (same_outside_zlen _ _ _ _ Hs0) as Hl0.
  apply wp_bind.
  eapply (wp_mem_loop (fun '(p, n', k') m' => exists s, bytes_at m' p s /\ zlen s = k - k' /\ p = buf + k' /\
             0 <= k' /\ Forall (fun c => exists x, c = dg x) s /\
             fold_left (fun acc c => acc * b + dv c) s (n' mod b ^ k') = n mod b ^ k /\
             (nt = true -> peek m' (buf + k) = Some 0) /\ same_outside m m' buf e)
           (fun '(p, n', k') => Z.to_nat k')).
  - exists []. change (zlen (@nil Z)) with 0. split_and!; try done; try constructor; lia.
  - unfold zlen in *. destruct nt; lia.
  - intros [[p n'] k'] m' (s & Hs & Hl & -> & Hk' & Hf & Hv & Hn & Hsame).
    destruct (Z.eqb_spec k' 0) as [->|Hne].
    + apply wp_ret, wp_ret. eapply HQ; [by rewrite Z.add_0_r in Hs|lia|done|..]; try done.
      rewrite Z.mod_1_r in Hv. done.
    + pose proof (same_outside_zlen _ _ _ _ Hsame) as Hlen. pose proof (zlen_nonneg s).
      destruct (Hdg n') as [Hby Hdv].
      assert (b ^ k' = b * b ^ (k' - 1)) as Hpow.
      { rewrite <- Z.pow_succ_r by lia. f_equal. lia. }
      apply wp_bind, wp_wr; [destruct nt; lia|]. apply wp_ret. rewrite wrapu_small by apply Hby.
      split; [|lia]. exists (dg n' :: s). rewrite zlen_cons.
      split; [apply bytes_at_cons; split; [apply peek_poke_eq; destruct nt; lia|];
              apply bytes_at_poke; [by replace (buf + k' - 1 + 1) with (buf + k') by lia|lia|lia]|].
      split; [lia|]. split; [lia|]. split; [lia|].
      split; [constructor; eauto|]. split.
      { rewrite <- Hv. cbn [fold_left]. f_equal. rewrite Hdv, Hpow.
        rewrite Z.rem_mul_r by (try apply Z.pow_nonzero; lia). lia. }
      split; [intros Ht; rewrite peek_poke_ne by lia; by apply Hn|].
      eapply same_outside_trans; [done|]. apply same_outside_poke; [lia|]. destruct nt; lia.
Qed.

Definition hex_val (c : Z) : Z := if c <? 58 then c - 48 else c - 55.

Lemma HEX_DIGIT_spec x : is_byte (HEX_DIGIT x) /\ hex_val (HEX_DIGIT x) = x mod 16.
Proof.
  unfold HEX_DIGIT, hex_val, is_byte. change 15 with (Z.ones 4). rewrite Z.land_ones by lia.
  change (2 ^ 4) with 16. pose proof (Z.mod_pos_bound x 16 ltac:(lia)).
  destruct (Z.ltb_spec (x mod 16) 10).
  - destruct (Z.ltb_spec (x mod 16 + 48) 58); lia.
  - destruct (Z.ltb_spec (x mod 16 - 10 + 65) 58); lia.
Qed.

(** ** Trimming *)

Fixpoint ltrim (s : bytes) : bytes :=
  match s with c :: s' => if c <=? 32 then ltrim s' else s | [] => [] end.
Definition rtrim (s : bytes) : bytes := rev (ltrim (rev s)).
Definition trim (s : bytes) : bytes := rtrim (ltrim s).

Lemma ltrim_suffix s : exists k, s = k ++ ltrim s /\ Forall (fun c => c <= 32) k.
Proof.
  induction s as [|c s IH]; [by exists []|]. cbn [ltrim].
  destruct (Z.leb_spec c 32); [|by exists []]. destruct IH as (k & Hk & Hf).
  exists (c :: k). cbn. split; [by rewrite <- Hk|by constructor].
Qed.
Lemma ltrim_head s c t : ltrim s = c :: t -> 32 < c.
Proof.
  induction s as [|d s IH]; cbn [ltrim]; [done|].
  destruct (Z.leb_spec d 32); [done|]. by intros [= -> ->].
Qed.
Lemma rtrim_snoc_space s c : c <= 32 -> rtrim (s ++ [c]) = rtrim s.
Proof. intros Hc. unfold rtrim. rewrite rev_app_distr. cbn. destruct (Z.leb_spec c 32); [done|lia]. Qed.
Lemma rtrim_snoc_other s c : 32 < c -> rtrim (s ++ [c]) = s ++ [c].
Proof.
  intros Hc. unfold rtrim. rewrite rev_app_distr. cbn. destruct (Z.leb_spec c 32); [lia|].
  cbn. by rewrite rev_involutive.
Qed.

(** What trimming keeps and what it drops. *)
Lemma trim_split s : exists a b, s = a ++ trim s ++ b /\ Forall (fun c => c <= 32) a /\
  Forall (fun c => c <= 32) b /\ (trim s <> [] -> 32 < hd0 (trim s) /\ 32 < hd0 (rev (trim s))).
Proof.
  destruct (ltrim_suffix s) as (a & Hs & Ha). destruct (ltrim_suffix (rev (ltrim s))) as (b & Hl & Hb).
  assert (He : ltrim s = trim s ++ rev b).
  { rewrite <- (rev_involutive (ltrim s)), Hl, rev_app_distr. done. }
  exists a, (rev b). split; [by rewrite <- He|]. split; [done|]. split; [by apply Forall_rev|].
  intros Hne. split.
  - destruct (trim s) as [|c t] eqn:Et; [done|]. cbn. cbn in He. by eapply ltrim_head.
  - unfold trim, rtrim in *. rewrite rev_involutive. destruct (ltrim (rev (ltrim s))) as [|c t] eqn:Et; [done|].
    cbn. by eapply ltrim_head.
Qed.

(** In place: the result is a string inside the old one, trimmed on both
    sides, and nothing outside the old string changes. *)
Lemma wp_trunc_space m p s (Q : Z -> list Z -> Prop) :
  cstr m p s ->
  (forall p' m', cstr m' p' (trim s) -> p <= p' -> p' + zlen (trim s) <= p + zlen s ->
     same_outside m m' p (p + zlen s) -> Q p' m') ->
  wp (nxweb_trunc_space p) Q m.
Proof.
  intros Hs HQ. unfold nxweb_trunc_space. pose proof (cstr_bounds _ _ _ Hs) as [Hp0 Hbd].
  pose proof (zlen_nonneg s). apply wp_bind. apply wp_rd; [lia|]. intros c Hc.
  destruct (Z.eqb_spec c 0) as [->|Hc0].
  { apply wp_ret. destruct s as [|d s]; [|apply cstr_cons in Hs as (_ & ? & ? & _); congruence].
    apply HQ; [done|lia|cbn; lia|apply same_outside_refl]. }
  apply wp_bind.
  eapply (wp_mem_loop (fun q m' => m' = m /\ exists t, cstr m q t /\ ltrim t = ltrim s /\ p <= q /\ q + zlen t = p + zlen s)
            (fun q => Z.to_nat (zlen m - q))).
  { split; [done|]. exists s. split_and!; try done; lia. }
  { unfold zlen. lia. }
  intros q m' [-> (t & Ht & Hlt & Hpq & Hql)]. pose proof (cstr_bounds _ _ _ Ht). pose proof (zlen_nonneg t).
  apply wp_bind. apply wp_rd; [lia|]. intros d Hd.
  destruct (negb (d =? 0) && (d <=? 32)) eqn:E.
  { apply wp_ret. destruct t as [|d' t]; [apply cstr_nil_inv in Ht as [_ Ht]; rewrite Hd in Ht; simplify_eq|].
    apply cstr_cons in Ht as (_ & _ & Hd' & Ht). rewrite Hd in Hd'. injection Hd' as ->.
    rewrite zlen_cons in *. split; [|lia]. split; [done|]. exists t. split_and!; try done; try lia.
    apply andb_true_iff in E as [_ E]. rewrite <- Hlt. cbn [ltrim]. by rewrite E. }
  apply wp_ret. apply wp_bind. eapply wp_rd'; [done|]. cbn beta.
  destruct (Z.eqb_spec d 0) as [->|Hd0].
  { apply wp_ret. destruct t as [|d' t]; [|apply cstr_cons in Ht as (_ & ? & ? & _); congruence].
    cbn [ltrim] in Hlt. assert (Htr : trim s = []) by (unfold trim; by rewrite <- Hlt).
    apply HQ; [by rewrite Htr|done|rewrite Htr; lia|apply same_outside_refl]. }
  cbn in E.
  assert (Htl : t = ltrim s).
  { destruct t as [|d' t]; [apply cstr_nil_inv in Ht as [_ Ht]; rewrite Hd in Ht; simplify_eq|].
    apply cstr_cons in Ht as (_ & _ & Hd' & _). rewrite Hd in Hd'. injection Hd' as ->.
    rewrite <- Hlt. cbn [ltrim]. by rewrite E. }
  apply wp_bind. eapply wp_str_end; [done|]. apply wp_bind.
  eapply (wp_mem_loop (fun e m' => exists u, cstr m' q u /\ rtrim u = trim s /\ e = q + zlen u /\ u <> [] /\ hd0 u = d /\
             zlen u <= zlen t /\ same_outside m m' p (p + zlen s)) (fun e => Z.to_nat e)).
  { exists t. split_and!; try done; try apply same_outside_refl; try lia.
    - by rewrite Htl. - intros ->. apply cstr_nil_inv in Ht as [_ Ht]. congruence.
    - destruct t; [apply cstr_nil_inv in Ht as [_ Ht]; congruence|]. apply cstr_cons in Ht as (_ & _ & ? & _). cbn. congruence. }
  { unfold zlen in *. lia. }
  intros e m' (u & Hu & Hrt & -> & Hune & Hhd & Hul & Hsame).
  pose proof (cstr_bounds _ _ _ Hu) as [_ Hub]. pose proof (same_outside_zlen _ _ _ _ Hsame) as Hlen.
  destruct (exists_last Hune) as (v & x & ->). pose proof (zlen_nonneg v). rewrite zlen_app, zlen_cons, zlen_nil in *.
  pose proof (cstr_app _ _ _ _ Hu) as (Hv0 & Hxn & Hx & _)%cstr_cons.
  apply wp_bind. eapply wp_rd'; [by replace (q + (zlen v + (1 + 0)) - 1) with (q + zlen v) by lia|]. cbn beta.
  destruct (Z.leb_spec x 32) as [Hx32|Hx32].
  - apply wp_bind, wp_wr; [lia|]. apply wp_ret. change (wrapu 8 0) with 0.
    replace (q + (zlen v + (1 + 0)) - 1) with (q + zlen v) by lia. split; [|lia].
    exists v. rewrite rtrim_snoc_space in Hrt by done.
    assert (v <> []). { intros ->. cbn in Hhd. apply Z.leb_gt in E. lia. }
    split_and!; try done; try lia.
    + eapply cstr_cut. done.
    + by destruct v.
    + eapply same_outside_trans; [done|]. apply same_outside_poke; lia.
  - apply wp_ret, wp_ret. rewrite rtrim_snoc_other in Hrt by done.
    apply HQ; rewrite <- ?Hrt; [done|done| |done]. rewrite zlen_app, zlen_cons, zlen_nil. lia.
Qed.

(** ** Block copies *)

Lemma peek_app_l (m k : list Z) p : p < zlen m -> peek (m ++ k) p = peek m p.
Proof.
  unfold peek, zlen. destruct (Z.leb_spec 0 p); [|done]. intros. apply lookup_app_l. lia.
Qed.
Lemma peek_app_r (m k : list Z) p : zlen m <= p -> peek (m ++ k) p = peek k (p - zlen m).
Proof.
  intros Hp. pose proof (zlen_nonneg m). unfold peek, zlen in *.
  destruct (Z.leb_spec 0 p); [|lia]. destruct (Z.leb_spec 0 (p - Z.of_nat (length m))); [|lia].
  rewrite lookup_app_r by lia. f_equal. lia.
Qed.
Lemma peek_take (m : list Z) n p : 0 <= p < n -> peek (take (Z.to_nat n) m) p = peek m p.
Proof. unfold peek. intros. destruct (Z.leb_spec 0 p); [|done]. apply lookup_take_lt. lia. Qed.
Lemma peek_drop (m : list Z) n p : 0 <= n -> 0 <= p -> peek (drop (Z.to_nat n) m) p = peek m (n + p).
Proof.
  unfold peek. intros. destruct (Z.leb_spec 0 p), (Z.leb_spec 0 (n + p)); try lia.
  rewrite lookup_drop. f_equal. lia.
Qed.
Lemma zlen_take {A} (m : list A) n : 0 <= n <= zlen m -> zlen (take (Z.to_nat n) m) = n.
Proof. unfold zlen. intros. rewrite length_take. lia. Qed.
Lemma zlen_drop {A} (m : list A) n : 0 <= n <= zlen m -> zlen (drop (Z.to_nat n) m) = zlen m - n.
Proof. unfold zlen. intros. rewrite length_drop. lia. Qed.

Lemma wp_write_bytes m p s (Q : unit -> list Z -> Prop) :
  0 <= p -> p + zlen s <= zlen m ->
  (forall m', bytes_at m' p s -> same_outside m m' p (p + zlen s) -> Q tt m') ->
  wp (write_bytes p s) Q m.
Proof.
  intros Hp Hb HQ. unfold wp, write_bytes. pose proof (zlen_nonneg s).
  rewrite (proj2 (Z.leb_le 0 p)), (proj2 (Z.leb_le (p + zlen s) (zlen m))) by lia. cbn [andb].
  assert (Hd : (Z.to_nat p + length s)%nat = Z.to_nat (p + zlen s)) by (unfold zlen; lia).
  rewrite Hd. pose proof (zlen_take m p ltac:(lia)) as Ht. apply HQ.
  - intros i c Hi. pose proof (lookup_lt_Some _ _ _ Hi). unfold zlen in *.
    rewrite peek_app_r by (rewrite ?zlen_take; unfold zlen; lia).
    rewrite peek_app_l by (rewrite ?zlen_take; unfold zlen; lia).
    unfold zlen. rewrite Ht. replace (p + Z.of_nat i - p) with (Z.of_nat i) by lia.
    unfold peek. rewrite (proj2 (Z.leb_le 0 _)), Nat2Z.id by lia. done.
  - split; [rewrite !length_app, length_take, length_drop; unfold zlen in *; lia|].
    intros q [Hq|Hq].
    + destruct (Z.leb_spec 0 q); [|unfold peek; destruct (Z.leb_spec 0 q); [lia|done]].
      rewrite peek_app_l by lia. by apply peek_take.
    + rewrite peek_app_r by lia. rewrite peek_app_r by lia. rewrite peek_drop by lia. f_equal. lia.
Qed.

Lemma wp_read_bytes m p n (Q : bytes -> list Z -> Prop) :
  0 <= p -> 0 <= n -> p + n <= zlen m ->
  (forall s, bytes_at m p s -> zlen s = n -> Q s m) -> wp (read_bytes p n) Q m.
Proof.
  intros Hp Hn Hb HQ. unfold wp, read_bytes.
  rewrite (proj2 (Z.leb_le 0 p)), (proj2 (Z.leb_le 0 n)), (proj2 (Z.leb_le (p + n) (zlen m))) by lia.
  cbn [andb]. apply HQ.
  - intros i c Hi. pose proof (lookup_lt_Some _ _ _ Hi) as Hl. rewrite length_take in Hl.
    rewrite lookup_take_lt in Hi by lia. rewrite lookup_drop in Hi. unfold peek.
    rewrite (proj2 (Z.leb_le 0 _)) by lia. rewrite <- Hi. f_equal. lia.
  - rewrite zlen_take; [done|]. rewrite zlen_drop by lia. lia.
Qed.

(** The bytes at a place are determined by their number. *)
Lemma bytes_at_inj m p s t : bytes_at m p s -> bytes_at m p t -> zlen s = zlen t -> s = t.
Proof.
  intros Hs Ht Hl. unfold zlen in Hl. apply list_eq_same_length with (length s); [lia|done|].
  intros i c d Hi Hc Hd. specialize (Hs i c Hc). specialize (Ht i d Hd). congruence.
Qed.
Lemma bytes_at_app m p s t : bytes_at m p (s ++ t) <-> bytes_at m p s /\ bytes_at m (p + zlen s) t.
Proof.
  revert p. induction s as [|c s IH]; intros p; cbn [app].
  - rewrite zlen_nil, Z.add_0_r. split; [split; [apply bytes_at_nil|done]|tauto].
  - rewrite !bytes_at_cons, IH, zlen_cons. replace (p + (1 + zlen s)) with (p + 1 + zlen s) by lia. tauto.
Qed.
Lemma bytes_at_bound m p s : 0 <= p -> bytes_at m p s -> s <> [] -> p + zlen s <= zlen m.
Proof.
  intros Hp H Hne. destruct (exists_last Hne) as (t & c & ->).
  apply bytes_at_app in H as [_ [H _]%bytes_at_cons]. apply peek_Some in H.
  rewrite zlen_app, zlen_cons, zlen_nil. lia.
Qed.


(** Stores that extend the bytes written so far. *)
Lemma bytes_at_push m p s c q :
  bytes_at m p s -> 0 <= p -> q = p + zlen s -> q < zlen m -> bytes_at (poke m q c) p (s ++ [c]).
Proof.
  intros Hs Hp -> Hl. pose proof (zlen_nonneg s). apply bytes_at_app. split.
  - apply bytes_at_poke; [done|lia|lia].
  - apply bytes_at_cons. split; [apply peek_poke_eq; lia|apply bytes_at_nil].
Qed.
(** A NUL after bytes that hold none makes them a string. *)
Lemma bytes_at_cstr m p s : 0 <= p -> bytes_at m p (s ++ [0]) -> Forall (fun c => c <> 0) s -> cstr m p s.
Proof.
  intros Hp [Hs [H0 _]%bytes_at_cons]%bytes_at_app Hn. split; [done|]. split; [|done].
  intros i c Hi. split; [by apply Hs|]. by eapply Forall_lookup_1 in Hn.
Qed.

(** How much of its argument [strtol] can consume. *)
Lemma skip_spaces_length s : zlen (skip_spaces s) <= zlen s.
Proof.
  induction s as [|c s IH]; cbn [skip_spaces]; [lia|]. destruct (is_space c); [rewrite zlen_cons; lia|lia].
Qed.
Lemma strtol_digits_count b s acc n : n <= snd (strtol_digits b s acc n) <= n + zlen s.
Proof.
  revert acc n. induction s as [|c s IH]; intros acc n; cbn [strtol_digits].
  - cbn. change (zlen (@nil Z)) with 0. lia.
  - rewrite zlen_cons. pose proof (zlen_nonneg s). destruct (digit_val c <? b); [|cbn; lia].
    specialize (IH (acc * b + digit_val c) (n + 1)). lia.
Qed.

(** * Properties *)

(** [nxweb_trunc_space] trims a string in place: the result is the input
    without its leading and trailing bytes up to 32 (white space and controls),
    it lies inside the input, and nothing outside the input changes. *)
Theorem nxweb_trunc_space_correct (m : list Z) (p : Z) (s : bytes) :
  cstr m p s ->
  exists a t b p' m', nxweb_trunc_space p m = Ok (p', m') /\
    s = a ++ t ++ b /\ Forall (fun c => c <= 32) a /\ Forall (fun c => c <= 32) b /\
    (t <> [] -> 32 < hd0 t /\ 32 < hd0 (rev t)) /\
    cstr m' p' t /\ p <= p' /\ p' + zlen t <= p + zlen s /\ same_outside m m' p (p + zlen s).
Proof.
  intros Hs.
  assert (Hw : wp (nxweb_trunc_space p) (fun p' m' => cstr m' p' (trim s) /\ p <= p' /\
            p' + zlen (trim s) <= p + zlen s /\ same_outside m m' p (p + zlen s)) m).
  { by eapply wp_trunc_space. }
  apply wp_elim in Hw as (p' & m' & Hr & Ht & Hp & Hl & Ho).
  destruct (trim_split s) as (a & b & Hsp & Ha & Hb & He).
  exists a, (trim s), b, p', m'. split_and!; done.
Qed.

Lemma nxweb_trunc_space_correct_witness :
  exists a t b p' m', nxweb_trunc_space 1 [7; 32; 9; 65; 32; 66; 10; 0; 7] = Ok (p', m') /\
    [32; 9; 65; 32; 66; 10] = a ++ t ++ b /\ Forall (fun c => c <= 32) a /\ Forall (fun c => c <= 32) b /\
    (t <> [] -> 32 < hd0 t /\ 32 < hd0 (rev t)) /\
    cstr m' p' t /\ 1 <= p' /\ p' + zlen t <= 1 + zlen [32; 9; 65; 32; 66; 10] /\
    same_outside [7; 32; 9; 65; 32; 66; 10; 0; 7] m' 1 (1 + zlen [32; 9; 65; 32; 66; 10]).
Proof.
  apply (nxweb_trunc_space_correct [7; 32; 9; 65; 32; 66; 10; 0; 7] 1 [32; 9; 65; 32; 66; 10]).
  repeat (apply cstr_cons; split_and!; [lia|lia|reflexivity|]). by apply cstr_nil.
Defined.

(** Every [unsigned long] below [2^63] printed in decimal into a local
    array of at least 24 bytes fits, and [atol] reads the same number back. *)
Theorem uint_decimal_roundtrip (n size : Z) :
  0 <= n < 2 ^ 63 -> 24 <= size ->
  exists s, local_text size (uint_to_decimal_string n 0 size) = Ok s /\
    Forall is_digit s /\ zlen s < size /\ (n <> 0 -> hd0 s <> ch "0") /\ atol s = n.
Proof.
  intros Hn Hsz. unfold local_text.
  assert (Hpow : 2 ^ 63 <= 10 ^ (size - 1)).
  { transitivity (10 ^ 23); [lia|]. apply Z.pow_le_mono_r; lia. }
  set (m := replicate (Z.to_nat size) 0).
  assert (Hlen : zlen m = size) by (unfold m, zlen; rewrite length_replicate; lia).
  assert (Hw : wp (uint_to_decimal_string n 0 size) (fun p m' => exists s, cstr m' p s /\ Forall is_digit s /\
            zlen s < size /\ (n <> 0 -> hd0 s <> ch "0") /\ atol s = n) m).
  { apply wp_uint_to_decimal_string; [lia..|]. intros p s m' Hs Hv Hd Hne Hh Hp Hl _.
    exists s. split_and!; try done; [lia|].
    unfold atol. rewrite <- (app_nil_r s). rewrite strtol_dec; [done..|].
    rewrite Hv. unfold LONG_MAX. lia. }
  apply wp_elim in Hw as (p & m' & -> & s & Hs & Hrest).
  assert (Hr : wp (read_str p) (fun s' _ => s' = s) m') by (by eapply wp_read_str).
  apply wp_elim in Hr as (s' & m'' & -> & ->). by exists s.
Qed.

Lemma uint_decimal_roundtrip_witness :
  (0 <= 9007199254740993 < 2 ^ 63 /\ 24 <= 32) /\
  exists s, local_text 32 (uint_to_decimal_string 9007199254740993 0 32) = Ok s /\
    Forall is_digit s /\ zlen s < 32 /\ (9007199254740993 <> 0 -> hd0 s <> ch "0") /\ atol s = 9007199254740993.
Proof. split; [lia|]. apply (uint_decimal_roundtrip 9007199254740993 32); lia. Defined.

(** [nx_strcasecmp] returns 0 exactly when the two strings are equal up to
    ASCII case. *)
Theorem nx_strcasecmp_correct (s1 s2 : bytes) :
  cbytes s1 -> cbytes s2 -> nx_strcasecmp s1 s2 = 0 <-> nx_strtolower s1 = nx_strtolower s2.
Proof. apply nx_strcasecmp_zero. Qed.

Lemma nx_strcasecmp_correct_witness :
  nx_strcasecmp (bs "Content-Length") (bs "CONTENT-length") = 0 <->
  nx_strtolower (bs "Content-Length") = nx_strtolower (bs "CONTENT-length").
Proof. apply nx_strcasecmp_correct; vm_compute; repeat constructor; done. Defined.

(** [nx_strncasecmp] with length [len] compares [len + 1] bytes, one more
    than [strncasecmp]: it returns 0 exactly when the first [len + 1] bytes are
    equal up to case. *)
Theorem nx_strncasecmp_compares_one_more (s1 s2 : bytes) (len : Z) :
  cbytes s1 -> cbytes s2 -> 0 < len ->
  nx_strncasecmp s1 s2 len = 0 <->
  nx_strtolower (take (Z.to_nat (len + 1)) s1) = nx_strtolower (take (Z.to_nat (len + 1)) s2).
Proof.
  intros H1 H2 Hl. unfold nx_strncasecmp. rewrite (proj2 (Z.leb_gt len 0)) by lia.
  apply nx_strncasecmp_loop_zero; [done..|lia].
Qed.

(** ["max-age"] and its first four bytes against ["max="]. *)
Lemma nx_strncasecmp_compares_one_more_witness :
  0 < 3 /\ (nx_strncasecmp (bs "max-age") (bs "MAX=1") 3 = 0 <->
  nx_strtolower (take (Z.to_nat (3 + 1)) (bs "max-age")) = nx_strtolower (take (Z.to_nat (3 + 1)) (bs "MAX=1"))).
Proof.
  split; [lia|]. apply nx_strncasecmp_compares_one_more; [vm_compute; repeat constructor; done..|lia].
Defined.
