(* ===== verification/Buffer.v ===== *)
(** The per-request buffer (include/nxweb/nx_buffer.h, lib/nx_buffer.c): an
    obstack.  A growing stream of bytes sits at the bottom of the current chunk
    and is moved to a bigger chunk when it does not fit; finished streams stay
    below it, objects are carved from the top.

    Addresses inside a chunk are offsets from its [buf] field.  Chunks start at
    multiples of 16 ([nx_alloc] is [memalign(64, ...)], [nxb_init] aligns the
    first one), so [buf], the field at offset 17, is 1 modulo 16 and alignment
    can be computed on offsets.  Sizes are those of the x86-64 ABI. *)
From S2P Require Import Prelude CString.
Open Scope Z_scope.

(** [nx_alloc]: the allocator.  It may fail; a block has the size asked for and
    arbitrary contents. *)
Class Alloc := {
  nx_alloc : Z -> option (list Z);
  nx_alloc_length : forall n m, nx_alloc n = Some m -> zlen m = n;
}.

Definition NXB_DEFAULT_ALIGNMENT_MASK : Z := 15.
Definition sizeof_nxb_buffer : Z := 32.
Definition sizeof_nxb_chunk : Z := 24.
Definition offsetof_buf : Z := 17.

Definition align_up (a : Z) : Z :=
  Z.land (a + NXB_DEFAULT_ALIGNMENT_MASK) (Z.lnot NXB_DEFAULT_ALIGNMENT_MASK).
Definition align_down (a : Z) : Z := Z.land a (Z.lnot NXB_DEFAULT_ALIGNMENT_MASK).

(** [c_mem] is the chunk from [buf] to its end; [c_id] names the block. *)
Record nxb_chunk := mk_chunk {
  c_id : nat;
  c_mem : list Z;
  c_should_free : bool;
  c_dirty : bool;
}.

Record nxb_buffer := mk_nxb {
  nxb_base : Z;
  nxb_ptr : Z;
  nxb_end : Z;
  nxb_chunk_ : nxb_chunk;
  nxb_prev : list nxb_chunk;   (* the [prev] chain, newest first *)
  nxb_next_id : nat;
}.

(** A pointer to buffer memory. *)
Record nxb_loc := mk_loc { l_chunk : nat; l_off : Z }.

Definition chunk_size (nxc : nxb_chunk) : Z := zlen (c_mem nxc).

Definition set_ptrs (base ptr end_ : Z) (nxb : nxb_buffer) : nxb_buffer :=
  mk_nxb base ptr end_ (nxb_chunk_ nxb) (nxb_prev nxb) (nxb_next_id nxb).
Definition set_ptr (p : Z) (nxb : nxb_buffer) : nxb_buffer := set_ptrs (nxb_base nxb) p (nxb_end nxb) nxb.
Definition set_chunk_mem (m : list Z) (nxb : nxb_buffer) : nxb_buffer :=
  let c := nxb_chunk_ nxb in
  mk_nxb (nxb_base nxb) (nxb_ptr nxb) (nxb_end nxb)
    (mk_chunk (c_id c) m (c_should_free c) (c_dirty c)) (nxb_prev nxb) (nxb_next_id nxb).
Definition set_dirty (nxb : nxb_buffer) : nxb_buffer :=
  let c := nxb_chunk_ nxb in
  mk_nxb (nxb_base nxb) (nxb_ptr nxb) (nxb_end nxb)
    (mk_chunk (c_id c) (c_mem c) (c_should_free c) true) (nxb_prev nxb) (nxb_next_id nxb).

(** Memory operations on the current chunk. *)
Definition on_chunk {A} (f : M (list Z) A) : M nxb_buffer A := fun nxb =>
  match f (c_mem (nxb_chunk_ nxb)) with
  | Ok (a, m) => Ok (a, set_chunk_mem m nxb)
  | Err e => Err e
  end.

(** [nxb_init(nxb, size)] for a block [area] of [size] bytes at address [addr]. *)
Definition nxb_init (addr : Z) (area : list Z) : nxb_buffer :=
  let chunk_off := align_up (addr + sizeof_nxb_buffer) - addr in
  let c := mk_chunk 0 (drop (Z.to_nat (chunk_off + offsetof_buf)) area) false false in
  mk_nxb 0 0 (chunk_size c) c [] 1.

(** [nxb_create(initial_chunk_size)], the block at address [addr]. *)
Definition nxb_create `{Alloc} (addr : Z) (initial_chunk_size : Z) : option nxb_buffer :=
  let initial_chunk_size := wraps 32 (align_up initial_chunk_size) in
  let alloc_size := wraps 32 (sizeof_nxb_buffer + sizeof_nxb_chunk + initial_chunk_size) in
  nxb_init addr <$> nx_alloc alloc_size.

(** [nxb_empty]: frees every chunk but the oldest, whatever was finished. *)
Definition nxb_empty (nxb : nxb_buffer) : nxb_buffer :=
  let c := last (nxb_prev nxb) in
  let c := match c with Some c => c | None => nxb_chunk_ nxb end in
  mk_nxb 0 0 (chunk_size c) c [] (nxb_next_id nxb).

Section operations.
Context `{Alloc}.

Definition nxb_realloc_chunk (min_room : Z) : M nxb_buffer Z :=
  let! nxb := get in
  let c := nxb_chunk_ nxb in
  let new_size := wraps 32 (chunk_size c * 2) in
  let base_size := wraps 32 (nxb_ptr nxb - nxb_base nxb) in
  let min_room := wraps 32 (min_room + base_size) in
  let min_room := wraps 32 (min_room + Z.shiftr min_room 3) in
  let new_size := if new_size <? min_room then min_room else new_size in
  let new_size := wraps 32 (align_up new_size) in
  let alloc_size := wraps 32 (sizeof_nxb_chunk + new_size) in
  match nx_alloc alloc_size with
  | None => ret (-1)
  | Some area =>
      let nxc := mk_chunk (nxb_next_id nxb) (drop (Z.to_nat offsetof_buf) area) true false in
      let! moved := (if base_size =? 0 then ret []
                     else on_chunk (read_bytes (nxb_base nxb) base_size)) in
      match write_bytes 0 moved (c_mem nxc) with
      | Err e => fail e
      | Ok (_, m) =>
          let nxc := mk_chunk (c_id nxc) m true false in
          let prev := if negb (c_dirty c) && c_should_free c then nxb_prev nxb else c :: nxb_prev nxb in
          do! put (mk_nxb 0 base_size (chunk_size nxc) nxc prev (S (nxb_next_id nxb))) in
          ret 0
      end
  end.

Definition nxb_make_room (min_size : Z) : M nxb_buffer Z :=
  let! nxb := get in
  if nxb_end nxb - nxb_ptr nxb <? min_size then nxb_realloc_chunk min_size else ret 0.

(** Stores at the stream pointer and advances it; no check of the room. *)
Definition nxb_append_fast (s : bytes) : M nxb_buffer unit :=
  let! nxb := get in
  do! on_chunk (write_bytes (nxb_ptr nxb) s) in
  modify (set_ptr (nxb_ptr nxb + zlen s)).
Definition nxb_append_char_fast (c : Z) : M nxb_buffer unit := nxb_append_fast [c].
Definition nxb_append_str_fast (s : bytes) : M nxb_buffer unit := nxb_append_fast s.

Definition nxb_append (s : bytes) : M nxb_buffer unit :=
  let! nxb := get in
  if nxb_end nxb - nxb_ptr nxb <? zlen s then
    let! r := nxb_realloc_chunk (zlen s) in
    if negb (r =? 0) then ret tt else nxb_append_fast s
  else nxb_append_fast s.
Definition nxb_append_str (s : bytes) : M nxb_buffer unit := nxb_append s.
Definition nxb_append_char (c : Z) : M nxb_buffer unit :=
  let! nxb := get in
  if nxb_end nxb - nxb_ptr nxb <? 1 then
    let! r := nxb_realloc_chunk 1 in
    if negb (r =? 0) then ret tt else nxb_append_char_fast c
  else nxb_append_char_fast c.

Definition MAX_UINT_LEN : Z := 24.
(** The digits are built at the end of the 24 bytes of room and moved down. *)
Definition nxb_append_uint (n : Z) : M nxb_buffer unit :=
  let body :=
    let! nxb := get in
    let! plen := on_chunk (
      let! p := uint_to_decimal_string n (nxb_ptr nxb) MAX_UINT_LEN in
      let! plen := strlen p in
      do! memmove (nxb_ptr nxb) p plen in ret plen) in
    modify (set_ptr (nxb_ptr nxb + plen)) in
  let! nxb := get in
  if nxb_end nxb - nxb_ptr nxb <? MAX_UINT_LEN then
    let! r := nxb_realloc_chunk MAX_UINT_LEN in
    if negb (r =? 0) then ret tt else body
  else body.

(** Both variants ([unsigned long] and [uint64_t]). *)
Definition nxb_append_uint64_hex_zeropad (n num_digits : Z) : M nxb_buffer unit :=
  do! nxb_make_room num_digits in
  let! nxb := get in
  let! _p := on_chunk (uint64_to_hex_string_zeropad n (nxb_ptr nxb) num_digits false) in
  modify (set_ptr (nxb_ptr nxb + num_digits)).
Definition nxb_append_uint_hex_zeropad := nxb_append_uint64_hex_zeropad.

Definition nxb_blank_fast (size : Z) : M nxb_buffer unit :=
  modify (fun nxb => set_ptr (nxb_ptr nxb + size) nxb).
Definition nxb_blank (size : Z) : M nxb_buffer unit :=
  let! nxb := get in
  if nxb_end nxb - nxb_ptr nxb <? size then
    let! r := nxb_realloc_chunk size in
    if negb (r =? 0) then ret tt else nxb_blank_fast size
  else nxb_blank_fast size.
Definition nxb_resize_fast (size : Z) : M nxb_buffer unit :=
  modify (fun nxb => set_ptr (nxb_base nxb + size) nxb).

(** Closes the stream; returns the object and its size. *)
Definition nxb_finish_stream : M nxb_buffer (nxb_loc * Z) :=
  let! nxb := get in
  do! modify (fun nxb => set_dirty (set_ptrs (nxb_ptr nxb) (nxb_ptr nxb) (nxb_end nxb) nxb)) in
  ret (mk_loc (c_id (nxb_chunk_ nxb)) (nxb_base nxb), nxb_ptr nxb - nxb_base nxb).
Definition nxb_finish_partial (size : Z) : M nxb_buffer nxb_loc :=
  let! nxb := get in
  do! modify (fun nxb => set_dirty (set_ptrs (nxb_base nxb + size) (nxb_ptr nxb) (nxb_end nxb) nxb)) in
  ret (mk_loc (c_id (nxb_chunk_ nxb)) (nxb_base nxb)).
Definition nxb_unfinish_stream : M nxb_buffer unit :=
  modify (fun nxb => set_ptr (nxb_base nxb) nxb).
(** The warning of [nxb_start_stream] is not modelled. *)
Definition nxb_start_stream : M nxb_buffer unit :=
  let! nxb := get in
  if nxb_ptr nxb =? nxb_base nxb then ret tt else nxb_unfinish_stream.
Definition nxb_get_room : M nxb_buffer (nxb_loc * Z) :=
  let! nxb := get in
  ret (mk_loc (c_id (nxb_chunk_ nxb)) (nxb_ptr nxb), nxb_end nxb - nxb_ptr nxb).
Definition nxb_get_unfinished : M nxb_buffer (nxb_loc * Z) :=
  let! nxb := get in
  ret (mk_loc (c_id (nxb_chunk_ nxb)) (nxb_base nxb), nxb_ptr nxb - nxb_base nxb).

(** An object of [size] bytes from the top of the chunk. *)
Definition nxb_alloc_obj (size : Z) : M nxb_buffer nxb_loc :=
  let obj_of nxb := align_down (offsetof_buf + (nxb_end nxb - size)) - offsetof_buf in
  let! nxb := get in
  if! obj_of nxb <? nxb_ptr nxb then (let! _r := nxb_realloc_chunk size in ret tt) in
  let! nxb := get in
  let obj := obj_of nxb in
  do! modify (fun nxb => set_dirty (set_ptrs (nxb_base nxb) (nxb_ptr nxb) obj nxb)) in
  ret (mk_loc (c_id (nxb_chunk_ nxb)) obj).
Definition nxb_calloc_obj (size : Z) : M nxb_buffer nxb_loc :=
  let! obj := nxb_alloc_obj size in
  do! on_chunk (write_bytes (l_off obj) (replicate (Z.to_nat size) 0)) in ret obj.
Definition nxb_copy_obj (src : bytes) : M nxb_buffer nxb_loc :=
  let! obj := nxb_alloc_obj (zlen src) in
  do! on_chunk (write_bytes (l_off obj) src) in ret obj.
Definition nxb_copy_str (src : bytes) : M nxb_buffer nxb_loc := nxb_copy_obj (src ++ [0]).

(** [vsnprintf] formats to [out] ([None] is an output error) and stores at
    most [room - 1] bytes of it with a terminator. *)
Definition vsnprintf_store (out : bytes) (room : Z) : bytes :=
  if room <=? 0 then [] else take (Z.to_nat (room - 1)) out ++ [0].
Definition nxb_printf_va (out : option bytes) : M nxb_buffer Z :=
  match out with
  | None => ret 0
  | Some out =>
      let len := zlen out in
      let! nxb := get in
      let room_size := nxb_end nxb - nxb_ptr nxb in
      do! on_chunk (write_bytes (nxb_ptr nxb) (vsnprintf_store out room_size)) in
      if room_size <=? len then
        let! r := nxb_realloc_chunk (len + 1) in
        if negb (r =? 0) then ret 0 else
        let! nxb := get in
        do! on_chunk (write_bytes (nxb_ptr nxb) (vsnprintf_store out (nxb_end nxb - nxb_ptr nxb))) in
        do! modify (set_ptr (nxb_ptr nxb + len)) in
        ret len
      else
        do! modify (set_ptr (nxb_ptr nxb + len)) in
        ret len
  end.
End operations.

(** * The contract of the buffer *)

(** The stream bytes. *)
Definition unfinished_is (nxb : nxb_buffer) (s : bytes) : Prop :=
  bytes_at (c_mem (nxb_chunk_ nxb)) (nxb_base nxb) s /\ nxb_ptr nxb = nxb_base nxb + zlen s.

Definition nxb_wf (nxb : nxb_buffer) : Prop :=
  0 <= nxb_base nxb <= nxb_ptr nxb /\ nxb_ptr nxb <= nxb_end nxb <= chunk_size (nxb_chunk_ nxb) /\
  Forall (fun c => (c_id c < c_id (nxb_chunk_ nxb))%nat) (nxb_prev nxb) /\
  (c_id (nxb_chunk_ nxb) < nxb_next_id nxb)%nat.

(** A finished object: its bytes are in a chunk that is kept, outside the part
    of the current chunk that is still being written. *)
Definition live (nxb : nxb_buffer) (o : nxb_loc * bytes) : Prop :=
  let '(l, b) := o in
  0 <= l_off l /\
  ((exists c, c ∈ nxb_prev nxb /\ c_id c = l_chunk l /\ bytes_at (c_mem c) (l_off l) b) \/
   (c_id (nxb_chunk_ nxb) = l_chunk l /\ bytes_at (c_mem (nxb_chunk_ nxb)) (l_off l) b /\
    c_dirty (nxb_chunk_ nxb) = true /\
    (l_off l + zlen b <= nxb_base nxb \/ nxb_end nxb <= l_off l))).

(** A stream in progress: [s] so far, objects [L] finished, at least [r] bytes
    of room.  [C] bounds the chunk the stream started in and [T] the stream,
    so no size computation overflows an [int]. *)
Definition stream (C T : Z) (L : list (nxb_loc * bytes)) (s : bytes) (r : Z) (nxb : nxb_buffer) : Prop :=
  nxb_wf nxb /\ unfinished_is nxb s /\ zlen s <= T /\ r <= nxb_end nxb - nxb_ptr nxb /\
  (chunk_size (nxb_chunk_ nxb) <= C \/
   (nxb_base nxb = 0 /\ nxb_end nxb = chunk_size (nxb_chunk_ nxb) /\
    chunk_size (nxb_chunk_ nxb) <= 2 * C + 2 * T + 22)) /\
  Forall (live nxb) L.

Lemma align_up_bounds a : 0 <= a -> a <= align_up a <= a + 15.
Proof.
  intros Ha. unfold align_up, NXB_DEFAULT_ALIGNMENT_MASK.
  change (Z.lnot 15) with (Z.lnot (Z.ones 4)). rewrite <- Z.ldiff_land, Z.ldiff_ones_r by lia.
  rewrite Z.shiftl_mul_pow2, Z.shiftr_div_pow2 by lia. change (2 ^ 4) with 16.
  pose proof (Z.div_mod (a + 15) 16 ltac:(lia)). pose proof (Z.mod_pos_bound (a + 15) 16 ltac:(lia)). lia.
Qed.
Lemma align_down_spec a : align_down a = a - a mod 16.
Proof.
  unfold align_down, NXB_DEFAULT_ALIGNMENT_MASK.
  change (Z.lnot 15) with (Z.lnot (Z.ones 4)). rewrite <- Z.ldiff_land, Z.ldiff_ones_r by lia.
  rewrite Z.shiftl_mul_pow2, Z.shiftr_div_pow2 by lia. change (2 ^ 4) with 16.
  pose proof (Z.div_mod a 16 ltac:(lia)). lia.
Qed.

Lemma align_up_down a : align_up a = align_down (a + 15).
Proof. done. Qed.

Lemma wp_on_chunk {A} (f : M (list Z) A) (Q : A -> nxb_buffer -> Prop) nxb :
  wp f (fun a m => Q a (set_chunk_mem m nxb)) (c_mem (nxb_chunk_ nxb)) -> wp (on_chunk f) Q nxb.
Proof. unfold wp, on_chunk. by destruct (f (c_mem (nxb_chunk_ nxb))) as [[a m]|e]. Qed.

(** Stores between [ptr] and [end] leave every finished object in place. *)
Lemma live_store nxb m a b o :
  same_outside (c_mem (nxb_chunk_ nxb)) m a b -> nxb_base nxb <= a -> b <= nxb_end nxb ->
  live nxb o -> live (set_chunk_mem m nxb) o.
Proof.
  intros Hs Ha Hb. destruct o as [l o]. unfold live. cbn. intros [H0 [Hp|(Hi & Hm & Hd & Ho)]].
  - split; [done|]. left. done.
  - split; [done|]. right. split_and!; try done.
    eapply same_outside_bytes_at; [done..|]. lia.
Qed.

Lemma live_ptrs nxb base ptr end_ o :
  (forall l b, o = (l, b) -> l_off l + zlen b <= nxb_base nxb -> l_off l + zlen b <= base) ->
  (forall l b, o = (l, b) -> nxb_end nxb <= l_off l -> end_ <= l_off l) ->
  live nxb o -> live (set_ptrs base ptr end_ nxb) o.
Proof.
  destruct o as [l b]. unfold live. cbn. intros H1 H2 [H0 [Hp|(Hi & Hm & Hd & Ho)]]; (split; [done|]).
  - left. done.
  - right. split_and!; try done. destruct Ho; [left; by eapply H1|right; by eapply H2].
Qed.

Section contract.
Context `{Alloc}.
(** Allocations of reasonable size succeed. *)
Context (alloc_total : forall n, 0 < n < 2 ^ 31 -> is_Some (nx_alloc n)).
Context (C T : Z) (L : list (nxb_loc * bytes)).
Context (HC : 0 <= C) (HT : 0 <= T) (HCT : C + T <= 2 ^ 27).

(** [write_bytes] into the stream's room. *)
Lemma wp_append_fast s d r (Q : unit -> nxb_buffer -> Prop) nxb :
  stream C T L s r nxb -> zlen d <= r -> zlen s + zlen d <= T ->
  (forall nxb', stream C T L (s ++ d) (r - zlen d) nxb' -> Q tt nxb') ->
  wp (nxb_append_fast d) Q nxb.
Proof.
  intros (Hwf & [Hu Hp] & HsT & Hr & Hcap & HL) Hd Hl HQ. destruct Hwf as (Hbp & Hpe & Hids & Hid).
  unfold nxb_append_fast. apply wp_bind, wp_get, wp_bind, wp_on_chunk.
  unfold chunk_size in *. pose proof (zlen_nonneg d). pose proof (zlen_nonneg s).
  apply wp_write_bytes; [lia|lia|]. intros m' Hm Hsame. apply wp_modify. apply HQ.
  pose proof (same_outside_zlen _ _ _ _ Hsame) as Hlen.
  unfold stream, nxb_wf, unfinished_is, chunk_size. cbn. rewrite Hlen, zlen_app.
  split_and!; try done; try lia.
  - apply bytes_at_app. split; [|by rewrite <- Hp].
    eapply same_outside_bytes_at; [done..|]. lia.
  - apply Forall_forall. intros o Ho%(proj1 (Forall_forall _ _) HL).
    pose proof (live_store _ _ _ _ _ Hsame ltac:(lia) ltac:(lia) Ho) as Ho'.
    apply (live_ptrs _ (nxb_base nxb) (nxb_ptr nxb + zlen d) (nxb_end nxb)) in Ho'; [done|naive_solver..].
Qed.

(** Moving the stream to a new chunk keeps it and every object; [k] more
    bytes fit afterwards. *)
Lemma wp_realloc_chunk s r k (Q : Z -> nxb_buffer -> Prop) nxb :
  stream C T L s r nxb -> 0 <= k -> zlen s + k <= T ->
  (nxb_end nxb - nxb_ptr nxb < k \/ chunk_size (nxb_chunk_ nxb) <= C) ->
  (forall nxb', stream C T L s k nxb' -> nxb_base nxb' = 0 ->
     nxb_end nxb' = chunk_size (nxb_chunk_ nxb') -> (nxb_end nxb' + 17) mod 16 = 8 ->
     2 * chunk_size (nxb_chunk_ nxb) + 7 <= nxb_end nxb' ->
     zlen s + k + (zlen s + k) / 8 + 7 <= nxb_end nxb' -> Q 0 nxb') ->
  wp (nxb_realloc_chunk k) Q nxb.
Proof.
  intros (Hwf & [Hu Hp] & HsT & Hr & Hcap & HL) Hk Hl Hroom HQ.
  destruct Hwf as (Hbp & Hpe & Hids & Hid). unfold chunk_size in *. pose proof (zlen_nonneg s).
  unfold nxb_realloc_chunk. apply wp_bind, wp_get. unfold chunk_size. set (cap := zlen (c_mem (nxb_chunk_ nxb))) in *.
  assert (Hcap2 : 0 <= cap <= 2 ^ 28 + 2 ^ 28) by lia.
  rewrite (wraps_small 32 (cap * 2)) by lia.
  rewrite (wraps_small 32 (nxb_ptr nxb - nxb_base nxb)) by lia.
  replace (nxb_ptr nxb - nxb_base nxb) with (zlen s) by lia.
  rewrite (wraps_small 32 (k + zlen s)) by lia.
  rewrite Z.shiftr_div_pow2 by lia. change (2 ^ 3) with 8.
  pose proof (Z.div_mod (k + zlen s) 8 ltac:(lia)). pose proof (Z.mod_pos_bound (k + zlen s) 8 ltac:(lia)).
  rewrite (wraps_small 32 (k + zlen s + (k + zlen s) / 8)) by lia.
  set (mr := k + zlen s + (k + zlen s) / 8) in *.
  set (ns0 := if cap * 2 <? mr then mr else cap * 2).
  assert (Hns0 : mr <= ns0 /\ cap * 2 <= ns0 /\ (ns0 = mr \/ ns0 = cap * 2)).
  { unfold ns0. destruct (Z.ltb_spec (cap * 2) mr); lia. }
  clearbody ns0. pose proof (align_up_bounds ns0 ltac:(lia)) as Hal.
  rewrite (wraps_small 32 (align_up ns0)) by lia.
  unfold sizeof_nxb_chunk. rewrite (wraps_small 32 (24 + align_up ns0)) by lia.
  destruct (alloc_total (24 + align_up ns0)) as [area Harea]; [lia|].
  rewrite Harea. pose proof (nx_alloc_length _ _ Harea) as Hal_len. cbn [c_id c_mem].
  set (new := drop (Z.to_nat offsetof_buf) area).
  assert (Hnew : zlen new = 7 + align_up ns0).
  { unfold new. rewrite zlen_drop; unfold offsetof_buf; lia. }
  apply wp_bind.
  assert (Hmoved : wp (if zlen s =? 0 then ret [] else on_chunk (read_bytes (nxb_base nxb) (zlen s)))
            (fun mv nxb' => mv = s /\ nxb' = nxb) nxb).
  { destruct (Z.eqb_spec (zlen s) 0) as [Hz|Hz].
    - apply wp_ret. split; [|done]. destruct s; [done|]. rewrite zlen_cons in Hz. pose proof (zlen_nonneg s). lia.
    - apply wp_on_chunk. apply wp_read_bytes; [lia|lia|lia|]. intros t Ht Htl.
      split; [by eapply bytes_at_inj|]. by destruct nxb as [? ? ? []]. }
  eapply wp_mono; [exact Hmoved|]. intros mv nxb' [-> ->].
  assert (Hcopy : wp (write_bytes 0 s) (fun _ m' => bytes_at m' 0 s /\ zlen m' = zlen new) new).
  { apply wp_write_bytes; [lia|lia|]. intros m' Hm Hs. split; [done|]. by apply same_outside_zlen in Hs. }
  unfold wp in Hcopy. destruct (write_bytes 0 s new) as [[[] m']|e]; [|done].
  destruct Hcopy as [Hm' Hlm']. apply wp_bind, wp_put, wp_ret.
  assert (Hmod : (7 + align_up ns0 + 17) mod 16 = 8).
  { rewrite align_up_down, align_down_spec.
    replace (7 + (ns0 + 15 - (ns0 + 15) mod 16) + 17) with (24 + 16 * ((ns0 + 15) / 16))
      by (pose proof (Z.div_mod (ns0 + 15) 16 ltac:(lia)); lia).
    rewrite Z.mul_comm, Z.mod_add by lia. done. }
  apply HQ; [|cbn; unfold chunk_size; cbn; rewrite ?Hlm', ?Hnew, ?(Z.add_comm (zlen s) k); try done; lia..].
  clear Hmoved HQ. unfold stream, nxb_wf, unfinished_is, chunk_size. cbn. rewrite Hlm'. fold cap.
  split_and!; try done; try lia.
  - destruct (negb _ && _); [|constructor; [lia|]];
      (eapply Forall_impl; [exact Hids|]; cbn; intros; lia).
  - apply Forall_forall. intros [l b] Ho%(proj1 (Forall_forall _ _) HL).
    unfold live in *. cbn. destruct Ho as [Ho0 [(c & Hc & Hci & Hb)|(Hi & Hb & Hd & _)]]; (split; [done|]; left).
    + exists c. split_and!; try done. destruct (negb _ && _); [done|by right].
    + exists (nxb_chunk_ nxb). rewrite Hd. cbn. split_and!; try done. by left.
Qed.

Lemma stream_weaken s r r' nxb : stream C T L s r nxb -> r' <= r -> stream C T L s r' nxb.
Proof. unfold stream. intuition lia. Qed.

Lemma wp_make_room s r k (Q : Z -> nxb_buffer -> Prop) nxb :
  stream C T L s r nxb -> 0 <= k -> zlen s + k <= T ->
  (forall nxb', stream C T L s (Z.max r k) nxb' -> Q 0 nxb') ->
  wp (nxb_make_room k) Q nxb.
Proof.
  intros Hs Hk Hl HQ. unfold nxb_make_room. apply wp_bind, wp_get.
  destruct (Z.ltb_spec (nxb_end nxb - nxb_ptr nxb) k) as [Hlt|Hge].
  - assert (r <= k) by (destruct Hs as (_ & _ & _ & ? & _); lia).
    eapply wp_realloc_chunk; [done..|by left|]. intros nxb' Hs' _ _ _ _ _. apply HQ. by rewrite Z.max_r.
  - apply wp_ret, HQ. destruct Hs as (? & ? & ? & ? & ? & ?). unfold stream. split_and!; try done. lia.
Qed.

Lemma wp_append s d r (Q : unit -> nxb_buffer -> Prop) nxb :
  stream C T L s r nxb -> zlen s + zlen d <= T ->
  (forall nxb', stream C T L (s ++ d) (Z.max 0 (r - zlen d)) nxb' -> Q tt nxb') ->
  wp (nxb_append d) Q nxb.
Proof.
  intros Hs Hl HQ. unfold nxb_append. apply wp_bind, wp_get. pose proof (zlen_nonneg d).
  destruct (Z.ltb_spec (nxb_end nxb - nxb_ptr nxb) (zlen d)) as [Hlt|Hge].
  - assert (r < zlen d) by (destruct Hs as (_ & _ & _ & ? & _); lia).
    apply wp_bind. eapply wp_realloc_chunk; [done|lia|lia|by left|]. intros nxb' Hs' _ _ _ _ _. cbn.
    eapply wp_append_fast; [done|lia|lia|]. intros nxb'' Hs''. apply HQ.
    eapply stream_weaken; [done|]. lia.
  - eapply (wp_append_fast s d (Z.max r (zlen d))); [|lia|lia|].
    + destruct Hs as (? & ? & ? & ? & ? & ?). unfold stream. split_and!; try done. lia.
    + intros nxb'' Hs''. apply HQ. eapply stream_weaken; [done|]. lia.
Qed.

Lemma append_char_eq c : nxb_append_char c = nxb_append [c].
Proof. done. Qed.

(** Closing the stream makes it an object. *)
Lemma wp_finish_stream s r (Q : nxb_loc * Z -> nxb_buffer -> Prop) nxb :
  stream C T L s r nxb ->
  (forall l nxb', live nxb' (l, s) -> Forall (live nxb') L -> nxb_wf nxb' -> unfinished_is nxb' [] -> Q (l, zlen s) nxb') ->
  wp nxb_finish_stream Q nxb.
Proof.
  intros (Hwf & [Hu Hp] & HsT & Hr & Hcap & HL) HQ. destruct Hwf as (Hbp & Hpe & Hids & Hid).
  pose proof (zlen_nonneg s).
  unfold nxb_finish_stream. apply wp_bind, wp_get, wp_bind, wp_modify, wp_ret.
  replace (nxb_ptr nxb - nxb_base nxb) with (zlen s) by lia. apply HQ.
  - unfold live. cbn. split; [lia|]. right. split_and!; try done. left. lia.
  - apply Forall_forall. intros [l b] Ho%(proj1 (Forall_forall _ _) HL). unfold live in *. cbn.
    destruct Ho as [Ho0 [Hc|(Hi & Hb & Hd & Ho)]]; (split; [done|]); [by left|right].
    split_and!; try done. lia.
  - unfold nxb_wf, chunk_size in *. cbn. split_and!; try done; lia.
  - split; cbn; [apply bytes_at_nil|]. rewrite zlen_nil. lia.
Qed.
End contract.

(** ** Objects and numbers *)

Section objects.
Context `{Alloc}.
Context (alloc_total : forall n, 0 < n < 2 ^ 31 -> is_Some (nx_alloc n)).

(** What holds of a buffer between operations. *)
Definition buffer_ok (L : list (nxb_loc * bytes)) (s : bytes) (nxb : nxb_buffer) : Prop :=
  nxb_wf nxb /\ unfinished_is nxb s /\ Forall (live nxb) L.

Lemma buffer_ok_stream L s nxb T :
  buffer_ok L s nxb -> zlen s <= T -> stream (chunk_size (nxb_chunk_ nxb)) T L s 0 nxb.
Proof.
  intros (Hwf & Hu & HL) HT. unfold stream. split_and!; try done; [|by left].
  destruct Hwf as (_ & ? & _). lia.
Qed.
Lemma stream_buffer_ok C T L s r nxb : stream C T L s r nxb -> buffer_ok L s nxb.
Proof. by intros (? & ? & _ & _ & _ & ?). Qed.

Lemma align_down_obj e size ptr :
  0 <= size -> align_down (offsetof_buf + (e - size)) - offsetof_buf <= e - size /\
  e - size - 15 <= align_down (offsetof_buf + (e - size)) - offsetof_buf /\
  (align_down (offsetof_buf + (e - size)) - offsetof_buf + offsetof_buf) mod 16 = 0 /\
  (ptr + size + 15 <= e -> ptr <= align_down (offsetof_buf + (e - size)) - offsetof_buf).
Proof.
  intros Hs. rewrite align_down_spec. unfold offsetof_buf.
  pose proof (Z.mod_pos_bound (17 + (e - size)) 16 ltac:(lia)).
  pose proof (Z.div_mod (17 + (e - size)) 16 ltac:(lia)).
  split_and!; try lia.
  replace (_ - 17 + 17) with (0 + (17 + (e - size)) / 16 * 16) by lia.
  rewrite Z.mod_add by lia. done.
Qed.

(** A new object: aligned, inside the chunk, apart from the stream and from
    every object made so far. *)
Lemma wp_alloc_obj L s size (Q : nxb_loc -> nxb_buffer -> Prop) nxb :
  buffer_ok L s nxb -> 0 <= size -> 64 <= chunk_size (nxb_chunk_ nxb) ->
  chunk_size (nxb_chunk_ nxb) + zlen s + size <= 2 ^ 27 ->
  (forall l nxb' e, buffer_ok L s nxb' -> l = mk_loc (c_id (nxb_chunk_ nxb')) (nxb_end nxb') ->
     (l_off l + offsetof_buf) mod 16 = 0 -> nxb_ptr nxb' <= l_off l -> l_off l + size <= e ->
     e <= chunk_size (nxb_chunk_ nxb') -> c_dirty (nxb_chunk_ nxb') = true ->
     Forall (live (set_ptrs (nxb_base nxb') (nxb_ptr nxb') e nxb')) L -> Q l nxb') ->
  wp (nxb_alloc_obj size) Q nxb.
Proof.
  intros Hok Hsz Hcap Hbig HQ. unfold nxb_alloc_obj. pose proof (zlen_nonneg s).
  set (obj_of := fun nxb => align_down (offsetof_buf + (nxb_end nxb - size)) - offsetof_buf).
  assert (Hpre : wp (let! nxb := get in
                     if! obj_of nxb <? nxb_ptr nxb then (let! _r := nxb_realloc_chunk size in ret tt) in ret tt)
            (fun _ nxb' => buffer_ok L s nxb' /\ nxb_ptr nxb' <= obj_of nxb') nxb).
  { apply wp_bind, wp_get. apply wp_bind. destruct (Z.ltb_spec (obj_of nxb) (nxb_ptr nxb)) as [Hlt|Hge].
    - apply wp_bind.
      eapply (wp_realloc_chunk alloc_total) with (C := chunk_size (nxb_chunk_ nxb)) (T := zlen s + size) (L := L) (s := s) (r := 0);
        try lia; [apply buffer_ok_stream; [done|lia]|].
      intros nxb' Hs' Hb He Hmod H2 H9. apply wp_ret, wp_ret. apply stream_buffer_ok in Hs' as Hok'.
      split; [done|]. destruct Hok' as (_ & [_ Hp] & _). rewrite Hb in Hp.
      unfold obj_of. apply align_down_obj; [lia|].
      pose proof (Z.div_mod (zlen s + size) 8 ltac:(lia)). pose proof (Z.mod_pos_bound (zlen s + size) 8 ltac:(lia)).
        lia.
    - apply wp_ret, wp_ret. split; [done|lia]. }
  apply wp_bind, wp_get. unfold wp at 1 in Hpre. fold (obj_of nxb).
  apply wp_bind. unfold bind, get in Hpre. fold (obj_of nxb) in Hpre.
  set (pre := if obj_of nxb <? nxb_ptr nxb then _ else _) in *. unfold wp at 1.
  destruct (pre nxb) as [[u nxb1]|]; [|done]. destruct Hpre as [Hok1 Hp1]. cbn in Hok1, Hp1.
  apply wp_bind, wp_get, wp_bind, wp_modify, wp_ret. fold (obj_of nxb1).
  destruct Hok1 as ((Hbp & Hpe & Hids & Hid) & [Hu Hp] & HL1).
  destruct (align_down_obj (nxb_end nxb1) size (nxb_ptr nxb1) Hsz) as (Ha1 & Ha2 & Ha3 & _).
  fold (obj_of nxb1) in Ha1, Ha2, Ha3.
  apply (HQ _ _ (nxb_end nxb1)); cbn; try done; try lia; unfold chunk_size in *; cbn; try lia.
  - split; [|split]; [|done|].
    + unfold nxb_wf, chunk_size in *. cbn. split_and!; try done; lia.
    + eapply Forall_impl; [exact HL1|]. intros [l b]. unfold live. cbn.
      intros [Ho0 [Hc|(Hi & Hb & Hd & Ho)]]; (split; [done|]); [by left|right]. split_and!; try done. lia.
  - eapply Forall_impl; [exact HL1|]. intros [l b]. unfold live. cbn.
    intros [Ho0 [Hc|(Hi & Hb & Hd & Ho)]]; (split; [done|]); [by left|right]. split_and!; try done. 
Qed.

Lemma wp_copy_obj L s src (Q : nxb_loc -> nxb_buffer -> Prop) nxb :
  buffer_ok L s nxb -> 64 <= chunk_size (nxb_chunk_ nxb) ->
  chunk_size (nxb_chunk_ nxb) + zlen s + zlen src <= 2 ^ 27 ->
  (forall l nxb', buffer_ok ((l, src) :: L) s nxb' -> (l_off l + offsetof_buf) mod 16 = 0 -> Q l nxb') ->
  wp (nxb_copy_obj src) Q nxb.
Proof.
  intros Hok Hcap Hbig HQ. unfold nxb_copy_obj. apply wp_bind. pose proof (zlen_nonneg src).
  eapply wp_alloc_obj; [done..|]. intros l nxb' e ((Hbp & Hpe & Hids & Hid) & [Hu Hp] & HL') -> Ha Hlp Hle Hec Hd HLe.
  cbn [l_off] in *. apply wp_bind, wp_on_chunk. unfold chunk_size in *.
  apply wp_write_bytes; [lia|lia|]. intros m' Hm Hsame. apply wp_ret. apply HQ; [|done].
  pose proof (same_outside_zlen _ _ _ _ Hsame) as Hlen.
  split; [|split].
  - unfold nxb_wf, chunk_size. cbn. rewrite Hlen. split_and!; try done; lia.
  - split; [|done]. cbn. eapply same_outside_bytes_at; [done..|]. lia.
  - constructor.
    + unfold live. cbn. split; [lia|]. right. split_and!; try done. by right.
    + eapply Forall_impl; [exact HLe|]. intros [l b]. unfold live. cbn.
      intros [Ho0 [Hc|(Hi & Hb & Hdd & Ho)]]; (split; [done|]); [by left|right]. split_and!; try done; [|lia].
      eapply same_outside_bytes_at; [done..|]. lia.
Qed.
End objects.

(** The decimal text of a number: digits, no leading zero. *)
Definition decimal (n : Z) (d : bytes) : Prop :=
  dec_value d = n /\ Forall is_digit d /\ d <> [] /\ (n <> 0 -> hd0 d <> ch "0").

Section numbers.
Context `{Alloc}.
Context (alloc_total : forall n, 0 < n < 2 ^ 31 -> is_Some (nx_alloc n)).
Context (C T : Z) (L : list (nxb_loc * bytes)).
Context (HC : 0 <= C) (HT : 0 <= T) (HCT : C + T <= 2 ^ 27).

Lemma wp_strlen m p s (Q : Z -> list Z -> Prop) : cstr m p s -> Q (zlen s) m -> wp (strlen p) Q m.
Proof.
  intros Hs HQ. unfold strlen. apply wp_bind. eapply wp_str_end; [done|]. apply wp_ret.
  by replace (p + zlen s - p) with (zlen s) by lia.
Qed.

(** The body of [nxb_append_uint], with room for 24 bytes. *)
Lemma wp_append_uint_body s r n (Q : unit -> nxb_buffer -> Prop) nxb :
  stream C T L s r nxb -> 24 <= r -> zlen s + 24 <= T -> 0 <= n < 2 ^ 64 ->
  (forall d nxb', decimal n d -> zlen d < 24 -> stream C T L (s ++ d) (r - zlen d) nxb' -> Q tt nxb') ->
  wp (let! nxb := get in
      let! plen := on_chunk (
        let! p := uint_to_decimal_string n (nxb_ptr nxb) MAX_UINT_LEN in
        let! plen := strlen p in
        do! memmove (nxb_ptr nxb) p plen in ret plen) in
      modify (set_ptr (nxb_ptr nxb + plen))) Q nxb.
Proof.
  intros (Hwf & [Hu Hp] & HsT & Hr & Hcap & HL) Hr24 HT24 Hn HQ. destruct Hwf as (Hbp & Hpe & Hids & Hid).
  unfold chunk_size in *. pose proof (zlen_nonneg s). apply wp_bind, wp_get, wp_bind, wp_on_chunk.
  apply wp_bind. apply wp_uint_to_decimal_string; [lia|unfold MAX_UINT_LEN; lia..|].
  unfold MAX_UINT_LEN. intros p d m' Hd Hv Hdg Hne Hh Hpp Hpl Hsame. pose proof (zlen_nonneg d).
  pose proof (same_outside_zlen _ _ _ _ Hsame) as Hlen.
  apply wp_bind. eapply wp_strlen; [done|]. apply wp_bind. unfold memmove. apply wp_bind.
  apply wp_read_bytes; [lia|lia|lia|]. intros d' Hd' Hl'.
  assert (d' = d) as ->.
  { eapply bytes_at_inj; [exact Hd'| |done]. apply cstr_bytes_at in Hd. by apply bytes_at_app in Hd as [? _]. }
  apply wp_write_bytes; [lia|lia|]. intros m2 Hm2 Hs2. apply wp_ret, wp_modify.
  assert (Hs3 : same_outside (c_mem (nxb_chunk_ nxb)) m2 (nxb_ptr nxb) (nxb_ptr nxb + 24)).
  { eapply same_outside_trans; [exact Hsame|]. eapply same_outside_weaken; [exact Hs2|lia|lia]. }
  apply (HQ d); [done|lia|]. pose proof (same_outside_zlen _ _ _ _ Hs3) as Hlen3.
  unfold stream, nxb_wf, unfinished_is, chunk_size. cbn. rewrite Hlen3, zlen_app. split_and!; try done; try lia.
  - apply bytes_at_app. split; [eapply same_outside_bytes_at; [exact Hs3|done|lia]|by rewrite <- Hp].
  - apply Forall_forall. intros o Ho%(proj1 (Forall_forall _ _) HL).
    pose proof (live_store _ _ _ _ _ Hs3 ltac:(lia) ltac:(lia) Ho) as Ho'.
    apply (live_ptrs _ (nxb_base nxb) (nxb_ptr nxb + zlen d) (nxb_end nxb)) in Ho'; [done|naive_solver..].
Qed.

Lemma wp_append_uint s r n (Q : unit -> nxb_buffer -> Prop) nxb :
  stream C T L s r nxb -> zlen s + 24 <= T -> 0 <= n < 2 ^ 64 ->
  (forall d nxb', decimal n d -> zlen d < 24 -> stream C T L (s ++ d) 0 nxb' -> Q tt nxb') ->
  wp (nxb_append_uint n) Q nxb.
Proof.
  intros Hs Hl Hn HQ. unfold nxb_append_uint. apply wp_bind, wp_get.
  destruct (Z.ltb_spec (nxb_end nxb - nxb_ptr nxb) MAX_UINT_LEN) as [Hlt|Hge]; unfold MAX_UINT_LEN in *.
  - apply wp_bind. eapply (wp_realloc_chunk alloc_total C T L HC HT HCT s r 24); [done|lia|lia|by left|].
    intros nxb' Hs' _ _ _ _ _. cbn. eapply wp_append_uint_body; [done|lia|lia|lia|].
    intros d n2 Hd Hdl H2. apply (HQ d); [done|done|]. eapply stream_weaken; [done|lia].
  - eapply (wp_append_uint_body s (Z.max r 24)); [|lia|lia|lia|].
    + destruct Hs as (? & ? & ? & ? & ? & ?). unfold stream. split_and!; try done. lia.
    + intros d n2 Hd Hdl H2. apply (HQ d); [done|done|]. eapply stream_weaken; [done|lia].
Qed.
End numbers.

(** A new buffer is empty and well formed. *)
Lemma nxb_init_ok addr area :
  0 <= addr -> 64 <= zlen area -> buffer_ok [] [] (nxb_init addr area).
Proof.
  intros Ha Hl. unfold buffer_ok, nxb_init, nxb_wf, unfinished_is, chunk_size. cbn.
  pose proof (align_up_bounds (addr + sizeof_nxb_buffer) ltac:(unfold sizeof_nxb_buffer; lia)) as Hal.
  unfold sizeof_nxb_buffer, offsetof_buf in *.
  set (m := drop _ _). pose proof (zlen_nonneg m).
  split_and!; try done; lia.
Qed.

(** An allocator that returns zeroed blocks. *)
Definition zero_alloc : Alloc.
Proof.
  refine {| nx_alloc n := if 0 <? n then Some (replicate (Z.to_nat n) 0) else None |}.
  intros n m. destruct (Z.ltb_spec 0 n); [|done]. intros [= <-]. unfold zlen. rewrite length_replicate. lia.
Defined.
Lemma zero_alloc_total n : 0 < n < 2 ^ 31 -> is_Some (@nx_alloc zero_alloc n).
Proof. intros Hn. cbn. destruct (Z.ltb_spec 0 n); [eauto|lia]. Qed.

(** A buffer of 200 bytes at address 0, as [nxb_create] makes one. *)
Definition small_buffer : nxb_buffer := nxb_init 0 (replicate 200 0).
Lemma small_buffer_ok : buffer_ok [] [] small_buffer.
Proof. apply nxb_init_ok; [lia|]. unfold zlen. rewrite length_replicate. lia. Qed.

(** * Properties *)

Section properties.
Context `{Alloc}.
Implicit Types (nxb : nxb_buffer) (L : list (nxb_loc * bytes)).

(** C7: appending never writes outside the room of a chunk: the stream grows
    by exactly the appended bytes, even when it has to be moved to a bigger
    chunk, and every object finished earlier keeps its contents. *)
Theorem nxb_append_correct nxb L s d :
  (forall n, 0 < n < 2 ^ 31 -> is_Some (nx_alloc n)) ->
  buffer_ok L s nxb -> chunk_size (nxb_chunk_ nxb) + zlen s + zlen d <= 2 ^ 27 ->
  exists nxb', nxb_append d nxb = Ok (tt, nxb') /\ buffer_ok L (s ++ d) nxb'.
Proof.
  intros Htot Hok Hbig. pose proof (zlen_nonneg s). pose proof (zlen_nonneg d).
  pose proof (zlen_nonneg (c_mem (nxb_chunk_ nxb))). unfold chunk_size in Hbig.
  assert (Hw : wp (nxb_append d) (fun _ nxb' => buffer_ok L (s ++ d) nxb') nxb).
  { eapply (wp_append Htot (chunk_size (nxb_chunk_ nxb)) (zlen s + zlen d) L);
      [unfold chunk_size; lia..|apply buffer_ok_stream; [done|lia]|lia|].
    intros nxb' Hs'. by eapply stream_buffer_ok. }
  apply wp_elim in Hw as ([] & nxb' & ? & ?). eauto.
Qed.

(** C8: an object copied into the buffer is 16-byte aligned, holds the bytes
    copied, does not disturb the stream in progress, and every object made
    earlier keeps its contents. *)
Theorem nxb_copy_obj_correct nxb L s src :
  (forall n, 0 < n < 2 ^ 31 -> is_Some (nx_alloc n)) ->
  buffer_ok L s nxb -> 64 <= chunk_size (nxb_chunk_ nxb) ->
  chunk_size (nxb_chunk_ nxb) + zlen s + zlen src <= 2 ^ 27 ->
  exists l nxb', nxb_copy_obj src nxb = Ok (l, nxb') /\
    buffer_ok ((l, src) :: L) s nxb' /\ (l_off l + offsetof_buf) mod 16 = 0.
Proof.
  intros Htot Hok Hcap Hbig.
  assert (Hw : wp (nxb_copy_obj src) (fun l nxb' => buffer_ok ((l, src) :: L) s nxb' /\
                 (l_off l + offsetof_buf) mod 16 = 0) nxb).
  { eapply wp_copy_obj; eauto. }
  apply wp_elim in Hw as (l & nxb' & ? & ? & ?). eauto 6.
Qed.
(** Appending an [unsigned long] writes exactly its decimal digits into
    the 24 bytes of room it asks for, without disturbing the stream before it
    or the objects above it. *)
Theorem nxb_append_uint_correct nxb L s n :
  (forall n, 0 < n < 2 ^ 31 -> is_Some (nx_alloc n)) ->
  buffer_ok L s nxb -> chunk_size (nxb_chunk_ nxb) + zlen s + 24 <= 2 ^ 27 -> 0 <= n < 2 ^ 64 ->
  exists d nxb', nxb_append_uint n nxb = Ok (tt, nxb') /\ buffer_ok L (s ++ d) nxb' /\ decimal n d.
Proof.
  intros Htot Hok Hbig Hn. pose proof (zlen_nonneg s).
  pose proof (zlen_nonneg (c_mem (nxb_chunk_ nxb))). unfold chunk_size in Hbig.
  assert (Hw : wp (nxb_append_uint n) (fun _ nxb' => exists d, buffer_ok L (s ++ d) nxb' /\ decimal n d) nxb).
  { eapply (wp_append_uint Htot (chunk_size (nxb_chunk_ nxb)) (zlen s + 24) L);
      [unfold chunk_size; lia..|apply buffer_ok_stream; [done|lia]|lia|lia|].
    intros d nxb' Hd _ Hs'. exists d. split; [by eapply stream_buffer_ok|done]. }
  apply wp_elim in Hw as ([] & nxb' & ? & d & ? & ?). eauto 6.
Qed.
End properties.

Lemma nxb_append_correct_witness :
  exists nxb', @nxb_append zero_alloc (bs "HTTP/1.1 200 OK") small_buffer = Ok (tt, nxb') /\ buffer_ok [] (bs "HTTP/1.1 200 OK") nxb'.
Proof.
  apply (@nxb_append_correct zero_alloc small_buffer [] [] (bs "HTTP/1.1 200 OK")).
  - apply zero_alloc_total.
  - apply small_buffer_ok.
  - vm_compute. done.
Defined.

Lemma nxb_copy_obj_correct_witness :
  exists l nxb', @nxb_copy_obj zero_alloc (bs "etag") small_buffer = Ok (l, nxb') /\ buffer_ok [(l, bs "etag")] [] nxb' /\ (l_off l + offsetof_buf) mod 16 = 0.
Proof.
  apply (@nxb_copy_obj_correct zero_alloc small_buffer [] [] (bs "etag")).
  - apply zero_alloc_total.
  - apply small_buffer_ok.
  - vm_compute. done.
  - vm_compute. done.
Defined.

Lemma nxb_append_uint_correct_witness :
  exists d nxb', @nxb_append_uint zero_alloc 18446744073709551615 small_buffer = Ok (tt, nxb') /\
    buffer_ok [] ([] ++ d) nxb' /\ decimal 18446744073709551615 d.
Proof.
  apply (@nxb_append_uint_correct zero_alloc small_buffer [] [] 18446744073709551615).
  - apply zero_alloc_total.
  - apply small_buffer_ok.
  - vm_compute. done.
  - lia.
Defined.
