(* ===== verification/Uri.v ===== *)
(** URIs and paths (lib/http_utils.c): the character map, percent-escaping and
    in-place decoding, the encoding of URIs as cache file paths, dot-segment
    removal and the escaping printf extensions. *)
From S2P Require Import Prelude CString Buffer.
Open Scope Z_scope.

(** ** The character map *)

Definition _CM_LETTER : Z := 16.
Definition _CM_DIGIT : Z := 32.
Definition _CM_URI_CHAR : Z := 64.
Definition _CM_FILE_PATH_CHAR : Z := 128.
Definition _CM_HEX_VALUE_MASK : Z := 15.

Definition in_range (a b c : Z) : bool := (a <=? c) && (c <=? b).
Definition one_of (s : bytes) (c : Z) : bool := existsb (Z.eqb c) s.

Definition char_map_entry (c : Z) : Z :=
  if c =? 0 then 0 else
  let or_if (b : bool) (v m : Z) := if b then Z.lor m v else m in
  let digit := in_range (ch "0") (ch "9") c in
  let letter := in_range (ch "a") (ch "z") c || in_range (ch "A") (ch "Z") c in
  let m := 0 in
  let m := or_if digit (Z.land (c - ch "0") _CM_HEX_VALUE_MASK) m in
  let m := or_if (in_range (ch "a") (ch "f") c) (Z.land (c - ch "a" + 10) _CM_HEX_VALUE_MASK) m in
  let m := or_if (in_range (ch "A") (ch "F") c) (Z.land (c - ch "A" + 10) _CM_HEX_VALUE_MASK) m in
  let m := or_if digit (Z.lor _CM_DIGIT (Z.lor _CM_URI_CHAR _CM_FILE_PATH_CHAR)) m in
  let m := or_if letter (Z.lor _CM_LETTER (Z.lor _CM_URI_CHAR _CM_FILE_PATH_CHAR)) m in
  let m := or_if (one_of (bs ".-_~") c) _CM_URI_CHAR m in
  or_if (one_of (bs ".-_/") c) _CM_FILE_PATH_CHAR m.

(** [init_char_map] fills the table once, at program start. *)
Definition _CHAR_MAP : list Z := Eval vm_compute in map (fun i => char_map_entry (Z.of_nat i)) (seq 0 256).
Definition char_map (c : Z) : Z := nth (Z.to_nat c) _CHAR_MAP 0.

Definition HEX_DIGIT_VALUE (c : Z) : Z := Z.land (char_map c) _CM_HEX_VALUE_MASK.
Definition IS_URI_CHAR (c : Z) : bool := negb (Z.land (char_map c) _CM_URI_CHAR =? 0).
Definition IS_FILE_PATH_CHAR (c : Z) : bool := negb (Z.land (char_map c) _CM_FILE_PATH_CHAR =? 0).

(** ** Escaping into a buffer *)

Section append.
Context `{Alloc}.

Fixpoint escape_url_loop (pt : bytes) : M nxb_buffer unit :=
  match pt with
  | [] => ret tt
  | c :: pt' =>
      do! (if IS_URI_CHAR c then nxb_append_char_fast c
           else
             do! nxb_append_char_fast (ch "%") in
             do! nxb_append_char_fast (HEX_DIGIT (Z.shiftr c 4)) in
             nxb_append_char_fast (HEX_DIGIT c)) in
      escape_url_loop pt'
  end.

Definition _nxb_append_escape_url (url : bytes) : M nxb_buffer unit :=
  let max_size := wraps 32 (zlen url * 3) in
  do! nxb_make_room max_size in
  escape_url_loop url.

Definition MAX_PATH_SEGMENT : Z := 230.

Fixpoint encode_file_path_loop (pt : bytes) (fname_len_count : Z) : M nxb_buffer unit :=
  match pt with
  | [] => ret tt
  | c :: pt' =>
      if c =? ch "/" then
        do! nxb_append_char_fast c in
        encode_file_path_loop pt' 0
      else
        let long := MAX_PATH_SEGMENT <=? fname_len_count in
        if! long then nxb_append_char_fast (ch "/") in
        let fname_len_count := if long then 0 else fname_len_count in
        if ((c =? ch ".") && (fname_len_count =? 0)) || negb (IS_FILE_PATH_CHAR c) then
          do! nxb_append_char_fast (ch "$") in
          do! nxb_append_char_fast (HEX_DIGIT (Z.shiftr c 4)) in
          do! nxb_append_char_fast (HEX_DIGIT c) in
          encode_file_path_loop pt' (fname_len_count + 3)
        else
          do! nxb_append_char_fast c in
          encode_file_path_loop pt' (fname_len_count + 1)
  end.

Definition _nxb_append_encode_file_path (path : bytes) : M nxb_buffer unit :=
  if zlen path =? 0 then ret tt else
  let max_size := wraps 32 (zlen path * 3 + zlen path / MAX_PATH_SEGMENT) in
  do! nxb_make_room max_size in
  encode_file_path_loop path 0.
End append.

(** ** The printf extensions %H and %U: what they print, and the length they
    return ([None] is a null argument). *)

Definition html_escape_char (c : Z) : bytes :=
  if c =? ch "<" then bs "&lt;" else if c =? ch ">" then bs "&gt;"
  else if c =? 34 then bs "&quot;" else if c =? ch "'" then bs "&#39;"
  else if c =? ch "&" then bs "&amp;" else [c].

Fixpoint print_html_loop (pt : bytes) (stream : bytes) (len : Z) : bytes * Z :=
  match pt with
  | [] => (stream, len)
  | c :: pt' =>
      let n := if (c =? ch "<") || (c =? ch ">") then 4 else if c =? 34 then 6
               else if (c =? ch "'") || (c =? ch "&") then 5 else 1 in
      print_html_loop pt' (stream ++ html_escape_char c) (len + n)
  end.
Definition print_html_escaped (arg : option bytes) (stream : bytes) : bytes * Z :=
  match arg with
  | None => (stream ++ bs "(null)", 6)
  | Some arg => print_html_loop arg stream 0
  end.

Fixpoint print_url_loop (pt : bytes) (stream : bytes) (len : Z) : bytes * Z :=
  match pt with
  | [] => (stream, len)
  | c :: pt' =>
      if IS_URI_CHAR c then print_url_loop pt' (stream ++ [c]) (len + 1)
      else print_url_loop pt' (stream ++ [ch "%"; HEX_DIGIT (Z.shiftr c 4); HEX_DIGIT c]) (len + 3)
  end.
Definition print_url_escaped (arg : option bytes) (stream : bytes) : bytes * Z :=
  match arg with
  | None => (stream ++ bs "(null)", 6)
  | Some arg => print_url_loop arg stream 0
  end.

(** ** In-place operations *)

(** [nxweb_url_decode(src, dst)] inside one block; [None] is a null [dst]. *)
Definition nxweb_url_decode (src : Z) (dst : option Z) : M mem (option Z) :=
  let d0 := match dst with Some d => d | None => src end in
  let! d := mem_loop (fun '(s, d) =>
      let! c := rd s in
      if c =? 0 then ret (inr d) else
      if c =? ch "+" then do! wr d 32 in ret (inl (s + 1, d + 1)) else
      let! esc := (if c =? ch "%" then
                     let! c1 := rd (s + 1) in
                     if c1 =? 0 then ret None else
                     let! c2 := rd (s + 2) in
                     if c2 =? 0 then ret None else ret (Some (c1, c2))
                   else ret None) in
      match esc with
      | Some (c1, c2) =>
          do! wr d (Z.lor (Z.shiftl (HEX_DIGIT_VALUE c1) 4) (HEX_DIGIT_VALUE c2)) in
          ret (inl (s + 3, d + 1))
      | None => do! wr d c in ret (inl (s + 1, d + 1))
      end) (src, d0) in
  do! wr d 0 in
  ret dst.

(** Copies one path segment, from [src] on; the loop of line 1564. *)
Definition copy_segment (dst src : Z) : M mem (Z * Z) :=
  mem_loop (fun '(dst, src) =>
    let! c := rd src in
    if negb (c =? 0) && negb (c =? ch "/") then
      do! wr dst c in ret (inl (dst + 1, src + 1))
    else ret (inr (dst, src))) (dst, src).

Definition nxweb_remove_dots_from_uri_path (path : Z) : M mem Z :=
  let! c := rd path in
  if c =? 0 then ret 0 else
  if negb (c =? ch "/") then ret (-1) else
  mem_loop (fun '(dst, src) =>
    let! c := rd src in
    if c =? 0 then ret (inr 0) else
    if c =? ch "/" then ret (inl (dst, src + 1)) else
    let! action :=
      (if c =? ch "." then
         let! c1 := rd (src + 1) in
         if c1 =? ch "/" then ret (Some (inl (dst, src + 2))) else
         if c1 =? 0 then ret (Some (inl (dst, src + 1))) else
         if c1 =? ch "." then
           let! c2 := rd (src + 2) in
           if (c2 =? ch "/") || (c2 =? 0) then
             if dst =? path + 1 then ret (Some (inr (-1))) else
             let! dst := mem_loop (fun dst =>
               let! b := rd (dst - 1 - 1) in
               if b =? ch "/" then ret (inr (dst - 1)) else ret (inl (dst - 1))) dst in
             ret (Some (inl (dst, src + 3)))
           else ret None
         else ret None
       else ret None) in
    match action with
    | Some r => ret r
    | None =>
        do! wr dst c in
        let! '(dst, src) := copy_segment (dst + 1) (src + 1) in
        let! c := rd src in
        do! wr dst c in
        if c =? 0 then ret (inr 0) else ret (inl (dst + 1, src + 1))
    end) (path + 1, path + 1).

(** * Lemmas *)

(** ** Decoding *)

Definition percent_value (a b : Z) : Z := Z.lor (Z.shiftl (HEX_DIGIT_VALUE a) 4) (HEX_DIGIT_VALUE b).

(** What decoding leaves of a string: a [+] is a space, a [%] with two bytes
    after it is the byte they spell, anything else stands for itself. *)
Fixpoint percent_decode (s : bytes) : bytes :=
  match s with
  | [] => []
  | c :: r =>
      if c =? ch "+" then 32 :: percent_decode r else
      if c =? ch "%" then
        match r with
        | a :: b :: r' => percent_value a b :: percent_decode r'
        | _ => c :: percent_decode r
        end
      else c :: percent_decode r
  end.

Lemma HEX_DIGIT_VALUE_bound c : 0 <= HEX_DIGIT_VALUE c < 16.
Proof.
  unfold HEX_DIGIT_VALUE, _CM_HEX_VALUE_MASK. change 15 with (Z.ones 4). rewrite Z.land_ones by lia.
  change (2 ^ 4) with 16. apply Z.mod_pos_bound. lia.
Qed.
Lemma percent_value_byte a b : is_byte (percent_value a b).
Proof.
  pose proof (HEX_DIGIT_VALUE_bound a). pose proof (HEX_DIGIT_VALUE_bound b).
  assert (H256 : forall x y, 0 <= x < 16 -> 0 <= y < 16 -> is_byte (Z.lor (Z.shiftl x 4) y)).
  { intros x y Hx Hy. unfold is_byte. split; [apply Z.lor_nonneg; split; [apply Z.shiftl_nonneg|]; lia|].
    destruct (Z.eq_dec (Z.lor (Z.shiftl x 4) y) 0) as [->|Hn]; [lia|].
    apply Z.log2_lt_pow2 with (b := 8); [assert (0 <= Z.lor (Z.shiftl x 4) y) by (apply Z.lor_nonneg; split; [apply Z.shiftl_nonneg|]; lia); lia|].
    rewrite Z.log2_lor by (try apply Z.shiftl_nonneg; lia).
    apply Z.max_lub_lt.
    - destruct (Z.eq_dec x 0) as [->|]; [done|]. rewrite Z.log2_shiftl by lia.
      assert (Z.log2 x < 4) by (apply Z.log2_lt_pow2; lia). lia.
    - destruct (Z.eq_dec y 0) as [->|]; [done|]. assert (Z.log2 y < 4) by (apply Z.log2_lt_pow2; lia). lia. }
  by apply H256.
Qed.

(** The loop invariant: [d] follows the decoded bytes, [q] starts the rest. *)
Definition decode_inv (m : list Z) (p : Z) (s : bytes) (x : Z * Z) (m' : list Z) : Prop :=
  exists rest dn, cstr m' x.1 rest /\ all_bytes rest /\ bytes_at m' p dn /\
    x.2 = p + zlen dn /\ x.2 <= x.1 /\ x.1 + zlen rest = p + zlen s /\
    dn ++ percent_decode rest = percent_decode s /\ same_outside m m' p (p + zlen s + 1).

(** One round: a byte [v] is stored and [q'] starts the rest. *)
Lemma wp_decode_step m p s q d q' v t dn m' (Q : option Z -> list Z -> Prop) :
  0 <= p -> p + zlen s < zlen m -> bytes_at m' p dn -> d = p + zlen dn -> d <= q ->
  same_outside m m' p (p + zlen s + 1) ->
  cstr m' q' t -> all_bytes t -> is_byte v -> q < q' -> q' + zlen t = p + zlen s ->
  dn ++ v :: percent_decode t = percent_decode s ->
  wp (do! wr d v in ret (inl (q', d + 1))) (fun r m1 => match r with
     | inl x => decode_inv m p s x m1 /\ (Z.to_nat (zlen m - x.1) < Z.to_nat (zlen m - q))%nat
     | inr v => wp (do! wr v 0 in ret None) Q m1 end) m'.
Proof.
  intros Hp0 Hpb Hd Hdq Hle Hsame Ht Hbt Hv Hq' Hqt Hdt. pose proof (cstr_bounds _ _ _ Ht). pose proof (zlen_nonneg t).
  pose proof (same_outside_zlen _ _ _ _ Hsame) as Hlen. pose proof (zlen_nonneg dn).
  apply wp_bind, wp_wr; [lia|]. apply wp_ret. rewrite wrapu_small by exact Hv. cbn [fst snd].
  split; [|lia]. exists t, (dn ++ [v]). cbn [fst snd]. rewrite zlen_app, zlen_cons, zlen_nil. split_and!; try done; try lia.
  - apply cstr_poke; [done|lia|lia].
  - apply bytes_at_push; [done|lia|lia|lia].
  - by rewrite <- app_assoc.
  - eapply same_outside_trans; [done|]. apply same_outside_poke; lia.
Qed.

Lemma wp_url_decode_end m p s (Q : option Z -> list Z -> Prop) :
  cstr m p s -> all_bytes s ->
  (forall m', bytes_at m' p (percent_decode s ++ [0]) -> same_outside m m' p (p + zlen s + 1) ->
     peek m' (p + zlen s) = Some 0 -> Q None m') ->
  wp (nxweb_url_decode p None) Q m.
Proof.
  intros Hs Hbs HQ. unfold nxweb_url_decode. apply wp_bind.
  pose proof (cstr_bounds _ _ _ Hs) as [Hp0 Hpb].
  eapply (wp_mem_loop (decode_inv m p s) (fun x => Z.to_nat (zlen m - x.1))).
  { exists s, []. cbn [fst snd]. change (zlen (@nil Z)) with 0. split_and!; try done; lia. }
  { cbn. unfold zlen in *. lia. }
  intros [q d] m' (rest & dn & Hr & Hbr & Hd & Hdq & Hle & Hql & Hdec & Hsame). cbn [fst snd] in *.
  pose proof (same_outside_zlen _ _ _ _ Hsame) as Hlen. pose proof (zlen_nonneg dn).
  apply wp_bind. destruct rest as [|c rest].
  { apply cstr_nil_inv in Hr as [_ Hr0]. eapply wp_rd'; [done|]. cbn. apply wp_ret.
    pose proof (peek_Some _ _ _ Hr0) as Hr. rewrite zlen_nil in Hql. cbn in Hdec. rewrite app_nil_r in Hdec. subst dn.
    apply wp_bind, wp_wr; [lia|]. apply wp_ret, HQ; change (wrapu 8 0) with 0.
    - apply bytes_at_push; [done|lia|lia|lia].
    - eapply same_outside_trans; [done|]. apply same_outside_poke; lia.
    - rewrite peek_poke by lia. destruct (d =? _); [done|]. rewrite <- Hr0. f_equal. lia. }
  apply cstr_cons in Hr as (_ & Hcn & Hc & Hr). apply Forall_cons in Hbr as [Hcb Hbr]. rewrite zlen_cons in Hql.
  eapply wp_rd'; [done|]. cbn beta. rewrite (proj2 (Z.eqb_neq c 0) Hcn). cbn [percent_decode] in Hdec.
  destruct (Z.eqb_spec c 43) as [->|Hc43].
  { eapply wp_decode_step; [exact Hp0|exact Hpb|exact Hd|done|done|done|exact Hr|done|done|lia|lia|done]. }
  assert (Hplain : dn ++ c :: percent_decode rest = percent_decode s -> wp (do! wr d c in ret (inl (q + 1, d + 1)))
     (fun r m1 => match r with
     | inl x => decode_inv m p s x m1 /\ (Z.to_nat (zlen m - x.1) < Z.to_nat (zlen m - q))%nat
     | inr v => wp (do! wr v 0 in ret None) Q m1 end) m').
  { intros Hd'. eapply wp_decode_step; [exact Hp0|exact Hpb|exact Hd|done|done|done|exact Hr|done|done|lia|lia|done]. }
  apply wp_bind. destruct (Z.eqb_spec c 37) as [->|Hc37]; [|apply wp_ret; by apply Hplain].
  apply wp_bind. destruct rest as [|a rest].
  { apply cstr_nil_inv in Hr as [_ Hr]. eapply wp_rd'; [done|]. cbn. apply wp_ret. by apply Hplain. }
  pose proof Hr as (_ & Han & Ha & Hr2)%cstr_cons. eapply wp_rd'; [done|]. cbn beta.
  rewrite (proj2 (Z.eqb_neq a 0) Han).
  apply wp_bind. replace (q + 1 + 1) with (q + 2) in Hr2 by lia. destruct rest as [|b rest].
  { pose proof (cstr_nil_inv _ _ Hr2) as [_ H0]. eapply wp_rd'; [done|]. cbn. apply wp_ret. by apply Hplain. }
  apply cstr_cons in Hr2 as (_ & Hbn & Hb & Hr3). eapply wp_rd'; [done|]. cbn beta.
  rewrite (proj2 (Z.eqb_neq b 0) Hbn). apply wp_ret.
  replace (q + 2 + 1) with (q + 3) in Hr3 by lia. rewrite !zlen_cons in Hql.
  apply Forall_cons in Hbr as [_ Hbr]. apply Forall_cons in Hbr as [_ Hbr].
  eapply wp_decode_step; [exact Hp0|exact Hpb|exact Hd|done|done|done|exact Hr3|done|apply percent_value_byte|lia|lia|done].
Qed.

Lemma wp_url_decode m p s (Q : option Z -> list Z -> Prop) :
  cstr m p s -> all_bytes s ->
  (forall m', bytes_at m' p (percent_decode s ++ [0]) -> same_outside m m' p (p + zlen s + 1) -> Q None m') ->
  wp (nxweb_url_decode p None) Q m.
Proof. intros Hs Hb HQ. eapply wp_url_decode_end; [done|done|]. auto. Qed.

(** ** Escaped text *)

Definition hex2 (c : Z) : bytes := [HEX_DIGIT (Z.shiftr c 4); HEX_DIGIT c].
Definition escape_char (c : Z) : bytes := if IS_URI_CHAR c then [c] else ch "%" :: hex2 c.
Definition escape_text (url : bytes) : bytes := flat_map escape_char url.

(** A fact about every byte, by inspection of the table. *)
Lemma byte_cases (P : Z -> bool) :
  forallb P (map Z.of_nat (seq 0 256)) = true -> forall c, is_byte c -> P c = true.
Proof.
  intros HP c Hc. rewrite forallb_forall in HP. apply HP. apply in_map_iff. unfold is_byte in Hc.
  exists (Z.to_nat c). split; [lia|]. apply in_seq. lia.
Qed.

Lemma HEX_DIGIT_VALUE_DIGIT n : HEX_DIGIT_VALUE (HEX_DIGIT n) = Z.land n 15.
Proof.
  unfold HEX_DIGIT. assert (Hb : is_byte (Z.land n 15)).
  { change 15 with (Z.ones 4). rewrite Z.land_ones by lia. unfold is_byte. change (2 ^ 4) with 16.
    pose proof (Z.mod_pos_bound n 16 ltac:(lia)). lia. }
  assert (Hlt : Z.land n 15 <? 16 = true).
  { change 15 with (Z.ones 4). rewrite Z.land_ones by lia. apply Z.ltb_lt. change (2 ^ 4) with 16.
    apply Z.mod_pos_bound. lia. }
  revert Hlt. generalize dependent (Z.land n 15). intros v Hb Hlt.
  pose proof (byte_cases (fun v => implb (v <? 16)
    (HEX_DIGIT_VALUE (if v <? 10 then v + 48 else v - 10 + 65) =? v)) eq_refl v Hb) as H.
  cbn beta in H. rewrite Hlt in H. by apply Z.eqb_eq.
Qed.
Lemma percent_value_hex2 c : is_byte c -> percent_value (HEX_DIGIT (Z.shiftr c 4)) (HEX_DIGIT c) = c.
Proof.
  intros Hc. apply Z.eqb_eq. revert c Hc. by apply byte_cases.
Qed.
Lemma HEX_DIGIT_nonzero n : HEX_DIGIT n <> 0.
Proof.
  unfold HEX_DIGIT. assert (0 <= Z.land n 15) by (apply Z.land_nonneg; lia).
  destruct (Z.ltb_spec (Z.land n 15) 10); lia.
Qed.
Lemma uri_char_plain c : is_byte c -> IS_URI_CHAR c = true -> c <> ch "%" /\ c <> ch "+" /\ c <> 0.
Proof.
  intros Hc Hu.
  assert (H : implb (IS_URI_CHAR c) (negb (c =? 37) && negb (c =? 43) && negb (c =? 0)) = true).
  { revert c Hc Hu. intros c Hc _. revert c Hc. by apply byte_cases. }
  rewrite Hu in H. cbn in H. blia.
Qed.

Lemma percent_decode_escape url : all_bytes url -> percent_decode (escape_text url) = url.
Proof.
  induction 1 as [|c url Hc Hu IH]; [done|]. cbn [escape_text flat_map]. unfold escape_char at 1.
  destruct (IS_URI_CHAR c) eqn:E.
  - apply uri_char_plain in E as (H1 & H2 & _); [|done]. cbn [app percent_decode].
    rewrite (proj2 (Z.eqb_neq c 43)), (proj2 (Z.eqb_neq c 37)) by done.
    fold (escape_text url). by rewrite IH.
  - unfold hex2. cbn [app percent_decode]. change (37 =? 43) with false. change (37 =? 37) with true.
    cbn iota. rewrite percent_value_hex2 by done. fold (escape_text url). by rewrite IH.
Qed.

Lemma escape_text_length url : zlen (escape_text url) <= 3 * zlen url.
Proof.
  induction url as [|c url IH]; [done|]. cbn [escape_text flat_map]. fold (escape_text url).
  rewrite zlen_app, zlen_cons. unfold escape_char.
  destruct (IS_URI_CHAR c); [change (zlen [c]) with 1|change (zlen (37 :: hex2 c)) with 3]; lia.
Qed.

(** The loop at line 1391: what it writes from a count of [n] on. *)
Fixpoint encode_text (pt : bytes) (n : Z) : bytes :=
  match pt with
  | [] => []
  | c :: pt' =>
      if c =? ch "/" then c :: encode_text pt' 0 else
      let long := MAX_PATH_SEGMENT <=? n in
      let n := if long then 0 else n in
      (if long then [ch "/"] else []) ++
      (if ((c =? ch ".") && (n =? 0)) || negb (IS_FILE_PATH_CHAR c)
       then ch "$" :: hex2 c ++ encode_text pt' (n + 3)
       else c :: encode_text pt' (n + 1))
  end.

Section append_lemmas.
Context `{Alloc}.
Context (C T : Z) (L : list (nxb_loc * bytes)).

Lemma wp_char_fast s c r (Q : unit -> nxb_buffer -> Prop) nxb :
  stream C T L s r nxb -> 1 <= r -> zlen s + 1 <= T ->
  (forall nxb', stream C T L (s ++ [c]) (r - 1) nxb' -> Q tt nxb') ->
  wp (nxb_append_char_fast c) Q nxb.
Proof.
  intros Hs Hr Hl HQ. unfold nxb_append_char_fast. eapply wp_append_fast; [done|rewrite zlen_cons, zlen_nil; lia..|].
  done.
Qed.

Lemma wp_hex3 s x c r (Q : unit -> nxb_buffer -> Prop) (k : M nxb_buffer unit) nxb :
  stream C T L s r nxb -> 3 <= r -> zlen s + 3 <= T ->
  (forall nxb', stream C T L (s ++ x :: hex2 c) (r - 3) nxb' -> wp k Q nxb') ->
  wp (do! nxb_append_char_fast x in
      do! nxb_append_char_fast (HEX_DIGIT (Z.shiftr c 4)) in
      do! nxb_append_char_fast (HEX_DIGIT c) in k) Q nxb.
Proof.
  intros Hs Hr Hl HQ. apply wp_bind. eapply wp_char_fast; [done|lia|lia|]. intros n1 H1.
  apply wp_bind. eapply wp_char_fast; [done|lia|rewrite zlen_app, zlen_cons, zlen_nil; lia|]. intros n2 H2.
  apply wp_bind. eapply wp_char_fast; [done|lia|rewrite !zlen_app, !zlen_cons, zlen_nil; lia|]. intros n3 H3.
  apply HQ. rewrite <- !app_assoc in H3. replace (r - 3) with (r - 1 - 1 - 1) by lia. done.
Qed.

Lemma bind_ret_r {S} (c : M S unit) Q s : wp (do! c in ret tt) Q s -> wp c Q s.
Proof. unfold wp, bind, ret. by destruct (c s) as [[[] ?]|]. Qed.

Lemma wp_escape_loop url : forall s r (Q : unit -> nxb_buffer -> Prop) nxb,
  stream C T L s r nxb -> zlen (escape_text url) <= r -> zlen s + zlen (escape_text url) <= T ->
  (forall nxb', stream C T L (s ++ escape_text url) (r - zlen (escape_text url)) nxb' -> Q tt nxb') ->
  wp (escape_url_loop url) Q nxb.
Proof.
  induction url as [|c url IH]; intros s r Q nxb Hs Hr Hl HQ; cbn [escape_url_loop].
  - apply wp_ret, HQ. cbn. by rewrite app_nil_r, zlen_nil, Z.sub_0_r.
  - cbn [escape_text flat_map] in *. fold (escape_text url) in *. rewrite zlen_app in *. apply wp_bind.
    unfold escape_char in *. pose proof (zlen_nonneg (escape_text url)). destruct (IS_URI_CHAR c).
    + eapply wp_char_fast; [done|rewrite zlen_cons, zlen_nil in *; lia..|]. intros n1 H1.
      rewrite zlen_cons, zlen_nil in *. eapply IH; [done|lia|rewrite zlen_app, zlen_cons, zlen_nil; lia|].
      intros n2 H2. apply HQ. rewrite <- app_assoc in H2. cbn [app] in *.
      replace (r - (1 + 0 + zlen (escape_text url))) with (r - 1 - zlen (escape_text url)) by lia. done.
    + change (zlen (37 :: hex2 c)) with 3 in *. apply bind_ret_r.
      assert (Ha : forall a b d e : M nxb_buffer unit, forall Q n, wp (do! a in do! b in do! d in e) Q n ->
                wp (do! (do! a in do! b in d) in e) Q n).
      { unfold wp, bind. intros a b d e Q' n. destruct (a n) as [[? n1]|]; [|done]. by destruct (b n1) as [[? n2]|]. }
      apply Ha. eapply wp_hex3; [done|lia|lia|]. intros n1 H1. apply wp_ret.
      eapply IH; [done|lia|rewrite zlen_app; change (zlen (37 :: hex2 c)) with 3; lia|].
      intros n2 H2. apply HQ. rewrite <- app_assoc in H2. cbn [app] in *.
      replace (r - (3 + zlen (escape_text url))) with (r - 3 - zlen (escape_text url)) by lia. done.
Qed.

Lemma wp_encode_loop path : forall n s r (Q : unit -> nxb_buffer -> Prop) nxb,
  stream C T L s r nxb -> zlen (encode_text path n) <= r -> zlen s + zlen (encode_text path n) <= T ->
  (forall nxb', stream C T L (s ++ encode_text path n) (r - zlen (encode_text path n)) nxb' -> Q tt nxb') ->
  wp (encode_file_path_loop path n) Q nxb.
Proof.
  induction path as [|c path IH]; intros n s r Q nxb Hs Hr Hl HQ; cbn [encode_file_path_loop].
  { apply wp_ret, HQ. cbn. by rewrite app_nil_r, zlen_nil, Z.sub_0_r. }
  cbn [encode_text] in *. destruct (c =? 47).
  { rewrite zlen_cons in *. pose proof (zlen_nonneg (encode_text path 0)).
    apply wp_bind. eapply wp_char_fast; [done|lia|lia|]. intros n1 Hn1.
    eapply IH; [done|lia|rewrite zlen_app, zlen_cons, zlen_nil; lia|]. intros n2 Hn2. apply HQ.
    rewrite <- app_assoc in Hn2. cbn [app] in Hn2.
    replace (r - (1 + zlen (encode_text path 0))) with (r - 1 - zlen (encode_text path 0)) by lia. done. }
  set (long := MAX_PATH_SEGMENT <=? n) in *. set (n' := if long then 0 else n) in *.
  set (tl := if ((c =? 46) && (n' =? 0)) || negb (IS_FILE_PATH_CHAR c)
             then 36 :: hex2 c ++ encode_text path (n' + 3) else c :: encode_text path (n' + 1)) in *.
  set (pre := if long then [47] else []) in *.
  rewrite zlen_app in *. pose proof (zlen_nonneg pre). pose proof (zlen_nonneg tl). apply wp_bind.
  assert (Hmid : forall nxb', stream C T L (s ++ pre) (r - zlen pre) nxb' ->
     wp (if ((c =? 46) && (n' =? 0)) || negb (IS_FILE_PATH_CHAR c) then
          do! nxb_append_char_fast 36 in do! nxb_append_char_fast (HEX_DIGIT (Z.shiftr c 4)) in
          do! nxb_append_char_fast (HEX_DIGIT c) in encode_file_path_loop path (n' + 3)
         else do! nxb_append_char_fast c in encode_file_path_loop path (n' + 1)) Q nxb').
  { intros n1 Hn1. unfold tl in *. destruct (_ || _).
    - rewrite zlen_cons, zlen_app in *. change (zlen (hex2 c)) with 2 in *.
      pose proof (zlen_nonneg (encode_text path (n' + 3))).
      eapply wp_hex3; [done|lia|rewrite zlen_app; lia|]. intros n2 Hn2.
      eapply IH; [done|lia|rewrite !zlen_app; change (zlen (36 :: hex2 c)) with 3; lia|]. intros n3 Hn3. apply HQ.
      rewrite <- !app_assoc in Hn3. cbn [app] in *. eapply stream_weaken; [done|]. lia.
    - rewrite zlen_cons in *. pose proof (zlen_nonneg (encode_text path (n' + 1))).
      apply wp_bind. eapply wp_char_fast; [done|lia|rewrite zlen_app; lia|]. intros n2 Hn2.
      eapply IH; [done|lia|rewrite !zlen_app, zlen_cons, zlen_nil; lia|]. intros n3 Hn3. apply HQ.
      rewrite <- !app_assoc in Hn3. cbn [app] in *. eapply stream_weaken; [done|]. lia. }
  unfold pre in *. clear HQ. destruct long.
  - eapply wp_char_fast; [done|change (zlen [47]) with 1 in *; lia..|]. intros n1 Hn1. by apply Hmid.
  - apply wp_ret, Hmid. change (zlen (@nil Z)) with 0. by rewrite app_nil_r, Z.sub_0_r.
Qed.
End append_lemmas.

(** ** File paths *)

Lemma encode_text_length path n :
  0 <= n -> zlen (encode_text path n) <= 3 * zlen path + (n + 3 * zlen path) / MAX_PATH_SEGMENT.
Proof.
  unfold MAX_PATH_SEGMENT. revert n. induction path as [|c path IH]; intros n Hn; cbn [encode_text].
  - rewrite !zlen_nil. pose proof (Z.div_pos (n + 3 * 0) 230 ltac:(lia) ltac:(lia)). lia.
  - pose proof (zlen_nonneg path). rewrite zlen_cons. unfold MAX_PATH_SEGMENT. destruct (c =? 47).
    + rewrite zlen_cons. specialize (IH 0 ltac:(lia)).
      pose proof (Z.div_le_mono (0 + 3 * zlen path) (n + 3 * (1 + zlen path)) 230 ltac:(lia) ltac:(lia)). lia.
    + set (n' := if 230 <=? n then 0 else n).
      assert (Hn' : 0 <= n' /\ zlen (if 230 <=? n then [47] else []) + (n' + 3 * (1 + zlen path)) / 230 <= (n + 3 * (1 + zlen path)) / 230).
      { unfold n'. destruct (Z.leb_spec 230 n); [|change (zlen (@nil Z)) with 0; lia]. split; [lia|].
        change (zlen [47]) with 1. rewrite Z.add_comm, <- Z.div_add by lia. apply Z.div_le_mono; lia. }
      destruct Hn' as [Hn'0 Hn']. rewrite zlen_app. destruct (_ || _).
      * rewrite zlen_cons, zlen_app. change (zlen (hex2 c)) with 2. specialize (IH (n' + 3) ltac:(lia)).
        replace (n' + 3 + 3 * zlen path) with (n' + 3 * (1 + zlen path)) in IH by lia. lia.
      * rewrite zlen_cons. specialize (IH (n' + 1) ltac:(lia)).
        pose proof (Z.div_le_mono (n' + 1 + 3 * zlen path) (n' + 3 * (1 + zlen path)) 230 ltac:(lia) ltac:(lia)). lia.
Qed.

(** A byte an encoded path may hold. *)
Definition path_byte (c : Z) : bool := IS_FILE_PATH_CHAR c || (c =? ch "$").

Lemma hex_digit_path n : IS_FILE_PATH_CHAR (HEX_DIGIT n) = true /\ HEX_DIGIT n <> ch "." /\ HEX_DIGIT n <> ch "/".
Proof.
  destruct (HEX_DIGIT_spec n) as [Hb _].
  assert (Hin : 48 <= HEX_DIGIT n <= 57 \/ 65 <= HEX_DIGIT n <= 70).
  { unfold HEX_DIGIT. change 15 with (Z.ones 4). rewrite Z.land_ones by lia. change (2 ^ 4) with 16.
    pose proof (Z.mod_pos_bound n 16 ltac:(lia)). destruct (Z.ltb_spec (n mod 16) 10); lia. }
  split; [|lia]. revert Hin. generalize dependent (HEX_DIGIT n). intros v Hb Hin.
  pose proof (byte_cases (fun v => implb (((48 <=? v) && (v <=? 57)) || ((65 <=? v) && (v <=? 70)))
    (IS_FILE_PATH_CHAR v)) eq_refl v Hb) as Hc. cbn beta in Hc.
  destruct (IS_FILE_PATH_CHAR v); [done|].
  destruct (Z.leb_spec 48 v), (Z.leb_spec v 57), (Z.leb_spec 65 v), (Z.leb_spec v 70); cbn in Hc; lia || done.
Qed.

Lemma encode_text_bytes path n : all_bytes path -> Forall (fun c => path_byte c = true) (encode_text path n).
Proof.
  intros Hp. revert n. induction Hp as [|c path Hc Hp IH]; intros n; cbn [encode_text]; [done|].
  destruct (Z.eqb_spec c 47) as [->|Hs]; [constructor; [done|apply IH]|].
  apply Forall_app. split; [destruct (_ <=? _); repeat constructor; done|].
  destruct ((_ && _) || negb (IS_FILE_PATH_CHAR c)) eqn:E.
  - unfold hex2. cbn [app]. destruct (hex_digit_path (Z.shiftr c 4)) as [H1 _], (hex_digit_path c) as [H2 _].
    repeat (constructor; [unfold path_byte; rewrite ?H1, ?H2; done|]). apply IH.
  - apply orb_false_iff in E as [_ E]. apply negb_false_iff in E.
    constructor; [unfold path_byte; by rewrite E|apply IH].
Qed.

(** No segment starts with a dot; [start] tells a segment begins here. *)
Fixpoint no_dot_segment (start : bool) (s : bytes) : bool :=
  match s with
  | [] => true
  | c :: r => negb (start && (c =? ch ".")) && no_dot_segment (c =? ch "/") r
  end.

Lemma encode_text_no_dots path n : 0 <= n -> no_dot_segment (n =? 0) (encode_text path n) = true.
Proof.
  revert n. induction path as [|c path IH]; intros n Hn; cbn [encode_text]; [done|].
  destruct (Z.eqb_spec c 47) as [->|Hs].
  { cbn [no_dot_segment]. change (47 =? 47) with (0 =? 0). rewrite (IH 0) by lia. by rewrite andb_false_r. }
  set (n' := if MAX_PATH_SEGMENT <=? n then 0 else n).
  assert (Hn' : 0 <= n') by (unfold n'; destruct (_ <=? _); lia).
  assert (Hrest : no_dot_segment (n' =? 0) (if (c =? 46) && (n' =? 0) || negb (IS_FILE_PATH_CHAR c)
     then 36 :: hex2 c ++ encode_text path (n' + 3) else c :: encode_text path (n' + 1)) = true).
  { destruct ((c =? 46) && (n' =? 0)) eqn:Ed.
    - cbn [orb no_dot_segment]. unfold hex2. cbn [app no_dot_segment].
      destruct (hex_digit_path (Z.shiftr c 4)) as (_ & _ & H1), (hex_digit_path c) as (_ & _ & H2).
      rewrite (proj2 (Z.eqb_neq _ 47) H1), (proj2 (Z.eqb_neq _ 47) H2). cbn. rewrite andb_false_r.
      specialize (IH (n' + 3) ltac:(lia)). rewrite (proj2 (Z.eqb_neq (n' + 3) 0)) in IH by lia. done.
    - cbn [orb]. destruct (negb _).
      + unfold hex2. cbn [app no_dot_segment].
        destruct (hex_digit_path (Z.shiftr c 4)) as (_ & _ & H1), (hex_digit_path c) as (_ & _ & H2).
        rewrite (proj2 (Z.eqb_neq _ 47) H1), (proj2 (Z.eqb_neq _ 47) H2). cbn. rewrite andb_false_r.
        specialize (IH (n' + 3) ltac:(lia)). rewrite (proj2 (Z.eqb_neq (n' + 3) 0)) in IH by lia. done.
      + cbn [no_dot_segment]. rewrite (andb_comm (n' =? 0)), Ed. cbn. rewrite (proj2 (Z.eqb_neq c 47) Hs).
        specialize (IH (n' + 1) ltac:(lia)). rewrite (proj2 (Z.eqb_neq (n' + 1) 0)) in IH by lia. done. }
  unfold n' in Hrest. destruct (Z.leb_spec MAX_PATH_SEGMENT n).
  - cbn [app no_dot_segment]. rewrite andb_false_r. done.
  - done.
Qed.

(** Reading an encoded path back, when no segment was broken. *)
Fixpoint path_decode (s : bytes) : bytes :=
  match s with
  | [] => []
  | c :: r =>
      if c =? ch "$" then
        match r with
        | a :: b :: r' => percent_value a b :: path_decode r'
        | _ => c :: path_decode r
        end
      else c :: path_decode r
  end.

Lemma path_decode_encode path n :
  all_bytes path -> n + 3 * zlen path <= MAX_PATH_SEGMENT + 2 -> 0 <= n -> path_decode (encode_text path n) = path.
Proof.
  unfold MAX_PATH_SEGMENT. intros Hp. revert n. induction Hp as [|c path Hc Hp IH]; intros n Hn H0; [done|].
  rewrite zlen_cons in Hn. pose proof (zlen_nonneg path). cbn [encode_text]. destruct (Z.eqb_spec c 47) as [->|Hs].
  { cbn [path_decode]. change (47 =? 36) with false. cbn iota. by rewrite IH by lia. }
  unfold MAX_PATH_SEGMENT. rewrite (proj2 (Z.leb_gt 230 n)) by lia. cbn [app].
  destruct ((_ && _) || negb (IS_FILE_PATH_CHAR c)) eqn:E.
  - unfold hex2. cbn [app path_decode]. change (36 =? 36) with true. cbn iota.
    rewrite percent_value_hex2 by done. by rewrite IH by lia.
  - apply orb_false_iff in E as [_ E]. apply negb_false_iff in E. cbn [path_decode].
    assert (Hd : c <> 36).
    { intros ->. done. }
    rewrite (proj2 (Z.eqb_neq c 36) Hd). by rewrite IH by lia.
Qed.

(** ** Dot segments *)

(** The segments of a path, between the slashes. *)
Fixpoint split_slash (s : bytes) : list bytes :=
  match s with
  | [] => [[]]
  | c :: r =>
      if c =? ch "/" then [] :: split_slash r
      else match split_slash r with x :: xs => (c :: x) :: xs | [] => [[c]] end
  end.

Definition ordinary (seg : bytes) : bool :=
  negb (bool_decide (seg = []) || bool_decide (seg = [ch "."]) || bool_decide (seg = [ch "."; ch "."])).

(** The segments left when empty and [.] segments are dropped and [..] removes
    the one before it; [None] when there is none. *)
Fixpoint normalize (segs stack : list bytes) : option (list bytes) :=
  match segs with
  | [] => Some (rev stack)
  | seg :: segs =>
      if ordinary seg then normalize segs (seg :: stack)
      else if bool_decide (seg = [ch "."; ch "."]) then
        match stack with [] => None | _ :: stack => normalize segs stack end
      else normalize segs stack
  end.

Definition segs_text (segs : list bytes) : bytes := flat_map (fun s => s ++ [ch "/"]) segs.
Definition path_text (segs : list bytes) : bytes :=
  match rev segs with
  | [] => [ch "/"]
  | s :: r => ch "/" :: segs_text (rev r) ++ s
  end.

Lemma split_seg seg : ~ In 47 seg -> split_slash seg = [seg].
Proof.
  induction seg as [|c seg IH]; intros Hn; [done|]. cbn [split_slash]. cbn in Hn.
  destruct (Z.eqb_spec c 47) as [->|]; [naive_solver|]. by rewrite IH by naive_solver.
Qed.
Lemma split_seg_slash seg r : ~ In 47 seg -> split_slash (seg ++ 47 :: r) = seg :: split_slash r.
Proof.
  induction seg as [|c seg IH]; intros Hn; [done|]. cbn [app split_slash]. cbn in Hn.
  destruct (Z.eqb_spec c 47) as [->|]; [naive_solver|]. by rewrite IH by naive_solver.
Qed.
Lemma split_slash_ne s : split_slash s <> [].
Proof. destruct s as [|c s]; cbn; [done|]. destruct (_ =? _); [done|]. by destruct (split_slash s). Qed.

(** The first segment of a path and what follows it. *)
Lemma first_segment s : exists seg t, s = seg ++ t /\ ~ In 47 seg /\ (t = [] \/ exists r, t = 47 :: r).
Proof.
  induction s as [|c s (seg & t & -> & Hn & Ht)]; [exists [], []; naive_solver|].
  destruct (Z.eqb_spec c 47) as [->|Hc].
  - exists [], (47 :: seg ++ t). naive_solver.
  - exists (c :: seg), t. cbn. naive_solver.
Qed.

Lemma wp_copy_segment p B seg t : forall m dst src (Q : Z * Z -> list Z -> Prop),
  cstr m src (seg ++ t) -> ~ In 47 seg -> (t = [] \/ exists r, t = 47 :: r) -> all_bytes seg ->
  0 <= p -> bytes_at m p B -> dst = p + zlen B -> dst <= src ->
  (forall m', cstr m' (src + zlen seg) t -> bytes_at m' p (B ++ seg) ->
     same_outside m m' p (src + zlen seg) -> Q (dst + zlen seg, src + zlen seg) m') ->
  wp (copy_segment dst src) Q m.
Proof.
  intros m dst src Q Hs Hn Ht Hb Hp HB Hd Hle HQ. unfold copy_segment.
  pose proof (cstr_bounds _ _ _ Hs) as [Hs0 Hsb]. rewrite zlen_app in Hsb. pose proof (zlen_nonneg seg). pose proof (zlen_nonneg t).
  eapply (wp_mem_loop (fun x m' => exists a b, seg = a ++ b /\ cstr m' x.2 (b ++ t) /\ bytes_at m' p (B ++ a) /\
     x.1 = dst + zlen a /\ x.2 = src + zlen a /\ same_outside m m' p (src + zlen seg)) (fun x => Z.to_nat (zlen m - x.2))).
  { exists [], seg. cbn [fst snd]. change (zlen (@nil Z)) with 0. rewrite app_nil_r. split_and!; try done; lia. }
  { cbn. unfold zlen in *. lia. }
  intros [d q] m' (a & b & -> & Hq & HBa & Hda & Hqa & Hsame). cbn [fst snd] in *.
  pose proof (same_outside_zlen _ _ _ _ Hsame) as Hlen. rewrite zlen_app in *. pose proof (zlen_nonneg a). pose proof (zlen_nonneg b). pose proof (zlen_nonneg B).
  apply wp_bind. destruct b as [|c b].
  - cbn [app] in Hq. rewrite app_nil_r in *. change (zlen (@nil Z)) with 0 in *. rewrite Z.add_0_r in *.
    assert (Hstop : forall c, peek m' q = Some c -> negb (c =? 0) && negb (c =? 47) = false -> wp (rd q)
      (fun c m1 => wp (if negb (c =? 0) && negb (c =? 47) then do! wr d c in ret (inl (d + 1, q + 1)) else ret (inr (d, q)))
         (fun r m2 => match r with inl x' => (exists a0 b0, a = a0 ++ b0 /\ cstr m2 x'.2 (b0 ++ t) /\ bytes_at m2 p (B ++ a0) /\
           x'.1 = dst + zlen a0 /\ x'.2 = src + zlen a0 /\ same_outside m m2 p (src + zlen a)) /\
           (Z.to_nat (zlen m - x'.2) < Z.to_nat (zlen m - q))%nat | inr v => Q v m2 end) m1) m').
    { intros c Hc E. eapply wp_rd'; [done|]. rewrite E. apply wp_ret. rewrite Hda, Hqa. apply HQ; [by rewrite <- Hqa|done|done]. }
    destruct Ht as [->|[r ->]].
    + apply cstr_nil_inv in Hq as [_ Hq]. by eapply Hstop.
    + apply cstr_cons in Hq as (_ & _ & Hq & _). by eapply Hstop.
  - cbn [app] in Hq. apply cstr_cons in Hq as (_ & Hcn & Hc & Hq). eapply wp_rd'; [done|]. cbn beta.
    assert (c <> 47) by (intros ->; apply Hn; apply in_app_iff; right; by left).
    rewrite (proj2 (Z.eqb_neq c 0)), (proj2 (Z.eqb_neq c 47)) by done. cbn [negb andb].
    apply Forall_app in Hb as [_ [Hcb _]%Forall_cons].
    rewrite zlen_cons in *. apply wp_bind, wp_wr; [lia|]. apply wp_ret. rewrite wrapu_small by exact Hcb. cbn [fst snd].
    pose proof (cstr_bounds _ _ _ Hq). rewrite zlen_app in *. pose proof (zlen_nonneg b).
    split; [|lia]. exists (a ++ [c]), b. rewrite <- app_assoc. rewrite zlen_app, zlen_cons, zlen_nil.
    split_and!; try done; try lia.
    + apply cstr_poke; [done|lia|lia].
    + rewrite app_assoc. apply bytes_at_push; [done|lia|rewrite zlen_app; lia|lia].
    + eapply same_outside_trans; [done|]. apply same_outside_poke; lia.
Qed.

Definition plain_seg (seg : bytes) : Prop := ordinary seg = true /\ ~ In 47 seg /\ ~ In 0 seg.
Definition last_ordinary (s : bytes) : bool :=
  match last (split_slash s) with Some seg => ordinary seg | None => false end.

Lemma segs_text_snoc l seg : segs_text (l ++ [seg]) = segs_text l ++ seg ++ [47].
Proof. unfold segs_text. rewrite flat_map_app. cbn. by rewrite app_nil_r. Qed.
Lemma segs_text_last l : exists u, 47 :: segs_text l = u ++ [47].
Proof.
  destruct l as [|x l] using rev_ind; [by exists []|]. rewrite segs_text_snoc.
  exists (47 :: segs_text l ++ x). cbn. by rewrite <- app_assoc.
Qed.
Lemma last_ordinary_cons seg r : ~ In 47 seg -> last_ordinary (seg ++ 47 :: r) = last_ordinary r.
Proof.
  intros Hn. unfold last_ordinary. rewrite split_seg_slash by done.
  pose proof (split_slash_ne r). by destruct (split_slash r).
Qed.

(** Stepping back over the last segment. *)
Lemma wp_pop_segment p st seg m (Q : Z -> list Z -> Prop) :
  0 <= p -> bytes_at m p (47 :: segs_text (rev (seg :: st))) -> plain_seg seg ->
  Q (p + 1 + zlen (segs_text (rev st))) m ->
  wp (mem_loop (fun dst => let! b := rd (dst - 1 - 1) in
        if b =? 47 then ret (inr (dst - 1)) else ret (inl (dst - 1)))
       (p + 1 + zlen (segs_text (rev (seg :: st))))) Q m.
Proof.
  intros Hp Hb (Hord & Hn & _) HQ. cbn [rev] in *. rewrite segs_text_snoc in *.
  destruct (segs_text_last (rev st)) as [u Hu]. rewrite app_comm_cons, Hu in Hb.
  assert (Hul : zlen u = zlen (segs_text (rev st))).
  { apply (f_equal zlen) in Hu. rewrite zlen_app, !zlen_cons, zlen_nil in Hu. lia. }
  rewrite !zlen_app, zlen_cons, zlen_nil. rewrite <- Hul in *. pose proof (zlen_nonneg u). pose proof (zlen_nonneg seg).
  apply bytes_at_app in Hb as [Hbu Hbs]. rewrite zlen_app, zlen_cons, zlen_nil in Hbs.
  apply bytes_at_app in Hbu as [_ [Hsl _]%bytes_at_cons].
  assert (Hbound : p + zlen u + 1 + zlen seg + 1 <= zlen m).
  { pose proof (bytes_at_bound m (p + (zlen u + (1 + 0))) _ ltac:(lia) Hbs ltac:(by destruct seg)) as Hbb. rewrite zlen_app in Hbb. change (zlen [47]) with 1 in Hbb. lia. }
  apply bytes_at_app in Hbs as [Hbs _].
  assert (Hseg : 1 <= zlen seg) by (destruct seg; [done|rewrite zlen_cons; pose proof (zlen_nonneg seg); lia]).
  eapply (wp_mem_loop (fun x m' => m' = m /\ p + 1 + zlen u < x <= p + 1 + zlen u + zlen seg + 1) (fun x => Z.to_nat x)).
  { split; [done|lia]. }
  { unfold zlen in *. lia. }
  intros x m' [-> Hx]. apply wp_bind, wp_rd; [lia|]. intros v Hv.
  destruct (decide (x = p + 1 + zlen u + 1)) as [->|Hne].
  - replace (p + 1 + zlen u + 1 - 1 - 1) with (p + zlen u) in Hv by lia. rewrite Hsl in Hv. injection Hv as <-.
    cbn. apply wp_ret. by replace (p + 1 + zlen u + 1 - 1) with (p + 1 + zlen u) by lia.
  - assert (v <> 47).
    { intros ->. apply Hn. set (i := Z.to_nat (x - 2 - (p + (zlen u + (1 + 0))))).
      destruct (lookup_lt_is_Some_2 seg i) as [d Hd]; [unfold i, zlen in *; lia|].
      specialize (Hbs i d Hd). replace (p + (zlen u + (1 + 0)) + Z.of_nat i) with (x - 1 - 1) in Hbs by (unfold i; lia).
      rewrite Hv in Hbs. injection Hbs as <-. apply list_elem_of_In. by eapply list_elem_of_lookup_2. }
    rewrite (proj2 (Z.eqb_neq v 47)) by done. apply wp_ret. split; [split; [done|lia]|lia].
Qed.

(** The invariant of the main loop. *)
Definition dots_inv (m : list Z) (p : Z) (s : bytes) (x : Z * Z) (m' : list Z) : Prop :=
  exists stack rest, bytes_at m' p (47 :: segs_text (rev stack)) /\ Forall plain_seg stack /\
    x.1 = p + 1 + zlen (segs_text (rev stack)) /\ cstr m' x.2 rest /\ all_bytes rest /\ x.1 <= x.2 /\
    x.2 + zlen rest = p + 1 + zlen s /\ last_ordinary rest = true /\
    normalize (split_slash rest) stack = normalize (split_slash s) [] /\ same_outside m m' p (p + 2 + zlen s).

Definition dots_result (m : list Z) (p : Z) (s : bytes) (r : Z) (m' : list Z) : Prop :=
  same_outside m m' p (p + 2 + zlen s) /\
  match normalize (split_slash s) [] with
  | Some segs => r = 0 /\ cstr m' p (path_text segs) /\ Forall plain_seg segs
  | None => r = -1
  end.

Lemma plain_nonzero l : Forall plain_seg l -> Forall (fun c => c <> 0) (segs_text l).
Proof.
  induction 1 as [|seg l (_ & _ & Hz) _ IH]; [done|]. cbn. apply Forall_app. split; [|done].
  apply Forall_app. split; [|by constructor]. apply Forall_forall. intros c Hc ->. apply Hz. by apply list_elem_of_In.
Qed.

(** The step that copies an ordinary segment. *)
Lemma wp_copy_step m p s seg t stack dst src c m' :
  0 <= p -> p + 2 + zlen s <= zlen m ->
  bytes_at m' p (47 :: segs_text (rev stack)) -> Forall plain_seg stack ->
  dst = p + 1 + zlen (segs_text (rev stack)) -> cstr m' src (c :: seg ++ t) -> all_bytes (c :: seg ++ t) -> dst <= src ->
  src + zlen (c :: seg ++ t) = p + 1 + zlen s -> last_ordinary (c :: seg ++ t) = true ->
  normalize (split_slash (c :: seg ++ t)) stack = normalize (split_slash s) [] -> same_outside m m' p (p + 2 + zlen s) ->
  ~ In 47 (c :: seg) -> ordinary (c :: seg) = true -> (t = [] \/ exists r, t = 47 :: r) ->
  wp (do! wr dst c in let! '(dst, src) := copy_segment (dst + 1) (src + 1) in
      let! c := rd src in do! wr dst c in
      if c =? 0 then ret (inr 0) else ret (inl (dst + 1, src + 1)))
    (fun r m1 => match r with
       | inl x => dots_inv m p s x m1 /\ (Z.to_nat (zlen m - x.2) < Z.to_nat (zlen m - src))%nat
       | inr v => dots_result m p s v m1 end) m'.
Proof.
  intros Hp Hm Hb Hst -> Hs Hby Hle Hl Hlast Hnorm Hsame Hn Hord Ht.
  pose proof (same_outside_zlen _ _ _ _ Hsame) as Hlen. pose proof (zlen_nonneg (segs_text (rev stack))).
  pose proof (cstr_nonzero _ _ _ Hs) as Hnz. set (D := p + 1 + zlen (segs_text (rev stack))) in *.
  apply cstr_cons in Hs as (_ & Hcn & Hc & Hs). rewrite zlen_cons, zlen_app in Hl.
  pose proof (zlen_nonneg seg). pose proof (zlen_nonneg t). pose proof (zlen_nonneg s).
  apply Forall_cons in Hby as [Hcb Hby]. apply wp_bind, wp_wr; [lia|]. rewrite wrapu_small by exact Hcb.
  apply wp_bind. apply (wp_copy_segment p (47 :: segs_text (rev stack) ++ [c]) seg t).
  { apply cstr_poke; [done|lia|lia]. } { intros ?; apply Hn. by right. } { done. } { by apply Forall_app in Hby as [? _]. } { done. }
  { rewrite app_comm_cons. apply bytes_at_push; [done|lia|rewrite zlen_cons; unfold D; lia|lia]. }
  { rewrite zlen_cons, zlen_app, zlen_cons, zlen_nil. unfold D. lia. } { lia. }
  intros m1 Ht1 Hb1 Hs1. cbn beta iota.
  assert (Hs1' : same_outside m m1 p (p + 2 + zlen s)).
  { eapply same_outside_trans; [exact Hsame|]. eapply same_outside_trans; [apply (same_outside_poke m' p (p + 2 + zlen s) D c); lia|].
    eapply same_outside_weaken; [exact Hs1|lia|lia]. }
  pose proof (same_outside_zlen _ _ _ _ Hs1') as Hlen1.
  assert (Hplain : plain_seg (c :: seg)).
  { split; [done|]. split; [done|]. intros Hin. rewrite app_comm_cons in Hnz. apply Forall_app in Hnz as [Hnz _].
    rewrite Forall_forall in Hnz. apply list_elem_of_In in Hin. by apply (Hnz 0 Hin). }
  assert (Hb2 : bytes_at m1 p (47 :: segs_text (rev stack) ++ c :: seg)).
  { cbn [app] in Hb1. by rewrite <- app_assoc in Hb1. }
  assert (Hlen2 : zlen (47 :: segs_text (rev stack) ++ c :: seg) = D - p + 1 + zlen seg).
  { rewrite zlen_cons, zlen_app, zlen_cons. unfold D. lia. }
  assert (Hpush : forall v, is_byte v -> wp (wr (D + 1 + zlen seg) v) (fun _ m2 => m2 = poke m1 (D + 1 + zlen seg) v /\
       bytes_at m2 p (47 :: segs_text (rev stack) ++ c :: seg ++ [v]) /\ same_outside m m2 p (p + 2 + zlen s)) m1).
  { intros v Hv. apply wp_wr; [lia|]. rewrite wrapu_small by exact Hv. split; [done|]. split.
    - replace (47 :: segs_text (rev stack) ++ c :: seg ++ [v]) with ((47 :: segs_text (rev stack) ++ c :: seg) ++ [v])
        by (cbn; by rewrite <- app_assoc).
      apply bytes_at_push; [done|lia|lia|lia].
    - eapply same_outside_trans; [done|]. apply same_outside_poke; lia. }
  apply wp_bind. destruct Ht as [->|[r ->]].
  - apply cstr_nil_inv in Ht1 as [_ Ht1]. eapply wp_rd'; [done|]. cbn beta. apply wp_bind.
    eapply wp_mono; [by apply Hpush|]. intros [] m2 (_ & Hb3 & Hs2). apply wp_ret. rewrite app_nil_r in *.
    split; [done|]. rewrite <- Hnorm. rewrite (split_seg (c :: seg)) by done. cbn [normalize]. rewrite Hord.
    split; [done|]. split.
    + unfold path_text. rewrite rev_involutive. apply bytes_at_cstr; [done| |].
      * cbn [app]. rewrite <- app_assoc. done.
      * constructor; [done|]. apply Forall_app. split; [apply plain_nonzero; by apply Forall_rev|]. done.
    + by apply Forall_rev, Forall_cons.
  - pose proof Ht1 as (_ & _ & Hsl & Ht2)%cstr_cons. eapply wp_rd'; [done|]. cbn beta. apply wp_bind.
    eapply wp_mono; [by apply Hpush|]. intros [] m2 (-> & Hb3 & Hs2). change (47 =? 0) with false. apply wp_ret.
    rewrite zlen_cons in Hl. cbn [fst snd]. pose proof (zlen_nonneg r). split; [|lia].
    exists ((c :: seg) :: stack), r. cbn [fst snd rev]. rewrite segs_text_snoc.
    rewrite app_comm_cons, last_ordinary_cons in Hlast by done. rewrite app_comm_cons, split_seg_slash in Hnorm by done.
    cbn [normalize] in Hnorm. rewrite Hord in Hnorm.
    apply Forall_app in Hby as [_ [_ Hby]%Forall_cons].
    rewrite zlen_app, zlen_app, !zlen_cons, zlen_nil. split_and!; try done; try (unfold D; lia); try lia.
    + by apply Forall_cons.
    + replace (src + 1 + zlen seg + 1) with (src + 1 + zlen seg + 1) by lia. apply cstr_poke; [done|lia|lia].
Qed.

Lemma ordinary_head c seg : ordinary (c :: seg) = true -> c = 46 ->
  exists a l, seg = a :: l /\ (a = 46 -> exists b k, l = b :: k).
Proof.
  unfold ordinary. intros Ho ->. apply negb_true_iff in Ho.
  destruct seg as [|a l]; [done|]. exists a, l. split; [done|]. intros ->.
  destruct l as [|b k]; [done|eauto].
Qed.

(** The segment tests of lines 1545-1561. *)
Lemma wp_ordinary_test path dst src seg t c m (Q : option ((Z * Z) + Z) -> list Z -> Prop) :
  cstr m src (c :: seg ++ t) -> ~ In 47 (c :: seg) -> ordinary (c :: seg) = true -> Q None m ->
  wp (if c =? ch "." then
         let! c1 := rd (src + 1) in
         if c1 =? ch "/" then ret (Some (inl (dst, src + 2))) else
         if c1 =? 0 then ret (Some (inl (dst, src + 1))) else
         if c1 =? ch "." then
           let! c2 := rd (src + 2) in
           if (c2 =? ch "/") || (c2 =? 0) then
             if dst =? path + 1 then ret (Some (inr (-1))) else
             let! dst := mem_loop (fun dst =>
               let! b := rd (dst - 1 - 1) in
               if b =? ch "/" then ret (inr (dst - 1)) else ret (inl (dst - 1))) dst in
             ret (Some (inl (dst, src + 3)))
           else ret None
         else ret None
       else ret None) Q m.
Proof.
  intros Hs Hn Ho HQ. destruct (Z.eqb_spec c 46) as [->|_]; [|by apply wp_ret].
  destruct (ordinary_head _ _ Ho eq_refl) as (a & l & -> & Hl). cbn [app] in Hs.
  apply cstr_cons in Hs as (_ & _ & _ & Hs). apply cstr_cons in Hs as (_ & Han & Ha & Hs).
  cbn [In] in Hn. apply wp_bind. eapply wp_rd'; [done|]. cbn beta.
  rewrite (proj2 (Z.eqb_neq a 47)), (proj2 (Z.eqb_neq a 0)) by naive_solver.
  destruct (Z.eqb_spec a 46) as [->|_]; [|by apply wp_ret].
  destruct Hl as (b & k & ->); [done|]. cbn [app] in Hs. apply cstr_cons in Hs as (_ & Hbn & Hb & _).
  apply wp_bind. eapply wp_rd'; [by replace (src + 2) with (src + 1 + 1) by lia|]. cbn beta.
  cbn [In] in Hn. rewrite (proj2 (Z.eqb_neq b 47)), (proj2 (Z.eqb_neq b 0)) by naive_solver. by apply wp_ret.
Qed.

Lemma wp_remove_dots m p s (Q : Z -> list Z -> Prop) :
  cstr m p (47 :: s) -> all_bytes s -> last_ordinary s = true ->
  (forall r m', dots_result m p s r m' -> Q r m') ->
  wp (nxweb_remove_dots_from_uri_path p) Q m.
Proof.
  intros Hs Hby Hlast HQ. unfold nxweb_remove_dots_from_uri_path.
  pose proof (cstr_bounds _ _ _ Hs) as [Hp Hb]. rewrite zlen_cons in Hb. pose proof (zlen_nonneg s).
  pose proof Hs as (_ & _ & H0 & Hs1)%cstr_cons. apply wp_bind. eapply wp_rd'; [done|]. cbn.
  eapply wp_mono with (P := dots_result m p s); [|done].
  eapply (wp_mem_loop (dots_inv m p s) (fun x => Z.to_nat (zlen m - x.2))).
  { exists [], s. cbn [fst snd rev]. change (zlen (segs_text [])) with 0. split_and!; try done; try lia.
    by apply bytes_at_cons. }
  { cbn. unfold zlen in *. lia. }
  intros [dst src] m' (stack & rest & Hbt & Hst & Hd & Hr & Hrb & Hle & Hl & Hlo & Hnorm & Hsame). cbn [fst snd] in *.
  pose proof (same_outside_zlen _ _ _ _ Hsame) as Hlen. pose proof (zlen_nonneg (segs_text (rev stack))).
  assert (Hskip : forall k r, rest = k ++ 47 :: r -> ~ In 47 k ->
    normalize (split_slash r) stack = normalize (split_slash rest) stack ->
    dots_inv m p s (dst, src + zlen k + 1) m' /\ (Z.to_nat (zlen m - (src + zlen k + 1)) < Z.to_nat (zlen m - src))%nat).
  { intros k r -> Hk Hnr. apply cstr_app in Hr as (_ & _ & _ & Hr)%cstr_cons. rewrite zlen_app, zlen_cons in Hl.
    pose proof (zlen_nonneg k). pose proof (zlen_nonneg r). split; [|lia].
    exists stack, r. cbn [fst snd]. rewrite last_ordinary_cons in Hlo by done. apply Forall_app in Hrb as [_ [_ Hrb]%Forall_cons].
    split_and!; try done; try lia. by rewrite Hnr. }
  destruct (first_segment rest) as (seg & t & -> & Hn & Ht).
  destruct (ordinary seg) eqn:Ho.
  - destruct seg as [|c seg]; [done|]. pose proof Hr as (_ & Hcn & Hc & Hr1)%cstr_cons.
    apply wp_bind. eapply wp_rd'; [done|]. cbn beta.
    rewrite (proj2 (Z.eqb_neq c 0)), (proj2 (Z.eqb_neq c 47)) by (done || (intros ->; apply Hn; by left)).
    apply wp_bind. eapply wp_ordinary_test; [exact Hr|done|done|]. cbn beta iota.
    eapply wp_copy_step; try done. lia.
  - destruct Ht as [->|[r ->]].
    { rewrite app_nil_r in *. unfold last_ordinary in Hlo. rewrite split_seg in Hlo by done. cbn in Hlo. congruence. }
    assert (Hno : bool_decide (seg = [46; 46]) = false -> normalize (split_slash r) stack = normalize (split_slash (seg ++ 47 :: r)) stack).
    { intros Hb2. rewrite split_seg_slash by done. cbn [normalize]. by rewrite Ho, Hb2. }
    unfold ordinary in Ho. apply negb_false_iff, orb_true_iff in Ho as [[Ho|Ho]%orb_true_iff|Ho];
      apply bool_decide_eq_true in Ho; subst seg.
    + apply cstr_cons in Hr as (_ & _ & Hc & _). apply wp_bind. eapply wp_rd'; [done|]. cbn.
      apply wp_ret. cbn [fst snd]. destruct (Hskip [] r) as [Hi Hm]; [done..|by apply Hno|]. rewrite Z.add_0_r in Hi, Hm. done.
    + cbn [app] in *. apply cstr_cons in Hr as (_ & _ & Hc & Hr). apply cstr_cons in Hr as (_ & _ & Hc1 & _).
      apply wp_bind. eapply wp_rd'; [done|]. cbn. apply wp_bind, wp_bind. eapply wp_rd'; [done|]. cbn.
      do 2 apply wp_ret. cbn [fst snd]. destruct (Hskip [46] r) as [Hi Hm]; [done..|by apply Hno|].
      change (zlen [46]) with 1 in *. replace (src + 2) with (src + 1 + 1) by lia. done.
    + cbn [app] in *. pose proof Hr as (_ & _ & Hc & Hr1)%cstr_cons. apply cstr_cons in Hr1 as (_ & _ & Hc1 & Hr2).
      apply cstr_cons in Hr2 as (_ & _ & Hc2 & Hr3).
      apply wp_bind. eapply wp_rd'; [done|]. cbn. apply wp_bind, wp_bind. eapply wp_rd'; [done|]. cbn.
      apply wp_bind. eapply wp_rd'; [by replace (src + 2) with (src + 1 + 1) by lia|]. cbn.
      rewrite !zlen_cons in Hl. pose proof (zlen_nonneg r).
      change (46 :: 46 :: 47 :: r) with ([46; 46] ++ 47 :: r) in Hnorm, Hlo. rewrite split_seg_slash in Hnorm by done.
      cbn [normalize] in Hnorm. change (ordinary [46; 46]) with false in Hnorm. rewrite bool_decide_true in Hnorm by done.
      destruct stack as [|seg st].
      * change (zlen (segs_text (rev []))) with 0 in Hd. rewrite (proj2 (Z.eqb_eq dst (p + 1))) by lia.
        do 2 apply wp_ret. split; [done|]. by rewrite <- Hnorm.
      * apply Forall_cons in Hst as [Hseg Hst]. pose proof (zlen_nonneg (segs_text (rev st))).
        assert (Hgt : zlen (segs_text (rev (seg :: st))) > 0).
        { cbn [rev]. rewrite segs_text_snoc, !zlen_app. change (zlen [47]) with 1. pose proof (zlen_nonneg seg). lia. }
        rewrite (proj2 (Z.eqb_neq dst (p + 1))) by lia.
        apply wp_bind. rewrite Hd. eapply wp_pop_segment; [done..|]. do 2 apply wp_ret. cbn [fst snd]. split; [|lia].
        exists st, r. cbn [fst snd]. cbn [rev] in *. rewrite segs_text_snoc in *. rewrite !zlen_app in *. change (zlen [47]) with 1 in *.
        pose proof (zlen_nonneg seg).
        rewrite last_ordinary_cons in Hlo by done. do 3 apply Forall_cons in Hrb as [_ Hrb].
        split_and!; try done; try lia.
        -- rewrite app_comm_cons in Hbt. by apply bytes_at_app in Hbt as [? _].
        -- by replace (src + 3) with (src + 1 + 1 + 1) by lia.
Qed.

Lemma HEX_DIGIT_uri n : IS_URI_CHAR (HEX_DIGIT n) = true.
Proof.
  unfold HEX_DIGIT. change 15 with (Z.ones 4). rewrite Z.land_ones by lia. change (2 ^ 4) with 16.
  pose proof (Z.mod_pos_bound n 16 ltac:(lia)) as Hb. generalize dependent (n mod 16). intros v Hb.
  pose proof (byte_cases (fun v => implb (v <? 16) (IS_URI_CHAR (if v <? 10 then v + 48 else v - 10 + 65))) eq_refl v
    ltac:(unfold is_byte; lia)) as Hc.
  cbn beta in Hc. by rewrite (proj2 (Z.ltb_lt v 16)) in Hc by lia.
Qed.
Lemma escape_text_byte url : all_bytes url -> all_bytes (escape_text url).
Proof.
  intros Hu. apply Forall_flat_map. eapply Forall_impl; [exact Hu|]. intros c Hc. unfold escape_char.
  destruct (IS_URI_CHAR c); [by apply Forall_singleton|].
  unfold hex2. repeat (apply Forall_cons; split; [first [apply HEX_DIGIT_spec|done]|]). by apply Forall_nil.
Qed.
Lemma percent_decode_length s : zlen (percent_decode s) <= zlen s.
Proof.
  remember (length s) as n eqn:Hn. revert s Hn. induction (lt_wf n) as [n _ IH]. intros [|c s] Hn; [done|].
  cbn [percent_decode]. cbn in Hn.
  assert (Hrec : forall t, (length t <= length s)%nat -> zlen (percent_decode t) <= zlen t).
  { intros t Ht. eapply IH; [|done]. lia. }
  pose proof (Hrec s ltac:(lia)).
  destruct (c =? 43); [rewrite !zlen_cons; lia|]. destruct (c =? 37); [|rewrite !zlen_cons; lia].
  destruct s as [|a [|b t]]; [rewrite !zlen_cons in *; lia..|]. pose proof (Hrec t ltac:(cbn; lia)). rewrite !zlen_cons. lia.
Qed.

(** * Properties *)

Section properties.
Context `{Alloc}.

(** C22: escaping and decoding are inverse: [_nxb_append_escape_url] appends a
    text of URI characters and percent escapes, at most three times as long as
    the input, and decoding that text in place gives the input back. *)
Theorem escape_url_roundtrip nxb L s url :
  (forall n, 0 < n < 2 ^ 31 -> is_Some (nx_alloc n)) ->
  buffer_ok L s nxb -> cbytes url -> chunk_size (nxb_chunk_ nxb) + zlen s + 3 * zlen url <= 2 ^ 27 ->
  exists e nxb', _nxb_append_escape_url url nxb = Ok (tt, nxb') /\ buffer_ok L (s ++ e) nxb' /\
    Forall (fun c => IS_URI_CHAR c = true \/ c = ch "%") e /\ zlen e <= 3 * zlen url /\
    forall m p, cstr m p e -> exists m', nxweb_url_decode p None m = Ok (None, m') /\ cstr m' p url /\
      same_outside m m' p (p + zlen e + 1).
Proof.
  intros Htot Hok Hurl Hbig. pose proof (zlen_nonneg s). pose proof (zlen_nonneg url).
  pose proof (zlen_nonneg (c_mem (nxb_chunk_ nxb))). unfold chunk_size in Hbig.
  assert (Hub : all_bytes url) by (eapply Forall_impl; [exact Hurl|naive_solver]).
  assert (Hun : Forall (fun c => c <> 0) url) by (eapply Forall_impl; [exact Hurl|naive_solver]).
  pose proof (escape_text_length url).
  assert (Hw : wp (_nxb_append_escape_url url) (fun _ nxb' => buffer_ok L (s ++ escape_text url) nxb') nxb).
  { unfold _nxb_append_escape_url. apply wp_bind. rewrite wraps_small by lia.
    eapply (wp_make_room Htot (chunk_size (nxb_chunk_ nxb)) (zlen s + zlen url * 3) L);
      [unfold chunk_size; lia..|apply buffer_ok_stream; [done|lia]|lia|lia|].
    intros n1 Hs1. eapply wp_escape_loop; [done|lia|lia|]. intros n2 Hs2. by eapply stream_buffer_ok. }
  apply wp_elim in Hw as ([] & nxb' & Hrun & Hok').
  exists (escape_text url), nxb'. split; [done|]. split; [done|].
  assert (Hsafe : Forall (fun c => IS_URI_CHAR c = true \/ c = ch "%") (escape_text url)).
  { apply Forall_flat_map, Forall_forall. intros c _. unfold escape_char.
    destruct (IS_URI_CHAR c) eqn:E; [apply Forall_singleton; by left|].
    unfold hex2. apply Forall_cons; split; [by right|]. repeat (apply Forall_cons; split; [left; apply HEX_DIGIT_uri|]). by apply Forall_nil. }
  split; [done|]. split; [done|]. intros m p Hm.
  assert (Hd : wp (nxweb_url_decode p None) (fun r m' => r = None /\ cstr m' p url /\
                  same_outside m m' p (p + zlen (escape_text url) + 1)) m).
  { eapply wp_url_decode; [done|by apply escape_text_byte|]. intros m' Hm' Hs'.
    split; [done|]. split; [|done]. rewrite percent_decode_escape in Hm' by done.
    apply bytes_at_cstr; [|done..]. apply (cstr_bounds _ _ _ Hm). }
  apply wp_elim in Hd as (r & m' & Hr & -> & ? & ?). eauto.
Qed.

(** C23: [_nxb_append_encode_file_path] makes URIs of up to 76 bytes into
    relative file paths: only letters, digits and [.-_/$] occur, no path segment
    starts with a dot (so no [..] segment is ever formed), and the original can
    be read back, so distinct URIs get distinct paths.  (Beyond 76 bytes the
    room reserved can be too small.) *)
Theorem encode_file_path_safe nxb L s path :
  (forall n, 0 < n < 2 ^ 31 -> is_Some (nx_alloc n)) ->
  buffer_ok L s nxb -> all_bytes path -> zlen path <= 76 -> chunk_size (nxb_chunk_ nxb) + zlen s + 228 <= 2 ^ 27 ->
  exists e nxb', _nxb_append_encode_file_path path nxb = Ok (tt, nxb') /\ buffer_ok L (s ++ e) nxb' /\
    Forall (fun c => path_byte c = true) e /\ no_dot_segment true e = true /\ path_decode e = path.
Proof.
  intros Htot Hok Hp Hl Hbig. pose proof (zlen_nonneg s). pose proof (zlen_nonneg path).
  pose proof (zlen_nonneg (c_mem (nxb_chunk_ nxb))). unfold chunk_size in Hbig.
  pose proof (encode_text_length path 0 ltac:(lia)) as Hel. unfold MAX_PATH_SEGMENT in Hel.
  rewrite (Z.div_small (0 + _)) in Hel by lia.
  assert (Hw : wp (_nxb_append_encode_file_path path) (fun _ nxb' => buffer_ok L (s ++ encode_text path 0) nxb') nxb).
  { unfold _nxb_append_encode_file_path. destruct (Z.eqb_spec (zlen path) 0) as [Hz|Hz].
    - apply wp_ret. destruct path as [|c path]; [|rewrite zlen_cons in Hz; pose proof (zlen_nonneg path); lia].
      cbn. by rewrite app_nil_r.
    - apply wp_bind. unfold MAX_PATH_SEGMENT. rewrite (Z.div_small (zlen path)), wraps_small by lia.
      eapply (wp_make_room Htot (chunk_size (nxb_chunk_ nxb)) (zlen s + 228) L);
        [unfold chunk_size; lia..|apply buffer_ok_stream; [done|lia]|lia|lia|].
      intros n1 Hs1. eapply wp_encode_loop; [done|lia|lia|]. intros n2 Hs2. by eapply stream_buffer_ok. }
  apply wp_elim in Hw as ([] & nxb' & Hrun & Hok').
  exists (encode_text path 0), nxb'. split_and!; try done.
  - by apply encode_text_bytes.
  - by apply (encode_text_no_dots path 0).
  - apply path_decode_encode; [done|unfold MAX_PATH_SEGMENT; lia|lia].
Qed.
End properties.

(** C24: in-place URL decoding terminates on every string, writes only inside
    it, and leaves the decoded bytes with a terminator. *)
Theorem url_decode_in_place (m : list Z) (p : Z) (s : bytes) :
  cstr m p s -> all_bytes s ->
  exists m', nxweb_url_decode p None m = Ok (None, m') /\ bytes_at m' p (percent_decode s ++ [0]) /\
    zlen (percent_decode s) <= zlen s /\ same_outside m m' p (p + zlen s + 1).
Proof.
  intros Hs Hb.
  assert (Hw : wp (nxweb_url_decode p None) (fun r m' => r = None /\ bytes_at m' p (percent_decode s ++ [0]) /\
            same_outside m m' p (p + zlen s + 1)) m) by (by eapply wp_url_decode).
  apply wp_elim in Hw as (r & m' & Hr & -> & ? & ?). exists m'. split_and!; try done. apply percent_decode_length.
Qed.

Lemma url_decode_in_place_witness :
  exists m', nxweb_url_decode 1 None [7; 97; 37; 50; 66; 43; 37; 0; 9] = Ok (None, m') /\
    bytes_at m' 1 (percent_decode [97; 37; 50; 66; 43; 37] ++ [0]) /\
    zlen (percent_decode [97; 37; 50; 66; 43; 37]) <= zlen [97; 37; 50; 66; 43; 37] /\
    same_outside [7; 97; 37; 50; 66; 43; 37; 0; 9] m' 1 (1 + zlen [97; 37; 50; 66; 43; 37] + 1).
Proof.
  apply (url_decode_in_place [7; 97; 37; 50; 66; 43; 37; 0; 9] 1 [97; 37; 50; 66; 43; 37]).
  - repeat (apply cstr_cons; split_and!; [lia|lia|reflexivity|]). by apply cstr_nil.
  - repeat constructor; done.
Defined.

(** C25: when the last segment of an absolute path is an ordinary name, dot
    segment removal in place gives exactly the normalised path: empty and [.]
    segments are dropped, [..] cancels the segment before it, and a path that
    climbs above the root is refused with -1.  No empty, [.] or [..] segment is
    left, and only the string's own bytes are written. *)
Theorem remove_dots_correct (m : list Z) (p : Z) (s : bytes) :
  cstr m p (ch "/" :: s) -> all_bytes s -> last_ordinary s = true ->
  exists r m', nxweb_remove_dots_from_uri_path p m = Ok (r, m') /\
    same_outside m m' p (p + 2 + zlen s) /\
    match normalize (split_slash s) [] with
    | Some segs => r = 0 /\ cstr m' p (path_text segs) /\ Forall plain_seg segs
    | None => r = -1
    end.
Proof.
  intros Hs Hb Hl.
  assert (Hw : wp (nxweb_remove_dots_from_uri_path p) (dots_result m p s) m) by (by eapply wp_remove_dots).
  apply wp_elim in Hw as (r & m' & Hr & Hw1 & Hw2). exists r, m'. done.
Qed.

Lemma remove_dots_correct_witness :
  exists r m', nxweb_remove_dots_from_uri_path 0 (bs "/a/./b//../c" ++ [0]) = Ok (r, m') /\
    same_outside (bs "/a/./b//../c" ++ [0]) m' 0 (0 + 2 + zlen (bs "a/./b//../c")) /\
    match normalize (split_slash (bs "a/./b//../c")) [] with
    | Some segs => r = 0 /\ cstr m' 0 (path_text segs) /\ Forall plain_seg segs
    | None => r = -1
    end.
Proof.
  apply (remove_dots_correct (bs "/a/./b//../c" ++ [0]) 0 (bs "a/./b//../c")).
  - repeat (apply cstr_cons; split_and!; [lia|lia|reflexivity|]). by apply cstr_nil.
  - repeat constructor; done.
  - vm_compute. reflexivity.
Defined.


(** A chunk with exactly the room that encoding [n] percent signs asks for,
    and an object of one byte just above it. *)
Definition tight_buffer (n : Z) : nxb_buffer :=
  let room := n * 3 + n / MAX_PATH_SEGMENT in
  mk_nxb 0 0 room (mk_chunk 0 (replicate (Z.to_nat room) 0 ++ [7]) false true) [] 1.


Lemma escape_url_roundtrip_witness :
  exists e nxb', @_nxb_append_escape_url zero_alloc (bs "a b/%?&") small_buffer = Ok (tt, nxb') /\
    buffer_ok [] ([] ++ e) nxb' /\
    Forall (fun c => IS_URI_CHAR c = true \/ c = ch "%") e /\ zlen e <= 3 * zlen (bs "a b/%?&") /\
    forall m p, cstr m p e -> exists m', nxweb_url_decode p None m = Ok (None, m') /\ cstr m' p (bs "a b/%?&") /\
      same_outside m m' p (p + zlen e + 1).
Proof.
  apply (@escape_url_roundtrip zero_alloc small_buffer [] [] (bs "a b/%?&")).
  - apply zero_alloc_total.
  - apply small_buffer_ok.
  - vm_compute. repeat constructor; done.
  - vm_compute. done.
Defined.

Lemma encode_file_path_safe_witness :
  exists e nxb', @_nxb_append_encode_file_path zero_alloc (bs "/a/../.b?c") small_buffer = Ok (tt, nxb') /\
    buffer_ok [] ([] ++ e) nxb' /\
    Forall (fun c => path_byte c = true) e /\ no_dot_segment true e = true /\ path_decode e = bs "/a/../.b?c".
Proof.
  apply (@encode_file_path_safe zero_alloc small_buffer [] [] (bs "/a/../.b?c")).
  - apply zero_alloc_total.
  - apply small_buffer_ok.
  - repeat constructor; done.
  - vm_compute. done.
  - vm_compute. done.
Defined.
