(* ===== verification/Chunked.v ===== *)
(** Chunked transfer coding (lib/http_utils.c): the streaming decoder that
    compacts a buffer in place, the whole-buffer decoder and verifier, the
    encoder, and the response body writer that drives it
    (lib/nxd_http_server_proto.c). *)
From S2P Require Import Prelude CString.
Open Scope Z_scope.

(** ** The streaming decoder *)

Inductive nxweb_chunked_decoder_state_code := CDS_CR1 | CDS_LF1 | CDS_SIZE | CDS_LF2 | CDS_DATA.
Abbreviation cds := nxweb_chunked_decoder_state_code (only parsing).

#[export] Instance cds_eq_dec : EqDecision nxweb_chunked_decoder_state_code.
Proof. solve_decision. Defined.

Record nxweb_chunked_decoder_state := mk_cds {
  ds_state : nxweb_chunked_decoder_state_code;
  ds_final_chunk : bool;
  ds_monitor_only : bool;
  ds_chunk_bytes_left : Z;
}.

Definition ds_goto (st : cds) (ds : nxweb_chunked_decoder_state) : nxweb_chunked_decoder_state :=
  mk_cds st (ds_final_chunk ds) (ds_monitor_only ds) (ds_chunk_bytes_left ds).
Definition ds_set_left (n : Z) (ds : nxweb_chunked_decoder_state) : nxweb_chunked_decoder_state :=
  mk_cds (ds_state ds) (ds_final_chunk ds) (ds_monitor_only ds) n.
Definition ds_set_final (ds : nxweb_chunked_decoder_state) : nxweb_chunked_decoder_state :=
  mk_cds (ds_state ds) true (ds_monitor_only ds) (ds_chunk_bytes_left ds).

(** Value of a hex digit, as lines 543-546 test it. *)
Definition chunk_hex_digit (c : Z) : option Z :=
  if (ch "0" <=? c) && (c <=? ch "9") then Some (c - ch "0")
  else if (ch "A" <=? c) && (c <=? ch "F") then Some (c - ch "A" + 10)
  else if (ch "a" <=? c) && (c <=? ch "f") then Some (c - ch "a" + 10)
  else None.

(** What a call returns: the return value, the state it leaves and the new
    [*buf_len]. *)
Record decode_result := mk_dr { dr_rc : Z; dr_ds : nxweb_chunked_decoder_state; dr_len : Z }.

(** The loop variables [p], [d], [end]. *)
Record decode_vars := mk_dv { dv_ds : nxweb_chunked_decoder_state; dv_p : Z; dv_d : Z; dv_end : Z }.

Section decoder.
Context (buf buf_len : Z).

(** The body of the loop; [buf_len] keeps its value when only monitoring. *)
Definition decode_chunked_body (v : decode_vars) : M mem (decode_vars + decode_result) :=
  let '(mk_dv ds p d end_) := v in
  let len_if_editing (n : Z) := if ds_monitor_only ds then buf_len else n in
  if negb (p <? end_) then ret (inr (mk_dr 0 ds (len_if_editing (d - buf)))) else
  let! c := rd p in
  match ds_state ds with
  | CDS_DATA =>
      if ds_chunk_bytes_left ds <=? end_ - p then
        let p := p + ds_chunk_bytes_left ds in
        ret (inl (mk_dv (ds_goto CDS_CR1 (ds_set_left 0 ds)) p p end_))
      else
        ret (inr (mk_dr 0 (ds_set_left (ds_chunk_bytes_left ds - (end_ - p)) ds) (len_if_editing (end_ - buf))))
  | CDS_CR1 =>
      if negb (c =? 13) then ret (inr (mk_dr (-1) ds buf_len))
      else ret (inl (mk_dv (ds_goto CDS_LF1 ds) (p + 1) d end_))
  | CDS_LF1 =>
      if negb (c =? 10) then ret (inr (mk_dr (-1) ds buf_len))
      else if ds_final_chunk ds then ret (inr (mk_dr 1 ds (len_if_editing (d - buf))))
      else ret (inl (mk_dv (ds_goto CDS_SIZE ds) (p + 1) d end_))
  | CDS_SIZE =>
      if c =? 13 then
        let ds := if ds_chunk_bytes_left ds =? 0 then ds_set_final ds else ds in
        ret (inl (mk_dv (ds_goto CDS_LF2 ds) (p + 1) d end_))
      else
        match chunk_hex_digit c with
        | None => ret (inr (mk_dr (-1) ds buf_len))
        | Some x =>
            let left := wraps 64 (Z.shiftl (ds_chunk_bytes_left ds) 4 + x) in
            ret (inl (mk_dv (ds_set_left left ds) (p + 1) d end_))
        end
  | CDS_LF2 =>
      if negb (c =? 10) then ret (inr (mk_dr (-1) ds buf_len)) else
      let p := p + 1 in
      if ds_monitor_only ds then ret (inl (mk_dv (ds_goto CDS_DATA ds) p d end_)) else
      do! memmove d p (end_ - p) in
      ret (inl (mk_dv (ds_goto CDS_DATA ds) d d (end_ - (p - d))))
  end.

(** Each byte takes at most two rounds. *)
Definition _nxweb_decode_chunked_stream (decoder_state : nxweb_chunked_decoder_state) : M mem decode_result :=
  fun m => loop (2 * length m + 2) decode_chunked_body (mk_dv decoder_state buf buf (buf + buf_len)) m.
End decoder.

(** ** The whole-buffer decoder and verifier *)

(** [strtol(p, &endp, base)] on a block. *)
Definition strtol_at (p base : Z) : M mem (Z * Z) :=
  let! s := read_str p in
  let '(v, n) := strtol s base in ret (v, p + n).

Definition _nxweb_decode_chunked (buf buf_len : Z) : M mem Z :=
  let buf_end := buf + buf_len in
  mem_loop (fun '(p, d, size) =>
    let! '(v, endp) := strtol_at p 16 in
    let chunk_size := wraps 32 v in
    let! chunk_data := strchr endp 10 in
    match chunk_data with
    | None => ret (inr (-1))
    | Some chunk_data =>
        let chunk_data := chunk_data + 1 in
        if chunk_size =? 0 then do! wr d 0 in ret (inr size) else
        let p := chunk_data + chunk_size + 2 in
        if buf_end <=? p then ret (inr (-1)) else
        let! c1 := rd (p - 2) in
        let! bad := (if negb (c1 =? 13) then ret true else let! c2 := rd (p - 1) in ret (negb (c2 =? 10))) in
        if bad : bool then ret (inr (-1)) else
        do! memmove d chunk_data chunk_size in
        ret (inl (p, d + chunk_size, size + chunk_size))
    end) (buf, buf, 0).

Definition _nxweb_verify_chunked (buf buf_len : Z) : M mem Z :=
  let buf_end := buf + buf_len in
  mem_loop (fun '(p, size) =>
    let! '(v, endp) := strtol_at p 16 in
    let chunk_size := wraps 32 v in
    let! chunk_data := strchr endp 10 in
    match chunk_data with
    | None => ret (inr (-1))
    | Some chunk_data =>
        let chunk_data := chunk_data + 1 in
        if chunk_size =? 0 then ret (inr size) else
        let p := chunk_data + chunk_size + 2 in
        if buf_end <=? p then ret (inr (-1)) else
        let! c1 := rd (p - 2) in
        let! bad := (if negb (c1 =? 13) then ret true else let! c2 := rd (p - 1) in ret (negb (c2 =? 10))) in
        if bad : bool then ret (inr (-1)) else
        ret (inl (p, size + chunk_size))
    end) (buf, 0).

(** ** The encoder *)

Record nxweb_chunked_encoder_state := mk_ces {
  es_final_chunk : bool;
  es_header_prepared : bool;
  es_chunk_size : Z;
  es_pos : Z;
  es_buf : bytes;
}.

Definition CRLF : bytes := [13; 10].
Definition empty_header : bytes := CRLF ++ bs "0000" ++ CRLF.

Definition _nxweb_encode_chunked_init : nxweb_chunked_encoder_state := mk_ces false false 0 2 empty_header.

(** [uint_to_hex_string_zeropad(n, buf, 4, 0)] as text. *)
Definition hex4 (n : Z) : bytes :=
  [HEX_DIGIT (n / 16 / 16 / 16); HEX_DIGIT (n / 16 / 16); HEX_DIGIT (n / 16); HEX_DIGIT n].

(** [memcpy] into the middle of [buf]. *)
Definition buf_put (at_ : nat) (s : bytes) (b : bytes) : bytes := take at_ b ++ s ++ drop (at_ + length s) b.

(** The out parameters of [_nxweb_encode_chunked_stream]. *)
Record encode_out := mk_eo {
  eo_ret : bool;
  eo_offered : Z;
  eo_send : bytes;     (* [*send_size] bytes at [*send_ptr] *)
  eo_eof : bool;       (* NXEF_EOF of [*flags] *)
}.

Definition send_part (es : nxweb_chunked_encoder_state) (upto : Z) : bytes :=
  take (Z.to_nat (upto - es_pos es)) (drop (Z.to_nat (es_pos es)) (es_buf es)).

Definition _nxweb_encode_chunked_stream (offered_size : Z) (eof : bool) : M nxweb_chunked_encoder_state encode_out :=
  let! es := get in
  if es_final_chunk es then
    do! assert_ eof in
    ret (mk_eo true offered_size (send_part es 7) eof)
  else if (es_pos es <=? 2) && negb (es_header_prepared es) then
    if offered_size =? 0 then
      if eof then
        let es := mk_ces true (es_header_prepared es) (es_chunk_size es) (es_pos es) (buf_put 2 (bs "0" ++ CRLF ++ CRLF) (es_buf es)) in
        do! put es in
        ret (mk_eo true offered_size (send_part es 7) eof)
      else
        let s := send_part es 2 in
        ret (mk_eo (negb (zlen s =? 0)) offered_size s eof)
    else
      let offered_size := if 65535 <? offered_size then 65535 else offered_size in
      let b := buf_put 2 (hex4 offered_size) (es_buf es) in
      let es := mk_ces false true offered_size (es_pos es) b in
      do! put es in
      ret (mk_eo true offered_size (send_part es 8) false)
  else if es_pos es <? 8 then
    do! assert_ (es_chunk_size es <=? offered_size) in
    let offered_size := if es_chunk_size es <? offered_size then es_chunk_size es else offered_size in
    ret (mk_eo true offered_size (send_part es 8) false)
  else
    let chunk_bytes_left := es_chunk_size es - (es_pos es - 8) in
    do! assert_ (chunk_bytes_left <=? offered_size) in
    let offered_size := if chunk_bytes_left <? offered_size then chunk_bytes_left else offered_size in
    ret (mk_eo false offered_size [] false).

Definition _nxweb_encode_chunked_advance (pos_delta : Z) (es : nxweb_chunked_encoder_state) : nxweb_chunked_encoder_state :=
  if pos_delta =? 0 then es else
  let pos := es_pos es + pos_delta in
  if pos =? 8 + es_chunk_size es
  then mk_ces (es_final_chunk es) false (es_chunk_size es) 0 (es_buf es)
  else mk_ces (es_final_chunk es) (es_header_prepared es) (es_chunk_size es) pos (es_buf es).

Definition _nxweb_encode_chunked_is_complete (es : nxweb_chunked_encoder_state) : bool :=
  es_final_chunk es && (es_pos es =? 7).

(** ** The response body writer, the chunked branch of
    [resp_body_in_write_or_sendfile]

    [S] is the state of the program around it: [os_write] sends bytes to the
    ostream at the other end and [os_write_data n] the first [n] bytes of the
    data that is offered; both return how many were accepted. *)
Section write_chunked.
Context {S : Type} (on_es : forall A, M nxweb_chunked_encoder_state A -> M S A).
Context (os_write : bytes -> M S Z) (os_write_data : Z -> M S Z).

Definition es_advance (n : Z) : M S unit := on_es _ (modify (_nxweb_encode_chunked_advance n)).

(** [size] bytes are offered; returns [bytes_sent]. *)
Definition write_chunked (size : Z) (eof : bool) : M S Z :=
  let! o := on_es _ (_nxweb_encode_chunked_stream size eof) in
  let chunk_size := eo_offered o in
  let! skip := (if eo_ret o then
                  let! cbs := os_write (eo_send o) in
                  do! es_advance cbs in ret (negb (cbs =? zlen (eo_send o)))
                else ret false) in
  let! '(bytes_sent, skip) :=
    (if negb skip && negb (chunk_size =? 0) then
       let! bytes_sent := os_write_data chunk_size in
       do! es_advance bytes_sent in ret (bytes_sent, negb (bytes_sent =? chunk_size))
     else ret (0, skip)) in
  do! (if skip : bool then ret tt else
       let cwf := if chunk_size =? size then eof else false in
       let! o := on_es _ (_nxweb_encode_chunked_stream 0 cwf) in
       if eo_ret o then
         let! cbs := os_write (eo_send o) in es_advance cbs
       else ret tt) in
  ret bytes_sent.
End write_chunked.

(** The writer alone: of each write the other end accepts some bytes, [accept
    k n] of the [n] offered in its [k]-th; [w_out] collects what it got. *)
Record writer := mk_writer { w_es : nxweb_chunked_encoder_state; w_out : bytes; w_calls : nat }.

Definition on_es {A} (c : M nxweb_chunked_encoder_state A) : M writer A := fun w =>
  match c (w_es w) with
  | Ok (a, es) => Ok (a, mk_writer es (w_out w) (w_calls w))
  | Err e => Err e
  end.

Section writer.
Context (accept : nat -> Z -> Z).

Definition os_write (s : bytes) : M writer Z := fun w =>
  let n := accept (w_calls w) (zlen s) in
  Ok (n, mk_writer (w_es w) (w_out w ++ take (Z.to_nat n) s) (S (w_calls w))).

Definition resp_body_write_chunked (data : bytes) (eof : bool) : M writer Z :=
  write_chunked (@on_es) os_write (fun n => os_write (take (Z.to_nat n) data)) (zlen data) eof.
End writer.
#[local] Abbreviation advance := (es_advance (@on_es)).

(** * The decoder as a machine on bytes *)

(** One byte: the next state, the content bytes produced, and whether to go on
    (0), stop with the final chunk (1), fail (-1), or report a chunk size that
    does not fit [nxe_ssize_t] (-2). *)
Record astate := mk_as { a_st : cds; a_final : bool; a_left : Z }.

Definition control_step (a : astate) (c : Z) : astate * bytes * Z :=
  match a_st a with
  | CDS_DATA | CDS_CR1 => if c =? 13 then (mk_as CDS_LF1 (a_final a) 0, [], 0) else (a, [], -1)
  | CDS_LF1 =>
      if c =? 10 then
        if a_final a then (a, [], 1) else (mk_as CDS_SIZE false (a_left a), [], 0)
      else (a, [], -1)
  | CDS_SIZE =>
      if c =? 13 then (mk_as CDS_LF2 ((a_left a =? 0) || a_final a) (a_left a), [], 0)
      else match chunk_hex_digit c with
           | None => (a, [], -1)
           | Some x => if a_left a * 16 + x <? 2 ^ 63 then (mk_as CDS_SIZE (a_final a) (a_left a * 16 + x), [], 0)
                       else (a, [], -2)
           end
  | CDS_LF2 => if c =? 10 then (mk_as CDS_DATA (a_final a) (a_left a), [], 0) else (a, [], -1)
  end.

Definition astep (a : astate) (c : Z) : astate * bytes * Z :=
  match a_st a with
  | CDS_DATA =>
      if 0 <? a_left a
      then (mk_as (if a_left a =? 1 then CDS_CR1 else CDS_DATA) (a_final a) (a_left a - 1), [c], 0)
      else control_step a c
  | _ => control_step a c
  end.

Fixpoint arun (a : astate) (input : bytes) : astate * bytes * Z :=
  match input with
  | [] => (a, [], 0)
  | c :: input =>
      let '(a, o, r) := astep a c in
      if r =? 0 then let '(a, o', r) := arun a input in (a, o ++ o', r) else (a, o, r)
  end.

Lemma arun_app a x y :
  arun a (x ++ y) =
  (let '(a1, o1, r1) := arun a x in
   if r1 =? 0 then let '(a2, o2, r2) := arun a1 y in (a2, o1 ++ o2, r2) else (a1, o1, r1)).
Proof.
  revert a. induction x as [|c x IH]; intros a; cbn [app arun].
  - cbn. by destruct (arun a y) as [[? ?] ?].
  - destruct (astep a c) as [[a1 o1] r1]. destruct (Z.eqb_spec r1 0) as [->|Hne].
    + rewrite IH. destruct (arun a1 x) as [[a2 o2] r2]. destruct (r2 =? 0); [|done].
      destruct (arun a2 y) as [[? ?] ?]. by rewrite app_assoc.
    + by rewrite (proj2 (Z.eqb_neq r1 0) Hne).
Qed.

(** Data bytes are copied as they are. *)
Lemma arun_data f n x :
  zlen x < n -> arun (mk_as CDS_DATA f n) x = (mk_as CDS_DATA f (n - zlen x), x, 0).
Proof.
  revert n. induction x as [|c x IH]; intros n Hn; cbn [arun].
  - change (zlen (@nil Z)) with 0. by rewrite Z.sub_0_r.
  - rewrite zlen_cons in Hn. pose proof (zlen_nonneg x). unfold astep. cbn [a_st a_left a_final].
    rewrite (proj2 (Z.ltb_lt 0 n)), (proj2 (Z.eqb_neq n 1)) by lia. cbn [Z.eqb].
    rewrite IH by lia. rewrite zlen_cons. do 2 f_equal. f_equal. lia.
Qed.
Lemma arun_data_all f n x :
  zlen x = n -> 0 < n -> arun (mk_as CDS_DATA f n) x = (mk_as CDS_CR1 f 0, x, 0).
Proof.
  intros Hl Hn. destruct (exists_last (l := x)) as (y & c & ->); [intros ->; change (zlen (@nil Z)) with 0 in Hl; lia|].
  rewrite zlen_app in Hl. change (zlen [c]) with 1 in Hl. rewrite arun_app, arun_data by lia. cbn [Z.eqb].
  replace (n - zlen y) with 1 by lia. reflexivity.
Qed.

Lemma chunk_hex_digit_bound c x : chunk_hex_digit c = Some x -> 0 <= x < 16.
Proof.
  unfold chunk_hex_digit. destruct (_ && _) eqn:E1; [intros [= <-]; blia|].
  destruct ((65 <=? c) && _) eqn:E2; [intros [= <-]; blia|].
  destruct ((97 <=? c) && _) eqn:E3; [intros [= <-]; blia|done].
Qed.

(** States the decoder can be in between calls. *)
Definition a_ok (a : astate) : Prop :=
  0 <= a_left a < 2 ^ 63 /\ (a_st a = CDS_CR1 \/ a_st a = CDS_LF1 -> a_left a = 0).

Definition ds_of (mon : bool) (a : astate) : nxweb_chunked_decoder_state := mk_cds (a_st a) (a_final a) mon (a_left a).

(** The code's state [a'] runs ahead of the machine's [a] between two rounds
    when a chunk has no bytes left and more input follows. *)
Definition ahead (a a' : astate) (y : bytes) : Prop :=
  a' = a \/ (a_st a = CDS_DATA /\ a_left a = 0 /\ a' = mk_as CDS_CR1 (a_final a) 0 /\ y <> []).

Lemma a_ok_step a c a1 o r : a_ok a -> astep a c = (a1, o, r) -> r = 0 -> a_ok a1.
Proof.
  unfold a_ok, astep, control_step. intros [Hb Hc] Ha ->. destruct a as [st f n]. cbn in *.
  destruct st; cbn in *; try (destruct (0 <? n) eqn:E0);
    repeat (match type of Ha with context [if ?b then _ else _] => destruct b eqn:? end; cbn in * );
    try (destruct (chunk_hex_digit c) as [x|] eqn:Ex; [apply chunk_hex_digit_bound in Ex|];
         try (destruct (n * 16 + x <? 2 ^ 63) eqn:?));
    simplify_eq; cbn; try (bool_to_prop; split; [lia|intros [?|?]; done || lia]);
    bool_to_prop; try (split; [lia|intros [?|?]; try done; try lia; naive_solver]).
Qed.
Lemma arun_ok a x a1 o : a_ok a -> arun a x = (a1, o, 0) -> a_ok a1.
Proof.
  revert a a1 o. induction x as [|c x IH]; intros a a1 o Ha Hr; cbn [arun] in Hr; [by simplify_eq|].
  destruct (astep a c) as [[a2 o2] r2] eqn:E. destruct (Z.eqb_spec r2 0) as [->|]; [|by simplify_eq].
  destruct (arun a2 x) as [[a3 o3] r3] eqn:E3. simplify_eq. eapply IH; [|exact E3]. by eapply a_ok_step.
Qed.

Section refinement.
Context (m : list Z) (buf : Z) (a0 : astate) (input : bytes) (mon : bool).
Context (Hbuf : 0 <= buf) (Hin : bytes_at m buf input) (Hlen : buf + zlen input <= zlen m) (Hok0 : a_ok a0).
Context (Hno : snd (arun a0 input) <> -2).

(** Between rounds: [x] has been read, giving [o]; [y] is left at [p]. *)
Definition dec_inv (v : decode_vars) (m' : list Z) : Prop :=
  exists x y a a' o, input = x ++ y /\ arun a0 x = (a, o, 0) /\ a_ok a /\ ahead a a' y /\ dv_ds v = ds_of mon a' /\
    bytes_at m' (dv_p v) y /\ dv_end v = dv_p v + zlen y /\ buf <= dv_p v /\ dv_end v <= buf + zlen input /\
    same_outside m m' buf (buf + zlen input) /\
    (if mon then m' = m
     else bytes_at m' buf o /\ dv_d v = buf + zlen o /\ dv_d v <= dv_p v /\ (a_st a = CDS_DATA -> dv_p v = dv_d v)).

Definition dec_measure (v : decode_vars) : nat :=
  (2 * Z.to_nat (dv_end v - dv_p v) + match ds_state (dv_ds v) with CDS_DATA => 1 | _ => 0 end)%nat.

Definition dec_post (r : decode_result) (m' : list Z) : Prop :=
  let '(a, o, rc) := arun a0 input in
  dr_rc r = rc /\ same_outside m m' buf (buf + zlen input) /\ (mon = true -> m' = m) /\
  (rc <> -1 -> dr_ds r = ds_of mon a /\
     if mon then dr_len r = zlen input else dr_len r = zlen o /\ bytes_at m' buf o).

(** The machine reads one byte [c]. *)
Lemma arun_step x c y a o a1 o1 r1 :
  input = x ++ c :: y -> arun a0 x = (a, o, 0) -> astep a c = (a1, o1, r1) ->
  (r1 = 0 -> arun a0 (x ++ [c]) = (a1, o ++ o1, 0)) /\ (r1 <> 0 -> arun a0 input = (a1, o ++ o1, r1)).
Proof.
  intros -> Hx Ha. split; intros Hr; rewrite arun_app, Hx; cbn [Z.eqb arun]; rewrite Ha.
  - subst r1. cbn. by rewrite app_nil_r.
  - by rewrite (proj2 (Z.eqb_neq r1 0) Hr).
Qed.

(** A control byte: nothing is produced, [p] moves on. *)
Lemma dec_inv_control x c y a a' o p d end_ m' a1 :
  input = x ++ c :: y -> arun a0 x = (a, o, 0) -> astep a c = (a1, [], 0) -> a_ok a1 ->
  bytes_at m' p (c :: y) -> end_ = p + zlen (c :: y) -> buf <= p -> end_ <= buf + zlen input ->
  same_outside m m' buf (buf + zlen input) -> a_st a' <> CDS_DATA -> a_st a1 <> CDS_DATA ->
  (if mon then m' = m else bytes_at m' buf o /\ d = buf + zlen o /\ d <= p /\ (a_st a = CDS_DATA -> p = d)) ->
  dec_inv (mk_dv (ds_of mon a1) (p + 1) d end_) m' /\
  (dec_measure (mk_dv (ds_of mon a1) (p + 1) d end_) < dec_measure (mk_dv (ds_of mon a') p d end_))%nat.
Proof.
  intros Hinp Hx Ha Ho1 Hb -> Hp He Hs Hna' Hna Hm. apply bytes_at_cons in Hb as [Hc Hb].
  destruct (arun_step _ _ _ _ _ _ _ _ Hinp Hx Ha) as [Hrun _]. specialize (Hrun eq_refl). rewrite app_nil_r in Hrun.
  rewrite zlen_cons in *. pose proof (zlen_nonneg y). split.
  - exists (x ++ [c]), y, a1, a1, o. cbn [dv_ds dv_p dv_d dv_end]. split_and!; try done; try lia.
    + by rewrite <- app_assoc.
    + by left.
    + destruct mon; [done|]. destruct Hm as (? & ? & ? & ?). split_and!; try done. lia.
  - unfold dec_measure. cbn. destruct (a_st a1); try done; destruct (a_st a'); try done; lia.
Qed.

Lemma dec_post_stop r m' a o rc :
  arun a0 input = (a, o, rc) -> dr_rc r = rc -> same_outside m m' buf (buf + zlen input) -> (mon = true -> m' = m) ->
  (rc <> -1 -> dr_ds r = ds_of mon a /\ if mon then dr_len r = zlen input else dr_len r = zlen o /\ bytes_at m' buf o) ->
  dec_post r m'.
Proof. intros Hrun H1 H2 H3 H4. unfold dec_post. rewrite Hrun. done. Qed.

Definition round_post (v : decode_vars) (r : decode_vars + decode_result) (m' : list Z) : Prop :=
  match r with
  | inl v' => dec_inv v' m' /\ (dec_measure v' < dec_measure v)%nat
  | inr r => dec_post r m'
  end.

(** Moving to CR1 without reading, when the chunk has no bytes left. *)
Lemma round_skip x c y a o p d end_ m' :
  input = x ++ c :: y -> arun a0 x = (a, o, 0) -> a_ok a -> a_st a = CDS_DATA -> a_left a = 0 ->
  bytes_at m' p (c :: y) -> end_ = p + zlen (c :: y) -> buf <= p -> end_ <= buf + zlen input ->
  same_outside m m' buf (buf + zlen input) ->
  (if mon then m' = m else bytes_at m' buf o /\ d = buf + zlen o /\ d <= p /\ (a_st a = CDS_DATA -> p = d)) ->
  round_post (mk_dv (ds_of mon a) p d end_) (inl (mk_dv (ds_of mon (mk_as CDS_CR1 (a_final a) 0)) p p end_)) m'.
Proof.
  intros Hinp Hx Hok Hst Hl Hb He Hp Hend Hs Hm. split.
  - exists x, (c :: y), a, (mk_as CDS_CR1 (a_final a) 0), o. cbn [dv_ds dv_p dv_d dv_end]. split_and!; try done.
    + right. done.
    + destruct mon; [done|]. destruct Hm as (? & -> & ? & Hpd). rewrite <- (Hpd Hst). done.
  - unfold dec_measure. cbn. rewrite Hst. cbn. lia.
Qed.

(** Taking the data at hand: the rest of the chunk, or all there is. *)
Lemma round_data x y a o p d end_ m' :
  input = x ++ y -> arun a0 x = (a, o, 0) -> a_ok a -> a_st a = CDS_DATA -> 0 < a_left a -> a_left a <= zlen y ->
  bytes_at m' p y -> end_ = p + zlen y -> buf <= p -> end_ <= buf + zlen input ->
  same_outside m m' buf (buf + zlen input) ->
  (if mon then m' = m else bytes_at m' buf o /\ d = buf + zlen o /\ d <= p /\ (a_st a = CDS_DATA -> p = d)) ->
  round_post (mk_dv (ds_of mon a) p d end_)
    (inl (mk_dv (ds_of mon (mk_as CDS_CR1 (a_final a) 0)) (p + a_left a) (p + a_left a) end_)) m'.
Proof.
  intros Hinp Hx Hok Hst Hl0 Hl Hb -> Hp Hend Hs Hm.
  rewrite <- (take_drop (Z.to_nat (a_left a)) y) in Hb, Hinp.
  set (y1 := take _ y) in *. set (y2 := drop _ y) in *.
  assert (Hy1 : zlen y1 = a_left a) by (unfold y1; apply zlen_take; lia).
  assert (Hy2 : zlen y2 = zlen y - a_left a) by (unfold y2; apply zlen_drop; lia).
  apply bytes_at_app in Hb as [Hb1 Hb2]. rewrite Hy1 in Hb2.
  assert (Hrun : arun a0 (x ++ y1) = (mk_as CDS_CR1 (a_final a) 0, o ++ y1, 0)).
  { rewrite arun_app, Hx. cbn [Z.eqb]. destruct a as [st f n]. cbn in *. subst st. by rewrite arun_data_all by lia. }
  split.
  - exists (x ++ y1), y2, (mk_as CDS_CR1 (a_final a) 0), (mk_as CDS_CR1 (a_final a) 0), (o ++ y1).
    cbn [dv_ds dv_p dv_d dv_end]. split_and!; try done; try lia.
    + by rewrite <- app_assoc.
    + by left.
    + destruct mon; [done|]. destruct Hm as (Hbo & -> & _ & Hpd). rewrite (Hpd Hst) in *.
      rewrite zlen_app. split_and!; try lia. apply bytes_at_app. done.
  - unfold dec_measure. cbn. rewrite Hst. cbn. lia.
Qed.

(** The data run out inside the chunk. *)
Lemma round_data_short x y a o p d m' :
  input = x ++ y -> arun a0 x = (a, o, 0) -> a_ok a -> a_st a = CDS_DATA -> zlen y < a_left a ->
  bytes_at m' p y -> same_outside m m' buf (buf + zlen input) ->
  (if mon then m' = m else bytes_at m' buf o /\ d = buf + zlen o /\ d <= p /\ (a_st a = CDS_DATA -> p = d)) ->
  dec_post (mk_dr 0 (ds_of mon (mk_as CDS_DATA (a_final a) (a_left a - zlen y)))
              (if mon then zlen input else p + zlen y - buf)) m'.
Proof.
  intros Hinp Hx Hok Hst Hl Hb Hs Hm.
  assert (Hrun : arun a0 input = (mk_as CDS_DATA (a_final a) (a_left a - zlen y), o ++ y, 0)).
  { rewrite Hinp, arun_app, Hx. cbn [Z.eqb]. destruct a as [st f n]. cbn in *. subst st. by rewrite arun_data by lia. }
  eapply dec_post_stop; [exact Hrun|done|done|by destruct mon|]. intros _. cbn. split; [done|].
  destruct mon; [done|]. destruct Hm as (Hbo & -> & _ & Hpd). rewrite (Hpd Hst) in *. rewrite zlen_app.
  split; [lia|]. by apply bytes_at_app.
Qed.

(** Closing a chunk header: what is left is moved down to follow the output. *)
Lemma wp_round_lf2 x y a o p d end_ m' :
  input = x ++ 10 :: y -> arun a0 x = (a, o, 0) -> a_ok a -> a_st a = CDS_LF2 ->
  bytes_at m' p (10 :: y) -> end_ = p + zlen (10 :: y) -> buf <= p -> end_ <= buf + zlen input ->
  same_outside m m' buf (buf + zlen input) ->
  (if mon then m' = m else bytes_at m' buf o /\ d = buf + zlen o /\ d <= p /\ (a_st a = CDS_DATA -> p = d)) ->
  wp (if mon then ret (inl (mk_dv (ds_of mon (mk_as CDS_DATA (a_final a) (a_left a))) (p + 1) d end_)) else
      do! memmove d (p + 1) (end_ - (p + 1)) in
      ret (inl (mk_dv (ds_of mon (mk_as CDS_DATA (a_final a) (a_left a))) d d (end_ - (p + 1 - d)))))
     (round_post (mk_dv (ds_of mon a) p d end_)) m'.
Proof.
  intros Hinp Hx Hok Hst Hb -> Hp Hend Hs Hm. apply bytes_at_cons in Hb as [_ Hb]. rewrite zlen_cons in *.
  pose proof (zlen_nonneg y). pose proof (zlen_nonneg o). pose proof (same_outside_zlen _ _ _ _ Hs) as Hl.
  assert (Ha : astep a 10 = (mk_as CDS_DATA (a_final a) (a_left a), [], 0)).
  { unfold astep, control_step. by rewrite Hst. }
  destruct (arun_step _ _ _ _ _ _ _ _ Hinp Hx Ha) as [Hrun _]. specialize (Hrun eq_refl). rewrite app_nil_r in Hrun.
  pose proof (a_ok_step _ _ _ _ _ Hok Ha eq_refl) as Hok1.
  assert (Hmeas : forall q d e, e - q = zlen y ->
    (dec_measure (mk_dv (ds_of mon (mk_as CDS_DATA (a_final a) (a_left a))) q d e) <
     dec_measure (mk_dv (ds_of mon a) p d (p + (1 + zlen y))))%nat).
  { intros q d' e He. unfold dec_measure. cbn. rewrite Hst, He. cbn. lia. }
  unfold round_post, dec_inv. destruct mon.
  - subst m'. apply wp_ret. split; [|apply Hmeas; lia].
    exists (x ++ [10]), y, (mk_as CDS_DATA (a_final a) (a_left a)), (mk_as CDS_DATA (a_final a) (a_left a)), o.
    cbn [dv_ds dv_p dv_d dv_end]. split_and!; try done; try lia; [by rewrite <- app_assoc|by left].
  - destruct Hm as (Hbo & -> & Hdp & _). apply wp_bind. unfold memmove. apply wp_bind.
    apply wp_read_bytes; [lia|lia|lia|]. intros z Hz Hzl.
    assert (z = y) as -> by (eapply bytes_at_inj; [exact Hz|done|lia]).
    apply wp_write_bytes; [lia|lia|]. intros m2 Hm2 Hs2. apply wp_ret.
    assert (Hmeas' := Hmeas (buf + zlen o) (buf + zlen o) (p + (1 + zlen y) - (p + 1 - (buf + zlen o))) ltac:(lia)).
    split; [|done].
    exists (x ++ [10]), y, (mk_as CDS_DATA (a_final a) (a_left a)), (mk_as CDS_DATA (a_final a) (a_left a)), o.
    cbn [dv_ds dv_p dv_d dv_end]. split_and!; try done; try lia; [by rewrite <- app_assoc|by left| |].
    + eapply same_outside_trans; [exact Hs|]. eapply same_outside_weaken; [exact Hs2|lia|lia].
    + eapply same_outside_bytes_at; [exact Hs2|done|lia].
Qed.

(** A byte that is not what the state expects. *)
Lemma dec_post_reject x c y a o m' ds n :
  input = x ++ c :: y -> arun a0 x = (a, o, 0) -> snd (astep a c) = -1 ->
  same_outside m m' buf (buf + zlen input) -> (mon = true -> m' = m) -> dec_post (mk_dr (-1) ds n) m'.
Proof.
  intros Hinp Hx Ha Hs Hm. destruct (astep a c) as [[a1 o1] r1] eqn:E. cbn in Ha. subst r1.
  destruct (arun_step _ _ _ _ _ _ _ _ Hinp Hx E) as [_ Hrun]. specialize (Hrun ltac:(lia)).
  eapply dec_post_stop; [exact Hrun|done|done|done|done].
Qed.

Lemma wp_round v m' : dec_inv v m' -> wp (decode_chunked_body buf (zlen input) v) (round_post v) m'.
Proof.
  destruct v as [ds p d end_]. intros (x & y & a & a' & o & Hinp & Hx & Hok & Hah & Hds & Hb & He & Hp & Hend & Hs & Hm).
  cbn [dv_ds dv_p dv_d dv_end] in *. subst ds. pose proof (same_outside_zlen _ _ _ _ Hs) as Hl.
  unfold decode_chunked_body. destruct (Z.ltb_spec p end_) as [Hlt|Hge]; cbn [negb]; cycle 1.
  { (* everything was read *)
    assert (y = []) as -> by (destruct y; [done|rewrite zlen_cons in He; pose proof (zlen_nonneg y); lia]).
    destruct Hah as [->|(_ & _ & _ & ?)]; [|done]. rewrite app_nil_r in Hinp.
    apply wp_ret. cbn. eapply dec_post_stop; [rewrite Hinp; exact Hx|done|done|by destruct mon|].
    intros _. split; [done|]. cbn. destruct mon; [done|]. destruct Hm as (? & -> & _). split; [lia|done]. }
  destruct y as [|c y]; [change (zlen (@nil Z)) with 0 in He; lia|].
  pose proof Hb as [Hc Hb']%bytes_at_cons. apply wp_bind. eapply wp_rd'; [exact Hc|]. cbn beta.
  assert (Hmm : mon = true -> m' = m) by (by intros ->).
  rewrite zlen_cons in He. pose proof (zlen_nonneg y).
  (* the machine's state behaves as the code's on the next byte *)
  assert (Hsame : a_st a' <> CDS_DATA -> astep a c = control_step (mk_as (a_st a') (a_final a') (a_left a')) c \/ snd (astep a c) = -1).
  { destruct Hah as [->|(Hst & Hle & -> & _)]; intros Hnd.
    - left. unfold astep, control_step. destruct a as [[] ? ?]; done.
    - unfold astep, control_step. rewrite Hst, Hle. cbn. destruct (c =? 13); [by left|by right]. }
  assert (Hrej : snd (control_step (mk_as (a_st a') (a_final a') (a_left a')) c) = -1 -> a_st a' <> CDS_DATA ->
            forall n, dec_post (mk_dr (-1) (ds_of mon a') n) m').
  { intros Hr Hnd n. eapply dec_post_reject; [exact Hinp|exact Hx| |done|done]. by destruct (Hsame Hnd) as [->|?]. }
  assert (Hgo : forall a1, control_step (mk_as (a_st a') (a_final a') (a_left a')) c = (a1, [], 0) -> a_st a' <> CDS_DATA ->
            a_st a1 <> CDS_DATA -> astep a c = (a1, [], 0) ->
            round_post (mk_dv (ds_of mon a') p d end_) (inl (mk_dv (ds_of mon a1) (p + 1) d end_)) m').
  { intros a1 Hcs Hnd Hnd1 Hst. eapply dec_inv_control; [exact Hinp|exact Hx|exact Hst|by eapply a_ok_step|exact Hb|rewrite zlen_cons; lia|done|done|done|done|done|done]. }
  change (ds_state (ds_of mon a')) with (a_st a'). change (ds_final_chunk (ds_of mon a')) with (a_final a').
  change (ds_chunk_bytes_left (ds_of mon a')) with (a_left a'). change (ds_monitor_only (ds_of mon a')) with mon.
  destruct (a_st a') eqn:Est.
  - (* CR1 *) unfold control_step in *. cbn [a_st a_final a_left] in *.
    destruct (Z.eqb_spec c 13) as [->|Hne]; cbn [negb]; apply wp_ret.
    + cbn in Hsame.
      assert (Hst : astep a 13 = (mk_as CDS_LF1 (a_final a') 0, [], 0)).
      { destruct Hah as [->|(H1 & H2 & -> & _)]; unfold astep, control_step; [by rewrite Est|by rewrite H1, H2]. }
      assert (H0 : a_left a' = 0).
      { destruct Hah as [->|(_ & _ & -> & _)]; [|done]. apply (proj2 Hok). by left. }
      change (ds_goto CDS_LF1 (ds_of mon a')) with (ds_of mon (mk_as CDS_LF1 (a_final a') (a_left a'))). rewrite H0.
      apply (Hgo (mk_as CDS_LF1 (a_final a') 0)); done.
    + apply Hrej; done.
  - (* LF1 *) destruct Hah as [->|(_ & _ & -> & _)]; [|done].
    assert (Heq : astep a c = control_step a c) by (unfold astep; by rewrite Est).
    unfold control_step in *. cbn [a_st a_final a_left] in *. rewrite Est in Heq.
    destruct (Z.eqb_spec c 10) as [->|Hne]; cbn [negb]; [|apply wp_ret; apply Hrej; done].
    destruct (a_final a) eqn:Ef; apply wp_ret.
    + destruct (arun_step _ _ _ _ _ _ _ _ Hinp Hx Heq) as [_ Hrun]. specialize (Hrun ltac:(lia)). rewrite app_nil_r in Hrun.
      eapply dec_post_stop; [exact Hrun|done|done|done|]. intros _. split; [unfold ds_of; by rewrite Est, Ef|].
      cbn. destruct mon; [done|]. destruct Hm as (? & -> & _). split; [lia|done].
    + change (ds_goto CDS_SIZE (ds_of mon a)) with (ds_of mon (mk_as CDS_SIZE (a_final a) (a_left a))). rewrite Ef.
      apply (Hgo (mk_as CDS_SIZE false (a_left a))); done.
  - (* SIZE *) destruct Hah as [->|(_ & _ & -> & _)]; [|done].
    assert (Heq : astep a c = control_step a c) by (unfold astep; by rewrite Est).
    unfold control_step in *. cbn [a_st a_final a_left] in *. rewrite Est in Heq.
    destruct (Z.eqb_spec c 13) as [->|Hne].
    + apply wp_ret.
      replace (ds_goto CDS_LF2 (if a_left a =? 0 then _ else _)) with (ds_of mon (mk_as CDS_LF2 ((a_left a =? 0) || a_final a) (a_left a))).
      2: { unfold ds_of, ds_goto, ds_set_final. cbn. destruct (a_left a =? 0); done. }
      apply (Hgo (mk_as CDS_LF2 ((a_left a =? 0) || a_final a) (a_left a))); done.
    + destruct (chunk_hex_digit c) as [v|] eqn:Ev; [|apply wp_ret; apply Hrej; done].
      apply wp_ret. pose proof (chunk_hex_digit_bound _ _ Ev) as Hv.
      destruct (Z.ltb_spec (a_left a * 16 + v) (2 ^ 63)) as [Hsm|Hbig].
      * destruct Hok as [Hk _]. rewrite Z.shiftl_mul_pow2 by lia. change (2 ^ 4) with 16. rewrite wraps_small by lia.
        replace (ds_set_left (a_left a * 16 + v) _) with (ds_of mon (mk_as CDS_SIZE (a_final a) (a_left a * 16 + v)))
          by (unfold ds_of, ds_set_left; cbn; by rewrite Est).
        apply (Hgo (mk_as CDS_SIZE (a_final a) (a_left a * 16 + v))); done.
      * destruct (arun_step _ _ _ _ _ _ _ _ Hinp Hx Heq) as [_ Hrun]. specialize (Hrun ltac:(lia)).
        rewrite Hrun in Hno. done.
  - (* LF2 *) destruct Hah as [->|(_ & _ & -> & _)]; [|done].
    unfold control_step in *. cbn [a_st a_final a_left] in *.
    destruct (Z.eqb_spec c 10) as [->|Hne]; cbn [negb]; [|apply wp_ret; apply Hrej; done].
    change (ds_goto CDS_DATA (ds_of mon a)) with (ds_of mon (mk_as CDS_DATA (a_final a) (a_left a))).
    eapply (wp_round_lf2 x y a o p d end_); try done. rewrite zlen_cons. lia.
  - (* DATA *) destruct Hah as [->|(_ & _ & -> & _)]; [|done].
    destruct (Z.leb_spec (a_left a) (end_ - p)) as [Hall|Hshort]; apply wp_ret.
    + change (ds_goto CDS_CR1 (ds_set_left 0 (ds_of mon a))) with (ds_of mon (mk_as CDS_CR1 (a_final a) 0)).
      destruct (decide (a_left a = 0)) as [H0|H0].
      * rewrite H0, Z.add_0_r. eapply round_skip; [exact Hinp|exact Hx|done|done|done|exact Hb|rewrite zlen_cons; lia|done|done|done|done].
      * destruct (proj1 Hok) as [Hk ?].
        eapply round_data; [exact Hinp|exact Hx|done|done|lia|rewrite zlen_cons; lia|exact Hb|rewrite zlen_cons; lia|done|done|done|done].
    + replace (end_ - p) with (zlen (c :: y)) in * by (rewrite zlen_cons; lia).
      replace (if mon then zlen input else end_ - buf) with (if mon then zlen input else p + zlen (c :: y) - buf)
        by (destruct mon; [done|rewrite zlen_cons; lia]).
      replace (ds_set_left (a_left a - zlen (c :: y)) (ds_of mon a)) with (ds_of mon (mk_as CDS_DATA (a_final a) (a_left a - zlen (c :: y))))
        by (unfold ds_of, ds_set_left; cbn; by rewrite Est).
      eapply round_data_short; [exact Hinp|exact Hx|done|done|lia|exact Hb|done|done].
Qed.

Lemma wp_decode_chunked_stream (Q : decode_result -> list Z -> Prop) :
  (forall r m', dec_post r m' -> Q r m') ->
  wp (_nxweb_decode_chunked_stream buf (zlen input) (ds_of mon a0)) Q m.
Proof.
  intros HQ. unfold _nxweb_decode_chunked_stream.
  change (wp (loop (2 * length m + 2) (decode_chunked_body buf (zlen input)) (mk_dv (ds_of mon a0) buf buf (buf + zlen input))) Q m).
  eapply (wp_loop dec_inv dec_measure).
  - intros v m' Hv. eapply wp_mono; [by apply wp_round|]. intros [v'|r] m2; [done|]. apply HQ.
  - exists [], input, a0, a0, []. cbn [dv_ds dv_p dv_d dv_end]. change (zlen (@nil Z)) with 0.
    split_and!; try done; try lia; [by left|]. destruct mon; [done|]. split_and!; try lia. apply bytes_at_nil.
  - unfold dec_measure. cbn [dv_end dv_p dv_ds ds_of ds_state]. unfold zlen in *. destruct (a_st a0); lia.
Qed.
End refinement.

(** * The encoder *)

Definition last_chunk : bytes := CRLF ++ bs "0" ++ CRLF ++ CRLF.
Definition chunk_header (n : Z) : bytes := CRLF ++ hex4 n ++ CRLF.
Definition chunk_text (d : bytes) : bytes := chunk_header (zlen d) ++ d.
Definition chunks_text (l : list bytes) : bytes := flat_map chunk_text l.
Definition chunk_ok (d : bytes) : Prop := 1 <= zlen d <= 65535.

(** What the encoder is in the middle of sending: the line end after a chunk,
    a chunk header, or the last chunk. *)
Inductive ctl_kind := KIdle | KHdr (n : Z) | KFinal.
Definition ctl_text (k : ctl_kind) : bytes :=
  match k with KIdle => CRLF | KHdr n => chunk_header n | KFinal => last_chunk end.

Definition ctl (k : ctl_kind) (es : nxweb_chunked_encoder_state) : Prop :=
  es_final_chunk es = (match k with KFinal => true | _ => false end) /\
  es_header_prepared es = (match k with KHdr _ => true | _ => false end) /\
  0 <= es_pos es <= zlen (ctl_text k) /\ (match k with KHdr n => es_pos es < 8 | _ => True end) /\
  take (length (ctl_text k)) (es_buf es) = ctl_text k /\ length (es_buf es) = 8%nat /\
  0 <= es_chunk_size es /\ (match k with KHdr n => es_chunk_size es = n /\ 1 <= n <= 65535 | _ => True end) /\
  (match k with KFinal => True | _ => drop 6 (es_buf es) = CRLF end).

(** [V] is the output so far with the line end that the first chunk does not
    send put back in front; [body] is the part of the body that was sent. *)
Inductive enc_inv (es : nxweb_chunked_encoder_state) (V body : bytes) : Prop :=
| inv_ctl k l :
    Forall chunk_ok l -> ctl k es -> V = chunks_text l ++ take (Z.to_nat (es_pos es)) (ctl_text k) ->
    body = concat l -> enc_inv es V body
| inv_data l d :
    Forall chunk_ok l -> es_final_chunk es = false -> es_header_prepared es = true ->
    es_pos es = 8 + zlen d -> zlen d < es_chunk_size es <= 65535 ->
    take 2 (es_buf es) = CRLF -> drop 6 (es_buf es) = CRLF -> length (es_buf es) = 8%nat ->
    V = chunks_text l ++ chunk_header (es_chunk_size es) ++ d -> body = concat l ++ d -> enc_inv es V body.

(** Body bytes announced in a chunk header and not sent yet. *)
Definition es_remaining (es : nxweb_chunked_encoder_state) : Z :=
  if es_header_prepared es then es_chunk_size es - Z.max 0 (es_pos es - 8) else 0.

Lemma take_drop_take {A} (l : list A) (p n : Z) :
  0 <= p -> 0 <= n -> take (Z.to_nat p) l ++ take (Z.to_nat n) (drop (Z.to_nat p) l) = take (Z.to_nat (p + n)) l.
Proof. intros Hp Hn. rewrite Z2Nat.inj_add by lia. symmetry. rewrite take_drop_commute, <- (take_drop (Z.to_nat p) (take _ l)) at 1. rewrite take_take. f_equal. f_equal. lia. Qed.

Lemma hex4_length n : length (hex4 n) = 4%nat.
Proof. done. Qed.
Lemma ctl_text_length k : zlen (ctl_text k) = match k with KIdle => 2 | KHdr _ => 8 | KFinal => 7 end.
Proof. by destruct k. Qed.

(** [n] more bytes of the control text are accepted. *)
Lemma enc_inv_ctl_advance es k l n V body :
  Forall chunk_ok l -> ctl k es -> V = chunks_text l ++ take (Z.to_nat (es_pos es)) (ctl_text k) -> body = concat l ->
  0 <= n <= zlen (ctl_text k) - es_pos es ->
  enc_inv (_nxweb_encode_chunked_advance n es) (V ++ take (Z.to_nat n) (drop (Z.to_nat (es_pos es)) (ctl_text k))) body.
Proof.
  intros Hl Hc -> -> Hn. pose proof Hc as (Hf & Hh & Hp & Hp8 & Hb & Hbl & Hcs & Hk & Hd6).
  rewrite <- app_assoc, take_drop_take by lia. unfold _nxweb_encode_chunked_advance.
  destruct (Z.eqb_spec n 0) as [->|Hn0].
  { rewrite Z.add_0_r. by eapply inv_ctl. }
  rewrite ctl_text_length in *.
  destruct (Z.eqb_spec (es_pos es + n) (8 + es_chunk_size es)) as [He|He].
  { destruct k; lia. }
  destruct (match k with KHdr _ => es_pos es + n =? 8 | _ => false end) eqn:Ek.
  - destruct k as [|c|]; try done. apply Z.eqb_eq in Ek as H8. destruct Hk as [Hk1 Hk2]. eapply (inv_data _ _ _ l []); cbn; try done; try lia.
    + change (zlen (@nil Z)) with 0. lia.
    + apply (f_equal (take 2)) in Hb. rewrite take_take in Hb. exact Hb.
    + rewrite H8, Hk1. done.
    + by rewrite app_nil_r.
  - eapply (inv_ctl _ _ _ k l); cbn; try done. unfold ctl. cbn. rewrite ctl_text_length.
    split_and!; try done; try lia. destruct k; try done. bool_to_prop. lia.
Qed.

(** [n] more bytes of the chunk's data are accepted. *)
Lemma enc_inv_data_advance es l d x n V body :
  Forall chunk_ok l -> es_final_chunk es = false -> es_header_prepared es = true ->
  es_pos es = 8 + zlen d -> zlen d < es_chunk_size es <= 65535 -> take 2 (es_buf es) = CRLF ->
  drop 6 (es_buf es) = CRLF -> length (es_buf es) = 8%nat ->
  V = chunks_text l ++ chunk_header (es_chunk_size es) ++ d -> body = concat l ++ d ->
  0 <= n <= zlen x -> zlen d + n <= es_chunk_size es ->
  enc_inv (_nxweb_encode_chunked_advance n es) (V ++ take (Z.to_nat n) x) (body ++ take (Z.to_nat n) x).
Proof.
  intros Hl Hf Hh Hp Hd Hb Hd6 Hbl -> -> Hn Hle. pose proof (zlen_take x n Hn) as Htx. pose proof (zlen_nonneg d).
  unfold _nxweb_encode_chunked_advance. destruct (Z.eqb_spec n 0) as [->|Hn0].
  { cbn [Z.to_nat take]. rewrite !app_nil_r. by eapply inv_data. }
  destruct (Z.eqb_spec (es_pos es + n) (8 + es_chunk_size es)) as [He|He].
  - assert (Hz : zlen (d ++ take (Z.to_nat n) x) = es_chunk_size es) by (rewrite zlen_app; lia).
    eapply (inv_ctl _ _ _ KIdle (l ++ [d ++ take (Z.to_nat n) x])).
    + apply Forall_app. split; [done|]. constructor; [|done]. unfold chunk_ok. lia.
    + unfold ctl. cbn. split_and!; try done; lia.
    + cbn [es_pos Z.to_nat take]. rewrite app_nil_r. unfold chunks_text. rewrite flat_map_app. cbn [flat_map]. rewrite app_nil_r.
      unfold chunk_text. rewrite Hz, <- !app_assoc. done.
    + rewrite concat_app. cbn [concat]. by rewrite app_nil_r, <- app_assoc.
  - eapply (inv_data _ _ _ l (d ++ take (Z.to_nat n) x)); cbn; rewrite ?zlen_app, ?Htx; try done; try lia.
    + by rewrite <- !app_assoc.
    + by rewrite <- !app_assoc.
Qed.

Lemma ctl_send k es : ctl k es -> send_part es (zlen (ctl_text k)) = drop (Z.to_nat (es_pos es)) (ctl_text k).
Proof.
  intros (_ & _ & Hp & _ & Hb & Hbl & _). unfold send_part. rewrite <- Hb at 2.
  rewrite Z2Nat.inj_sub by lia. rewrite <- skipn_firstn_comm. f_equal. f_equal. unfold zlen. lia.
Qed.

(** What one call of the encoder does to a state between bytes. *)
Lemma encode_ctl k es size eof l V body :
  Forall chunk_ok l -> ctl k es -> V = chunks_text l ++ take (Z.to_nat (es_pos es)) (ctl_text k) -> body = concat l ->
  0 <= size -> es_remaining es <= size -> (k = KFinal -> size = 0 /\ eof = true) ->
  exists k' es' o, _nxweb_encode_chunked_stream size eof es = Ok (o, es') /\ ctl k' es' /\
    es_pos es' = es_pos es /\ take (Z.to_nat (es_pos es)) (ctl_text k') = take (Z.to_nat (es_pos es)) (ctl_text k) /\
    eo_send o = drop (Z.to_nat (es_pos es')) (ctl_text k') /\ (eo_ret o = false -> eo_send o = []) /\
    0 <= eo_offered o <= size /\ eo_offered o = (match k' with KHdr n => n | _ => 0 end) /\
    (k' = KFinal -> size = 0 /\ eof = true) /\ (k' = KIdle -> size = 0).
Proof.
  intros Hl Hc -> -> Hs Hrem Hfin. pose proof Hc as (Hf & Hh & Hp & Hp8 & Hb & Hbl & Hcs & Hk & Hd6).
  pose proof (ctl_send _ _ Hc) as Hsend. rewrite ctl_text_length in *.
  unfold _nxweb_encode_chunked_stream, bind, get. rewrite Hf. destruct k as [|c|].
  - rewrite Hh. rewrite (proj2 (Z.leb_le (es_pos es) 2)) by lia. cbn [negb andb].
    assert (Hput : forall (s : bytes) n, length s = n -> (n <= 6)%nat -> take (2 + n) (buf_put 2 s (es_buf es)) = CRLF ++ s /\
              length (buf_put 2 s (es_buf es)) = 8%nat).
    { intros s' n Hn Hle. unfold buf_put. split.
      - change (take 2 (es_buf es)) with (take (length CRLF) (es_buf es)). cbn [ctl_text] in Hb. rewrite Hb.
        cbn. do 2 f_equal. rewrite take_app_length'; [done|done].
      - rewrite !length_app, length_take, length_drop. lia. }
    assert (Hpre : forall t, take (Z.to_nat (es_pos es)) (CRLF ++ t) = take (Z.to_nat (es_pos es)) CRLF).
    { intros t. rewrite take_app_le; [done|]. cbn. lia. }
    destruct (Z.eqb_spec size 0) as [->|Hs0].
    + destruct eof.
      * set (es' := mk_ces true _ _ _ _). destruct (Hput (bs "0" ++ CRLF ++ CRLF) 5%nat eq_refl ltac:(lia)) as [Hb1 Hb2].
        exists KFinal, es'. eexists. split; [reflexivity|].
        assert (Hc' : ctl KFinal es').
        { unfold ctl. cbn [es_final_chunk es_header_prepared es_chunk_size es_pos es_buf es']. rewrite ctl_text_length. split_and!; try done; lia. }
        split_and!; try done; try (cbn; lia).
        -- apply Hpre.
        -- cbn [eo_send]. by rewrite <- (ctl_send _ _ Hc').
      * exists KIdle, es. eexists. split; [reflexivity|]. split_and!; try done; try (cbn; lia).
        cbn [eo_ret eo_send]. rewrite Hsend. intros Hz%negb_false_iff%Z.eqb_eq. by apply zlen_0_inv.
    + set (n := if 65535 <? size then 65535 else size).
      assert (Hn : 1 <= n <= 65535 /\ n <= size) by (unfold n; destruct (Z.ltb_spec 65535 size); lia).
      set (es' := mk_ces false true n _ _). destruct (Hput (hex4 n) 4%nat eq_refl ltac:(lia)) as [Hb1 Hb2].
      exists (KHdr n), es'. eexists. split; [reflexivity|].
      assert (Hb3 : take 8 (buf_put 2 (hex4 n) (es_buf es)) = chunk_header n).
      {         unfold buf_put. cbn [length hex4 Nat.add]. rewrite Hd6. change (take 2 (es_buf es)) with (take (length CRLF) (es_buf es)).
        cbn [ctl_text] in Hb. by rewrite Hb. }
      assert (Hc' : ctl (KHdr n) es').
      { unfold ctl. cbn [es_final_chunk es_header_prepared es_chunk_size es_pos es_buf es']. rewrite ctl_text_length.
        split_and!; try done; try lia. unfold buf_put. change (take 2 (es_buf es)) with (take (length CRLF) (es_buf es)). cbn [ctl_text] in Hb. rewrite Hb. exact Hd6. }
      split_and!; try done; try (cbn; lia).
      * apply Hpre.
      * cbn [eo_send]. by rewrite <- (ctl_send _ _ Hc').
  - rewrite Hh. cbn [negb]. rewrite andb_false_r. rewrite (proj2 (Z.ltb_lt (es_pos es) 8)) by lia.
    destruct Hk as [Hk1 Hk2]. unfold es_remaining in Hrem. rewrite Hh in Hrem.
    assert (c <= size) by lia. unfold assert_. rewrite (proj2 (Z.leb_le (es_chunk_size es) size)) by lia.
    exists (KHdr c), es. eexists. split; [reflexivity|]. split_and!; try done; cbn [eo_offered];
      destruct (Z.ltb_spec (es_chunk_size es) size); try lia.
  - destruct (Hfin eq_refl) as [-> ->]. exists KFinal, es. eexists. split; [reflexivity|]. split_and!; try done; cbn; lia.
Qed.

Lemma encode_data es l (d : bytes) size eof :
  Forall chunk_ok l -> es_final_chunk es = false -> es_header_prepared es = true ->
  es_pos es = 8 + zlen d -> zlen d < es_chunk_size es <= 65535 -> es_remaining es <= size ->
  _nxweb_encode_chunked_stream size eof es = Ok (mk_eo false (es_chunk_size es - zlen d) [] false, es).
Proof.
  intros Hl Hf Hh Hp Hd Hrem. pose proof (zlen_nonneg d). unfold es_remaining in Hrem. rewrite Hh, Hp in Hrem.
  unfold _nxweb_encode_chunked_stream, bind, get. rewrite Hf, Hh, Hp. cbn [negb]. rewrite andb_false_r.
  rewrite (proj2 (Z.ltb_ge (8 + zlen d) 8)) by lia. replace (8 + zlen d - 8) with (zlen d) by lia.
  unfold assert_. rewrite (proj2 (Z.leb_le (es_chunk_size es - zlen d) size)) by lia. cbn.
  destruct (Z.ltb_spec (es_chunk_size es - zlen d) size); [done|].
  by replace size with (es_chunk_size es - zlen d) by lia.
Qed.

Section writer_lemmas.
Context (accept : nat -> Z -> Z) (Haccept : forall k n, 0 <= n -> 0 <= accept k n <= n).

Definition winv (w : writer) (body : bytes) : Prop := enc_inv (w_es w) (CRLF ++ w_out w) body.

Lemma wp_on_es {A} (c : M nxweb_chunked_encoder_state A) a es' (Q : A -> writer -> Prop) w :
  c (w_es w) = Ok (a, es') -> Q a (mk_writer es' (w_out w) (w_calls w)) -> wp (on_es c) Q w.
Proof. unfold wp, on_es. by intros ->. Qed.

(** Sending control text: some of it is accepted. *)
Lemma wp_send_ctl k l es out n_calls (Q : Z -> writer -> Prop) body :
  Forall chunk_ok l -> ctl k es -> body = concat l ->
  CRLF ++ out = chunks_text l ++ take (Z.to_nat (es_pos es)) (ctl_text k) ->
  (forall n w', winv w' body -> 0 <= n <= zlen (ctl_text k) - es_pos es ->
     w_es w' = _nxweb_encode_chunked_advance n es -> Q n w') ->
  wp (let! cbs := os_write accept (drop (Z.to_nat (es_pos es)) (ctl_text k)) in
      do! advance cbs in ret cbs) Q (mk_writer es out n_calls).
Proof.
  intros Hl Hc Hbody Hout HQ. pose proof Hc as (_ & _ & Hp & _).
  assert (Hlen : zlen (drop (Z.to_nat (es_pos es)) (ctl_text k)) = zlen (ctl_text k) - es_pos es) by (apply zlen_drop; lia).
  unfold wp, os_write, bind, advance, on_es, modify, ret. cbn [w_es w_out w_calls].
  rewrite Hlen. pose proof (Haccept n_calls (zlen (ctl_text k) - es_pos es) ltac:(lia)).
  apply HQ; [|done|done]. unfold winv. cbn [w_es w_out]. rewrite app_assoc.
  eapply enc_inv_ctl_advance; done.
Qed.

Lemma remaining_advance es n : es_header_prepared es = true -> es_pos es + n < 8 -> 0 <= n -> 0 <= es_pos es -> 1 <= es_chunk_size es ->
  es_remaining (_nxweb_encode_chunked_advance n es) = es_chunk_size es.
Proof.
  intros Hh Hn H0 Hp Hcs. unfold _nxweb_encode_chunked_advance, es_remaining. destruct (n =? 0); rewrite ?Hh; [lia|].
  destruct (Z.eqb_spec (es_pos es + n) (8 + es_chunk_size es)); [lia|]. cbn. rewrite ?Hh. lia.
Qed.
Lemma final_advance es n : es_final_chunk (_nxweb_encode_chunked_advance n es) = es_final_chunk es.
Proof. unfold _nxweb_encode_chunked_advance. destruct (_ =? _); [done|]. by destruct (_ =? _). Qed.
Lemma remaining_nohdr es n : es_header_prepared es = false -> es_remaining (_nxweb_encode_chunked_advance n es) = 0.
Proof.
  intros Hh. unfold _nxweb_encode_chunked_advance, es_remaining. destruct (_ =? _); [by rewrite Hh|].
  destruct (_ =? _); cbn; [done|by rewrite ?Hh].
Qed.

(** The third write: the line end after a chunk, or the last chunk. *)
Lemma wp_write_trailer k l es out n_calls cwf body (Q : unit -> writer -> Prop) :
  Forall chunk_ok l -> ctl k es -> body = concat l -> (forall n, k <> KHdr n) ->
  CRLF ++ out = chunks_text l ++ take (Z.to_nat (es_pos es)) (ctl_text k) -> (k = KFinal -> cwf = true) ->
  (forall w', winv w' body -> es_remaining (w_es w') = 0 -> (es_final_chunk (w_es w') = true -> cwf = true) -> Q tt w') ->
  wp (let! o := on_es (_nxweb_encode_chunked_stream 0 cwf) in
      if eo_ret o then let! cbs := os_write accept (eo_send o) in advance cbs else ret tt) Q (mk_writer es out n_calls).
Proof.
  intros Hl Hc Hbody Hk Hout Hfin HQ. pose proof Hc as (_ & Hh & _).
  assert (Hh0 : es_header_prepared es = false) by (rewrite Hh; destruct k; try done; by destruct (Hk n)).
  assert (Hrem : es_remaining es = 0) by (unfold es_remaining; by rewrite Hh0).
  destruct (encode_ctl k es 0 cwf l _ body Hl Hc eq_refl Hbody ltac:(lia) ltac:(lia) ltac:(auto))
    as (k' & es' & o & Hrun & Hc' & Hpos & Htk & Hsend & Hret & Hoff & Hoffk & Hfin' & _).
  apply wp_bind. eapply wp_on_es; [exact Hrun|]. cbn [w_out w_calls].
  assert (Hk' : forall n, k' <> KHdr n).
  { intros n ->. pose proof Hc' as (_ & _ & _ & _ & _ & _ & _ & [_ ?] & _). lia. }
  pose proof Hc' as (Hf' & Hh' & _).
  assert (Hh0' : es_header_prepared es' = false) by (rewrite Hh'; destruct k'; try done; by destruct (Hk' n)).
  assert (Hcwf : es_final_chunk es' = true -> cwf = true).
  { rewrite Hf'. destruct k'; try done. intros _. by apply Hfin'. }
  rewrite Hpos in Hsend. rewrite <- Htk, <- Hpos in Hout. destruct (eo_ret o).
  - rewrite Hsend, <- Hpos.
    assert (Hw : wp (let! cbs := os_write accept (drop (Z.to_nat (es_pos es')) (ctl_text k')) in do! advance cbs in ret cbs)
                (fun _ w' => Q tt w') (mk_writer es' out n_calls)).
    { eapply wp_send_ctl; [exact Hl|exact Hc'|exact Hbody|exact Hout|]. intros n w' Hw _ Hes. apply HQ; [done|rewrite Hes; by apply remaining_nohdr|].
      by rewrite Hes, final_advance. }
    revert Hw. unfold wp, bind, ret. destruct (os_write _ _ _) as [[n1 w1]|]; [|done].
    destruct (advance n1 w1) as [[[] w2]|]; done.
  - apply wp_ret. apply HQ; cbn [w_es]; [|unfold es_remaining; by rewrite Hh0'|done].
    unfold winv. cbn [w_es w_out]. by eapply inv_ctl.
Qed.

(** What a call promises: it took [b] bytes of [data], what it announced and
    did not send yet is still in [data], and it starts the last chunk only when
    all of the body was taken. *)
Definition call_post (data : bytes) (eof : bool) (body : bytes) (b : Z) (w' : writer) : Prop :=
  0 <= b <= zlen data /\ winv w' (body ++ take (Z.to_nat b) data) /\
  es_remaining (w_es w') <= zlen data - b /\ (es_final_chunk (w_es w') = true -> eof = true /\ b = zlen data).

(** The second and third writes. *)
Definition write_rest (data : bytes) (eof : bool) (chunk_size : Z) (skip : bool) : M writer Z :=
  let! '(bytes_sent, skip) :=
    (if negb skip && negb (chunk_size =? 0) then
       let! bytes_sent := os_write accept (take (Z.to_nat chunk_size) data) in
       do! advance bytes_sent in ret (bytes_sent, negb (bytes_sent =? chunk_size))
     else ret (0, skip)) in
  do! (if skip : bool then ret tt else
       let cwf := if chunk_size =? zlen data then eof else false in
       let! o := on_es (_nxweb_encode_chunked_stream 0 cwf) in
       if eo_ret o then
         let! cbs := os_write accept (eo_send o) in advance cbs
       else ret tt) in
  ret bytes_sent.

Lemma wp_write_rest_skip data eof n body w :
  winv w body -> es_remaining (w_es w) <= zlen data -> (es_final_chunk (w_es w) = true -> eof = true /\ zlen data = 0) ->
  wp (write_rest data eof n true) (call_post data eof body) w.
Proof.
  intros Hw Hr Hf. unfold write_rest. cbn [negb andb]. apply wp_bind, wp_ret, wp_bind, wp_ret, wp_ret.
  unfold call_post. cbn [Z.to_nat take]. rewrite app_nil_r, Z.sub_0_r. pose proof (zlen_nonneg data).
  split_and!; try done; try lia. intros Hff. by destruct (Hf Hff).
Qed.

(** Nothing to send in this call. *)
Lemma wp_write_rest_empty k l es out n_calls data eof body :
  Forall chunk_ok l -> ctl k es -> body = concat l -> (forall n, k <> KHdr n) ->
  CRLF ++ out = chunks_text l ++ take (Z.to_nat (es_pos es)) (ctl_text k) -> zlen data = 0 -> (k = KFinal -> eof = true) ->
  wp (write_rest data eof 0 false) (call_post data eof body) (mk_writer es out n_calls).
Proof.
  intros Hl Hc Hb Hk Hout Hd Hfin. unfold write_rest. cbn [negb andb]. change (0 =? 0) with true. cbn [negb].
  apply wp_bind, wp_ret, wp_bind. rewrite Hd. change (0 =? 0) with true. cbn iota.
  eapply wp_write_trailer; [exact Hl|exact Hc|exact Hb|exact Hk|exact Hout|exact Hfin|].
  intros w' Hw Hr Hf. apply wp_ret. unfold call_post. cbn [Z.to_nat take]. rewrite app_nil_r, Hd, Hr.
  split_and!; try done; try lia. intros Hff. split; [by apply Hf|lia].
Qed.

(** Inside a chunk: data, then the line end if the chunk was completed. *)
Lemma wp_write_rest_data l d es out n_calls data eof body :
  Forall chunk_ok l -> es_final_chunk es = false -> es_header_prepared es = true ->
  es_pos es = 8 + zlen d -> zlen d < es_chunk_size es <= 65535 -> take 2 (es_buf es) = CRLF ->
  drop 6 (es_buf es) = CRLF -> length (es_buf es) = 8%nat ->
  CRLF ++ out = chunks_text l ++ chunk_header (es_chunk_size es) ++ d -> body = concat l ++ d ->
  es_chunk_size es - zlen d <= zlen data ->
  wp (write_rest data eof (es_chunk_size es - zlen d) false) (call_post data eof body) (mk_writer es out n_calls).
Proof.
  intros Hl Hf Hh Hp Hd Hb Hd6 Hbl Hout Hbody Hle. set (c := es_chunk_size es - zlen d) in *. pose proof (zlen_nonneg d).
  assert (Hc0 : 1 <= c) by lia. unfold write_rest. cbn [negb andb]. rewrite (proj2 (Z.eqb_neq c 0)) by lia. cbn [negb].
  apply wp_bind. unfold wp at 1. unfold bind at 1 2, os_write, advance, on_es, modify, ret at 1 2. cbn [w_es w_out w_calls].
  pose proof (zlen_take data c ltac:(lia)) as Htk. rewrite Htk.
  pose proof (Haccept n_calls c ltac:(lia)) as Hn. set (n := accept n_calls c) in *.
  set (es' := _nxweb_encode_chunked_advance n es).
  assert (Hinv : enc_inv es' ((CRLF ++ out) ++ take (Z.to_nat n) (take (Z.to_nat c) data)) (body ++ take (Z.to_nat n) (take (Z.to_nat c) data))).
  { eapply enc_inv_data_advance; [exact Hl|done|done|exact Hp|exact Hd|done|done|done|exact Hout|exact Hbody|rewrite Htk; lia|lia]. }
  rewrite take_take, Nat.min_l in Hinv by lia. rewrite take_take, Nat.min_l by lia. rewrite <- app_assoc in Hinv.
  assert (Hfin : es_final_chunk es' = false) by (unfold es'; by rewrite final_advance).
  destruct (Z.eqb_spec n c) as [Hnc|Hnc]; cbn [negb].
  - assert (He : es' = mk_ces (es_final_chunk es) false (es_chunk_size es) 0 (es_buf es)).
    { unfold es', _nxweb_encode_chunked_advance. rewrite (proj2 (Z.eqb_neq n 0)) by lia.
      by rewrite (proj2 (Z.eqb_eq (es_pos es + n) (8 + es_chunk_size es))) by lia. }
    inversion Hinv as [k l' Hl' Hc' HV HB|l' d' ? _ Hh']; [|exfalso; rewrite He in Hh'; done].
    assert (Hk : forall m, k <> KHdr m).
    { intros m ->. pose proof Hc' as (_ & Hh' & _). rewrite He in Hh'. done. }
    apply wp_bind. eapply wp_write_trailer; [exact Hl'|exact Hc'|exact HB|exact Hk|exact HV| |].
    + intros ->. pose proof Hc' as (Hf' & _). rewrite Hfin in Hf'. done.
    + intros w' Hw Hr Hf'. apply wp_ret. unfold call_post. rewrite Hr. split_and!; try done; try lia.
      intros Hff. specialize (Hf' Hff). destruct (Z.eqb_spec c (zlen data)); [|done]. split; [done|lia].
  - apply wp_bind, wp_ret, wp_ret. unfold call_post. cbn [w_es w_out]. split_and!; try done; try lia; try by rewrite Hfin.
    unfold es_remaining, es', _nxweb_encode_chunked_advance. destruct (Z.eqb_spec n 0); [rewrite Hh; lia|].
    rewrite (proj2 (Z.eqb_neq (es_pos es + n) (8 + es_chunk_size es))) by lia. cbn. rewrite ?Hh. lia.
Qed.

(** After the control text, [n] bytes of it having been accepted. *)
Lemma wp_after_nonheader k es n w data eof body :
  ctl k es -> (forall c, k <> KHdr c) -> winv w body -> w_es w = _nxweb_encode_chunked_advance n es ->
  zlen data = 0 -> (k = KFinal -> eof = true) -> wp (write_rest data eof 0 false) (call_post data eof body) w.
Proof.
  intros (Hf & Hh & _) Hk Hw Hes Hz Hfin. destruct w as [es2 out2 n2]. cbn [w_es] in Hes. subst es2.
  assert (Hh0 : es_header_prepared (_nxweb_encode_chunked_advance n es) = false).
  { unfold _nxweb_encode_chunked_advance. destruct (n =? 0); [|destruct (_ =? _); [done|cbn]]; rewrite Hh; destruct k; try done; by destruct (Hk n0). }
  unfold winv in Hw. cbn [w_es w_out] in Hw. inversion Hw as [k2 l2 Hl2 Hc2 HV2 HB2|l2 d2 _ _ Hh2]; [|congruence].
  eapply wp_write_rest_empty; [exact Hl2|exact Hc2|exact HB2| |exact HV2|done|].
  - intros m ->. pose proof Hc2 as (_ & Hh2 & _). congruence.
  - intros ->. pose proof Hc2 as (Hf2 & _). rewrite final_advance, Hf in Hf2. destruct k; try done. by apply Hfin.
Qed.

Lemma wp_after_header c es n w data eof body :
  ctl (KHdr c) es -> winv w body -> w_es w = _nxweb_encode_chunked_advance n es ->
  es_pos es + n = 8 -> c <= zlen data -> wp (write_rest data eof c false) (call_post data eof body) w.
Proof.
  intros (Hf & Hh & Hp & Hp8 & _ & _ & _ & [Hk1 Hk2] & _) Hw Hes Hn Hle. cbn in Hf, Hh.
  destruct w as [es2 out2 n2]. cbn [w_es] in Hes. subst es2. unfold winv in Hw. cbn [w_es w_out] in Hw.
  assert (He2 : _nxweb_encode_chunked_advance n es = mk_ces false true c 8 (es_buf es)).
  { unfold _nxweb_encode_chunked_advance. rewrite (proj2 (Z.eqb_neq n 0)) by lia.
    rewrite (proj2 (Z.eqb_neq (es_pos es + n) (8 + es_chunk_size es))) by lia. rewrite Hf, Hh, Hk1. f_equal. lia. }
  rewrite He2 in *. inversion Hw as [k2 l2 Hl2 Hc2 HV2 HB2|l2 d2 Hl2 Hf2 Hh2 Hp2 Hd2 Hb2 Hd62 Hbl2 HV2 HB2].
  { destruct k2; destruct Hc2 as (? & ? & ? & ? & _); cbn in *; lia || done. }
  cbn in Hp2. assert (zlen d2 = 0) as Hz2 by lia.
  replace c with (es_chunk_size (mk_ces false true c 8 (es_buf es)) - zlen d2) at 1 by (cbn; lia).
  eapply wp_write_rest_data; [exact Hl2|done|done|cbn; lia|cbn; lia|done|done|done|exact HV2|exact HB2|cbn; lia].
Qed.

(** One call of the body writer. *)
Lemma wp_resp_body_write data eof body w :
  winv w body -> es_remaining (w_es w) <= zlen data -> (es_final_chunk (w_es w) = true -> zlen data = 0 /\ eof = true) ->
  wp (resp_body_write_chunked accept data eof) (call_post data eof body) w.
Proof.
  intros Hw Hrem Hfin. pose proof (zlen_nonneg data).
  assert (Hsplit : resp_body_write_chunked accept data eof =
    (let! o := on_es (_nxweb_encode_chunked_stream (zlen data) eof) in
     let! skip := (if eo_ret o then
                  let! cbs := os_write accept (eo_send o) in
                  do! advance cbs in ret (negb (cbs =? zlen (eo_send o)))
                else ret false) in
     write_rest data eof (eo_offered o) skip)) by done.
  rewrite Hsplit. clear Hsplit. destruct w as [es out n_calls]. cbn [w_es] in *. apply wp_bind.
  unfold winv in Hw. cbn [w_es w_out] in Hw. inversion Hw as [k l Hl Hc HV HB|l d Hl Hf Hh Hp Hd Hb2 Hd6 Hbl HV HB]; cycle 1.
  { eapply wp_on_es; [by eapply encode_data|]. cbn [eo_ret eo_offered w_out w_calls]. apply wp_bind, wp_ret.
    eapply wp_write_rest_data; try done. unfold es_remaining in Hrem. rewrite Hh in Hrem. pose proof (zlen_nonneg d). cbn [w_es]. lia. }
  destruct (encode_ctl k es (zlen data) eof l _ body Hl Hc eq_refl HB ltac:(lia) ltac:(lia)) as
    (k' & es' & o & Hrun & Hc' & Hpos & Htk & Hsend & Hret & Hoff & Hoffk & Hfin' & Hidle).
  { intros ->. by apply Hfin; destruct Hc. }
  eapply wp_on_es; [exact Hrun|]. cbn [w_out w_calls]. rewrite <- Htk, <- Hpos in HV.
  pose proof Hc' as (Hf' & Hh' & Hp' & Hp8 & _ & _ & _ & Hk' & _). apply wp_bind.
  assert (Hlen : zlen (drop (Z.to_nat (es_pos es')) (ctl_text k')) = zlen (ctl_text k') - es_pos es') by (apply zlen_drop; lia).
  destruct (eo_ret o) eqn:Er; cycle 1.
  { apply wp_ret. specialize (Hret eq_refl). rewrite Hsend in Hret. rewrite Hret in Hlen. change (zlen (@nil Z)) with 0 in Hlen.
    assert (Hnk : forall c, k' <> KHdr c) by (intros c ->; rewrite ctl_text_length in Hlen; lia).
    replace (eo_offered o) with 0 by (rewrite Hoffk; destruct k'; try done; by destruct (Hnk n)).
    eapply wp_write_rest_empty; [exact Hl|exact Hc'|exact HB|exact Hnk|exact HV| |].
    - destruct k'; [by apply Hidle|by destruct (Hnk n)|by apply Hfin'].
    - intros ->. by apply Hfin'. }
  assert (Hs : wp (let! cbs := os_write accept (drop (Z.to_nat (es_pos es')) (ctl_text k')) in do! advance cbs in ret cbs)
     (fun n w' => winv w' body /\ 0 <= n <= zlen (ctl_text k') - es_pos es' /\ w_es w' = _nxweb_encode_chunked_advance n es')
     (mk_writer es' out n_calls)).
  { eapply wp_send_ctl; [exact Hl|exact Hc'|exact HB|exact HV|]. done. }
  rewrite Hsend. revert Hs. unfold wp at 1. unfold bind at 1 2. intros Hs. apply wp_bind. unfold wp at 1.
  destruct (os_write _ _ _) as [[n w1]|]; [|done]. apply wp_bind. unfold wp at 1.
  destruct (advance n w1) as [[[] w2]|]; [|done]. cbn in Hs. destruct Hs as (Hw2 & Hn & Hes). apply wp_ret. rewrite Hlen.
  destruct (Z.eqb_spec n (zlen (ctl_text k') - es_pos es')) as [Hall|Hpart]; cbn [negb].
  - rewrite Hoffk. destruct k' as [|c|].
    + eapply wp_after_nonheader; [exact Hc'|done|done|done|by apply Hidle|done].
    + rewrite ctl_text_length in Hall. eapply wp_after_header; [exact Hc'|done|done|lia|lia].
    + destruct (Hfin' eq_refl). eapply wp_after_nonheader; [exact Hc'|done|done|done|done|done].
  - apply wp_write_rest_skip; [done| |].
    + rewrite Hes. destruct k' as [|c|]; [by rewrite remaining_nohdr| |by rewrite remaining_nohdr].
      rewrite ctl_text_length in *. rewrite remaining_advance; [lia|done|lia|lia|lia|lia].
    + rewrite Hes, final_advance, Hf'. destruct k'; try done. intros _. destruct (Hfin' eq_refl). done.
Qed.
End writer_lemmas.

(** ** Decoding what was encoded *)

Definition at_line_end : astate := mk_as CDS_CR1 false 0.
Definition a_start : astate := mk_as CDS_SIZE false 0.

Lemma chunk_hex_digit_HEX n : chunk_hex_digit (HEX_DIGIT n) = Some (n mod 16).
Proof.
  unfold HEX_DIGIT. change 15 with (Z.ones 4). rewrite Z.land_ones by lia. change (2 ^ 4) with 16.
  pose proof (Z.mod_pos_bound n 16 ltac:(lia)) as Hb. generalize dependent (n mod 16). intros v Hb.
  unfold chunk_hex_digit. destruct (Z.ltb_spec v 10).
  - rewrite (proj2 (Z.leb_le 48 (v + 48))), (proj2 (Z.leb_le (v + 48) 57)) by lia. cbn. f_equal. lia.
  - rewrite (proj2 (Z.leb_gt (v - 10 + 65) 57)) by lia. rewrite andb_false_r.
    rewrite (proj2 (Z.leb_le 65 (v - 10 + 65))), (proj2 (Z.leb_le (v - 10 + 65) 70)) by lia. cbn. f_equal. lia.
Qed.

Lemma size_step n l : 0 <= l < 2 ^ 58 ->
  astep (mk_as CDS_SIZE false l) (HEX_DIGIT n) = (mk_as CDS_SIZE false (l * 16 + n mod 16), [], 0).
Proof.
  intros Hl. unfold astep, control_step. cbn [a_st]. rewrite chunk_hex_digit_HEX. cbn [a_left a_final].
  destruct (Z.eqb_spec (HEX_DIGIT n) 13) as [He|_].
  { pose proof (chunk_hex_digit_HEX n) as Hh. by rewrite He in Hh. }
  pose proof (Z.mod_pos_bound n 16 ltac:(lia)). by rewrite (proj2 (Z.ltb_lt _ (2 ^ 63))) by lia.
Qed.

Lemma arun_hex4 n : 0 <= n <= 65535 -> arun (mk_as CDS_SIZE false 0) (hex4 n) = (mk_as CDS_SIZE false n, [], 0).
Proof.
  intros Hn. unfold hex4. cbn [arun]. rewrite size_step by lia.
  pose proof (Z.mod_pos_bound (n / 16 / 16 / 16) 16 ltac:(lia)). pose proof (Z.mod_pos_bound (n / 16 / 16) 16 ltac:(lia)).
  pose proof (Z.mod_pos_bound (n / 16) 16 ltac:(lia)).
  cbn [Z.eqb]. rewrite size_step by lia. cbn [Z.eqb]. rewrite size_step by lia. cbn [Z.eqb]. rewrite size_step by lia.
  cbn [Z.eqb app]. do 3 f_equal. Z.to_euclidean_division_equations. lia.
Qed.

Lemma arun_chunk d : chunk_ok d -> arun at_line_end (chunk_text d) = (at_line_end, d, 0).
Proof.
  unfold chunk_ok. intros Hd. unfold chunk_text, chunk_header. rewrite <- !app_assoc.
  assert (Hcr : arun at_line_end CRLF = (a_start, [], 0)) by done.
  rewrite arun_app, Hcr. cbn [Z.eqb]. unfold a_start. rewrite arun_app, arun_hex4 by lia. cbn [Z.eqb]. rewrite arun_app.
  assert (H2 : arun (mk_as CDS_SIZE false (zlen d)) CRLF = (mk_as CDS_DATA false (zlen d), [], 0)).
  { cbn. unfold astep, control_step. cbn. by rewrite (proj2 (Z.eqb_neq (zlen d) 0)) by lia. }
  rewrite H2. cbn [Z.eqb]. rewrite arun_data_all by lia. done.
Qed.

Lemma arun_chunks l : Forall chunk_ok l -> arun at_line_end (chunks_text l) = (at_line_end, concat l, 0).
Proof.
  induction 1 as [|d l Hd Hl IH]; [done|]. cbn [chunks_text flat_map concat]. fold (chunks_text l).
  rewrite arun_app, arun_chunk by done. cbn [Z.eqb]. by rewrite IH.
Qed.

(** A complete output is decoded to the body. *)
Lemma complete_decodes es out body :
  enc_inv es (CRLF ++ out) body -> _nxweb_encode_chunked_is_complete es = true ->
  arun a_start out = (mk_as CDS_LF1 true 0, body, 1).
Proof.
  unfold _nxweb_encode_chunked_is_complete. intros Hinv [Hf Hp%Z.eqb_eq]%andb_true_iff.
  inversion Hinv as [k l Hl Hc HV HB|l d Hl Hf']; [|congruence].
  pose proof Hc as (Hf' & _). rewrite Hf in Hf'. destruct k; try done. rewrite Hp in HV. cbn [ctl_text] in HV.
  assert (Hrun : arun at_line_end (CRLF ++ out) = (mk_as CDS_LF1 true 0, body, 1)).
  { rewrite HV, arun_app, arun_chunks by done. cbn [Z.eqb]. rewrite HB.
    assert (Hlast : arun at_line_end (take (Z.to_nat 7) last_chunk) = (mk_as CDS_LF1 true 0, [], 1)) by (vm_compute; done).
    rewrite Hlast. by rewrite app_nil_r. }
  rewrite arun_app in Hrun. change (arun at_line_end CRLF) with (a_start, [] : bytes, 0) in Hrun. cbn [Z.eqb] in Hrun.
  by destruct (arun a_start out) as [[? ?] ?].
Qed.

(** ** The body writer over time

    A response body [B] of known contents: each call offers the bytes after the
    [bs_sent] ones, at least as many as the ones offered before and not taken
    ([bs_promised]); once the end was announced it stays announced. *)
Record body_state := mk_bs { bs_w : writer; bs_sent : Z; bs_promised : Z; bs_eof : bool }.

Definition offer_ok (B : bytes) (st : body_state) (n : Z) (eof : bool) : Prop :=
  bs_promised st <= n /\ bs_sent st + n <= zlen B /\ (eof = true -> bs_sent st + n = zlen B) /\
  (bs_eof st = true -> eof = true).

Inductive body_step (accept : nat -> Z -> Z) (B : bytes) : body_state -> body_state -> Prop :=
| body_call st n eof b w' :
    offer_ok B st n eof ->
    resp_body_write_chunked accept (take (Z.to_nat n) (drop (Z.to_nat (bs_sent st)) B)) eof (bs_w st) = Ok (b, w') ->
    body_step accept B st (mk_bs w' (bs_sent st + b) (n - b) eof).

Definition body_init : body_state := mk_bs (mk_writer _nxweb_encode_chunked_init [] 0) 0 0 false.

Definition body_inv (B : bytes) (st : body_state) : Prop :=
  winv (bs_w st) (take (Z.to_nat (bs_sent st)) B) /\ 0 <= bs_sent st /\ 0 <= bs_promised st /\
  bs_sent st + bs_promised st <= zlen B /\
  es_remaining (w_es (bs_w st)) <= bs_promised st /\
  (es_final_chunk (w_es (bs_w st)) = true -> bs_eof st = true /\ bs_sent st = zlen B) /\
  (bs_eof st = true -> bs_sent st + bs_promised st = zlen B).

Lemma body_init_inv B : body_inv B body_init.
Proof.
  unfold body_inv, body_init, winv. cbn. pose proof (zlen_nonneg B). split_and!; try done.
  eapply (inv_ctl _ _ _ KIdle []); done.
Qed.

Lemma body_call_ok accept B st n eof :
  (forall k n, 0 <= n -> 0 <= accept k n <= n) -> body_inv B st -> offer_ok B st n eof ->
  exists b w', resp_body_write_chunked accept (take (Z.to_nat n) (drop (Z.to_nat (bs_sent st)) B)) eof (bs_w st) = Ok (b, w') /\
    0 <= b <= n /\ body_inv B (mk_bs w' (bs_sent st + b) (n - b) eof).
Proof.
  intros Ha (Hw & Hs0 & Hp0 & Hsp & Hrem & Hfin & Heof) (Hn & Hnb & He & Hee).
  set (data := take _ (drop _ B)).
  assert (Hdrop : zlen (drop (Z.to_nat (bs_sent st)) B) = zlen B - bs_sent st) by (apply zlen_drop; lia).
  assert (Hdata : zlen data = n) by (apply zlen_take; lia).
  assert (Hwp : wp (resp_body_write_chunked accept data eof) (call_post data eof (take (Z.to_nat (bs_sent st)) B)) (bs_w st)).
  { apply wp_resp_body_write; [done|done|lia|]. intros Hf. destruct (Hfin Hf) as [H1 H2]. split; [lia|auto]. }
  apply wp_elim in Hwp as (b & w' & Hrun & Hb & Hw' & Hr' & Hf'). rewrite Hdata in *.
  exists b, w'. split; [done|]. split; [done|]. unfold body_inv. cbn [bs_w bs_sent bs_promised bs_eof].
  assert (Hbody : take (Z.to_nat (bs_sent st)) B ++ take (Z.to_nat b) data = take (Z.to_nat (bs_sent st + b)) B).
  { unfold data. rewrite take_take, Nat.min_l by lia. apply take_drop_take; lia. }
  rewrite Hbody in Hw'. split_and!; try done; try lia.
  - intros Hf. destruct (Hf' Hf) as [-> ->]. split; [done|]. rewrite He by done. lia.
  - intros ->. rewrite <- He by done. lia.
Qed.

Lemma body_reachable_inv accept B st :
  (forall k n, 0 <= n -> 0 <= accept k n <= n) -> rtc (body_step accept B) body_init st -> body_inv B st.
Proof.
  intros Ha Hr. remember body_init as st0 eqn:H0. assert (Hi : body_inv B st0) by (subst; apply body_init_inv). clear H0.
  induction Hr as [|x y z Hxy Hyz IH]; [done|]. apply IH. destruct Hxy as [st n eof b w' Ho Hrun].
  destruct (body_call_ok accept B st n eof Ha Hi Ho) as (b' & w2 & Hrun' & _ & Hinv).
  rewrite Hrun in Hrun'. by simplify_eq.
Qed.

(** A block is the bytes it holds. *)
Lemma bytes_at_whole l : bytes_at l 0 l.
Proof.
  intros i c Hi. unfold peek. rewrite (proj2 (Z.leb_le 0 (0 + Z.of_nat i))) by lia. by rewrite Z.add_0_l, Nat2Z.id.
Qed.

(** * Properties *)

(** C5: the streaming decoder, which compacts the buffer in place, refines the
    byte machine [arun]: it terminates, stays inside the buffer, returns the
    machine's verdict (more, end of the last chunk, malformed) and leaves the
    content bytes at the start of the buffer with their number in [*buf_len]; in
    monitoring mode the buffer is not changed.  Chunk sizes must fit
    [nxe_ssize_t]. *)
Theorem decode_chunked_stream_refines (m : list Z) (buf : Z) (a : astate) (input : bytes) (mon : bool) :
  0 <= buf -> bytes_at m buf input -> buf + zlen input <= zlen m -> a_ok a -> snd (arun a input) <> -2 ->
  exists r m', _nxweb_decode_chunked_stream buf (zlen input) (ds_of mon a) m = Ok (r, m') /\
    let '(a', o, rc) := arun a input in
    dr_rc r = rc /\ same_outside m m' buf (buf + zlen input) /\ (mon = true -> m' = m) /\
    (rc <> -1 -> dr_ds r = ds_of mon a' /\
       if mon then dr_len r = zlen input else dr_len r = zlen o /\ bytes_at m' buf o).
Proof.
  intros Hb Hin Hl Hok Hno.
  assert (Hw : wp (_nxweb_decode_chunked_stream buf (zlen input) (ds_of mon a)) (dec_post m buf a input mon) m).
  { by eapply wp_decode_chunked_stream. }
  apply wp_elim in Hw as (r & m' & Hr & Hp). by exists r, m'.
Qed.

Definition sample_chunks : bytes := bs "5" ++ CRLF ++ bs "hello" ++ CRLF ++ bs "0" ++ CRLF ++ CRLF.

Lemma decode_chunked_stream_refines_witness :
  exists r m', _nxweb_decode_chunked_stream 1 (zlen sample_chunks) (ds_of false a_start) (7 :: sample_chunks) = Ok (r, m') /\
    let '(a', o, rc) := arun a_start sample_chunks in
    dr_rc r = rc /\ same_outside (7 :: sample_chunks) m' 1 (1 + zlen sample_chunks) /\ (false = true -> m' = 7 :: sample_chunks) /\
    (rc <> -1 -> dr_ds r = ds_of false a' /\
       if false then dr_len r = zlen sample_chunks else dr_len r = zlen o /\ bytes_at m' 1 o).
Proof.
  apply (decode_chunked_stream_refines (7 :: sample_chunks) 1 a_start sample_chunks false).
  - lia.
  - apply bytes_at_cons with (m := 7 :: sample_chunks) (p := 0) (c := 7). intros i c Hi.
    unfold peek. rewrite (proj2 (Z.leb_le 0 (0 + Z.of_nat i))) by lia. by rewrite Z.add_0_l, Nat2Z.id.
  - vm_compute. done.
  - split; [cbn; lia|intros [?|?]; done].
  - vm_compute. done.
Defined.

(** C20: the decoder does not depend on how the network split the input:
    decoding two pieces in two calls gives the verdict, the final state and the
    content of decoding their concatenation in one. *)
Theorem decode_chunked_stream_split (m1 m2 m : list Z) (a : astate) (x y : bytes) :
  bytes_at m1 0 x -> zlen x <= zlen m1 -> bytes_at m2 0 y -> zlen y <= zlen m2 ->
  bytes_at m 0 (x ++ y) -> zlen (x ++ y) <= zlen m ->
  a_ok a -> snd (arun a (x ++ y)) <> -2 -> snd (arun a (x ++ y)) <> -1 -> snd (arun a x) = 0 ->
  exists r1 m1' r2 m2' r m' o1 o2,
    _nxweb_decode_chunked_stream 0 (zlen x) (ds_of false a) m1 = Ok (r1, m1') /\ dr_rc r1 = 0 /\
    _nxweb_decode_chunked_stream 0 (zlen y) (dr_ds r1) m2 = Ok (r2, m2') /\
    _nxweb_decode_chunked_stream 0 (zlen (x ++ y)) (ds_of false a) m = Ok (r, m') /\
    dr_rc r = dr_rc r2 /\ dr_ds r = dr_ds r2 /\ dr_len r = dr_len r1 + dr_len r2 /\
    bytes_at m1' 0 o1 /\ dr_len r1 = zlen o1 /\ bytes_at m2' 0 o2 /\ dr_len r2 = zlen o2 /\ bytes_at m' 0 (o1 ++ o2).
Proof.
  intros H1 L1 H2 L2 H L Hok Hno Hne Hx.
  destruct (arun a x) as [[a1 o1] rc1] eqn:E1. cbn in Hx. subst rc1.
  pose proof (arun_app a x y) as Happ. rewrite E1 in Happ. cbn [Z.eqb] in Happ.
  destruct (arun a1 y) as [[a2 o2] rc2] eqn:E2. rewrite Happ in Hno, Hne. cbn in Hno, Hne.
  assert (Hok1 : a_ok a1) by (eapply arun_ok; [exact Hok|exact E1]).
  assert (Hw1 : wp (_nxweb_decode_chunked_stream 0 (zlen x) (ds_of false a)) (dec_post m1 0 a x false) m1).
  { eapply wp_decode_chunked_stream; try done. by rewrite E1. }
  assert (Hw2 : wp (_nxweb_decode_chunked_stream 0 (zlen y) (ds_of false a1)) (dec_post m2 0 a1 y false) m2).
  { eapply wp_decode_chunked_stream; try done. by rewrite E2. }
  assert (Hw : wp (_nxweb_decode_chunked_stream 0 (zlen (x ++ y)) (ds_of false a)) (dec_post m 0 a (x ++ y) false) m).
  { eapply wp_decode_chunked_stream; try done. by rewrite Happ. }
  apply wp_elim in Hw1 as (r1 & m1' & Hr1 & Hp1). apply wp_elim in Hw2 as (r2 & m2' & Hr2 & Hp2).
  apply wp_elim in Hw as (r & m' & Hr & Hp). unfold dec_post in *. rewrite E1 in Hp1. rewrite E2 in Hp2. rewrite Happ in Hp.
  destruct Hp1 as (Hrc1 & _ & _ & Hp1). destruct (Hp1 ltac:(lia)) as (Hd1 & Hl1 & Hb1).
  destruct Hp2 as (Hrc2 & _ & _ & Hp2). destruct (Hp2 Hne) as (Hd2 & Hl2 & Hb2).
  destruct Hp as (Hrc & _ & _ & Hp). destruct (Hp Hne) as (Hd & Hl & Hb).
  exists r1, m1', r2, m2', r, m', o1, o2. rewrite Hd1. rewrite zlen_app in Hl. split_and!; try done; congruence || lia.
Qed.

(** C6: whatever part of each write the socket accepts, the chunked response
    writer never fails an assertion, never reports more than it was offered, and
    once the encoder is complete the bytes sent are a chunked message that the
    streaming decoder turns back into exactly the response body. *)
Theorem chunked_writer_correct (accept : nat -> Z -> Z) (B : bytes) (st : body_state) :
  (forall k n, 0 <= n -> 0 <= accept k n <= n) ->
  rtc (body_step accept B) body_init st ->
  (forall n eof, offer_ok B st n eof -> exists b w',
     resp_body_write_chunked accept (take (Z.to_nat n) (drop (Z.to_nat (bs_sent st)) B)) eof (bs_w st) = Ok (b, w') /\ 0 <= b <= n) /\
  (_nxweb_encode_chunked_is_complete (w_es (bs_w st)) = true -> bs_sent st = zlen B /\
     forall m buf, 0 <= buf -> bytes_at m buf (w_out (bs_w st)) -> buf + zlen (w_out (bs_w st)) <= zlen m ->
     exists r m', _nxweb_decode_chunked_stream buf (zlen (w_out (bs_w st))) (ds_of false a_start) m = Ok (r, m') /\
       dr_rc r = 1 /\ dr_len r = zlen B /\ bytes_at m' buf B).
Proof.
  intros Ha Hr. pose proof (body_reachable_inv _ _ _ Ha Hr) as Hinv. split.
  - intros n eof Ho. destruct (body_call_ok accept B st n eof Ha Hinv Ho) as (b & w' & ? & ? & _). eauto.
  - intros Hc. destruct Hinv as (Hw & Hs & _ & _ & _ & Hfin & _).
    pose proof Hc as [Hf _]%andb_true_iff. destruct (Hfin Hf) as [_ Hsent]. split; [done|].
    intros m buf Hb Hm Hl. unfold winv in Hw. pose proof (complete_decodes _ _ _ Hw Hc) as Hrun.
    assert (HB : take (Z.to_nat (bs_sent st)) B = B) by (apply take_ge; unfold zlen in *; lia). rewrite HB in Hrun.
    assert (Hwp : wp (_nxweb_decode_chunked_stream buf (zlen (w_out (bs_w st))) (ds_of false a_start))
              (dec_post m buf a_start (w_out (bs_w st)) false) m).
    { eapply wp_decode_chunked_stream; [exact Hb|exact Hm|exact Hl|split; [cbn; lia|by intros [?|?]]|by rewrite Hrun|done]. }
    apply wp_elim in Hwp as (r & m' & Hr' & Hp). unfold dec_post in Hp. rewrite Hrun in Hp.
    destruct Hp as (Hrc & _ & _ & Hp). destruct (Hp ltac:(lia)) as (_ & ? & ?). exists r, m'. done.
Qed.

(** A chunk size is shifted in without an overflow check: the size
    [fffffffffffffff0] becomes -16, the decoder moves before the start of the
    buffer and reads there. *)
Theorem decode_chunked_size_overflow :
  let input := bs "fffffffffffffff0" ++ CRLF ++ bs "hello" in
  _nxweb_decode_chunked_stream 0 (zlen input) (mk_cds CDS_SIZE false false 0) input = Err BadPtr.
Proof. vm_compute. reflexivity. Qed.

Lemma decode_chunked_stream_split_witness :
  exists r1 m1' r2 m2' r m' o1 o2,
    _nxweb_decode_chunked_stream 0 (zlen (take 5 sample_chunks)) (ds_of false a_start) (take 5 sample_chunks) = Ok (r1, m1') /\ dr_rc r1 = 0 /\
    _nxweb_decode_chunked_stream 0 (zlen (drop 5 sample_chunks)) (dr_ds r1) (drop 5 sample_chunks) = Ok (r2, m2') /\
    _nxweb_decode_chunked_stream 0 (zlen (take 5 sample_chunks ++ drop 5 sample_chunks)) (ds_of false a_start) sample_chunks = Ok (r, m') /\
    dr_rc r = dr_rc r2 /\ dr_ds r = dr_ds r2 /\ dr_len r = dr_len r1 + dr_len r2 /\
    bytes_at m1' 0 o1 /\ dr_len r1 = zlen o1 /\ bytes_at m2' 0 o2 /\ dr_len r2 = zlen o2 /\ bytes_at m' 0 (o1 ++ o2).
Proof.
  apply (decode_chunked_stream_split (take 5 sample_chunks) (drop 5 sample_chunks) sample_chunks a_start);
    try apply bytes_at_whole; try (vm_compute; done).
Defined.

(** The whole body accepted in one call, sent with the announcement of its end. *)
Definition run_one_call (B : bytes) : body_state :=
  match resp_body_write_chunked (fun _ n => n) (take (Z.to_nat (zlen B)) (drop (Z.to_nat 0) B)) true (bs_w body_init) with
  | Ok (b, w) => mk_bs w b (zlen B - b) true
  | Err _ => body_init
  end.

Lemma chunked_writer_correct_witness :
  let st := run_one_call (bs "hello") in
  _nxweb_encode_chunked_is_complete (w_es (bs_w st)) = true /\
  ((forall n eof, offer_ok (bs "hello") st n eof -> exists b w',
     resp_body_write_chunked (fun _ n => n) (take (Z.to_nat n) (drop (Z.to_nat (bs_sent st)) (bs "hello"))) eof (bs_w st) = Ok (b, w') /\ 0 <= b <= n) /\
  (_nxweb_encode_chunked_is_complete (w_es (bs_w st)) = true -> bs_sent st = zlen (bs "hello") /\
     forall m buf, 0 <= buf -> bytes_at m buf (w_out (bs_w st)) -> buf + zlen (w_out (bs_w st)) <= zlen m ->
     exists r m', _nxweb_decode_chunked_stream buf (zlen (w_out (bs_w st))) (ds_of false a_start) m = Ok (r, m') /\
       dr_rc r = 1 /\ dr_len r = zlen (bs "hello") /\ bytes_at m' buf (bs "hello"))).
Proof.
  split; [vm_compute; reflexivity|].
  apply (chunked_writer_correct (fun _ n => n) (bs "hello") (run_one_call (bs "hello"))).
  - intros k n Hn. lia.
  - eapply rtc_l; [|apply rtc_refl].
    eapply (body_call (fun _ n => n) (bs "hello") body_init 5 true 5).
    + split_and!; vm_compute; done.
    + vm_compute. reflexivity.
Defined.
