(* ===== verification/HttpTime.v ===== *)
(** HTTP dates (lib/http_utils.c): formatting and parsing of
    [Tue, 24 Jan 2012 13:05:54 GMT], ISO 8601 formatting, and the calendar
    functions of libc they rely on ([timegm], [gmtime_r]; proleptic Gregorian,
    no leap seconds). *)
From S2P Require Import Prelude CString.
Open Scope Z_scope.

(** ** The calendar *)

Record tm := mk_tm {
  tm_sec : Z; tm_min : Z; tm_hour : Z; tm_mday : Z; tm_mon : Z; tm_year : Z; tm_wday : Z;
}.

(** Days from 1970-01-01 to the given date; the year starts in March here, so
    that the leap day is its last. *)
Definition days_from_civil (y m d : Z) : Z :=
  let y' := if m <=? 2 then y - 1 else y in
  let era := y' / 400 in
  let yoe := y' - era * 400 in
  let mp := (m + 9) mod 12 in
  let doy := (153 * mp + 2) / 5 + d - 1 in
  let doe := yoe * 365 + yoe / 4 - yoe / 100 + doy in
  era * 146097 + doe - 719468.

(** Year, month (1..12) and day of a day number. *)
Definition civil_of_doe (doe : Z) : Z * Z * Z :=
  let yoe := (doe - doe / 1460 + doe / 36524 - doe / 146096) / 365 in
  let doy := doe - (365 * yoe + yoe / 4 - yoe / 100) in
  let mp := (5 * doy + 2) / 153 in
  let d := doy - (153 * mp + 2) / 5 + 1 in
  let m := if mp <? 10 then mp + 3 else mp - 9 in
  (if m <=? 2 then yoe + 1 else yoe, m, d).
Definition civil_from_days (z : Z) : Z * Z * Z :=
  let z := z + 719468 in
  let era := z / 146097 in
  let '(y, m, d) := civil_of_doe (z - era * 146097) in
  (y + era * 400, m, d).

(** [timegm] of a [tm] whose month is in range; the other fields may be any. *)
Definition timegm (t : tm) : Z :=
  days_from_civil (tm_year t + 1900) (tm_mon t + 1) 1 * 86400 + (tm_mday t - 1) * 86400 +
  tm_hour t * 3600 + tm_min t * 60 + tm_sec t.

Definition gmtime (t : Z) : tm :=
  let days := t / 86400 in
  let s := t mod 86400 in
  let '(y, m, d) := civil_from_days days in
  mk_tm (s mod 60) (s / 60 mod 60) (s / 3600) d (m - 1) (y - 1900) ((days + 4) mod 7).

(** ** Formatting *)

Definition WEEK_DAY : list bytes := [bs "Sun"; bs "Mon"; bs "Tue"; bs "Wed"; bs "Thu"; bs "Fri"; bs "Sat"].
Definition MONTH : list bytes :=
  [bs "Jan"; bs "Feb"; bs "Mar"; bs "Apr"; bs "May"; bs "Jun"; bs "Jul"; bs "Aug"; bs "Sep"; bs "Oct"; bs "Nov"; bs "Dec"].

Definition strcpy (p : Z) (s : bytes) : M mem unit := write_bytes p (s ++ [0]).

(** An element of a table of strings; outside it the read is undefined. *)
Definition table_get (t : list bytes) (i : Z) : M mem bytes :=
  if 0 <=? i then lift_opt BadPtr (t !! Z.to_nat i) else fail BadPtr.

(** [uint_to_decimal_string(n, num, sizeof(num))] in the local [char num[16]];
    the argument, an [int], becomes an [unsigned long]. *)
Definition num_text (n : Z) : M mem bytes := fun m =>
  match local_text 16 (uint_to_decimal_string (wrapu 64 n) 0 16) with Ok s => Ok (s, m) | Err e => Err e end.

Definition zeropad2 (p n : Z) : M mem unit :=
  let! _p := uint_to_decimal_string_zeropad (wrapu 64 n) p 2 false in ret tt.

Definition nxweb_format_http_time (buf : Z) (t : tm) : M mem Z :=
  let p := buf in
  let! wd := table_get WEEK_DAY (tm_wday t) in
  do! strcpy p wd in
  let p := p + 3 in
  do! wr p (ch ",") in let p := p + 1 in
  do! wr p 32 in let p := p + 1 in
  let! num := num_text (tm_mday t) in
  do! strcpy p num in
  let p := p + 1 in
  let! c := rd p in
  let p := if negb (c =? 0) then p + 1 else p in
  do! wr p 32 in let p := p + 1 in
  let! mon := table_get MONTH (tm_mon t) in
  do! strcpy p mon in
  let p := p + 3 in
  do! wr p 32 in let p := p + 1 in
  let! num := num_text (tm_year t + 1900) in
  do! strcpy p num in
  let p := p + 4 in
  do! wr p 32 in let p := p + 1 in
  do! zeropad2 p (tm_hour t) in let p := p + 2 in
  do! wr p (ch ":") in let p := p + 1 in
  do! zeropad2 p (tm_min t) in let p := p + 2 in
  do! wr p (ch ":") in let p := p + 1 in
  do! zeropad2 p (tm_sec t) in let p := p + 2 in
  do! wr p 32 in let p := p + 1 in
  do! wr p (ch "G") in let p := p + 1 in
  do! wr p (ch "M") in let p := p + 1 in
  do! wr p (ch "T") in let p := p + 1 in
  do! wr p 0 in
  ret (p - buf).

Definition nxweb_format_iso8601_time (buf : Z) (t : tm) : M mem Z :=
  let p := buf in
  let! _p := uint_to_decimal_string_zeropad (wrapu 64 (tm_year t + 1900)) p 4 false in
  let p := p + 4 in
  do! wr p (ch "-") in let p := p + 1 in
  do! zeropad2 p (tm_mon t + 1) in let p := p + 2 in
  do! wr p (ch "-") in let p := p + 1 in
  do! zeropad2 p (tm_mday t) in let p := p + 2 in
  do! wr p (ch "T") in let p := p + 1 in
  do! zeropad2 p (tm_hour t) in let p := p + 2 in
  do! wr p (ch ":") in let p := p + 1 in
  do! zeropad2 p (tm_min t) in let p := p + 2 in
  do! wr p (ch ":") in let p := p + 1 in
  do! zeropad2 p (tm_sec t) in let p := p + 2 in
  do! wr p 0 in
  do! assert_ (p - buf =? 19) in
  ret (p - buf).

(** ** Parsing

    [None] is an early [return 0]; [Some p] goes on at [p]. *)

(** Tests the next byte and moves past it; fails when it is another. *)
Definition expect (c p : Z) : M mem (option Z) :=
  let! d := rd p in ret (if d =? c then Some (p + 1) else None).
Definition obind {A B} (c : M mem (option A)) (k : A -> M mem (option B)) : M mem (option B) :=
  let! r := c in match r with Some a => k a | None => ret None end.
Notation "'let?' x ':=' c 'in' k" := (obind c (fun x => k))
  (at level 200, x name, c at level 200, k at level 200, right associativity) : cmonad_scope.
Notation "'let?' ' p ':=' c 'in' k" := (obind c (fun '(p) => k))
  (at level 200, p pattern, c at level 200, k at level 200, right associativity) : cmonad_scope.
Definition osome {A} (a : A) : M mem (option A) := ret (Some a).

(** The month names, lines 82-144; [p] is after the first letter [c]. *)
Definition parse_month (c p : Z) : M mem (option (Z * Z)) :=
  if c =? ch "J" then
    let! d := rd p in
    if d =? ch "a" then let? p := expect (ch "n") (p + 1) in osome (0, p)
    else if negb (d =? ch "u") then ret None
    else
      let! e := rd (p + 1) in
      if e =? ch "n" then osome (5, p + 2) else if e =? ch "l" then osome (6, p + 2) else ret None
  else if c =? ch "F" then let? p := expect (ch "e") p in let? p := expect (ch "b") p in osome (1, p)
  else if c =? ch "M" then
    let? p := expect (ch "a") p in
    let! e := rd p in
    if e =? ch "y" then osome (4, p + 1) else if e =? ch "r" then osome (2, p + 1) else ret None
  else if c =? ch "A" then
    let! d := rd p in
    if d =? ch "p" then let? p := expect (ch "r") (p + 1) in osome (3, p)
    else if d =? ch "u" then let? p := expect (ch "g") (p + 1) in osome (7, p)
    else ret None
  else if c =? ch "S" then let? p := expect (ch "e") p in let? p := expect (ch "p") p in osome (8, p)
  else if c =? ch "O" then let? p := expect (ch "c") p in let? p := expect (ch "t") p in osome (9, p)
  else if c =? ch "N" then let? p := expect (ch "o") p in let? p := expect (ch "v") p in osome (10, p)
  else if c =? ch "D" then let? p := expect (ch "e") p in let? p := expect (ch "c") p in osome (11, p)
  else ret None.

(** [strtol(p, &p, 10)] stored in an [int] field. *)
Definition strtol_field (p : Z) : M mem (Z * Z) :=
  let! s := read_str p in
  let '(v, n) := strtol s 10 in ret (wraps 32 v, p + n).

(** The year, less 1900. *)
Definition strtol_field_year (p : Z) : M mem (Z * Z) :=
  let! s := read_str p in
  let '(v, n) := strtol s 10 in ret (wraps 32 (v - 1900), p + n).

(** A field with its range check. *)
Definition field (lo hi : Z) (p : Z) : M mem (option (Z * Z)) :=
  let! '(v, p) := strtol_field p in
  ret (if (lo <=? v) && (v <=? hi) then Some (v, p) else None).

Definition parse_http_time_fields (str : Z) : M mem (option tm) :=
  let? p := expect (ch ",") (str + 3) in
  let? p := expect 32 p in
  let? '(mday, p) := field 1 31 p in
  let? p := expect 32 p in
  let! c := rd p in
  let? '(mon, p) := parse_month c (p + 1) in
  let? p := expect 32 p in
  let! '(year, p) := strtol_field_year p in
  let? year := (if (year <? 0) || (1000 <? year) then ret None else osome year) in
  let? p := expect 32 p in
  let? '(hour, p) := field 0 23 p in
  let? p := expect (ch ":") p in
  let? '(min, p) := field 0 59 p in
  let? p := expect (ch ":") p in
  let? '(sec, p) := field 0 59 p in
  let? p := expect 32 p in
  let? p := expect (ch "G") p in
  let? p := expect (ch "M") p in
  let? _p := expect (ch "T") p in
  osome (mk_tm sec min hour mday mon year 0).

Definition nxweb_parse_http_time (str : Z) : M mem Z :=
  let! r := parse_http_time_fields str in
  match r with
  | None => ret 0
  | Some t => ret (if timegm t =? -1 then 0 else timegm t)
  end.

(** * Lemmas *)

(** ** The calendar *)

Definition year_start (y : Z) : Z := 365 * y + y / 4 - y / 100.
Definition year_limit (y : Z) : Z := if y =? 399 then 146097 else year_start (y + 1).
Definition yoe_of (doe : Z) : Z := (doe - doe / 1460 + doe / 36524 - doe / 146096) / 365.

Lemma yoe_mono a b : 0 <= a <= b -> yoe_of a <= yoe_of b.
Proof.
  intros [Ha Hab]. unfold yoe_of. apply Z.div_le_mono; [lia|].
  assert (Hk : forall k : nat, a - a / 1460 + a / 36524 - a / 146096 <=
     (a + Z.of_nat k) - (a + Z.of_nat k) / 1460 + (a + Z.of_nat k) / 36524 - (a + Z.of_nat k) / 146096).
  { induction k as [|k IH]; [rewrite Z.add_0_r; lia|]. etransitivity; [exact IH|].
    rewrite Nat2Z.inj_succ. generalize (Z.of_nat k) (Nat2Z.is_nonneg k). clear IH k. intros k Hk.
    Z.to_euclidean_division_equations. lia. }
  specialize (Hk (Z.to_nat (b - a))). rewrite Z2Nat.id in Hk by lia. by replace (a + (b - a)) with b in Hk by lia.
Qed.

Lemma year_of_day doe : 0 <= doe < 146097 -> exists y, 0 <= y < 400 /\ year_start y <= doe < year_limit y.
Proof.
  intros Hd. assert (Hex : forall n, (n <= 400)%nat -> doe < year_start (Z.of_nat n) ->
    exists y, 0 <= y < Z.of_nat n /\ year_start y <= doe < year_start (y + 1)).
  { induction n as [|n IH]; intros Hn Hlt; [change (year_start (Z.of_nat 0)) with 0 in Hlt; lia|].
    destruct (Z.lt_ge_cases doe (year_start (Z.of_nat n))) as [Hc|Hc].
    - destruct (IH ltac:(lia) Hc) as (y & ? & ?). exists y. lia.
    - exists (Z.of_nat n). rewrite Nat2Z.inj_succ in Hlt. unfold Z.succ in Hlt. lia. }
  destruct (Z.eq_dec doe 146096) as [->|Hne].
  - exists 399. split; [lia|]. vm_compute. split; [discriminate|reflexivity].
  - destruct (Hex 400%nat ltac:(lia)) as (y & Hy & Hd'); [change (year_start (Z.of_nat 400)) with 146096; lia|].
    exists y. split; [lia|]. unfold year_limit. destruct (Z.eqb_spec y 399) as [->|]; [|lia].
    change (year_start (399 + 1)) with 146096 in Hd'. lia.
Qed.

Lemma seq_cases (P : Z -> bool) n :
  forallb P (map Z.of_nat (seq 0 n)) = true -> forall c, 0 <= c < Z.of_nat n -> P c = true.
Proof.
  intros HP c Hc. rewrite forallb_forall in HP. apply HP. apply in_map_iff. exists (Z.to_nat c).
  split; [lia|]. apply in_seq. lia.
Qed.

Lemma yoe_of_day y doe : 0 <= y < 400 -> year_start y <= doe < year_limit y -> yoe_of doe = y.
Proof.
  intros Hy Hd.
  pose proof (seq_cases (fun y => (yoe_of (year_start y) =? y) && (yoe_of (year_limit y - 1) =? y) && (0 <=? year_start y)) 400
    ltac:(vm_compute; reflexivity) y Hy) as Hc. cbn beta in Hc. bool_to_prop.
  pose proof (yoe_mono (year_start y) doe ltac:(lia)). pose proof (yoe_mono doe (year_limit y - 1) ltac:(lia)). lia.
Qed.

(** The conversion of a day number is inverted, and its fields are in range. *)
Lemma civil_roundtrip z y m d :
  civil_from_days z = (y, m, d) ->
  days_from_civil y m 1 + (d - 1) = z /\ 1 <= m <= 12 /\ 1 <= d <= 31.
Proof.
  unfold civil_from_days. set (z' := z + 719468). set (era := z' / 146097). set (doe := z' - era * 146097).
  assert (Hdoe : 0 <= doe < 146097).
  { unfold doe, era. pose proof (Z.div_mod z' 146097 ltac:(lia)). pose proof (Z.mod_pos_bound z' 146097 ltac:(lia)). lia. }
  destruct (year_of_day doe Hdoe) as (yoe & Hyoe & Hyd). pose proof (yoe_of_day yoe doe Hyoe Hyd) as Hy.
  unfold civil_of_doe. fold (yoe_of doe). rewrite Hy.
  replace (365 * yoe + yoe / 4 - yoe / 100) with (year_start yoe) by reflexivity.
  set (doy := doe - year_start yoe).
  assert (Hdoy : 0 <= doy < 366).
  { pose proof (seq_cases (fun y => year_limit y - year_start y <=? 366) 400 ltac:(vm_compute; reflexivity) yoe Hyoe) as Hl.
    cbn beta in Hl. bool_to_prop. unfold doy. lia. }
  pose proof (seq_cases (fun doy => let mp := (5 * doy + 2) / 153 in let d := doy - (153 * mp + 2) / 5 + 1 in
     let m := if mp <? 10 then mp + 3 else mp - 9 in
     (1 <=? m) && (m <=? 12) && (1 <=? d) && (d <=? 31) && ((m + 9) mod 12 =? mp)) 366
     ltac:(vm_compute; reflexivity) doy ltac:(lia)) as Hc. cbn beta zeta in Hc.
  set (mp := (5 * doy + 2) / 153) in *. set (mm := if mp <? 10 then mp + 3 else mp - 9) in *.
  intros Heq. injection Heq as <- <- <-. bool_to_prop. split; [|lia].
  assert (Hmp : (mm + 9) mod 12 = mp) by done. unfold days_from_civil. rewrite Hmp.
  replace ((if mm <=? 2 then (if mm <=? 2 then yoe + 1 else yoe) + era * 400 - 1 else (if mm <=? 2 then yoe + 1 else yoe) + era * 400))
    with (yoe + era * 400) by (destruct (mm <=? 2); lia).
  replace ((yoe + era * 400) / 400) with era by (rewrite Z.div_add, Z.div_small by lia; lia).
  replace (yoe + era * 400 - era * 400) with yoe by lia. unfold doe, doy, year_start in *. lia.
Qed.

Definition tm_ok (t : tm) : Prop :=
  0 <= tm_sec t < 60 /\ 0 <= tm_min t < 60 /\ 0 <= tm_hour t < 24 /\ 1 <= tm_mday t <= 31 /\
  0 <= tm_mon t < 12 /\ 0 <= tm_wday t < 7.

Lemma gmtime_ok t : tm_ok (gmtime t) /\ timegm (gmtime t) = t.
Proof.
  unfold gmtime. destruct (civil_from_days (t / 86400)) as [[y m] d] eqn:E.
  apply civil_roundtrip in E as (Hd & Hm & Hdd). pose proof (Z.div_mod t 86400 ltac:(lia)).
  pose proof (Z.mod_pos_bound t 86400 ltac:(lia)). pose proof (Z.mod_pos_bound (t / 86400 + 4) 7 ltac:(lia)).
  set (s := t mod 86400) in *. unfold tm_ok, timegm. cbn.
  replace (y - 1900 + 1900) with y by lia. replace (m - 1 + 1) with m by lia.
  split; [split_and!; try lia; Z.to_euclidean_division_equations; lia|].
  assert (s mod 60 + s / 60 mod 60 * 60 + s / 3600 * 3600 = s) by (Z.to_euclidean_division_equations; lia). lia.
Qed.

(** ** The text *)

Definition dig (n : Z) : Z := n mod 10 + 48.
Definition two (n : Z) : bytes := [dig (n / 10); dig n].
Definition day_text (n : Z) : bytes := if n <? 10 then [dig n] else two n.
Definition four (n : Z) : bytes := [dig (n / 10 / 10 / 10); dig (n / 10 / 10); dig (n / 10); dig n].

Definition http_time_text (t : tm) : bytes :=
  nth (Z.to_nat (tm_wday t)) WEEK_DAY [] ++ bs ", " ++ day_text (tm_mday t) ++ [32] ++
  nth (Z.to_nat (tm_mon t)) MONTH [] ++ [32] ++ four (tm_year t + 1900) ++ [32] ++
  two (tm_hour t) ++ bs ":" ++ two (tm_min t) ++ bs ":" ++ two (tm_sec t) ++ bs " GMT".

Definition num_is (n : Z) (s : bytes) : bool :=
  match local_text 16 (uint_to_decimal_string n 0 16) with Ok s' => bool_decide (s' = s) | Err _ => false end.
Lemma num_is_text n s m : 0 <= n < 2 ^ 64 -> num_is n s = true -> num_text n m = Ok (s, m).
Proof.
  intros Hn. unfold num_is, num_text. rewrite wrapu_small by lia.
  destruct (local_text _ _); [|done]. by intros ->%bool_decide_eq_true.
Qed.
Lemma num_text_day n m : 1 <= n <= 31 -> num_text n m = Ok (day_text n, m).
Proof.
  intros Hn. apply num_is_text; [lia|].
  pose proof (seq_cases (fun n => implb (1 <=? n) (num_is n (day_text n))) 32 ltac:(vm_compute; reflexivity) n ltac:(lia)) as Hc.
  cbn beta in Hc. by rewrite (proj2 (Z.leb_le 1 n)) in Hc by lia.
Qed.
Lemma num_text_year n m : 1900 <= n <= 2900 -> num_text n m = Ok (four n, m).
Proof.
  intros Hn. apply num_is_text; [lia|].
  pose proof (seq_cases (fun k => num_is (1900 + k) (four (1900 + k))) 1001 ltac:(vm_compute; reflexivity) (n - 1900) ltac:(lia)) as Hc.
  cbn beta in Hc. by replace (1900 + (n - 1900)) with n in Hc by lia.
Qed.

Section writing.
Context (m0 : list Z) (buf cap : Z) (Hbuf : 0 <= buf) (Hcap : buf + cap <= zlen m0).

(** [done] was written from [buf] on, nothing outside the first [cap] bytes. *)
Definition written (dn : bytes) (m : list Z) : Prop := bytes_at m buf dn /\ same_outside m0 m buf (buf + cap).

Lemma wp_put_char dn p c m (Q : unit -> list Z -> Prop) :
  written dn m -> p = buf + zlen dn -> is_byte c -> zlen dn + 1 <= cap ->
  (forall m', written (dn ++ [c]) m' -> Q tt m') -> wp (wr p c) Q m.
Proof.
  intros [Hb Hs] -> Hc Hl HQ. pose proof (same_outside_zlen _ _ _ _ Hs). pose proof (zlen_nonneg dn).
  apply wp_wr; [lia|]. rewrite wrapu_small by exact Hc. apply HQ. split.
  - apply bytes_at_push; [done|lia|lia|lia].
  - eapply same_outside_trans; [done|]. apply same_outside_poke; lia.
Qed.

Lemma wp_put_str dn p s m (Q : unit -> list Z -> Prop) :
  written dn m -> p = buf + zlen dn -> zlen dn + zlen s + 1 <= cap ->
  (forall m', written (dn ++ s) m' -> peek m' (p + zlen s) = Some 0 -> Q tt m') -> wp (strcpy p s) Q m.
Proof.
  intros [Hb Hs] -> Hl HQ. pose proof (same_outside_zlen _ _ _ _ Hs). pose proof (zlen_nonneg dn). pose proof (zlen_nonneg s).
  unfold strcpy. assert (Hz : zlen (s ++ [0]) = zlen s + 1) by (rewrite zlen_app; reflexivity).
  apply wp_write_bytes; [lia|lia|]. intros m' Hm' Hs'. apply bytes_at_app in Hm' as [Hms [Hm0 _]%bytes_at_cons].
  apply HQ; [|done]. split.
  - apply bytes_at_app. split; [|done]. eapply same_outside_bytes_at; [exact Hs'|exact Hb|lia].
  - eapply same_outside_trans; [exact Hs|]. eapply same_outside_weaken; [exact Hs'|lia|lia].
Qed.

Lemma wp_put_digits dn p n k m (Q : Z -> list Z -> Prop) :
  written dn m -> p = buf + zlen dn -> 0 <= k -> zlen dn + k <= cap ->
  (forall m' s, zlen s = k -> Forall (fun c => exists x, c = dig x) s -> pos_value 10 (fun c => c - 48) s = n mod 10 ^ k ->
     written (dn ++ s) m' -> Q p m') ->
  wp (uint_to_decimal_string_zeropad n p k false) Q m.
Proof.
  intros [Hb Hs] -> Hk Hl HQ. pose proof (same_outside_zlen _ _ _ _ Hs). pose proof (zlen_nonneg dn).
  unfold uint_to_decimal_string_zeropad.
  apply (wp_digits_zeropad 10 _ (fun c => c - 48)); [lia| |lia|lia|lia|].
  { intros x. pose proof (Z.mod_pos_bound x 10 ltac:(lia)). unfold is_byte. lia. }
  intros s m' Hs1 Hl1 Hd Hv _ Hso. eapply HQ; [exact Hl1|exact Hd|exact Hv|]. split.
  - apply bytes_at_app. split; [|done]. eapply same_outside_bytes_at; [exact Hso|exact Hb|lia].
  - eapply same_outside_trans; [exact Hs|]. eapply same_outside_weaken; [exact Hso|lia|lia].
Qed.

Lemma wp_put_two dn p n m (Q : unit -> list Z -> Prop) :
  written dn m -> p = buf + zlen dn -> zlen dn + 2 <= cap -> 0 <= n < 100 ->
  (forall m', written (dn ++ two n) m' -> Q tt m') -> wp (zeropad2 p n) Q m.
Proof.
  intros Hw Hp Hl Hn HQ. unfold zeropad2. rewrite wrapu_small by lia. apply wp_bind.
  eapply wp_put_digits; [done|done|lia|lia|]. intros m' s Hsl Hd Hv Hw'. apply wp_ret, HQ.
  replace (two n) with s; [done|]. destruct s as [|a [|b [|? ?]]]; unfold zlen in Hsl; cbn in Hsl; try lia.
  apply Forall_cons in Hd as [[x ->] Hd]. apply Forall_cons in Hd as [[y ->] _].
  unfold pos_value in Hv. cbn [fold_left] in Hv. change (10 ^ 2) with 100 in Hv. rewrite (Z.mod_small n) in Hv by lia.
  unfold two, dig in *. pose proof (Z.mod_pos_bound x 10 ltac:(lia)). pose proof (Z.mod_pos_bound y 10 ltac:(lia)).
  assert (x mod 10 = n / 10 mod 10 /\ y mod 10 = n mod 10) as [-> ->]; [|done]. Z.to_euclidean_division_equations. lia.
Qed.

Lemma wp_put_four dn p n m (Q : Z -> list Z -> Prop) :
  written dn m -> p = buf + zlen dn -> zlen dn + 4 <= cap -> 0 <= n < 10000 ->
  (forall m', written (dn ++ four n) m' -> Q p m') -> wp (uint_to_decimal_string_zeropad n p 4 false) Q m.
Proof.
  intros Hw Hp Hl Hn HQ.
  eapply wp_put_digits; [done|done|lia|lia|]. intros m' s Hsl Hd Hv Hw'. apply HQ.
  replace (four n) with s; [done|]. destruct s as [|a [|b [|c [|d [|? ?]]]]]; unfold zlen in Hsl; cbn in Hsl; try lia.
  apply Forall_cons in Hd as [[x ->] Hd]. apply Forall_cons in Hd as [[y ->] Hd].
  apply Forall_cons in Hd as [[z ->] Hd]. apply Forall_cons in Hd as [[w ->] _].
  unfold pos_value in Hv. cbn [fold_left] in Hv. change (10 ^ 4) with 10000 in Hv. rewrite (Z.mod_small n) in Hv by lia.
  unfold four, dig in *. pose proof (Z.mod_pos_bound x 10 ltac:(lia)). pose proof (Z.mod_pos_bound y 10 ltac:(lia)).
  pose proof (Z.mod_pos_bound z 10 ltac:(lia)). pose proof (Z.mod_pos_bound w 10 ltac:(lia)).
  generalize dependent (x mod 10). generalize dependent (y mod 10). generalize dependent (z mod 10). generalize dependent (w mod 10).
  intros a Ha b Hb c Hc d Hv Hd.
  assert (d = n / 10 / 10 / 10 mod 10 /\ c = n / 10 / 10 mod 10 /\ b = n / 10 mod 10 /\ a = n mod 10) as (-> & -> & -> & ->); [|done].
  Z.to_euclidean_division_equations. lia.
Qed.
End writing.

Lemma two_length n : zlen (two n) = 2.
Proof. done. Qed.
Lemma four_length n : zlen (four n) = 4.
Proof. done. Qed.
Lemma day_text_length n : 1 <= zlen (day_text n) <= 2.
Proof. unfold day_text. destruct (n <? 10); [change (zlen [dig n]) with 1|rewrite two_length]; lia. Qed.

Lemma wp_table (t : list bytes) i s m (Q : bytes -> list Z -> Prop) :
  0 <= i < zlen t -> s = nth (Z.to_nat i) t [] -> Q s m -> wp (table_get t i) Q m.
Proof.
  intros Hi -> HQ. unfold table_get. rewrite (proj2 (Z.leb_le 0 i)) by lia.
  destruct (lookup_lt_is_Some_2 t (Z.to_nat i)) as [x Hx]; [unfold zlen in Hi; lia|].
  rewrite Hx. cbn. apply wp_ret. by rewrite (nth_lookup_Some _ _ _ _ Hx) in HQ.
Qed.

(** Lengths of table entries. *)
Lemma table_length (t : list bytes) i (k : Z) : Forall (fun s => zlen s = k) t -> 0 <= i < zlen t -> zlen (nth (Z.to_nat i) t []) = k.
Proof.
  intros Hf Hi. destruct (lookup_lt_is_Some_2 t (Z.to_nat i)) as [x Hx]; [unfold zlen in Hi; lia|].
  rewrite (nth_lookup_Some _ _ _ _ Hx). by eapply Forall_lookup_1 in Hf.
Qed.

Lemma WEEK_DAY_length i : 0 <= i < 7 -> zlen (nth (Z.to_nat i) WEEK_DAY []) = 3.
Proof. intros Hi. apply table_length; [repeat constructor|done]. Qed.
Lemma MONTH_length i : 0 <= i < 12 -> zlen (nth (Z.to_nat i) MONTH []) = 3.
Proof. intros Hi. apply table_length; [repeat constructor|done]. Qed.

(** The side conditions on lengths of the text written so far. *)
Ltac text_len := autorewrite with nxlen; rewrite ?two_length, ?four_length; change (zlen (@nil Z)) with 0; lia.
Ltac after W := clear W; let m := fresh "m" in intros m W; cbn beta zeta.
Ltac put_char Hb Hc W :=
  apply wp_bind; eapply (wp_put_char _ _ _ Hb Hc); [exact W|text_len|unfold is_byte; lia|text_len|]; after W.
Ltac put_two Hb Hc W :=
  apply wp_bind; eapply (wp_put_two _ _ _ Hb Hc); [exact W|text_len|text_len|lia|]; after W.
Ltac put_str Hb Hc W :=
  apply wp_bind; eapply (wp_put_str _ _ _ Hb Hc); [exact W|text_len|text_len|]; clear W; let m := fresh "m" in
  let Z := fresh "Z0" in intros m W Z; cbn beta zeta.

Lemma wp_format_http_time m buf t (Q : Z -> list Z -> Prop) :
  0 <= buf -> buf + 30 <= zlen m -> tm_ok t -> 0 <= tm_year t <= 1000 ->
  (forall m', bytes_at m' buf (http_time_text t ++ [0]) -> same_outside m m' buf (buf + 30) -> Q (zlen (http_time_text t)) m') ->
  wp (nxweb_format_http_time buf t) Q m.
Proof.
  intros Hbuf Hcap (Hs & Hmi & Hh & Hd & Hmo & Hw) Hy HQ. unfold nxweb_format_http_time.
  pose proof (WEEK_DAY_length _ Hw) as Lw. pose proof (MONTH_length _ Hmo) as Lm. pose proof (day_text_length (tm_mday t)) as Ld.
  set (wd := nth _ WEEK_DAY []) in *. set (mo := nth _ MONTH []) in *.
  assert (W : written m buf 30 [] m) by (split; [apply bytes_at_nil|apply same_outside_refl]).
  apply wp_bind. eapply wp_table; [exact Hw|reflexivity|]. fold wd.
  put_str Hbuf Hcap W. put_char Hbuf Hcap W. put_char Hbuf Hcap W.
  apply wp_bind. unfold wp at 1. rewrite num_text_day by done. put_str Hbuf Hcap W. cbn [app] in W.
  (* the second digit of the day, or the terminator *)
  apply wp_bind.
  assert (Hday : wp (rd (buf + 3 + 1 + 1 + 1)) (fun c m' => m' = m3 /\
     (if negb (c =? 0) then buf + 3 + 1 + 1 + 1 + 1 else buf + 3 + 1 + 1 + 1) = buf + 3 + 1 + 1 + zlen (day_text (tm_mday t))) m3).
  { destruct W as [B4 S4]. unfold day_text in *. destruct (tm_mday t <? 10).
    - change (zlen [dig (tm_mday t)]) with 1 in *. eapply wp_rd'; [exact Z1|]. done.
    - apply bytes_at_app in B4 as [_ B4]. unfold two in B4. apply bytes_at_cons in B4 as [_ [B4 _]%bytes_at_cons].
      eapply wp_rd'; [|].
      + rewrite <- B4. f_equal. text_len.
      + split; [done|]. pose proof (Z.mod_pos_bound (tm_mday t) 10 ltac:(lia)). unfold dig.
        rewrite (proj2 (Z.eqb_neq _ 0)) by lia. cbn [negb]. rewrite two_length. lia. }
  eapply wp_mono; [exact Hday|]. clear Hday. intros c m' [-> Hp]. rewrite Hp. clear Hp c.
  put_char Hbuf Hcap W. apply wp_bind. eapply wp_table; [exact Hmo|reflexivity|]. fold mo.
  put_str Hbuf Hcap W. put_char Hbuf Hcap W.
  apply wp_bind. unfold wp at 1. rewrite num_text_year by lia.
  put_str Hbuf Hcap W. put_char Hbuf Hcap W. put_two Hbuf Hcap W. put_char Hbuf Hcap W. put_two Hbuf Hcap W.
  put_char Hbuf Hcap W. put_two Hbuf Hcap W. put_char Hbuf Hcap W. put_char Hbuf Hcap W. put_char Hbuf Hcap W.
  put_char Hbuf Hcap W. put_char Hbuf Hcap W. destruct W as [B S].
  apply wp_ret. unfold http_time_text in HQ. fold wd mo in HQ.
  replace (_ - buf) with (zlen (wd ++ bs ", " ++ day_text (tm_mday t) ++ [32] ++ mo ++ [32] ++ four (tm_year t + 1900) ++ [32] ++
     two (tm_hour t) ++ bs ":" ++ two (tm_min t) ++ bs ":" ++ two (tm_sec t) ++ bs " GMT")) by text_len.
  apply HQ; [|done]. repeat rewrite <- app_assoc in B. repeat rewrite <- app_assoc. exact B.
Qed.

(** The text has 28 or 29 characters and no NUL. *)
Lemma dig_nonzero n : dig n <> 0.
Proof. unfold dig. pose proof (Z.mod_pos_bound n 10 ltac:(lia)). lia. Qed.
Lemma table_nonzero (t : list bytes) i :
  Forall (Forall (fun c => c <> 0)) t -> Forall (fun c => c <> 0) (nth i t []).
Proof.
  intros Hf. destruct (t !! i) as [x|] eqn:E.
  - rewrite (nth_lookup_Some _ _ _ _ E). by eapply Forall_lookup_1 in Hf.
  - rewrite nth_overflow; [done|]. by apply lookup_ge_None.
Qed.
Lemma http_time_text_facts t : tm_ok t -> 28 <= zlen (http_time_text t) <= 29 /\ Forall (fun c => c <> 0) (http_time_text t).
Proof.
  intros (_ & _ & _ & _ & Hmo & Hw). pose proof (day_text_length (tm_mday t)). unfold http_time_text. split.
  - autorewrite with nxlen. rewrite ?two_length, ?four_length, WEEK_DAY_length, MONTH_length by done.
    change (zlen (@nil Z)) with 0. lia.
  - assert (Htwo : forall n, Forall (fun c => c <> 0) (two n)) by (intros n; repeat constructor; apply dig_nonzero).
    repeat (apply Forall_app; split); try apply Htwo; try (by repeat constructor).
    + apply table_nonzero. repeat constructor; done.
    + unfold day_text. destruct (_ <? _); [repeat constructor; apply dig_nonzero|apply Htwo].
    + apply table_nonzero. repeat constructor; done.
    + repeat constructor; apply dig_nonzero.
Qed.

(** ** Reading the text back *)

Lemma obind_assoc_some {A B} (c : M (list Z) (option A)) (k : A -> M (list Z) (option B)) (Q : option B -> list Z -> Prop) m :
  wp c (fun r m' => match r with Some a => wp (k a) Q m' | None => Q None m' end) m -> wp (obind c k) Q m.
Proof. intros Hc. unfold obind. apply wp_bind. eapply wp_mono; [exact Hc|]. intros [a|] m' Ha; [done|by apply wp_ret]. Qed.

Lemma wp_expect m p c s (Q : option Z -> list Z -> Prop) :
  cstr m p (c :: s) -> (cstr m (p + 1) s -> Q (Some (p + 1)) m) -> wp (expect c p) Q m.
Proof.
  intros (_ & _ & Hc & Hs)%cstr_cons HQ. unfold expect. apply wp_bind. eapply wp_rd'; [done|]. rewrite Z.eqb_refl.
  apply wp_ret. auto.
Qed.

Lemma dig_digit n : is_digit (dig n).
Proof. unfold is_digit, dig. pose proof (Z.mod_pos_bound n 10 ltac:(lia)). lia. Qed.
Lemma two_digits n : Forall is_digit (two n).
Proof. repeat constructor; apply dig_digit. Qed.
Lemma two_value n : 0 <= n < 100 -> dec_value (two n) = n.
Proof. intros Hn. unfold dec_value, two, dig, dec_step. cbn [fold_left]. Z.to_euclidean_division_equations. lia. Qed.
Lemma day_value n : 1 <= n <= 31 -> Forall is_digit (day_text n) /\ dec_value (day_text n) = n /\ day_text n <> [].
Proof.
  intros Hn. unfold day_text. destruct (Z.ltb_spec n 10).
  - split; [repeat constructor; apply dig_digit|]. split; [|done]. unfold dec_value, dig, dec_step. cbn [fold_left].
    rewrite Z.mod_small by lia. lia.
  - split; [apply two_digits|]. split; [apply two_value; lia|done].
Qed.
Lemma four_value n : 0 <= n < 10000 -> Forall is_digit (four n) /\ dec_value (four n) = n.
Proof.
  intros Hn. split; [repeat constructor; apply dig_digit|]. unfold dec_value, four, dig, dec_step. cbn [fold_left].
  Z.to_euclidean_division_equations. lia.
Qed.

(** A decimal number followed by a byte that is no digit. *)
Lemma strtol_number m p ds c s : Forall is_digit ds -> ds <> [] -> (c = 32 \/ c = 58) -> dec_value ds <= LONG_MAX ->
  cstr m p (ds ++ c :: s) ->
  strtol (ds ++ c :: s) 10 = (dec_value ds, zlen ds) /\ cstr m (p + zlen ds) (c :: s).
Proof.
  intros Hd Hne Hc Hv Hs. split; [|by eapply cstr_app]. apply strtol_dec; [done|done| |done].
  destruct Hc as [-> | ->]; done.
Qed.

Lemma wp_field lo hi m p ds c s n (Q : option (Z * Z) -> list Z -> Prop) :
  Forall is_digit ds -> ds <> [] -> (c = 32 \/ c = 58) -> dec_value ds = n -> lo <= n <= hi -> 0 <= n < 2 ^ 31 ->
  cstr m p (ds ++ c :: s) -> (cstr m (p + zlen ds) (c :: s) -> Q (Some (n, p + zlen ds)) m) -> wp (field lo hi p) Q m.
Proof.
  intros Hd Hne Hc Hv Hn Hb Hs HQ. destruct (strtol_number m p ds c s Hd Hne Hc) as [Hst Hs']; [unfold LONG_MAX; lia|done|].
  unfold field, strtol_field. apply wp_bind, wp_bind. eapply wp_read_str; [exact Hs|]. rewrite Hst. apply wp_ret, wp_ret.
  rewrite Hv, wraps_small by lia. rewrite (proj2 (Z.leb_le lo n)), (proj2 (Z.leb_le n hi)) by lia. by apply HQ.
Qed.

Ltac expect_next H := first [apply obind_assoc_some | idtac]; eapply wp_expect; [exact H|]; clear H; intros H; cbn beta iota.

(** Each month name is recognised. *)
Lemma wp_parse_month m p i r (Q : option (Z * Z) -> list Z -> Prop) :
  0 <= i < 12 -> cstr m p (nth (Z.to_nat i) MONTH [] ++ r) ->
  (cstr m (p + 3) r -> Q (Some (i, p + 3)) m) ->
  wp (let! c := rd p in parse_month c (p + 1)) Q m.
Proof.
  intros Hi Hs HQ. apply wp_bind.
  assert (Hcase : exists k, (k < 12)%nat /\ Z.to_nat i = k) by (exists (Z.to_nat i); lia).
  destruct Hcase as (k & Hk & Hki). rewrite Hki in Hs. assert (i = Z.of_nat k) as -> by lia. clear Hki Hi.
  replace (p + 3) with (p + 1 + 1 + 1) in HQ by lia.
  do 12 (destruct k as [|k]; [cbn [nth MONTH app] in Hs; pose proof Hs as (_ & _ & Hc & Hs1)%cstr_cons;
    pose proof Hs1 as (_ & _ & Hc1 & Hs2)%cstr_cons; pose proof Hs2 as (_ & _ & Hc2 & Hs3)%cstr_cons;
    eapply wp_rd'; [exact Hc|]; unfold parse_month, osome; cbn [Z.eqb Pos.eqb];
    repeat first
      [ apply obind_assoc_some
      | eapply wp_expect; [eassumption|]; intros _; cbn beta iota
      | apply wp_bind
      | eapply wp_rd'; [eassumption|]; cbn [Z.eqb Pos.eqb negb]
      | apply wp_ret; rewrite <- ?(Z.add_assoc _ 1 1); cbn [Z.add Pos.add]; rewrite ?(Z.add_assoc _ 1 1) ];
    replace (p + 1 + 2) with (p + 1 + 1 + 1) by lia; by apply HQ|]).
  lia.
Qed.

Lemma LONG_big n : 0 <= n < 2 ^ 31 -> n <= LONG_MAX.
Proof. unfold LONG_MAX. lia. Qed.

Lemma wp_parse_http_time m p t (Q : Z -> list Z -> Prop) :
  tm_ok t -> 0 <= tm_year t <= 1000 -> cstr m p (http_time_text t) -> timegm t <> -1 ->
  Q (timegm t) m -> wp (nxweb_parse_http_time p) Q m.
Proof.
  intros (Hs & Hmi & Hh & Hd & Hmo & Hw) Hy Hc Hne HQ. unfold nxweb_parse_http_time, parse_http_time_fields.
  unfold http_time_text in Hc. apply cstr_app in Hc. rewrite (WEEK_DAY_length _ Hw) in Hc. cbn [app] in Hc.
  destruct (day_value (tm_mday t) Hd) as (Dd & Dv & Dne). destruct (four_value (tm_year t + 1900) ltac:(lia)) as (Yd & Yv).
  apply wp_bind. expect_next Hc. expect_next Hc.
  apply obind_assoc_some. eapply wp_field; [exact Dd|exact Dne|by left|exact Dv|exact Hd|lia|exact Hc|]. clear Hc. intros Hc. cbn beta iota.
  expect_next Hc.
  apply (wp_bind (rd _)).
  pose proof Hc as Hm.
  assert (Hmon : wp (let! c := rd (p + 3 + 1 + 1 + zlen (day_text (tm_mday t)) + 1) in parse_month c (p + 3 + 1 + 1 + zlen (day_text (tm_mday t)) + 1 + 1))
     (fun r m' => m' = m /\ r = Some (tm_mon t, p + 3 + 1 + 1 + zlen (day_text (tm_mday t)) + 1 + 3) /\
        cstr m (p + 3 + 1 + 1 + zlen (day_text (tm_mday t)) + 1 + 3)
          (32 :: four (tm_year t + 1900) ++ [32] ++ two (tm_hour t) ++ bs ":" ++ two (tm_min t) ++ bs ":" ++ two (tm_sec t) ++ bs " GMT")) m).
  { eapply wp_parse_month; [exact Hmo|exact Hm|]. done. }
  clear Hm Hc. revert Hmon. unfold wp at 1, bind at 1. unfold wp at 1.
  destruct (rd _ m) as [[c m1]|]; [|done]. intros Hmon. apply obind_assoc_some.
  eapply wp_mono; [exact Hmon|]. clear Hmon. intros r m' (-> & -> & Hc). cbn beta iota.
  set (q := p + 3 + 1 + 1 + zlen (day_text (tm_mday t)) + 1 + 3) in *.
  expect_next Hc.
  destruct (strtol_number m (q + 1) (four (tm_year t + 1900)) 32 _ Yd ltac:(done) (or_introl eq_refl)
     ltac:(rewrite Yv; apply LONG_big; lia) Hc) as [Hst Hc2].
  apply wp_bind. unfold strtol_field_year. apply wp_bind. eapply wp_read_str; [exact Hc|]. cbn [app] in Hst |- *. rewrite Hst. apply wp_ret.
  cbn beta iota. clear Hc Hst. rename Hc2 into Hc. rewrite Yv. replace (tm_year t + 1900 - 1900) with (tm_year t) by lia.
  rewrite wraps_small by lia. apply obind_assoc_some.
  rewrite (proj2 (Z.ltb_ge (tm_year t) 0)), (proj2 (Z.ltb_ge 1000 (tm_year t))) by lia. cbn [orb]. apply wp_ret. cbn beta iota.
  expect_next Hc.
  apply obind_assoc_some. eapply (wp_field _ _ _ _ (two (tm_hour t)) _ _ (tm_hour t)); [apply two_digits|done|by right|apply two_value; lia|lia|lia|exact Hc|]. clear Hc. intros Hc. cbn beta iota.
  expect_next Hc.
  apply obind_assoc_some. eapply (wp_field _ _ _ _ (two (tm_min t)) _ _ (tm_min t)); [apply two_digits|done|by right|apply two_value; lia|lia|lia|exact Hc|]. clear Hc. intros Hc. cbn beta iota.
  expect_next Hc.
  apply obind_assoc_some. eapply (wp_field _ _ _ _ (two (tm_sec t)) _ _ (tm_sec t)); [apply two_digits|done|by left|apply two_value; lia|lia|lia|exact Hc|]. clear Hc. intros Hc. cbn beta iota.
  expect_next Hc. expect_next Hc. expect_next Hc. expect_next Hc. apply wp_ret.
  replace (timegm (mk_tm _ _ _ _ _ _ _)) with (timegm t) by reflexivity.
  rewrite (proj2 (Z.eqb_neq _ _) Hne). by apply wp_ret.
Qed.

(** ** Parsing any text

    Every test stops at a NUL, so the parser reads at most up to the first NUL
    from the fourth byte on. *)

Definition stays {A} (m : list Z) (z : Z) (pos : A -> Z) (c : M (list Z) (option A)) : Prop :=
  wp c (fun r m' => m' = m /\ match r with Some a => 0 <= pos a <= z | None => True end) m.

Lemma stays_bind {A B} m z (pa : A -> Z) (pb : B -> Z) c k :
  stays m z pa c -> (forall a, 0 <= pa a <= z -> stays m z pb (k a)) -> stays m z pb (obind c k).
Proof.
  intros Hc Hk. apply obind_assoc_some. eapply wp_mono; [exact Hc|]. intros [a|] m' [-> Ha]; [by apply Hk|done].
Qed.
Lemma stays_some {A} m z (pa : A -> Z) a : 0 <= pa a <= z -> stays m z pa (osome a).
Proof. done. Qed.
Lemma stays_none {A} m z (pa : A -> Z) : stays m z pa (ret None).
Proof. done. Qed.
Lemma stays_rd {A} m z (pa : A -> Z) p (k : Z -> M (list Z) (option A)) :
  peek m z = Some 0 -> 0 <= p <= z -> (forall d, peek m p = Some d -> (d <> 0 -> p < z) -> stays m z pa (k d)) ->
  stays m z pa (bind (rd p) k).
Proof.
  intros Hz Hp Hk. unfold stays. pose proof (peek_Some _ _ _ Hz). apply wp_bind, wp_rd; [lia|]. intros d Hd.
  apply Hk; [done|]. intros Hne. destruct (decide (p = z)) as [->|]; [congruence|lia].
Qed.
Lemma stays_expect m z c p :
  peek m z = Some 0 -> 0 <= p <= z -> c <> 0 -> stays m z (fun q => q) (expect c p).
Proof.
  intros Hz Hp Hc. apply stays_rd; [done|done|]. intros d Hd Hlt. destruct (Z.eqb_spec d c) as [->|]; [|done].
  apply (stays_some m z (fun q => q)). specialize (Hlt Hc). lia.
Qed.

Lemma sign_length (s : bytes) :
  zlen (snd (match s with 45 :: r => (true, r) | 43 :: r => (false, r) | _ => (false, s) end)) <= zlen s.
Proof. destruct s as [|c s]; [cbn; lia|]. rewrite zlen_cons. pose proof (zlen_nonneg s).
  repeat (destruct c as [|c|c]; cbn [snd]; rewrite ?zlen_cons; try lia; try (destruct c; cbn [snd]; rewrite ?zlen_cons; try lia)). Qed.
Lemma strtol_count s : 0 <= snd (strtol s 10) <= zlen s.
Proof.
  unfold strtol. pose proof (skip_spaces_length s). pose proof (sign_length (skip_spaces s)) as Hsg. pose proof (zlen_nonneg s).
  destruct (match skip_spaces s with 45 :: r => _ | _ => _ end) as [neg s2]. cbn [snd] in Hsg.
  assert (Hs3 : (match s2 with
            | 48 :: x :: h :: r =>
                if (10 =? 16) && ((x =? ch "x") || (x =? ch "X")) && (digit_val h <? 16)
                then h :: r else s2
            | _ => s2
            end) = s2).
  { change (10 =? 16) with false. cbn [andb]. destruct s2 as [|c [|? [|? ?]]]; try done;
    repeat (destruct c as [|c|c]; try done; destruct c; try done). }
  rewrite Hs3. pose proof (strtol_digits_count 10 s2 0 0). destruct (strtol_digits 10 s2 0 0) as [v n]. cbn [snd] in *.
  destruct (n =? 0); cbn [snd]; lia.
Qed.

Lemma stays_strtol {A} m z (pa : A -> Z) p (f : Z -> Z) (k : Z * Z -> M (list Z) (option A)) :
  peek m z = Some 0 -> 0 <= p <= z -> (forall v q, 0 <= q <= z -> stays m z pa (k (v, q))) ->
  stays m z pa (bind (let! s := read_str p in let '(v, n) := strtol s 10 in ret (f v, p + n)) k).
Proof.
  intros Hz Hp Hk. unfold stays. destruct (cstr_exists m p z) as (s & Hs & Hl); [done|done|].
  apply wp_bind, wp_bind. eapply wp_read_str; [exact Hs|]. pose proof (strtol_count s) as Hn.
  destruct (strtol s 10) as [v n]. cbn [snd] in Hn. apply wp_ret. apply Hk. lia.
Qed.
Lemma stays_field m z lo hi p : peek m z = Some 0 -> 0 <= p <= z -> stays m z snd (field lo hi p).
Proof.
  intros Hz Hp. unfold field, strtol_field. apply (stays_strtol m z snd p (wraps 32)); [done|done|].
  intros v q Hq. unfold stays. destruct (_ && _); by apply wp_ret.
Qed.

Ltac stays_step := first
  [ apply stays_none | apply (stays_some _ _ snd); cbn [snd]; lia
  | apply (stays_bind _ _ (fun q => q)); [apply stays_expect; [done|lia|lia]|intros ? ?]
  | apply stays_rd; [done|lia|intros ? ? ?]
  | match goal with |- stays _ _ _ (if ?d =? ?c then _ else _) => destruct (Z.eqb_spec d c); [subst d|] end
  | match goal with |- stays _ _ _ (if ?b then _ else _) => destruct b eqn:? end ].

Lemma stays_month m z c p : peek m z = Some 0 -> 0 <= p <= z -> stays m z snd (parse_month c p).
Proof.
  intros Hz Hp. unfold parse_month. repeat (stays_step; try match goal with H : ?d <> 0 -> ?x < z |- _ => specialize (H ltac:(lia)) end).
Qed.

Lemma wp_parse_http_time_any m p z (Q : Z -> list Z -> Prop) :
  0 <= p -> p + 3 <= z -> peek m z = Some 0 -> (forall t, Q t m) -> wp (nxweb_parse_http_time p) Q m.
Proof.
  intros Hp Hpz Hz HQ. unfold nxweb_parse_http_time. apply wp_bind.
  apply wp_mono with (fun r m' => m' = m); [|by intros [t|] m' ->; apply wp_ret].
  apply wp_mono with (fun (r : option tm) m' => m' = m /\ match r with Some a => 0 <= 0 <= z | None => True end); [|by intros ? ? [? _]].
  change (stays m z (fun _ : tm => 0) (parse_http_time_fields p)). unfold parse_http_time_fields.
  do 2 stays_step. apply (stays_bind _ _ snd); [apply stays_field; [done|lia]|intros [mday q1] ?; cbn [snd] in *].
  stays_step. apply stays_rd; [done|lia|]. intros c Hc Hlt. apply (stays_bind _ _ snd).
  { destruct (decide (c = 0)) as [->|Hne]; [apply stays_none|]. apply stays_month; [done|]. specialize (Hlt Hne). lia. }
  intros [mon q2] ?; cbn [snd] in *. stays_step. apply (stays_strtol _ _ _ _ (fun v => wraps 32 (v - 1900))); [done|lia|].
  intros year q3 ?. cbn beta iota. apply (stays_bind _ _ (fun _ => q3)); [destruct (_ || _); [apply stays_none|by apply stays_some]|].
  intros year' _. stays_step. apply (stays_bind _ _ snd); [apply stays_field; [done|lia]|intros [h q4] ?; cbn [snd] in *].
  stays_step. apply (stays_bind _ _ snd); [apply stays_field; [done|lia]|intros [mi q5] ?; cbn [snd] in *].
  stays_step. apply (stays_bind _ _ snd); [apply stays_field; [done|lia]|intros [se q6] ?; cbn [snd] in *].
  do 4 stays_step. apply stays_some. lia.
Qed.

(** * Properties *)

(** C21: an HTTP date round trip: for every time in the years 1900 to 2900
    (other than -1, which the parser uses for failure), [nxweb_format_http_time]
    writes at most 29 characters and a terminator into the caller's 30 bytes, and
    [nxweb_parse_http_time] reads exactly that time back from them. *)
Theorem http_time_roundtrip (m : list Z) (buf t : Z) :
  0 <= buf -> buf + 30 <= zlen m -> 0 <= tm_year (gmtime t) <= 1000 -> t <> -1 ->
  exists n m', nxweb_format_http_time buf (gmtime t) m = Ok (n, m') /\ 28 <= n <= 29 /\
    same_outside m m' buf (buf + 30) /\ nxweb_parse_http_time buf m' = Ok (t, m').
Proof.
  intros Hb Hm Hy Ht. destruct (gmtime_ok t) as [Hok Hg].
  pose proof (http_time_text_facts (gmtime t) Hok) as [Hlen Hnz].
  assert (Hw : wp (nxweb_format_http_time buf (gmtime t)) (fun n m' => n = zlen (http_time_text (gmtime t)) /\
            cstr m' buf (http_time_text (gmtime t)) /\ same_outside m m' buf (buf + 30)) m).
  { apply wp_format_http_time; [done..|]. intros m' Hb' Hs'. split; [done|]. split; [|done]. by apply bytes_at_cstr. }
  apply wp_elim in Hw as (n & m' & Hr & -> & Hc & Hs).
  assert (Hp : wp (nxweb_parse_http_time buf) (fun v m2 => v = t /\ m2 = m') m').
  { eapply wp_parse_http_time; [exact Hok|done|exact Hc|by rewrite Hg|]. by rewrite Hg. }
  apply wp_elim in Hp as (v & m2 & Hr2 & -> & ->). eauto 10.
Qed.

(** 2012-01-24 13:05:54. *)
Lemma http_time_roundtrip_witness :
  exists n m', nxweb_format_http_time 2 (gmtime 1327410354) (replicate 40 7) = Ok (n, m') /\ 28 <= n <= 29 /\
    same_outside (replicate 40 7) m' 2 (2 + 30) /\ nxweb_parse_http_time 2 m' = Ok (1327410354, m').
Proof. apply http_time_roundtrip; [lia|vm_compute; discriminate|vm_compute; split; discriminate|lia]. Defined.

(** ISO 8601 formatting always writes the 19 characters
    [YYYY-MM-DDTHH:MM:SS] that its assertion demands, and the terminator, for
    the dates [gmtime] produces up to the year 9999. *)
Theorem iso8601_correct (m : list Z) (buf t : Z) :
  0 <= buf -> buf + 20 <= zlen m -> -1900 <= tm_year (gmtime t) <= 8099 ->
  exists m', nxweb_format_iso8601_time buf (gmtime t) m = Ok (19, m') /\ same_outside m m' buf (buf + 20) /\
    bytes_at m' buf (four (tm_year (gmtime t) + 1900) ++ bs "-" ++ two (tm_mon (gmtime t) + 1) ++ bs "-" ++
      two (tm_mday (gmtime t)) ++ bs "T" ++ two (tm_hour (gmtime t)) ++ bs ":" ++ two (tm_min (gmtime t)) ++ bs ":" ++
      two (tm_sec (gmtime t)) ++ [0]).
Proof.
  intros Hbuf Hcap Hy. destruct (gmtime_ok t) as [(Hs & Hmi & Hh & Hd & Hmo & _) _]. set (g := gmtime t) in *.
  assert (Hw : wp (nxweb_format_iso8601_time buf g) (fun n m' => n = 19 /\ written m buf 20 (((((((((((four (tm_year g + 1900) ++ bs "-") ++ two (tm_mon g + 1)) ++ bs "-") ++
      two (tm_mday g)) ++ bs "T") ++ two (tm_hour g)) ++ bs ":") ++ two (tm_min g)) ++ bs ":") ++ two (tm_sec g)) ++ [0]) m') m).
  { unfold nxweb_format_iso8601_time. rewrite wrapu_small by lia.
    assert (W : written m buf 20 [] m) by (split; [apply bytes_at_nil|apply same_outside_refl]).
    apply wp_bind. eapply (wp_put_four _ _ _ Hbuf Hcap); [exact W|text_len|text_len|lia|]. after W. cbn [app] in W.
    put_char Hbuf Hcap W. put_two Hbuf Hcap W. put_char Hbuf Hcap W. put_two Hbuf Hcap W. put_char Hbuf Hcap W.
    put_two Hbuf Hcap W. put_char Hbuf Hcap W. put_two Hbuf Hcap W. put_char Hbuf Hcap W. put_two Hbuf Hcap W. put_char Hbuf Hcap W.
    apply wp_bind, wp_assert; [apply Z.eqb_eq; lia|]. apply wp_ret. split; [lia|done]. }
  apply wp_elim in Hw as (n & m' & Hr & -> & Hb & Hso). exists m'. split; [done|]. split; [done|].
  repeat rewrite <- app_assoc in Hb. exact Hb.
Qed.

Lemma iso8601_correct_witness :
  let g := gmtime 1327410354 in
  exists m', nxweb_format_iso8601_time 0 g (replicate 24 7) = Ok (19, m') /\ same_outside (replicate 24 7) m' 0 (0 + 20) /\
    bytes_at m' 0 (four (tm_year g + 1900) ++ bs "-" ++ two (tm_mon g + 1) ++ bs "-" ++
      two (tm_mday g) ++ bs "T" ++ two (tm_hour g) ++ bs ":" ++ two (tm_min g) ++ bs ":" ++ two (tm_sec g) ++ [0]).
Proof. apply iso8601_correct; [lia|vm_compute; discriminate|vm_compute; split; discriminate]. Defined.
