(* ===== verification/SimpleMap.v ===== *)
(** The singly linked maps of include/nxweb/nxweb.h (headers, parameters,
    cookies): newest entry first, looked up by exact or case-insensitive name;
    and the chain of per-request data of lib/http_utils.c.  A map is the list of
    its entries in chain order: entries are owned by one map and never shared. *)
From S2P Require Import Prelude CString.
Open Scope Z_scope.

Record nx_simple_map_entry := mk_sme { sme_name : bytes; sme_value : option bytes }.
Abbreviation simple_map := (list nx_simple_map_entry) (only parsing).

(** [strcmp(a, b)==0] *)
Definition strcmp_eq (a b : bytes) : bool := bool_decide (a = b).

Fixpoint nx_simple_map_find (map : simple_map) (name : bytes) : option nx_simple_map_entry :=
  match map with
  | [] => None
  | e :: next => if strcmp_eq (sme_name e) name then Some e else nx_simple_map_find next name
  end.

Definition nx_simple_map_get (map : simple_map) (name : bytes) : option bytes :=
  match nx_simple_map_find map name with Some e => sme_value e | None => None end.

Fixpoint nx_simple_map_find_nocase (map : simple_map) (name : bytes) : option nx_simple_map_entry :=
  match map with
  | [] => None
  | e :: next => if nx_strcasecmp (sme_name e) name =? 0 then Some e else nx_simple_map_find_nocase next name
  end.

Definition nx_simple_map_get_nocase (map : simple_map) (name : bytes) : option bytes :=
  match nx_simple_map_find_nocase map name with Some e => sme_value e | None => None end.

Definition nx_simple_map_add (map : simple_map) (new_entry : nx_simple_map_entry) : simple_map := new_entry :: map.

(** The loop of the removals: [prev] is the part already walked, newest last. *)
Fixpoint remove_loop (same : nx_simple_map_entry -> bool) (prev me : simple_map) : option nx_simple_map_entry * simple_map :=
  match me with
  | [] => (None, prev)
  | e :: next => if same e then (Some e, prev ++ next) else remove_loop same (prev ++ [e]) next
  end.
Definition nx_simple_map_remove (map : simple_map) (name : bytes) : option nx_simple_map_entry * simple_map :=
  remove_loop (fun e => strcmp_eq (sme_name e) name) [] map.
Definition nx_simple_map_remove_nocase (map : simple_map) (name : bytes) : option nx_simple_map_entry * simple_map :=
  remove_loop (fun e => nx_strcasecmp (sme_name e) name =? 0) [] map.

(** The accessors of a request; a null map has no entries. *)
Definition nxweb_get_request_header (headers : simple_map) (name : bytes) : option bytes :=
  nx_simple_map_get_nocase headers name.
Definition nxweb_get_request_parameter (parameters : simple_map) (name : bytes) : option bytes :=
  nx_simple_map_get parameters name.
Definition nxweb_get_request_cookie (cookies : simple_map) (name : bytes) : option bytes :=
  nx_simple_map_get cookies name.

(** ** Request data: keys are addresses, 0 is null *)

Record nxweb_http_request_data := mk_rd { rd_key : Z; rd_value : Z; rd_finalize : Z }.

Definition rd_matches (key : Z) (d : nxweb_http_request_data) : bool := negb (rd_key d =? 0) && (rd_key d =? key).

Fixpoint nxweb_find_request_data (chain : list nxweb_http_request_data) (key : Z) : option nxweb_http_request_data :=
  match chain with
  | [] => None
  | d :: next => if rd_matches key d then Some d else nxweb_find_request_data next key
  end.

(** Updates the record found in place, or puts a new one in front. *)
Fixpoint rd_update (chain : list nxweb_http_request_data) (key value fin : Z) : list nxweb_http_request_data :=
  match chain with
  | [] => []
  | d :: next => if rd_matches key d then mk_rd (rd_key d) value fin :: next else d :: rd_update next key value fin
  end.
Definition nxweb_set_request_data (chain : list nxweb_http_request_data) (key value fin : Z) : list nxweb_http_request_data :=
  match nxweb_find_request_data chain key with
  | Some _ => rd_update chain key value fin
  | None => mk_rd key value fin :: chain
  end.
Definition nxweb_get_request_data (chain : list nxweb_http_request_data) (key : Z) : Z :=
  match nxweb_find_request_data chain key with Some d => rd_value d | None => 0 end.

(** * Lemmas *)

Lemma strcmp_eq_true a b : strcmp_eq a b = true <-> a = b.
Proof. apply bool_decide_eq_true. Qed.
Lemma strcmp_eq_refl a : strcmp_eq a a = true.
Proof. by apply strcmp_eq_true. Qed.

(** What a removal takes out, by the position of the first match. *)
Lemma remove_loop_spec same prev me :
  remove_loop same prev me =
  match list_find (fun e => same e = true) me with
  | Some (i, e) => (Some e, prev ++ take i me ++ drop (S i) me)
  | None => (None, prev ++ me)
  end.
Proof.
  revert prev. induction me as [|e me IH]; intros prev; cbn [remove_loop list_find].
  - by rewrite app_nil_r.
  - destruct (same e) eqn:E.
    + rewrite decide_True by done. done.
    + rewrite decide_False by congruence. rewrite IH.
      destruct (list_find _ me) as [[i x]|]; cbn; by rewrite <- app_assoc.
Qed.

Lemma find_list_find map name :
  nx_simple_map_find map name = snd <$> list_find (fun e => strcmp_eq (sme_name e) name = true) map.
Proof.
  induction map as [|e map IH]; [done|]. cbn [nx_simple_map_find list_find].
  destruct (strcmp_eq _ _) eqn:E; [by rewrite decide_True|]. rewrite decide_False by congruence. rewrite IH.
  by destruct (list_find _ map) as [[i x]|].
Qed.

Lemma find_app l k name :
  nx_simple_map_find (l ++ k) name =
  match nx_simple_map_find l name with Some e => Some e | None => nx_simple_map_find k name end.
Proof. induction l as [|e l IH]; [done|]. cbn. by destruct (strcmp_eq _ _). Qed.

Lemma find_drop_other map name name' i e :
  list_find (fun e => strcmp_eq (sme_name e) name = true) map = Some (i, e) -> name' <> name ->
  nx_simple_map_find (take i map ++ drop (S i) map) name' = nx_simple_map_find map name'.
Proof.
  intros (Hi & He & _)%list_find_Some Hne. apply strcmp_eq_true in He.
  rewrite <- (take_drop_middle map i e Hi) at 3. rewrite !find_app. cbn.
  destruct (strcmp_eq (sme_name e) name') eqn:E; [|done]. apply strcmp_eq_true in E. congruence.
Qed.

Lemma rd_update_find chain key value fin key' :
  key <> 0 ->
  nxweb_find_request_data (rd_update chain key value fin) key' =
  if key' =? key then (fun d => mk_rd key value fin) <$> nxweb_find_request_data chain key
  else nxweb_find_request_data chain key'.
Proof.
  intros Hk. induction chain as [|d chain IH]; cbn [rd_update nxweb_find_request_data]; [by destruct (key' =? key)|].
  destruct (rd_matches key d) eqn:E; cbn [nxweb_find_request_data].
  - unfold rd_matches in *. apply andb_true_iff in E as [E1 E2%Z.eqb_eq]. cbn [rd_key].
    destruct (Z.eqb_spec key' key) as [->|Hne].
    + rewrite E1, E2, Z.eqb_refl. done.
    + rewrite E2. rewrite (proj2 (Z.eqb_neq key key')) by done. by rewrite andb_false_r.
  - destruct (rd_matches key' d) eqn:E'.
    + destruct (Z.eqb_spec key' key) as [->|]; [congruence|done].
    + apply IH.
Qed.

(** * Properties *)

(** A header map behaves as a stack of bindings: lookup finds the newest
    entry of a name, adding shadows, and removing takes out exactly the newest
    entry of the name, leaving every other name as it was. *)
Theorem simple_map_laws (map : simple_map) (e : nx_simple_map_entry) (name : bytes) :
  nx_simple_map_find (nx_simple_map_add map e) name =
    (if strcmp_eq (sme_name e) name then Some e else nx_simple_map_find map name) /\
  (let '(removed, map') := nx_simple_map_remove map name in
   removed = nx_simple_map_find map name /\
   length map' = (length map - if removed then 1 else 0)%nat /\
   (forall name', name' <> name -> nx_simple_map_find map' name' = nx_simple_map_find map name')).
Proof.
  split; [done|]. unfold nx_simple_map_remove. rewrite remove_loop_spec, find_list_find.
  destruct (list_find _ map) as [[i x]|] eqn:E; cbn.
  - split; [done|]. split; [|by intros; eapply find_drop_other].
    apply list_find_Some in E as (Hi & _). apply lookup_lt_Some in Hi. rewrite length_app, length_take, length_drop. lia.
  - split; [done|]. split; [lia|done].
Qed.

(** Header lookup ignores case: it returns the newest entry whose name is
    equal to the one asked for up to ASCII case. *)
Theorem get_header_nocase (map : simple_map) (name : bytes) :
  Forall (fun e => cbytes (sme_name e)) map -> cbytes name ->
  nx_simple_map_find_nocase map name =
    snd <$> list_find (fun e => nx_strtolower (sme_name e) = nx_strtolower name) map.
Proof.
  intros Hm Hn. induction Hm as [|e map He Hm IH]; [done|]. cbn [nx_simple_map_find_nocase list_find].
  destruct (Z.eqb_spec (nx_strcasecmp (sme_name e) name) 0) as [Hz|Hz].
  - apply nx_strcasecmp_zero in Hz; [|done..]. by rewrite decide_True.
  - rewrite decide_False by (intros Hl; apply Hz; by apply nx_strcasecmp_zero). rewrite IH.
    by destruct (list_find _ map) as [[i x]|].
Qed.

Lemma get_header_nocase_witness :
  let map := [mk_sme (bs "Host") (Some (bs "a")); mk_sme (bs "X-Y") (Some (bs "b"))] in
  nx_simple_map_find_nocase map (bs "x-y") =
    snd <$> list_find (fun e => nx_strtolower (sme_name e) = nx_strtolower (bs "x-y")) map.
Proof. apply get_header_nocase; vm_compute; repeat constructor; done. Defined.

(** Request data: setting a key changes what that key returns and no other
    key; data set with a null key is never found. *)
Theorem request_data_laws (chain : list nxweb_http_request_data) (key value fin key' : Z) :
  nxweb_get_request_data (nxweb_set_request_data chain key value fin) key' =
    (if (key' =? key) && negb (key =? 0) then value else nxweb_get_request_data chain key').
Proof.
  unfold nxweb_get_request_data, nxweb_set_request_data.
  destruct (nxweb_find_request_data chain key) as [d|] eqn:E.
  - assert (Hk : key <> 0).
    { intros ->. clear -E. induction chain as [|d' chain IH]; [done|]. cbn in E. unfold rd_matches in E.
      destruct (rd_key d' =? 0); cbn in E; auto. }
    rewrite rd_update_find by done. rewrite (proj2 (Z.eqb_neq key 0) Hk). cbn [negb]. rewrite andb_true_r.
    destruct (key' =? key); [|done]. by rewrite E.
  - cbn [nxweb_find_request_data]. unfold rd_matches. cbn [rd_key].
    destruct (Z.eqb_spec key' key) as [->|Hne].
    + rewrite Z.eqb_refl. destruct (Z.eqb_spec key 0); cbn; [|done]. subst. by rewrite E.
    + rewrite (proj2 (Z.eqb_neq key key')) by done. by rewrite andb_false_r.
Qed.
