(* ===== verification/HttpRequest.v ===== *)
(** HTTP messages: the request and response records of include/nxweb/nxweb.h,
    and the parsers of lib/http_utils.c that run in place on the bytes received:
    the end of the headers, the request line, header lines with continuations,
    the recognised header fields, query parameters and cookies.

    A string field is a pointer into the received block ([At p]) or a string
    constant of the program ([Lit s]).  The records take the representation of
    strings as a parameter: the specification uses the same records with the
    contents of the strings. *)
From coqutil Require Import Datatypes.RecordSetters.
From S2P Require Import Prelude CString Uri Chunked HttpTime.
Import DoubleBraceUpdate.
Open Scope Z_scope.

(** ** Messages *)

(** The name of a header, parameter or cookie and its value. *)
Abbreviation str_map str := (list (str * option str)%type).

Inductive nxweb_http_request (str : Type) := mk_request {
  rq_http11 : bool; rq_head_method : bool; rq_get_method : bool; rq_post_method : bool; rq_other_method : bool;
  rq_accept_gzip_encoding : bool; rq_expect_100_continue : bool; rq_chunked_encoding : bool;
  rq_chunked_content_complete : bool; rq_keep_alive : bool; rq_sending_100_continue : bool;
  rq_x_forwarded_ssl : bool; rq_templates_no_parse : bool; rq_buffering_to_memory : bool;
  rq_method : option str; rq_uri : option str; rq_http_version : option str; rq_host : option str;
  rq_cookie : option str; rq_user_agent : option str; rq_content_type : option str; rq_content : option str;
  rq_content_length : Z; rq_content_received : Z;
  rq_transfer_encoding : option str; rq_accept_encoding : option str; rq_range : option str; rq_path_info : option str;
  rq_if_modified_since : Z; rq_x_forwarded_for : option str; rq_x_forwarded_host : option str;
  rq_headers : str_map str; rq_parameters : str_map str; rq_cookies : str_map str;
  rq_parent_req : option (nxweb_http_request str); rq_uid : Z }.
Arguments mk_request {str}.
Arguments rq_http11 {str}. Arguments rq_head_method {str}. Arguments rq_get_method {str}. Arguments rq_post_method {str}.
Arguments rq_other_method {str}. Arguments rq_accept_gzip_encoding {str}. Arguments rq_expect_100_continue {str}.
Arguments rq_chunked_encoding {str}. Arguments rq_chunked_content_complete {str}. Arguments rq_keep_alive {str}.
Arguments rq_sending_100_continue {str}. Arguments rq_x_forwarded_ssl {str}. Arguments rq_templates_no_parse {str}.
Arguments rq_buffering_to_memory {str}. Arguments rq_method {str}. Arguments rq_uri {str}. Arguments rq_http_version {str}.
Arguments rq_host {str}. Arguments rq_cookie {str}. Arguments rq_user_agent {str}. Arguments rq_content_type {str}.
Arguments rq_content {str}. Arguments rq_content_length {str}. Arguments rq_content_received {str}.
Arguments rq_transfer_encoding {str}. Arguments rq_accept_encoding {str}. Arguments rq_range {str}. Arguments rq_path_info {str}.
Arguments rq_if_modified_since {str}. Arguments rq_x_forwarded_for {str}. Arguments rq_x_forwarded_host {str}.
Arguments rq_headers {str}. Arguments rq_parameters {str}. Arguments rq_cookies {str}. Arguments rq_parent_req {str}. Arguments rq_uid {str}.

(** A request as it comes zeroed from [calloc]. *)
Definition request_zero {str} : nxweb_http_request str :=
  mk_request false false false false false false false false false false false false false false
    None None None None None None None None 0 0 None None None None 0 None None [] [] [] None 0.

Record nxweb_http_response (str : Type) := mk_response {
  rs_host : option str; rs_raw_headers : option str; rs_content : option str; rs_content_length : Z; rs_content_received : Z;
  rs_keep_alive : bool; rs_http11 : bool; rs_chunked_encoding : bool; rs_chunked_autoencode : bool; rs_gzip_encoded : bool;
  rs_ssi_on : bool; rs_templates_on : bool; rs_no_cache : bool; rs_cache_private : bool;
  rs_status : option str; rs_content_type : option str; rs_content_charset : option str; rs_cache_control : option str;
  rs_etag : option str; rs_headers : str_map str; rs_extra_raw_headers : option str;
  rs_date : Z; rs_last_modified : Z; rs_expires : Z; rs_max_age : Z; rs_status_code : Z;
  rs_sendfile_path : option str; rs_sendfile_fd : Z; rs_sendfile_offset : Z; rs_sendfile_end : Z; rs_content_out : Z }.
Arguments mk_response {str}.
Arguments rs_host {str}. Arguments rs_raw_headers {str}. Arguments rs_content {str}. Arguments rs_content_length {str}.
Arguments rs_content_received {str}. Arguments rs_keep_alive {str}. Arguments rs_http11 {str}. Arguments rs_chunked_encoding {str}.
Arguments rs_chunked_autoencode {str}. Arguments rs_gzip_encoded {str}. Arguments rs_ssi_on {str}. Arguments rs_templates_on {str}.
Arguments rs_no_cache {str}. Arguments rs_cache_private {str}. Arguments rs_status {str}. Arguments rs_content_type {str}.
Arguments rs_content_charset {str}. Arguments rs_cache_control {str}. Arguments rs_etag {str}. Arguments rs_headers {str}.
Arguments rs_extra_raw_headers {str}. Arguments rs_date {str}. Arguments rs_last_modified {str}. Arguments rs_expires {str}.
Arguments rs_max_age {str}. Arguments rs_status_code {str}. Arguments rs_sendfile_path {str}. Arguments rs_sendfile_fd {str}.
Arguments rs_sendfile_offset {str}. Arguments rs_sendfile_end {str}. Arguments rs_content_out {str}.

Definition response_zero {str} : nxweb_http_response str :=
  mk_response None None None 0 0 false false false false false false false false false
    None None None None None [] None 0 0 0 0 0 None 0 0 0 0.

(** A [char*] of the parsers. *)
Inductive cptr := At (p : Z) | Lit (s : bytes).

(** The string a pointer denotes; reading through a null pointer is an error. *)
Definition deref (s : option cptr) : M mem bytes :=
  match s with Some (At p) => read_str p | Some (Lit s) => ret s | None => fail BadPtr end.

(** ** The end of the headers *)

Definition _nxweb_find_end_of_http_headers (buf len : Z) : M mem (option (Z * Z)) :=
  if len <? 4 then ret None else
  let! p := memchr (buf + 3) 10 (len - 3) in
  mem_loop (fun p =>
    match p with
    | None => ret (inr None)
    | Some p =>
        let! c1 := rd (p - 1) in
        if c1 =? 10 then ret (inr (Some (p - 1, p + 1))) else
        let! c3 := rd (p - 3) in
        let! c2 := rd (p - 2) in
        if (c3 =? 13) && (c2 =? 10) && (c1 =? 13) then ret (inr (Some (p - 3, p + 1))) else
        let! p' := memchr (p + 1) 10 (len - (p - buf) - 1) in ret (inl p')
    end) p.

(** ** Header names *)

Definition SPACE : Z := 32.

Inductive nxweb_http_header_name :=
  NXWEB_HTTP_UNKNOWN | NXWEB_HTTP_DATE | NXWEB_HTTP_HOST | NXWEB_HTTP_ETAG | NXWEB_HTTP_RANGE | NXWEB_HTTP_COOKIE |
  NXWEB_HTTP_EXPECT | NXWEB_HTTP_SERVER | NXWEB_HTTP_EXPIRES | NXWEB_HTTP_TRAILER | NXWEB_HTTP_CONNECTION |
  NXWEB_HTTP_KEEP_ALIVE | NXWEB_HTTP_USER_AGENT | NXWEB_HTTP_CONTENT_TYPE | NXWEB_HTTP_LAST_MODIFIED |
  NXWEB_HTTP_CACHE_CONTROL | NXWEB_HTTP_ACCEPT_RANGES | NXWEB_HTTP_CONTENT_LENGTH | NXWEB_HTTP_ACCEPT_ENCODING |
  NXWEB_HTTP_IF_MODIFIED_SINCE | NXWEB_HTTP_TRANSFER_ENCODING | NXWEB_HTTP_X_NXWEB_SSI | NXWEB_HTTP_X_NXWEB_TEMPLATES.

#[export] Instance header_name_eq_dec : EqDecision nxweb_http_header_name.
Proof. solve_decision. Defined.

Definition if_named (name lit : bytes) (id : nxweb_http_header_name) : nxweb_http_header_name :=
  if nx_strcasecmp name lit =? 0 then id else NXWEB_HTTP_UNKNOWN.

Definition identify_http_header (name : bytes) (name_len : Z) : nxweb_http_header_name :=
  let name_len := if name_len =? 0 then zlen name else name_len in
  let first_char := nx_tolower (hd0 name) in
  match name_len with
  | 4 =>
      if first_char =? ch "h" then if_named name (bs "Host") NXWEB_HTTP_HOST else
      if first_char =? ch "d" then if_named name (bs "Date") NXWEB_HTTP_DATE else
      if first_char =? ch "e" then if_named name (bs "ETag") NXWEB_HTTP_ETAG else NXWEB_HTTP_UNKNOWN
  | 5 => if first_char =? ch "r" then if_named name (bs "Range") NXWEB_HTTP_RANGE else NXWEB_HTTP_UNKNOWN
  | 6 =>
      if first_char =? ch "c" then if_named name (bs "Cookie") NXWEB_HTTP_COOKIE else
      if first_char =? ch "e" then if_named name (bs "Expect") NXWEB_HTTP_EXPECT else
      if first_char =? ch "s" then if_named name (bs "Server") NXWEB_HTTP_SERVER else NXWEB_HTTP_UNKNOWN
  | 7 =>
      if first_char =? ch "t" then if_named name (bs "Trailer") NXWEB_HTTP_TRAILER else
      if first_char =? ch "e" then if_named name (bs "Expires") NXWEB_HTTP_EXPIRES else NXWEB_HTTP_UNKNOWN
  | 10 =>
      if first_char =? ch "c" then if_named name (bs "Connection") NXWEB_HTTP_CONNECTION else
      if first_char =? ch "k" then if_named name (bs "Keep-Alive") NXWEB_HTTP_KEEP_ALIVE else
      if first_char =? ch "u" then if_named name (bs "User-Agent") NXWEB_HTTP_USER_AGENT else NXWEB_HTTP_UNKNOWN
  | 11 => if first_char =? ch "x" then if_named name (bs "X-NXWEB-SSI") NXWEB_HTTP_X_NXWEB_SSI else NXWEB_HTTP_UNKNOWN
  | 12 => if first_char =? ch "c" then if_named name (bs "Content-Type") NXWEB_HTTP_CONTENT_TYPE else NXWEB_HTTP_UNKNOWN
  | 13 =>
      if first_char =? ch "c" then if_named name (bs "Cache-Control") NXWEB_HTTP_CACHE_CONTROL else
      if first_char =? ch "l" then if_named name (bs "Last-Modified") NXWEB_HTTP_LAST_MODIFIED else
      if first_char =? ch "a" then if_named name (bs "Accept-Ranges") NXWEB_HTTP_ACCEPT_RANGES else NXWEB_HTTP_UNKNOWN
  | 14 => if first_char =? ch "c" then if_named name (bs "Content-Length") NXWEB_HTTP_CONTENT_LENGTH else NXWEB_HTTP_UNKNOWN
  | 15 => if first_char =? ch "a" then if_named name (bs "Accept-Encoding") NXWEB_HTTP_ACCEPT_ENCODING else NXWEB_HTTP_UNKNOWN
  | 17 =>
      if first_char =? ch "t" then if_named name (bs "Transfer-Encoding") NXWEB_HTTP_TRANSFER_ENCODING else
      if first_char =? ch "i" then if_named name (bs "If-Modified-Since") NXWEB_HTTP_IF_MODIFIED_SINCE else
      if first_char =? ch "x" then if_named name (bs "X-NXWEB-Templates") NXWEB_HTTP_X_NXWEB_TEMPLATES else NXWEB_HTTP_UNKNOWN
  | _ => NXWEB_HTTP_UNKNOWN
  end.

(** ** Shared steps of the two parsers *)

(** [while ((unsigned char)*p>SPACE) p++;] *)
Definition skip_token (p : Z) : M mem Z :=
  mem_loop (fun p => let! c := rd p in if SPACE <? c then ret (inl (p + 1)) else ret (inr p)) p.
(** [while ((unsigned char)*p<=SPACE && p<pl) p++;] *)
Definition skip_blank (pl p : Z) : M mem Z :=
  mem_loop (fun p => let! c := rd p in if (c <=? SPACE) && (p <? pl) then ret (inl (p + 1)) else ret (inr p)) p.
(** [while ((unsigned char)*p>=SPACE && p<pl) p++;] *)
Definition skip_text (pl p : Z) : M mem Z :=
  mem_loop (fun p => let! c := rd p in if (SPACE <=? c) && (p <? pl) then ret (inl (p + 1)) else ret (inr p)) p.

(** The end of the first line, which becomes a string of its own. *)
Definition cut_first_line (headers end_of_headers : Z) : M mem Z :=
  let! nl := strchr headers 10 in
  match nl with Some pl => do! wr pl 0 in ret pl | None => ret end_of_headers end.

(** One line of the header section, cut off at [name]: where the next line
    starts, the value a continuation would extend, and the field of the line if
    it has one. *)
Definition header_line (end_of_headers name : Z) (value : option Z) : M mem (Z * option Z * option (Z * Z)) :=
  let! nl := strchr name 10 in
  let! pl := match nl with Some q => do! wr q 0 in ret (q + 1) | None => ret end_of_headers end in
  let! c := rd name in
  if negb (c =? 0) && (c <=? SPACE) then
    do! match value with
        | Some v => let! e := str_end v in let! n := strlen name in memmove e name (n + 1)
        | None => ret tt
        end in
    ret (pl, value, None)
  else
    let! colon := strchr name (ch ":") in
    match colon with
    | None => ret (pl, None, None)
    | Some q =>
        do! wr q 0 in
        let! v := nxweb_trunc_space (q + 1) in
        ret (pl, Some v, Some (q - name, v))
    end.

(** ** Requests *)

Abbreviation request := (nxweb_http_request cptr).

(** The local variables of the header loop that outlive a line: the request,
    [expect] and [header_map]. *)
Record header_state := mk_hs { hs_req : request; hs_expect : option Z; hs_map : str_map cptr }.

(** What one field does; [None] is the return of -2. *)
Definition request_field (st : header_state) (name name_len value : Z) : M mem (option header_state) :=
  let! n := read_str name in
  let v := Some (At value) in
  let req := hs_req st in
  let set r := ret (Some (mk_hs r (hs_expect st) (hs_map st))) in
  match identify_http_header n name_len with
  | NXWEB_HTTP_HOST => do! nx_strtolower_inplace value in set (req{{rq_host := v}})
  | NXWEB_HTTP_EXPECT => ret (Some (mk_hs req (Some value) (hs_map st)))
  | NXWEB_HTTP_COOKIE => set (req{{rq_cookie := v}})
  | NXWEB_HTTP_USER_AGENT => set (req{{rq_user_agent := v}})
  | NXWEB_HTTP_CONTENT_TYPE => set (req{{rq_content_type := v}})
  | NXWEB_HTTP_CONTENT_LENGTH => let! s := read_str value in set (req{{rq_content_length := atol s}})
  | NXWEB_HTTP_ACCEPT_ENCODING => set (req{{rq_accept_encoding := v}})
  | NXWEB_HTTP_TRANSFER_ENCODING => set (req{{rq_transfer_encoding := v}})
  | NXWEB_HTTP_IF_MODIFIED_SINCE => let! t := nxweb_parse_http_time value in set (req{{rq_if_modified_since := t}})
  | NXWEB_HTTP_CONNECTION =>
      let! s := read_str value in set (req{{rq_keep_alive := nx_strcasecmp s (bs "keep-alive") =? 0}})
  | NXWEB_HTTP_RANGE => set (req{{rq_range := v}})
  | NXWEB_HTTP_TRAILER => ret None
  | _ => ret (Some (mk_hs req (hs_expect st) ((At name, v) :: hs_map st)))
  end.

(** The request line: method, URI, version, and the host of an absolute URI.
    The code is 0 or the -1 the parser returns. *)
Definition parse_request_line (req : request) (headers pl : Z) : M mem (Z * request) :=
  let req := req{{rq_method := Some (At headers)}} in
  let! p := skip_token headers in
  do! wr p 0 in
  let! p := skip_blank pl (p + 1) in
  if pl <=? p then ret (-1, req) else
  let uri := p in
  let req := req{{rq_uri := Some (At uri)}} in
  let! p := skip_token p in
  do! wr p 0 in
  let! p := skip_blank pl (p + 1) in
  if pl <=? p then ret (-1, req) else
  let http_version := p in
  let req := req{{rq_http_version := Some (At http_version)}} in
  let! p := skip_token p in
  do! wr p 0 in
  let! ver := read_str http_version in
  let http11 := negb (nx_strcasecmp ver (bs "HTTP/1.0") =? 0) in
  let req := req{{rq_http11 := http11; rq_keep_alive := http11}} in
  let! u := read_str uri in
  let! r := (if is_prefix (bs "http://") u then
      let! slash := strchr (uri + 7) (ch "/") in
      match slash with
      | None => ret (-1, req)
      | Some uri' =>
          let host := uri in
          let host_len := uri' - host - 7 in
          do! nx_strntolower host (host + 7) host_len in
          do! wr (host + host_len) 0 in
          ret (0, req{{rq_host := Some (At host); rq_uri := Some (At uri')}})
      end
    else ret (0, req)) in
  let '(rc, req) := r in
  if negb (rc =? 0) then ret (rc, req) else
  let! u := deref (rq_uri req) in
  if negb (hd0 u =? ch "/") then ret (-1, req) else ret (0, req).

(** The search for [gzip] among the accepted encodings. *)
Definition gzip_at (accept_encoding g : Z) : M mem bool :=
  let! s := read_str g in
  if negb (is_prefix (bs "gzip") s) then ret false else
  let! before := (if g =? accept_encoding then ret true else
                  let! c := rd (g - 1) in ret ((c =? ch ",") || (c =? ch " "))) in
  let next := byte_at s 4 in
  ret (before && ((next =? 0) || (next =? ch ",") || (next =? ch " "))).
Definition accepts_gzip (accept_encoding : Z) : M mem bool :=
  mem_loop (fun g =>
    match g with
    | None => ret (inr false)
    | Some g =>
        let! b := gzip_at accept_encoding g in
        if b then ret (inr true) else
        let! g' := strchr (g + 1) (ch "g") in ret (inl g')
    end) (Some accept_encoding).

(** What is derived once the headers are read. *)
Definition finish_request (req : request) (expect : option Z) : M mem request :=
  let req := req{{rq_path_info := None}} in
  let! gzip := match rq_accept_encoding req with
               | Some (At g) => accepts_gzip g
               | _ => ret false
               end in
  let req := if gzip then req{{rq_accept_gzip_encoding := true}} else req in
  let! chunked := match rq_transfer_encoding req with
                  | Some _ => let! te := deref (rq_transfer_encoding req) in ret (nx_strcasecmp te (bs "chunked") =? 0)
                  | None => ret false
                  end in
  let req := req{{rq_chunked_encoding := chunked}} in
  let req := if (chunked : bool) then req{{rq_content_length := -1}} else req in
  let! e100 := match expect with
               | Some e => let! s := read_str e in ret (nx_strcasecmp s (bs "100-continue") =? 0)
               | None => ret false
               end in
  let req := req{{rq_expect_100_continue := negb (rq_content_length req =? 0) && e100}} in
  let! meth := deref (rq_method req) in
  let head := nx_strcasecmp meth (bs "HEAD") =? 0 in
  let req := req{{rq_head_method := head}} in
  let req := if (head : bool) then req{{rq_method := Some (Lit (bs "GET"))}} else req in
  let! meth := deref (rq_method req) in
  let get_m := head || (nx_strcasecmp meth (bs "GET") =? 0) in
  let post_m := negb head && (nx_strcasecmp meth (bs "POST") =? 0) in
  ret (req{{rq_get_method := get_m; rq_post_method := post_m; rq_other_method := negb get_m && negb post_m}}).

(** The header section; the second component of the result says whether it was
    read to its end. *)
Definition header_loop {St} (field : St -> Z -> Z -> Z -> M mem (option St)) (end_of_headers pl : Z) (st : St) : M mem (St * bool) :=
  mem_loop (fun '(pl, value, st) =>
    if end_of_headers <=? pl then ret (inr (st, true)) else
    let! r := header_line end_of_headers pl value in
    let '(pl', value', field') := r in
    match field' with
    | None => ret (inl (pl', value', st))
    | Some (name_len, v) =>
        let! r := field st pl name_len v in
        match r with
        | None => ret (inr (st, false))
        | Some st' => ret (inl (pl', value', st'))
        end
    end) (pl, None, st).
Definition request_headers (end_of_headers pl : Z) (req : request) : M mem (header_state * bool) :=
  header_loop request_field end_of_headers pl (mk_hs req None []).

Definition _nxweb_parse_http_request (req : request) (headers : Z) (end_of_headers : option Z) : M mem (Z * request) :=
  match end_of_headers with
  | None => ret (-1, req)
  | Some eoh =>
      do! wr eoh 0 in
      let req := req{{rq_content_length := 0}} in
      let! pl := cut_first_line headers eoh in
      let! r := parse_request_line req headers pl in
      let '(rc, req) := r in
      if negb (rc =? 0) then ret (rc, req) else
      let! r := request_headers eoh (pl + 1) req in
      let '(st, complete) := r in
      if negb complete then ret (-2, hs_req st) else
      let req := (hs_req st){{rq_headers := hs_map st}} in
      match rq_host req with
      | None => ret (-1, req)
      | Some h =>
          let! host := deref (Some h) in
          if hd0 host =? 0 then ret (-1, req) else
          let! req := finish_request req (hs_expect st) in ret (0, req)
      end
  end.


(** * Lemmas *)

(** The part of a string before the first [c]. *)
Lemma cstr_split_poke m p c s1 s2 :
  cstr m p (s1 ++ c :: s2) ->
  cstr (poke m (p + zlen s1) 0) p s1 /\ cstr (poke m (p + zlen s1) 0) (p + zlen s1 + 1) s2 /\
  0 <= p + zlen s1 < zlen m.
Proof.
  intros H. pose proof (cstr_bounds _ _ _ H) as [Hp Hb]. rewrite zlen_app, zlen_cons in Hb.
  pose proof (zlen_nonneg s1). pose proof (zlen_nonneg s2). split; [by eapply cstr_cut|]. split; [|lia].
  apply cstr_app in H. apply cstr_cons in H as (_ & _ & _ & H). apply cstr_poke; [done|lia|lia].
Qed.

Lemma wp_strchr_bind {A} m p c s (k : option Z -> M (list Z) A) Q :
  cstr m p s -> c <> 0 ->
  (forall s1 s2, s = s1 ++ c :: s2 -> ~ In c s1 -> wp (k (Some (p + zlen s1))) Q m) ->
  (~ In c s -> wp (k None) Q m) -> wp (bind (strchr p c) k) Q m.
Proof.
  intros Hs Hc H1 H2. apply wp_bind. eapply wp_strchr; [done..|].
  destruct (index_of c s) as [i|] eqn:E; cbn.
  - apply index_of_Some in E as (s1 & s2 & -> & <- & Hn). by eapply H1.
  - apply H2. by apply index_of_None.
Qed.

Lemma strlen_ok m p s (Q : Z -> list Z -> Prop) : cstr m p s -> Q (zlen s) m -> wp (strlen p) Q m.
Proof.
  intros Hs HQ. unfold strlen. apply wp_bind. eapply wp_str_end; [done|]. apply wp_ret.
  by replace (p + zlen s - p) with (zlen s) by lia.
Qed.

(** Every step keeps the bytes outside the headers and the terminator at their
    end; from this every place of the headers starts a string. *)
Definition stable (lo eoh : Z) (m m' : list Z) : Prop := same_outside m m' lo eoh.

Lemma stable_string lo eoh m m' p :
  stable lo eoh m m' -> peek m eoh = Some 0 -> 0 <= p <= eoh -> exists s, cstr m' p s /\ p + zlen s <= eoh.
Proof. intros [_ H] H0 Hp. apply cstr_exists; [lia|]. rewrite H by lia. done. Qed.

Fixpoint token (s : bytes) : bytes :=
  match s with c :: s' => if SPACE <? c then c :: token s' else [] | [] => [] end.
Definition after_token (s : bytes) : bytes := drop (length (token s)) s.

Lemma token_app s : s = token s ++ after_token s.
Proof.
  unfold after_token. induction s as [|c s IH]; [done|]. cbn [token].
  destruct (Z.ltb_spec SPACE c); [|done]. cbn [length drop app]. by rewrite <- IH.
Qed.
Lemma zlen_token s : 0 <= zlen (token s) <= zlen s.
Proof.
  pose proof (zlen_nonneg (token s)). split; [done|]. rewrite (token_app s) at 2. rewrite zlen_app.
  pose proof (zlen_nonneg (after_token s)). lia.
Qed.
Lemma after_token_head s : match after_token s with c :: _ => c <= SPACE | [] => True end.
Proof.
  unfold after_token. induction s as [|c s IH]; [done|]. cbn [token].
  destruct (Z.ltb_spec SPACE c); [done|]. cbn. done.
Qed.

Lemma wp_skip_token m p s (Q : Z -> list Z -> Prop) :
  cstr m p s -> Q (p + zlen (token s)) m -> wp (skip_token p) Q m.
Proof.
  intros Hs HQ. unfold skip_token.
  eapply (wp_mem_loop (fun q m' => m' = m /\ exists t, cstr m q t /\ q + zlen (token t) = p + zlen (token s))
            (fun q => Z.to_nat (zlen m - q))).
  - split; [done|]. by exists s.
  - pose proof (cstr_bounds _ _ _ Hs). unfold zlen in *. lia.
  - intros q m' [-> (t & Ht & Hq)]. pose proof (cstr_bounds _ _ _ Ht). pose proof (zlen_nonneg t).
    apply wp_bind. destruct t as [|c t].
    + apply cstr_nil_inv in Ht as [_ Ht]. eapply wp_rd'; [done|]. cbn in Hq |- *.
      rewrite zlen_nil, Z.add_0_r in Hq. by rewrite Hq.
    + apply cstr_cons in Ht as (_ & Hn & Hc & Ht). eapply wp_rd'; [done|]. cbn beta. cbn [token] in Hq.
      destruct (Z.ltb_spec SPACE c) as [Hsp|Hsp].
      * apply wp_ret. rewrite zlen_cons in *. split; [|lia]. split; [done|]. exists t. split; [done|lia].
      * apply wp_ret. rewrite zlen_nil, Z.add_0_r in Hq. by rewrite Hq.
Qed.

(** Blanks are skipped up to the end of the line at most. *)
Lemma wp_skip_blank m pl p s (Q : Z -> list Z -> Prop) :
  cstr m p s -> p + zlen s = pl ->
  (forall q, cstr m q (ltrim s) -> p <= q -> q + zlen (ltrim s) = pl -> Q q m) ->
  wp (skip_blank pl p) Q m.
Proof.
  intros Hs Hpl HQ. unfold skip_blank.
  eapply (wp_mem_loop (fun q m' => m' = m /\ p <= q /\ exists t, cstr m q t /\ q + zlen t = pl /\ ltrim t = ltrim s)
            (fun q => Z.to_nat (zlen m - q))).
  - split; [done|]. split; [lia|]. by exists s.
  - pose proof (cstr_bounds _ _ _ Hs). unfold zlen in *. lia.
  - intros q m' (-> & Hq & t & Ht & Hl & Htr). pose proof (cstr_bounds _ _ _ Ht). pose proof (zlen_nonneg t).
    apply wp_bind. destruct t as [|c t].
    + pose proof (cstr_nil_inv _ _ Ht) as [_ Hz]. eapply wp_rd'; [done|]. cbn beta.
      rewrite zlen_nil in Hl. rewrite (proj2 (Z.ltb_ge q pl)) by lia. rewrite andb_false_r. apply wp_ret.
      cbn in Htr. rewrite <- Htr in HQ. apply HQ; done.
    + pose proof Ht as Ht'. apply cstr_cons in Ht' as (_ & Hn & Hc & Ht'). eapply wp_rd'; [done|]. cbn beta.
      cbn [ltrim] in Htr. rewrite zlen_cons in *. pose proof (zlen_nonneg t).
      rewrite (proj2 (Z.ltb_lt q pl)) by lia. rewrite andb_true_r. unfold SPACE. destruct (c <=? 32) eqn:E; apply wp_ret.
      * split; [|lia]. split; [done|]. split; [lia|]. exists t. split_and!; [done|lia|done].
      * rewrite <- Htr in HQ. apply HQ; [done|done|]. rewrite zlen_cons. lia.
Qed.

Definition next_word (s : bytes) : bytes := ltrim (drop 1 (after_token s)).

(** The token loop, the store of a NUL and the blank loop cut off the first
    word of the rest of the line. *)
Lemma wp_next_word {A} m p s pl (k : Z -> M (list Z) A) Q :
  cstr m p s -> p + zlen s = pl -> pl + 1 < zlen m ->
  (forall q m', next_word s = [] -> pl <= q -> same_outside m m' p (pl + 1) -> peek m' pl = Some 0 -> wp (k q) Q m') ->
  (forall q m', next_word s <> [] -> cstr m' p (token s) -> p + zlen (token s) < q -> cstr m' q (next_word s) ->
     q + zlen (next_word s) = pl -> same_outside m m' p pl -> wp (k q) Q m') ->
  wp (let! p := skip_token p in do! wr p 0 in let! p := skip_blank pl (p + 1) in k p) Q m.
Proof.
  intros Hs Hpl Hm HkN HkS. pose proof (cstr_bounds _ _ _ Hs) as [Hp0 Hpb].
  apply wp_bind. eapply wp_skip_token; [done|]. pose proof (zlen_token s) as Htl.
  apply wp_bind, wp_wr; [lia|]. change (wrapu 8 0) with 0. apply wp_bind.
  unfold next_word in *. pose proof (token_app s) as Ha. destruct (after_token s) as [|c r] eqn:Er.
  - rewrite app_nil_r in Ha. rewrite <- Ha, Hpl. unfold skip_blank, mem_loop. unfold wp at 1.
    destruct (peek_is_Some (poke m pl 0) (pl + 1)) as [d Hd]; [rewrite zlen_poke; lia|].
    set (n := length (poke m pl 0)). rewrite loop_S. unfold bind at 1, rd. unfold bind at 1. rewrite Hd.
    rewrite (proj2 (Z.ltb_ge (pl + 1) pl)) by lia. rewrite andb_false_r. cbn [ret].
    apply HkN; [done|lia| |apply peek_poke_eq; lia]. apply same_outside_poke; lia.
  - cbn [drop] in *. rewrite Ha in Hs. apply cstr_split_poke in Hs as (H1 & H2 & Hb).
    rewrite Ha, zlen_app, zlen_cons in Hpl. pose proof (zlen_nonneg r).
    apply wp_skip_blank with r; [done|lia|]. rewrite drop_0 in *. intros q Hq Hle Hql.
    assert (Hso : same_outside m (poke m (p + zlen (token s)) 0) p pl) by (apply same_outside_poke; lia).
    destruct (decide (ltrim r = [])) as [Hn|Hn].
    + apply HkN; [done|rewrite Hn in Hql; rewrite zlen_nil in Hql; lia|so_weaken Hso|].
      destruct Hq as (_ & _ & Hz). by rewrite Hql in Hz.
    + apply HkS; done || lia.
Qed.

(** The string a line leaves behind it, if its newline is followed by more. *)
Definition line_end (m' : list Z) (eoh name : Z) (s ln : bytes) (pl' : Z) : Prop :=
  (exists s2, s = ln ++ 10 :: s2 /\ pl' = name + zlen ln + 1 /\ cstr m' pl' s2) \/ (s = ln /\ pl' = eoh).

Definition value_ok (m : list Z) (lo name : Z) (value : option Z) : Prop :=
  match value with Some v => lo <= v /\ exists sv, cstr m v sv /\ v + zlen sv < name | None => True end.

Lemma wp_concat m lo eoh name ln value (Q : unit -> list Z -> Prop) :
  cstr m name ln -> lo <= name -> name + zlen ln <= eoh -> value_ok m lo name value ->
  (forall m', same_outside m m' lo (name + zlen ln) ->
     (forall v, value = Some v -> exists sv, cstr m v sv /\ cstr m' v (sv ++ ln) /\ v + zlen sv < name) -> Q tt m') ->
  wp (match value with
      | Some v => let! e := str_end v in let! n := strlen name in memmove e name (n + 1)
      | None => ret tt
      end) Q m.
Proof.
  intros Hln Hlo He Hv HQ. pose proof (zlen_nonneg ln). pose proof (cstr_bounds _ _ _ Hln) as [Hn0 Hnb].
  destruct value as [v|]; [|apply wp_ret, HQ; [apply same_outside_refl|done]].
  destruct Hv as (Hlv & sv & Hsv & Hvn). pose proof (cstr_bounds _ _ _ Hsv) as [Hv0 _]. pose proof (zlen_nonneg sv).
  apply wp_bind. eapply wp_str_end; [done|]. apply wp_bind. eapply strlen_ok; [done|]. unfold memmove. apply wp_bind.
  apply wp_read_bytes; [lia..|]. intros t Ht Hlt.
  assert (t = ln ++ [0]) as ->.
  { eapply bytes_at_inj; [exact Ht|by apply cstr_bytes_at|]. rewrite zlen_app, zlen_cons, zlen_nil. lia. }
  apply wp_write_bytes; [lia|rewrite zlen_app, zlen_cons, zlen_nil; lia|]. intros m' Hb Hs.
  rewrite zlen_app, zlen_cons, zlen_nil in Hs. apply HQ.
  - eapply same_outside_weaken; [exact Hs|lia|lia].
  - intros v' [= <-]. exists sv. split; [done|]. split; [|done]. apply bytes_at_cstr; [done| |].
    + rewrite <- app_assoc. apply bytes_at_app. split; [|done].
      eapply same_outside_bytes_at; [exact Hs| |left; lia].
      pose proof (cstr_bytes_at _ _ _ Hsv) as Hb2. by apply bytes_at_app in Hb2 as [? _].
    + apply Forall_app. split; by eapply cstr_nonzero.
Qed.

(** How the line is cut off. *)
Lemma wp_cut_line {A} m eoh name s (k : Z -> M (list Z) A) Q :
  cstr m name s -> name + zlen s <= eoh ->
  (forall ln pl' m', ~ In 10 ln -> zlen ln <= zlen s -> line_end m' eoh name s ln pl' -> cstr m' name ln ->
     same_outside m m' name eoh -> (s = [] -> ln = []) -> (name < eoh -> name < pl' <= eoh) -> wp (k pl') Q m') ->
  wp (let! nl := strchr name 10 in
      let! pl := match nl with Some q => do! wr q 0 in ret (q + 1) | None => ret eoh end in k pl) Q m.
Proof.
  intros Hs He Hk. eapply wp_strchr_bind; [done|done|..].
  - intros s1 s2 -> Hn. apply cstr_split_poke in Hs as (H1 & H2 & Hb).
    rewrite zlen_app, zlen_cons in He. pose proof (zlen_nonneg s1). pose proof (zlen_nonneg s2).
    pose proof (cstr_bounds _ _ _ H1).
    apply wp_bind, wp_bind, wp_wr; [done|]. apply wp_ret. change (wrapu 8 0) with 0.
    eapply Hk; [done| | |done| | |].
    + rewrite zlen_app, zlen_cons. lia.
    + left. exists s2. done.
    + apply same_outside_poke; lia.
    + by destruct s1.
    + lia.
  - intros Hn. apply wp_bind, wp_ret. apply (Hk s); [done|lia|by right|done|apply same_outside_refl|done|lia].
Qed.

Definition is_continuation (ln : bytes) : bool := negb (hd0 ln =? 0) && (hd0 ln <=? SPACE).

Definition line_post (m m' : list Z) (lo eoh name : Z) (ln : bytes) (value : option Z)
    (value' : option Z) (field : option (Z * Z)) : Prop :=
  if is_continuation ln then value' = value /\ field = None /\
    match value with
    | Some v => exists sv, cstr m v sv /\ cstr m' v (sv ++ ln) /\ v + zlen sv < name
    | None => True
    end
  else same_outside m m' name eoh /\
    match index_of (ch ":") ln with
    | None => value' = None /\ field = None
    | Some i => exists v, value' = Some v /\ field = Some (Z.of_nat i, v) /\ cstr m' name (take i ln) /\
        cstr m' v (trim (drop (S i) ln)) /\ name + Z.of_nat i < v /\ v + zlen (trim (drop (S i) ln)) <= name + zlen ln
    end.

Lemma wp_header_line m lo eoh name s value (Q : Z * option Z * option (Z * Z) -> list Z -> Prop) :
  cstr m name s -> lo <= name < eoh -> name + zlen s <= eoh -> value_ok m lo name value ->
  (forall ln pl' value' field m', ~ In 10 ln -> line_end m' eoh name s ln pl' -> name < pl' <= eoh ->
     name + zlen ln <= eoh -> same_outside m m' lo eoh -> line_post m m' lo eoh name ln value value' field ->
     Q (pl', value', field) m') ->
  wp (header_line eoh name value) Q m.
Proof.
  intros Hs Hlo He Hv HQ. unfold header_line. eapply wp_cut_line; [done..|].
  intros ln pl' m1 Hn Hlen Hle Hln Hs1 _ Hpl. specialize (Hpl ltac:(lia)). pose proof (zlen_nonneg ln).
  pose proof (cstr_bounds _ _ _ Hln) as [Hn0 Hnb]. apply wp_bind. apply wp_rd; [lia|]. intros c Hc.
  assert (c = hd0 ln) as ->.
  { destruct ln as [|d ln]; [apply cstr_nil_inv in Hln as [_ Hln]|apply cstr_cons in Hln as (_ & _ & Hln & _)]; cbn; congruence. }
  fold (is_continuation ln). destruct (is_continuation ln) eqn:Ec.
  - apply wp_bind. apply (wp_concat m1 lo eoh name ln); [done|lia|lia|..].
    { destruct value as [v|]; [|done]. destruct Hv as (? & sv & Hsv & ?). split; [done|]. exists sv. split; [|done].
      eapply same_outside_cstr; [exact Hs1|done|lia]. }
    intros m2 Hs2 Hv2. apply wp_ret.
    assert (Hs12 : same_outside m m2 lo eoh).
    { so_trans Hs1 Hs2. }
    eapply HQ; [exact Hn| |exact Hpl|lia|exact Hs12|].
    + destruct Hle as [(s2 & -> & -> & H2)|[-> ->]]; [left; exists s2|by right]. split_and!; [done|done|].
      eapply same_outside_cstr; [exact Hs2|done|]. pose proof (zlen_nonneg s2). lia.
    + unfold line_post. rewrite Ec. split_and!; [done|done|]. destruct value as [v|]; [|done].
      destruct (Hv2 v eq_refl) as (sv & H1 & H2 & H3). exists sv. split_and!; [|done|done].
      destruct Hv as (? & sv' & Hsv & Hlt). assert (cstr m1 v sv') as H1' by (eapply same_outside_cstr; [exact Hs1|done|lia]).
      by rewrite (cstr_inj _ _ _ _ H1 H1').
  - assert (Hpost : forall value' field m', same_outside m1 m' name (name + zlen ln) ->
              (match index_of (ch ":") ln with
               | None => value' = None /\ field = None
               | Some i => exists v, value' = Some v /\ field = Some (Z.of_nat i, v) /\ cstr m' name (take i ln) /\
                   cstr m' v (trim (drop (S i) ln)) /\ name + Z.of_nat i < v /\
                   v + zlen (trim (drop (S i) ln)) <= name + zlen ln
               end) -> Q (pl', value', field) m').
    { intros value' field m' Hs' Hi. assert (Hs2 : same_outside m m' name eoh).
      { so_trans Hs1 Hs'. }
      eapply HQ; [exact Hn| |exact Hpl|lia|so_weaken Hs2|].
      - destruct Hle as [(s2 & -> & -> & H2)|[-> ->]]; [left; exists s2|by right]. split_and!; [done|done|].
        eapply same_outside_cstr; [exact Hs'|done|]. pose proof (zlen_nonneg s2). lia.
      - unfold line_post. rewrite Ec. done. }
    eapply wp_strchr_bind; [exact Hln|done|..].
    + intros n vs -> Hnc. pose proof (cstr_split_poke _ _ _ _ _ Hln) as (H1 & H2 & Hb).
      rewrite zlen_app, zlen_cons in *. pose proof (zlen_nonneg n). pose proof (zlen_nonneg vs).
      apply wp_bind, wp_wr; [done|]. change (wrapu 8 0) with 0. apply wp_bind.
      eapply wp_trunc_space; [exact H2|]. intros v m2 Hv2 Hvl Hvh Hs2. apply wp_ret.
      replace (name + zlen n - name) with (Z.of_nat (length n)) by (unfold zlen; lia). apply Hpost.
      * eapply same_outside_trans; [apply (same_outside_poke _ _ _ (name + zlen n) 0); lia|so_weaken Hs2].
      * rewrite index_of_app by done. exists v. rewrite take_app_length.
        replace (drop (S (length n)) (n ++ ch ":" :: vs)) with vs.
        2: { change (S (length n)) with (1 + length n)%nat. rewrite Nat.add_comm, <- drop_drop, drop_app_length. done. }
        split_and!; try done; try (unfold zlen in *; lia).
        eapply same_outside_cstr; [exact Hs2|done|lia].
    + intros Hnc. apply wp_ret, Hpost; [apply same_outside_refl|].
      destruct (index_of (ch ":") ln) as [i|] eqn:Ei; [|done].
      apply index_of_Some in Ei as (? & ? & -> & _ & _). exfalso. apply Hnc. apply in_or_app. right. by left.
Qed.

(** ** Case folding in place *)

Lemma nx_tolower_small c : is_byte c -> wrapu 8 (nx_tolower c) = nx_tolower c.
Proof. intros Hc%nx_tolower_byte. apply wrapu_small. exact Hc. Qed.

(** Bytes that stay inside the string even if they are not bytes. *)
Lemma wp_strtolower_inplace m p s (Q : unit -> list Z -> Prop) :
  cstr m p s ->
  (forall m', same_outside m m' p (p + zlen s) -> (all_bytes s -> cstr m' p (nx_strtolower s)) -> Q tt m') ->
  wp (nx_strtolower_inplace p) Q m.
Proof.
  intros Hs HQ. unfold nx_strtolower_inplace. pose proof (cstr_bounds _ _ _ Hs) as [Hp0 Hpb].
  eapply (wp_mem_loop (fun q m' => exists a t, s = a ++ t /\ q = p + zlen a /\ cstr m' q t /\
             same_outside m m' p q /\ (all_bytes s -> bytes_at m' p (nx_strtolower a)))
            (fun q => Z.to_nat (zlen m - q))).
  - exists [], s. rewrite zlen_nil, Z.add_0_r. split_and!; try done; apply same_outside_refl.
  - unfold zlen. lia.
  - intros q m' (a & t & -> & -> & Ht & Hs' & Hb). pose proof (cstr_bounds _ _ _ Ht).
    pose proof (same_outside_zlen _ _ _ _ Hs'). pose proof (zlen_nonneg a). pose proof (zlen_nonneg t).
    rewrite zlen_app in Hpb. apply wp_bind. destruct t as [|c t].
    + pose proof (cstr_nil_inv _ _ Ht) as [_ Hz]. eapply wp_rd'; [done|]. cbn beta. apply wp_bind, wp_wr; [lia|].
      change (nx_tolower 0) with 0. change (wrapu 8 0) with 0. apply wp_ret. rewrite app_nil_r in *. apply HQ.
      * split; [rewrite length_poke; apply Hs'|]. intros q Hq. destruct (decide (q = p + zlen a)) as [->|].
        -- rewrite peek_poke_eq by lia. destruct Hs as (_ & _ & Hs). by rewrite Hs.
        -- rewrite peek_poke_ne by lia. by apply Hs'.
      * intros Hby. apply bytes_at_cstr; [done| |].
        -- apply bytes_at_push; [by apply Hb|done| |lia]. unfold nx_strtolower, zlen. by rewrite length_map.
        -- apply cstr_nonzero in Hs. apply Forall_forall. intros d Hd.
           apply list_elem_of_fmap in Hd as (e & -> & He).
           apply nx_tolower_nonzero; [by eapply Forall_forall in Hby|by eapply Forall_forall in Hs].
    + pose proof Ht as Ht'. apply cstr_cons in Ht' as (_ & Hn & Hc & Ht'). eapply wp_rd'; [done|]. cbn beta.
      rewrite zlen_cons in *. pose proof (zlen_nonneg t). apply wp_bind, wp_wr; [lia|].
      assert (nx_tolower c <> 0) by (unfold nx_tolower; destruct (_ && _) eqn:E; [blia|done]).
      rewrite (proj2 (Z.eqb_neq (nx_tolower c) 0)) by done. apply wp_ret. split; [|lia].
      exists (a ++ [c]), t. rewrite <- app_assoc, zlen_app, zlen_cons, zlen_nil. split_and!; [done|lia|..].
      * apply cstr_poke; [by replace (p + (zlen a + (1 + 0))) with (p + zlen a + 1) by lia|lia|lia].
      * eapply same_outside_trans; [so_weaken Hs'|]. apply same_outside_poke; lia.
      * intros Hby. unfold nx_strtolower in *. rewrite map_app. rewrite nx_tolower_small.
        -- apply bytes_at_push; [by apply Hb|done| |lia]. unfold zlen. by rewrite length_map.
        -- rewrite Forall_app, Forall_cons in Hby. apply Hby.
Qed.

(** A shorter copy to the left of the string: the source is read before it is
    overwritten. *)
Lemma wp_strntolower m d p s t (Q : unit -> list Z -> Prop) :
  0 <= d -> d < p -> cstr m p (s ++ t) -> all_bytes s ->
  (forall m', same_outside m m' d (d + zlen s) -> bytes_at m' d (nx_strtolower s) -> Q tt m') ->
  wp (nx_strntolower d p (zlen s)) Q m.
Proof.
  intros Hd Hdp Hs Hby HQ. unfold nx_strntolower. pose proof (cstr_bounds _ _ _ Hs) as [Hp0 Hpb].
  rewrite zlen_app in Hpb. pose proof (zlen_nonneg s). pose proof (zlen_nonneg t).
  eapply (wp_mem_loop (fun '(d', p', n) m' => exists a b, s = a ++ b /\ d' = d + zlen a /\ p' = p + zlen a /\
             n = zlen b /\ cstr m' p' (b ++ t) /\ same_outside m m' d d' /\ bytes_at m' d (nx_strtolower a))
            (fun '(d', p', n) => Z.to_nat n)).
  - exists [], s. rewrite zlen_nil, !Z.add_0_r. split_and!; try done; apply same_outside_refl.
  - unfold zlen in *. lia.
  - intros [[d' p'] n] m' (a & b & -> & -> & -> & -> & Ht & Hs' & Hb). rewrite zlen_app in *.
    pose proof (same_outside_zlen _ _ _ _ Hs'). pose proof (zlen_nonneg a). pose proof (zlen_nonneg b).
    destruct b as [|c b].
    + cbn. apply wp_ret. rewrite zlen_nil, app_nil_r, Z.add_0_r in *. by apply HQ.
    + rewrite zlen_cons in *. pose proof (zlen_nonneg b). rewrite (proj2 (Z.eqb_neq _ 0)) by lia.
      cbn [app] in Ht. apply cstr_cons in Ht as (_ & Hn & Hc & Ht). apply wp_bind. eapply wp_rd'; [done|]. cbn beta.
      rewrite Forall_app, Forall_cons in Hby. destruct Hby as (_ & Hcb & _).
      rewrite <- nx_tolower_small by done. apply wp_bind, wp_wr; [lia|]. rewrite !nx_tolower_small by done.
      assert (nx_tolower c <> 0) by (by apply nx_tolower_nonzero).
      rewrite (proj2 (Z.eqb_neq (nx_tolower c) 0)) by done. apply wp_ret. split; [|lia].
      exists (a ++ [c]), b. rewrite <- app_assoc, zlen_app, zlen_cons, zlen_nil. split_and!; [done|lia|lia|lia|..].
      * apply cstr_poke; [by replace (p + (zlen a + (1 + 0))) with (p + zlen a + 1) by lia|lia|lia].
      * eapply same_outside_trans; [so_weaken Hs'|]. apply same_outside_poke; lia.
      * unfold nx_strtolower in *. rewrite map_app. apply bytes_at_push; [done|done| |lia]. unfold zlen. by rewrite length_map.
Qed.

(** ** The request line *)

Definition split_uri (u : bytes) : option (option bytes * bytes) :=
  if is_prefix (bs "http://") u then
    match index_of (ch "/") (drop 7 u) with
    | None => None
    | Some i => Some (Some (nx_strtolower (take i (drop 7 u))), drop i (drop 7 u))
    end
  else Some (None, u).

(** Method, host of an absolute URI, path and version. *)
Definition spec_request_line (L : bytes) : option (bytes * option bytes * bytes * bytes) :=
  let r1 := next_word L in
  let r2 := next_word r1 in
  if bool_decide (r1 = []) || bool_decide (r2 = []) then None else
  match split_uri (token r1) with
  | Some (host, path) => if hd0 path =? ch "/" then Some (token L, host, path, token r2) else None
  | None => None
  end.

Lemma is_prefix_app lit s : is_prefix lit s = true -> s = lit ++ drop (length lit) s.
Proof.
  revert s. induction lit as [|a lit IH]; intros [|b s]; cbn; try done.
  intros [Hab%Z.eqb_eq Hp]%andb_true_iff. subst b. by rewrite <- IH.
Qed.

Lemma token_no_nl_bound s c : In c (token s) -> SPACE < c.
Proof. induction s as [|d s IH]; [done|]. cbn [token]. destruct (Z.ltb_spec SPACE d); cbn; [naive_solver|done]. Qed.

Definition http11_of (ver : bytes) : bool := negb (nx_strcasecmp ver (bs "HTTP/1.0") =? 0).

Definition request_line_post (req req' : request) (m' : list Z) (rc headers pl : Z) (L : bytes) : Prop :=
  match spec_request_line L with
  | None => rc = -1
  | Some (me, host, path, ver) =>
      rc = 0 /\ exists pu pv ph, req' = req{{rq_method := Some (At headers); rq_uri := Some (At pu);
          rq_http_version := Some (At pv); rq_http11 := http11_of ver; rq_keep_alive := http11_of ver;
          rq_host := match host with Some _ => Some (At ph) | None => rq_host req end}} /\
        cstr m' headers me /\ cstr m' pu path /\ cstr m' pv ver /\
        headers + zlen me <= pl /\ headers <= pu /\ pu + zlen path <= pl /\ headers <= pv /\ pv + zlen ver <= pl /\
        headers <= ph <= pl /\
        match host with Some h => cstr m' ph h /\ ph + zlen h <= pl | None => True end
  end.

(** The host of an absolute URI is moved to the front, over [http://]. *)
Lemma wp_split_uri m uri u (req : request) (Q : Z * request -> list Z -> Prop) :
  cstr m uri u -> all_bytes u ->
  (split_uri u = None -> Q (-1, req) m) ->
  (forall host path pu m', split_uri u = Some (host, path) -> cstr m' pu path -> uri <= pu -> pu + zlen path = uri + zlen u ->
     same_outside m m' uri pu ->
     match host with Some h => cstr m' uri h /\ uri + zlen h < pu | None => pu = uri end ->
     Q (0, match host with Some _ => req{{rq_host := Some (At uri); rq_uri := Some (At pu)}} | None => req end) m') ->
  wp (if is_prefix (bs "http://") u then
        let! slash := strchr (uri + 7) (ch "/") in
        match slash with
        | None => ret (-1, req)
        | Some uri' =>
            do! nx_strntolower uri (uri + 7) (uri' - uri - 7) in
            do! wr (uri + (uri' - uri - 7)) 0 in
            ret (0, req{{rq_host := Some (At uri); rq_uri := Some (At uri')}})
        end
      else ret (0, req)) Q m.
Proof.
  intros Hu Hb HN HS. unfold split_uri in *. destruct (is_prefix (bs "http://") u) eqn:Ep.
  2: { apply wp_ret. eapply (HS None u uri); [done|done|lia|lia|apply same_outside_refl|done]. }
  apply is_prefix_app in Ep. cbn [length] in Ep. set (r := drop 7 u) in *. pose proof (cstr_bounds _ _ _ Hu) as [Hu0 Hub].
  assert (Hr : cstr m (uri + 7) r) by (rewrite Ep in Hu; by apply cstr_app in Hu).
  assert (Hbr : all_bytes r) by (unfold r; by apply Forall_drop).
  assert (Hlu : zlen u = 7 + zlen r) by (rewrite Ep, zlen_app; done).
  eapply wp_strchr_bind; [exact Hr|done|..].
  - intros h rest Hrs Hn. rewrite Hrs in Hr, Hbr, Hlu, HS. rewrite zlen_app, zlen_cons in Hlu.
    pose proof (zlen_nonneg h). pose proof (zlen_nonneg rest).
    replace (uri + 7 + zlen h - uri - 7) with (zlen h) by lia. apply Forall_app in Hbr as [Hbh _].
    apply wp_bind. eapply wp_strntolower; [done|lia|exact Hr|done|]. intros m1 Hs1 Hh1.
    pose proof (same_outside_zlen _ _ _ _ Hs1). apply wp_bind, wp_wr; [lia|]. apply wp_ret. change (wrapu 8 0) with 0.
    rewrite index_of_app in HS by done. rewrite take_app_length, drop_app_length in HS.
    assert (Hlh : zlen (nx_strtolower h) = zlen h) by (unfold zlen, nx_strtolower; by rewrite length_map).
    eapply (HS (Some (nx_strtolower h)) (ch "/" :: rest)); [done| |lia|rewrite zlen_cons; lia| |split; [|lia]].
    + apply cstr_poke; [|lia|lia]. eapply same_outside_cstr; [exact Hs1|by apply cstr_app in Hr|lia].
    + eapply same_outside_trans; [so_weaken Hs1|]. apply same_outside_poke; lia.
    + rewrite <- Hlh. apply bytes_at_cstr; [done|apply bytes_at_push; [done|done|done|lia]|].
      apply cstr_nonzero in Hr. apply Forall_app in Hr as [Hr _]. apply Forall_forall. intros d Hd.
      apply list_elem_of_fmap in Hd as (e & -> & He).
      apply nx_tolower_nonzero; [by eapply Forall_forall in Hbh|by eapply Forall_forall in Hr].
  - intros Hn. apply wp_ret, HN. destruct (index_of (ch "/") r) as [i|] eqn:E; [|done].
    apply index_of_Some in E as (s1 & s2 & Er & _). exfalso. apply Hn. rewrite Er. apply in_or_app. right. by left.
Qed.

Lemma token_next_word s : zlen (token (next_word s)) <= zlen (next_word s) /\ (next_word s <> [] -> zlen (token s) < zlen s).
Proof.
  split; [apply zlen_token|]. intros Hn. rewrite (token_app s) at 2. rewrite zlen_app. unfold next_word in Hn.
  destruct (after_token s) as [|c r]; [done|]. rewrite zlen_cons. pose proof (zlen_nonneg r). lia.
Qed.
Lemma all_bytes_token s : all_bytes s -> all_bytes (token s).
Proof. rewrite (token_app s) at 1. by intros [? _]%Forall_app. Qed.
Lemma all_bytes_next_word s : all_bytes s -> all_bytes (next_word s).
Proof.
  rewrite (token_app s) at 1. intros [_ H]%Forall_app. unfold next_word. apply (Forall_drop _ 1) in H.
  destruct (ltrim_suffix (drop 1 (after_token s))) as (k & Hk & _). rewrite Hk in H. by apply Forall_app in H as [_ ?].
Qed.

(** Cutting off a word inside the line. *)
Lemma wp_cut_word {A} m p s e (k : Z -> M (list Z) A) Q :
  cstr m p s -> p + zlen s <= e -> peek m e = Some 0 ->
  (forall m', cstr m' p (token s) -> same_outside m m' p (e + 1) -> (p + zlen (token s) < e -> same_outside m m' p e) -> peek m' e = Some 0 -> wp (k (p + zlen (token s))) Q m') ->
  wp (let! p := skip_token p in do! wr p 0 in k p) Q m.
Proof.
  intros Hs He H0 Hk. pose proof (cstr_bounds _ _ _ Hs) as [Hp Hb]. pose proof (zlen_token s).
  apply wp_bind. eapply wp_skip_token; [done|]. apply wp_bind, wp_wr; [lia|]. change (wrapu 8 0) with 0. apply Hk.
  - pose proof (token_app s) as Ha. destruct (after_token s) as [|c r] eqn:E.
    + rewrite app_nil_r in Ha. rewrite <- Ha. split; [done|]. destruct Hs as (_ & Hs & Hz). split.
      * intros i d Hi. destruct (Hs i d Hi) as [Hd Hn]. split; [|done]. apply lookup_lt_Some in Hi.
        rewrite peek_poke_ne; [done|lia|unfold zlen; lia].
      * apply peek_poke_eq. lia.
    + rewrite Ha in Hs. by apply cstr_split_poke in Hs as (? & _ & _).
  - apply same_outside_poke; lia.
  - intros. apply same_outside_poke; lia.
  - destruct (decide (p + zlen (token s) = e)) as [He'|]; [rewrite He'; apply peek_poke_eq; lia|]. rewrite peek_poke_ne; [done|lia|done].
Qed.

Lemma wp_parse_request_line m (req : request) headers pl L (Q : Z * request -> list Z -> Prop) :
  cstr m headers L -> headers + zlen L = pl -> pl + 1 < zlen m -> all_bytes L ->
  (forall rc req' m', request_line_post req req' m' rc headers pl L -> same_outside m m' headers (pl + 1) ->
     peek m' pl = Some 0 -> Q (rc, req') m') ->
  wp (parse_request_line req headers pl) Q m.
Proof.
  intros HL Hpl Hm Hb HQ. unfold parse_request_line. cbv zeta. pose proof (cstr_bounds _ _ _ HL) as [Hh0 _].
  pose proof (token_next_word L) as [Ht1 Hlt1]. pose proof (zlen_token L). unfold request_line_post, spec_request_line in HQ. cbv zeta in HQ.
  eapply wp_next_word; [exact HL|done|done|..].
  { intros q m' Hn Hq Hs Hz. rewrite (proj2 (Z.leb_le pl q)) by lia. apply wp_ret. eapply HQ; [|done|done]. by rewrite Hn. }
  intros q m1 Hn1 Htok Hq1 Hw1 Hql1 Hs1. specialize (Hlt1 Hn1). pose proof (zlen_nonneg (token L)).
  pose proof (same_outside_zlen _ _ _ _ Hs1). apply all_bytes_next_word in Hb as Hb1.
  destruct (next_word L) as [|c1 r1'] eqn:Er1; [done|]. rewrite <- Er1 in *. clear Er1 c1 r1'. set (r1 := next_word L) in *.
  assert (0 < zlen r1) by (pose proof (zlen_nonneg r1); pose proof (zlen_0_inv r1); destruct (decide (zlen r1 = 0)); [naive_solver|lia]).
  rewrite (proj2 (Z.leb_gt pl q)) by lia. pose proof (token_next_word r1) as [Ht2 Hlt2]. pose proof (zlen_token r1).
  rewrite bool_decide_eq_false_2 in HQ by done. cbn [orb] in HQ.
  eapply wp_next_word; [exact Hw1|done|lia|..].
  { intros q' m' Hn Hq' Hs Hz. rewrite (proj2 (Z.leb_le pl q')) by lia. apply wp_ret. eapply HQ; [|so_trans Hs1 Hs|done].
    by rewrite Hn. }
  intros q2 m2 Hn2 Hu Hq2 Hw2 Hql2 Hs2. specialize (Hlt2 Hn2). pose proof (zlen_nonneg (token r1)).
  pose proof (same_outside_zlen _ _ _ _ Hs2). set (r2 := next_word r1) in *.
  assert (0 < zlen r2) by (pose proof (zlen_nonneg r2); pose proof (zlen_0_inv r2); destruct (decide (zlen r2 = 0)); [naive_solver|lia]).
  rewrite (proj2 (Z.leb_gt pl q2)) by lia. rewrite bool_decide_eq_false_2 in HQ by done. cbn [orb] in HQ.
  assert (Hz2 : peek m2 pl = Some 0) by (destruct Hw2 as (_ & _ & Hz); by rewrite Hql2 in Hz).
  pose proof (zlen_token r2). eapply wp_cut_word; [exact Hw2|by rewrite Hql2|exact Hz2|].
  intros m3 Hv Hs3 _ Hz3. pose proof (same_outside_zlen _ _ _ _ Hs3).
  apply wp_bind. eapply wp_read_str; [exact Hv|].
  assert (Htok3 : cstr m3 headers (token L)).
  { eapply same_outside_cstr; [exact Hs3| |lia]. eapply same_outside_cstr; [exact Hs2|done|lia]. }
  assert (Hu3 : cstr m3 q (token r1)) by (eapply same_outside_cstr; [exact Hs3|exact Hu|lia]).
  apply wp_bind. eapply wp_read_str; [exact Hu3|]. apply wp_bind.
  match goal with |- context [(-1, ?r)] => remember r as req0 eqn:Hreq0 end.
  assert (Hs123 : same_outside m m3 headers (pl + 1)).
  { eapply same_outside_trans; [so_trans Hs1 Hs2|so_weaken Hs3]. }
  apply wp_split_uri; [exact Hu3|by apply all_bytes_token|..].
  { intros E. change (negb (-1 =? 0)) with true. cbn iota. apply wp_ret. eapply HQ; [|exact Hs123|exact Hz3].
    by rewrite E. }
  intros host path pu m4 E Hpu Hle Hpe Hs4 Hhost. rewrite E in HQ. change (negb (0 =? 0)) with false. cbn iota.
  pose proof (zlen_nonneg path). assert (Hs14 : same_outside m m4 headers (pl + 1)) by (so_trans Hs123 Hs4).
  assert (Hz4 : peek m4 pl = Some 0).
  { destruct Hs4 as [_ Hs4]. rewrite Hs4; [done|]. lia. }
  set (req1 := match host with Some _ => _ | None => _ end).
  assert (Huri : rq_uri req1 = Some (At pu)).
  { unfold req1. destruct host; [by destruct req0|]. subst pu req0. by destruct req. }
  rewrite Huri. cbn [deref]. apply wp_bind. eapply wp_read_str; [exact Hpu|].
  destruct (hd0 path =? 47) eqn:E47; cbn [negb]; apply wp_ret.
  2: { eapply HQ; [done|exact Hs14|exact Hz4]. }
  eapply HQ; [|exact Hs14|exact Hz4]. split; [done|]. exists pu, q2, q. split.
  { unfold req1, http11_of. subst req0. destruct req, host; [done|]. by subst pu. }
  split_and!; try lia.
  - eapply same_outside_cstr; [exact Hs4|exact Htok3|lia].
  - exact Hpu.
  - eapply same_outside_cstr; [exact Hs4|exact Hv|]. lia.
  - destruct host as [h|]; [|done]. destruct Hhost as [Hh Hlt]. split; [done|lia].
Qed.

(** ** The end of the headers *)

Lemma wp_memchr m p c n (Q : option Z -> list Z -> Prop) : 0 <= p -> p + n <= zlen m ->
  (forall q, p <= q < p + n -> peek m q = Some c -> (forall x, p <= x < q -> peek m x <> Some c) -> Q (Some q) m) ->
  ((forall x, p <= x < p + n -> peek m x <> Some c) -> Q None m) -> wp (memchr p c n) Q m.
Proof.
  intros Hp Hn HS HN. eapply (wp_mem_loop (fun q m' => m' = m /\ p <= q /\ forall x, p <= x < q -> peek m x <> Some c) (fun q => Z.to_nat (p + n - q))).
  - split_and!; [done|lia|lia].
  - unfold zlen in *. lia.
  - intros q m' (-> & Hq & Hno). destruct (Z.leb_spec (p + n) q).
    + apply wp_ret, HN. intros x Hx. apply Hno. lia.
    + apply wp_bind, wp_rd; [lia|]. intros d Hd. destruct (Z.eqb_spec d c) as [->|Hne].
      * apply wp_ret, HS; [lia|done|]. intros x Hx. apply Hno. lia.
      * apply wp_ret. split; [|lia]. split_and!; [done|lia|]. intros x Hx.
        destruct (decide (x = q)) as [->|]; [congruence|]. apply Hno. lia.
Qed.

(** An empty line ends at [p]: LF LF or CR LF CR LF, not before the fourth byte. *)
Definition empty_line_at (m : list Z) (buf p : Z) : Prop :=
  buf + 3 <= p /\ peek m p = Some 10 /\
  (peek m (p - 1) = Some 10 \/ peek m (p - 3) = Some 13 /\ peek m (p - 2) = Some 10 /\ peek m (p - 1) = Some 13).
Definition end_found (m : list Z) (buf len : Z) (r : option (Z * Z)) : Prop :=
  match r with
  | Some (e, b) => b <= buf + len /\ empty_line_at m buf (b - 1) /\ (forall p, p < b - 1 -> ~ empty_line_at m buf p) /\
      (e = if bool_decide (peek m (b - 2) = Some 10) then b - 2 else b - 4)
  | None => forall p, p < buf + len -> ~ empty_line_at m buf p
  end.

Lemma wp_find_end m buf len (Q : option (Z * Z) -> list Z -> Prop) : 0 <= buf -> buf + len <= zlen m ->
  (forall r, end_found m buf len r -> Q r m) -> wp (_nxweb_find_end_of_http_headers buf len) Q m.
Proof.
  intros Hb Hl HQ. unfold _nxweb_find_end_of_http_headers. destruct (Z.ltb_spec len 4) as [Hs|Hs].
  { apply wp_ret, HQ. intros p Hp [Hp' _]. lia. }
  set (I := fun (x : option Z) => forall p, p < default (buf + len) x -> ~ empty_line_at m buf p).
  set (J := fun (x : option Z) => forall q, x = Some q -> buf + 3 <= q < buf + len /\ peek m q = Some 10).
  assert (Hnext : forall p n (Q' : option Z -> list Z -> Prop), buf + 3 <= p -> p + n = buf + len ->
     (forall x, x < p -> ~ empty_line_at m buf x) -> (forall x, I x -> J x -> (forall q, x = Some q -> p <= q) -> Q' x m) -> wp (memchr p 10 n) Q' m).
  { intros p n Q' Hp He Hno HQ'. apply wp_memchr; [lia|lia|..].
    - intros q Hq Hpq Hbefore. apply HQ'; [|by intros ? [= <-]; split; [lia|]|intros ? [= <-]; lia]. intros x Hx [H1 [H2 H3]]. cbn in Hx.
      destruct (Z.lt_ge_cases x p) as [Hxp|Hxp]; [by apply (Hno x Hxp)|]. by apply (Hbefore x).
    - intros Hbefore. apply HQ'; [|done|done]. intros x Hx [H1 [H2 H3]]. cbn in Hx.
      destruct (Z.lt_ge_cases x p) as [Hxp|Hxp]; [by apply (Hno x Hxp)|]. apply (Hbefore x); [lia|done]. }
  apply wp_bind, Hnext; [lia|lia|intros x Hx [H1 _]; lia|]. intros x0 HI0 HJ0 _.
  eapply (wp_mem_loop (fun x m' => m' = m /\ I x /\ J x) (fun x => match x with Some q => S (Z.to_nat (buf + len - q)) | None => O end)); [done| |].
  { destruct x0 as [q|]; [|lia]. destruct (HJ0 q eq_refl). unfold zlen in *. lia. }
  intros [p|] m' (-> & HI & HJ); [|apply wp_ret, HQ; exact HI]. destruct (HJ p eq_refl) as [Hp Hpeek]. cbn in HI.
  apply wp_bind, wp_rd; [lia|]. intros c1 H1. destruct (Z.eqb_spec c1 10) as [->|Hn1].
  { apply wp_ret, HQ. cbn. rewrite Z.add_simpl_r. split_and!; [lia|split_and!; [lia|done|by left]|done|].
    replace (p + 1 - 2) with (p - 1) by lia. by rewrite bool_decide_true. }
  apply wp_bind, wp_rd; [lia|]. intros c3 H3. apply wp_bind, wp_rd; [lia|]. intros c2 H2.
  destruct (_ && _) eqn:E.
  { apply andb_true_iff in E as [[->%Z.eqb_eq ->%Z.eqb_eq]%andb_true_iff ->%Z.eqb_eq]. apply wp_ret, HQ. cbn. rewrite Z.add_simpl_r.
    split_and!; [lia|split_and!; [lia|done|by right]|done|]. replace (p + 1 - 2) with (p - 1) by lia. rewrite bool_decide_false by congruence. lia. }
  apply wp_bind, Hnext; [lia|lia| |].
  { intros x Hx. destruct (decide (x = p)) as [->|]; [|apply HI; cbn; lia]. intros (_ & _ & [Hc|(Hc3 & Hc2 & Hc1)]); [congruence|].
    assert (c3 = 13) as -> by congruence. assert (c2 = 10) as -> by congruence. assert (c1 = 13) as -> by congruence. done. }
  intros x HIx HJx Hge. apply wp_ret. split_and!; [done..|]. destruct x as [q|]; [|lia]. specialize (Hge q eq_refl). lia.
Qed.

(** ** Any bytes: the parser stays inside the headers *)

Definition ptr_in (lo hi : Z) (s : option cptr) : Prop :=
  match s with Some (At p) => lo <= p <= hi | _ => True end.

Definition req_strings {str} (r : nxweb_http_request str) : list (option str) :=
  [rq_method r; rq_uri r; rq_http_version r; rq_host r; rq_cookie r; rq_user_agent r; rq_content_type r;
   rq_transfer_encoding r; rq_accept_encoding r; rq_range r].

Definition map_in (lo hi : Z) (mp : str_map cptr) : Prop :=
  Forall (fun e => ptr_in lo hi (Some (fst e)) /\ ptr_in lo hi (snd e)) mp.

(** The first line's results stay; every pointer is inside. *)
Definition host_at (s : option cptr) : Prop := match s with Some (Lit _) => False | _ => True end.
Definition req_ok (u0 me0 : option cptr) (lo hi : Z) (r : request) : Prop :=
  Forall (ptr_in lo hi) (req_strings r) /\ rq_uri r = u0 /\ rq_method r = me0 /\ host_at (rq_host r).
Definition hs_ok (u0 me0 : option cptr) (lo hi : Z) (st : header_state) : Prop :=
  req_ok u0 me0 lo hi (hs_req st) /\ map_in lo hi (hs_map st) /\
  match hs_expect st with Some e => lo <= e <= hi | None => True end.

(** Setting fields of a request whose pointers are inside. *)
Ltac req_cases r := unfold req_ok, req_strings, host_at in *; destruct r; cbn in *; rewrite ?Forall_cons in *; cbn in *; first [tauto|split_and!; solve [tauto|done]].

(** What the derived fields say. *)
Definition flags_ok {str} (r : nxweb_http_request str) : Prop :=
  (rq_chunked_encoding r = true -> rq_content_length r = -1) /\
  (rq_head_method r = true -> rq_get_method r = true) /\
  ((rq_get_method r = true /\ rq_post_method r = false /\ rq_other_method r = false) \/
   (rq_get_method r = false /\ rq_post_method r = true /\ rq_other_method r = false) \/
   (rq_get_method r = false /\ rq_post_method r = false /\ rq_other_method r = true)).

(** [GET] and [POST] are not the same method. *)
Lemma get_not_post s : nx_strcasecmp s (bs "GET") = 0 -> nx_strcasecmp s (bs "POST") <> 0.
Proof.
  destruct s as [|c s]; cbn [nx_strcasecmp hd0 tail]; [by vm_compute|].
  destruct (Z.eqb_spec (fold_diff c 71) 0) as [E1|E1]; [|done]. intros _.
  destruct (Z.eqb_spec (fold_diff c 80) 0) as [E2|E2]; [|done]. exfalso. unfold fold_diff in *.
  change (schar (nx_tolower 71)) with 103 in E1. change (schar (nx_tolower 80)) with 112 in E2. lia.
Qed.

Section any_bytes.
Context (u0 me0 : option cptr) (lo wl eoh z : Z) (m0 : list Z).
Hypotheses (Hlo : 0 <= lo <= wl) (Heoh : peek m0 eoh = Some 0) (Hz : eoh + 3 <= z) (Hz0 : peek m0 z = Some 0).

Lemma string_at m p : stable wl eoh m0 m -> lo <= p <= eoh -> exists s, cstr m p s /\ p + zlen s <= eoh.
Proof. intros Hs Hp. eapply stable_string; [exact Hs|exact Heoh|lia]. Qed.

Lemma wp_read_any {A} m p (k : bytes -> M (list Z) A) Q :
  stable wl eoh m0 m -> lo <= p <= eoh -> (forall s, cstr m p s -> wp (k s) Q m) -> wp (bind (read_str p) k) Q m.
Proof. intros Hs Hp Hk. destruct (string_at m p Hs Hp) as (s & Hc & _). apply wp_bind. eapply wp_read_str; [exact Hc|auto]. Qed.

Lemma wp_deref_any {A} m s p (k : bytes -> M (list Z) A) Q :
  stable wl eoh m0 m -> s = Some p -> ptr_in lo eoh s ->
  (forall t, (forall q, p = At q -> cstr m q t) -> wp (k t) Q m) -> wp (bind (deref s) k) Q m.
Proof.
  intros Hs -> Hp Hk. destruct p as [p|t]; cbn [deref] in *.
  - apply wp_read_any; [done|done|]. intros t Ht. apply Hk. by intros q [= <-].
  - apply wp_bind, wp_ret. by apply Hk.
Qed.

Lemma wp_parse_time_any m p (Q : Z -> list Z -> Prop) :
  stable wl eoh m0 m -> lo <= p <= eoh -> (forall t, Q t m) -> wp (nxweb_parse_http_time p) Q m.
Proof.
  intros Hs Hp HQ. apply (wp_parse_http_time_any m p z); [lia|lia| |done].
  destruct Hs as [_ Hs]. rewrite Hs; [done|lia].
Qed.

Lemma wp_request_field_any m st name len v sv (Q : option header_state -> list Z -> Prop) :
  stable wl eoh m0 m -> lo <= name <= eoh -> wl <= v -> cstr m v sv -> v + zlen sv <= eoh -> hs_ok u0 me0 lo eoh st ->
  (forall r m', stable wl eoh m0 m' -> (exists sv', cstr m' v sv' /\ zlen sv' <= zlen sv) ->
     match r with Some st' => hs_ok u0 me0 lo eoh st' | None => True end -> Q r m') ->
  wp (request_field st name len v) Q m.
Proof.
  intros Hs Hn Hv Hsv Hve Hok HQ. pose proof (zlen_nonneg sv). unfold request_field. apply wp_read_any; [done|done|]. intros n Hcn.
  assert (Hv' : lo <= v <= eoh) by lia. destruct st as [req ex mp]. destruct Hok as (Hr & Hmp & Hex).
  assert (HQ' : forall r, match r with Some st' => hs_ok u0 me0 lo eoh st' | None => True end -> Q r m).
  { intros r Hr'. apply HQ; [done|exists sv; split; [done|lia]|done]. }
  cbn [hs_req hs_expect hs_map] in *.
  assert (Hset : forall r', req_ok u0 me0 lo eoh r' -> Q (Some (mk_hs r' ex mp)) m).
  { intros r' Hr'. by apply HQ'. }
  destruct (identify_http_header n len); try (apply wp_ret; apply HQ'; split_and!; try done; constructor; [done|done]);
    try (apply wp_ret; apply Hset; clear -Hr Hv'; req_cases req);
    try (apply wp_read_any; [done|done|]; intros s Hcs; apply wp_ret; apply Hset; clear -Hr Hv'; req_cases req);
    try (apply wp_bind, wp_parse_time_any; [done|done|]; intros t; apply wp_ret; apply Hset; clear -Hr Hv'; req_cases req).
  - apply wp_bind. eapply wp_strtolower_inplace; [exact Hsv|]. intros m' Hs' _. apply wp_ret. apply HQ.
    + unfold stable in *. so_trans Hs Hs'.
    + destruct (cstr_exists m' v (v + zlen sv)) as (sv' & Hsv' & ?); [lia| |exists sv'; split; [done|lia]].
      destruct Hs' as [_ Hs']. rewrite Hs' by lia. by destruct Hsv as (_ & _ & ?).
    + split_and!; [|done|done]. clear -Hr Hv'. req_cases req.
  - apply wp_ret. apply HQ'. split_and!; done.
  - apply wp_ret. by apply HQ'.
Qed.

(** What the loop over the header lines keeps. *)
Definition headers_inv {St} (P : St -> Prop) (x : Z * option Z * St) (m : list Z) : Prop :=
  let '(pl, value, st) := x in
  stable wl eoh m0 m /\ wl <= pl /\ (pl < eoh -> value_ok m wl pl value) /\ P st.

(** What a field handler may do. *)
Definition field_ok {St} (P : St -> Prop) (field : St -> Z -> Z -> Z -> M (list Z) (option St)) : Prop :=
  forall m st name len v sv, stable wl eoh m0 m -> lo <= name <= eoh -> wl <= v -> cstr m v sv -> v + zlen sv <= eoh -> P st ->
  wp (field st name len v) (fun r m' => stable wl eoh m0 m' /\ (exists sv', cstr m' v sv' /\ zlen sv' <= zlen sv) /\
    match r with Some st' => P st' | None => True end) m.

Lemma wp_header_loop_any {St} (P : St -> Prop) field m pl st0 (Q : St * bool -> list Z -> Prop) :
  field_ok P field -> stable wl eoh m0 m -> wl <= pl -> P st0 ->
  (forall st b m', stable wl eoh m0 m' -> P st -> Q (st, b) m') ->
  wp (header_loop field eoh pl st0) Q m.
Proof.
  intros Hf Hs Hpl Hok HQ. unfold header_loop.
  assert (Hml : eoh < zlen m) by (rewrite (same_outside_zlen _ _ _ _ Hs); apply peek_Some in Heoh; lia).
  eapply (wp_mem_loop (headers_inv P) (fun x => Z.to_nat (eoh - x.1.1))).
  - by split_and!.
  - cbn. unfold zlen in Hml. lia.
  - intros [[pl' value] st] m' (Hs' & Hpl' & Hval & Hst). cbn [fst].
    destruct (Z.leb_spec eoh pl') as [Hle|Hlt]; [apply wp_ret; by apply HQ|]. specialize (Hval Hlt).
    destruct (string_at m' pl' Hs' ltac:(lia)) as (s & Hsl & Hse). apply wp_bind.
    apply (wp_header_line m' wl eoh pl' s value); [done|lia|done|done|].
    intros ln pl2 value2 field2 m2 Hn Hle Hpl2 Hlnb Hs2 Hpost.
    assert (Hs02 : stable wl eoh m0 m2) by (unfold stable in *; so_trans Hs' Hs2).
    pose proof (zlen_nonneg ln). unfold line_post in Hpost. destruct (is_continuation ln) eqn:Ec.
    { destruct Hpost as (-> & -> & Hv). apply wp_ret. split; [|cbn; lia]. split_and!; [done|lia| |done].
      intros Hlt2. destruct Hle as [(s2 & -> & -> & _)|[-> ->]]; [|lia]. destruct value as [v|]; [|done].
      destruct Hv as (sv & H1 & H2 & H3). destruct Hval as [? _]. split; [done|]. exists (sv ++ ln).
      split; [done|]. rewrite zlen_app. lia. }
    destruct Hpost as [Hs2' Hpost]. destruct (index_of 58 ln) as [i|].
    2: { destruct Hpost as [-> ->]. apply wp_ret. split; [|cbn; lia]. by split_and!; [|lia|..]. }
    destruct Hpost as (v & -> & -> & Hname & Hv & Hvl & Hvh). pose proof (zlen_nonneg (trim (drop (S i) ln))).
    apply wp_bind. eapply wp_mono; [eapply Hf; [exact Hs02|lia|lia|exact Hv|lia|exact Hst]|].
    intros [st'|] m3 (Hs3 & (sv' & Hsv' & Hl') & Hst'); apply wp_ret; [|by apply HQ].
    split; [|cbn; lia]. split_and!; [done|lia| |done]. intros Hlt2. split; [lia|]. exists sv'. split; [done|].
    destruct Hle as [(s2 & -> & -> & _)|[-> ->]]; [|lia]. lia.
Qed.

Lemma wp_request_headers_any m pl req (Q : header_state * bool -> list Z -> Prop) :
  stable wl eoh m0 m -> wl <= pl -> req_ok u0 me0 lo eoh req ->
  (forall st b m', stable wl eoh m0 m' -> hs_ok u0 me0 lo eoh st -> Q (st, b) m') ->
  wp (request_headers eoh pl req) Q m.
Proof.
  intros Hs Hpl Hok HQ. apply (wp_header_loop_any (hs_ok u0 me0 lo eoh)); [|done|done|split_and!; [done|constructor|done]|done].
  intros m' st name len v sv H1 H2 H3 H4 H5 H6. by apply (wp_request_field_any m' st name len v sv).
Qed.

Lemma wp_accepts_gzip_any m g (Q : bool -> list Z -> Prop) :
  stable wl eoh m0 m -> lo <= g <= eoh -> (forall b, Q b m) -> wp (accepts_gzip g) Q m.
Proof.
  intros Hs Hg HQ. unfold accepts_gzip.
  assert (Hz' : peek m z = Some 0) by (destruct Hs as [_ Hs]; rewrite Hs; [done|lia]).
  pose proof (peek_Some _ _ _ Hz').
  eapply (wp_mem_loop (fun x m' => m' = m /\ match x with Some q => g <= q < z | None => True end)
            (fun x => match x with Some q => S (Z.to_nat (z - q)) | None => O end)).
  - split; [done|lia].
  - unfold zlen in *. lia.
  - intros [q|] m' [-> Hq]; [|by apply wp_ret]. destruct (cstr_exists m q z) as (s & Hsq & Hse); [lia|done|].
    apply wp_bind. apply wp_mono with (fun _ m' => m' = m).
    + unfold gzip_at. apply wp_bind. eapply wp_read_str; [exact Hsq|]. destruct (negb _); [by apply wp_ret|].
      apply wp_bind. destruct (Z.eqb_spec q g) as [->|]; [by do 2 apply wp_ret|].
      apply wp_bind, wp_rd; [lia|]. intros c _. by do 2 apply wp_ret.
    + intros b m' ->. destruct b; [by apply wp_ret|].
      destruct (cstr_exists m (q + 1) z) as (s' & Hsq' & Hse'); [lia|done|].
      eapply wp_strchr_bind; [exact Hsq'|done|..].
      * intros s1 s2 -> Hn. apply wp_ret. rewrite zlen_app, zlen_cons in Hse'.
        pose proof (zlen_nonneg s1). pose proof (zlen_nonneg s2). split; [|lia]. split; [done|lia].
      * intros _. apply wp_ret. split; [done|lia].
Qed.
Lemma deref_reads m s : stable wl eoh m0 m -> s <> None -> ptr_in lo eoh s -> wp (deref s) (fun _ m' => m' = m) m.
Proof.
  intros Hs Hn Hp. destruct s as [[p|t]|]; cbn [deref] in *; [|by apply wp_ret|done].
  destruct (string_at m p Hs Hp) as (s & Hc & _). by eapply wp_read_str.
Qed.

Definition finished (r r0 : request) : Prop :=
  Forall (ptr_in lo eoh) (req_strings r) /\ rq_uri r = u0 /\ rq_host r = rq_host r0 /\ rq_headers r = rq_headers r0 /\ flags_ok r.

(** The method flags, from the method's text. *)
Definition method_flags (t t' : bytes) (req : request) : request :=
  let head := nx_strcasecmp t (bs "HEAD") =? 0 in
  let req := req{{rq_head_method := head}} in
  let req := if (head : bool) then req{{rq_method := Some (Lit (bs "GET"))}} else req in
  let get_m := head || (nx_strcasecmp t' (bs "GET") =? 0) in
  let post_m := negb head && (nx_strcasecmp t' (bs "POST") =? 0) in
  req{{rq_get_method := get_m; rq_post_method := post_m; rq_other_method := negb get_m && negb post_m}}.

Lemma method_flags_ok t t' req :
  req_ok u0 me0 lo eoh req -> (rq_chunked_encoding req = true -> rq_content_length req = -1) ->
  finished (method_flags t t' req) req.
Proof.
  intros Hok Hch. unfold method_flags. pose proof (get_not_post t') as Hgp.
  destruct (nx_strcasecmp t (bs "HEAD") =? 0), (Z.eqb_spec (nx_strcasecmp t' (bs "GET")) 0), (Z.eqb_spec (nx_strcasecmp t' (bs "POST")) 0);
    try (by specialize (Hgp ltac:(done))); unfold finished, flags_ok; clear -Hok Hch; unfold req_ok, req_strings in *;
    destruct req; cbn in *; rewrite ?Forall_cons in *; cbn; split_and!; try tauto; try apply Hch; try done; naive_solver.
Qed.

Lemma wp_finish_request_any m req expect (Q : request -> list Z -> Prop) :
  stable wl eoh m0 m -> req_ok u0 me0 lo eoh req -> me0 <> None ->
  match expect with Some e => lo <= e <= eoh | None => True end ->
  (forall r, finished r req -> Q r m) -> wp (finish_request req expect) Q m.
Proof.
  intros Hs Hok Hme Hex HQ. unfold finish_request. cbv zeta. apply wp_bind. apply wp_mono with (fun _ m' => m' = m).
  { assert (Ha : ptr_in lo eoh (rq_accept_encoding (req{{rq_path_info := None}}))) by (clear -Hok; req_cases req).
    destruct (rq_accept_encoding _) as [[g|s]|]; [|by apply wp_ret..]. by apply wp_accepts_gzip_any. }
  intros gzip m' ->. set (req1 := if gzip then _ else _).
  assert (Hok1 : req_ok u0 me0 lo eoh req1 /\ ptr_in lo eoh (rq_transfer_encoding req1) /\ rq_host req1 = rq_host req /\ rq_headers req1 = rq_headers req).
  { unfold req1. clear -Hok. destruct gzip; req_cases req. }
  clearbody req1. destruct Hok1 as (Hok1 & Hte & Hh1 & Hhd1). unfold finished in HQ. rewrite <- Hh1, <- Hhd1 in HQ. clear Hok Hh1 Hhd1 req.
  apply wp_bind. apply wp_mono with (fun _ m' => m' = m).
  { destruct (rq_transfer_encoding req1) as [te|]; [|by apply wp_ret].
    apply wp_bind. eapply wp_mono; [by apply deref_reads|]. intros t m' ->. by apply wp_ret. }
  intros chunked m' ->. apply wp_bind. apply wp_mono with (fun _ m' => m' = m).
  { destruct expect as [e|]; [|by apply wp_ret]. apply wp_read_any; [done|done|]. intros s _. by apply wp_ret. }
  intros e100 m' ->.
  match goal with |- wp (bind (deref (rq_method ?r)) _) _ _ => set (req2 := r) end.
  assert (H2 : req_ok u0 me0 lo eoh req2 /\ ptr_in lo eoh (rq_method req2) /\ rq_method req2 = me0 /\ rq_host req2 = rq_host req1 /\ rq_headers req2 = rq_headers req1 /\
    (rq_chunked_encoding req2 = true -> rq_content_length req2 = -1)).
  { unfold req2. clear -Hok1. destruct chunked; req_cases req1. }
  destruct H2 as (Hok2 & Hp2 & Hm2 & Hh2 & Hhd2 & Hcl2). rewrite <- Hh2, <- Hhd2 in HQ. clearbody req2. clear Hok1 Hte Hh2 Hhd2 req1.
  apply wp_bind. eapply wp_mono; [apply deref_reads; [done|by rewrite Hm2|done]|]. intros t m' ->.
  apply wp_bind. apply wp_mono with (fun _ m' => m' = m).
  { apply deref_reads; [done|..]; destruct (nx_strcasecmp t _ =? 0).
    - by destruct req2. - rewrite <- Hm2 in Hme. by destruct req2.
    - by destruct req2. - by destruct req2. }
  intros t' m' ->. apply wp_ret, HQ. by apply (method_flags_ok t t' req2).
Qed.
End any_bytes.

Lemma wp_skip_blank_any m pl p (Q : Z -> list Z -> Prop) :
  0 <= p <= pl + 1 -> pl + 1 < zlen m -> (forall q, p <= q -> Q q m) -> wp (skip_blank pl p) Q m.
Proof.
  intros Hp Hm HQ. unfold skip_blank.
  eapply (wp_mem_loop (fun q m' => m' = m /\ p <= q <= pl + 1) (fun q => Z.to_nat (zlen m - q))).
  - split; [done|lia].
  - unfold zlen. lia.
  - intros q m' [-> Hq]. apply wp_bind, wp_rd; [lia|]. intros c _.
    destruct ((c <=? SPACE) && (q <? pl)) eqn:E; apply wp_ret; [|apply HQ; lia].
    apply andb_true_iff in E as [_ E]. bool_to_prop. split; [split; [done|lia]|lia].
Qed.

Lemma wp_strntolower_any m d p n (Q : unit -> list Z -> Prop) :
  0 <= d -> 0 <= p -> 0 <= n -> p + n < zlen m -> d + n < zlen m ->
  (forall m', same_outside m m' d (d + n) -> Q tt m') -> wp (nx_strntolower d p n) Q m.
Proof.
  intros Hd Hp Hn Hm1 Hm2 HQ. unfold nx_strntolower.
  eapply (wp_mem_loop (fun '(d', p', n') m' => 0 <= n' <= n /\ d' = d + (n - n') /\ p' = p + (n - n') /\ same_outside m m' d (d + n))
            (fun '(d', p', n') => Z.to_nat n')).
  - split_and!; try lia. apply same_outside_refl.
  - unfold zlen in *. lia.
  - intros [[d' p'] n'] m' (Hn' & -> & -> & Hs). pose proof (same_outside_zlen _ _ _ _ Hs).
    destruct (Z.eqb_spec n' 0); [apply wp_ret; by apply HQ|]. apply wp_bind, wp_rd; [lia|]. intros c _.
    apply wp_bind, wp_wr; [lia|].
    assert (Hs' : same_outside m (poke m' (d + (n - n')) (wrapu 8 (nx_tolower c))) d (d + n)).
    { eapply same_outside_trans; [exact Hs|]. apply same_outside_poke; lia. }
    destruct (_ =? 0); apply wp_ret; [by apply HQ|]. split_and!; try lia; [exact Hs'].
Qed.

(** The first line with any bytes, NULs included. *)
Lemma wp_cut_word_any {A} m lo p pl (k : Z -> M (list Z) A) Q :
  0 <= lo <= p -> p <= pl -> peek m pl = Some 0 ->
  (forall q m', p <= q <= pl -> same_outside m m' lo (pl + 1) -> peek m' pl = Some 0 -> wp (k q) Q m') ->
  wp (let! p := skip_token p in do! wr p 0 in k p) Q m.
Proof.
  intros Hlo Hp H0 Hk. destruct (cstr_exists m p pl) as (s & Hs & Hl); [lia|done|].
  apply (wp_cut_word m p s pl); [exact Hs|lia|exact H0|]. intros m' _ Hs' _ H0'. pose proof (zlen_token s).
  apply Hk; [lia|so_weaken Hs'|done].
Qed.

Lemma is_prefix_length lit s : is_prefix lit s = true -> zlen lit <= zlen s.
Proof. intros H%is_prefix_app. rewrite H, zlen_app. pose proof (zlen_nonneg (drop (length lit) s)). lia. Qed.

Definition line_any_post (req' : request) (m' : list Z) (headers pl : Z) : Prop :=
  exists pu u, req_ok (Some (At pu)) (Some (At headers)) headers pl req' /\ headers <= pu /\ cstr m' pu u /\
    pu + zlen u <= pl /\ hd0 u = ch "/".

Lemma wp_parse_request_line_any m headers pl (req : request) (Q : Z * request -> list Z -> Prop) :
  0 <= headers <= pl -> pl + 1 < zlen m -> peek m pl = Some 0 -> Forall (ptr_in headers pl) (req_strings req) -> host_at (rq_host req) ->
  (forall rc req' m', rc = -1 \/ rc = 0 /\ line_any_post req' m' headers pl -> same_outside m m' headers (pl + 1) ->
     peek m' pl = Some 0 -> Q (rc, req') m') ->
  wp (parse_request_line req headers pl) Q m.
Proof.
  intros Hh Hm H0 Hreq Hat HQ. unfold parse_request_line. cbv zeta.
  apply (wp_cut_word_any _ headers _ pl); [lia|lia|done|]. intros p1 m1 Hp1 Hs1 HzA. pose proof (same_outside_zlen _ _ _ _ Hs1).
  apply wp_bind, wp_skip_blank_any; [lia|lia|]. intros uri Huri.
  destruct (Z.leb_spec pl uri); [apply wp_ret, HQ; [by left|done|done]|].
  apply (wp_cut_word_any _ headers _ pl); [lia|lia|done|]. intros p2 m2 Hp2 Hs2 HzB. pose proof (same_outside_zlen _ _ _ _ Hs2).
  assert (Hs02 : same_outside m m2 headers (pl + 1)) by so_trans Hs1 Hs2.
  apply wp_bind, wp_skip_blank_any; [lia|lia|]. intros ver Hver.
  destruct (Z.leb_spec pl ver); [apply wp_ret, HQ; [by left|done|done]|].
  apply (wp_cut_word_any _ headers _ pl); [lia|lia|done|]. intros p3 m3 Hp3 Hs3 HzC. pose proof (same_outside_zlen _ _ _ _ Hs3).
  assert (Hs03 : same_outside m m3 headers (pl + 1)) by so_trans Hs02 Hs3.
  destruct (cstr_exists m3 ver pl) as (vs & Hvs & _); [lia|done|]. apply wp_bind. eapply wp_read_str; [exact Hvs|].
  destruct (cstr_exists m3 uri pl) as (us & Hus & Hul); [lia|done|]. apply wp_bind. eapply wp_read_str; [exact Hus|].
  match goal with |- context [(-1, ?r)] => remember r as req0 eqn:Hreq0 end.
  assert (Hok0 : req_ok (Some (At uri)) (Some (At headers)) headers pl req0).
  { assert (Hr0 : headers <= uri <= pl /\ headers <= ver <= pl /\ headers <= headers <= pl) by lia.
    subst req0. clear -Hr0 Hreq Hat. req_cases req. }
  clear Hreq0. apply wp_bind.
  apply wp_mono with (fun r m' => same_outside m m' headers (pl + 1) /\ peek m' pl = Some 0 /\
     (r.1 = -1 \/ r.1 = 0 /\ exists pu u, req_ok (Some (At pu)) (Some (At headers)) headers pl r.2 /\ headers <= pu /\
        cstr m' pu u /\ pu + zlen u <= pl)).
  2: { intros [rc req'] m' (Hs' & H0' & [Hrc|(Hrc & pu & u & Hok & Hpu & Hu & Hle)]); cbn [fst snd] in *; subst rc.
    - change (negb (-1 =? 0)) with true. cbn iota. apply wp_ret, HQ; [by left|done|done].
    - change (negb (0 =? 0)) with false. cbn iota. pose proof Hok as (_ & Hru & _). rewrite Hru. cbn [deref].
      apply wp_bind. eapply wp_read_str; [exact Hu|]. destruct (Z.eqb_spec (hd0 u) (ch "/")); cbn [negb]; apply wp_ret, HQ; try done.
      + right. split; [done|]. by exists pu, u. + by left. }
  destruct (is_prefix _ us) eqn:Ep.
  2: { apply wp_ret. split_and!; try done. right. split; [done|]. exists uri, us. split_and!; done || lia. }
  pose proof (is_prefix_length _ _ Ep) as H7l. change (zlen _) with 7 in H7l at 1. apply is_prefix_app in Ep. cbn [length] in Ep.
  rewrite Ep in Hus. apply cstr_app in Hus. change (zlen (bs "http://")) with 7 in Hus.
  assert (zlen us = 7 + zlen (drop 7 us)) by (rewrite Ep at 1; by rewrite zlen_app).
  eapply wp_strchr_bind; [exact Hus|done|..].
  2: { intros _. apply wp_ret. split_and!; try done. by left. }
  intros s1 s2 Hsp _. rewrite Hsp in Hus. apply cstr_app in Hus as Hu'. assert (Hz2 := f_equal zlen Hsp). rewrite zlen_app, zlen_cons in Hz2.
  pose proof (zlen_nonneg s1). pose proof (zlen_nonneg s2). pose proof (cstr_bounds _ _ _ Hu').
  replace (uri + 7 + zlen s1 - uri - 7) with (zlen s1) by lia. apply wp_bind, wp_strntolower_any; [lia..|].
  intros m4 Hs4. pose proof (same_outside_zlen _ _ _ _ Hs4). apply wp_bind, wp_wr; [lia|]. apply wp_ret.
  assert (Hs5 : same_outside m3 (poke m4 (uri + zlen s1) (wrapu 8 0)) uri (uri + zlen s1 + 1)).
  { eapply same_outside_trans; [so_weaken Hs4|]. apply same_outside_poke; lia. }
  split_and!; [so_trans Hs03 Hs5|destruct Hs5 as [_ ->]; [done|lia]|]. right. split; [done|].
  exists (uri + 7 + zlen s1), (ch "/" :: s2). cbn [snd]. rewrite zlen_cons. split_and!; [|lia| |lia].
  - assert (Hr1 : headers <= uri <= pl /\ headers <= uri + 7 + zlen s1 <= pl) by lia. clear -Hok0 Hr1. req_cases req0.
  - eapply same_outside_cstr; [exact Hs5|exact Hu'|lia].
Qed.


Lemma req_ok_mono u0 me0 lo hi hi' r : req_ok u0 me0 lo hi r -> hi <= hi' -> req_ok u0 me0 lo hi' r.
Proof.
  intros (Hp & Hu & Hm & Ha) Hle. split_and!; [|done|done|done]. eapply Forall_impl; [exact Hp|].
  intros [[p|s]|]; cbn; [lia|done|done].
Qed.

(** A complete request: the path is absolute, the host is not empty, every
    string ends inside the headers. *)
Definition string_in (m : list Z) (lo hi : Z) (s : option cptr) : Prop :=
  match s with Some (At p) => lo <= p /\ exists t, cstr m p t /\ p + zlen t <= hi | _ => True end.
Definition request_valid (m : list Z) (lo hi : Z) (r : request) : Prop :=
  Forall (string_in m lo hi) (req_strings r) /\
  Forall (fun e => string_in m lo hi (Some (fst e)) /\ string_in m lo hi (snd e)) (rq_headers r) /\
  (exists pu u, rq_uri r = Some (At pu) /\ cstr m pu (ch "/" :: u)) /\
  (exists ph h, rq_host r = Some (At ph) /\ cstr m ph h /\ h <> []) /\ flags_ok r.

Lemma wp_cut_first_line_any m headers eoh (Q : Z -> list Z -> Prop) :
  0 <= headers <= eoh -> peek m eoh = Some 0 ->
  (forall pl m', headers <= pl <= eoh -> same_outside m m' headers eoh -> peek m' pl = Some 0 -> Q pl m') ->
  wp (cut_first_line headers eoh) Q m.
Proof.
  intros Hh H0 HQ. unfold cut_first_line. destruct (cstr_exists m headers eoh) as (s & Hs & Hl); [lia|done|].
  eapply wp_strchr_bind; [exact Hs|done|..].
  - intros s1 s2 -> _. rewrite zlen_app, zlen_cons in Hl. pose proof (zlen_nonneg s1). pose proof (zlen_nonneg s2).
    apply cstr_split_poke in Hs as (_ & _ & Hb). apply wp_bind, wp_wr; [done|]. apply wp_ret, HQ; [lia| |apply peek_poke_eq; lia].
    apply same_outside_poke; lia.
  - intros _. apply wp_ret, HQ; [lia|apply same_outside_refl|done].
Qed.

Lemma ptr_in_string m m0 lo wl eoh s :
  0 <= lo <= wl -> peek m0 eoh = Some 0 -> stable wl eoh m0 m -> ptr_in lo eoh s -> string_in m lo eoh s.
Proof.
  intros Hlo H0 Hs Hp. destruct s as [[p|t]|]; cbn in *; [|done|done]. split; [lia|].
  eapply stable_string; [exact Hs|exact H0|lia].
Qed.

(** ** Safety *)

Lemma wp_parse_http_request_any uid m headers eoh z (Q : Z * request -> list Z -> Prop) :
  0 <= headers <= eoh -> eoh + 3 <= z -> peek m z = Some 0 ->
  (forall rc r m', rc = 0 \/ rc = -1 \/ rc = -2 -> same_outside m m' headers (eoh + 1) ->
     (rc = 0 -> request_valid m' headers eoh r) -> Q (rc, r) m') ->
  wp (_nxweb_parse_http_request (request_zero{{rq_uid := uid}}) headers (Some eoh)) Q m.
Proof.
  intros Hh Hz Hz0 HQ. pose proof (peek_Some _ _ _ Hz0). unfold _nxweb_parse_http_request. cbv zeta.
  apply wp_bind, wp_wr; [lia|]. change (wrapu 8 0) with 0. set (m1 := poke m eoh 0).
  assert (Hs1 : same_outside m m1 headers (eoh + 1)) by (apply same_outside_poke; lia).
  assert (He1 : peek m1 eoh = Some 0) by (apply peek_poke_eq; lia). pose proof (same_outside_zlen _ _ _ _ Hs1).
  apply wp_bind, wp_cut_first_line_any; [done|done|]. intros pl m2 Hpl Hs2 Hp2. pose proof (same_outside_zlen _ _ _ _ Hs2).
  apply wp_bind, wp_parse_request_line_any; [lia|lia|done|by repeat constructor|done|]. intros rc req m3 Hrc Hs3 Hp3.
  assert (Hs13 : same_outside m m3 headers (eoh + 1)).
  { eapply same_outside_trans; [so_trans Hs1 Hs2|so_weaken Hs3]. }
  destruct Hrc as [->|[-> (pu & u & Hok & Hpu & Hu & Hul & Hhd)]].
  { change (negb (-1 =? 0)) with true. cbn iota. apply wp_ret, HQ; [by right; left|done|done]. }
  change (negb (0 =? 0)) with false. cbn iota. apply (req_ok_mono _ _ _ _ eoh) in Hok; [|lia].
  assert (He3 : peek m3 eoh = Some 0).
  { destruct (decide (eoh = pl)) as [->|]; [done|]. destruct Hs3 as [_ Hs3]. rewrite Hs3 by lia.
    destruct Hs2 as [_ Hs2]. rewrite Hs2; [done|lia]. }
  assert (Hz3 : peek m3 z = Some 0) by (destruct Hs13 as [_ Hs13]; rewrite Hs13; [done|lia]).
  apply wp_bind. eapply (wp_request_headers_any _ _ headers (pl + 1) eoh z m3); [lia|done|lia|done|apply same_outside_refl|lia|exact Hok|].
  intros st complete m4 Hs4 (Hreq & Hmp & Hex). assert (Hs14 : same_outside m m4 headers (eoh + 1)) by so_trans Hs13 Hs4.
  destruct complete; cbn [negb]; [|apply wp_ret, HQ; [by right; right|done|done]].
  assert (Hhost : forall h, rq_host ((hs_req st){{rq_headers := hs_map st}}) = Some h -> ptr_in headers eoh (Some h) /\ host_at (Some h)).
  { intros h Hh'. destruct st as [r ? ?]. cbn in Hreq, Hh'. assert (rq_host r = Some h) as <- by (by destruct r).
    clear -Hreq. req_cases r. }
  assert (Hreq' : req_ok (Some (At pu)) (Some (At headers)) headers eoh ((hs_req st){{rq_headers := hs_map st}}) /\
    rq_headers ((hs_req st){{rq_headers := hs_map st}}) = hs_map st).
  { destruct st as [r ? ?]. cbn in Hreq |- *. clear -Hreq. req_cases r. }
  revert Hhost Hreq'. generalize ((hs_req st){{rq_headers := hs_map st}}). clear Hreq. intros req' Hhost [Hreq' Hmap'].
  destruct (rq_host req') as [h|] eqn:Eh; [|apply wp_ret, HQ; [by right; left|done|done]]. destruct (Hhost h eq_refl) as [Hhp Hha].
  eapply (wp_deref_any headers (pl + 1) eoh m3); [lia|done|done|done|done|]. intros t Ht.
  destruct (Z.eqb_spec (hd0 t) 0); [apply wp_ret, HQ; [by right; left|done|done]|].
  apply wp_bind. eapply (wp_finish_request_any _ _ headers (pl + 1) eoh z m3); [lia|done|lia|done|done|exact Hreq'|done|exact Hex|].
  intros r (Hst & Hru & Hrh & Hrhd & Hfl). apply wp_ret, HQ; [by left|done|]. intros _. split_and!; [..|done].
  - eapply Forall_impl; [exact Hst|]. intros s Hp. eapply (ptr_in_string _ m3 _ (pl + 1)); [lia|done|done|done].
  - rewrite Hrhd, Hmap'. eapply Forall_impl; [exact Hmp|].
    intros [a b] [Ha Hb]; split; (eapply (ptr_in_string _ m3 _ (pl + 1)); [lia|done|done|done]).
  - destruct u as [|c u]; [done|]. cbn in Hhd. subst c. exists pu, u. split; [done|].
    eapply same_outside_cstr; [exact Hs4|exact Hu|lia].
  - destruct h as [ph|t'].
    + exists ph, t. split; [congruence|]. split; [by apply Ht|]. by intros ->.
    + done.
Qed.

(** * Properties *)


Definition sample_request : bytes := Eval vm_compute in
  bs "GET http://Ab/x?a HTTP/1.1" ++ [10] ++ bs "Foo: Bar" ++ [10; 32] ++ bs "baz" ++ [10] ++ bs "Accept-Encoding: x,gzip" ++ [10; 10; 0; 0; 0].

