(* ===== verification/RequestSpec.v ===== *)
(** The request parser as a function: a specification of what the header text
    of a request means, on the contents of its strings, and the proof that the
    parser of lib/http_utils.c, which works in place with pointers, computes it. *)
From coqutil Require Import Datatypes.RecordSetters.
From S2P Require Import Prelude CString Uri HttpTime HttpRequest.
Import DoubleBraceUpdate.
Open Scope Z_scope.

(** ** Text without NULs and continuation lines: the parser computes a function
    of the text *)

(** The specification's header state: request, [expect], other headers. *)
Record spec_state := mk_ss { ss_req : nxweb_http_request bytes; ss_expect : option bytes; ss_map : str_map bytes }.

Definition spec_field (st : spec_state) (n v : bytes) : option spec_state :=
  let req := ss_req st in
  let set r := Some (mk_ss r (ss_expect st) (ss_map st)) in
  match identify_http_header n (zlen n) with
  | NXWEB_HTTP_HOST => set (req{{rq_host := Some (nx_strtolower v)}})
  | NXWEB_HTTP_EXPECT => Some (mk_ss req (Some v) (ss_map st))
  | NXWEB_HTTP_COOKIE => set (req{{rq_cookie := Some v}})
  | NXWEB_HTTP_USER_AGENT => set (req{{rq_user_agent := Some v}})
  | NXWEB_HTTP_CONTENT_TYPE => set (req{{rq_content_type := Some v}})
  | NXWEB_HTTP_CONTENT_LENGTH => set (req{{rq_content_length := atol v}})
  | NXWEB_HTTP_ACCEPT_ENCODING => set (req{{rq_accept_encoding := Some v}})
  | NXWEB_HTTP_TRANSFER_ENCODING => set (req{{rq_transfer_encoding := Some v}})
  | NXWEB_HTTP_IF_MODIFIED_SINCE => Some st
  | NXWEB_HTTP_CONNECTION => set (req{{rq_keep_alive := nx_strcasecmp v (bs "keep-alive") =? 0}})
  | NXWEB_HTTP_RANGE => set (req{{rq_range := Some v}})
  | NXWEB_HTTP_TRAILER => None
  | _ => Some (mk_ss req (ss_expect st) ((n, Some v) :: ss_map st))
  end.

Fixpoint spec_headers (ls : list bytes) (st : spec_state) : spec_state * bool :=
  match ls with
  | [] => (st, true)
  | ln :: ls' =>
      match index_of (ch ":") ln with
      | None => spec_headers ls' st
      | Some i =>
          match spec_field st (take i ln) (trim (drop (S i) ln)) with
          | None => (st, false)
          | Some st' => spec_headers ls' st'
          end
      end
  end.

(** The lines of a text; the last one may lack its newline. *)
Fixpoint lines (t : bytes) : list bytes :=
  match t with
  | [] => []
  | c :: t' => if c =? 10 then [] :: lines t' else match lines t' with [] => [[c]] | l :: r => (c :: l) :: r end
  end.

(** [gzip] as an element of the list of accepted encodings. *)
Definition gzip_here (s : bytes) (i : nat) : bool :=
  is_prefix (bs "gzip") (drop i s) &&
  ((i =? 0)%nat || (byte_at s (i - 1) =? ch ",") || (byte_at s (i - 1) =? ch " ")) &&
  ((byte_at s (i + 4) =? 0) || (byte_at s (i + 4) =? ch ",") || (byte_at s (i + 4) =? ch " ")).
Definition gzip_accepted (s : bytes) : bool := existsb (gzip_here s) (seq 0 (length s)).

Definition nocase_is (s : option bytes) (lit : bytes) : bool :=
  match s with Some s => nx_strcasecmp s lit =? 0 | None => false end.

Definition spec_finish (st : spec_state) : nxweb_http_request bytes :=
  let r := ss_req st in
  let gzip := match rq_accept_encoding r with Some s => gzip_accepted s | None => false end in
  let chunked := nocase_is (rq_transfer_encoding r) (bs "chunked") in
  let len := if chunked then -1 else rq_content_length r in
  let head := nocase_is (rq_method r) (bs "HEAD") in
  let meth := if head then Some (bs "GET") else rq_method r in
  let get_m := nocase_is meth (bs "GET") in
  let post_m := negb head && nocase_is meth (bs "POST") in
  r{{rq_headers := ss_map st; rq_accept_gzip_encoding := gzip; rq_chunked_encoding := chunked; rq_content_length := len;
     rq_expect_100_continue := negb (len =? 0) && nocase_is (ss_expect st) (bs "100-continue");
     rq_head_method := head; rq_method := meth; rq_get_method := get_m; rq_post_method := post_m;
     rq_other_method := negb get_m && negb post_m}}.

Definition first_line (T : bytes) : bytes * bytes :=
  match index_of 10 T with Some i => (take i T, drop (S i) T) | None => (T, []) end.

Definition spec_request (T : bytes) : Z * nxweb_http_request bytes :=
  let '(L, rest) := first_line T in
  match spec_request_line L with
  | None => (-1, request_zero)
  | Some (me, host, path, ver) =>
      let r := request_zero{{rq_method := Some me; rq_uri := Some path; rq_http_version := Some ver; rq_host := host;
                             rq_http11 := http11_of ver; rq_keep_alive := http11_of ver}} in
      let '(st, complete) := spec_headers (lines rest) (mk_ss r None []) in
      if negb complete then (-2, ss_req st) else
      match rq_host (ss_req st) with
      | None | Some [] => (-1, ss_req st)
      | Some _ => (0, spec_finish st)
      end
  end.

(** [str_rel m lo b s t]: the pointer denotes the string [t], which ends before
    [b].  The only constant the parser stores is [GET]. *)
Definition str_rel (m : list Z) (lo b : Z) (s : option cptr) (t : option bytes) : Prop :=
  match s, t with
  | None, None => True
  | Some (At p), Some t => lo <= p /\ cstr m p t /\ p + zlen t < b
  | Some (Lit t'), Some t => t' = bs "GET" /\ t = bs "GET"
  | _, _ => False
  end.

Definition req_scalars {str} (r : nxweb_http_request str) : list bool * Z :=
  ([rq_http11 r; rq_keep_alive r; rq_head_method r; rq_get_method r; rq_post_method r; rq_other_method r;
    rq_accept_gzip_encoding r; rq_expect_100_continue r; rq_chunked_encoding r], rq_content_length r).

(** The parsed request denotes the specified one ([if_modified_since] apart). *)
Definition req_rel (m : list Z) (lo b : Z) (r : request) (sr : nxweb_http_request bytes) : Prop :=
  Forall2 (str_rel m lo b) (req_strings r) (req_strings sr) /\ req_scalars r = req_scalars sr.
Definition map_rel (m : list Z) (lo b : Z) (mp : str_map cptr) (smp : str_map bytes) : Prop :=
  Forall2 (fun e f => str_rel m lo b (Some (fst e)) (Some (fst f)) /\ str_rel m lo b (snd e) (snd f)) mp smp.

Lemma str_rel_frame m m' lo b b' a e s t :
  same_outside m m' a e -> str_rel m lo b s t -> b <= a -> b <= b' -> str_rel m' lo b' s t.
Proof.
  intros Hs Hr Ha Hb. destruct s as [[p|l]|], t as [t|]; cbn in *; try done. destruct Hr as (Hp & Ht & Hl).
  split; [done|]. split; [|lia]. eapply same_outside_cstr; [exact Hs|done|lia].
Qed.
Lemma req_rel_frame m m' lo b b' a e r sr :
  same_outside m m' a e -> req_rel m lo b r sr -> b <= a -> b <= b' -> req_rel m' lo b' r sr.
Proof.
  intros Hs [Hr Hsc] Ha Hb. split; [|done]. eapply Forall2_impl; [exact Hr|]. intros s t Hst.
  eapply str_rel_frame; [exact Hs|exact Hst|lia|lia].
Qed.
Lemma map_rel_frame m m' lo b b' a e r sr :
  same_outside m m' a e -> map_rel m lo b r sr -> b <= a -> b <= b' -> map_rel m' lo b' r sr.
Proof.
  intros Hs Hr Ha Hb. eapply Forall2_impl; [exact Hr|]. intros s t [H1 H2].
  split; (eapply str_rel_frame; [exact Hs|done|lia|lia]).
Qed.

Definition hs_rel (m : list Z) (lo b : Z) (st : header_state) (sst : spec_state) : Prop :=
  req_rel m lo b (hs_req st) (ss_req sst) /\ map_rel m lo b (hs_map st) (ss_map sst) /\
  str_rel m lo b (At <$> hs_expect st) (ss_expect sst).

Lemma hs_rel_frame m m' lo b b' a e st sst :
  same_outside m m' a e -> hs_rel m lo b st sst -> b <= a -> b <= b' -> hs_rel m' lo b' st sst.
Proof.
  intros Hs (Hr & Hm & He) Ha Hb. split_and!.
  - by eapply req_rel_frame. - by eapply map_rel_frame. - by eapply str_rel_frame.
Qed.

(** Setting the same field on both sides. *)
Ltac rel_cases r sr :=
  unfold req_rel, req_strings, req_scalars in *; destruct r, sr; cbn in *; unfold constant in *; cbn in *; rewrite ?Forall2_cons in *;
  match goal with H : _ /\ _ = _ |- _ => destruct H as [? [= ]] end; subst; split; [first [tauto|repeat (split; [first [tauto|assumption|done]|]); tauto]|done].

Lemma wp_request_field_text m st sst lo name n v sv b z (Q : option header_state -> list Z -> Prop) :
  hs_rel m lo name st sst -> 0 <= lo <= name -> cstr m name n -> cstr m v sv -> name + zlen n < v ->
  v + zlen sv < b -> v + 3 <= z -> peek m z = Some 0 -> all_bytes sv ->
  (forall r m', same_outside m m' v (v + zlen sv) ->
     match r, spec_field sst n sv with
     | Some st', Some sst' => hs_rel m' lo b st' sst' /\ exists sv', cstr m' v sv' /\ zlen sv' <= zlen sv
     | None, None => True
     | _, _ => False
     end -> Q r m') ->
  wp (request_field st name (zlen n) v) Q m.
Proof.
  intros Hrel Hlo Hn Hv Hnv Hvb Hz Hz0 Hby HQ. pose proof (zlen_nonneg sv). pose proof (zlen_nonneg n).
  unfold request_field. apply wp_bind. eapply wp_read_str; [exact Hn|].
  assert (Hrel' : hs_rel m lo b st sst) by (eapply hs_rel_frame; [apply (same_outside_refl m name name)|exact Hrel|lia|lia]).
  assert (Hvs : str_rel m lo b (Some (At v)) (Some sv)) by (cbn; split_and!; [lia|done|done]).
  assert (Hex : exists sv', cstr m v sv' /\ zlen sv' <= zlen sv) by (exists sv; split; [done|lia]).
  destruct st as [r ex mp], sst as [sr sex smp]. destruct Hrel' as (Hr & Hm & He).
  cbn [hs_req hs_expect hs_map ss_req ss_expect ss_map] in *.
  assert (Hset : forall r' sr', req_rel m lo b r' sr' ->
      hs_rel m lo b (mk_hs r' ex mp) (mk_ss sr' sex smp) /\ exists sv', cstr m v sv' /\ zlen sv' <= zlen sv) by done.
  assert (Hadd : hs_rel m lo b (mk_hs r ex ((At name, Some (At v)) :: mp)) (mk_ss sr sex ((n, Some sv) :: smp))).
  { split_and!; [done| |done]. constructor; [|done]. split; [cbn; split_and!; [lia|done|lia]|done]. }
  assert (Hsame := same_outside_refl m v (v + zlen sv)). unfold spec_field in HQ. cbn [ss_req ss_expect ss_map] in HQ.
  destruct (identify_http_header n (zlen n)); try (by apply wp_ret, HQ);
    try (apply wp_ret, HQ; [done|]; apply Hset; clear -Hr Hvs; rel_cases r sr);
    try (apply wp_bind; eapply wp_read_str; [exact Hv|]; apply wp_ret, HQ; [done|]; apply Hset; clear -Hr; rel_cases r sr).
  - apply wp_bind. eapply wp_strtolower_inplace; [exact Hv|]. intros m' Hs' Hl. specialize (Hl Hby). apply wp_ret, HQ; [done|].
    assert (Hll : zlen (nx_strtolower sv) = zlen sv) by (unfold zlen, nx_strtolower; by rewrite length_map).
    split; [|exists (nx_strtolower sv); split; [done|lia]].
    destruct Hrel as (Hr0 & Hm0 & He0). split_and!.
    + apply (req_rel_frame _ _ _ _ b _ _ _ _ Hs') in Hr0; [|lia..]. cbn [hs_req ss_req] in *.
      assert (Hvl : str_rel m' lo b (Some (At v)) (Some (nx_strtolower sv))) by (cbn; split_and!; [lia|done|lia]).
      clear -Hr0 Hvl. revert Hvl. generalize (nx_strtolower sv) as w. intros w Hvl. rel_cases r sr.
    + eapply map_rel_frame; [exact Hs'|exact Hm0|lia|lia].
    + eapply str_rel_frame; [exact Hs'|exact He0|lia|lia].
  - apply wp_bind. eapply wp_parse_http_time_any; [|exact Hz|exact Hz0|]; [lia|]. intros t. apply wp_ret, HQ; [done|].
    apply Hset. clear -Hr. rel_cases r sr.
Qed.

Lemma lines_nl ln s2 : ~ In 10 ln -> lines (ln ++ 10 :: s2) = ln :: lines s2.
Proof.
  induction ln as [|c ln IH]; intros Hn; [done|]. cbn [app lines]. cbn in Hn.
  destruct (Z.eqb_spec c 10); [naive_solver|]. by rewrite IH by naive_solver.
Qed.
Lemma lines_last ln : ~ In 10 ln -> ln <> [] -> lines ln = [ln].
Proof.
  induction ln as [|c ln IH]; intros Hn Hne; [done|]. cbn [lines]. cbn in Hn.
  destruct (Z.eqb_spec c 10); [naive_solver|]. destruct ln as [|d ln]; [done|]. rewrite IH by naive_solver. done.
Qed.

Lemma all_bytes_trim s : all_bytes s -> all_bytes (trim s).
Proof. destruct (trim_split s) as (a & b & E & _). rewrite E at 1. rewrite !Forall_app. tauto. Qed.

Definition no_continuation (t : bytes) : Prop := Forall (fun ln => is_continuation ln = false) (lines t).

Section header_text.
Context (lo wl eoh z : Z) (m0 : list Z) (t0 : bytes) (sst0 : spec_state).
Hypotheses (Hlo : 0 <= lo <= wl) (Heoh : peek m0 eoh = Some 0) (Hz : eoh + 3 <= z) (Hz0 : peek m0 z = Some 0).

Definition text_inv (x : Z * option Z * header_state) (m : list Z) : Prop :=
  let '(pl, value, st) := x in
  stable wl eoh m0 m /\ wl <= pl /\ (pl < eoh -> value_ok m wl pl value) /\
  exists t sst b, cstr m pl t /\ pl + zlen t = eoh /\ all_bytes t /\ no_continuation t /\
    spec_headers (lines t) sst = spec_headers (lines t0) sst0 /\
    hs_rel m lo b st sst /\ b <= eoh + 1 /\ (pl < eoh -> b <= pl).

(** One line of either side. *)
Lemma line_end_lines m eoh' name s ln pl' :
  line_end m eoh' name s ln pl' -> ~ In 10 ln -> s <> [] -> name + zlen s = eoh' -> peek m eoh' = Some 0 -> 0 <= eoh' ->
  all_bytes s -> no_continuation s ->
  all_bytes ln /\ is_continuation ln = false /\ exists t, lines s = ln :: lines t /\ cstr m pl' t /\ pl' + zlen t = eoh' /\
    all_bytes t /\ no_continuation t /\ (pl' < eoh' -> pl' = name + zlen ln + 1) /\ name + zlen ln + 1 <= eoh' + 1.
Proof.
  intros [(s2 & -> & -> & Hs2)|[-> ->]] Hn Hne Hl H0 Hp Hb Hc; unfold no_continuation in Hc.
  - rewrite lines_nl in * by done. apply Forall_cons in Hc as [Hc Hc2]. rewrite Forall_app, Forall_cons in Hb.
    destruct Hb as (Hb1 & _ & Hb2). rewrite zlen_app, zlen_cons in Hl. pose proof (zlen_nonneg s2).
    split_and!; [done|done|]. exists s2. split_and!; try done; lia.
  - rewrite lines_last in * by done. apply Forall_cons in Hc as [Hc _]. split_and!; [done|done|].
    exists []. rewrite zlen_nil, Z.add_0_r. split_and!; [done|by apply cstr_nil|done|constructor|constructor|lia|lia].
Qed.

Lemma wp_request_headers_text m pl req (Q : header_state * bool -> list Z -> Prop) b :
  stable wl eoh m0 m -> wl <= pl -> cstr m pl t0 -> pl + zlen t0 = eoh -> all_bytes t0 -> no_continuation t0 ->
  hs_rel m lo b (mk_hs req None []) sst0 -> b <= pl -> b <= eoh + 1 ->
  (forall st c m', stable wl eoh m0 m' -> (exists sst, spec_headers (lines t0) sst0 = (sst, c) /\ (c = true -> hs_rel m' lo (eoh + 1) st sst)) ->
     Q (st, c) m') ->
  wp (request_headers eoh pl req) Q m.
Proof.
  intros Hs Hpl Ht Hl Hby Hnc Hrel Hb1 Hb2 HQ. unfold request_headers, header_loop. pose proof (peek_Some _ _ _ Heoh).
  eapply (wp_mem_loop text_inv (fun x => Z.to_nat (eoh - x.1.1))).
  - split_and!; [done|done|done|]. exists t0, sst0, b. split_and!; done.
  - cbn. pose proof (same_outside_zlen _ _ _ _ Hs). unfold zlen in *. lia.
  - clear dependent m. clear dependent pl. clear dependent b. clear Hby Hnc.
    intros [[pl value] st] m (Hs & Hpl & Hval & t & sst & b & Ht & Hl & Hby & Hnc & Hsp & Hrel & Hb & Hbp). cbn [fst].
    pose proof (zlen_nonneg t). destruct (Z.leb_spec eoh pl) as [Hle|Hlt].
    { apply wp_ret, HQ; [done|]. assert (zlen t = 0) as ->%zlen_0_inv by lia. cbn in Hsp. exists sst. split; [done|]. intros _.
      eapply hs_rel_frame; [apply (same_outside_refl m b b)|exact Hrel|lia|lia]. }
    specialize (Hval Hlt). specialize (Hbp Hlt). apply wp_bind.
    apply (wp_header_line m wl eoh pl t value); [done|lia|lia|done|].
    intros ln pl2 value2 field m2 Hn Hle Hpl2 Hlnb Hs2 Hpost. assert (Hs02 : stable wl eoh m0 m2) by (unfold stable in *; so_trans Hs Hs2).
    assert (He2 : peek m2 eoh = Some 0) by (destruct Hs02 as [_ H2]; rewrite H2; [done|lia]).
    assert (Hz2 : peek m2 z = Some 0) by (destruct Hs02 as [_ H2]; rewrite H2; [done|lia]).
    destruct (line_end_lines _ _ _ _ _ _ Hle Hn) as (Hbl & Hcl & t2 & Hlines & Ht2 & Hl2 & Hby2 & Hnc2 & Hpe & Hpe2); try done.
    { intros ->. rewrite zlen_nil in Hl. lia. } { lia. }
    rewrite Hlines in Hsp. cbn [spec_headers] in Hsp. unfold line_post in Hpost. rewrite Hcl in Hpost. destruct Hpost as [Hs2' Hpost].
    apply (hs_rel_frame _ _ _ _ pl _ _ _ _ Hs2') in Hrel; [|lia..]. pose proof (zlen_nonneg ln).
    destruct (index_of 58 ln) as [i|] eqn:Ei.
    2: { destruct Hpost as [-> ->]. apply wp_ret. split; [|cbn; lia]. split_and!; [done|lia|done|].
         exists t2, sst, pl. split_and!; try done; lia. }
    destruct Hpost as (v & -> & -> & Hname & Hv & Hvl & Hvh). pose proof (zlen_nonneg (trim (drop (S i) ln))).
    assert (Hti : Z.of_nat i = zlen (take i ln)).
    { apply index_of_Some in Ei as (s1 & s2 & -> & <- & _). by rewrite take_app_length. }
    rewrite Hti. apply wp_bind.
    eapply (wp_request_field_text m2 st sst lo pl _ v _ (pl + zlen ln + 1) z); [done|lia|done|exact Hv|lia|lia|lia|done|by apply all_bytes_trim, Forall_drop|].
    intros r m3 Hs3 Hr. assert (Hs03 : stable wl eoh m0 m3) by (unfold stable in *; so_trans Hs02 Hs3).
    destruct r as [st'|], (spec_field sst _ _) as [sst'|]; try done; apply wp_ret.
    2: { apply HQ; [done|]. exists sst. by split. }
    destruct Hr as [Hr (sv' & Hsv' & Hl')]. split; [|cbn; lia].
    assert (Ht3 : cstr m3 pl2 t2).
    { destruct Hle as [(s2 & -> & -> & _)|[-> ->]]; [eapply same_outside_cstr; [exact Hs3|done|lia]|].
      eapply same_outside_cstr; [exact Hs3|done|lia]. }
    split_and!; [done|lia| |].
    { intros Hlt2. split; [lia|]. exists sv'. split; [done|lia]. }
    exists t2, sst', (pl + zlen ln + 1). split_and!; try done; lia.
Qed.
End header_text.

(** ** The search for gzip *)

Lemma cstr_drop m p s i : cstr m p s -> (i <= length s)%nat -> cstr m (p + Z.of_nat i) (drop i s).
Proof.
  intros Hs Hi. rewrite <- (take_drop i s) in Hs. apply cstr_app in Hs. revert Hs. unfold zlen. rewrite length_take, Nat.min_l by lia. done.
Qed.
Lemma byte_at_lookup s i c : s !! i = Some c -> byte_at s i = c.
Proof. intros Hi. unfold byte_at. rewrite (drop_S s c i Hi). done. Qed.
Lemma gzip_here_g s j : gzip_here s j = true -> s !! j = Some (ch "g").
Proof.
  unfold gzip_here. intros [[Hp _]%andb_true_iff _]%andb_true_iff.
  rewrite <- (Nat.add_0_r j). rewrite <- lookup_drop. destruct (drop j s) as [|c r]; [done|].
  cbn [is_prefix] in Hp. apply andb_true_iff in Hp as [Hp%Z.eqb_eq _]. by subst c.
Qed.

Lemma In_take {A} (x : A) n l : In x (take n l) -> In x l.
Proof. intros H. rewrite <- (take_drop n l). apply in_or_app. by left. Qed.

Lemma wp_gzip_at m g s i (Q : bool -> list Z -> Prop) :
  cstr m g s -> (i < length s)%nat -> Q (gzip_here s i) m -> wp (gzip_at g (g + Z.of_nat i)) Q m.
Proof.
  intros Hs Hi HQ. unfold gzip_at. apply wp_bind. eapply wp_read_str; [apply cstr_drop; [exact Hs|lia]|].
  unfold gzip_here in HQ. destruct (is_prefix (bs "gzip") (drop i s)); cbn [negb andb] in *; [|by apply wp_ret].
  assert (Hnext : byte_at (drop i s) 4 = byte_at s (i + 4)) by (unfold byte_at; by rewrite drop_drop).
  apply wp_bind. destruct (Z.eqb_spec (g + Z.of_nat i) g) as [He|Hne].
  - assert (i = 0%nat) as -> by lia. do 2 apply wp_ret. rewrite Hnext. exact HQ.
  - destruct (lookup_lt_is_Some_2 s (i - 1)) as [c Hc]; [lia|]. destruct Hs as (_ & Hs & _). destruct (Hs _ _ Hc) as [Hr _].
    apply wp_bind. eapply wp_rd'.
    { rewrite <- Hr. f_equal. lia. }
    do 2 apply wp_ret. rewrite Hnext. rewrite (byte_at_lookup _ _ _ Hc) in HQ.
    rewrite (proj2 (Nat.eqb_neq i 0)) in HQ by lia. exact HQ.
Qed.

Lemma gzip_accepted_none s : (forall j, (j < length s)%nat -> gzip_here s j = false) -> gzip_accepted s = false.
Proof.
  intros H. unfold gzip_accepted. apply not_true_is_false. intros (j & Hj & Hg)%existsb_exists.
  apply in_seq in Hj. rewrite H in Hg by lia. done.
Qed.

Lemma wp_accepts_gzip_text m g s (Q : bool -> list Z -> Prop) :
  cstr m g s -> s <> [] -> Q (gzip_accepted s) m -> wp (accepts_gzip g) Q m.
Proof.
  intros Hs Hne HQ. unfold accepts_gzip. pose proof (cstr_bounds _ _ _ Hs) as [Hg0 Hgb].
  assert (Hno : forall j i t1, drop i s = t1 -> (i <= j)%nat -> (j < length s)%nat -> ~ In (ch "g") (take (j - i + 1) t1) -> gzip_here s j = false).
  { intros j i t1 <- Hij Hj Hn. apply not_true_is_false. intros Hg%gzip_here_g. apply Hn.
    apply list_elem_of_In. apply list_elem_of_lookup_2 with (j - i)%nat. rewrite lookup_take_lt by lia. rewrite lookup_drop, <- Hg. f_equal. lia. }
  eapply (wp_mem_loop (fun x m' => m' = m /\ match x with
              | Some q => exists i, q = g + Z.of_nat i /\ (i < length s)%nat /\ forall j, (j < i)%nat -> gzip_here s j = false
              | None => gzip_accepted s = false end)
            (fun x => match x with Some q => S (Z.to_nat (g + zlen s - q)) | None => O end)).
  - split; [done|]. exists 0%nat. rewrite Z.add_0_r. split_and!; [done| |lia]. destruct s; [done|cbn; lia].
  - unfold zlen in *. lia.
  - intros [q|] m' [-> Hq]; [|apply wp_ret; by rewrite <- Hq]. destruct Hq as (i & -> & Hi & Hj).
    apply wp_bind. apply (wp_gzip_at m g s i); [done|done|]. destruct (gzip_here s i) eqn:Eg.
    { apply wp_ret. replace true with (gzip_accepted s); [done|]. apply existsb_exists. exists i. split; [apply in_seq; lia|done]. }
    assert (Hd : cstr m (g + Z.of_nat i + 1) (drop (S i) s)).
    { replace (g + Z.of_nat i + 1) with (g + Z.of_nat (S i)) by lia. apply cstr_drop; [done|lia]. }
    eapply wp_strchr_bind; [exact Hd|done|..].
    + intros s1 s2 E Hn. apply wp_ret. assert (Hl := f_equal length E). rewrite length_drop, length_app in Hl. cbn [length] in Hl.
      split; [|unfold zlen in *; lia]. split; [done|]. exists (S i + length s1)%nat. split_and!; [unfold zlen; lia|lia|].
      intros j Hlt. destruct (decide (j < i)%nat); [by apply Hj|]. destruct (decide (j = i)) as [->|]; [done|].
      apply (Hno j (S i) _ E); [lia|lia|]. rewrite take_app_le by lia. intros Hin. apply Hn. eapply In_take; exact Hin.
    + intros Hn. apply wp_ret. split; [split; [done|]|lia]. apply gzip_accepted_none. intros j Hlt.
      destruct (decide (j < i)%nat); [by apply Hj|]. destruct (decide (j = i)) as [->|]; [done|].
      apply (Hno j (S i) _ eq_refl); [lia|lia|]. intros Hin. apply Hn. eapply In_take; exact Hin.
Qed.

Lemma wp_deref_text m lo b s t (Q : bytes -> list Z -> Prop) :
  str_rel m lo b s (Some t) -> Q t m -> wp (deref s) Q m.
Proof.
  destruct s as [[p|t']|]; cbn; [|by intros [-> ->]; intros; apply wp_ret|done].
  intros (_ & Ht & _) HQ. by eapply wp_read_str.
Qed.

Lemma req_rel_strings m lo b r sr : req_rel m lo b r sr ->
  str_rel m lo b (rq_method r) (rq_method sr) /\ str_rel m lo b (rq_accept_encoding r) (rq_accept_encoding sr) /\
  str_rel m lo b (rq_transfer_encoding r) (rq_transfer_encoding sr) /\ str_rel m lo b (rq_host r) (rq_host sr) /\
  rq_content_length r = rq_content_length sr.
Proof. intros [Hr [= ]]. unfold req_strings in Hr. rewrite ?Forall2_cons in Hr. tauto. Qed.

Lemma wp_nocase m lo b s t lit (Q : bool -> list Z -> Prop) :
  str_rel m lo b s t -> Q (nocase_is t lit) m ->
  wp (match s with Some _ => let! te := deref s in ret (nx_strcasecmp te lit =? 0) | None => ret false end) Q m.
Proof.
  intros Hr HQ. destruct s as [s|], t as [t|]; try done; [|by destruct s].
  apply wp_bind. eapply wp_deref_text; [exact Hr|]. by apply wp_ret.
Qed.

Definition req_finish (gzip chunked e100 : bool) (t t' : bytes) (req : request) : request :=
  let req := req{{rq_path_info := None}} in
  let req := if gzip then req{{rq_accept_gzip_encoding := true}} else req in
  let req := req{{rq_chunked_encoding := chunked}} in
  let req := if chunked then req{{rq_content_length := -1}} else req in
  let req := req{{rq_expect_100_continue := negb (rq_content_length req =? 0) && e100}} in
  method_flags t t' req.

Lemma req_finish_fields (gzip chunked e100 : bool) t t' (r : request) :
  let head := nx_strcasecmp t (bs "HEAD") =? 0 in
  let get_m := head || (nx_strcasecmp t' (bs "GET") =? 0) in
  let post_m := negb head && (nx_strcasecmp t' (bs "POST") =? 0) in
  let len := if chunked then -1 else rq_content_length r in
  req_strings (req_finish gzip chunked e100 t t' r) =
    (if head then Some (Lit (bs "GET")) else rq_method r) :: tail (req_strings r) /\
  req_scalars (req_finish gzip chunked e100 t t' r) =
    ([rq_http11 r; rq_keep_alive r; head; get_m; post_m; negb get_m && negb post_m;
      gzip || rq_accept_gzip_encoding r; negb (len =? 0) && e100; chunked], len) /\
  rq_headers (req_finish gzip chunked e100 t t' r) = rq_headers r.
Proof.
  unfold req_finish, method_flags. destruct r, gzip, chunked, (nx_strcasecmp t (bs "HEAD") =? 0); split_and!; reflexivity.
Qed.

Lemma spec_finish_fields st :
  let r := ss_req st in
  let chunked := nocase_is (rq_transfer_encoding r) (bs "chunked") in
  let len := if chunked then -1 else rq_content_length r in
  let head := nocase_is (rq_method r) (bs "HEAD") in
  let meth := if head then Some (bs "GET") else rq_method r in
  let get_m := nocase_is meth (bs "GET") in
  let post_m := negb head && nocase_is meth (bs "POST") in
  req_strings (spec_finish st) = meth :: tail (req_strings r) /\
  req_scalars (spec_finish st) =
    ([rq_http11 r; rq_keep_alive r; head; get_m; post_m; negb get_m && negb post_m;
      match rq_accept_encoding r with Some s => gzip_accepted s | None => false end;
      negb (len =? 0) && nocase_is (ss_expect st) (bs "100-continue"); chunked], len) /\
  rq_headers (spec_finish st) = ss_map st.
Proof. unfold spec_finish. destruct st as [r ex mp]. destruct r; split_and!; reflexivity. Qed.

Lemma req_finish_rel m lo b st sst (gzip chunked : bool) e100 t t' :
  hs_rel m lo b st sst ->
  gzip = match rq_accept_encoding (ss_req sst) with Some s => gzip_accepted s | None => false end ->
  chunked = nocase_is (rq_transfer_encoding (ss_req sst)) (bs "chunked") ->
  e100 = nocase_is (ss_expect sst) (bs "100-continue") ->
  rq_method (ss_req sst) = Some t -> t' = (if nx_strcasecmp t (bs "HEAD") =? 0 then bs "GET" else t) ->
  rq_accept_gzip_encoding (ss_req sst) = false ->
  req_rel m lo b (req_finish gzip chunked e100 t t' ((hs_req st){{rq_headers := hs_map st}})) (spec_finish sst) /\
  map_rel m lo b (rq_headers (req_finish gzip chunked e100 t t' ((hs_req st){{rq_headers := hs_map st}}))) (rq_headers (spec_finish sst)).
Proof.
  intros ([Hr Hsc] & Hm & _) -> -> -> Hme -> Hg0.
  set (gz := match rq_accept_encoding _ with Some _ => _ | None => _ end). set (c := nocase_is _ (bs "chunked")). set (e := nocase_is _ (bs "100-continue")).
  assert (Hset : forall r : request, req_strings (r{{rq_headers := hs_map st}}) = req_strings r /\ req_scalars (r{{rq_headers := hs_map st}}) = req_scalars r /\
    rq_headers (r{{rq_headers := hs_map st}}) = hs_map st) by (by intros []).
  destruct (Hset (hs_req st)) as (E1 & E2 & E3). revert E1 E2 E3. generalize ((hs_req st){{rq_headers := hs_map st}}). intros r E1 E2 E3.
  rewrite <- E1 in Hr. rewrite <- E2 in Hsc.
  destruct (req_finish_fields gz c e t (if nx_strcasecmp t (bs "HEAD") =? 0 then bs "GET" else t) r) as (F1 & F2 & F3).
  destruct (spec_finish_fields sst) as (G1 & G2 & G3). rewrite F3, G3, E3. split; [|done]. unfold req_rel.
  rewrite F1, F2, G1, G2. rewrite Hme. cbn [nocase_is]. injection Hsc as Hs1 Hs2 Hs3 Hs4 Hs5 Hs6 Hs7 Hs8 Hs9 Hs10.
  rewrite Hs1, Hs2, Hs7, Hs10, Hg0, orb_false_r. fold gz c e. unfold req_strings in *. apply Forall2_cons in Hr as [Hr1 Hr]. rewrite Hme in Hr1. cbn [tail].
  destruct (nx_strcasecmp t (bs "HEAD") =? 0); (split; [apply Forall2_cons; split; [done|exact Hr]|done]).
Qed.

Lemma wp_finish_request_text m lo b st sst t (Q : request -> list Z -> Prop) :
  hs_rel m lo b st sst -> rq_method (ss_req sst) = Some t -> rq_accept_encoding (ss_req sst) <> Some [] ->
  rq_accept_gzip_encoding (ss_req sst) = false ->
  (forall r, req_rel m lo b r (spec_finish sst) -> map_rel m lo b (rq_headers r) (rq_headers (spec_finish sst)) -> Q r m) ->
  wp (finish_request ((hs_req st){{rq_headers := hs_map st}}) (hs_expect st)) Q m.
Proof.
  intros Hrel Hme Hae Hg0 HQ. pose proof Hrel as (Hr & _ & He). destruct (req_rel_strings _ _ _ _ _ Hr) as (Hm & Ha & Ht & _).
  set (g := match rq_accept_encoding (ss_req sst) with Some s => gzip_accepted s | None => false end).
  set (c := nocase_is (rq_transfer_encoding (ss_req sst)) (bs "chunked")).
  set (e := nocase_is (ss_expect sst) (bs "100-continue")).
  set (t' := if nx_strcasecmp t (bs "HEAD") =? 0 then bs "GET" else t).
  assert (HQ' : Q (req_finish g c e t t' ((hs_req st){{rq_headers := hs_map st}})) m).
  { destruct (req_finish_rel m lo b st sst g c e t t') as [H1 H2]; try done. by apply HQ. }
  clear HQ. revert HQ'. unfold finish_request, req_finish, method_flags. cbv zeta.
  assert (Hf : rq_accept_encoding ((hs_req st){{rq_headers := hs_map st; rq_path_info := None}}) = rq_accept_encoding (hs_req st) /\
    rq_transfer_encoding ((hs_req st){{rq_headers := hs_map st}}) = rq_transfer_encoding (hs_req st) /\
    rq_method ((hs_req st){{rq_headers := hs_map st}}) = rq_method (hs_req st)) by (by destruct (hs_req st)).
  destruct Hf as (-> & Hft & Hfm). revert Hft Hfm. generalize ((hs_req st){{rq_headers := hs_map st}}). intros r Hft Hfm HQ'.
  apply wp_bind. apply wp_mono with (fun b' m' => b' = g /\ m' = m).
  { unfold g. destruct (rq_accept_encoding (hs_req st)) as [[p|l]|], (rq_accept_encoding (ss_req sst)) as [s|]; try done.
    - destruct Ha as (_ & Ha & _). eapply wp_accepts_gzip_text; [exact Ha|congruence|done].
    - destruct Ha as [_ ->]. apply wp_ret. by split. }
  intros b' m' [-> ->]. apply wp_bind. apply wp_mono with (fun b' m' => b' = c /\ m' = m).
  { match goal with |- wp (match rq_transfer_encoding ?r' with _ => _ end) _ _ => assert (Hrt : rq_transfer_encoding r' = rq_transfer_encoding (hs_req st)) by (rewrite <- Hft; by destruct g, r) end.
    rewrite Hrt. eapply wp_nocase; [exact Ht|done]. }
  intros b' m' [-> ->]. apply wp_bind. apply wp_mono with (fun b' m' => b' = e /\ m' = m).
  { unfold e. destruct (hs_expect st) as [p|], (ss_expect sst) as [s|]; try done.
    destruct He as (_ & He & _). apply wp_bind. eapply wp_read_str; [exact He|]. by apply wp_ret. }
  intros b' m' [-> ->]. rewrite Hme in Hm.
  match goal with |- wp (bind (deref (rq_method ?r')) _) _ _ => assert (Hrm : rq_method r' = rq_method (hs_req st)) by (rewrite <- Hfm; by destruct g, c, r) end.
  rewrite Hrm. apply wp_bind. eapply wp_deref_text; [exact Hm|]. unfold t' in *. destruct (nx_strcasecmp t (bs "HEAD") =? 0).
  - apply wp_bind. match goal with |- wp (deref (rq_method ?r')) _ _ => assert (Hrl : rq_method r' = Some (Lit (bs "GET"))) by (by destruct g, c, r) end.
    rewrite Hrl. cbn [deref]. apply wp_ret, wp_ret. exact HQ'.
  - apply wp_bind. match goal with |- wp (deref (rq_method ?r')) _ _ => assert (Hrl : rq_method r' = rq_method (hs_req st)) by (rewrite <- Hfm; by destruct g, c, r) end.
    rewrite Hrl. eapply wp_deref_text; [exact Hm|]. apply wp_ret. exact HQ'.
Qed.

Lemma first_line_split T : let '(L, rest) := first_line T in
  (T = L ++ 10 :: rest \/ T = L /\ rest = []) /\ ~ In 10 L.
Proof.
  unfold first_line. destruct (index_of 10 T) as [i|] eqn:E.
  - apply index_of_Some in E as (s1 & s2 & -> & <- & Hn). rewrite take_app_length.
    replace (drop (S (length s1)) (s1 ++ 10 :: s2)) with s2; [by split; [left|]|].
    change (S (length s1)) with (1 + length s1)%nat. by rewrite Nat.add_comm, <- drop_drop, drop_app_length.
  - apply index_of_None in E. by split; [right|].
Qed.

Lemma wp_cut_first_line_text m headers T (Q : Z -> list Z -> Prop) :
  cstr m headers T -> let '(L, rest) := first_line T in
  (forall pl m', pl = headers + zlen L -> cstr m' headers L -> same_outside m m' headers (headers + zlen T) ->
     (rest <> [] -> cstr m' (pl + 1) rest /\ pl + 1 + zlen rest = headers + zlen T) ->
     (rest = [] -> headers + zlen T <= pl + 1) -> pl <= headers + zlen T -> Q pl m') ->
  wp (cut_first_line headers (headers + zlen T)) Q m.
Proof.
  intros HT. pose proof (first_line_split T) as Hf. destruct (first_line T) as [L rest]. destruct Hf as [Hf Hn]. intros HQ.
  unfold cut_first_line. pose proof (zlen_nonneg L). pose proof (zlen_nonneg rest). pose proof (cstr_bounds _ _ _ HT) as [Hh0 _].
  destruct Hf as [->|[-> ->]].
  - apply wp_bind. eapply wp_strchr; [exact HT|done|]. rewrite index_of_app by done. cbn [fmap option_fmap option_map].
    apply cstr_split_poke in HT as (H1 & H2 & Hb). fold (zlen L). apply wp_bind, wp_wr; [done|]. apply wp_ret.
    rewrite zlen_app, zlen_cons in *. apply HQ; [done|done| | | |lia].
    + apply same_outside_poke; lia. + intros _. split; [done|lia].
    + intros ->. rewrite zlen_nil. lia.
  - apply wp_bind. eapply wp_strchr; [exact HT|done|]. destruct (index_of 10 L) as [i|] eqn:E.
    { apply index_of_Some in E as (? & ? & -> & _). exfalso. apply Hn, in_or_app. right. by left. }
    apply wp_ret, HQ; [done|done|apply same_outside_refl|done|lia|lia].
Qed.

Lemma spec_headers_frame ls st st' c : spec_headers ls st = (st', c) ->
  rq_method (ss_req st') = rq_method (ss_req st) /\ rq_accept_gzip_encoding (ss_req st') = rq_accept_gzip_encoding (ss_req st).
Proof.
  revert st. induction ls as [|ln ls IH]; intros st; cbn [spec_headers]; [by intros [= <- _]|].
  destruct (index_of _ ln) as [i|]; [|apply IH].
  destruct (spec_field st _ _) as [st1|] eqn:E; [|by intros [= <- _]]. intros H. apply IH in H as [-> ->].
  unfold spec_field in E. destruct st as [r ex mp]; cbn [ss_req ss_expect ss_map] in *.
  destruct (identify_http_header _ _); try injection E as <-; try done; by destruct r.
Qed.

Lemma wp_request_headers_none m eoh pl req (Q : header_state * bool -> list Z -> Prop) :
  eoh <= pl -> Q (mk_hs req None [], true) m -> wp (request_headers eoh pl req) Q m.
Proof.
  intros Hle HQ. unfold request_headers, header_loop, mem_loop. unfold wp at 1. rewrite loop_S. unfold bind at 1.
  rewrite (proj2 (Z.leb_le eoh pl)) by done. exact HQ.
Qed.

(** The record after the first line. *)
Definition line_request {str} (r : nxweb_http_request str) (me u v : str) (ver : bytes) (h : option str) : nxweb_http_request str :=
  r{{rq_method := Some me; rq_uri := Some u; rq_http_version := Some v; rq_http11 := http11_of ver;
     rq_keep_alive := http11_of ver; rq_host := h}}.

Lemma line_request_rel m lo b me pu pv ph sme su sv h sh :
  str_rel m lo b (Some me) (Some sme) -> str_rel m lo b (Some pu) (Some su) -> str_rel m lo b (Some pv) (Some sv) ->
  str_rel m lo b ph sh -> h = sv ->
  req_rel m lo b (line_request (request_zero{{rq_content_length := 0}}) me pu pv h ph) (line_request request_zero sme su sv sv sh).
Proof. intros H1 H2 H3 H4 ->. split; [|done]. by repeat constructor. Qed.

Lemma spec_request_unfold T L rest : first_line T = (L, rest) ->
  spec_request T = match spec_request_line L with
  | None => (-1, request_zero)
  | Some (me, host, path, ver) =>
      let '(st, complete) := spec_headers (lines rest) (mk_ss (line_request request_zero me path ver ver host) None []) in
      if negb complete then (-2, ss_req st) else
      match rq_host (ss_req st) with
      | None | Some [] => (-1, ss_req st)
      | Some _ => (0, spec_finish st)
      end
  end.
Proof. intros E. unfold spec_request. rewrite E. by destruct (spec_request_line L) as [[[[me host] path] ver]|]. Qed.

Lemma spec_finish_accept st : rq_accept_encoding (spec_finish st) = rq_accept_encoding (ss_req st).
Proof. unfold spec_finish. destruct st as [r ? ?]. by destruct r. Qed.

(** After the headers: the host check and the derived fields. *)
Definition after_headers (eoh : Z) (x : header_state * bool) : M mem (Z * request) :=
  let '(st, complete) := x in
  if negb complete then ret (-2, hs_req st) else
  let req := (hs_req st){{rq_headers := hs_map st}} in
  match rq_host req with
  | None => ret (-1, req)
  | Some h =>
      let! host := deref (Some h) in
      if hd0 host =? 0 then ret (-1, req) else
      let! req := finish_request req (hs_expect st) in ret (0, req)
  end.

Definition outcome_rel (m : list Z) (lo b : Z) (x : Z * request) (y : Z * nxweb_http_request bytes) : Prop :=
  fst x = fst y /\ (fst x = 0 -> req_rel m lo b (snd x) (snd y) /\ map_rel m lo b (rq_headers (snd x)) (rq_headers (snd y))).

Lemma wp_after_headers m lo b eoh st c sst t y :
  (c = true -> hs_rel m lo b st sst) -> rq_method (ss_req sst) = Some t -> rq_accept_gzip_encoding (ss_req sst) = false ->
  y = (if negb c then (-2, ss_req sst) else
      match rq_host (ss_req sst) with
      | None | Some [] => (-1, ss_req sst)
      | Some _ => (0, spec_finish sst)
      end) ->
  rq_accept_encoding (snd y) <> Some [] ->
  wp (after_headers eoh (st, c)) (fun x m' => m' = m /\ outcome_rel m lo b x y) m.
Proof.
  intros Hrel Hme Hg Hy Hae. unfold after_headers. destruct c; cbn [negb] in *; [|subst y; by apply wp_ret].
  specialize (Hrel eq_refl). pose proof Hrel as (Hr & _ & _). destruct (req_rel_strings _ _ _ _ _ Hr) as (_ & _ & _ & Hh & _). clear Hr.
  assert (Eh : rq_host ((hs_req st){{rq_headers := hs_map st}}) = rq_host (hs_req st)) by (by destruct (hs_req st)).
  rewrite Eh. destruct (rq_host (hs_req st)) as [h|], (rq_host (ss_req sst)) as [s|]; try (by destruct h); try done.
  2: { subst y. by apply wp_ret. }
  apply wp_bind. eapply wp_deref_text; [exact Hh|]. destruct s as [|ch0 s].
  { subst y. cbn. by apply wp_ret. }
  assert (hd0 (ch0 :: s) <> 0) as Hne.
  { destruct h as [p|l]; cbn in Hh |- *; [destruct Hh as (_ & (_ & ? & _)%cstr_cons & _); done|destruct Hh as [-> [= -> ?]]; done]. }
  rewrite (proj2 (Z.eqb_neq _ 0)) by done. subst y. cbn [snd] in Hae. rewrite spec_finish_accept in Hae. apply wp_bind.
  eapply wp_finish_request_text; [exact Hrel|exact Hme|exact Hae|exact Hg|]. intros r H1 H2. apply wp_ret. by split.
Qed.

(** * Properties *)


Definition sample_text : bytes := Eval vm_compute in bs "POST /a HTTP/1.1" ++ [10] ++ bs "Host: B".
Definition sample_block : bytes := Eval vm_compute in sample_text ++ [10; 10; 0; 0].

