(* ===== verification/HttpParams.v ===== *)
(** Query parameters, form content and cookies: lib/http_utils.c splits a
    string in place into names and values, which are then decoded in place. *)
From coqutil Require Import Datatypes.RecordSetters.
From S2P Require Import Prelude CString Uri HttpRequest RequestSpec.
Import DoubleBraceUpdate.
Open Scope Z_scope.

(** [nxb_copy_obj] of bytes of the block: fresh memory after it. *)
Definition copy_out (p n : Z) : M mem Z :=
  let! l := read_bytes p n in fun m => Ok (zlen m, m ++ l).

(** One [name=value] segment, cut off at [name].  A parameter without [=] has
    the empty string at the end of its name for a value, a cookie has none. *)
Definition store_pair (name : Z) (value : option Z) (map : str_map cptr) : M mem (str_map cptr) :=
  let! c := rd name in
  if c =? 0 then ret map else
  let! _d := nxweb_url_decode name None in
  let! name := nxweb_trunc_space name in
  let! _d := match value with Some v => nxweb_url_decode v None | None => ret None end in
  ret ((At name, At <$> value) :: map).
Definition parse_pair (empty_value : bool) (name : Z) (map : str_map cptr) : M mem (str_map cptr) :=
  let! value := strchr name (ch "=") in
  match value with
  | Some q => do! wr q 0 in store_pair name (Some (q + 1)) map
  | None => if empty_value then let! n := strlen name in store_pair name (Some (name + n)) map
            else store_pair name None map
  end.
(** The loops over the segments of a string. *)
Definition parse_pairs (sep : Z) (empty_value : bool) (start : Z) (map : str_map cptr) : M mem (str_map cptr) :=
  mem_loop (fun '(name, map) =>
    let! next := strchr name sep in
    match next with
    | Some q => do! wr q 0 in let! map := parse_pair empty_value name map in ret (inl (q + 1, map))
    | None => let! map := parse_pair empty_value name map in ret (inr map)
    end) (start, map).

Definition at_ptr (s : option cptr) : M mem Z := match s with Some (At p) => ret p | _ => fail BadPtr end.

Definition nxweb_parse_request_parameters (req : request) (preserve_uri : bool) : M mem request :=
  match rq_parameters req with
  | _ :: _ => ret req
  | [] =>
      let! uri := at_ptr (rq_uri req) in
      let! q := strchr uri (ch "?") in
      let! query_string := match q with
        | None => ret None
        | Some q =>
            if preserve_uri then
              let! n := strlen (q + 1) in let! c := copy_out (q + 1) (n + 1) in ret (Some c)
            else do! wr q 0 in ret (Some (q + 1))
        end in
      let! map := match query_string with Some s => parse_pairs (ch "&") true s [] | None => ret nil end in
      let! form := match rq_content req, rq_content_type req with
        | Some _, Some _ =>
            let! ct := deref (rq_content_type req) in
            ret (nx_strcasecmp ct (bs "application/x-www-form-urlencoded") =? 0)
        | _, _ => ret false
        end in
      if (form : bool) then
        let! content := at_ptr (rq_content req) in
        let! map := parse_pairs (ch "&") true content map in
        ret (req{{rq_content := None; rq_parameters := map}})
      else ret (req{{rq_parameters := map}})
  end.

Definition nxweb_parse_request_cookies (req : request) : M mem request :=
  match rq_cookies req with
  | _ :: _ => ret req
  | [] =>
      match rq_cookie req with
      | None => ret (req{{rq_cookies := [] }})
      | Some _ =>
          let! cookie := at_ptr (rq_cookie req) in
          let! map := parse_pairs (ch ";") false cookie [] in
          ret (req{{rq_cookie := None; rq_cookies := map}})
      end
  end.

(** * Lemmas *)

(** The string a C function sees in bytes that may hold a NUL. *)
Fixpoint cut0 (s : bytes) : bytes :=
  match s with c :: s' => if c =? 0 then [] else c :: cut0 s' | [] => [] end.

Lemma bytes_at_cut0 m p s : 0 <= p -> bytes_at m p (s ++ [0]) -> cstr m p (cut0 s).
Proof.
  revert p. induction s as [|c s IH]; intros p Hp Hb; cbn [app cut0] in *; apply bytes_at_cons in Hb as [Hc Hb].
  - by apply cstr_nil.
  - destruct (Z.eqb_spec c 0) as [->|Hn]; [by apply cstr_nil|]. apply cstr_cons. split_and!; [done|done|done|]. apply IH; [lia|done].
Qed.
Lemma cut0_length s : zlen (cut0 s) <= zlen s.
Proof. induction s as [|c s IH]; cbn [cut0]; [lia|]. rewrite zlen_cons. pose proof (zlen_nonneg s).
  destruct (c =? 0); [rewrite zlen_nil; lia|rewrite zlen_cons; lia]. Qed.
Lemma cut0_nonzero s : Forall (fun c => c <> 0) s -> cut0 s = s.
Proof. induction 1 as [|c s Hc Hs IH]; [done|]. cbn [cut0]. rewrite (proj2 (Z.eqb_neq c 0)) by done. by rewrite IH. Qed.

(** ** What the pairs of a string mean *)

Definition split_at (c : Z) (s : bytes) : bytes * option bytes :=
  match index_of c s with Some i => (take i s, Some (drop (S i) s)) | None => (s, None) end.

Definition spec_pair (empty_value : bool) (seg : bytes) (map : str_map bytes) : str_map bytes :=
  let '(n, v) := split_at (ch "=") seg in
  match n with
  | [] => map
  | _ =>
      let v := match v with Some v => Some v | None => if empty_value then Some [] else None end in
      (trim (cut0 (percent_decode n)), (fun v => cut0 (percent_decode v)) <$> v) :: map
  end.

(** The segments between separators. *)
Fixpoint segments (sep : Z) (s : bytes) : list bytes :=
  match s with
  | [] => [[]]
  | c :: s' => if c =? sep then [] :: segments sep s' else
      match segments sep s' with [] => [[c]] | seg :: r => (c :: seg) :: r end
  end.
Definition spec_pairs (sep : Z) (empty_value : bool) (s : bytes) (map : str_map bytes) : str_map bytes :=
  fold_left (fun map seg => spec_pair empty_value seg map) (segments sep s) map.

Lemma segments_ne sep s : segments sep s <> [].
Proof. destruct s as [|c s]; [done|]. cbn. destruct (c =? sep); [done|]. by destruct (segments sep s). Qed.
Lemma segments_none sep s : ~ In sep s -> segments sep s = [s].
Proof.
  induction s as [|c s IH]; intros Hn; [done|]. cbn [segments]. cbn in Hn. destruct (Z.eqb_spec c sep); [naive_solver|].
  by rewrite IH by naive_solver.
Qed.
Lemma segments_app sep s1 s2 : ~ In sep s1 -> segments sep (s1 ++ sep :: s2) = s1 :: segments sep s2.
Proof.
  induction s1 as [|c s IH]; intros Hn; cbn [app segments]; [by rewrite Z.eqb_refl|]. cbn in Hn.
  destruct (Z.eqb_spec c sep); [naive_solver|]. by rewrite IH by naive_solver.
Qed.


(** ** The loops *)

Definition value_at (m : list Z) (name : Z) (n : bytes) (value : option Z) (sv : option bytes) : Prop :=
  match value, sv with
  | Some vp, Some v => cstr m vp v /\ name + zlen n <= vp /\ all_bytes v
  | None, None => True
  | _, _ => False
  end.
Definition value_end (name : Z) (n : bytes) (value : option Z) (sv : option bytes) : Z :=
  match value, sv with Some vp, Some v => vp + zlen v | _, _ => name + zlen n end.

Lemma str_rel_at m lo b p t : lo <= p -> cstr m p t -> p + zlen t < b -> str_rel m lo b (Some (At p)) (Some t).
Proof. done. Qed.

(** Decoding the name leaves the value, even an empty one at its end. *)
Lemma wp_store_pair m lo b name n value sv map smap (Q : str_map cptr -> list Z -> Prop) :
  0 <= lo <= name -> cstr m name n -> all_bytes n -> value_at m name n value sv -> map_rel m lo b map smap -> b <= name ->
  (forall map' m', same_outside m m' name (value_end name n value sv + 1) ->
     map_rel m' lo (value_end name n value sv + 1) map'
       (match n with [] => smap | _ => (trim (cut0 (percent_decode n)), (fun v => cut0 (percent_decode v)) <$> sv) :: smap end) ->
     Q map' m') ->
  wp (store_pair name value map) Q m.
Proof.
  intros Hlo Hn Hbn Hv Hmap Hb HQ. unfold store_pair. pose proof (cstr_bounds _ _ _ Hn) as [Hn0 Hnb]. pose proof (zlen_nonneg n).
  assert (Hve : name + zlen n <= value_end name n value sv).
  { destruct value as [vp|], sv as [v|]; cbn in *; try done; [|lia..]. pose proof (zlen_nonneg v). lia. }
  apply wp_bind, wp_rd; [lia|]. intros c Hc. destruct n as [|c' n].
  { pose proof (cstr_nil_inv _ _ Hn) as [_ H0]. rewrite H0 in Hc. injection Hc as <-. apply wp_ret, HQ; [apply same_outside_refl|].
    eapply map_rel_frame; [apply (same_outside_refl m b b)|done|lia|lia]. }
  pose proof Hn as (_ & Hcn & Hc' & _)%cstr_cons. rewrite Hc in Hc'. injection Hc' as ->.
  rewrite (proj2 (Z.eqb_neq c' 0)) by done. set (s := c' :: n) in *.
  pose proof (cut0_length (percent_decode s)) as Hcl. pose proof (percent_decode_length s) as Hdl.
  apply wp_bind. eapply wp_url_decode_end; [exact Hn|done|]. intros m1 Hb1 Hs1 He1.
  apply bytes_at_cut0 in Hb1; [|done]. apply wp_bind. eapply wp_trunc_space; [exact Hb1|].
  intros name' m2 Hn2 Hp1 Hp2 Hs2. apply wp_bind. pose proof (zlen_nonneg (cut0 (percent_decode s))).
  pose proof (zlen_nonneg (trim (cut0 (percent_decode s)))).
  assert (Hso2 : same_outside m m2 name (name + zlen s + 1)) by (so_trans Hs1 Hs2).
  assert (Hn2' : str_rel m2 lo (name + zlen s + 1) (Some (At name')) (Some (trim (cut0 (percent_decode s))))) by (apply str_rel_at; [lia|done|lia]).
  destruct value as [vp|], sv as [v|]; try done; cbn [value_end] in *.
  2: { apply wp_ret, wp_ret, HQ; [exact Hso2|]. constructor; [split; [exact Hn2'|done]|].
       eapply map_rel_frame; [exact Hso2|exact Hmap|lia|lia]. }
  destruct Hv as (Hv & Hvp & Hbv). pose proof (zlen_nonneg v).
  assert (Hv2 : cstr m2 vp v).
  { destruct (decide (vp = name + zlen s)) as [->|]; [|eapply same_outside_cstr; [exact Hso2|done|lia]].
    assert (v = []) as ->.
    { destruct v; [done|]. apply cstr_cons in Hv as (_ & ? & Hv & _). destruct Hn as (_ & _ & Hn). congruence. }
    apply cstr_nil; [lia|]. destruct Hs2 as [_ Hs2]. rewrite Hs2; [done|lia]. }
  eapply wp_url_decode; [exact Hv2|done|]. intros m3 Hb3 Hs3. apply bytes_at_cut0 in Hb3; [|lia].
  pose proof (cut0_length (percent_decode v)). pose proof (percent_decode_length v). apply wp_ret.
  assert (Hz : same_outside m2 m3 (name + zlen s + 1) (vp + zlen v + 1)).
  { destruct (decide (vp = name + zlen s)) as [Hvn|Hvn]; [|so_weaken Hs3].
    assert (v = []) as ->.
    { destruct v; [done|]. apply cstr_cons in Hv as (_ & ? & Hv & _). destruct Hn as (_ & _ & Hn). rewrite Hvn in Hv. congruence. }
    rewrite zlen_nil in *. split; [apply Hs3|]. intros q Hq. destruct (decide (q = vp)) as [->|]; [|apply Hs3; lia].
    apply cstr_nil_inv in Hv2 as [_ Hv2]. rewrite Hv2. by apply cstr_nil_inv in Hb3 as [_ ->]. }
  apply HQ; [so_trans Hso2 Hz|]. constructor; [split|].
  - eapply str_rel_frame; [exact Hz|exact Hn2'|lia|lia].
  - apply str_rel_at; [lia|done|lia].
  - eapply (map_rel_frame m2 m3 lo name); [exact Hz| |lia|lia]. eapply map_rel_frame; [exact Hso2|exact Hmap|lia|lia].
Qed.

Lemma wp_parse_pair m lo b ev name seg map smap (Q : str_map cptr -> list Z -> Prop) :
  0 <= lo <= name -> cstr m name seg -> all_bytes seg -> map_rel m lo b map smap -> b <= name ->
  (forall map' m', same_outside m m' name (name + zlen seg + 1) ->
     map_rel m' lo (name + zlen seg + 1) map' (spec_pair ev seg smap) -> Q map' m') ->
  wp (parse_pair ev name map) Q m.
Proof.
  intros Hlo Hs Hb Hmap Hbn HQ. unfold parse_pair, spec_pair, split_at in *. pose proof (cstr_bounds _ _ _ Hs) as [Hs0 _]. apply wp_bind.
  eapply wp_strchr; [exact Hs|done|]. destruct (index_of (ch "=") seg) as [i|] eqn:Ei; cbn [fmap option_fmap option_map].
  - apply index_of_Some in Ei as (n & v & -> & <- & Hn). rewrite take_app_length in HQ.
    assert (Hdrop : drop (S (length n)) (n ++ ch "=" :: v) = v).
    { change (S (length n)) with (1 + length n)%nat. by rewrite Nat.add_comm, <- drop_drop, drop_app_length. }
    rewrite Hdrop in HQ. rewrite zlen_app, zlen_cons in HQ. rewrite Forall_app, Forall_cons in Hb. destruct Hb as (Hbn' & _ & Hbv).
    pose proof (cstr_split_poke _ _ _ _ _ Hs) as (H1 & H2 & Hbd). fold (zlen n). pose proof (zlen_nonneg n). pose proof (zlen_nonneg v).
    apply wp_bind, wp_wr; [done|]. change (wrapu 8 0) with 0.
    assert (Hp : same_outside m (poke m (name + zlen n) 0) name (name + zlen n + 1)) by (apply same_outside_poke; lia).
    eapply (wp_store_pair _ lo name name n _ (Some v)); [lia|exact H1|done|split_and!; [exact H2|lia|done]| |lia|].
    { eapply map_rel_frame; [exact Hp|exact Hmap|lia|lia]. }
    cbn [value_end]. intros map' m' Hs' Hm'. replace (name + zlen n + 1 + zlen v + 1) with (name + (zlen n + (1 + zlen v)) + 1) in * by lia.
    apply HQ; [so_trans Hp Hs'|]. destruct n; exact Hm'.
  - assert (Hmap' : map_rel m lo name map smap) by (eapply map_rel_frame; [apply (same_outside_refl m b b)|exact Hmap|lia|lia]).
    destruct ev.
    + apply wp_bind. eapply strlen_ok; [exact Hs|].
      eapply (wp_store_pair _ lo name name seg _ (Some [])); [lia|exact Hs|done| |exact Hmap'|lia|].
      { split_and!; [|lia|constructor]. apply cstr_nil; [pose proof (zlen_nonneg seg); lia|]. by destruct Hs as (_ & _ & ?). }
      cbn [value_end]. rewrite zlen_nil, Z.add_0_r. intros map' m' Hs' Hm'. apply HQ; [done|]. destruct seg; exact Hm'.
    + eapply (wp_store_pair _ lo name name seg None None); [lia|exact Hs|done|done|exact Hmap'|lia|].
      cbn [value_end]. intros map' m' Hs' Hm'. apply HQ; [done|]. destruct seg; exact Hm'.
Qed.

Definition pairs_inv (m : list Z) (sep : Z) (ev : bool) (p lo : Z) (s : bytes) (smap : str_map bytes)
    (x : Z * str_map cptr) (m' : list Z) : Prop :=
  exists t sm, cstr m' (fst x) t /\ all_bytes t /\ fst x + zlen t = p + zlen s /\ p <= fst x /\
    map_rel m' lo (fst x) (snd x) sm /\ spec_pairs sep ev t sm = spec_pairs sep ev s smap /\ same_outside m m' p (p + zlen s + 1).

Lemma wp_parse_pairs m sep ev p lo b s map smap (Q : str_map cptr -> list Z -> Prop) :
  sep <> 0 -> 0 <= lo <= p -> cstr m p s -> all_bytes s -> map_rel m lo b map smap -> b <= p ->
  (forall map' m', same_outside m m' p (p + zlen s + 1) ->
     map_rel m' lo (p + zlen s + 1) map' (spec_pairs sep ev s smap) -> Q map' m') ->
  wp (parse_pairs sep ev p map) Q m.
Proof.
  intros Hsep Hlo Hs Hb Hmap Hbp HQ. unfold parse_pairs. pose proof (cstr_bounds _ _ _ Hs) as [Hp0 Hpb].
  eapply (wp_mem_loop (pairs_inv m sep ev p lo s smap) (fun x => Z.to_nat (zlen m - fst x))).
  - exists s, smap. cbn [fst snd]. split_and!; try done.
    eapply map_rel_frame; [apply (same_outside_refl m b b)|exact Hmap|lia|lia].
  - cbn. unfold zlen. lia.
  - intros [name mp] m' (t & sm & Ht & Hbt & Hl & Hpn & Hm' & Hsp & Hso). cbn [fst snd] in *.
    apply wp_bind. eapply wp_strchr; [exact Ht|done|]. pose proof (same_outside_zlen _ _ _ _ Hso).
    destruct (index_of sep t) as [i|] eqn:Ei; cbn [fmap option_fmap option_map].
    + apply index_of_Some in Ei as (s1 & s2 & -> & <- & Hn). fold (zlen s1). rewrite zlen_app, zlen_cons in Hl.
      rewrite Forall_app, Forall_cons in Hbt. destruct Hbt as (Hb1 & _ & Hb2). pose proof (zlen_nonneg s1). pose proof (zlen_nonneg s2).
      pose proof (cstr_split_poke _ _ _ _ _ Ht) as (Hc1 & Hc2 & Hbd). apply wp_bind, wp_wr; [done|]. change (wrapu 8 0) with 0.
      assert (Hp : same_outside m' (poke m' (name + zlen s1) 0) name (name + zlen s1 + 1)) by (apply same_outside_poke; lia).
      apply wp_bind. eapply (wp_parse_pair _ lo name ev name s1); [lia|exact Hc1|done| |lia|].
      { eapply map_rel_frame; [exact Hp|exact Hm'|lia|lia]. }
      intros map' m2 Hs2 Hm2. apply wp_ret. split; [|cbn; lia]. exists s2, (spec_pair ev s1 sm). cbn [fst snd].
      split_and!; [|done|lia|lia|exact Hm2| |].
      * eapply same_outside_cstr; [exact Hs2|exact Hc2|lia].
      * rewrite <- Hsp. unfold spec_pairs. by rewrite segments_app.
      * eapply same_outside_trans; [so_trans Hso Hp|so_weaken Hs2].
    + apply index_of_None in Ei. apply wp_bind. eapply (wp_parse_pair _ lo name ev name t); [lia|exact Ht|done|exact Hm'|lia|].
      intros map' m2 Hs2 Hm2. apply wp_ret. replace (name + zlen t + 1) with (p + zlen s + 1) in * by lia. apply HQ; [so_trans Hso Hs2|].
      rewrite <- Hsp. unfold spec_pairs. by rewrite segments_none.
Qed.

(** ** Text made by percent-escaping *)

Fixpoint query_text (sep : Z) (pairs : list (bytes * bytes)) : bytes :=
  match pairs with
  | [] => []
  | [(n, v)] => escape_text n ++ ch "=" :: escape_text v
  | (n, v) :: r => (escape_text n ++ ch "=" :: escape_text v) ++ sep :: query_text sep r
  end.

Definition sep_char (c : Z) : bool := (c =? ch "&") || (c =? ch ";") || (c =? ch "=") || (c =? ch "?") || (c =? 0).
Definition escape_no_sep (c : Z) : bool := forallb (fun d => negb (sep_char d)) (escape_char c).

Lemma escape_text_no_sep s c : all_bytes s -> In c (escape_text s) -> sep_char c = false.
Proof.
  intros Hb Hin. unfold escape_text in Hin. apply in_flat_map in Hin as (d & Hd & Hc).
  assert (Hdb : is_byte d) by (rewrite Forall_forall in Hb; apply Hb; by apply list_elem_of_In).
  assert (H := byte_cases escape_no_sep eq_refl d Hdb). unfold escape_no_sep in H. rewrite forallb_forall in H.
  specialize (H c Hc). by apply negb_true_iff.
Qed.
Lemma escape_text_ne s : s <> [] -> escape_text s <> [].
Proof. destruct s as [|c s]; [done|]. intros _. cbn. unfold escape_char. by destruct (IS_URI_CHAR c). Qed.

Lemma spec_pair_escaped ev n v map :
  all_bytes n -> all_bytes v -> n <> [] -> trim n = n -> Forall (fun c => c <> 0) n -> Forall (fun c => c <> 0) v ->
  spec_pair ev (escape_text n ++ ch "=" :: escape_text v) map = (n, Some v) :: map.
Proof.
  intros Hn Hv Hne Ht Hn0 Hv0. unfold spec_pair, split_at.
  rewrite index_of_app by (intros Hin; by apply escape_text_no_sep in Hin). rewrite take_app_length.
  assert (Hd : drop (S (length (escape_text n))) (escape_text n ++ ch "=" :: escape_text v) = escape_text v).
  { change (S (length (escape_text n))) with (1 + length (escape_text n))%nat. by rewrite Nat.add_comm, <- drop_drop, drop_app_length. }
  rewrite Hd. pose proof (escape_text_ne n Hne). destruct (escape_text n) as [|c e] eqn:E; [done|]. rewrite <- E. cbn [fmap option_fmap option_map].
  rewrite !percent_decode_escape, !cut0_nonzero by done. by rewrite Ht.
Qed.

Definition pair_ok (p : bytes * bytes) : Prop := cbytes (fst p) /\ cbytes (snd p) /\ fst p <> [] /\ trim (fst p) = fst p.

Lemma spec_pairs_query sep ev pairs map :
  sep = ch "&" \/ sep = ch ";" -> Forall pair_ok pairs -> pairs <> [] ->
  spec_pairs sep ev (query_text sep pairs) map = rev (List.map (fun p => (fst p, Some (snd p))) pairs) ++ map.
Proof.
  intros Hsep Hp Hne. revert map. induction Hp as [|[n v] pairs (Hn & Hv & Hnn & Ht) Hp IH]; intros map; [done|]. cbn [fst snd] in *.
  assert (Hbn : all_bytes n) by (eapply Forall_impl; [exact Hn|by intros ? [? _]]).
  assert (Hbv : all_bytes v) by (eapply Forall_impl; [exact Hv|by intros ? [? _]]).
  assert (Hzn : Forall (fun c => c <> 0) n) by (eapply Forall_impl; [exact Hn|by intros ? [_ ?]]).
  assert (Hzv : Forall (fun c => c <> 0) v) by (eapply Forall_impl; [exact Hv|by intros ? [_ ?]]).
  assert (Hns : ~ In sep (escape_text n ++ ch "=" :: escape_text v)).
  { rewrite in_app_iff. intros [Hin|[Hin|Hin]].
    - apply escape_text_no_sep in Hin; [|done]. by destruct Hsep as [-> | ->].
    - destruct Hsep as [-> | ->]; discriminate.
    - apply escape_text_no_sep in Hin; [|done]. by destruct Hsep as [-> | ->]. }
  unfold spec_pairs in *. cbn [query_text]. destruct pairs as [|q pairs].
  - rewrite segments_none by done. cbn [fold_left]. rewrite spec_pair_escaped by done. done.
  - rewrite segments_app by done. cbn [fold_left]. rewrite spec_pair_escaped by done. rewrite IH by done.
    cbn [List.map rev]. by rewrite <- !app_assoc.
Qed.

Lemma query_text_bytes pairs : Forall pair_ok pairs -> all_bytes (query_text (ch "&") pairs).
Proof.
  induction 1 as [|[n v] pairs (Hn & Hv & _) Hp IH]; [constructor|]. cbn [fst snd] in *.
  assert (Hb : forall s, cbytes s -> all_bytes (escape_text s)).
  { intros s Hs. apply escape_text_byte. eapply Forall_impl; [exact Hs|by intros ? [? _]]. }
  cbn [query_text]. destruct pairs; rewrite ?Forall_app, ?Forall_cons in *; split_and!; try apply Hb; done.
Qed.

Lemma wp_copy_out m p s (Q : Z -> list Z -> Prop) :
  cstr m p s -> (forall m', cstr m' (zlen m) s -> (forall q t, cstr m q t -> cstr m' q t) -> Q (zlen m) m') ->
  wp (copy_out p (zlen s + 1)) Q m.
Proof.
  intros Hs HQ. pose proof (cstr_bounds _ _ _ Hs) as [Hp Hb]. pose proof (zlen_nonneg s). unfold copy_out.
  apply wp_bind, wp_read_bytes; [lia..|]. intros t Ht Hlt.
  assert (t = s ++ [0]) as ->.
  { eapply bytes_at_inj; [exact Ht|by apply cstr_bytes_at|]. rewrite zlen_app, zlen_cons, zlen_nil. lia. }
  unfold wp. apply HQ.
  - apply bytes_at_cstr; [apply zlen_nonneg| |by eapply cstr_nonzero]. intros i c Hi. rewrite peek_app_r by lia.
    replace (zlen m + Z.of_nat i - zlen m) with (Z.of_nat i) by lia. unfold peek. rewrite (proj2 (Z.leb_le 0 _)) by lia. by rewrite Nat2Z.id.
  - intros q u Hu. pose proof (cstr_bounds _ _ _ Hu) as [Hq Hqb]. destruct Hu as (_ & Hu & H0). split; [done|]. split.
    + intros i c Hi. destruct (Hu i c Hi) as [Hc Hn]. split; [|done]. rewrite peek_app_l; [done|]. apply peek_Some in Hc. lia.
    + by rewrite peek_app_l.
Qed.

(** The parameters of a URI: the query string is cut off in place or copied. *)
Definition params_post (req : request) (u : Z) (path q : bytes) (preserve : bool) (req' : request) (m' : list Z) : Prop :=
  map_rel m' 0 (zlen m') (rq_parameters req') (spec_pairs (ch "&") true q []) /\
  cstr m' u (if preserve then path ++ ch "?" :: q else path) /\ rq_uri req' = rq_uri req /\ rq_content req' = None.

Lemma wp_parse_request_parameters m req u path q (preserve : bool) (Q : request -> list Z -> Prop) :
  rq_parameters req = [] -> rq_uri req = Some (At u) -> rq_content req = None ->
  cstr m u (path ++ ch "?" :: q) -> ~ In (ch "?") path -> all_bytes q ->
  (forall req' m', params_post req u path q preserve req' m' -> Q req' m') ->
  wp (nxweb_parse_request_parameters req preserve) Q m.
Proof.
  intros Hp Hu Hct Hs Hn Hb HQ. unfold nxweb_parse_request_parameters. rewrite Hp, Hu, Hct. cbn [at_ptr].
  apply wp_bind, wp_ret. apply wp_bind. eapply wp_strchr; [exact Hs|done|]. rewrite index_of_app by done.
  cbn [fmap option_fmap option_map]. fold (zlen path). pose proof (cstr_bounds _ _ _ Hs) as [Hu0 Hub].
  rewrite zlen_app, zlen_cons in Hub. pose proof (zlen_nonneg path). pose proof (zlen_nonneg q). apply wp_bind.
  assert (Hreq : forall map m', map_rel m' 0 (zlen m') map (spec_pairs (ch "&") true q []) ->
    cstr m' u (if preserve then path ++ ch "?" :: q else path) -> Q (req{{rq_parameters := map}}) m').
  { intros map m' Hm Hc. apply HQ. by destruct req. }
  assert (Hq : cstr m (u + zlen path + 1) q).
  { apply cstr_app in Hs. by apply cstr_cons in Hs as (_ & _ & _ & Hs). }
  destruct preserve.
  - apply wp_bind. eapply strlen_ok; [exact Hq|]. apply wp_bind. eapply wp_copy_out; [exact Hq|]. intros m1 Hc1 Hk1. apply wp_ret.
    apply wp_bind. eapply (wp_parse_pairs m1 _ true (zlen m) 0 0 q [] []); [done|lia|exact Hc1|done|constructor|lia|].
    intros map m2 Hs2 Hm2. apply wp_bind, wp_ret, wp_ret, Hreq.
    + pose proof (cstr_bounds _ _ _ Hc1). pose proof (same_outside_zlen _ _ _ _ Hs2).
      eapply map_rel_frame; [apply (same_outside_refl m2 (zlen m2) (zlen m2))|exact Hm2|lia|lia].
    + eapply same_outside_cstr; [exact Hs2|by apply Hk1|rewrite zlen_app, zlen_cons; lia].
  - apply cstr_split_poke in Hs as (H1 & H2 & Hbd). apply wp_bind, wp_wr; [done|]. change (wrapu 8 0) with 0. apply wp_ret.
    apply wp_bind. eapply (wp_parse_pairs _ _ true _ 0 0 q [] []); [done| |exact H2|done|constructor|lia|]; [lia|].
    intros map m2 Hs2 Hm2. apply wp_bind, wp_ret, wp_ret, Hreq.
    + pose proof (cstr_bounds _ _ _ H2). pose proof (same_outside_zlen _ _ _ _ Hs2).
      eapply map_rel_frame; [apply (same_outside_refl m2 (zlen m2) (zlen m2))|exact Hm2|lia|lia].
    + eapply same_outside_cstr; [exact Hs2|exact H1|lia].
Qed.

(** * Properties *)

(** C28: parameter parsing splits the query string at [&] and at the first [=] of
    each piece, skips pieces without a name, trims and decodes names and decodes
    values, newest last; it works on a copy when the URI is to be preserved and
    otherwise cuts the URI at the [?]. *)
Theorem parse_request_parameters_correct (m : list Z) (req : request) (u : Z) (path q : bytes) (preserve : bool) :
  rq_parameters req = [] -> rq_uri req = Some (At u) -> rq_content req = None ->
  cstr m u (path ++ ch "?" :: q) -> ~ In (ch "?") path -> all_bytes q ->
  exists req' m', nxweb_parse_request_parameters req preserve m = Ok (req', m') /\ params_post req u path q preserve req' m'.
Proof.
  intros Hp Hu Hct Hs Hn Hb.
  assert (Hw : wp (nxweb_parse_request_parameters req preserve) (fun req' m' => params_post req u path q preserve req' m') m).
  { by eapply wp_parse_request_parameters. }
  by apply wp_elim in Hw.
Qed.

Definition sample_uri : bytes := bs "/p?a=1&b+=%41&&c".
Definition uri_request : request := request_zero{{rq_uri := Some (At 1)}}.

Lemma parse_request_parameters_correct_witness :
  exists req' m', nxweb_parse_request_parameters uri_request true (7 :: sample_uri ++ [0]) = Ok (req', m') /\
    params_post uri_request 1 (bs "/p") (bs "a=1&b+=%41&&c") true req' m'.
Proof.
  apply parse_request_parameters_correct; [done|done|done| | |vm_compute; repeat constructor; done].
  - split; [done|]. split; [|done]. intros i c Hi.
    do 16 (destruct i as [|i]; [injection Hi as <-; done|]). done.
  - by intros [?|[?|[]]].
Defined.

(** C29: a query made by percent-escaping any names (not empty, trimmed) and
    values parses back to exactly those pairs. *)
Theorem query_parameters_roundtrip (m : list Z) (req : request) (u : Z) (path : bytes) (pairs : list (bytes * bytes)) (preserve : bool) :
  rq_parameters req = [] -> rq_uri req = Some (At u) -> rq_content req = None ->
  cstr m u (path ++ ch "?" :: query_text (ch "&") pairs) -> ~ In (ch "?") path -> Forall pair_ok pairs -> pairs <> [] ->
  exists req' m', nxweb_parse_request_parameters req preserve m = Ok (req', m') /\
    map_rel m' 0 (zlen m') (rq_parameters req') (rev (List.map (fun p => (fst p, Some (snd p))) pairs)).
Proof.
  intros Hp Hu Hct Hs Hn Hok Hne.
  assert (Hw : wp (nxweb_parse_request_parameters req preserve) (fun req' m' => params_post req u path (query_text (ch "&") pairs) preserve req' m') m).
  { eapply wp_parse_request_parameters; [done|done|done|done|done|by apply query_text_bytes|done]. }
  apply wp_elim in Hw as (req' & m' & Hr & Hm & _). exists req', m'. split; [done|].
  rewrite spec_pairs_query in Hm; [|by left|done|done]. by rewrite app_nil_r in Hm.
Qed.

Lemma query_parameters_roundtrip_witness :
  exists req' m', nxweb_parse_request_parameters uri_request false (7 :: bs "/p?a%20b=%26&c=" ++ [0]) = Ok (req', m') /\
    map_rel m' 0 (zlen m') (rq_parameters req') (rev (List.map (fun p => (fst p, Some (snd p))) [(bs "a b", bs "&"); (bs "c", [])])).
Proof.
  apply (query_parameters_roundtrip _ uri_request 1 (bs "/p") [(bs "a b", bs "&"); (bs "c", [])] false); [done|done|done| | | |done].
  - split; [done|]. split; [|done]. intros i c Hi.
    do 15 (destruct i as [|i]; [injection Hi as <-; done|]). done.
  - by intros [?|[?|[]]].
  - repeat constructor; done.
Defined.
