(* ===== verification/ResponseParse.v ===== *)
(** The response parser of lib/http_utils.c (replies of a backend): status line,
    header fields, the items of Cache-Control, and the length of the body. *)
From coqutil Require Import Datatypes.RecordSetters.
From S2P Require Import Prelude CString Uri HttpTime HttpRequest HttpParams.
Import DoubleBraceUpdate.
Open Scope Z_scope.

Abbreviation response := (nxweb_http_response cptr).

(** ** Cache-Control *)

(** What the items of Cache-Control set; [cc_dirty] marks an item that is not
    recognised. *)
Record cache_flags := mk_cc { cc_no_cache : bool; cc_private : bool; cc_max_age : Z; cc_dirty : bool }.

(** [while ((unsigned char) c != 0 && c <= SPACE) p1++;] *)
Definition skip_item_blank (p1 : Z) : M mem Z :=
  mem_loop (fun p1 => let! c := rd p1 in
    if negb (c =? 0) && (c <=? SPACE) then ret (inl (p1 + 1)) else ret (inr p1)) p1.

(** One item, cut off at [p1]. *)
Definition cache_item (p1 : Z) (f : cache_flags) : M mem cache_flags :=
  let! name := skip_item_blank p1 in
  let! eq := strchr name (ch "=") in
  let! value := match eq with
    | Some q => do! wr q 0 in let! v := nxweb_trunc_space (q + 1) in ret (Some v)
    | None => ret None
    end in
  let! n := read_str name in
  if nx_strcasecmp n (bs "no-cache") =? 0 then ret (mk_cc true (cc_private f) (cc_max_age f) (cc_dirty f)) else
  if nx_strcasecmp n (bs "private") =? 0 then ret (mk_cc (cc_no_cache f) true (cc_max_age f) (cc_dirty f)) else
  match (if nx_strcasecmp n (bs "max-age") =? 0 then value else None) with
  | Some v =>
      let! s := read_str v in
      let age := if bool_decide (s = [ch "0"]) then -1 else atol s in
      ret (mk_cc (cc_no_cache f) (cc_private f) age (cc_dirty f))
  | None => ret (mk_cc (cc_no_cache f) (cc_private f) (cc_max_age f) true)
  end.

Definition cache_items (p1 : Z) (f : cache_flags) : M mem cache_flags :=
  mem_loop (fun '(p1, f) =>
    let! comma := strchr p1 (ch ",") in
    match comma with
    | Some q => do! wr q 0 in let! f := cache_item p1 f in ret (inl (q + 1, f))
    | None => let! f := cache_item p1 f in ret (inr f)
    end) (p1, f).

(** ** The status line *)

Definition parse_status_line (resp : response) (headers pl : Z) : M mem (option response) :=
  let! p := skip_token headers in
  do! wr p 0 in
  let! p := skip_blank pl (p + 1) in
  if pl <=? p then ret None else
  let code := p in
  let! p := skip_token p in
  do! wr p 0 in
  let! p := skip_blank pl (p + 1) in
  if pl <=? p then ret None else
  let status := p in
  let! p := skip_text pl p in
  do! wr p 0 in
  let! ver := read_str headers in
  let http11 := negb (nx_strcasecmp ver (bs "HTTP/1.0") =? 0) in
  let! c := read_str code in
  ret (Some (resp{{rs_status := Some (At status); rs_http11 := http11; rs_keep_alive := http11;
                   rs_content_length := -1; rs_status_code := atoi c}})).

(** ** Header fields *)

(** The local variables of the header loop that outlive a line. *)
Record resp_state := mk_rs { st_resp : response; st_transfer_encoding : option Z; st_map : str_map cptr }.

Definition response_field (st : resp_state) (name name_len value : Z) : M mem (option resp_state) :=
  let! n := read_str name in
  let v := Some (At value) in
  let resp := st_resp st in
  let set r := ret (Some (mk_rs r (st_transfer_encoding st) (st_map st))) in
  match identify_http_header n name_len with
  | NXWEB_HTTP_CONTENT_TYPE => set (resp{{rs_content_type := v}})
  | NXWEB_HTTP_CONTENT_LENGTH => let! s := read_str value in set (resp{{rs_content_length := atol s}})
  | NXWEB_HTTP_TRANSFER_ENCODING => ret (Some (mk_rs resp (Some value) (st_map st)))
  | NXWEB_HTTP_CONNECTION =>
      let! s := read_str value in set (resp{{rs_keep_alive := nx_strcasecmp s (bs "keep-alive") =? 0}})
  | NXWEB_HTTP_KEEP_ALIVE => ret (Some st)
  | NXWEB_HTTP_X_NXWEB_SSI => let! s := read_str value in set (resp{{rs_ssi_on := nx_strcasecmp s (bs "ON") =? 0}})
  | NXWEB_HTTP_X_NXWEB_TEMPLATES => let! s := read_str value in set (resp{{rs_templates_on := nx_strcasecmp s (bs "ON") =? 0}})
  | NXWEB_HTTP_DATE => let! t := nxweb_parse_http_time value in set (resp{{rs_date := t}})
  | NXWEB_HTTP_LAST_MODIFIED => let! t := nxweb_parse_http_time value in set (resp{{rs_last_modified := t}})
  | NXWEB_HTTP_EXPIRES => let! t := nxweb_parse_http_time value in set (resp{{rs_expires := t}})
  | NXWEB_HTTP_CACHE_CONTROL => set (resp{{rs_cache_control := v}})
  | NXWEB_HTTP_ETAG => set (resp{{rs_etag := v}})
  | _ => ret (Some (mk_rs resp (st_transfer_encoding st) ((At name, v) :: st_map st)))
  end.

(** The items of Cache-Control, on a copy. *)
Definition response_cache_control (resp : response) : M mem response :=
  match rs_cache_control resp with
  | None => ret resp
  | Some _ =>
      let! cc := at_ptr (rs_cache_control resp) in
      let! n := strlen cc in
      let! p1 := copy_out cc (n + 1) in
      let! f := cache_items p1 (mk_cc (rs_no_cache resp) (rs_cache_private resp) (rs_max_age resp) false) in
      ret (resp{{rs_no_cache := cc_no_cache f; rs_cache_private := cc_private f; rs_max_age := cc_max_age f}})
  end.

(** How the end of the body is found. *)
Definition response_length (resp : response) (transfer_encoding : option Z) : M mem response :=
  let! chunked := match transfer_encoding with
    | Some te => let! s := read_str te in ret (nx_strcasecmp s (bs "chunked") =? 0)
    | None => ret false
    end in
  if (chunked : bool) then ret (resp{{rs_chunked_encoding := true; rs_content_length := -1}})
  else if rs_keep_alive resp && (rs_content_length resp =? -1) then ret (resp{{rs_content_length := 0}})
  else ret resp.

Definition _nxweb_parse_http_response (resp : response) (headers end_of_headers : Z) : M mem (Z * response) :=
  do! wr end_of_headers 0 in
  let! pl := cut_first_line headers end_of_headers in
  let! r := parse_status_line resp headers pl in
  match r with
  | None => ret (-1, resp)
  | Some resp =>
      let! r := header_loop response_field end_of_headers (pl + 1) (mk_rs resp None []) in
      let '(st, _) := r in
      let resp := (st_resp st){{rs_headers := st_map st}} in
      let! resp := response_cache_control resp in
      let! resp := response_length resp (st_transfer_encoding st) in
      ret (0, resp)
  end.

(** * Lemmas *)

(** ** Items of Cache-Control *)

Lemma wp_skip_item_blank m p s (Q : Z -> list Z -> Prop) :
  cstr m p s -> (forall q t, cstr m q t -> p <= q -> q + zlen t = p + zlen s -> Q q m) -> wp (skip_item_blank p) Q m.
Proof.
  intros Hs HQ. unfold skip_item_blank. pose proof (cstr_bounds _ _ _ Hs).
  eapply (wp_mem_loop (fun q m' => m' = m /\ p <= q /\ exists t, cstr m q t /\ q + zlen t = p + zlen s) (fun q => Z.to_nat (zlen m - q))).
  - split_and!; [done|lia|]. by exists s.
  - unfold zlen. lia.
  - intros q m' (-> & Hq & t & Ht & Hl). apply wp_bind. destruct t as [|c t].
    + pose proof (cstr_nil_inv _ _ Ht) as [_ H0]. eapply wp_rd'; [done|]. cbn. apply wp_ret. by eapply HQ.
    + pose proof Ht as (_ & Hn & Hc & Ht')%cstr_cons. eapply wp_rd'; [done|]. cbn beta. rewrite zlen_cons in Hl. pose proof (zlen_nonneg t).
      destruct (negb (c =? 0) && (c <=? SPACE)); apply wp_ret.
      * split; [|lia]. split_and!; [done|lia|]. exists t. split; [done|lia].
      * eapply HQ; [exact Ht|done|rewrite zlen_cons; lia].
Qed.

Lemma wp_cache_item m p s f (Q : cache_flags -> list Z -> Prop) :
  cstr m p s -> (forall f' m', same_outside m m' p (p + zlen s) -> Q f' m') -> wp (cache_item p f) Q m.
Proof.
  intros Hs HQ. unfold cache_item. apply wp_bind. eapply wp_skip_item_blank; [exact Hs|]. intros name t Ht Hp Hl.
  pose proof (cstr_bounds _ _ _ Ht). pose proof (zlen_nonneg t). apply wp_bind. eapply wp_strchr; [exact Ht|done|].
  assert (Hrest : forall value m1, same_outside m m1 p (p + zlen s) ->
      match value with Some v => exists sv, cstr m1 v sv | None => True end ->
      wp (let! n := read_str name in
          if nx_strcasecmp n (bs "no-cache") =? 0 then ret (mk_cc true (cc_private f) (cc_max_age f) (cc_dirty f)) else
          if nx_strcasecmp n (bs "private") =? 0 then ret (mk_cc (cc_no_cache f) true (cc_max_age f) (cc_dirty f)) else
          match (if nx_strcasecmp n (bs "max-age") =? 0 then value else None) with
          | Some v =>
              let! s := read_str v in
              ret (mk_cc (cc_no_cache f) (cc_private f) (if bool_decide (s = [ch "0"]) then -1 else atol s) (cc_dirty f))
          | None => ret (mk_cc (cc_no_cache f) (cc_private f) (cc_max_age f) true)
          end) Q m1).
  { intros value m1 Hs1 Hv. destruct (cstr_exists m1 name (name + zlen t)) as (n & Hn & _); [lia| |].
    { destruct Hs1 as [_ Hs1]. rewrite Hs1 by lia. by destruct Ht as (_ & _ & ?). }
    apply wp_bind. eapply wp_read_str; [exact Hn|].
    destruct (_ =? 0); [by apply wp_ret, HQ|]. destruct (_ =? 0); [by apply wp_ret, HQ|].
    destruct (_ =? 0); [|by apply wp_ret, HQ]. destruct value as [v|]; [|by apply wp_ret, HQ].
    destruct Hv as (sv & Hsv). apply wp_bind. eapply wp_read_str; [exact Hsv|]. by apply wp_ret, HQ. }
  destruct (index_of (ch "=") t) as [i|] eqn:Ei; cbn [fmap option_fmap option_map].
  - apply index_of_Some in Ei as (s1 & s2 & -> & <- & Hn). fold (zlen s1). rewrite zlen_app, zlen_cons in *.
    pose proof (zlen_nonneg s1). pose proof (zlen_nonneg s2). pose proof (cstr_split_poke _ _ _ _ _ Ht) as (Hc1 & Hc2 & Hb).
    apply wp_bind, wp_bind, wp_wr; [done|]. change (wrapu 8 0) with 0. apply wp_bind.
    eapply wp_trunc_space; [exact Hc2|]. intros v m2 Hv2 _ _ Hs2. apply wp_ret, Hrest; [|by eexists].
    eapply same_outside_trans; [apply (same_outside_poke m _ _ (name + zlen s1) 0); lia|so_weaken Hs2].
  - apply wp_bind, wp_ret, Hrest; [apply same_outside_refl|done].
Qed.

Lemma wp_cache_items m p s f (Q : cache_flags -> list Z -> Prop) :
  cstr m p s -> (forall f' m', same_outside m m' p (p + zlen s + 1) -> Q f' m') -> wp (cache_items p f) Q m.
Proof.
  intros Hs HQ. unfold cache_items. pose proof (cstr_bounds _ _ _ Hs).
  eapply (wp_mem_loop (fun x m' => same_outside m m' p (p + zlen s + 1) /\ p <= fst x /\ exists t, cstr m' (fst x) t /\ fst x + zlen t = p + zlen s)
            (fun x => Z.to_nat (zlen m - fst x))).
  - split_and!; [apply same_outside_refl|cbn; lia|]. by exists s.
  - cbn. unfold zlen. lia.
  - intros [q g] m' (Hs' & Hq & t & Ht & Hl). cbn [fst] in *. pose proof (same_outside_zlen _ _ _ _ Hs'). apply wp_bind.
    eapply wp_strchr; [exact Ht|done|]. destruct (index_of (ch ",") t) as [i|] eqn:Ei; cbn [fmap option_fmap option_map].
    + apply index_of_Some in Ei as (s1 & s2 & -> & <- & Hn). fold (zlen s1). rewrite zlen_app, zlen_cons in *.
      pose proof (zlen_nonneg s1). pose proof (zlen_nonneg s2). pose proof (cstr_split_poke _ _ _ _ _ Ht) as (Hc1 & Hc2 & Hb).
      assert (Hp : same_outside m' (poke m' (q + zlen s1) 0) q (q + zlen s1 + 1)) by (apply same_outside_poke; lia).
      apply wp_bind, wp_wr; [done|]. change (wrapu 8 0) with 0. apply wp_bind. eapply wp_cache_item; [exact Hc1|].
      intros f' m2 Hs2. apply wp_ret. cbn [fst]. split; [|lia].
      split_and!; [eapply same_outside_trans; [so_trans Hs' Hp|so_weaken Hs2]|lia|]. exists s2.
      split; [eapply same_outside_cstr; [exact Hs2|exact Hc2|lia]|lia].
    + apply wp_bind. eapply wp_cache_item; [exact Ht|]. intros f' m2 Hs2. apply wp_ret, HQ. pose proof (zlen_nonneg t). so_trans Hs' Hs2.
Qed.

(** ** Any bytes *)

Definition resp_strings {str} (r : nxweb_http_response str) : list (option str) :=
  [rs_status r; rs_content_type r; rs_cache_control r; rs_etag r].
Definition resp_ok (lo hi : Z) (r : response) : Prop :=
  Forall (ptr_in lo hi) (resp_strings r) /\ host_at (rs_cache_control r) /\ rs_chunked_encoding r = false /\ is_Some (rs_status r).
Definition rs_ok (lo hi : Z) (st : resp_state) : Prop :=
  resp_ok lo hi (st_resp st) /\ map_in lo hi (st_map st) /\
  match st_transfer_encoding st with Some p => lo <= p <= hi | None => True end.

Ltac resp_cases r := unfold resp_ok, resp_strings, host_at in *; destruct r; cbn in *; rewrite ?Forall_cons in *; cbn in *; tauto.

Lemma wp_skip_text_any m pl p (Q : Z -> list Z -> Prop) :
  0 <= p <= pl -> pl < zlen m -> (forall q, p <= q <= pl -> Q q m) -> wp (skip_text pl p) Q m.
Proof.
  intros Hp Hm HQ. unfold skip_text.
  eapply (wp_mem_loop (fun q m' => m' = m /\ p <= q <= pl) (fun q => Z.to_nat (zlen m - q))).
  - split; [done|lia]. - unfold zlen. lia.
  - intros q m' [-> Hq]. apply wp_bind, wp_rd; [lia|]. intros c _. destruct (_ && _) eqn:E; apply wp_ret; [|by apply HQ].
    apply andb_true_iff in E as [_ E]. bool_to_prop. split; [split; [done|lia]|lia].
Qed.

Lemma wp_parse_status_line_any m headers pl (Q : option response -> list Z -> Prop) :
  0 <= headers <= pl -> pl + 1 < zlen m -> peek m pl = Some 0 ->
  (forall r m', same_outside m m' headers (pl + 1) -> peek m' pl = Some 0 ->
     match r with Some r => resp_ok headers pl r | None => True end -> Q r m') ->
  wp (parse_status_line response_zero headers pl) Q m.
Proof.
  intros Hh Hm H0 HQ. unfold parse_status_line. cbv zeta.
  apply (wp_cut_word_any _ headers _ pl); [lia|lia|done|]. intros p1 m1 Hp1 Hs1 HzA. pose proof (same_outside_zlen _ _ _ _ Hs1).
  apply wp_bind, wp_skip_blank_any; [lia|lia|]. intros code Hcode.
  destruct (Z.leb_spec pl code); [by apply wp_ret, HQ|].
  apply (wp_cut_word_any _ headers _ pl); [lia|lia|done|]. intros p2 m2 Hp2 Hs2 HzB. pose proof (same_outside_zlen _ _ _ _ Hs2).
  assert (Hs02 : same_outside m m2 headers (pl + 1)) by so_trans Hs1 Hs2.
  apply wp_bind, wp_skip_blank_any; [lia|lia|]. intros status Hst.
  destruct (Z.leb_spec pl status); [by apply wp_ret, HQ|].
  apply wp_bind, wp_skip_text_any; [lia|lia|]. intros p3 Hp3. apply wp_bind, wp_wr; [lia|]. change (wrapu 8 0) with 0.
  set (m3 := poke m2 p3 0). assert (Hs3 : same_outside m2 m3 headers (pl + 1)) by (apply same_outside_poke; lia).
  assert (HzC : peek m3 pl = Some 0) by (unfold m3; rewrite peek_poke by lia; by destruct (p3 =? pl)).
  assert (Hs03 : same_outside m m3 headers (pl + 1)) by so_trans Hs02 Hs3.
  destruct (cstr_exists m3 headers pl) as (vs & Hvs & _); [lia|done|]. apply wp_bind. eapply wp_read_str; [exact Hvs|].
  destruct (cstr_exists m3 code pl) as (cs & Hcs & _); [lia|done|]. apply wp_bind. eapply wp_read_str; [exact Hcs|].
  apply wp_ret, HQ; [done|done|]. unfold resp_ok, resp_strings. cbn. split_and!; try done. repeat constructor; cbn; lia.
Qed.

Section any_response.
Context (lo wl eoh z : Z) (m0 : list Z).
Hypotheses (Hlo : 0 <= lo <= wl) (Heoh : peek m0 eoh = Some 0) (Hz : eoh + 3 <= z) (Hz0 : peek m0 z = Some 0).

Lemma response_field_ok : field_ok lo wl eoh m0 (rs_ok lo eoh) response_field.
Proof.
  intros m st name len v sv Hs Hn Hv Hsv Hve Hok. pose proof (zlen_nonneg sv). unfold response_field.
  eapply (wp_read_any lo wl eoh m0); [done|done|done|done|]. intros n Hcn.
  assert (Hv' : lo <= v <= eoh) by lia. destruct st as [r te mp]. destruct Hok as (Hr & Hmp & Hte).
  cbn [st_resp st_map st_transfer_encoding] in *.
  assert (Hex : exists sv', cstr m v sv' /\ zlen sv' <= zlen sv) by (exists sv; split; [done|lia]).
  assert (Hset : forall r', resp_ok lo eoh r' -> rs_ok lo eoh (mk_rs r' te mp)) by done.
  destruct (identify_http_header n len);
    try (apply wp_ret; split_and!; [done|done|]; split_and!; [done|constructor; done|done]);
    try (apply wp_ret; split_and!; [done|done|]; apply Hset; clear -Hr Hv'; resp_cases r);
    try (eapply (wp_read_any lo wl eoh m0); [done|done|done|done|]; intros s Hcs; apply wp_ret; split_and!; [done|done|]; apply Hset; clear -Hr; resp_cases r);
    try (apply wp_bind; eapply (wp_parse_time_any lo wl eoh z m0); [done|done|done|done|done|]; intros t; apply wp_ret; split_and!; [done|done|]; apply Hset; clear -Hr; resp_cases r).
  apply wp_ret. split_and!; [done|done|]. by split_and!.
Qed.

(** What holds of a response that was accepted. *)
Definition response_valid (m : list Z) (lo hi : Z) (r : response) : Prop :=
  is_Some (rs_status r) /\ Forall (string_in m lo hi) (resp_strings r) /\
  Forall (fun e => string_in m lo hi (Some (fst e)) /\ string_in m lo hi (snd e)) (rs_headers r) /\
  (rs_chunked_encoding r = true -> rs_content_length r = -1) /\
  (rs_chunked_encoding r = false -> rs_keep_alive r = true -> rs_content_length r <> -1).

Lemma wp_response_length m r te (Q : response -> list Z -> Prop) :
  rs_chunked_encoding r = false -> match te with Some p => exists s, cstr m p s | None => True end ->
  (forall r', resp_strings r' = resp_strings r -> rs_headers r' = rs_headers r ->
     (rs_chunked_encoding r' = true -> rs_content_length r' = -1) ->
     (rs_chunked_encoding r' = false -> rs_keep_alive r' = true -> rs_content_length r' <> -1) -> Q r' m) ->
  wp (response_length r te) Q m.
Proof.
  intros Hc Hte HQ. unfold response_length. apply wp_bind. apply wp_mono with (fun _ m' => m' = m).
  { destruct te as [p|]; [|by apply wp_ret]. destruct Hte as (s & Hs). apply wp_bind. eapply wp_read_str; [exact Hs|]. by apply wp_ret. }
  intros chunked m' ->. destruct chunked; [by apply wp_ret, HQ; destruct r|].
  destruct (rs_keep_alive r && (rs_content_length r =? -1)) eqn:E; apply wp_ret, HQ; destruct r; cbn in *; try done; try congruence.
  intros _ ->. by apply Z.eqb_neq.
Qed.
End any_response.

Lemma cstr_app_mem m l p s : cstr m p s -> cstr (m ++ l) p s.
Proof.
  intros Hs. pose proof (cstr_bounds _ _ _ Hs) as [Hq Hqb]. destruct Hs as (_ & Hu & H0). split; [done|]. split.
  - intros i c Hi. destruct (Hu i c Hi) as [Hc Hn]. split; [|done]. rewrite peek_app_l; [done|]. apply peek_Some in Hc. lia.
  - by rewrite peek_app_l.
Qed.

(** The memory after a response is parsed: a copy may follow it. *)
Definition extends (m m' : list Z) : Prop := zlen m <= zlen m' /\ forall q, q < zlen m -> peek m' q = peek m q.

Lemma extends_cstr m m' p s : extends m m' -> cstr m p s -> cstr m' p s.
Proof.
  intros [_ He] Hs. pose proof (cstr_bounds _ _ _ Hs) as [Hp Hb]. destruct Hs as (_ & Hs & H0). split; [done|]. split.
  - intros i c Hi. destruct (Hs i c Hi) as [Hc Hn]. split; [|done]. rewrite He; [done|]. apply peek_Some in Hc. lia.
  - by rewrite He.
Qed.

Lemma wp_response_cache_control m r lo eoh (Q : response -> list Z -> Prop) :
  (forall p, lo <= p <= eoh -> exists s, cstr m p s) -> ptr_in lo eoh (rs_cache_control r) -> host_at (rs_cache_control r) ->
  (forall f m', extends m m' -> Q (if rs_cache_control r then
       r{{rs_no_cache := cc_no_cache f; rs_cache_private := cc_private f; rs_max_age := cc_max_age f}} else r) m') ->
  wp (response_cache_control r) Q m.
Proof.
  intros Hstr Hp Hat HQ. unfold response_cache_control. destruct (rs_cache_control r) as [[p|s]|]; [|done|].
  2: { apply wp_ret, (HQ (mk_cc false false 0 false)). by split. }
  cbn [at_ptr]. apply wp_bind, wp_ret. destruct (Hstr p Hp) as (s & Hs). apply wp_bind. eapply strlen_ok; [exact Hs|].
  apply wp_bind. pose proof (cstr_bounds _ _ _ Hs) as [Hp0 Hpb]. pose proof (zlen_nonneg s). unfold copy_out.
  apply wp_bind, wp_read_bytes; [lia..|]. intros t Ht Hlt. unfold wp at 1.
  assert (t = s ++ [0]) as ->.
  { eapply bytes_at_inj; [exact Ht|by apply cstr_bytes_at|]. rewrite zlen_app, zlen_cons, zlen_nil. lia. }
  change (wp (let! f := cache_items (zlen m) (mk_cc (rs_no_cache r) (rs_cache_private r) (rs_max_age r) false) in
    ret (r{{rs_no_cache := cc_no_cache f; rs_cache_private := cc_private f; rs_max_age := cc_max_age f}})) Q (m ++ s ++ [0])).
  apply wp_bind. eapply (wp_cache_items _ _ s).
  { apply bytes_at_cstr; [apply zlen_nonneg| |by eapply cstr_nonzero]. intros i c Hi. rewrite peek_app_r by lia.
    replace (zlen m + Z.of_nat i - zlen m) with (Z.of_nat i) by lia. unfold peek. rewrite (proj2 (Z.leb_le 0 _)) by lia. by rewrite Nat2Z.id. }
  intros f m' Hs'. apply wp_ret, (HQ f). pose proof (same_outside_zlen _ _ _ _ Hs') as Hl. rewrite zlen_app in Hl. split.
  - rewrite Hl. pose proof (zlen_nonneg (s ++ [0])). lia.
  - intros q Hq. destruct Hs' as [_ Hs']. rewrite Hs' by lia. by apply peek_app_l.
Qed.

Lemma string_in_extends m m' lo hi s : extends m m' -> string_in m lo hi s -> string_in m' lo hi s.
Proof.
  intros He Hs. destruct s as [[p|t]|]; cbn in *; [|done|done]. destruct Hs as (Hp & t & Ht & Hl). split; [done|].
  exists t. split; [by eapply extends_cstr|done].
Qed.

Lemma wp_parse_http_response_any m headers eoh z (Q : Z * response -> list Z -> Prop) :
  0 <= headers <= eoh -> eoh + 3 <= z -> peek m z = Some 0 ->
  (forall rc r m1 m', rc = 0 \/ rc = -1 -> same_outside m m1 headers (eoh + 1) -> extends m1 m' ->
     (rc = 0 -> response_valid m' headers eoh r) -> Q (rc, r) m') ->
  wp (_nxweb_parse_http_response response_zero headers eoh) Q m.
Proof.
  intros Hh Hz Hz0 HQ. pose proof (peek_Some _ _ _ Hz0). unfold _nxweb_parse_http_response.
  apply wp_bind, wp_wr; [lia|]. change (wrapu 8 0) with 0. set (m1 := poke m eoh 0).
  assert (Hs1 : same_outside m m1 headers (eoh + 1)) by (apply same_outside_poke; lia).
  assert (He1 : peek m1 eoh = Some 0) by (apply peek_poke_eq; lia). pose proof (same_outside_zlen _ _ _ _ Hs1).
  apply wp_bind, wp_cut_first_line_any; [done|done|]. intros pl m2 Hpl Hs2 Hp2. pose proof (same_outside_zlen _ _ _ _ Hs2).
  apply wp_bind, wp_parse_status_line_any; [lia|lia|done|]. intros r m3 Hs3 Hp3 Hr.
  assert (Hs13 : same_outside m m3 headers (eoh + 1)).
  { eapply same_outside_trans; [so_trans Hs1 Hs2|so_weaken Hs3]. }
  destruct r as [r|]; [|apply wp_ret; eapply HQ; [by right|exact Hs13|by split|done]].
  assert (He3 : peek m3 eoh = Some 0).
  { destruct (decide (eoh = pl)) as [->|]; [done|]. destruct Hs3 as [_ Hs3]. rewrite Hs3 by lia.
    destruct Hs2 as [_ Hs2]. rewrite Hs2; [done|lia]. }
  assert (Hz3 : peek m3 z = Some 0) by (destruct Hs13 as [_ Hs13]; rewrite Hs13; [done|lia]).
  assert (Hr0 : resp_ok headers eoh r).
  { destruct Hr as (Hr & Hrest). split; [|exact Hrest]. eapply Forall_impl; [exact Hr|]. intros [[p|s]|]; cbn; [lia|done|done]. }
  apply wp_bind. eapply (wp_header_loop_any headers (pl + 1) eoh m3); [lia|done|apply (response_field_ok headers (pl + 1) eoh z m3); [lia|done|lia|done]|apply same_outside_refl|lia|by split_and!; [|constructor|]|].
  intros st b m4 Hs4 (Hok & Hmp & Hte). assert (Hs14 : same_outside m m4 headers (eoh + 1)) by so_trans Hs13 Hs4.
  assert (Hok' : resp_ok headers eoh ((st_resp st){{rs_headers := st_map st}}) /\ rs_headers ((st_resp st){{rs_headers := st_map st}}) = st_map st).
  { destruct (st_resp st); split; [|done]. exact Hok. }
  revert Hok'. generalize ((st_resp st){{rs_headers := st_map st}}). intros r' [Hok' Hmr]. clear Hok Hr Hr0 r.
  assert (Hstr : forall p, headers <= p <= eoh -> exists s, cstr m4 p s).
  { intros p Hp. edestruct (string_at headers (pl + 1) eoh m3) as (s & Hs & _); [lia|done|exact Hs4|exact Hp|]. by exists s. }
  apply wp_bind, (wp_response_cache_control m4 r' headers eoh); [done|clear -Hok'; resp_cases r'|by apply Hok'|].
  intros f m5 Hext. set (r5 := if rs_cache_control r' then _ else _).
  assert (Hr5 : resp_strings r5 = resp_strings r' /\ rs_headers r5 = rs_headers r' /\ rs_chunked_encoding r5 = rs_chunked_encoding r' /\ rs_status r5 = rs_status r').
  { unfold r5. destruct (rs_cache_control r'); by destruct r'. }
  clearbody r5. destruct Hr5 as (E1 & E2 & E3 & E4). apply wp_bind, wp_response_length.
  { rewrite E3. apply Hok'. }
  { destruct (st_transfer_encoding st) as [te|]; [|done]. destruct (Hstr te Hte) as (s & Hs). exists s. by eapply extends_cstr. }
  intros r6 F1 F2 F3 F4. apply wp_ret. eapply HQ; [by left|exact Hs14|exact Hext|]. intros _.
  assert (Hst : Forall (string_in m4 headers eoh) (resp_strings r')).
  { destruct Hok' as (Hp & _). eapply Forall_impl; [exact Hp|]. intros s Hs. by eapply (ptr_in_string m4 m3 headers (pl + 1)); [lia|..]. }
  split_and!; [|rewrite F1, E1; eapply Forall_impl; [exact Hst|intros; by eapply string_in_extends]|rewrite F2, E2, Hmr|done|done].
  - assert (Es : rs_status r6 = rs_status r5) by (unfold resp_strings in F1; by injection F1). rewrite Es, E4. apply Hok'.
  - eapply Forall_impl; [exact Hmp|]. intros [a bb] [Ha Hb].
    split; (eapply string_in_extends; [exact Hext|]; eapply (ptr_in_string m4 m3 headers (pl + 1)); [lia|done|exact Hs4|done]).
Qed.

(** * Properties *)


Definition sample_response : bytes := Eval vm_compute in
  bs "HTTP/1.1 200 OK" ++ [10] ++ bs "Cache-Control: private, max-age=9" ++ [10] ++ bs "Content-Length: 4" ++ [10; 10; 0; 0; 0].

