(* ===== verification/Dll.v ===== *)
(** Intrusive doubly linked lists.  The event queue of the loop, the timer
    queues and the list of the memory cache are lists whose nodes live in other
    objects and carry [prev] and [next] pointers; a store maps the address of a
    node to its contents.  The operations are the pointer updates the code makes
    ([nxe_link]/[nxe_unlink], [nxe_set_timer]/[nxe_unset_timer] in
    lib/nx_event.c); the lemmas show that they append to and remove from a
    sequence. *)
From S2P Require Import Prelude.
Open Scope Z_scope.

Class LinkNode (K N : Type) := {
  prev_of : N -> option K;
  next_of : N -> option K;
  set_prev : option K -> N -> N;
  set_next : option K -> N -> N;
  prev_set_prev : forall p n, prev_of (set_prev p n) = p;
  next_set_next : forall p n, next_of (set_next p n) = p;
  prev_set_next : forall p n, prev_of (set_next p n) = prev_of n;
  next_set_prev : forall p n, next_of (set_prev p n) = next_of n;
}.
#[export] Hint Mode LinkNode - ! : typeclass_instances.

Section dll.
Context {K N : Type} `{Countable K} `{!LinkNode K N}.
Implicit Types (m : gmap K N) (e k : K) (n : N) (q : list K).

(** Store through a pointer; a pointer to nothing is an invalid access. *)
Definition upd (k : K) (f : N -> N) (m : gmap K N) : option (gmap K N) :=
  match m !! k with Some n => Some (<[k := f n]> m) | None => None end.
Definition upd_opt (k : option K) (f : N -> N) (m : gmap K N) : option (gmap K N) :=
  match k with Some k => upd k f m | None => Some m end.

(** Links [e] after the last node. *)
Definition dll_push_back (m : gmap K N) (first last : option K) (e : K) : option (gmap K N * option K * option K) :=
  match upd e (fun n => set_prev last (set_next None n)) m with
  | Some m =>
      match upd_opt last (set_next (Some e)) m with
      | Some m => Some (m, match last with Some _ => first | None => Some e end, Some e)
      | None => None
      end
  | None => None
  end.

(** Links [e] before the first node. *)
Definition dll_push_front (m : gmap K N) (first last : option K) (e : K) : option (gmap K N * option K * option K) :=
  match upd e (fun n => set_next first (set_prev None n)) m with
  | Some m =>
      match upd_opt first (set_prev (Some e)) m with
      | Some m => Some (m, Some e, match first with Some _ => last | None => Some e end)
      | None => None
      end
  | None => None
  end.

(** Takes [e] out of the list and clears its links. *)
Definition dll_unlink (m : gmap K N) (first last : option K) (e : K) : option (gmap K N * option K * option K) :=
  match m !! e with
  | None => None
  | Some n =>
      match upd_opt (prev_of n) (set_next (next_of n)) m with
      | None => None
      | Some m =>
          match upd_opt (next_of n) (set_prev (prev_of n)) m with
          | None => None
          | Some m =>
              match upd e (fun n => set_next None (set_prev None n)) m with
              | None => None
              | Some m => Some (m, match prev_of n with Some _ => first | None => next_of n end,
                                   match next_of n with Some _ => last | None => prev_of n end)
              end
          end
      end
  end.

(** ** The sequence a list represents *)

Fixpoint seg (m : gmap K N) (before : option K) (q : list K) (after : option K) : Prop :=
  match q with
  | [] => True
  | e :: q' =>
      (exists n, m !! e = Some n /\ prev_of n = before /\ next_of n = match q' with [] => after | x :: _ => Some x end) /\
      seg m (Some e) q' after
  end.

Definition dll (m : gmap K N) (first last' : option K) (q : list K) : Prop :=
  NoDup q /\ seg m None q None /\ first = head q /\ last' = last q.

Definition last_or (q : list K) (p : option K) : option K := match last q with Some x => Some x | None => p end.
Definition head_or (q : list K) (p : option K) : option K := match head q with Some x => Some x | None => p end.

Lemma seg_app m before q1 q2 after :
  seg m before (q1 ++ q2) after <-> seg m before q1 (head_or q2 after) /\ seg m (last_or q1 before) q2 after.
Proof.
  revert before. induction q1 as [|e q1 IH]; intros before; [cbn; tauto|].
  change ((e :: q1) ++ q2) with (e :: (q1 ++ q2)). cbn [seg]. rewrite IH.
  assert (Hl : last_or (e :: q1) before = last_or q1 (Some e)) by (unfold last_or; rewrite last_cons; by destruct (last q1)).
  rewrite Hl. assert (Hh : match q1 ++ q2 with [] => after | x :: _ => Some x end = match q1 with [] => head_or q2 after | x :: _ => Some x end).
  { destruct q1; [|done]. by destruct q2. }
  rewrite Hh. tauto.
Qed.

Lemma seg_ext m m' before q after : (forall k, k ∈ q -> m' !! k = m !! k) -> seg m before q after -> seg m' before q after.
Proof.
  revert before. induction q as [|e q IH]; intros before Hm; [done|]. cbn [seg]. intros [(n & Hn & Hr) Hs]. split.
  - exists n. split; [|done]. rewrite Hm; [done|set_solver].
  - apply IH; [|done]. intros k Hk. apply Hm. set_solver.
Qed.

Lemma seg_insert m before q after k n : k ∉ q -> seg m before q after -> seg (<[k := n]> m) before q after.
Proof. intros Hk. apply seg_ext. intros j Hj. apply lookup_insert_ne. by intros ->. Qed.

(** The node a segment ends with. *)
Lemma seg_snoc m before q e after :
  seg m before (q ++ [e]) after <->
  seg m before q (Some e) /\ exists n, m !! e = Some n /\ prev_of n = last_or q before /\ next_of n = after.
Proof. rewrite seg_app. cbn. tauto. Qed.

Lemma seg_set_after m before q e n after after' :
  e ∉ q -> m !! e = Some n -> seg m before (q ++ [e]) after -> seg (<[e := set_next after' n]> m) before (q ++ [e]) after'.
Proof.
  intros He Hn. rewrite !seg_snoc. intros [Hs (n' & Hn' & Hp & _)]. rewrite Hn in Hn'. injection Hn' as <-.
  split; [by apply seg_insert|]. exists (set_next after' n). rewrite lookup_insert_eq, prev_set_next, next_set_next. done.
Qed.

Lemma seg_set_before m before before' q e n after :
  e ∉ q -> m !! e = Some n -> seg m before (e :: q) after -> seg (<[e := set_prev before' n]> m) before' (e :: q) after.
Proof.
  intros He Hn. cbn [seg]. intros [(n' & Hn' & Hp & Hx) Hs]. rewrite Hn in Hn'. injection Hn' as <-.
  split; [|by apply seg_insert]. exists (set_prev before' n). rewrite lookup_insert_eq, prev_set_prev, next_set_prev. done.
Qed.

(** A property of nodes that does not look at the links. *)
Definition link_blind {A} (f : N -> A) : Prop :=
  (forall p n, f (set_prev p n) = f n) /\ (forall p n, f (set_next p n) = f n).

(** What an operation keeps of the nodes. *)
Definition payload {A} (f : N -> A) (m m' : gmap K N) : Prop := forall k, f <$> m' !! k = f <$> m !! k.

Lemma payload_refl {A} (f : N -> A) m : payload f m m.
Proof. done. Qed.
Lemma payload_trans {A} (f : N -> A) m1 m2 m3 : payload f m1 m2 -> payload f m2 m3 -> payload f m1 m3.
Proof. intros H1 H2 k. by rewrite H2. Qed.
Lemma payload_insert {A} (f : N -> A) m k n n' : m !! k = Some n -> f n' = f n -> payload f m (<[k := n']> m).
Proof.
  intros Hk Hf j. destruct (decide (k = j)) as [->|Hne]; [rewrite lookup_insert_eq, Hk; cbn; by rewrite Hf|by rewrite lookup_insert_ne].
Qed.

Lemma seg_member m before q after e : seg m before q after -> e ∈ q -> is_Some (m !! e).
Proof.
  revert before. induction q as [|x q IH]; intros before; [by intros _ ?%elem_of_nil|]. cbn [seg].
  intros [(n & Hn & _) Hs] [->|He]%elem_of_cons; [by exists n|by eapply IH].
Qed.

Lemma last_snoc_inv q x : last q = Some x -> exists q', q = q' ++ [x].
Proof. intros [q' ->]%last_Some. by exists q'. Qed.

(** Appending. *)
Lemma push_back_ok m first lst q e n :
  dll m first lst q -> e ∉ q -> m !! e = Some n ->
  exists m', dll_push_back m first lst e = Some (m', head (q ++ [e]), Some e) /\ dll m' (head (q ++ [e])) (Some e) (q ++ [e]) /\
    (forall A (f : N -> A), link_blind f -> payload f m m') /\ (forall k, k ∉ q ++ [e] -> m' !! k = m !! k).
Proof.
  intros (Hnd & Hs & -> & ->) He Hn. unfold dll_push_back, upd. rewrite Hn.
  set (ne := set_prev (last q) (set_next None n)). set (m1 := <[e := ne]> m).
  assert (Hnd' : NoDup (q ++ [e])) by (apply NoDup_app; split_and!; [done|set_solver|apply NoDup_singleton]).
  assert (Hf1 : forall A (f : N -> A), link_blind f -> payload f m m1).
  { intros A f [Hp Hx]. eapply payload_insert; [done|]. unfold ne. by rewrite Hp, Hx. }
  assert (Hne : prev_of ne = last q /\ next_of ne = None) by (unfold ne; rewrite prev_set_prev, next_set_prev, next_set_next; done).
  destruct (last q) as [x|] eqn:El.
  - destruct (last_snoc_inv _ _ El) as [q' ->]. assert (Hxe : x <> e) by set_solver.
    assert (Hxq : x ∉ q') by (apply NoDup_app in Hnd as (_ & Hd & _); set_solver).
    destruct (seg_member _ _ _ _ x Hs) as [nx Hx]; [set_solver|]. unfold upd_opt, upd.
    assert (Hx1 : m1 !! x = Some nx) by (unfold m1; by rewrite lookup_insert_ne). rewrite Hx1.
    exists (<[x := set_next (Some e) nx]> m1).
    assert (Hh : head ((q' ++ [x]) ++ [e]) = head (q' ++ [x])) by (by destruct q'). rewrite Hh.
    split; [done|]. split.
    { split_and!; [done| |done|by rewrite last_snoc]. apply seg_snoc. split.
      - apply seg_set_after with None; [done|done|]. by apply seg_insert.
      - exists ne. rewrite lookup_insert_ne by done. unfold m1. rewrite lookup_insert_eq. unfold last_or. rewrite last_snoc. done. }
    split.
    + intros A f Hb. eapply payload_trans; [by apply Hf1|]. eapply payload_insert; [done|]. by destruct Hb.
    + intros k Hk. rewrite lookup_insert_ne by set_solver. unfold m1. rewrite lookup_insert_ne by set_solver. done.
  - assert (q = []) as -> by (by apply last_None). cbn [upd_opt app head]. exists m1. split; [done|]. split.
    { split_and!; [done| |done|done]. cbn. split; [|done]. exists ne. unfold m1. rewrite lookup_insert_eq. done. }
    split; [exact Hf1|]. intros k Hk. unfold m1. rewrite lookup_insert_ne by set_solver. done.
Qed.

(** Putting a node in front. *)
Lemma push_front_ok m first lst q e n :
  dll m first lst q -> e ∉ q -> m !! e = Some n ->
  exists m', dll_push_front m first lst e = Some (m', Some e, last (e :: q)) /\ dll m' (Some e) (last (e :: q)) (e :: q) /\
    (forall A (f : N -> A), link_blind f -> payload f m m') /\ (forall k, k ∉ e :: q -> m' !! k = m !! k).
Proof.
  intros (Hnd & Hs & -> & ->) He Hn. unfold dll_push_front, upd. rewrite Hn.
  set (ne := set_next (head q) (set_prev None n)). set (m1 := <[e := ne]> m).
  assert (Hnd' : NoDup (e :: q)) by by constructor.
  assert (Hf1 : forall A (f : N -> A), link_blind f -> payload f m m1).
  { intros A f [Hp Hx]. eapply payload_insert; [done|]. unfold ne. by rewrite Hx, Hp. }
  assert (Hne : prev_of ne = None /\ next_of ne = head q) by (unfold ne; rewrite prev_set_next, prev_set_prev, next_set_next; done).
  destruct q as [|x q]; cbn [head upd_opt].
  - exists m1. split; [done|]. split.
    { split_and!; [done| |done|done]. cbn. split; [|done]. exists ne. unfold m1. rewrite lookup_insert_eq. done. }
    split; [exact Hf1|]. intros k Hk. unfold m1. rewrite lookup_insert_ne by set_solver. done.
  - assert (Hxe : x <> e) by set_solver. assert (Hxq : x ∉ q) by (by apply NoDup_cons in Hnd as [? _]).
    destruct (seg_member _ _ _ _ x Hs) as [nx Hx]; [by left|]. unfold upd.
    assert (Hx1 : m1 !! x = Some nx) by (unfold m1; by rewrite lookup_insert_ne). rewrite Hx1.
    exists (<[x := set_prev (Some e) nx]> m1). rewrite (last_cons_cons e x q). split; [done|]. split.
    { split_and!; [done| |done|by rewrite last_cons_cons]. split.
      - exists ne. rewrite lookup_insert_ne by done. unfold m1. rewrite lookup_insert_eq. done.
      - apply seg_set_before with None; [done|done|]. by apply seg_insert. }
    split.
    + intros A f Hb. eapply payload_trans; [by apply Hf1|]. eapply payload_insert; [done|]. by destruct Hb.
    + intros k Hk. rewrite lookup_insert_ne by set_solver. unfold m1. rewrite lookup_insert_ne by set_solver. done.
Qed.

(** Taking out the node between [q1] and [q2]. *)
Lemma unlink_ok m first lst q1 e q2 :
  dll m first lst (q1 ++ e :: q2) ->
  exists m', dll_unlink m first lst e = Some (m', head (q1 ++ q2), last (q1 ++ q2)) /\ dll m' (head (q1 ++ q2)) (last (q1 ++ q2)) (q1 ++ q2) /\
    (forall A (f : N -> A), link_blind f -> payload f m m') /\ (forall k, k ∉ q1 ++ e :: q2 -> m' !! k = m !! k) /\
    (exists n, m' !! e = Some n /\ prev_of n = None /\ next_of n = None).
Proof.
  intros (Hnd & Hs & -> & ->). unfold dll_unlink. pose proof Hnd as Hnd0.
  apply NoDup_app in Hnd as (Hn1 & Hd & Hn2). apply NoDup_cons in Hn2 as [He2 Hn2].
  assert (He1 : e ∉ q1) by (intros Hin; by apply (Hd e Hin); left).
  assert (Hd2 : forall k, k ∈ q1 -> k ∉ q2) by (intros k Hk Hk2; apply (Hd k Hk); by right).
  assert (Hnd' : NoDup (q1 ++ q2)) by (apply NoDup_app; split_and!; done).
  apply seg_app in Hs as [Hs1 Hs2]. cbn [seg head_or head] in *. destruct Hs2 as [(n & Hn & Hp & Hx) Hs2].
  rewrite Hn. assert (Hp' : prev_of n = last q1) by (rewrite Hp; unfold last_or; by destruct (last q1)). clear Hp.
  assert (Hx' : next_of n = head q2) by (rewrite Hx; by destruct q2). clear Hx. rewrite Hp', Hx'.
  (* the node before *)
  assert (exists m1, upd_opt (last q1) (set_next (head q2)) m = Some m1 /\ seg m1 None q1 (head q2) /\ seg m1 (Some e) q2 None /\
    m1 !! e = Some n /\ (forall A (f : N -> A), link_blind f -> payload f m m1) /\ (forall k, k ∉ q1 -> m1 !! k = m !! k)) as (m1 & -> & Hs1' & Hs2' & Hn' & Hf1 & Hk1).
  { destruct (last q1) as [x|] eqn:El.
    - destruct (last_snoc_inv _ _ El) as [q' ->]. destruct (seg_member _ _ _ _ x Hs1) as [nx Hxl]; [set_solver|].
      cbn [upd_opt]. unfold upd. rewrite Hxl. eexists. split; [done|].
      assert (x <> e) by set_solver. assert (x ∉ q2) by (apply Hd2; set_solver).
      assert (x ∉ q') by (apply NoDup_app in Hn1 as (_ & Hd' & _); set_solver).
      split_and!.
      + by apply seg_set_after with (Some e).
      + by apply seg_insert.
      + by rewrite lookup_insert_ne.
      + intros A f Hb. eapply payload_insert; [done|]. by destruct Hb.
      + intros k Hk. rewrite lookup_insert_ne by set_solver. done.
    - assert (q1 = []) as -> by (by apply last_None). exists m. split_and!; done. }
  (* the node after *)
  assert (exists m2, upd_opt (head q2) (set_prev (last q1)) m1 = Some m2 /\ seg m2 None q1 (head q2) /\ seg m2 (last q1) q2 None /\
    m2 !! e = Some n /\ (forall A (f : N -> A), link_blind f -> payload f m m2) /\ (forall k, k ∉ q1 ++ q2 -> m2 !! k = m !! k)) as (m2 & -> & Hs1'' & Hs2'' & Hn'' & Hf2 & Hk2).
  { destruct q2 as [|x q2]; cbn [head].
    - exists m1. split_and!; try done. intros k Hk. apply Hk1. set_solver.
    - apply NoDup_cons in Hn2 as [Hx2 Hn2]. destruct (seg_member _ _ _ _ x Hs2') as [nx Hxl]; [set_solver|].
      cbn [upd_opt]. unfold upd. rewrite Hxl. eexists. split; [done|].
      assert (x <> e) by set_solver. assert (x ∉ q1) by (intros Hin; apply (Hd2 x Hin); left).
      split_and!.
      + by apply seg_insert.
      + by apply seg_set_before with (Some e).
      + by rewrite lookup_insert_ne.
      + intros A f Hb. eapply payload_trans; [by apply Hf1|]. eapply payload_insert; [done|]. by destruct Hb.
      + intros k Hk. rewrite lookup_insert_ne by set_solver. apply Hk1. set_solver. }
  unfold upd. rewrite Hn''. exists (<[e := set_next None (set_prev None n)]> m2).
  assert (Hhd : match last q1 with Some _ => head (q1 ++ e :: q2) | None => head q2 end = head (q1 ++ q2)).
  { destruct q1 as [|y q1]; [done|]. cbn [app head]. destruct (last (y :: q1)) eqn:El; [done|]. by apply last_None in El. }
  assert (Hla : match head q2 with Some _ => last (q1 ++ e :: q2) | None => last q1 end = last (q1 ++ q2)).
  { destruct q2 as [|y q2]; cbn [head]; [by rewrite app_nil_r|]. rewrite !last_app. rewrite (last_cons e). destruct (last (y :: q2)) eqn:El; [done|]. by apply last_None in El. }
  rewrite Hhd, Hla. split; [done|]. split_and!.
  - split_and!; [done| |done|done]. apply seg_app. split.
    + apply seg_insert; [done|]. unfold head_or. by destruct (head q2).
    + apply seg_insert; [done|]. unfold last_or. by destruct (last q1).
  - intros A f Hb. eapply payload_trans; [by apply Hf2|]. eapply payload_insert; [done|]. destruct Hb as [B1 B2]. by rewrite B2, B1.
  - intros k Hk. rewrite lookup_insert_ne by set_solver. apply Hk2. set_solver.
  - eexists. rewrite lookup_insert_eq. split; [done|]. by rewrite next_set_next, prev_set_next, prev_set_prev.
Qed.

(** Nodes outside the list may be changed freely. *)
Lemma dll_insert m first lst q k n : dll m first lst q -> k ∉ q -> dll (<[k := n]> m) first lst q.
Proof. intros (Hnd & Hs & Hf & Hl) Hk. split_and!; try done. by apply seg_insert. Qed.

Lemma dll_member m first lst q e : dll m first lst q -> e ∈ q -> is_Some (m !! e).
Proof. intros (_ & Hs & _) He. by eapply seg_member. Qed.

(** Changing a node of the list without touching its links. *)
Lemma seg_payload m before q after k n n' :
  m !! k = Some n -> prev_of n' = prev_of n -> next_of n' = next_of n -> seg m before q after -> seg (<[k := n']> m) before q after.
Proof.
  intros Hk Hp Hx. revert before. induction q as [|e q IH]; intros before; [done|]. cbn [seg]. intros [(ne & Hne & Hr) Hs].
  split; [|by apply IH]. destruct (decide (k = e)) as [->|Hn].
  - rewrite Hk in Hne. injection Hne as ->. exists n'. rewrite lookup_insert_eq, Hp, Hx. done.
  - exists ne. by rewrite lookup_insert_ne.
Qed.
Lemma dll_payload m first lst q k n n' :
  m !! k = Some n -> prev_of n' = prev_of n -> next_of n' = next_of n -> dll m first lst q -> dll (<[k := n']> m) first lst q.
Proof. intros Hk Hp Hx (Hnd & Hs & Hf & Hl). split_and!; try done. by eapply seg_payload. Qed.
End dll.

(** ** Singly linked chains *)
Section chain.
Context {K N : Type} `{Countable K}.
Context (nx : N -> option K).
Implicit Types (m : gmap K N).

Fixpoint chain (m : gmap K N) (start : option K) (l : list K) : Prop :=
  match l with
  | [] => start = None
  | e :: l' => start = Some e /\ exists n, m !! e = Some n /\ chain m (nx n) l'
  end.

Lemma chain_ext m m' start l :
  (forall e, e ∈ l -> nx <$> m' !! e = nx <$> m !! e) -> chain m start l -> chain m' start l.
Proof.
  revert start. induction l as [|e l IH]; intros start Hm; [done|]. cbn [chain]. intros (-> & n & Hn & Hc). split; [done|].
  pose proof (Hm e ltac:(left)) as He. rewrite Hn in He. destruct (m' !! e) as [n'|]; [|done]. cbn in He. injection He as He.
  exists n'. split; [done|]. rewrite He. apply IH; [|done]. intros k Hk. apply Hm. by right.
Qed.

Lemma chain_inj m start l l' : chain m start l -> chain m start l' -> l = l'.
Proof.
  revert start l'. induction l as [|e l IH]; intros start [|e' l']; cbn [chain]; [done| | |].
  - by intros -> (? & _).
  - by intros (-> & _) ?.
  - intros (-> & n & Hn & Hc) (E & n' & Hn' & Hc'). injection E as <-. rewrite Hn in Hn'. injection Hn' as <-. f_equal. by eapply IH.
Qed.

Lemma chain_insert m start l k n : k ∉ l -> chain m start l -> chain (<[k := n]> m) start l.
Proof. intros Hk. apply chain_ext. intros e He. rewrite lookup_insert_ne; [done|]. by intros ->. Qed.
Lemma chain_delete m start l k : k ∉ l -> chain m start l -> chain (base.delete k m) start l.
Proof. intros Hk. apply chain_ext. intros e He. rewrite lookup_delete_ne; [done|]. by intros ->. Qed.

(** Storing a new successor in the node before a suffix. *)
Lemma chain_splice m start l1 x n n' l2 l3 :
  m !! x = Some n -> x ∉ l1 -> x ∉ l3 -> chain m start (l1 ++ x :: l2) -> chain m (nx n') l3 -> chain (<[x := n']> m) start (l1 ++ x :: l3).
Proof.
  intros Hx H1 H3. revert start. induction l1 as [|y l1 IH]; intros start; cbn [app chain].
  - intros (-> & _) Hc. split; [done|]. exists n'. rewrite lookup_insert_eq. split; [done|]. by apply chain_insert.
  - intros (-> & ny & Hy & Hc) Hc3. split; [done|]. exists ny. rewrite lookup_insert_ne by set_solver. split; [done|].
    apply IH; [set_solver|done|done].
Qed.
Lemma chain_from m start l1 x l2 n : chain m start (l1 ++ x :: l2) -> m !! x = Some n -> chain m (nx n) l2.
Proof.
  revert start. induction l1 as [|y l1 IH]; intros start; cbn [app chain].
  - intros (-> & n' & Hn' & Hc) Hn. rewrite Hn in Hn'. by injection Hn' as <-.
  - intros (_ & ny & _ & Hc). by eapply IH.
Qed.

(** A chain never comes back to itself. *)
Lemma chain_suffix m start l1 e l2 : chain m start (l1 ++ e :: l2) -> chain m (Some e) (e :: l2).
Proof.
  revert start. induction l1 as [|x l1 IH]; intros start; cbn [app].
  - cbn [chain]. intros (-> & Hr). done.
  - intros (_ & n & _ & Hc). by eapply IH.
Qed.
Lemma chain_NoDup m start l : chain m start l -> NoDup l.
Proof.
  revert start. induction l as [|e l IH]; intros start Hc; [constructor|]. pose proof Hc as (-> & n & Hn & Hl).
  constructor; [|by eapply IH]. intros (l1 & l2 & ->)%list_elem_of_split.
  pose proof (chain_suffix m (nx n) l1 e l2 Hl) as Hs. pose proof (chain_inj _ _ _ _ Hc Hs) as E.
  apply (f_equal length) in E. cbn in E. rewrite length_app in E. cbn in E. lia.
Qed.
Lemma chain_member m start l e : chain m start l -> e ∈ l -> is_Some (m !! e).
Proof.
  revert start. induction l as [|x l IH]; intros start; [by intros _ ?%elem_of_nil|]. intros (_ & n & Hn & Hc).
  intros [->|He]%elem_of_cons; [by exists n|by eapply IH].
Qed.
Lemma chain_length m start l : chain m start l -> (length l <= size m)%nat.
Proof.
  intros Hc. rewrite <- size_dom. rewrite <- (size_list_to_set (C := gset K) l (chain_NoDup _ _ _ Hc)).
  apply subseteq_size. intros e He%elem_of_list_to_set. apply elem_of_dom. by eapply chain_member.
Qed.
End chain.
