(* ===== verification/Event.v ===== *)
(** The event loop (include/nxweb/nx_event.h, lib/nx_event.c): the queue of
    events, stream connections and their readiness, publishers and subscribers,
    and the delivery of one event.

    Addresses of streams, publishers and subscribers are names; the event
    embedded in an istream is [Embedded] of that stream, an event taken from the
    loop's pool is [Pooled].  All interfaces belong to one loop, so a [loop]
    pointer is the flag "not null".  The class methods of an interface
    ([do_write], [do_read], [do_publish], [on_message]) and callbacks are the
    parameter [Handlers].  Log messages are not modelled. *)
From S2P Require Import Prelude Dll.
Open Scope Z_scope.

(** * Data *)

Inductive event_id := Embedded (i : positive) | Pooled (n : positive).
#[export] Instance event_id_eq_dec : EqDecision event_id.
Proof. solve_decision. Defined.
#[export] Instance event_id_countable : Countable event_id.
Proof.
  refine (inj_countable' (fun e => match e with Embedded i => inl i | Pooled n => inr n end)
    (fun s => match s with inl i => Embedded i | inr n => Pooled n end) _). by intros [].
Defined.

Inductive nxe_event_class := NXE_EV_STREAM | NXE_EV_MESSAGE | NXE_EV_CALLBACK.
Inductive nxe_receiver := R_null | R_os (o : positive) | R_sub (s : positive) | R_callback (f : Z).
#[export] Instance nxe_receiver_eq_dec : EqDecision nxe_receiver.
Proof. solve_decision. Defined.

Record nxe_event := mk_evt {
  evt_cls : nxe_event_class;
  evt_loop : bool;
  evt_receiver : nxe_receiver;
  evt_data : Z;
  evt_next_by_receiver : option event_id;
  evt_prev : option event_id;
  evt_next : option event_id;
}.
Record nxe_istream := mk_is { is_loop : bool; is_ready : bool; is_pair : option positive }.
Record nxe_ostream := mk_os { os_loop : bool; os_ready : bool; os_pair : option positive }.
Record nxe_publisher := mk_pub { pub_loop : bool; pub_sub : option positive }.
Record nxe_subscriber := mk_sub {
  sub_loop : bool;
  sub_pub : option positive;
  sub_next : option positive;
  sub_evt : option event_id;
}.

Record nxe_loop := mk_loop {
  l_events : gmap event_id nxe_event;
  l_istreams : gmap positive nxe_istream;
  l_ostreams : gmap positive nxe_ostream;
  l_publishers : gmap positive nxe_publisher;
  l_subscribers : gmap positive nxe_subscriber;
  l_first : option event_id;
  l_last : option event_id;
  l_batch_write_fd : Z;
  l_next_event : positive;   (* the next address the pool gives out *)
}.

#[export] Instance event_links : LinkNode event_id nxe_event := {
  prev_of := evt_prev;
  next_of := evt_next;
  set_prev p e := mk_evt (evt_cls e) (evt_loop e) (evt_receiver e) (evt_data e) (evt_next_by_receiver e) p (evt_next e);
  set_next x e := mk_evt (evt_cls e) (evt_loop e) (evt_receiver e) (evt_data e) (evt_next_by_receiver e) (evt_prev e) x;
  prev_set_prev _ _ := eq_refl;
  next_set_next _ _ := eq_refl;
  prev_set_next _ _ := eq_refl;
  next_set_prev _ _ := eq_refl;
}.

(** Field updates. *)
Definition set_evt_loop (b : bool) (e : nxe_event) := mk_evt (evt_cls e) b (evt_receiver e) (evt_data e) (evt_next_by_receiver e) (evt_prev e) (evt_next e).
Definition set_evt_receiver (r : nxe_receiver) (e : nxe_event) := mk_evt (evt_cls e) (evt_loop e) r (evt_data e) (evt_next_by_receiver e) (evt_prev e) (evt_next e).
Definition set_evt_next_by_receiver (x : option event_id) (e : nxe_event) := mk_evt (evt_cls e) (evt_loop e) (evt_receiver e) (evt_data e) x (evt_prev e) (evt_next e).
Definition set_is_ready (b : bool) (i : nxe_istream) := mk_is (is_loop i) b (is_pair i).
Definition set_is_pair (p : option positive) (i : nxe_istream) := mk_is (is_loop i) (is_ready i) p.
Definition set_os_ready (b : bool) (o : nxe_ostream) := mk_os (os_loop o) b (os_pair o).
Definition set_os_pair (p : option positive) (o : nxe_ostream) := mk_os (os_loop o) (os_ready o) p.
Definition set_pub_sub (x : option positive) (p : nxe_publisher) := mk_pub (pub_loop p) x.
Definition set_sub_next (x : option positive) (s : nxe_subscriber) := mk_sub (sub_loop s) (sub_pub s) x (sub_evt s).
Definition set_sub_evt (x : option event_id) (s : nxe_subscriber) := mk_sub (sub_loop s) (sub_pub s) (sub_next s) x.
Definition set_queue (m : gmap event_id nxe_event) (first last : option event_id) (l : nxe_loop) :=
  mk_loop m (l_istreams l) (l_ostreams l) (l_publishers l) (l_subscribers l) first last (l_batch_write_fd l) (l_next_event l).
Definition set_events (m : gmap event_id nxe_event) (l : nxe_loop) := set_queue m (l_first l) (l_last l) l.
Definition set_istreams (m : gmap positive nxe_istream) (l : nxe_loop) :=
  mk_loop (l_events l) m (l_ostreams l) (l_publishers l) (l_subscribers l) (l_first l) (l_last l) (l_batch_write_fd l) (l_next_event l).
Definition set_ostreams (m : gmap positive nxe_ostream) (l : nxe_loop) :=
  mk_loop (l_events l) (l_istreams l) m (l_publishers l) (l_subscribers l) (l_first l) (l_last l) (l_batch_write_fd l) (l_next_event l).
Definition set_publishers (m : gmap positive nxe_publisher) (l : nxe_loop) :=
  mk_loop (l_events l) (l_istreams l) (l_ostreams l) m (l_subscribers l) (l_first l) (l_last l) (l_batch_write_fd l) (l_next_event l).
Definition set_subscribers (m : gmap positive nxe_subscriber) (l : nxe_loop) :=
  mk_loop (l_events l) (l_istreams l) (l_ostreams l) (l_publishers l) m (l_first l) (l_last l) (l_batch_write_fd l) (l_next_event l).
Definition set_next_event (n : positive) (l : nxe_loop) :=
  mk_loop (l_events l) (l_istreams l) (l_ostreams l) (l_publishers l) (l_subscribers l) (l_first l) (l_last l) (l_batch_write_fd l) n.
Definition set_batch_write_fd (fd : Z) (l : nxe_loop) :=
  mk_loop (l_events l) (l_istreams l) (l_ostreams l) (l_publishers l) (l_subscribers l) (l_first l) (l_last l) fd (l_next_event l).

(** * Operations *)

Section access.
Context {A : Type}.
Definition load (sel : nxe_loop -> gmap positive A) (k : positive) : M nxe_loop A :=
  let! l := get in lift_opt BadPtr (sel l !! k).
End access.
Definition get_is := load l_istreams.
Definition get_os := load l_ostreams.
Definition get_pub := load l_publishers.
Definition get_sub := load l_subscribers.
Definition get_evt (e : event_id) : M nxe_loop nxe_event := let! l := get in lift_opt BadPtr (l_events l !! e).

Definition upd_is (k : positive) (f : nxe_istream -> nxe_istream) : M nxe_loop unit :=
  let! l := get in let! m := lift_opt BadPtr (upd k f (l_istreams l)) in put (set_istreams m l).
Definition upd_os (k : positive) (f : nxe_ostream -> nxe_ostream) : M nxe_loop unit :=
  let! l := get in let! m := lift_opt BadPtr (upd k f (l_ostreams l)) in put (set_ostreams m l).
Definition upd_pub (k : positive) (f : nxe_publisher -> nxe_publisher) : M nxe_loop unit :=
  let! l := get in let! m := lift_opt BadPtr (upd k f (l_publishers l)) in put (set_publishers m l).
Definition upd_sub (k : positive) (f : nxe_subscriber -> nxe_subscriber) : M nxe_loop unit :=
  let! l := get in let! m := lift_opt BadPtr (upd k f (l_subscribers l)) in put (set_subscribers m l).
Definition upd_evt (k : event_id) (f : nxe_event -> nxe_event) : M nxe_loop unit :=
  let! l := get in let! m := lift_opt BadPtr (upd k f (l_events l)) in put (set_events m l).

(** ** The event queue *)

Definition nxe_link (e : event_id) : M nxe_loop unit :=
  let! evt := get_evt e in
  do! assert_ (negb (bool_decide (evt_receiver evt = R_null))) in
  do! assert_ (negb (evt_loop evt)) in
  let! l := get in
  let! r := lift_opt BadPtr (dll_push_back (l_events l) (l_first l) (l_last l) e) in
  let '(m, first, last) := r in
  do! put (set_queue m first last l) in
  upd_evt e (set_evt_loop true).

Definition nxe_unlink (e : event_id) : M nxe_loop unit :=
  let! evt := get_evt e in
  do! assert_ (evt_loop evt) in
  let! l := get in
  let! r := lift_opt BadPtr (dll_unlink (l_events l) (l_first l) (l_last l) e) in
  let '(m, first, last) := r in
  do! put (set_queue m first last l) in
  upd_evt e (set_evt_loop false).

(** [nxp_alloc] on the event pool, which is assumed not to run out of memory,
    followed by the initialisation of the event. *)
Definition alloc_event (cls : nxe_event_class) (receiver : nxe_receiver) (data : Z) : M nxe_loop event_id :=
  let! l := get in
  let e := Pooled (l_next_event l) in
  do! put (set_next_event (Pos.succ (l_next_event l))
             (set_events (<[e := mk_evt cls false receiver data None None None]> (l_events l)) l)) in
  ret e.
Definition free_event (e : event_id) : M nxe_loop unit :=
  let! l := get in put (set_events (base.delete e (l_events l)) l).

(** ** Streams *)

(** Emits the event of a connection both ends of which are ready. *)
Definition emit_stream (i o : positive) : M nxe_loop unit :=
  do! upd_evt (Embedded i) (set_evt_receiver (R_os o)) in nxe_link (Embedded i).

Definition nxe_istream_set_ready (i : positive) : M nxe_loop unit :=
  let! ist := get_is i in
  if is_ready ist then ret tt else
  do! upd_is i (set_is_ready true) in
  match is_pair ist with
  | None => ret tt
  | Some o =>
      let! ost := get_os o in
      let! evt := get_evt (Embedded i) in
      if os_ready ost && negb (evt_loop evt) then emit_stream i o else ret tt
  end.
Definition nxe_istream_unset_ready (i : positive) : M nxe_loop unit := upd_is i (set_is_ready false).

Definition nxe_ostream_set_ready (o : positive) : M nxe_loop unit :=
  do! upd_os o (set_os_ready true) in
  let! ost := get_os o in
  match os_pair ost with
  | None => ret tt
  | Some i =>
      let! ist := get_is i in
      let! evt := get_evt (Embedded i) in
      if is_ready ist && negb (evt_loop evt) then emit_stream i o else ret tt
  end.
Definition nxe_ostream_unset_ready (o : positive) : M nxe_loop unit := upd_os o (set_os_ready false).

Definition nxe_connect_streams (i o : positive) : M nxe_loop unit :=
  do! upd_is i (fun ist => mk_is true (is_ready ist) (Some o)) in
  do! upd_os o (fun ost => mk_os true (os_ready ost) (Some i)) in
  let! ist := get_is i in
  let! ost := get_os o in
  if is_ready ist && os_ready ost then emit_stream i o else ret tt.

Definition nxe_disconnect_streams (i o : positive) : M nxe_loop unit :=
  do! upd_is i (set_is_pair None) in
  do! upd_os o (set_os_pair None) in
  let! evt := get_evt (Embedded i) in
  if evt_loop evt then nxe_unlink (Embedded i) else ret tt.

(** ** Messages *)

Definition nxe_subscribe (p s : positive) : M nxe_loop unit :=
  let! sub := get_sub s in
  do! assert_ (bool_decide (sub_pub sub = None)) in
  do! assert_ (bool_decide (sub_next sub = None)) in
  let! pub := get_pub p in
  do! upd_sub s (fun sub => mk_sub true (Some p) (pub_sub pub) (sub_evt sub)) in
  upd_pub p (fun _ => mk_pub true (Some s)).

(** The last event of a subscriber's list of active events, from [e]. *)
Definition last_active (e : event_id) : M nxe_loop event_id :=
  let! l := get in
  loop (S (size (l_events l))) (fun e =>
    let! evt := get_evt e in
    match evt_next_by_receiver evt with Some x => ret (inl x) | None => ret (inr e) end) e.

Definition publish_to (data : Z) (s : positive) : M nxe_loop unit :=
  let! e := alloc_event NXE_EV_MESSAGE (R_sub s) data in
  do! nxe_link e in
  let! sub := get_sub s in
  match sub_evt sub with
  | None => upd_sub s (set_sub_evt (Some e))
  | Some x => let! x := last_active x in upd_evt x (set_evt_next_by_receiver (Some e))
  end.

Definition nxe_publish (p : positive) (data : Z) : M nxe_loop unit :=
  let! pub := get_pub p in
  if negb (pub_loop pub) then ret tt else
  let! l := get in
  loop (S (size (l_subscribers l))) (fun sub =>
    match sub with
    | None => ret (inr tt)
    | Some s =>
        do! publish_to data s in
        let! sub := get_sub s in
        ret (inl (sub_next sub))
    end) (pub_sub pub).

(** Takes [s] out of the list of subscribers that starts at [x]. *)
Definition remove_subscriber (s : positive) (x : option positive) : M nxe_loop unit :=
  let! l := get in
  loop (S (size (l_subscribers l))) (fun x =>
    match x with
    | None => ret (inr tt)
    | Some x =>
        let! xs := get_sub x in
        if bool_decide (sub_next xs = Some s) then
          let! sub := get_sub s in
          do! upd_sub x (set_sub_next (sub_next sub)) in
          do! upd_sub s (fun sb => mk_sub (sub_loop sb) None None (sub_evt sb)) in
          ret (inr tt)
        else ret (inl (sub_next xs))
    end) x.

(** Unlinks and frees the events that are still to be delivered. *)
Definition drop_active (e : option event_id) : M nxe_loop unit :=
  let! l := get in
  loop (S (size (l_events l))) (fun next_evt =>
    match next_evt with
    | None => ret (inr tt)
    | Some e =>
        let! evt := get_evt e in
        do! nxe_unlink e in
        do! free_event e in
        ret (inl (evt_next_by_receiver evt))
    end) e.

Definition nxe_unsubscribe (p s : positive) : M nxe_loop unit :=
  let! sub := get_sub s in
  do! assert_ (bool_decide (sub_pub sub = Some p)) in
  let! pub := get_pub p in
  do! (if bool_decide (pub_sub pub = Some s) then
         do! upd_pub p (set_pub_sub (sub_next sub)) in
         upd_sub s (fun sb => mk_sub (sub_loop sb) None None (sub_evt sb))
       else remove_subscriber s (pub_sub pub)) in
  let! sub := get_sub s in
  do! drop_active (sub_evt sub) in
  upd_sub s (set_sub_evt None).

Definition nxe_schedule_callback (func data : Z) : M nxe_loop unit :=
  let! e := alloc_event NXE_EV_CALLBACK (R_callback func) data in do! nxe_link e in ret tt.

(** ** Creation *)

Definition nxe_create : nxe_loop := mk_loop ∅ ∅ ∅ ∅ ∅ None None 0 1.
Definition nxe_init_istream (i : positive) : M nxe_loop unit :=
  modify (fun l => set_istreams (<[i := mk_is false false None]> (l_istreams l))
                     (set_events (<[Embedded i := mk_evt NXE_EV_STREAM false R_null 0 None None None]> (l_events l)) l)).
Definition nxe_init_ostream (o : positive) : M nxe_loop unit :=
  modify (fun l => set_ostreams (<[o := mk_os false false None]> (l_ostreams l)) l).
Definition nxe_init_publisher (p : positive) : M nxe_loop unit :=
  modify (fun l => set_publishers (<[p := mk_pub false None]> (l_publishers l)) l).
Definition nxe_init_subscriber (s : positive) : M nxe_loop unit :=
  modify (fun l => set_subscribers (<[s := mk_sub false None None None]> (l_subscribers l)) l).

(** The operations a program applies to the loop. *)
Inductive loop_op :=
  | InitIstream (i : positive) | InitOstream (o : positive) | InitPublisher (p : positive) | InitSubscriber (s : positive)
  | IstreamSetReady (i : positive) | IstreamUnsetReady (i : positive)
  | OstreamSetReady (o : positive) | OstreamUnsetReady (o : positive)
  | Connect (i o : positive) | Disconnect (i o : positive)
  | Subscribe (p s : positive) | Unsubscribe (p s : positive) | Publish (p : positive) (data : Z)
  | ScheduleCallback (func data : Z).

Definition run_op (op : loop_op) : M nxe_loop unit :=
  match op with
  | InitIstream i => nxe_init_istream i
  | InitOstream o => nxe_init_ostream o
  | InitPublisher p => nxe_init_publisher p
  | InitSubscriber s => nxe_init_subscriber s
  | IstreamSetReady i => nxe_istream_set_ready i
  | IstreamUnsetReady i => nxe_istream_unset_ready i
  | OstreamSetReady o => nxe_ostream_set_ready o
  | OstreamUnsetReady o => nxe_ostream_unset_ready o
  | Connect i o => nxe_connect_streams i o
  | Disconnect i o => nxe_disconnect_streams i o
  | Subscribe p s => nxe_subscribe p s
  | Unsubscribe p s => nxe_unsubscribe p s
  | Publish p data => nxe_publish p data
  | ScheduleCallback f data => nxe_schedule_callback f data
  end.

(** ** Delivery *)

(** The class methods of the interfaces; a null method is [None]. *)
Class Handlers := {
  do_write : positive -> option (positive -> M nxe_loop unit);               (* of an istream, with the ostream *)
  do_read : positive -> option (positive -> M nxe_loop unit);                (* of an ostream, with the istream *)
  do_publish : positive -> option (positive -> Z -> M nxe_loop unit);        (* of a publisher, with the subscriber and the data *)
  on_message : positive -> positive -> Z -> M nxe_loop unit;                 (* of a subscriber, with the publisher and the data *)
  callback : Z -> Z -> M nxe_loop unit;
}.

Section delivery.
Context `{Handlers}.

Definition DEAD_LOOP_COUNT : nat := 50.

(** Transfers while both ends stay ready, at most fifty times in a row. *)
Definition transfer_once (e : event_id) (i o : positive) (handler : M nxe_loop unit) (count : nat) : M nxe_loop (nat + unit) :=
  let! ist := get_is i in
  let! ost := get_os o in
  if is_ready ist && os_ready ost && bool_decide (os_pair ost = Some i) then
    match count with
    | O => do! nxe_link e in ret (inr tt)
    | S n => do! handler in ret (inl n)
    end
  else ret (inr tt).
Definition transfer (e : event_id) (i o : positive) (handler : M nxe_loop unit) : M nxe_loop unit :=
  loop (S (S DEAD_LOOP_COUNT)) (transfer_once e i o handler) DEAD_LOOP_COUNT.

Definition stream_event_deliver (e : event_id) : M nxe_loop unit :=
  let! evt := get_evt e in
  match evt_receiver evt with
  | R_os o =>
      let! ost := get_os o in
      match os_pair ost with
      | None => ret tt
      | Some i =>
          match do_write i, do_read o with
          | Some f, _ => transfer e i o (f o)
          | None, Some f => transfer e i o (f i)
          | None, None => fail AssertFail
          end
      end
  | _ => fail BadPtr
  end.

Definition message_event_deliver (e : event_id) : M nxe_loop unit :=
  let! evt := get_evt e in
  match evt_receiver evt with
  | R_sub s =>
      let! sub := get_sub s in
      let! p := lift_opt BadPtr (sub_pub sub) in
      do! assert_ (bool_decide (sub_evt sub = Some e)) in
      do! upd_sub s (set_sub_evt (evt_next_by_receiver evt)) in
      match do_publish p with
      | Some f => f s (evt_data evt)
      | None => on_message s p (evt_data evt)
      end
  | _ => fail BadPtr
  end.

Definition callback_event_deliver (e : event_id) : M nxe_loop unit :=
  let! evt := get_evt e in
  match evt_receiver evt with R_callback f => callback f (evt_data evt) | _ => fail BadPtr end.

(** One round of [nxe_process_loop]; [false] when the queue is empty. *)
Definition process_event : M nxe_loop bool :=
  let! l := get in
  match l_first l with
  | None => ret false
  | Some e =>
      let! evt := get_evt e in
      do! put (set_queue (l_events l) (evt_next evt) (l_last l) l) in
      do! nxe_unlink e in
      do! match evt_cls evt with
          | NXE_EV_STREAM => stream_event_deliver e
          | NXE_EV_MESSAGE => message_event_deliver e
          | NXE_EV_CALLBACK => callback_event_deliver e
          end in
      do! modify (set_batch_write_fd 0) in
      do! match evt_cls evt with NXE_EV_STREAM => ret tt | _ => free_event e end in
      ret true
  end.
Definition nxe_process_loop (fuel : nat) : M nxe_loop unit :=
  loop fuel (fun _ => let! more := process_event in ret (if more : bool then inl tt else inr tt)) tt.
End delivery.

(** ** Event sources: what epoll reports becomes readiness and messages *)

Definition EPOLLIN := 1.
Definition EPOLLOUT := 4.
Definition EPOLLERR := 8.
Definition EPOLLHUP := 16.
Definition EPOLLRDHUP := 8192.
Definition NXE_ERROR := -1.
Definition NXE_RDHUP := -2.
Definition NXE_HUP := -3.
Definition has (events flag : Z) : bool := negb (Z.land events flag =? 0).

Definition emit_errors (p : positive) (events : Z) : M nxe_loop unit :=
  if has events EPOLLERR then nxe_publish p NXE_ERROR
  else if has events EPOLLRDHUP then nxe_publish p NXE_RDHUP
  else if has events EPOLLHUP then nxe_publish p NXE_HUP
  else ret tt.

(** A file descriptor source: its two streams and its error publisher. *)
Definition fd_source_emit (data_is data_os data_error : positive) (events : Z) : M nxe_loop unit :=
  if! has events EPOLLIN then nxe_istream_set_ready data_is in
  if! has events EPOLLOUT then nxe_ostream_set_ready data_os in
  emit_errors data_error events.

(** An eventfd source, whose counter is read to rearm it, and a listening
    socket. *)
Definition eventfd_source_emit (data_notify : positive) (events : Z) : M nxe_loop unit :=
  if! has events EPOLLIN then nxe_publish data_notify 0 in
  emit_errors data_notify events.
Definition listenfd_source_emit := eventfd_source_emit.
