(* ===== verification/EventInv.v ===== *)
(** The invariant of the event loop and what the operations of Event.v do to it:
    the queue is first in, first out; a connection both ends of which are ready
    always has its event queued (no wake-up is lost); the active events of a
    subscriber are its events in the queue, in order. *)
From S2P Require Import Prelude Dll Event.
Open Scope Z_scope.

(** * The invariant *)

(** What is being delivered: its event is not in the queue.  [InProtocol] is a
    handler that stores into the readiness flags itself: nothing is said about
    wake-ups then, only that the data structures are consistent. *)
Inductive inflight := Idle | InStream (i o : positive) | InPooled (n : positive) | InProtocol.

Abbreviation evt_info := (nxe_event_class * nxe_receiver * Z * option event_id)%type (only parsing).
Definition info (evt : nxe_event) : evt_info := (evt_cls evt, evt_receiver evt, evt_data evt, evt_next_by_receiver evt).
Definition inf (l : nxe_loop) (e : event_id) : option evt_info := info <$> l_events l !! e.
Definition i_cls (x : evt_info) := x.1.1.1.
Definition i_recv (x : evt_info) := x.1.1.2.
Definition i_nbr (x : evt_info) := x.2.

Definition queue_ok (q : list event_id) (l : nxe_loop) : Prop :=
  dll (l_events l) (l_first l) (l_last l) q /\
  forall e evt, l_events l !! e = Some evt -> evt_loop evt = bool_decide (e ∈ q).

(** [X] exempts connections from the last clause. *)
Record streams_ok (X : positive -> positive -> Prop) (q : list event_id) (l : nxe_loop) : Prop := {
  s_emb : forall i, is_Some (l_istreams l !! i) <-> is_Some (inf l (Embedded i));
  s_cls : forall i x, inf l (Embedded i) = Some x -> i_cls x = NXE_EV_STREAM;
  s_recv : forall i, Embedded i ∈ q -> exists x o ist, inf l (Embedded i) = Some x /\ i_recv x = R_os o /\
             l_istreams l !! i = Some ist /\ is_pair ist = Some o;
  s_pair : forall i o, (exists ist, l_istreams l !! i = Some ist /\ is_pair ist = Some o) <->
             (exists ost, l_ostreams l !! o = Some ost /\ os_pair ost = Some i);
  s_wake : forall i o ist ost, l_istreams l !! i = Some ist -> is_pair ist = Some o -> l_ostreams l !! o = Some ost ->
             is_ready ist = true -> os_ready ost = true -> Embedded i ∈ q \/ X i o;
}.

Definition message_for (l : nxe_loop) (s : positive) (e : event_id) : bool :=
  match e with Pooled _ => bool_decide (i_recv <$> inf l e = Some (R_sub s)) | Embedded _ => false end.
(** The queued events of a subscriber. *)
Definition active (q : list event_id) (l : nxe_loop) (s : positive) : list event_id :=
  filter (fun e => message_for l s e = true) q.

(** [Y] exempts a subscriber whose list of active events is being changed. *)
Record subs_ok (Y : option positive) (q : list event_id) (l : nxe_loop) : Prop := {
  u_fresh : forall n, is_Some (inf l (Pooled n)) -> (n < l_next_event l)%positive;
  u_recv : forall n, Pooled n ∈ q -> exists x, inf l (Pooled n) = Some x /\
     ((i_cls x = NXE_EV_MESSAGE /\ exists s sub, i_recv x = R_sub s /\ l_subscribers l !! s = Some sub /\ (is_Some (sub_pub sub) \/ Y = Some s)) \/
      (i_cls x = NXE_EV_CALLBACK /\ exists f, i_recv x = R_callback f));
  u_chain : forall s sub, Y <> Some s -> l_subscribers l !! s = Some sub -> chain evt_next_by_receiver (l_events l) (sub_evt sub) (active q l s);
  u_pubs : forall p pub, l_publishers l !! p = Some pub -> exists sl, chain sub_next (l_subscribers l) (pub_sub pub) sl /\
     forall s, s ∈ sl <-> exists sub, l_subscribers l !! s = Some sub /\ sub_pub sub = Some p;
  u_next : forall s sub, l_subscribers l !! s = Some sub ->
     match sub_pub sub with Some p => is_Some (l_publishers l !! p) | None => sub_next sub = None end;
}.

Definition exempt (cur : inflight) (i o : positive) : Prop := cur = InStream i o \/ cur = InProtocol.
Definition inflight_ok (cur : inflight) (q : list event_id) (l : nxe_loop) : Prop :=
  match cur with InPooled n => is_Some (inf l (Pooled n)) /\ Pooled n ∉ q | _ => True end.

Definition loop_inv (cur : inflight) (q : list event_id) (l : nxe_loop) : Prop :=
  queue_ok q l /\ streams_ok (exempt cur) q l /\ subs_ok None q l /\ inflight_ok cur q l.

(** The queue is first in, first out: events keep their order, some may be
    dropped, new ones come last. *)
Definition fifo (q q' : list event_id) : Prop := exists (D new : list event_id), q' = filter (fun e => e ∉ D) q ++ new.

(** * Lemmas *)

Definition others (l : nxe_loop) := (l_istreams l, l_ostreams l, l_publishers l, l_subscribers l, l_next_event l).

Lemma wp_get_evt l e evt (Q : nxe_event -> nxe_loop -> Prop) : l_events l !! e = Some evt -> Q evt l -> wp (get_evt e) Q l.
Proof. intros He HQ. unfold get_evt. apply wp_bind, wp_get. rewrite He. by apply wp_ret. Qed.
Lemma wp_load {A} (sel : nxe_loop -> gmap positive A) l k a (Q : A -> nxe_loop -> Prop) : sel l !! k = Some a -> Q a l -> wp (load sel k) Q l.
Proof. intros He HQ. unfold load. apply wp_bind, wp_get. rewrite He. by apply wp_ret. Qed.
Lemma wp_upd_evt l e evt f (Q : unit -> nxe_loop -> Prop) :
  l_events l !! e = Some evt -> Q tt (set_events (<[e := f evt]> (l_events l)) l) -> wp (upd_evt e f) Q l.
Proof. intros He HQ. unfold upd_evt, upd. apply wp_bind, wp_get, wp_bind. rewrite He. by apply wp_ret, wp_put. Qed.
Lemma wp_upd_is l k a f (Q : unit -> nxe_loop -> Prop) :
  l_istreams l !! k = Some a -> Q tt (set_istreams (<[k := f a]> (l_istreams l)) l) -> wp (upd_is k f) Q l.
Proof. intros He HQ. unfold upd_is, upd. apply wp_bind, wp_get, wp_bind. rewrite He. by apply wp_ret, wp_put. Qed.
Lemma wp_upd_os l k a f (Q : unit -> nxe_loop -> Prop) :
  l_ostreams l !! k = Some a -> Q tt (set_ostreams (<[k := f a]> (l_ostreams l)) l) -> wp (upd_os k f) Q l.
Proof. intros He HQ. unfold upd_os, upd. apply wp_bind, wp_get, wp_bind. rewrite He. by apply wp_ret, wp_put. Qed.
Lemma wp_upd_pub l k a f (Q : unit -> nxe_loop -> Prop) :
  l_publishers l !! k = Some a -> Q tt (set_publishers (<[k := f a]> (l_publishers l)) l) -> wp (upd_pub k f) Q l.
Proof. intros He HQ. unfold upd_pub, upd. apply wp_bind, wp_get, wp_bind. rewrite He. by apply wp_ret, wp_put. Qed.
Lemma wp_upd_sub l k a f (Q : unit -> nxe_loop -> Prop) :
  l_subscribers l !! k = Some a -> Q tt (set_subscribers (<[k := f a]> (l_subscribers l)) l) -> wp (upd_sub k f) Q l.
Proof. intros He HQ. unfold upd_sub, upd. apply wp_bind, wp_get, wp_bind. rewrite He. by apply wp_ret, wp_put. Qed.

Lemma inf_Some l e x : inf l e = Some x -> exists evt, l_events l !! e = Some evt /\ info evt = x.
Proof. unfold inf. destruct (l_events l !! e) as [evt|]; [|done]. cbn. intros [= <-]. by exists evt. Qed.

Lemma link_blind_info : link_blind info.
Proof. by split. Qed.
Lemma link_blind_loop : link_blind evt_loop.
Proof. by split. Qed.

(** ** The queue *)

Lemma wp_link l q e x (Q : unit -> nxe_loop -> Prop) :
  queue_ok q l -> inf l e = Some x -> i_recv x <> R_null -> e ∉ q ->
  (forall l', queue_ok (q ++ [e]) l' -> (forall k, inf l' k = inf l k) -> others l' = others l -> Q tt l') ->
  wp (nxe_link e) Q l.
Proof.
  intros [Hd Hl] (evt & He & <-)%inf_Some Hr Hq HQ. unfold nxe_link.
  apply wp_bind, (wp_get_evt _ _ evt); [done|]. apply wp_bind, wp_assert; [by rewrite bool_decide_eq_false_2|].
  apply wp_bind, wp_assert; [by rewrite (Hl _ _ He), bool_decide_eq_false_2|]. apply wp_bind, wp_get, wp_bind.
  destruct (push_back_ok _ _ _ _ _ _ Hd Hq He) as (m & -> & Hd' & Hf & Hk). apply wp_ret, wp_bind, wp_put.
  assert (Hm : exists evt', m !! e = Some evt').
  { destruct Hd' as (_ & Hs & _). eapply (seg_member _ _ _ _ e) in Hs; [by destruct Hs; eexists|set_solver]. }
  destruct Hm as [evt' He']. eapply wp_upd_evt; [exact He'|]. apply HQ.
  - split; cbn.
    + by eapply dll_payload.
    + intros k evtk. destruct (decide (k = e)) as [->|Hne].
      * rewrite lookup_insert_eq. intros [= <-]. cbn. symmetry. apply bool_decide_eq_true_2. set_solver.
      * rewrite lookup_insert_ne by done. intros Hk'. pose proof (Hf _ _ link_blind_loop k) as Hb. rewrite Hk' in Hb. cbn in Hb.
        destruct (l_events l !! k) as [ek|] eqn:Ek; [|done]. cbn in Hb. injection Hb as ->. rewrite (Hl _ _ Ek). apply bool_decide_ext. set_solver.
  - intros k. unfold inf. cbn. pose proof (Hf _ _ link_blind_info k) as Hb. rewrite <- Hb. destruct (decide (k = e)) as [->|Hne].
    + by rewrite lookup_insert_eq, He'.
    + by rewrite lookup_insert_ne.
  - done.
Qed.

Lemma wp_unlink l q1 e q2 (Q : unit -> nxe_loop -> Prop) :
  queue_ok (q1 ++ e :: q2) l ->
  (forall l', queue_ok (q1 ++ q2) l' -> (forall k, inf l' k = inf l k) -> others l' = others l -> Q tt l') ->
  wp (nxe_unlink e) Q l.
Proof.
  intros [Hd Hl] HQ. destruct (dll_member _ _ _ _ e Hd) as [evt He]; [set_solver|]. unfold nxe_unlink.
  apply wp_bind, (wp_get_evt _ _ evt); [done|]. apply wp_bind, wp_assert; [rewrite (Hl _ _ He); apply bool_decide_eq_true_2; set_solver|].
  apply wp_bind, wp_get, wp_bind. destruct (unlink_ok _ _ _ _ _ _ Hd) as (m & -> & Hd' & Hf & Hk & (evt' & He' & _)).
  apply wp_ret, wp_bind, wp_put. eapply wp_upd_evt; [exact He'|].
  assert (Hn : e ∉ q1 ++ q2) by (destruct Hd as (Hn & _); apply NoDup_app in Hn as (? & Hn1 & Hn2); apply NoDup_cons in Hn2; set_solver).
  apply HQ.
  - split; cbn.
    + by eapply dll_payload.
    + intros k evtk. destruct (decide (k = e)) as [->|Hne].
      * rewrite lookup_insert_eq. intros [= <-]. cbn. symmetry. by apply bool_decide_eq_false_2.
      * rewrite lookup_insert_ne by done. intros Hk'. pose proof (Hf _ _ link_blind_loop k) as Hb. rewrite Hk' in Hb. cbn in Hb.
        destruct (l_events l !! k) as [ek|] eqn:Ek; [|done]. cbn in Hb. injection Hb as ->. rewrite (Hl _ _ Ek). apply bool_decide_ext. set_solver.
  - intros k. unfold inf. cbn. pose proof (Hf _ _ link_blind_info k) as Hb. rewrite <- Hb. destruct (decide (k = e)) as [->|Hne].
    + by rewrite lookup_insert_eq, He'.
    + by rewrite lookup_insert_ne.
  - done.
Qed.

Lemma queue_ok_NoDup q l : queue_ok q l -> NoDup q.
Proof. by intros [(Hn & _) _]. Qed.
Lemma queue_ok_loop q l e evt : queue_ok q l -> l_events l !! e = Some evt -> evt_loop evt = bool_decide (e ∈ q).
Proof. intros [_ H]. apply H. Qed.

(** Changing the fields of an event that are neither its links nor its flag. *)
Lemma queue_ok_upd q l e evt evt' :
  queue_ok q l -> l_events l !! e = Some evt -> evt_prev evt' = evt_prev evt -> evt_next evt' = evt_next evt -> evt_loop evt' = evt_loop evt ->
  queue_ok q (set_events (<[e := evt']> (l_events l)) l).
Proof.
  intros [Hd Hl] He Hp Hx Hlp. split; cbn; [by eapply dll_payload|]. intros k evtk. destruct (decide (k = e)) as [->|Hne].
  - rewrite lookup_insert_eq. intros [= <-]. rewrite Hlp. by apply Hl.
  - rewrite lookup_insert_ne by done. apply Hl.
Qed.

(** ** Frames *)

Lemma active_app q1 q2 l s : active (q1 ++ q2) l s = active q1 l s ++ active q2 l s.
Proof. apply filter_app. Qed.
Lemma active_embedded i q l s : active (Embedded i :: q) l s = active q l s.
Proof. by unfold active; rewrite filter_cons_False. Qed.
Lemma active_ext q l l' s : (forall n, inf l' (Pooled n) = inf l (Pooled n)) -> active q l' s = active q l s.
Proof.
  intros Hi. unfold active. induction q as [|e q IH]; [done|]. rewrite !filter_cons, IH.
  assert (Hm : message_for l' s e = message_for l s e) by (destruct e; [done|]; unfold message_for; by rewrite Hi). by rewrite Hm.
Qed.
Lemma active_pooled q l s e : e ∈ active q l s -> exists n, e = Pooled n /\ i_recv <$> inf l e = Some (R_sub s) /\ e ∈ q.
Proof.
  intros [Hm Hq]%list_elem_of_filter. destruct e as [|n]; [done|]. exists n. unfold message_for in Hm. by apply bool_decide_eq_true in Hm.
Qed.

Lemma nbr_of_inf l l' e : inf l' e = inf l e -> evt_next_by_receiver <$> l_events l' !! e = evt_next_by_receiver <$> l_events l !! e.
Proof.
  unfold inf. intros Hi. destruct (l_events l' !! e) as [e1|], (l_events l !! e) as [e2|]; cbn in *; try done.
  unfold info in Hi. injection Hi as _ _ _ ->. done.
Qed.

Lemma streams_ok_ext X q q' l l' :
  (forall i, inf l' (Embedded i) = inf l (Embedded i)) -> l_istreams l' = l_istreams l -> l_ostreams l' = l_ostreams l ->
  (forall i, Embedded i ∈ q' <-> Embedded i ∈ q) -> streams_ok X q l -> streams_ok X q' l'.
Proof.
  intros Hi E1 E2 Hq [A B C D E]. split.
  - intros i. by rewrite E1, Hi.
  - intros i x. rewrite Hi. apply B.
  - intros i. rewrite Hq, Hi, E1. apply C.
  - intros i o. by rewrite E1, E2.
  - intros i o ist ost. rewrite E1, E2, Hq. apply E.
Qed.

Lemma subs_ok_ext Y q q' l l' :
  (forall n, inf l' (Pooled n) = inf l (Pooled n)) -> l_publishers l' = l_publishers l -> l_subscribers l' = l_subscribers l -> l_next_event l' = l_next_event l ->
  (forall n, Pooled n ∈ q' -> Pooled n ∈ q) -> (forall s, active q' l s = active q l s) -> subs_ok Y q l -> subs_ok Y q' l'.
Proof.
  intros Hi E1 E2 E3 Hq Ha [A B C D E]. split.
  - intros n. rewrite Hi, E3. apply A.
  - intros n Hn%Hq. rewrite Hi, E2. by apply B.
  - intros s sub HY. rewrite E2. intros Hs. rewrite (active_ext _ _ _ _ Hi), Ha. eapply chain_ext; [|by apply C].
    intros e He. apply active_pooled in He as (n & -> & _). by apply nbr_of_inf.
  - intros p pub. rewrite E1, E2. apply D.
  - intros s sub. rewrite E1, E2. apply E.
Qed.

Lemma inflight_ok_ext cur q q' l l' :
  (forall n, inf l' (Pooled n) = inf l (Pooled n)) -> (forall n, Pooled n ∈ q' -> Pooled n ∈ q) -> inflight_ok cur q l -> inflight_ok cur q' l'.
Proof. intros Hi Hq. destruct cur; [done..| |done]. unfold inflight_ok. rewrite Hi. naive_solver. Qed.

(** What the stream operations leave alone. *)
Definition messages_same (l l' : nxe_loop) : Prop :=
  (forall n, inf l' (Pooled n) = inf l (Pooled n)) /\ l_publishers l' = l_publishers l /\ l_subscribers l' = l_subscribers l /\ l_next_event l' = l_next_event l.

Lemma messages_same_trans l1 l2 l3 : messages_same l1 l2 -> messages_same l2 l3 -> messages_same l1 l3.
Proof. intros (A & B & C & D) (A' & B' & C' & D'). split_and!; [intros n; by rewrite A'|congruence..]. Qed.

Lemma loop_inv_streams cur q q' l l' :
  loop_inv cur q l -> messages_same l l' -> queue_ok q' l' -> streams_ok (exempt cur) q' l' ->
  (forall n, Pooled n ∈ q' -> Pooled n ∈ q) -> (forall s, active q' l s = active q l s) -> loop_inv cur q' l'.
Proof.
  intros (_ & _ & Hs & Hc) (A & B & C & D) Hq Hst Hin Ha. split_and!; [done|done|by eapply subs_ok_ext|by eapply inflight_ok_ext].
Qed.

Lemma filter_none (q D : list event_id) : (forall e, e ∈ q -> e ∉ D) -> filter (fun e => e ∉ D) q = q.
Proof.
  induction q as [|e q IH]; intros HD; [done|]. rewrite filter_cons_True by (apply HD; left). f_equal. apply IH. intros x Hx. apply HD. by right.
Qed.
Lemma fifo_snoc q new : fifo q (q ++ new).
Proof. exists [], new. f_equal. symmetry. apply filter_none. intros x _. apply not_elem_of_nil. Qed.
Lemma fifo_refl q : fifo q q.
Proof. rewrite <- (app_nil_r q) at 2. apply fifo_snoc. Qed.

(** ** Streams *)

Lemma streams_ok_weaken (X Y : positive -> positive -> Prop) q l : (forall i o, X i o -> Y i o) -> streams_ok X q l -> streams_ok Y q l.
Proof. intros HX [A B C D E]. split; [done..|]. intros i o ist ost H1 H2 H3 H4 H5. destruct (E i o ist ost H1 H2 H3 H4 H5); [by left|right; by apply HX]. Qed.

Definition and_also (X : positive -> positive -> Prop) (i o : positive) : positive -> positive -> Prop := fun i' o' => X i' o' \/ (i' = i /\ o' = o).

(** Setting a flag leaves at most this stream's connection without its event. *)
Lemma streams_ok_is_ready X q l i ist b :
  streams_ok X q l -> l_istreams l !! i = Some ist ->
  streams_ok (fun i' o' => X i' o' \/ (b = true /\ i' = i /\ is_pair ist = Some o')) q (set_istreams (<[i := set_is_ready b ist]> (l_istreams l)) l).
Proof.
  intros [A B C D E] Hi. assert (Hd : forall i', is_Some (<[i := set_is_ready b ist]> (l_istreams l) !! i') <-> is_Some (l_istreams l !! i')).
  { intros i'. destruct (decide (i = i')) as [->|Hn]; [rewrite lookup_insert_eq, Hi; by split; eexists|by rewrite lookup_insert_ne]. }
  split; cbn.
  - intros i'. by rewrite Hd.
  - done.
  - intros i' (x & o & ist' & H1 & H2 & H3 & H4)%C. exists x, o. destruct (decide (i = i')) as [->|Hn].
    + rewrite lookup_insert_eq. rewrite Hi in H3. injection H3 as <-. by exists (set_is_ready b ist).
    + rewrite lookup_insert_ne by done. by exists ist'.
  - intros i' o. rewrite <- D. destruct (decide (i = i')) as [->|Hn]; [|by rewrite lookup_insert_ne].
    rewrite lookup_insert_eq, Hi. split; intros (? & [= <-] & H2); eexists; (split; [done|exact H2]).
  - intros i' o ist' ost. destruct (decide (i = i')) as [->|Hn].
    + rewrite lookup_insert_eq. intros [= <-]. cbn. intros Hp Ho Hb Hr. by right; right.
    + rewrite lookup_insert_ne by done. intros H1 H2 H3 H4 H5. destruct (E i' o ist' ost H1 H2 H3 H4 H5); [by left|by right; left].
Qed.

Lemma streams_ok_os_ready X q l o ost b :
  streams_ok X q l -> l_ostreams l !! o = Some ost ->
  streams_ok (fun i' o' => X i' o' \/ (b = true /\ o' = o /\ os_pair ost = Some i')) q (set_ostreams (<[o := set_os_ready b ost]> (l_ostreams l)) l).
Proof.
  intros [A B C D E] Ho. split; cbn.
  - done.
  - done.
  - done.
  - intros i o'. rewrite D. destruct (decide (o = o')) as [->|Hn]; [|by rewrite lookup_insert_ne].
    rewrite lookup_insert_eq, Ho. split; intros (? & [= <-] & H2); eexists; (split; [done|exact H2]).
  - intros i o' ist ost'. destruct (decide (o = o')) as [->|Hn].
    + rewrite lookup_insert_eq. intros H1 H2 [= <-]. cbn. intros Hi Hb. right; right. split_and!; [done|done|].
      destruct (proj1 (D i o')) as (ost' & Ho' & Hp); [by exists ist|]. rewrite Ho in Ho'. by injection Ho' as <-.
    + rewrite lookup_insert_ne by done. intros H1 H2 H3 H4 H5. destruct (E i o' ist ost' H1 H2 H3 H4 H5); [by left|by right; left].
Qed.

(** Queueing the event of a connection. *)
Lemma wp_emit_stream X q l i o ist (Q : unit -> nxe_loop -> Prop) :
  queue_ok q l -> streams_ok (and_also X i o) q l -> l_istreams l !! i = Some ist -> is_pair ist = Some o -> Embedded i ∉ q ->
  (forall l', queue_ok (q ++ [Embedded i]) l' -> streams_ok X (q ++ [Embedded i]) l' -> messages_same l l' ->
     l_istreams l' = l_istreams l -> l_ostreams l' = l_ostreams l -> Q tt l') ->
  wp (emit_stream i o) Q l.
Proof.
  intros Hq Hs Hi Hp Hn HQ. destruct Hs as [A B C D E]. unfold emit_stream.
  destruct (proj1 (A i)) as [x Hx]; [by exists ist|]. destruct (inf_Some _ _ _ Hx) as (evt & He & Ex).
  apply wp_bind. eapply wp_upd_evt; [exact He|]. set (l1 := set_events _ l).
  assert (Hi1 : forall k, inf l1 k = if decide (k = Embedded i) then Some (info (set_evt_receiver (R_os o) evt)) else inf l k).
  { intros k. unfold l1, inf. cbn. destruct (decide _) as [->|Hk]; [by rewrite lookup_insert_eq|by rewrite lookup_insert_ne]. }
  eapply (wp_link l1 q (Embedded i) (info (set_evt_receiver (R_os o) evt))); [by eapply queue_ok_upd|by rewrite Hi1, decide_True|done|done|].
  intros l2 Hq2 Hi2 Ho2. unfold others in Ho2. injection Ho2 as E1 E2 E3 E4 E5.
  assert (Hi2' : forall k, inf l2 k = if decide (k = Embedded i) then Some (info (set_evt_receiver (R_os o) evt)) else inf l k) by (intros k; by rewrite Hi2, Hi1).
  clear Hi1 Hi2. apply HQ; [done| | |done|done].
  - split.
    + intros i'. rewrite E1, Hi2'. destruct (decide (Embedded i' = Embedded i)) as [[= ->]|Hne]; [cbn; rewrite Hi; by split; eexists|apply A].
    + intros i' y. rewrite Hi2'. destruct (decide (Embedded i' = Embedded i)) as [[= ->]|Hne]; [|apply B].
      intros [= <-]. specialize (B _ _ Hx). by rewrite <- Ex in B.
    + intros i'. rewrite elem_of_app, list_elem_of_singleton, Hi2', E1. intros Hin. destruct (decide (Embedded i' = Embedded i)) as [[= ->]|Hne].
      * by eexists _, o, ist.
      * apply C. by destruct Hin.
    + intros i' o'. by rewrite E1, E2.
    + intros i' o' ist' ost. rewrite E1, E2, elem_of_app, list_elem_of_singleton. intros H1 H2 H3 H4 H5.
      destruct (E i' o' ist' ost H1 H2 H3 H4 H5) as [?|[?|[-> _]]]; tauto.
  - split_and!; [|done..]. intros n. by rewrite Hi2', decide_False.
Qed.

Lemma queue_ok_istreams q l m : queue_ok q l -> queue_ok q (set_istreams m l).
Proof. done. Qed.

Lemma not_pooled_snoc q i n : Pooled n ∈ q ++ [Embedded i] -> Pooled n ∈ q.
Proof. rewrite elem_of_app, list_elem_of_singleton. by intros [?|?]. Qed.
Lemma active_snoc_embedded q i l s : active (q ++ [Embedded i]) l s = active q l s.
Proof. rewrite active_app, active_embedded. apply app_nil_r. Qed.

Definition op_post (cur : inflight) (q : list event_id) (l' : nxe_loop) : Prop := exists q', loop_inv cur q' l' /\ fifo q q'.

Lemma op_post_emit cur q l i l' :
  loop_inv cur q l -> messages_same l l' -> queue_ok (q ++ [Embedded i]) l' -> streams_ok (exempt cur) (q ++ [Embedded i]) l' -> op_post cur q l'.
Proof.
  intros Hinv Hm Hq Hs. exists (q ++ [Embedded i]). split; [|apply fifo_snoc].
  eapply loop_inv_streams; [exact Hinv|exact Hm|done|done|apply not_pooled_snoc|intros; apply active_snoc_embedded].
Qed.
Lemma op_post_same cur q l l' :
  loop_inv cur q l -> messages_same l l' -> queue_ok q l' -> streams_ok (exempt cur) q l' -> op_post cur q l'.
Proof. intros Hinv Hm Hq Hs. exists q. split; [|apply fifo_refl]. by eapply loop_inv_streams. Qed.

(** The pair of a connected stream and its event exist. *)
Lemma stream_pair X q l i ist o :
  streams_ok X q l -> l_istreams l !! i = Some ist -> is_pair ist = Some o ->
  exists ost evt, l_ostreams l !! o = Some ost /\ os_pair ost = Some i /\ l_events l !! Embedded i = Some evt.
Proof.
  intros [A B C D E] Hi Hp. destruct (proj1 (D i o)) as (ost & Ho & Hop); [by exists ist|].
  destruct (proj1 (A i)) as [x (evt & He & _)%inf_Some]; [by exists ist|]. by exists ost, evt.
Qed.

(** Emits the event of a connection that became ready, unless it is queued. *)
Lemma wp_maybe_emit cur q l l0 i o ist evt (b : bool) (Q : unit -> nxe_loop -> Prop) :
  loop_inv cur q l0 -> messages_same l0 l -> queue_ok q l -> streams_ok (and_also (exempt cur) i o) q l ->
  l_istreams l !! i = Some ist -> is_pair ist = Some o -> l_events l !! Embedded i = Some evt ->
  (b = false -> streams_ok (exempt cur) q l) -> (forall l', op_post cur q l' -> Q tt l') ->
  wp (if b && negb (evt_loop evt) then emit_stream i o else ret tt) Q l.
Proof.
  intros Hinv Hm Hq Hs Hi Hp He Hb HQ. rewrite (queue_ok_loop _ _ _ _ Hq He). destruct (b && _) eqn:Eb.
  - apply andb_true_iff in Eb as [_ Eb]. apply negb_true_iff, bool_decide_eq_false in Eb.
    eapply wp_emit_stream; [exact Hq|exact Hs|exact Hi|done|done|]. intros l' Hq' Hs' Hm' _ _.
    apply HQ. eapply op_post_emit; [exact Hinv|by eapply messages_same_trans|done|done].
  - apply wp_ret, HQ. eapply op_post_same; [exact Hinv|done|done|]. destruct b; [|by apply Hb].
    cbn in Eb. apply negb_false_iff, bool_decide_eq_true in Eb. destruct Hs as [A B C D E]. split; [done..|].
    intros i' o' ist' ost' H1 H2 H3 H4 H5. destruct (E i' o' ist' ost' H1 H2 H3 H4 H5) as [?|[?|[-> _]]]; tauto.
Qed.

Lemma wp_istream_set_ready cur q l i (Q : unit -> nxe_loop -> Prop) :
  loop_inv cur q l -> is_Some (l_istreams l !! i) -> (forall l', op_post cur q l' -> Q tt l') -> wp (nxe_istream_set_ready i) Q l.
Proof.
  intros Hinv [ist Hi] HQ. pose proof Hinv as (Hq & Hs & _). unfold nxe_istream_set_ready.
  apply wp_bind. eapply wp_load; [exact Hi|]. destruct (is_ready ist) eqn:Er; [apply wp_ret, HQ; by exists q; split; [|apply fifo_refl]|].
  apply wp_bind. eapply wp_upd_is; [exact Hi|]. pose proof (streams_ok_is_ready _ _ _ _ _ true Hs Hi) as Hs1. set (l1 := set_istreams _ l) in *.
  assert (Hi1 : l_istreams l1 !! i = Some (set_is_ready true ist)) by apply lookup_insert_eq.
  assert (Hm : messages_same l l1) by done. destruct (is_pair ist) as [o|] eqn:Ep.
  - destruct (stream_pair _ _ _ _ _ _ Hs Hi Ep) as (ost & evt & Ho & Hop & He).
    apply wp_bind. eapply (wp_load l_ostreams); [exact Ho|]. apply wp_bind. eapply wp_get_evt; [exact He|].
    eapply (wp_maybe_emit cur q l1 l); [done|done|done| |exact Hi1|exact Ep|exact He| |exact HQ].
    + eapply streams_ok_weaken; [|exact Hs1]. intros i' o' [?|(_ & -> & E)]; [by left|right]. by injection E.
    + intros Hor. destruct Hs1 as [A B C D E]. split; [done..|]. intros i' o' ist' ost' H1 H2 H3 H4 H5.
      destruct (E i' o' ist' ost' H1 H2 H3 H4 H5) as [?|[?|(_ & -> & Eo)]]; [tauto|tauto|]. injection Eo as <-.
      cbn in H3. rewrite Ho in H3. injection H3 as <-. congruence.
  - apply wp_ret, HQ. eapply op_post_same; [exact Hinv|done|done|]. eapply streams_ok_weaken; [|exact Hs1].
    by intros i' o' [?|(_ & _ & E)].
Qed.

Lemma wp_ostream_set_ready cur q l o (Q : unit -> nxe_loop -> Prop) :
  loop_inv cur q l -> is_Some (l_ostreams l !! o) -> (forall l', op_post cur q l' -> Q tt l') -> wp (nxe_ostream_set_ready o) Q l.
Proof.
  intros Hinv [ost Ho] HQ. pose proof Hinv as (Hq & Hs & _). unfold nxe_ostream_set_ready.
  apply wp_bind. eapply wp_upd_os; [exact Ho|]. pose proof (streams_ok_os_ready _ _ _ _ _ true Hs Ho) as Hs1. set (l1 := set_ostreams _ l) in *.
  assert (Ho1 : l_ostreams l1 !! o = Some (set_os_ready true ost)) by apply lookup_insert_eq.
  assert (Hm : messages_same l l1) by done. apply wp_bind. eapply (wp_load l_ostreams); [exact Ho1|].
  change (os_pair (set_os_ready true ost)) with (os_pair ost). destruct (os_pair ost) as [i|] eqn:Ep.
  - destruct (proj2 (s_pair _ _ _ Hs i o)) as (ist & Hi & Hip); [by exists ost|].
    destruct (stream_pair _ _ _ _ _ _ Hs Hi Hip) as (_ & evt & _ & _ & He).
    apply wp_bind. eapply (wp_load l_istreams); [exact Hi|]. apply wp_bind. eapply wp_get_evt; [exact He|].
    eapply (wp_maybe_emit cur q l1 l); [done|done|done| |exact Hi|exact Hip|exact He| |exact HQ].
    + eapply streams_ok_weaken; [|exact Hs1]. intros i' o' [?|(_ & -> & E)]; [by left|right]. by injection E.
    + intros Hor. destruct Hs1 as [A B C D E]. split; [done..|]. intros i' o' ist' ost' H1 H2 H3 H4 H5.
      destruct (E i' o' ist' ost' H1 H2 H3 H4 H5) as [?|[?|(_ & -> & Eo)]]; [tauto|tauto|]. injection Eo as <-.
      cbn in H1. rewrite Hi in H1. injection H1 as <-. congruence.
  - apply wp_ret, HQ. eapply op_post_same; [exact Hinv|done|done|]. eapply streams_ok_weaken; [|exact Hs1].
    by intros i' o' [?|(_ & _ & E)].
Qed.

Lemma wp_istream_unset_ready cur q l i (Q : unit -> nxe_loop -> Prop) :
  loop_inv cur q l -> is_Some (l_istreams l !! i) -> (forall l', op_post cur q l' -> Q tt l') -> wp (nxe_istream_unset_ready i) Q l.
Proof.
  intros Hinv [ist Hi] HQ. pose proof Hinv as (Hq & Hs & _). eapply wp_upd_is; [exact Hi|]. apply HQ.
  eapply op_post_same; [exact Hinv|done|done|]. eapply streams_ok_weaken; [|by apply streams_ok_is_ready]. by intros i' o' [?|[? _]].
Qed.
Lemma wp_ostream_unset_ready cur q l o (Q : unit -> nxe_loop -> Prop) :
  loop_inv cur q l -> is_Some (l_ostreams l !! o) -> (forall l', op_post cur q l' -> Q tt l') -> wp (nxe_ostream_unset_ready o) Q l.
Proof.
  intros Hinv [ost Ho] HQ. pose proof Hinv as (Hq & Hs & _). eapply wp_upd_os; [exact Ho|]. apply HQ.
  eapply op_post_same; [exact Hinv|done|done|]. eapply streams_ok_weaken; [|by apply streams_ok_os_ready]. by intros i' o' [?|[? _]].
Qed.

Definition unpaired (l : nxe_loop) (i o : positive) : Prop :=
  exists ist ost, l_istreams l !! i = Some ist /\ is_pair ist = None /\ l_ostreams l !! o = Some ost /\ os_pair ost = None.

Lemma wp_connect cur q l i o (Q : unit -> nxe_loop -> Prop) :
  loop_inv cur q l -> unpaired l i o -> (forall l', op_post cur q l' -> Q tt l') -> wp (nxe_connect_streams i o) Q l.
Proof.
  intros Hinv (ist & ost & Hi & Hip & Ho & Hop) HQ. pose proof Hinv as (Hq & Hs & _). unfold nxe_connect_streams.
  apply wp_bind. eapply wp_upd_is; [exact Hi|]. set (ni := mk_is _ _ _). apply wp_bind. eapply wp_upd_os; [exact Ho|]. set (no := mk_os _ _ _).
  set (l1 := set_ostreams _ _).
  assert (Hi1 : l_istreams l1 !! i = Some ni) by apply lookup_insert_eq. assert (Ho1 : l_ostreams l1 !! o = Some no) by apply lookup_insert_eq.
  assert (Hnq : Embedded i ∉ q).
  { intros (x & o' & ist' & _ & _ & Hi' & Hp')%(s_recv _ _ _ Hs). rewrite Hi in Hi'. injection Hi' as <-. congruence. }
  assert (Hs1 : streams_ok (fun i' o' => exempt cur i' o' \/ (i' = i /\ o' = o /\ is_ready ist && os_ready ost = true)) q l1).
  { destruct Hs as [A B C D E]. split; cbn.
    - intros i'. change (inf l1 (Embedded i')) with (inf l (Embedded i')). rewrite <- A. destruct (decide (i = i')) as [->|Hn]; [rewrite lookup_insert_eq, Hi; by split; eexists|by rewrite lookup_insert_ne].
    - done.
    - intros i' Hin. destruct (decide (i = i')) as [->|Hn]; [done|]. rewrite lookup_insert_ne by done. by apply C.
    - intros i' o'. destruct (decide (i = i')) as [->|Hn], (decide (o = o')) as [->|Hno].
      + rewrite !lookup_insert_eq. split; intros _; eexists; done.
      + rewrite lookup_insert_eq, (lookup_insert_ne _ o) by done. split.
        * intros (? & [= <-] & [=]). congruence.
        * intros H1. apply D in H1 as (? & H1 & H2). rewrite Hi in H1. injection H1 as <-. congruence.
      + rewrite lookup_insert_eq, (lookup_insert_ne _ i) by done. split.
        * intros H1. apply D in H1 as (? & H1 & H2). rewrite Ho in H1. injection H1 as <-. congruence.
        * intros (? & [= <-] & [=]). congruence.
      + rewrite !lookup_insert_ne by done. apply D.
    - intros i' o' ist' ost' H1 H2 H3 H4 H5. destruct (decide (i = i')) as [->|Hn].
      + rewrite lookup_insert_eq in H1. injection H1 as <-. injection H2 as <-. rewrite lookup_insert_eq in H3. injection H3 as <-.
        right; right. split_and!; [done|done|]. cbn in *. by rewrite H4, H5.
      + rewrite lookup_insert_ne in H1 by done. destruct (decide (o = o')) as [->|Hno].
        * destruct (proj1 (D i' o')) as (? & H6 & H7); [by exists ist'|]. rewrite Ho in H6. injection H6 as <-. congruence.
        * rewrite lookup_insert_ne in H3 by done. destruct (E i' o' ist' ost' H1 H2 H3 H4 H5); tauto. }
  apply wp_bind. eapply (wp_load l_istreams); [exact Hi1|]. apply wp_bind. eapply (wp_load l_ostreams); [exact Ho1|]. cbn [ni no is_ready os_ready].
  destruct (is_ready ist && os_ready ost) eqn:Er.
  - eapply (wp_emit_stream (exempt cur) q l1 i o ni); [done| |done|done|done|].
    + eapply streams_ok_weaken; [|exact Hs1]. intros i' o' [?|(-> & -> & _)]; [by left|by right].
    + intros l' Hq' Hs' Hm' _ _. apply HQ. eapply op_post_emit; [exact Hinv| |exact Hq'|exact Hs']. exact Hm'.
  - apply wp_ret, HQ. eapply op_post_same; [exact Hinv|done|done|]. eapply streams_ok_weaken; [|exact Hs1]. by intros i' o' [?|(_ & _ & ?)].
Qed.

Lemma active_remove_embedded q1 i q2 l s : active (q1 ++ Embedded i :: q2) l s = active (q1 ++ q2) l s.
Proof. by rewrite !active_app, active_embedded. Qed.

(** Taking an event out of the queue is dropping it. *)
Lemma fifo_remove q1 e q2 : NoDup (q1 ++ e :: q2) -> fifo (q1 ++ e :: q2) (q1 ++ q2).
Proof.
  intros Hn. exists [e], []. rewrite app_nil_r. apply NoDup_app in Hn as (_ & H1 & H2). apply NoDup_cons in H2 as [H2 _].
  rewrite filter_app, filter_cons_False by (intros Hx; apply Hx; left). f_equal; symmetry; apply filter_none; intros x Hx ->%list_elem_of_singleton.
  - apply (H1 e Hx). left.
  - done.
Qed.

Lemma wp_disconnect cur q l i o ist (Q : unit -> nxe_loop -> Prop) :
  loop_inv cur q l -> l_istreams l !! i = Some ist -> is_pair ist = Some o ->
  (forall l', op_post cur q l' -> Q tt l') -> wp (nxe_disconnect_streams i o) Q l.
Proof.
  intros Hinv Hi Hp HQ. pose proof Hinv as (Hq & Hs & _). unfold nxe_disconnect_streams.
  destruct (stream_pair _ _ _ _ _ _ Hs Hi Hp) as (ost & evt & Ho & Hop & He).
  apply wp_bind. eapply wp_upd_is; [exact Hi|]. apply wp_bind. eapply wp_upd_os; [exact Ho|]. set (l1 := set_ostreams _ _).
  assert (Hst : forall q', Embedded i ∉ q' -> (forall i', i' <> i -> Embedded i' ∈ q' <-> Embedded i' ∈ q) -> streams_ok (exempt cur) q' l1).
  { intros q' Hnq Hq'. destruct Hs as [A B C D E]. split; cbn.
    - intros i'. change (inf l1 (Embedded i')) with (inf l (Embedded i')). rewrite <- A. destruct (decide (i = i')) as [->|Hn]; [rewrite lookup_insert_eq, Hi; by split; eexists|by rewrite lookup_insert_ne].
    - done.
    - intros i' Hin. destruct (decide (i = i')) as [->|Hn]; [done|]. rewrite lookup_insert_ne by done. apply C. by apply Hq'.
    - intros i' o'. destruct (decide (i = i')) as [->|Hn], (decide (o = o')) as [->|Hno].
      + rewrite !lookup_insert_eq. by split; intros (? & [= <-] & [=]).
      + rewrite lookup_insert_eq, (lookup_insert_ne _ o) by done. split; [by intros (? & [= <-] & [=])|].
        intros H1. apply D in H1 as (? & H1 & H2). rewrite Hi in H1. injection H1 as <-. congruence.
      + rewrite lookup_insert_eq, (lookup_insert_ne _ i) by done. split; [|by intros (? & [= <-] & [=])].
        intros H1. apply D in H1 as (? & H1 & H2). rewrite Ho in H1. injection H1 as <-. congruence.
      + rewrite !lookup_insert_ne by done. apply D.
    - intros i' o' ist' ost' H1 H2 H3 H4 H5. destruct (decide (i = i')) as [->|Hn].
      + rewrite lookup_insert_eq in H1. by injection H1 as <-.
      + rewrite lookup_insert_ne in H1 by done. destruct (decide (o = o')) as [->|Hno].
        { destruct (proj1 (D i' o')) as (? & H6 & H7); [by exists ist'|]. rewrite Ho in H6. injection H6 as <-. congruence. }
        rewrite lookup_insert_ne in H3 by done. destruct (E i' o' ist' ost' H1 H2 H3 H4 H5); [left; by apply Hq'|by right]. }
  apply wp_bind. eapply wp_get_evt; [exact He|]. assert (Hq1 : queue_ok q l1) by done. rewrite (queue_ok_loop _ _ _ _ Hq He).
  destruct (bool_decide _) eqn:Eb.
  - apply bool_decide_eq_true in Eb. apply list_elem_of_split in Eb as (q1 & q2 & ->).
    pose proof (queue_ok_NoDup _ _ Hq) as Hnd. assert (Hni : Embedded i ∉ q1 ++ q2).
    { apply NoDup_app in Hnd as (_ & H1 & H2). apply NoDup_cons in H2 as [H2 _]. intros [Hx|Hx]%elem_of_app; [|done]. apply (H1 _ Hx). left. }
    eapply wp_unlink; [exact Hq1|]. intros l2 Hq2 Hi2 Ho2. unfold others in Ho2. injection Ho2 as E1 E2 E3 E4 E5. apply HQ.
    exists (q1 ++ q2). split; [|by apply fifo_remove]. eapply loop_inv_streams; [exact Hinv| |done| | |].
    + split_and!; [intros n; by rewrite Hi2|done..].
    + eapply streams_ok_ext; [..|apply (Hst (q1 ++ q2) Hni)]; [intros; by rewrite Hi2|done|done|done|].
      intros i' Hn. rewrite !elem_of_app, elem_of_cons. naive_solver.
    + intros n. rewrite !elem_of_app, elem_of_cons. tauto.
    + intros s. symmetry. apply active_remove_embedded.
  - apply bool_decide_eq_false in Eb. apply wp_ret, HQ. eapply op_post_same; [exact Hinv|done|done|]. by apply Hst.
Qed.

(** ** Messages *)

Definition streams_same (l l' : nxe_loop) : Prop :=
  (forall i, inf l' (Embedded i) = inf l (Embedded i)) /\ l_istreams l' = l_istreams l /\ l_ostreams l' = l_ostreams l.
Lemma streams_same_ok X q q' l l' :
  streams_same l l' -> (forall i, Embedded i ∈ q' <-> Embedded i ∈ q) -> streams_ok X q l -> streams_ok X q' l'.
Proof. intros (A & B & C). by apply streams_ok_ext. Qed.

Lemma fresh_not_queued Y q l : queue_ok q l -> subs_ok Y q l -> Pooled (l_next_event l) ∉ q /\ l_events l !! Pooled (l_next_event l) = None.
Proof.
  intros Hq Hs. assert (Hn : l_events l !! Pooled (l_next_event l) = None).
  { destruct (l_events l !! _) as [evt|] eqn:E; [|done]. pose proof (u_fresh _ _ _ Hs (l_next_event l)) as Hf.
    unfold inf in Hf. rewrite E in Hf. specialize (Hf ltac:(by eexists)). lia. }
  split; [|done]. intros Hin. destruct Hq as [Hd _]. destruct (dll_member _ _ _ _ _ Hd Hin) as [evt He]. congruence.
Qed.

(** A new event at the end of the queue. *)
Lemma wp_new_event {A} Y q l cls r d (k : event_id -> M nxe_loop A) (Q : A -> nxe_loop -> Prop) :
  queue_ok q l -> subs_ok Y q l -> r <> R_null ->
  (forall l', let e := Pooled (l_next_event l) in queue_ok (q ++ [e]) l' ->
     (forall j, inf l' j = if decide (j = e) then Some (cls, r, d, None) else inf l j) ->
     l_istreams l' = l_istreams l -> l_ostreams l' = l_ostreams l -> l_publishers l' = l_publishers l -> l_subscribers l' = l_subscribers l ->
     l_next_event l' = Pos.succ (l_next_event l) -> wp (k e) Q l') ->
  wp (let! e := alloc_event cls r d in do! nxe_link e in k e) Q l.
Proof.
  intros Hq Hs Hr HQ. destruct (fresh_not_queued _ _ _ Hq Hs) as [Hnq Hne]. cbv zeta in HQ. set (e := Pooled (l_next_event l)) in *.
  apply wp_bind. unfold alloc_event. apply wp_bind, wp_get, wp_bind, wp_put, wp_ret. fold e. set (ne := mk_evt _ _ _ _ _ _ _). set (l1 := set_next_event _ _).
  assert (Hq1 : queue_ok q l1).
  { destruct Hq as [Hd Hl]. split; [by apply dll_insert|]. intros j evt. cbn. destruct (decide (j = e)) as [->|Hn].
    - rewrite lookup_insert_eq. intros [= <-]. symmetry. by apply bool_decide_eq_false_2.
    - rewrite lookup_insert_ne by done. apply Hl. }
  assert (Hi1 : forall j, inf l1 j = if decide (j = e) then Some (cls, r, d, None) else inf l j).
  { intros j. unfold inf. cbn. destruct (decide _) as [->|Hn]; [by rewrite lookup_insert_eq|by rewrite lookup_insert_ne]. }
  apply wp_bind. eapply (wp_link l1 q e (cls, r, d, None)); [done|by rewrite Hi1, decide_True|done|done|].
  intros l2 Hq2 Hi2 Ho2. unfold others in Ho2. injection Ho2 as E1 E2 E3 E4 E5. apply HQ; [done| |done..].
  intros j. by rewrite Hi2.
Qed.

Lemma active_snoc q l s e : active (q ++ [e]) l s = active q l s ++ (if message_for l s e then [e] else []).
Proof. rewrite active_app. f_equal. unfold active. rewrite filter_cons. destruct (decide _) as [E|E]; [by rewrite E|]. by destruct (message_for l s e). Qed.

Lemma active_ext_in q l l' s : (forall e, e ∈ q -> inf l' e = inf l e) -> active q l' s = active q l s.
Proof.
  intros Hi. unfold active. induction q as [|e q IH]; [done|]. rewrite !filter_cons, IH by (intros x Hx; apply Hi; by right).
  assert (Hm : message_for l' s e = message_for l s e) by (destruct e; [done|]; unfold message_for; rewrite Hi by left; done). by rewrite Hm.
Qed.

Lemma embedded_snoc_pooled (q : list event_id) n i : Embedded i ∈ q ++ [Pooled n] <-> Embedded i ∈ q.
Proof. rewrite elem_of_app, list_elem_of_singleton. split; [by intros [?|?]|by left]. Qed.

Lemma inflight_ok_fresh cur Y q l l' n :
  inflight_ok cur q l -> subs_ok Y q l -> n = l_next_event l -> (forall k, k <> Pooled n -> inf l' k = inf l k) -> inflight_ok cur (q ++ [Pooled n]) l'.
Proof.
  intros Hc Hs -> Hi. destruct cur as [| |m|]; [done..| |done]. destruct Hc as [Hc Hm]. pose proof (u_fresh _ _ _ Hs m Hc).
  assert (m <> l_next_event l) by lia. split; [rewrite Hi; [done|congruence]|]. rewrite elem_of_app, list_elem_of_singleton. intros [?|[= ?]]; done.
Qed.

(** Nothing of the messages is affected by a callback event. *)
Lemma subs_ok_callback q l l' f d :
  let e := Pooled (l_next_event l) in
  subs_ok None q l -> e ∉ q -> (forall j, inf l' j = if decide (j = e) then Some (NXE_EV_CALLBACK, R_callback f, d, None) else inf l j) ->
  l_publishers l' = l_publishers l -> l_subscribers l' = l_subscribers l -> l_next_event l' = Pos.succ (l_next_event l) ->
  subs_ok None (q ++ [e]) l'.
Proof.
  intros e Hs Hnq Hi' E3 E4 E5. assert (Hin : forall j, j ∈ q -> inf l' j = inf l j) by (intros j Hj; rewrite Hi', decide_False; [done|by intros ->]).
  destruct Hs as [A B C D E]. split.
  - intros n. rewrite Hi', E5. destruct (decide _) as [[= ->]|]; [lia|intros ?%A; lia].
  - intros n. rewrite elem_of_app, list_elem_of_singleton, E4. intros [Hq|[= ->]]; [rewrite Hin by done; by apply B|].
    rewrite Hi', decide_True by done. eexists. split; [done|]. right. split; [done|by exists f].
  - intros s sub HY. rewrite E4. intros Hsub. rewrite active_snoc. unfold message_for, e. fold e. rewrite Hi', decide_True by done. cbn. rewrite app_nil_r.
    rewrite (active_ext_in q l l') by done. eapply chain_ext; [|by apply C]. intros j (n & -> & _ & Hj)%active_pooled. apply nbr_of_inf, Hin, Hj.
  - intros p pub. rewrite E3, E4. apply D.
  - intros s sub. rewrite E3, E4. apply E.
Qed.

Lemma wp_schedule_callback cur q l f d (Q : unit -> nxe_loop -> Prop) :
  loop_inv cur q l -> (forall l', op_post cur q l' -> Q tt l') -> wp (nxe_schedule_callback f d) Q l.
Proof.
  intros (Hq & Hst & Hs & Hc) HQ. destruct (fresh_not_queued _ _ _ Hq Hs) as [Hnq Hne].
  eapply (wp_new_event None q); [done|done|done|]. cbv zeta. intros l' Hq' Hi' E1 E2 E3 E4 E5. apply wp_ret, HQ.
  exists (q ++ [Pooled (l_next_event l)]). split; [|apply fifo_snoc]. split_and!; [done| |by eapply subs_ok_callback|].
  - eapply streams_same_ok; [|apply embedded_snoc_pooled|exact Hst]. split_and!; [intros i; by rewrite Hi'|done|done].
  - eapply inflight_ok_fresh; [exact Hc|exact Hs|done|]. intros k Hk. by rewrite Hi', decide_False.
Qed.

Lemma wp_last_active l x L y (Q : event_id -> nxe_loop -> Prop) :
  chain evt_next_by_receiver (l_events l) (Some x) (L ++ [y]) -> Q y l -> wp (last_active x) Q l.
Proof.
  intros Hc HQ. unfold last_active. apply wp_bind, wp_get.
  pose proof (chain_length _ _ _ _ Hc) as Hlen. rewrite length_app in Hlen. cbn in Hlen.
  assert (Hgen : forall L x fuel, chain evt_next_by_receiver (l_events l) (Some x) (L ++ [y]) -> (length L < fuel)%nat ->
    wp (loop fuel (fun e => let! evt := get_evt e in
      match evt_next_by_receiver evt with Some x => ret (inl x) | None => ret (inr e) end) x) Q l); [|apply (Hgen L); [done|lia]].
  clear Hc Hlen. intros L1. induction L1 as [|z L1 IH]; intros x1 fuel Hc Hf; (destruct fuel as [|fuel]; [lia|]); cbn [app chain] in Hc.
  - destruct Hc as ([= <-] & n & Hn & Hnx). rewrite loop_S. apply wp_bind, wp_bind. eapply wp_get_evt; [exact Hn|].
    cbn in Hnx. rewrite Hnx. apply wp_ret, wp_ret, HQ.
  - destruct Hc as ([= <-] & n & Hn & Hc). rewrite loop_S. apply wp_bind, wp_bind. eapply wp_get_evt; [exact Hn|].
    destruct (evt_next_by_receiver n) as [w|]; [|destruct L1; by destruct Hc as [? _]].
    apply wp_ret. apply IH; [exact Hc|]. cbn in Hf. lia.
Qed.

Definition sub_links (sub : nxe_subscriber) := (sub_pub sub, sub_next sub).
Definition same_links (l l' : nxe_loop) : Prop := forall s, sub_links <$> l_subscribers l' !! s = sub_links <$> l_subscribers l !! s.
Definition i_msg (x : evt_info) := (i_recv x, x.1.2).

Lemma same_links_insert l s sub sub' m :
  l_subscribers l !! s = Some sub -> sub_links sub' = sub_links sub -> m = <[s := sub']> (l_subscribers l) ->
  forall k, sub_links <$> m !! k = sub_links <$> l_subscribers l !! k.
Proof. intros Hs Hl -> k. destruct (decide (s = k)) as [->|Hn]; [rewrite lookup_insert_eq, Hs; cbn; by rewrite Hl|by rewrite lookup_insert_ne]. Qed.

(** Clauses that only see the links of subscribers. *)
Lemma u_pubs_links Y q l l' :
  subs_ok Y q l -> l_publishers l' = l_publishers l -> same_links l l' ->
  forall p pub, l_publishers l' !! p = Some pub -> exists sl, chain sub_next (l_subscribers l') (pub_sub pub) sl /\
     forall s, s ∈ sl <-> exists sub, l_subscribers l' !! s = Some sub /\ sub_pub sub = Some p.
Proof.
  intros Hs E Hl p pub. rewrite E. intros Hp. destruct (u_pubs _ _ _ Hs p pub Hp) as (sl & Hc & Hin). exists sl. split.
  - eapply chain_ext; [|exact Hc]. intros s _. specialize (Hl s). destruct (l_subscribers l' !! s), (l_subscribers l !! s); cbn in *; try done. unfold sub_links in Hl. congruence.
  - intros s. rewrite Hin. specialize (Hl s). unfold sub_links in Hl. destruct (l_subscribers l' !! s) as [s1|], (l_subscribers l !! s) as [s2|]; cbn in Hl; try done.
    assert (sub_pub s1 = sub_pub s2) by congruence. split; intros (? & [= <-] & ?); eexists; (split; [done|congruence]).
Qed.
Lemma u_next_links Y q l l' :
  subs_ok Y q l -> l_publishers l' = l_publishers l -> same_links l l' ->
  forall s sub, l_subscribers l' !! s = Some sub -> match sub_pub sub with Some p => is_Some (l_publishers l' !! p) | None => sub_next sub = None end.
Proof.
  intros Hs E Hl s sub Hsub. specialize (Hl s). rewrite Hsub in Hl. destruct (l_subscribers l !! s) as [s2|] eqn:E2; [|done].
  cbn in Hl. unfold sub_links in Hl. injection Hl as Hp Hn. pose proof (u_next _ _ _ Hs s s2 E2) as H0. by rewrite Hp, Hn, E.
Qed.

(** A new message for [s] at the end of the queue; only the list of active
    events of [s] is out of date. *)
Lemma subs_ok_message q l l' s sub d :
  let e := Pooled (l_next_event l) in
  subs_ok None q l -> e ∉ q -> l_subscribers l !! s = Some sub -> is_Some (sub_pub sub) ->
  (forall j, inf l' j = if decide (j = e) then Some (NXE_EV_MESSAGE, R_sub s, d, None) else inf l j) ->
  l_publishers l' = l_publishers l -> l_subscribers l' = l_subscribers l -> l_next_event l' = Pos.succ (l_next_event l) ->
  subs_ok (Some s) (q ++ [e]) l' /\ (forall s', active (q ++ [e]) l' s' = active q l s' ++ if decide (s' = s) then [e] else []).
Proof.
  intros e Hs Hnq Hsub Hp Hi' E3 E4 E5.
  assert (Hin : forall j, j ∈ q -> inf l' j = inf l j) by (intros j Hj; rewrite Hi', decide_False; [done|by intros ->]).
  assert (Ha : forall s', active (q ++ [e]) l' s' = active q l s' ++ if decide (s' = s) then [e] else []).
  { intros s'. rewrite active_snoc. rewrite (active_ext_in q l l') by done. f_equal. unfold message_for, e. fold e. rewrite Hi', decide_True by done. cbn.
    destruct (decide (s' = s)) as [->|Hne]; [by rewrite bool_decide_eq_true_2|]. rewrite bool_decide_eq_false_2; [done|]. congruence. }
  split; [|exact Ha]. destruct Hs as [A B C D E]. split.
  - intros n. rewrite Hi', E5. destruct (decide _) as [[= ->]|]; [lia|intros ?%A; lia].
  - intros n. rewrite elem_of_app, list_elem_of_singleton, E4. intros [Hq|[= ->]].
    + rewrite Hin by done. destruct (B n Hq) as (x & Hx & [(H1 & s1 & sub1 & H2 & H3 & [H4|H4])|Hcb]); [|done|]; exists x; (split; [done|]); [left|by right].
      split; [done|]. exists s1, sub1. split_and!; [done|done|by left].
    + rewrite Hi', decide_True by done. eexists. split; [done|]. left. split; [done|]. exists s, sub. split_and!; [done|done|by left].
  - intros s' sub' HY. rewrite E4. intros Hsub'. assert (s' <> s) by congruence. rewrite Ha, decide_False, app_nil_r by done.
    eapply chain_ext; [|by apply C]. intros j (n & -> & _ & Hj)%active_pooled. apply nbr_of_inf, Hin, Hj.
  - intros p pub. rewrite E3, E4. apply D.
  - intros s' sub'. rewrite E3, E4. apply E.
Qed.

Definition i_core (x : evt_info) := (i_cls x, i_msg x).

Lemma recv_of_core l l' e : i_core <$> inf l' e = i_core <$> inf l e -> i_recv <$> inf l' e = i_recv <$> inf l e.
Proof. intros Hc. destruct (inf l' e), (inf l e); cbn in *; try done. unfold i_core, i_msg in Hc. congruence. Qed.
Lemma active_ext_core q l l' s : (forall n, i_core <$> inf l' (Pooled n) = i_core <$> inf l (Pooled n)) -> active q l' s = active q l s.
Proof.
  intros Hi. unfold active. induction q as [|e q IH]; [done|]. rewrite !filter_cons, IH.
  assert (Hm : message_for l' s e = message_for l s e) by (destruct e; [done|]; unfold message_for; by rewrite (recv_of_core l l')). by rewrite Hm.
Qed.

(** The list of active events of [s] is brought up to date. *)
Lemma subs_ok_close q l l' s :
  subs_ok (Some s) q l -> l_publishers l' = l_publishers l -> l_next_event l' = l_next_event l -> same_links l l' ->
  (forall s', s' <> s -> l_subscribers l' !! s' = l_subscribers l !! s') ->
  (forall n, i_core <$> inf l' (Pooled n) = i_core <$> inf l (Pooled n)) ->
  (forall j, j ∈ q -> ~ j ∈ active q l s -> inf l' j = inf l j) ->
  (forall sub, l_subscribers l' !! s = Some sub -> is_Some (sub_pub sub) /\ chain evt_next_by_receiver (l_events l') (sub_evt sub) (active q l s)) ->
  subs_ok None q l'.
Proof.
  intros Hs E3 E5 Hl Hsame Hi Hinf Hc. split.
  - intros n Hn. rewrite E5. apply (u_fresh _ _ _ Hs). specialize (Hi n). by destruct (inf l' (Pooled n)), (inf l (Pooled n)), Hn.
  - intros n Hq. destruct (u_recv _ _ _ Hs n Hq) as (x & Hx & Hk). specialize (Hi n). rewrite Hx in Hi. cbn in Hi.
    destruct (inf l' (Pooled n)) as [x'|]; [|done]. cbn in Hi. unfold i_core, i_msg in Hi. injection Hi as I1 I2 I3. exists x'. split; [done|].
    rewrite I1, I2. destruct Hk as [(H1 & s1 & sub1 & H2 & H3 & H4)|Hk]; [|by right]. left. split; [done|].
    destruct (decide (s1 = s)) as [->|Hne].
    + specialize (Hl s). rewrite H3 in Hl. destruct (l_subscribers l' !! s) as [sub'|] eqn:E; [|done]. exists s, sub'. split_and!; [done|done|left]. by apply Hc.
    + exists s1, sub1. rewrite Hsame by done. split_and!; [done|done|left]. destruct H4 as [?|[= <-]]; done.
  - intros s' sub' _ Hsub. rewrite (active_ext_core _ _ _ _ Hi). destruct (decide (s' = s)) as [->|Hne]; [by apply Hc|].
    rewrite Hsame in Hsub by done. eapply chain_ext; [|eapply (u_chain _ _ _ Hs); [congruence|exact Hsub]].
    intros j Hj. pose proof (active_pooled _ _ _ _ Hj) as (n & -> & Hr & Hin). apply nbr_of_inf, Hinf; [done|].
    intros (m & [= <-] & Hr' & _)%active_pooled. congruence.
  - by eapply u_pubs_links.
  - by eapply u_next_links.
Qed.

Lemma chain_None {K N} `{Countable K} (nx : N -> option K) m l : chain nx m None l -> l = [].
Proof. destruct l; [done|]. by intros [? _]. Qed.

Lemma wp_publish_to cur q l s sub d (Q : unit -> nxe_loop -> Prop) :
  loop_inv cur q l -> l_subscribers l !! s = Some sub -> is_Some (sub_pub sub) ->
  (forall l', let e := Pooled (l_next_event l) in loop_inv cur (q ++ [e]) l' -> l_publishers l' = l_publishers l -> same_links l l' ->
     (forall j, j ∈ q -> i_msg <$> inf l' j = i_msg <$> inf l j) -> i_msg <$> inf l' e = Some (R_sub s, d) -> Q tt l') ->
  wp (publish_to d s) Q l.
Proof.
  intros Hinv Hsub Hp HQ. destruct Hinv as (Hq & Hst & Hs & Hc). destruct (fresh_not_queued _ _ _ Hq Hs) as [Hnq Hne].
  unfold publish_to. eapply (wp_new_event None q); [done|done|done|]. cbv zeta in *. set (e := Pooled (l_next_event l)) in *.
  intros l1 Hq1 Hi1 E1 E2 E3 E4 E5. destruct (subs_ok_message q l l1 s sub d Hs Hnq Hsub Hp Hi1 E3 E4 E5) as [Hs1 Ha1]. fold e in Hs1, Ha1.
  assert (Hst1 : streams_ok (exempt cur) (q ++ [e]) l1).
  { eapply streams_same_ok; [|apply embedded_snoc_pooled|exact Hst]. split_and!; [intros i; by rewrite Hi1|done|done]. }
  assert (Hc1 : inflight_ok cur (q ++ [e]) l1) by (eapply inflight_ok_fresh; [exact Hc|exact Hs|done|]; intros k Hk; by rewrite Hi1, decide_False).
  specialize (Ha1 s). rewrite decide_True in Ha1 by done.
  assert (Hch : chain evt_next_by_receiver (l_events l1) (sub_evt sub) (active q l s)).
  { eapply chain_ext; [|by apply (u_chain _ _ _ Hs)]. intros j (n & -> & _ & Hin)%active_pooled. apply nbr_of_inf. rewrite Hi1, decide_False; [done|]. intros En. by rewrite En in Hin. }
  assert (He1 : exists ee, l_events l1 !! e = Some ee /\ evt_next_by_receiver ee = None).
  { pose proof (Hi1 e) as He. rewrite decide_True in He by done. apply inf_Some in He as (ee & He & Hee). exists ee. split; [done|]. unfold info in Hee. congruence. }
  destruct He1 as (ee & He1 & Hnb). pose proof Hsub as Hsub1. rewrite <- E4 in Hsub1.
  apply wp_bind. eapply (wp_load l_subscribers); [exact Hsub1|]. destruct (sub_evt sub) as [x|] eqn:Ex.
  - assert (HL : exists L y, active q l s = L ++ [y]).
    { destruct (active q l s) as [|a A] eqn:EA; [done|]. destruct (exists_last (l := a :: A)) as (L & y & ->); [done|]. by exists L, y. }
    destruct HL as (L & y & HL). rewrite HL in *. apply wp_bind. eapply wp_last_active; [exact Hch|].
    assert (Hy : y ∈ active q l s) by (rewrite HL; set_solver). pose proof (active_pooled _ _ _ _ Hy) as (ny & Ey & Hyr & Hyq).
    assert (Hye : y <> e) by (by intros ->). assert (Hnd : NoDup (L ++ [y])) by (by eapply chain_NoDup).
    destruct (chain_member _ _ _ _ y Hch) as [yn Hyn]; [set_solver|].
    eapply wp_upd_evt; [exact Hyn|]. set (l2 := set_events _ l1).
    assert (Hi2 : forall k, inf l2 k = if decide (k = y) then Some (info (set_evt_next_by_receiver (Some e) yn)) else inf l1 k).
    { intros k. unfold l2, inf. cbn. destruct (decide _) as [->|Hk]; [by rewrite lookup_insert_eq|by rewrite lookup_insert_ne]. }
    assert (Hyl : y ∉ L) by (apply NoDup_app in Hnd as (_ & Hd & _); intros Hin; apply (Hd y Hin); left).
    assert (Hcore : forall k, i_core <$> inf l2 k = i_core <$> inf l1 k).
    { intros k. rewrite Hi2. destruct (decide _) as [->|]; [|done]. unfold inf. by rewrite Hyn. }
    apply HQ.
    + split_and!.
      * by eapply queue_ok_upd.
      * eapply streams_same_ok; [|done|exact Hst1]. split_and!; [|done|done]. intros i. by rewrite Hi2, decide_False by (rewrite Ey; done).
      * eapply (subs_ok_close (q ++ [e]) l1 l2 s); [exact Hs1|done|done|by intros k|done|done| |].
        -- intros j _ Hj. rewrite Hi2, decide_False; [done|]. intros ->. apply Hj. rewrite Ha1. set_solver.
        -- intros sub' Hsub'. change (l_subscribers l1 !! s = Some sub') in Hsub'. rewrite Hsub1 in Hsub'. injection Hsub' as <-. split; [done|]. rewrite Ha1, Ex, <- app_assoc. cbn [app].
           eapply (chain_splice _ (l_events l1) (Some x) L y yn (set_evt_next_by_receiver (Some e) yn) [] [e]); [done|done|set_solver|exact Hch|].
           cbn. split; [done|]. exists ee. by rewrite Hnb.
      * destruct cur as [| |m|]; [done..| |done]. destruct Hc1 as [H1 H2]. split; [|done]. specialize (Hcore (Pooled m)). by destruct (inf l2 _), (inf l1 (Pooled m)), H1.
    + done.
    + intros k. cbn. by rewrite E4.
    + intros j Hj. specialize (Hcore j). rewrite Hi1, decide_False in Hcore by (by intros ->). destruct (inf l2 j), (inf l j); cbn in *; try done. unfold i_core in Hcore. congruence.
    + rewrite Hi2, decide_False by done. by rewrite Hi1, decide_True.
  - apply chain_None in Hch. rewrite Hch in Ha1. cbn in Ha1. eapply wp_upd_sub; [exact Hsub1|]. set (l2 := set_subscribers _ l1).
    apply HQ.
    + split_and!; [done|eapply streams_same_ok; [|done|exact Hst1]; done| |done].
      eapply (subs_ok_close (q ++ [e]) l1 l2 s); [exact Hs1|done|done| | |done|done|].
      * intros k. by apply (same_links_insert l1 s sub (set_sub_evt (Some e) sub)).
      * intros s' Hne'. cbn. by rewrite lookup_insert_ne.
      * intros sub'. cbn. rewrite lookup_insert_eq. intros [= <-]. split; [done|]. rewrite Ha1. cbn. split; [done|]. exists ee. by rewrite Hnb.
    + done.
    + intros k. rewrite <- E4. by apply (same_links_insert l1 s sub (set_sub_evt (Some e) sub)).
    + intros j Hj. cbn. change (inf l2 j) with (inf l1 j). rewrite Hi1, decide_False; [done|]. by intros ->.
    + change (inf l2 e) with (inf l1 e). by rewrite Hi1, decide_True.
Qed.

Definition message_is (l : nxe_loop) (d : Z) (e : event_id) (s : positive) : Prop := i_msg <$> inf l e = Some (R_sub s, d).

Lemma chain_links l l' start sl : same_links l l' -> chain sub_next (l_subscribers l) start sl -> chain sub_next (l_subscribers l') start sl.
Proof.
  intros Hl. apply chain_ext. intros s _. specialize (Hl s). unfold sub_links in Hl.
  destruct (l_subscribers l' !! s), (l_subscribers l !! s); cbn in *; try done. congruence.
Qed.
Lemma same_links_trans l1 l2 l3 : same_links l1 l2 -> same_links l2 l3 -> same_links l1 l3.
Proof. intros H1 H2 s. by rewrite H2. Qed.

Lemma wp_publish_loop cur d sl : forall fuel start q l (Q : unit -> nxe_loop -> Prop),
  loop_inv cur q l -> chain sub_next (l_subscribers l) start sl -> (length sl < fuel)%nat ->
  (forall s, s ∈ sl -> exists sub, l_subscribers l !! s = Some sub /\ is_Some (sub_pub sub)) ->
  (forall l' new, loop_inv cur (q ++ new) l' -> Forall2 (message_is l' d) new sl ->
     (forall j, j ∈ q -> i_msg <$> inf l' j = i_msg <$> inf l j) -> Q tt l') ->
  wp (loop fuel (fun sub => match sub with None => ret (inr tt) | Some s =>
        do! publish_to d s in let! sub := get_sub s in ret (inl (sub_next sub)) end) start) Q l.
Proof.
  induction sl as [|s sl IH]; intros [|fuel] start q l Q Hinv Hc Hf Hsub HQ; try (cbn in Hf; lia); rewrite loop_S; apply wp_bind.
  - cbn in Hc. subst start. apply wp_ret, wp_ret, (HQ l []); [by rewrite app_nil_r|constructor|done].
  - cbn [chain] in Hc. destruct Hc as (-> & sub & Hs & Hc). destruct (Hsub s ltac:(left)) as (sub' & Hs' & Hp).
    rewrite Hs in Hs'. injection Hs' as <-. apply wp_bind. eapply wp_publish_to; [done|done|done|].
    cbv zeta. set (e := Pooled (l_next_event l)). intros l1 Hinv1 E3 Hl1 Hq1 He1.
    pose proof (Hl1 s) as Hls. rewrite Hs in Hls. destruct (l_subscribers l1 !! s) as [sub1|] eqn:Hs1; [|done]. cbn in Hls. unfold sub_links in Hls. injection Hls as L1 L2.
    apply wp_bind. eapply (wp_load l_subscribers); [exact Hs1|]. apply wp_ret. cbn beta iota. rewrite L2.
    eapply (IH fuel _ (q ++ [e])); [done|by eapply chain_links|cbn in Hf; lia| |].
    + intros s2 Hs2. destruct (Hsub s2 ltac:(by right)) as (sub2 & Hsub2 & Hp2). specialize (Hl1 s2). rewrite Hsub2 in Hl1.
      destruct (l_subscribers l1 !! s2) as [sub3|]; [|done]. cbn in Hl1. unfold sub_links in Hl1. exists sub3. split; [done|]. by replace (sub_pub sub3) with (sub_pub sub2) by congruence.
    + intros l2 new Hinv2 Hnew Hq2. apply (HQ l2 (e :: new)).
      * by rewrite <- app_assoc in Hinv2.
      * constructor; [|done]. unfold message_is. rewrite Hq2 by set_solver. done.
      * intros j Hj. rewrite Hq2 by set_solver. by apply Hq1.
Qed.

Lemma wp_publish cur q l p pub sl d (Q : unit -> nxe_loop -> Prop) :
  loop_inv cur q l -> l_publishers l !! p = Some pub -> chain sub_next (l_subscribers l) (pub_sub pub) sl ->
  (forall l' new, loop_inv cur (q ++ new) l' -> Forall2 (message_is l' d) new (if pub_loop pub then sl else []) -> Q tt l') ->
  wp (nxe_publish p d) Q l.
Proof.
  intros Hinv Hp Hc HQ. unfold nxe_publish. apply wp_bind. eapply (wp_load l_publishers); [exact Hp|].
  destruct (pub_loop pub); cbn [negb]; [|apply wp_ret, (HQ l []); [by rewrite app_nil_r|constructor]].
  apply wp_bind, wp_get. destruct Hinv as (Hq & Hst & Hs & Hcu). destruct (u_pubs _ _ _ Hs p pub Hp) as (sl' & Hc' & Hin).
  rewrite (chain_inj _ _ _ _ _ Hc' Hc) in *. apply (wp_publish_loop cur d sl _ _ q); [done|done| | |].
  - pose proof (chain_length _ _ _ _ Hc). lia.
  - intros s (sub & Hsub & Hsp)%Hin. exists sub. by rewrite Hsp.
  - intros l' new Hinv' Hnew _. by apply (HQ l' new).
Qed.

(** ** Subscriptions *)

Lemma wp_subscribe cur q l p pub s sub (Q : unit -> nxe_loop -> Prop) :
  loop_inv cur q l -> l_publishers l !! p = Some pub -> l_subscribers l !! s = Some sub -> sub_pub sub = None ->
  (forall l', op_post cur q l' -> Q tt l') -> wp (nxe_subscribe p s) Q l.
Proof.
  intros (Hq & Hst & Hs & Hc) Hp Hsub Hnp HQ. unfold nxe_subscribe. pose proof (u_next _ _ _ Hs _ _ Hsub) as Hnx. rewrite Hnp in Hnx.
  apply wp_bind. eapply (wp_load l_subscribers); [exact Hsub|]. apply wp_bind, wp_assert; [by rewrite bool_decide_eq_true_2|].
  apply wp_bind, wp_assert; [by rewrite bool_decide_eq_true_2|]. apply wp_bind. eapply (wp_load l_publishers); [exact Hp|].
  apply wp_bind. eapply wp_upd_sub; [exact Hsub|]. set (ns := mk_sub _ _ _ _). eapply wp_upd_pub; [exact Hp|]. set (l' := set_publishers _ _).
  apply HQ. exists q. split; [|apply fifo_refl]. split_and!; [done|by destruct Hst| |done].
  destruct Hs as [A B C D E]. destruct (D p pub Hp) as (sl & Hch & Hin).
  assert (Hsl : s ∉ sl) by (intros (sub' & Hs' & Hp')%Hin; congruence).
  assert (Hs' : l_subscribers l' !! s = Some ns) by apply lookup_insert_eq.
  assert (Hso : forall k, k <> s -> l_subscribers l' !! k = l_subscribers l !! k) by (intros k Hk; by apply lookup_insert_ne).
  assert (Hpo : forall k, k <> p -> l_publishers l' !! k = l_publishers l !! k) by (intros k Hk; by apply lookup_insert_ne).
  split.
  - exact A.
  - intros n Hn. destruct (B n Hn) as (x & Hx & Hk). exists x. split; [exact Hx|]. destruct Hk as [(H1 & s1 & sub1 & H2 & H3 & H4)|Hk]; [|by right].
    left. split; [done|]. destruct (decide (s1 = s)) as [->|Hne]; [exists s, ns; split_and!; [done|done|left; by eexists]|].
    exists s1, sub1. by rewrite Hso.
  - intros s1 sub1 HY. change (active q l' s1) with (active q l s1). change (l_events l') with (l_events l).
    destruct (decide (s1 = s)) as [->|Hne]; [rewrite Hs'; intros [= <-]; by apply (C s sub)|]. rewrite Hso by done. by apply C.
  - intros p1 pub1. destruct (decide (p1 = p)) as [->|Hne].
    + cbn. rewrite lookup_insert_eq. intros [= <-]. cbn [pub_sub]. exists (s :: sl). split.
      * cbn [chain]. split; [done|]. exists ns. split; [exact Hs'|]. cbn [ns sub_next]. by apply chain_insert.
      * intros k. rewrite elem_of_cons, Hin. change (<[s:=ns]> (l_subscribers l) !! k) with (l_subscribers l' !! k). destruct (decide (k = s)) as [->|Hk].
        -- rewrite Hs'. split; [intros _; by exists ns|by left].
        -- rewrite Hso by done. split; [by intros [?|?]|by right].
    + rewrite Hpo by done. intros Hp1. destruct (D p1 pub1 Hp1) as (sl1 & Hc1 & Hin1). exists sl1.
      assert (Hs1 : s ∉ sl1) by (intros (sub' & Hs1 & Hp1')%Hin1; congruence). split.
      * by apply chain_insert.
      * intros k. rewrite Hin1. destruct (decide (k = s)) as [->|Hk]; [|by rewrite Hso].
        rewrite Hs', Hsub. split; intros (? & [= <-] & Hx); [congruence|by injection Hx as <-].
  - intros s1 sub1. assert (Hpk : forall k, is_Some (l_publishers l !! k) -> is_Some (l_publishers l' !! k)).
    { intros k Hk. destruct (decide (k = p)) as [->|Hne]; [cbn; rewrite lookup_insert_eq; by eexists|by rewrite Hpo]. }
    destruct (decide (s1 = s)) as [->|Hne]; [rewrite Hs'; intros [= <-]; cbn; apply Hpk; by eexists|].
    rewrite Hso by done. intros H1%E. destruct (sub_pub sub1); [by apply Hpk|done].
Qed.

Definition sub_kept (sub : nxe_subscriber) := (sub_pub sub, sub_evt sub).

(** [s] has left the list of [p]: what remains to be done is to drop its
    events. *)
Lemma subs_ok_removed q l l1 p s sub pre post pub1 :
  subs_ok None q l -> l_subscribers l !! s = Some sub -> sub_pub sub = Some p ->
  (exists pub, l_publishers l !! p = Some pub /\ chain sub_next (l_subscribers l) (pub_sub pub) (pre ++ s :: post)) ->
  (forall k, inf l1 k = inf l k) -> l_next_event l1 = l_next_event l ->
  (exists b, l_subscribers l1 !! s = Some (mk_sub b None None (sub_evt sub))) ->
  (forall k, k ∉ pre -> k <> s -> l_subscribers l1 !! k = l_subscribers l !! k) ->
  (forall k, k <> s -> sub_kept <$> l_subscribers l1 !! k = sub_kept <$> l_subscribers l !! k) ->
  l_publishers l1 !! p = Some pub1 -> (forall k, k <> p -> l_publishers l1 !! k = l_publishers l !! k) ->
  chain sub_next (l_subscribers l1) (pub_sub pub1) (pre ++ post) -> subs_ok (Some s) q l1.
Proof.
  intros Hs Hsub Hsp (pub & Hp & Hch) Hi En [b Hs1] Hk Hkept Hp1 Hpo Hch1. pose proof (chain_NoDup _ _ _ _ Hch) as Hnd.
  assert (Hspp : s ∉ pre ++ post) by (apply NoDup_app in Hnd as (_ & Hd & H2); apply NoDup_cons in H2 as [H2 _]; intros [Hx|Hx]%elem_of_app; [by apply (Hd s Hx); left|done]).
  assert (Hmem : forall k, k ∈ pre ++ s :: post <-> exists sub, l_subscribers l !! k = Some sub /\ sub_pub sub = Some p).
  { intros k. destruct (u_pubs _ _ _ Hs p pub Hp) as (sl & Hc & Hin). by rewrite (chain_inj _ _ _ _ _ Hch Hc). }
  assert (Hpub : forall k sub1, k <> s -> l_subscribers l1 !! k = Some sub1 -> exists sub0, l_subscribers l !! k = Some sub0 /\ sub_pub sub0 = sub_pub sub1 /\ sub_evt sub0 = sub_evt sub1).
  { intros k sub1 Hne H1. specialize (Hkept k Hne). rewrite H1 in Hkept. destruct (l_subscribers l !! k) as [sub0|]; [|done]. exists sub0. unfold sub_kept in Hkept. cbn in Hkept. split; [done|]. by injection Hkept as -> ->. }
  assert (Hpub' : forall k sub0, k <> s -> l_subscribers l !! k = Some sub0 -> exists sub1, l_subscribers l1 !! k = Some sub1 /\ sub_pub sub0 = sub_pub sub1).
  { intros k sub0 Hne H1. specialize (Hkept k Hne). rewrite H1 in Hkept. destruct (l_subscribers l1 !! k) as [sub1|]; [|done]. exists sub1. unfold sub_kept in Hkept. cbn in Hkept. split; [done|]. by injection Hkept as -> _. }
  split.
  - intros n. rewrite Hi, En. apply (u_fresh _ _ _ Hs).
  - intros n Hn. rewrite Hi. destruct (u_recv _ _ _ Hs n Hn) as (x & Hx & [(H1 & s1 & sub1 & H2 & H3 & H4)|Hcb]); exists x; (split; [done|]); [left|by right].
    split; [done|]. destruct (decide (s1 = s)) as [->|Hne]; [eexists s, _; split_and!; [done|exact Hs1|by right]|].
    destruct (Hpub' s1 sub1 Hne H3) as (sub2 & H5 & H6). exists s1, sub2. split_and!; [done|done|left]. destruct H4 as [H4|H4]; [|done]. by rewrite <- H6.
  - intros s1 sub1 HY H1. assert (Hne : s1 <> s) by congruence. destruct (Hpub s1 sub1 Hne H1) as (sub0 & H0 & _ & He). rewrite <- He.
    rewrite (active_ext q l l1) by done. eapply chain_ext; [|apply (u_chain _ _ _ Hs s1 sub0); done]. intros j _. by apply nbr_of_inf.
  - intros p2 pub2. destruct (decide (p2 = p)) as [->|Hne].
    + rewrite Hp1. intros [= <-]. exists (pre ++ post). split; [done|]. intros k. destruct (decide (k = s)) as [->|Hks].
      * rewrite Hs1. split; [done|]. by intros (? & [= <-] & [=]).
      * rewrite elem_of_app. pose proof (Hmem k) as Hm. rewrite elem_of_app, elem_of_cons in Hm. split.
        -- intros Hin. destruct (proj1 Hm) as (sub0 & H0 & H2); [naive_solver|]. destruct (Hpub' k sub0 Hks H0) as (sub1 & H3 & H4). exists sub1. split; [done|congruence].
        -- intros (sub1 & H0 & H2). destruct (Hpub k sub1 Hks H0) as (sub0 & H3 & H4 & _). destruct (proj2 Hm) as [?|[?|?]]; [exists sub0; split; [done|congruence]|tauto..].
    + rewrite Hpo by done. intros Hp2. destruct (u_pubs _ _ _ Hs p2 pub2 Hp2) as (sl & Hc & Hin). exists sl.
      assert (Hdis : forall k, k ∈ sl -> k <> s /\ k ∉ pre).
      { intros k (sub0 & H0 & H2)%Hin. split; [intros ->; congruence|]. intros Hpre. destruct (proj1 (Hmem k)) as (sub3 & H3 & H4); [set_solver|]. congruence. }
      split.
      * eapply chain_ext; [|exact Hc]. intros k (H1 & H2)%Hdis. by rewrite Hk.
      * intros k. rewrite Hin. destruct (decide (k = s)) as [->|Hks].
        -- rewrite Hs1, Hsub. split; intros (? & [= <-] & Hx); [congruence|done].
        -- split; intros (sub0 & H0 & H2).
           ++ destruct (Hpub' k sub0 Hks H0) as (sub1 & H3 & H4). exists sub1. split; [done|congruence].
           ++ destruct (Hpub k sub0 Hks H0) as (sub1 & H3 & H4 & _). exists sub1. split; [done|congruence].
  - intros s1 sub1 H1. destruct (decide (s1 = s)) as [->|Hne]; [rewrite Hs1 in H1; by injection H1 as <-|].
    assert (Hpk : forall k, is_Some (l_publishers l !! k) -> is_Some (l_publishers l1 !! k)).
    { intros k Hkk. destruct (decide (k = p)) as [->|Hn]; [by rewrite Hp1|by rewrite Hpo]. }
    destruct (Hpub s1 sub1 Hne H1) as (sub0 & H0 & H2 & _). pose proof (u_next _ _ _ Hs _ _ H0) as Hn. rewrite <- H2.
    destruct (sub_pub sub0) as [p0|] eqn:E0; [by apply Hpk|]. destruct (decide (s1 ∈ pre)) as [Hin|Hin].
    + destruct (proj1 (Hmem s1)) as (sub3 & H3 & H4); [set_solver|]. congruence.
    + rewrite Hk in H1 by done. congruence.
Qed.

Lemma wp_remove_subscriber l s sub x pre y post (Q : unit -> nxe_loop -> Prop) :
  chain sub_next (l_subscribers l) (Some x) (pre ++ y :: s :: post) -> l_subscribers l !! s = Some sub ->
  (forall ysub, l_subscribers l !! y = Some ysub ->
     Q tt (set_subscribers (<[s := mk_sub (sub_loop sub) None None (sub_evt sub)]> (<[y := set_sub_next (sub_next sub) ysub]> (l_subscribers l))) l)) ->
  wp (remove_subscriber s (Some x)) Q l.
Proof.
  intros Hc Hsub HQ. unfold remove_subscriber. apply wp_bind, wp_get.
  pose proof (chain_length _ _ _ _ Hc) as Hlen. rewrite length_app in Hlen. cbn in Hlen.
  pose proof (chain_NoDup _ _ _ _ Hc) as Hnd. assert (Hf : (length pre < S (size (l_subscribers l)))%nat) by lia. clear Hlen.
  revert Hf. generalize (S (size (l_subscribers l))) as n. revert x Hc Hnd.
  induction pre as [|z pre IH]; intros x Hc Hnd [|n] Hf; try lia; rewrite loop_S; apply wp_bind; cbn [app] in Hc, Hnd; pose proof Hc as Hc0; cbn [chain] in Hc.
  - destruct Hc as ([= ->] & ysub & Hy & Hc). destruct Hc as (Hny & sub' & Hs' & Hc). apply wp_bind. eapply (wp_load l_subscribers); [exact Hy|].
    rewrite bool_decide_eq_true_2 by done. apply wp_bind. eapply (wp_load l_subscribers); [exact Hsub|].
    apply wp_bind. eapply wp_upd_sub; [exact Hy|]. apply wp_bind. assert (y <> s) by (apply NoDup_cons in Hnd as [Hn _]; set_solver).
    eapply wp_upd_sub; [cbn; rewrite lookup_insert_ne by done; exact Hsub|]. apply wp_ret, wp_ret. by apply HQ.
  - destruct Hc as ([= ->] & zs & Hz & Hc). apply wp_bind. eapply (wp_load l_subscribers); [exact Hz|].
    apply NoDup_cons in Hnd as [Hzn Hnd]. destruct (sub_next zs) as [w|] eqn:Ew; [|by destruct pre; destruct Hc as [? _]].
    assert (Hws : w <> s).
    { intros ->. destruct pre as [|z2 pre]; cbn in Hc; destruct Hc as ([= ->] & _).
      - apply NoDup_cons in Hnd as [Hn _]. apply Hn. left.
      - apply NoDup_cons in Hnd as [Hn _]. apply Hn. set_solver. }
    rewrite bool_decide_eq_false_2 by congruence. apply wp_ret. apply IH; [done|done|cbn in Hf; lia].
Qed.

(** Unlinking and freeing one message. *)
Lemma subs_ok_drop q1 e q2 l l' s :
  subs_ok (Some s) (q1 ++ e :: q2) l -> NoDup (q1 ++ e :: q2) -> message_for l s e = true ->
  (forall k, k <> e -> inf l' k = inf l k) -> inf l' e = None -> l_publishers l' = l_publishers l -> l_subscribers l' = l_subscribers l -> l_next_event l' = l_next_event l ->
  subs_ok (Some s) (q1 ++ q2) l' /\ active (q1 ++ q2) l' s = active q1 l s ++ active q2 l s.
Proof.
  intros Hs Hnd Hm Hi He E3 E4 E5. apply NoDup_app in Hnd as (_ & H1 & H2). apply NoDup_cons in H2 as [H2 _].
  assert (He1 : e ∉ q1) by (intros Hin; apply (H1 e Hin); left).
  assert (Hin : forall k, k ∈ q1 ++ q2 -> k <> e) by (intros k [Hk|Hk]%elem_of_app ->; done).
  assert (Ha : forall s', active (q1 ++ q2) l' s' = active q1 l s' ++ active q2 l s').
  { intros s'. rewrite (active_ext_in _ l l') by (intros k Hk%Hin; by apply Hi). apply active_app. }
  split; [|done]. destruct Hs as [A B C D E]. split.
  - intros n Hn. rewrite E5. apply A. destruct (decide (Pooled n = e)) as [<-|Hne]; [rewrite He in Hn; by destruct Hn|by rewrite <- Hi].
  - intros n Hn. rewrite Hi, E4 by (by apply Hin). apply B. set_solver.
  - intros s' sub HY. rewrite E4. intros Hsub. rewrite Ha.
    assert (Hact : active (q1 ++ e :: q2) l s' = active q1 l s' ++ active q2 l s').
    { rewrite active_app. f_equal. unfold active. rewrite filter_cons_False; [done|]. destruct e as [|n]; [done|]. cbn in *.
      apply bool_decide_eq_true in Hm. intros Hm'%bool_decide_eq_true. congruence. }
    rewrite <- Hact. eapply chain_ext; [|by apply C]. intros j Hj. apply nbr_of_inf, Hi. rewrite Hact in Hj.
    apply Hin. apply elem_of_app in Hj as [Hj|Hj]; apply active_pooled in Hj as (n & -> & _ & Hj); set_solver.
  - intros p pub. rewrite E3, E4. apply D.
  - intros s' sub. rewrite E3, E4. apply E.
Qed.

Lemma filter_drop_head q1 e q2 l s rest :
  NoDup (q1 ++ e :: q2) -> message_for l s e = true -> active (q1 ++ e :: q2) l s = e :: rest -> active q1 l s ++ active q2 l s = rest.
Proof.
  intros Hnd Hm. rewrite active_app. unfold active at 2. rewrite filter_cons_True by done. destruct (active q1 l s) as [|a A] eqn:E; [by intros [= ?]|].
  cbn. intros [= -> _]. exfalso. assert (Hin : e ∈ active q1 l s) by (rewrite E; left). apply active_pooled in Hin as (_ & _ & _ & Hin).
  apply NoDup_app in Hnd as (_ & Hd & _). apply (Hd e Hin). left.
Qed.

Lemma filter_more (q D : list event_id) e : e ∉ q -> filter (fun x => x ∉ D) q = filter (fun x => x ∉ e :: D) q.
Proof.
  induction q as [|x q IH]; intros He; [done|]. apply not_elem_of_cons in He as [Hx He]. rewrite !filter_cons, IH by done.
  destruct (decide (x ∉ D)) as [H1|H1], (decide (x ∉ e :: D)) as [H2|H2]; try done; rewrite elem_of_cons in H2; naive_solver.
Qed.

Lemma wp_drop_active cur s act : forall fuel start q l (Q : unit -> nxe_loop -> Prop),
  queue_ok q l -> streams_ok (exempt cur) q l -> subs_ok (Some s) q l -> inflight_ok cur q l ->
  chain evt_next_by_receiver (l_events l) start act -> active q l s = act -> (length act < fuel)%nat ->
  (forall q' l', queue_ok q' l' -> streams_ok (exempt cur) q' l' -> subs_ok (Some s) q' l' -> inflight_ok cur q' l' ->
     active q' l' s = [] -> l_subscribers l' = l_subscribers l -> (exists D : list event_id, q' = filter (fun e => e ∉ D) q) -> Q tt l') ->
  wp (loop fuel (fun next_evt => match next_evt with None => ret (inr tt) | Some e =>
        let! evt := get_evt e in do! nxe_unlink e in do! free_event e in ret (inl (evt_next_by_receiver evt)) end) start) Q l.
Proof.
  induction act as [|e act IH]; intros [|fuel] start q l Q Hq Hst Hs Hcu Hc Ha Hf HQ; try (cbn in Hf; lia); rewrite loop_S; apply wp_bind.
  - cbn in Hc. subst start. apply wp_ret, wp_ret. apply (HQ q l); try done. exists []. symmetry. apply filter_none. intros x _. apply not_elem_of_nil.
  - cbn [chain] in Hc. destruct Hc as (-> & evt & He & Hc). apply wp_bind. eapply wp_get_evt; [exact He|].
    assert (Hin : e ∈ active q l s) by (rewrite Ha; left). assert (Hm : message_for l s e = true) by (by apply list_elem_of_filter in Hin as [? _]).
    pose proof (active_pooled _ _ _ _ Hin) as (n & En & Hr & Hqe). apply list_elem_of_split in Hqe as (q1 & q2 & ->).
    pose proof (queue_ok_NoDup _ _ Hq) as Hnd. pose proof Hnd as Hnd'. apply NoDup_app in Hnd' as (_ & Hd & Hn2). apply NoDup_cons in Hn2 as [Hn2 _].
    assert (He1 : e ∉ q1) by (intros Hx; apply (Hd e Hx); left). assert (He12 : e ∉ q1 ++ q2) by (rewrite elem_of_app; tauto).
    apply wp_bind. eapply wp_unlink; [exact Hq|]. intros l1 Hq1 Hi1 Ho1. unfold others in Ho1. injection Ho1 as E1 E2 E3 E4 E5.
    apply wp_bind. unfold free_event. apply wp_bind, wp_get, wp_put, wp_ret. set (l2 := set_events _ l1).
    assert (Hi2 : forall k, inf l2 k = if decide (k = e) then None else inf l k).
    { intros k. unfold l2, inf. cbn. destruct (decide (k = e)) as [->|Hne]; [by rewrite lookup_delete_eq|rewrite lookup_delete_ne by done; apply Hi1]. }
    destruct (subs_ok_drop q1 e q2 l l2 s Hs Hnd Hm) as [Hs2 Ha2]; [intros k Hk; by rewrite Hi2, decide_False|by rewrite Hi2, decide_True|done..|].
    rewrite (filter_drop_head _ _ _ _ _ _ Hnd Hm Ha) in Ha2.
    assert (Hemb : forall i, Embedded i ∈ q1 ++ q2 <-> Embedded i ∈ q1 ++ e :: q2).
    { intros i. rewrite !elem_of_app, elem_of_cons, En. naive_solver. }
    cbn beta iota. eapply (IH fuel _ (q1 ++ q2) l2); [| | | | |exact Ha2|cbn in Hf; lia|].
    + destruct Hq1 as [Hd1 Hl1]. split.
      * destruct Hd1 as (N1 & S1 & F1 & L1). split_and!; try done. eapply seg_ext; [|exact S1]. intros k Hk. cbn. rewrite lookup_delete_ne; [done|]. by intros ->.
      * intros k evk. cbn. intros Hk. apply Hl1. destruct (decide (e = k)) as [->|Hne]; [by rewrite lookup_delete_eq in Hk|by rewrite lookup_delete_ne in Hk].
    + eapply streams_same_ok; [|exact Hemb|exact Hst]. split_and!; [|done|done]. intros i. by rewrite Hi2, decide_False by (rewrite En; done).
    + exact Hs2.
    + destruct cur as [| |m|]; [done..| |done]. destruct Hcu as [H1 H2]. assert (Pooled m <> e) by (intros <-; apply H2; set_solver).
      split; [by rewrite Hi2, decide_False|]. intros Hx. apply H2. set_solver.
    + eapply chain_ext; [|exact Hc]. intros k Hk. apply nbr_of_inf. rewrite Hi2, decide_False; [done|]. intros ->.
      assert (Hnda : NoDup (active (q1 ++ e :: q2) l s)) by (by apply NoDup_filter). rewrite Ha in Hnda. by apply NoDup_cons in Hnda as [? _].
    + intros q' l' G1 G2 G3 G4 G5 G6 (D & G7). apply (HQ q' l'); try done; [by rewrite G6|]. exists (e :: D). rewrite G7, !filter_app, filter_cons_False by (intros Hx; apply Hx; left).
      by rewrite <- !filter_more.
Qed.

Lemma subs_ok_close_none q l s b sub :
  subs_ok (Some s) q l -> active q l s = [] -> l_subscribers l !! s = Some sub -> sub_pub sub = None ->
  subs_ok None q (set_subscribers (<[s := mk_sub b None (sub_next sub) None]> (l_subscribers l)) l).
Proof.
  intros Hs Ha Hsub Hp. set (l' := set_subscribers _ l). pose proof (u_next _ _ _ Hs _ _ Hsub) as Hnx. rewrite Hp in Hnx.
  assert (Hl : same_links l l') by (intros k; apply (same_links_insert l s sub (mk_sub b None (sub_next sub) None)); [done|by unfold sub_links; rewrite Hp|done]).
  split.
  - apply (u_fresh _ _ _ Hs).
  - intros n Hn. destruct (u_recv _ _ _ Hs n Hn) as (x & Hx & [(H1 & s1 & sub1 & H2 & H3 & H4)|Hk]); exists x; (split; [exact Hx|]); [left|by right].
    split; [done|]. assert (Hne : s1 <> s).
    { intros ->. assert (Hin : Pooled n ∈ active q l s); [|rewrite Ha in Hin; by apply elem_of_nil in Hin].
      apply list_elem_of_filter. split; [|done]. cbn. rewrite Hx. cbn. rewrite H2. by apply bool_decide_eq_true_2. }
    exists s1, sub1. cbn. rewrite lookup_insert_ne by done. split_and!; [done|done|left]. destruct H4 as [H4|H4]; [done|congruence].
  - intros s1 sub1 _. change (active q l' s1) with (active q l s1). cbn. destruct (decide (s1 = s)) as [->|Hne].
    + rewrite lookup_insert_eq. intros [= <-]. by rewrite Ha.
    + rewrite lookup_insert_ne by done. apply (u_chain _ _ _ Hs). congruence.
  - by eapply u_pubs_links.
  - by eapply u_next_links.
Qed.

Lemma exists_last_or_nil {A} (l : list A) : l = [] \/ exists l' x, l = l' ++ [x].
Proof. destruct l as [|a l]; [by left|right]. destruct (exists_last (l := a :: l)) as (l' & x & ->); [done|by exists l', x]. Qed.

Lemma wp_unsubscribe cur q l p s sub (Q : unit -> nxe_loop -> Prop) :
  loop_inv cur q l -> l_subscribers l !! s = Some sub -> sub_pub sub = Some p ->
  (forall l', op_post cur q l' -> Q tt l') -> wp (nxe_unsubscribe p s) Q l.
Proof.
  intros (Hq & Hst & Hs & Hcu) Hsub Hsp HQ. pose proof (u_next _ _ _ Hs _ _ Hsub) as Hpub. rewrite Hsp in Hpub. destruct Hpub as [pub Hp].
  destruct (u_pubs _ _ _ Hs p pub Hp) as (sl & Hc & Hin). assert (Hsl : s ∈ sl) by (apply Hin; by exists sub).
  apply list_elem_of_split in Hsl as (pre & post & ->). pose proof (chain_NoDup _ _ _ _ Hc) as Hnd. pose proof Hnd as Hnd'.
  apply NoDup_app in Hnd' as (Hnpre & Hd & Hn2). apply NoDup_cons in Hn2 as [Hspost Hn2].
  unfold nxe_unsubscribe. apply wp_bind. eapply (wp_load l_subscribers); [exact Hsub|]. apply wp_bind, wp_assert; [by rewrite bool_decide_eq_true_2|].
  apply wp_bind. eapply (wp_load l_publishers); [exact Hp|]. apply wp_bind.
  (* out of the list *)
  assert (Hout : forall l1 : nxe_loop, (l_events l1, l_istreams l1, l_ostreams l1, l_first l1, l_last l1, l_next_event l1) = (l_events l, l_istreams l, l_ostreams l, l_first l, l_last l, l_next_event l) ->
      l_subscribers l1 !! s = Some (mk_sub (sub_loop sub) None None (sub_evt sub)) -> subs_ok (Some s) q l1 ->
      wp (let! sub := get_sub s in do! drop_active (sub_evt sub) in upd_sub s (set_sub_evt None)) Q l1).
  { intros l1 E Hs1 Hsok. injection E as E1 E2 E3 E4 E5 E6. apply wp_bind. eapply (wp_load l_subscribers); [exact Hs1|]. cbn [sub_evt].
    apply wp_bind. unfold drop_active. apply wp_bind, wp_get. assert (Hi : forall k, inf l1 k = inf l k) by (intros k; unfold inf; by rewrite E1).
    assert (Hch : chain evt_next_by_receiver (l_events l1) (sub_evt sub) (active q l1 s)).
    { rewrite E1, (active_ext q l l1) by done. apply (u_chain _ _ _ Hs); done. }
    eapply (wp_drop_active cur s (active q l1 s) _ _ q l1); [| |exact Hsok| |exact Hch|done| |].
    - destruct Hq as [H1 H2]. unfold queue_ok. by rewrite E1, E4, E5.
    - eapply streams_same_ok; [|done|exact Hst]. by split_and!.
    - destruct cur; [done..| |done]. unfold inflight_ok in *. by rewrite Hi.
    - pose proof (chain_length _ _ _ _ Hch). lia.
    - intros q' l' G1 G2 G3 G4 G5 G6 (D & G7). rewrite <- G6 in Hs1. eapply wp_upd_sub; [exact Hs1|]. apply HQ. exists q'. split.
      + split_and!; [done|by destruct G2| |done]. by apply (subs_ok_close_none q' l' s (sub_loop sub) (mk_sub (sub_loop sub) None None (sub_evt sub))).
      + exists D, []. by rewrite app_nil_r. }
  destruct (exists_last_or_nil pre) as [->|(pre' & y & ->)].
  - cbn [app] in *. pose proof Hc as (Hps & sub' & Hs' & Hc'). rewrite Hsub in Hs'. injection Hs' as <-. rewrite bool_decide_eq_true_2 by done.
    apply wp_bind. eapply wp_upd_pub; [exact Hp|]. eapply wp_upd_sub; [exact Hsub|]. set (l1 := set_subscribers _ _).
    assert (Hs1 : l_subscribers l1 !! s = Some (mk_sub (sub_loop sub) None None (sub_evt sub))) by apply lookup_insert_eq.
    apply Hout; [done|exact Hs1|]. apply (subs_ok_removed q l l1 p s sub [] post (set_pub_sub (sub_next sub) pub)); try done.
    + by exists pub.
    + by eexists.
    + intros k _ Hk. by apply lookup_insert_ne.
    + intros k Hk. cbn. by rewrite lookup_insert_ne.
    + apply lookup_insert_eq.
    + intros k Hk. by apply lookup_insert_ne.
    + cbn. by apply chain_insert.
  - assert (Hys : y <> s) by (intros ->; apply (Hd s); [set_solver|left]).
    rewrite <- app_assoc in *. cbn [app] in *. assert (Hx : exists x, pub_sub pub = Some x /\ x <> s).
    { destruct pre' as [|z pre']; cbn in Hc; destruct Hc as (-> & _); eexists; (split; [done|]); [done|]. intros ->. apply (Hd s); left. }
    destruct Hx as (x & Ex & Hxs). rewrite bool_decide_eq_false_2 by congruence. rewrite Ex in *.
    eapply wp_remove_subscriber; [exact Hc|exact Hsub|]. intros ysub Hy. set (l1 := set_subscribers _ _).
    assert (Hs1 : l_subscribers l1 !! s = Some (mk_sub (sub_loop sub) None None (sub_evt sub))) by apply lookup_insert_eq.
    apply Hout; [done|exact Hs1|]. apply (subs_ok_removed q l l1 p s sub (pre' ++ [y]) post pub); try done.
    + exists pub. split; [done|]. rewrite Ex, <- app_assoc. done.
    + by eexists.
    + intros k Hk1 Hk2. cbn. rewrite lookup_insert_ne by done. rewrite lookup_insert_ne; [done|]. set_solver.
    + intros k Hk. cbn. rewrite lookup_insert_ne by done. destruct (decide (k = y)) as [->|Hky]; [by rewrite lookup_insert_eq, Hy|by rewrite lookup_insert_ne].
    + cbn. rewrite Ex, <- app_assoc. cbn [app]. apply chain_insert; [rewrite !elem_of_app, elem_of_cons in *; intros [Hk|[Hk|Hk]]; [apply (Hd s); [set_solver|left]|done|done]|].
      assert (Hypre : y ∉ pre') by (apply NoDup_app in Hnpre as (_ & H1 & _); intros Hin'; apply (H1 y Hin'); left).
      assert (Hypost : y ∉ post) by (intros Hin'; apply (Hd y); [set_solver|by right]).
      eapply (chain_splice _ _ _ pre' y ysub (set_sub_next (sub_next sub) ysub) (s :: post) post); [done|done|done|exact Hc|].
      cbn. apply (chain_from _ _ (Some x) (pre' ++ [y]) s post sub); [by rewrite <- app_assoc|done].
Qed.

(** ** All operations *)

(** What the caller of an operation must ensure. *)
Definition op_ok (op : loop_op) (l : nxe_loop) : Prop :=
  match op with
  | InitIstream i => l_istreams l !! i = None
  | InitOstream o => l_ostreams l !! o = None
  | InitPublisher p => l_publishers l !! p = None
  | InitSubscriber s => l_subscribers l !! s = None
  | IstreamSetReady i | IstreamUnsetReady i => is_Some (l_istreams l !! i)
  | OstreamSetReady o | OstreamUnsetReady o => is_Some (l_ostreams l !! o)
  | Connect i o => unpaired l i o
  | Disconnect i o => exists ist, l_istreams l !! i = Some ist /\ is_pair ist = Some o
  | Subscribe p s => is_Some (l_publishers l !! p) /\ exists sub, l_subscribers l !! s = Some sub /\ sub_pub sub = None
  | Unsubscribe p s => exists sub, l_subscribers l !! s = Some sub /\ sub_pub sub = Some p
  | Publish p _ => is_Some (l_publishers l !! p)
  | ScheduleCallback _ _ => True
  end.

Lemma loop_inv_create : loop_inv Idle [] nxe_create.
Proof.
  split_and!; [| | |done].
  - split; [|done]. split_and!; [constructor|done|done|done].
  - split; try done.
    + intros i. by split; intros [? ?].
    + by intros i ?%elem_of_nil.
    + intros i o. by split; intros (? & ? & _).
  - split; try done.
    + by intros n [? ?].
    + by intros n ?%elem_of_nil.
Qed.

Lemma wp_init_istream cur q l i (Q : unit -> nxe_loop -> Prop) :
  loop_inv cur q l -> (forall ist, l_istreams l !! i = Some ist -> is_pair ist = None) -> (forall l', op_post cur q l' -> Q tt l') -> wp (nxe_init_istream i) Q l.
Proof.
  intros Hinv Hi HQ. pose proof Hinv as (Hq & Hst & _). apply wp_modify, HQ. set (ne := mk_evt _ _ _ _ _ _ _). set (l' := set_istreams _ _).
  assert (Hnq : Embedded i ∉ q).
  { intros (x & o & ist & _ & _ & Hx & Hp)%(s_recv _ _ _ Hst). specialize (Hi _ Hx). congruence. }
  assert (Hi' : forall k, inf l' k = if decide (k = Embedded i) then Some (info ne) else inf l k).
  { intros k. unfold l', inf. cbn. destruct (decide _) as [->|Hk]; [by rewrite lookup_insert_eq|by rewrite lookup_insert_ne]. }
  eapply op_post_same; [exact Hinv| | |].
  - split_and!; [|done..]. intros n. by rewrite Hi', decide_False.
  - destruct Hq as [Hd Hl]. split; [by apply dll_insert|]. intros k evt. cbn. destruct (decide (k = Embedded i)) as [->|Hne].
    + rewrite lookup_insert_eq. intros [= <-]. symmetry. by apply bool_decide_eq_false_2.
    + rewrite lookup_insert_ne by done. apply Hl.
  - destruct Hst as [A B C D E]. split.
    + intros j. rewrite Hi'. cbn. destruct (decide (Embedded j = Embedded i)) as [[= ->]|Hne]; [rewrite lookup_insert_eq; by split; eexists|].
      rewrite lookup_insert_ne by congruence. apply A.
    + intros j x. rewrite Hi'. destruct (decide _); [by intros [= <-]|apply B].
    + intros j Hj. assert (Hji : Embedded j <> Embedded i) by (by intros E'; rewrite E' in Hj). destruct (C j Hj) as (x & o & ist & H1 & H2 & H3 & H4).
      exists x, o, ist. rewrite Hi', decide_False by done. cbn. rewrite lookup_insert_ne by congruence. done.
    + intros j o. change (l_ostreams l') with (l_ostreams l). rewrite <- D. cbn. destruct (decide (i = j)) as [->|Hne]; [|by rewrite lookup_insert_ne].
      rewrite lookup_insert_eq. split; [by intros (? & [= <-] & ?)|]. intros (ist & Hj & Hp). specialize (Hi _ Hj). congruence.
    + intros j o ist ost. cbn. destruct (decide (i = j)) as [->|Hne]; [rewrite lookup_insert_eq; by intros [= <-]|]. rewrite lookup_insert_ne by done. apply E.
Qed.

Lemma wp_init_ostream cur q l o (Q : unit -> nxe_loop -> Prop) :
  loop_inv cur q l -> l_ostreams l !! o = None -> (forall l', op_post cur q l' -> Q tt l') -> wp (nxe_init_ostream o) Q l.
Proof.
  intros Hinv Ho HQ. pose proof Hinv as (Hq & Hst & _). apply wp_modify, HQ.
  eapply op_post_same; [exact Hinv|done|done|]. destruct Hst as [A B C D E]. split; try done.
  - intros j o'. rewrite D. cbn. destruct (decide (o = o')) as [->|Hne]; [|by rewrite lookup_insert_ne].
    rewrite lookup_insert_eq, Ho. split; [by intros (? & ? & _)|by intros (? & [= <-] & ?)].
  - intros j o' ist ost. cbn. destruct (decide (o = o')) as [->|Hne]; [rewrite lookup_insert_eq; by intros _ _ [= <-]|]. rewrite lookup_insert_ne by done. apply E.
Qed.

Lemma wp_init_publisher cur q l p (Q : unit -> nxe_loop -> Prop) :
  loop_inv cur q l -> l_publishers l !! p = None -> (forall l', op_post cur q l' -> Q tt l') -> wp (nxe_init_publisher p) Q l.
Proof.
  intros (Hq & Hst & Hs & Hcu) Hp HQ. apply wp_modify, HQ. exists q. split; [|apply fifo_refl]. split_and!; [done|by destruct Hst| |done].
  destruct Hs as [A B C D E]. split; try done.
  - intros p' pub. cbn. destruct (decide (p = p')) as [->|Hne]; [|rewrite lookup_insert_ne by done; apply D].
    rewrite lookup_insert_eq. intros [= <-]. exists []. split; [done|]. intros s. split; [by intros ?%elem_of_nil|].
    intros (sub & Hsub & Hsp). specialize (E _ _ Hsub). rewrite Hsp, Hp in E. by destruct E.
  - intros s sub Hsub. specialize (E _ _ Hsub). destruct (sub_pub sub) as [p'|]; [|done]. cbn.
    destruct (decide (p = p')) as [->|Hne]; [rewrite lookup_insert_eq; by eexists|by rewrite lookup_insert_ne].
Qed.

Lemma wp_init_subscriber cur q l s (Q : unit -> nxe_loop -> Prop) :
  loop_inv cur q l -> l_subscribers l !! s = None -> (forall l', op_post cur q l' -> Q tt l') -> wp (nxe_init_subscriber s) Q l.
Proof.
  intros (Hq & Hst & Hs & Hcu) Hsub HQ. apply wp_modify, HQ. exists q. split; [|apply fifo_refl]. split_and!; [done|by destruct Hst| |done].
  assert (Hact : active q l s = []).
  { destruct (active q l s) as [|e A] eqn:EA; [done|]. assert (Hin : e ∈ active q l s) by (rewrite EA; left).
    apply active_pooled in Hin as (n & -> & Hr & Hin). destruct (u_recv _ _ _ Hs n Hin) as (x & Hx & [(_ & s1 & sub1 & H2 & H3 & _)|(_ & f & H2)]); rewrite Hx in Hr; cbn in Hr; congruence. }
  destruct Hs as [A B C D E]. split; try done.
  - intros n Hn. destruct (B n Hn) as (x & Hx & [(H1 & s1 & sub1 & H2 & H3 & H4)|Hk]); exists x; (split; [exact Hx|]); [left|by right]. split; [done|].
    exists s1, sub1. cbn. rewrite lookup_insert_ne by congruence. done.
  - intros s1 sub1 HY. cbn. change (active q (set_subscribers _ l) s1) with (active q l s1). destruct (decide (s = s1)) as [->|Hne]; [|rewrite lookup_insert_ne by done; by apply C].
    rewrite lookup_insert_eq. intros [= <-]. by rewrite Hact.
  - intros p pub Hp. destruct (D p pub Hp) as (sl & Hc & Hin). exists sl. assert (Hsl : s ∉ sl) by (intros (? & ? & _)%Hin; congruence).
    split; [by apply chain_insert|]. intros k. rewrite Hin. cbn. destruct (decide (s = k)) as [->|Hne]; [|by rewrite lookup_insert_ne].
    rewrite lookup_insert_eq, Hsub. split; [by intros (? & ? & _)|by intros (? & [= <-] & ?)].
  - intros s1 sub1. cbn. destruct (decide (s = s1)) as [->|Hne]; [rewrite lookup_insert_eq; by intros [= <-]|rewrite lookup_insert_ne by done; apply E].
Qed.

Lemma wp_run_op cur q l op (Q : unit -> nxe_loop -> Prop) :
  loop_inv cur q l -> op_ok op l -> (forall l', op_post cur q l' -> Q tt l') -> wp (run_op op) Q l.
Proof.
  intros Hinv Hok HQ. destruct op; cbn [run_op op_ok] in *.
  - eapply wp_init_istream; [done| |done]. congruence. - by eapply wp_init_ostream. - by eapply wp_init_publisher. - by eapply wp_init_subscriber.
  - by eapply wp_istream_set_ready. - by eapply wp_istream_unset_ready.
  - by eapply wp_ostream_set_ready. - by eapply wp_ostream_unset_ready.
  - by eapply wp_connect. - destruct Hok as (ist & H1 & H2). by eapply wp_disconnect.
  - destruct Hok as ([pub H1] & sub & H2 & H3). by eapply wp_subscribe.
  - destruct Hok as (sub & H2 & H3). by eapply wp_unsubscribe.
  - destruct Hok as [pub Hp]. pose proof Hinv as (_ & _ & Hs & _). destruct (u_pubs _ _ _ Hs _ _ Hp) as (sl & Hc & _).
    eapply wp_publish; [done|done|done|]. intros l' new H1 _. apply HQ. exists (q ++ new). split; [done|apply fifo_snoc].
  - by eapply wp_schedule_callback.
Qed.
