(* ===== verification/EventDelivery.v ===== *)
(** Delivery of events keeps the invariant of the loop, and what follows for
    programs that use the loop: no assertion of the loop fails, no wake-up is
    lost, messages arrive in the order they were published. *)
From S2P Require Import Prelude Dll Event EventInv.
Open Scope Z_scope.

(** * Handlers *)

(** A connection over which data can be moved now. *)
Definition transferable (l : nxe_loop) (i o : positive) : Prop :=
  exists ist ost, l_istreams l !! i = Some ist /\ is_ready ist = true /\ is_pair ist = Some o /\
    l_ostreams l !! o = Some ost /\ os_ready ost = true.

(** During a transfer over [i]-[o], whose event is not in the queue. *)
Definition transferring (i o : positive) (l : nxe_loop) : Prop :=
  exists q, loop_inv (InStream i o) q l /\ is_Some (l_istreams l !! i) /\ is_Some (l_ostreams l !! o) /\
    (transferable l i o -> Embedded i ∉ q /\ i_recv <$> inf l (Embedded i) = Some (R_os o)).

(** What the loop relies on: a class method may use the operations of the loop
    in any way, as long as the streams and the event it was called for exist
    when it returns, and it does not queue the event of a connection that is
    still transferable. *)
Class HandlersOk (H : Handlers) : Prop := {
  ho_method : forall i o, is_Some (do_write i) \/ is_Some (do_read o);
  ho_write : forall i o f l, do_write i = Some f -> transferring i o l -> transferable l i o -> wp (f o) (fun _ l' => transferring i o l') l;
  ho_read : forall i o f l, do_write i = None -> do_read o = Some f -> transferring i o l -> transferable l i o -> wp (f i) (fun _ l' => transferring i o l') l;
  ho_message : forall n q p s d l, loop_inv (InPooled n) q l ->
    wp (match do_publish p with Some f => f s d | None => on_message s p d end) (fun _ l' => exists q', loop_inv (InPooled n) q' l') l;
  ho_callback : forall n q f d l, loop_inv (InPooled n) q l -> wp (callback f d) (fun _ l' => exists q', loop_inv (InPooled n) q' l') l;
}.

(** * Lemmas *)

Lemma os_pair_of_is X q l i o ist ost :
  streams_ok X q l -> l_istreams l !! i = Some ist -> l_ostreams l !! o = Some ost -> (is_pair ist = Some o <-> os_pair ost = Some i).
Proof.
  intros Hs Hi Ho. split; intros Hp.
  - destruct (proj1 (s_pair _ _ _ Hs i o)) as (ost' & H1 & H2); [by exists ist|]. rewrite Ho in H1. by injection H1 as <-.
  - destruct (proj2 (s_pair _ _ _ Hs i o)) as (ist' & H1 & H2); [by exists ost|]. rewrite Hi in H1. by injection H1 as <-.
Qed.

Lemma loop_inv_idle i o q l : loop_inv (InStream i o) q l -> (transferable l i o -> Embedded i ∈ q) -> loop_inv Idle q l.
Proof.
  intros (Hq & [A B C D E] & Hs & _) Ht. split_and!; [done| |done|done]. split; [done..|].
  intros i' o' ist ost H1 H2 H3 H4 H5. left. destruct (E i' o' ist ost H1 H2 H3 H4 H5) as [?|[[= <- <-]|[=]]]; [done|]. apply Ht. by exists ist, ost.
Qed.

Lemma wp_transfer_loop i o h :
  (forall l, transferring i o l -> transferable l i o -> wp h (fun _ l' => transferring i o l') l) ->
  forall n fuel l, (n < fuel)%nat -> transferring i o l ->
  wp (loop fuel (transfer_once (Embedded i) i o h) n) (fun _ l' => exists q', loop_inv Idle q' l') l.
Proof.
  intros Hh n. induction n as [|n IH]; intros [|fuel] l Hf Ht; try lia; rewrite loop_S; apply wp_bind;
    pose proof Ht as (q & Hinv & [ist Hi] & [ost Ho] & Htr); pose proof Hinv as (Hq & Hst & Hs & _);
    apply wp_bind; (eapply (wp_load l_istreams); [exact Hi|]); apply wp_bind; (eapply (wp_load l_ostreams); [exact Ho|]);
    pose proof (os_pair_of_is _ _ _ _ _ _ _ Hst Hi Ho) as Hpair;
    destruct (is_ready ist && os_ready ost && bool_decide (os_pair ost = Some i)) eqn:Eb.
  2, 4: apply wp_ret, wp_ret; exists q; apply (loop_inv_idle i o); [done|]; intros (ist' & ost' & H1 & H2 & H3 & H4 & H5);
    simplify_eq; rewrite H2, H5 in Eb; cbn in Eb; apply bool_decide_eq_false in Eb; tauto.
  all: apply andb_true_iff in Eb as [Eb E3]; apply andb_true_iff in Eb as [E1 E2]; apply bool_decide_eq_true in E3.
  all: assert (Hta : transferable l i o) by (exists ist, ost; tauto).
  - destruct (Htr Hta) as [Hnq Hr]. destruct (inf l (Embedded i)) as [x|] eqn:Ex; [|done]. cbn in Hr. injection Hr as Hr.
    apply wp_bind. eapply wp_link; [exact Hq|exact Ex|by rewrite Hr|done|]. intros l' Hq' Hi' Ho'. unfold others in Ho'. injection Ho' as F1 F2 F3 F4 F5.
    apply wp_ret, wp_ret. exists (q ++ [Embedded i]). destruct Hst as [A B C D E]. split_and!; [done| | |done].
    + split.
      * intros j. by rewrite F1, Hi'.
      * intros j y. rewrite Hi'. apply B.
      * intros j. rewrite elem_of_app, list_elem_of_singleton, Hi', F1. intros [Hj|[= ->]]; [by apply C|]. exists x, o, ist. split_and!; try done. tauto.
      * intros j k. by rewrite F1, F2.
      * intros j k ist' ost'. rewrite F1, F2, elem_of_app, list_elem_of_singleton. intros H1 H2 H3 H4 H5. left.
        destruct (E j k ist' ost' H1 H2 H3 H4 H5) as [?|[[= <- <-]|[=]]]; tauto.
    + eapply subs_ok_ext; [intros n; by rewrite Hi'|done|done|done|apply not_pooled_snoc|intros; apply active_snoc_embedded|done].
  - apply wp_bind. eapply wp_mono; [by apply Hh|]. intros [] l' Ht'. apply wp_ret. apply IH; [lia|done].
Qed.

(** Taking the first event off the queue. *)
Lemma nxe_unlink_first e l evt f :
  l_events l !! e = Some evt -> evt_prev evt = None -> nxe_unlink e (set_queue (l_events l) f (l_last l) l) = nxe_unlink e l.
Proof.
  intros He Hp. unfold nxe_unlink, get_evt, bind, get, lift_opt, ret. cbn. rewrite He. cbn. destruct (evt_loop evt); [|done]. cbn.
  unfold dll_unlink. rewrite He. cbn. rewrite Hp. cbn. by destruct (upd_opt (evt_next evt) _ _) as [m|]; [destruct (upd e _ m)|].
Qed.

Lemma queue_first e q l : queue_ok (e :: q) l -> l_first l = Some e /\ exists evt, l_events l !! e = Some evt /\ evt_prev evt = None.
Proof. intros [(_ & Hs & Hf & _) _]. split; [done|]. cbn in Hs. destruct Hs as [(n & H1 & H2 & _) _]. by exists n. Qed.

Lemma active_cons e q l s : active (e :: q) l s = (if message_for l s e then [e] else []) ++ active q l s.
Proof. unfold active. rewrite filter_cons. destruct (decide _) as [E|E]; [by rewrite E|]. by destruct (message_for l s e). Qed.

(** A delivered event goes back to the pool. *)
Lemma loop_inv_free n q l : loop_inv (InPooled n) q l -> loop_inv Idle q (set_events (base.delete (Pooled n) (l_events l)) l).
Proof.
  intros (Hq & Hst & Hs & [Hn Hnq]). set (l' := set_events _ l).
  assert (Hi : forall k, k <> Pooled n -> inf l' k = inf l k) by (intros k Hk; unfold l', inf; cbn; by rewrite lookup_delete_ne).
  split_and!; [| | |done].
  - destruct Hq as [(N1 & S1 & F1 & L1) Hl]. split.
    + split_and!; try done. eapply seg_ext; [|exact S1]. intros k Hk. cbn. rewrite lookup_delete_ne; [done|]. by intros <-.
    + intros k evk. cbn. intros Hk. apply Hl. destruct (decide (Pooled n = k)) as [<-|Hne]; [by rewrite lookup_delete_eq in Hk|by rewrite lookup_delete_ne in Hk].
  - assert (Hst' : streams_ok (exempt (InPooled n)) q l') by (eapply streams_same_ok; [|done|exact Hst]; split_and!; [intros i; by apply Hi|done|done]).
    eapply streams_ok_weaken; [|exact Hst']. by intros i o [[=]|[=]].
  - assert (Hin : forall k, k ∈ q -> inf l' k = inf l k) by (intros k Hk; apply Hi; by intros ->). destruct Hs as [A B C D E]. split.
    + intros m Hm. apply A. destruct (decide (Pooled m = Pooled n)) as [[= ->]|Hne]; [done|by rewrite <- Hi].
    + intros m Hm. rewrite Hin by done. by apply B.
    + intros s sub HY Hsub. rewrite (active_ext_in q l l') by done. eapply chain_ext; [|by apply C]. intros k (m & -> & _ & Hk)%active_pooled. by apply nbr_of_inf, Hin.
    + done.
    + done.
Qed.

Section delivery.
Context `{HO : HandlersOk}.

Lemma wp_stream_deliver i q l l1 (Q : unit -> nxe_loop -> Prop) :
  loop_inv Idle (Embedded i :: q) l -> queue_ok q l1 -> (forall k, inf l1 k = inf l k) -> others l1 = others l ->
  (forall q' l', loop_inv Idle q' l' -> Q tt l') -> wp (stream_event_deliver (Embedded i)) Q l1.
Proof.
  intros (Hq & Hst & Hs & _) Hq1 Hi1 Ho1 HQ. unfold others in Ho1. injection Ho1 as E1 E2 E3 E4 E5.
  assert (Hnq : Embedded i ∉ q) by (pose proof (queue_ok_NoDup _ _ Hq) as Hn; by apply NoDup_cons in Hn as [? _]).
  destruct (s_recv _ _ _ Hst i) as (x & o & ist & Hx & Hr & Hi & Hp); [left|]. pose proof (Hi1 (Embedded i)) as Hx1. rewrite Hx in Hx1.
  destruct (inf_Some _ _ _ Hx1) as (evt & He & Ee). destruct (stream_pair _ _ _ _ _ _ Hst Hi Hp) as (ost & _ & Ho & Hop & _).
  assert (Ht : transferring i o l1).
  { exists q. split; [|rewrite E1, E2, Hi1, Hx, Hi, Ho; cbn; rewrite Hr; split_and!; [by eexists|by eexists|done]].
    destruct Hst as [A B C D E]. split_and!; [done| | |done].
    - split; [intros j; by rewrite E1, Hi1|intros j y; rewrite Hi1; apply B| |intros j k; by rewrite E1, E2|].
      + intros j Hj. rewrite Hi1, E1. apply C. by right.
      + intros j k ist' ost'. rewrite E1, E2. intros H1 H2 H3 H4 H5. destruct (E j k ist' ost' H1 H2 H3 H4 H5) as [Hin|[[=]|[=]]].
        apply elem_of_cons in Hin as [[= ->]|Hin]; [|by left]. right. rewrite Hi in H1. injection H1 as <-. rewrite Hp in H2. injection H2 as <-; by left.
    - eapply subs_ok_ext; [intros n; by rewrite Hi1|done|done|done|by right| |exact Hs]. intros s. by rewrite active_embedded. }
  assert (Hgo : forall h, (forall l, transferring i o l -> transferable l i o -> wp h (fun _ l' => transferring i o l') l) -> wp (transfer (Embedded i) i o h) Q l1).
  { intros h Hh. unfold transfer. eapply wp_mono; [apply (wp_transfer_loop i o h Hh); [lia|exact Ht]|]. intros [] l' [q' Hinv']. by eapply HQ. }
  unfold stream_event_deliver. apply wp_bind. eapply wp_get_evt; [exact He|].
  assert (Er : evt_receiver evt = R_os o) by (rewrite <- Hr, <- Ee; done). rewrite Er.
  apply wp_bind. eapply (wp_load l_ostreams); [by rewrite E2|]. rewrite Hop.
  destruct (do_write i) as [f|] eqn:Ew; [apply Hgo; intros l2 T1 T2; by apply (ho_write i o f l2)|].
  destruct (do_read o) as [f|] eqn:Erd; [apply Hgo; intros l2 T1 T2; by apply (ho_read i o f l2)|].
  destruct (ho_method i o) as [[? ?]|[? ?]]; congruence.
Qed.

Lemma wp_message_deliver n q l l1 x (Q : unit -> nxe_loop -> Prop) :
  loop_inv Idle (Pooled n :: q) l -> inf l (Pooled n) = Some x -> i_cls x = NXE_EV_MESSAGE ->
  queue_ok q l1 -> (forall k, inf l1 k = inf l k) -> others l1 = others l ->
  (forall q' l', loop_inv (InPooled n) q' l' -> Q tt l') -> wp (message_event_deliver (Pooled n)) Q l1.
Proof.
  intros (Hq & Hst & Hs & _) Hx Hcls Hq1 Hi1 Ho1 HQ. unfold others in Ho1. injection Ho1 as E1 E2 E3 E4 E5.
  assert (Hnq : Pooled n ∉ q) by (pose proof (queue_ok_NoDup _ _ Hq) as Hn; by apply NoDup_cons in Hn as [? _]).
  destruct (u_recv _ _ _ Hs n) as (x' & Hx' & Hk); [left|]. rewrite Hx in Hx'. injection Hx' as <-.
  destruct Hk as [(_ & s & sub & Hr & Hsub & Hsp)|[Hcb _]]; [|congruence]. destruct Hsp as [[p Hsp]|Hsp]; [|done].
  pose proof (Hi1 (Pooled n)) as Hx1. rewrite Hx in Hx1. destruct (inf_Some _ _ _ Hx1) as (evt & He & Ee).
  assert (Hm : message_for l s (Pooled n) = true) by (cbn; rewrite Hx; cbn; rewrite Hr; by apply bool_decide_eq_true_2).
  assert (Hch : sub_evt sub = Some (Pooled n) /\ chain evt_next_by_receiver (l_events l1) (evt_next_by_receiver evt) (active q l s)).
  { pose proof (u_chain _ _ _ Hs s sub ltac:(done) Hsub) as Hc. rewrite active_cons, Hm in Hc. cbn [app chain] in Hc. destruct Hc as (H1 & n' & Hn' & Hc). split; [done|].
    assert (Enb : evt_next_by_receiver evt = evt_next_by_receiver n').
    { unfold inf in Hx. rewrite Hn' in Hx. cbn in Hx. injection Hx as <-. unfold info in Ee. congruence. }
    rewrite Enb. eapply chain_ext; [|exact Hc]. intros k _. by apply nbr_of_inf. }
  destruct Hch as [Hse Hch]. unfold message_event_deliver. apply wp_bind. eapply wp_get_evt; [exact He|].
  assert (Er : evt_receiver evt = R_sub s) by (rewrite <- Hr, <- Ee; done). rewrite Er.
  assert (Hsub1 : l_subscribers l1 !! s = Some sub) by by rewrite E4. apply wp_bind. eapply (wp_load l_subscribers); [exact Hsub1|].
  rewrite Hsp. apply wp_bind, wp_ret, wp_bind, wp_assert; [by apply bool_decide_eq_true_2|].
  apply wp_bind. eapply wp_upd_sub; [exact Hsub1|]. set (l2 := set_subscribers _ l1).
  assert (Hact : forall s', active q l1 s' = active q l s') by (intros s'; apply active_ext; intros m; apply Hi1).
  assert (Hinv : loop_inv (InPooled n) q l2).
  { split_and!.
    - done.
    - assert (Hst' : streams_ok (exempt Idle) q l2).
      { eapply streams_same_ok; [| |exact Hst]; [split_and!; [intros i; apply Hi1|done|done]|]. intros i. rewrite elem_of_cons. split; [by right|by intros [?|?]]. }
      eapply streams_ok_weaken; [|exact Hst']. by intros i o [[=]|[=]].
    - assert (Hs1 : subs_ok (Some s) q l1).
      { destruct Hs as [A B C D E]. split.
        - intros m. rewrite Hi1, E5. apply A.
        - intros m Hm'. rewrite Hi1, E4. destruct (B m ltac:(by right)) as (y & Hy & [(H1 & s1 & sub1 & H2 & H3 & [H4|H4])|Hk]); exists y; (split; [done|]); [left|done|by right].
          split; [done|]. exists s1, sub1. split_and!; [done|done|by left].
        - intros s' sub' HY. rewrite E4, Hact. intros Hsub'. assert (Hns : message_for l s' (Pooled n) = false).
          { cbn. rewrite Hx. cbn. rewrite Hr. apply bool_decide_eq_false_2. congruence. }
          pose proof (C s' sub' ltac:(done) Hsub') as Hc. rewrite active_cons, Hns in Hc. cbn [app] in Hc. eapply chain_ext; [|exact Hc]. intros k _. by apply nbr_of_inf.
        - intros p' pub'. rewrite E3, E4. apply D.
        - intros s' sub'. rewrite E3, E4. apply E. }
      apply (subs_ok_close q l1 l2 s); [exact Hs1|done|done| | |done|done|].
      + intros k. by apply (same_links_insert l1 s sub (set_sub_evt (evt_next_by_receiver evt) sub)).
      + intros s' Hne. cbn. by rewrite lookup_insert_ne.
      + intros sub'. cbn. rewrite lookup_insert_eq. intros [= <-]. cbn. rewrite Hact. split; [by rewrite Hsp|done].
    - cbn. change (inf l2 (Pooled n)) with (inf l1 (Pooled n)). rewrite Hx1. split; [by eexists|done]. }
  eapply wp_mono; [by apply (ho_message n q p s (evt_data evt))|]. intros [] l3 [q3 Hinv3]. by eapply HQ.
Qed.

Lemma wp_callback_deliver n q l l1 x (Q : unit -> nxe_loop -> Prop) :
  loop_inv Idle (Pooled n :: q) l -> inf l (Pooled n) = Some x -> i_cls x = NXE_EV_CALLBACK ->
  queue_ok q l1 -> (forall k, inf l1 k = inf l k) -> others l1 = others l ->
  (forall q' l', loop_inv (InPooled n) q' l' -> Q tt l') -> wp (callback_event_deliver (Pooled n)) Q l1.
Proof.
  intros (Hq & Hst & Hs & _) Hx Hcls Hq1 Hi1 Ho1 HQ. unfold others in Ho1. injection Ho1 as E1 E2 E3 E4 E5.
  assert (Hnq : Pooled n ∉ q) by (pose proof (queue_ok_NoDup _ _ Hq) as Hn; by apply NoDup_cons in Hn as [? _]).
  destruct (u_recv _ _ _ Hs n) as (x' & Hx' & Hk); [left|]. rewrite Hx in Hx'. injection Hx' as <-.
  destruct Hk as [(Hmc & _)|[_ [f Hr]]]; [congruence|].
  pose proof (Hi1 (Pooled n)) as Hx1. rewrite Hx in Hx1. destruct (inf_Some _ _ _ Hx1) as (evt & He & Ee).
  unfold callback_event_deliver. apply wp_bind. eapply wp_get_evt; [exact He|].
  assert (Er : evt_receiver evt = R_callback f) by (rewrite <- Hr, <- Ee; done). rewrite Er.
  assert (Hinv : loop_inv (InPooled n) q l1).
  { split_and!; [done| | |cbn; rewrite Hx1; split; [by eexists|done]].
    - assert (Hst' : streams_ok (exempt Idle) q l1).
      { eapply streams_same_ok; [| |exact Hst]; [split_and!; [intros i; apply Hi1|done|done]|]. intros i. rewrite elem_of_cons. split; [by right|by intros [?|?]]. }
      eapply streams_ok_weaken; [|exact Hst']. by intros i o [[=]|[=]].
    - eapply subs_ok_ext; [intros m; by rewrite Hi1|done|done|done|by right| |exact Hs]. intros s. rewrite active_cons.
      cbn. rewrite Hx. cbn. rewrite Hr. by rewrite bool_decide_eq_false_2. }
  eapply wp_mono; [by apply (ho_callback n q f (evt_data evt))|]. intros [] l3 [q3 Hinv3]. by eapply HQ.
Qed.

Lemma wp_process_event e q l :
  loop_inv Idle (e :: q) l -> wp process_event (fun r l' => r = true /\ exists q', loop_inv Idle q' l') l.
Proof.
  intros Hinv. pose proof Hinv as (Hq & Hst & Hs & _). destruct (queue_first _ _ _ Hq) as (Hf & evt & He & Hp).
  unfold process_event. apply wp_bind, wp_get. rewrite Hf. apply wp_bind. eapply wp_get_evt; [exact He|].
  apply wp_bind, wp_put, wp_bind.
  assert (Hu : wp (nxe_unlink e) (fun _ l1 => queue_ok q l1 /\ (forall k, inf l1 k = inf l k) /\ others l1 = others l) (set_queue (l_events l) (evt_next evt) (l_last l) l)).
  { unfold wp. rewrite (nxe_unlink_first e l evt) by done. eapply (wp_unlink l [] e q); [exact Hq|]. by intros l1 G1 G2 G3. }
  eapply wp_mono; [exact Hu|]. intros [] l1 (Hq1 & Hi1 & Ho1). clear Hu.
  assert (Hend : forall q' l', loop_inv Idle q' l' -> loop_inv Idle q' (set_batch_write_fd 0 l')) by (intros q' l' (G1 & [] & [] & G4); split_and!; try done; by split).
  assert (Hend' : forall n q' l', loop_inv (InPooled n) q' l' -> loop_inv (InPooled n) q' (set_batch_write_fd 0 l')) by (intros n q' l' (G1 & [] & [] & G4); split_and!; try done; by split).
  assert (Hfree : forall n q' l', loop_inv (InPooled n) q' l' ->
    wp (do! free_event (Pooled n) in ret true) (fun r l' => r = true /\ exists q', loop_inv Idle q' l') l').
  { intros n q' l' Hinv'. apply wp_bind. unfold free_event. apply wp_bind, wp_get, wp_put, wp_ret. split; [done|]. exists q'. by apply loop_inv_free. }
  destruct e as [i|n].
  - assert (Hcls : evt_cls evt = NXE_EV_STREAM) by (apply (s_cls _ _ _ Hst i (info evt)); unfold inf; by rewrite He).
    rewrite Hcls. apply wp_bind. eapply wp_stream_deliver; [exact Hinv|done|done|done|]. intros q' l' Hinv'.
    apply wp_bind, wp_modify, wp_bind, wp_ret, wp_ret. split; [done|]. exists q'. by apply Hend.
  - assert (Hx : inf l (Pooled n) = Some (info evt)) by (unfold inf; by rewrite He).
    destruct (u_recv _ _ _ Hs n) as (x & Hx' & Hk); [left|]. rewrite Hx in Hx'. injection Hx' as <-. apply wp_bind. destruct (evt_cls evt) eqn:Ec.
    + exfalso. destruct Hk as [[Hk _]|[Hk _]]; unfold info, i_cls in Hk; cbn in Hk; congruence.
    + eapply wp_message_deliver; [exact Hinv|exact Hx|exact Ec|done|done|done|]. intros q' l' Hinv'. apply wp_bind, wp_modify. by eapply Hfree, Hend'.
    + eapply wp_callback_deliver; [exact Hinv|exact Hx|exact Ec|done|done|done|]. intros q' l' Hinv'. apply wp_bind, wp_modify. by eapply Hfree, Hend'.
Qed.
End delivery.

(** * Properties *)

Section properties.
Context `{HO : HandlersOk}.

(** A step of a program: an operation its caller may use, or the delivery of
    the next event. *)
Inductive loop_step : nxe_loop -> nxe_loop -> Prop :=
  | step_op op l l' : op_ok op l -> run_op op l = Ok (tt, l') -> loop_step l l'
  | step_event l l' : process_event l = Ok (true, l') -> loop_step l l'.

Lemma step_inv l l' : (exists q, loop_inv Idle q l) -> loop_step l l' -> exists q, loop_inv Idle q l'.
Proof.
  intros [q Hinv] Hstep. revert Hinv. destruct Hstep as [op l0 l1 Hok Hr|l0 l1 Hr]; intros Hinv.
  - assert (Hw : wp (run_op op) (fun _ l' => exists q, loop_inv Idle q l') l0).
    { eapply wp_run_op; [exact Hinv|done|]. intros l2 (q' & Hq' & _). by exists q'. }
    unfold wp in Hw. by rewrite Hr in Hw.
  - destruct q as [|e q].
    + pose proof Hinv as ([(_ & _ & Hf & _) _] & _). unfold process_event, bind, get in Hr. rewrite Hf in Hr. done.
    + pose proof (wp_process_event e q l0 Hinv) as Hw. unfold wp in Hw. rewrite Hr in Hw. by destruct Hw.
Qed.

Lemma reachable_inv l : rtc loop_step nxe_create l -> exists q, loop_inv Idle q l.
Proof.
  assert (Hgen : forall l0 l1, rtc loop_step l0 l1 -> (exists q, loop_inv Idle q l0) -> exists q, loop_inv Idle q l1).
  { intros l0 l1 Hr. induction Hr as [|l0 l1 l2 Hs _ IH]; [done|]. intros Hi. apply IH. by eapply step_inv. }
  intros Hr. apply (Hgen _ _ Hr). exists []. apply loop_inv_create.
Qed.
End properties.
Arguments loop_step {H} l l'.

(** C12: in every state a program reaches, whatever sequence of operations and
    deliveries led there, every operation of the loop and the delivery of the next
    event succeed: no assertion fails and no dangling pointer is followed. *)
Theorem event_loop_safe (H : Handlers) (HO : HandlersOk H) (l : nxe_loop) :
  rtc loop_step nxe_create l ->
  (forall op, op_ok op l -> exists l', run_op op l = Ok (tt, l')) /\ (exists more l', process_event l = Ok (more, l')).
Proof.
  intros [q Hinv]%reachable_inv. split.
  - intros op Hok. assert (Hw : wp (run_op op) (fun _ _ => True) l) by (by eapply wp_run_op).
    apply wp_elim in Hw as ([] & l' & Hr & _). by exists l'.
  - destruct q as [|e q].
    + pose proof Hinv as ([(_ & _ & Hf & _) _] & _). exists false, l. unfold process_event, bind, get. by rewrite Hf.
    + apply wp_process_event, wp_elim in Hinv as (more & l' & Hr & _). by exists more, l'.
Qed.

(** C11: no wake-up is lost: in every reachable state, if both ends of a
    connection are ready, its event is in the queue and addressed to it, so the
    transfer will be made. *)
Theorem no_lost_wakeup (H : Handlers) (HO : HandlersOk H) (l : nxe_loop) (i o : positive) :
  rtc loop_step nxe_create l -> transferable l i o ->
  exists q evt, dll (l_events l) (l_first l) (l_last l) q /\ Embedded i ∈ q /\ l_events l !! Embedded i = Some evt /\ evt_receiver evt = R_os o.
Proof.
  intros [q Hinv]%reachable_inv (ist & ost & H1 & H2 & H3 & H4 & H5). destruct Hinv as ([Hd _] & Hst & _).
  destruct (s_wake _ _ _ Hst i o ist ost) as [Hin|[[=]|[=]]]; [done..|].
  destruct (s_recv _ _ _ Hst i Hin) as (x & o' & ist' & Hx & Hr & Hi & Hp). rewrite H1 in Hi. injection Hi as <-. rewrite H3 in Hp. injection Hp as <-.
  destruct (inf_Some _ _ _ Hx) as (evt & He & Ee). exists q, evt. split_and!; [done|done|done|]. by rewrite <- Hr, <- Ee.
Qed.


(** * Witnesses *)

(** Sources that are exhausted by one transfer, subscribers that schedule a
    callback for every message. *)
#[export] Instance sample_handlers : Handlers := {|
  do_write i := Some (fun _ => nxe_istream_unset_ready i);
  do_read _ := None;
  do_publish _ := None;
  on_message _ _ d := nxe_schedule_callback 0 d;
  callback _ _ := ret tt;
|}.

Lemma sample_handlers_ok : HandlersOk sample_handlers.
Proof.
  split; try done.
  - intros i o. left. by eexists.
  - intros i o f l [= <-] (q & Hinv & [ist Hi] & Ho & _) _. pose proof Hinv as (_ & Hst & _).
    eapply wp_upd_is; [exact Hi|]. set (l' := set_istreams _ l). exists q.
    assert (Hi' : l_istreams l' !! i = Some (set_is_ready false ist)) by apply lookup_insert_eq. split_and!; [|by eexists|done|].
    + eapply loop_inv_streams; [exact Hinv|done|apply Hinv| |done|done].
      eapply streams_ok_weaken; [|by apply streams_ok_is_ready]. by intros i' o' [?|[? _]].
    + intros (ist' & ost & H1 & H2 & _). rewrite Hi' in H1. by injection H1 as <-.
  - intros n q p s d l Hinv. eapply wp_schedule_callback; [exact Hinv|]. intros l' (q' & Hq' & _). by exists q'.
  - intros n q f d l Hinv. apply wp_ret. by exists q.
Qed.

Definition sample_ops : list loop_op :=
  [InitIstream 1; InitOstream 2; InitPublisher 1; InitSubscriber 1; InitSubscriber 2; Subscribe 1 1; Subscribe 1 2;
   Connect 1 2; IstreamSetReady 1; OstreamSetReady 2]%positive.
Definition sample_loop : nxe_loop :=
  Eval vm_compute in fold_left (fun l op => match run_op op l with Ok (_, l') => l' | Err _ => l end) sample_ops nxe_create.

Fixpoint ops_ok (ops : list loop_op) (l : nxe_loop) : Prop :=
  match ops with
  | [] => True
  | op :: ops => op_ok op l /\ match run_op op l with Ok (_, l') => ops_ok ops l' | Err _ => False end
  end.
Lemma ops_reach ops l :
  ops_ok ops l -> rtc loop_step l (fold_left (fun l op => match run_op op l with Ok (_, l') => l' | Err _ => l end) ops l).
Proof.
  revert l. induction ops as [|op ops IH]; intros l; cbn [ops_ok fold_left]; [done|]. intros [Hok Hr].
  destruct (run_op op l) as [[[] l']|e] eqn:E; [|done]. eapply rtc_l; [by eapply step_op|]. by apply IH.
Qed.
Lemma sample_reachable : rtc loop_step nxe_create sample_loop.
Proof. apply (ops_reach sample_ops). vm_compute. repeat (eexists || split). Qed.

Lemma event_loop_safe_witness :
  (forall op, op_ok op sample_loop -> exists l', run_op op sample_loop = Ok (tt, l')) /\ (exists more l', process_event sample_loop = Ok (more, l')).
Proof. exact (event_loop_safe sample_handlers sample_handlers_ok sample_loop sample_reachable). Defined.

Lemma no_lost_wakeup_witness :
  exists q evt, dll (l_events sample_loop) (l_first sample_loop) (l_last sample_loop) q /\ Embedded 1 ∈ q /\
    l_events sample_loop !! Embedded 1 = Some evt /\ evt_receiver evt = R_os 2.
Proof.
  apply (no_lost_wakeup sample_handlers sample_handlers_ok sample_loop 1 2 sample_reachable).
  eexists _, _. vm_compute. split_and!; reflexivity.
Defined.

