(* ===== verification/StreamBuffers.v ===== *)
(** Buffers between streams (include/nxweb/nxd.h, lib/nxd_buffer.c): the ring
    buffer, the input buffer that collects a request body, the output buffers for
    memory and files and the file writer.

    A buffer owns streams of the event loop, named by [rb_out], [rb_in] and so
    on; its handlers run on the loop and the buffer together.  The method of the
    stream at the other end ([read] of an istream, [write] of an ostream) is an
    argument: it returns the bytes received or the number of bytes sent, and
    whether the end of the stream was reached. *)
From S2P Require Import Prelude CString Buffer Dll Event EventInv.
Open Scope Z_scope.

(** * Operations *)

Section lift.
Context {E X : Type}.
(** Runs an operation of the loop (or of the program [E] around a buffer), or
    one of the buffer. *)
Definition on_loop {A} (c : M E A) : M (E * X) A := fun s =>
  match c s.1 with Ok (a, l) => Ok (a, (l, s.2)) | Err e => Err e end.
Definition on_buf {A} (c : M X A) : M (E * X) A := fun s =>
  match c s.2 with Ok (a, x) => Ok (a, (s.1, x)) | Err e => Err e end.
End lift.

(** Readiness of a stream that may not be attached to a loop yet. *)
Definition set_istream_ready (i : positive) : M nxe_loop unit :=
  let! ist := get_is i in if is_loop ist then nxe_istream_set_ready i else upd_is i (set_is_ready true).
Definition unset_istream_ready (i : positive) : M nxe_loop unit :=
  let! ist := get_is i in if is_loop ist then nxe_istream_unset_ready i else upd_is i (set_is_ready false).
Definition set_ostream_ready (o : positive) : M nxe_loop unit :=
  let! ost := get_os o in if os_loop ost then nxe_ostream_set_ready o else upd_os o (set_os_ready true).
Definition unset_ostream_ready (o : positive) : M nxe_loop unit :=
  let! ost := get_os o in if os_loop ost then nxe_ostream_unset_ready o else upd_os o (set_os_ready false).

(** The streams of a new buffer that are ready from the start. *)
Definition init_ready_istream (i : positive) : M nxe_loop unit := do! nxe_init_istream i in upd_is i (set_is_ready true).
Definition init_ready_ostream (o : positive) : M nxe_loop unit := do! nxe_init_ostream o in upd_os o (set_os_ready true).

(** ** Ring buffer: pointers are offsets in the memory it was given *)

Record nxd_rbuffer := mk_rb {
  rb_out : positive;
  rb_in : positive;
  rb_mem : list Z;
  rb_start_ptr : Z;
  rb_end_ptr : Z;
  rb_read_ptr : Z;
  rb_write_ptr : Z;
  rb_last_write : bool;
  rb_eof : bool;
}.
Definition rb_set_mem (m : list Z) (rb : nxd_rbuffer) :=
  mk_rb (rb_out rb) (rb_in rb) m (rb_start_ptr rb) (rb_end_ptr rb) (rb_read_ptr rb) (rb_write_ptr rb) (rb_last_write rb) (rb_eof rb).
Definition rb_set_read (p : Z) (rb : nxd_rbuffer) :=
  mk_rb (rb_out rb) (rb_in rb) (rb_mem rb) (rb_start_ptr rb) (rb_end_ptr rb) p (rb_write_ptr rb) false (rb_eof rb).
Definition rb_set_write (p : Z) (rb : nxd_rbuffer) :=
  mk_rb (rb_out rb) (rb_in rb) (rb_mem rb) (rb_start_ptr rb) (rb_end_ptr rb) (rb_read_ptr rb) p true (rb_eof rb).
Definition rb_set_eof (rb : nxd_rbuffer) :=
  mk_rb (rb_out rb) (rb_in rb) (rb_mem rb) (rb_start_ptr rb) (rb_end_ptr rb) (rb_read_ptr rb) (rb_write_ptr rb) (rb_last_write rb) true.

Definition rb_store (p : Z) (s : bytes) : M nxd_rbuffer unit := fun rb =>
  match write_bytes p s (rb_mem rb) with Ok (_, m) => Ok (tt, rb_set_mem m rb) | Err e => Err e end.
Definition rb_load (p n : Z) : M nxd_rbuffer bytes := fun rb =>
  match read_bytes p n (rb_mem rb) with Ok (s, _) => Ok (s, rb) | Err e => Err e end.

(** The whole of [nxd_rbuffer_init] and [nxd_rbuffer_init_ptr] for a buffer at
    [buf]; the streams are the ones embedded in the structure. *)
Definition nxd_rbuffer_init_ptr (out in_ : positive) (buf : list Z) (size : Z) : nxd_rbuffer :=
  mk_rb out in_ buf 0 size 0 0 false false.
Definition nxd_rbuffer_init (out in_ : positive) (buf : list Z) (size : Z) : M nxe_loop nxd_rbuffer :=
  do! nxe_init_istream out in
  do! init_ready_ostream in_ in
  ret (nxd_rbuffer_init_ptr out in_ buf size).

Definition nxd_rbuffer_is_empty (rb : nxd_rbuffer) : bool := (rb_read_ptr rb =? rb_write_ptr rb) && negb (rb_last_write rb).
Definition nxd_rbuffer_is_full (rb : nxd_rbuffer) : bool := (rb_read_ptr rb =? rb_write_ptr rb) && rb_last_write rb.

Definition nxd_rbuffer_get_write_ptr (rb : nxd_rbuffer) : Z * Z :=
  (rb_write_ptr rb,
   if nxd_rbuffer_is_full rb then 0
   else if rb_write_ptr rb <? rb_read_ptr rb then rb_read_ptr rb - rb_write_ptr rb else rb_end_ptr rb - rb_write_ptr rb).

(** The address, the size, and whether the flag [NXEF_EOF] is set. *)
Definition nxd_rbuffer_get_read_ptr (rb : nxd_rbuffer) : Z * Z * bool :=
  let size :=
    if nxd_rbuffer_is_empty rb then 0
    else if rb_read_ptr rb <? rb_write_ptr rb then rb_write_ptr rb - rb_read_ptr rb else rb_end_ptr rb - rb_read_ptr rb in
  (rb_read_ptr rb, size,
   rb_eof rb && ((size =? 0) || (rb_read_ptr rb <? rb_write_ptr rb) || (rb_write_ptr rb =? rb_start_ptr rb))).

Definition nxd_rbuffer_read (size : Z) : M (nxe_loop * nxd_rbuffer) unit :=
  if size =? 0 then ret tt else
  let! rb := on_buf get in
  let p := rb_read_ptr rb + size in
  do! assert_ (p <=? rb_end_ptr rb) in
  let p := if rb_end_ptr rb <=? p then rb_start_ptr rb else p in
  do! on_buf (put (rb_set_read p rb)) in
  if! negb (rb_eof rb) then on_loop (set_ostream_ready (rb_in rb)) in
  if (p =? rb_write_ptr rb) && negb (rb_eof rb) then on_loop (unset_istream_ready (rb_out rb)) else ret tt.

Definition nxd_rbuffer_write (size : Z) : M (nxe_loop * nxd_rbuffer) unit :=
  if size =? 0 then ret tt else
  let! rb := on_buf get in
  let p := rb_write_ptr rb + size in
  do! assert_ (p <=? rb_end_ptr rb) in
  let p := if rb_end_ptr rb <=? p then rb_start_ptr rb else p in
  do! on_buf (put (rb_set_write p rb)) in
  do! on_loop (set_istream_ready (rb_out rb)) in
  if rb_read_ptr rb =? p then on_loop (unset_ostream_ready (rb_in rb)) else ret tt.

(** [read size] of the istream at the other end; a negative count is no data. *)
Definition rbuffer_data_in_do_read (read : Z -> M nxe_loop (bytes * bool)) : M (nxe_loop * nxd_rbuffer) unit :=
  let! rb := on_buf get in
  let '(ptr, size) := nxd_rbuffer_get_write_ptr rb in
  do! assert_ (negb (size =? 0)) in
  let! r := on_loop (read size) in
  let '(data, eof) := r in
  do! on_buf (rb_store ptr data) in
  do! nxd_rbuffer_write (zlen data) in
  if (eof : bool) then
    do! on_buf (modify rb_set_eof) in
    on_loop (nxe_istream_set_ready (rb_out rb))
  else ret tt.

(** [write data eof] of the ostream at the other end. *)
Definition rbuffer_data_out_do_write (write : bytes -> bool -> M nxe_loop Z) : M (nxe_loop * nxd_rbuffer) unit :=
  let! rb := on_buf get in
  let '(ptr, size, eof) := nxd_rbuffer_get_read_ptr rb in
  let! data := on_buf (rb_load ptr size) in
  let! bytes_sent := on_loop (write data eof) in
  if 0 <? bytes_sent then nxd_rbuffer_read bytes_sent else ret tt.

(** ** Input buffer *)

Record nxd_ibuffer := mk_ib {
  ib_data_in : positive;
  ib_data_complete : positive;
  ib_data_ptr : option nxb_loc;
  ib_data_size : Z;
  ib_max_data_size : Z;
}.
Definition ib_set_data (p : option nxb_loc) (n : Z) (ib : nxd_ibuffer) :=
  mk_ib (ib_data_in ib) (ib_data_complete ib) p n (ib_max_data_size ib).

(** The state of an input buffer: its request buffer and its fields. *)
Abbreviation ib_state := (nxb_buffer * nxd_ibuffer)%type (only parsing).
Definition on_nxb {A} (c : M nxb_buffer A) : M ib_state A := fun s =>
  match c s.1 with Ok (a, nxb) => Ok (a, (nxb, s.2)) | Err e => Err e end.

Section ibuffer.
Context `{Alloc}.

Definition nxd_ibuffer_init (data_in data_complete : positive) (max_data_size : Z) : M (nxe_loop * nxb_buffer) nxd_ibuffer :=
  do! on_buf nxb_start_stream in
  do! on_loop (init_ready_ostream data_in) in
  do! on_loop (nxe_init_publisher data_complete) in
  ret (mk_ib data_in data_complete None 0 max_data_size).

(** The data so far becomes an object, terminated by a zero byte. *)
Definition ib_finish (append : Z -> M nxb_buffer unit) : M ib_state unit :=
  do! on_nxb (append 0) in
  let! r := on_nxb nxb_finish_stream in
  modify (fun s => (s.1, ib_set_data (Some r.1) (ib_data_size s.2) s.2)).

Definition ibuffer_data_in_do_read (read : Z -> M nxe_loop (bytes * bool)) : M (nxe_loop * ib_state) unit :=
  let! s := on_buf get in
  match ib_data_ptr s.2 with
  | Some _ =>
      let! r := on_loop (read 16384) in
      if (r.2 : bool) then on_loop (nxe_ostream_unset_ready (ib_data_in s.2)) else ret tt
  | None =>
      let! _r := on_buf (on_nxb (nxb_make_room 32)) in
      let! r := on_buf (on_nxb nxb_get_room) in
      let '(ptr, room) := r in
      let size := room - 1 in
      let ib := s.2 in
      let size := if ib_max_data_size ib <? ib_data_size ib + size then ib_max_data_size ib - ib_data_size ib - 1 else size in
      let! r := on_loop (read size) in
      let '(data, eof) := r in
      do! (if 0 <? zlen data then
             do! on_buf (on_nxb (do! on_chunk (write_bytes (l_off ptr) data) in nxb_blank_fast (zlen data))) in
             let n := ib_data_size ib + zlen data in
             do! on_buf (modify (fun s => (s.1, ib_set_data None n s.2))) in
             if ib_max_data_size ib - 1 <=? n then
               do! on_buf (ib_finish nxb_append_char_fast) in
               on_loop (nxe_publish (ib_data_complete ib) (-1))
             else ret tt
           else ret tt) in
      if (eof : bool) then
        let! s := on_buf get in
        do! match ib_data_ptr s.2 with
            | Some _ => ret tt
            | None =>
                do! on_buf (ib_finish nxb_append_char_fast) in
                on_loop (nxe_publish (ib_data_complete ib) 0)
            end in
        on_loop (nxe_ostream_unset_ready (ib_data_in ib))
      else ret tt
  end.

Definition nxd_ibuffer_make_room (data_size : Z) : M ib_state unit :=
  let! s := get in
  do! assert_ (ib_data_size s.2 + data_size <=? ib_max_data_size s.2) in
  let! _r := on_nxb (nxb_make_room data_size) in ret tt.

Definition nxd_ibuffer_get_result : M ib_state (option nxb_loc * Z) :=
  let! s := get in
  do! match ib_data_ptr s.2 with Some _ => ret tt | None => ib_finish nxb_append_char end in
  let! s := get in
  ret (ib_data_ptr s.2, ib_data_size s.2).
End ibuffer.

(** ** Output buffers: memory and file *)

Record nxd_obuffer := mk_ob { ob_data_out : positive; ob_data : bytes; ob_data_size : Z }.
Definition nxd_obuffer_init (data_out : positive) (data : bytes) (data_size : Z) : M nxe_loop nxd_obuffer :=
  do! init_ready_istream data_out in ret (mk_ob data_out data data_size).
(** [write data eof]: the end of the data is always announced. *)
Definition obuffer_data_out_do_write {E} (write : bytes -> bool -> M E Z) : M (E * nxd_obuffer) unit :=
  let! ob := on_buf get in
  if ob_data_size ob =? 0 then let! _n := on_loop (write [] true) in ret tt
  else
    let! bytes_sent := on_loop (write (take (Z.to_nat (ob_data_size ob)) (ob_data ob)) true) in
    if 0 <? bytes_sent then
      on_buf (put (mk_ob (ob_data_out ob) (drop (Z.to_nat bytes_sent) (ob_data ob)) (ob_data_size ob - bytes_sent)))
    else ret tt.

Record nxd_fbuffer := mk_fb { fb_data_out : positive; fb_fd : Z; fb_offset : Z; fb_end : Z }.
Definition nxd_fbuffer_init (data_out : positive) (fd offset end_ : Z) : M nxe_loop nxd_fbuffer :=
  do! assert_ (0 <? fd) in
  do! init_ready_istream data_out in
  ret (mk_fb data_out fd offset end_).
(** [write fd offset size eof]. *)
Definition fbuffer_data_out_do_write {E} (write : Z -> Z -> Z -> bool -> M E Z) : M (E * nxd_fbuffer) unit :=
  let! fb := on_buf get in
  let size := wrapu 64 (fb_end fb - fb_offset fb) in
  if size =? 0 then let! _n := on_loop (write (fb_fd fb) (fb_offset fb) 0 true) in ret tt
  else
    let! bytes_sent := on_loop (write (fb_fd fb) (fb_offset fb) size true) in
    if 0 <? bytes_sent then on_buf (put (mk_fb (fb_data_out fb) (fb_fd fb) (fb_offset fb + bytes_sent) (fb_end fb))) else ret tt.

(** The file reader of the buffer is released as well. *)
Definition nxd_fbuffer_finalize : M (nxe_loop * nxd_fbuffer) unit :=
  let! fb := on_buf get in
  let! ist := on_loop (get_is (fb_data_out fb)) in
  do! match is_pair ist with Some o => on_loop (nxe_disconnect_streams (fb_data_out fb) o) | None => ret tt end in
  on_buf (put (mk_fb (fb_data_out fb) 0 (fb_offset fb) (fb_end fb))).

(** ** File writer: [fw_file] is what has been written to the descriptor *)

Record nxd_fwbuffer := mk_fw { fw_data_in : positive; fw_fd : Z; fw_error : Z; fw_size : Z; fw_max_size : Z; fw_file : bytes }.
Definition EFBIG : Z := 27.
Definition nxd_fwbuffer_init (data_in : positive) (fd max_size : Z) : M nxe_loop nxd_fwbuffer :=
  do! init_ready_ostream data_in in ret (mk_fw data_in fd 0 0 max_size []).
(** [write s] stores a prefix of [s] and returns its length, or -1; [errno]
    is the error it left. *)
Definition fwbuffer_data_in_do_read (read : Z -> M nxe_loop (bytes * bool)) (write : bytes -> Z) (errno : Z) : M (nxe_loop * nxd_fwbuffer) unit :=
  let! fw := on_buf get in
  let max_bytes_to_store := if fw_size fw <? fw_max_size fw then fw_max_size fw - fw_size fw else 0 in
  let max_bytes_to_store := if 16384 <? max_bytes_to_store then 16384 else max_bytes_to_store in
  let! r := on_loop (read 16384) in
  let '(data, eof) := r in
  do! (if 0 <? zlen data then
         let '(error, n) :=
           if negb (fw_error fw =? 0) then (fw_error fw, 0)
           else if max_bytes_to_store <? zlen data then (EFBIG, max_bytes_to_store)
           else (0, zlen data) in
         let s := take (Z.to_nat n) data in
         let '(error, file) :=
           if n =? 0 then (error, fw_file fw)
           else (if write s =? n then error else errno, fw_file fw ++ take (Z.to_nat (write s)) s) in
         on_buf (put (mk_fw (fw_data_in fw) (fw_fd fw) error (fw_size fw + zlen data) (fw_max_size fw) file))
       else ret tt) in
  if (eof : bool) then on_loop (nxe_ostream_unset_ready (fw_data_in fw)) else ret tt.

Definition nxd_fwbuffer_finalize (fw : nxd_fwbuffer) : nxd_fwbuffer :=
  mk_fw (fw_data_in fw) 0 (fw_error fw) (fw_size fw) (fw_max_size fw) (fw_file fw).

(** * Lemmas *)

(** ** What the operations of the loop do to the streams *)

Lemma nxe_link_streams e l l' : nxe_link e l = Ok (tt, l') -> l_istreams l' = l_istreams l /\ l_ostreams l' = l_ostreams l.
Proof.
  unfold nxe_link, get_evt, upd_evt, bind, get, put, assert_, lift_opt, ret, fail.
  destruct (l_events l !! e) as [evt|]; [cbn|done]. destruct (negb (bool_decide _)); [cbn|done]. destruct (negb (evt_loop evt)); [cbn|done].
  destruct (dll_push_back _ _ _ _) as [[[m f] la]|]; [cbn|done]. destruct (upd e _ m); [cbn|done]. by intros [= <-].
Qed.
Lemma emit_stream_streams i o l l' : emit_stream i o l = Ok (tt, l') -> l_istreams l' = l_istreams l /\ l_ostreams l' = l_ostreams l.
Proof.
  unfold emit_stream, upd_evt, bind, get, put, lift_opt, ret, fail. destruct (upd _ _ _); [|done]. intros H%nxe_link_streams. done.
Qed.

Lemma nxe_istream_set_ready_effect i ist l l' :
  l_istreams l !! i = Some ist -> nxe_istream_set_ready i l = Ok (tt, l') ->
  l_istreams l' = <[i := set_is_ready true ist]> (l_istreams l) /\ l_ostreams l' = l_ostreams l.
Proof.
  intros Hi. unfold nxe_istream_set_ready, get_is, get_os, load, get_evt, upd_is, bind, get, put, lift_opt, ret, fail, upd. rewrite Hi.
  destruct (is_ready ist) eqn:Er.
  - intros [= <-]. split; [|done]. symmetry. apply insert_id. destruct ist. cbn in *. unfold set_is_ready. cbn. by rewrite Hi, Er.
  - rewrite Hi. destruct (is_pair ist) as [o|]; [|by intros [= <-]]. cbn. destruct (l_ostreams l !! o); [|done]. cbn.
    destruct (l_events l !! Embedded i); [|done]. destruct (_ && _); [|by intros [= <-]]. intros H%emit_stream_streams. done.
Qed.
Lemma nxe_ostream_set_ready_effect o ost l l' :
  l_ostreams l !! o = Some ost -> nxe_ostream_set_ready o l = Ok (tt, l') ->
  l_istreams l' = l_istreams l /\ l_ostreams l' = <[o := set_os_ready true ost]> (l_ostreams l).
Proof.
  intros Ho. unfold nxe_ostream_set_ready, get_is, get_os, load, get_evt, upd_os, bind, get, put, lift_opt, ret, fail, upd. rewrite Ho. cbn.
  rewrite lookup_insert_eq. cbn. destruct (os_pair ost) as [i|]; [|by intros [= <-]]. change (l_istreams (set_ostreams _ l)) with (l_istreams l).
  destruct (l_istreams l !! i); [|done]. cbn.
  destruct (l_events l !! Embedded i); [|done]. destruct (_ && _); [|by intros [= <-]]. intros H%emit_stream_streams. done.
Qed.

(** Operations that change no stream. *)
Definition keeps_streams {A} (c : M nxe_loop A) : Prop :=
  forall l a l', c l = Ok (a, l') -> l_istreams l' = l_istreams l /\ l_ostreams l' = l_ostreams l.
Lemma keeps_bind {A B} (c : M nxe_loop A) (k : A -> M nxe_loop B) : keeps_streams c -> (forall a, keeps_streams (k a)) -> keeps_streams (bind c k).
Proof.
  intros Hc Hk l b l2. unfold bind. destruct (c l) as [[a l1]|] eqn:E; [|done]. intros E2.
  destruct (Hc _ _ _ E), (Hk _ _ _ _ E2). split; congruence.
Qed.
Lemma keeps_ret {A} (a : A) : keeps_streams (ret a).
Proof. by intros l a' l' [= _ <-]. Qed.
Lemma keeps_get : keeps_streams get.
Proof. by intros l a l' [= _ <-]. Qed.
Lemma keeps_lift {A} e (o : option A) : keeps_streams (lift_opt e o).
Proof. destruct o; [apply keeps_ret|done]. Qed.
Lemma keeps_load {A} (sel : nxe_loop -> gmap positive A) k : keeps_streams (load sel k).
Proof. apply keeps_bind; [apply keeps_get|intros l; apply keeps_lift]. Qed.
Lemma keeps_get_evt e : keeps_streams (get_evt e).
Proof. apply keeps_bind; [apply keeps_get|intros l; apply keeps_lift]. Qed.
Lemma keeps_upd_evt e f : keeps_streams (upd_evt e f).
Proof. intros l a l'. unfold upd_evt, bind, get, lift_opt, put, ret, fail. destruct (upd _ _ _); [by intros [= _ <-]|done]. Qed.
Lemma keeps_upd_sub e f : keeps_streams (upd_sub e f).
Proof. intros l a l'. unfold upd_sub, bind, get, lift_opt, put, ret, fail. destruct (upd _ _ _); [by intros [= _ <-]|done]. Qed.
Lemma keeps_loop {X R} (body : X -> M nxe_loop (X + R)) fuel x : (forall x, keeps_streams (body x)) -> keeps_streams (loop fuel body x).
Proof.
  intros Hb. revert x. induction fuel as [|n IH]; intros x; [done|]. rewrite loop_S. apply keeps_bind; [done|]. intros [x'|r]; [apply IH|apply keeps_ret].
Qed.
Lemma keeps_publish p d : keeps_streams (nxe_publish p d).
Proof.
  unfold nxe_publish. apply keeps_bind; [apply keeps_load|]. intros pub. destruct (negb _); [apply keeps_ret|].
  apply keeps_bind; [apply keeps_get|]. intros l. apply keeps_loop. intros [s|]; [|apply keeps_ret].
  apply keeps_bind; [|intros []; apply keeps_bind; [apply keeps_load|intros sub; apply keeps_ret]].
  unfold publish_to. apply keeps_bind; [by intros l0 a l' [= _ <-]|]. intros e. apply keeps_bind; [intros l0 [] l'; apply nxe_link_streams|]. intros [].
  apply keeps_bind; [apply keeps_load|]. intros sub. destruct (sub_evt sub); [|apply keeps_upd_sub].
  apply keeps_bind; [|intros x; apply keeps_upd_evt]. unfold last_active. apply keeps_bind; [apply keeps_get|]. intros l0. apply keeps_loop.
  intros e1. apply keeps_bind; [apply keeps_get_evt|]. intros evt. destruct (evt_next_by_receiver evt); apply keeps_ret.
Qed.

Lemma wp_and {S A} (c : M S A) P Q s : wp c P s -> wp c Q s -> wp c (fun a s' => P a s' /\ Q a s') s.
Proof. unfold wp. by destruct (c s) as [[a s']|e]. Qed.
Lemma wp_run {S A} (c : M S A) Q s : wp c Q s -> wp c (fun a s' => Q a s' /\ c s = Ok (a, s')) s.
Proof. unfold wp. by destruct (c s) as [[a s']|e]. Qed.
