(* ===== verification/RingBuffer.v ===== *)
(** The ring buffer of StreamBuffers.v is a queue of bytes: what its two
    handlers do to the bytes it holds, how its readiness follows its contents, and
    that over any run the bytes that came out are the first of those that went
    in. *)
From S2P Require Import Prelude CString Buffer Dll Event EventInv StreamBuffers.
Open Scope Z_scope.

(** * The contents *)

Definition slice (m : list Z) (a b : Z) : bytes := take (Z.to_nat (b - a)) (drop (Z.to_nat a) m).

(** The bytes held, oldest first. *)
Definition contents (rb : nxd_rbuffer) : bytes :=
  if nxd_rbuffer_is_empty rb then []
  else if rb_read_ptr rb <? rb_write_ptr rb then slice (rb_mem rb) (rb_read_ptr rb) (rb_write_ptr rb)
  else slice (rb_mem rb) (rb_read_ptr rb) (rb_end_ptr rb) ++ slice (rb_mem rb) (rb_start_ptr rb) (rb_write_ptr rb).

Definition rb_wf (rb : nxd_rbuffer) : Prop :=
  rb_start_ptr rb = 0 /\ 0 <= rb_read_ptr rb < rb_end_ptr rb /\ 0 <= rb_write_ptr rb < rb_end_ptr rb /\ rb_end_ptr rb <= zlen (rb_mem rb).

Section slices.
Implicit Types m d : list Z.

Lemma slice_lookup m a b i : 0 <= a -> (slice m a b) !! i = if decide (Z.of_nat i < b - a) then m !! (Z.to_nat a + i)%nat else None.
Proof.
  intros Ha. unfold slice. destruct (decide _) as [Hi|Hi].
  - rewrite lookup_take_lt by lia. apply lookup_drop.
  - apply lookup_take_ge. lia.
Qed.
Lemma slice_nil m a b : b <= a -> slice m a b = [].
Proof. intros Hb. unfold slice. replace (Z.to_nat (b - a)) with 0%nat by lia. done. Qed.
Lemma zlen_slice m a b : 0 <= a <= b -> b <= zlen m -> zlen (slice m a b) = b - a.
Proof. intros Ha Hb. unfold slice, zlen in *. rewrite length_take, length_drop. lia. Qed.
Lemma slice_app m a b c : 0 <= a <= b -> b <= c -> slice m a c = slice m a b ++ slice m b c.
Proof.
  intros Ha Hb. unfold slice. replace (Z.to_nat (c - a)) with (Z.to_nat (b - a) + Z.to_nat (c - b))%nat by lia.
  rewrite <- take_take_drop. f_equal. rewrite drop_drop. do 2 f_equal. lia.
Qed.
Lemma slice_same m m' p q a b : same_outside m m' p q -> 0 <= a -> b <= p \/ q <= a -> slice m' a b = slice m a b.
Proof.
  intros [Hl Hs] Ha Hout. apply list_eq. intros i. rewrite !slice_lookup by done. destruct (decide _) as [Hi|]; [|done].
  specialize (Hs (a + Z.of_nat i) ltac:(lia)). unfold peek in Hs. destruct (Z.leb_spec 0 (a + Z.of_nat i)); [|lia].
  by replace (Z.to_nat a + i)%nat with (Z.to_nat (a + Z.of_nat i)) by lia.
Qed.
Lemma slice_bytes_at m p d : 0 <= p -> bytes_at m p d -> slice m p (p + zlen d) = d.
Proof.
  intros Hp Hb. apply list_eq. intros i. rewrite slice_lookup by done. unfold zlen. destruct (decide _) as [Hi|Hi].
  - destruct (lookup_lt_is_Some_2 d i) as [c Hc]; [lia|]. rewrite Hc. specialize (Hb i c Hc). unfold peek in Hb.
    destruct (Z.leb_spec 0 (p + Z.of_nat i)); [|lia]. rewrite <- Hb. f_equal. lia.
  - symmetry. apply lookup_ge_None_2. lia.
Qed.
Lemma slice_slice m a b n : 0 <= a -> 0 <= n <= b - a -> take (Z.to_nat n) (slice m a b) = slice m a (a + n) /\ drop (Z.to_nat n) (slice m a b) = slice m (a + n) b.
Proof.
  intros Ha Hn. unfold slice. split.
  - rewrite take_take. f_equal. lia.
  - rewrite skipn_firstn_comm, drop_drop. f_equal; [lia|f_equal; lia].
Qed.
End slices.

Ltac rb_cases := repeat match goal with
  | |- context [Z.eqb ?a ?b] => destruct (Z.eqb_spec a b)
  | |- context [Z.ltb ?a ?b] => destruct (Z.ltb_spec a b)
  | |- context [Z.leb ?a ?b] => destruct (Z.leb_spec a b)
  end.

(** The part offered for writing is free, and writing to it appends. *)
Lemma write_ptr_bounds rb p n : rb_wf rb -> nxd_rbuffer_get_write_ptr rb = (p, n) ->
  p = rb_write_ptr rb /\ 0 <= n /\ p + n <= rb_end_ptr rb /\ (n = 0 <-> nxd_rbuffer_is_full rb = true).
Proof.
  intros (H0 & Hr & Hw & Hm). unfold nxd_rbuffer_get_write_ptr, nxd_rbuffer_is_full. intros [= <- <-].
  rb_cases; destruct (rb_last_write rb); cbn; split_and!; try done; try lia; split; intros; try done; lia.
Qed.

Lemma contents_write rb p n d m' :
  rb_wf rb -> nxd_rbuffer_get_write_ptr rb = (p, n) -> 0 < zlen d <= n ->
  bytes_at m' p d -> same_outside (rb_mem rb) m' p (p + zlen d) ->
  let w := if rb_end_ptr rb <=? p + zlen d then rb_start_ptr rb else p + zlen d in
  contents (rb_set_write w (rb_set_mem m' rb)) = contents rb ++ d.
Proof.
  intros Hwf Hp Hd Hb Hs. destruct (write_ptr_bounds _ _ _ Hwf Hp) as (-> & _ & Hn & Hf). destruct Hwf as (H0 & Hr & Hw & Hm).
  pose proof (slice_bytes_at m' (rb_write_ptr rb) d ltac:(lia) Hb) as Hsd.
  unfold nxd_rbuffer_get_write_ptr in Hp. unfold contents, nxd_rbuffer_is_empty, nxd_rbuffer_is_full in *. cbn. rewrite H0 in *. injection Hp as Hp.
  rewrite andb_false_r.
  assert (Hsame : forall a b, 0 <= a -> b <= rb_write_ptr rb \/ rb_write_ptr rb + zlen d <= a -> slice m' a b = slice (rb_mem rb) a b) by (intros; by eapply slice_same).
  destruct (Z.ltb_spec (rb_write_ptr rb) (rb_read_ptr rb)) as [Hlt|Hge].
  - (* the data wraps around *)
    rewrite (proj2 (Z.eqb_neq (rb_read_ptr rb) (rb_write_ptr rb))) in * by lia. cbn [andb] in *.
    destruct (Z.leb_spec (rb_end_ptr rb) (rb_write_ptr rb + zlen d)); [lia|].
    rewrite (proj2 (Z.ltb_ge (rb_read_ptr rb) (rb_write_ptr rb + zlen d))), (proj2 (Z.ltb_ge (rb_read_ptr rb) (rb_write_ptr rb))) by lia.
    rewrite <- app_assoc. f_equal; [apply Hsame; lia|].
    rewrite (slice_app m' 0 (rb_write_ptr rb)) by lia. by rewrite Hsd, Hsame by lia.
  - assert (Hc : (if (rb_read_ptr rb =? rb_write_ptr rb) && negb (rb_last_write rb) then []
        else if rb_read_ptr rb <? rb_write_ptr rb then slice (rb_mem rb) (rb_read_ptr rb) (rb_write_ptr rb)
        else slice (rb_mem rb) (rb_read_ptr rb) (rb_end_ptr rb) ++ slice (rb_mem rb) 0 (rb_write_ptr rb)) = slice (rb_mem rb) (rb_read_ptr rb) (rb_write_ptr rb)).
    { destruct (Z.eqb_spec (rb_read_ptr rb) (rb_write_ptr rb)) as [E|E]; cbn [andb] in *.
      - destruct (rb_last_write rb); cbn in *; [lia|]. by rewrite slice_nil by lia.
      - by rewrite (proj2 (Z.ltb_lt (rb_read_ptr rb) (rb_write_ptr rb))) by lia. }
    rewrite Hc. clear Hc. assert (Hle : rb_write_ptr rb + zlen d <= rb_end_ptr rb).
    { destruct ((rb_read_ptr rb =? rb_write_ptr rb) && rb_last_write rb); lia. }
    assert (He : slice m' (rb_read_ptr rb) (rb_write_ptr rb + zlen d) = slice (rb_mem rb) (rb_read_ptr rb) (rb_write_ptr rb) ++ d).
    { rewrite (slice_app m' _ (rb_write_ptr rb)) by lia. by rewrite Hsd, Hsame by lia. }
    destruct (Z.leb_spec (rb_end_ptr rb) (rb_write_ptr rb + zlen d)).
    + rewrite (proj2 (Z.ltb_ge (rb_read_ptr rb) 0)) by lia. rewrite (slice_nil m' 0 0), app_nil_r by lia.
      by replace (rb_end_ptr rb) with (rb_write_ptr rb + zlen d) by lia.
    + by rewrite (proj2 (Z.ltb_lt (rb_read_ptr rb) (rb_write_ptr rb + zlen d))) by lia.
Qed.

(** The part offered for reading is a prefix of the contents, the whole of it
    when the flag says so. *)
Lemma read_ptr_spec rb p n eof : rb_wf rb -> nxd_rbuffer_get_read_ptr rb = (p, n, eof) ->
  p = rb_read_ptr rb /\ 0 <= n /\ p + n <= rb_end_ptr rb /\ slice (rb_mem rb) p (p + n) = take (Z.to_nat n) (contents rb) /\ n <= zlen (contents rb) /\
  (n = 0 <-> contents rb = []) /\ eof = rb_eof rb && (n =? zlen (contents rb)).
Proof.
  intros (H0 & Hr & Hw & Hm). unfold nxd_rbuffer_get_read_ptr, contents. rewrite H0. intros [= <- <- <-].
  destruct (nxd_rbuffer_is_empty rb) eqn:Ee.
  - split_and!; try done; try lia. by rewrite slice_nil by lia.
  - destruct (Z.ltb_spec (rb_read_ptr rb) (rb_write_ptr rb)) as [Hlt|Hge].
    + assert (Hl : zlen (slice (rb_mem rb) (rb_read_ptr rb) (rb_write_ptr rb)) = rb_write_ptr rb - rb_read_ptr rb) by (apply zlen_slice; lia).
      rewrite Hl. replace (rb_read_ptr rb + (rb_write_ptr rb - rb_read_ptr rb)) with (rb_write_ptr rb) by lia. rewrite Z.eqb_refl.
      split_and!; try done; try lia.
      * rewrite take_ge; [done|]. unfold zlen in Hl. lia.
      * split; [lia|]. intros E. rewrite E in Hl. change (zlen (@nil Z)) with 0 in Hl. lia.
      * by rewrite orb_true_r.
    + rewrite zlen_app. assert (Hl : zlen (slice (rb_mem rb) (rb_read_ptr rb) (rb_end_ptr rb)) = rb_end_ptr rb - rb_read_ptr rb) by (apply zlen_slice; lia).
      assert (Hl2 : zlen (slice (rb_mem rb) 0 (rb_write_ptr rb)) = rb_write_ptr rb) by (rewrite zlen_slice; lia).
      rewrite Hl, Hl2. replace (rb_read_ptr rb + (rb_end_ptr rb - rb_read_ptr rb)) with (rb_end_ptr rb) by lia.
      split_and!; try done; try lia.
      * rewrite take_app_length'; [done|]. unfold zlen in Hl. lia.
      * split; [lia|]. intros E%app_nil. destruct E as [E _]. rewrite E in Hl. change (zlen (@nil Z)) with 0 in Hl. lia.
      * f_equal. rb_cases; cbn; try done; lia.
Qed.

Lemma contents_read rb p n eof k :
  rb_wf rb -> nxd_rbuffer_get_read_ptr rb = (p, n, eof) -> 0 < k <= n ->
  let r := if rb_end_ptr rb <=? p + k then rb_start_ptr rb else p + k in
  contents (rb_set_read r rb) = drop (Z.to_nat k) (contents rb).
Proof.
  intros Hwf Hp Hk. destruct (read_ptr_spec _ _ _ _ Hwf Hp) as (-> & _ & Hn & _). destruct Hwf as (H0 & Hr & Hw & Hm).
  unfold nxd_rbuffer_get_read_ptr in Hp. unfold contents, nxd_rbuffer_is_empty in *. cbn. rewrite H0 in *. rewrite andb_true_r.
  destruct ((rb_read_ptr rb =? rb_write_ptr rb) && negb (rb_last_write rb)) eqn:Ee; [injection Hp as Hp _; lia|].
  destruct (Z.ltb_spec (rb_read_ptr rb) (rb_write_ptr rb)) as [Hlt|Hge]; injection Hp as Hp _.
  - destruct (Z.leb_spec (rb_end_ptr rb) (rb_read_ptr rb + k)); [lia|].
    destruct (slice_slice (rb_mem rb) (rb_read_ptr rb) (rb_write_ptr rb) k) as [_ ->]; [lia|lia|].
    destruct (Z.eqb_spec (rb_read_ptr rb + k) (rb_write_ptr rb)) as [E|E]; [by rewrite slice_nil by lia|].
    by rewrite (proj2 (Z.ltb_lt (rb_read_ptr rb + k) (rb_write_ptr rb))) by lia.
  - rewrite drop_app_le by (pose proof (zlen_slice (rb_mem rb) (rb_read_ptr rb) (rb_end_ptr rb)) as Hz; unfold zlen in *; lia).
    destruct (slice_slice (rb_mem rb) (rb_read_ptr rb) (rb_end_ptr rb) k) as [_ ->]; [lia|lia|].
    destruct (Z.leb_spec (rb_end_ptr rb) (rb_read_ptr rb + k)).
    + rewrite (slice_nil (rb_mem rb) (rb_read_ptr rb + k)) by lia. cbn [app]. destruct (Z.eqb_spec 0 (rb_write_ptr rb)) as [E|E]; [by rewrite slice_nil by lia|].
      by rewrite (proj2 (Z.ltb_lt 0 (rb_write_ptr rb))) by lia.
    + rewrite (proj2 (Z.eqb_neq (rb_read_ptr rb + k) (rb_write_ptr rb))), (proj2 (Z.ltb_ge (rb_read_ptr rb + k) (rb_write_ptr rb))) by lia. done.
Qed.

(** * The buffer and its streams *)

(** The flags of the two streams follow the contents: room means that data can
    come in; data, or the end of the stream, that it can go out. *)
Record rb_ok (l : nxe_loop) (rb : nxd_rbuffer) : Prop := {
  ok_wf : rb_wf rb;
  ok_out : exists ist, l_istreams l !! rb_out rb = Some ist /\ (is_loop ist = false -> is_pair ist = None) /\
    is_ready ist = rb_eof rb || negb (nxd_rbuffer_is_empty rb);
  ok_in : exists ost, l_ostreams l !! rb_in rb = Some ost /\ (os_loop ost = false -> os_pair ost = None) /\
    (os_ready ost = true -> nxd_rbuffer_is_full rb = false) /\ (rb_eof rb = false -> os_ready ost = negb (nxd_rbuffer_is_full rb));
}.

Definition inv_after (cur : inflight) (l : nxe_loop) : Prop := exists q, loop_inv cur q l.

Lemma wp_set_istream_ready cur l i ist (Q : unit -> nxe_loop -> Prop) :
  inv_after cur l -> l_istreams l !! i = Some ist -> (is_loop ist = false -> is_pair ist = None) ->
  (forall l', inv_after cur l' -> l_istreams l' !! i = Some (set_is_ready true ist) -> l_ostreams l' = l_ostreams l -> Q tt l') -> wp (set_istream_ready i) Q l.
Proof.
  intros [q Hinv] Hi Ha HQ. unfold set_istream_ready. apply wp_bind. eapply (wp_load l_istreams); [exact Hi|]. destruct (is_loop ist) eqn:El.
  - assert (Hw : wp (nxe_istream_set_ready i) (fun _ l' => inv_after cur l') l) by (eapply (wp_istream_set_ready cur q); [exact Hinv|by eexists|]; intros l' (q' & Hq' & _); by exists q').
    eapply wp_mono; [exact (wp_run _ _ _ Hw)|].
    intros [] l' [Hq' Hr]. destruct (nxe_istream_set_ready_effect _ _ _ _ Hi Hr) as [E1 E2]. apply HQ; [done| |done]. rewrite E1. apply lookup_insert_eq.
  - eapply wp_upd_is; [exact Hi|]. apply HQ; [|apply lookup_insert_eq|done]. exists q. pose proof Hinv as (_ & Hst & _).
    eapply loop_inv_streams; [exact Hinv|done|apply Hinv| |done|done]. eapply streams_ok_weaken; [|by apply streams_ok_is_ready].
    intros i' o' [?|(_ & _ & Hx)]; [done|]. rewrite Ha in Hx by done. done.
Qed.
Lemma wp_unset_istream_ready cur l i ist (Q : unit -> nxe_loop -> Prop) :
  inv_after cur l -> l_istreams l !! i = Some ist ->
  (forall l', inv_after cur l' -> l_istreams l' !! i = Some (set_is_ready false ist) -> l_ostreams l' = l_ostreams l -> Q tt l') -> wp (unset_istream_ready i) Q l.
Proof.
  intros [q Hinv] Hi HQ. unfold unset_istream_ready. apply wp_bind. eapply (wp_load l_istreams); [exact Hi|].
  assert (Hw : wp (upd_is i (set_is_ready false)) Q l); [|by destruct (is_loop ist)].
  eapply wp_upd_is; [exact Hi|]. apply HQ; [|apply lookup_insert_eq|done]. exists q. pose proof Hinv as (_ & Hst & _).
  eapply loop_inv_streams; [exact Hinv|done|apply Hinv| |done|done]. eapply streams_ok_weaken; [|by apply streams_ok_is_ready]. by intros i' o' [?|[? _]].
Qed.
Lemma wp_set_ostream_ready cur l o ost (Q : unit -> nxe_loop -> Prop) :
  inv_after cur l -> l_ostreams l !! o = Some ost -> (os_loop ost = false -> os_pair ost = None) ->
  (forall l', inv_after cur l' -> l_ostreams l' !! o = Some (set_os_ready true ost) -> l_istreams l' = l_istreams l -> Q tt l') -> wp (set_ostream_ready o) Q l.
Proof.
  intros [q Hinv] Hi Ha HQ. unfold set_ostream_ready. apply wp_bind. eapply (wp_load l_ostreams); [exact Hi|]. destruct (os_loop ost) eqn:El.
  - assert (Hw : wp (nxe_ostream_set_ready o) (fun _ l' => inv_after cur l') l) by (eapply (wp_ostream_set_ready cur q); [exact Hinv|by eexists|]; intros l' (q' & Hq' & _); by exists q').
    eapply wp_mono; [exact (wp_run _ _ _ Hw)|].
    intros [] l' [Hq' Hr]. destruct (nxe_ostream_set_ready_effect _ _ _ _ Hi Hr) as [E1 E2]. apply HQ; [done| |done]. rewrite E2. apply lookup_insert_eq.
  - eapply wp_upd_os; [exact Hi|]. apply HQ; [|apply lookup_insert_eq|done]. exists q. pose proof Hinv as (_ & Hst & _).
    eapply loop_inv_streams; [exact Hinv|done|apply Hinv| |done|done]. eapply streams_ok_weaken; [|by apply streams_ok_os_ready].
    intros i' o' [?|(_ & _ & Hx)]; [done|]. rewrite Ha in Hx by done. done.
Qed.
Lemma wp_unset_ostream_ready cur l o ost (Q : unit -> nxe_loop -> Prop) :
  inv_after cur l -> l_ostreams l !! o = Some ost ->
  (forall l', inv_after cur l' -> l_ostreams l' !! o = Some (set_os_ready false ost) -> l_istreams l' = l_istreams l -> Q tt l') -> wp (unset_ostream_ready o) Q l.
Proof.
  intros [q Hinv] Hi HQ. unfold unset_ostream_ready. apply wp_bind. eapply (wp_load l_ostreams); [exact Hi|].
  assert (Hw : wp (upd_os o (set_os_ready false)) Q l); [|by destruct (os_loop ost)].
  eapply wp_upd_os; [exact Hi|]. apply HQ; [|apply lookup_insert_eq|done]. exists q. pose proof Hinv as (_ & Hst & _).
  eapply loop_inv_streams; [exact Hinv|done|apply Hinv| |done|done]. eapply streams_ok_weaken; [|by apply streams_ok_os_ready]. by intros i' o' [?|[? _]].
Qed.

Lemma wp_init_ready_ostream cur l o (Q : unit -> nxe_loop -> Prop) :
  inv_after cur l -> l_ostreams l !! o = None ->
  (forall l', inv_after cur l' -> l_ostreams l' !! o = Some (mk_os false true None) -> l_istreams l' = l_istreams l -> l_publishers l' = l_publishers l -> Q tt l') ->
  wp (init_ready_ostream o) Q l.
Proof.
  intros [q Hinv] Ho HQ. unfold init_ready_ostream. apply wp_bind.
  assert (Hw : wp (nxe_init_ostream o) (fun _ l' => inv_after cur l') l) by (eapply wp_init_ostream; [exact Hinv|done|]; intros l' (q' & Hq' & _); by exists q').
  eapply wp_mono; [exact (wp_run _ _ _ Hw)|]. intros [] l1 [[q1 Hinv1] [= <-]]. match goal with |- wp _ _ ?s => set (l1 := s) in * end.
  assert (Ho1 : l_ostreams l1 !! o = Some (mk_os false false None)) by apply lookup_insert_eq.
  eapply wp_upd_os; [exact Ho1|]. apply HQ; [|apply lookup_insert_eq|done|done]. exists q1. pose proof Hinv1 as (_ & Hst & _).
  eapply loop_inv_streams; [exact Hinv1|done|apply Hinv1| |done|done].
  eapply streams_ok_weaken; [|by apply streams_ok_os_ready]. by intros i' o' [?|(_ & _ & ?)].
Qed.

Lemma wp_on_loop {E X A} (c : M E A) (x : X) l (Q : A -> E * X -> Prop) : wp c (fun a l' => Q a (l', x)) l -> wp (on_loop c) Q (l, x).
Proof. unfold wp, on_loop. cbn. by destruct (c l) as [[a l']|e]. Qed.
Lemma wp_on_buf {E X A} (c : M X A) (x : X) (l : E) (Q : A -> E * X -> Prop) : wp c (fun a x' => Q a (l, x')) x -> wp (on_buf c) Q (l, x).
Proof. unfold wp, on_buf. cbn. by destruct (c x) as [[a x']|e]. Qed.

Lemma same_outside_nil m m' p : same_outside m m' p p -> m' = m.
Proof.
  intros [Hl Hs]. apply list_eq. intros i. specialize (Hs (Z.of_nat i) ltac:(lia)). unfold peek in Hs.
  destruct (Z.leb_spec 0 (Z.of_nat i)); [|lia]. by rewrite Nat2Z.id in Hs.
Qed.

(** The parts of a buffer that never change. *)
Definition rb_same (rb rb' : nxd_rbuffer) : Prop := rb_out rb' = rb_out rb /\ rb_in rb' = rb_in rb /\ rb_end_ptr rb' = rb_end_ptr rb.

Lemma wp_nxd_rbuffer_write cur l rb p n d m' (Q : unit -> nxe_loop * nxd_rbuffer -> Prop) :
  inv_after cur l -> rb_ok l rb -> nxd_rbuffer_get_write_ptr rb = (p, n) -> zlen d <= n ->
  bytes_at m' p d -> same_outside (rb_mem rb) m' p (p + zlen d) ->
  (forall l' rb', inv_after cur l' -> rb_ok l' rb' -> rb_same rb rb' -> rb_eof rb' = rb_eof rb -> contents rb' = contents rb ++ d -> Q tt (l', rb')) ->
  wp (nxd_rbuffer_write (zlen d)) Q (l, rb_set_mem m' rb).
Proof.
  intros Hinv Hok Hp Hd Hb Hs HQ. pose proof (zlen_nonneg d). unfold nxd_rbuffer_write. destruct (Z.eqb_spec (zlen d) 0) as [E|E].
  { apply zlen_0_inv in E as ->. change (zlen (@nil Z)) with 0 in *. rewrite Z.add_0_r in Hs. apply same_outside_nil in Hs as ->.
    apply wp_ret. destruct rb; cbn in *. apply HQ; [done|done|done|done|by rewrite app_nil_r]. }
  destruct Hok as [Hwf (ist & Hi & Hia & Hir) (ost & Ho & Hoa & Hfull & Hor)].
  destruct (write_ptr_bounds _ _ _ Hwf Hp) as (-> & _ & Hn & Hf). pose proof Hwf as (H0 & Hr & Hw & Hm).
  pose proof (contents_write rb _ n d m' Hwf Hp ltac:(lia) Hb Hs) as Hc. cbv zeta in Hc.
  apply wp_bind, wp_on_buf, wp_get. cbn [rb_write_ptr rb_set_mem rb_end_ptr rb_start_ptr].
  apply wp_bind, wp_assert; [apply Z.leb_le; lia|]. set (w := if rb_end_ptr rb <=? _ then _ else _) in *.
  assert (Hwb : 0 <= w < rb_end_ptr rb) by (unfold w; destruct (Z.leb_spec (rb_end_ptr rb) (rb_write_ptr rb + zlen d)); lia).
  apply wp_bind, wp_on_buf, wp_put. set (rb' := rb_set_write w _) in *. cbn [rb_out rb_set_mem].
  assert (Hwf' : rb_wf rb').
  { unfold rb_wf, rb'. cbn. rewrite (same_outside_zlen _ _ _ _ Hs). split_and!; try done; lia. }
  assert (Hemp : nxd_rbuffer_is_empty rb' = false) by (unfold nxd_rbuffer_is_empty; cbn; apply andb_false_r).
  assert (Hful : nxd_rbuffer_is_full rb' = (rb_read_ptr rb =? w)) by (unfold nxd_rbuffer_is_full; cbn; apply andb_true_r).
  apply wp_bind, wp_on_loop. eapply wp_set_istream_ready; [exact Hinv|exact Hi|exact Hia|]. intros l1 Hinv1 Hi1 Ho1.
  cbn [rb_read_ptr rb_in rb_set_mem]. rewrite <- Ho1 in Ho.
  destruct (Z.eqb_spec (rb_read_ptr rb) w) as [Ef|Ef].
  - apply wp_on_loop. eapply wp_unset_ostream_ready; [exact Hinv1|exact Ho|]. intros l2 Hinv2 Ho2 Hi2. apply HQ; try done. split; [done| |].
    + exists (set_is_ready true ist). change (rb_out rb') with (rb_out rb). rewrite Hi2. split_and!; [done|exact Hia|]. rewrite Hemp. cbn. by rewrite orb_true_r.
    + exists (set_os_ready false ost). split_and!; [done|exact Hoa|done|]. intros _. by rewrite Hful.
  - apply wp_ret. apply HQ; try done. split; [done| |].
    + exists (set_is_ready true ist). split_and!; [done|exact Hia|]. rewrite Hemp. cbn. by rewrite orb_true_r.
    + exists ost. split_and!; [done|exact Hoa|by rewrite Hful|]. intros He. rewrite Hful, Hor by done.
      assert (Hnf : nxd_rbuffer_is_full rb = false) by (destruct (nxd_rbuffer_is_full rb); [lia|done]). by rewrite Hnf.
Qed.

Lemma wp_nxd_rbuffer_read cur l rb p n eof k (Q : unit -> nxe_loop * nxd_rbuffer -> Prop) :
  inv_after cur l -> rb_ok l rb -> nxd_rbuffer_get_read_ptr rb = (p, n, eof) -> 0 < k <= n ->
  (forall l' rb', inv_after cur l' -> rb_ok l' rb' -> rb_same rb rb' -> rb_eof rb' = rb_eof rb -> contents rb' = drop (Z.to_nat k) (contents rb) -> Q tt (l', rb')) ->
  wp (nxd_rbuffer_read k) Q (l, rb).
Proof.
  intros Hinv Hok Hp Hk HQ. unfold nxd_rbuffer_read. rewrite (proj2 (Z.eqb_neq k 0)) by lia.
  destruct Hok as [Hwf (ist & Hi & Hia & Hir) (ost & Ho & Hoa & Hfull & Hor)].
  destruct (read_ptr_spec _ _ _ _ Hwf Hp) as (-> & _ & Hn & _ & _ & Hne & _). pose proof Hwf as (H0 & Hr & Hw & Hm).
  pose proof (contents_read rb _ n eof k Hwf Hp ltac:(lia)) as Hc. cbv zeta in Hc.
  apply wp_bind, wp_on_buf, wp_get. apply wp_bind, wp_assert; [apply Z.leb_le; lia|]. set (r := if rb_end_ptr rb <=? _ then _ else _) in *.
  assert (Hrb : 0 <= r < rb_end_ptr rb) by (unfold r; destruct (Z.leb_spec (rb_end_ptr rb) (rb_read_ptr rb + k)); lia).
  apply wp_bind, wp_on_buf, wp_put. set (rb' := rb_set_read r _) in *.
  assert (Hwf' : rb_wf rb') by (unfold rb_wf, rb'; cbn; split_and!; try done; lia).
  assert (Hemp : nxd_rbuffer_is_empty rb' = (r =? rb_write_ptr rb)) by (unfold nxd_rbuffer_is_empty; cbn; apply andb_true_r).
  assert (Hful : nxd_rbuffer_is_full rb' = false) by (unfold nxd_rbuffer_is_full; cbn; apply andb_false_r).
  assert (Hnemp : nxd_rbuffer_is_empty rb = false).
  { destruct (nxd_rbuffer_is_empty rb) eqn:E; [|done]. assert (contents rb = []) by (unfold contents; by rewrite E). apply Hne in H. lia. }
  apply wp_bind. destruct (rb_eof rb) eqn:Ee; cbn [negb orb] in *.
  - apply wp_ret. rewrite andb_false_r. apply wp_ret, HQ; try done. split; [done| |].
    + exists ist. split_and!; [done|done|]. change (rb_eof rb') with (rb_eof rb). by rewrite Ee.
    + exists ost. split_and!; [done|done|done|]. change (rb_eof rb') with (rb_eof rb). by rewrite Ee.
  - apply wp_on_loop. eapply wp_set_ostream_ready; [exact Hinv|exact Ho|exact Hoa|]. intros l1 Hinv1 Ho1 Hi1. rewrite <- Hi1 in Hi.
    rewrite andb_true_r. destruct (Z.eqb_spec r (rb_write_ptr rb)) as [Er|Er].
    + apply wp_on_loop. eapply wp_unset_istream_ready; [exact Hinv1|exact Hi|]. intros l2 Hinv2 Hi2 Ho2. apply HQ; try done. split; [done| |].
      * exists (set_is_ready false ist). split_and!; [done|exact Hia|]. change (rb_eof rb') with (rb_eof rb). by rewrite Ee, Hemp.
      * exists (set_os_ready true ost). change (rb_in rb') with (rb_in rb). rewrite Ho2. split_and!; [done|exact Hoa|done|]. intros _. by rewrite Hful.
    + apply wp_ret. apply HQ; try done. split; [done| |].
      * exists ist. split_and!; [done|exact Hia|]. change (rb_eof rb') with (rb_eof rb). by rewrite Ee, Hemp, Hir, Hnemp.
      * exists (set_os_ready true ost). split_and!; [done|exact Hoa|done|]. intros _. by rewrite Hful.
Qed.

(** ** The handlers *)

(** What the method at the other end may do: use the loop, but not these two
    streams. *)
Definition same_streams (rb : nxd_rbuffer) (l l' : nxe_loop) : Prop :=
  l_istreams l' !! rb_out rb = l_istreams l !! rb_out rb /\ l_ostreams l' !! rb_in rb = l_ostreams l !! rb_in rb.
Definition read_ok (cur : inflight) (rb : nxd_rbuffer) (read : Z -> M nxe_loop (bytes * bool)) : Prop :=
  forall l n, inv_after cur l -> 0 < n -> wp (read n) (fun r l' => inv_after cur l' /\ same_streams rb l l' /\ zlen r.1 <= n) l.
Definition write_ok (cur : inflight) (rb : nxd_rbuffer) (write : bytes -> bool -> M nxe_loop Z) : Prop :=
  forall l data eof, inv_after cur l -> wp (write data eof) (fun n l' => inv_after cur l' /\ same_streams rb l l' /\ n <= zlen data) l.

Lemma rb_ok_same l l' rb : same_streams rb l l' -> rb_ok l rb -> rb_ok l' rb.
Proof. intros [E1 E2] [H1 H2 H3]. by split; rewrite ?E1, ?E2. Qed.

Lemma wp_rb_store rb p d l (Q : unit -> nxe_loop * nxd_rbuffer -> Prop) :
  0 <= p -> p + zlen d <= zlen (rb_mem rb) ->
  (forall m', bytes_at m' p d -> same_outside (rb_mem rb) m' p (p + zlen d) -> Q tt (l, rb_set_mem m' rb)) ->
  wp (on_buf (rb_store p d)) Q (l, rb).
Proof.
  intros Hp Hd HQ. apply wp_on_buf. unfold wp, rb_store.
  pose proof (wp_write_bytes (rb_mem rb) p d (fun _ m' => Q tt (l, rb_set_mem m' rb)) Hp Hd HQ) as Hw. unfold wp in Hw.
  by destruct (write_bytes p d (rb_mem rb)) as [[[] m']|e].
Qed.
Lemma wp_rb_load rb p n l (Q : bytes -> nxe_loop * nxd_rbuffer -> Prop) :
  0 <= p -> 0 <= n -> p + n <= zlen (rb_mem rb) -> Q (slice (rb_mem rb) p (p + n)) (l, rb) -> wp (on_buf (rb_load p n)) Q (l, rb).
Proof.
  intros Hp Hn Hm HQ. apply wp_on_buf. unfold wp, rb_load, read_bytes.
  rewrite (proj2 (Z.leb_le 0 p)), (proj2 (Z.leb_le 0 n)), (proj2 (Z.leb_le (p + n) (zlen (rb_mem rb)))) by lia. cbn [andb].
  unfold slice in HQ. by replace (p + n - p) with n in HQ by lia.
Qed.

Lemma rb_ok_eof l l' rb :
  rb_ok l rb -> (exists ist, l_istreams l !! rb_out rb = Some ist /\ l_istreams l' !! rb_out rb = Some (set_is_ready true ist)) ->
  l_ostreams l' = l_ostreams l -> rb_ok l' (rb_set_eof rb).
Proof.
  intros [H1 (ist & H2 & H3 & H4) (ost & H5 & H6 & H7 & H8)] (ist' & E1 & E2) E3. rewrite H2 in E1. injection E1 as <-. split.
  - done.
  - exists (set_is_ready true ist). split_and!; done.
  - exists ost. change (rb_in (rb_set_eof rb)) with (rb_in rb). rewrite E3. split_and!; done.
Qed.

Lemma wp_rbuffer_data_in cur l rb read (Q : unit -> nxe_loop * nxd_rbuffer -> Prop) :
  inv_after cur l -> rb_ok l rb -> read_ok cur rb read -> (exists ost, l_ostreams l !! rb_in rb = Some ost /\ os_ready ost = true) ->
  (forall d eof l1 l' rb', read (nxd_rbuffer_get_write_ptr rb).2 l = Ok ((d, eof), l1) -> inv_after cur l' -> rb_ok l' rb' -> rb_same rb rb' ->
     rb_eof rb' = rb_eof rb || eof -> contents rb' = contents rb ++ d -> Q tt (l', rb')) ->
  wp (rbuffer_data_in_do_read read) Q (l, rb).
Proof.
  intros Hinv Hok Hread (ost & Ho & Hrdy) HQ. pose proof Hok as [Hwf _ (ost' & Ho' & _ & Hfull & _)]. rewrite Ho in Ho'. injection Ho' as <-. specialize (Hfull Hrdy).
  unfold rbuffer_data_in_do_read. apply wp_bind, wp_on_buf, wp_get. destruct (nxd_rbuffer_get_write_ptr rb) as [p n] eqn:Ep. cbn [snd] in HQ.
  destruct (write_ptr_bounds _ _ _ Hwf Ep) as (Epw & Hn0 & Hn & Hf). assert (Hnz : n <> 0) by (intros E; apply Hf in E; congruence).
  apply wp_bind, wp_assert; [by apply negb_true_iff, Z.eqb_neq|]. apply wp_bind, wp_on_loop.
  eapply wp_mono; [apply wp_run, Hread; [done|lia]|]. intros [d eof] l1 [(Hinv1 & Hs1 & Hd) Hrun]. cbn [fst] in Hd.
  pose proof (rb_ok_same _ _ _ Hs1 Hok) as Hok1. pose proof Hwf as (_ & _ & Hw & Hm). apply wp_bind, wp_rb_store; [lia|lia|].
  intros m' Hb Hso. apply wp_bind. eapply wp_nxd_rbuffer_write; [exact Hinv1|exact Hok1|exact Ep|lia|exact Hb|exact Hso|].
  intros l2 rb2 Hinv2 Hok2 Hsame He Hc. destruct eof.
  - pose proof Hok2 as [_ (ist & Hi & _) _]. apply wp_bind, wp_on_buf, wp_modify, wp_on_loop. cbn [rb_set_eof rb_out]. change (rb_out rb) with (rb_out rb).
    destruct Hsame as (S1 & S2 & S3). rewrite <- S1. destruct Hinv2 as [q2 Hinv2].
    assert (Hwr : wp (nxe_istream_set_ready (rb_out rb2)) (fun _ l' => inv_after cur l') l2) by (eapply (wp_istream_set_ready cur q2); [done|by eexists|]; intros l' (q' & Hq' & _); by exists q').
    eapply wp_mono; [exact (wp_run _ _ _ Hwr)|]. intros [] l3 [Hinv3 Hrun3]. destruct (nxe_istream_set_ready_effect _ _ _ _ Hi Hrun3) as [E1 E2].
    eapply HQ; [exact Hrun|exact Hinv3| |by split_and!|by rewrite orb_true_r|exact Hc]. eapply rb_ok_eof; [exact Hok2| |done].
    exists ist. split; [done|]. rewrite E1. apply lookup_insert_eq.
  - apply wp_ret. eapply HQ; [exact Hrun|done|done|done|by rewrite orb_false_r|done].
Qed.

Lemma wp_rbuffer_data_out cur l rb write (Q : unit -> nxe_loop * nxd_rbuffer -> Prop) :
  inv_after cur l -> rb_ok l rb -> write_ok cur rb write ->
  (forall p n eof k l1 l' rb', nxd_rbuffer_get_read_ptr rb = (p, n, eof) -> write (take (Z.to_nat n) (contents rb)) eof l = Ok (k, l1) -> k <= n ->
     inv_after cur l' -> rb_ok l' rb' -> rb_same rb rb' -> rb_eof rb' = rb_eof rb -> contents rb' = drop (Z.to_nat k) (contents rb) -> Q tt (l', rb')) ->
  wp (rbuffer_data_out_do_write write) Q (l, rb).
Proof.
  intros Hinv Hok Hwrite HQ. pose proof Hok as [Hwf _ _]. unfold rbuffer_data_out_do_write. apply wp_bind, wp_on_buf, wp_get.
  destruct (nxd_rbuffer_get_read_ptr rb) as [[p n] eof] eqn:Ep. destruct (read_ptr_spec _ _ _ _ Hwf Ep) as (Epr & Hn0 & Hn & Hsl & Hnc & _).
  pose proof Hwf as (_ & Hr & _ & Hm). apply wp_bind, wp_rb_load; [lia|lia|lia|]. rewrite Hsl.
  apply wp_bind, wp_on_loop. eapply wp_mono; [apply wp_run, Hwrite; done|]. intros k l1 [(Hinv1 & Hs1 & Hk) Hrun].
  assert (Hkn : k <= n) by (unfold zlen in *; rewrite length_take in Hk; lia). pose proof (rb_ok_same _ _ _ Hs1 Hok) as Hok1.
  destruct (Z.ltb_spec 0 k).
  - eapply wp_nxd_rbuffer_read; [exact Hinv1|exact Hok1|exact Ep|lia|]. intros l2 rb2 G1 G2 G3 G4 G5. by apply (HQ p n eof k l1).
  - apply wp_ret. apply (HQ p n eof k l1); try done. by replace (Z.to_nat k) with 0%nat by lia.
Qed.

(** * Property *)

(** One call of a handler, made only when its stream is ready, with the bytes
    that came in and the bytes that went out, or something else in the program
    using the loop. *)
Inductive rb_step (cur : inflight) : nxe_loop * nxd_rbuffer -> bytes -> bytes -> nxe_loop * nxd_rbuffer -> Prop :=
  | step_in read l rb ost d eof l1 s' :
      read_ok cur rb read -> l_ostreams l !! rb_in rb = Some ost -> os_ready ost = true ->
      read (nxd_rbuffer_get_write_ptr rb).2 l = Ok ((d, eof), l1) -> rbuffer_data_in_do_read read (l, rb) = Ok (tt, s') -> rb_step cur (l, rb) d [] s'
  | step_out write l rb p n eof k l1 s' :
      write_ok cur rb write -> nxd_rbuffer_get_read_ptr rb = (p, n, eof) ->
      write (take (Z.to_nat n) (contents rb)) eof l = Ok (k, l1) -> rbuffer_data_out_do_write write (l, rb) = Ok (tt, s') ->
      rb_step cur (l, rb) [] (take (Z.to_nat k) (contents rb)) s'
  | step_loop l l' rb : inv_after cur l' -> same_streams rb l l' -> rb_step cur (l, rb) [] [] (l', rb).
Inductive rb_run (cur : inflight) : nxe_loop * nxd_rbuffer -> bytes -> bytes -> nxe_loop * nxd_rbuffer -> Prop :=
  | run_nil s : rb_run cur s [] [] s
  | run_snoc s ins outs s1 i o s2 : rb_run cur s ins outs s1 -> rb_step cur s1 i o s2 -> rb_run cur s (ins ++ i) (outs ++ o) s2.

Definition rb_inv (cur : inflight) (s : nxe_loop * nxd_rbuffer) : Prop := inv_after cur s.1 /\ rb_ok s.1 s.2.

Lemma rb_step_inv cur s i o s' :
  rb_inv cur s -> rb_step cur s i o s' -> rb_inv cur s' /\ rb_same s.2 s'.2 /\ contents s.2 ++ i = o ++ contents s'.2.
Proof.
  intros [Hinv Hok] Hs. revert Hinv Hok. destruct Hs as [read l rb ost d eof l1 s' Hrd Ho Hr Hrun Hres|write l rb p n eof k l1 s' Hwr Hp Hrun Hres|l l' rb Hl Hsame]; intros Hinv Hok; cbn [fst snd] in *.
  - assert (Hw : wp (rbuffer_data_in_do_read read) (fun _ s' => rb_inv cur s' /\ rb_same rb s'.2 /\ contents rb ++ d = contents s'.2) (l, rb)).
    { eapply wp_rbuffer_data_in; [exact Hinv|exact Hok|exact Hrd|by exists ost|]. intros d' eof' l2 l' rb' Hrun' G1 G2 G3 _ G4.
      rewrite Hrun in Hrun'. injection Hrun' as <- <- <-. done. }
    unfold wp in Hw. by rewrite Hres in Hw.
  - assert (Hw : wp (rbuffer_data_out_do_write write) (fun _ s' => rb_inv cur s' /\ rb_same rb s'.2 /\ contents s'.2 = drop (Z.to_nat k) (contents rb)) (l, rb)).
    { eapply wp_rbuffer_data_out; [exact Hinv|exact Hok|exact Hwr|]. intros p' n' eof' k' l2 l' rb' Hp' Hrun' Hk G1 G2 G3 _ G4.
      rewrite Hp in Hp'. injection Hp' as <- <- <-. rewrite Hrun in Hrun'. injection Hrun' as <- <-. done. }
    unfold wp in Hw. rewrite Hres in Hw. destruct Hw as (G1 & G2 & ->). split_and!; [done|done|]. rewrite app_nil_r. symmetry. apply take_drop.
  - split_and!; [split; [done|by eapply rb_ok_same]|done|by rewrite app_nil_r].
Qed.

Lemma rb_same_trans a b c : rb_same a b -> rb_same b c -> rb_same a c.
Proof. unfold rb_same. intros (? & ? & ?) (? & ? & ?). split_and!; congruence. Qed.

Lemma rb_run_inv cur s ins outs s' :
  rb_run cur s ins outs s' -> rb_inv cur s -> contents s.2 = [] -> rb_inv cur s' /\ rb_same s.2 s'.2 /\ ins = outs ++ contents s'.2.
Proof.
  induction 1 as [s|s ins outs s1 i o s2 _ IH Hs]; intros Hinv Hc; [by rewrite Hc|].
  destruct (IH Hinv Hc) as (H1 & H2 & ->). destruct (rb_step_inv _ _ _ _ _ H1 Hs) as (G1 & G2 & G3).
  split_and!; [done|by eapply rb_same_trans|]. by rewrite <- !app_assoc, G3.
Qed.

Lemma contents_length rb : rb_wf rb ->
  zlen (contents rb) <= rb_end_ptr rb /\ (nxd_rbuffer_is_full rb = true <-> zlen (contents rb) = rb_end_ptr rb) /\ (nxd_rbuffer_is_empty rb = true <-> contents rb = []).
Proof.
  intros (H0 & Hr & Hw & Hm). unfold contents, nxd_rbuffer_is_full. rewrite H0. destruct (nxd_rbuffer_is_empty rb) eqn:Ee.
  - unfold nxd_rbuffer_is_empty in Ee. change (zlen (@nil Z)) with 0. apply andb_true_iff in Ee as [E1 E2]. rewrite E1. destruct (rb_last_write rb); [done|].
    cbn. split_and!; [lia|split; [done|lia]|done].
  - unfold nxd_rbuffer_is_empty in Ee. destruct (Z.ltb_spec (rb_read_ptr rb) (rb_write_ptr rb)).
    + assert (Hl : zlen (slice (rb_mem rb) (rb_read_ptr rb) (rb_write_ptr rb)) = rb_write_ptr rb - rb_read_ptr rb) by (apply zlen_slice; lia).
      rewrite (proj2 (Z.eqb_neq (rb_read_ptr rb) (rb_write_ptr rb))), Hl by lia. split_and!; [lia|split; [done|lia]|split; [done|]].
      intros E. rewrite E in Hl. change (zlen (@nil Z)) with 0 in Hl. lia.
    + rewrite zlen_app. assert (Hl : zlen (slice (rb_mem rb) (rb_read_ptr rb) (rb_end_ptr rb)) = rb_end_ptr rb - rb_read_ptr rb) by (apply zlen_slice; lia).
      assert (Hl2 : zlen (slice (rb_mem rb) 0 (rb_write_ptr rb)) = rb_write_ptr rb) by (rewrite zlen_slice; lia). rewrite Hl, Hl2. split_and!; [lia| |split; [done|]].
      * destruct (Z.eqb_spec (rb_read_ptr rb) (rb_write_ptr rb)); cbn in *; [|split; [done|lia]]. destruct (rb_last_write rb); [|done]. split; [lia|done].
      * intros [E _]%app_nil. rewrite E in Hl. change (zlen (@nil Z)) with 0 in Hl. lia.
Qed.

(** C18: a ring buffer is a bounded queue of bytes.  After any sequence of calls
    of its handlers, interleaved with anything else that uses the loop: what came
    in is what went out followed by the contents, which never exceed the size; as
    long as the input has not ended, the buffer is ready for input exactly when it
    has room and ready for output exactly when it has data; whenever it is ready,
    the handler completes without tripping an assertion or touching memory outside
    the buffer; and the end of the input is announced exactly with the last bytes. *)
Theorem rbuffer_fifo (cur : inflight) (l0 : nxe_loop) (out in_ : positive) (buf : list Z) (size : Z) :
  inv_after cur l0 -> l_istreams l0 !! out = None -> l_ostreams l0 !! in_ = None -> 0 < size <= zlen buf ->
  exists rb0 l1, nxd_rbuffer_init out in_ buf size l0 = Ok (rb0, l1) /\
    forall ins outs l rb, rb_run cur (l1, rb0) ins outs (l, rb) ->
      ins = outs ++ contents rb /\ zlen (contents rb) <= size /\
      (exists ist ost, l_istreams l !! out = Some ist /\ l_ostreams l !! in_ = Some ost /\
         (rb_eof rb = false -> (os_ready ost = true <-> zlen (contents rb) < size) /\ (is_ready ist = true <-> contents rb <> [])) /\
         (os_ready ost = true -> forall read, read_ok cur rb read -> exists d s', rb_step cur (l, rb) d [] s')) /\
      (forall write, write_ok cur rb write -> exists d s', rb_step cur (l, rb) [] d s') /\
      (forall p n eof, nxd_rbuffer_get_read_ptr rb = (p, n, eof) -> eof = rb_eof rb && (n =? zlen (contents rb))).
Proof.
  intros [q Hinv] Hi Ho Hsz.
  assert (Hw : wp (nxd_rbuffer_init out in_ buf size) (fun rb l1 => rb = nxd_rbuffer_init_ptr out in_ buf size /\ rb_inv cur (l1, rb)) l0).
  { unfold nxd_rbuffer_init. apply wp_bind.
    assert (Hw1 : wp (nxe_init_istream out) (fun _ l' => inv_after cur l') l0) by (eapply wp_init_istream; [exact Hinv|congruence|]; intros l' (q' & Hq' & _); by exists q').
    eapply wp_mono; [exact (wp_run _ _ _ Hw1)|]. intros [] l1 [Hinv1 [= <-]]. match goal with |- wp _ _ ?s => set (l1 := s) in * end.
    apply wp_bind. eapply wp_init_ready_ostream; [exact Hinv1|exact Ho|]. intros l2 Hinv2 Ho2 Hi2 _. apply wp_ret. split; [done|]. split; [exact Hinv2|].
    split.
    - unfold rb_wf, nxd_rbuffer_init_ptr. cbn. lia.
    - exists (mk_is false false None). cbn. rewrite Hi2. split_and!; [apply lookup_insert_eq|done|done].
    - exists (mk_os false true None). split_and!; done. }
  apply wp_elim in Hw as (rb0 & l1 & Hrun & -> & Hinv1). exists (nxd_rbuffer_init_ptr out in_ buf size), l1. split; [done|].
  intros ins outs l rb Hr. destruct (rb_run_inv _ _ _ _ _ Hr Hinv1 eq_refl) as ([Hl Hok] & Hsame & ->). cbn [fst snd] in *.
  destruct Hsame as (S1 & S2 & S3). cbn in S1, S2, S3. pose proof Hok as [Hwf (ist & Hist & _ & Hir) (ost & Host & _ & Hfull & Hor)].
  destruct (contents_length rb Hwf) as (Hcl & Hcf & Hce). rewrite S1, S2, S3 in *. split; [done|]. split; [done|]. split; [|split].
  - exists ist, ost. split_and!; [done|done| |].
    + intros He. rewrite He in Hir. cbn in Hir. specialize (Hor He). split.
      * rewrite Hor, negb_true_iff. destruct (nxd_rbuffer_is_full rb); [split; [done|lia]|]. split; [|done]. intros _.
        destruct (decide (zlen (contents rb) = size)) as [E|]; [|lia]. by apply Hcf in E.
      * rewrite Hir, negb_true_iff. destruct (nxd_rbuffer_is_empty rb); [|split; [|done]].
        -- split; [done|]. intros Hn. exfalso. apply Hn. by apply Hce.
        -- intros _ E. apply Hce in E. done.
    + intros Hrdy read Hrd.
      assert (Hw : wp (rbuffer_data_in_do_read read) (fun _ _ => exists d eof l2, read (nxd_rbuffer_get_write_ptr rb).2 l = Ok ((d, eof), l2)) (l, rb)).
      { eapply wp_rbuffer_data_in; [exact Hl|exact Hok|exact Hrd|exists ost; by rewrite S2|]. intros d eof l2 l' rb' Hrn _ _ _ _ _. by exists d, eof, l2. }
      apply wp_elim in Hw as ([] & s' & Hres & d & eof & l2 & Hrn). exists d, s'. eapply step_in; [exact Hrd|by rewrite S2|done|done|done].
  - intros write Hwr.
    assert (Hw : wp (rbuffer_data_out_do_write write) (fun _ _ => exists p n eof k l2, nxd_rbuffer_get_read_ptr rb = (p, n, eof) /\ write (take (Z.to_nat n) (contents rb)) eof l = Ok (k, l2)) (l, rb)).
    { eapply wp_rbuffer_data_out; [exact Hl|exact Hok|exact Hwr|]. intros p n eof k l2 l' rb' G1 G2 _ _ _ _ _ _. by exists p, n, eof, k, l2. }
    apply wp_elim in Hw as ([] & s' & Hres & p & n & eof & k & l2 & G1 & G2). eexists _, s'. by eapply step_out.
  - intros p n eof Hp. destruct (read_ptr_spec _ _ _ _ Hwf Hp) as (_ & _ & _ & _ & _ & _ & ->). done.
Qed.

Lemma rbuffer_fifo_witness :
  exists rb0 l1, nxd_rbuffer_init 1 1 (replicate 8 0) 8 nxe_create = Ok (rb0, l1) /\
    forall ins outs l rb, rb_run Idle (l1, rb0) ins outs (l, rb) ->
      ins = outs ++ contents rb /\ zlen (contents rb) <= 8 /\
      (exists ist ost, l_istreams l !! 1%positive = Some ist /\ l_ostreams l !! 1%positive = Some ost /\
         (rb_eof rb = false -> (os_ready ost = true <-> zlen (contents rb) < 8) /\ (is_ready ist = true <-> contents rb <> [])) /\
         (os_ready ost = true -> forall read, read_ok Idle rb read -> exists d s', rb_step Idle (l, rb) d [] s')) /\
      (forall write, write_ok Idle rb write -> exists d s', rb_step Idle (l, rb) [] d s') /\
      (forall p n eof, nxd_rbuffer_get_read_ptr rb = (p, n, eof) -> eof = rb_eof rb && (n =? zlen (contents rb))).
Proof.
  apply (rbuffer_fifo Idle nxe_create 1 1 (replicate 8 0) 8); [|reflexivity|reflexivity|vm_compute; done].
  exists []. apply loop_inv_create.
Defined.
