(* ===== verification/InputBuffer.v ===== *)
(** The input buffer of StreamBuffers.v collects what it reads, up to its
    limit, into one object of the request buffer. *)
From S2P Require Import Prelude CString Buffer Dll Event EventInv StreamBuffers RingBuffer.
Open Scope Z_scope.

Section input_buffer.
Context `{Alloc}.
Context (alloc_total : forall n, 0 < n < 2 ^ 31 -> is_Some (nx_alloc n)).

(** Collecting: [s] is the stream of the request buffer. *)
Definition ib_open (C T : Z) (L : list (nxb_loc * bytes)) (s : bytes) (nxb : nxb_buffer) (ib : nxd_ibuffer) : Prop :=
  ib_data_ptr ib = None /\ ib_data_size ib = zlen s /\ zlen s < ib_max_data_size ib - 1 /\ stream C T L s 0 nxb.
(** Complete: [s] is an object, followed by a zero byte. *)
Definition ib_closed (L : list (nxb_loc * bytes)) (s : bytes) (nxb : nxb_buffer) (ib : nxd_ibuffer) : Prop :=
  exists loc, ib_data_ptr ib = Some loc /\ ib_data_size ib = zlen s /\ zlen s <= ib_max_data_size ib /\ buffer_ok ((loc, s ++ [0]) :: L) [] nxb.

Context (C T : Z) (L : list (nxb_loc * bytes)).
Context (HC : 0 <= C) (HT : 0 <= T) (HCT : C + T <= 2 ^ 27).

Lemma wp_start_stream (L' : list (nxb_loc * bytes)) s nxb (Q : unit -> nxb_buffer -> Prop) :
  buffer_ok L' s nxb -> (forall nxb', buffer_ok L' [] nxb' -> chunk_size (nxb_chunk_ nxb') = chunk_size (nxb_chunk_ nxb) -> Q tt nxb') -> wp nxb_start_stream Q nxb.
Proof.
  intros ((Hb & Hp & Hi & Hid) & [Hu Hpt] & HL) HQ. pose proof (zlen_nonneg s). unfold nxb_start_stream. apply wp_bind, wp_get.
  destruct (Z.eqb_spec (nxb_ptr nxb) (nxb_base nxb)) as [E|E].
  - apply wp_ret, HQ; [|done]. split; [done|]. split; [|done]. split; [apply bytes_at_nil|]. change (zlen (@nil Z)) with 0. lia.
  - apply wp_modify, HQ; [|done]. split; [|split].
    + unfold nxb_wf, chunk_size in *. cbn. split_and!; try done; lia.
    + split; [apply bytes_at_nil|]. cbn. change (zlen (@nil Z)) with 0. lia.
    + eapply Forall_impl; [exact HL|]. intros o Ho. apply (live_ptrs nxb (nxb_base nxb) (nxb_base nxb) (nxb_end nxb)) in Ho; [exact Ho|naive_solver..].
Qed.

Lemma wp_on_nxb {A} (c : M nxb_buffer A) nxb (ib : nxd_ibuffer) (Q : A -> nxb_buffer * nxd_ibuffer -> Prop) :
  wp c (fun a nxb' => Q a (nxb', ib)) nxb -> wp (on_nxb c) Q (nxb, ib).
Proof. unfold wp, on_nxb. cbn. by destruct (c nxb) as [[a x]|e]. Qed.

Lemma wp_ib_finish s nxb ib r (Q : unit -> nxb_buffer * nxd_ibuffer -> Prop) :
  stream C T L s r nxb -> 1 <= r -> zlen s + 1 <= T -> ib_data_size ib = zlen s -> zlen s <= ib_max_data_size ib ->
  (forall nxb' ib', ib_closed L s nxb' ib' -> ib_data_in ib' = ib_data_in ib -> ib_data_complete ib' = ib_data_complete ib -> ib_max_data_size ib' = ib_max_data_size ib -> Q tt (nxb', ib')) ->
  wp (ib_finish nxb_append_char_fast) Q (nxb, ib).
Proof.
  intros Hs Hr HsT Hn Hmax HQ. unfold ib_finish. apply wp_bind, wp_on_nxb.
  eapply (wp_append_fast C T L s [0] r); [done|change (zlen [0]) with 1; lia|change (zlen [0]) with 1; lia|]. intros nxb1 Hs1.
  apply wp_bind, wp_on_nxb. eapply wp_finish_stream; [exact Hs1|]. intros loc nxb2 Hl HL Hwf Hu. apply wp_modify. apply HQ; [|done..].
  exists loc. split_and!; [done|done|done|]. split_and!; [done|done|]. by constructor.
Qed.

Lemma stream_room s r nxb : stream C T L s r nxb -> stream C T L s (nxb_end nxb - nxb_ptr nxb) nxb.
Proof. intros (? & ? & ? & ? & ? & ?). unfold stream. split_and!; try done. Qed.

Lemma wp_fill_room s nxb d (Q : unit -> nxb_buffer -> Prop) :
  stream C T L s (nxb_end nxb - nxb_ptr nxb) nxb -> zlen d <= nxb_end nxb - nxb_ptr nxb -> zlen s + zlen d <= T ->
  (forall nxb', stream C T L (s ++ d) (nxb_end nxb - nxb_ptr nxb - zlen d) nxb' -> Q tt nxb') ->
  wp (do! on_chunk (write_bytes (nxb_ptr nxb) d) in nxb_blank_fast (zlen d)) Q nxb.
Proof.
  intros Hs Hd Hl HQ. pose proof (wp_append_fast C T L s d _ Q nxb Hs Hd Hl HQ) as Hw.
  unfold nxb_append_fast, nxb_blank_fast in *. unfold wp, bind, get, on_chunk in *.
  destruct (write_bytes (nxb_ptr nxb) d (c_mem (nxb_chunk_ nxb))) as [[[] m]|e]; [exact Hw|done].
Qed.

(** What a source may do: use the loop, keeping the streams that the buffer
    owns. *)
Definition source_ok (cur : inflight) (ib : nxd_ibuffer) (read : Z -> M nxe_loop (bytes * bool)) : Prop :=
  forall l n, inv_after cur l -> 0 < n -> is_Some (l_ostreams l !! ib_data_in ib) -> is_Some (l_publishers l !! ib_data_complete ib) ->
    wp (read n) (fun r l' => inv_after cur l' /\ is_Some (l_ostreams l' !! ib_data_in ib) /\ is_Some (l_publishers l' !! ib_data_complete ib) /\ zlen r.1 <= n) l.

Definition ib_env (ib : nxd_ibuffer) (l : nxe_loop) : Prop := is_Some (l_ostreams l !! ib_data_in ib) /\ is_Some (l_publishers l !! ib_data_complete ib).
Definition ib_same (ib ib' : nxd_ibuffer) : Prop :=
  ib_data_in ib' = ib_data_in ib /\ ib_data_complete ib' = ib_data_complete ib /\ ib_max_data_size ib' = ib_max_data_size ib.

Lemma wp_publish_any cur l p d (Q : unit -> nxe_loop -> Prop) :
  inv_after cur l -> is_Some (l_publishers l !! p) -> (forall l', inv_after cur l' -> l_ostreams l' = l_ostreams l -> Q tt l') -> wp (nxe_publish p d) Q l.
Proof.
  intros [q Hinv] [pub Hp] HQ. pose proof Hinv as (_ & _ & Hs & _). destruct (u_pubs _ _ _ Hs p pub Hp) as (sl & Hc & _).
  assert (Hw : wp (nxe_publish p d) (fun _ l' => inv_after cur l') l) by (eapply wp_publish; [done|done|done|]; intros l' new H1 _; by exists (q ++ new)).
  eapply wp_mono; [exact (wp_run _ _ _ Hw)|]. intros [] l' [Hinv' Hr]. apply HQ; [done|]. by apply (keeps_publish p d l tt l').
Qed.

Lemma wp_ibuffer_read cur l s nxb ib read (Q : unit -> nxe_loop * (nxb_buffer * nxd_ibuffer) -> Prop) :
  inv_after cur l -> ib_open C T L s nxb ib -> source_ok cur ib read -> ib_max_data_size ib + 32 <= T ->
  ib_env ib l ->
  (forall n d eof l1 l' nxb' ib', read n l = Ok ((d, eof), l1) -> 0 < n -> zlen (s ++ d) <= ib_max_data_size ib -> inv_after cur l' ->
     (if eof || (ib_max_data_size ib - 1 <=? zlen (s ++ d)) then ib_closed L (s ++ d) nxb' ib' else ib_open C T L (s ++ d) nxb' ib' /\ ib_env ib' l' /\ ib_same ib ib') -> Q tt (l', (nxb', ib'))) ->
  wp (ibuffer_data_in_do_read read) Q (l, (nxb, ib)).
Proof.
  intros Hinv (Hptr & Hsz & Hmax & Hst) Hsrc HmT [Ho Hp] HQ. pose proof (zlen_nonneg s). unfold ibuffer_data_in_do_read.
  apply wp_bind, wp_on_buf, wp_get. cbn [snd]. rewrite Hptr. apply wp_bind, wp_on_buf, wp_on_nxb.
  eapply (wp_make_room alloc_total C T L HC HT HCT s 0 32); [done|lia|lia|]. intros nxb1 Hst1. pose proof Hst1 as (_ & _ & _ & Hroom & _).
  apply stream_room in Hst1. apply wp_bind, wp_on_buf, wp_on_nxb. unfold nxb_get_room. apply wp_bind, wp_get, wp_ret. cbn [l_off].
  set (room := nxb_end nxb1 - nxb_ptr nxb1) in *. rewrite Hsz. set (n := if ib_max_data_size ib <? zlen s + (room - 1) then _ else _).
  assert (Hn : 0 < n /\ n <= room - 1 /\ zlen s + n <= ib_max_data_size ib).
  { unfold n. destruct (Z.ltb_spec (ib_max_data_size ib) (zlen s + (room - 1))); lia. }
  clearbody n. destruct Hn as (Hn0 & Hnr & Hnm). apply wp_bind, wp_on_loop.
  eapply wp_mono; [apply wp_run, Hsrc; done|]. intros [d eof] l1 [(Hinv1 & Ho1 & Hp1 & Hd) Hrun]. cbn [fst] in Hd.
  assert (Hle : zlen (s ++ d) <= ib_max_data_size ib) by (rewrite zlen_app; lia).
  assert (Hend : forall l2 nxb2 ib2, inv_after cur l2 -> is_Some (l_ostreams l2 !! ib_data_in ib) ->
    ib_data_in ib2 = ib_data_in ib -> ib_data_complete ib2 = ib_data_complete ib -> ib_max_data_size ib2 = ib_max_data_size ib ->
    (if ib_max_data_size ib - 1 <=? zlen (s ++ d) then ib_closed L (s ++ d) nxb2 ib2 else ib_open C T L (s ++ d) nxb2 ib2 /\ stream C T L (s ++ d) 1 nxb2 /\ is_Some (l_publishers l2 !! ib_data_complete ib)) ->
    wp (if eof then let! s := on_buf get in
          do! match ib_data_ptr s.2 with
              | Some _ => ret tt
              | None => do! on_buf (ib_finish nxb_append_char_fast) in on_loop (nxe_publish (ib_data_complete ib) 0)
              end in
          on_loop (nxe_ostream_unset_ready (ib_data_in ib))
        else ret tt) Q (l2, (nxb2, ib2))).
  { intros l2 nxb2 ib2 G1 G2 G4 G5 G6 G7. destruct eof; [|apply wp_ret; eapply HQ; try done; cbn [orb]; destruct (_ <=? _); [done|]; destruct G7 as (F1 & _ & F2); split_and!; [done|split; by rewrite ?G4, ?G5|by split_and!]].
    assert (Hunset : forall l3 nxb3 ib3, inv_after cur l3 -> is_Some (l_ostreams l3 !! ib_data_in ib) -> ib_closed L (s ++ d) nxb3 ib3 ->
      wp (on_loop (nxe_ostream_unset_ready (ib_data_in ib))) Q (l3, (nxb3, ib3))).
    { intros l3 nxb3 ib3 [q3 F1] F2 F3. apply wp_on_loop. eapply wp_ostream_unset_ready; [exact F1|exact F2|]. intros l4 (q4 & F4 & _).
      eapply HQ; [exact Hrun|done|done|by exists q4|exact F3]. }
    apply wp_bind, wp_on_buf, wp_get. cbn [snd]. apply wp_bind. destruct (_ <=? _).
    - pose proof G7 as (loc & E & _). rewrite E. apply wp_ret. by apply Hunset.
    - destruct G7 as ((E1 & E2 & E3 & _) & Hs1 & G3). rewrite E1. apply wp_bind, wp_on_buf.
      eapply (wp_ib_finish (s ++ d) nxb2 ib2 1); [exact Hs1|lia|rewrite zlen_app in *; lia|done|lia|]. intros nxb3 ib3 F1 F2 F3 F4.
      apply wp_on_loop. eapply wp_publish_any; [exact G1|done|]. intros l3 F5 F6. apply Hunset; [done|by rewrite F6|done]. }
  apply wp_bind. pose proof (zlen_nonneg d). destruct (Z.ltb_spec 0 (zlen d)) as [Hd0|Hd0].
  - apply wp_bind, wp_on_buf, wp_on_nxb. eapply wp_fill_room; [exact Hst1|fold room; lia|lia|]. fold room. intros nxb2 Hst2.
    apply wp_bind, wp_on_buf, wp_modify. cbn [fst snd]. rewrite <- zlen_app. destruct (Z.leb_spec (ib_max_data_size ib - 1) (zlen (s ++ d))) as [Hf|Hf].
    + apply wp_bind, wp_on_buf. eapply (wp_ib_finish (s ++ d)); [exact Hst2|lia|rewrite zlen_app; lia|done|cbn; rewrite zlen_app; lia|].
      intros nxb3 ib3 F1 F2 F3 F4. apply wp_on_loop. eapply wp_publish_any; [exact Hinv1|done|]. intros l3 F5 F6.
      apply Hend; try done. by rewrite F6.
    + apply wp_ret. apply Hend; try done. split_and!; [|eapply stream_weaken; [exact Hst2|lia]|done].
      split_and!; [done|by cbn; rewrite zlen_app|done|eapply stream_weaken; [exact Hst2|lia]].
  - assert (d = []) as -> by (apply zlen_0_inv; lia). rewrite app_nil_r in *. apply wp_ret. apply Hend; try done.
    rewrite (proj2 (Z.leb_gt _ _)) by lia. split_and!; [|eapply stream_weaken; [exact Hst1|lia]|done].
    split_and!; [done|done|done|eapply stream_weaken; [exact Hst1|lia]].
Qed.

(** Reads from one source after the other until the data is complete. *)
Fixpoint collect (reads : list (Z -> M nxe_loop (bytes * bool))) : M (nxe_loop * (nxb_buffer * nxd_ibuffer)) unit :=
  match reads with
  | [] => ret tt
  | r :: rs =>
      do! ibuffer_data_in_do_read r in
      let! s := on_buf get in
      match ib_data_ptr s.2 with Some _ => ret tt | None => collect rs end
  end.

(** [s] is what the reads returned, one after the other; the last one ended the
    input if [eof]. *)
Inductive received : list (Z -> M nxe_loop (bytes * bool)) -> bytes -> bool -> Prop :=
  | received_nil : received [] [] false
  | received_last r n l d l1 : r n l = Ok ((d, true), l1) -> received [r] d true
  | received_cons r rs n l d l1 s eof : r n l = Ok ((d, false), l1) -> received rs s eof -> received (r :: rs) (d ++ s) eof.

Lemma wp_collect cur reads : forall l s nxb ib,
  inv_after cur l -> ib_open C T L s nxb ib -> ib_max_data_size ib + 32 <= T -> ib_env ib l ->
  Forall (fun r => forall ib', ib_same ib ib' -> source_ok cur ib' r) reads ->
  wp (collect reads) (fun _ st => inv_after cur st.1 /\ exists k d eof, received (take k reads) d eof /\
    zlen (s ++ d) <= ib_max_data_size ib /\
    if eof || (ib_max_data_size ib - 1 <=? zlen (s ++ d)) then ib_closed L (s ++ d) st.2.1 st.2.2
    else (length reads <= k)%nat /\ ib_open C T L (s ++ d) st.2.1 st.2.2) (l, (nxb, ib)).
Proof.
  induction reads as [|r reads IH]; intros l s nxb ib Hinv Hop HmT Henv Hsrc; cbn [collect].
  - apply wp_ret. split; [done|]. exists 0%nat, [], false. rewrite app_nil_r. destruct Hop as (H1 & H2 & H3 & H4).
    split; [constructor|]. split; [lia|]. cbn [orb]. rewrite (proj2 (Z.leb_gt _ _)) by lia. split; [done|]. by split_and!.
  - apply Forall_cons in Hsrc as [Hr Hsrc]. apply wp_bind.
    eapply wp_ibuffer_read; [exact Hinv|exact Hop|apply Hr; by split_and!|done|done|].
    intros n d eof l1 l' nxb' ib' Hrun Hn0 Hn Hinv' Hpost. apply wp_bind, wp_on_buf, wp_get. cbn [snd].
    destruct (eof || (ib_max_data_size ib - 1 <=? zlen (s ++ d))) eqn:Ec.
    + pose proof Hpost as (loc & E & _). rewrite E. apply wp_ret. split; [done|]. exists 1%nat, d, eof. rewrite Ec. split_and!; [|done|done].
      destruct eof; [by eapply received_last|]. rewrite <- (app_nil_r d). eapply received_cons; [exact Hrun|constructor].
    + destruct Hpost as (Hop' & Henv' & Hsame). pose proof Hop' as (E & _). rewrite E. destruct Hsame as (S1 & S2 & S3). apply orb_false_iff in Ec as [-> Ec].
      eapply wp_mono; [apply IH; [exact Hinv'|exact Hop'|lia|done|]|].
      * eapply Forall_impl; [exact Hsrc|]. intros r' Hr' ib2 (E1 & E2 & E3). apply Hr'. split_and!; congruence.
      * rewrite S3. intros [] st (G1 & k & d' & eof' & G2 & G3 & G4). split; [done|]. rewrite <- app_assoc in G3, G4.
        exists (S k), (d ++ d'), eof'. split_and!; [by eapply received_cons|done|].
        destruct (eof' || _); [done|]. destruct G4 as [G4 G5]. split; [cbn [length]; lia|done].
Qed.
End input_buffer.

(** C19: the input buffer collects exactly the bytes that arrive, however they are
    split into reads, up to its limit: no read is given room beyond the limit, the
    data is complete when the input ends or at most one byte below the limit, and
    is then one object followed by a zero byte; until then it is the stream of the
    request buffer; all objects of that buffer keep their contents. *)
Theorem ibuffer_collects `{Alloc} (cur : inflight) (l : nxe_loop) (nxb : nxb_buffer) (L : list (nxb_loc * bytes)) (data_in data_complete : positive)
    (max : Z) (reads : list (Z -> M nxe_loop (bytes * bool))) :
  (forall n, 0 < n < 2 ^ 31 -> is_Some (nx_alloc n)) -> inv_after cur l -> l_ostreams l !! data_in = None -> l_publishers l !! data_complete = None ->
  (exists s, buffer_ok L s nxb) -> 2 <= max -> chunk_size (nxb_chunk_ nxb) + max + 32 <= 2 ^ 27 ->
  (forall ib, ib_data_in ib = data_in -> ib_data_complete ib = data_complete -> Forall (source_ok cur ib) reads) ->
  exists ib l1 nxb1 l2 nxb2 ib2, nxd_ibuffer_init data_in data_complete max (l, nxb) = Ok (ib, (l1, nxb1)) /\
    collect reads (l1, (nxb1, ib)) = Ok (tt, (l2, (nxb2, ib2))) /\
    exists k d eof, received (take k reads) d eof /\ zlen d <= max /\
      if eof || (max - 1 <=? zlen d) then ib_closed L d nxb2 ib2
      else (length reads <= k)%nat /\ ib_data_ptr ib2 = None /\ ib_data_size ib2 = zlen d /\ buffer_ok L d nxb2.
Proof.
  intros Htot Hinv Ho Hp [s Hok] Hmax Hbig Hsrc.
  assert (Hw : wp (nxd_ibuffer_init data_in data_complete max) (fun ib st => ib = mk_ib data_in data_complete None 0 max /\
      inv_after cur st.1 /\ ib_env ib st.1 /\ buffer_ok L [] st.2 /\ chunk_size (nxb_chunk_ st.2) = chunk_size (nxb_chunk_ nxb)) (l, nxb)).
  { unfold nxd_ibuffer_init. apply wp_bind, wp_on_buf, wp_start_stream with L s; [done|]. intros nxb1 Hok1 Hc1.
    apply wp_bind, wp_on_loop. eapply wp_init_ready_ostream; [exact Hinv|exact Ho|]. intros l1 [q1 Hinv1] Ho1 Hi1 Hp1.
    apply wp_bind, wp_on_loop. rewrite <- Hp1 in Hp.
    assert (Hw2 : wp (nxe_init_publisher data_complete) (fun _ l' => inv_after cur l') l1) by (eapply wp_init_publisher; [exact Hinv1|done|]; intros l' (q' & Hq' & _); by exists q').
    eapply wp_mono; [exact (wp_run _ _ _ Hw2)|]. intros [] l2 [Hinv2 [= <-]]. apply wp_ret. split_and!; try done. split; cbn; [by rewrite Ho1|by rewrite lookup_insert_eq]. }
  apply wp_elim in Hw as (ib & [l1 nxb1] & Hrun & -> & Hinv1 & Henv & Hok1 & Hc1). cbn [fst snd] in *. set (ib := mk_ib _ _ _ _ _) in *.
  pose proof (zlen_nonneg (c_mem (nxb_chunk_ nxb))) as Hcap. unfold chunk_size in *.
  pose proof (wp_collect Htot (chunk_size (nxb_chunk_ nxb1)) (max + 32) L ltac:(unfold chunk_size; lia) ltac:(lia) ltac:(unfold chunk_size; lia) cur reads l1 [] nxb1 ib Hinv1) as Hw.
  apply wp_elim in Hw as ([] & [l2 [nxb2 ib2]] & Hrun2 & _ & k & d & eof & G1 & G2 & G3).
  - exists ib, l1, nxb1, l2, nxb2, ib2. split; [done|]. split; [done|]. exists k, d, eof. split; [done|]. split; [done|]. cbn [fst snd] in G3.
    change (ib_max_data_size ib) with max in *. change ([] ++ d) with d in *. destruct (_ || _); [done|]. destruct G3 as [G3 (E1 & E2 & _ & Hst)].
    split_and!; [done|done|done|]. by eapply stream_buffer_ok.
  - split_and!; [done|done|change (ib_max_data_size ib) with max; change (zlen (@nil Z)) with 0; lia|]. apply buffer_ok_stream; [done|change (zlen (@nil Z)) with 0; lia].
  - change (ib_max_data_size ib) with max. lia.
  - done.
  - apply Forall_forall. intros r Hr ib' (S1 & S2 & S3). by eapply (proj1 (Forall_forall _ _) (Hsrc ib' S1 S2)).
Qed.

(** Two reads of five and three bytes, the second one at the end of the input. *)
Definition five_bytes (n : Z) : M nxe_loop (bytes * bool) := ret (take (Z.to_nat n) (bs "a=1&b"), false).
Definition three_bytes (n : Z) : M nxe_loop (bytes * bool) := ret (take (Z.to_nat n) (bs "=22"), true).

Lemma ibuffer_collects_witness :
  exists ib l1 nxb1 l2 nxb2 ib2, nxd_ibuffer_init 1 1 100 (nxe_create, small_buffer) = Ok (ib, (l1, nxb1)) /\
    @collect zero_alloc [five_bytes; three_bytes] (l1, (nxb1, ib)) = Ok (tt, (l2, (nxb2, ib2))) /\
    exists k d eof, received (take k [five_bytes; three_bytes]) d eof /\ zlen d <= 100 /\
      if eof || (100 - 1 <=? zlen d) then ib_closed [] d nxb2 ib2
      else (length [five_bytes; three_bytes] <= k)%nat /\ ib_data_ptr ib2 = None /\ ib_data_size ib2 = zlen d /\ buffer_ok [] d nxb2.
Proof.
  apply (@ibuffer_collects zero_alloc Idle nxe_create small_buffer [] 1 1 100 [five_bytes; three_bytes]).
  - apply zero_alloc_total.
  - exists []. apply loop_inv_create.
  - reflexivity.
  - reflexivity.
  - exists []. apply small_buffer_ok.
  - lia.
  - vm_compute. done.
  - intros ib _ _. constructor; [|constructor; [|constructor]]; intros l n Hinv Hn Ho Hp; apply wp_ret; split_and!; try done; cbn [fst]; unfold zlen; rewrite length_take; lia.
Defined.
