(* ===== verification/Json.v ===== *)
(** JSON: lib/nxjson.c and include/nxweb/nxjson.h.

    The parser works in place: it unescapes a key or a string over its own
    source text and leaves pointers into that text in the tree it builds.  The
    tree is a value whose strings are pointers ([nx_json Z]); the same type
    with byte strings is what the abstract parser at the end of the file
    produces from the text alone.  [strtoll] with base 0 and [strtod] are the
    C library's, defined here on the contents of a string (C locale, binary64
    with rounding to nearest even). *)
From Stdlib Require Import SpecFloat.
From S2P Require Import Prelude CString.
Open Scope Z_scope.

(** ** The tree *)

Inductive nx_json_type :=
  NX_JSON_NULL | NX_JSON_OBJECT | NX_JSON_ARRAY | NX_JSON_STRING
| NX_JSON_INTEGER | NX_JSON_DOUBLE | NX_JSON_BOOL.

(** [child], [next] and [last_child] thread the list of children. *)
Inductive nx_json (str : Type) := Json {
  js_type : nx_json_type;
  js_key : option str;
  text_value : option str;
  int_value : Z;
  dbl_value : spec_float;
  js_length : Z;
  children : list (nx_json str);
}.
Arguments Json {str} _ _ _ _ _ _ _.
Arguments js_type {str} _.
Arguments js_key {str} _.
Arguments text_value {str} _.
Arguments int_value {str} _.
Arguments dbl_value {str} _.
Arguments js_length {str} _.
Arguments children {str} _.

Definition create_json {str} (type : nx_json_type) (key : option str) : nx_json str :=
  Json type key None 0 (S754_zero false) 0 [].
(** The links [create_json] makes in the parent. *)
Definition add_child {str} (parent js : nx_json str) : nx_json str :=
  match parent with
  | Json t k tx i d n l => Json t k tx i d (wraps 32 (n + 1)) (l ++ [js])
  end.
Definition dummy {str} : nx_json str := create_json NX_JSON_NULL None.

(** A node with a string, an integer, a boolean or a double in it. *)
Definition with_text {str} (js : nx_json str) (text : str) : nx_json str :=
  Json (js_type js) (js_key js) (Some text) (int_value js) (dbl_value js) (js_length js) (children js).
Definition with_number {str} (js : nx_json str) (type : nx_json_type) (i : Z) (d : spec_float) : nx_json str :=
  Json type (js_key js) (text_value js) i d (js_length js) (children js).
Definition with_int {str} (js : nx_json str) (i : Z) : nx_json str :=
  with_number js (js_type js) i (dbl_value js).

(** ** The C library's numbers *)

Definition sign_of (s : bytes) : bool * bytes :=
  match s with 45 :: r => (true, r) | 43 :: r => (false, r) | _ => (false, s) end.
Definition is_x (c : Z) : bool := (c =? ch "x") || (c =? ch "X").
(** The base that a base argument of 0 stands for, and where its digits start. *)
Definition base_of (s : bytes) : Z * bytes :=
  match s with
  | 48 :: r =>
      match r with
      | x :: h :: t => if is_x x && (digit_val h <? 16) then (16, h :: t) else (8, s)
      | _ => (8, s)
      end
  | _ => (10, s)
  end.
(** [strtoll(s, &end, 0)]: the value, the bytes consumed, and whether [errno]
    became [ERANGE]. *)
Definition strtoll0 (s : bytes) : Z * Z * bool :=
  let '(neg, s2) := sign_of (skip_spaces s) in
  let '(base, s3) := base_of s2 in
  let '(v, n) := strtol_digits base s3 0 0 in
  if n =? 0 then (0, 0, false)
  else
    let z := if neg then - v else v in
    (clamp_long z, zlen s - zlen s3 + n, negb (clamp_long z =? z)).

Definition prec : Z := 53.
Definition emax : Z := 1024.
Definition dbl_of_Z (z : Z) : spec_float := binary_normalize prec emax z 0 false.
(** The double nearest to [d * 10^e10]. *)
Definition dbl_of_decimal (d e10 : Z) : spec_float :=
  if 0 <=? e10 then dbl_of_Z (d * 10 ^ e10)
  else match d with
       | Zpos p => SFdiv prec emax (S754_finite false p 0) (S754_finite false (Z.to_pos (10 ^ (- e10))) 0)
       | _ => S754_zero false
       end.
(** Overflow, or a subnormal result that is not exact. *)
Definition dbl_erange (d e10 : Z) (f : spec_float) : bool :=
  match f with
  | S754_infinity _ => true
  | S754_zero _ => negb (d =? 0)
  | S754_finite _ m e =>
      (Zpos m <? 2 ^ (prec - 1)) && negb (Zpos m * 10 ^ Z.max 0 (- e10) =? d * 10 ^ Z.max 0 e10 * 2 ^ (- e))
  | S754_nan => false
  end.

(** An exponent [mark[+-]digits]: its value and the bytes it takes. *)
Definition exponent (mark : Z -> bool) (s : bytes) : Z * Z :=
  match s with
  | c :: r =>
      if mark c then
        let '(neg, r') := sign_of r in
        let '(v, n) := strtol_digits 10 r' 0 0 in
        if n =? 0 then (0, 0) else (if neg then - v else v, zlen s - zlen r' + n)
      else (0, 0)
  | [] => (0, 0)
  end.
Definition is_e (c : Z) : bool := (c =? ch "e") || (c =? ch "E").
Definition is_p (c : Z) : bool := (c =? ch "p") || (c =? ch "P").

(** Digits with an optional point: the digits as one number, how many of them
    follow the point, how many there are, and the bytes they take. *)
Definition mantissa (base : Z) (s : bytes) : Z * Z * Z * Z :=
  let '(v, n) := strtol_digits base s 0 0 in
  match drop (Z.to_nat n) s with
  | 46 :: r => let '(w, k) := strtol_digits base r v 0 in (w, k, n + k, n + 1 + k)
  | _ => (v, 0, n, n)
  end.

(** [strtod(s, &end)] for a text that is neither an infinity nor a NaN:
    decimal or hexadecimal, as [strtoll0]. *)
Definition strtod (s : bytes) : spec_float * Z * bool :=
  let '(neg, s2) := sign_of (skip_spaces s) in
  let sgn f := if neg then SFopp f else f in
  let '(base, s3) := base_of s2 in
  if base =? 16 then
    let '(d, k, n, used) := mantissa 16 s3 in
    let '(e, ue) := exponent is_p (drop (Z.to_nat used) s3) in
    let f := binary_normalize prec emax d (e - 4 * k) false in
    (sgn f, zlen s - zlen s3 + used + ue, match f with S754_infinity _ => true | S754_zero _ => negb (d =? 0) | _ => false end)
  else
    let '(d, k, n, used) := mantissa 10 s2 in
    if n =? 0 then (S754_zero false, 0, false)
    else
      let '(e, ue) := exponent is_e (drop (Z.to_nat used) s2) in
      let f := dbl_of_decimal d (e - k) in
      (sgn f, zlen s - zlen s2 + used + ue, dbl_erange d (e - k) f).

(** ** Strings *)

Definition IS_WHITESPACE (c : Z) : bool := c <=? 32.

Definition json_hex_val (c : Z) : Z :=
  if (ch "0" <=? c) && (c <=? ch "9") then c - ch "0"
  else if (ch "a" <=? c) && (c <=? ch "f") then c - ch "a" + 10
  else if (ch "A" <=? c) && (c <=? ch "F") then c - ch "A" + 10
  else -1.

(** A unicode encoder writes a code point at [p] and returns the end of what
    it wrote, or nothing when it refuses the code point. *)
Definition nx_json_unicode_encoder : Type := Z -> Z -> M mem (option Z).

Definition unicode_to_utf8 : nx_json_unicode_encoder := fun codepoint p =>
  if codepoint <? 128 then do! wr p codepoint in ret (Some (p + 1))
  else if codepoint <? 2048 then
    do! wr p (192 + codepoint / 64) in
    do! wr (p + 1) (128 + codepoint mod 64) in ret (Some (p + 2))
  else if wrapu 32 (codepoint - 55296) <? 2048 then ret None
  else if codepoint <? 65536 then
    do! wr p (224 + codepoint / 4096) in
    do! wr (p + 1) (128 + codepoint / 64 mod 64) in
    do! wr (p + 2) (128 + codepoint mod 64) in ret (Some (p + 3))
  else if codepoint <? 1114112 then
    do! wr p (240 + codepoint / 262144) in
    do! wr (p + 1) (128 + codepoint / 4096 mod 64) in
    do! wr (p + 2) (128 + codepoint / 64 mod 64) in
    do! wr (p + 3) (128 + codepoint mod 64) in ret (Some (p + 4))
  else ret None.

(** The four hex digits at [p]; the reads stop at the first that is not one. *)
Definition hex4_at (p : Z) : M mem (option Z) :=
  let! c1 := rd p in if json_hex_val c1 <? 0 then ret None else
  let! c2 := rd (p + 1) in if json_hex_val c2 <? 0 then ret None else
  let! c3 := rd (p + 2) in if json_hex_val c3 <? 0 then ret None else
  let! c4 := rd (p + 3) in if json_hex_val c4 <? 0 then ret None else
  ret (Some (Z.lor (Z.lor (Z.lor (Z.shiftl (json_hex_val c1) 12) (Z.shiftl (json_hex_val c2) 8))
                          (Z.shiftl (json_hex_val c3) 4)) (json_hex_val c4))).

(** What one character escape stands for. *)
Definition simple_escape (e : Z) : option Z :=
  if (e =? ch "\") || (e =? ch "/") || (e =? 34) then Some e
  else if e =? ch "b" then Some 8
  else if e =? ch "f" then Some 12
  else if e =? ch "n" then Some 10
  else if e =? ch "r" then Some 13
  else if e =? ch "t" then Some 9
  else None.

Definition is_surrogate (base codepoint : Z) : bool := Z.land codepoint 64512 =? base.
Definition surrogate_pair (hi lo : Z) : Z := 65536 + Z.shiftl (hi - 55296) 10 + (lo - 56320).

(** The code point of the escape whose [u] is at [p]: the value and the
    address after the escape. *)
Definition unicode_escape (p : Z) : M mem (option (Z * Z)) :=
  let! h := hex4_at (p + 1) in
  match h with
  | None => ret None
  | Some codepoint =>
      if is_surrogate 55296 codepoint then
        let! b := rd (p + 5) in if negb (b =? ch "\") then ret None else
        let! u := rd (p + 6) in if negb (u =? ch "u") then ret None else
        let! h2 := hex4_at (p + 7) in
        match h2 with
        | None => ret None
        | Some codepoint2 =>
            if negb (is_surrogate 56320 codepoint2) then ret None
            else ret (Some (surrogate_pair codepoint codepoint2, p + 11))
        end
      else ret (Some (codepoint, p + 5))
  end.

(** Returns the address after the closing quote ([*end]); the string is [s]. *)
Definition unescape_string (s : Z) (encoder : option nx_json_unicode_encoder) : M mem (option Z) :=
  mem_loop (fun '(p, d) =>
    let! c := rd p in
    if c =? 0 then ret (inr None)
    else if c =? 34 then do! wr d 0 in ret (inr (Some (p + 1)))
    else if c =? ch "\" then
      let! e := rd (p + 1) in
      match simple_escape e with
      | Some v => do! wr d v in ret (inl (p + 2, d + 1))
      | None =>
          match encoder with
          | Some enc =>
              if e =? ch "u" then
                let! u := unicode_escape (p + 1) in
                match u with
                | None => ret (inr None)
                | Some (codepoint, p') =>
                    let! d' := enc codepoint d in
                    match d' with
                    | None => ret (inr None)
                    | Some d' => ret (inl (p', d'))
                    end
                end
              else do! wr d c in ret (inl (p + 1, d + 1))
          | None => do! wr d c in ret (inl (p + 1, d + 1))
          end
      end
    else do! wr d c in ret (inl (p + 1, d + 1))) (s, s).

(** ** Comments and keys *)

Definition skip_block_comment (p : Z) : M mem (option Z) :=
  let! c := rd p in
  if c =? 0 then ret None else
  mem_loop (fun p =>
    let! q := strchr (p + 1) (ch "/") in
    match q with
    | None => ret (inr None)
    | Some q =>
        let! c := rd (q - 1) in
        if negb (c =? ch "*") then ret (inl q) else ret (inr (Some (q + 1)))
    end) p.

(** The address after the end of the line that [p] is in. *)
Definition skip_line_comment (p : Z) : M mem (option Z) :=
  let! q := strchr p 10 in ret (Z.succ <$> q).

(** The key, if there was one, and where the parser goes on: after the colon,
    or at the closing brace. *)
Definition parse_key (p : Z) (encoder : option nx_json_unicode_encoder) : M mem (option (option Z * Z)) :=
  mem_loop (fun p =>
    let! c := rd p in
    if c =? 0 then ret (inr None)
    else if c =? 34 then
      let! e := unescape_string (p + 1) encoder in
      match e with
      | None => ret (inr None)
      | Some e =>
          let! q := mem_loop (fun q =>
            let! c := rd q in
            if negb (c =? 0) && IS_WHITESPACE c then ret (inl (q + 1)) else ret (inr q)) e in
          let! c := rd q in
          ret (inr (if c =? ch ":" then Some (Some (p + 1), q + 1) else None))
      end
    else if IS_WHITESPACE c || (c =? ch ",") then ret (inl (p + 1))
    else if c =? ch "}" then ret (inr (Some (None, p)))
    else if c =? ch "/" then
      let! e := rd (p + 1) in
      let! q := if e =? ch "/" then skip_line_comment (p + 2)
                else if e =? ch "*" then skip_block_comment (p + 2) else ret None in
      ret (match q with Some q => inl q | None => inr None end)
    else ret (inr None)) p.

(** ** Values *)

Section parse.
(** [errno == ERANGE] before the call: nothing in the parser clears [errno]. *)
Variable erange0 : bool.
Variable encoder : option nx_json_unicode_encoder.

Definition parse_number (key : option Z) (p : Z) : M mem (option (Z * nx_json Z)) :=
  let! s := read_str p in
  let js := create_json NX_JSON_INTEGER key in
  let '(i, n, range) := strtoll0 s in
  if (n =? 0) || (erange0 || range) then ret None else
  let! c := rd (p + n) in
  if (c =? ch ".") || is_e c then
    let '(d, n, range) := strtod s in
    if (n =? 0) || (erange0 || range) then ret None
    else ret (Some (p + n, with_number js NX_JSON_DOUBLE i d))
  else ret (Some (p + n, with_number js NX_JSON_INTEGER i (dbl_of_Z i))).

(** The literals: the text, the type and the integer value. *)
Definition json_literal (c : Z) : option (bytes * nx_json_type * Z) :=
  if c =? ch "t" then Some (bs "true", NX_JSON_BOOL, 1)
  else if c =? ch "f" then Some (bs "false", NX_JSON_BOOL, 0)
  else if c =? ch "n" then Some (bs "null", NX_JSON_NULL, 0)
  else None.
Definition is_digit_or_minus (c : Z) : bool := (c =? ch "-") || ((ch "0" <=? c) && (c <=? ch "9")).
Definition is_skip (c : Z) : bool := (c =? 32) || (c =? 9) || (c =? 10) || (c =? 13) || (c =? ch ",").

(** [parse_value] gives the parent with the new child and the address after
    the value; its two inner loops are the recursive [parse_members] and
    [parse_items], which build the node whose body they read. *)
Fixpoint parse_value (fuel : nat) (parent : nx_json Z) (key : option Z) (p : Z) {struct fuel}
    : M mem (option (Z * nx_json Z)) :=
  match fuel with
  | O => fail NoFuel
  | S fuel' =>
      let add (r : option (Z * nx_json Z)) := (fun '(q, js) => (q, add_child parent js)) <$> r in
      let! c := rd p in
      if c =? 0 then ret None
      else if is_skip c then parse_value fuel' parent key (p + 1)
      else if c =? ch "{" then
        let! r := parse_members fuel' (create_json NX_JSON_OBJECT key) (p + 1) in ret (add r)
      else if c =? ch "[" then
        let! r := parse_items fuel' (create_json NX_JSON_ARRAY key) (p + 1) in ret (add r)
      else if c =? ch "]" then ret (Some (p, parent))
      else if c =? 34 then
        let! e := unescape_string (p + 1) encoder in
        ret (match e with
             | None => None
             | Some e => add (Some (e, with_text (create_json NX_JSON_STRING key) (p + 1)))
             end)
      else if is_digit_or_minus c then
        let! r := parse_number key p in ret (add r)
      else match json_literal c with
      | Some (lit, type, v) =>
          let! s := read_str p in
          ret (if is_prefix lit s then add (Some (p + zlen lit, with_int (create_json type key) v)) else None)
      | None =>
          if c =? ch "/" then
            let! e := rd (p + 1) in
            let! q := if e =? ch "/" then skip_line_comment (p + 2)
                      else if e =? ch "*" then skip_block_comment (p + 2) else ret None in
            match q with
            | None => ret None
            | Some q => parse_value fuel' parent key q
            end
          else ret None
      end
  end
with parse_members (fuel : nat) (js : nx_json Z) (p : Z) {struct fuel} : M mem (option (Z * nx_json Z)) :=
  match fuel with
  | O => fail NoFuel
  | S fuel' =>
      let! k := parse_key p encoder in
      match k with
      | None => ret None
      | Some (new_key, p) =>
          let! c := rd p in
          if c =? ch "}" then ret (Some (p + 1, js)) else
          let! r := parse_value fuel' js new_key p in
          match r with
          | None => ret None
          | Some (p, js) => parse_members fuel' js p
          end
      end
  end
with parse_items (fuel : nat) (js : nx_json Z) (p : Z) {struct fuel} : M mem (option (Z * nx_json Z)) :=
  match fuel with
  | O => fail NoFuel
  | S fuel' =>
      let! r := parse_value fuel' js None p in
      match r with
      | None => ret None
      | Some (p, js) =>
          let! c := rd p in
          if c =? ch "]" then ret (Some (p + 1, js)) else parse_items fuel' js p
      end
  end.

(** A null tree is returned for an error and for a text whose first thing is
    a closing bracket. *)
Definition nx_json_parse (text : Z) : M mem (option (nx_json Z)) := fun m =>
  (let! r := parse_value (2 * length m) (create_json NX_JSON_NULL None) None text in
   ret (match r with Some (_, js) => head (children js) | None => None end)) m.
End parse.

Definition nx_json_parse_utf8 (erange0 : bool) (text : Z) : M mem (option (nx_json Z)) :=
  nx_json_parse erange0 (Some unicode_to_utf8) text.

(** ** Access *)

Fixpoint get_loop (l : list (nx_json bytes)) (key : bytes) : nx_json bytes :=
  match l with
  | [] => dummy
  | js :: l' =>
      match js_key js with
      | Some k => if decide (k = key) then js else get_loop l' key
      | None => get_loop l' key
      end
  end.
Definition nx_json_get (json : option (nx_json bytes)) (key : option bytes) : nx_json bytes :=
  match json, key with
  | Some js, Some key => get_loop (children js) key
  | _, _ => dummy
  end.

Fixpoint item_loop {str} (l : list (nx_json str)) (idx : Z) : nx_json str :=
  match l with
  | [] => dummy
  | js :: l' => if idx =? 0 then js else item_loop l' (wraps 32 (idx - 1))
  end.
Definition nx_json_item {str} (json : option (nx_json str)) (idx : Z) : nx_json str :=
  match json with Some js => item_loop (children js) idx | None => dummy end.

(** ** The abstract parser

    On the text after the current position [s]; [a] is that position, which
    the strings of the tree keep beside their contents.  [enc] gives the bytes
    of a code point. *)
Section spec.
Variable erange0 : bool.
Variable enc : option (Z -> option bytes).

Definition node : Type := nx_json (Z * bytes).

Definition spec_hex4 (s : bytes) : option (Z * bytes) :=
  match s with
  | a :: b :: c :: d :: r =>
      if (json_hex_val a <? 0) || (json_hex_val b <? 0) || (json_hex_val c <? 0) || (json_hex_val d <? 0) then None
      else Some (json_hex_val a * 4096 + json_hex_val b * 256 + json_hex_val c * 16 + json_hex_val d, r)
  | _ => None
  end.

Definition spec_unicode (s : bytes) : option (Z * bytes) :=
  match spec_hex4 s with
  | None => None
  | Some (h, r) =>
      if (55296 <=? h) && (h <? 56320) then
        match r with
        | 92 :: 117 :: r' =>
            match spec_hex4 r' with
            | Some (l, r'') =>
                if (56320 <=? l) && (l <? 57344) then Some (65536 + (h - 55296) * 1024 + (l - 56320), r'') else None
            | None => None
            end
        | _ => None
        end
      else Some (h, r)
  end.

(** The contents of a string and the text after its closing quote; an escape
    that is not known stays as it is. *)
Fixpoint spec_string (fuel : nat) (s : bytes) : option (bytes * bytes) :=
  let more (v : bytes) (r : bytes) (k : bytes -> option (bytes * bytes)) :=
    (fun '(t, e) => (v ++ t, e)) <$> k r in
  match fuel, s with
  | O, _ | _, [] => None
  | S n, c :: r =>
      if c =? 34 then Some ([], r)
      else if c =? ch "\" then
        match r with
        | e :: r' =>
            match simple_escape e, enc with
            | Some v, _ => more [v] r' (spec_string n)
            | None, Some encode =>
                if e =? ch "u" then
                  match spec_unicode r' with
                  | Some (cp, r'') =>
                      match encode cp with Some u => more u r'' (spec_string n) | None => None end
                  | None => None
                  end
                else more [c] r (spec_string n)
            | None, None => more [c] r (spec_string n)
            end
        | [] => None
        end
      else more [c] r (spec_string n)
  end.

(** The text after [*/], the byte before [s] being [prev]. *)
Fixpoint after_comment (prev : Z) (s : bytes) : option bytes :=
  match s with
  | [] => None
  | c :: r => if (c =? ch "/") && (prev =? ch "*") then Some r else after_comment c r
  end.
Definition spec_block_comment (s : bytes) : option bytes :=
  match s with [] => None | c :: r => after_comment c r end.
Fixpoint spec_line_comment (s : bytes) : option bytes :=
  match s with [] => None | c :: r => if c =? 10 then Some r else spec_line_comment r end.
(** After the [/] that starts a comment. *)
Definition spec_comment (s : bytes) : option bytes :=
  match s with
  | 47 :: r => spec_line_comment r
  | 42 :: r => spec_block_comment r
  | _ => None
  end.

Fixpoint skip_white (s : bytes) : bytes :=
  match s with c :: r => if IS_WHITESPACE c then skip_white r else s | [] => [] end.

Fixpoint spec_key (fuel : nat) (a : Z) (s : bytes) : option (option (Z * bytes) * bytes) :=
  match fuel, s with
  | O, _ | _, [] => None
  | S n, c :: r =>
      if c =? 34 then
        match spec_string (S (length r)) r with
        | Some (k, e) =>
            match skip_white e with 58 :: r' => Some (Some (a + 1, k), r') | _ => None end
        | None => None
        end
      else if IS_WHITESPACE c || (c =? ch ",") then spec_key n (a + 1) r
      else if c =? ch "}" then Some (None, s)
      else if c =? ch "/" then
        match spec_comment r with Some r' => spec_key n (a + zlen s - zlen r') r' | None => None end
      else None
  end.

Definition spec_number (key : option (Z * bytes)) (s : bytes) : option (bytes * node) :=
  let '(i, n, range) := strtoll0 s in
  if (n =? 0) || (erange0 || range) then None else
  let rest := drop (Z.to_nat n) s in
  if (hd0 rest =? ch ".") || is_e (hd0 rest) then
    let '(d, n, range) := strtod s in
    if (n =? 0) || (erange0 || range) then None
    else Some (drop (Z.to_nat n) s, with_number (create_json NX_JSON_INTEGER key) NX_JSON_DOUBLE i d)
  else Some (rest, with_number (create_json NX_JSON_INTEGER key) NX_JSON_INTEGER i (dbl_of_Z i)).

(** [spec_value] on the text [s] at address [a]: the text that is left and
    the parent with its new child. *)
Fixpoint spec_value (fuel : nat) (parent : node) (key : option (Z * bytes)) (a : Z) (s : bytes)
    {struct fuel} : option (bytes * node) :=
  match fuel, s with
  | O, _ | _, [] => None
  | S n, c :: r =>
      let add (x : option (bytes * node)) := (fun '(r, js) => (r, add_child parent js)) <$> x in
      if is_skip c then spec_value n parent key (a + 1) r
      else if c =? ch "{" then add (spec_members n (create_json NX_JSON_OBJECT key) (a + 1) r)
      else if c =? ch "[" then add (spec_items n (create_json NX_JSON_ARRAY key) (a + 1) r)
      else if c =? ch "]" then Some (s, parent)
      else if c =? 34 then
        add ((fun '(t, r') => (r', with_text (create_json NX_JSON_STRING key) (a + 1, t))) <$>
             spec_string (S (length r)) r)
      else if is_digit_or_minus c then add (spec_number key s)
      else match json_literal c with
      | Some (lit, type, v) =>
          if is_prefix lit s then add (Some (drop (length lit) s, with_int (create_json type key) v)) else None
      | None =>
          if c =? ch "/" then
            match spec_comment r with
            | Some r' => spec_value n parent key (a + zlen s - zlen r') r'
            | None => None
            end
          else None
      end
  end
with spec_members (fuel : nat) (js : node) (a : Z) (s : bytes) {struct fuel} : option (bytes * node) :=
  match fuel with
  | O => None
  | S n =>
      match spec_key (S (length s)) a s with
      | Some (new_key, r) =>
          if hd0 r =? ch "}" then Some (drop 1 r, js) else
          match spec_value n js new_key (a + zlen s - zlen r) r with
          | Some (r', js) => spec_members n js (a + zlen s - zlen r') r'
          | None => None
          end
      | None => None
      end
  end
with spec_items (fuel : nat) (js : node) (a : Z) (s : bytes) {struct fuel} : option (bytes * node) :=
  match fuel with
  | O => None
  | S n =>
      match spec_value n js None a s with
      | Some (r, js) =>
          if hd0 r =? ch "]" then Some (drop 1 r, js) else spec_items n js (a + zlen s - zlen r) r
      | None => None
      end
  end.

Definition spec_parse (a : Z) (s : bytes) : option node :=
  match spec_value (2 * S (length s)) (create_json NX_JSON_NULL None) None a s with
  | Some (_, js) => head (children js)
  | None => None
  end.
End spec.

(** The strings of a tree, and a tree with its strings replaced. *)
Fixpoint json_map {A B} (f : A -> B) (js : nx_json A) : nx_json B :=
  match js with
  | Json t k tx i d n l => Json t (f <$> k) (f <$> tx) i d n (map (json_map f) l)
  end.
Definition opt_list {A} (o : option A) : list A := match o with Some x => [x] | None => [] end.
Fixpoint json_strings {A} (js : nx_json A) : list A :=
  match js with
  | Json t k tx i d n l => opt_list k ++ opt_list tx ++ flat_map json_strings l
  end.
