(* ===== verification/JsonProof.v ===== *)
(** The parser of lib/nxjson.c against the abstract parser of [Json]: on every
    NUL-terminated text the in-place parser stays inside the text, returns,
    and builds the tree the abstract parser gives, whose strings it leaves
    intact in the part of the text it has read. *)
From S2P Require Import Prelude CString Json.
Open Scope Z_scope.

(** ** Arithmetic of escapes *)

Lemma land_high c : 0 <= c < 65536 -> Z.land c 64512 = c / 1024 * 1024.
Proof.
  intros Hc. change 64512 with (Z.shiftl (Z.ones 6) 10).
  rewrite <- (Z.mod_small (c / 1024) 64)
    by (split; [apply Z.div_pos|apply Z.div_lt_upper_bound]; lia).
  change 64 with (2 ^ 6). rewrite <- Z.land_ones by lia.
  change 1024 with (2 ^ 10). rewrite <- Z.shiftr_div_pow2, <- Z.shiftl_mul_pow2 by lia.
  apply Z.bits_inj'. intros i Hi. rewrite Z.land_spec. destruct (Z.lt_ge_cases i 10).
  - rewrite !Z.shiftl_spec_low by done. apply andb_false_r.
  - rewrite !Z.shiftl_spec, Z.land_spec, Z.shiftr_spec by lia. do 2 f_equal. lia.
Qed.
Lemma is_surrogate_range c : 0 <= c < 65536 ->
  is_surrogate 55296 c = (55296 <=? c) && (c <? 56320) /\ is_surrogate 56320 c = (56320 <=? c) && (c <? 57344).
Proof.
  intros Hc. unfold is_surrogate. rewrite land_high by done.
  split; apply eq_true_iff_eq; rewrite andb_true_iff, Z.eqb_eq, Z.leb_le, Z.ltb_lt; Z.to_euclidean_division_equations; lia.
Qed.

Lemma lor_shiftl a b n : 0 <= n -> 0 <= b < 2 ^ n -> Z.lor (Z.shiftl a n) b = a * 2 ^ n + b.
Proof.
  intros Hn Hb. rewrite <- Z.shiftl_mul_pow2 by done.
  assert (Z.land (Z.shiftl a n) b = 0) as H0.
  { apply Z.bits_inj'. intros i Hi. rewrite Z.land_spec, Z.bits_0.
    destruct (Z.lt_ge_cases i n).
    - by rewrite Z.shiftl_spec_low.
    - rewrite <- (Z.mod_small b (2 ^ n)), Z.mod_pow2_bits_high by lia. apply andb_false_r. }
  by rewrite <- Z.lxor_lor, <- Z.add_nocarry_lxor by done.
Qed.

Lemma hex4_value a b c d : 0 <= a < 16 -> 0 <= b < 16 -> 0 <= c < 16 -> 0 <= d < 16 ->
  Z.lor (Z.lor (Z.lor (Z.shiftl a 12) (Z.shiftl b 8)) (Z.shiftl c 4)) d = a * 4096 + b * 256 + c * 16 + d.
Proof.
  intros Ha Hb Hc Hd. rewrite (lor_shiftl a) by (rewrite ?Z.shiftl_mul_pow2; lia).
  replace (a * 2 ^ 12 + Z.shiftl b 8) with (Z.shiftl (a * 16 + b) 8)
    by (rewrite !Z.shiftl_mul_pow2; lia).
  rewrite (lor_shiftl (a * 16 + b)) by (rewrite ?Z.shiftl_mul_pow2; lia).
  replace ((a * 16 + b) * 2 ^ 8 + Z.shiftl c 4) with (Z.shiftl ((a * 16 + b) * 16 + c) 4)
    by (rewrite !Z.shiftl_mul_pow2; lia).
  rewrite lor_shiftl by lia. lia.
Qed.

Lemma json_hex_val_bound c : json_hex_val c < 16.
Proof. unfold json_hex_val. repeat case_match; blia. Qed.

(** ** Reading a string byte by byte *)

Section reads.
Implicit Types (m : list Z) (p : Z) (s : bytes).

Lemma wp_hd m p s (Q : Z -> list Z -> Prop) : cstr m p s -> Q (hd0 s) m -> wp (rd p) Q m.
Proof.
  intros Hs HQ. destruct s as [|c s].
  - apply cstr_nil_inv in Hs as [_ Hc]. by eapply wp_rd'.
  - apply cstr_cons in Hs as (_ & _ & Hc & _). by eapply wp_rd'.
Qed.
Lemma cstr_tail m p c s : cstr m p (c :: s) -> cstr m (p + 1) s.
Proof. by intros (_ & _ & _ & H)%cstr_cons. Qed.
Lemma cstr_hd0 m p s : cstr m p s -> hd0 s = 0 -> s = [].
Proof. destruct s as [|c s]; [done|]. intros (_ & Hc & _)%cstr_cons. done. Qed.

Lemma hex_val_nul : json_hex_val 0 < 0.
Proof. done. Qed.

Lemma wp_hex4 m p s (Q : option Z -> list Z -> Prop) :
  cstr m p s -> Q (fst <$> spec_hex4 s) m -> wp (hex4_at p) Q m.
Proof.
  assert (forall r, (forall c r', r = c :: r' -> json_hex_val c < 0) -> json_hex_val (hd0 r) < 0) as Hneg.
  { intros [|c r] H; [apply hex_val_nul|by eapply H]. }
  intros Hs HQ. unfold hex4_at.
  destruct s as [|a s]; cbn [spec_hex4] in HQ.
  { apply wp_bind. eapply wp_hd; [done|]. done. }
  apply wp_bind. eapply wp_hd; [done|]. cbn [hd0]. apply cstr_tail in Hs.
  destruct (json_hex_val a <? 0) eqn:Ha; cbn [orb] in HQ.
  { apply wp_ret. by repeat case_match. }
  apply wp_bind. eapply wp_hd; [done|].
  destruct s as [|b s]; [done|]. cbn [hd0].  apply cstr_tail in Hs. rewrite <- Z.add_assoc in Hs.
  destruct (json_hex_val b <? 0) eqn:Hb; cbn [orb] in HQ.
  { apply wp_ret. by repeat case_match. }
  apply wp_bind. eapply wp_hd; [done|].
  destruct s as [|c s]; [done|]. cbn [hd0]. apply cstr_tail in Hs. rewrite <- Z.add_assoc in Hs.
  destruct (json_hex_val c <? 0) eqn:Hc; cbn [orb] in HQ.
  { apply wp_ret. by repeat case_match. }
  apply wp_bind. eapply wp_hd; [done|].
  destruct s as [|d s]; [done|]. cbn [hd0].
  destruct (json_hex_val d <? 0) eqn:Hd; cbn [orb] in HQ; [done|].
  apply wp_ret. cbn in HQ.
  pose proof (json_hex_val_bound a). pose proof (json_hex_val_bound b).
  pose proof (json_hex_val_bound c). pose proof (json_hex_val_bound d). bool_to_prop.
  rewrite hex4_value by lia. done.
Qed.

Lemma spec_hex4_Some s h r : spec_hex4 s = Some (h, r) -> 0 <= h < 65536 /\ exists x, s = x ++ r /\ length x = 4%nat.
Proof.
  unfold spec_hex4. destruct s as [|a [|b [|c [|d s]]]]; try done.
  pose proof (json_hex_val_bound a). pose proof (json_hex_val_bound b).
  pose proof (json_hex_val_bound c). pose proof (json_hex_val_bound d).
  destruct (_ || _) eqn:E; [done|]. intros [= <- <-]. bool_to_prop. split; [lia|].
  by exists [a; b; c; d].
Qed.

(** The escape [\u] whose hex digits start at [p + 1]. *)
Lemma wp_unicode m p s (Q : option (Z * Z) -> list Z -> Prop) :
  cstr m (p + 1) s ->
  Q ((fun '(c, r) => (c, p + 1 + zlen s - zlen r)) <$> spec_unicode s) m -> wp (unicode_escape p) Q m.
Proof.
  intros Hs HQ. unfold unicode_escape. apply wp_bind. eapply wp_hex4; [done|].
  unfold spec_unicode in HQ. destruct (spec_hex4 s) as [[h r]|] eqn:E; [|by apply wp_ret].
  cbn. apply spec_hex4_Some in E as (Hh & x & -> & Hx). apply cstr_app in Hs as Hr.
  assert (zlen x = 4) as Hx4 by (unfold zlen; lia). rewrite Hx4 in Hr.
  destruct (is_surrogate_range h Hh) as [-> _]. rewrite zlen_app, Hx4 in HQ.
  destruct ((55296 <=? h) && (h <? 56320)); cbn in HQ.
  2:{ apply wp_ret. by replace (p + 5) with (p + 1 + (4 + zlen r) - zlen r) by lia. }
  apply wp_bind. replace (p + 5) with (p + 1 + 4) by lia. eapply wp_hd; [done|].
  destruct r as [|b r]; [by apply wp_ret|]. cbn [hd0].
  destruct (Z.eqb_spec b 92) as [->|Hne]; cbn [negb].
  2:{ apply wp_ret. repeat (case_match; try done). }
  apply wp_bind. apply cstr_tail in Hr. replace (p + 1 + 4 + 1) with (p + 6) in Hr by lia.
  eapply wp_hd; [done|]. destruct r as [|u r]; [by apply wp_ret|]. cbn [hd0].
  destruct (Z.eqb_spec u 117) as [->|Hne]; cbn [negb].
  2:{ apply wp_ret. repeat (case_match; try done). }
  apply wp_bind. apply cstr_tail in Hr. replace (p + 6 + 1) with (p + 7) in Hr by lia.
  eapply wp_hex4; [done|]. destruct (spec_hex4 r) as [[l r']|] eqn:E; [|by apply wp_ret].
  cbn. apply spec_hex4_Some in E as (Hl & y & -> & Hy). destruct (is_surrogate_range l Hl) as [_ ->].
  destruct ((56320 <=? l) && (l <? 57344)); cbn [negb]; [|by apply wp_ret].
  apply wp_ret. cbn in HQ. unfold surrogate_pair.
  rewrite !zlen_cons, zlen_app in HQ. assert (zlen y = 4) as Hy4 by (unfold zlen; lia). rewrite Hy4 in HQ.
  rewrite Z.shiftl_mul_pow2 by lia. change (2 ^ 10) with 1024.
  by replace (p + 11) with (p + 1 + (4 + (1 + (1 + (4 + zlen r')))) - zlen r') by lia.
Qed.

Lemma spec_unicode_Some s c r : spec_unicode s = Some (c, r) ->
  0 <= c < 1114112 /\ exists x, s = x ++ r /\ ((length x = 4%nat /\ c < 65536) \/ (length x = 10%nat /\ 65536 <= c)).
Proof.
  unfold spec_unicode. destruct (spec_hex4 s) as [[h r1]|] eqn:E; [|done].
  apply spec_hex4_Some in E as (Hh & x & -> & Hx).
  destruct ((55296 <=? h) && (h <? 56320)) eqn:Eh.
  - destruct r1 as [|b [|u r1]]; [done|by repeat (case_match; try done)|].
    destruct (decide (b = 92)) as [->|]; [|by repeat (case_match; try done)].
    destruct (decide (u = 117)) as [->|]; [|by repeat (case_match; try done)].
    destruct (spec_hex4 r1) as [[l r2]|] eqn:E; [|done].
    apply spec_hex4_Some in E as (Hl & y & -> & Hy).
    destruct ((56320 <=? l) && (l <? 57344)) eqn:El; [|done]. intros [= <- <-]. bool_to_prop.
    split; [lia|]. exists (x ++ 92 :: 117 :: y). rewrite <- app_assoc. split; [done|].
    right. rewrite length_app. cbn. lia.
  - intros [= <- <-]. split; [lia|]. exists x. split; [done|]. left. split; [done|lia].
Qed.
End reads.

(** ** Encoders *)

(** [enc] is what [encoder] writes: no more bytes than the escape it replaces. *)
Class Encodes (encoder : nx_json_unicode_encoder) (enc : Z -> option bytes) := {
  enc_length c u : 0 <= c < 1114112 -> enc c = Some u ->
    all_bytes u /\ zlen u <= if c <? 65536 then 6 else 12;
  wp_enc m c p (Q : option Z -> list Z -> Prop) : 0 <= c < 1114112 -> 0 <= p ->
    match enc c with
    | Some u => p + zlen u <= zlen m /\
        forall m', bytes_at m' p u -> same_outside m m' p (p + zlen u) -> Q (Some (p + zlen u)) m'
    | None => Q None m
    end -> wp (encoder c p) Q m;
}.
Definition encodes (encoder : option nx_json_unicode_encoder) (enc : option (Z -> option bytes)) : Prop :=
  match encoder, enc with
  | Some e, Some f => Encodes e f
  | None, None => True
  | _, _ => False
  end.

(** UTF-8. *)
Definition utf8 (c : Z) : option bytes :=
  if c <? 128 then Some [c]
  else if c <? 2048 then Some [192 + c / 64; 128 + c mod 64]
  else if (55296 <=? c) && (c <? 57344) then None
  else if c <? 65536 then Some [224 + c / 4096; 128 + c / 64 mod 64; 128 + c mod 64]
  else if c <? 1114112 then
    Some [240 + c / 262144; 128 + c / 4096 mod 64; 128 + c / 64 mod 64; 128 + c mod 64]
  else None.

Lemma utf8_range c : 2048 <= c < 1114112 ->
  (wrapu 32 (c - 55296) <? 2048) = (55296 <=? c) && (c <? 57344).
Proof.
  intros Hc. apply eq_true_iff_eq. rewrite andb_true_iff, Z.leb_le, !Z.ltb_lt. unfold wrapu.
  change (2 ^ 32) with 4294967296. Z.to_euclidean_division_equations. lia.
Qed.

(** Bytes written one after the other from [p]. *)
Definition written (m0 : list Z) (p : Z) (dn : bytes) (m : list Z) : Prop :=
  bytes_at m p dn /\ same_outside m0 m p (p + zlen dn).

Lemma written_nil m p : written m p [] m.
Proof. split; [apply bytes_at_nil|apply same_outside_refl]. Qed.

Lemma wp_push m0 m p dn q c (Q : unit -> list Z -> Prop) :
  written m0 p dn m -> 0 <= p -> q = p + zlen dn -> q < zlen m0 -> is_byte c ->
  (forall m', written m0 p (dn ++ [c]) m' -> Q tt m') -> wp (wr q c) Q m.
Proof.
  intros [Hb Hs] Hp -> Hq Hc HQ. pose proof (same_outside_zlen _ _ _ _ Hs). pose proof (zlen_nonneg dn).
  apply wp_wr; [lia|]. rewrite wrapu_small by exact Hc. apply HQ. split.
  - apply bytes_at_push; [done|lia|lia|lia].
  - rewrite zlen_app, zlen_cons, zlen_nil. eapply same_outside_trans; [so_weaken Hs|].
    apply same_outside_poke; lia.
Qed.

Ltac byte_arith := unfold is_byte; Z.to_euclidean_division_equations; lia.
Ltac push W :=
  apply wp_bind; eapply wp_push; [exact W|lia|unfold zlen; cbn; lia|unfold zlen in *; cbn in *; lia|byte_arith|];
  clear W; let m := fresh "m" in intros m W; cbn [app] in W.

#[export] Instance utf8_encodes : Encodes unicode_to_utf8 utf8.
Proof.
  split.
  - intros c u Hc. unfold utf8. repeat case_match; intros [= <-]; bool_to_prop;
      (split; [repeat constructor; byte_arith|unfold zlen; cbn; destruct (Z.ltb_spec c 65536); lia]).
  - intros m c p Q Hc Hp HQ. unfold unicode_to_utf8. unfold utf8 in HQ.
    pose proof (written_nil m p) as W.
    destruct (Z.ltb_spec c 128); [|destruct (Z.ltb_spec c 2048); [|rewrite utf8_range by lia;
      destruct (_ && _); [|destruct (Z.ltb_spec c 65536); [|rewrite (proj2 (Z.ltb_lt c 1114112)) in * by lia]]]];
      [..|by apply wp_ret| |]; destruct HQ as [Hl HQ].
    all: repeat push W; apply wp_ret; destruct W as [Hb Hs]; by apply (HQ _ Hb Hs).
Qed.

(** ** Strings *)

Lemma simple_escape_byte e v : simple_escape e = Some v -> is_byte e -> is_byte v.
Proof.
  unfold simple_escape. intros H He. repeat case_match; simplify_eq; done.
Qed.

Lemma spec_string_suffix enc n s v r : spec_string enc n s = Some (v, r) ->
  exists u, s = u ++ r /\ (0 < length u)%nat.
Proof.
  revert s v r. induction n as [|n IH]; intros s v r; [done|].
  assert (IH' : forall x s' w, (fun '(t, e) => (w ++ t, e)) <$> spec_string enc n s' = Some (v, r) ->
    s = x ++ s' -> exists u, s = u ++ r /\ (0 < length u)%nat).
  { intros x s' w H ->. destruct (spec_string enc n s') as [[t e]|] eqn:E; [|done]. injection H as <- <-.
    apply IH in E as (u & -> & Hu). exists (x ++ u). rewrite <- app_assoc, length_app. split; [done|lia]. }
  cbn [spec_string]. destruct s as [|c s]; [done|].
  destruct (c =? 34). { intros [= <- <-]. by exists [c]; split; [|cbn; lia]. }
  destruct (c =? 92); [|intros H; by apply (IH' [c]) in H].
  destruct s as [|e s]; [done|]. destruct (simple_escape e) as [w|].
  { intros H; by apply (IH' [c; e]) in H. }
  destruct enc as [f|]; [|intros H; by apply (IH' [c]) in H].
  destruct (e =? 117); [|intros H; by apply (IH' [c]) in H].
  destruct (spec_unicode s) as [[cp s']|] eqn:Eu; [|done].
  apply spec_unicode_Some in Eu as (_ & x & -> & _). destruct (f cp); [|done].
  intros H. by apply (IH' (c :: e :: x)) in H.
Qed.

Section strings.
Context (encoder : option nx_json_unicode_encoder) (enc : option (Z -> option bytes)).
Context (Henc : encodes encoder enc).

Lemma encodes_cases : encoder = None /\ enc = None \/ exists e f, encoder = Some e /\ enc = Some f.
Proof using Henc. clear - Henc. unfold encodes in Henc. destruct encoder, enc; naive_solver. Qed.

(** The loop of [unescape_string] with result [R]: [r] is unread, [w] written. *)
Definition unesc_inv (R : option (bytes * bytes)) (m0 : list Z) (s : Z) (t : bytes) (x : Z * Z) (m : list Z) : Prop :=
  exists u w r n, t = u ++ r /\ x = (s + zlen u, s + zlen w) /\ zlen w <= zlen u /\
    written m0 s w m /\ (length r < n)%nat /\ R = (fun '(v, e) => (w ++ v, e)) <$> spec_string enc n r.

(** One round: the bytes [x] are read and [v] stands for them. *)
Lemma unesc_step R m0 s u w x v r n m :
  zlen w <= zlen u -> zlen v <= zlen x -> x <> [] -> written m0 s (w ++ v) m -> (length (x ++ r) < S n)%nat ->
  R = (fun '(v, e) => (w ++ v, e)) <$> ((fun '(t, e) => (v ++ t, e)) <$> spec_string enc n r) ->
  unesc_inv R m0 s (u ++ x ++ r) (s + zlen u + zlen x, s + zlen w + zlen v) m.
Proof.
  intros Hw Hv Hx HW Hn Hs. rewrite length_app in Hn.
  assert (0 < length x)%nat by (destruct x; [done|cbn; lia]).
  exists (u ++ x), (w ++ v), r, n. rewrite !zlen_app.
  split; [by rewrite app_assoc|]. split; [f_equal; lia|]. split; [lia|]. split; [done|]. split; [lia|].
  rewrite Hs. destruct (spec_string enc n r) as [[v' e]|]; [|done]. cbn. by rewrite app_assoc.
Qed.

Lemma written_tail m0 m s t u w r :
  cstr m0 s t -> t = u ++ r -> zlen w <= zlen u -> written m0 s w m -> cstr m (s + zlen u) r.
Proof.
  intros Ht -> Hw [_ Hs]. apply cstr_app in Ht. eapply same_outside_cstr; [done..|]. lia.
Qed.


Definition unesc_post (R : option (bytes * bytes)) (m : list Z) (s : Z) (t : bytes) (x : option Z) (m' : list Z) : Prop :=
  match R with
  | Some (v, r) => x = Some (s + zlen t - zlen r) /\ same_outside m m' s (s + zlen t - zlen r) /\
      bytes_at m' s (v ++ [0]) /\ zlen v + 1 <= zlen t - zlen r
  | None => x = None /\ same_outside m m' s (s + zlen t)
  end.

Definition unesc_round (R : option (bytes * bytes)) (m : list Z) (s : Z) (t u : bytes)
    (x : Z * Z + option Z) (m' : list Z) : Prop :=
  match x with
  | inl y => unesc_inv R m s t y m' /\
             (Z.to_nat (s + zlen t - fst y) < Z.to_nat (s + zlen t - (s + zlen u)))%nat
  | inr v => unesc_post R m s t v m'
  end.

Section round.
Variables (m m1 : list Z) (R : option (bytes * bytes)) (s : Z) (u w r : bytes) (n : nat).
Hypotheses (Hs0 : 0 <= s) (Hlen : s + zlen (u ++ r) < zlen m) (Hw : zlen w <= zlen u) (HW : written m s w m1)
  (Hn : (length r < S n)%nat).

Lemma unesc_next x v r' m2 p d :
  r = x ++ r' -> x <> [] -> zlen v <= zlen x -> written m s (w ++ v) m2 ->
  p = s + zlen u + zlen x -> d = s + zlen w + zlen v ->
  R = (fun '(v, e) => (w ++ v, e)) <$> ((fun '(t, e) => (v ++ t, e)) <$> spec_string enc n r') ->
  unesc_round R m s (u ++ r) u (inl (p, d)) m2.
Proof using Hs0 Hlen Hw HW Hn.
  intros Hrx Hx Hv HW2 -> -> HR. split; [rewrite Hrx; eapply unesc_step; try done; by rewrite <- Hrx|].
  cbn [fst]. rewrite Hrx, !zlen_app. pose proof (zlen_nonneg r').
  assert (0 < zlen x) by (destruct x; [done|unfold zlen; cbn; lia]). lia.
Qed.

Lemma unesc_fail : R = None -> unesc_round R m s (u ++ r) u (inr None) m1.
Proof using Hs0 Hlen Hw HW Hn.
  intros ->. destruct HW as [_ Hs]. split; [done|]. rewrite zlen_app. pose proof (zlen_nonneg r). so_weaken Hs.
Qed.

(** A byte is copied, or written for an escape. *)
Lemma unesc_byte x v r' p d :
  r = x ++ r' -> x <> [] -> is_byte v -> p = s + zlen u + zlen x -> d = s + zlen w + 1 ->
  R = (fun '(v, e) => (w ++ v, e)) <$> ((fun '(t, e) => ([v] ++ t, e)) <$> spec_string enc n r') ->
  wp (do! wr (s + zlen w) v in ret (inl (p, d))) (unesc_round R m s (u ++ r) u) m1.
Proof using Hs0 Hlen Hw HW Hn.
  intros Hrx Hx Hv -> -> HR. pose proof (zlen_nonneg r'). pose proof (zlen_nonneg w).
  pose proof Hlen as Hl. rewrite Hrx, !zlen_app in Hl.
  assert (0 < zlen x) by (destruct x; [done|unfold zlen; cbn; lia]).
  apply wp_bind. eapply wp_push; [exact HW|lia|done|lia|done|]. intros m2 HW2. apply wp_ret.
  eapply (unesc_next x [v]); [done|done|change (zlen [v]) with 1; lia|done|done|done|done].
Qed.

Lemma unesc_quote r' :
  r = 34 :: r' -> R = Some (w, r') ->
  wp (do! wr (s + zlen w) 0 in ret (inr (Some (s + zlen u + 1)))) (unesc_round R m s (u ++ r) u) m1.
Proof using Hs0 Hlen Hw HW Hn.
  intros Hrx HR. pose proof (zlen_nonneg r'). pose proof (zlen_nonneg w). pose proof Hlen as Hl.
  assert (HL : zlen (u ++ r) = zlen u + 1 + zlen r') by (rewrite Hrx, zlen_app, zlen_cons; lia).
  rewrite HL in Hl. apply wp_bind. eapply wp_push; [exact HW|lia|done|lia|unfold is_byte; lia|].
  intros m2 [Hb2 Hs2]. apply wp_ret. rewrite zlen_app in Hs2. change (zlen [0]) with 1 in Hs2.
  rewrite HR. cbn. rewrite HL. split; [f_equal; lia|]. split; [so_weaken Hs2|]. split; [done|lia].
Qed.

(** The code point [c] of the escape [x]. *)
Lemma unesc_code e f c x r' p :
  encoder = Some e -> enc = Some f -> r = x ++ r' -> 0 <= c < 1114112 ->
  (if c <? 65536 then 6 else 12) <= zlen x ->
  p = s + zlen u + zlen x ->
  R = (fun '(v, e) => (w ++ v, e)) <$>
      match f c with Some v => (fun '(t, e) => (v ++ t, e)) <$> spec_string enc n r' | None => None end ->
  wp (let! d' := e c (s + zlen w) in
      match d' with None => ret (inr None) | Some d' => ret (inl (p, d')) end)
     (unesc_round R m s (u ++ r) u) m1.
Proof using Hs0 Hlen Hw HW Hn Henc.
  intros He Hf Hrx Hc Hx -> HR. pose proof Henc as Hen. rewrite He, Hf in Hen. cbn in Hen.
  pose proof (zlen_nonneg r'). pose proof (zlen_nonneg w). pose proof Hlen as Hl. rewrite Hrx, !zlen_app in Hl.
  pose proof (same_outside_zlen _ _ _ _ (proj2 HW)) as Hz. apply wp_bind, (wp_enc (Encodes := Hen)); [done|lia|].
  destruct (f c) as [v|] eqn:Efc; [|by apply wp_ret, unesc_fail].
  destruct (enc_length (Encodes := Hen) _ _ Hc Efc) as [_ Hv].
  split; [lia|]. intros m2 Hb2 Hs2. apply wp_ret. pose proof (zlen_nonneg v).
  eapply (unesc_next x v); [done| |lia| |done|done|done].
  { intros ->. change (zlen []) with 0 in Hx. destruct (c <? 65536); lia. }
  destruct HW as [Hb1 Hs1]. split.
  - apply bytes_at_app. split; [|done]. eapply same_outside_bytes_at; [exact Hs2|done|lia].
  - rewrite zlen_app. so_trans Hs1 Hs2.
Qed.
End round.

Lemma wp_unescape m s t :
  cstr m s t -> all_bytes t ->
  wp (unescape_string s encoder) (unesc_post (spec_string enc (S (length t)) t) m s t) m.
Proof.
  intros Ht Hb. unfold unescape_string. pose proof (cstr_bounds _ _ _ Ht) as [Hs0 Hlen].
  remember (spec_string enc (S (length t)) t) as R eqn:HR.
  eapply (wp_mem_loop (unesc_inv R m s t) (fun y => Z.to_nat (s + zlen t - fst y))).
  { exists [], [], t, (S (length t)). rewrite zlen_nil, Z.add_0_r. split; [done|]. split; [done|]. split; [done|].
    split; [apply written_nil|]. split; [lia|]. rewrite HR. by destruct (spec_string _ _ t) as [[??]|]. }
  { unfold zlen in *. cbn. lia. }
  clear HR. intros [p d] m1 (u & w & r & n & Et & [= -> ->] & Hw & HW & Hn & HR).
  pose proof (written_tail _ _ _ _ _ _ _ Ht Et Hw HW) as Hr. cbn [fst].
  eapply wp_mono with (P := unesc_round R m s t u); [|by intros [y|y] m'].
  rewrite Et in Hlen, Hb |- *. clear Et Ht. apply Forall_app in Hb as [_ Hb].
  destruct n as [|n]; [lia|]. cbn [spec_string] in HR.
  destruct r as [|c r].
  { apply wp_bind. eapply wp_hd; [done|]. cbn. by eapply (unesc_fail _ _ _ _ _ _ _ n). }
  apply wp_bind. eapply wp_hd; [done|]. cbn [hd0].
  apply cstr_cons in Hr as (_ & Hc0 & _ & Hr). apply Forall_cons in Hb as [Hcb Hb].
  rewrite (proj2 (Z.eqb_neq c 0) Hc0).
  destruct (c =? 34) eqn:Hq.
  { apply Z.eqb_eq in Hq as ->. eapply (unesc_quote _ _ _ _ _ _ _ n); [done..|]. rewrite HR. cbn. by rewrite app_nil_r. }
  destruct (c =? 92) eqn:Hbs; [apply Z.eqb_eq in Hbs as ->|by eapply (unesc_byte _ _ _ _ _ _ _ n Hs0 Hlen Hw HW Hn [c])].
  apply wp_bind. eapply wp_hd; [done|]. destruct r as [|e r]; cbn [hd0].
  { change (simple_escape 0) with (@None Z). cbn [Z.eqb]. destruct n as [|n]; [cbn in Hn; lia|].
    destruct encoder; by eapply (unesc_byte _ _ _ _ _ _ _ (S n) Hs0 Hlen Hw HW Hn [92]). }
  apply cstr_cons in Hr as (_ & _ & _ & Hr). apply Forall_cons in Hb as [Heb Hb].
  destruct (simple_escape e) as [v|] eqn:Ee.
  { by eapply (unesc_byte _ _ _ _ _ _ _ n Hs0 Hlen Hw HW Hn [92; e]);
      [done|done|by eapply simple_escape_byte|done|done|]. }
  assert (Hkeep : R = (fun '(v, e) => (w ++ v, e)) <$> ((fun '(t, e) => ([92] ++ t, e)) <$> spec_string enc n (e :: r)) ->
    wp (do! wr (s + zlen w) 92 in ret (inl (s + zlen u + 1, s + zlen w + 1))) (unesc_round R m s (u ++ 92 :: e :: r) u) m1).
  { intros HR'. by eapply (unesc_byte _ _ _ _ _ _ _ n Hs0 Hlen Hw HW Hn [92]). }
  destruct encodes_cases as [[Een Een']|(ec & f & Een & Een')].
  { rewrite Een. apply Hkeep. rewrite Een' in HR. by rewrite Een'. }
  rewrite Een. destruct (e =? 117); [|apply Hkeep; rewrite Een' in HR; by rewrite Een'].
  apply wp_bind. eapply wp_unicode; [exact Hr|].
  destruct (spec_unicode r) as [[cp r']|] eqn:Eu; [|by apply wp_ret; eapply (unesc_fail _ _ _ _ _ _ _ n); rewrite ?HR, ?Een'].
  apply spec_unicode_Some in Eu as (Hcp & x & -> & Hx). cbn.
  rewrite Een' in HR. rewrite <- Een' in HR. eapply (unesc_code _ _ _ _ _ _ _ n Hs0 Hlen Hw HW Hn ec f cp (92 :: e :: x) r');
    [done..| | |by rewrite HR].
  - rewrite !zlen_cons. unfold zlen. destruct (Z.ltb_spec cp 65536); lia.
  - rewrite !zlen_cons, zlen_app. lia.
Qed.
End strings.

(** ** White space and comments *)

Definition suffix_of (r s : bytes) : Prop := exists u, s = u ++ r.

Lemma suffix_refl s : suffix_of s s.
Proof. by exists []. Qed.
Lemma suffix_cons c r s : suffix_of r s -> suffix_of r (c :: s).
Proof. intros [u ->]. by exists (c :: u). Qed.
Lemma suffix_trans a b c : suffix_of a b -> suffix_of b c -> suffix_of a c.
Proof. intros [u ->] [v ->]. exists (v ++ u). by rewrite app_assoc. Qed.
Lemma suffix_drop n s : suffix_of (drop n s) s.
Proof. exists (take n s). by rewrite take_drop. Qed.
Lemma suffix_length r s : suffix_of r s -> zlen r <= zlen s.
Proof. intros [u ->]. rewrite zlen_app. pose proof (zlen_nonneg u). lia. Qed.
Lemma suffix_bytes r s : suffix_of r s -> all_bytes s -> all_bytes r.
Proof. intros [u ->] [_ H]%Forall_app. done. Qed.
Lemma suffix_cstr m p r s : cstr m p s -> suffix_of r s -> cstr m (p + zlen s - zlen r) r.
Proof.
  intros H [u ->]. apply cstr_app in H. rewrite zlen_app.
  by replace (p + (zlen u + zlen r) - zlen r) with (p + zlen u) by lia.
Qed.
#[export] Hint Resolve suffix_refl suffix_cons suffix_drop : nx.

Lemma skip_white_suffix s : suffix_of (skip_white s) s.
Proof. induction s as [|c s IH]; cbn; [eauto with nx|]. case_match; eauto with nx. Qed.

(** The addresses of the parts of a string. *)
Ltac at_suffix := rewrite ?zlen_cons; lia.

Lemma wp_skip_white m q s (Q : Z -> list Z -> Prop) :
  cstr m q s -> Q (q + zlen s - zlen (skip_white s)) m ->
  wp (mem_loop (fun q =>
        let! c := rd q in
        if negb (c =? 0) && IS_WHITESPACE c then ret (inl (q + 1)) else ret (inr q)) q) Q m.
Proof.
  intros Hs HQ. pose proof (cstr_bounds _ _ _ Hs) as [Hq0 Hlen].
  eapply (wp_mem_loop (fun x m' => m' = m /\ exists t, cstr m x t /\
     x + zlen t - zlen (skip_white t) = q + zlen s - zlen (skip_white s)) (fun x => Z.to_nat (zlen m - x))).
  - split; [done|]. by exists s.
  - unfold zlen in *. lia.
  - intros x m' [-> (t & Ht & Hx)]. apply wp_bind. eapply wp_hd; [done|].
    destruct t as [|c t]; cbn [hd0 skip_white] in *.
    + cbn. by replace x with (q + zlen s - zlen (skip_white s)) by (rewrite zlen_nil in Hx; lia).
    + pose proof (cstr_bounds _ _ _ Ht) as [_ Hb]. pose proof (zlen_nonneg t). rewrite zlen_cons in *.
      apply cstr_cons in Ht as (_ & Hc & _ & Ht). rewrite (proj2 (Z.eqb_neq c 0) Hc). cbn [negb andb].
      destruct (IS_WHITESPACE c); apply wp_ret.
      * split; [|lia]. split; [done|]. exists t. split; [done|lia].
      * rewrite zlen_cons in Hx. by replace x with (q + zlen s - zlen (skip_white s)) by lia.
Qed.

Lemma spec_line_comment_index s : spec_line_comment s = (fun i => drop (S i) s) <$> index_of 10 s.
Proof.
  induction s as [|c s IH]; [done|]. cbn [spec_line_comment index_of].
  destruct (c =? 10); [done|]. rewrite IH. by destruct (index_of 10 s).
Qed.

Lemma spec_line_comment_suffix s r : spec_line_comment s = Some r -> suffix_of r s /\ zlen r < zlen s.
Proof.
  revert r. induction s as [|c s IH]; intros r; [done|]. cbn. rewrite zlen_cons. case_match.
  - intros [= <-]. split; [eauto with nx|lia].
  - intros [? ?]%IH. split; [eauto with nx|lia].
Qed.

Definition end_at (q : Z) (s : bytes) (r : option bytes) : option Z := (fun r => q + zlen s - zlen r) <$> r.

Lemma wp_line_comment m q s (Q : option Z -> list Z -> Prop) :
  cstr m q s -> Q (end_at q s (spec_line_comment s)) m -> wp (skip_line_comment q) Q m.
Proof.
  intros Hs HQ. unfold skip_line_comment. apply wp_bind. eapply wp_strchr; [done|done|].
  apply wp_ret. rewrite spec_line_comment_index in HQ. destruct (index_of 10 s) as [i|] eqn:E; [|done].
  cbn in HQ |- *. apply index_of_Some in E as (s1 & s2 & -> & <- & _).
  rewrite drop_app_ge in HQ by lia. replace (S (length s1) - length s1)%nat with 1%nat in HQ by lia.
  cbn [drop] in HQ. rewrite drop_0, zlen_app, zlen_cons in HQ.
  by replace (Z.succ (q + Z.of_nat (length s1))) with (q + (zlen s1 + (1 + zlen s2)) - zlen s2) by (unfold zlen; lia).
Qed.

Lemma after_comment_suffix prev s r : after_comment prev s = Some r -> suffix_of r s /\ zlen r < zlen s.
Proof.
  revert prev. induction s as [|c s IH]; intros prev; [done|]. cbn. rewrite zlen_cons. case_match.
  - intros [= <-]. split; [eauto with nx|lia].
  - intros [? ?]%IH. split; [eauto with nx|lia].
Qed.
Lemma after_comment_none prev s : ~ In 47 s -> after_comment prev s = None.
Proof.
  revert prev. induction s as [|c s IH]; intros prev Hn; [done|]. cbn.
  destruct (Z.eqb_spec c 47); [naive_solver|]. apply IH. naive_solver.
Qed.
Lemma after_comment_slash prev s1 s2 : ~ In 47 s1 ->
  after_comment prev (s1 ++ 47 :: s2) = if default prev (last s1) =? 42 then Some s2 else after_comment 47 s2.
Proof.
  revert prev. induction s1 as [|c s IH]; intros prev Hn; cbn [app after_comment].
  - cbn. by destruct (prev =? 42).
  - destruct (Z.eqb_spec c 47); [naive_solver|]. cbn [andb]. rewrite IH by naive_solver.
    destruct s; [done|]. rewrite last_cons_cons. by destruct (last (z :: s)) eqn:E; [|apply last_None in E].
Qed.

Lemma cstr_last m x c s1 t : cstr m x (c :: s1 ++ t) -> peek m (x + zlen s1) = Some (default c (last s1)).
Proof.
  revert x c. induction s1 as [|d s1 IH]; intros x c H.
  - rewrite zlen_nil, Z.add_0_r. by apply cstr_cons in H as (_ & _ & H & _).
  - apply cstr_tail in H. apply IH in H. rewrite zlen_cons, Z.add_assoc, H, last_cons. by destruct (last s1).
Qed.

Lemma wp_block_comment m q s (Q : option Z -> list Z -> Prop) :
  cstr m q s -> Q (end_at q s (spec_block_comment s)) m -> wp (skip_block_comment q) Q m.
Proof.
  intros Hs HQ. pose proof (cstr_bounds _ _ _ Hs) as [Hq0 Hlen]. unfold skip_block_comment.
  apply wp_bind. eapply wp_hd; [done|]. destruct s as [|c s]; [done|]. cbn [hd0 spec_block_comment] in *.
  assert (c <> 0) as Hc by (by apply cstr_cons in Hs as (_ & ? & _)). rewrite (proj2 (Z.eqb_neq c 0) Hc).
  eapply (wp_mem_loop (fun x m' => m' = m /\ exists c' t, cstr m x (c' :: t) /\
     end_at x (c' :: t) (after_comment c' t) = end_at q (c :: s) (after_comment c s)) (fun x => Z.to_nat (zlen m - x))).
  { split; [done|]. by exists c, s. }
  { unfold zlen in *. lia. }
  intros x m' [-> (c' & t & Ht & Hx)]. pose proof (cstr_bounds _ _ _ Ht) as [Hx0 Hb].
  pose proof (cstr_tail _ _ _ _ Ht) as Ht1. apply wp_bind. eapply wp_strchr; [exact Ht1|done|].
  destruct (index_of 47 t) as [i|] eqn:E; cbn.
  2:{ apply index_of_None, (after_comment_none c') in E. rewrite E in Hx. apply wp_ret. by rewrite <- Hx in HQ. }
  apply index_of_Some in E as (s1 & s2 & -> & <- & Hn). pose proof (cstr_last _ _ _ _ _ Ht) as Hl.
  apply wp_bind. replace (x + 1 + Z.of_nat (length s1) - 1) with (x + zlen s1) by (unfold zlen; lia).
  eapply wp_rd'; [exact Hl|]. rewrite after_comment_slash in Hx by done. cbn beta.
  rewrite !zlen_cons, zlen_app, zlen_cons in *. pose proof (zlen_nonneg s1). pose proof (zlen_nonneg s2).
  destruct (_ =? 42); cbn [negb]; apply wp_ret.
  - rewrite <- Hx in HQ. cbn in HQ. rewrite !zlen_cons, zlen_app, zlen_cons in HQ.
    by replace (x + 1 + Z.of_nat (length s1) + 1) with (x + (1 + (zlen s1 + (1 + zlen s2))) - zlen s2) by (unfold zlen; lia).
  - split; [|unfold zlen in *; lia]. split; [done|]. exists 47, s2.
    apply cstr_app in Ht1. replace (x + 1 + Z.of_nat (length s1)) with (x + 1 + zlen s1) by done.
    split; [done|]. rewrite <- Hx. unfold end_at. destruct (after_comment 47 s2); [|done]. cbn.
    f_equal. rewrite !zlen_cons, zlen_app, zlen_cons. lia.
Qed.

Lemma spec_comment_suffix s r : spec_comment s = Some r -> suffix_of r s /\ zlen r < zlen s.
Proof.
  unfold spec_comment. destruct s as [|c s]; [done|]. rewrite zlen_cons.
  intros H. assert (suffix_of r s /\ zlen r <= zlen s) as [? ?]; [|split; [eauto with nx|lia]].
  destruct (decide (c = 47)) as [->|].
  { apply spec_line_comment_suffix in H as [? ?]. split; [done|lia]. }
  destruct (decide (c = 42)) as [->|]; [|by repeat (case_match; try done)].
  destruct s as [|d s]; [done|]. apply after_comment_suffix in H as [? ?].
  rewrite zlen_cons. split; [eauto with nx|lia].
Qed.

(** The two comments as the parsers test for them: [q] is after the slash. *)
Lemma wp_comment {A} m q q' s (k : option Z -> M (list Z) A) Q :
  cstr m q s -> q' = q + 1 -> wp (k (end_at q s (spec_comment s))) Q m ->
  wp (let! e := rd q in
      let! r := if e =? 47 then skip_line_comment q'
                else if e =? 42 then skip_block_comment q' else ret None in k r) Q m.
Proof.
  intros Hs -> HQ. apply wp_bind. eapply wp_hd; [done|]. apply wp_bind.
  destruct s as [|c s]; cbn [hd0]; [by apply wp_ret|]. apply cstr_tail in Hs.
  assert (Hend : forall r, end_at (q + 1) s r = end_at q (c :: s) r).
  { intros [r|]; [|done]. unfold end_at. cbn. f_equal. rewrite zlen_cons. lia. }
  destruct (Z.eqb_spec c 47) as [->|].
  { eapply wp_line_comment; [done|]. by rewrite Hend. }
  destruct (Z.eqb_spec c 42) as [->|].
  { eapply wp_block_comment; [done|]. by rewrite Hend. }
  apply wp_ret. unfold spec_comment in HQ. by repeat (case_match; try done).
Qed.

(** ** Keys *)

(** The strings [l] (address and contents) stand in [lo, hi), terminated. *)
Definition strings_ok (m : list Z) (lo hi : Z) (l : list (Z * bytes)) : Prop :=
  Forall (fun '(a, b) => lo <= a /\ a + zlen b + 1 <= hi /\ bytes_at m a (b ++ [0])) l.

Lemma strings_ok_frame m m' lo hi a b l :
  strings_ok m lo hi l -> same_outside m m' a b -> hi <= a -> strings_ok m' lo hi l.
Proof.
  intros Hl Hs Ha. eapply Forall_impl; [exact Hl|]. intros [x s] (? & ? & Hb). split; [done|]. split; [done|].
  eapply same_outside_bytes_at; [exact Hs|exact Hb|]. rewrite zlen_app. change (zlen [0]) with 1. lia.
Qed.
Lemma strings_ok_weaken m lo hi lo' hi' l :
  strings_ok m lo hi l -> lo' <= lo -> hi <= hi' -> strings_ok m lo' hi' l.
Proof. intros Hl ??. eapply Forall_impl; [exact Hl|]. intros [x s] (? & ? & ?). repeat split; [lia|lia|done]. Qed.

Section keys.
Context (encoder : option nx_json_unicode_encoder) (enc : option (Z -> option bytes)).
Context (Henc : encodes encoder enc).

Definition key_post (R : option (option (Z * bytes) * bytes)) (m : list Z) (a : Z) (s : bytes)
    (x : option (option Z * Z)) (m' : list Z) : Prop :=
  match R with
  | Some (k, r) =>
      let e := a + zlen s - zlen r in
      x = Some (fst <$> k, e) /\ suffix_of r s /\ (hd0 r = 125 \/ zlen r < zlen s) /\
      same_outside m m' a e /\ strings_ok m' a e (opt_list k)
  | None => x = None /\ same_outside m m' a (a + zlen s)
  end.

(** The parser at [t] inside [s], nothing written so far. *)
Lemma key_post_suffix R m a s t x m' :
  suffix_of t s -> key_post R m (a + zlen s - zlen t) t x m' -> key_post R m a s x m'.
Proof.
  intros Ht. pose proof (suffix_length _ _ Ht). pose proof (zlen_nonneg t).
  unfold key_post. destruct R as [[k r]|]; [|intros [-> Hs]; split; [done|so_weaken Hs]].
  intros (-> & Hr & Hd & Hs & Hk). cbn zeta in *.
  replace (a + zlen s - zlen t + zlen t - zlen r) with (a + zlen s - zlen r) in * by lia.
  split; [done|]. split; [by eapply suffix_trans|]. split; [destruct Hd; [by left|right; lia]|].
  pose proof (suffix_length _ _ Hr).
  split; [so_weaken Hs|]. eapply strings_ok_weaken; [done|lia|lia].
Qed.

(** A quoted key. *)
Lemma wp_quoted_key m a s :
  cstr m a (34 :: s) -> all_bytes s ->
  wp (let! e := unescape_string (a + 1) encoder in
      match e with
      | None => ret (inr None)
      | Some e =>
          let! q := mem_loop (fun q =>
            let! c := rd q in
            if negb (c =? 0) && IS_WHITESPACE c then ret (inl (q + 1)) else ret (inr q)) e in
          let! c := rd q in
          ret (inr (if c =? 58 then Some (Some (a + 1), q + 1) else None))
      end)
     (fun (x : Z + option (option Z * Z)) m' => match x with
      | inr v => key_post (match spec_string enc (S (length s)) s with
          | Some (k, e) => match skip_white e with 58 :: r' => Some (Some (a + 1, k), r') | _ => None end
          | None => None end) m a (34 :: s) v m'
      | inl _ => False end) m.
Proof using Henc.
  intros Hs Hb. apply cstr_tail in Hs. apply wp_bind. eapply wp_mono; [by eapply wp_unescape|].
  intros x m' Hx. destruct (spec_string enc (S (length s)) s) as [[k e]|] eqn:E; cbn [unesc_post] in Hx;
    [|destruct Hx as [-> Hm]; apply wp_ret; split; [done|rewrite zlen_cons; so_weaken Hm]].
  destruct Hx as (-> & Hm & Hk & Hl).
  apply spec_string_suffix in E as (u & -> & Hu). assert (suffix_of e (u ++ e)) as He by (by exists u).
  pose proof (suffix_length _ _ He). pose proof (zlen_nonneg k).
  assert (cstr m' (a + 1 + zlen (u ++ e) - zlen e) e) as Hc.
  { eapply same_outside_cstr; [exact Hm|by apply suffix_cstr|lia]. }
  apply wp_bind. eapply wp_skip_white; [exact Hc|].
  pose proof (skip_white_suffix e) as Hw. pose proof (suffix_length _ _ Hw).
  apply wp_bind. eapply wp_hd; [by apply suffix_cstr|]. apply wp_ret.
  assert (Hfail : key_post None m a (34 :: u ++ e) None m').
  { split; [done|]. rewrite zlen_cons. pose proof (zlen_nonneg e). so_weaken Hm. }
  destruct (skip_white e) as [|c r]; cbn [hd0]; [done|].
  destruct (Z.eqb_spec c 58) as [->|]; [|by repeat (case_match; try done)].
  cbn [key_post fst fmap option_fmap option_map opt_list]. rewrite !zlen_cons in *. pose proof (zlen_nonneg r).
  assert (suffix_of r (34 :: u ++ e)) as Hr.
  { apply suffix_cons. eapply suffix_trans; [|done]. eapply suffix_trans; [|done]. eauto with nx. }
  split; [do 2 f_equal; lia|]. split; [done|]. split; [right; lia|]. split; [so_weaken Hm|].
  apply Forall_singleton. split; [lia|]. split; [lia|done].
Qed.

Lemma wp_parse_key m a s :
  cstr m a s -> all_bytes s ->
  wp (parse_key a encoder) (key_post (spec_key enc (S (length s)) a s) m a s) m.
Proof using Henc.
  intros Hs Hb. pose proof (cstr_bounds _ _ _ Hs) as [Ha0 Hlen].
  remember (spec_key enc (S (length s)) a s) as R eqn:HR. unfold parse_key.
  eapply (wp_mem_loop (fun x m' => m' = m /\ exists t n, suffix_of t s /\ x = a + zlen s - zlen t /\
     (length t < n)%nat /\ R = spec_key enc n x t) (fun x => Z.to_nat (a + zlen s - x))).
  { split; [done|]. exists s, (S (length s)). split; [eauto with nx|]. split; [lia|]. split; [lia|done]. }
  { unfold zlen in *. lia. }
  clear HR. intros x m' [-> (t & n & Ht & -> & Hn & HR)].
  pose proof (suffix_cstr _ _ _ _ Hs Ht) as Hc. pose proof (suffix_length _ _ Ht) as Htl.
  remember (a + zlen s - zlen t) as x eqn:Hx.
  assert (Hend : forall v, key_post R m x t v m -> key_post R m a s v m) by (intros v; subst x; by apply key_post_suffix).
  assert (Hfail : R = None -> key_post R m a s None m) by (intros ->; split; [done|apply same_outside_refl]).
  destruct n as [|n]; [lia|]. apply wp_bind. eapply wp_hd; [done|].
  destruct t as [|c t]; cbn [hd0 spec_key] in *; [by apply wp_ret, Hfail|].
  assert (c <> 0) as Hc0 by (by apply cstr_cons in Hc as (_ & ? & _)). rewrite (proj2 (Z.eqb_neq c 0) Hc0).
  pose proof (suffix_bytes _ _ Ht Hb) as [_ Htb]%Forall_cons. rewrite zlen_cons in Hx, Htl. cbn [length] in Hn.
  assert (Hnext : forall t', suffix_of t' t -> R = spec_key enc n (x + zlen (c :: t) - zlen t') t' ->
    (m = m /\ exists t0 n0, suffix_of t0 s /\ x + zlen (c :: t) - zlen t' = a + zlen s - zlen t0 /\
     (length t0 < n0)%nat /\ R = spec_key enc n0 (x + zlen (c :: t) - zlen t') t0) /\
    (Z.to_nat (a + zlen s - (x + zlen (c :: t) - zlen t')) < Z.to_nat (a + zlen s - x))%nat).
  { intros t' Ht' HR'. pose proof (suffix_length _ _ Ht'). rewrite zlen_cons in *. pose proof (zlen_nonneg t').
    split; [|lia]. split; [done|]. exists t', n. split; [eapply suffix_trans; [|done]; eauto with nx|].
    split; [lia|]. split; [unfold zlen in *; lia|done]. }
  destruct (Z.eqb_spec c 34) as [->|].
  { eapply wp_mono; [by eapply wp_quoted_key|]. intros [?|v] m'; [done|]. intros Hv.
    subst R x. eapply key_post_suffix; [exact Ht|]. by rewrite zlen_cons. }
  destruct (IS_WHITESPACE c || (c =? 44)).
  { apply wp_ret. destruct (Hnext t) as [HI Hmu]; [eauto with nx|by rewrite HR; f_equal; rewrite zlen_cons; lia|].
    rewrite zlen_cons in *. by replace (x + 1) with (x + (1 + zlen t) - zlen t) by lia. }
  destruct (Z.eqb_spec c 125) as [->|].
  { apply wp_ret. apply Hend. subst R. cbn. split; [do 2 f_equal; lia|]. split; [eauto with nx|]. split; [by left|].
    split; [apply same_outside_refl|apply Forall_nil_2]. }
  destruct (c =? 47); [|by apply wp_ret, Hfail].
  eapply wp_comment; [by eapply cstr_tail|lia|]. apply wp_ret.
  destruct (spec_comment t) as [t'|] eqn:E; [|by apply Hfail].
  apply spec_comment_suffix in E as [Ht' _]. cbn.
  replace (x + 1 + zlen t - zlen t') with (x + zlen (c :: t) - zlen t') by (rewrite zlen_cons; lia).
  by apply Hnext.
Qed.
End keys.

(** ** Numbers *)

Lemma sign_of_suffix s : suffix_of (snd (sign_of s)) s.
Proof.
  destruct s as [|c s]; [eauto with nx|]. unfold sign_of.
  repeat (case_match; cbn [snd]; subst; eauto with nx).
Qed.
Lemma base_of_suffix s : suffix_of (snd (base_of s)) s.
Proof.
  destruct s as [|c s]; [eauto with nx|]. unfold base_of. repeat (case_match; cbn [snd]; subst; eauto with nx).
Qed.

Lemma strtoll0_count s i n e : strtoll0 s = (i, n, e) -> 0 <= n <= zlen s.
Proof.
  unfold strtoll0. pose proof (skip_spaces_length s) as H1. pose proof (sign_of_suffix (skip_spaces s)) as H2%suffix_length.
  destruct (sign_of (skip_spaces s)) as [neg s2]. cbn [snd] in H2.
  pose proof (base_of_suffix s2) as H3%suffix_length. destruct (base_of s2) as [base s3]. cbn [snd] in H3.
  pose proof (strtol_digits_count base s3 0 0). destruct (strtol_digits base s3 0 0) as [v k]. cbn [snd] in *.
  pose proof (zlen_nonneg s). destruct (k =? 0); intros [= <- <- <-]; lia.
Qed.

Lemma mantissa_count b s d k n u : mantissa b s = (d, k, n, u) -> 0 <= u <= zlen s.
Proof.
  unfold mantissa. pose proof (strtol_digits_count b s 0 0) as H1. destruct (strtol_digits b s 0 0) as [v k0].
  cbn [snd] in H1. destruct (drop (Z.to_nat k0) s) as [|c r] eqn:E; [intros [= <- <- <- <-]; lia|].
  assert (zlen (c :: r) = zlen s - k0) as Hl by (rewrite <- E; apply zlen_drop; lia). rewrite zlen_cons in Hl.
  destruct (decide (c = 46)) as [->|]; [|repeat case_match; intros; simplify_eq; lia].
  pose proof (strtol_digits_count b r v 0) as H2. destruct (strtol_digits b r v 0) as [w k1]. cbn [snd] in H2.
  intros [= <- <- <- <-]. lia.
Qed.

Lemma exponent_count mark s v n : exponent mark s = (v, n) -> 0 <= n <= zlen s.
Proof.
  unfold exponent. pose proof (zlen_nonneg s). destruct s as [|c s]; [intros [= <- <-]; lia|].
  destruct (mark c); [|intros [= <- <-]; lia].
  pose proof (sign_of_suffix s) as H2%suffix_length. destruct (sign_of s) as [neg s2]. cbn [snd] in H2.
  pose proof (strtol_digits_count 10 s2 0 0) as H1. destruct (strtol_digits 10 s2 0 0) as [w k]. cbn [snd] in H1.
  rewrite zlen_cons in *. destruct (k =? 0); intros [= <- <-]; lia.
Qed.

Lemma strtod_count s d n e : strtod s = (d, n, e) -> 0 <= n <= zlen s.
Proof.
  unfold strtod. pose proof (skip_spaces_length s) as H1. pose proof (sign_of_suffix (skip_spaces s)) as H2%suffix_length.
  destruct (sign_of (skip_spaces s)) as [neg s2]. cbn [snd] in H2.
  pose proof (base_of_suffix s2) as H3%suffix_length. destruct (base_of s2) as [base s3]. cbn [snd] in H3.
  assert (Hue : forall mark t u, 0 <= u <= zlen t -> 0 <= u + snd (exponent mark (drop (Z.to_nat u) t)) <= zlen t).
  { intros mark t u Hu. destruct (exponent mark (drop (Z.to_nat u) t)) as [v k] eqn:E.
    apply exponent_count in E. rewrite zlen_drop in E by lia. cbn [snd]. lia. }
  destruct (base =? 16).
  - destruct (mantissa 16 s3) as [[[w k] l] u] eqn:E. apply mantissa_count in E. specialize (Hue is_p s3 u E).
    destruct (exponent is_p _) as [x ue]. cbn [snd] in Hue. intros [= <- <- <-]. lia.
  - destruct (mantissa 10 s2) as [[[w k] l] u] eqn:E. apply mantissa_count in E. specialize (Hue is_e s2 u E).
    pose proof (zlen_nonneg s). destruct (l =? 0); [intros [= <- <- <-]; lia|].
    destruct (exponent is_e _) as [x ue]. cbn [snd] in Hue. intros [= <- <- <-]. lia.
Qed.

(** Trees with their strings replaced. *)
Lemma json_map_add {A B} (f : A -> B) p js : json_map f (add_child p js) = add_child (json_map f p) (json_map f js).
Proof. destruct p. cbn. by rewrite map_app. Qed.
Lemma strings_add {A} (p js : nx_json A) : json_strings (add_child p js) = json_strings p ++ json_strings js.
Proof. destruct p. cbn. rewrite flat_map_app. cbn. by rewrite app_nil_r, <- !app_assoc. Qed.

Section values.
Variable erange0 : bool.

Lemma wp_parse_number m p s key :
  cstr m p s ->
  wp (parse_number erange0 (fst <$> key) p)
     (fun x m' => m' = m /\ match spec_number erange0 key s with
        | Some (r, js) => x = Some (p + zlen s - zlen r, json_map fst js) /\ suffix_of r s /\ zlen r < zlen s /\
            json_strings js = opt_list key
        | None => x = None end) m.
Proof.
  intros Hs. unfold parse_number, spec_number. apply wp_bind. eapply wp_read_str; [exact Hs|].
  destruct (strtoll0 s) as [[i n] e] eqn:E. apply strtoll0_count in E.
  destruct (Z.eqb_spec n 0); [by apply wp_ret|]. cbn [orb]. destruct (erange0 || e); [by apply wp_ret|].
  assert (Hd : forall k, 0 <= k <= zlen s -> cstr m (p + k) (drop (Z.to_nat k) s) /\
    p + k = p + zlen s - zlen (drop (Z.to_nat k) s) /\ zlen (drop (Z.to_nat k) s) = zlen s - k).
  { intros k Hk. pose proof (suffix_cstr m p _ _ Hs (suffix_drop (Z.to_nat k) s)) as Hc.
    rewrite zlen_drop in * by lia. split; [|lia]. by replace (p + k) with (p + zlen s - (zlen s - k)) by lia. }
  destruct (Hd n) as (Hc & Hp & Hl); [lia|]. apply wp_bind. eapply wp_hd; [exact Hc|].
  destruct ((hd0 _ =? 46) || _).
  - destruct (strtod s) as [[d k] e'] eqn:E'. apply strtod_count in E'.
    destruct (Z.eqb_spec k 0); [by apply wp_ret|]. cbn [orb]. destruct (erange0 || e'); [by apply wp_ret|].
    destruct (Hd k) as (_ & Hp' & Hl'); [lia|]. apply wp_ret. split; [done|].
    split; [by rewrite Hp'|]. split; [eauto with nx|]. split; [lia|]. destruct key; done.
  - apply wp_ret. split; [done|]. split; [by rewrite Hp|]. split; [eauto with nx|]. split; [lia|]. destruct key; done.
Qed.
End values.

(** One step of the mutually recursive functions. *)
Section equations.
Variables (erange0 : bool) (encoder : option nx_json_unicode_encoder) (enc : option (Z -> option bytes)).

Lemma parse_members_S n js p : parse_members erange0 encoder (S n) js p =
  (let! k := parse_key p encoder in
   match k with
   | None => ret None
   | Some (new_key, p) =>
       let! c := rd p in
       if c =? 125 then ret (Some (p + 1, js)) else
       let! r := parse_value erange0 encoder n js new_key p in
       match r with
       | None => ret None
       | Some (p, js) => parse_members erange0 encoder n js p
       end
   end).
Proof. done. Qed.
Lemma parse_items_S n js p : parse_items erange0 encoder (S n) js p =
  (let! r := parse_value erange0 encoder n js None p in
   match r with
   | None => ret None
   | Some (p, js) =>
       let! c := rd p in
       if c =? 93 then ret (Some (p + 1, js)) else parse_items erange0 encoder n js p
   end).
Proof. done. Qed.
Lemma spec_members_S n js a s : spec_members erange0 enc (S n) js a s =
  match spec_key enc (S (length s)) a s with
  | Some (new_key, r) =>
      if hd0 r =? 125 then Some (drop 1 r, js) else
      match spec_value erange0 enc n js new_key (a + zlen s - zlen r) r with
      | Some (r', js) => spec_members erange0 enc n js (a + zlen s - zlen r') r'
      | None => None
      end
  | None => None
  end.
Proof. done. Qed.
Lemma spec_items_S n js a s : spec_items erange0 enc (S n) js a s =
  match spec_value erange0 enc n js None a s with
  | Some (r, js) =>
      if hd0 r =? 93 then Some (drop 1 r, js) else spec_items erange0 enc n js (a + zlen s - zlen r) r
  | None => None
  end.
Proof. done. Qed.

Lemma parse_value_S n parent key p : parse_value erange0 encoder (S n) parent key p =
  (let add (r : option (Z * nx_json Z)) := (fun '(q, js) => (q, add_child parent js)) <$> r in
   let! c := rd p in
   if c =? 0 then ret None
   else if is_skip c then parse_value erange0 encoder n parent key (p + 1)
   else if c =? 123 then
     let! r := parse_members erange0 encoder n (create_json NX_JSON_OBJECT key) (p + 1) in ret (add r)
   else if c =? 91 then
     let! r := parse_items erange0 encoder n (create_json NX_JSON_ARRAY key) (p + 1) in ret (add r)
   else if c =? 93 then ret (Some (p, parent))
   else if c =? 34 then
     let! e := unescape_string (p + 1) encoder in
     ret (match e with
          | None => None
          | Some e => add (Some (e, with_text (create_json NX_JSON_STRING key) (p + 1)))
          end)
   else if is_digit_or_minus c then let! r := parse_number erange0 key p in ret (add r)
   else match json_literal c with
   | Some (lit, type, v) =>
       let! s := read_str p in
       ret (if is_prefix lit s then add (Some (p + zlen lit, with_int (create_json type key) v)) else None)
   | None =>
       if c =? 47 then
         let! e := rd (p + 1) in
         let! q := if e =? 47 then skip_line_comment (p + 2)
                   else if e =? 42 then skip_block_comment (p + 2) else ret None in
         match q with
         | None => ret None
         | Some q => parse_value erange0 encoder n parent key q
         end
       else ret None
   end).
Proof. done. Qed.
Lemma spec_value_S n parent key a c r : spec_value erange0 enc (S n) parent key a (c :: r) =
  let s := c :: r in
  let add (x : option (bytes * node)) := (fun '(r, js) => (r, add_child parent js)) <$> x in
  if is_skip c then spec_value erange0 enc n parent key (a + 1) r
  else if c =? 123 then add (spec_members erange0 enc n (create_json NX_JSON_OBJECT key) (a + 1) r)
  else if c =? 91 then add (spec_items erange0 enc n (create_json NX_JSON_ARRAY key) (a + 1) r)
  else if c =? 93 then Some (s, parent)
  else if c =? 34 then
    add ((fun '(t, r') => (r', with_text (create_json NX_JSON_STRING key) (a + 1, t))) <$>
         spec_string enc (S (length r)) r)
  else if is_digit_or_minus c then add (spec_number erange0 key s)
  else match json_literal c with
  | Some (lit, type, v) =>
      if is_prefix lit s then add (Some (drop (length lit) s, with_int (create_json type key) v)) else None
  | None =>
      if c =? 47 then
        match spec_comment r with
        | Some r' => spec_value erange0 enc n parent key (a + zlen s - zlen r') r'
        | None => None
        end
      else None
  end.
Proof. done. Qed.
End equations.

(** ** Values *)

Section parser.
Context (erange0 : bool) (encoder : option nx_json_unicode_encoder) (enc : option (Z -> option bytes)).
Context (Henc : encodes encoder enc).
Local Abbreviation value := (parse_value erange0 encoder).
Local Abbreviation members := (parse_members erange0 encoder).
Local Abbreviation items := (parse_items erange0 encoder).

(** What a parser that started at [s] leaves: the text [r] after what it read,
    and a tree whose strings it keeps in place. *)
Definition tree_post (lo : Z) (R : option (bytes * node)) (m : list Z) (a : Z) (s : bytes)
    (x : option (Z * nx_json Z)) (m' : list Z) : Prop :=
  match R with
  | Some (r, js) =>
      let e := a + zlen s - zlen r in
      x = Some (e, json_map fst js) /\ suffix_of r s /\ (hd0 r = 93 \/ zlen r < zlen s) /\
      same_outside m m' a e /\ strings_ok m' lo e (json_strings js)
  | None => x = None /\ same_outside m m' a (a + zlen s)
  end.

Lemma tree_post_later lo R m m1 a s t x m' :
  suffix_of t s -> same_outside m m1 a (a + zlen s - zlen t) ->
  tree_post lo R m1 (a + zlen s - zlen t) t x m' -> tree_post lo R m a s x m'.
Proof using Type.
  intros Ht Hs1. pose proof (suffix_length _ _ Ht). pose proof (zlen_nonneg t).
  unfold tree_post. destruct R as [[r js]|];
    [|intros [-> Hs]; split; [done|so_trans Hs1 Hs]].
  intros (-> & Hr & Hd & Hs & Hk). cbn zeta in *. pose proof (suffix_length _ _ Hr).
  replace (a + zlen s - zlen t + zlen t - zlen r) with (a + zlen s - zlen r) in * by lia.
  split; [done|]. split; [by eapply suffix_trans|]. split; [destruct Hd; [by left|right; lia]|].
  split; [so_trans Hs1 Hs|done].
Qed.

(** A child built from the text is added to its parent. *)
Definition add_to (parent : node) (R : option (bytes * node)) : option (bytes * node) :=
  (fun '(r, js) => (r, add_child parent js)) <$> R.

Lemma tree_post_add lo parent R m a s x m' :
  strings_ok m lo a (json_strings parent) -> tree_post lo R m a s x m' ->
  tree_post lo (add_to parent R) m a s ((fun '(q, js) => (q, add_child (json_map fst parent) js)) <$> x) m'.
Proof using Type.
  intros Hp. unfold tree_post, add_to. destruct R as [[r js]|]; [|by intros [-> ?]].
  intros (-> & Hr & Hd & Hs & Hk). cbn. rewrite json_map_add, strings_add.
  pose proof (suffix_length _ _ Hr). repeat (split; [done|]). apply Forall_app. split; [|done].
  eapply strings_ok_weaken; [eapply strings_ok_frame; [exact Hp|exact Hs|lia]|lia|lia].
Qed.

(** A leaf: nothing was written before [m'], and the node's strings are there. *)
Lemma tree_post_leaf lo m a s r js m' :
  suffix_of r s -> zlen r < zlen s -> same_outside m m' a (a + zlen s - zlen r) ->
  strings_ok m' lo (a + zlen s - zlen r) (json_strings js) ->
  tree_post lo (Some (r, js)) m a s (Some (a + zlen s - zlen r, json_map fst js)) m'.
Proof using Type. intros. repeat (split; [by auto|]). done. Qed.

Definition value_ok (n : nat) : Prop := forall lo m parent key a s,
  cstr m a s -> all_bytes s -> lo <= a -> (2 * length s + 1 <= n)%nat ->
  strings_ok m lo a (json_strings parent) -> strings_ok m lo a (opt_list key) ->
  wp (value n (json_map fst parent) (fst <$> key) a) (tree_post lo (spec_value erange0 enc n parent key a s) m a s) m.
Definition body_ok (body : nat -> nx_json Z -> Z -> M (list Z) (option (Z * nx_json Z)))
    (spec : nat -> node -> Z -> bytes -> option (bytes * node)) (n : nat) : Prop := forall lo m js a s,
  cstr m a s -> all_bytes s -> lo <= a -> (2 * length s + 2 <= n)%nat ->
  strings_ok m lo a (json_strings js) ->
  wp (body n (json_map fst js) a) (tree_post lo (spec n js a s) m a s) m.

Lemma hd0_nonzero m a s c : cstr m a s -> hd0 s = c -> c <> 0 -> exists r, s = c :: r.
Proof using Type. destruct s as [|d r]; cbn; [by intros _ <-|]. intros _ ->. eauto. Qed.

(** The closing bracket after the children. *)
Lemma tree_post_close lo m a s r c js m' :
  c <> 0 -> suffix_of r s -> hd0 r = c -> same_outside m m' a (a + zlen s - zlen r) ->
  strings_ok m' lo (a + zlen s - zlen r) (json_strings js) ->
  tree_post lo (Some (drop 1 r, js)) m a s (Some (a + zlen s - zlen r + 1, json_map fst js)) m'.
Proof using Type.
  intros Hc Hr Hd Hs Hk. destruct r as [|d r]; cbn in Hd; [done|]. cbn [drop]. rewrite drop_0.
  pose proof (suffix_length _ _ Hr). rewrite zlen_cons in *.
  replace (a + zlen s - (1 + zlen r) + 1) with (a + zlen s - zlen r) by lia.
  apply tree_post_leaf; [eapply suffix_trans; [|done]; eauto with nx|lia|so_weaken Hs|].
  eapply strings_ok_weaken; [done|lia|lia].
Qed.

Lemma members_step n : value_ok n -> body_ok members (spec_members erange0 enc) n ->
  body_ok members (spec_members erange0 enc) (S n).
Proof using Henc.
  intros HV HM lo m js a s Hs Hb Hlo Hn Hjs. rewrite parse_members_S, spec_members_S.
  apply wp_bind. eapply wp_mono; [by eapply wp_parse_key|]. intros x m1 Hx.
  destruct (spec_key enc (S (length s)) a s) as [[k r]|]; cbn [key_post] in Hx; [|by destruct Hx as [-> ?]; apply wp_ret].
  destruct Hx as (-> & Hr & Hd & Hs1 & Hk). pose proof (suffix_length _ _ Hr).
  assert (Hc : cstr m1 (a + zlen s - zlen r) r) by (eapply same_outside_cstr; [done|by apply suffix_cstr|lia]).
  assert (Hjs1 : strings_ok m1 lo (a + zlen s - zlen r) (json_strings js)).
  { eapply strings_ok_weaken; [eapply strings_ok_frame; [exact Hjs|exact Hs1|lia]|lia|lia]. }
  apply wp_bind. eapply wp_hd; [exact Hc|]. destruct (Z.eqb_spec (hd0 r) 125) as [Hh|Hh].
  { apply wp_ret. by apply (tree_post_close lo m a s r 125). }
  destruct Hd as [?|Hd]; [done|]. apply wp_bind.
  eapply wp_mono; [apply (HV lo _ _ k); [done|by eapply suffix_bytes|lia|unfold zlen in *; lia|done|]|].
  { eapply strings_ok_weaken; [exact Hk|lia|lia]. }
  intros x m2 Hx. destruct (spec_value erange0 enc n js k _ r) as [[r2 js2]|]; cbn [tree_post] in Hx;
    [|destruct Hx as [-> Hs2]; apply wp_ret; split; [done|pose proof (zlen_nonneg r); so_trans Hs1 Hs2]].
  destruct Hx as (-> & Hr2 & _ & Hs2 & Hjs2). pose proof (suffix_length _ _ Hr2).
  replace (a + zlen s - zlen r + zlen r - zlen r2) with (a + zlen s - zlen r2) in * by lia.
  assert (Hr2' : suffix_of r2 s) by (by eapply suffix_trans).
  assert (Hs12 : same_outside m m2 a (a + zlen s - zlen r2)) by so_trans Hs1 Hs2.
  eapply wp_mono; [apply (HM lo)|]; [..|intros x m3; by apply tree_post_later].
  - eapply same_outside_cstr; [exact Hs12|by apply suffix_cstr|lia].
  - by eapply suffix_bytes.
  - lia.
  - unfold zlen in *. lia.
  - done.
Qed.

Lemma items_step n : value_ok n -> body_ok items (spec_items erange0 enc) n ->
  body_ok items (spec_items erange0 enc) (S n).
Proof using Henc.
  intros HV HI lo m js a s Hs Hb Hlo Hn Hjs. rewrite parse_items_S, spec_items_S. apply wp_bind.
  eapply wp_mono; [apply (HV lo _ _ None); [done|done|lia|lia|done|apply Forall_nil_2]|].
  intros x m1 Hx. destruct (spec_value erange0 enc n js None a s) as [[r js1]|]; cbn [tree_post] in Hx;
    [|by destruct Hx as [-> ?]; apply wp_ret].
  destruct Hx as (-> & Hr & Hd & Hs1 & Hjs1). pose proof (suffix_length _ _ Hr).
  assert (Hc : cstr m1 (a + zlen s - zlen r) r) by (eapply same_outside_cstr; [done|by apply suffix_cstr|lia]).
  apply wp_bind. eapply wp_hd; [exact Hc|]. destruct (Z.eqb_spec (hd0 r) 93) as [Hh|Hh].
  { apply wp_ret. by apply (tree_post_close lo m a s r 93). }
  destruct Hd as [?|Hd]; [done|].
  eapply wp_mono; [apply (HI lo)|]; [..|intros x m3; by apply tree_post_later].
  - done.
  - by eapply suffix_bytes.
  - lia.
  - unfold zlen in *. lia.
  - done.
Qed.

(** The leaves of [parse_value]. *)
Lemma wp_string_value lo m (parent : node) key a s :
  cstr m a (34 :: s) -> all_bytes s -> lo <= a ->
  strings_ok m lo a (json_strings parent) -> strings_ok m lo a (opt_list key) ->
  wp (let! e := unescape_string (a + 1) encoder in
      ret (match e with
           | None => None
           | Some e => (fun '(q, js) => (q, add_child (json_map fst parent) js)) <$>
               Some (e, with_text (create_json NX_JSON_STRING (fst <$> key)) (a + 1))
           end))
     (tree_post lo (add_to parent ((fun '(t, r') => (r', with_text (create_json NX_JSON_STRING key) (a + 1, t))) <$>
         spec_string enc (S (length s)) s)) m a (34 :: s)) m.
Proof using Henc.
  intros Hs Hb Hlo Hp Hk. pose proof (cstr_tail _ _ _ _ Hs) as Hs1. apply wp_bind.
  eapply wp_mono; [by eapply wp_unescape|]. intros x m1 Hx. apply wp_ret.
  destruct (spec_string enc (S (length s)) s) as [[v r]|] eqn:E; cbn [unesc_post] in Hx;
    [|destruct Hx as [-> Hm]; split; [done|rewrite zlen_cons; so_weaken Hm]].
  destruct Hx as (-> & Hm & Hv & Hl). apply spec_string_suffix in E as (u & -> & Hu).
  assert (suffix_of r (u ++ r)) as Hr by (by exists u). pose proof (suffix_length _ _ Hr).
  cbn [fmap option_fmap option_map].
  replace (a + 1 + zlen (u ++ r) - zlen r) with (a + zlen (34 :: u ++ r) - zlen r) in * by (rewrite zlen_cons; lia).
  pose proof (zlen_nonneg v).
  apply (tree_post_add lo parent (Some (r, with_text (create_json NX_JSON_STRING key) (a + 1, v))) m a (34 :: u ++ r)
           (Some (a + zlen (34 :: u ++ r) - zlen r, _)) m1 Hp).
  apply (tree_post_leaf lo m a (34 :: u ++ r) r (with_text (create_json NX_JSON_STRING key) (a + 1, v)) m1).
  - eauto with nx.
  - rewrite zlen_cons. lia.
  - so_weaken Hm.
  - rewrite zlen_cons in *. apply Forall_app. split.
    + eapply strings_ok_weaken; [eapply strings_ok_frame; [exact Hk|exact Hm|lia]|lia|lia].
    + apply Forall_singleton. split; [lia|]. split; [lia|done].
Qed.

Lemma is_prefix_split lit s : is_prefix lit s = true -> s = lit ++ drop (length lit) s.
Proof using Type.
  revert s. induction lit as [|a lit IH]; intros s; [by rewrite drop_0|]. destruct s as [|b s]; [done|].
  cbn. intros [->%Z.eqb_eq H]%andb_true_iff. f_equal. by apply IH.
Qed.

Lemma literal_facts c lit t v : json_literal c = Some (lit, t, v) -> 0 < zlen lit.
Proof using Type. unfold json_literal. intros H. repeat case_match; simplify_eq; done. Qed.

Lemma wp_literal_value lo m (parent : node) key a s lit type v :
  cstr m a s -> 0 < zlen lit -> strings_ok m lo a (json_strings parent) -> strings_ok m lo a (opt_list key) ->
  wp (let! s := read_str a in
      ret (if is_prefix lit s then (fun '(q, js) => (q, add_child (json_map fst parent) js)) <$>
             Some (a + zlen lit, with_int (create_json type (fst <$> key)) v) else None))
     (tree_post lo (if is_prefix lit s then add_to parent (Some (drop (length lit) s, with_int (create_json type key) v))
                    else None) m a s) m.
Proof using Type.
  intros Hs Hlit Hp Hk. apply wp_bind. eapply wp_read_str; [done|]. apply wp_ret.
  destruct (is_prefix lit s) eqn:E; [|done]. apply is_prefix_split in E.
  remember (drop (length lit) s) as r eqn:Hr. clear Hr. subst s.
  apply (tree_post_add lo parent (Some _) m a (lit ++ r) (Some (a + zlen lit, _)) m Hp).
  replace (a + zlen lit) with (a + zlen (lit ++ r) - zlen r) by (rewrite zlen_app; lia).
  apply (tree_post_leaf lo m a (lit ++ r) r (with_int (create_json type key) v) m).
  - by exists lit.
  - rewrite zlen_app. lia.
  - apply same_outside_refl.
  - rewrite zlen_app. apply Forall_app. split; [|apply Forall_nil_2].
    eapply strings_ok_weaken; [exact Hk|lia|]. lia.
Qed.

Lemma wp_number_value lo m (parent : node) key a s :
  cstr m a s -> strings_ok m lo a (json_strings parent) -> strings_ok m lo a (opt_list key) ->
  wp (let! r := parse_number erange0 (fst <$> key) a in
      ret ((fun '(q, js) => (q, add_child (json_map fst parent) js)) <$> r))
     (tree_post lo (add_to parent (spec_number erange0 key s)) m a s) m.
Proof using Type.
  intros Hs Hp Hk. apply wp_bind. eapply wp_mono; [by eapply wp_parse_number|]. intros x m1 [-> Hx]. apply wp_ret.
  apply tree_post_add; [done|]. destruct (spec_number erange0 key s) as [[r js]|]; [|done].
  destruct Hx as (-> & Hr & Hl & Hj). apply tree_post_leaf; [done|done|apply same_outside_refl|].
  rewrite Hj. eapply strings_ok_weaken; [exact Hk|lia|lia].
Qed.

Lemma value_step n : value_ok n -> body_ok members (spec_members erange0 enc) n ->
  body_ok items (spec_items erange0 enc) n -> value_ok (S n).
Proof using Henc.
  intros HV HM HI lo m parent key a s Hs Hb Hlo Hn Hp Hk. rewrite parse_value_S. cbn zeta.
  apply wp_bind. eapply wp_hd; [exact Hs|]. destruct s as [|c t]; [by apply wp_ret|].
  rewrite spec_value_S. cbn [hd0]. cbn zeta.
  pose proof Hs as (_ & Hc0 & _ & Hst)%cstr_cons. pose proof Hb as [_ Hbt]%Forall_cons. cbn [length] in Hn.
  rewrite (proj2 (Z.eqb_neq c 0) Hc0).
  assert (Hkt : forall l, strings_ok m lo a l -> strings_ok m lo (a + 1) l).
  { intros l Hl. eapply strings_ok_weaken; [exact Hl|lia|lia]. }
  assert (Hlater : forall R x m', tree_post lo R m (a + 1) t x m' -> tree_post lo R m a (c :: t) x m').
  { intros R x m' HR. eapply tree_post_later; [apply suffix_cons, suffix_refl|apply same_outside_refl|].
    rewrite zlen_cons. by replace (a + (1 + zlen t) - zlen t) with (a + 1) by lia. }
  destruct (is_skip c).
  { eapply wp_mono; [apply (HV lo)|intros x m'; apply Hlater]; [done|done|lia|lia|auto|auto]. }
  destruct (c =? 123).
  { apply wp_bind. eapply wp_mono; [apply (HM lo m (create_json NX_JSON_OBJECT key))|]; [done|done|lia|lia| |].
    { cbn. rewrite !app_nil_r. auto. }
    intros x m' Hx. apply wp_ret, tree_post_add; auto. }
  destruct (c =? 91).
  { apply wp_bind. eapply wp_mono; [apply (HI lo m (create_json NX_JSON_ARRAY key))|]; [done|done|lia|lia| |].
    { cbn. rewrite !app_nil_r. auto. }
    intros x m' Hx. apply wp_ret, tree_post_add; auto. }
  destruct (Z.eqb_spec c 93) as [->|].
  { apply wp_ret. cbn. split; [do 2 f_equal; lia|]. split; [apply suffix_refl|]. split; [by left|].
    split; [apply same_outside_refl|]. eapply strings_ok_weaken; [exact Hp|lia|lia]. }
  destruct (Z.eqb_spec c 34) as [->|]; [by apply wp_string_value|].
  destruct (is_digit_or_minus c); [by apply wp_number_value|].
  destruct (json_literal c) as [[[lit type] v]|] eqn:El.
  { apply wp_literal_value; [done|by eapply literal_facts|done|done]. }
  destruct (c =? 47); [|by apply wp_ret].
  eapply (wp_comment m (a + 1) (a + 2) t (fun q => match q with None => ret None | Some q => value n _ _ q end)); [done|lia|].
  destruct (spec_comment t) as [r|] eqn:E; [|by apply wp_ret].
  apply spec_comment_suffix in E as [Hr Hl]. cbn [end_at fmap option_fmap option_map].
  assert (Hr' : suffix_of r (c :: t)) by (by apply suffix_cons).
  replace (a + 1 + zlen t - zlen r) with (a + zlen (c :: t) - zlen r) by (rewrite zlen_cons; lia).
  pose proof (zlen_nonneg r). pose proof (zlen_cons c t) as Hz.
  eapply wp_mono; [apply (HV lo)|intros x m'; eapply tree_post_later; [exact Hr'|apply same_outside_refl]].
  - by apply suffix_cstr.
  - by eapply suffix_bytes.
  - lia.
  - unfold zlen in *. lia.
  - eapply strings_ok_weaken; [exact Hp|lia|lia].
  - eapply strings_ok_weaken; [exact Hk|lia|lia].
Qed.

Lemma parsers_ok n : value_ok n /\ body_ok members (spec_members erange0 enc) n /\ body_ok items (spec_items erange0 enc) n.
Proof using Henc.
  induction n as [|n (HV & HM & HI)].
  - split_and!; repeat intro; lia.
  - split_and!; [by apply value_step|by apply members_step|by apply items_step].
Qed.
End parser.

(** ** The fuel of the abstract parser

    Any amount above twice the length of the text gives the same result. *)
Section fuel.
Context (erange0 : bool) (enc : option (Z -> option bytes)).
Local Abbreviation value := (spec_value erange0 enc).
Local Abbreviation members := (spec_members erange0 enc).
Local Abbreviation items := (spec_items erange0 enc).

Lemma spec_key_suffix n a s k r : spec_key enc n a s = Some (k, r) ->
  suffix_of r s /\ (hd0 r = 125 \/ zlen r < zlen s).
Proof using Type.
  revert a s. induction n as [|n IH]; intros a s; [done|]. destruct s as [|c s]; [done|].
  cbn [spec_key]. rewrite zlen_cons.
  assert (Hnext : forall a' s', spec_key enc n a' s' = Some (k, r) -> suffix_of s' s ->
    suffix_of r (c :: s) /\ (hd0 r = 125 \/ zlen r < 1 + zlen s)).
  { intros a' s' H Hs'. pose proof (suffix_length _ _ Hs'). apply IH in H as [H1 H2].
    split; [apply suffix_cons; by eapply suffix_trans|]. destruct H2; [by left|right; lia]. }
  destruct (c =? 34).
  { destruct (spec_string enc (S (length s)) s) as [[v e]|] eqn:E; [|done].
    apply spec_string_suffix in E as (u & -> & Hu). pose proof (skip_white_suffix e) as Hw.
    intros H. assert (exists c', skip_white e = c' :: r) as [c' Ew]
      by (repeat (case_match; try done); simplify_eq; eauto).
    assert (Hr : suffix_of r (u ++ e)).
    { eapply suffix_trans; [|exists u; reflexivity]. eapply suffix_trans; [|exact Hw]. rewrite Ew. eauto with nx. }
    split; [by apply suffix_cons|]. apply suffix_length in Hr. right; lia. }
  destruct (_ || _); [intros H; eapply Hnext; eauto with nx|].
  destruct (Z.eqb_spec c 125) as [->|]; [intros [= <- <-]; split; [eauto with nx|by left]|].
  destruct (c =? 47); [|done]. destruct (spec_comment s) as [s'|] eqn:E; [|done].
  apply spec_comment_suffix in E as [? _]. intros Hk. by eapply Hnext.
Qed.

Lemma spec_number_suffix key s r js : spec_number erange0 key s = Some (r, js) -> suffix_of r s /\ zlen r < zlen s.
Proof using Type.
  unfold spec_number. destruct (strtoll0 s) as [[i n] e] eqn:E. apply strtoll0_count in E.
  destruct (Z.eqb_spec n 0); [done|]. cbn [orb]. destruct (erange0 || e); [done|].
  destruct ((hd0 _ =? 46) || _).
  - destruct (strtod s) as [[d k] e'] eqn:E'. apply strtod_count in E'. destruct (Z.eqb_spec k 0); [done|].
    cbn [orb]. destruct (erange0 || e'); [done|]. intros [= <- <-]. rewrite zlen_drop by lia. split; [eauto with nx|lia].
  - intros [= <- <-]. rewrite zlen_drop by lia. split; [eauto with nx|lia].
Qed.

(** What a parser leaves is the end of its text. *)
Definition leaves (R : option (bytes * node)) (s : bytes) : Prop :=
  forall r js, R = Some (r, js) -> suffix_of r s /\ zlen r < zlen s.
Definition leaves_or_close (R : option (bytes * node)) (s : bytes) : Prop :=
  forall r js, R = Some (r, js) -> suffix_of r s /\ (hd0 r = 93 \/ zlen r < zlen s).

Lemma leaves_add parent R c t : leaves R t ->
  leaves_or_close ((fun '(r, js) => (r, add_child parent js)) <$> R) (c :: t).
Proof using Type.
  intros H r js. destruct R as [[r' js']|]; [|done]. intros [= <- <-]. destruct (H r' js') as [H1 H2]; [done|].
  rewrite zlen_cons. split; [by apply suffix_cons|right; lia].
Qed.

Lemma spec_leaves n :
  (forall parent key a s, leaves_or_close (value n parent key a s) s) /\
  (forall js a s, leaves (members n js a s) s) /\ (forall js a s, leaves (items n js a s) s).
Proof using Type.
  induction n as [|n (HV & HM & HI)]; [done|]. split_and!.
  - intros parent key a [|c t]; [done|]. rewrite spec_value_S. cbn zeta.
    destruct (is_skip c).
    { intros r js H. apply HV in H as [? H]. rewrite zlen_cons. split; [by apply suffix_cons|destruct H; [by left|right; lia]]. }
    destruct (c =? 123); [by apply leaves_add|]. destruct (c =? 91); [by apply leaves_add|].
    destruct (Z.eqb_spec c 93) as [->|]; [intros r js [= <- <-]; split; [eauto with nx|by left]|].
    destruct (c =? 34).
    { apply leaves_add. intros r js. destruct (spec_string enc _ t) as [[v e]|] eqn:E; [|done]. intros [= <- <-].
      apply spec_string_suffix in E as (u & -> & Hu). split; [by exists u|rewrite zlen_app; unfold zlen; lia]. }
    destruct (is_digit_or_minus c).
    { intros r js. destruct (spec_number erange0 key (c :: t)) as [[r' js']|] eqn:E; [|done]. intros [= <- <-].
      apply spec_number_suffix in E as [? ?]. split; [done|by right]. }
    destruct (json_literal c) as [[[lit ty] v]|] eqn:El.
    { destruct (is_prefix lit (c :: t)) eqn:E; [|done]. intros r js [= <- <-].
      apply is_prefix_split in E. apply literal_facts in El. split; [eauto with nx|].
      right. apply (f_equal zlen) in E. rewrite zlen_app in E. lia. }
    destruct (c =? 47); [|done]. destruct (spec_comment t) as [s'|] eqn:E; [|done].
    apply spec_comment_suffix in E as [Hs' Hl]. intros r js H. apply HV in H as [? H]. rewrite zlen_cons.
    split; [apply suffix_cons; by eapply suffix_trans|destruct H; [by left|right; lia]].
  - intros js a s r js'. rewrite spec_members_S. destruct (spec_key enc _ a s) as [[k r1]|] eqn:E; [|done].
    apply spec_key_suffix in E as [H1 H2]. destruct (Z.eqb_spec (hd0 r1) 125) as [Hh|].
    { destruct r1 as [|d r1]; [done|]. intros [= <- <-]. rewrite drop_0. pose proof (suffix_length _ _ H1). rewrite zlen_cons in *.
      split; [eapply suffix_trans; [|done]; eauto with nx|lia]. }
    destruct (value n js k _ r1) as [[r2 js2]|] eqn:E; [|done]. apply HV in E as [H3 _].
    intros [H4 H5]%HM. apply suffix_length in H3 as ?. split; [by do 2 (eapply suffix_trans; [done|])|lia].
  - intros js a s r js'. rewrite spec_items_S. destruct (value n js None a s) as [[r1 js1]|] eqn:E; [|done].
    apply HV in E as [H1 H2]. pose proof (suffix_length _ _ H1). destruct (Z.eqb_spec (hd0 r1) 93) as [Hh|].
    { destruct r1 as [|d r1]; [done|]. intros [= <- <-]. rewrite drop_0. rewrite zlen_cons in *.
      split; [eapply suffix_trans; [|done]; eauto with nx|lia]. }
    intros [H4 H5]%HI. split; [by eapply suffix_trans|lia].
Qed.

Lemma spec_fuel_S n :
  (forall parent key a s, (2 * length s + 1 <= n)%nat -> value (S n) parent key a s = value n parent key a s) /\
  (forall js a s, (2 * length s + 2 <= n)%nat -> members (S n) js a s = members n js a s) /\
  (forall js a s, (2 * length s + 2 <= n)%nat -> items (S n) js a s = items n js a s).
Proof using Type.
  induction n as [|n (HV & HM & HI)]; [split_and!; intros; lia|]. pose proof (spec_leaves n) as (LV & LM & LI).
  split_and!.
  - intros parent key a [|c t] Hn; [done|]. cbn [length] in Hn. rewrite !(spec_value_S erange0 enc _ parent).
    cbn zeta. rewrite HV, HM, HI by lia. destruct (spec_comment t) as [r|] eqn:E; [|done].
    apply spec_comment_suffix in E as [_ Hl]. rewrite HV; [done|unfold zlen in *; lia].
  - intros js a s Hn. rewrite !(spec_members_S erange0 enc _ js). destruct (spec_key enc _ a s) as [[k r1]|] eqn:E; [|done].
    apply spec_key_suffix in E as [H1 H2]. destruct (Z.eqb_spec (hd0 r1) 125) as [Hh|]; [done|]. destruct H2 as [|H2]; [done|].
    rewrite HV by (unfold zlen in *; lia). destruct (value n js k _ r1) as [[r2 js2]|] eqn:E; [|done].
    apply LV in E as [H3%suffix_length _]. apply HM. unfold zlen in *. lia.
  - intros js a s Hn. rewrite !(spec_items_S erange0 enc _ js). rewrite HV by lia.
    destruct (value n js None a s) as [[r1 js1]|] eqn:E; [|done].
    apply LV in E as [H1 H2]. destruct (Z.eqb_spec (hd0 r1) 93) as [Hh|]; [done|]. destruct H2 as [|H2]; [done|].
    apply HI. unfold zlen in *. lia.
Qed.

Lemma spec_value_fuel n n' parent key a s : (2 * length s + 1 <= n <= n')%nat ->
  value n' parent key a s = value n parent key a s.
Proof using Type.
  intros [Hn Hle]. induction Hle as [|n' Hle IH]; [done|]. rewrite <- IH. apply spec_fuel_S. lia.
Qed.
End fuel.

(** [nx_json_parse] against [spec_parse]. *)
Lemma nx_json_parse_spec (erange0 : bool) encoder enc (m : list Z) (text : Z) (s : bytes) :
  encodes encoder enc -> cstr m text s -> all_bytes s ->
  exists r m', nx_json_parse erange0 encoder text m = Ok (r, m') /\
    same_outside m m' text (text + zlen s) /\
    match spec_parse erange0 enc text s with
    | Some js => r = Some (json_map fst js) /\
        Forall (fun '(p, v) => text <= p /\ p + zlen v + 1 <= text + zlen s /\ bytes_at m' p (v ++ [0])) (json_strings js)
    | None => r = None
    end.
Proof.
  intros Henc Hs Hb. pose proof (cstr_bounds _ _ _ Hs) as [Ht0 Hlen]. pose proof (zlen_nonneg s).
  unfold nx_json_parse. apply wp_elim. unfold wp at 1.
  destruct (parsers_ok erange0 encoder enc Henc (2 * length m)) as [HV _].
  specialize (HV text m (create_json NX_JSON_NULL None) None text s Hs Hb ltac:(lia) ltac:(unfold zlen in *; lia)
    ltac:(apply Forall_nil_2) ltac:(apply Forall_nil_2)).
  rewrite (spec_value_fuel erange0 enc (2 * S (length s)) (2 * length m)) in HV by (unfold zlen in *; lia).
  apply wp_elim in HV as (x & m' & HE & Hx). unfold spec_parse, bind.
  change (json_map fst (create_json NX_JSON_NULL None)) with (@create_json Z NX_JSON_NULL None) in HE.
  change (fst <$> (@None (Z * bytes))) with (@None Z) in HE. rewrite HE.
  destruct (spec_value erange0 enc _ _ None text s) as [[r js]|]; cbn [tree_post] in Hx.
  - destruct Hx as (-> & [u ->] & _ & Hso & Hk). cbn. rewrite zlen_app in *. pose proof (zlen_nonneg u). pose proof (zlen_nonneg r).
    split; [so_weaken Hso|]. destruct js as [t k tx i d n l]. cbn. destruct l as [|js l]; [done|]. cbn.
    split; [done|]. cbn in Hk. apply Forall_app in Hk as [_ [_ Hk]%Forall_app]. cbn in Hk. apply Forall_app in Hk as [Hk _].
    eapply strings_ok_weaken; [exact Hk|lia|lia].
  - destruct Hx as [-> Hso]. done.
Qed.

(** ** Properties *)

(** C31: [nx_json_parse] on any NUL-terminated text returns without reading or
    writing outside the text, changes only bytes of the text, and gives exactly
    the tree of the abstract parser (or null where that has none); every key
    and string of the tree points into the text and is there, terminated,
    whatever was parsed after it. *)
Theorem nx_json_parse_refines (erange0 : bool) encoder enc (m : list Z) (text : Z) (s : bytes) :
  encodes encoder enc -> cstr m text s -> all_bytes s ->
  exists r m', nx_json_parse erange0 encoder text m = Ok (r, m') /\
    same_outside m m' text (text + zlen s) /\
    match spec_parse erange0 enc text s with
    | Some js => r = Some (json_map fst js) /\
        Forall (fun '(p, v) => text <= p /\ p + zlen v + 1 <= text + zlen s /\ bytes_at m' p (v ++ [0])) (json_strings js)
    | None => r = None
    end.
Proof. apply nx_json_parse_spec. Qed.

(** A string inside a larger block. *)
Lemma cstr_in_block pre s post : Forall (fun c => c <> 0) s -> cstr (pre ++ s ++ 0 :: post) (zlen pre) s.
Proof.
  intros Hn. apply bytes_at_cstr; [apply zlen_nonneg| |done]. intros i c Hi.
  rewrite peek_app_r by lia. replace (zlen pre + Z.of_nat i - zlen pre) with (Z.of_nat i) by lia.
  change (0 :: post) with ([0] ++ post). rewrite app_assoc.
  rewrite peek_app_l by (apply lookup_lt_Some in Hi; unfold zlen; lia).
  unfold peek. destruct (Z.leb_spec 0 (Z.of_nat i)); [|lia]. by rewrite Nat2Z.id.
Qed.

Definition sample_json : bytes := Eval vm_compute in
  map (fun c => if c =? ch "'" then 34 else c) (bs "{'a': [1, -25], 'x\u0041': 'y\n', /* c */ 'd':null}").

Lemma nx_json_parse_refines_witness :
  exists r m', nx_json_parse false (Some unicode_to_utf8) 2 ([1; 2] ++ sample_json ++ [0; 9]) = Ok (r, m') /\ r <> None.
Proof.
  destruct (nx_json_parse_refines false (Some unicode_to_utf8) (Some utf8) ([1; 2] ++ sample_json ++ [0; 9]) 2 sample_json)
    as (r & m' & Hr & _ & Hs).
  - apply utf8_encodes.
  - apply (cstr_in_block [1; 2] sample_json [9]). repeat constructor; lia.
  - repeat constructor; unfold is_byte; lia.
  - exists r, m'. split; [exact Hr|]. destruct (spec_parse false (Some utf8) 2 sample_json) eqn:E; [by destruct Hs as [-> _]|].
    vm_compute in E. discriminate E.
Defined.
