(* ===== verification/JsonPrint.v ===== *)
(** Printing JSON and parsing it back: a printer for JSON values (not part of
    the program) and the proof that lib/nxjson.c parses what it prints to the
    tree of the value, strings unescaped; the UTF-8 encoder against a decoder;
    and access to members by key. *)
From S2P Require Import Prelude CString Json JsonProof.
Open Scope Z_scope.

(** ** Values and their trees *)

#[local] Unset Elimination Schemes.
Inductive jval :=
  | JNull
  | JBool (b : bool)
  | JInt (z : Z)
  | JStr (s : bytes)
  | JArr (l : list jval)
  | JObj (l : list (bytes * jval)).
#[local] Set Elimination Schemes.

Section jval_ind.
  Variable P : jval -> Prop.
  Hypothesis Hnull : P JNull.
  Hypothesis Hbool : forall b, P (JBool b).
  Hypothesis Hint : forall z, P (JInt z).
  Hypothesis Hstr : forall s, P (JStr s).
  Hypothesis Harr : forall l, Forall P l -> P (JArr l).
  Hypothesis Hobj : forall l, Forall (fun kv => P (snd kv)) l -> P (JObj l).
Fixpoint jval_ind (j : jval) : P j :=
  match j with
  | JNull => Hnull
  | JBool b => Hbool b
  | JInt z => Hint z
  | JStr s => Hstr s
  | JArr l => Harr l ((fix go l : Forall P l :=
      match l with [] => Forall_nil_2 _ | x :: l' => Forall_cons_2 _ _ _ (jval_ind x) (go l') end) l)
  | JObj l => Hobj l ((fix go l : Forall (fun kv => P (snd kv)) l :=
      match l with [] => Forall_nil_2 _ | x :: l' => Forall_cons_2 _ _ _ (jval_ind (snd x)) (go l') end) l)
  end.
End jval_ind.

(** The tree that the parser should build. *)
Fixpoint json_tree (key : option bytes) (j : jval) : nx_json bytes :=
  match j with
  | JNull => with_int (create_json NX_JSON_NULL key) 0
  | JBool b => with_int (create_json NX_JSON_BOOL key) (if b then 1 else 0)
  | JInt z => with_number (create_json NX_JSON_INTEGER key) NX_JSON_INTEGER z (dbl_of_Z z)
  | JStr s => with_text (create_json NX_JSON_STRING key) s
  | JArr l => fold_left add_child (map (json_tree None) l) (create_json NX_JSON_ARRAY key)
  | JObj l => fold_left add_child (map (fun '(k, v) => json_tree (Some k) v) l) (create_json NX_JSON_OBJECT key)
  end.

(** What can be printed: integers of type [long long], strings of bytes without NUL. *)
Fixpoint jval_ok (j : jval) : Prop :=
  match j with
  | JNull | JBool _ => True
  | JInt z => LONG_MIN <= z <= LONG_MAX
  | JStr s => cbytes s
  | JArr l => foldr (fun j r => jval_ok j /\ r) True l
  | JObj l => foldr (fun '(k, j) r => (cbytes k /\ jval_ok j) /\ r) True l
  end.

(** ** The printer *)

Definition escape_json_char (c : Z) : bytes :=
  if (c =? 34) || (c =? ch "\") then [ch "\"; c]
  else if c =? 8 then bs "\b" else if c =? 12 then bs "\f" else if c =? 10 then bs "\n"
  else if c =? 13 then bs "\r" else if c =? 9 then bs "\t"
  else if c <? 32 then bs "\u00" ++ [HEX_DIGIT (c / 16); HEX_DIGIT c]
  else [c].
Definition escape_json (s : bytes) : bytes := flat_map escape_json_char s.
Definition quote (s : bytes) : bytes := 34 :: escape_json s ++ [34].

Fixpoint dec_text (fuel : nat) (z : Z) : bytes :=
  match fuel with
  | O => []
  | S n => if z <? 10 then [48 + z] else dec_text n (z / 10) ++ [48 + z mod 10]
  end.
Definition print_int (z : Z) : bytes := if z <? 0 then ch "-" :: dec_text 20 (- z) else dec_text 20 z.

(** Texts separated by commas. *)
Fixpoint commas (first : bool) (l : list bytes) : bytes :=
  match l with
  | [] => []
  | x :: l' => (if first then [] else [ch ","]) ++ x ++ commas false l'
  end.

Fixpoint print_json (j : jval) : bytes :=
  match j with
  | JNull => bs "null"
  | JBool true => bs "true"
  | JBool false => bs "false"
  | JInt z => print_int z
  | JStr s => quote s
  | JArr l => ch "[" :: commas true (map print_json l) ++ [ch "]"]
  | JObj l => ch "{" :: commas true (map (fun '(k, v) => quote k ++ ch ":" :: print_json v) l) ++ [ch "}"]
  end.

(** ** Strings *)

Lemma escape_step f n c r :
  (forall c, 0 <= c < 32 -> f c = Some [c]) -> is_byte c -> c <> 0 ->
  spec_string (Some f) (S n) (escape_json_char c ++ r) = (fun '(v, e) => (c :: v, e)) <$> spec_string (Some f) n r.
Proof.
  intros Hf Hb Hn. unfold escape_json_char.
  destruct (Z.eqb_spec c 34) as [->|]; [done|]. destruct (Z.eqb_spec c 92) as [->|]; [done|]. cbn [orb].
  destruct (Z.eqb_spec c 8) as [->|]; [done|]. destruct (Z.eqb_spec c 12) as [->|]; [done|].
  destruct (Z.eqb_spec c 10) as [->|]; [done|]. destruct (Z.eqb_spec c 13) as [->|]; [done|].
  destruct (Z.eqb_spec c 9) as [->|]; [done|]. destruct (Z.ltb_spec c 32) as [Hc|Hc].
  - assert (Hin : In c (map Z.of_nat (seq 1 31))).
    { apply in_map_iff. exists (Z.to_nat c). unfold is_byte in Hb. split; [lia|]. apply in_seq. lia. }
    pose proof (Hf c ltac:(unfold is_byte in Hb; lia)) as Hfc.
    assert (Hu : spec_unicode ([48; 48; HEX_DIGIT (c / 16); HEX_DIGIT c] ++ r) = Some (c, r)).
    { cbn in Hin. repeat destruct Hin as [<-|Hin]; try reflexivity. done. }
    cbn [app]. cbn [app] in Hu. cbn [spec_string]. change (92 =? 34) with false. change (92 =? 92) with true. cbn iota.
    change (simple_escape 117) with (@None Z). change (117 =? 117) with true. cbn iota. by rewrite Hu, Hfc.
  - cbn [app spec_string]. rewrite (proj2 (Z.eqb_neq c 34)), (proj2 (Z.eqb_neq c 92)) by done. done.
Qed.

Lemma spec_string_escape f n s t :
  (forall c, 0 <= c < 32 -> f c = Some [c]) -> cbytes s -> (length s < n)%nat ->
  spec_string (Some f) n (escape_json s ++ 34 :: t) = Some (s, t).
Proof.
  intros Hf Hs. revert n. induction s as [|c s IH]; intros n Hn; (destruct n as [|n]; [cbn in Hn; lia|]); [done|].
  apply Forall_cons in Hs as [[Hb H0] Hs]. cbn [escape_json flat_map length] in *. rewrite <- app_assoc.
  rewrite escape_step by done. fold (escape_json s). rewrite IH by (done || lia). done.
Qed.

Lemma escape_char_length c : (1 <= length (escape_json_char c))%nat.
Proof. unfold escape_json_char. repeat case_match; cbn; lia. Qed.
Lemma escape_length s : (length s <= length (escape_json s))%nat.
Proof.
  induction s as [|c s IH]; cbn; [lia|]. rewrite length_app. pose proof (escape_char_length c).
  fold (escape_json s). lia.
Qed.

(** ** Integers *)

Lemma dec_text_spec fuel z : 0 <= z < 10 ^ Z.of_nat fuel -> (0 < fuel)%nat ->
  dec_value (dec_text fuel z) = z /\ Forall is_digit (dec_text fuel z) /\ dec_text fuel z <> [] /\
  (0 < z -> hd0 (dec_text fuel z) <> 48).
Proof.
  revert z. induction fuel as [|n IH]; intros z Hz Hf; [lia|]. cbn [dec_text].
  destruct (Z.ltb_spec z 10).
  - split; [cbn; unfold dec_step; lia|]. split; [repeat constructor; unfold is_digit; lia|]. split; [done|]. cbn. lia.
  - rewrite Nat2Z.inj_succ, Z.pow_succ_r in Hz by lia.
    assert (n <> 0)%nat by (intros ->; cbn in Hz; lia).
    destruct (IH (z / 10)) as (Hv & Hd & Hne & Hh).
    { split; [apply Z.div_pos; lia|apply Z.div_lt_upper_bound; lia]. }
    { lia. }
    pose proof (Z.mod_pos_bound z 10 ltac:(lia)). pose proof (Z.div_mod z 10 ltac:(lia)).
    split; [unfold dec_value in *; rewrite fold_left_app, Hv; cbn; unfold dec_step; lia|].
    split; [apply Forall_app; split; [done|repeat constructor; unfold is_digit; lia]|].
    split; [by destruct (dec_text n (z / 10))|]. intros _.
    destruct (dec_text n (z / 10)) eqn:E; [done|]. cbn. apply Hh. apply Z.div_str_pos. lia.
Qed.

(** What may follow a value: a separator, a closing bracket or the end. *)
Definition stop (t : bytes) : Prop := t = [] \/ hd0 t = 44 \/ hd0 t = 93 \/ hd0 t = 125.

Lemma stop_cases t : stop t -> t = [] \/ exists c t', t = c :: t' /\ (c = 44 \/ c = 93 \/ c = 125).
Proof. intros [->|H]; [by left|]. destruct t as [|c t]; [by left|]. right. cbn in H. eauto. Qed.

Lemma sign_of_digit c s : is_digit c -> sign_of (c :: s) = (false, c :: s).
Proof. unfold is_digit, sign_of. intros. repeat (case_match; try lia; try done). Qed.
Lemma base_of_nonzero c s : c <> 48 -> base_of (c :: s) = (10, c :: s).
Proof. unfold base_of. intros. repeat (case_match; try done). Qed.
Lemma is_space_digit c : is_digit c \/ c = 45 -> is_space c = false.
Proof. unfold is_digit, is_space. intros. apply orb_false_iff. split; [blia|]. apply andb_false_iff. right. apply Z.leb_gt. lia. Qed.

Lemma strtoll0_digits (neg : bool) z t : 0 <= z -> LONG_MIN <= (if neg then - z else z) <= LONG_MAX -> stop t ->
  strtoll0 ((if neg then [45] else []) ++ dec_text 20 z ++ t) =
    (if neg then - z else z, zlen ((if neg then [45] else []) ++ dec_text 20 z), false).
Proof.
  intros Hz Hr Ht. destruct (dec_text_spec 20 z) as (Hv & Hd & Hne & Hh); [unfold LONG_MIN, LONG_MAX in *; destruct neg; lia|lia|].
  destruct (dec_text 20 z) as [|c s] eqn:E; [done|]. pose proof Hd as [Hc _]%Forall_cons. cbn [app].
  assert (Hend : (match t with c :: _ => 10 <=? digit_val c | [] => true end) = true).
  { apply stop_cases in Ht as [->|(d & t' & -> & [->|[->| ->]])]; done. }
  assert (Hs2 : sign_of (skip_spaces ((if neg then [45] else []) ++ c :: s ++ t)) = (neg, c :: s ++ t)).
  { destruct neg; cbn [app skip_spaces].
    - rewrite (is_space_digit 45) by (by right). done.
    - rewrite is_space_digit by (by left). by apply sign_of_digit. }
  unfold strtoll0. rewrite Hs2. pose proof (zlen_nonneg s).
  assert (HL : zlen ((if neg then [45] else []) ++ c :: s ++ t) - zlen (c :: s ++ t) + zlen (c :: s) =
               zlen ((if neg then [45] else []) ++ c :: s)) by (rewrite !zlen_app, !zlen_cons, zlen_app; lia).
  assert (exists b, base_of (c :: s ++ t) = (b, c :: s ++ t) /\ strtol_digits b (c :: s ++ t) 0 0 = (z, zlen (c :: s))) as (b & -> & ->).
  { destruct (decide (z = 0)) as [->|].
    - cbn in E. injection E as <- <-. exists 8. cbn [app].
      apply stop_cases in Ht as [->|(d & t' & -> & Hd')]; [done|]. split.
      + destruct Hd' as [->|[->| ->]]; by destruct t'.
      + by destruct Hd' as [->|[->| ->]].
    - exists 10. rewrite base_of_nonzero by (cbn in Hh; apply Hh; lia). split; [done|].
      change (c :: s ++ t) with ((c :: s) ++ t). rewrite strtol_digits_dec by done. by fold (dec_value (c :: s)); rewrite Hv. }
  rewrite zlen_cons. destruct (Z.eqb_spec (1 + zlen s) 0); [lia|].
  assert (clamp_long (if neg then - z else z) = if neg then - z else z) as ->.
  { unfold clamp_long. lia. }
  rewrite Z.eqb_refl, <- HL, !zlen_cons. done.
Qed.

Lemma strtoll0_print z t : LONG_MIN <= z <= LONG_MAX -> stop t ->
  strtoll0 (print_int z ++ t) = (z, zlen (print_int z), false).
Proof.
  intros Hz Ht. unfold print_int. destruct (Z.ltb_spec z 0).
  - rewrite <- (Z.opp_involutive z) at 2. apply (strtoll0_digits true (- z) t); [lia|lia|done].
  - apply (strtoll0_digits false z t); [lia|lia|done].
Qed.

Lemma print_int_head z : LONG_MIN <= z <= LONG_MAX -> exists c r, print_int z = c :: r /\ is_digit_or_minus c = true.
Proof.
  intros Hz. unfold print_int. destruct (Z.ltb_spec z 0); [by eexists _, _|].
  destruct (dec_text_spec 20 z) as (_ & Hd & Hne & _); [unfold LONG_MIN, LONG_MAX in *; lia|lia|].
  destruct (dec_text 20 z) as [|c s]; [done|]. apply Forall_cons in Hd as [Hc _]. exists c, s. split; [done|].
  unfold is_digit in Hc. unfold is_digit_or_minus. apply orb_true_iff. right. apply andb_true_iff. split; blia.
Qed.

(** ** Values *)

Section roundtrip.
Variable f : Z -> option bytes.
Hypothesis Hf : forall c, 0 <= c < 32 -> f c = Some [c].
Local Abbreviation value := (spec_value false (Some f)).
Local Abbreviation members := (spec_members false (Some f)).
Local Abbreviation items := (spec_items false (Some f)).

Lemma spec_number_print key z t : LONG_MIN <= z <= LONG_MAX -> stop t ->
  spec_number false key (print_int z ++ t) =
    Some (t, with_number (create_json NX_JSON_INTEGER key) NX_JSON_INTEGER z (dbl_of_Z z)).
Proof using Type.
  intros Hz Ht. unfold spec_number. rewrite strtoll0_print by done.
  destruct (print_int_head z Hz) as (c & r & E & _).
  assert (0 < zlen (print_int z)) by (rewrite E, zlen_cons; pose proof (zlen_nonneg r); lia).
  destruct (Z.eqb_spec (zlen (print_int z)) 0); [lia|]. cbn [orb].
  unfold zlen. rewrite Nat2Z.id, drop_app_length.
  apply stop_cases in Ht as [->|(d & t' & -> & [->|[->| ->]])]; done.
Qed.

(** [R] is the result of a parser that built the tree [tr]. *)
Definition builds (R : option (bytes * node)) (t : bytes) (tr : nx_json bytes) : Prop :=
  exists js, R = Some (t, js) /\ json_map snd js = tr.

Definition prints (j : jval) : Prop := forall n parent key a t,
  stop t -> (2 * length (print_json j ++ t) + 1 <= n)%nat ->
  builds (value n parent key a (print_json j ++ t)) t (add_child (json_map snd parent) (json_tree (snd <$> key) j)).

Lemma digit_head c : is_digit_or_minus c = true ->
  is_skip c = false /\ (c =? 123) = false /\ (c =? 91) = false /\ (c =? 93) = false /\ (c =? 34) = false /\ c <> 125.
Proof using Type.
  unfold is_digit_or_minus, is_skip. intros [->%Z.eqb_eq|[H1%Z.leb_le H2%Z.leb_le]%andb_true_iff]%orb_true_iff; [done|].
  split_and!; repeat (apply orb_false_iff; split); try apply Z.eqb_neq; lia.
Qed.

Lemma print_head j : jval_ok j -> exists c r, print_json j = c :: r /\ c <> 125.
Proof using Type.
  destruct j as [|[]|z|s|l|l]; intros Hj; try by eexists _, _.
  destruct (print_int_head z Hj) as (c & r & E & Hc). exists c, r. split; [done|]. by apply digit_head.
Qed.

Lemma print_length j : (1 <= length (print_json j))%nat.
Proof using Type.
  destruct j as [|[]|z|s|l|l]; cbn [print_json]; try (cbn; lia).
  unfold print_int. change 20%nat with (S 19). cbn [dec_text]. repeat case_match; cbn; rewrite ?length_app; cbn; lia.
Qed.

Definition sep (first : bool) : bytes := if first then [] else [44].

(** A value after its separator. *)
Lemma prints_sep j (first : bool) n parent key a t : prints j -> stop t ->
  (2 * length (sep first ++ print_json j ++ t) + 1 <= n)%nat ->
  builds (value n parent key a (sep first ++ print_json j ++ t)) t
    (add_child (json_map snd parent) (json_tree (snd <$> key) j)).
Proof using Type.
  intros Hj Ht Hn. destruct first; cbn [sep app] in *; [by apply Hj|].
  destruct n as [|n]; [cbn in Hn; lia|]. rewrite spec_value_S. cbn [length] in Hn. apply Hj; [done|lia].
Qed.

Lemma stop_commas l d t : d = 93 \/ d = 125 -> stop (commas false l ++ d :: t).
Proof using Type. intros Hd. destruct l as [|x l]; cbn; unfold stop; cbn; [intuition congruence|tauto]. Qed.

Lemma items_print l : Forall prints l -> forall (first : bool) n js a t,
  (2 * length (commas first (map print_json l) ++ 93%Z :: t) + 2 <= n)%nat ->
  builds (items n js a (commas first (map print_json l) ++ 93 :: t)) t
    (fold_left add_child (map (json_tree None) l) (json_map snd js)).
Proof using Type.
  induction 1 as [|x l Hx _ IH]; intros first n js a t Hn; (destruct n as [|n]; [lia|]); rewrite spec_items_S.
  - cbn [map commas app]. cbn in Hn. destruct n as [|n]; [lia|]. rewrite spec_value_S. cbn. by exists js.
  - cbn [map commas fold_left]. cbn [map commas] in Hn. fold (sep first) in *. rewrite <- !app_assoc in *.
    set (T := commas false (map print_json l) ++ 93 :: t) in *.
    destruct (prints_sep x first n js None a T Hx) as (js1 & -> & Hjs1); [apply stop_commas; by left|lia|].
    cbn [fmap option_fmap option_map] in Hjs1. rewrite <- Hjs1.
    destruct l as [|y l].
    + unfold T. cbn. rewrite drop_0. by exists js1.
    + change (hd0 T) with 44. change (44 =? 93) with false. cbn iota. apply IH.
      rewrite !length_app in Hn. fold T. pose proof (print_length x). lia.
Qed.

Lemma spec_key_print (first : bool) a k r : cbytes k ->
  exists a', spec_key (Some f) (S (length (sep first ++ quote k ++ 58%Z :: r))) a (sep first ++ quote k ++ 58 :: r) =
    Some (Some (a', k), r).
Proof using Hf.
  intros Hk.
  assert (Hq : forall n a, spec_key (Some f) (S n) a (quote k ++ 58 :: r) = Some (Some (a + 1, k), r)).
  { intros n b. unfold quote. cbn [app spec_key]. change (34 =? 34) with true. cbn iota. rewrite <- app_assoc. cbn [app].
    rewrite spec_string_escape; [done|done|done|]. rewrite length_app. pose proof (escape_length k). lia. }
  destruct first; cbn [sep app length]; [by eexists|].
  eexists. remember (S (length (quote k ++ 58 :: r))) as n eqn:En. cbn [spec_key].
  change (44 =? 34) with false. change (IS_WHITESPACE 44 || (44 =? 44)) with true. cbn iota. subst n. apply Hq.
Qed.

Definition member_text (kv : bytes * jval) : bytes := let '(k, v) := kv in quote k ++ 58 :: print_json v.
Definition member_tree (kv : bytes * jval) : nx_json bytes := let '(k, v) := kv in json_tree (Some k) v.

Lemma members_print l : Forall (fun kv => prints (snd kv) /\ jval_ok (snd kv) /\ cbytes (fst kv)) l ->
  forall (first : bool) n js a t,
  (2 * length (commas first (map member_text l) ++ 125%Z :: t) + 2 <= n)%nat ->
  builds (members n js a (commas first (map member_text l) ++ 125 :: t)) t
    (fold_left add_child (map member_tree l) (json_map snd js)).
Proof using Hf.
  induction 1 as [|[k x] l (Hx & Hok & Hk) _ IH]; intros first n js a t Hn; (destruct n as [|n]; [lia|]); rewrite spec_members_S.
  - cbn. rewrite drop_0. by exists js.
  - cbn [map commas fold_left member_text member_tree]. cbn [map commas member_text] in Hn. fold (sep first) in *.
    rewrite <- !app_assoc in *. cbn [app] in *.
    set (T := commas false (map member_text l) ++ 125 :: t) in *. cbn [fst snd] in *.
    destruct (spec_key_print first a k (print_json x ++ T) Hk) as (a' & ->).
    destruct (print_head x Hok) as (c & r & E & Hc). rewrite E. cbn [app hd0].
    destruct (Z.eqb_spec c 125); [done|]. change (c :: r ++ T) with ((c :: r) ++ T). rewrite <- E.
    rewrite !length_app in Hn. cbn [length] in Hn. rewrite length_app in Hn.
    destruct (Hx n js (Some (a', k)) (a + zlen (sep first ++ quote k ++ 58 :: print_json x ++ T) - zlen (print_json x ++ T)) T)
      as (js1 & -> & Hjs1); [apply stop_commas; by right|rewrite length_app; lia|].
    cbn [fmap option_fmap option_map snd] in Hjs1. rewrite <- Hjs1. apply IH. fold T. lia.
Qed.

Lemma builds_add R t parent (js : nx_json bytes) : builds R t js ->
  builds ((fun '(r, js) => (r, add_child parent js)) <$> R) t (add_child (json_map snd parent) js).
Proof using Type. intros (x & -> & <-). exists (add_child parent x). by rewrite json_map_add. Qed.

Lemma foldr_Forall {A} (P : A -> Prop) (l : list A) : foldr (fun x r => P x /\ r) True l -> Forall P l.
Proof using Type. induction l as [|x l IH]; cbn; [by constructor|]. intros [??]. constructor; auto. Qed.

Lemma all_print j : jval_ok j -> prints j.
Proof using Hf.
  induction j as [|b|z|s|l IH|l IH]; intros Hj n parent key a t Ht Hn; (destruct n as [|n]; [lia|]).
  - cbn [print_json app]. rewrite spec_value_S. cbn. rewrite drop_0. exists (add_child parent (with_int (create_json NX_JSON_NULL key) 0)).
    rewrite json_map_add. by destruct key.
  - destruct b; cbn [print_json app]; rewrite spec_value_S; cbn; rewrite drop_0; eexists; (split; [reflexivity|]);
      rewrite json_map_add; by destruct key.
  - cbn [print_json jval_ok] in *. destruct (print_int_head z Hj) as (c & r & E & Hc).
    pose proof (spec_number_print key z t Hj Ht) as Hnum. rewrite E in Hnum |- *. cbn [app] in *.
    rewrite spec_value_S. cbn zeta. destruct (digit_head c Hc) as (-> & -> & -> & -> & -> & _). rewrite Hc, Hnum.
    apply builds_add. eexists. split; [reflexivity|]. by destruct key.
  - cbn [print_json jval_ok] in *. unfold quote. cbn [app]. rewrite spec_value_S. cbn zeta.
    rewrite <- app_assoc. cbn [app].
    assert (Hsp : spec_string (Some f) (S (length (escape_json s ++ 34 :: t))) (escape_json s ++ 34 :: t) = Some (s, t)).
    { apply spec_string_escape; [done|done|]. rewrite length_app. pose proof (escape_length s). lia. }
    rewrite Hsp. apply builds_add. eexists. split; [reflexivity|]. by destruct key.
  - cbn [print_json] in *. cbn [app]. rewrite spec_value_S. cbn zeta. rewrite <- app_assoc. cbn [app].
    change (json_tree (snd <$> key) (JArr l)) with
      (fold_left add_child (map (json_tree None) l) (json_map snd (create_json NX_JSON_ARRAY key))).
    apply builds_add, items_print.
    + apply (foldr_Forall jval_ok) in Hj. rewrite Forall_forall in *. auto.
    + cbn [app length] in Hn. rewrite <- app_assoc in Hn. cbn [app] in Hn. lia.
  - cbn [print_json] in *. cbn [app]. rewrite spec_value_S. cbn zeta. rewrite <- app_assoc. cbn [app].
    change (json_tree (snd <$> key) (JObj l)) with
      (fold_left add_child (map member_tree l) (json_map snd (create_json NX_JSON_OBJECT key))).
    apply builds_add, (members_print l).
    + change (jval_ok (JObj l)) with (foldr (fun '(k, j) r => (cbytes k /\ jval_ok j) /\ r) True l) in Hj.
      clear -IH Hj. induction IH as [|[k v] l Hv IH IHl]; [constructor|]. destruct Hj as [[Hk Hv'] Hj].
      constructor; [|by apply IHl]. cbn. auto.
    + cbn [app length] in Hn. rewrite <- app_assoc in Hn. cbn [app] in Hn. unfold member_text. lia.
Qed.
End roundtrip.

(** ** Bytes of a printed value *)

Lemma HEX_DIGIT_byte x : is_byte (HEX_DIGIT x).
Proof. apply HEX_DIGIT_spec. Qed.
Lemma escape_bytes s : cbytes s -> all_bytes (escape_json s).
Proof.
  induction 1 as [|c s [Hc _] _ IH]; [constructor|]. cbn. apply Forall_app. split; [|exact IH].
  unfold escape_json_char. pose proof (HEX_DIGIT_byte (c / 16)). pose proof (HEX_DIGIT_byte c).
  repeat case_match; repeat apply Forall_cons_2; try apply Forall_nil_2; done.
Qed.
Lemma quote_bytes s : cbytes s -> all_bytes (quote s).
Proof.
  intros H%escape_bytes. constructor; [done|]. apply Forall_app. split; [done|]. by repeat constructor.
Qed.
Lemma print_int_bytes z : LONG_MIN <= z <= LONG_MAX -> all_bytes (print_int z).
Proof.
  intros Hz. assert (Hd : forall x, 0 <= x < 10 ^ 20 -> all_bytes (dec_text 20 x)).
  { intros x Hx. destruct (dec_text_spec 20 x) as (_ & Hd & _); [done|lia|].
    eapply Forall_impl; [exact Hd|]. unfold is_digit, is_byte. lia. }
  unfold print_int, LONG_MIN, LONG_MAX in *. destruct (Z.ltb_spec z 0); [constructor; [done|]|]; apply Hd; lia.
Qed.
Lemma commas_bytes first l : Forall (fun s : bytes => all_bytes s) l -> all_bytes (commas first l).
Proof.
  intros H. revert first. induction H as [|x l Hx _ IH]; intros first; [constructor|]. cbn. apply Forall_app.
  split; [destruct first; by repeat constructor|]. apply Forall_app. auto.
Qed.
Lemma print_bytes j : jval_ok j -> all_bytes (print_json j).
Proof.
  induction j as [|[]|z|s|l IH|l IH]; intros Hj; try by repeat constructor.
  - by apply print_int_bytes.
  - by apply quote_bytes.
  - cbn [print_json]. constructor; [done|]. apply Forall_app. split; [|by repeat constructor].
    apply commas_bytes, Forall_map. apply (foldr_Forall jval_ok) in Hj. rewrite Forall_forall in *. auto.
  - cbn [print_json]. constructor; [done|]. apply Forall_app. split; [|by repeat constructor].
    apply commas_bytes, Forall_map. induction IH as [|[k v] l Hv IH IHl]; [constructor|].
    destruct Hj as [[Hk Hv'] Hj]. constructor; [|by apply IHl].
    apply Forall_app. split; [by apply quote_bytes|]. constructor; [done|]. by apply Hv.
Qed.

(** ** Access *)

Lemma children_fold (l : list (nx_json bytes)) p : children (fold_left add_child l p) = children p ++ l.
Proof.
  revert p. induction l as [|x l IH]; intros p; cbn; [by rewrite app_nil_r|].
  rewrite IH. destruct p. cbn. by rewrite <- app_assoc.
Qed.
Lemma children_object key l : children (json_tree key (JObj l)) = map member_tree l.
Proof. cbn [json_tree]. by rewrite children_fold. Qed.
Lemma children_array key l : children (json_tree key (JArr l)) = map (json_tree None) l.
Proof. cbn [json_tree]. by rewrite children_fold. Qed.

Lemma key_fold (l : list (nx_json bytes)) p : js_key (fold_left add_child l p) = js_key p.
Proof. revert p. induction l as [|x l IH]; intros p; [done|]. cbn. rewrite IH. by destruct p. Qed.
Lemma json_tree_key key j : js_key (json_tree key j) = key.
Proof. destruct j; cbn [json_tree]; rewrite ?key_fold; done. Qed.

(** The value of the first member with a key. *)
Fixpoint first_member (k : bytes) (l : list (bytes * jval)) : option jval :=
  match l with
  | [] => None
  | (k', v) :: l' => if decide (k' = k) then Some v else first_member k l'
  end.

Lemma get_first l k : get_loop (map member_tree l) k =
  match first_member k l with Some v => json_tree (Some k) v | None => dummy end.
Proof.
  induction l as [|[k' v] l IH]; [done|]. cbn [map member_tree get_loop first_member].
  rewrite json_tree_key. by destruct (decide (k' = k)) as [->|].
Qed.

Lemma item_nth {str} (l : list (nx_json str)) i : 0 <= i < 2 ^ 31 -> item_loop l i = default dummy (l !! Z.to_nat i).
Proof.
  revert i. induction l as [|x l IH]; intros i Hi; [done|]. cbn [item_loop].
  destruct (Z.eqb_spec i 0) as [->|]; [done|]. rewrite wraps_small by lia. rewrite IH by lia.
  by replace (Z.to_nat i) with (S (Z.to_nat (i - 1))) by lia.
Qed.

(** ** UTF-8 *)

(** The code point that a sequence of UTF-8 bytes starts with. *)
Definition utf8_decode (s : bytes) : option Z :=
  let cont b := (128 <=? b) && (b <? 192) in
  match s with
  | [a] => if a <? 128 then Some a else None
  | [a; b] => if (192 <=? a) && (a <? 224) && cont b then Some ((a - 192) * 64 + (b - 128)) else None
  | [a; b; c] => if (224 <=? a) && (a <? 240) && cont b && cont c
                 then Some ((a - 224) * 4096 + (b - 128) * 64 + (c - 128)) else None
  | [a; b; c; d] => if (240 <=? a) && (a <? 248) && cont b && cont c && cont d
                    then Some ((a - 240) * 262144 + (b - 128) * 4096 + (c - 128) * 64 + (d - 128)) else None
  | _ => None
  end.
Definition scalar_value (c : Z) : Prop := 0 <= c < 55296 \/ 57344 <= c < 1114112.

Lemma utf8_decode_encode c u : 0 <= c -> utf8 c = Some u -> utf8_decode u = Some c.
Proof.
  intros Hc. unfold utf8.
  destruct (Z.ltb_spec c 128) as [H1|H1]; [intros [= <-]; cbn; by rewrite (proj2 (Z.ltb_lt c 128))|].
  destruct (Z.ltb_spec c 2048) as [H2|H2]; [|destruct (_ && _); [done|destruct (Z.ltb_spec c 65536) as [H3|H3];
    [|destruct (Z.ltb_spec c 1114112) as [H4|]; [|done]]]]; intros [= <-]; cbn -[Z.div Z.modulo];
  match goal with |- (if ?b then _ else _) = _ => replace b with true end;
  try (f_equal; Z.to_euclidean_division_equations; lia);
  symmetry; rewrite !andb_true_iff, ?Z.leb_le, ?Z.ltb_lt; Z.to_euclidean_division_equations; lia.
Qed.
Lemma utf8_some c : 0 <= c -> is_Some (utf8 c) <-> scalar_value c.
Proof.
  intros Hc. unfold utf8, scalar_value. split.
  - intros [u Hu]. repeat case_match; simplify_eq; bool_to_prop; try lia.
    all: apply andb_false_iff in H1; rewrite Z.leb_gt, Z.ltb_ge in H1; lia.
  - intros Hs. repeat case_match; try done. all: bool_to_prop; lia.
Qed.

(** * Properties *)

(** C32: printing a JSON value (integers of type [long long], strings of any
    bytes but NUL) and parsing the text in place gives back the value: the
    tree has the value's types, keys, texts and numbers in order, its strings
    stand unescaped in the text, [nx_json_get] finds the first member with a
    key and the dummy for a key that is missing, and [nx_json_item] the item
    with an index. *)
Theorem json_print_parse (m : list Z) (p : Z) (j : jval) :
  jval_ok j -> cstr m p (print_json j) ->
  exists js m', nx_json_parse_utf8 false p m = Ok (Some (json_map fst js), m') /\
    json_map snd js = json_tree None j /\
    Forall (fun '(q, v) => bytes_at m' q (v ++ [0])) (json_strings js) /\
    (forall l k, j = JObj l -> nx_json_get (Some (json_map snd js)) (Some k) =
       match first_member k l with Some v => json_tree (Some k) v | None => dummy end) /\
    (forall l i, j = JArr l -> 0 <= i < 2 ^ 31 -> nx_json_item (Some (json_map snd js)) i =
       match l !! Z.to_nat i with Some v => json_tree None v | None => dummy end).
Proof.
  intros Hj Hs.
  destruct (nx_json_parse_spec false (Some unicode_to_utf8) (Some utf8) m p _ utf8_encodes Hs (print_bytes j Hj))
    as (r & m' & Hr & _ & Hsp).
  destruct (all_print utf8 ltac:(intros c Hc; unfold utf8; by rewrite (proj2 (Z.ltb_lt c 128)) by lia) j Hj
    (2 * S (length (print_json j)))%nat (create_json NX_JSON_NULL None) None p []) as (js & Hv & Hjs).
  { by left. }
  { rewrite app_nil_r. lia. }
  rewrite app_nil_r in Hv. unfold spec_parse in Hsp. rewrite Hv in Hsp.
  assert (exists x, children js = [x] /\ json_map snd x = json_tree None j) as (x & Hx & Hxj).
  { destruct js as [t k tx i d n l]. cbn in Hjs. injection Hjs as _ _ _ _ _ _ Hl. destruct l as [|x [|y l]]; try done.
    injection Hl as Hl. by exists x. }
  rewrite Hx in Hsp. cbn in Hsp. destruct Hsp as [-> Hstr]. exists x, m'. split; [exact Hr|]. split; [exact Hxj|].
  split; [eapply Forall_impl; [exact Hstr|]; by intros [q v] (_ & _ & ?)|]. rewrite Hxj. split.
  - intros l k ->. cbn [nx_json_get]. rewrite children_object. apply get_first.
  - intros l i -> Hi. cbn [nx_json_item]. rewrite children_array, item_nth by done.
    rewrite list_lookup_fmap. by destruct (l !! Z.to_nat i).
Qed.

(** C33: the UTF-8 encoder writes the encoding of every Unicode scalar value (a
    decoder gives it back) and no byte besides; it refuses surrogates and
    values above 10FFFF and then writes nothing. *)
Theorem unicode_to_utf8_correct (m : list Z) (codepoint p : Z) :
  0 <= codepoint < 2 ^ 32 -> 0 <= p -> p + 4 <= zlen m ->
  (scalar_value codepoint -> exists u m', unicode_to_utf8 codepoint p m = Ok (Some (p + zlen u), m') /\
     bytes_at m' p u /\ utf8_decode u = Some codepoint /\ same_outside m m' p (p + zlen u)) /\
  (~ scalar_value codepoint -> unicode_to_utf8 codepoint p m = Ok (None, m)).
Proof.
  intros Hc Hp Hm. destruct (Z.lt_ge_cases codepoint 1114112) as [Hlt|Hge].
  - destruct (utf8_some codepoint) as [Hs1 Hs2]; [lia|]. destruct (utf8 codepoint) as [u|] eqn:Hu.
    + split; [intros _|intros H; by destruct H; apply Hs1]. destruct (enc_length (Encodes := utf8_encodes) codepoint u ltac:(lia) Hu) as [_ Hl].
      assert (wp (unicode_to_utf8 codepoint p) (fun r m' => r = Some (p + zlen u) /\ bytes_at m' p u /\
        same_outside m m' p (p + zlen u)) m) as (r & m' & -> & -> & ? & ?)%wp_elim; [|by exists u, m'; split_and!; [..|eapply utf8_decode_encode; [lia|]|]].
      apply wp_enc; [lia|done|]. rewrite Hu. split; [|done]. assert (zlen u <= 4); [|lia].
      clear -Hu. unfold utf8 in Hu. repeat case_match; simplify_eq; cbn; unfold zlen; cbn; lia.
    + split; [intros H; by apply Hs2, is_Some_None in H|intros _].
      assert (wp (unicode_to_utf8 codepoint p) (fun r m' => r = None /\ m' = m) m) as (r & m' & -> & -> & ->)%wp_elim; [|done].
      apply wp_enc; [lia|done|]. by rewrite Hu.
  - split; [unfold scalar_value; lia|intros _]. unfold unicode_to_utf8.
    rewrite !(proj2 (Z.ltb_ge codepoint _)) by lia. by destruct (wrapu 32 _ <? _).
Qed.

Definition sample_value : jval :=
  JObj [(bs "id", JInt (-42)); (bs "name", JStr (104 :: 10 :: 34 :: bs "i\")); (bs "list", JArr [JNull; JBool true; JInt 0])].

Lemma json_print_parse_witness :
  exists js m', nx_json_parse_utf8 false 0 (print_json sample_value ++ [0]) = Ok (Some (json_map fst js), m') /\
    nx_json_get (Some (json_map snd js)) (Some (bs "id")) = json_tree (Some (bs "id")) (JInt (-42)).
Proof.
  assert (jval_ok sample_value) as Hok by (cbn; repeat split; try (repeat constructor; lia); vm_compute; congruence).
  destruct (json_print_parse (print_json sample_value ++ [0]) 0 sample_value Hok) as (js & m' & H1 & _ & _ & H4 & _).
  - apply (cstr_in_block [] (print_json sample_value) []). vm_compute. repeat constructor; discriminate.
  - exists js, m'. split; [exact H1|]. rewrite (H4 _ (bs "id") eq_refl). reflexivity.
Defined.

Lemma unicode_to_utf8_correct_witness :
  exists u m', unicode_to_utf8 8364 1 [0; 0; 0; 0; 0; 0] = Ok (Some (1 + zlen u), m') /\ utf8_decode u = Some 8364.
Proof.
  destruct (unicode_to_utf8_correct [0; 0; 0; 0; 0; 0] 8364 1) as [H _]; [lia|lia|vm_compute; discriminate|].
  destruct H as (u & m' & H & _ & Hu & _); [unfold scalar_value; lia|]. exists u, m'. split; [exact H|exact Hu].
Defined.

(** [strtoll] runs with base 0: a leading zero makes a number octal, and what
    octal cannot read becomes the next item. *)
Example json_octal :
  exists js m', nx_json_parse_utf8 false 0 (bs "[010 08]" ++ [0]) = Ok (Some js, m') /\ map int_value (children js) = [8; 0; 8].
Proof. eexists _, _. split; vm_compute; reflexivity. Qed.

(** [errno] is compared with [ERANGE] without being cleared first: a value left
    by an earlier call rejects every number. *)
Example json_stale_errno : nx_json_parse_utf8 true 0 (bs "1" ++ [0]) = Ok (None, bs "1" ++ [0]).
Proof. run. Qed.
