(* ===== verification/HttpResponse.v ===== *)
(** Responses and client requests: the setters of lib/http_utils.c and the
    functions that print headers into the buffer of a connection.

    A response is [nxweb_http_response bytes]: its strings are values.  They are
    either constants or finished objects of a buffer, which no operation of the
    buffer changes (file Buffer); the buffer [resp->nxb] is the state the
    functions run on.  [REVISION] is the version string the build defines;
    [date] is what [nxe_get_current_http_time_str] returns. *)
From coqutil Require Import Datatypes.RecordSetters.
From S2P Require Import Prelude CString Buffer HttpTime HttpRequest ResponseParse.
Import DoubleBraceUpdate.
Open Scope Z_scope.

Abbreviation request := (nxweb_http_request bytes).
Abbreviation response := (nxweb_http_response bytes).
Abbreviation header := (bytes * option bytes)%type.

(** ** Setters *)

Definition _nxweb_http_response_init (resp : response) (req : option request) : response :=
  match req with
  | Some req => resp{{rs_host := rq_host req; rs_http11 := rq_http11 req; rs_keep_alive := rq_keep_alive req}}
  | None => resp
  end.
Definition nxweb_set_response_status (resp : response) (code : Z) (message : option bytes) : response :=
  resp{{rs_status_code := code; rs_status := message}}.
Definition nxweb_set_response_content_type (resp : response) (content_type : option bytes) : response :=
  resp{{rs_content_type := content_type}}.
Definition nxweb_set_response_charset (resp : response) (charset : option bytes) : response :=
  resp{{rs_content_charset := charset}}.
Definition nxweb_send_data (resp : response) (data : option bytes) (size : Z) (content_type : option bytes) : response :=
  resp{{rs_content_type := content_type; rs_content := data; rs_content_length := size}}.

(** Dropping a file response; closing the descriptor is not modelled. *)
Definition no_sendfile (resp : response) : response :=
  resp{{rs_sendfile_path := None; rs_sendfile_fd := 0; rs_content_out := 0}}.

Section with_alloc.
Context `{Alloc}.
Variable REVISION : bytes.

Definition sizeof_nxweb_http_header : Z := 24.

Definition nxweb_add_response_header (resp : response) (name : bytes) (value : option bytes) : M nxb_buffer response :=
  do! nxb_calloc_obj sizeof_nxweb_http_header in
  ret (resp{{rs_headers := (name, value) :: rs_headers resp}}).

(** A date in a header that is set by value. *)
Definition header_time (value : bytes) : M nxb_buffer Z := fun nxb =>
  match nxweb_parse_http_time 0 (value ++ [0]) with Ok (t, _) => Ok (t, nxb) | Err e => Err e end.

Definition nxweb_add_response_header_safe (resp : response) (name value : bytes) : M nxb_buffer response :=
  match identify_http_header name (zlen name) with
  | NXWEB_HTTP_CONTENT_TYPE => do! nxb_copy_str value in ret (resp{{rs_content_type := Some value}})
  | NXWEB_HTTP_CONTENT_LENGTH | NXWEB_HTTP_TRANSFER_ENCODING | NXWEB_HTTP_CONNECTION
  | NXWEB_HTTP_KEEP_ALIVE | NXWEB_HTTP_DATE => ret resp
  | NXWEB_HTTP_X_NXWEB_SSI => ret (resp{{rs_ssi_on := nx_strcasecmp value (bs "ON") =? 0}})
  | NXWEB_HTTP_X_NXWEB_TEMPLATES => ret (resp{{rs_templates_on := nx_strcasecmp value (bs "ON") =? 0}})
  | NXWEB_HTTP_LAST_MODIFIED => let! t := header_time value in ret (resp{{rs_last_modified := t}})
  | NXWEB_HTTP_EXPIRES => let! t := header_time value in ret (resp{{rs_expires := t}})
  | NXWEB_HTTP_CACHE_CONTROL =>
      if hd0 value =? 0 then ret resp else
      let! copy := nxb_copy_str value in
      let! f := on_chunk (cache_items (l_off copy)
        (mk_cc (rs_no_cache resp) (rs_cache_private resp) (rs_max_age resp) false)) in
      let resp := resp{{rs_no_cache := cc_no_cache f; rs_cache_private := cc_private f; rs_max_age := cc_max_age f}} in
      if cc_dirty f then do! nxb_copy_str value in ret (resp{{rs_cache_control := Some value}})
      else ret resp
  | NXWEB_HTTP_ETAG => do! nxb_copy_str value in ret (resp{{rs_etag := Some value}})
  | _ =>
      do! nxb_calloc_obj sizeof_nxweb_http_header in
      do! nxb_copy_str name in
      do! nxb_copy_str value in
      ret (resp{{rs_headers := (name, Some value) :: rs_headers resp}})
  end.

(** ** Pieces of a header block *)

Definition CRLF : bytes := [13; 10].

(** [uint_to_decimal_string(n, buf, sizeof(buf))] with a local [buf[32]]; the
    argument is converted to [unsigned long]. *)
Definition decimal_text (n : Z) : M nxb_buffer bytes :=
  match local_text 32 (uint_to_decimal_string (wrapu 64 n) 0 32) with Ok s => ret s | Err e => fail e end.

(** [nxb_blank_fast(nxb, nxweb_format_http_time(nxb_get_room(nxb, 0), &tm))]
    after [gmtime_r]. *)
Definition append_time (t : Z) : M nxb_buffer unit :=
  let! nxb := get in
  let! n := on_chunk (nxweb_format_http_time (nxb_ptr nxb) (gmtime t)) in
  nxb_blank_fast n.

(** Headers that the server writes itself are left out of the added ones. *)
Definition is_own_header (name : bytes) : bool :=
  match identify_http_header name 0 with
  | NXWEB_HTTP_CONNECTION | NXWEB_HTTP_SERVER | NXWEB_HTTP_CONTENT_TYPE | NXWEB_HTTP_CONTENT_LENGTH
  | NXWEB_HTTP_TRANSFER_ENCODING | NXWEB_HTTP_DATE | NXWEB_HTTP_CACHE_CONTROL | NXWEB_HTTP_EXPIRES
  | NXWEB_HTTP_LAST_MODIFIED | NXWEB_HTTP_ETAG | NXWEB_HTTP_ACCEPT_RANGES => true
  | _ => false
  end.

Fixpoint _nxweb_add_extra_response_headers (headers : list header) : M nxb_buffer unit :=
  match headers with
  | [] => ret tt
  | (name, value) :: next =>
      if is_own_header name then _nxweb_add_extra_response_headers next else
      do! nxb_append_str name in
      do! nxb_append (bs ": ") in
      match value with
      | None => fail BadPtr
      | Some v =>
          do! nxb_append_str v in
          do! nxb_append_str CRLF in
          _nxweb_add_extra_response_headers next
      end
  end.

(** What every function that prints an object does around its stores. *)
Definition print_object (c : M nxb_buffer unit) : M nxb_buffer (nxb_loc * Z) :=
  do! nxb_start_stream in do! c in nxb_finish_stream.

Definition append_opt (s : option bytes) : M nxb_buffer unit :=
  match s with Some s => nxb_append_str s | None => ret tt end.

(** The status line and the general headers. *)
Definition response_head (resp : response) (date : bytes) : M nxb_buffer unit :=
  do! nxb_make_room 200 in
  do! nxb_append_fast (bs "HTTP/1.") in
  do! nxb_append_char_fast (if rs_http11 resp then ch "1" else ch "0") in
  do! nxb_append_char_fast (ch " ") in
  let! code := decimal_text (if rs_status_code resp =? 0 then 200 else rs_status_code resp) in
  do! nxb_append_str_fast code in
  do! nxb_append_char_fast (ch " ") in
  do! nxb_append_str (match rs_status resp with Some s => s | None => bs "OK" end) in
  do! nxb_make_room 200 in
  do! nxb_append_str_fast (CRLF ++ bs "Server: nxweb/" ++ REVISION ++ CRLF ++ bs "Date: ") in
  do! nxb_append_str_fast date in
  do! nxb_append_str_fast (CRLF ++ bs "Connection: ") in
  do! nxb_append_str_fast (if rs_keep_alive resp then bs "keep-alive" else bs "close") in
  nxb_append_str_fast CRLF.

Definition response_content_type (resp : response) : M nxb_buffer unit :=
  if rs_content_length resp =? 0 then ret tt else
  do! nxb_append_str (bs "Content-Type: ") in
  do! nxb_append_str (match rs_content_type resp with Some s => s | None => bs "text/html" end) in
  do! (match rs_content_charset resp with
       | Some cs => do! nxb_append_str (bs "; charset=") in nxb_append_str cs
       | None => ret tt
       end) in
  do! nxb_append_str CRLF in
  if rs_gzip_encoded resp then nxb_append_str (bs "Content-Encoding: gzip" ++ CRLF) else ret tt.

(** A date header; [room] is what the code reserves for it. *)
Definition response_time (name : bytes) (room t : Z) : M nxb_buffer unit :=
  if t =? 0 then ret tt else
  do! nxb_make_room room in
  do! nxb_append_str_fast name in
  do! append_time t in
  nxb_append_str_fast CRLF.

Definition response_etag (resp : response) : M nxb_buffer unit :=
  match rs_etag resp with
  | Some etag =>
      do! nxb_append_str (bs "ETag: ") in do! nxb_append_str etag in nxb_append CRLF
  | None => ret tt
  end.

Definition append_comma (comma : bool) : M nxb_buffer unit := if comma then nxb_append (bs ", ") else ret tt.
Definition response_cache (resp : response) : M nxb_buffer unit :=
  match rs_cache_control resp with
  | Some cc => do! nxb_append_str (bs "Cache-Control: ") in do! nxb_append_str cc in nxb_append CRLF
  | None =>
      if rs_no_cache resp || rs_cache_private resp || negb (rs_max_age resp =? 0) then
        do! nxb_append_str (bs "Cache-Control: ") in
        let! comma := (if rs_cache_private resp then do! append_comma false in do! nxb_append_str (bs "private") in ret true
                       else ret false) in
        let! comma := (if rs_no_cache resp then do! append_comma comma in do! nxb_append_str (bs "no-cache") in ret true
                       else ret comma) in
        if! negb (rs_max_age resp =? 0) then
          (do! append_comma comma in
           do! nxb_append_str (bs "max-age=") in
           if rs_max_age resp =? -1 then nxb_append_char (ch "0")
           else let! age := decimal_text (rs_max_age resp) in nxb_append_str age) in
        nxb_append CRLF
      else ret tt
  end.

(** How the end of a body is announced. *)
Definition append_length (content_length : Z) : M nxb_buffer unit :=
  do! nxb_make_room 48 in
  if 0 <=? content_length then
    do! nxb_append_str_fast (bs "Content-Length: ") in
    let! n := decimal_text content_length in nxb_append_str_fast n
  else nxb_append_str_fast (bs "Transfer-Encoding: chunked").

Definition must_not_have_body (resp : response) : bool :=
  (rs_status_code resp =? 304) || (rs_status_code resp =? 204) || (rs_status_code resp =? 205).

Definition response_length_header (resp : response) : M nxb_buffer unit :=
  if negb (rs_content_length resp =? 0) || negb (must_not_have_body resp) then
    do! append_length (rs_content_length resp) in nxb_append_fast CRLF
  else ret tt.

(** The warnings about bodies are not modelled.  The result is the printed
    object, terminator included. *)
Definition _nxweb_prepare_response_headers (date : bytes) (resp : response) : M nxb_buffer (nxb_loc * Z) :=
  print_object (
  do! response_head resp date in
  do! _nxweb_add_extra_response_headers (rs_headers resp) in
  do! append_opt (rs_extra_raw_headers resp) in
  do! response_content_type resp in
  do! response_time (bs "Last-Modified: ") 48 (rs_last_modified resp) in
  do! response_etag resp in
  do! response_time (bs "Expires: ") 42 (rs_expires resp) in
  do! response_cache resp in
  do! response_length_header resp in
  nxb_append (CRLF ++ [0])).

(** ** Redirects, errors, data *)

Definition redirect_status (code : Z) : bytes :=
  if code =? 302 then bs "Found" else if code =? 301 then bs "Moved Permanently" else bs "Redirect".

(** The response of a redirect has no body. *)
Definition redirect_response (resp : response) (code : Z) : response :=
  no_sendfile (resp{{rs_status_code := code; rs_status := Some (redirect_status code); rs_content := None;
                     rs_content_type := None; rs_content_length := 0}}).

Definition is_absolute (location : bytes) : bool :=
  is_prefix (bs "http://") location || is_prefix (bs "https://") location.

Definition append_location (resp : response) (location : bytes) (secure : bool) : M nxb_buffer unit :=
  if is_absolute location then nxb_append_str location else
  do! nxb_append_str (bs "http") in
  if! secure then nxb_append_char (ch "s") in
  do! nxb_append_str (bs "://") in
  match rs_host resp with
  | None => fail BadPtr
  | Some host => do! nxb_append_str host in nxb_append_str location
  end.

(** What is stored in the 250 bytes reserved at the start. *)
Definition redirect_head (date : bytes) (resp : response) (code : Z) : M nxb_buffer unit :=
  do! nxb_make_room 250 in
  do! nxb_append_fast (bs "HTTP/1.") in
  do! nxb_append_char_fast (if rs_http11 resp then ch "1" else ch "0") in
  do! nxb_append_char_fast (ch " ") in
  let! n := decimal_text code in
  do! nxb_append_str_fast n in
  do! nxb_append_char_fast (ch " ") in
  do! append_opt (rs_status resp) in
  do! nxb_append_str_fast (CRLF ++ bs "Server: nxweb/" ++ REVISION ++ CRLF ++ bs "Date: ") in
  do! nxb_append_str_fast date in
  do! nxb_append_str_fast (CRLF ++ bs "Connection: ") in
  do! nxb_append_str_fast (if rs_keep_alive resp then bs "keep-alive" else bs "close") in
  nxb_append_str_fast (CRLF ++ bs "Content-Length: 0" ++ CRLF ++ bs "Location: ").

Definition nxweb_send_redirect2 (date : bytes) (resp : response) (code : Z) (location : bytes)
    (location_path_info : option bytes) (secure : bool) : M nxb_buffer (response * (nxb_loc * Z)) :=
  let resp := redirect_response resp code in
  let! raw := print_object (
  do! redirect_head date resp code in
  do! append_location resp location secure in
  do! append_opt location_path_info in
  nxb_append (CRLF ++ CRLF ++ [0])) in
  ret (resp, raw).

Definition nxweb_send_redirect (date : bytes) (resp : response) (code : Z) (location : bytes) (secure : bool) :=
  nxweb_send_redirect2 date resp code location None secure.

Definition response_body1 : bytes := bs "<html>" ++ [10] ++ bs "<head><title>".
Definition response_body2 : bytes := bs "</title></head>" ++ [10] ++ bs "<body>" ++ [10] ++ bs "<h1>".
Definition response_body3 : bytes :=
  bs "</h1>" ++ [10] ++ bs "<p>nxweb/" ++ REVISION ++ bs "</p>" ++ [10] ++ bs "</body>" ++ [10] ++ bs "</html>".

(** The body: the object and its size, which is also the content length. *)
Definition nxweb_send_http_error (resp : response) (code : Z) (message : bytes) : M nxb_buffer (response * (nxb_loc * Z)) :=
  let resp := nxweb_set_response_status resp code (Some message) in
  let! body := print_object (
    do! nxb_append_str response_body1 in
    do! nxb_append_str message in
    do! nxb_append_str response_body2 in
    do! nxb_append_str message in
    nxb_append_str response_body3) in
  let text := response_body1 ++ message ++ response_body2 ++ message ++ response_body3 in
  ret (no_sendfile (resp{{rs_content := Some text; rs_content_length := snd body; rs_content_type := Some (bs "text/html")}}), body).

(** ** Client requests *)

Definition append_field (name : bytes) (value : option bytes) : M nxb_buffer unit :=
  match value with
  | Some v => do! nxb_append_str name in do! nxb_append_str v in nxb_append_str CRLF
  | None => ret tt
  end.

(** The root of a chain of subrequests. *)
Fixpoint root_request (req : request) : request :=
  match rq_parent_req req with Some preq => root_request preq | None => req end.

Definition append_uid (name : bytes) (uid : Z) : M nxb_buffer unit :=
  if uid =? 0 then ret tt else
  do! nxb_append_str name in
  do! nxb_append_uint64_hex_zeropad uid 16 in
  nxb_append_str CRLF.

Fixpoint append_headers (headers : list header) : M nxb_buffer unit :=
  match headers with
  | [] => ret tt
  | (name, value) :: next =>
      do! nxb_append_str name in
      do! nxb_append_char (ch ":") in
      do! nxb_append_char (ch " ") in
      match value with
      | None => fail BadPtr
      | Some v => do! nxb_append_str v in do! nxb_append_str CRLF in append_headers next
      end
  end.

Definition need {A} (o : option A) : M nxb_buffer A := match o with Some a => ret a | None => fail BadPtr end.

(** The request line and the headers before the forwarded ones: everything
    that is stored without a check of the room. *)
Definition client_request_head (req : request) : M nxb_buffer unit :=
  do! nxb_make_room 250 in
  let! method := (if rq_head_method req then ret (bs "HEAD") else need (rq_method req)) in
  do! nxb_append_str method in
  do! nxb_append_char_fast (ch " ") in
  let! uri := need (rq_uri req) in
  do! nxb_append_str uri in
  do! nxb_append_fast (bs " HTTP/1.") in
  do! nxb_append_char_fast (if rq_http11 req then ch "1" else ch "0") in
  do! nxb_make_room 100 in
  do! nxb_append_str_fast (CRLF ++ bs "Host: ") in
  let! host := need (rq_host req) in
  do! nxb_append_str host in
  do! nxb_make_room 100 in
  do! nxb_append_str_fast (CRLF ++ bs "Connection: ") in
  do! nxb_append_str_fast (if rq_keep_alive req then bs "keep-alive" else bs "close") in
  do! nxb_append_str_fast CRLF in
  do! response_time (bs "If-Modified-Since: ") 52 (rq_if_modified_since req) in
  if! rq_expect_100_continue req then nxb_append_str_fast (bs "Expect: 100-continue" ++ CRLF) in
  if rq_x_forwarded_ssl req then nxb_append_str_fast (bs "X-NXWEB-Forwarded-SSL: ON" ++ CRLF) else ret tt.

Definition client_request_fields (req : request) : M nxb_buffer unit :=
  do! append_field (bs "X-NXWEB-Forwarded-Host: ") (rq_x_forwarded_host req) in
  do! append_field (bs "X-NXWEB-Forwarded-IP: ") (rq_x_forwarded_for req) in
  do! append_uid (bs "X-NXWEB-Request-ID: ") (rq_uid req) in
  do! (match rq_parent_req req with
       | Some preq => append_uid (bs "X-NXWEB-Root-Request-ID: ") (rq_uid (root_request preq))
       | None => ret tt
       end) in
  do! (match rq_user_agent req with
       | Some ua => append_field (bs "User-Agent: ") (Some ua)
       | None => nxb_append_str (bs "User-Agent: nxweb/" ++ REVISION ++ CRLF)
       end) in
  do! append_field (bs "Cookie: ") (rq_cookie req) in
  do! append_headers (rq_headers req) in
  append_field (bs "Accept-Encoding: ") (rq_accept_encoding req).

Definition client_request_body (req : request) : M nxb_buffer unit :=
  if rq_content_length req =? 0 then ret tt else
  do! nxb_append_str (bs "Content-Type: ") in
  do! nxb_append_str (match rq_content_type req with Some s => s | None => bs "application/x-www-form-urlencoded" end) in
  do! nxb_append_str CRLF in
  do! append_length (rq_content_length req) in
  nxb_append_str CRLF.

Definition _nxweb_prepare_client_request_headers (req : request) : M nxb_buffer (nxb_loc * Z) :=
  print_object (
  do! client_request_head req in
  do! client_request_fields req in
  do! client_request_body req in
  nxb_append_fast (CRLF ++ [0])).
End with_alloc.
