(* ===== verification/ResponseText.v ===== *)
(** What the header printers of [HttpResponse] write: the text of the headers,
    as a status line and a list of name-value lines, and the proof that the
    unchecked stores stay inside the room that was reserved for them. *)
From coqutil Require Import Datatypes.RecordSetters.
From S2P Require Import Prelude CString Buffer HttpTime SimpleMap Uri HttpRequest ResponseParse HttpResponse.
Import DoubleBraceUpdate.
Open Scope Z_scope.

(** ** Texts *)

(** The decimal digits of an [unsigned long]. *)
Definition dec (n : Z) : bytes :=
  match local_text 32 (uint_to_decimal_string (wrapu 64 n) 0 32) with Ok s => s | Err _ => [] end.

Definition line (h : bytes * bytes) : bytes := fst h ++ bs ": " ++ snd h ++ CRLF.
Definition lines (l : list (bytes * bytes)) : bytes := flat_map line l.

Lemma digits_value s acc : Forall is_digit s -> 0 <= acc -> acc * 10 ^ zlen s <= fold_left dec_step s acc.
Proof.
  revert acc. induction s as [|c s IH]; intros acc Hd Ha; [change (zlen (@nil Z)) with 0; cbn; lia|].
  apply Forall_cons in Hd as [Hc Hd]. unfold is_digit in Hc. cbn [fold_left].
  rewrite zlen_cons, Z.pow_add_r by (pose proof (zlen_nonneg s); lia).
  assert (0 <= dec_step acc c) as H0 by (unfold dec_step; lia). specialize (IH _ Hd H0).
  assert (acc * 10 <= dec_step acc c) by (unfold dec_step; lia).
  assert (0 < 10 ^ zlen s) by (apply Z.pow_pos_nonneg; pose proof (zlen_nonneg s); lia). nia.
Qed.
Lemma dec_spec n : dec_value (dec n) = wrapu 64 n /\ Forall is_digit (dec n) /\ 1 <= zlen (dec n) <= 20 /\
  local_text 32 (uint_to_decimal_string (wrapu 64 n) 0 32) = Ok (dec n).
Proof.
  assert (Hn : 0 <= wrapu 64 n < 10 ^ 20) by (unfold wrapu; pose proof (Z.mod_pos_bound n (2 ^ 64)); lia).
  remember (wrapu 64 n) as u eqn:Hu.
  assert (Hw : wp (uint_to_decimal_string u 0 32) (fun p m' => exists s, cstr m' p s /\ dec_value s = u /\ Forall is_digit s /\
     s <> [] /\ (u <> 0 -> hd0 s <> ch "0") /\ (u = 0 -> s = [48])) (replicate (Z.to_nat 32) 0)).
  { destruct (decide (u = 0)) as [->|Hu0].
    - vm_compute. exists [48]. split; [|by repeat constructor]. split; [done|]. split; [|done].
      intros [|i] c; [|done]. by intros [= <-].
    - apply wp_uint_to_decimal_string; [lia|lia|done|lia|]. intros p s m' Hs Hv Hd Hne Hh _ _ _.
      exists s. split_and!; try done. }
  apply wp_elim in Hw as (p & m' & Hr & s & Hs & Hv & Hd & Hne & Hh & Hz).
  assert (HE : local_text 32 (uint_to_decimal_string u 0 32) = Ok s).
  { unfold local_text. rewrite Hr. assert (wp (read_str p) (fun t m2 => t = s) m') as (t & m2 & -> & ->)%wp_elim; [|done].
    by eapply wp_read_str. }
  unfold dec. rewrite <- Hu, HE. split; [done|]. split; [done|]. split; [|done].
  destruct s as [|c s]; [done|]. rewrite zlen_cons. pose proof (zlen_nonneg s). split; [lia|].
  destruct (decide (u = 0)) as [->|Hu0]; [injection (Hz eq_refl) as _ ->; change (zlen (@nil Z)) with 0; lia|].
  apply Forall_cons in Hd as [Hc Hd]. unfold is_digit in Hc.
  pose proof (digits_value s (c - 48) Hd ltac:(lia)) as Hle.
  assert (Hf : fold_left dec_step s (c - 48) = u) by (rewrite <- Hv; reflexivity). rewrite Hf in Hle.
  assert (1 <= c - 48) by (specialize (Hh Hu0); cbn in Hh; lia).
  assert (Hlt : 10 ^ zlen s < 10 ^ 20) by (pose proof (Z.pow_pos_nonneg 10 (zlen s)); nia).
  apply Z.pow_lt_mono_r_iff in Hlt; lia.
Qed.

(** The [k] digits of a number, the most significant first. *)
Fixpoint zeropad_text (b : Z) (dg : Z -> Z) (k : nat) (n : Z) : bytes :=
  match k with O => [] | S k' => zeropad_text b dg k' (n / b) ++ [dg n] end.
Lemma zeropad_length b dg k n : zlen (zeropad_text b dg k n) = Z.of_nat k.
Proof. revert n. induction k as [|k IH]; intros n; [done|]. cbn [zeropad_text]. rewrite zlen_app, IH, zlen_cons, zlen_nil. lia. Qed.
Definition hex16 (n : Z) : bytes := zeropad_text 16 HEX_DIGIT 16 n.

Section texts.
Variables (REVISION date : bytes).

Definition status_line (http11 : bool) (code : Z) (status : bytes) : bytes :=
  bs "HTTP/1." ++ [if http11 then ch "1" else ch "0"] ++ [32] ++ dec code ++ [32] ++ status ++ CRLF.
Definition connection (keep_alive : bool) : bytes := if keep_alive then bs "keep-alive" else bs "close".
Definition general_headers (keep_alive : bool) : list (bytes * bytes) :=
  [(bs "Server", bs "nxweb/" ++ REVISION); (bs "Date", date); (bs "Connection", connection keep_alive)].

(** The added headers that are printed: those the server does not write itself. *)
Definition added_headers (l : list header) : list (bytes * bytes) :=
  omap (fun '(n, v) => if is_own_header n then None else Some (n, default [] v)) l.

Definition time_header (name : bytes) (t : Z) : list (bytes * bytes) :=
  if t =? 0 then [] else [(name, http_time_text (gmtime t))].
Definition opt_header (name : bytes) (v : option bytes) : list (bytes * bytes) :=
  match v with Some v => [(name, v)] | None => [] end.

Definition content_headers (resp : response) : list (bytes * bytes) :=
  if rs_content_length resp =? 0 then [] else
  (bs "Content-Type", default (bs "text/html") (rs_content_type resp) ++
     match rs_content_charset resp with Some cs => bs "; charset=" ++ cs | None => [] end) ::
  (if rs_gzip_encoded resp then [(bs "Content-Encoding", bs "gzip")] else []).

(** The directives of a generated Cache-Control. *)
Definition cache_directives (resp : response) : list bytes :=
  (if rs_cache_private resp then [bs "private"] else []) ++
  (if rs_no_cache resp then [bs "no-cache"] else []) ++
  (if rs_max_age resp =? 0 then [] else
   [bs "max-age=" ++ if rs_max_age resp =? -1 then bs "0" else dec (rs_max_age resp)]).
Fixpoint comma_list (l : list bytes) : bytes :=
  match l with [] => [] | [d] => d | d :: l' => d ++ bs ", " ++ comma_list l' end.
Definition cache_headers (resp : response) : list (bytes * bytes) :=
  match rs_cache_control resp with
  | Some cc => [(bs "Cache-Control", cc)]
  | None => match cache_directives resp with [] => [] | l => [(bs "Cache-Control", comma_list l)] end
  end.

Definition framing (content_length : Z) : bytes * bytes :=
  if 0 <=? content_length then (bs "Content-Length", dec content_length)
  else (bs "Transfer-Encoding", bs "chunked").
Definition length_headers (resp : response) : list (bytes * bytes) :=
  if negb (rs_content_length resp =? 0) || negb (must_not_have_body resp)
  then [framing (rs_content_length resp)] else [].

Definition entity_headers (resp : response) : list (bytes * bytes) :=
  content_headers resp ++ time_header (bs "Last-Modified") (rs_last_modified resp) ++
  opt_header (bs "ETag") (rs_etag resp) ++ time_header (bs "Expires") (rs_expires resp) ++
  cache_headers resp ++ length_headers resp.

Definition response_text (resp : response) : bytes :=
  status_line (rs_http11 resp) (if rs_status_code resp =? 0 then 200 else rs_status_code resp)
    (default (bs "OK") (rs_status resp)) ++
  lines (general_headers (rs_keep_alive resp)) ++ lines (added_headers (rs_headers resp)) ++
  default [] (rs_extra_raw_headers resp) ++ lines (entity_headers resp) ++ CRLF ++ [0].

(** The text of a redirect. *)
Definition location_text (resp : response) (location : bytes) (secure : bool) : bytes :=
  if is_absolute location then location
  else bs "http" ++ (if secure then bs "s" else []) ++ bs "://" ++ default [] (rs_host resp) ++ location.
Definition redirect_text (resp : response) (code : Z) (location : bytes)
    (path_info : option bytes) (secure : bool) : bytes :=
  status_line (rs_http11 resp) code (redirect_status code) ++
  lines (general_headers (rs_keep_alive resp)) ++
  lines [framing 0; (bs "Location", location_text resp location secure ++ default [] path_info)] ++ CRLF ++ [0].

(** The headers of a client request. *)
Definition uid_field (name : bytes) (uid : Z) : list (bytes * bytes) :=
  if uid =? 0 then [] else [(name, hex16 uid)].
Definition flag_field (b : bool) (name value : bytes) : list (bytes * bytes) := if b then [(name, value)] else [].
Definition plain_headers (l : list header) : list (bytes * bytes) := map (fun '(n, v) => (n, default [] v)) l.
Definition client_head_fields (req : request) : list (bytes * bytes) :=
  [(bs "Host", default [] (rq_host req)); (bs "Connection", connection (rq_keep_alive req))] ++
  time_header (bs "If-Modified-Since") (rq_if_modified_since req) ++
  flag_field (rq_expect_100_continue req) (bs "Expect") (bs "100-continue") ++
  flag_field (rq_x_forwarded_ssl req) (bs "X-NXWEB-Forwarded-SSL") (bs "ON").
Definition client_fields (req : request) : list (bytes * bytes) :=
  opt_header (bs "X-NXWEB-Forwarded-Host") (rq_x_forwarded_host req) ++
  opt_header (bs "X-NXWEB-Forwarded-IP") (rq_x_forwarded_for req) ++
  uid_field (bs "X-NXWEB-Request-ID") (rq_uid req) ++
  match rq_parent_req req with
  | Some preq => uid_field (bs "X-NXWEB-Root-Request-ID") (rq_uid (root_request preq))
  | None => []
  end ++
  [(bs "User-Agent", default (bs "nxweb/" ++ REVISION) (rq_user_agent req))] ++
  opt_header (bs "Cookie") (rq_cookie req) ++ plain_headers (rq_headers req) ++
  opt_header (bs "Accept-Encoding") (rq_accept_encoding req).
Definition client_body_fields (req : request) : list (bytes * bytes) :=
  if rq_content_length req =? 0 then [] else
  [(bs "Content-Type", default (bs "application/x-www-form-urlencoded") (rq_content_type req));
   framing (rq_content_length req)].
Definition client_method (req : request) : bytes :=
  if rq_head_method req then bs "HEAD" else default [] (rq_method req).
Definition request_line (method uri : bytes) (http11 : bool) : bytes :=
  method ++ bs " " ++ uri ++ bs " HTTP/1." ++ [if http11 then ch "1" else ch "0"] ++ CRLF.
Definition client_request_text (req : request) : bytes :=
  request_line (client_method req) (default [] (rq_uri req)) (rq_http11 req) ++
  lines (client_head_fields req) ++ lines (client_fields req) ++ lines (client_body_fields req) ++ CRLF ++ [0].
End texts.

(** ** Printing as appending a text *)

Section printing.
Context `{Alloc}.
Context (alloc_total : forall n, 0 < n < 2 ^ 31 -> is_Some (nx_alloc n)).
Context (C T : Z) (L : list (nxb_loc * bytes)).
Context (HC : 0 <= C) (HT : 0 <= T) (HCT : C + T <= 2 ^ 27).

(** [emits r c t]: with [r] bytes of room, [c] extends the stream by [t]. *)
Definition emits (r : Z) (c : M nxb_buffer unit) (t : bytes) : Prop := forall s nxb,
  stream C T L s r nxb -> 0 <= r -> zlen s + zlen t + 256 <= T ->
  wp c (fun _ nxb' => stream C T L (s ++ t) 0 nxb') nxb.

Lemma emits_ret r : emits r (ret tt) [].
Proof using Type. intros s nxb Hs Hr _. apply wp_ret. rewrite app_nil_r. eapply stream_weaken; [exact Hs|lia]. Qed.
Lemma emits_weaken r r' c t : emits r c t -> 0 <= r <= r' -> emits r' c t.
Proof using Type. intros Hc Hr s nxb Hs _ Hl. apply Hc; [eapply stream_weaken; [exact Hs|lia]|lia|done]. Qed.

Lemma emits_append_then r d k t : emits (Z.max 0 (r - zlen d)) k t -> emits r (do! nxb_append d in k) (d ++ t).
Proof using alloc_total HC HT HCT.
  intros Hk s nxb Hs Hr Hl. rewrite zlen_app in Hl. pose proof (zlen_nonneg t). apply wp_bind.
  eapply (wp_append alloc_total C T L HC HT HCT); [exact Hs|lia|]. intros nxb' Hs'. rewrite app_assoc. apply Hk; [exact Hs'|lia|rewrite zlen_app; lia].
Qed.
Lemma emits_char_then r c k t : emits (Z.max 0 (r - 1)) k t -> emits r (do! nxb_append_char c in k) ([c] ++ t).
Proof using alloc_total HC HT HCT. rewrite append_char_eq. apply (emits_append_then r [c]). Qed.
Lemma emits_fast_then r d k t : zlen d <= r -> emits (r - zlen d) k t -> emits r (do! nxb_append_fast d in k) (d ++ t).
Proof using alloc_total HC HT HCT.
  intros Hd Hk s nxb Hs Hr Hl. rewrite zlen_app in Hl. pose proof (zlen_nonneg t). apply wp_bind.
  eapply (wp_append_fast C T L); [exact Hs|done|lia|]. intros nxb' Hs'. rewrite app_assoc. apply Hk; [exact Hs'|lia|rewrite zlen_app; lia].
Qed.
Lemma emits_room_then r n k t : 0 <= n <= 256 -> emits (Z.max r n) k t -> emits r (do! nxb_make_room n in k) t.
Proof using alloc_total HC HT HCT.
  intros Hn Hk s nxb Hs Hr Hl. pose proof (zlen_nonneg t). apply wp_bind.
  eapply (wp_make_room alloc_total C T L HC HT HCT); [exact Hs|lia|lia|]. intros nxb' Hs'. apply Hk; [exact Hs'|lia|done].
Qed.
Lemma emits_then r c1 c2 t1 t2 : emits r c1 t1 -> emits 0 c2 t2 -> emits r (do! c1 in c2) (t1 ++ t2).
Proof using Type.
  intros H1 H2 s nxb Hs Hr Hl. rewrite zlen_app in Hl. pose proof (zlen_nonneg t2). apply wp_bind.
  eapply wp_mono; [apply H1; [exact Hs|done|lia]|]. intros [] nxb' Hs'. rewrite app_assoc.
  apply H2; [exact Hs'|lia|rewrite zlen_app; lia].
Qed.
Lemma emits_last r c t : emits r (do! c in ret tt) t -> emits r c t.
Proof using Type. intros Hc s nxb Hs Hr Hl. apply bind_ret_r. by apply Hc. Qed.

Lemma emits_decimal_then r n k t : emits r (k (dec n)) t -> emits r (let! d := decimal_text n in k d) t.
Proof using Type.
  intros Hk s nxb Hs Hr Hl. apply wp_bind. unfold decimal_text.
  destruct (dec_spec n) as (_ & _ & _ & ->). apply wp_ret. by apply Hk.
Qed.

(** A formatter that stores its text at the stream pointer, inside [n] bytes
    of room, before the pointer is advanced. *)
Lemma wp_store_at s r n d m' (Q : unit -> nxb_buffer -> Prop) nxb :
  stream C T L s r nxb -> n <= r -> zlen d <= n -> zlen s + zlen d <= T ->
  bytes_at m' (nxb_ptr nxb) d -> same_outside (c_mem (nxb_chunk_ nxb)) m' (nxb_ptr nxb) (nxb_ptr nxb + n) ->
  (forall nxb', stream C T L (s ++ d) (r - zlen d) nxb' -> Q tt nxb') ->
  Q tt (set_ptr (nxb_ptr nxb + zlen d) (set_chunk_mem m' nxb)).
Proof using Type.
  intros (Hwf & [Hu Hp] & HsT & Hr & Hcap & HL) Hn Hd Hl Hm Hsame HQ. destruct Hwf as (Hbp & Hpe & Hids & Hid).
  unfold chunk_size in *. pose proof (zlen_nonneg s). pose proof (zlen_nonneg d).
  pose proof (same_outside_zlen _ _ _ _ Hsame) as Hlen. apply HQ.
  unfold stream, nxb_wf, unfinished_is, chunk_size. cbn. rewrite Hlen, zlen_app. split_and!; try done; try lia.
  - apply bytes_at_app. split; [eapply same_outside_bytes_at; [exact Hsame|done|lia]|by rewrite <- Hp].
  - apply Forall_forall. intros o Ho%(proj1 (Forall_forall _ _) HL).
    pose proof (live_store _ _ _ _ _ Hsame ltac:(lia) ltac:(lia) Ho) as Ho'.
    apply (live_ptrs _ (nxb_base nxb) (nxb_ptr nxb + zlen d) (nxb_end nxb)) in Ho'; [done|naive_solver..].
Qed.

(** The times that print with a year of four digits. *)
Definition time_ok (t : Z) : Prop := 0 <= tm_year (gmtime t) <= 1000.

Lemma emits_time_then r t k txt : time_ok t -> 30 <= r ->
  emits (r - zlen (http_time_text (gmtime t))) k txt ->
  emits r (do! append_time t in k) (http_time_text (gmtime t) ++ txt).
Proof using HC HT.
  intros Ht Hr30 Hk s nxb Hs Hr Hl. destruct (gmtime_ok t) as [Hok _].
  pose proof (http_time_text_facts _ Hok) as [Hlen _]. rewrite zlen_app in Hl. pose proof (zlen_nonneg txt).
  apply wp_bind. unfold append_time. apply wp_bind, wp_get, wp_bind, wp_on_chunk.
  pose proof Hs as (Hwf & [Hu Hp] & HsT & Hroom & Hcap & HL). destruct Hwf as (Hbp & Hpe & Hids & Hid).
  unfold chunk_size in *. apply wp_format_http_time; [lia|lia|done|done|].
  intros m' [Hm _]%bytes_at_app Hso. unfold nxb_blank_fast. apply wp_modify.
  apply (wp_store_at s r 30 (http_time_text (gmtime t)) m' (fun _ n => wp k (fun _ nxb' => stream C T L (s ++ _ ++ txt) 0 nxb') n) nxb);
    [done|lia|lia|lia|done|done|].
  intros nxb' Hs'. rewrite app_assoc. apply Hk; [exact Hs'|lia|rewrite zlen_app; lia].
Qed.


Lemma wp_zeropad_text b dg n buf k m (Q : Z -> list Z -> Prop) :
  (forall x, is_byte (dg x)) -> 0 <= buf -> buf + Z.of_nat k <= zlen m ->
  (forall m', bytes_at m' buf (zeropad_text b dg k n) -> same_outside m m' buf (buf + Z.of_nat k) -> Q buf m') ->
  wp (digits_zeropad b dg n buf (Z.of_nat k) false) Q m.
Proof using Type.
  intros Hdg Hb Hm HQ. unfold digits_zeropad. apply wp_bind, wp_ret, wp_bind.
  eapply (wp_mem_loop (fun '(p, n', j) m' => exists i sfx, j = Z.of_nat i /\ p = buf + j /\ (i <= k)%nat /\
      zeropad_text b dg k n = zeropad_text b dg i n' ++ sfx /\ bytes_at m' p sfx /\
      same_outside m m' buf (buf + Z.of_nat k)) (fun '(p, _, _) => Z.to_nat (p - buf))).
  - exists k, []. rewrite app_nil_r. by split_and!.
  - unfold zlen in *. lia.
  - intros [[p n'] j] m' (i & sfx & -> & -> & Hi & Heq & Hs & Hso). pose proof (same_outside_zlen _ _ _ _ Hso) as Hlen.
    destruct (Z.eqb_spec (Z.of_nat i) 0) as [Hz|Hz].
    + apply wp_ret, wp_ret. apply HQ; [|done]. assert (i = 0%nat) as -> by lia. rewrite Heq. cbn. by rewrite Z.add_0_r in Hs.
    + destruct i as [|i]; [lia|]. cbn [zeropad_text] in Heq. rewrite <- app_assoc in Heq. apply wp_bind, wp_wr; [lia|].
      rewrite wrapu_small by apply Hdg. apply wp_ret. split; [|lia]. exists i, ([dg n'] ++ sfx).
      split; [lia|]. split; [lia|]. split; [lia|]. split; [exact Heq|]. split.
      * cbn [app]. apply bytes_at_cons. split; [apply peek_poke_eq; lia|].
        replace (buf + Z.of_nat (S i) - 1 + 1) with (buf + Z.of_nat (S i)) by lia. apply bytes_at_poke; [exact Hs|lia|lia].
      * eapply same_outside_trans; [exact Hso|]. apply same_outside_poke; lia.
Qed.

Lemma emits_hex_then r n k txt : 0 <= r -> emits 0 k txt -> emits r (do! nxb_append_uint64_hex_zeropad n 16 in k) (hex16 n ++ txt).
Proof using alloc_total HC HT HCT.
  intros Hr0 Hk s nxb Hs Hr Hl. assert (H16 : zlen (hex16 n) = 16) by apply zeropad_length.
  rewrite zlen_app in Hl. pose proof (zlen_nonneg txt). apply wp_bind. unfold nxb_append_uint64_hex_zeropad. apply wp_bind.
  eapply (wp_make_room alloc_total C T L HC HT HCT); [exact Hs|lia|lia|]. clear dependent nxb. intros nxb Hs.
  apply wp_bind, wp_get, wp_bind, wp_on_chunk.
  pose proof Hs as (Hwf & [Hu Hp] & HsT & Hroom & Hcap & HL). destruct Hwf as (Hbp & Hpe & Hids & Hid).
  unfold chunk_size in *. pose proof (zlen_nonneg s).
  apply (wp_zeropad_text 16 HEX_DIGIT n (nxb_ptr nxb) 16); [apply HEX_DIGIT_spec|lia|lia|].
  intros m' Hm Hso. apply wp_modify.
  assert (HQ := wp_store_at s (Z.max r 16) 16 (hex16 n) m'
    (fun _ nx => wp k (fun _ nxb' => stream C T L (s ++ hex16 n ++ txt) 0 nxb') nx) nxb Hs ltac:(lia) ltac:(lia) ltac:(lia) Hm Hso).
  rewrite H16 in HQ. apply HQ.
  intros nxb' Hs'. rewrite app_assoc. apply Hk; [eapply stream_weaken; [exact Hs'|lia]|lia|rewrite zlen_app; lia].
Qed.

Lemma emits_assoc {A B} r (a : M nxb_buffer A) (f : A -> M nxb_buffer B) (k : B -> M nxb_buffer unit) t :
  emits r (let! x := a in let! y := f x in k y) t -> emits r (let! y := (let! x := a in f x) in k y) t.
Proof using Type.
  intros Hc s nxb Hs Hr Hl. specialize (Hc s nxb Hs Hr Hl). revert Hc. unfold wp, bind. by destruct (a nxb) as [[x n]|].
Qed.
Lemma emits_ret_then {A} r (x : A) (k : A -> M nxb_buffer unit) t : emits r (k x) t -> emits r (let! y := ret x in k y) t.
Proof using Type. done. Qed.
Lemma emits_eq r c t t' : emits r c t -> t = t' -> emits r c t'.
Proof using Type. by intros ? <-. Qed.
Lemma emits_reserve r n k t : 0 <= n <= 256 -> emits n k t -> emits r (do! nxb_make_room n in k) t.
Proof using alloc_total HC HT HCT.
  intros Hn Hk. apply emits_room_then; [done|]. eapply emits_weaken; [exact Hk|lia].
Qed.
End printing.

(** [emit] walks a printer; [room] settles that a store fits. *)
Ltac room :=
  repeat match goal with
  | |- context [dec ?n] => lazymatch goal with H : 1 <= zlen (dec n) <= 20 |- _ => fail | _ =>
      pose proof (proj1 (proj2 (proj2 (dec_spec n)))) end
  end;
  unfold CRLF; repeat match goal with |- context [if ?b then _ else _] => destruct b end;
  autorewrite with nxlen; lia.
Section pieces.
Context `{Alloc}.
Context (alloc_total : forall n, 0 < n < 2 ^ 31 -> is_Some (nx_alloc n)).
Context (C T : Z) (L : list (nxb_loc * bytes)).
Context (HC : 0 <= C) (HT : 0 <= T) (HCT : C + T <= 2 ^ 27).
Local Abbreviation prints := (emits C T L).

Local Ltac emit := repeat first
  [ apply emits_ret
  | lazymatch goal with
    | |- emits _ _ _ _ (bind (nxb_append_fast _) _) _ => eapply (emits_fast_then alloc_total C T L HC HT HCT); [room|]
    | |- emits _ _ _ _ (bind (nxb_append_str_fast _) _) _ => eapply (emits_fast_then alloc_total C T L HC HT HCT); [room|]
    | |- emits _ _ _ _ (bind (nxb_append_char_fast _) _) _ => eapply (emits_fast_then alloc_total C T L HC HT HCT); [room|]
    | |- emits _ _ _ _ (bind (nxb_append _) _) _ => eapply (emits_append_then alloc_total C T L HC HT HCT)
    | |- emits _ _ _ _ (bind (nxb_append_str _) _) _ => eapply (emits_append_then alloc_total C T L HC HT HCT)
    | |- emits _ _ _ _ (bind (nxb_append_char _) _) _ => eapply (emits_char_then alloc_total C T L HC HT HCT)
    | |- emits _ _ _ _ (bind (nxb_make_room _) _) _ => eapply (emits_room_then alloc_total C T L HC HT HCT); [lia|]
    | |- emits _ _ _ _ (bind (decimal_text _) _) _ => apply (emits_decimal_then C T L); cbn beta
    | |- emits _ _ _ _ (bind (append_time _) _) _ => eapply (emits_time_then C T L HC HT); [assumption|room|]
    | |- emits _ _ _ _ (bind (nxb_append_uint64_hex_zeropad _ 16) _) _ => eapply (emits_hex_then alloc_total C T L HC HT HCT); [lia|]
    | |- emits _ _ _ _ (bind (if ?b then _ else _) _) _ => destruct b
    | |- emits _ _ _ _ (bind (bind _ _) _) _ => apply emits_assoc; cbn beta
    | |- emits _ _ _ _ (bind (ret ?x) _) _ => apply emits_ret_then; cbn beta iota
    | |- emits _ _ _ _ (nxb_append_fast _) _ => apply emits_last
    | |- emits _ _ _ _ (nxb_append_str_fast _) _ => apply emits_last
    | |- emits _ _ _ _ (nxb_append _) _ => apply emits_last
    | |- emits _ _ _ _ (nxb_append_str _) _ => apply emits_last
    | |- emits _ _ _ _ (nxb_append_char _) _ => apply emits_last
    | |- emits _ _ _ _ (if ?b then _ else _) _ => destruct b
    end ].
Local Ltac emitted := eapply emits_eq; [emit|].

(** Equality of two texts made of the same pieces. *)
Local Ltac same_text := unfold lines, line, opt_header, CRLF; cbn [flat_map fst snd]; cbn [comma_list foldr app flat_map fst snd]; rewrite ?app_nil_r; repeat (rewrite <- app_assoc; cbn [app]); reflexivity.

Lemma emits_added r l : 0 <= r -> Forall (fun '(n, v) => v <> None) l ->
  prints r (_nxweb_add_extra_response_headers l) (lines (added_headers l)).
Proof using alloc_total HC HT HCT.
  intros Hr Hl. revert r Hr. induction Hl as [|[n v] l Hv Hl IH]; intros r Hr; [apply emits_ret|].
  cbn [_nxweb_add_extra_response_headers added_headers omap list_omap]. destruct (is_own_header n); [by apply IH|].
  destruct v as [v|]; [|done].
  eapply emits_eq; [emit; apply IH; lia|]. same_text.
Qed.

Variables (REVISION date : bytes).
Hypothesis Hrev : zlen REVISION <= 80.
Hypothesis Hdate : zlen date <= 31.

Lemma emits_response_head resp r : 0 <= r ->
  prints r (response_head REVISION resp date)
    (status_line (rs_http11 resp) (if rs_status_code resp =? 0 then 200 else rs_status_code resp) (default (bs "OK") (rs_status resp)) ++
     lines (general_headers REVISION date (rs_keep_alive resp))).
Proof using alloc_total HC HT HCT Hrev Hdate.
  intros Hr. unfold response_head. eapply emits_eq; [emit|].
  unfold status_line, general_headers, connection. same_text.
Qed.

Lemma emits_opt r o : 0 <= r -> prints r (append_opt o) (default [] o).
Proof using alloc_total HC HT HCT. intros Hr. destruct o; cbn; [|apply emits_ret]. eapply emits_eq; [emit|]. same_text. Qed.

Lemma emits_content r resp : 0 <= r -> prints r (response_content_type resp) (lines (content_headers resp)).
Proof using alloc_total HC HT HCT.
  intros Hr. unfold response_content_type, content_headers. destruct (_ =? 0); [apply emits_ret|].
  destruct (rs_content_charset resp), (rs_content_type resp), (rs_gzip_encoded resp);
    (eapply emits_eq; [emit|]); same_text.
Qed.

Lemma emits_time r name room t : 0 <= r -> zlen name + 33 <= room <= 256 -> (t <> 0 -> time_ok t) ->
  prints r (response_time (name ++ bs ": ") room t) (lines (time_header name t)).
Proof using alloc_total HC HT HCT.
  intros Hr Hroom Ht. unfold response_time, time_header. destruct (Z.eqb_spec t 0); [apply emits_ret|].
  specialize (Ht n). pose proof (zlen_nonneg name). pose proof (http_time_text_facts _ (proj1 (gmtime_ok t))) as [Hlen _].
  eapply emits_eq; [emit|]. same_text.
Qed.

Lemma emits_etag r resp : 0 <= r -> prints r (response_etag resp) (lines (opt_header (bs "ETag") (rs_etag resp))).
Proof using alloc_total HC HT HCT.
  intros Hr. unfold response_etag. destruct (rs_etag resp); [|apply emits_ret]. eapply emits_eq; [emit|]. same_text.
Qed.

Lemma emits_cache r resp : 0 <= r -> prints r (response_cache resp) (lines (cache_headers resp)).
Proof using alloc_total HC HT HCT.
  intros Hr. unfold response_cache, cache_headers, cache_directives, append_comma.
  destruct (rs_cache_control resp); [eapply emits_eq; [emit|]; same_text|].
  destruct (rs_no_cache resp), (rs_cache_private resp); destruct (Z.eqb_spec (rs_max_age resp) 0); cbn [orb negb];
    try (apply emits_ret); destruct (rs_max_age resp =? -1);
    (eapply emits_eq; [emit|]); same_text.
Qed.

Lemma emits_framing r len : 0 <= r -> prints r (do! append_length len in nxb_append_fast CRLF) (line (framing len)).
Proof using alloc_total HC HT HCT.
  intros Hr. unfold append_length, framing. destruct (0 <=? len); eapply emits_eq; [emit| |emit|].
  all: same_text.
Qed.
Lemma emits_length_header r resp : 0 <= r -> prints r (response_length_header resp) (lines (length_headers resp)).
Proof using alloc_total HC HT HCT.
  intros Hr. unfold response_length_header, length_headers. destruct (_ || _); [|apply emits_ret].
  eapply emits_eq; [by apply emits_framing|]. cbn [lines flat_map]. by rewrite app_nil_r.
Qed.

Lemma emits_location r resp location secure : 0 <= r -> (is_absolute location = false -> rs_host resp <> None) ->
  prints r (append_location resp location secure) (location_text resp location secure).
Proof using alloc_total HC HT HCT.
  intros Hr Hhost. unfold append_location, location_text. destruct (is_absolute location).
  - eapply emits_eq; [emit|]. same_text.
  - destruct (rs_host resp); [|by destruct Hhost]. destruct secure; (eapply emits_eq; [emit|]); same_text.
Qed.

Lemma emits_redirect_head r resp code status : 0 <= r -> zlen REVISION <= 60 -> zlen status <= 17 ->
  rs_status resp = Some status ->
  prints r (redirect_head REVISION date resp code)
    (status_line (rs_http11 resp) code status ++ lines (general_headers REVISION date (rs_keep_alive resp)) ++
     line (framing 0) ++ bs "Location: ").
Proof using alloc_total HC HT HCT Hdate.
  intros Hr Hrev2 Hst Hs. unfold redirect_head. rewrite Hs. cbn [append_opt]. eapply emits_eq; [emit|].
  unfold status_line, general_headers, connection. change (framing 0) with (bs "Content-Length", bs "0"). same_text.
Qed.

Lemma emits_client_head r req host : 0 <= r -> rq_host req = Some host ->
  rq_head_method req = true \/ rq_method req <> None -> rq_uri req <> None ->
  zlen (client_method req) + zlen (default [] (rq_uri req)) <= 240 ->
  (rq_if_modified_since req <> 0 -> time_ok (rq_if_modified_since req)) ->
  rq_if_modified_since req = 0 \/ rq_x_forwarded_ssl req = false ->
  prints r (client_request_head req)
    (request_line (client_method req) (default [] (rq_uri req)) (rq_http11 req) ++ lines (client_head_fields req)).
Proof using alloc_total HC HT HCT.
  intros Hr Hh Hm Hu Hlen Ht Hssl. unfold client_request_head, client_method, request_line, client_head_fields, connection, time_header, flag_field, response_time in *.
  rewrite Hh. cbn [need default from_option id].
  destruct (rq_uri req) as [uri|]; [|done]. pose proof (zlen_nonneg uri). cbn [need default from_option id] in *.
  pose proof (http_time_text_facts _ (proj1 (gmtime_ok (rq_if_modified_since req)))) as [Htl _].
  destruct (Z.eqb_spec (rq_if_modified_since req) 0) as [E|E].
  - destruct (rq_head_method req); [|destruct (rq_method req) as [m|]; [|naive_solver]]; cbn [default from_option need id] in *; autorewrite with nxlen in Hlen;
    destruct (rq_expect_100_continue req), (rq_x_forwarded_ssl req); (eapply emits_eq; [emit|]); same_text.
  - specialize (Ht E). destruct Hssl as [Hssl|Hssl]; [done|]. rewrite Hssl.
    destruct (rq_head_method req); [|destruct (rq_method req) as [m|]; [|naive_solver]]; cbn [default from_option need id] in *; autorewrite with nxlen in Hlen;
    destruct (rq_expect_100_continue req); (eapply emits_eq; [emit|]); same_text.
Qed.

Lemma emits_field r name v : 0 <= r -> prints r (append_field (name ++ bs ": ") v) (lines (opt_header name v)).
Proof using alloc_total HC HT HCT.
  intros Hr. unfold append_field. destruct v; [|apply emits_ret]. eapply emits_eq; [emit|]. same_text.
Qed.
Lemma emits_uid r name uid : 0 <= r -> prints r (append_uid (name ++ bs ": ") uid) (lines (uid_field name uid)).
Proof using alloc_total HC HT HCT.
  intros Hr. unfold append_uid, uid_field. destruct (uid =? 0); [apply emits_ret|]. eapply emits_eq; [emit|]. same_text.
Qed.
Lemma emits_plain r l : 0 <= r -> Forall (fun '(n, v) => v <> None) l ->
  prints r (append_headers l) (lines (plain_headers l)).
Proof using alloc_total HC HT HCT.
  intros Hr Hl. revert r Hr. induction Hl as [|[n v] l Hv Hl IH]; intros r Hr; [apply emits_ret|].
  cbn [append_headers plain_headers map]. destruct v as [v|]; [|done].
  eapply emits_eq; [emit; apply IH; lia|]. same_text.
Qed.
Lemma emits_client_fields r req : 0 <= r -> Forall (fun '(n, v) => v <> None) (rq_headers req) ->
  prints r (client_request_fields REVISION req) (lines (client_fields REVISION req)).
Proof using alloc_total HC HT HCT.
  intros Hr Hl. unfold client_request_fields, client_fields, lines. rewrite !flat_map_app.
  apply emits_then; [by apply (emits_field r (bs "X-NXWEB-Forwarded-Host"))|].
  apply emits_then; [by apply (emits_field 0 (bs "X-NXWEB-Forwarded-IP"))|].
  apply emits_then; [by apply (emits_uid 0 (bs "X-NXWEB-Request-ID"))|].
  apply emits_then; [destruct (rq_parent_req req); [by apply (emits_uid 0 (bs "X-NXWEB-Root-Request-ID"))|apply emits_ret]|].
  apply emits_then.
  { destruct (rq_user_agent req) as [ua|]; [by apply (emits_field 0 (bs "User-Agent") (Some ua))|].
    eapply emits_eq; [emit|]. cbn [default from_option]. same_text. }
  apply emits_then; [by apply (emits_field 0 (bs "Cookie"))|].
  apply emits_then; [by apply emits_plain|].
  by apply (emits_field 0 (bs "Accept-Encoding")).
Qed.

(** With a body the request ends inside the room of its length header. *)
Lemma emits_client_body r req : 0 <= r -> rq_content_length req <> 0 ->
  prints r (do! client_request_body req in nxb_append_fast (CRLF ++ [0])) (lines (client_body_fields req) ++ CRLF ++ [0]).
Proof using alloc_total HC HT HCT.
  intros Hr Hl. unfold client_request_body, client_body_fields, append_length, framing.
  destruct (Z.eqb_spec (rq_content_length req) 0) as [E|E]; [done|].
  destruct (0 <=? rq_content_length req); destruct (rq_content_type req); cbn [default from_option id];
    (eapply emits_eq; [emit|]); same_text.
Qed.
End pieces.

(** ** The header block *)

Section block.
Context `{Alloc}.
Context (alloc_total : forall n, 0 < n < 2 ^ 31 -> is_Some (nx_alloc n)).
Implicit Types (nxb : nxb_buffer) (L : list (nxb_loc * bytes)).

Lemma wp_start_print L s nxb (Q : unit -> nxb_buffer -> Prop) :
  (forall nxb', buffer_ok L [] nxb' -> chunk_size (nxb_chunk_ nxb') = chunk_size (nxb_chunk_ nxb) -> Q tt nxb') ->
  buffer_ok L s nxb -> wp nxb_start_stream Q nxb.
Proof using Type.
  intros HQ (Hwf & [Hu Hp] & HL). pose proof (zlen_nonneg s). destruct Hwf as (Hbp & Hpe & Hids & Hid). unfold nxb_start_stream.
  apply wp_bind, wp_get. destruct (Z.eqb_spec (nxb_ptr nxb) (nxb_base nxb)) as [He|He].
  - apply wp_ret, HQ; [|done]. split_and!; [done| |done]. split; [apply bytes_at_nil|rewrite zlen_nil; lia].
  - apply wp_modify, HQ; [|done]. split; [|split; [split; [apply bytes_at_nil|cbn; rewrite zlen_nil; lia]|]].
    + unfold nxb_wf, chunk_size in *. cbn. split_and!; try done; lia.
    + apply Forall_forall. intros o Ho%(proj1 (Forall_forall _ _) HL). revert Ho. apply live_ptrs; naive_solver.
Qed.

Lemma finish_stream_place nxb r nxb' : nxb_finish_stream nxb = Ok (r, nxb') ->
  chunk_size (nxb_chunk_ nxb') = chunk_size (nxb_chunk_ nxb) /\ l_chunk (fst r) = c_id (nxb_chunk_ nxb').
Proof using Type. by intros [= <- <-]. Qed.

(** A printer between [nxb_start_stream] and [nxb_finish_stream] makes an
    object with the text it emits, in a chunk whose size is bounded. *)
Lemma wp_print_sized L s nxb c t (Q : nxb_loc * Z -> nxb_buffer -> Prop) :
  buffer_ok L s nxb -> chunk_size (nxb_chunk_ nxb) + zlen t + 256 <= 2 ^ 27 ->
  emits (chunk_size (nxb_chunk_ nxb)) (zlen t + 256) L 0 c t ->
  (forall l nxb', buffer_ok ((l, t) :: L) [] nxb' ->
     chunk_size (nxb_chunk_ nxb') <= 2 * (chunk_size (nxb_chunk_ nxb) + zlen t + 256) + 22 ->
     l_chunk l = c_id (nxb_chunk_ nxb') -> Q (l, zlen t) nxb') ->
  wp (print_object c) Q nxb.
Proof using Type.
  intros Hok Hbig Hc HQ. pose proof (zlen_nonneg t). apply wp_bind. eapply wp_start_print; [|exact Hok].
  intros nxb0 Hok0 Hcs. pose proof (zlen_nonneg (c_mem (nxb_chunk_ nxb))) as HC. fold (chunk_size (nxb_chunk_ nxb)) in HC.
  apply wp_bind. eapply wp_mono.
  - apply Hc; [rewrite <- Hcs; apply buffer_ok_stream; [exact Hok0|rewrite zlen_nil; lia]|lia|rewrite zlen_nil; lia].
  - intros [] nxb1 H1. pose proof H1 as (_ & _ & _ & _ & Hsz & _).
    assert (Hw : wp nxb_finish_stream (fun r nxb2 => exists l, r = (l, zlen t) /\ buffer_ok ((l, t) :: L) [] nxb2) nxb1).
    { eapply wp_finish_stream; [exact H1|]. intros l nxb2 Hl HL Hwf Hu. exists l. split; [done|]. split; [done|]. split; [done|]. by constructor. }
    apply wp_elim in Hw as (r & nxb2 & He & l & -> & Hok2). eapply wp_intro; [exact He|].
    destruct (finish_stream_place _ _ _ He) as [Hcs2 Hcid]. apply HQ; [done|rewrite Hcs2; lia|done].
Qed.
Lemma wp_print L s nxb c t (Q : nxb_loc * Z -> nxb_buffer -> Prop) :
  buffer_ok L s nxb -> chunk_size (nxb_chunk_ nxb) + zlen t + 256 <= 2 ^ 27 ->
  emits (chunk_size (nxb_chunk_ nxb)) (zlen t + 256) L 0 c t ->
  (forall l nxb', buffer_ok ((l, t) :: L) [] nxb' -> Q (l, zlen t) nxb') ->
  wp (print_object c) Q nxb.
Proof using Type. intros Hok Hbig Hc HQ. eapply wp_print_sized; [exact Hok|exact Hbig|exact Hc|]. intros l nxb' Hl _ _. by apply HQ. Qed.

Definition value_given (h : header) : Prop := snd h <> None.

(** What a header block of a response may hold. *)
Definition headers_given (resp : response) : Prop :=
  Forall value_given (rs_headers resp) /\ (rs_last_modified resp <> 0 -> time_ok (rs_last_modified resp)) /\
  (rs_expires resp <> 0 -> time_ok (rs_expires resp)).

Lemma wp_prepare_response_headers L s nxb REVISION date resp (Q : nxb_loc * Z -> nxb_buffer -> Prop) :
  buffer_ok L s nxb ->
  let text := response_text REVISION date resp in
  chunk_size (nxb_chunk_ nxb) + zlen text + 256 <= 2 ^ 27 ->
  zlen REVISION <= 80 -> zlen date <= 31 -> headers_given resp ->
  (forall l nxb', buffer_ok ((l, text) :: L) [] nxb' -> l_chunk l = c_id (nxb_chunk_ nxb') -> Q (l, zlen text) nxb') ->
  wp (_nxweb_prepare_response_headers REVISION date resp) Q nxb.
Proof using alloc_total.
  intros Hok text Hbig Hrev Hdate (Hh & Hlm & Hex) HQ. pose proof (zlen_nonneg text). pose proof (zlen_nonneg (c_mem (nxb_chunk_ nxb))).
  unfold chunk_size in Hbig. eapply wp_print_sized; [exact Hok|exact Hbig| |intros l nxb' Hl _ Hc; by apply HQ].
  set (C := chunk_size _). set (T := zlen text + 256).
    assert (HC : 0 <= C) by done. assert (HT : 0 <= T) by (unfold T; lia). assert (HCT : C + T <= 2 ^ 27) by (unfold C, T, chunk_size; lia).
    assert (Hadd : Forall (fun '(n, v) => v <> None) (rs_headers resp)).
    { eapply Forall_impl; [exact Hh|]. by intros [n v]. }
    eapply emits_eq.
    - eapply emits_then; [by apply (emits_response_head alloc_total C T L HC HT HCT)|].
      eapply emits_then; [by apply (emits_added alloc_total C T L HC HT HCT)|].
      eapply emits_then; [by apply (emits_opt alloc_total C T L HC HT HCT)|].
      eapply emits_then; [by apply (emits_content alloc_total C T L HC HT HCT)|].
      eapply emits_then; [apply (emits_time alloc_total C T L HC HT HCT 0 (bs "Last-Modified") 48); [lia|split; vm_compute; congruence|done]|].
      eapply emits_then; [by apply (emits_etag alloc_total C T L HC HT HCT)|].
      eapply emits_then; [apply (emits_time alloc_total C T L HC HT HCT 0 (bs "Expires") 42); [lia|split; vm_compute; congruence|done]|].
      eapply emits_then; [by apply (emits_cache alloc_total C T L HC HT HCT)|].
      eapply emits_then; [by apply (emits_length_header alloc_total C T L HC HT HCT)|].
      apply emits_last. apply (emits_append_then alloc_total C T L HC HT HCT). apply emits_ret.
    - unfold text, response_text, entity_headers, lines. rewrite !flat_map_app, app_nil_r. repeat rewrite <- app_assoc. done.
Qed.

(** C34: [_nxweb_prepare_response_headers] prints exactly the status line, the
    general headers, the added headers the server does not own, the raw ones
    and the entity headers, in that order, each on a line of its own; every
    unchecked store fits the room reserved for it, and no object or byte of
    the buffer outside the printed text changes. *)
Theorem prepare_response_headers_text L s nxb REVISION date resp :
  buffer_ok L s nxb ->
  let text := response_text REVISION date resp in
  chunk_size (nxb_chunk_ nxb) + zlen text + 256 <= 2 ^ 27 ->
  zlen REVISION <= 80 -> zlen date <= 31 -> Forall value_given (rs_headers resp) ->
  (rs_last_modified resp <> 0 -> time_ok (rs_last_modified resp)) ->
  (rs_expires resp <> 0 -> time_ok (rs_expires resp)) ->
  exists l nxb', _nxweb_prepare_response_headers REVISION date resp nxb = Ok (l, zlen text, nxb') /\
    buffer_ok ((l, text) :: L) [] nxb'.
Proof using alloc_total.
  intros Hok text Hbig Hrev Hdate Hh Hlm Hex.
  assert (Hw : wp (_nxweb_prepare_response_headers REVISION date resp)
    (fun r nxb' => snd r = zlen text /\ buffer_ok ((fst r, text) :: L) [] nxb') nxb).
  { by eapply wp_prepare_response_headers. }
  apply wp_elim in Hw as ([l n] & nxb' & He & Hn & Hok'). cbn in Hn, Hok'. subst n. eauto.
Qed.

(** The object last made is in the current chunk. *)
Lemma live_current nxb l b : nxb_wf nxb -> live nxb (l, b) -> l_chunk l = c_id (nxb_chunk_ nxb) -> 0 <= l_off l /\ bytes_at (c_mem (nxb_chunk_ nxb)) (l_off l) b.
Proof using Type.
  intros (_ & _ & Hids & _) [H0 Hl] Hc. split; [done|]. destruct Hl as [(c & Hin & Hid & _)|(_ & Hb & _)]; [|done].
  rewrite Forall_forall in Hids. specialize (Hids c Hin). lia.
Qed.

(** The text of an error page. *)
Definition error_text (REVISION message : bytes) : bytes := response_body1 ++ message ++ response_body2 ++ message ++ response_body3 REVISION.

Lemma wp_send_http_error L s nxb REVISION resp code message (Q : response * (nxb_loc * Z) -> nxb_buffer -> Prop) :
  buffer_ok L s nxb -> let text := error_text REVISION message in
  chunk_size (nxb_chunk_ nxb) + zlen text + 256 <= 2 ^ 27 ->
  (forall l nxb', buffer_ok ((l, text) :: L) [] nxb' ->
     chunk_size (nxb_chunk_ nxb') <= 2 * (chunk_size (nxb_chunk_ nxb) + zlen text + 256) + 22 ->
     Q (no_sendfile ((nxweb_set_response_status resp code (Some message)){{rs_content := Some text; rs_content_length := zlen text;
          rs_content_type := Some (bs "text/html")}}), (l, zlen text)) nxb') ->
  wp (nxweb_send_http_error REVISION resp code message) Q nxb.
Proof using alloc_total.
  intros Hok text Hbig HQ. pose proof (zlen_nonneg text). pose proof (zlen_nonneg (c_mem (nxb_chunk_ nxb))). unfold chunk_size in Hbig.
  unfold nxweb_send_http_error. cbv zeta. apply wp_bind. eapply (wp_print_sized L s nxb _ text); [exact Hok|exact Hbig| |].
  - set (C := chunk_size _). set (T := zlen text + 256).
    assert (HC : 0 <= C) by done. assert (HT : 0 <= T) by (unfold T; lia). assert (HCT : C + T <= 2 ^ 27) by (unfold C, T, chunk_size; lia).
    eapply emits_eq; [do 4 apply (emits_append_then alloc_total C T L HC HT HCT); apply emits_last; apply (emits_append_then alloc_total C T L HC HT HCT); apply emits_ret|].
    unfold text, error_text. by rewrite app_nil_r.
  - intros l nxb' Hl Hcs _. apply wp_ret. by apply HQ.
Qed.


(** A redirect answers with the status line of its code, the general
    headers, an empty body and a Location: the location itself when it is
    absolute, otherwise the scheme and the host of the request before it; the
    text fits the 250 bytes that are stored without further checks. *)
Theorem send_redirect_text L s nxb REVISION date resp code location path_info secure :
  buffer_ok L s nxb ->
  let text := redirect_text REVISION date resp code location path_info secure in
  chunk_size (nxb_chunk_ nxb) + zlen text + 256 <= 2 ^ 27 ->
  zlen REVISION <= 60 -> zlen date <= 31 -> (is_absolute location = false -> rs_host resp <> None) ->
  exists l nxb', nxweb_send_redirect2 REVISION date resp code location path_info secure nxb =
      Ok (redirect_response resp code, (l, zlen text), nxb') /\ buffer_ok ((l, text) :: L) [] nxb'.
Proof using alloc_total.
  intros Hok text Hbig Hrev Hdate Hhost. pose proof (zlen_nonneg text). pose proof (zlen_nonneg (c_mem (nxb_chunk_ nxb))).
  unfold chunk_size in Hbig.
  assert (Hw : wp (nxweb_send_redirect2 REVISION date resp code location path_info secure)
    (fun r nxb' => fst r = redirect_response resp code /\ snd (snd r) = zlen text /\
                   buffer_ok ((fst (snd r), text) :: L) [] nxb') nxb).
  { unfold nxweb_send_redirect2. apply wp_bind. eapply wp_print; [exact Hok|exact Hbig| |].
    2:{ intros l nxb' Hl. by apply wp_ret. }
    set (C := chunk_size _). set (T := zlen text + 256).
    assert (HC : 0 <= C) by done. assert (HT : 0 <= T) by (unfold T; lia). assert (HCT : C + T <= 2 ^ 27) by (unfold C, T, chunk_size; lia).
    eapply emits_eq.
    - eapply emits_then; [eapply (emits_redirect_head alloc_total C T L HC HT HCT REVISION date Hdate); [lia|done| |done]|].
      { unfold redirect_status. repeat case_match; vm_compute; congruence. }
      eapply emits_then; [by apply (emits_location alloc_total C T L HC HT HCT 0 (redirect_response resp code) location secure)|].
      eapply emits_then; [by apply (emits_opt alloc_total C T L HC HT HCT)|].
      apply emits_last. apply (emits_append_then alloc_total C T L HC HT HCT). apply emits_ret.
    - unfold text, redirect_text. cbn [lines flat_map line fst snd]. unfold lines, line. cbn [flat_map fst snd].
      rewrite ?app_nil_r. repeat rewrite <- app_assoc. done. }
  apply wp_elim in Hw as ((re & l & n) & nxb' & He & Hre & Hn & Hok'). cbn in Hre, Hn, Hok'. subst. eauto.
Qed.

Definition client_request_ok (req : request) : Prop :=
  rq_host req <> None /\ rq_uri req <> None /\ (rq_head_method req = true \/ rq_method req <> None) /\
  Forall value_given (rq_headers req) /\ (rq_if_modified_since req <> 0 -> time_ok (rq_if_modified_since req)).

End block.


(** ** Framing *)

(** The headers that tell where a body ends. *)
Definition is_framing (h : bytes * bytes) : Prop :=
  nx_strtolower (fst h) = bs "content-length" \/ nx_strtolower (fst h) = bs "transfer-encoding".
#[export] Instance is_framing_dec h : Decision (is_framing h).
Proof. unfold is_framing. apply _. Defined.

Definition response_fields (REVISION date : bytes) (resp : response) : list (bytes * bytes) :=
  general_headers REVISION date (rs_keep_alive resp) ++ added_headers (rs_headers resp) ++ entity_headers resp.

Lemma hd0_tolower s : hd0 (nx_strtolower s) = nx_tolower (hd0 s).
Proof. by destruct s. Qed.
Lemma framing_name_owned name : cbytes name ->
  nx_strtolower name = bs "content-length" \/ nx_strtolower name = bs "transfer-encoding" -> is_own_header name = true.
Proof.
  intros Hc Hn. assert (Hlen : zlen name = zlen (nx_strtolower name)) by (unfold zlen, nx_strtolower; by rewrite length_map).
  assert (Hz : forall lit, cbytes lit -> nx_strtolower name = nx_strtolower lit -> nx_strcasecmp name lit = 0).
  { intros lit Hl E. by apply nx_strcasecmp_zero. }
  unfold is_own_header. destruct Hn as [Hn|Hn]; rewrite Hn in Hlen.
  - assert (identify_http_header name 0 = if_named name (bs "Content-Length") NXWEB_HTTP_CONTENT_LENGTH) as ->.
    { unfold identify_http_header. by rewrite <- hd0_tolower, Hlen, Hn. }
    unfold if_named. by rewrite (Hz (bs "Content-Length")); [|by apply (bool_decide_unpack _); vm_compute|rewrite Hn].
  - assert (identify_http_header name 0 = if_named name (bs "Transfer-Encoding") NXWEB_HTTP_TRANSFER_ENCODING) as ->.
    { unfold identify_http_header. by rewrite <- hd0_tolower, Hlen, Hn. }
    unfold if_named. by rewrite (Hz (bs "Transfer-Encoding")); [|by apply (bool_decide_unpack _); vm_compute|rewrite Hn].
Qed.

Lemma filter_nil {A} (P : A -> Prop) `{!forall x, Decision (P x)} l : Forall (fun x => ~ P x) l -> filter P l = [].
Proof. induction 1 as [|x l Hx _ IH]; [done|]. by rewrite filter_cons_False. Qed.

Lemma added_not_framing l : Forall (fun h : header => cbytes (fst h)) l -> filter is_framing (added_headers l) = [].
Proof.
  intros Hl. apply filter_nil. induction Hl as [|[n v] l Hn _ IH]; [constructor|]. unfold added_headers. cbn.
  destruct (is_own_header n) eqn:E; [done|]. constructor; [|done]. intros Hf. cbn in Hn.
  by rewrite (framing_name_owned n Hn Hf) in E.
Qed.


(** ** The client's unchecked stores *)

Definition get_request (uri : bytes) : request :=
  request_zero{{rq_http11 := true; rq_get_method := true; rq_keep_alive := true; rq_method := Some (bs "GET");
    rq_uri := Some uri; rq_host := Some (bs "localhost")}}.


(** ** Instances *)

Definition sample_date : bytes := bs "Sun, 06 Nov 1994 08:49:37 GMT".
Definition sample_response : response :=
  response_zero{{rs_http11 := true; rs_keep_alive := true; rs_host := Some (bs "localhost"); rs_content_length := 1234;
    rs_last_modified := 784111777; rs_cache_private := true; rs_max_age := 60;
    rs_headers := [(bs "X-A", Some (bs "1")); (bs "CONTENT-length", Some (bs "5"))] }}.

Lemma sample_time_ok : time_ok 784111777.
Proof. vm_compute. by split. Qed.

Lemma prepare_response_headers_text_witness :
  exists l nxb', @_nxweb_prepare_response_headers zero_alloc (bs "3.3") sample_date sample_response small_buffer =
      Ok (l, zlen (response_text (bs "3.3") sample_date sample_response), nxb') /\
    buffer_ok [(l, response_text (bs "3.3") sample_date sample_response)] [] nxb'.
Proof.
  apply (@prepare_response_headers_text zero_alloc zero_alloc_total [] [] small_buffer (bs "3.3") sample_date sample_response).
  - apply small_buffer_ok.
  - by vm_compute.
  - by vm_compute.
  - by vm_compute.
  - repeat constructor; done.
  - intros _. apply sample_time_ok.
  - by intros H.
Defined.

Lemma send_redirect_text_witness :
  exists l nxb', @nxweb_send_redirect2 zero_alloc (bs "3.3") sample_date sample_response 302 (bs "/new") None true small_buffer =
      Ok (redirect_response sample_response 302, (l, zlen (redirect_text (bs "3.3") sample_date sample_response 302 (bs "/new") None true)), nxb') /\
    buffer_ok [(l, redirect_text (bs "3.3") sample_date sample_response 302 (bs "/new") None true)] [] nxb'.
Proof.
  apply (@send_redirect_text zero_alloc zero_alloc_total [] [] small_buffer (bs "3.3") sample_date sample_response 302 (bs "/new") None true).
  - apply small_buffer_ok.
  - by vm_compute.
  - by vm_compute.
  - by vm_compute.
  - done.
Defined.


Definition sample_post : request :=
  (get_request (bs "/a")){{rq_method := Some (bs "POST"); rq_content_length := 3; rq_uid := 255;
    rq_headers := [(bs "X-B", Some (bs "2"))] }}.
