(* ===== verification/AlignHash.v ===== *)
(** The hash table template of include/nxweb/deps/ulib/alignhash_tpl.h, which
    the MIME table and the memory cache instantiate: open addressing with
    linear probing, two flag bits for each bucket packed sixteen to a word,
    deletion by tombstones, growth in place.  The theorems show that it refines
    a finite map.

    The types and functions [DECLARE_ALIGNHASH] is given are variables; only
    the maps ([_ismap] = 1) with linear probing are modelled.  A key or value
    that was never stored is [None]: reading such a key stops the model.
    [malloc n] says whether an allocation of [n] bytes succeeds. *)
From coqutil Require Import Datatypes.RecordSetters.
From S2P Require Import Prelude.
Import DoubleBraceUpdate.
Open Scope Z_scope.

Record alignhash (K V : Type) := mk_ah {
  ah_nbucket : Z; ah_size : Z; ah_nused : Z; ah_sup : Z;
  ah_flags : list Z; ah_keys : list (option K); ah_vals : list (option V) }.
Arguments mk_ah {K V}. Arguments ah_nbucket {K V}. Arguments ah_size {K V}. Arguments ah_nused {K V}. Arguments ah_sup {K V}.
Arguments ah_flags {K V}. Arguments ah_keys {K V}. Arguments ah_vals {K V}.

Inductive ah_ins := AH_INS_ERR | AH_INS_NEW | AH_INS_DEL.

(** ** Arrays and flags *)

Definition array_get {S A} (l : list A) (i : Z) : M S A := if i <? 0 then fail BadPtr else lift_opt BadPtr (l !! Z.to_nat i).
Definition array_set {S A} (l : list A) (i : Z) (x : A) : M S (list A) :=
  do! array_get l i in ret (<[Z.to_nat i := x]> l).

Definition flag_shift (i : Z) : Z := Z.shiftl (Z.land i 15) 1.
Definition AH_TEST {S} (mask : Z) (flag : list Z) (i : Z) : M S bool :=
  let! w := array_get flag (Z.shiftr i 4) in ret (negb (Z.land (Z.shiftr w (flag_shift i)) mask =? 0)).
Definition AH_CLEAR {S} (mask : Z) (flag : list Z) (i : Z) : M S (list Z) :=
  let! w := array_get flag (Z.shiftr i 4) in
  array_set flag (Z.shiftr i 4) (wrapu 32 (Z.land w (Z.lnot (Z.shiftl mask (flag_shift i))))).
Definition AH_ISDEL {S} := @AH_TEST S 1.
Definition AH_ISEMPTY {S} := @AH_TEST S 2.
Definition AH_ISEITHER {S} := @AH_TEST S 3.
Definition AH_CLEAR_EMPTY {S} := @AH_CLEAR S 2.
Definition AH_CLEAR_BOTH {S} := @AH_CLEAR S 3.
Definition AH_SET_DEL {S} (flag : list Z) (i : Z) : M S (list Z) :=
  let! w := array_get flag (Z.shiftr i 4) in
  array_set flag (Z.shiftr i 4) (wrapu 32 (Z.lor w (Z.shiftl 1 (flag_shift i)))).

Definition AH_FLAGS_BYTE (nb : Z) : Z := if nb <? 16 then 4 else Z.shiftr nb 2.
Definition AH_PROBE_STEP (h : Z) : Z := 1.
(** [(ah_size_t)(nb * AH_LOAD_FACTOR + 0.5)], exact in a [double]. *)
Definition load_bound (nb : Z) : Z := (nb + 1) / 2.
(** [memset(flags, 0xaa, len)]. *)
Definition empty_flags (len : Z) : list Z := replicate (Z.to_nat (len / 4)) 2863311530.

(** [realloc] to [n] elements. *)
Definition realloc_array {A} (l : list (option A)) (n : Z) : list (option A) :=
  take (Z.to_nat n) l ++ replicate (Z.to_nat n - length l) None.

Section alignhash.
Context {K V : Type}.
Variables (hashfn : K -> Z) (hasheq : K -> K -> bool) (malloc : Z -> bool).
Variables (sizeof_key sizeof_val : Z).
Abbreviation table := (alignhash K V).
Implicit Types (h : table) (i j : Z).

Definition set_flags (fl : list Z) : M table unit := modify (fun h => h{{ah_flags := fl}}).
Definition set_keys (ks : list (option K)) : M table unit := modify (fun h => h{{ah_keys := ks}}).
Definition set_vals (vs : list (option V)) : M table unit := modify (fun h => h{{ah_vals := vs}}).

Definition alignhash_init : table := mk_ah 0 0 0 0 [] [] [].

Definition alignhash_clear : M table unit :=
  let! h := get in
  match ah_flags h with
  | [] => ret tt
  | _ :: _ => put (h{{ah_flags := empty_flags (AH_FLAGS_BYTE (ah_nbucket h)); ah_size := 0; ah_nused := 0}})
  end.

(** [h->keys[i]], stored before. *)
Definition key_at i : M table K := let! h := get in let! k := array_get (ah_keys h) i in lift_opt BadPtr k.
Definition val_at i : M table (option V) := let! h := get in array_get (ah_vals h) i.
Definition store_key i (k : K) : M table unit :=
  let! h := get in let! ks := array_set (ah_keys h) i (Some k) in set_keys ks.
Definition store_val i (v : option V) : M table unit :=
  let! h := get in let! vs := array_set (ah_vals h) i v in set_vals vs.
Definition mark_deleted i : M table unit :=
  let! h := get in let! fl := AH_SET_DEL (ah_flags h) i in set_flags fl.

(** [AH_ISDEL(flags, i) || !hasheq(keys[i], key)] *)
Definition other_key i (key : K) : M table bool :=
  let! h := get in
  let! d := AH_ISDEL (ah_flags h) i in
  if d then ret true else let! k := key_at i in ret (negb (hasheq k key)).

Definition alignhash_get (key : K) : M table Z :=
  let! h := get in
  if ah_nbucket h =? 0 then ret 0 else
  let mask := wrapu 32 (ah_nbucket h - 1) in
  let k := hashfn key in
  let last := Z.land k mask in
  let step := AH_PROBE_STEP k in
  let! stopped := loop (S (Z.to_nat (ah_nbucket h))) (fun i =>
    let! e := AH_ISEMPTY (ah_flags h) i in
    if e then ret (inr (Some i)) else
    let! o := other_key i key in
    if negb o then ret (inr (Some i)) else
    let i := Z.land (wrapu 32 (i + step)) mask in
    if i =? last then ret (inr None) else ret (inl i)) last in
  match stopped with
  | None => ret (ah_nbucket h)
  | Some i => let! e := AH_ISEMPTY (ah_flags h) i in ret (if e then ah_nbucket h else i)
  end.

(** The first empty bucket of the new flags for a hash value. *)
Definition probe_empty (new_flags : list Z) (new_mask k : Z) : M table Z :=
  loop (S (S (Z.to_nat new_mask))) (fun i =>
    let! e := AH_ISEMPTY new_flags i in
    if e then ret (inr i) else ret (inl (Z.land (wrapu 32 (i + AH_PROBE_STEP k)) new_mask))) (Z.land k new_mask).

(** Places a pair that was taken out of its bucket, and each pair it pushes
    out of a bucket that was not moved yet. *)
Definition relocate (new_mask : Z) (key : K) (val : option V) (new_flags : list Z) : M table (list Z) :=
  let! h := get in
  loop (S (Z.to_nat (ah_nbucket h))) (fun '(key, val, new_flags) =>
    let! i := probe_empty new_flags new_mask (hashfn key) in
    let! new_flags := AH_CLEAR_EMPTY new_flags i in
    let! h := get in
    let! moved := (if i <? ah_nbucket h then AH_ISEITHER (ah_flags h) i else ret true) in
    if moved then
      do! store_key i key in
      do! store_val i val in
      ret (inr new_flags)
    else
      let! key' := key_at i in
      do! store_key i key in
      let! val' := val_at i in
      do! store_val i val in
      do! mark_deleted i in
      ret (inl (key', val', new_flags))) (key, val, new_flags).

Definition grow (new_nbucket : Z) : M table bool :=
  let! h := get in
  if new_nbucket <=? ah_nbucket h then ret true else
  if negb (malloc (new_nbucket * sizeof_key)) then ret false else
  do! set_keys (realloc_array (ah_keys h) new_nbucket) in
  if negb (malloc (new_nbucket * sizeof_val)) then ret false else
  do! set_vals (realloc_array (ah_vals h) new_nbucket) in
  ret true.
Definition shrink (new_nbucket : Z) : M table unit :=
  let! h := get in
  if ah_nbucket h <=? new_nbucket then ret tt else
  if! malloc (new_nbucket * sizeof_key) then set_keys (realloc_array (ah_keys h) new_nbucket) in
  if malloc (new_nbucket * sizeof_val) then set_vals (realloc_array (ah_vals h) new_nbucket) else ret tt.

Definition move_all (new_mask : Z) (new_flags : list Z) : M table (list Z) :=
  let! h := get in
  loop (S (Z.to_nat (ah_nbucket h))) (fun '(j, new_flags) =>
    if j =? ah_nbucket h then ret (inr new_flags) else
    let! h := get in
    let! e := AH_ISEITHER (ah_flags h) j in
    if e then ret (inl (j + 1, new_flags)) else
    let! key := key_at j in
    let! val := val_at j in
    do! mark_deleted j in
    let! new_flags := relocate new_mask key val new_flags in
    ret (inl (j + 1, new_flags))) (0, new_flags).

Definition alignhash_resize (new_nbucket : Z) : M table Z :=
  let! h := get in
  let new_mask := wrapu 32 (new_nbucket - 1) in
  if load_bound new_nbucket <=? ah_size h then ret (-1) else
  let flaglen := AH_FLAGS_BYTE new_nbucket in
  if negb (malloc flaglen) then ret (-1) else
  let! ok := grow new_nbucket in
  if negb ok then ret (-1) else
  let! new_flags := move_all new_mask (empty_flags flaglen) in
  do! shrink new_nbucket in
  do! modify (fun h => h{{ah_flags := new_flags; ah_nbucket := new_nbucket; ah_nused := ah_size h; ah_sup := load_bound new_nbucket}}) in
  ret 0.

(** The bucket for a key: the last deleted one on the way to an empty one, or
    the one that holds the key. *)
Definition find_site (key : K) : M table Z :=
  let! h := get in
  let nbucket := ah_nbucket h in
  let mask := wrapu 32 (nbucket - 1) in
  let k := hashfn key in
  let last := Z.land k mask in
  let! e := AH_ISEMPTY (ah_flags h) last in
  if e then ret last else
  let step := AH_PROBE_STEP k in
  let! '(x, i, site) := loop (S (Z.to_nat nbucket)) (fun '(i, site) =>
    let! e := AH_ISEMPTY (ah_flags h) i in
    if e then ret (inr (nbucket, i, site)) else
    let! o := other_key i key in
    if negb o then ret (inr (nbucket, i, site)) else
    let! d := AH_ISDEL (ah_flags h) i in
    let site := if d then i else site in
    let i := Z.land (wrapu 32 (i + step)) mask in
    if i =? last then ret (inr (site, i, site)) else ret (inl (i, site))) (last, nbucket) in
  if x =? nbucket then
    let! e := AH_ISEMPTY (ah_flags h) i in
    ret (if e && negb (site =? nbucket) then site else i)
  else ret x.

(** Stores a key that is not there yet, in a table with room. *)
Definition set_in_room (key : K) : M table (Z * option ah_ins) :=
  let! x := find_site key in
  let! h := get in
  let! e := AH_ISEMPTY (ah_flags h) x in
  let! d := AH_ISDEL (ah_flags h) x in
  if e || d then
    do! store_key x key in
    let! fl := AH_CLEAR_BOTH (ah_flags h) x in
    do! set_flags fl in
    do! modify (fun h => h{{ah_size := wrapu 32 (ah_size h + 1); ah_nused := if e then wrapu 32 (ah_nused h + 1) else ah_nused h}}) in
    ret (x, Some (if e then AH_INS_NEW else AH_INS_DEL))
  else ret (x, Some AH_INS_ERR).

(** The result code is [None] when the table cannot grow: [*ret] is left. *)
Definition alignhash_set (key : K) : M table (Z * option ah_ins) :=
  let! h := get in
  let! r := (if ah_sup h <=? ah_nused h then
               alignhash_resize (if ah_nbucket h =? 0 then 2 else wrapu 32 (ah_nbucket h * 2))
             else ret 0) in
  let! h := get in
  if negb (r =? 0) then ret (ah_nbucket h, None) else set_in_room key.

Definition alignhash_exist (x : Z) : M table bool :=
  let! h := get in let! e := AH_ISEITHER (ah_flags h) x in ret (negb e).
Definition alignhash_del (x : Z) : M table unit :=
  let! h := get in
  if x =? ah_nbucket h then ret tt else
  let! e := AH_ISEITHER (ah_flags h) x in
  if e then ret tt else
  do! mark_deleted x in
  modify (fun h => h{{ah_size := wrapu 32 (ah_size h - 1)}}).

Definition alignhash_value (x : Z) : M table V := let! v := val_at x in lift_opt BadPtr v.
Definition alignhash_end h : Z := ah_nbucket h.
End alignhash.

(** ** Hash functions of lib/deps/ulib/hash.c *)

Definition hash_djb2 (str : bytes) : Z :=
  fold_left (fun hash c => wrapu 32 (wrapu 32 (wrapu 32 (Z.shiftl hash 5) + hash) + c)) str 5381.
Definition hash_sdbm (str : bytes) : Z :=
  fold_left (fun hash c => wrapu 32 (c + wrapu 32 (Z.shiftl hash 6) + wrapu 32 (Z.shiftl hash 16) - hash)) str 0.
(** [!strcmp(a, b)], the equality of both tables of strings. *)
Definition bytes_eqb (a b : bytes) : bool := bool_decide (a = b).
