(* ===== verification/AlignHashProof.v ===== *)
(** The hash table of [AlignHash] refines a finite map. *)
From coqutil Require Import Datatypes.RecordSetters.
From S2P Require Import Prelude AlignHash.
Import DoubleBraceUpdate.
Open Scope Z_scope.

(** ** Flags as bits *)

(** Bit 1 of a bucket says that it is empty, bit 0 that it was deleted. *)
Definition fbit (fl : list Z) (i b : Z) : bool :=
  match fl !! Z.to_nat (Z.shiftr i 4) with Some w => Z.testbit w (2 * (i mod 16) + b) | None => false end.
Definition flags_ok (fl : list Z) (nb : Z) : Prop := nb <= 16 * zlen fl.

Lemma flag_shift_spec i : 0 <= i -> flag_shift i = 2 * (i mod 16).
Proof.
  intros Hi. unfold flag_shift. change 15 with (Z.ones 4). rewrite Z.land_ones, Z.shiftl_mul_pow2 by lia. change (2 ^ 4) with 16. change (2 ^ 1) with 2. lia.
Qed.
Lemma flag_word (fl : list Z) i : 0 <= i < 16 * zlen fl -> exists w, fl !! Z.to_nat (Z.shiftr i 4) = Some w.
Proof.
  intros Hi. apply lookup_lt_is_Some_2. rewrite Z.shiftr_div_pow2 by lia. unfold zlen in Hi. Z.to_euclidean_division_equations; lia.
Qed.
Lemma wp_array_get {S A} (l : list A) i x (Q : A -> S -> Prop) s : 0 <= i -> l !! Z.to_nat i = Some x -> Q x s -> wp (array_get l i) Q s.
Proof. intros Hi Hx HQ. unfold array_get, wp. destruct (Z.ltb_spec i 0); [lia|]. by rewrite Hx. Qed.
Lemma wp_array_set {S A} (l : list A) i x (Q : list A -> S -> Prop) s :
  0 <= i < zlen l -> Q (<[Z.to_nat i := x]> l) s -> wp (array_set l i x) Q s.
Proof.
  intros Hi HQ. destruct (lookup_lt_is_Some_2 l (Z.to_nat i)) as [y Hy]; [unfold zlen in Hi; lia|].
  unfold array_set. apply wp_bind. by eapply wp_array_get; [lia|exact Hy|].
Qed.

Lemma land_bit x n : 0 <= n -> negb (Z.land x (2 ^ n) =? 0) = Z.testbit x n.
Proof.
  intros Hn. assert (Z.land x (2 ^ n) = if Z.testbit x n then 2 ^ n else 0) as ->.
  { apply Z.bits_inj'. intros m Hm. rewrite Z.land_spec, Z.pow2_bits_eqb by done.
    destruct (Z.eqb_spec n m) as [->|Hne]; [|rewrite andb_false_r].
    - destruct (Z.testbit x m); cbn; [by rewrite Z.pow2_bits_true|by rewrite Z.bits_0].
    - destruct (Z.testbit x n); [by rewrite Z.pow2_bits_false|by rewrite Z.bits_0]. }
  pose proof (Z.pow_pos_nonneg 2 n ltac:(lia) Hn). destruct (Z.testbit x n); [|done].
  apply negb_true_iff, Z.eqb_neq. lia.
Qed.
Lemma wp_flag_test {S} mask (fl : list Z) i (Q : bool -> S -> Prop) s :
  mask = 1 \/ mask = 2 \/ mask = 3 -> 0 <= i < 16 * zlen fl ->
  Q ((Z.testbit mask 1 && fbit fl i 1) || (Z.testbit mask 0 && fbit fl i 0)) s -> wp (AH_TEST mask fl i) Q s.
Proof.
  intros Hmask Hi HQ. destruct (flag_word fl i Hi) as [w Hw]. unfold AH_TEST. apply wp_bind.
  eapply wp_array_get; [apply Z.shiftr_nonneg; lia|exact Hw|]. apply wp_ret. revert HQ. unfold fbit. rewrite Hw, flag_shift_spec by lia.
  set (x := Z.shiftr w _). set (p := i mod 16).
  assert (0 <= p < 16) as Hp by (apply Z.mod_pos_bound; lia).
  assert (Hb : forall b, 0 <= b -> Z.testbit w (2 * p + b) = Z.testbit x b).
  { intros b Hb. unfold x. rewrite Z.shiftr_spec by done. f_equal. lia. }
  rewrite !Hb by lia. destruct Hmask as [->|[->| ->]]; cbn [Z.testbit Z.odd Pos.testbit andb orb].
  - change (Z.land x 1) with (Z.land x (2 ^ 0)). by rewrite land_bit.
  - change (Z.land x 2) with (Z.land x (2 ^ 1)). rewrite land_bit by lia. by rewrite orb_false_r.
  - assert (negb (Z.land x 3 =? 0) = Z.testbit x 1 || Z.testbit x 0) as ->; [|done].
    change 3 with (Z.lor (2 ^ 1) (2 ^ 0)). rewrite Z.land_lor_distr_r. rewrite <- !land_bit by lia.
    destruct (Z.eqb_spec (Z.lor (Z.land x (2 ^ 1)) (Z.land x (2 ^ 0))) 0) as [E|E].
    + apply Z.lor_eq_0_iff in E as [-> ->]. done.
    + destruct (Z.eqb_spec (Z.land x (2 ^ 1)) 0) as [E1|E1]; [|done]. destruct (Z.eqb_spec (Z.land x (2 ^ 0)) 0) as [E2|E2]; [|done].
      by rewrite E1, E2 in E.
Qed.

Lemma wp_isempty {S} (fl : list Z) i (Q : bool -> S -> Prop) s : 0 <= i < 16 * zlen fl -> Q (fbit fl i 1) s -> wp (AH_ISEMPTY fl i) Q s.
Proof. intros Hi HQ. apply wp_flag_test; [auto|done|]. change (Z.testbit 2 1) with true. change (Z.testbit 2 0) with false. cbn [andb]. by rewrite orb_false_r. Qed.
Lemma wp_isdel {S} (fl : list Z) i (Q : bool -> S -> Prop) s : 0 <= i < 16 * zlen fl -> Q (fbit fl i 0) s -> wp (AH_ISDEL fl i) Q s.
Proof. intros Hi HQ. apply wp_flag_test; [auto|done|exact HQ]. Qed.
Lemma wp_iseither {S} (fl : list Z) i (Q : bool -> S -> Prop) s : 0 <= i < 16 * zlen fl -> Q (fbit fl i 0 || fbit fl i 1) s -> wp (AH_ISEITHER fl i) Q s.
Proof. intros Hi HQ. apply wp_flag_test; [auto|done|]. change (Z.testbit 3 1) with true. change (Z.testbit 3 0) with true. cbn [andb]. by rewrite orb_comm. Qed.

(** Changing the flags of a bucket leaves those of the others. *)
Lemma fbit_update (fl : list Z) i w' j b (f : Z -> bool -> bool) :
  0 <= i < 16 * zlen fl -> 0 <= j -> 0 <= b < 2 ->
  (forall w p, fl !! Z.to_nat (Z.shiftr i 4) = Some w -> 0 <= p < 32 ->
     Z.testbit w' p = if (2 * (i mod 16) <=? p) && (p <? 2 * (i mod 16) + 2) then f (p - 2 * (i mod 16)) (Z.testbit w p) else Z.testbit w p) ->
  fbit (<[Z.to_nat (Z.shiftr i 4) := w']> fl) j b = if i =? j then f b (fbit fl j b) else fbit fl j b.
Proof.
  intros Hi Hj Hb Hw'. destruct (flag_word fl i Hi) as [w Hw]. unfold fbit.
  assert (Hsh : forall k, Z.shiftr k 4 = k / 16) by (intros k; rewrite Z.shiftr_div_pow2; [done|lia]). rewrite !Hsh in *.
  destruct (Z.eq_dec (i / 16) (j / 16)) as [E|E].
  - rewrite <- E. rewrite list_lookup_insert_eq by (by apply lookup_lt_Some in Hw). rewrite Hw.
    rewrite (Hw' w (2 * (j mod 16) + b) Hw) by (pose proof (Z.mod_pos_bound j 16); lia).
    destruct (Z.eqb_spec i j) as [->|Hne].
    + destruct (Z.leb_spec (2 * (j mod 16)) (2 * (j mod 16) + b)); [|lia]. destruct (Z.ltb_spec (2 * (j mod 16) + b) (2 * (j mod 16) + 2)); [|lia].
      cbn [andb]. f_equal. lia.
    + assert (i mod 16 <> j mod 16) by (Z.to_euclidean_division_equations; lia).
      destruct (Z.leb_spec (2 * (i mod 16)) (2 * (j mod 16) + b)); [|done]. destruct (Z.ltb_spec (2 * (j mod 16) + b) (2 * (i mod 16) + 2)); [lia|done].
  - rewrite list_lookup_insert_ne by (pose proof (Z.div_pos i 16); pose proof (Z.div_pos j 16); lia).
    destruct (Z.eqb_spec i j) as [->|Hne]; [done|done].
Qed.

Lemma wp_flag_clear {S} mask (fl : list Z) i (Q : list Z -> S -> Prop) s :
  0 <= mask < 4 -> 0 <= i < 16 * zlen fl ->
  (forall fl', zlen fl' = zlen fl ->
     (forall j b, 0 <= j -> 0 <= b < 2 -> fbit fl' j b = if i =? j then fbit fl j b && negb (Z.testbit mask b) else fbit fl j b) -> Q fl' s) ->
  wp (AH_CLEAR mask fl i) Q s.
Proof.
  intros Hmask Hi HQ. destruct (flag_word fl i Hi) as [w Hw]. unfold AH_CLEAR. apply wp_bind.
  assert (Hlt : 0 <= Z.shiftr i 4 < zlen fl).
  { rewrite Z.shiftr_div_pow2 by lia. Z.to_euclidean_division_equations; lia. }
  eapply wp_array_get; [lia|exact Hw|]. apply wp_array_set; [done|]. apply HQ; [unfold zlen; by rewrite length_insert|].
  intros j b Hj Hb. apply (fbit_update fl i _ j b (fun b v => v && negb (Z.testbit mask b))); [done..|].
  intros w0 p Hw0 Hp. rewrite Hw in Hw0. injection Hw0 as <-. pose proof (Z.mod_pos_bound i 16 ltac:(lia)).
  unfold wrapu. rewrite Z.mod_pow2_bits_low by lia. rewrite Z.land_spec, Z.lnot_spec, Z.shiftl_spec, flag_shift_spec by lia.
  destruct (Z.leb_spec (2 * (i mod 16)) p); cbn [andb]; [|rewrite (Z.testbit_neg_r mask) by lia; by rewrite andb_true_r].
  destruct (Z.ltb_spec p (2 * (i mod 16) + 2)); [done|].
  assert (Z.testbit mask (p - 2 * (i mod 16)) = false) as ->; [|by rewrite andb_true_r].
  apply Z.bits_above_log2; [lia|]. destruct (Z.eq_dec mask 0) as [->|]; [cbn; lia|].
  assert (Z.log2 mask < 2) by (apply Z.log2_lt_pow2; lia). lia.
Qed.
Lemma wp_flag_set {S} (fl : list Z) i (Q : list Z -> S -> Prop) s :
  0 <= i < 16 * zlen fl ->
  (forall fl', zlen fl' = zlen fl ->
     (forall j b, 0 <= j -> 0 <= b < 2 -> fbit fl' j b = if i =? j then fbit fl j b || (b =? 0) else fbit fl j b) -> Q fl' s) ->
  wp (AH_SET_DEL fl i) Q s.
Proof.
  intros Hi HQ. destruct (flag_word fl i Hi) as [w Hw]. unfold AH_SET_DEL. apply wp_bind.
  assert (Hlt : 0 <= Z.shiftr i 4 < zlen fl).
  { rewrite Z.shiftr_div_pow2 by lia. Z.to_euclidean_division_equations; lia. }
  eapply wp_array_get; [lia|exact Hw|]. apply wp_array_set; [done|]. apply HQ; [unfold zlen; by rewrite length_insert|].
  intros j b Hj Hb. apply (fbit_update fl i _ j b (fun b v => v || (b =? 0))); [done..|].
  intros w0 p Hw0 Hp. rewrite Hw in Hw0. injection Hw0 as <-. pose proof (Z.mod_pos_bound i 16 ltac:(lia)).
  unfold wrapu. rewrite Z.mod_pow2_bits_low by lia. rewrite Z.lor_spec, Z.shiftl_spec, flag_shift_spec by lia.
  change 1 with (2 ^ 0). rewrite Z.pow2_bits_eqb by lia.
  destruct (Z.leb_spec (2 * (i mod 16)) p); cbn [andb].
  - destruct (Z.ltb_spec p (2 * (i mod 16) + 2)); [by rewrite Z.eqb_sym|].
    destruct (Z.eqb_spec 0 (p - 2 * (i mod 16))); [lia|by rewrite orb_false_r].
  - destruct (Z.eqb_spec 0 (p - 2 * (i mod 16))); [lia|by rewrite orb_false_r].
Qed.

Lemma empty_flags_bits len i b : 0 <= i < 16 * (len / 4) -> 0 <= b < 2 -> fbit (empty_flags len) i b = (b =? 1).
Proof.
  intros Hi Hb. unfold fbit, empty_flags. rewrite lookup_replicate_2.
  2:{ rewrite Z.shiftr_div_pow2 by lia. Z.to_euclidean_division_equations; lia. }
  pose proof (Z.mod_pos_bound i 16 ltac:(lia)) as Hm. assert (Hc : In (i mod 16) (map Z.of_nat (seq 0 16))).
  { replace (i mod 16) with (Z.of_nat (Z.to_nat (i mod 16))) by lia. apply in_map, in_seq. lia. }
  assert (b = 0 \/ b = 1) as [-> | ->] by lia; cbn in Hc; repeat destruct Hc as [<-|Hc]; done.
Qed.

(** ** The invariant *)

(** The number of probes from [base] never exceeds the table. *)
Definition probe (nb base d : Z) : Z := (base + d) mod nb.

Lemma mask_mod b k : 0 <= b <= 31 -> 0 <= k -> Z.land k (wrapu 32 (2 ^ b - 1)) = k mod 2 ^ b.
Proof.
  intros Hb Hk. rewrite wrapu_small; [rewrite Z.sub_1_r, <- Z.ones_equiv; apply Z.land_ones; lia|].
  pose proof (Z.pow_le_mono_r 2 b 31). pose proof (Z.pow_pos_nonneg 2 b). lia.
Qed.
Lemma probe_bound nb base d : 0 < nb -> 0 <= probe nb base d < nb.
Proof. intros. apply Z.mod_pos_bound. lia. Qed.
Lemma probe_next b base d : 0 <= b <= 31 ->
  Z.land (wrapu 32 (probe (2 ^ b) base d + 1)) (wrapu 32 (2 ^ b - 1)) = probe (2 ^ b) base (d + 1).
Proof.
  intros Hb. pose proof (Z.pow_le_mono_r 2 b 31). pose proof (Z.pow_pos_nonneg 2 b).
  pose proof (probe_bound (2 ^ b) base d). rewrite (wrapu_small 32 (_ + 1)) by lia. rewrite mask_mod by lia. unfold probe.
  rewrite Zplus_mod_idemp_l. f_equal. lia.
Qed.
Lemma probe_inj nb base d d' : 0 <= d < nb -> 0 <= d' < nb -> probe nb base d = probe nb base d' -> d = d'.
Proof.
  unfold probe. intros Hd Hd' E. pose proof (Z.div_mod (base + d) nb ltac:(lia)) as H1. pose proof (Z.div_mod (base + d') nb ltac:(lia)) as H2.
  rewrite E in H1. assert ((base + d) / nb = (base + d') / nb) by nia. nia.
Qed.
Lemma probe_wrap nb base d : 0 <= d < nb -> probe nb base (d + 1) = probe nb base 0 -> d + 1 = nb.
Proof. unfold probe. intros Hd E. destruct (Z.eq_dec (d + 1) nb); [done|]. apply (probe_inj nb base (d + 1) 0) in E; lia. Qed.
(** Every bucket is some probe. *)
Lemma probe_surj nb base i : 0 <= i < nb -> exists d, 0 <= d < nb /\ probe nb base d = i.
Proof.
  intros Hi. exists ((i - base) mod nb). split; [apply Z.mod_pos_bound; lia|]. unfold probe.
  rewrite Zplus_mod_idemp_r. replace (base + (i - base)) with i by lia. apply Z.mod_small. lia.
Qed.

Definition used_set (fl : list Z) (nb : Z) : gset Z := filter (fun i => fbit fl i 1 = false) (list_to_set (seqZ 0 nb)).
Lemma elem_of_used fl nb i : i ∈ used_set fl nb <-> fbit fl i 1 = false /\ 0 <= i < nb.
Proof. unfold used_set. rewrite elem_of_filter, elem_of_list_to_set, elem_of_seqZ. split; intros [??]; split; try done; lia. Qed.
Lemma size_seqZ nb : 0 <= nb -> Z.of_nat (size (list_to_set (seqZ 0 nb) : gset Z)) = nb.
Proof.
  intros Hn. rewrite size_list_to_set by apply NoDup_seqZ. rewrite length_seqZ. lia.
Qed.
(** A table that is not full has an empty bucket. *)
Lemma used_not_full fl nb base : 0 < nb -> Z.of_nat (size (used_set fl nb)) < nb ->
  exists d, 0 <= d < nb /\ fbit fl (probe nb base d) 1 = true.
Proof.
  intros Hnb Hlt. destruct (decide (Forall (fun i => fbit fl i 1 = false) (seqZ 0 nb))) as [Hall|Hn].
  - assert (used_set fl nb = list_to_set (seqZ 0 nb)) as E.
    { apply set_eq. intros i. rewrite elem_of_used, elem_of_list_to_set, elem_of_seqZ. split; [lia|].
      intros Hi. split; [|lia]. rewrite Forall_forall in Hall. apply Hall. by apply elem_of_seqZ. }
    rewrite E, size_seqZ in Hlt; lia.
  - apply not_Forall_Exists in Hn; [|apply _]. apply Exists_exists in Hn as (i & Hi%elem_of_seqZ & Hb).
    destruct (probe_surj nb base i ltac:(lia)) as (d & Hd & <-). exists d. split; [done|]. cbn in Hb. by destruct (fbit _ _ _).
Qed.
Lemma used_add fl fl' nb i : 0 <= i < nb -> fbit fl i 1 = true ->
  (forall j, 0 <= j < nb -> fbit fl' j 1 = if i =? j then false else fbit fl j 1) ->
  Z.of_nat (size (used_set fl' nb)) = Z.of_nat (size (used_set fl nb)) + 1.
Proof.
  intros Hi Hf Hfl. assert (used_set fl' nb = {[i]} ∪ used_set fl nb) as ->.
  { apply set_eq. intros j. rewrite elem_of_union, elem_of_singleton, !elem_of_used. split.
    - intros [Hb Hj]. rewrite Hfl in Hb by done. destruct (Z.eqb_spec i j); [by left|by right].
    - intros [->|[Hb Hj]]; [split; [|done]; rewrite Hfl by done; by rewrite Z.eqb_refl|]. split; [|done]. rewrite Hfl by done. by destruct (i =? j). }
  rewrite size_union, size_singleton; [lia|]. intros j ->%elem_of_singleton [Hb _]%elem_of_used. congruence.
Qed.
Lemma used_same fl fl' nb : (forall j, 0 <= j < nb -> fbit fl' j 1 = fbit fl j 1) -> used_set fl' nb = used_set fl nb.
Proof. intros Hfl. apply set_eq. intros j. rewrite !elem_of_used. split; intros [Hb Hj]; (split; [|done]); by rewrite ?Hfl in * by done. Qed.

Section contract.
Context {K V : Type} `{Countable K}.
Variables (hashfn : K -> Z) (hasheq : K -> K -> bool) (malloc : Z -> bool) (sizeof_key sizeof_val : Z).
Hypothesis hashfn_nonneg : forall k, 0 <= hashfn k.
Hypothesis hasheq_spec : forall a b, hasheq a b = true <-> a = b.
Abbreviation table := (alignhash K V).
Abbreviation slots := (gmap Z (K * option V)).
Implicit Types (h : table) (P : slots) (m : gmap K (option V)).

Definition entries P : list (K * option V) := (map_to_list P).*2.
(** The finite map a set of slots stands for. *)
Definition ah_map P : gmap K (option V) := list_to_map (entries P).

(** Bucket [i] is on the way of a search for [k]: no empty bucket before it. *)
Definition reaches (fl : list Z) (nb : Z) (k : K) (i : Z) : Prop :=
  exists d, 0 <= d < nb /\ i = probe nb (hashfn k) d /\ forall d', 0 <= d' < d -> fbit fl (probe nb (hashfn k) d') 1 = false.

Definition slot_ok h P (i : Z) : Prop :=
  match P !! i with
  | Some (k, v) => fbit (ah_flags h) i 0 = false /\ fbit (ah_flags h) i 1 = false /\
      ah_keys h !! Z.to_nat i = Some (Some k) /\ ah_vals h !! Z.to_nat i = Some v
  | None => fbit (ah_flags h) i 0 || fbit (ah_flags h) i 1 = true
  end.

Definition table_ok h P : Prop := exists b, 1 <= b <= 31 /\ ah_nbucket h = 2 ^ b /\ ah_sup h = 2 ^ (b - 1) /\
  (ah_nbucket h <= 16 * zlen (ah_flags h) /\ ah_nbucket h <= zlen (ah_keys h) /\ ah_nbucket h <= zlen (ah_vals h)) /\
  (forall i, 0 <= i < ah_nbucket h -> slot_ok h P i) /\
  (forall i e, P !! i = Some e -> 0 <= i < ah_nbucket h) /\
  NoDup (entries P).*1 /\
  ah_size h = Z.of_nat (size P) /\ ah_nused h = Z.of_nat (size (used_set (ah_flags h) (ah_nbucket h))) /\
  ah_nused h <= ah_sup h /\
  (forall i k v, P !! i = Some (k, v) -> reaches (ah_flags h) (ah_nbucket h) k i).
(** A table that never grew has no buckets. *)
Definition table_unused h : Prop := ah_nbucket h = 0 /\ ah_size h = 0 /\ ah_nused h = 0 /\ ah_sup h = 0 /\ ah_flags h = [].
Definition ah_inv h P : Prop := (table_unused h /\ P = ∅) \/ table_ok h P.

Lemma elem_of_entries P k v : (k, v) ∈ entries P <-> exists i, P !! i = Some (k, v).
Proof.
  unfold entries. rewrite list_elem_of_fmap. split.
  - intros ([i e] & -> & Hi%elem_of_map_to_list). eauto.
  - intros [i Hi]. exists (i, (k, v)). split; [done|]. by apply elem_of_map_to_list.
Qed.
Lemma ah_map_lookup P k v : NoDup (entries P).*1 -> ah_map P !! k = Some v <-> exists i, P !! i = Some (k, v).
Proof. intros Hd. unfold ah_map. rewrite <- elem_of_entries. symmetry. by apply elem_of_list_to_map. Qed.
Lemma ah_map_none P k : NoDup (entries P).*1 -> ah_map P !! k = None <-> forall i v, P !! i <> Some (k, v).
Proof.
  intros Hd. rewrite eq_None_not_Some. split.
  - intros Hn i v Hi. apply Hn. exists v. apply ah_map_lookup; eauto.
  - intros Hn [v Hv]. apply ah_map_lookup in Hv as [i Hi]; [|done]. by eapply Hn.
Qed.
Lemma entries_insert P i e : P !! i = None -> entries (<[i := e]> P) ≡ₚ e :: entries P.
Proof. intros Hi. unfold entries. by rewrite map_to_list_insert. Qed.
Lemma entries_delete P i e : P !! i = Some e -> entries P ≡ₚ e :: entries (delete i P).
Proof. intros Hi. rewrite <- (entries_insert _ i e) by apply lookup_delete_eq. by rewrite insert_delete_id. Qed.
Lemma entries_length P : length (entries P) = size P.
Proof. unfold entries. by rewrite length_fmap, length_map_to_list. Qed.
Lemma size_ah_map P : NoDup (entries P).*1 -> size (ah_map P) = size P.
Proof. intros Hd. unfold ah_map. rewrite <- length_map_to_list, map_to_list_to_map by done. apply entries_length. Qed.

Lemma key_unique P i j k v v' : NoDup (entries P).*1 -> P !! i = Some (k, v) -> P !! j = Some (k, v') -> i = j.
Proof.
  intros Hd Hi Hj. destruct (decide (i = j)) as [|Hne]; [done|]. exfalso. revert Hd.
  rewrite (entries_delete P i _ Hi). cbn. rewrite NoDup_cons. intros [Hn _]. apply Hn. apply list_elem_of_fmap.
  exists (k, v'). split; [done|]. apply elem_of_entries. exists j. by rewrite lookup_delete_ne.
Qed.

(** A search that has seen no empty bucket has not passed a key it missed. *)
Lemma reaches_not_passed fl nb k i d : reaches fl nb k i -> 0 <= d ->
  (forall d', 0 <= d' < d -> probe nb (hashfn k) d' <> i) -> fbit fl i 1 = false ->
  d < nb /\ (d < nb -> fbit fl (probe nb (hashfn k) d) 1 = false).
Proof.
  intros (di & Hdi & -> & Hb) Hd Hnp Hi. destruct (Z.le_gt_cases d di) as [Hle|Hgt].
  - split; [lia|]. intros _. destruct (Z.eq_dec d di) as [->|]; [done|]. apply Hb. lia.
  - exfalso. apply (Hnp di); [lia|done].
Qed.

Lemma live_slot h P i k v : table_ok h P -> P !! i = Some (k, v) ->
  fbit (ah_flags h) i 0 = false /\ fbit (ah_flags h) i 1 = false /\
  ah_keys h !! Z.to_nat i = Some (Some k) /\ ah_vals h !! Z.to_nat i = Some v /\ 0 <= i < ah_nbucket h.
Proof.
  intros (b & Hb & Hnb & Hsup & Hlen & Hs & Hd & _) Hi. specialize (Hd _ _ Hi). specialize (Hs _ Hd).
  unfold slot_ok in Hs. rewrite Hi in Hs. tauto.
Qed.
Lemma dead_slot h P i : table_ok h P -> 0 <= i < ah_nbucket h -> P !! i = None -> fbit (ah_flags h) i 0 || fbit (ah_flags h) i 1 = true.
Proof. intros (b & Hb & Hnb & Hsup & Hlen & Hs & _) Hi HP. specialize (Hs _ Hi). unfold slot_ok in Hs. by rewrite HP in Hs. Qed.

(** How many probes a bucket is away. *)
Definition dist (nb base i : Z) : Z := (i - base) mod nb.
Lemma dist_probe nb base d : 0 <= d < nb -> dist nb base (probe nb base d) = d.
Proof.
  intros Hd. unfold dist, probe. rewrite Zminus_mod_idemp_l. replace (base + d - base) with d by lia. by apply Z.mod_small.
Qed.
Lemma probe_start b k : 0 <= b <= 31 -> Z.land (hashfn k) (wrapu 32 (2 ^ b - 1)) = probe (2 ^ b) (hashfn k) 0.
Proof. intros Hb. rewrite mask_mod by (try done; lia). unfold probe. by rewrite Z.add_0_r. Qed.
(** Whether bucket [i] holds [key]. *)
Definition holds P i (key : K) : Prop := exists v, P !! i = Some (key, v).

(** A search from the home bucket of [key]: [d] buckets seen, all of them in
    use and without the key. *)
Definition searched h P key (d i : Z) : Prop :=
  0 <= d < ah_nbucket h /\ i = probe (ah_nbucket h) (hashfn key) d /\
  forall d', 0 <= d' < d -> fbit (ah_flags h) (probe (ah_nbucket h) (hashfn key) d') 1 = false /\
                           ~ holds P (probe (ah_nbucket h) (hashfn key) d') key.

Lemma searched_bound h P key d i : searched h P key d i -> 0 <= i < ah_nbucket h.
Proof. intros (Hd & -> & _). apply probe_bound. lia. Qed.
Lemma searched_reaches h P key d i : searched h P key d i -> reaches (ah_flags h) (ah_nbucket h) key i.
Proof. intros (Hd & -> & Hs). exists d. split; [done|]. split; [done|]. intros d' Hd'. by apply Hs. Qed.

(** Where a search stops at an empty bucket the key is nowhere. *)
Lemma search_empty h P key d i : table_ok h P -> searched h P key d i -> fbit (ah_flags h) i 1 = true ->
  forall j, ~ holds P j key.
Proof.
  intros Hok (Hd & -> & Hs) He j [v Hj]. pose proof (live_slot _ _ _ _ _ Hok Hj) as (_ & Hf & _).
  assert (reaches (ah_flags h) (ah_nbucket h) key j) as Hr.
  { destruct Hok as (b & _ & _ & _ & _ & _ & _ & _ & _ & _ & _ & Hp). by eapply Hp. }
  destruct (reaches_not_passed _ _ _ _ d Hr ltac:(lia)) as [_ Hn]; [|done|rewrite Hn in He by lia; done].
  intros d' Hd' <-. apply (proj2 (Hs d' Hd')). by exists v.
Qed.

Lemma wp_other_key h P i key (Q : bool -> table -> Prop) :
  table_ok h P -> 0 <= i < ah_nbucket h -> fbit (ah_flags h) i 1 = false ->
  (holds P i key -> Q false h) -> (~ holds P i key -> Q true h) ->
  wp (other_key hasheq i key) Q h.
Proof.
  intros Hok Hi He HQ1 HQ2. pose proof Hok as (b & Hb & Hnb & Hsup & (Hfl & Hkl & Hvl) & Hs & _). specialize (Hs i Hi).
  unfold other_key. apply wp_bind, wp_get, wp_bind. apply wp_isdel; [lia|].
  unfold slot_ok in Hs. destruct (P !! i) as [[k v]|] eqn:HP.
  - destruct Hs as (H0 & _ & Hk & _). rewrite H0. apply wp_bind. unfold key_at. apply wp_bind, wp_get, wp_bind.
    eapply wp_array_get; [lia|exact Hk|]. apply wp_ret. apply wp_ret. destruct (hasheq k key) eqn:Hq; cbn [negb].
    + apply HQ1. apply hasheq_spec in Hq as ->. by exists v.
    + apply HQ2. intros [v' Hv']. rewrite HP in Hv'. injection Hv' as -> ->.
      assert (hasheq key key = true) by by apply hasheq_spec. congruence.
  - rewrite He in Hs. rewrite orb_false_r in Hs. rewrite Hs. apply wp_ret. apply HQ2. intros [v Hv]. congruence.
Qed.
(** One step of a search. *)
Lemma search_next h P key d i : table_ok h P -> searched h P key d i ->
  fbit (ah_flags h) i 1 = false -> ~ holds P i key ->
  let i' := Z.land (wrapu 32 (i + 1)) (wrapu 32 (ah_nbucket h - 1)) in
  (i' = probe (ah_nbucket h) (hashfn key) 0 -> d + 1 = ah_nbucket h) /\
  (i' <> probe (ah_nbucket h) (hashfn key) 0 ->
   searched h P key (d + 1) i' /\ dist (ah_nbucket h) (hashfn key) i < dist (ah_nbucket h) (hashfn key) i' < ah_nbucket h).
Proof.
  intros Hok (Hd & -> & Hs) He Hn. destruct Hok as (b & Hb & Hnb & _). cbv zeta. rewrite Hnb in *. rewrite probe_next by lia. split.
  - intros E. by apply probe_wrap in E.
  - intros E. assert (d + 1 <> 2 ^ b). { intros E2. apply E. unfold probe. rewrite E2. rewrite Z.add_0_r. rewrite <- Zplus_mod_idemp_r, Z_mod_same_full, Z.add_0_r. done. }
    rewrite !dist_probe by lia. split; [|lia]. split; [rewrite Hnb; lia|]. split; [by rewrite Hnb|]. intros d' Hd'. rewrite Hnb.
    destruct (Z.eq_dec d' d) as [->|]; [done|]. apply Hs. lia.
Qed.
(** All buckets seen: none is empty. *)
Lemma search_full h P key d i : table_ok h P -> searched h P key d i -> fbit (ah_flags h) i 1 = false ->
  d + 1 = ah_nbucket h -> False.
Proof.
  intros (b & Hb & Hnb & Hsup & _ & _ & _ & _ & _ & Hu & Hus & _) (Hd & -> & Hs) He Hd1.
  destruct (used_not_full (ah_flags h) (ah_nbucket h) (hashfn key)) as (d' & Hd' & Hf); [lia| |].
  - rewrite <- Hu. assert (2 ^ (b - 1) < 2 ^ b) by (apply Z.pow_lt_mono_r; lia). lia.
  - destruct (Z.eq_dec d' d) as [->|]; [congruence|]. rewrite (proj1 (Hs d' ltac:(lia))) in Hf. done.
Qed.
Lemma searched_0 h P key : table_ok h P -> searched h P key 0 (Z.land (hashfn key) (wrapu 32 (ah_nbucket h - 1))).
Proof.
  intros (b & Hb & Hnb & _). rewrite Hnb, probe_start by lia. unfold searched. rewrite Hnb.
  split; [pose proof (Z.pow_pos_nonneg 2 b); lia|]. split; [done|]. lia.
Qed.

(** ** Lookup *)

Definition get_post h P key (x : Z) : Prop :=
  (holds P x key /\ 0 <= x < ah_nbucket h) \/ (x = ah_nbucket h /\ forall j, ~ holds P j key).

Lemma wp_alignhash_get h P key (Q : Z -> table -> Prop) :
  ah_inv h P -> (forall x, get_post h P key x -> Q x h) -> wp (alignhash_get hashfn hasheq key) Q h.
Proof.
  intros [[(Hn & _) ->]|Hok] HQ; unfold alignhash_get; apply wp_bind, wp_get.
  { rewrite Hn. apply wp_ret, HQ. right. split; [done|]. intros j [v Hv]. by rewrite lookup_empty in Hv. }
  pose proof Hok as (b & Hb & Hnb & Hsup & (Hfl & Hkl & Hvl) & _). pose proof (Z.pow_pos_nonneg 2 b ltac:(lia) ltac:(lia)).
  destruct (Z.eqb_spec (ah_nbucket h) 0); [lia|]. set (last := Z.land (hashfn key) _).
  apply wp_bind. eapply (wp_loop (fun i s => s = h /\ exists d, searched h P key d i)
    (fun i => Z.to_nat (ah_nbucket h - dist (ah_nbucket h) (hashfn key) i))).
  - intros i s [-> [d Hs]]. pose proof (searched_bound _ _ _ _ _ Hs). apply wp_bind, wp_isempty; [lia|].
    destruct (fbit (ah_flags h) i 1) eqn:He.
    + apply wp_ret. cbn beta iota. apply wp_bind, wp_isempty; [lia|]. rewrite He.
      apply wp_ret, HQ. right. split; [done|]. by eapply search_empty.
    + apply wp_bind. apply (wp_other_key h P); [done|lia|done| |]; intros Hh; cbn [negb].
      * apply wp_ret. cbn beta iota. apply wp_bind, wp_isempty; [lia|]. rewrite He.
        apply wp_ret, HQ. by left.
      * destruct (search_next _ _ _ _ _ Hok Hs He Hh) as [Hw Hn]. cbv zeta in Hw, Hn. unfold AH_PROBE_STEP.
        assert (last = probe (ah_nbucket h) (hashfn key) 0) as -> by (unfold last; rewrite Hnb; apply probe_start; lia).
        destruct (Z.eqb_spec (Z.land (wrapu 32 (i + 1)) (wrapu 32 (ah_nbucket h - 1))) (probe (ah_nbucket h) (hashfn key) 0)) as [E|E].
        -- exfalso. by eapply search_full; [..|by apply Hw].
        -- apply wp_ret. destruct (Hn E) as [Hs' Hd']. split; [eauto|lia].
  - split; [done|]. exists 0. by apply searched_0.
  - pose proof (Z.mod_pos_bound (last - hashfn key) (ah_nbucket h) ltac:(lia)). unfold dist. lia.
Qed.

(** ** Insertion *)

Lemma size_le_used h P : table_ok h P -> ah_size h <= ah_nused h /\ ah_nused h <= ah_sup h /\ 2 * ah_sup h = ah_nbucket h /\ ah_nbucket h <= 2 ^ 31 /\ 0 <= ah_size h.
Proof.
  intros Hok. pose proof Hok as (b & Hb & Hnb & Hsup & Hl & Hs & Hd & Hnd & Hsz & Hu & Hus & _).
  assert (Z.of_nat (size P) <= Z.of_nat (size (used_set (ah_flags h) (ah_nbucket h)))).
  { rewrite <- (size_dom (D := gset Z) P). apply Nat2Z.inj_le, subseteq_size. intros i [[k v] Hi]%elem_of_dom.
    pose proof (live_slot _ _ _ _ _ Hok Hi) as (_ & ? & _ & _ & ?). by apply elem_of_used. }
  split; [lia|]. split; [done|]. split; [|split; [rewrite Hnb; apply Z.pow_le_mono_r; lia|lia]].
  rewrite Hsup, Hnb. rewrite <- Z.pow_succ_r by lia. f_equal. lia.
Qed.

Definition site_post h P key (x : Z) : Prop :=
  0 <= x < ah_nbucket h /\
  (holds P x key \/ ((forall j, ~ holds P j key) /\ P !! x = None /\ reaches (ah_flags h) (ah_nbucket h) key x)).

Lemma wp_find_site h P key (Q : Z -> table -> Prop) :
  table_ok h P -> (forall x, site_post h P key x -> Q x h) -> wp (find_site hashfn hasheq key) Q h.
Proof.
  intros Hok HQ. unfold find_site. apply wp_bind, wp_get.
  pose proof Hok as (b & Hb & Hnb & Hsup & (Hfl & Hkl & Hvl) & _). pose proof (Z.pow_pos_nonneg 2 b ltac:(lia) ltac:(lia)).
  set (last := Z.land (hashfn key) _). pose proof (searched_0 h P key Hok) as Hs0. fold last in Hs0.
  pose proof (searched_bound _ _ _ _ _ Hs0) as Hlb.
  assert (Hempty : forall d i, searched h P key d i -> fbit (ah_flags h) i 1 = true -> site_post h P key i).
  { intros d i Hs He. split; [by eapply searched_bound|]. right. split; [by eapply search_empty|]. split; [|by eapply searched_reaches].
    destruct (P !! i) as [[k v]|] eqn:HP; [|done]. pose proof (live_slot _ _ _ _ _ Hok HP) as (_ & ? & _). congruence. }
  apply wp_bind, wp_isempty; [lia|]. destruct (fbit (ah_flags h) last 1) eqn:Hel.
  { apply wp_ret, HQ. by eapply Hempty. }
  apply wp_bind. eapply (wp_loop (fun '(i, site) s => s = h /\ (exists d, searched h P key d i) /\
      (site = ah_nbucket h \/ 0 <= site < ah_nbucket h /\ P !! site = None /\ reaches (ah_flags h) (ah_nbucket h) key site))
    (fun '(i, site) => Z.to_nat (ah_nbucket h - dist (ah_nbucket h) (hashfn key) i))).
  - intros [i site] s (-> & [d Hs] & Hsite). pose proof (searched_bound _ _ _ _ _ Hs). apply wp_bind, wp_isempty; [lia|].
    destruct (fbit (ah_flags h) i 1) eqn:He.
    + apply wp_ret. cbn beta iota. rewrite Z.eqb_refl. apply wp_bind, wp_isempty; [lia|]. rewrite He.
      cbn [orb andb]. apply wp_ret, HQ. destruct (Z.eqb_spec site (ah_nbucket h)) as [Ee|Ee]; cbn [negb]; [by eapply Hempty|].
      destruct Hsite as [?|(? & ? & ?)]; [done|]. split; [done|]. right. split; [by eapply search_empty|done].
    + apply wp_bind. apply (wp_other_key h P); [done|lia|done| |]; intros Hh; cbn [negb].
      * apply wp_ret. cbn beta iota. rewrite Z.eqb_refl. apply wp_bind, wp_isempty; [lia|]. rewrite He.
        cbn [orb andb]. apply wp_ret, HQ. split; [done|]. by left.
      * apply wp_bind, wp_isdel; [lia|].
        destruct (search_next _ _ _ _ _ Hok Hs He Hh) as [Hw Hn]. cbv zeta in Hw, Hn. unfold AH_PROBE_STEP.
        assert (last = probe (ah_nbucket h) (hashfn key) 0) as -> by (unfold last; rewrite Hnb; apply probe_start; lia).
        destruct (Z.eqb_spec (Z.land (wrapu 32 (i + 1)) (wrapu 32 (ah_nbucket h - 1))) (probe (ah_nbucket h) (hashfn key) 0)) as [E|E].
        -- exfalso. by eapply search_full; [..|by apply Hw].
        -- apply wp_ret. destruct (Hn E) as [Hs' Hd']. split; [|lia]. split; [done|]. split; [eauto|].
           destruct (fbit (ah_flags h) i 0) eqn:Hd; [|done]. right. split; [done|]. split; [|by eapply searched_reaches].
           destruct (P !! i) as [[k v]|] eqn:HP; [|done]. pose proof (live_slot _ _ _ _ _ Hok HP) as (? & _). congruence.
  - split; [done|]. split; [eauto|by left].
  - pose proof (Z.mod_pos_bound (last - hashfn key) (ah_nbucket h) ltac:(lia)). unfold dist. lia.
Qed.

(** Clearing the flags of bucket [x] and storing a key there. *)
Definition occupy (x : Z) (key : K) (fl : list Z) (nused : Z) h : table :=
  mk_ah (ah_nbucket h) (ah_size h + 1) nused (ah_sup h) fl (<[Z.to_nat x := Some key]> (ah_keys h)) (ah_vals h).

Lemma table_ok_occupy h P x key v fl nused :
  table_ok h P -> 0 <= x < ah_nbucket h -> P !! x = None -> (forall j, ~ holds P j key) ->
  reaches (ah_flags h) (ah_nbucket h) key x -> ah_vals h !! Z.to_nat x = Some v -> zlen fl = zlen (ah_flags h) ->
  (forall j b, 0 <= j -> 0 <= b < 2 -> fbit fl j b = if x =? j then false else fbit (ah_flags h) j b) ->
  nused = (if fbit (ah_flags h) x 1 then ah_nused h + 1 else ah_nused h) -> nused <= ah_sup h ->
  table_ok (occupy x key fl nused h) (<[x := (key, v)]> P).
Proof.
  intros (b & Hb & Hnb & Hsup & (Hfl & Hkl & Hvl) & Hs & Hd & Hnd & Hsz & Hu & Hus & Hp) Hx HP Hnew Hr Hv Hflen Hbits Hnu Hnus.
  exists b. cbn. rewrite Hflen. split; [done|]. split; [done|]. split; [done|].
  split. { unfold zlen in *. rewrite length_insert. lia. }
  split. { intros i Hi. unfold slot_ok. cbn. rewrite !Hbits by lia. destruct (Z.eqb_spec x i) as [->|Hne].
    - rewrite lookup_insert_eq. split; [done|]. split; [done|]. split; [|done]. apply list_lookup_insert_eq. unfold zlen in *. lia.
    - rewrite lookup_insert_ne by done. specialize (Hs i Hi). unfold slot_ok in Hs.
      destruct (P !! i) as [[k' v']|]; [|done]. rewrite list_lookup_insert_ne by lia. done. }
  split. { intros i e. destruct (decide (x = i)) as [->|]; [done|]. rewrite lookup_insert_ne by done. apply Hd. }
  split. { rewrite entries_insert by done. cbn. constructor; [|done]. intros ([k' v'] & E & Hin%elem_of_entries)%list_elem_of_fmap.
    cbn in E. subst k'. destruct Hin as [j Hj]. apply (Hnew j). by exists v'. }
  split. { rewrite map_size_insert_None by done. lia. }
  split. { subst nused. destruct (fbit (ah_flags h) x 1) eqn:He.
    - rewrite Hu. symmetry. apply (used_add _ _ _ x); [done|done|]. intros j Hj. by rewrite Hbits by lia.
    - rewrite Hu. f_equal. f_equal. symmetry. apply used_same. intros j Hj. rewrite Hbits by lia.
      destruct (Z.eqb_spec x j) as [<-|]; [by rewrite He|done]. }
  split; [done|]. intros i k' v' Hi.
  assert (Hmono : forall k i, reaches (ah_flags h) (ah_nbucket h) k i -> reaches fl (ah_nbucket h) k i).
  { intros k0 i0 (d & Hdd & -> & Hb'). exists d. split; [done|]. split; [done|]. intros d' Hd'.
    pose proof (probe_bound (ah_nbucket h) (hashfn k0) d' ltac:(lia)). rewrite Hbits by lia. destruct (_ =? _); [done|by apply Hb']. }
  apply Hmono. destruct (decide (x = i)) as [->|].
  - rewrite lookup_insert_eq in Hi. by injection Hi as <- <-.
  - rewrite lookup_insert_ne in Hi by done. by eapply Hp.
Qed.

Definition set_post h P key (r : Z * option ah_ins) (h' : table) : Prop :=
  ah_nbucket h' = ah_nbucket h /\ ah_nused h' <= ah_nused h + 1 /\ exists P', table_ok h' P' /\ 0 <= fst r < ah_nbucket h' /\
  ((snd r = Some AH_INS_ERR /\ ah_map P' = ah_map P /\ holds P' (fst r) key) \/
   ((snd r = Some AH_INS_NEW \/ snd r = Some AH_INS_DEL) /\ ah_map P !! key = None /\
    exists v, P' !! fst r = Some (key, v) /\ ah_map P' = <[key := v]> (ah_map P))).

Lemma wp_set_in_room h P key (Q : Z * option ah_ins -> table -> Prop) :
  table_ok h P -> ah_nused h < ah_sup h -> (forall r h', set_post h P key r h' -> Q r h') ->
  wp (set_in_room hashfn hasheq key) Q h.
Proof.
  intros Hok Hroom HQ. unfold set_in_room. apply wp_bind. apply (wp_find_site h P); [done|].
  intros x [Hx Hsite]. pose proof (size_le_used _ _ Hok) as (Hsu & _ & Hs2 & Hmax & Hs0).
  pose proof Hok as (b & Hb & Hnb & Hsup & (Hfl & Hkl & Hvl) & Hs & Hd & Hnd & Hsz & Hu & Hus & Hp).
  apply wp_bind, wp_get, wp_bind, wp_isempty; [lia|]. apply wp_bind, wp_isdel; [lia|].
  destruct Hsite as [Hh|(Hn & HP & Hr)].
  - pose proof Hh as [v Hv]. pose proof (live_slot _ _ _ _ _ Hok Hv) as (Hf0 & Hf1 & _). rewrite Hf0, Hf1. cbn [orb]. apply wp_ret, HQ.
    split; [done|]. split; [lia|]. exists P. split; [done|]. split; [done|]. left. done.
  - pose proof (dead_slot _ _ _ Hok Hx HP) as Hdead. rewrite orb_comm in Hdead. rewrite Hdead.
    destruct (lookup_lt_is_Some_2 (ah_vals h) (Z.to_nat x)) as [v Hv]; [unfold zlen in Hvl; lia|].
    apply wp_bind. unfold store_key. apply wp_bind, wp_get, wp_bind, wp_array_set; [lia|]. apply wp_modify.
    apply wp_bind. apply wp_flag_clear; [lia|lia|]. intros fl Hflen Hbits. apply wp_bind, wp_modify, wp_bind, wp_modify, wp_ret.
    set (nused := if fbit (ah_flags h) x 1 then ah_nused h + 1 else ah_nused h).
    match goal with |- Q _ ?st => assert (st = occupy x key fl nused h) as -> end.
    { assert (wrapu 32 (ah_size h + 1) = ah_size h + 1) as E1 by (apply wrapu_small; lia).
      assert (wrapu 32 (ah_nused h + 1) = ah_nused h + 1) as E2 by (apply wrapu_small; lia).
      subst nused. destruct h. unfold occupy. cbn in *. unfold constant. rewrite E1, E2. done. }
    apply HQ. split; [done|]. split; [cbn; subst nused; destruct (fbit _ _ _); lia|].
    exists (<[x := (key, v)]> P). cbn [fst snd]. split.
    { apply table_ok_occupy; try done; [|subst nused; destruct (fbit _ _ _); lia]. intros j b' Hj Hb'. rewrite Hbits by done.
      assert (b' = 0 \/ b' = 1) as [-> | ->] by lia; cbn; by rewrite andb_false_r. }
    split; [done|]. right. split; [destruct (fbit _ _ _); auto|]. split.
    { apply ah_map_none; [done|]. intros i v' Hi. apply (Hn i). by exists v'. }
    exists v. split; [apply lookup_insert_eq|]. unfold ah_map. 
    rewrite (list_to_map_proper (entries (<[x := (key, v)]> P)) ((key, v) :: entries P)); [done| |by apply entries_insert].
    rewrite entries_insert by done. cbn. constructor; [|done]. intros ([k' v'] & E & Hin%elem_of_entries)%list_elem_of_fmap.
    cbn in E. subst k'. destruct Hin as [j Hj]. apply (Hn j). by exists v'.
Qed.

(** ** Deletion *)

Lemma wp_alignhash_del h P x key v (Q : unit -> table -> Prop) :
  table_ok h P -> P !! x = Some (key, v) ->
  (forall h', table_ok h' (delete x P) -> ah_map (delete x P) = delete key (ah_map P) -> ah_nbucket h' = ah_nbucket h -> ah_nused h' = ah_nused h -> Q tt h') ->
  wp (alignhash_del x) Q h.
Proof.
  intros Hok HP HQ. unfold alignhash_del. apply wp_bind, wp_get. pose proof (live_slot _ _ _ _ _ Hok HP) as (Hf0 & Hf1 & Hk & Hv & Hx).
  pose proof Hok as (b & Hb & Hnb & Hsup & (Hfl & Hkl & Hvl) & Hs & Hd & Hnd & Hsz & Hu & Hus & Hp).
  destruct (Z.eqb_spec x (ah_nbucket h)); [lia|]. apply wp_bind, wp_iseither; [lia|].
  rewrite Hf0, Hf1. cbn [orb]. apply wp_bind. unfold mark_deleted. apply wp_bind, wp_get, wp_bind, wp_flag_set; [lia|].
  intros fl Hflen Hbits. apply wp_modify, wp_modify.
  assert (Hnd' : NoDup (entries (delete x P)).*1) by (revert Hnd; rewrite (entries_delete P x _ HP); cbn; by intros [_ ?]%NoDup_cons).
  assert (Hused : forall j, 0 <= j -> fbit fl j 1 = fbit (ah_flags h) j 1).
  { intros j Hj. rewrite Hbits by lia. cbn. rewrite orb_false_r. by destruct (_ =? _). }
  pose proof (size_le_used _ _ Hok) as (_ & _ & _ & Hmax & _).
  assert (size P = S (size (delete x P))) as HsP.
  { rewrite <- !entries_length. by rewrite (entries_delete P x _ HP). }
  match goal with |- Q _ ?st => assert (st = mk_ah (ah_nbucket h) (ah_size h - 1) (ah_nused h) (ah_sup h) fl (ah_keys h) (ah_vals h)) as -> end.
  { assert (wrapu 32 (ah_size h - 1) = ah_size h - 1) as E1.
    { apply wrapu_small. pose proof (size_le_used _ _ Hok). lia. }
    destruct h. cbn in *. unfold constant. by rewrite E1. }
  apply HQ.
  - exists b. cbn. rewrite Hflen.
    split; [done|]. split; [done|]. split; [done|]. split; [done|].
    split. { intros i Hi. unfold slot_ok. cbn. rewrite !Hbits by lia. destruct (Z.eqb_spec x i) as [->|Hne].
      - rewrite lookup_delete_eq. cbn. by rewrite orb_true_r.
      - rewrite lookup_delete_ne by done. by apply Hs. }
    split. { intros i e [_ Hi]%lookup_delete_Some. by eapply Hd. }
    split; [done|]. split; [lia|]. split.
    { rewrite Hu. f_equal. f_equal. symmetry. apply used_same. intros j Hj. apply Hused. lia. }
    split; [done|]. intros i k' v' [_ Hi]%lookup_delete_Some. destruct (Hp _ _ _ Hi) as (d & Hdd & -> & Hb').
    exists d. split; [done|]. split; [done|]. intros d' Hd'. rewrite Hused; [by apply Hb'|].
    apply probe_bound. lia.
  - assert (Hne : key ∉ (entries (delete x P)).*1).
    { revert Hnd. rewrite (entries_delete P x _ HP). cbn. by intros [? _]%NoDup_cons. }
    unfold ah_map. rewrite (list_to_map_proper (entries P) ((key, v) :: entries (delete x P))); [|done|by apply entries_delete].
    cbn. rewrite delete_insert_id; [done|]. by apply not_elem_of_list_to_map_1.
  - done.
  - done.
Qed.

(** ** Growth in place *)

(** A table being moved: [O] is what is still in its old bucket, marked in the
    old flags [fl], [N] what is in its new bucket, marked in [nf], and [hand]
    what is in neither. *)
Definition moving (nb nb' : Z) (fl : list Z) (ks : list (option K)) (vs : list (option V)) (nf : list Z)
    (O N : slots) (hand : list (K * option V)) P : Prop :=
  (nb <= 16 * zlen fl /\ nb' <= 16 * zlen nf) /\
  (nb <= zlen ks /\ nb <= zlen vs /\ nb' <= zlen ks /\ nb' <= zlen vs) /\
  (forall i, 0 <= i < nb -> match O !! i with
     | Some (k, v) => fbit fl i 0 = false /\ fbit fl i 1 = false /\ ks !! Z.to_nat i = Some (Some k) /\ vs !! Z.to_nat i = Some v
     | None => fbit fl i 0 || fbit fl i 1 = true end) /\
  (forall i e, O !! i = Some e -> 0 <= i < nb) /\
  (forall i, 0 <= i < nb' -> match N !! i with
     | Some (k, v) => fbit nf i 0 = false /\ fbit nf i 1 = false /\ ks !! Z.to_nat i = Some (Some k) /\ vs !! Z.to_nat i = Some v
     | None => fbit nf i 1 = true end) /\
  (forall i e, N !! i = Some e -> 0 <= i < nb' /\ O !! i = None) /\
  entries O ++ entries N ++ hand ≡ₚ entries P /\
  (forall i k v, N !! i = Some (k, v) -> reaches nf nb' k i) /\
  (forall i, 0 <= i < nb' -> fbit nf i 0 = false).

Lemma moving_used nb nb' fl ks vs nf O N hand P : moving nb nb' fl ks vs nf O N hand P ->
  size (used_set nf nb') = size N /\ (size O + size N + length hand = size P)%nat.
Proof.
  intros (_ & _ & _ & _ & HN & HNd & Hperm & _). split.
  - rewrite <- (size_dom (D := gset Z) N). f_equal. apply set_eq. intros i. rewrite elem_of_used, elem_of_dom. split.
    + intros [Hb Hi]. specialize (HN i Hi). destruct (N !! i); [done|congruence].
    + intros [[k v] Hi]. destruct (HNd _ _ Hi) as [Hi' _]. specialize (HN i Hi'). rewrite Hi in HN. tauto.
  - rewrite <- !entries_length. apply Permutation_length in Hperm. rewrite !length_app in Hperm. lia.
Qed.

(** Taking a pair out of its old bucket. *)
Lemma moving_take nb nb' fl ks vs nf O N hand P i e fl' : moving nb nb' fl ks vs nf O N hand P -> O !! i = Some e ->
  zlen fl' = zlen fl ->
  (forall j b, 0 <= j -> 0 <= b < 2 -> fbit fl' j b = if i =? j then fbit fl j b || (b =? 0) else fbit fl j b) ->
  moving nb nb' fl' ks vs nf (delete i O) N (e :: hand) P.
Proof.
  intros ((Hl1 & Hl2) & Hl & HO & HOd & HN & HNd & Hperm & Hr & H0) Hi Hlen Hbits. unfold moving. rewrite Hlen.
  split; [done|]. split; [done|]. split.
  { intros j Hj. rewrite !Hbits by lia. destruct (Z.eqb_spec i j) as [->|Hne].
    - rewrite lookup_delete_eq. cbn. by rewrite orb_true_r.
    - rewrite lookup_delete_ne by done. by apply HO. }
  split. { intros j e' [_ Hj]%lookup_delete_Some. by eapply HOd. }
  split; [done|]. split.
  { intros j e' Hj. destruct (HNd _ _ Hj) as [? Hn]. split; [done|]. rewrite lookup_delete_None. by right. }
  split; [|done]. rewrite <- Hperm, (entries_delete O i e Hi). cbn. rewrite (app_assoc _ _ (e :: hand)). rewrite <- Permutation_middle. by rewrite <- app_assoc.
Qed.
(** Putting a pair into the first empty bucket of its new probe sequence. *)
Lemma moving_place nb nb' fl ks vs nf O N hand P i k v nf' : moving nb nb' fl ks vs nf O N ((k, v) :: hand) P ->
  O !! i = None -> 0 <= i < nb' -> fbit nf i 1 = true -> reaches nf nb' k i -> zlen nf' = zlen nf ->
  (forall j b, 0 <= j -> 0 <= b < 2 -> fbit nf' j b = if i =? j then fbit nf j b && negb (Z.testbit 2 b) else fbit nf j b) ->
  moving nb nb' fl (<[Z.to_nat i := Some k]> ks) (<[Z.to_nat i := v]> vs) nf' O (<[i := (k, v)]> N) hand P.
Proof.
  intros ((Hl1 & Hl2) & Hl & HO & HOd & HN & HNd & Hperm & Hr & H0) Hi Hib He Hreach Hlen Hbits.
  assert (HNi : N !! i = None). { specialize (HN i Hib). destruct (N !! i) as [[k' v']|]; [|done]. destruct HN as (_ & ? & _). congruence. }
  assert (Hb1 : forall j, 0 <= j -> fbit nf' j 1 = if i =? j then false else fbit nf j 1).
  { intros j Hj. rewrite Hbits by lia. change (Z.testbit 2 1) with true. by rewrite andb_false_r. }
  assert (Hb0 : forall j, 0 <= j < nb' -> fbit nf' j 0 = false).
  { intros j Hj. rewrite Hbits by lia. rewrite H0 by lia. by destruct (_ =? _). }
  unfold moving. unfold zlen in *. rewrite !length_insert. split; [lia|]. split; [lia|]. split.
  { intros j Hj. specialize (HO j Hj). destruct (O !! j) as [[k' v']|] eqn:HOj; [|done]. assert (i <> j) by congruence.
    rewrite !list_lookup_insert_ne by lia. done. }
  split; [done|]. split.
  { intros j Hj. rewrite Hb0, Hb1 by lia. destruct (Z.eqb_spec i j) as [->|Hne].
    - rewrite lookup_insert_eq. rewrite !list_lookup_insert_eq by lia. done.
    - rewrite lookup_insert_ne, !list_lookup_insert_ne by lia. specialize (HN j Hj). destruct (N !! j) as [[k' v']|]; [|done]. tauto. }
  split. { intros j e. destruct (decide (i = j)) as [->|]; [done|]. rewrite lookup_insert_ne by done. apply HNd. }
  split. { rewrite <- Hperm, (entries_insert N i (k, v) HNi). cbn. by rewrite <- !Permutation_middle. }
  split; [|done].
  assert (Hmono : forall k0 j, reaches nf nb' k0 j -> reaches nf' nb' k0 j).
  { intros k0 j (d & Hd & -> & Hs). exists d. split; [done|]. split; [done|]. intros d' Hd'.
    pose proof (probe_bound nb' (hashfn k0) d' ltac:(lia)). rewrite Hb1 by lia. destruct (_ =? _); [done|by apply Hs]. }
  intros j k0 v0. destruct (decide (i = j)) as [->|].
  - rewrite lookup_insert_eq. intros [= <- <-]. by apply Hmono.
  - rewrite lookup_insert_ne by done. intros Hj. apply Hmono. by eapply Hr.
Qed.

Lemma wp_probe_empty b nf k s (Q : Z -> table -> Prop) : 1 <= b <= 31 -> 2 ^ b <= 16 * zlen nf ->
  Z.of_nat (size (used_set nf (2 ^ b))) < 2 ^ b ->
  (forall i, 0 <= i < 2 ^ b -> fbit nf i 1 = true -> reaches nf (2 ^ b) k i -> Q i s) ->
  wp (probe_empty nf (wrapu 32 (2 ^ b - 1)) (hashfn k)) Q s.
Proof.
  intros Hb Hl Hu HQ. unfold probe_empty. pose proof (Z.pow_pos_nonneg 2 b ltac:(lia) ltac:(lia)).
  assert (Hw : wrapu 32 (2 ^ b - 1) = 2 ^ b - 1). { apply wrapu_small. pose proof (Z.pow_le_mono_r 2 b 31). lia. }
  destruct (used_not_full nf (2 ^ b) (hashfn k) ltac:(lia) Hu) as (de & Hde & Hemp).
  eapply (wp_loop (fun i s' => s' = s /\ exists d, 0 <= d <= de /\ i = probe (2 ^ b) (hashfn k) d /\
      forall d', 0 <= d' < d -> fbit nf (probe (2 ^ b) (hashfn k) d') 1 = false)
    (fun i => Z.to_nat (2 ^ b - dist (2 ^ b) (hashfn k) i))).
  - intros i s' (-> & d & Hd & -> & Hs). pose proof (probe_bound (2 ^ b) (hashfn k) d ltac:(lia)).
    apply wp_bind, wp_isempty; [lia|]. destruct (fbit nf (probe (2 ^ b) (hashfn k) d) 1) eqn:He.
    + apply wp_ret, HQ; [done|done|]. exists d. split; [lia|done].
    + apply wp_ret. unfold AH_PROBE_STEP. rewrite probe_next by lia. assert (d <> de) by (intros ->; congruence).
      rewrite !dist_probe by lia. split; [|lia]. split; [done|]. exists (d + 1). split; [lia|]. split; [done|].
      intros d' Hd'. destruct (Z.eq_dec d' d) as [->|]; [done|]. apply Hs. lia.
  - split; [done|]. exists 0. rewrite probe_start by lia. split; [lia|]. split; [done|]. lia.
  - rewrite probe_start by lia. rewrite dist_probe by lia. rewrite Hw. lia.
Qed.

(** Array accesses on a state written out. *)
Lemma wp_key_at nb sz nu sup fl ks vs i k (Q : K -> table -> Prop) : 0 <= i -> ks !! Z.to_nat i = Some (Some k) ->
  Q k (mk_ah nb sz nu sup fl ks vs) -> wp (key_at i) Q (mk_ah nb sz nu sup fl ks vs).
Proof. intros Hi Hk HQ. unfold key_at. apply wp_bind, wp_get, wp_bind. eapply wp_array_get; [done|exact Hk|]. by apply wp_ret. Qed.
Lemma wp_val_at nb sz nu sup fl ks vs i v (Q : option V -> table -> Prop) : 0 <= i -> vs !! Z.to_nat i = Some v ->
  Q v (mk_ah nb sz nu sup fl ks vs) -> wp (val_at i) Q (mk_ah nb sz nu sup fl ks vs).
Proof. intros Hi Hk HQ. unfold val_at. apply wp_bind, wp_get. by eapply wp_array_get. Qed.
Lemma wp_store_key nb sz nu sup fl ks vs i k (Q : unit -> table -> Prop) : 0 <= i < zlen ks ->
  Q tt (mk_ah nb sz nu sup fl (<[Z.to_nat i := Some k]> ks) vs) -> wp (store_key i k) Q (mk_ah nb sz nu sup fl ks vs).
Proof. intros Hi HQ. unfold store_key. apply wp_bind, wp_get, wp_bind. apply wp_array_set; [done|]. by apply wp_modify. Qed.
Lemma wp_store_val nb sz nu sup fl ks vs i v (Q : unit -> table -> Prop) : 0 <= i < zlen vs ->
  Q tt (mk_ah nb sz nu sup fl ks (<[Z.to_nat i := v]> vs)) -> wp (store_val i v) Q (mk_ah nb sz nu sup fl ks vs).
Proof. intros Hi HQ. unfold store_val. apply wp_bind, wp_get, wp_bind. apply wp_array_set; [done|]. by apply wp_modify. Qed.
Lemma wp_mark_deleted nb sz nu sup fl ks vs i (Q : unit -> table -> Prop) : 0 <= i < 16 * zlen fl ->
  (forall fl', zlen fl' = zlen fl ->
     (forall j b, 0 <= j -> 0 <= b < 2 -> fbit fl' j b = if i =? j then fbit fl j b || (b =? 0) else fbit fl j b) ->
     Q tt (mk_ah nb sz nu sup fl' ks vs)) -> wp (mark_deleted i) Q (mk_ah nb sz nu sup fl ks vs).
Proof. intros Hi HQ. unfold mark_deleted. apply wp_bind, wp_get, wp_bind. apply wp_flag_set; [done|]. intros fl' H1 H2. apply wp_modify. by apply HQ. Qed.

Lemma size_slots_bound P nb : 0 <= nb -> (forall i e, P !! i = Some e -> 0 <= i < nb) -> Z.of_nat (size P) <= nb.
Proof.
  intros Hnb HP. rewrite <- (size_dom (D := gset Z) P), <- (size_seqZ nb Hnb). apply Nat2Z.inj_le, subseteq_size.
  intros i [e Hi]%elem_of_dom. apply elem_of_list_to_set, elem_of_seqZ. specialize (HP _ _ Hi). lia.
Qed.

Lemma moving_perm nb nb' fl ks vs nf O N hand hand' P :
  hand' ≡ₚ hand -> moving nb nb' fl ks vs nf O N hand P -> moving nb nb' fl ks vs nf O N hand' P.
Proof. intros Hp. unfold moving. rewrite Hp. done. Qed.

Section move.
Variables (nb sz nu sup b' : Z) (P : slots).
Hypothesis Hb' : 1 <= b' <= 31.
Hypothesis Hnb : 0 <= nb.
Hypothesis Hfits : Z.of_nat (size P) < 2 ^ b'.
Abbreviation nb' := (2 ^ b').
Abbreviation new_mask := (wrapu 32 (2 ^ b' - 1)).

Lemma wp_relocate fl ks vs nf O N k v (Q : list Z -> table -> Prop) :
  moving nb nb' fl ks vs nf O N [(k, v)] P ->
  (forall nf' fl' ks' vs' O' N', moving nb nb' fl' ks' vs' nf' O' N' [] P -> O' ⊆ O -> Q nf' (mk_ah nb sz nu sup fl' ks' vs')) ->
  wp (relocate hashfn new_mask k v nf) Q (mk_ah nb sz nu sup fl ks vs).
Proof.
  intros Hm HQ. unfold relocate. apply wp_bind, wp_get. cbn [ah_nbucket].
  set (c := (size O + size N)%nat).
  eapply (wp_loop (fun '(k, v, nf) s => exists fl ks vs O' N', s = mk_ah nb sz nu sup fl ks vs /\
      moving nb nb' fl ks vs nf O' N' [(k, v)] P /\ O' ⊆ O /\ (size O' + size N' = c)%nat)
    (fun '(k, v, nf) => (c - size (used_set nf nb'))%nat)).
  - clearbody c. clear fl ks vs nf N k v Hm. intros [[k v] nf] s (fl & ks & vs & O' & N' & -> & Hm & Hsub & Hc).
    pose proof (moving_used _ _ _ _ _ _ _ _ _ _ Hm) as [Hus Hsz]. cbn [length] in Hsz.
    pose proof Hm as ((Hl1 & Hl2) & (Hl3 & Hl4 & Hl5 & Hl6) & HO & HOd & HN & HNd & _ & _ & HD0).
    apply wp_bind, wp_probe_empty; [done|done|lia|]. intros i Hi He Hr.
    apply wp_bind. apply wp_flag_clear; [lia|lia|]. intros nf' Hlen Hbits. apply wp_bind, wp_get. cbn [ah_nbucket ah_flags].
    assert (Hused : (size (used_set nf' nb') = S (size N'))).
    { apply Nat2Z.inj. rewrite (used_add nf nf' nb' i); [lia|done|done|]. intros j Hj. rewrite Hbits by lia.
      change (Z.testbit 2 1) with true. by rewrite andb_false_r. }
    destruct (O' !! i) as [[k2 v2]|] eqn:HOi.
    + pose proof (HOd _ _ HOi) as Hib. specialize (HO i Hib). rewrite HOi in HO. destruct HO as (Hf0 & Hf1 & Hk2 & Hv2).
      apply wp_bind. destruct (Z.ltb_spec i nb); [|lia]. apply wp_iseither; [lia|]. rewrite Hf0, Hf1. cbn [orb].
      apply wp_bind. eapply wp_key_at; [lia|exact Hk2|]. apply wp_bind, wp_store_key; [lia|]. apply wp_bind.
      eapply wp_val_at; [lia|exact Hv2|]. apply wp_bind, wp_store_val; [lia|]. apply wp_bind. apply wp_mark_deleted; [lia|].
      intros fl' Hfl' Hflb. apply wp_ret.
      pose proof (moving_take _ _ _ _ _ _ _ _ _ _ i _ fl' Hm HOi Hfl' Hflb) as Hm2.
      apply (moving_perm _ _ _ _ _ _ _ _ [(k2, v2); (k, v)] [(k, v); (k2, v2)]) in Hm2; [|constructor].
      apply (moving_place _ _ _ _ _ _ _ _ _ _ i k v nf') in Hm2; [|apply lookup_delete_eq|done|done|done|done|done].
      pose proof (moving_used _ _ _ _ _ _ _ _ _ _ Hm2) as [Hus2 Hsz2]. cbn [length] in Hsz2. split; [|lia].
      exists fl', (<[Z.to_nat i := Some k]> ks), (<[Z.to_nat i := v]> vs), (delete i O'), (<[i := (k, v)]> N').
      split; [done|]. split; [done|]. split; [etrans; [apply delete_subseteq|done]|lia].
    + pose proof (moving_place _ _ _ _ _ _ _ _ _ _ i k v nf' Hm HOi Hi He Hr Hlen Hbits) as Hm2.
      apply wp_bind, (wp_mono _ (fun moved s => moved = true /\ s = mk_ah nb sz nu sup fl ks vs)).
      * destruct (Z.ltb_spec i nb); [|by apply wp_ret]. apply wp_iseither; [lia|]. specialize (HO i ltac:(lia)). by rewrite HOi in HO.
      * intros moved s [-> ->]. apply wp_bind, wp_store_key; [lia|]. apply wp_bind, wp_store_val; [lia|]. apply wp_ret. by eapply HQ.
  - exists fl, ks, vs, O, N. done.
  - pose proof (moving_used _ _ _ _ _ _ _ _ _ _ Hm) as [Hus Hsz]. rewrite Hus.
    pose proof (size_slots_bound O nb Hnb ltac:(apply Hm)). lia.
Qed.

Lemma wp_move_all fl ks vs nf O (Q : list Z -> table -> Prop) :
  moving nb nb' fl ks vs nf O ∅ [] P ->
  (forall nf' fl' ks' vs' N', moving nb nb' fl' ks' vs' nf' ∅ N' [] P -> Q nf' (mk_ah nb sz nu sup fl' ks' vs')) ->
  wp (move_all hashfn new_mask nf) Q (mk_ah nb sz nu sup fl ks vs).
Proof.
  intros Hm HQ. unfold move_all. apply wp_bind, wp_get. cbn [ah_nbucket].
  eapply (wp_loop (fun '(j, nf) s => 0 <= j <= nb /\ exists fl ks vs O' N', s = mk_ah nb sz nu sup fl ks vs /\
      moving nb nb' fl ks vs nf O' N' [] P /\ forall i, 0 <= i < j -> O' !! i = None)
    (fun '(j, nf) => Z.to_nat (nb - j))).
  - clear fl ks vs nf O Hm. intros [j nf] s (Hj & fl & ks & vs & O & N & -> & Hm & Hpre).
    pose proof Hm as ((Hl1 & Hl2) & (Hl3 & Hl4 & Hl5 & Hl6) & HO & HOd & _).
    destruct (Z.eqb_spec j nb) as [->|Hne].
    + apply wp_ret. apply (HQ _ _ _ _ N). assert (O = ∅) as ->; [|done]. apply map_empty. intros i.
      destruct (O !! i) eqn:E; [|done]. rewrite Hpre in E; [done|by eapply HOd].
    + apply wp_bind, wp_get. cbn [ah_flags]. apply wp_bind, wp_iseither; [lia|]. pose proof (HO j ltac:(lia)) as HOj.
      destruct (O !! j) as [[k v]|] eqn:HOe.
      * destruct HOj as (Hf0 & Hf1 & Hk & Hv). rewrite Hf0, Hf1. cbn [orb].
        apply wp_bind. eapply wp_key_at; [lia|exact Hk|]. apply wp_bind. eapply wp_val_at; [lia|exact Hv|].
        apply wp_bind. apply wp_mark_deleted; [lia|]. intros fl' Hfl' Hflb.
        pose proof (moving_take _ _ _ _ _ _ _ _ _ _ j _ fl' Hm HOe Hfl' Hflb) as Hm2.
        apply wp_bind. eapply wp_relocate; [exact Hm2|]. intros nf2 fl2 ks2 vs2 O2 N2 Hm3 Hsub. apply wp_ret. split; [|lia].
        split; [lia|]. exists fl2, ks2, vs2, O2, N2. split; [done|]. split; [done|]. intros i Hi.
        destruct (O2 !! i) eqn:E; [|done]. pose proof (lookup_weaken _ _ _ _ E Hsub) as E2. apply lookup_delete_Some in E2 as [Hij E2].
        rewrite Hpre in E2; [done|lia].
      * rewrite HOj. apply wp_ret. split; [|lia]. split; [lia|]. exists fl, ks, vs, O, N. split; [done|]. split; [done|].
        intros i Hi. destruct (Z.eq_dec i j) as [->|]; [done|]. apply Hpre. lia.
  - split; [lia|]. exists fl, ks, vs, O, ∅. split; [done|]. split; [done|]. lia.
  - lia.
Qed.
End move.

Lemma realloc_lookup {A} (l : list (option A)) n i x : 0 <= i < n -> l !! Z.to_nat i = Some x -> realloc_array l n !! Z.to_nat i = Some x.
Proof.
  intros Hi Hx. unfold realloc_array. rewrite lookup_app_l.
  - rewrite lookup_take_lt by lia. done.
  - apply lookup_lt_Some in Hx. rewrite length_take. lia.
Qed.
Lemma realloc_length {A} (l : list (option A)) n : 0 <= n -> zlen (realloc_array l n) = n.
Proof. intros Hn. unfold realloc_array, zlen. rewrite length_app, length_take, length_replicate. lia. Qed.

Lemma flags_bytes b : 1 <= b <= 31 -> 2 ^ b <= 16 * (AH_FLAGS_BYTE (2 ^ b) / 4).
Proof.
  intros Hb. unfold AH_FLAGS_BYTE. destruct (Z.ltb_spec (2 ^ b) 16); [change (4 / 4) with 1; lia|].
  rewrite Z.shiftr_div_pow2 by lia. change (2 ^ 2) with 4.
  assert (4 <= b). { destruct (Z.le_gt_cases 4 b); [done|]. assert (2 ^ b < 2 ^ 4) by (apply Z.pow_lt_mono_r; lia). lia. }
  replace (2 ^ b) with (16 * 2 ^ (b - 4)); [|change 16 with (2 ^ 4); rewrite <- Z.pow_add_r by lia; f_equal; lia].
  set (q := 2 ^ (b - 4)). Z.to_euclidean_division_equations; lia.
Qed.
Lemma load_bound_pow b : 1 <= b -> load_bound (2 ^ b) = 2 ^ (b - 1).
Proof.
  intros Hb. unfold load_bound. replace (2 ^ b) with (2 * 2 ^ (b - 1)); [|rewrite <- Z.pow_succ_r by lia; f_equal; lia].
  set (q := 2 ^ (b - 1)). Z.to_euclidean_division_equations; lia.
Qed.

(** What growing needs of the table it starts from; an unused table has it too. *)
Definition growable h P (b' : Z) : Prop :=
  0 <= ah_nbucket h < 2 ^ b' /\ Z.of_nat (size P) < 2 ^ (b' - 1) /\ ah_size h = Z.of_nat (size P) /\
  ah_nbucket h <= 16 * zlen (ah_flags h) /\
  (forall i, 0 <= i < ah_nbucket h -> slot_ok h P i) /\ (forall i e, P !! i = Some e -> 0 <= i < ah_nbucket h) /\
  ah_nbucket h <= zlen (ah_keys h) /\ ah_nbucket h <= zlen (ah_vals h) /\ NoDup (entries P).*1.

Lemma grown_table nb nb' fl ks vs nf N P b : moving nb nb' fl ks vs nf ∅ N [] P -> nb' = 2 ^ b -> 1 <= b <= 31 ->
  Z.of_nat (size P) < 2 ^ (b - 1) -> NoDup (entries P).*1 ->
  table_ok (mk_ah nb' (Z.of_nat (size P)) (Z.of_nat (size P)) (2 ^ (b - 1)) nf ks vs) N /\ ah_map N = ah_map P.
Proof.
  intros Hm -> Hb Hsz Hnd. pose proof (moving_used _ _ _ _ _ _ _ _ _ _ Hm) as [Hus Hs].
  destruct Hm as ((Hl1 & Hl2) & (Hl3 & Hl4 & Hl5 & Hl6) & HO & HOd & HN & HNd & Hperm & Hr & H0).
  rewrite app_nil_r in Hperm. assert (entries ∅ = []) as E by (unfold entries; by rewrite map_to_list_empty). rewrite E in Hperm. cbn in Hperm.
  rewrite map_size_empty in Hs. cbn [length] in Hs.
  assert (Hnd' : NoDup (entries N).*1) by (by rewrite Hperm). split.
  - exists b. cbn. split; [done|]. split; [done|]. split; [done|]. split; [done|].
    split. { intros i Hi. unfold slot_ok. cbn. specialize (HN i Hi). destruct (N !! i) as [[k v]|]; [tauto|]. rewrite HN. apply orb_true_r. }
    split. { intros i e Hi. by apply (HNd i e). }
    split; [done|]. split; [lia|]. split; [lia|]. split; [lia|]. exact Hr.
  - unfold ah_map. by apply list_to_map_proper.
Qed.

Lemma inv_size_used h P : ah_inv h P -> Z.of_nat (size P) <= ah_nused h.
Proof.
  intros [[(_ & _ & Hnu & _) ->]|Hok]; [rewrite map_size_empty; lia|]. pose proof (size_le_used _ _ Hok) as (H1 & _).
  destruct Hok as (b & _ & _ & _ & _ & _ & _ & _ & Hsz & _). lia.
Qed.

Definition resize_post (new : Z) h P (r : Z) (h' : table) : Prop :=
  (r = -1 /\ (exists n, malloc n = false) /\ ah_inv h' P /\ ah_nused h' = ah_nused h /\ ah_sup h' = ah_sup h /\ ah_nbucket h' = ah_nbucket h) \/
  (r = 0 /\ ah_nused h' <= ah_nused h /\ ah_nbucket h' = new /\
   exists P', table_ok h' P' /\ ah_map P' = ah_map P /\ ah_nused h' < ah_sup h').

Lemma table_ok_longer h P ks vs : table_ok h P ->
  (forall i x, 0 <= i < ah_nbucket h -> ah_keys h !! Z.to_nat i = Some x -> ks !! Z.to_nat i = Some x) ->
  (forall i x, 0 <= i < ah_nbucket h -> ah_vals h !! Z.to_nat i = Some x -> vs !! Z.to_nat i = Some x) ->
  ah_nbucket h <= zlen ks -> ah_nbucket h <= zlen vs ->
  table_ok (mk_ah (ah_nbucket h) (ah_size h) (ah_nused h) (ah_sup h) (ah_flags h) ks vs) P.
Proof.
  intros (b & Hb & Hnb & Hsup & (Hfl & Hkl & Hvl) & Hs & Hr) Hks Hvs Hlk Hlv. exists b. cbn.
  split; [done|]. split; [done|]. split; [done|]. split; [done|]. split; [|done]. intros i Hi. specialize (Hs i Hi).
  unfold slot_ok in *. cbn. destruct (P !! i) as [[k v]|]; [|done]. destruct Hs as (? & ? & ? & ?). split_and!; eauto.
Qed.

Lemma growable_moving h P b' ks vs : growable h P b' -> 
  zlen ks = 2 ^ b' -> zlen vs = 2 ^ b' -> 1 <= b' <= 31 ->
  (forall i x, 0 <= i < ah_nbucket h -> ah_keys h !! Z.to_nat i = Some x -> ks !! Z.to_nat i = Some x) ->
  (forall i x, 0 <= i < ah_nbucket h -> ah_vals h !! Z.to_nat i = Some x -> vs !! Z.to_nat i = Some x) ->
  moving (ah_nbucket h) (2 ^ b') (ah_flags h) ks vs (empty_flags (AH_FLAGS_BYTE (2 ^ b'))) P ∅ [] P.
Proof.
  intros (Hnb & Hsz & Hsize & Hfl & Hs & Hd & Hkl & Hvl & Hnd) Hks Hvs Hb Hk Hv.
  pose proof (flags_bytes b' Hb) as Hby. pose proof (Z.pow_pos_nonneg 2 b' ltac:(lia) ltac:(lia)).
  unfold moving. split. { split; [done|]. unfold empty_flags, zlen. rewrite length_replicate. lia. }
  split; [lia|]. split.
  { intros i Hi. specialize (Hs i Hi). unfold slot_ok in Hs. destruct (P !! i) as [[k v]|]; [|done]. destruct Hs as (? & ? & ? & ?). split_and!; eauto. }
  split; [done|]. split. { intros i Hi. rewrite lookup_empty. apply empty_flags_bits; lia. }
  split. { intros i e Hi. by rewrite lookup_empty in Hi. }
  split. { unfold entries. rewrite map_to_list_empty. cbn. by rewrite app_nil_r. }
  split. { intros i k v Hi. by rewrite lookup_empty in Hi. }
  intros i Hi. apply empty_flags_bits; lia.
Qed.

Lemma wp_resize h P b' (Q : Z -> table -> Prop) : ah_inv h P -> growable h P b' -> 1 <= b' <= 31 ->
  (forall r h', resize_post (2 ^ b') h P r h' -> Q r h') ->
  wp (alignhash_resize hashfn malloc sizeof_key sizeof_val (2 ^ b')) Q h.
Proof.
  intros Hinv Hg Hb HQ. pose proof Hg as (Hnb & Hsz & Hsize & Hfl & Hs & Hd & Hkl & Hvl & Hnd).
  assert (Hhalf : 2 ^ b' = 2 * 2 ^ (b' - 1)) by (rewrite <- Z.pow_succ_r by lia; f_equal; lia).
  unfold alignhash_resize. apply wp_bind, wp_get. rewrite load_bound_pow by lia. destruct (Z.leb_spec (2 ^ (b' - 1)) (ah_size h)); [lia|].
  destruct (malloc (AH_FLAGS_BYTE (2 ^ b'))) eqn:Hm1; cbn [negb]; [|apply wp_ret, HQ; left; eauto 10].
  apply wp_bind. unfold grow. apply wp_bind, wp_get. destruct (Z.leb_spec (2 ^ b') (ah_nbucket h)); [lia|].
  destruct (malloc (2 ^ b' * sizeof_key)) eqn:Hm2; cbn [negb]; [|apply wp_ret; cbn [negb]; apply wp_ret, HQ; left; eauto 10].
  apply wp_bind, wp_modify. set (ks := realloc_array (ah_keys h) (2 ^ b')).
  assert (Hks : forall i x, 0 <= i < ah_nbucket h -> ah_keys h !! Z.to_nat i = Some x -> ks !! Z.to_nat i = Some x).
  { intros i x Hi. apply realloc_lookup. lia. }
  assert (Hlk : zlen ks = 2 ^ b') by (apply realloc_length; lia).
  match goal with |- wp _ _ ?st => assert (st = mk_ah (ah_nbucket h) (ah_size h) (ah_nused h) (ah_sup h) (ah_flags h) ks (ah_vals h)) as -> by by destruct h end.
  destruct (malloc (2 ^ b' * sizeof_val)) eqn:Hm3; cbn [negb].
  2:{ apply wp_ret. cbn [negb]. apply wp_ret, HQ. left. split; [done|]. split; [eauto|]. split; [|done].
      destruct Hinv as [[Hu ->]|Hok]; [left; done|right]. apply table_ok_longer; [done|done|done|lia|lia]. }
  apply wp_bind, wp_modify, wp_ret. cbn [negb]. set (vs := realloc_array (ah_vals h) (2 ^ b')).
  assert (Hvs : forall i x, 0 <= i < ah_nbucket h -> ah_vals h !! Z.to_nat i = Some x -> vs !! Z.to_nat i = Some x).
  { intros i x Hi. apply realloc_lookup. lia. }
  assert (Hlv : zlen vs = 2 ^ b') by (apply realloc_length; lia).
  match goal with |- wp _ _ ?st => assert (st = mk_ah (ah_nbucket h) (ah_size h) (ah_nused h) (ah_sup h) (ah_flags h) ks vs) as -> by by destruct h end.
  apply wp_bind. eapply (wp_move_all (ah_nbucket h) _ _ _ b' P); [lia|lia|lia|by apply growable_moving|].
  intros nf fl' ks' vs' N Hm. apply wp_bind. unfold shrink. apply wp_bind, wp_get. cbn [ah_nbucket].
  destruct (Z.leb_spec (ah_nbucket h) (2 ^ b')); [|lia]. apply wp_ret, wp_bind, wp_modify, wp_ret.
  destruct (grown_table _ _ _ _ _ _ _ _ b' Hm eq_refl Hb Hsz Hnd) as [Hok Hmap].
  match goal with |- Q _ ?st => replace st with (mk_ah (2 ^ b') (Z.of_nat (size P)) (Z.of_nat (size P)) (2 ^ (b' - 1)) nf ks' vs') by (rewrite <- Hsize; reflexivity) end.
  apply HQ. right. split; [done|]. split; [by apply inv_size_used|]. split; [done|]. exists N. done.
Qed.

(** The result of an insertion: [None] when the table could not grow. *)
Definition insert_post h P key (r : Z * option ah_ins) (h' : table) : Prop :=
  (exists h1 P1, ah_nused h1 <= ah_nused h /\ ah_nbucket h1 <= Z.max (Z.max 2 (ah_nbucket h)) (4 * ah_nused h) /\
     ah_map P1 = ah_map P /\ set_post h1 P1 key r h') \/ (snd r = None /\ (exists n, malloc n = false) /\ ah_inv h' P /\ fst r = ah_nbucket h' /\ ah_nbucket h' = ah_nbucket h /\ ah_nused h' <= ah_nused h).

Lemma ah_inv_growable h P : ah_inv h P -> ah_sup h <= ah_nused h -> ah_nbucket h <= 2 ^ 30 ->
  exists b', 1 <= b' <= 31 /\ (if ah_nbucket h =? 0 then 2 else wrapu 32 (ah_nbucket h * 2)) = 2 ^ b' /\ growable h P b' /\
    2 ^ b' <= Z.max 2 (4 * ah_nused h).
Proof.
  intros [[(Hn & Hsz & Hnu & Hsp & Hf) ->]|Hok] Hfull Hmax.
  - exists 1. rewrite Hn. split; [lia|]. split; [done|]. split; [|lia]. unfold growable.
    rewrite Hn, map_size_empty, Hf. pose proof (zlen_nonneg (@nil Z)). split_and!; try done; try lia.
    all: first [apply zlen_nonneg|unfold entries; rewrite map_to_list_empty; constructor|intros; lia].
  - pose proof (size_le_used _ _ Hok) as (H1 & H2 & H3 & H4 & H5).
    destruct Hok as (b & Hb & Hnb & Hsup & (Hfl & Hkl & Hvl) & Hs & Hd & Hnd & Hsz & Hu & Hus & Hp).
    exists (b + 1). pose proof (Z.pow_pos_nonneg 2 b ltac:(lia) ltac:(lia)). rewrite Hnb in *.
    destruct (Z.eqb_spec (2 ^ b) 0); [lia|].
    assert (b <= 30) by (apply (Z.pow_le_mono_r_iff 2); lia). split; [lia|].
    assert (2 ^ b * 2 = 2 ^ (b + 1)) as -> by (rewrite Z.pow_add_r by lia; lia).
    replace (b + 1 - 1) with b by lia. assert (2 ^ (b + 1) = 2 * 2 ^ b) as E by (rewrite Z.pow_add_r by lia; lia).
    rewrite wrapu_small by lia. split; [done|]. split; [|lia]. unfold growable. rewrite Hnb. replace (b + 1 - 1) with b by lia.
    split_and!; try done; lia.
Qed.

Lemma wp_alignhash_set h P key (Q : Z * option ah_ins -> table -> Prop) :
  ah_inv h P -> ah_nbucket h <= 2 ^ 30 -> (forall r h', insert_post h P key r h' -> Q r h') ->
  wp (alignhash_set hashfn hasheq malloc sizeof_key sizeof_val key) Q h.
Proof.
  intros Hinv Hmax HQ. destruct (Z.lt_ge_cases (ah_nused h) (ah_sup h)) as [Hroom|Hfull].
  { destruct Hinv as [[(Hn & Hsz & Hnu & Hsp & Hf) ->]|Hok]; [lia|].
    unfold alignhash_set. apply wp_bind, wp_get. destruct (Z.leb_spec (ah_sup h) (ah_nused h)); [lia|].
    apply wp_bind, wp_ret, wp_bind, wp_get. cbn [Z.eqb negb].
    apply (wp_set_in_room h P); [done|done|]. intros r h' Hp. apply HQ. left. exists h, P. split; [lia|]. split; [lia|]. done. }
  destruct (ah_inv_growable h P Hinv Hfull Hmax) as (b' & Hb' & Hn & Hg & Hbig).
  unfold alignhash_set. apply wp_bind, wp_get. destruct (Z.leb_spec (ah_sup h) (ah_nused h)); [|lia]. rewrite Hn.
  apply wp_bind, (wp_resize h P b'); [done|done|done|]. intros r h1 [(-> & Hfail & Hi & Hnu & Hsup & Hnb)|(-> & Hnu & Hnb & P1 & Hok & Hmap & Hroom)].
  - apply wp_bind, wp_get. cbn [Z.eqb negb]. apply wp_ret, HQ. right. split_and!; try done. lia.
  - apply wp_bind, wp_get. cbn [Z.eqb negb]. apply (wp_set_in_room h1 P1); [done|done|].
    intros r h' Hpost. apply HQ. left. exists h1, P1. split; [done|]. split; [lia|]. done.
Qed.

(** ** The table as a map *)

Lemma wp_store_value h P x k v0 v (Q : unit -> table -> Prop) : table_ok h P -> P !! x = Some (k, v0) ->
  (forall h' P', table_ok h' P' -> P' !! x = Some (k, Some v) -> ah_map P' = <[k := Some v]> (ah_map P) ->
     ah_nbucket h' = ah_nbucket h -> ah_nused h' = ah_nused h -> Q tt h') ->
  wp (store_val x (Some v)) Q h.
Proof.
  intros Hok Hx HQ. pose proof (live_slot _ _ _ _ _ Hok Hx) as (Hf0 & Hf1 & Hk & Hv & Hxb).
  pose proof Hok as (b & Hb & Hnb & Hsup & (Hfl & Hkl & Hvl) & Hs & Hd & Hnd & Hsz & Hu & Hus & Hp).
  destruct h as [nb sz nu sup fl ks vs]. cbn in *. apply wp_store_val; [lia|]. apply (HQ _ (<[x := (k, Some v)]> P)); cbn.
  - assert (Hent : entries (<[x := (k, Some v)]> P) ≡ₚ (k, Some v) :: entries (delete x P)).
    { rewrite <- insert_delete_eq. apply entries_insert, lookup_delete_eq. }
    exists b. cbn. unfold zlen in *. rewrite length_insert. split; [done|]. split; [done|]. split; [done|]. split; [done|].
    split. { intros i Hi. unfold slot_ok. cbn. destruct (decide (x = i)) as [->|Hne].
      - rewrite lookup_insert_eq. split; [done|]. split; [done|]. split; [done|]. apply list_lookup_insert_eq. lia.
      - rewrite lookup_insert_ne by done. specialize (Hs i Hi). unfold slot_ok in Hs. cbn in Hs.
        destruct (P !! i) as [[k' v']|]; [|done]. rewrite (list_lookup_insert_ne vs) by lia. done. }
    split. { intros i e. destruct (decide (x = i)) as [->|]; [done|]. rewrite lookup_insert_ne by done. apply Hd. }
    split. { rewrite Hent. revert Hnd. rewrite (entries_delete P x _ Hx). done. }
    split. { rewrite map_size_insert_Some by eauto. done. }
    split; [done|]. split; [done|]. intros i k' v'. destruct (decide (x = i)) as [->|].
    + rewrite lookup_insert_eq. intros [= <- <-]. by eapply Hp.
    + rewrite lookup_insert_ne by done. apply Hp.
  - apply lookup_insert_eq.
  - assert (Hent : entries (<[x := (k, Some v)]> P) ≡ₚ (k, Some v) :: entries (delete x P)).
    { rewrite <- insert_delete_eq. apply entries_insert, lookup_delete_eq. }
    assert (Hne : NoDup (entries (<[x := (k, Some v)]> P)).*1).
    { rewrite Hent. revert Hnd. rewrite (entries_delete P x _ Hx). done. }
    unfold ah_map. rewrite (list_to_map_proper _ _ Hne Hent). rewrite (list_to_map_proper (entries P) ((k, v0) :: entries (delete x P))); [|done|by apply entries_delete].
    cbn. by rewrite insert_insert_eq.
  - done.
  - done.
Qed.

Lemma wp_alignhash_clear h P (Q : unit -> table -> Prop) : ah_inv h P ->
  (forall h', ah_inv h' ∅ -> ah_nbucket h' = ah_nbucket h -> ah_nused h' <= ah_nused h -> Q tt h') -> wp alignhash_clear Q h.
Proof.
  intros Hinv HQ. unfold alignhash_clear. apply wp_bind, wp_get. destruct Hinv as [[Hu ->]|Hok].
  - pose proof Hu as (Hn & Hsz & Hnu & Hsp & Hf). rewrite Hf. apply wp_ret, HQ; [by left|done|lia].
  - pose proof (size_le_used _ _ Hok) as (H1 & H2 & H3 & H4 & H5).
    destruct Hok as (b & Hb & Hnb & Hsup & (Hfl & Hkl & Hvl) & Hs & Hd & Hnd & Hsz & Hu & Hus & Hp).
    pose proof (Z.pow_pos_nonneg 2 b ltac:(lia) ltac:(lia)).
    destruct (ah_flags h) as [|w fl] eqn:Ef; [change (zlen (@nil Z)) with 0 in Hfl; lia|]. apply wp_put. pose proof (flags_bytes b Hb) as Hby.
    match goal with |- Q _ ?st => assert (st = mk_ah (ah_nbucket h) 0 0 (ah_sup h) (empty_flags (AH_FLAGS_BYTE (ah_nbucket h))) (ah_keys h) (ah_vals h)) as -> by by destruct h end.
    apply HQ; [|done|cbn; lia]. right. exists b. cbn. rewrite Hnb in *. split; [done|]. split; [done|]. split; [done|].
    assert (Hbits : forall i, 0 <= i < 2 ^ b -> fbit (empty_flags (AH_FLAGS_BYTE (2 ^ b))) i 1 = true) by (intros i Hi; apply empty_flags_bits; lia).
    split. { split; [|done]. unfold empty_flags, zlen. rewrite length_replicate. lia. }
    split. { intros i Hi. unfold slot_ok. rewrite lookup_empty. cbn. rewrite Hbits by done. apply orb_true_r. }
    split. { intros i e Hi. by rewrite lookup_empty in Hi. }
    split. { unfold entries. rewrite map_to_list_empty. constructor. }
    split; [done|]. split.
    { assert (used_set (empty_flags (AH_FLAGS_BYTE (2 ^ b))) (2 ^ b) = ∅) as ->; [|done]. apply elem_of_equiv_empty_L.
      intros i [Hi1 Hi]%elem_of_used. by rewrite Hbits in Hi1 by done. }
    split; [lia|]. intros i k v Hi. by rewrite lookup_empty in Hi.
Qed.

(** ** The interface of the table

    A user of the table needs no more than these: [table_rep n h mm] says that
    [h] holds the map [mm] after [n] insertions at most. *)

(** The table holds [mm] after [n] insertions. *)
Definition table_rep (n : Z) h (mm : gmap K V) : Prop :=
  exists P, ah_inv h P /\ ah_map P = Some <$> mm /\ ah_nused h <= n /\ ah_nbucket h <= Z.max 2 (4 * n).

Lemma table_rep_holds n h mm P x k : ah_inv h P -> ah_map P = Some <$> mm -> table_rep n h mm -> holds P x k ->
  exists v, table_ok h P /\ P !! x = Some (k, Some v) /\ mm !! k = Some v.
Proof.
  intros [[Hu ->]|Hok] Hm _ [v Hv]; [by rewrite lookup_empty in Hv|].
  assert (NoDup (entries P).*1) as Hnd by (destruct Hok as (b & _ & _ & _ & _ & _ & _ & ? & _); done).
  assert (ah_map P !! k = Some v) as E by (apply ah_map_lookup; eauto). rewrite Hm, lookup_fmap in E.
  destruct (mm !! k) as [v'|]; [|done]. injection E as <-. eauto.
Qed.
Lemma table_rep_absent h mm P k : ah_inv h P -> ah_map P = Some <$> mm -> (forall j, ~ holds P j k) -> mm !! k = None.
Proof.
  intros Hinv Hm Hn. destruct (mm !! k) as [v|] eqn:E; [|done]. exfalso.
  assert (ah_map P !! k = Some (Some v)) as E2 by (rewrite Hm, lookup_fmap, E; done).
  assert (NoDup (entries P).*1) as Hnd.
  { destruct Hinv as [[_ ->]|(b & _ & _ & _ & _ & _ & _ & ? & _)]; [|done]. unfold entries. rewrite map_to_list_empty. constructor. }
  apply ah_map_lookup in E2 as [i Hi]; [|done]. apply (Hn i). by exists (Some v).
Qed.

Lemma table_rep_weaken n n' h mm : table_rep n h mm -> n <= n' -> table_rep n' h mm.
Proof. intros (P & Hinv & Hm & Hnu & Hnb) Hn. exists P. split_and!; [done|done|lia|lia]. Qed.

(** Bucket [x] holds the key [k] with the value [v], or the key alone. *)
Definition at_bucket n h mm (x : Z) (k : K) (v : V) : Prop :=
  exists P, table_ok h P /\ P !! x = Some (k, Some v) /\ ah_map P = Some <$> mm /\ ah_nused h <= n /\ ah_nbucket h <= Z.max 2 (4 * n).
Definition in_bucket n h mm (x : Z) (k : K) : Prop :=
  exists P v0, table_ok h P /\ P !! x = Some (k, v0) /\ (forall v, <[k := Some v]> (ah_map P) = Some <$> <[k := v]> mm) /\
    ah_nused h <= n /\ ah_nbucket h <= Z.max 2 (4 * n).

Lemma at_bucket_rep n h mm x k v : at_bucket n h mm x k v -> table_rep n h mm.
Proof. intros (P & Hok & _ & Hm & Hnu & Hnb). exists P. split_and!; try done. by right. Qed.
Lemma at_bucket_in n h mm x k v : at_bucket n h mm x k v -> in_bucket n h mm x k.
Proof. intros (P & Hok & Hx & Hm & Hnu & Hnb). exists P, (Some v). split_and!; try done. intros v'. by rewrite Hm, fmap_insert. Qed.

Lemma wp_table_get n h mm k (Q : Z -> table -> Prop) : table_rep n h mm ->
  (mm !! k = None -> Q (alignhash_end h) h) ->
  (forall x v, mm !! k = Some v -> x <> alignhash_end h -> at_bucket n h mm x k v -> Q x h) ->
  wp (alignhash_get hashfn hasheq k) Q h.
Proof.
  intros Hrep H0 H1. pose proof Hrep as (P & Hinv & Hm & Hnu & Hnb). apply (wp_alignhash_get h P); [done|].
  intros x [[Hh Hx]|[-> Hno]].
  - destruct (table_rep_holds n h mm P x k Hinv Hm Hrep Hh) as (v & Hok & HPx & Hmk).
    apply (H1 x v Hmk); [unfold alignhash_end; lia|]. exists P. done.
  - apply H0. by apply (table_rep_absent h mm P k).
Qed.
Lemma wp_table_value n h mm x k v (Q : V -> table -> Prop) : at_bucket n h mm x k v -> Q v h -> wp (alignhash_value x) Q h.
Proof.
  intros (P & Hok & Hx & _) HQ. pose proof (live_slot _ _ _ _ _ Hok Hx) as (_ & _ & _ & Hv & Hxb). unfold alignhash_value. apply wp_bind.
  unfold val_at. apply wp_bind, wp_get. eapply wp_array_get; [lia|exact Hv|]. by apply wp_ret.
Qed.
Lemma wp_table_store n h mm x k v (Q : unit -> table -> Prop) : in_bucket n h mm x k ->
  (forall h', at_bucket n h' (<[k := v]> mm) x k v -> Q tt h') -> wp (store_val x (Some v)) Q h.
Proof.
  intros (P & v0 & Hok & Hx & Hm & Hnu & Hnb) HQ. eapply wp_store_value; [exact Hok|exact Hx|].
  intros h' P' Hok' Hx' Hm' Hnb' Hnu'. apply HQ. exists P'. split_and!; try done; [by rewrite Hm', Hm|lia|lia].
Qed.
Lemma wp_table_del n h mm x k v (Q : unit -> table -> Prop) : at_bucket n h mm x k v ->
  (forall h', table_rep n h' (delete k mm) -> Q tt h') -> wp (alignhash_del x) Q h.
Proof.
  intros (P & Hok & Hx & Hm & Hnu & Hnb) HQ. eapply wp_alignhash_del; [exact Hok|exact Hx|]. intros h' Hok' Hm' Hnb' Hnu'.
  apply HQ. exists (delete x P). split; [by right|]. split; [by rewrite Hm', Hm, fmap_delete|]. lia.
Qed.
(** Deleting at the end of the table does nothing. *)
Lemma wp_table_del_end h (Q : unit -> table -> Prop) : Q tt h -> wp (alignhash_del (alignhash_end h)) Q h.
Proof. intros HQ. unfold alignhash_del, alignhash_end. apply wp_bind, wp_get. rewrite Z.eqb_refl. by apply wp_ret. Qed.

Definition set_spec n h mm (k : K) (r : Z * option ah_ins) (h' : table) : Prop :=
  (fst r <> alignhash_end h' /\
    ((snd r = Some AH_INS_ERR /\ exists v, mm !! k = Some v /\ at_bucket (n + 1) h' mm (fst r) k v) \/
     (snd r <> Some AH_INS_ERR /\ mm !! k = None /\ in_bucket (n + 1) h' mm (fst r) k))) \/
  (fst r = alignhash_end h' /\ (exists b, malloc b = false) /\ table_rep (n + 1) h' mm).
Lemma wp_table_set n h mm k (Q : Z * option ah_ins -> table -> Prop) : table_rep n h mm -> 0 <= n < 2 ^ 28 ->
  (forall r h', set_spec n h mm k r h' -> Q r h') -> wp (alignhash_set hashfn hasheq malloc sizeof_key sizeof_val k) Q h.
Proof.
  intros Hrep Hn HQ. pose proof Hrep as (P & Hinv & Hm & Hnu & Hnb). apply (wp_alignhash_set h P); [done|lia|].
  intros r h1 [(h0 & P0 & Hnu0 & Hnb0 & Hm0 & Hnb1 & Hnu1 & P1 & Hok1 & Hx & Hres)|(Hr & [fn Hf] & Hinv1 & Hend & Hnb1 & Hnu1)]; apply HQ.
  - left. split; [unfold alignhash_end; lia|]. destruct Hres as [(Hr & E & v0 & Hv0)|(Hr & Hno & v0 & Hv0 & E)].
    + left. split; [done|]. assert (Hrep1 : table_rep (n + 1) h1 mm) by (exists P1; split_and!; [by right|congruence|lia|lia]).
      destruct (table_rep_holds (n + 1) h1 mm P1 (fst r) k (or_intror Hok1) ltac:(congruence) Hrep1 ltac:(by exists v0)) as (v & _ & Hv & Hmk).
      exists v. split; [done|]. exists P1. split_and!; try done; [congruence|lia|lia].
    + right. split; [destruct Hr; congruence|]. split.
      * rewrite Hm0, Hm, lookup_fmap in Hno. by destruct (mm !! k).
      * exists P1, v0. split_and!; try done; [|lia|lia]. intros v. rewrite E, insert_insert_eq, Hm0, Hm. by rewrite fmap_insert.
  - right. split; [done|]. split; [by exists fn|]. exists P. split_and!; try done; lia.
Qed.

Lemma table_rep_init : table_rep 0 alignhash_init ∅.
Proof.
  exists ∅. split; [left; split_and!; done|]. split; [|done]. unfold ah_map, entries. rewrite map_to_list_empty. cbn. by rewrite fmap_empty.
Qed.
Lemma table_rep_size n h mm : table_rep n h mm -> ah_size h = Z.of_nat (size mm).
Proof.
  intros (P & Hinv & Hm & _). rewrite <- (map_size_fmap (Some : V -> option V) mm), <- Hm. destruct Hinv as [[(_ & Hs & _) ->]|(b & _ & _ & _ & _ & _ & _ & Hd & Hs & _)].
  - unfold ah_map, entries. rewrite map_to_list_empty. cbn. rewrite map_size_empty. lia.
  - by rewrite size_ah_map.
Qed.

(** ** Runs *)

(** What the users of a table do: store a value, whether or not the key is
    there; look a key up; delete it; clear the table. *)
Inductive ah_cmd := CPut (k : K) (v : V) | CGet (k : K) | CDel (k : K) | CClear.
Inductive ah_out := Stored (ok : bool) | Found (v : option V) | Done.

Definition run_cmd (c : ah_cmd) : M table ah_out :=
  match c with
  | CPut k v =>
      let! r := alignhash_set hashfn hasheq malloc sizeof_key sizeof_val k in
      let! h := get in
      if fst r =? alignhash_end h then ret (Stored false) else do! store_val (fst r) (Some v) in ret (Stored true)
  | CGet k =>
      let! x := alignhash_get hashfn hasheq k in
      let! h := get in
      if x =? alignhash_end h then ret (Found None) else let! v := alignhash_value x in ret (Found (Some v))
  | CDel k => let! x := alignhash_get hashfn hasheq k in do! alignhash_del x in ret Done
  | CClear => do! alignhash_clear in ret Done
  end.
Fixpoint run_cmds (cs : list ah_cmd) : M table (list ah_out) :=
  match cs with
  | [] => ret []
  | c :: cs => let! o := run_cmd c in let! os := run_cmds cs in ret (o :: os)
  end.

(** The same on a finite map. *)
Inductive map_step : gmap K V -> ah_cmd -> ah_out -> gmap K V -> Prop :=
| step_put mm k v : map_step mm (CPut k v) (Stored true) (<[k := v]> mm)
| step_put_fail mm k v n : malloc n = false -> map_step mm (CPut k v) (Stored false) mm
| step_get mm k : map_step mm (CGet k) (Found (mm !! k)) mm
| step_del mm k : map_step mm (CDel k) Done (delete k mm)
| step_clear mm : map_step mm CClear Done ∅.
Inductive map_run : gmap K V -> list ah_cmd -> list ah_out -> gmap K V -> Prop :=
| run_nil mm : map_run mm [] [] mm
| run_cons mm c o mm1 cs os mm2 : map_step mm c o mm1 -> map_run mm1 cs os mm2 -> map_run mm (c :: cs) (o :: os) mm2.

Lemma wp_run_cmd n h mm c : table_rep n h mm -> 0 <= n < 2 ^ 28 ->
  wp (run_cmd c) (fun o h' => exists mm', map_step mm c o mm' /\ table_rep (n + 1) h' mm') h.
Proof.
  intros Hrep Hn. assert (Hrep1 : table_rep (n + 1) h mm) by (eapply table_rep_weaken; [done|lia]). destruct c as [k v|k|k|]; cbn [run_cmd].
  - apply wp_bind, (wp_table_set n h mm); [done|done|]. intros r h1 [[Hx Hres]|(Hx & [b Hf] & Hrep')]; apply wp_bind, wp_get.
    + destruct (Z.eqb_spec (fst r) (alignhash_end h1)); [done|].
      assert (in_bucket (n + 1) h1 mm (fst r) k) as Hin by (destruct Hres as [(_ & v0 & _ & Hv0)|(_ & _ & ?)]; [by eapply at_bucket_in|done]).
      apply wp_bind, (wp_table_store (n + 1) h1 mm _ k); [done|]. intros h2 Hat. apply wp_ret. exists (<[k := v]> mm).
      split; [constructor|by eapply at_bucket_rep].
    + rewrite Hx, Z.eqb_refl. apply wp_ret. exists mm. split; [by econstructor|done].
  - apply wp_bind, (wp_table_get n h mm); [done| |].
    + intros Hk. apply wp_bind, wp_get. rewrite Z.eqb_refl. apply wp_ret. exists mm. split; [|done]. rewrite <- Hk. constructor.
    + intros x v Hk Hx Hat. apply wp_bind, wp_get. destruct (Z.eqb_spec x (alignhash_end h)); [done|].
      apply wp_bind, (wp_table_value n h mm x k v); [done|]. apply wp_ret. exists mm. split; [|done]. rewrite <- Hk. constructor.
  - apply wp_bind, (wp_table_get n h mm); [done| |].
    + intros Hk. apply wp_bind, wp_table_del_end, wp_ret. exists (delete k mm). split; [constructor|]. by rewrite delete_id.
    + intros x v Hk Hx Hat. apply wp_bind, (wp_table_del n h mm x k v); [done|]. intros h' Hrep'. apply wp_ret.
      exists (delete k mm). split; [constructor|]. eapply table_rep_weaken; [done|lia].
  - destruct Hrep as (P & Hinv & Hm & Hnu & Hnb). apply wp_bind, (wp_alignhash_clear h P); [done|]. intros h' Hinv' Hnb' Hnu'. apply wp_ret. exists ∅. split; [constructor|].
    exists ∅. split; [done|]. split; [|lia]. unfold ah_map, entries. rewrite map_to_list_empty. cbn. by rewrite fmap_empty.
Qed.

Lemma wp_run_cmds cs n h mm : table_rep n h mm -> 0 <= n -> n + zlen cs <= 2 ^ 28 ->
  wp (run_cmds cs) (fun os h' => exists mm', map_run mm cs os mm' /\ table_rep (n + zlen cs) h' mm') h.
Proof.
  revert n h mm. induction cs as [|c cs IH]; intros n h mm Hrep Hn Hl; cbn [run_cmds].
  - apply wp_ret. exists mm. split; [constructor|]. rewrite zlen_nil. by replace (n + 0) with n by lia.
  - rewrite zlen_cons in *. pose proof (zlen_nonneg cs). apply wp_bind. eapply wp_mono; [apply (wp_run_cmd n h mm c Hrep); lia|].
    intros o h1 (mm1 & Hstep & Hrep1). apply wp_bind. eapply wp_mono; [apply (IH (n + 1) h1 mm1 Hrep1); lia|].
    intros os h2 (mm2 & Hrun & Hrep2). apply wp_ret. exists mm2. split; [by econstructor|]. by replace (n + (1 + zlen cs)) with (n + 1 + zlen cs) by lia.
Qed.

(** C38: from an empty table, any sequence of insertions, lookups, deletions
    and clearings, with every growth of the table in between, terminates
    without reading or writing outside its arrays or reading a key that was
    never stored, and answers exactly as a finite map does; an insertion is
    refused only when an allocation failed.  The size field is the number of
    keys. *)
Theorem alignhash_refines_map cs : zlen cs <= 2 ^ 28 ->
  exists os h mm, run_cmds cs alignhash_init = Ok (os, h) /\ map_run ∅ cs os mm /\ ah_size h = Z.of_nat (size mm).
Proof.
  intros Hl. pose proof (wp_run_cmds cs 0 alignhash_init ∅ table_rep_init ltac:(lia) ltac:(lia)) as (os & h & Hr & mm & Hm & Hrep)%wp_elim.
  exists os, h, mm. split; [done|]. split; [done|]. by eapply table_rep_size.
Qed.
End contract.

(** A table with strings for keys, as [mime_cache] has. *)
Lemma bytes_eqb_spec a b : bytes_eqb a b = true <-> a = b.
Proof. apply bool_decide_eq_true. Qed.
Lemma hash_djb2_nonneg s : 0 <= hash_djb2 s.
Proof.
  unfold hash_djb2. assert (H : 0 <= 5381) by lia. revert H. generalize 5381. induction s as [|c s IH]; intros z Hz; [done|].
  cbn [fold_left]. apply IH. apply Z.mod_pos_bound. lia.
Qed.
Lemma hash_sdbm_nonneg s : 0 <= hash_sdbm s.
Proof.
  unfold hash_sdbm. assert (H : 0 <= 0) by lia. revert H. generalize 0 at 2 4. induction s as [|c s IH]; intros z Hz; [done|].
  cbn [fold_left]. apply IH. apply Z.mod_pos_bound. lia.
Qed.

Lemma alignhash_refines_map_witness :
  exists os h mm, run_cmds hash_djb2 bytes_eqb (fun _ => true) 8 8
      [CPut (bs "htm") 1; CPut (bs "html") 2; CPut (bs "gif") 3; CDel (bs "htm"); CGet (bs "html"); CPut (bs "png") 4; CGet (bs "htm")] alignhash_init =
      Ok (os, h) /\
    map_run (fun _ => true) ∅ [CPut (bs "htm") 1; CPut (bs "html") 2; CPut (bs "gif") 3; CDel (bs "htm"); CGet (bs "html"); CPut (bs "png") 4; CGet (bs "htm")] os mm /\
    ah_size h = Z.of_nat (size mm).
Proof.
  apply (alignhash_refines_map hash_djb2 bytes_eqb (fun _ => true) 8 8 hash_djb2_nonneg bytes_eqb_spec
    [CPut (bs "htm") 1; CPut (bs "html") 2; CPut (bs "gif") 3; CDel (bs "htm"); CGet (bs "html"); CPut (bs "png") 4; CGet (bs "htm")]).
  by vm_compute.
Defined.
