(* ===== verification/Mime.v ===== *)
(** lib/mime.c: the table of MIME types, its two hash tables, and lookup by
    file extension and by type name; nxweb_send_file of lib/http_utils.c, which
    takes the type of a file from it.

    The two tables are instances of [AlignHash] with strings for keys.  [malloc]
    says which allocations succeed. *)
From coqutil Require Import Datatypes.RecordSetters.
From S2P Require Import Prelude CString AlignHash AlignHashProof HttpRequest HttpResponse.
Import DoubleBraceUpdate.
Open Scope Z_scope.

Record nxweb_mime_type := mk_mime {
  mt_ext : bytes; mt_mime : bytes; mt_charset_required : bool; mt_gzippable : bool; mt_image : bool;
  mt_ssi_on : bool; mt_templates_on : bool }.

Definition mime_types : list nxweb_mime_type := [
  mk_mime (bs "htm") (bs "text/html") true true false false false;
  mk_mime (bs "html") (bs "text/html") true true false false false;
  mk_mime (bs "shtml") (bs "text/html") true true false true false;
  mk_mime (bs "shtm") (bs "text/html") true true false true false;
  mk_mime (bs "thtml") (bs "text/html") true true false false true;
  mk_mime (bs "thtm") (bs "text/html") true true false false true;
  mk_mime (bs "txt") (bs "text/plain") true true false false false;
  mk_mime (bs "c") (bs "text/plain") true true false false false;
  mk_mime (bs "h") (bs "text/plain") true true false false false;
  mk_mime (bs "java") (bs "text/plain") true true false false false;
  mk_mime (bs "bmp") (bs "image/bmp") false false false false false;
  mk_mime (bs "gif") (bs "image/gif") false false true false false;
  mk_mime (bs "jpg") (bs "image/jpeg") false false true false false;
  mk_mime (bs "jpeg") (bs "image/jpeg") false false true false false;
  mk_mime (bs "jpe") (bs "image/jpeg") false false true false false;
  mk_mime (bs "png") (bs "image/png") false false true false false;
  mk_mime (bs "svg") (bs "image/svg+xml") false true false false false;
  mk_mime (bs "tif") (bs "image/tiff") false false false false false;
  mk_mime (bs "tiff") (bs "image/tiff") false false false false false;
  mk_mime (bs "wbmp") (bs "image/vnd.wap.wbmp") false false false false false;
  mk_mime (bs "ico") (bs "image/x-icon") false true false false false;
  mk_mime (bs "js") (bs "application/x-javascript") true true false false false;
  mk_mime (bs "json") (bs "application/json") true true false false false;
  mk_mime (bs "css") (bs "text/css") true true false false false;
  mk_mime (bs "xhtml") (bs "application/xhtml+xml") true true false false false;
  mk_mime (bs "xht") (bs "application/xhtml+xml") true true false false false;
  mk_mime (bs "xml") (bs "application/xml") true true false false false;
  mk_mime (bs "xml") (bs "text/xml") true true false false false;
  mk_mime (bs "xsl") (bs "application/xml") true true false false false;
  mk_mime (bs "xslt") (bs "application/xml") true true false false false;
  mk_mime (bs "atom") (bs "application/atom+xml") true true false false false;
  mk_mime (bs "dtd") (bs "application/xml-dtd") true true false false false;
  mk_mime (bs "doc") (bs "application/msword") false true false false false;
  mk_mime (bs "pdf") (bs "application/pdf") false false false false false;
  mk_mime (bs "ps") (bs "application/postscript") false false false false false;
  mk_mime (bs "eps") (bs "application/postscript") false false false false false;
  mk_mime (bs "ai") (bs "application/postscript") false false false false false;
  mk_mime (bs "rdf") (bs "application/rdf+xml") true false false false false;
  mk_mime (bs "smil") (bs "application/smil") false false false false false;
  mk_mime (bs "xls") (bs "application/vnd.ms-excel") false true false false false;
  mk_mime (bs "ppt") (bs "application/vnd.ms-powerpoint") false true false false false;
  mk_mime (bs "pps") (bs "application/vnd.ms-powerpoint") false true false false false;
  mk_mime (bs "docx") (bs "application/vnd.openxmlformats-officedocument.wordprocessingml.document") false false false false false;
  mk_mime (bs "xlsx") (bs "application/vnd.openxmlformats-officedocument.spreadsheetml.sheet") false false false false false;
  mk_mime (bs "pptx") (bs "application/vnd.openxmlformats-officedocument.presentationml.presentation") false false false false false;
  mk_mime (bs "ppsx") (bs "application/vnd.openxmlformats-officedocument.presentationml.slideshow") false false false false false;
  mk_mime (bs "swf") (bs "application/x-shockwave-flash") false false false false false;
  mk_mime (bs "sit") (bs "application/x-stuffit") false false false false false;
  mk_mime (bs "tar") (bs "application/x-tar") false false false false false;
  mk_mime (bs "zip") (bs "application/zip") false false false false false;
  mk_mime (bs "rar") (bs "application/rar") false false false false false;
  mk_mime (bs "gz") (bs "application/x-gunzip") false false false false false;
  mk_mime (bs "tgz") (bs "application/x-tar-gz") false false false false false;
  mk_mime (bs "bz2") (bs "application/x-bzip2") false false false false false;
  mk_mime (bs "mid") (bs "audio/midi") false false false false false;
  mk_mime (bs "midi") (bs "audio/midi") false false false false false;
  mk_mime (bs "kar") (bs "audio/midi") false false false false false;
  mk_mime (bs "mp3") (bs "audio/mpeg") false false false false false;
  mk_mime (bs "mpga") (bs "audio/mpeg") false false false false false;
  mk_mime (bs "mp2") (bs "audio/mpeg") false false false false false;
  mk_mime (bs "wav") (bs "audio/x-wav") false false false false false;
  mk_mime (bs "rtf") (bs "text/rtf") false true false false false;
  mk_mime (bs "wml") (bs "text/vnd.wap.wml") true false false false false;
  mk_mime (bs "avi") (bs "video/x-msvideo") false false false false false;
  mk_mime (bs "jad") (bs "text/vnd.sun.j2me.app-descriptor") false false false false false;
  mk_mime (bs "jar") (bs "application/java-archive") false false false false false;
  mk_mime (bs "mmf") (bs "application/vnd.smaf") false false false false false;
  mk_mime (bs "sis") (bs "application/vnd.symbian.install") false false false false false;
  mk_mime (bs "flv") (bs "video/x-flv") false false false false false;
  mk_mime (bs "mp4") (bs "video/mp4") false false false false false;
  mk_mime (bs "3gp") (bs "video/3gpp") false false false false false;
  mk_mime (bs "wma") (bs "audio/x-ms-wma") false false false false false;
  mk_mime (bs "wax") (bs "audio/x-ms-wax") false false false false false;
  mk_mime (bs "wmv") (bs "video/x-ms-wmv") false false false false false;
  mk_mime (bs "wvx") (bs "video/x-ms-wvx") false false false false false;
  mk_mime (bs "mpg") (bs "video/mpeg") false false false false false;
  mk_mime (bs "mpeg") (bs "video/mpeg") false false false false false;
  mk_mime (bs "mpe") (bs "video/mpeg") false false false false false;
  mk_mime (bs "mov") (bs "video/quicktime") false false false false false;
  mk_mime (bs "qt") (bs "video/quicktime") false false false false false;
  mk_mime (bs "asf") (bs "video/x-ms-asf") false false false false false;
  mk_mime (bs "asx") (bs "video/x-ms-asf") false false false false false;
  mk_mime (bs "woff") (bs "application/x-font-woff") false false false false false;
  mk_mime (bs "eot") (bs "application/vnd.ms-fontobject") false false false false false;
  mk_mime (bs "ttf") (bs "application/x-font-ttf") false false false false false;
  mk_mime (bs "otf") (bs "application/x-font-otf") false false false false false;
  mk_mime (bs "dat") (bs "application/octet-stream") false false false false false].

Abbreviation mime_cache := (alignhash (list Z) nxweb_mime_type).
(** [mime_net_thread] is whether [_nxweb_net_thread_data] is set. *)
Record mime_state := mk_mime_state {
  mime_by_ext : mime_cache; mime_by_type : mime_cache; mime_default : nxweb_mime_type; mime_net_thread : bool }.

Definition on_by_ext {A} (c : M mime_cache A) : M mime_state A := fun st =>
  match c (mime_by_ext st) with
  | Ok (a, h) => Ok (a, mk_mime_state h (mime_by_type st) (mime_default st) (mime_net_thread st))
  | Err e => Err e
  end.
Definition on_by_type {A} (c : M mime_cache A) : M mime_state A := fun st =>
  match c (mime_by_type st) with
  | Ok (a, h) => Ok (a, mk_mime_state (mime_by_ext st) h (mime_default st) (mime_net_thread st))
  | Err e => Err e
  end.

(** [strrchr(s, c)]: what follows the last [c], if there is one. *)
Fixpoint after_last (c : Z) (s : bytes) : option bytes :=
  match s with
  | [] => None
  | d :: s' => match after_last c s' with Some t => Some t | None => if d =? c then Some s' else None end
  end.
Definition file_ext (fpath_or_ext : bytes) : bytes := default fpath_or_ext (after_last (ch ".") fpath_or_ext).

(** A text stored into a local array, and read back. *)
Definition local_copy {S} (size : Z) (s : bytes) (f : Z -> M (list Z) Z) : M S bytes :=
  match local_text size (do! write_bytes 0 (s ++ [0]) in f 0) with Ok t => ret t | Err e => fail e end.

Section mime.
Variable malloc : Z -> bool.

Definition mime_table_set (key : bytes) (type : nxweb_mime_type) : M mime_cache unit :=
  let! ci := alignhash_set hash_djb2 bytes_eqb malloc 8 8 key in
  let! h := get in
  if fst ci =? alignhash_end h then ret tt else store_val (fst ci) (Some type).
Definition mime_table_get (key : bytes) : M mime_cache (option nxweb_mime_type) :=
  let! ci := alignhash_get hash_djb2 bytes_eqb key in
  let! h := get in
  if ci =? alignhash_end h then ret None else let! v := alignhash_value ci in ret (Some v).

Definition nxweb_add_mime_type (type : nxweb_mime_type) : M mime_state unit :=
  let! st := get in
  do! assert_ (negb (mime_net_thread st)) in
  do! on_by_ext (mime_table_set (mt_ext type) type) in
  on_by_type (mime_table_set (mt_mime type) type).

(** From the end of the table, so that first entries override last ones. *)
Fixpoint add_mime_types (types : list nxweb_mime_type) : M mime_state unit :=
  match types with
  | [] => ret tt
  | type :: types => do! nxweb_add_mime_type type in add_mime_types types
  end.
Definition init_mime_cache : M mime_state unit :=
  do! modify (fun st => mk_mime_state alignhash_init alignhash_init (mime_default st) (mime_net_thread st)) in
  add_mime_types (rev mime_types).

Definition nxweb_get_default_mime_type : M mime_state nxweb_mime_type := let! st := get in ret (mime_default st).
Definition nxweb_set_default_mime_type (mtype : option nxweb_mime_type) : M mime_state unit :=
  match mtype with
  | None => fail AssertFail
  | Some t => modify (fun st => mk_mime_state (mime_by_ext st) (mime_by_type st) t (mime_net_thread st))
  end.

Definition nxweb_get_mime_type_by_ext (fpath_or_ext : bytes) : M mime_state nxweb_mime_type :=
  let ext := file_ext fpath_or_ext in
  let! st := get in
  if 31 <? zlen ext then ret (mime_default st) else
  let! _ext := local_copy 32 (nx_strtolower ext) ret in
  let! found := on_by_ext (mime_table_get _ext) in
  ret (match found with Some t => t | None => mime_default st end).

Definition nxweb_get_mime_type (type_name : option bytes) : M mime_state (option nxweb_mime_type) :=
  let! st := get in
  match type_name with
  | None => ret (Some (mime_default st))
  | Some type_name =>
      match index_of (ch ";") type_name with
      | Some len =>
          if 511 <? Z.of_nat len then ret None else
          let! name := local_copy 512 (take len type_name) nxweb_trunc_space in
          on_by_type (mime_table_get name)
      | None => on_by_type (mime_table_get type_name)
      end
  end.
End mime.

(** Before [init_mime_cache] runs. *)
Definition mime_start : mime_state :=
  mk_mime_state alignhash_init alignhash_init (mk_mime (bs "htm") (bs "text/html") true true false false false) false.

(** ** What the tables hold *)

Definition find_ext (types : list nxweb_mime_type) (e : bytes) : option nxweb_mime_type :=
  List.find (fun t => bool_decide (mt_ext t = e)) types.
Definition find_name (types : list nxweb_mime_type) (n : bytes) : option nxweb_mime_type :=
  List.find (fun t => bool_decide (mt_mime t = n)) types.

Section contract.
Variable malloc : Z -> bool.
Hypothesis malloc_ok : forall n, malloc n = true.
Abbreviation rep := (table_rep hash_djb2).

Lemma mime_table_set_cmd key type h : mime_table_set malloc key type h =
  match run_cmd hash_djb2 bytes_eqb malloc 8 8 (CPut key type) h with Ok (_, h') => Ok (tt, h') | Err e => Err e end.
Proof.
  unfold mime_table_set, run_cmd, bind, get, ret. destruct (alignhash_set _ _ _ _ _ _ h) as [[ci h1]|]; [|done].
  destruct (_ =? _); [done|]. by destruct (store_val _ _ h1) as [[[] h2]|].
Qed.
Lemma mime_table_get_cmd key h : mime_table_get key h =
  match run_cmd hash_djb2 bytes_eqb malloc 8 8 (CGet key) h with
  | Ok (Found v, h') => Ok (v, h') | Ok (_, h') => Ok (None, h') | Err e => Err e end.
Proof.
  unfold mime_table_get, run_cmd, bind, get, ret. destruct (alignhash_get _ _ _ h) as [[ci h1]|]; [|done].
  destruct (_ =? _); [done|]. by destruct (alignhash_value _ h1) as [[v h2]|].
Qed.

Lemma wp_mime_table_set n h mm key type (Q : unit -> mime_cache -> Prop) : rep n h mm -> 0 <= n < 2 ^ 28 ->
  (forall h', rep (n + 1) h' (<[key := type]> mm) -> Q tt h') -> wp (mime_table_set malloc key type) Q h.
Proof using malloc_ok.
  intros Hrep Hn HQ. pose proof (wp_run_cmd hash_djb2 bytes_eqb malloc 8 8 hash_djb2_nonneg bytes_eqb_spec n h mm (CPut key type) Hrep Hn) as Hw.
  apply wp_elim in Hw as (o & h' & Hr & mm' & Hs & Hrep'). unfold wp. rewrite mime_table_set_cmd, Hr. apply HQ.
  inversion Hs; subst; [done|]. rewrite malloc_ok in *. done.
Qed.
Lemma wp_mime_table_get n h mm key (Q : option nxweb_mime_type -> mime_cache -> Prop) : rep n h mm -> 0 <= n < 2 ^ 28 ->
  (forall h', rep (n + 1) h' mm -> Q (mm !! key) h') -> wp (mime_table_get key) Q h.
Proof using malloc_ok.
  intros Hrep Hn HQ. pose proof (wp_run_cmd hash_djb2 bytes_eqb malloc 8 8 hash_djb2_nonneg bytes_eqb_spec n h mm (CGet key) Hrep Hn) as Hw.
  apply wp_elim in Hw as (o & h' & Hr & mm' & Hs & Hrep'). unfold wp. rewrite mime_table_get_cmd, Hr.
  inversion Hs; subst. by apply HQ.
Qed.

(** The tables after the types of [l] were added, the last one first. *)
Definition mime_rep (l : list nxweb_mime_type) (st : mime_state) : Prop :=
  exists me mn, rep (zlen l) (mime_by_ext st) me /\ rep (zlen l) (mime_by_type st) mn /\
    (forall e, me !! e = find_ext l e) /\ (forall n, mn !! n = find_name l n) /\ mime_net_thread st = false.

Lemma wp_add_mime_type l st t (Q : unit -> mime_state -> Prop) : mime_rep l st -> zlen l < 2 ^ 28 ->
  (forall st', mime_rep (t :: l) st' -> mime_default st' = mime_default st -> Q tt st') -> wp (nxweb_add_mime_type malloc t) Q st.
Proof using malloc_ok.
  intros (me & mn & He & Hn & Hfe & Hfn & Ht) Hl HQ. pose proof (zlen_nonneg l). unfold nxweb_add_mime_type.
  apply wp_bind, wp_get, wp_bind, wp_assert; [by rewrite Ht|]. apply wp_bind.
  assert (Hw1 : wp (mime_table_set malloc (mt_ext t) t) (fun _ h' => rep (zlen l + 1) h' (<[mt_ext t := t]> me)) (mime_by_ext st)).
  { eapply wp_mime_table_set; [exact He|lia|done]. }
  apply wp_elim in Hw1 as ([] & h1 & Hr1 & Hrep1). unfold wp at 1, on_by_ext. rewrite Hr1.
  assert (Hw2 : wp (mime_table_set malloc (mt_mime t) t) (fun _ h' => rep (zlen l + 1) h' (<[mt_mime t := t]> mn)) (mime_by_type st)).
  { eapply wp_mime_table_set; [exact Hn|lia|done]. }
  apply wp_elim in Hw2 as ([] & h2 & Hr2 & Hrep2). unfold wp, on_by_type. cbn [mime_by_type]. rewrite Hr2. apply HQ; [|done].
  exists (<[mt_ext t := t]> me), (<[mt_mime t := t]> mn). rewrite zlen_cons. replace (1 + zlen l) with (zlen l + 1) by lia.
  split; [done|]. split; [done|]. split_and!; [| |done].
  - intros e. unfold find_ext. cbn [List.find]. case_bool_decide as E; [subst; by rewrite lookup_insert_eq|]. rewrite lookup_insert_ne by done. apply Hfe.
  - intros n. unfold find_name. cbn [List.find]. case_bool_decide as E; [subst; by rewrite lookup_insert_eq|]. rewrite lookup_insert_ne by done. apply Hfn.
Qed.

Lemma wp_add_mime_types ts l st (Q : unit -> mime_state -> Prop) : mime_rep l st -> zlen l + zlen ts < 2 ^ 28 ->
  (forall st', mime_rep (rev ts ++ l) st' -> mime_default st' = mime_default st -> Q tt st') -> wp (add_mime_types malloc ts) Q st.
Proof using malloc_ok.
  revert l st Q. induction ts as [|t ts IH]; intros l st Q Hrep Hl HQ; cbn [add_mime_types].
  - by apply wp_ret, HQ.
  - rewrite zlen_cons in Hl. pose proof (zlen_nonneg ts). apply wp_bind. eapply wp_add_mime_type; [exact Hrep|lia|].
    intros st1 Hrep1 Hd1. eapply IH; [exact Hrep1|rewrite zlen_cons; lia|]. intros st2 Hrep2 Hd2. apply HQ; [|congruence].
    cbn [rev]. by rewrite <- app_assoc.
Qed.

Lemma wp_init_mime_cache st (Q : unit -> mime_state -> Prop) : mime_net_thread st = false ->
  (forall st', mime_rep mime_types st' -> mime_default st' = mime_default st -> Q tt st') -> wp (init_mime_cache malloc) Q st.
Proof using malloc_ok.
  intros Ht HQ. unfold init_mime_cache. apply wp_bind, wp_modify. eapply (wp_add_mime_types _ []).
  - exists ∅, ∅. cbn. split; [apply table_rep_init|]. split; [apply table_rep_init|]. split_and!; done.
  - by vm_compute.
  - rewrite rev_involutive, app_nil_r. done.
Qed.

Lemma wp_local_copy {S} size s f t (Q : bytes -> S -> Prop) st : Forall (fun c => c <> 0) s -> zlen s < size ->
  (forall m, cstr m 0 s -> wp (f 0) (fun p m' => cstr m' p t) m) -> Q t st -> wp (local_copy size s f) Q st.
Proof using Type.
  intros Hs Hl Hf HQ. unfold local_copy, local_text. set (m := replicate _ _). pose proof (zlen_nonneg s).
  assert (Hm : zlen m = size) by (unfold m, zlen; rewrite length_replicate; lia).
  assert (Hw : wp (do! write_bytes 0 (s ++ [0]) in f 0) (fun p m' => cstr m' p t) m).
  { apply wp_bind. apply wp_write_bytes; [lia|rewrite zlen_app; change (zlen [0]) with 1; lia|].
    intros m' Hb _. apply Hf. by apply bytes_at_cstr. }
  apply wp_elim in Hw as (p & m' & -> & Hc). assert (wp (read_str p) (fun t' _ => t' = t) m') as (t' & m2 & -> & ->)%wp_elim.
  { by eapply wp_read_str. }
  done.
Qed.

Lemma nx_tolower_not_nul s : cbytes s -> Forall (fun c => c <> 0) (nx_strtolower s).
Proof using Type.
  intros Hs. unfold nx_strtolower. apply Forall_fmap. eapply Forall_impl; [exact Hs|]. cbn. intros c [Hb Hn].
  unfold nx_tolower. destruct (_ && _) eqn:E; [|done]. unfold is_byte in Hb. lia.
Qed.
Lemma after_last_suffix c s t : after_last c s = Some t -> exists s1, s = s1 ++ c :: t.
Proof using Type.
  induction s as [|d s IH]; [done|]. cbn [after_last]. destruct (after_last c s) as [t'|].
  - intros [= <-]. destruct (IH eq_refl) as [s1 ->]. by exists (d :: s1).
  - destruct (Z.eqb_spec d c) as [->|]; [|done]. intros [= <-]. by exists [].
Qed.
Lemma file_ext_cbytes s : cbytes s -> cbytes (file_ext s).
Proof using Type.
  intros Hs. unfold file_ext. destruct (after_last _ s) as [t|] eqn:E; [|done]. apply after_last_suffix in E as [s1 ->].
  apply Forall_app in Hs as [_ Hs]. by apply Forall_cons in Hs as [_ Hs].
Qed.

(** The type of a file: that of its extension in lower case. *)
Definition spec_mime_by_ext (types : list nxweb_mime_type) (d : nxweb_mime_type) (path : bytes) : nxweb_mime_type :=
  if 31 <? zlen (file_ext path) then d else default d (find_ext types (nx_strtolower (file_ext path))).
(** The type with a name: the name up to a semicolon, trimmed. *)
Definition spec_mime_by_name (types : list nxweb_mime_type) (name : bytes) : option nxweb_mime_type :=
  match index_of (ch ";") name with
  | Some i => if 511 <? Z.of_nat i then None else find_name types (trim (take i name))
  | None => find_name types name
  end.

Lemma wp_get_mime_type_by_ext l st path (Q : nxweb_mime_type -> mime_state -> Prop) : mime_rep l st -> zlen l < 2 ^ 28 -> cbytes path ->
  (forall st', Q (spec_mime_by_ext l (mime_default st) path) st') -> wp (nxweb_get_mime_type_by_ext path) Q st.
Proof using malloc_ok.
  intros (me & mn & He & Hn & Hfe & Hfn & Ht) Hl Hp HQ. pose proof (zlen_nonneg l). unfold nxweb_get_mime_type_by_ext, spec_mime_by_ext in *.
  apply wp_bind, wp_get. pose proof (file_ext_cbytes _ Hp) as Hc. set (ext := file_ext path) in *.
  destruct (Z.ltb_spec 31 (zlen ext)); [by apply wp_ret|]. apply wp_bind.
  apply (wp_local_copy 32 (nx_strtolower ext) ret (nx_strtolower ext)); [by apply nx_tolower_not_nul|unfold nx_strtolower, zlen in *; rewrite length_map; lia|by intros m Hm|].
  apply wp_bind. assert (Hw : wp (mime_table_get (nx_strtolower ext)) (fun r _ => r = find_ext l (nx_strtolower ext)) (mime_by_ext st)).
  { eapply wp_mime_table_get; [exact He|lia|]. intros h' _. by rewrite Hfe. }
  apply wp_elim in Hw as (r & h' & Hr & ->). unfold wp at 1, on_by_ext. rewrite Hr. apply wp_ret. apply HQ.
Qed.
Lemma wp_get_mime_type l st name (Q : option nxweb_mime_type -> mime_state -> Prop) : mime_rep l st -> zlen l < 2 ^ 28 -> cbytes name ->
  (forall st', Q (spec_mime_by_name l name) st') -> wp (nxweb_get_mime_type (Some name)) Q st.
Proof using malloc_ok.
  intros (me & mn & He & Hn & Hfe & Hfn & Ht) Hl Hp HQ. pose proof (zlen_nonneg l). unfold nxweb_get_mime_type, spec_mime_by_name in *.
  apply wp_bind, wp_get. assert (Hget : forall key, (forall st', Q (find_name l key) st') -> wp (on_by_type (mime_table_get key)) Q st).
  { intros key HQ'. assert (Hw : wp (mime_table_get key) (fun r _ => r = find_name l key) (mime_by_type st)).
    { eapply wp_mime_table_get; [exact Hn|lia|]. intros h' _. by rewrite Hfn. }
    apply wp_elim in Hw as (r & h' & Hr & ->). unfold wp, on_by_type. rewrite Hr. apply HQ'. }
  destruct (index_of _ name) as [i|] eqn:E; [|by apply Hget].
  destruct (Z.ltb_spec 511 (Z.of_nat i)); [by apply wp_ret|]. apply wp_bind.
  apply (wp_local_copy 512 (take i name) nxweb_trunc_space (trim (take i name))).
  - apply Forall_take. eapply Forall_impl; [exact Hp|]. by intros c [_ ?].
  - unfold zlen. rewrite length_take. lia.
  - intros m Hm. eapply wp_trunc_space; [exact Hm|]. by intros p' m' Hc _ _ _.
  - by apply Hget.
Qed.
End contract.

Definition all_alloc : Z -> bool := fun _ => true.
Definition mime_session (added : list nxweb_mime_type) : M mime_state unit :=
  do! init_mime_cache all_alloc in add_mime_types all_alloc added.

Lemma wp_mime_session added (Q : unit -> mime_state -> Prop) : zlen added < 2 ^ 27 ->
  (forall st, mime_rep (rev added ++ mime_types) st -> mime_default st = mime_default mime_start -> Q tt st) ->
  wp (mime_session added) Q mime_start.
Proof.
  intros Hl HQ. unfold mime_session. assert (zlen mime_types < 2 ^ 27) by by vm_compute. apply wp_bind.
  apply wp_init_mime_cache; [done|done|]. intros st Hrep Hd. eapply wp_add_mime_types; [done|exact Hrep|lia|].
  intros st' Hrep' Hd'. apply HQ; [done|congruence].
Qed.
Lemma rev_types_small added : zlen added < 2 ^ 27 -> zlen (rev added ++ mime_types) < 2 ^ 28.
Proof.
  intros Hl. rewrite zlen_app. assert (zlen mime_types < 2 ^ 27) by by vm_compute. unfold zlen in *. rewrite length_rev. lia.
Qed.

(** C39: the type of a file is found by its extension, whatever its case: the
    last type added for that extension, else the first entry of the built-in
    table that has it, else the default type, which also stands for extensions
    that do not fit the local buffer. *)
Theorem mime_type_by_ext_correct added path : zlen added < 2 ^ 27 -> cbytes path ->
  exists st, (do! mime_session added in nxweb_get_mime_type_by_ext path) mime_start =
    Ok (spec_mime_by_ext (rev added ++ mime_types) (mime_default mime_start) path, st).
Proof.
  intros Hl Hp. assert (Hw : wp (do! mime_session added in nxweb_get_mime_type_by_ext path)
    (fun t _ => t = spec_mime_by_ext (rev added ++ mime_types) (mime_default mime_start) path) mime_start).
  { apply wp_bind, wp_mime_session; [done|]. intros st Hrep Hd.
    eapply (wp_get_mime_type_by_ext all_alloc); [done|exact Hrep|by apply rev_types_small|done|]. intros st'. by rewrite Hd. }
  apply wp_elim in Hw as (t & st & ? & ->). eauto.
Qed.

(** A type is found by its name, from which parameters after a semicolon
    and the blanks around it are cut first; a name too long for the local
    buffer has no type. *)
Theorem mime_type_by_name_correct added name : zlen added < 2 ^ 27 -> cbytes name ->
  exists st, (do! mime_session added in nxweb_get_mime_type (Some name)) mime_start =
    Ok (spec_mime_by_name (rev added ++ mime_types) name, st).
Proof.
  intros Hl Hp. assert (Hw : wp (do! mime_session added in nxweb_get_mime_type (Some name))
    (fun t _ => t = spec_mime_by_name (rev added ++ mime_types) name) mime_start).
  { apply wp_bind, wp_mime_session; [done|]. intros st Hrep Hd.
    eapply (wp_get_mime_type all_alloc); [done|exact Hrep|by apply rev_types_small|done|done]. }
  apply wp_elim in Hw as (t & st & ? & ->). eauto.
Qed.

Lemma mime_type_by_ext_correct_witness :
  exists st, (do! mime_session [] in nxweb_get_mime_type_by_ext (bs "/img/Logo.PNG")) mime_start =
    Ok (mk_mime (bs "png") (bs "image/png") false false true false false, st).
Proof. apply (mime_type_by_ext_correct [] (bs "/img/Logo.PNG")); [by vm_compute|apply (bool_decide_unpack _); by vm_compute]. Defined.
Lemma mime_type_by_name_correct_witness :
  exists st, (do! mime_session [] in nxweb_get_mime_type (Some (bs "text/css ; charset=utf-8"))) mime_start =
    Ok (Some (mk_mime (bs "css") (bs "text/css") true true false false false), st).
Proof. apply (mime_type_by_name_correct [] (bs "text/css ; charset=utf-8")); [by vm_compute|apply (bool_decide_unpack _); by vm_compute]. Defined.
