(* ===== verification/SendFile.v ===== *)
(** nxweb_send_file of lib/http_utils.c: a response that is (a range of) a
    file.  [stat] is the system call: [None] when it fails. *)
From coqutil Require Import Datatypes.RecordSetters.
From S2P Require Import Prelude CString AlignHash HttpRequest HttpResponse Mime.
Import DoubleBraceUpdate.
Open Scope Z_scope.

(** The type bits of [st_mode]. *)
Inductive file_kind := S_IFREG | S_IFDIR | S_IFOTHER.
Record file_info := mk_finfo { st_ino : Z; st_kind : file_kind; st_size : Z; st_mtime : Z }.

(** Result code, response, and its [mtype] and [sendfile_info] when set. *)
Definition send_file_result : Type := Z * response * option (nxweb_mime_type * file_info).

Definition cancel_send_file (resp : response) : response :=
  resp{{rs_sendfile_fd := 0; rs_sendfile_offset := 0; rs_sendfile_end := 0; rs_content_type := None; rs_content_length := 0}}.

(** The type of a file; the name without ".gz" counts when the contents are
    compressed.  A name of less than three bytes is read before its start. *)
Definition send_file_type (fpath : bytes) (gzip_encoded : bool) (mtype : option nxweb_mime_type) : M mime_state nxweb_mime_type :=
  match mtype with
  | Some t => ret t
  | None =>
      if gzip_encoded then
        if zlen fpath <? 3 then fail BadPtr else
        let flen := (length fpath - 3)%nat in
        nxweb_get_mime_type_by_ext (if bool_decide (drop flen fpath = bs ".gz") then take flen fpath else fpath)
      else nxweb_get_mime_type_by_ext fpath
  end.

Section send_file.
Variable stat : bytes -> option file_info.

Definition nxweb_send_file (resp : response) (fpath : option bytes) (finfo : option file_info) (gzip_encoded : bool)
    (offset size : Z) (mtype : option nxweb_mime_type) (charset : option bytes) : M mime_state send_file_result :=
  match fpath with
  | None => ret (0, cancel_send_file resp, None)
  | Some fpath =>
      let finfo := match finfo with
                   | Some i => if st_ino i =? 0 then stat fpath else Some i
                   | None => stat fpath
                   end in
      match finfo with
      | None => ret (-1, resp, None)
      | Some finfo =>
          match st_kind finfo with
          | S_IFDIR => ret (-2, resp, None)
          | S_IFOTHER => ret (-3, resp, None)
          | S_IFREG =>
              let content_length := wraps 64 (if size =? 0 then st_size finfo - offset else size) in
              let resp := resp{{rs_sendfile_path := Some fpath; rs_sendfile_offset := offset;
                rs_content_length := content_length; rs_sendfile_end := wraps 64 (offset + content_length);
                rs_last_modified := st_mtime finfo; rs_gzip_encoded := gzip_encoded}} in
              let! t := send_file_type fpath gzip_encoded mtype in
              let resp := resp{{rs_content_type := Some (mt_mime t)}} in
              ret (0, (if mt_charset_required t then resp{{rs_content_charset := charset}} else resp), Some (t, finfo))
          end
      end
  end.

(** ** Properties *)

(** The information a call works with. *)
Definition file_of (fpath : bytes) (finfo : option file_info) : option file_info :=
  match finfo with Some i => if st_ino i =? 0 then stat fpath else Some i | None => stat fpath end.

(** What the type is taken from. *)
Definition typed_name (fpath : bytes) (gzip : bool) : bytes :=
  if gzip && bool_decide (drop (length fpath - 3) fpath = bs ".gz") then take (length fpath - 3) fpath else fpath.

End send_file.

(** For compressed contents a file name of less than three bytes is read
    before its first byte. *)
Theorem send_file_reads_before_name stat resp fpath i offset size charset st :
  zlen fpath < 3 -> st_ino i <> 0 -> st_kind i = S_IFREG ->
  nxweb_send_file stat resp (Some fpath) (Some i) true offset size None charset st = Err BadPtr.
Proof.
  intros Hl Hi Hk. unfold nxweb_send_file. rewrite (proj2 (Z.eqb_neq _ _)) by done. rewrite Hk. unfold bind, send_file_type.
  by rewrite (proj2 (Z.ltb_lt _ _)).
Qed.

Lemma send_file_reads_before_name_witness :
  nxweb_send_file (fun _ => None) response_zero (Some (bs "gz")) (Some (mk_finfo 7 S_IFREG 100 0)) true 0 0 None None mime_start = Err BadPtr.
Proof. by apply send_file_reads_before_name. Defined.
