(* ===== verification/Cache.v ===== *)
(** The memory cache of lib/cache.c: records with their content and key in one
    block, found through a hash table, kept in a list with the most recently
    used first, and counted by the connections that are sending them.

    Records are shared: the table, the list and the connections refer to them by
    address, and the heap [ca_recs] maps an address to the record that lives
    there; using an address of no record is [BadPtr].  The keys of the table
    point into the records; the invariant of [CacheProof] gives every key of the
    table a live record, so they are compared by value.  [ca_conns] holds
    [hsp.req_data] of the connections whose [req_finalize] is
    [cache_rec_unref].  Each operation runs under [_nxweb_cache_mutex]; storing
    a response takes it twice, so it is two operations.  Times are those of the
    event loop. *)
From coqutil Require Import Datatypes.RecordSetters.
From S2P Require Import Prelude HttpRequest HttpResponse Dll AlignHash.
Import DoubleBraceUpdate.
Open Scope Z_scope.

Definition NXWEB_DEFAULT_CACHED_TIME : Z := 30000000.
Definition NXWEB_MAX_CACHED_ITEMS : Z := 500.
Definition NXWEB_MAX_CACHED_ITEM_SIZE : Z := 32768.

(** [cr_content]: the bytes of the content, a NUL, the key and its NUL. *)
Record nxweb_cache_rec := mk_rec {
  cr_content_length : Z; cr_content_type : option bytes; cr_content_charset : option bytes;
  cr_expires_time : Z; cr_last_modified : Z; cr_ref_count : Z; cr_prev : option Z; cr_next : option Z;
  cr_gzip_encoded : bool; cr_content : list Z }.

#[export] Instance cache_links : LinkNode Z nxweb_cache_rec.
Proof.
  refine {| prev_of := cr_prev; next_of := cr_next;
            set_prev p r := r{{cr_prev := p}}; set_next p r := r{{cr_next := p}} |}.
  all: by intros p [].
Defined.

(** A string of a response: a constant, or the content of a record. *)
Inductive text := Static (s : bytes) | InRec (p : Z).
Abbreviation cresponse := (nxweb_http_response text).

Inductive nxweb_result := NXWEB_OK | NXWEB_NEXT | NXWEB_ASYNC | NXWEB_DELAY | NXWEB_ERROR | NXWEB_REVALIDATE | NXWEB_MISS.

Record cache := mk_cache {
  ca_recs : gmap Z nxweb_cache_rec; ca_table : alignhash bytes Z;
  ca_head : option Z; ca_tail : option Z; ca_conns : gmap Z Z }.

Definition cache_init : cache := mk_cache ∅ alignhash_init None None ∅.

(** ** Records *)

Definition load (p : Z) : M cache nxweb_cache_rec := let! s := get in lift_opt BadPtr (ca_recs s !! p).
Definition update (p : Z) (f : nxweb_cache_rec -> nxweb_cache_rec) : M cache unit :=
  let! r := load p in modify (fun s => s{{ca_recs := <[p := f r]> (ca_recs s)}}).
Definition nx_free (p : Z) : M cache unit :=
  do! load p in modify (fun s => s{{ca_recs := base.delete p (ca_recs s)}}).

Fixpoint until_nul (l : list Z) : option bytes :=
  match l with [] => None | c :: l => if c =? 0 then Some [] else cons c <$> until_nul l end.
(** [rec->content+rec->content_length+1] *)
Definition rec_fpath (r : nxweb_cache_rec) : M cache bytes :=
  let off := cr_content_length r + 1 in
  if off <? 0 then fail BadPtr else lift_opt BadPtr (until_nul (drop (Z.to_nat off) (cr_content r))).

Definition set_links (l : gmap Z nxweb_cache_rec * option Z * option Z) : M cache unit :=
  modify (fun s => s{{ca_recs := fst (fst l); ca_head := snd (fst l); ca_tail := snd l}}).
Definition cache_rec_link (p : Z) : M cache unit :=
  let! s := get in let! l := lift_opt BadPtr (dll_push_front (ca_recs s) (ca_head s) (ca_tail s) p) in set_links l.
Definition cache_rec_unlink (p : Z) : M cache unit :=
  let! s := get in let! l := lift_opt BadPtr (dll_unlink (ca_recs s) (ca_head s) (ca_tail s) p) in set_links l.
Definition IS_LINKED (p : Z) : M cache bool :=
  let! r := load p in
  let! s := get in
  ret (match cr_prev r with Some _ => true | None => bool_decide (ca_head s = Some p) end).

(** Running an operation of the table. *)
Definition on_table {A} (c : M (alignhash bytes Z) A) : M cache A := fun s =>
  match c (ca_table s) with Ok (a, h) => Ok (a, s{{ca_table := h}}) | Err e => Err e end.

(** What the threads do to the cache, one locked section at a time. *)
Inductive action :=
| ATry (loop_time conn : Z) (resp : cresponse) (key : bytes) (if_modified_since revalidated_mtime : Z)
| AStoreBegin (loop_time conn : Z) (resp : cresponse) (st_size : Z) (key : bytes)
| AStoreEnd (loop_time conn : Z) (resp : cresponse) (key : bytes) (p : Z) (file : option bytes)
| AFinish (loop_time conn : Z).
Definition outcome : Type := option (option nxweb_result * cresponse).

Section cache.
Variables (malloc : Z -> bool) (REVISION : bytes).

Definition table_get (key : bytes) : M cache Z := on_table (alignhash_get hash_sdbm bytes_eqb key).
Definition table_end : M cache Z := let! s := get in ret (alignhash_end (ca_table s)).

(** ** Eviction *)

(** The last record of the list that no connection uses. *)
Definition last_unused : M cache (option Z) :=
  let! s := get in
  loop (S (S (size (ca_recs s)))) (fun rec =>
    match rec with
    | None => ret (inr None)
    | Some p => let! r := load p in if cr_ref_count r =? 0 then ret (inr (Some p)) else ret (inl (cr_prev r))
    end) (ca_tail s).

Definition cache_check_size : M cache unit :=
  let! s := get in
  loop (S (Z.to_nat (ah_size (ca_table s)))) (fun _ =>
    let! s := get in
    if ah_size (ca_table s) <=? NXWEB_MAX_CACHED_ITEMS then ret (inr tt) else
    let! rec := last_unused in
    match rec with
    | None => ret (inr tt)
    | Some p =>
        let! r := load p in
        let! fpath := rec_fpath r in
        let! ci := table_get fpath in
        let! e := table_end in
        if ci =? e then ret (inl tt) else
        let! v := on_table (alignhash_value ci) in
        do! assert_ (p =? v) in
        do! cache_rec_unlink p in
        do! on_table (alignhash_del ci) in
        do! nx_free p in
        ret (inl tt)
    end) tt.

(** ** Release *)

Definition cache_rec_unref (loop_time : Z) (p : Z) : M cache unit :=
  let! r := load p in
  do! assert_ (0 <? cr_ref_count r) in
  let count := wrapu 32 (cr_ref_count r - 1) in
  do! update p (fun r => r{{cr_ref_count := count}}) in
  if! count =? 0 then (
    let! linked := IS_LINKED p in
    if (cr_expires_time r <? loop_time) || negb linked then
      let! fpath := rec_fpath r in
      let! ci := table_get fpath in
      let! e := table_end in
      let! same := (if ci =? e then ret false else let! v := on_table (alignhash_value ci) in ret (p =? v)) in
      if! same then (do! on_table (alignhash_del ci) in cache_rec_unlink p) in
      nx_free p
    else ret tt) in
  cache_check_size.

(** [conn->hsp.req_data=rec; conn->hsp.req_finalize=cache_rec_unref] *)
Definition set_req_data (conn p : Z) : M cache unit := modify (fun s => s{{ca_conns := <[conn := p]> (ca_conns s)}}).
(** The end of a request: [req_finalize(hsp, req_data)], called once. *)
Definition finalize_request (loop_time conn : Z) : M cache unit :=
  let! s := get in
  match ca_conns s !! conn with
  | None => ret tt
  | Some p => do! modify (fun s => s{{ca_conns := base.delete conn (ca_conns s)}}) in cache_rec_unref loop_time p
  end.

(** ** Lookup *)

(** [resp] takes the content and its description from the record at [p]. *)
Definition serve (resp : cresponse) (p : Z) (r : nxweb_cache_rec) : cresponse :=
  resp{{rs_content_length := cr_content_length r; rs_content := Some (InRec p);
        rs_content_type := Static <$> cr_content_type r; rs_content_charset := Static <$> cr_content_charset r;
        rs_last_modified := cr_last_modified r; rs_gzip_encoded := cr_gzip_encoded r}}.
Definition not_modified (resp : cresponse) : cresponse :=
  resp{{rs_status_code := 304; rs_status := Some (Static (bs "Not Modified"))}}.

Definition not_cached (key : bytes) : bool :=
  match key with c :: _ => (c =? ch " ") || (c =? ch "*") | [] => false end.

Definition nxweb_cache_try (loop_time conn : Z) (resp : cresponse) (key : bytes) (if_modified_since revalidated_mtime : Z) :
    M cache (nxweb_result * cresponse) :=
  if not_cached key then ret (NXWEB_MISS, resp) else
  let! ci := table_get key in
  let! e := table_end in
  if ci =? e then ret (NXWEB_MISS, resp) else
  let! p := on_table (alignhash_value ci) in
  let! r := load p in
  if! cr_last_modified r =? revalidated_mtime
    then update p (fun r => r{{cr_expires_time := wrapu 64 (loop_time + NXWEB_DEFAULT_CACHED_TIME)}}) in
  let! r := load p in
  if loop_time <=? cr_expires_time r then
    let! s := get in
    if! negb (bool_decide (ca_head s = Some p)) then (do! cache_rec_unlink p in cache_rec_link p) in
    if negb (if_modified_since =? 0) && (cr_last_modified r <=? if_modified_since) then ret (NXWEB_OK, not_modified resp) else
    do! update p (fun r => r{{cr_ref_count := wrapu 32 (cr_ref_count r + 1)}}) in
    do! set_req_data conn p in
    ret (NXWEB_OK, serve resp p r)
  else if revalidated_mtime =? 0 then ret (NXWEB_REVALIDATE, resp)
  else
    do! on_table (alignhash_del ci) in
    do! cache_rec_unlink p in
    if! cr_ref_count r =? 0 then nx_free p in
    ret (NXWEB_MISS, resp).

(** ** Storing a response *)

(** What [nxweb_send_http_error] does to a response. *)
Definition send_http_error (resp : cresponse) (code : Z) (message : bytes) : cresponse :=
  let body := response_body1 ++ message ++ response_body2 ++ message ++ response_body3 REVISION in
  resp{{rs_status_code := code; rs_status := Some (Static message);
        rs_content := Some (Static body); rs_content_length := zlen body; rs_content_type := Some (Static (bs "text/html"));
        rs_sendfile_path := None; rs_sendfile_fd := 0; rs_content_out := 0}}.

Definition storable (resp : cresponse) (st_size size : Z) : bool :=
  (rs_status_code resp =? 200) && bool_decide (is_Some (rs_sendfile_path resp)) &&
  (0 <=? rs_content_length resp) && (rs_content_length resp <=? NXWEB_MAX_CACHED_ITEM_SIZE) &&
  (rs_sendfile_offset resp =? 0) && (rs_sendfile_end resp =? rs_content_length resp) &&
  (st_size <=? rs_sendfile_end resp) && (size <? NXWEB_MAX_CACHED_ITEMS + 16).

(** Up to the allocation of the record; [None]: go on and store. *)
Definition store_begin (loop_time conn : Z) (resp : cresponse) (st_size : Z) (key : bytes) : M cache (option nxweb_result * cresponse) :=
  let resp := if rs_status_code resp =? 0 then resp{{rs_status_code := 200}} else resp in
  let! s := get in
  if negb (storable resp st_size (ah_size (ca_table s))) then ret (Some NXWEB_OK, resp) else
  let! '(res, resp) := nxweb_cache_try loop_time conn resp key 0 (rs_last_modified resp) in
  ret (match res with NXWEB_MISS => None | _ => Some NXWEB_OK end, resp).

Definition static_of (t : option text) : option bytes := match t with Some (Static s) => Some s | _ => None end.

Definition new_record (loop_time : Z) (resp : cresponse) (content : list Z) : nxweb_cache_rec :=
  mk_rec (rs_content_length resp) (static_of (rs_content_type resp)) (static_of (rs_content_charset resp))
    (wrapu 64 (loop_time + NXWEB_DEFAULT_CACHED_TIME)) (rs_last_modified resp) 0 None None (rs_gzip_encoded resp) content.

(** The rest: [p] is the address the allocator returns, [file] what was read
    from the file, [None] when it could not be opened or was shorter. *)
Definition store_end (loop_time conn : Z) (resp : cresponse) (key : bytes) (p : Z) (file : option bytes) : M cache (nxweb_result * cresponse) :=
  let zeros := replicate (Z.to_nat (rs_content_length resp + 1 + zlen key + 1)) 0 in
  do! modify (fun s => s{{ca_recs := <[p := new_record loop_time resp zeros]> (ca_recs s)}}) in
  match file with
  | None => do! nx_free p in ret (NXWEB_ERROR, send_http_error resp 500 (bs "Internal Server Error"))
  | Some content =>
      do! update p (fun r => r{{cr_content := content ++ [0] ++ key ++ [0] }}) in
      let resp := resp{{rs_content := Some (InRec p)}} in
      let! '(ci, r) := on_table (alignhash_set hash_sdbm bytes_eqb malloc 8 8 key) in
      let! e := table_end in
      if ci =? e then do! nx_free p in ret (NXWEB_OK, resp) else
      match r with
      | Some AH_INS_ERR =>
          do! nx_free p in
          let! p := on_table (alignhash_value ci) in
          let! r := load p in
          do! update p (fun r => r{{cr_ref_count := wrapu 32 (cr_ref_count r + 1)}}) in
          let! s := get in
          do! assert_ (bool_decide (ca_conns s !! conn = None)) in
          do! set_req_data conn p in
          ret (NXWEB_OK, serve resp p r)
      | _ =>
          do! on_table (store_val ci (Some p)) in
          do! cache_rec_link p in
          do! update p (fun r => r{{cr_ref_count := wrapu 32 (cr_ref_count r + 1)}}) in
          do! cache_check_size in
          let! s := get in
          do! assert_ (bool_decide (ca_conns s !! conn = None)) in
          do! set_req_data conn p in
          ret (NXWEB_OK, resp)
      end
  end.

(** ** Shutdown *)

Definition cache_finalize : M cache unit :=
  let! s := get in
  do! loop (S (Z.to_nat (alignhash_end (ca_table s)))) (fun ci =>
    let! e := table_end in
    if ci =? e then ret (inr tt) else
    let! there := on_table (alignhash_exist ci) in
    if! there then (
      let! p := on_table (alignhash_value ci) in
      do! cache_rec_unlink p in
      nx_free p) in
    ret (inl (ci + 1))) 0 in
  modify (fun s => s{{ca_table := alignhash_init}}).

(** ** Requests *)

Definition run_action (act : action) : M cache outcome :=
  match act with
  | ATry t conn resp key ims mtime => let! '(res, resp) := nxweb_cache_try t conn resp key ims mtime in ret (Some (Some res, resp))
  | AStoreBegin t conn resp st_size key => let! r := store_begin t conn resp st_size key in ret (Some r)
  | AStoreEnd t conn resp key p file => let! '(res, resp) := store_end t conn resp key p file in ret (Some (Some res, resp))
  | AFinish t conn => do! finalize_request t conn in ret None
  end.
End cache.
