(* ===== verification/CacheProof.v ===== *)
(** The memory cache of [Cache] refines a list of entries, the most recently
    used first, with the entries that connections hold; whatever the order in
    which threads run their locked sections, no record is used after it was
    freed, none is lost, and reference counts are exact. *)
From coqutil Require Import Datatypes.RecordSetters.
From S2P Require Import Prelude HttpRequest HttpResponse Dll AlignHash AlignHashProof Cache.
Import DoubleBraceUpdate.
Open Scope Z_scope.

(** ** The specification *)

Record entry := mk_entry {
  en_key : bytes; en_data : bytes; en_type : option bytes; en_charset : option bytes;
  en_expires : Z; en_mtime : Z; en_gzip : bool }.

(** The entries with the addresses of their records, and for each connection
    that sends one, its address and content. *)
Record lru := mk_lru { lru_entries : list (Z * entry); lru_held : gmap Z (Z * bytes) }.
Definition lru_empty : lru := mk_lru [] ∅.

Definition refs (held : gmap Z (Z * bytes)) (p : Z) : Z := Z.of_nat (size (filter (fun kv => fst (snd kv) = p) held)).
Definition used (held : gmap Z (Z * bytes)) (p : Z) : bool := negb (refs held p =? 0).

(** Dropping [excess] unused entries, the oldest first. *)
Fixpoint evict_oldest (used : Z -> bool) (excess : nat) (oldest_first : list (Z * entry)) : list (Z * entry) :=
  match excess, oldest_first with
  | O, l => l
  | S n, [] => []
  | S n, pe :: l => if used (fst pe) then pe :: evict_oldest used (S n) l else evict_oldest used n l
  end.
Definition evict (used : Z -> bool) (l : list (Z * entry)) : list (Z * entry) :=
  rev (evict_oldest used (length l - Z.to_nat NXWEB_MAX_CACHED_ITEMS) (rev l)).

(** An entry whose file was seen unchanged lives on. *)
Definition prolong (t mtime : Z) (e : entry) : entry :=
  if en_mtime e =? mtime then e{{en_expires := t + NXWEB_DEFAULT_CACHED_TIME}} else e.
Definition serve_entry (resp : cresponse) (p : Z) (e : entry) : cresponse :=
  resp{{rs_content_length := zlen (en_data e); rs_content := Some (InRec p);
        rs_content_type := Static <$> en_type e; rs_content_charset := Static <$> en_charset e;
        rs_last_modified := en_mtime e; rs_gzip_encoded := en_gzip e}}.

Definition en_keys (l : list (Z * entry)) : list bytes := (fun pe => en_key (snd pe)) <$> l.

Inductive try_step (t conn : Z) (resp : cresponse) (key : bytes) (ims mtime : Z) : lru -> nxweb_result * cresponse -> lru -> Prop :=
| try_not_cached a : not_cached key = true -> try_step t conn resp key ims mtime a (NXWEB_MISS, resp) a
| try_absent a : key ∉ en_keys (lru_entries a) -> try_step t conn resp key ims mtime a (NXWEB_MISS, resp) a
| try_not_modified l1 p e l2 held : en_key e = key -> t <= en_expires (prolong t mtime e) -> ims <> 0 -> en_mtime e <= ims ->
    try_step t conn resp key ims mtime (mk_lru (l1 ++ (p, e) :: l2) held) (NXWEB_OK, not_modified resp)
      (mk_lru ((p, prolong t mtime e) :: l1 ++ l2) held)
| try_serve l1 p e l2 held : en_key e = key -> t <= en_expires (prolong t mtime e) -> ims = 0 \/ ims < en_mtime e ->
    try_step t conn resp key ims mtime (mk_lru (l1 ++ (p, e) :: l2) held) (NXWEB_OK, serve_entry resp p e)
      (mk_lru ((p, prolong t mtime e) :: l1 ++ l2) (<[conn := (p, en_data e)]> held))
| try_revalidate l1 p e l2 held : en_key e = key -> en_expires e < t -> mtime = 0 -> en_mtime e <> 0 ->
    try_step t conn resp key ims mtime (mk_lru (l1 ++ (p, e) :: l2) held) (NXWEB_REVALIDATE, resp) (mk_lru (l1 ++ (p, e) :: l2) held)
| try_expired l1 p e l2 held : en_key e = key -> en_expires e < t -> mtime <> 0 -> en_mtime e <> mtime ->
    try_step t conn resp key ims mtime (mk_lru (l1 ++ (p, e) :: l2) held) (NXWEB_MISS, resp) (mk_lru (l1 ++ l2) held).

Definition lru_release (t conn : Z) (a : lru) : lru :=
  match lru_held a !! conn with
  | None => a
  | Some (p, _) =>
      let held := base.delete conn (lru_held a) in
      let l := if refs held p =? 0 then filter (fun qe => ~ (fst qe = p /\ en_expires (snd qe) < t)) (lru_entries a) else lru_entries a in
      mk_lru (evict (used held) l) held
  end.

Definition new_entry (t : Z) (resp : cresponse) (key content : bytes) : entry :=
  mk_entry key content (static_of (rs_content_type resp)) (static_of (rs_content_charset resp))
    (t + NXWEB_DEFAULT_CACHED_TIME) (rs_last_modified resp) (rs_gzip_encoded resp).

Section spec.
Variables (malloc : Z -> bool) (REVISION : bytes).

Inductive store_step (t conn : Z) (resp : cresponse) (key : bytes) (p : Z) : option bytes -> lru -> nxweb_result * cresponse -> lru -> Prop :=
| store_no_file a : store_step t conn resp key p None a (NXWEB_ERROR, send_http_error REVISION resp 500 (bs "Internal Server Error")) a
| store_no_memory content b a : malloc b = false ->
    store_step t conn resp key p (Some content) a (NXWEB_OK, resp{{rs_content := Some (InRec p)}}) a
| store_present content l1 q e l2 held : en_key e = key ->
    store_step t conn resp key p (Some content) (mk_lru (l1 ++ (q, e) :: l2) held) (NXWEB_OK, serve_entry resp q e)
      (mk_lru (l1 ++ (q, e) :: l2) (<[conn := (q, en_data e)]> held))
| store_new content l held : key ∉ en_keys l ->
    store_step t conn resp key p (Some content) (mk_lru l held) (NXWEB_OK, resp{{rs_content := Some (InRec p)}})
      (let held := <[conn := (p, content)]> held in mk_lru (evict (used held) ((p, new_entry t resp key content) :: l)) held).

Definition with_status (resp : cresponse) : cresponse :=
  if rs_status_code resp =? 0 then resp{{rs_status_code := 200}} else resp.

Inductive lru_step : lru -> action -> outcome -> lru -> Prop :=
| lru_try a t conn resp key ims mtime res resp' a' : try_step t conn resp key ims mtime a (res, resp') a' ->
    lru_step a (ATry t conn resp key ims mtime) (Some (Some res, resp')) a'
| lru_not_storable a t conn resp st_size key :
    storable (with_status resp) st_size (zlen (lru_entries a)) = false ->
    lru_step a (AStoreBegin t conn resp st_size key) (Some (Some NXWEB_OK, with_status resp)) a
| lru_store_begin a t conn resp st_size key res resp' a' :
    storable (with_status resp) st_size (zlen (lru_entries a)) = true ->
    try_step t conn (with_status resp) key 0 (rs_last_modified resp) a (res, resp') a' ->
    lru_step a (AStoreBegin t conn resp st_size key) (Some (match res with NXWEB_MISS => None | _ => Some NXWEB_OK end, resp')) a'
| lru_store_end a t conn resp key p file res resp' a' : store_step t conn resp key p file a (res, resp') a' ->
    lru_step a (AStoreEnd t conn resp key p file) (Some (Some res, resp')) a'
| lru_finish a t conn : lru_step a (AFinish t conn) None (lru_release t conn a).

(** When a thread may act: its connection sends nothing from the cache; the
    allocator returns an address where no record lives; what was read from the
    file has the length of the response. *)
Definition is_time (t : Z) : Prop := 0 <= t < 2 ^ 63.
Definition enabled (s : cache) (act : action) : Prop :=
  match act with
  | ATry t conn _ _ _ _ | AStoreBegin t conn _ _ _ => is_time t /\ ca_conns s !! conn = None
  | AStoreEnd t conn resp key p file =>
      is_time t /\ ca_conns s !! conn = None /\ ca_recs s !! p = None /\ Forall (fun c => c <> 0) key /\
      match file with Some content => zlen content = rs_content_length resp | None => True end
  | AFinish t conn => is_time t
  end.
End spec.

(** ** References *)

Section refs.
Implicit Types (held : gmap Z (Z * bytes)) (p q c : Z).

Lemma refs_nonneg held p : 0 <= refs held p <= Z.of_nat (size held).
Proof. unfold refs. pose proof (map_size_filter (fun kv : Z * (Z * bytes) => fst (snd kv) = p) held). lia. Qed.
Lemma refs_insert held c p d q : held !! c = None -> refs (<[c := (p, d)]> held) q = refs held q + (if p =? q then 1 else 0).
Proof.
  intros Hc. unfold refs. destruct (Z.eqb_spec p q) as [->|Hne].
  - rewrite map_filter_insert_True by done. rewrite map_size_insert_None; [lia|]. apply map_lookup_filter_None. by left.
  - rewrite map_filter_insert_False by done. rewrite delete_id by done. lia.
Qed.
Lemma refs_delete held c p d q : held !! c = Some (p, d) -> refs (base.delete c held) q = refs held q - (if p =? q then 1 else 0).
Proof.
  intros Hc. rewrite <- (insert_delete_id held c (p, d) Hc) at 2. rewrite refs_insert by apply lookup_delete_eq. lia.
Qed.
Lemma refs_zero held p : refs held p = 0 <-> forall c d, held !! c <> Some (p, d).
Proof.
  unfold refs. split.
  - intros H0 c d Hc. assert (filter (fun kv => fst (snd kv) = p) held = ∅) as E by (apply map_size_empty_iff; lia).
    assert (filter (fun kv => fst (snd kv) = p) held !! c = Some (p, d)) as E2 by (by apply map_lookup_filter_Some).
    by rewrite E, lookup_empty in E2.
  - intros Hn. assert (filter (fun kv => fst (snd kv) = p) held = ∅) as ->; [|by rewrite map_size_empty].
    apply map_empty. intros c. apply map_lookup_filter_None. right. intros [q d] Hc E. cbn in E. subst q. by eapply Hn.
Qed.
End refs.

(** ** Eviction on lists *)

Section evict.
Variable use : Z -> bool.
Implicit Types l : list (Z * entry).

Lemma evict_oldest_used n l : Forall (fun pe => use (fst pe) = true) l -> evict_oldest use n l = l.
Proof. intros Hl. destruct n; [by destruct l|]. induction Hl as [|pe l Hp _ IH]; cbn; [done|]. by rewrite Hp, IH. Qed.
Lemma evict_oldest_skip n l1 l2 : Forall (fun pe => use (fst pe) = true) l1 ->
  evict_oldest use n (l1 ++ l2) = l1 ++ evict_oldest use n l2.
Proof. intros Hl. destruct n; [by destruct l1, l2|]. induction Hl as [|pe l Hp _ IH]; cbn; [done|]. by rewrite Hp, IH. Qed.

Lemma evict_all_used l : Forall (fun pe => use (fst pe) = true) l -> evict use l = l.
Proof. intros Hl. unfold evict. rewrite evict_oldest_used, rev_involutive; [done|]. by apply Forall_rev. Qed.
Lemma evict_small l : zlen l <= NXWEB_MAX_CACHED_ITEMS -> evict use l = l.
Proof.
  intros Hl. unfold evict. assert (length l - Z.to_nat NXWEB_MAX_CACHED_ITEMS = 0)%nat as -> by (unfold zlen, NXWEB_MAX_CACHED_ITEMS in *; lia).
  cbn. destruct (rev l) eqn:E; by rewrite <- (rev_involutive l), E.
Qed.
Lemma evict_one l1 pe l2 : NXWEB_MAX_CACHED_ITEMS < zlen (l1 ++ pe :: l2) -> use (fst pe) = false ->
  Forall (fun pe => use (fst pe) = true) l2 -> evict use (l1 ++ pe :: l2) = evict use (l1 ++ l2).
Proof.
  intros Hl Hp H2. unfold evict. f_equal. rewrite zlen_app, zlen_cons in Hl. rewrite !rev_app_distr, !length_app. cbn [rev length].
  unfold zlen, NXWEB_MAX_CACHED_ITEMS in *.
  replace (length l1 + S (length l2) - Z.to_nat 500)%nat with (S (length l1 + length l2 - Z.to_nat 500))%nat by lia.
  rewrite <- app_assoc. rewrite evict_oldest_skip by by apply Forall_rev. cbn [app evict_oldest]. rewrite Hp.
  by rewrite evict_oldest_skip by by apply Forall_rev.
Qed.
(** What remains is no longer than the limit, or all in use. *)
Lemma evict_oldest_bound n l : (length (evict_oldest use n l) + n = length l)%nat \/ Forall (fun pe => use (fst pe) = true) (evict_oldest use n l).
Proof.
  revert n. induction l as [|pe l IH]; intros [|n]; cbn [evict_oldest length]; [left; lia|by right|left; lia|].
  destruct (use (fst pe)) eqn:Hp; cbn [length].
  - destruct (IH (S n)) as [E|Hf]; [left; lia|right; by constructor].
  - destruct (IH n) as [E|Hf]; [left; lia|by right].
Qed.
Lemma evict_bound l : zlen (evict use l) <= NXWEB_MAX_CACHED_ITEMS \/ Forall (fun pe => use (fst pe) = true) (evict use l).
Proof.
  unfold evict. destruct (evict_oldest_bound (length l - Z.to_nat NXWEB_MAX_CACHED_ITEMS) (rev l)) as [E|Hf].
  - left. unfold zlen, NXWEB_MAX_CACHED_ITEMS in *. rewrite length_rev in *. lia.
  - right. by apply Forall_rev.
Qed.
End evict.

(** ** Entries by key *)

Definition key_map (l : list (Z * entry)) : gmap bytes Z := list_to_map ((fun pe => (en_key (snd pe), fst pe)) <$> l).

Section keys.
Implicit Types (l : list (Z * entry)) (p : Z) (e : entry).

Lemma key_map_keys l : ((fun pe : Z * entry => (en_key (snd pe), fst pe)) <$> l).*1 = en_keys l.
Proof. unfold en_keys. by rewrite <- list_fmap_compose. Qed.
Lemma key_map_none l k : key_map l !! k = None <-> k ∉ en_keys l.
Proof. rewrite <- key_map_keys. symmetry. apply not_elem_of_list_to_map. Qed.
Lemma key_map_some l k p : key_map l !! k = Some p -> exists l1 e l2, l = l1 ++ (p, e) :: l2 /\ en_key e = k.
Proof.
  intros Hk%elem_of_list_to_map_2. apply list_elem_of_fmap in Hk as ([q e] & [= -> ->] & Hin).
  apply list_elem_of_split in Hin as (l1 & l2 & ->). eauto.
Qed.
Lemma key_map_app l1 p e l2 : NoDup (en_keys (l1 ++ (p, e) :: l2)) -> key_map (l1 ++ (p, e) :: l2) = <[en_key e := p]> (key_map (l1 ++ l2)).
Proof.
  intros Hn. unfold key_map. rewrite (list_to_map_proper _ ((fun pe => (en_key (snd pe), fst pe)) <$> ((p, e) :: l1 ++ l2))); [done| |].
  - by rewrite key_map_keys.
  - by rewrite Permutation_middle.
Qed.
Lemma en_keys_app l1 pe l2 : NoDup (en_keys (l1 ++ pe :: l2)) -> NoDup (en_keys (l1 ++ l2)) /\ en_key (snd pe) ∉ en_keys (l1 ++ l2).
Proof.
  unfold en_keys. rewrite !fmap_app, fmap_cons. intros Hn. rewrite <- Permutation_middle in Hn. by apply NoDup_cons in Hn as [? ?].
Qed.
Lemma key_map_remove l1 p e l2 : NoDup (en_keys (l1 ++ (p, e) :: l2)) -> base.delete (en_key e) (key_map (l1 ++ (p, e) :: l2)) = key_map (l1 ++ l2).
Proof.
  intros Hn. rewrite key_map_app by done. apply en_keys_app in Hn as [_ Hk]. apply delete_insert_id. by apply key_map_none.
Qed.
Lemma key_map_middle l1 p e e' l2 : en_key e' = en_key e -> NoDup (en_keys (l1 ++ (p, e) :: l2)) ->
  NoDup (en_keys ((p, e') :: l1 ++ l2)) /\ key_map ((p, e') :: l1 ++ l2) = key_map (l1 ++ (p, e) :: l2) /\
  NoDup (en_keys (l1 ++ (p, e') :: l2)) /\ key_map (l1 ++ (p, e') :: l2) = key_map (l1 ++ (p, e) :: l2).
Proof.
  intros He Hn. pose proof (en_keys_app _ _ _ Hn) as [Hn' Hk]. cbn [snd] in Hk.
  assert (Hn1 : NoDup (en_keys ((p, e') :: l1 ++ l2))) by (unfold en_keys in *; cbn; rewrite He; by constructor).
  assert (Hn2 : NoDup (en_keys (l1 ++ (p, e') :: l2))).
  { unfold en_keys in *. rewrite fmap_app, fmap_cons in *. cbn [snd] in *. by rewrite He. }
  split; [done|]. rewrite (key_map_app l1 p e l2), (key_map_app l1 p e' l2) by done. rewrite He. split; [|done].
  change ((p, e') :: l1 ++ l2) with ([] ++ (p, e') :: l1 ++ l2). rewrite (key_map_app [] p e' (l1 ++ l2)) by done. by rewrite He.
Qed.
Lemma key_map_size l : NoDup (en_keys l) -> Z.of_nat (size (key_map l)) = zlen l.
Proof.
  unfold zlen. intros Hn. induction l as [|[p e] l IH]; [done|]. change ((p, e) :: l) with ([] ++ (p, e) :: l) in Hn |- *. rewrite (key_map_app [] p e l Hn). cbn [app].
  apply (en_keys_app [] _ l) in Hn as [Hn Hk]. cbn [app snd length] in *. rewrite map_size_insert_None by by apply key_map_none.
  rewrite Nat2Z.inj_succ, IH by done. lia.
Qed.
End keys.

(** ** Records and their lists *)

(** A record without its links. *)
Definition core (r : nxweb_cache_rec) : nxweb_cache_rec := r{{cr_prev := None; cr_next := None}}.
Lemma core_blind : link_blind (core : nxweb_cache_rec -> _).
Proof. split; by intros p []. Qed.
Definition same_core (m m' : gmap Z nxweb_cache_rec) : Prop := forall p, core <$> m' !! p = core <$> m !! p.

(** The list [q], and records that are not in it have no links. *)
Definition linked (m : gmap Z nxweb_cache_rec) (h t : option Z) (q : list Z) : Prop :=
  dll m h t q /\ forall p r, m !! p = Some r -> p ∉ q -> cr_prev r = None /\ cr_next r = None.

Section linked.
Implicit Types (m : gmap Z nxweb_cache_rec) (q : list Z) (p : Z).

Lemma linked_unlink m h t q1 p q2 : linked m h t (q1 ++ p :: q2) ->
  exists m' h' t', dll_unlink m h t p = Some (m', h', t') /\ linked m' h' t' (q1 ++ q2) /\ same_core m m'.
Proof.
  intros [Hd Hu]. destruct (unlink_ok m h t q1 p q2 Hd) as (m' & E & Hd' & Hf & Hout & n & Hn & Hp & Hx).
  exists m', (head (q1 ++ q2)), (last (q1 ++ q2)). split; [exact E|]. split; [|exact (Hf _ core core_blind)]. split; [done|].
  intros k r Hk Hq. destruct (decide (k = p)) as [->|Hne]; [rewrite Hn in Hk; injection Hk as <-; done|].
  apply (Hu k r); [rewrite <- Hout; [done|set_solver]|set_solver].
Qed.
Lemma linked_push m h t q p : linked m h t q -> p ∉ q -> is_Some (m !! p) ->
  exists m' h' t', dll_push_front m h t p = Some (m', h', t') /\ linked m' h' t' (p :: q) /\ same_core m m'.
Proof.
  intros [Hd Hu] Hp [r Hr]. destruct (push_front_ok m h t q p r Hd Hp Hr) as (m' & E & Hd' & Hf & Hout).
  exists m', (Some p), (last (p :: q)). split; [exact E|]. split; [|exact (Hf _ core core_blind)]. split; [done|].
  intros k r' Hk Hq. apply (Hu k r'); [rewrite <- Hout; [done|set_solver]|set_solver].
Qed.
Lemma linked_update m h t q p r r' : linked m h t q -> m !! p = Some r -> cr_prev r' = cr_prev r -> cr_next r' = cr_next r ->
  linked (<[p := r']> m) h t q.
Proof.
  intros [Hd Hu] Hr Hp Hx. split; [by eapply dll_payload|]. intros k rk Hk Hq. destruct (decide (p = k)) as [->|Hne].
  - rewrite lookup_insert_eq in Hk. injection Hk as <-. rewrite Hp, Hx. by apply Hu with k.
  - rewrite lookup_insert_ne in Hk by done. by apply Hu with k.
Qed.
Lemma linked_new m h t q p r : linked m h t q -> m !! p = None -> cr_prev r = None -> cr_next r = None ->
  linked (<[p := r]> m) h t q /\ p ∉ q.
Proof.
  intros [Hd Hu] Hp Hr1 Hr2. assert (p ∉ q) as Hq by (intros Hq; destruct (dll_member _ _ _ _ _ Hd Hq); congruence).
  split; [|done]. split; [by apply dll_insert|]. intros k rk Hk Hkq. destruct (decide (p = k)) as [->|Hne].
  - rewrite lookup_insert_eq in Hk. by injection Hk as <-.
  - rewrite lookup_insert_ne in Hk by done. by apply Hu with k.
Qed.
Lemma linked_free m h t q p : linked m h t q -> p ∉ q -> linked (base.delete p m) h t q.
Proof.
  intros [(Hnd & Hs & Hh & Ht) Hu] Hp. split.
  - split_and!; try done. eapply seg_ext; [|exact Hs]. intros k Hk. apply lookup_delete_ne. by intros ->.
  - intros k r [_ Hk]%lookup_delete_Some. by apply Hu.
Qed.
Lemma linked_is m h t q p r : linked m h t q -> m !! p = Some r ->
  match cr_prev r with Some _ => true | None => bool_decide (h = Some p) end = bool_decide (p ∈ q).
Proof.
  intros [(Hnd & Hs & Hh & Ht) Hu] Hr. destruct (decide (p ∈ q)) as [Hin|Hn].
  - rewrite (bool_decide_eq_true_2 _ Hin). apply list_elem_of_split in Hin as (q1 & q2 & ->).
    apply seg_app in Hs as [_ Hs]. cbn [seg] in Hs. destruct Hs as [(n & Hnn & Hp & _) _]. rewrite Hr in Hnn. injection Hnn as <-.
    change (prev_of r) with (cr_prev r) in Hp. rewrite Hp. unfold last_or. destruct (last q1) eqn:E; [done|].
    apply last_None in E as ->. cbn in Hh. by apply bool_decide_eq_true_2.
  - rewrite (bool_decide_eq_false_2 _ Hn). destruct (Hu p r Hr Hn) as [-> _]. apply bool_decide_eq_false_2. rewrite Hh.
    intros E. apply Hn. by apply head_Some_elem_of.
Qed.
End linked.

(** ** The simulation relation *)

#[local] Arguments key_map l : simpl never.
#[local] Arguments en_keys l : simpl never.

Definition rec_holds (r : nxweb_cache_rec) (e : entry) : Prop :=
  cr_content r = en_data e ++ [0] ++ en_key e ++ [0] /\ Forall (fun c => c <> 0) (en_key e) /\
  cr_content_length r = zlen (en_data e) /\ cr_content_type r = en_type e /\ cr_content_charset r = en_charset e /\
  cr_expires_time r = en_expires e /\ cr_last_modified r = en_mtime e /\ cr_gzip_encoded r = en_gzip e.

(** A record lives where the list or a connection refers to it, counts the
    connections, and has the content that they were given. *)
Definition rec_rel (l : list (Z * entry)) (held : gmap Z (Z * bytes)) (p : Z) (o : option nxweb_cache_rec) : Prop :=
  match o with
  | None => (forall e, (p, e) ∉ l) /\ refs held p = 0
  | Some r => exists e, rec_holds r e /\ cr_ref_count r = refs held p /\ ((p, e) ∈ l \/ refs held p <> 0) /\
      (forall e', (p, e') ∈ l -> e' = e) /\ (forall c d, held !! c = Some (p, d) -> d = en_data e)
  end.

Definition agrees_with (cs : gmap Z Z) (n : Z) (s : cache) (a : lru) : Prop :=
  linked (ca_recs s) (ca_head s) (ca_tail s) (lru_entries a).*1 /\
  NoDup (en_keys (lru_entries a)) /\
  table_rep hash_sdbm n (ca_table s) (key_map (lru_entries a)) /\
  (forall p, rec_rel (lru_entries a) (lru_held a) p (ca_recs s !! p)) /\
  ca_conns s = cs /\
  Z.of_nat (size (lru_held a)) <= n.
Abbreviation agrees n s a := (agrees_with (fst <$> lru_held a) n s a).

Lemma rec_rel_ext l l' held held' p o : (forall e, (p, e) ∈ l' <-> (p, e) ∈ l) ->
  (forall c d, held' !! c = Some (p, d) <-> held !! c = Some (p, d)) -> refs held' p = refs held p -> rec_rel l held p o -> rec_rel l' held' p o.
Proof.
  intros Hl Hh Hr. destruct o as [r|]; cbn.
  - intros (e & He & Hc & Hlive & Hu & Hd). exists e. rewrite Hr, Hl. split_and!; try done.
    + intros e' He'%Hl. by apply Hu.
    + intros c d Hcd%Hh. by eapply Hd.
  - intros [Hn Hz]. rewrite Hr. split; [|done]. intros e He%Hl. by apply (Hn e).
Qed.
Lemma rec_rel_core l held p o o' : core <$> o' = core <$> o -> rec_rel l held p o -> rec_rel l held p o'.
Proof.
  destruct o as [r|], o' as [r'|]; try done. intros [= E]. cbn. intros (e & He & Hc & Hr). exists e.
  destruct r, r'. cbn in *. unfold core, rec_holds in *. cbn in *. simplify_eq. done.
Qed.
Lemma agrees_weaken cs n n' s a : agrees_with cs n s a -> n <= n' -> agrees_with cs n' s a.
Proof. intros (Hl & Hk & Ht & Hr & Hc & Hn) Hle. split_and!; try done; [by eapply table_rep_weaken|lia]. Qed.

Lemma fsts (l1 : list (Z * entry)) p e l2 : (l1 ++ (p, e) :: l2).*1 = l1.*1 ++ p :: l2.*1.
Proof. by rewrite fmap_app. Qed.
(** The record of an entry. *)
Lemma agrees_entry cs n m tab h t conns l1 p e l2 held : agrees_with cs n (mk_cache m tab h t conns) (mk_lru (l1 ++ (p, e) :: l2) held) ->
  exists r, m !! p = Some r /\ rec_holds r e /\ cr_ref_count r = refs held p /\ p ∉ (l1 ++ l2).*1 /\
    (forall c d, held !! c = Some (p, d) -> d = en_data e) /\ 0 <= refs held p <= n.
Proof.
  intros (Hl & Hk & Ht & Hr & Hc & Hn). cbn in *. specialize (Hr p). pose proof (refs_nonneg held p).
  assert (p ∉ (l1 ++ l2).*1) as Hp.
  { destruct Hl as [(Hnd & _) _]. rewrite fsts in Hnd. rewrite fmap_app. rewrite <- Permutation_middle in Hnd. by apply NoDup_cons in Hnd as [? _]. }
  destruct (m !! p) as [r|]; cbn in Hr; [|destruct Hr as [Hno _]; exfalso; apply (Hno e); set_solver].
  destruct Hr as (e' & He & Hcnt & _ & Hu & Hd). assert (e = e') as <- by (apply Hu; set_solver). exists r. split_and!; try done; lia.
Qed.
Lemma fst_in (l : list (Z * entry)) p : p ∈ l.*1 <-> exists e, (p, e) ∈ l.
Proof.
  rewrite list_elem_of_fmap. split; [intros ([q e] & -> & Hin); by exists e|]. intros [e He]. by exists (p, e).
Qed.

(** An entry leaves the list; its record goes unless a connection uses it. *)
Lemma agrees_remove cs n m tab h t conns m' tab' h' t' l1 p e l2 held :
  agrees_with cs n (mk_cache m tab h t conns) (mk_lru (l1 ++ (p, e) :: l2) held) ->
  same_core m m' -> linked m' h' t' (l1 ++ l2).*1 -> table_rep hash_sdbm n tab' (base.delete (en_key e) (key_map (l1 ++ (p, e) :: l2))) ->
  agrees_with cs n (mk_cache (if refs held p =? 0 then base.delete p m' else m') tab' h' t' conns) (mk_lru (l1 ++ l2) held).
Proof.
  intros Ha Hsame Hl' Ht'. pose proof (agrees_entry _ _ _ _ _ _ _ _ _ _ _ _ Ha) as (r & Hp & He & Hcnt & Hpn & Hd & _).
  destruct Ha as (Hl & Hk & Ht & Hr & Hc & Hn). cbn [ca_recs ca_table ca_head ca_tail ca_conns lru_entries lru_held] in *.
  assert (Hq : forall q, q <> p -> rec_rel (l1 ++ l2) held q (m' !! q)).
  { intros q Hq. eapply rec_rel_core; [apply Hsame|]. eapply rec_rel_ext; [|done|done|apply Hr]. intros e'. set_solver. }
  assert (Hno : forall e', (p, e') ∉ l1 ++ l2) by (intros e' He'; apply Hpn, fst_in; eauto).
  split; cbn; [destruct (Z.eqb_spec (refs held p) 0); [by apply linked_free|done]|].
  split; [by eapply en_keys_app|]. split; [by rewrite key_map_remove in Ht'|]. split; [|done].
  intros q. destruct (Z.eqb_spec (refs held p) 0) as [E|E].
  - destruct (decide (p = q)) as [<-|Hne]; [rewrite lookup_delete_eq; done|]. rewrite lookup_delete_ne by done. by apply Hq.
  - destruct (decide (p = q)) as [<-|Hne]; [|by apply Hq]. eapply rec_rel_core; [apply Hsame|]. rewrite Hp.
    exists e. split_and!; try done; [by right|]. intros e' He'. by apply Hno in He'.
Qed.
(** An entry moves to the front, or its record is changed in place. *)
Lemma agrees_front cs n m tab h t conns m' h' t' l1 p e l2 held :
  agrees_with cs n (mk_cache m tab h t conns) (mk_lru (l1 ++ (p, e) :: l2) held) ->
  same_core m m' -> linked m' h' t' (p :: (l1 ++ l2).*1) ->
  agrees_with cs n (mk_cache m' tab h' t' conns) (mk_lru ((p, e) :: l1 ++ l2) held).
Proof.
  intros (Hl & Hk & Ht & Hr & Hc & Hn) Hsame Hl'. cbn in *. destruct (key_map_middle l1 p e e l2 eq_refl Hk) as (H1 & H2 & _).
  split_and!; cbn; try done; [by rewrite H2|]. intros q. eapply rec_rel_core; [apply Hsame|]. eapply rec_rel_ext; [|done|done|apply Hr]. set_solver.
Qed.
Lemma agrees_change cs n m tab h t conns l1 p e l2 held r e' :
  agrees_with cs n (mk_cache m tab h t conns) (mk_lru (l1 ++ (p, e) :: l2) held) -> m !! p = Some r ->
  forall r', cr_prev r' = cr_prev r -> cr_next r' = cr_next r -> cr_ref_count r' = cr_ref_count r -> rec_holds r' e' ->
  en_key e' = en_key e -> en_data e' = en_data e ->
  agrees_with cs n (mk_cache (<[p := r']> m) tab h t conns) (mk_lru (l1 ++ (p, e') :: l2) held).
Proof.
  intros Ha Hp r' Hr1 Hr2 Hr3 He' Hkey Hdata.
  pose proof (agrees_entry _ _ _ _ _ _ _ _ _ _ _ _ Ha) as (r0 & Hp0 & He & Hcnt & Hpn & Hd & _). rewrite Hp in Hp0. injection Hp0 as <-.
  assert (Hno : forall e', (p, e') ∉ l1 ++ l2) by (intros e0 He0; apply Hpn, fst_in; eauto).
  destruct Ha as (Hl & Hk & Ht & Hr & Hc & Hn). cbn in *. destruct (key_map_middle l1 p e e' l2 Hkey Hk) as (_ & _ & H1 & H2).
  split_and!; cbn; try done; [|by rewrite H2|].
  { rewrite fsts in *. by eapply linked_update. }
  intros q. destruct (decide (p = q)) as [<-|Hne].
  - rewrite lookup_insert_eq. exists e'. split_and!; try done; [congruence|left; set_solver| |].
    + intros e0 He0. assert (Hne : (p, e0) ∉ l1 /\ (p, e0) ∉ l2) by (specialize (Hno e0); set_solver). set_solver.
    + intros c d Hcd. rewrite Hdata. by eapply Hd.
  - rewrite lookup_insert_ne by done. eapply rec_rel_ext; [|done|done|apply Hr]. set_solver.
Qed.
(** A connection takes a reference. *)
Lemma agrees_hold n m tab h t conns l1 p e l2 held r c :
  agrees n (mk_cache m tab h t conns) (mk_lru (l1 ++ (p, e) :: l2) held) -> m !! p = Some r -> held !! c = None ->
  forall r', cr_prev r' = cr_prev r -> cr_next r' = cr_next r -> cr_ref_count r' = cr_ref_count r + 1 -> rec_holds r' e ->
  agrees (n + 1) (mk_cache (<[p := r']> m) tab h t (<[c := p]> conns)) (mk_lru (l1 ++ (p, e) :: l2) (<[c := (p, en_data e)]> held)).
Proof.
  intros Ha Hp Hfree r' Hr1 Hr2 Hr3 He'.
  pose proof (agrees_entry _ _ _ _ _ _ _ _ _ _ _ _ Ha) as (r0 & Hp0 & He & Hcnt & Hpn & Hd & _). rewrite Hp in Hp0. injection Hp0 as <-.
  assert (Hno : forall e', (p, e') ∉ l1 ++ l2) by (intros e0 He0; apply Hpn, fst_in; eauto).
  destruct Ha as (Hl & Hk & Ht & Hr & Hc & Hn). cbn in *.
  split_and!; cbn; try done.
  - by eapply linked_update.
  - eapply table_rep_weaken; [done|lia].
  - intros q. assert (Hq : refs (<[c := (p, en_data e)]> held) q = refs held q + (if p =? q then 1 else 0)) by by apply refs_insert.
    destruct (decide (p = q)) as [<-|Hne].
    + rewrite lookup_insert_eq. rewrite Z.eqb_refl in Hq. pose proof (refs_nonneg held p). exists e. split_and!; try done; [lia|left; set_solver| |].
      * intros e0 He0. assert (Hne : (p, e0) ∉ l1 /\ (p, e0) ∉ l2) by (specialize (Hno e0); set_solver). set_solver.
      * intros c' d. destruct (decide (c = c')) as [<-|Hcc]; [rewrite lookup_insert_eq; by intros [= <-]|]. rewrite lookup_insert_ne by done. apply Hd.
    + destruct (Z.eqb_spec p q); [done|]. rewrite lookup_insert_ne by done. apply (rec_rel_ext (l1 ++ (p, e) :: l2) _ held); [done| |lia|apply Hr].
      intros c' d. destruct (decide (c = c')) as [<-|Hcc]; [rewrite lookup_insert_eq; split; congruence|by rewrite lookup_insert_ne].
  - rewrite fmap_insert. by rewrite Hc.
  - rewrite map_size_insert_None by done. lia.
Qed.

(** ** Rules for the operations on a state *)

Section rules.
Implicit Types (m : gmap Z nxweb_cache_rec) (tab : alignhash bytes Z) (h t : option Z) (conns : gmap Z Z).

Lemma wp_load_rec s p r (Q : nxweb_cache_rec -> cache -> Prop) : ca_recs s !! p = Some r -> Q r s -> wp (load p) Q s.
Proof. intros Hp HQ. unfold load. apply wp_bind, wp_get. by rewrite Hp. Qed.
Lemma wp_update m tab h t conns p f r (Q : unit -> cache -> Prop) : m !! p = Some r ->
  Q tt (mk_cache (<[p := f r]> m) tab h t conns) -> wp (update p f) Q (mk_cache m tab h t conns).
Proof. intros Hp HQ. unfold update. apply wp_bind. eapply wp_load_rec; [exact Hp|]. by apply wp_modify. Qed.
Lemma wp_nx_free m tab h t conns p r (Q : unit -> cache -> Prop) : m !! p = Some r ->
  Q tt (mk_cache (base.delete p m) tab h t conns) -> wp (nx_free p) Q (mk_cache m tab h t conns).
Proof. intros Hp HQ. unfold nx_free. apply wp_bind. eapply wp_load_rec; [exact Hp|]. by apply wp_modify. Qed.
Lemma wp_on_table {A} (c : M (alignhash bytes Z) A) m tab h t conns (Q : A -> cache -> Prop) :
  wp c (fun a tab' => Q a (mk_cache m tab' h t conns)) tab -> wp (on_table c) Q (mk_cache m tab h t conns).
Proof. unfold on_table, wp. cbn. by destruct (c tab) as [[a tab']|]. Qed.
Lemma wp_cache_link m tab h t conns q p (Q : unit -> cache -> Prop) : linked m h t q -> p ∉ q -> is_Some (m !! p) ->
  (forall m' h' t', linked m' h' t' (p :: q) -> same_core m m' -> Q tt (mk_cache m' tab h' t' conns)) ->
  wp (cache_rec_link p) Q (mk_cache m tab h t conns).
Proof.
  intros Hl Hq Hp HQ. destruct (linked_push m h t q p Hl Hq Hp) as (m' & h' & t' & E & Hl' & Hs).
  unfold cache_rec_link. apply wp_bind, wp_get. cbn [ca_recs ca_head ca_tail]. rewrite E. apply wp_bind, wp_ret. unfold set_links.
  apply wp_modify. by apply HQ.
Qed.
Lemma wp_cache_unlink m tab h t conns q1 p q2 (Q : unit -> cache -> Prop) : linked m h t (q1 ++ p :: q2) ->
  (forall m' h' t', linked m' h' t' (q1 ++ q2) -> same_core m m' -> Q tt (mk_cache m' tab h' t' conns)) ->
  wp (cache_rec_unlink p) Q (mk_cache m tab h t conns).
Proof.
  intros Hl HQ. destruct (linked_unlink m h t q1 p q2 Hl) as (m' & h' & t' & E & Hl' & Hs).
  unfold cache_rec_unlink. apply wp_bind, wp_get. cbn [ca_recs ca_head ca_tail]. rewrite E. apply wp_bind, wp_ret. unfold set_links.
  apply wp_modify. by apply HQ.
Qed.

Lemma until_nul_app k l : Forall (fun c => c <> 0) k -> until_nul (k ++ 0 :: l) = Some k.
Proof. induction 1 as [|c k Hc _ IH]; cbn; [done|]. destruct (Z.eqb_spec c 0); [done|]. by rewrite IH. Qed.
Lemma wp_fpath r e (Q : bytes -> cache -> Prop) s : rec_holds r e -> Q (en_key e) s -> wp (rec_fpath r) Q s.
Proof.
  intros (Hc & Hk & Hl & _) HQ. unfold rec_fpath. rewrite Hl, Hc. pose proof (zlen_nonneg (en_data e)).
  destruct (Z.ltb_spec (zlen (en_data e) + 1) 0); [lia|].
  assert (Z.to_nat (zlen (en_data e) + 1) = length (en_data e ++ [0])) as -> by (unfold zlen; rewrite length_app; cbn; lia).
  rewrite (app_assoc (en_data e) [0]), drop_app_length. by rewrite until_nul_app.
Qed.

(** Looking a key up. *)
Lemma wp_get_absent n s l (Q : Z -> cache -> Prop) key : table_rep hash_sdbm n (ca_table s) (key_map l) -> key ∉ en_keys l ->
  Q (alignhash_end (ca_table s)) s -> wp (table_get key) Q s.
Proof.
  intros Ht Hk HQ. destruct s as [m tab h t conns]. apply wp_on_table.
  eapply (wp_table_get hash_sdbm bytes_eqb (fun _ => true) 8 hash_sdbm_nonneg bytes_eqb_spec); [exact Ht|done|].
  intros x v Hv. by apply key_map_none in Hk as E; rewrite E in Hv.
Qed.
Lemma wp_get_present n s l1 p e l2 (Q : Z -> cache -> Prop) : table_rep hash_sdbm n (ca_table s) (key_map (l1 ++ (p, e) :: l2)) ->
  NoDup (en_keys (l1 ++ (p, e) :: l2)) ->
  (forall x, x <> alignhash_end (ca_table s) -> at_bucket hash_sdbm n (ca_table s) (key_map (l1 ++ (p, e) :: l2)) x (en_key e) p -> Q x s) ->
  wp (table_get (en_key e)) Q s.
Proof.
  intros Ht Hk HQ. destruct s as [m tab h t conns]. apply wp_on_table.
  assert (E : key_map (l1 ++ (p, e) :: l2) !! en_key e = Some p) by (rewrite key_map_app by done; apply lookup_insert_eq).
  eapply (wp_table_get hash_sdbm bytes_eqb (fun _ => true) 8 hash_sdbm_nonneg bytes_eqb_spec); [exact Ht|congruence|].
  intros x v Hv. rewrite E in Hv. injection Hv as <-. apply HQ.
Qed.
Lemma wp_table_end s (Q : Z -> cache -> Prop) : Q (alignhash_end (ca_table s)) s -> wp table_end Q s.
Proof. done. Qed.
Lemma wp_value n mm x k p m tab h t conns (Q : Z -> cache -> Prop) : at_bucket hash_sdbm n tab mm x k p ->
  Q p (mk_cache m tab h t conns) -> wp (on_table (alignhash_value x)) Q (mk_cache m tab h t conns).
Proof. intros Hat HQ. apply wp_on_table. eapply (wp_table_value hash_sdbm (fun _ => true) 8); [exact Hat|done]. Qed.
Lemma wp_del n mm x k p m tab h t conns (Q : unit -> cache -> Prop) : at_bucket hash_sdbm n tab mm x k p ->
  (forall tab', table_rep hash_sdbm n tab' (base.delete k mm) -> Q tt (mk_cache m tab' h t conns)) ->
  wp (on_table (alignhash_del x)) Q (mk_cache m tab h t conns).
Proof. intros Hat HQ. apply wp_on_table. eapply (wp_table_del hash_sdbm (fun _ => true) 8); [exact Hat|done]. Qed.
End rules.

(** ** Eviction *)

Section ops.
Context (malloc : Z -> bool) (REVISION : bytes).

Lemma agrees_size cs n s a : agrees_with cs n s a -> ah_size (ca_table s) = zlen (lru_entries a).
Proof. intros (_ & Hk & Ht & _). rewrite (table_rep_size hash_sdbm n _ _ Ht). by apply key_map_size. Qed.

Lemma wp_last_unused cs n m tab h t conns l held (Q : option Z -> cache -> Prop) : agrees_with cs n (mk_cache m tab h t conns) (mk_lru l held) ->
  (Forall (fun pe => used held (fst pe) = true) l -> Q None (mk_cache m tab h t conns)) ->
  (forall l1 p e l2, l = l1 ++ (p, e) :: l2 -> used held p = false -> Forall (fun pe => used held (fst pe) = true) l2 ->
     Q (Some p) (mk_cache m tab h t conns)) ->
  wp last_unused Q (mk_cache m tab h t conns).
Proof.
  intros Ha HQ0 HQ1. unfold last_unused. apply wp_bind, wp_get. cbn [ca_recs ca_tail].
  pose proof Ha as ([(Hnd & Hs & Hh & Ht) _] & _). cbn in Hnd, Hs, Hh, Ht. subst t.
  assert (Hlen : (length l < S (S (size m)))%nat).
  { rewrite <- (length_fmap fst l), <- (size_dom (D := gset Z) m). rewrite <- (size_list_to_set (C := gset Z) l.*1 Hnd).
    assert ((list_to_set l.*1 : gset Z) ⊆ dom m) as Hsub%subseteq_size; [|lia].
    intros p Hp%elem_of_list_to_set. apply elem_of_dom. by eapply seg_member. }
  revert Hlen. generalize (S (S (size m))). intros fuel Hlen.
  assert (Hgen : forall l1 l2 f, l = l1 ++ l2 -> (length l1 < f)%nat -> Forall (fun pe => used held (fst pe) = true) l2 ->
    wp (loop f (fun rec => match rec with None => ret (inr None) | Some p => let! r := load p in if cr_ref_count r =? 0 then ret (inr (Some p)) else ret (inl (cr_prev r)) end) (last l1.*1)) Q (mk_cache m tab h (last l.*1) conns)).
  2:{ apply (Hgen l [] fuel); [by rewrite app_nil_r|done|constructor]. }
  intros l1. induction l1 as [|[p e] l1 IH] using rev_ind; intros l2 f E Hf H2; (destruct f as [|f]; [lia|]); cbn [loop].
  - apply wp_bind, wp_ret, wp_ret, HQ0. by rewrite E.
  - rewrite length_app in Hf. cbn in Hf. rewrite fmap_app. cbn [fmap list_fmap]. rewrite last_snoc.
    rewrite <- app_assoc in E. cbn in E. subst l. destruct (agrees_entry _ _ _ _ _ _ _ _ _ _ _ _ Ha) as (r & Hp & _ & Hcnt & _).
    apply wp_bind, wp_bind. apply (wp_load_rec _ _ r); [exact Hp|]. destruct (Z.eqb_spec (cr_ref_count r) 0) as [E0|E0].
    + apply wp_ret, wp_ret. apply (HQ1 l1 p e l2 eq_refl); [|done]. unfold used. cbn in Hcnt. by rewrite <- Hcnt, E0.
    + apply wp_ret. cbn beta iota. assert (cr_prev r = last l1.*1) as ->.
      { rewrite fsts in Hs. apply seg_app in Hs as [_ Hs]. cbn [seg] in Hs. destruct Hs as [(r' & Hr' & Hpr & _) _].
        rewrite Hp in Hr'. injection Hr' as <-. change (prev_of r) with (cr_prev r) in Hpr. rewrite Hpr. unfold last_or. by destruct (last l1.*1). }
      apply (IH ((p, e) :: l2)); [done|lia|]. constructor; [|done]. unfold used. cbn. rewrite <- Hcnt. by destruct (Z.eqb_spec (cr_ref_count r) 0).
Qed.

Lemma wp_cache_check_size cs n s l held (Q : unit -> cache -> Prop) : agrees_with cs n s (mk_lru l held) ->
  (forall s', agrees_with cs n s' (mk_lru (evict (used held) l) held) -> ca_conns s' = ca_conns s -> Q tt s') -> wp cache_check_size Q s.
Proof.
  intros Ha HQ. unfold cache_check_size. apply wp_bind, wp_get.
  assert (Hlen : (length l < S (Z.to_nat (ah_size (ca_table s))))%nat) by (rewrite (agrees_size _ _ _ _ Ha); unfold zlen; cbn; lia).
  revert Hlen. generalize (S (Z.to_nat (ah_size (ca_table s)))). intros fuel. revert s l Ha HQ.
  induction fuel as [|fuel IH]; intros [m tab h t conns] l Ha HQ Hf; [lia|]. cbn [loop]. apply wp_bind, wp_bind, wp_get.
  rewrite (agrees_size _ _ _ _ Ha). cbn [lru_entries]. destruct (Z.leb_spec (zlen l) NXWEB_MAX_CACHED_ITEMS) as [Hle|Hgt].
  { apply wp_ret, wp_ret, HQ; [by rewrite evict_small|done]. }
  apply wp_bind. eapply wp_last_unused; [exact Ha| |].
  { intros Hall. apply wp_ret, wp_ret, HQ; [by rewrite evict_all_used|done]. }
  intros l1 p e l2 -> Hp H2. destruct (agrees_entry _ _ _ _ _ _ _ _ _ _ _ _ Ha) as (r & Hpr & He & Hcnt & _).
  assert (Hz : refs held p = 0) by (unfold used in Hp; by destruct (Z.eqb_spec (refs held p) 0)).
  apply wp_bind, (wp_load_rec _ _ r); [exact Hpr|]. apply wp_bind. eapply wp_fpath; [exact He|]. apply wp_bind.
  pose proof Ha as (Hl & Hk & Ht & _). cbn [ca_recs ca_table ca_head ca_tail lru_entries] in *.
  eapply wp_get_present; [exact Ht|exact Hk|]. intros x Hx Hat. cbn [ca_table] in Hx, Hat. apply wp_bind, wp_table_end. cbn [ca_table].
  rewrite (proj2 (Z.eqb_neq _ _) Hx). apply wp_bind. eapply wp_value; [exact Hat|].
  apply wp_bind, wp_assert; [apply Z.eqb_refl|]. apply wp_bind. rewrite fsts in Hl. eapply wp_cache_unlink; [exact Hl|].
  intros m' h' t' Hl' Hs. apply wp_bind. eapply wp_del; [exact Hat|]. intros tab' Ht'. apply wp_bind.
  destruct (m' !! p) as [r'|] eqn:Hpr'; [|specialize (Hs p); rewrite Hpr, Hpr' in Hs; done].
  eapply wp_nx_free; [exact Hpr'|]. apply wp_ret. cbn beta iota. rewrite <- fmap_app in Hl'.
  pose proof (agrees_remove _ _ _ _ _ _ _ _ _ _ _ _ _ _ _ _ Ha Hs Hl' Ht') as Ha'. rewrite Hz in Ha'. cbn in Ha'. apply (IH _ _ Ha').
  - intros s' Hs' Hc. apply HQ; [|done]. by rewrite evict_one.
  - rewrite !length_app in *. cbn in Hf. lia.
Qed.

(** ** Release *)

Lemma agrees_held n s a c p d : agrees n s a -> lru_held a !! c = Some (p, d) ->
  exists r e, ca_recs s !! p = Some r /\ rec_holds r e /\ cr_ref_count r = refs (lru_held a) p /\ 0 < refs (lru_held a) p <= n /\
    (forall e', (p, e') ∈ lru_entries a -> e' = e).
Proof.
  intros (Hl & Hk & Ht & Hr & Hc & Hn) Hcd. specialize (Hr p). pose proof (refs_nonneg (lru_held a) p).
  assert (refs (lru_held a) p <> 0) by (intros E; by apply (proj1 (refs_zero _ _) E c d)).
  destruct (ca_recs s !! p) as [r|]; cbn in Hr; [|by destruct Hr]. destruct Hr as (e & He & Hcnt & _ & Hu & _).
  exists r, e. split_and!; try done; lia.
Qed.
Lemma held_delete (held : gmap Z (Z * bytes)) c p d q c' d' : held !! c = Some (p, d) -> q <> p ->
  base.delete c held !! c' = Some (q, d') <-> held !! c' = Some (q, d').
Proof.
  intros Hc Hq. destruct (decide (c = c')) as [<-|Hne]; [|by rewrite lookup_delete_ne]. rewrite lookup_delete_eq, Hc.
  split; [done|]. by intros [= <- _].
Qed.
Lemma agrees_release n m tab h t conns l held c p d r r' : agrees n (mk_cache m tab h t conns) (mk_lru l held) ->
  held !! c = Some (p, d) -> m !! p = Some r -> cr_prev r' = cr_prev r -> cr_next r' = cr_next r ->
  cr_ref_count r' = cr_ref_count r - 1 -> (forall e, rec_holds r e -> rec_holds r' e) ->
  ((refs (base.delete c held) p <> 0 \/ p ∈ l.*1) ->
     agrees n (mk_cache (<[p := r']> m) tab h t (base.delete c conns)) (mk_lru l (base.delete c held))) /\
  (refs (base.delete c held) p = 0 -> p ∉ l.*1 ->
     agrees n (mk_cache (base.delete p (<[p := r']> m)) tab h t (base.delete c conns)) (mk_lru l (base.delete c held))).
Proof.
  intros (Hl & Hk & Ht & Hr & Hc & Hn) Hcd Hp Hr1 Hr2 Hr3 Hr4. cbn in *.
  assert (Hrefs : forall q, refs (base.delete c held) q = refs held q - (if p =? q then 1 else 0)) by (intros q; by eapply refs_delete).
  assert (Hother : forall q, q <> p -> rec_rel l (base.delete c held) q (m !! q)).
  { intros q Hq. eapply rec_rel_ext; [done| | |apply Hr]; [intros c' d'; by eapply held_delete|]. rewrite Hrefs. destruct (Z.eqb_spec p q); [done|lia]. }
  assert (Hlk : linked (<[p := r']> m) h t l.*1) by by eapply linked_update.
  assert (Hsz : Z.of_nat (size (base.delete c held)) <= n) by (rewrite map_size_delete_Some by eauto; lia).
  assert (Hcs : base.delete c conns = fst <$> base.delete c held) by by rewrite Hc, fmap_delete.
  pose proof (Hr p) as Hrp. rewrite Hp in Hrp. destruct Hrp as (e & He & Hcnt & _ & Hu & Hd).
  specialize (Hrefs p). rewrite Z.eqb_refl in Hrefs. split.
  - intros Hlive. split_and!; cbn; try done. intros q. destruct (decide (p = q)) as [<-|Hne]; [|rewrite lookup_insert_ne by done; by apply Hother].
    rewrite lookup_insert_eq. exists e. split_and!; [by apply Hr4|lia| |done|].
    + destruct Hlive as [?|[e' He']%fst_in]; [by right|left]. by rewrite <- (Hu e' He').
    + intros c' d' [_ Hc']%lookup_delete_Some. by eapply Hd.
  - intros Hz Hpl. split_and!; cbn; try done; [by apply linked_free|]. intros q. destruct (decide (p = q)) as [<-|Hne].
    + rewrite lookup_delete_eq. split; [|done]. intros e' He'. apply Hpl, fst_in. eauto.
    + rewrite lookup_delete_ne, lookup_insert_ne by done. by apply Hother.
Qed.

Lemma filter_release t p (l : list (Z * entry)) :
  p ∉ l.*1 -> filter (fun qe => ~ (fst qe = p /\ en_expires (snd qe) < t)) l = l.
Proof.
  induction l as [|[q e] l IH]; [done|]. intros Hp. rewrite fmap_cons in Hp. rewrite filter_cons, IH by set_solver.
  rewrite decide_True; [done|]. cbn. intros [-> _]. set_solver.
Qed.
Lemma filter_release_at t (l1 : list (Z * entry)) p e l2 : p ∉ (l1 ++ l2).*1 ->
  filter (fun qe => ~ (fst qe = p /\ en_expires (snd qe) < t)) (l1 ++ (p, e) :: l2) = if en_expires e <? t then l1 ++ l2 else l1 ++ (p, e) :: l2.
Proof.
  rewrite fmap_app. intros Hp. rewrite filter_app, filter_cons. rewrite (filter_release t p l1), (filter_release t p l2) by set_solver. cbn [fst snd].
  destruct (Z.ltb_spec (en_expires e) t); [by rewrite decide_False by (intros Hn; by apply Hn)|].
  rewrite decide_True; [done|]. intros [_ ?]. lia.
Qed.

Lemma wp_finalize_request n s a t c (Q : unit -> cache -> Prop) : agrees n s a -> n <= 2 ^ 30 ->
  (forall s', agrees n s' (lru_release t c a) -> Q tt s') -> wp (finalize_request t c) Q s.
Proof.
  intros Ha Hn HQ. destruct s as [m tab h tl conns], a as [l held]. unfold finalize_request. apply wp_bind, wp_get.
  pose proof Ha as (Hl & Hk & Ht & Hr & Hc & Hsz). cbn in Hc. cbn [ca_conns]. unfold lru_release in HQ. cbn in HQ.
  assert (Hcc : conns !! c = fst <$> held !! c) by (rewrite Hc; apply lookup_fmap). rewrite Hcc.
  destruct (held !! c) as [[p d]|] eqn:Hcd; cbn [fmap option_fmap option_map fst]; [|by apply wp_ret, HQ].
  destruct (agrees_held _ _ _ _ _ _ Ha Hcd) as (r & e & Hp & He & Hcnt & Hpos & Hu). cbn in Hp, Hcnt, Hpos, Hu.
  apply wp_bind, wp_modify. unfold cache_rec_unref. apply wp_bind, (wp_load_rec _ _ r); [exact Hp|].
  apply wp_bind, wp_assert; [apply Z.ltb_lt; lia|]. rewrite (wrapu_small 32 (cr_ref_count r - 1)) by lia.
  apply wp_bind. eapply wp_update; [exact Hp|]. set (r' := r{{cr_ref_count := _}}).
  pose proof (refs_delete held c p d p Hcd) as Hrd. rewrite Z.eqb_refl in Hrd.
  destruct (agrees_release _ _ _ _ _ _ _ _ _ _ _ _ r' Ha Hcd Hp) as [Hlive Hdead]; [by destruct r..|by intros e' He'; destruct r|].
  unfold constant. cbn [ca_conns]. replace (cr_ref_count r - 1) with (refs (base.delete c held) p) by lia.
  destruct (Z.eqb_spec (refs (base.delete c held) p) 0) as [Hz|Hz].
  2:{ apply wp_bind, wp_ret. eapply wp_cache_check_size; [apply Hlive; by left|]. intros s' Hs' _. by apply HQ. }
  assert (Hm1 : <[p := r']> m !! p = Some r') by apply lookup_insert_eq.
  apply wp_bind, wp_bind. unfold IS_LINKED. apply wp_bind. eapply wp_load_rec; [exact Hm1|]. apply wp_bind, wp_get, wp_ret. cbn [ca_head].
  assert (Hlk : linked (<[p := r']> m) h tl l.*1) by by eapply linked_update.
  rewrite (linked_is _ _ _ _ _ _ Hlk Hm1). assert (He' : rec_holds r' e) by by destruct r.
  pose proof He as (_ & _ & _ & _ & _ & Hex & _). rewrite Hex.
  destruct (decide (p ∈ l.*1)) as [Hin|Hin].
  - rewrite (bool_decide_eq_true_2 _ Hin). cbn [negb]. rewrite orb_false_r.
    pose proof Hin as [e0 He0]%fst_in. assert (e0 = e) as -> by by apply Hu. apply list_elem_of_split in He0 as (l1 & l2 & ->).
    specialize (Hlive (or_intror Hin)). destruct (agrees_entry _ _ _ _ _ _ _ _ _ _ _ _ Hlive) as (_ & _ & _ & _ & Hpn & _).
    rewrite (filter_release_at t l1 p e l2 Hpn) in HQ. destruct (en_expires e <? t).
    2:{ apply wp_ret. eapply wp_cache_check_size; [exact Hlive|]. intros s' Hs' _. by apply HQ. }
    apply wp_bind. eapply wp_fpath; [exact He'|]. apply wp_bind. cbn in Ht, Hk.
    eapply wp_get_present; [exact Ht|exact Hk|]. intros x Hx Hat. cbn [ca_table] in Hx, Hat. apply wp_bind, wp_table_end. cbn [ca_table].
    rewrite (proj2 (Z.eqb_neq _ _) Hx). apply wp_bind, wp_bind. eapply wp_value; [exact Hat|]. apply wp_ret. rewrite Z.eqb_refl.
    apply wp_bind, wp_bind. eapply wp_del; [exact Hat|]. intros tab' Ht'. rewrite fsts in Hlk. eapply wp_cache_unlink; [exact Hlk|].
    intros m' h' t' Hl' Hs. destruct (m' !! p) as [r2|] eqn:Hpr'; [|specialize (Hs p); rewrite Hm1, Hpr' in Hs; done].
    eapply wp_nx_free; [exact Hpr'|]. rewrite <- fmap_app in Hl'.
    pose proof (agrees_remove _ _ _ _ _ _ _ _ _ _ _ _ _ _ _ _ Hlive Hs Hl' Ht') as Ha'. rewrite Hz in Ha'. cbn in Ha'.
    eapply wp_cache_check_size; [exact Ha'|]. intros s' Hs' _. by apply HQ.
  - rewrite (bool_decide_eq_false_2 _ Hin). cbn [negb]. rewrite orb_true_r. rewrite (filter_release t p l Hin) in HQ.
    apply wp_bind. eapply wp_fpath; [exact He'|]. apply wp_bind. cbn in Ht, Hk.
    assert (Hgo : wp (nx_free p) (fun _ => wp cache_check_size Q) (mk_cache (<[p := r']> m) tab h tl (base.delete c conns))).
    { eapply wp_nx_free; [exact Hm1|]. eapply wp_cache_check_size; [by apply Hdead|]. intros s' Hs' _. by apply HQ. }
    destruct (decide (en_key e ∈ en_keys l)) as [Hke|Hke].
    + unfold en_keys in Hke. apply list_elem_of_fmap in Hke as ([q e2] & Hkey & Hin2). cbn in Hkey. rewrite Hkey.
      apply list_elem_of_split in Hin2 as (l1 & l2 & ->). eapply wp_get_present; [exact Ht|exact Hk|]. intros x Hx Hat.
      cbn [ca_table] in Hx, Hat. apply wp_bind, wp_table_end. cbn [ca_table]. rewrite (proj2 (Z.eqb_neq _ _) Hx). apply wp_bind, wp_bind.
      eapply wp_value; [exact Hat|]. apply wp_ret. destruct (Z.eqb_spec p q) as [->|_]; [exfalso; apply Hin; rewrite fsts; set_solver|].
      apply wp_bind, wp_ret. exact Hgo.
    + eapply wp_get_absent; [exact Ht|exact Hke|]. apply wp_bind, wp_table_end. rewrite Z.eqb_refl. apply wp_bind, wp_ret, wp_bind, wp_ret.
      exact Hgo.
Qed.

(** ** Lookup *)

Lemma same_core_lookup m m' p r : same_core m m' -> m !! p = Some r ->
  exists r', m' !! p = Some r' /\ cr_ref_count r' = cr_ref_count r /\ (forall e, rec_holds r e -> rec_holds r' e).
Proof.
  intros Hs Hp. specialize (Hs p). rewrite Hp in Hs. destruct (m' !! p) as [r'|]; [|done]. injection Hs as E. exists r'. split; [done|].
  destruct r, r'. unfold core, rec_holds in *. cbn in *. simplify_eq. done.
Qed.
Lemma prolong_key t mtime e : en_key (prolong t mtime e) = en_key e /\ en_data (prolong t mtime e) = en_data e /\
  en_mtime (prolong t mtime e) = en_mtime e /\ forall resp p, serve_entry resp p (prolong t mtime e) = serve_entry resp p e.
Proof. unfold prolong. destruct (en_mtime e =? mtime), e; done. Qed.
Lemma serve_holds resp p r e : rec_holds r e -> serve resp p r = serve_entry resp p e.
Proof. intros (_ & _ & H3 & H4 & H5 & _ & H7 & H8). unfold serve, serve_entry. by rewrite H3, H4, H5, H7, H8. Qed.

Lemma wp_prolong cs n m tab h tl conns l1 p e l2 held t mtime r (Q : unit -> cache -> Prop) :
  agrees_with cs n (mk_cache m tab h tl conns) (mk_lru (l1 ++ (p, e) :: l2) held) -> m !! p = Some r -> rec_holds r e -> is_time t ->
  (forall m' r', m' !! p = Some r' -> rec_holds r' (prolong t mtime e) -> cr_ref_count r' = cr_ref_count r ->
     agrees_with cs n (mk_cache m' tab h tl conns) (mk_lru (l1 ++ (p, prolong t mtime e) :: l2) held) -> Q tt (mk_cache m' tab h tl conns)) ->
  wp (if cr_last_modified r =? mtime then update p (fun r => r{{cr_expires_time := wrapu 64 (t + NXWEB_DEFAULT_CACHED_TIME)}}) else ret tt)
    Q (mk_cache m tab h tl conns).
Proof.
  intros Ha Hp He Hti HQ. pose proof He as (H1 & H2 & H3 & H4 & H5 & H6 & H7 & H8). rewrite H7. unfold prolong in *.
  destruct (en_mtime e =? mtime); [|by apply wp_ret, (HQ m r)]. eapply wp_update; [exact Hp|]. set (r' := r{{cr_expires_time := _}}).
  assert (Hw : wrapu 64 (t + NXWEB_DEFAULT_CACHED_TIME) = t + NXWEB_DEFAULT_CACHED_TIME).
  { apply wrapu_small. unfold is_time, NXWEB_DEFAULT_CACHED_TIME in *. lia. }
  assert (He' : rec_holds r' (e{{en_expires := t + NXWEB_DEFAULT_CACHED_TIME}})) by (subst r'; rewrite Hw; destruct r, e; done).
  apply (HQ _ r'); [apply lookup_insert_eq|done|by destruct r|]. eapply agrees_change; [exact Ha|exact Hp|by destruct r..|done|by destruct e|by destruct e].
Qed.

Lemma wp_to_front cs n m tab h tl conns l1 p e l2 held (Q : unit -> cache -> Prop) :
  agrees_with cs n (mk_cache m tab h tl conns) (mk_lru (l1 ++ (p, e) :: l2) held) ->
  (forall m' h' t', same_core m m' -> agrees_with cs n (mk_cache m' tab h' t' conns) (mk_lru ((p, e) :: l1 ++ l2) held) -> Q tt (mk_cache m' tab h' t' conns)) ->
  wp (if negb (bool_decide (h = Some p)) then do! cache_rec_unlink p in cache_rec_link p else ret tt) Q (mk_cache m tab h tl conns).
Proof.
  intros Ha HQ. destruct (agrees_entry _ _ _ _ _ _ _ _ _ _ _ _ Ha) as (r & Hp & He & Hcnt & Hpn & _). pose proof Ha as (Hl & _). cbn in Hl.
  destruct (decide (h = Some p)) as [Hh|Hh].
  - rewrite bool_decide_eq_true_2 by done. cbn [negb]. apply wp_ret. apply (HQ m h tl); [done|].
    destruct l1 as [|[q e1] l1]; [exact Ha|]. exfalso. destruct Hl as [(_ & _ & Hhd & _) _]. rewrite Hh in Hhd. cbn in Hhd, Hpn. injection Hhd as ->. set_solver.
  - rewrite bool_decide_eq_false_2 by done. cbn [negb]. apply wp_bind. rewrite fsts in Hl. eapply wp_cache_unlink; [exact Hl|].
    intros m1 h1 t1 Hl1 Hs1. rewrite <- fmap_app in Hl1. destruct (same_core_lookup _ _ _ _ Hs1 Hp) as (r1 & Hp1 & _).
    eapply wp_cache_link; [exact Hl1|exact Hpn|by exists r1|]. intros m2 h2 t2 Hl2 Hs2.
    assert (Hs : same_core m m2) by (intros q; by rewrite Hs2, Hs1). apply HQ; [done|]. by eapply agrees_front.
Qed.

(** [rec->ref_count++] and the connection's [req_data]. *)
Lemma wp_hold n m tab h tl conns l1 p e l2 held c (Q : unit -> cache -> Prop) :
  agrees n (mk_cache m tab h tl conns) (mk_lru (l1 ++ (p, e) :: l2) held) -> n <= 2 ^ 30 -> held !! c = None ->
  (forall m', agrees (n + 1) (mk_cache m' tab h tl (<[c := p]> conns)) (mk_lru (l1 ++ (p, e) :: l2) (<[c := (p, en_data e)]> held)) ->
     Q tt (mk_cache m' tab h tl conns)) ->
  wp (update p (fun r => r{{cr_ref_count := wrapu 32 (cr_ref_count r + 1)}})) Q (mk_cache m tab h tl conns).
Proof.
  intros Ha Hn Hc HQ. destruct (agrees_entry _ _ _ _ _ _ _ _ _ _ _ _ Ha) as (r & Hp & He & Hcnt & Hpn & _ & Hb).
  eapply wp_update; [exact Hp|]. apply HQ. eapply agrees_hold; [exact Ha|exact Hp|done|by destruct r..| |by destruct r].
  rewrite (wrapu_small 32 (cr_ref_count r + 1)) by lia. by destruct r.
Qed.

Lemma wp_cache_try n s a t c resp key ims mtime (Q : nxweb_result * cresponse -> cache -> Prop) :
  agrees n s a -> n <= 2 ^ 30 -> is_time t -> ca_conns s !! c = None ->
  (forall r s' a', try_step t c resp key ims mtime a r a' -> agrees (n + 1) s' a' -> Q r s') ->
  wp (nxweb_cache_try t c resp key ims mtime) Q s.
Proof.
  intros Ha Hn Hti Hfree HQ. destruct s as [m tab h tl conns], a as [l held]. pose proof (agrees_weaken _ _ (n + 1) _ _ Ha ltac:(lia)) as Ha1.
  unfold nxweb_cache_try. destruct (not_cached key) eqn:Hnc; [apply wp_ret, (HQ _ _ (mk_lru l held)); [by constructor|done]|].
  pose proof Ha as (_ & Hk & Ht & _ & Hc & _). cbn in Ht, Hk, Hc. cbn in Hfree.
  assert (Hheld : held !! c = None) by (rewrite Hc, lookup_fmap in Hfree; by destruct (held !! c)).
  apply wp_bind. destruct (decide (key ∈ en_keys l)) as [Hin|Hin].
  2:{ eapply wp_get_absent; [exact Ht|exact Hin|]. apply wp_bind, wp_table_end. rewrite Z.eqb_refl.
      apply wp_ret, (HQ _ _ (mk_lru l held)); [by constructor|done]. }
  unfold en_keys in Hin. apply list_elem_of_fmap in Hin as ([p e] & Hkey & Hin). cbn in Hkey.
  apply list_elem_of_split in Hin as (l1 & l2 & ->). rewrite Hkey. eapply wp_get_present; [exact Ht|exact Hk|]. intros x Hx Hat.
  cbn [ca_table] in Hx, Hat. apply wp_bind, wp_table_end. cbn [ca_table]. rewrite (proj2 (Z.eqb_neq _ _) Hx).
  apply wp_bind. eapply wp_value; [exact Hat|]. destruct (agrees_entry _ _ _ _ _ _ _ _ _ _ _ _ Ha) as (r & Hp & He & Hcnt & Hpn & _ & Hb).
  apply wp_bind. eapply wp_load_rec; [exact Hp|]. apply wp_bind. eapply wp_prolong; [exact Ha|exact Hp|exact He|exact Hti|].
  intros m1 r1 Hp1 He1 Hcnt1 Ha2. apply wp_bind. eapply wp_load_rec; [exact Hp1|].
  destruct (prolong_key t mtime e) as (E1 & E2 & E3 & E4). pose proof He1 as (_ & _ & _ & _ & _ & Hex & Hlm & _). rewrite Hex, Hlm, E3.
  destruct (Z.leb_spec t (en_expires (prolong t mtime e))) as [Hle|Hgt].
  - apply wp_bind, wp_get, wp_bind. cbn [ca_head]. eapply wp_to_front; [exact Ha2|]. intros m2 h2 t2 Hs2 Ha3.
    destruct (negb (ims =? 0) && (en_mtime e <=? ims)) eqn:Hims.
    + apply wp_ret. eapply HQ; [|eapply agrees_weaken; [exact Ha3|lia]]. bool_to_prop. by apply try_not_modified.
    + apply wp_bind. apply (wp_hold n m2 tab h2 t2 conns [] p _ (l1 ++ l2) held c _ Ha3 Hn Hheld). intros m3 Ha4.
      apply wp_bind, wp_modify, wp_ret. rewrite (serve_holds resp p r1 _ He1), E4. eapply HQ; [|exact Ha4]. rewrite E2. apply try_serve; [done|done|].
      apply andb_false_iff in Hims as [Hims|Hims]; bool_to_prop; [by left|right; lia].
  - assert (prolong t mtime e = e /\ en_mtime e <> mtime) as [Ee Hm].
    { unfold prolong in *. destruct (Z.eqb_spec (en_mtime e) mtime) as [E|]; [|done]. cbn in Hgt. unfold constant, NXWEB_DEFAULT_CACHED_TIME in Hgt. lia. }
    rewrite Ee in *. destruct (Z.eqb_spec mtime 0) as [->|Hm0].
    { apply wp_ret. eapply HQ; [|eapply agrees_weaken; [exact Ha2|lia]]. by apply try_revalidate. }
    apply wp_bind. eapply wp_del; [exact Hat|]. intros tab' Ht'. pose proof Ha2 as (Hl2 & _). cbn in Hl2. rewrite fsts in Hl2.
    apply wp_bind. eapply wp_cache_unlink; [exact Hl2|]. intros m2 h2 t2 Hl3 Hs2. rewrite <- fmap_app in Hl3.
    pose proof (agrees_remove _ _ _ _ _ _ _ _ _ _ _ _ _ _ _ _ Ha2 Hs2 Hl3 Ht') as Ha3. rewrite Hcnt1, Hcnt.
    destruct (same_core_lookup _ _ _ _ Hs2 Hp1) as (r2 & Hp2 & _).
    assert (Hend : forall s', agrees n s' (mk_lru (l1 ++ l2) held) -> Q (NXWEB_MISS, resp) s').
    { intros s' Hs'. eapply HQ; [|eapply agrees_weaken; [exact Hs'|lia]]. by apply try_expired. }
    apply wp_bind. destruct (Z.eqb_spec (refs held p) 0).
    + eapply wp_nx_free; [exact Hp2|]. by apply wp_ret, Hend.
    + by apply wp_ret, wp_ret, Hend.
Qed.

(** ** Storing *)

Lemma agrees_table cs n n' m tab tab' h t conns l held : agrees_with cs n (mk_cache m tab h t conns) (mk_lru l held) -> n <= n' ->
  table_rep hash_sdbm n' tab' (key_map l) -> agrees_with cs n' (mk_cache m tab' h t conns) (mk_lru l held).
Proof. intros (Hl & Hk & Ht & Hr & Hc & Hsz) Hn Ht'. split_and!; try done. cbn in *. lia. Qed.

(** A new record in front, held by the connection that stores it. *)
Lemma agrees_new cs n n' m tab h t conns l held p r e c m' tab' h' t' :
  agrees_with cs n (mk_cache m tab h t conns) (mk_lru l held) -> m !! p = None -> rec_holds r e -> cr_ref_count r = 1 ->
  en_key e ∉ en_keys l -> held !! c = None -> linked m' h' t' (p :: l.*1) -> same_core (<[p := r]> m) m' ->
  table_rep hash_sdbm n' tab' (<[en_key e := p]> (key_map l)) -> n + 1 <= n' ->
  agrees_with cs n' (mk_cache m' tab' h' t' conns) (mk_lru ((p, e) :: l) (<[c := (p, en_data e)]> held)).
Proof.
  intros (Hl & Hk & Ht & Hr & Hc & Hsz) Hp He Hcnt Hke Hfree Hl' Hs Ht' Hn. cbn in Hl, Hk, Ht, Hr, Hc, Hsz.
  assert (Hk' : NoDup (en_keys ((p, e) :: l))) by (unfold en_keys in *; cbn; by constructor).
  assert (Hrefs : forall q, refs (<[c := (p, en_data e)]> held) q = refs held q + (if p =? q then 1 else 0)) by (intros q; by apply refs_insert).
  assert (Hnone : (forall e', (p, e') ∉ l) /\ refs held p = 0) by (specialize (Hr p); by rewrite Hp in Hr). destruct Hnone as [Hno Hz].
  split_and!; cbn; try done.
  - intros q. eapply rec_rel_core; [apply Hs|]. destruct (decide (p = q)) as [<-|Hne].
    + rewrite lookup_insert_eq. exists e. rewrite Hrefs, Hz, Z.eqb_refl. split_and!; try done; [left; by left| |].
      * intros e' [[= ->]|He']%elem_of_cons; [done|]. by apply Hno in He'.
      * intros c' d. destruct (decide (c = c')) as [<-|Hcc]; [rewrite lookup_insert_eq; by intros [= <-]|].
        rewrite lookup_insert_ne by done. intros Hcd. exfalso. by eapply (proj1 (refs_zero held p) Hz).
    + rewrite lookup_insert_ne by done. apply (rec_rel_ext l _ held); [| |rewrite Hrefs; destruct (Z.eqb_spec p q); [done|lia]|apply Hr].
      * intros e'. rewrite elem_of_cons. split; [by intros [[= ->]|?]|by right].
      * intros c' d. destruct (decide (c = c')) as [<-|Hcc]; [rewrite lookup_insert_eq; split; congruence|by rewrite lookup_insert_ne].
  - rewrite map_size_insert_None by done. lia.
Qed.

Lemma agrees_conns cs n s a : agrees_with cs n s a -> agrees n (s{{ca_conns := fst <$> lru_held a}}) a.
Proof. destruct s. by intros (Hl & Hk & Ht & Hr & Hc & Hsz). Qed.

Lemma wp_store_end n s a t c resp key p file (Q : nxweb_result * cresponse -> cache -> Prop) :
  agrees n s a -> 0 <= n < 2 ^ 28 -> enabled s (AStoreEnd t c resp key p file) ->
  (forall r s' a', store_step malloc REVISION t c resp key p file a r a' -> agrees (n + 2) s' a' -> Q r s') ->
  wp (store_end malloc REVISION t c resp key p file) Q s.
Proof.
  intros Ha Hn (Hti & Hfree & Hp & Hkey & Hfile) HQ. destruct s as [m tab h tl conns], a as [l held]. cbn in Hfree, Hp.
  pose proof Ha as (Hl & Hk & Ht & _ & Hc & _). cbn in Ht, Hk, Hc, Hl.
  assert (Hheld : held !! c = None) by (rewrite Hc, lookup_fmap in Hfree; by destruct (held !! c)).
  unfold store_end. apply wp_bind, wp_modify. set (r0 := new_record t resp _). cbn [ca_recs ca_table ca_head ca_tail ca_conns]. unfold constant.
  assert (Hp0 : <[p := r0]> m !! p = Some r0) by apply lookup_insert_eq. destruct file as [content|].
  2:{ apply wp_bind. eapply wp_nx_free; [exact Hp0|]. rewrite delete_insert_id by done. apply wp_ret.
      eapply HQ; [apply store_no_file|]. eapply agrees_weaken; [exact Ha|lia]. }
  apply wp_bind. eapply wp_update; [exact Hp0|]. rewrite insert_insert_eq. match goal with |- context [<[p := ?x]> m] => set (r1 := x) end.
  set (e := new_entry t resp key content).
  assert (He : rec_holds r1 e).
  { unfold rec_holds, r1, r0, e, new_record, new_entry. cbn. rewrite Hfile. split_and!; try done.
    apply wrapu_small. unfold is_time, NXWEB_DEFAULT_CACHED_TIME in *. lia. }
  apply wp_bind, wp_on_table.
  assert (Hp1 : <[p := r1]> m !! p = Some r1) by apply lookup_insert_eq.
  eapply (wp_table_set hash_sdbm bytes_eqb malloc 8 8 hash_sdbm_nonneg bytes_eqb_spec n); [exact Ht|lia|].
  intros [ci rs] tab' [[Hx Hres]|(Hx & [b Hb] & Ht')]; cbn [fst snd] in *.
  2:{ apply wp_bind, wp_table_end. cbn [ca_table]. rewrite Hx, Z.eqb_refl. apply wp_bind. eapply wp_nx_free; [exact Hp1|].
      rewrite delete_insert_id by done. apply wp_ret. eapply HQ; [by eapply store_no_memory|]. eapply agrees_table; [exact Ha|lia|].
      eapply table_rep_weaken; [exact Ht'|lia]. }
  apply wp_bind, wp_table_end. cbn [ca_table]. rewrite (proj2 (Z.eqb_neq _ _) Hx). destruct Hres as [(Hrs & v & Hv & Hat)|(Hrs & Hno & Hin)].
  - rewrite Hrs. apply wp_bind. eapply wp_nx_free; [exact Hp1|]. rewrite delete_insert_id by done.
    apply key_map_some in Hv as (l1 & e2 & l2 & -> & Hke). apply wp_bind. eapply wp_value; [exact Hat|].
    assert (Ha' : agrees (n + 1) (mk_cache m tab' h tl conns) (mk_lru (l1 ++ (v, e2) :: l2) held)).
    { eapply agrees_table; [exact Ha|lia|]. by eapply at_bucket_rep. }
    destruct (agrees_entry _ _ _ _ _ _ _ _ _ _ _ _ Ha') as (r2 & Hp2 & He2 & _). apply wp_bind. eapply wp_load_rec; [exact Hp2|].
    apply wp_bind. apply (wp_hold (n + 1) m tab' h tl conns l1 v e2 l2 held c _ Ha'); [lia|done|]. intros m3 Ha3.
    apply wp_bind, wp_get, wp_bind, wp_assert; [by apply bool_decide_eq_true_2|]. apply wp_bind, wp_modify, wp_ret.
    rewrite (serve_holds _ v r2 e2 He2). eapply HQ; [|].
    + replace (serve_entry (resp{{rs_content := Some (InRec p)}}) v e2) with (serve_entry resp v e2) by by destruct resp. by apply store_present.
    + by replace (n + 2) with (n + 1 + 1) by lia.
  - apply key_map_none in Hno. assert (Hgo : wp (do! on_table (store_val ci (Some p)) in do! cache_rec_link p in
        do! update p (fun r => r{{cr_ref_count := wrapu 32 (cr_ref_count r + 1)}}) in do! cache_check_size in
        let! s := get in do! assert_ (bool_decide (ca_conns s !! c = None)) in do! set_req_data c p in
        ret (NXWEB_OK, resp{{rs_content := Some (InRec p)}})) Q (mk_cache (<[p := r1]> m) tab' h tl conns)).
    2:{ destruct rs as [[]|]; [done|exact Hgo..]. }
    apply wp_bind, wp_on_table. eapply (wp_table_store hash_sdbm (fun _ => true) 8); [exact Hin|]. intros tab2 Hat2.
    destruct (linked_new m h tl l.*1 p r1 Hl Hp eq_refl eq_refl) as [Hl1 Hpl].
    apply wp_bind. eapply wp_cache_link; [exact Hl1|exact Hpl|by exists r1|]. intros m2 h2 t2 Hl2 Hs2.
    destruct (same_core_lookup _ _ _ _ Hs2 Hp1) as (r2 & Hp2 & Hcnt2 & He2). apply wp_bind. eapply wp_update; [exact Hp2|].
    match goal with |- context [<[p := ?x]> m2] => set (r3 := x) end. apply wp_bind.
    assert (Hl3 : linked (<[p := r3]> m2) h2 t2 (p :: l.*1)) by (eapply linked_update; [exact Hl2|exact Hp2|by destruct r2..]).
    set (held' := <[c := (p, content)]> held).
    assert (Ha3 : agrees_with conns (n + 2) (mk_cache (<[p := r3]> m2) tab2 h2 t2 conns) (mk_lru ((p, e) :: l) held')).
    { eapply (agrees_new conns n (n + 2) m tab h tl conns l held p r3 e c); try done.
      - rewrite Hc at 1. exact Ha.
      - specialize (He2 e He). by destruct r2.
      - assert (E0 : cr_ref_count r2 = 0) by (rewrite Hcnt2; done). subst r3. destruct r2. cbn in E0. by rewrite E0.
      - intros q. destruct (decide (p = q)) as [<-|Hne]; [by rewrite !lookup_insert_eq|]. rewrite !lookup_insert_ne by done.
        specialize (Hs2 q). by rewrite lookup_insert_ne in Hs2 by done.
      - eapply table_rep_weaken; [by eapply at_bucket_rep|lia].
      - lia. }
    eapply wp_cache_check_size; [exact Ha3|]. intros s' Hs' Hcs. apply wp_bind, wp_get, wp_bind, wp_assert; [rewrite Hcs; by apply bool_decide_eq_true_2|].
    apply wp_bind, wp_modify, wp_ret. eapply HQ; [by apply store_new|]. apply agrees_conns in Hs'.
    assert (E : fst <$> held' = <[c := p]> (ca_conns s')) by (unfold held'; rewrite Hcs, fmap_insert; cbn; by rewrite Hc).
    cbn [lru_held] in Hs'. rewrite E in Hs' at 2. destruct s'. exact Hs'.
Qed.

(** ** Runs *)

Lemma wp_run_action n s a act (Q : outcome -> cache -> Prop) : agrees n s a -> 0 <= n < 2 ^ 28 -> enabled s act ->
  (forall out s' a', lru_step malloc REVISION a act out a' -> agrees (n + 2) s' a' -> Q out s') ->
  wp (run_action malloc REVISION act) Q s.
Proof.
  intros Ha Hn He HQ. destruct act as [t c resp key ims mtime|t c resp st_size key|t c resp key p file|t c]; cbn [run_action].
  - destruct He as [Hti Hc]. apply wp_bind. eapply wp_cache_try; [exact Ha|lia|done|done|]. intros [res resp'] s' a' Hs Ha'. apply wp_ret.
    eapply HQ; [by constructor|]. eapply agrees_weaken; [exact Ha'|lia].
  - destruct He as [Hti Hc]. apply wp_bind. unfold store_begin. fold (with_status resp). apply wp_bind, wp_get. rewrite (agrees_size _ _ _ _ Ha).
    assert (Hlm : rs_last_modified (with_status resp) = rs_last_modified resp) by (unfold with_status; destruct (_ =? _); by destruct resp). rewrite Hlm.
    destruct (storable (with_status resp) st_size (zlen (lru_entries a))) eqn:Hst; cbn [negb].
    + apply wp_bind. eapply wp_cache_try; [exact Ha|lia|done|done|]. intros [res resp'] s' a' Hs Ha'. apply wp_ret, wp_ret.
      eapply HQ; [by eapply lru_store_begin|]. eapply agrees_weaken; [exact Ha'|lia].
    + apply wp_ret, wp_ret. eapply HQ; [by apply lru_not_storable|]. eapply agrees_weaken; [exact Ha|lia].
  - apply wp_bind. eapply wp_store_end; [exact Ha|lia|exact He|]. intros [res resp'] s' a' Hs Ha'. apply wp_ret.
    eapply HQ; [by constructor|exact Ha'].
  - apply wp_bind. eapply wp_finalize_request; [exact Ha|lia|]. intros s' Ha'. apply wp_ret.
    eapply HQ; [by constructor|]. eapply agrees_weaken; [exact Ha'|lia].
Qed.

Lemma step_simulates n s a act out s' : agrees n s a -> 0 <= n < 2 ^ 28 -> enabled s act ->
  run_action malloc REVISION act s = Ok (out, s') -> exists a', lru_step malloc REVISION a act out a' /\ agrees (n + 2) s' a'.
Proof.
  intros Ha Hn He Hok.
  assert (Hw : wp (run_action malloc REVISION act) (fun out s' => exists a', lru_step malloc REVISION a act out a' /\ agrees (n + 2) s' a') s).
  { eapply wp_run_action; [exact Ha|exact Hn|exact He|]. eauto. }
  unfold wp in Hw. by rewrite Hok in Hw.
Qed.

(** What happened to the cache since the server started, and to the
    specification. *)
Inductive cache_run : list (action * outcome) -> cache -> Prop :=
| cache_run_init : cache_run [] cache_init
| cache_run_step tr s act out s' : cache_run tr s -> enabled s act -> run_action malloc REVISION act s = Ok (out, s') ->
    cache_run (tr ++ [(act, out)]) s'.
Inductive lru_run : list (action * outcome) -> lru -> Prop :=
| lru_run_init : lru_run [] lru_empty
| lru_run_step tr a act out a' : lru_run tr a -> lru_step malloc REVISION a act out a' -> lru_run (tr ++ [(act, out)]) a'.

Lemma agrees_init : agrees 0 cache_init lru_empty.
Proof.
  split; cbn.
  - split; [|intros p r Hp; by rewrite lookup_empty in Hp]. split_and!; [constructor|done|done|done].
  - split; [constructor|]. split; [apply table_rep_init|]. split; [|split; [by rewrite fmap_empty|by rewrite map_size_empty]].
    intros p. rewrite lookup_empty. split; [set_solver|]. apply refs_zero. intros c d. by rewrite lookup_empty.
Qed.

Lemma cache_simulates tr s : cache_run tr s -> zlen tr <= 2 ^ 26 -> exists a, lru_run tr a /\ agrees (2 * zlen tr) s a.
Proof.
  induction 1 as [|tr s act out s' Hrun IH He Hok]; intros Hlen.
  - exists lru_empty. split; [constructor|exact agrees_init].
  - rewrite zlen_app, zlen_cons, zlen_nil in *. destruct IH as (a & Hr & Ha); [lia|]. pose proof (zlen_nonneg tr).
    destruct (step_simulates (2 * zlen tr) s a act out s' Ha ltac:(lia) He Hok) as (a' & Hs & Ha').
    exists a'. split; [by econstructor|]. by replace (2 * (zlen tr + (1 + 0))) with (2 * zlen tr + 2) by lia.
Qed.

(** The length of the list stays within the limit, unless all are in use. *)
Definition bounded (a : lru) : Prop :=
  zlen (lru_entries a) <= NXWEB_MAX_CACHED_ITEMS \/ Forall (fun pe => used (lru_held a) (fst pe) = true) (lru_entries a).
Lemma used_insert held c p d q : used held q = true -> held !! c = None -> used (<[c := (p, d)]> held) q = true.
Proof.
  unfold used. intros Hu Hc. rewrite refs_insert by done. pose proof (refs_nonneg held q).
  destruct (Z.eqb_spec (refs held q) 0); [done|].
  destruct (p =? q); [|by rewrite Z.add_0_r, (proj2 (Z.eqb_neq _ _) n)]. apply negb_true_iff, Z.eqb_neq. lia.
Qed.
Lemma bounded_ext l l' held held' : length l' = length l -> (forall q, q ∈ l'.*1 -> q ∈ l.*1) -> (forall q, used held q = true -> used held' q = true) ->
  bounded (mk_lru l held) -> bounded (mk_lru l' held').
Proof.
  intros Hlen Hin Hu [Hb|Hb]; [left; unfold zlen in *; cbn in *; lia|right]. cbn in *. rewrite Forall_forall in *. intros [q e] Hq.
  assert (q ∈ l.*1) as [e' He']%fst_in by (apply Hin, fst_in; by exists e). by apply Hu, (Hb (q, e')).
Qed.
Lemma try_bounded t c resp key ims mtime a r a' : try_step t c resp key ims mtime a r a' -> lru_held a !! c = None -> bounded a -> bounded a'.
Proof.
  assert (Hlen : forall (l1 l2 : list (Z * entry)) p e e', length ((p, e') :: l1 ++ l2) = length (l1 ++ (p, e) :: l2)) by (intros; cbn; rewrite !length_app; cbn; lia).
  destruct 1; intros Hc; cbn in Hc; try done.
  - apply bounded_ext; [apply Hlen| |done]. intros q. cbn. rewrite fsts, fmap_app. set_solver.
  - apply bounded_ext; [apply Hlen| |intros q Hq; by apply used_insert]. intros q. cbn. rewrite fsts, fmap_app. set_solver.
  - unfold bounded. cbn. intros [Hb|Hb]; [left; rewrite zlen_app, zlen_cons in Hb; rewrite zlen_app; lia|right].
    rewrite Forall_app, Forall_cons in Hb. destruct Hb as (H3 & _ & H4). by apply Forall_app.
Qed.
Lemma lru_step_bounded a act out a' : lru_step malloc REVISION a act out a' ->
  match act with AFinish _ _ => True | ATry _ c _ _ _ _ | AStoreBegin _ c _ _ _ | AStoreEnd _ c _ _ _ _ => lru_held a !! c = None end ->
  bounded a -> bounded a'.
Proof.
  destruct 1 as [a t c resp key ims mtime res resp' a' Hs|a|a t c resp sz key res resp' a' Hst Hs|a t c resp key p file res resp' a' Hs|a t c]; intros Hc Hb; [|done|..].
  - by eapply try_bounded.
  - by eapply try_bounded.
  - inversion Hs; subst; cbn in Hc; try done; [|apply evict_bound].
    revert Hb. apply bounded_ext; [done|done|]. intros x Hx. by apply used_insert.
  - unfold lru_release. destruct (lru_held a !! c) as [[p d]|]; [apply evict_bound|done].
Qed.

(** C14: whatever the order in which threads look up, store and release, from
    the start of the server on, every operation on the cache finishes without
    touching a freed record, freeing one twice or failing an assertion, and
    answers as the list of entries does: a key finds the content that was last
    stored for it and has not expired, the entry just used comes first, and
    eviction drops unused entries from the end. *)
Theorem cache_refines_lru tr s : cache_run tr s -> zlen tr < 2 ^ 26 ->
  (exists a, lru_run tr a /\ agrees (2 * zlen tr) s a) /\
  forall act, enabled s act -> exists out s', run_action malloc REVISION act s = Ok (out, s').
Proof.
  intros Hrun Hlen. destruct (cache_simulates tr s Hrun ltac:(lia)) as (a & Hr & Ha). split; [by exists a|].
  intros act He. pose proof (zlen_nonneg tr).
  assert (Hw : wp (run_action malloc REVISION act) (fun _ _ => True) s) by (eapply (wp_run_action (2 * zlen tr)); [exact Ha|lia|exact He|done]).
  apply wp_elim in Hw as (out & s' & E & _). eauto.
Qed.

(** C15: in every state the cache reaches, a record lives exactly where the
    list or a connection refers to it, and its reference count is the number of
    connections that are sending it; so a connection's record is there until it
    is finished, and no record is lost.  The table has as many keys as the list
    has records, and more than 500 of them only while all are being sent. *)
Theorem cache_references_exact tr s : cache_run tr s -> zlen tr < 2 ^ 26 ->
  exists q, dll (ca_recs s) (ca_head s) (ca_tail s) q /\ ah_size (ca_table s) = zlen q /\
    (forall p, is_Some (ca_recs s !! p) <-> p ∈ q \/ exists c, ca_conns s !! c = Some p) /\
    (forall p r, ca_recs s !! p = Some r -> cr_ref_count r = Z.of_nat (size (filter (fun kv => snd kv = p) (ca_conns s)))) /\
    (zlen q <= NXWEB_MAX_CACHED_ITEMS \/ forall p r, p ∈ q -> ca_recs s !! p = Some r -> 0 < cr_ref_count r).
Proof.
  intros Hrun Hlen.
  assert (exists a, agrees (2 * zlen tr) s a /\ bounded a) as (a & Ha & Hb).
  { assert (Hle : zlen tr <= 2 ^ 26) by lia. clear Hlen. revert Hle. induction Hrun as [|tr s act out s' Hrun IH He Hok]; intros Hle.
    - exists lru_empty. split; [exact agrees_init|by left].
    - rewrite zlen_app, zlen_cons, zlen_nil in *. destruct IH as (a & Ha & Hb); [lia|]. pose proof (zlen_nonneg tr).
      destruct (step_simulates (2 * zlen tr) s a act out s' Ha ltac:(lia) He Hok) as (a' & Hs & Ha').
      exists a'. replace (2 * (zlen tr + (1 + 0))) with (2 * zlen tr + 2) by lia. split; [done|]. eapply lru_step_bounded; [exact Hs| |done].
      destruct Ha as (_ & _ & _ & _ & Hc & _).
      destruct act; try done; cbn in He; (assert (Hfree : ca_conns s !! conn = None) by tauto); rewrite Hc, lookup_fmap in Hfree; by destruct (lru_held a !! conn). }
  pose proof (agrees_size _ _ _ _ Ha) as Hsize. destruct Ha as ([Hd _] & Hk & Ht & Hr & Hc & Hsz).
  assert (Hrefs : forall p, refs (lru_held a) p = Z.of_nat (size (filter (fun kv => snd kv = p) (ca_conns s)))).
  { intros p. rewrite Hc. unfold refs. rewrite map_filter_fmap, map_size_fmap. done. }
  exists (lru_entries a).*1. split; [done|]. split; [rewrite Hsize; unfold zlen; by rewrite length_fmap|]. split; [|split].
  - intros p. specialize (Hr p). assert (Hz : refs (lru_held a) p = 0 <-> ~ exists c, ca_conns s !! c = Some p).
    { rewrite refs_zero, Hc. split.
      - intros Hn [c Hcp]. rewrite lookup_fmap in Hcp. destruct (lru_held a !! c) as [[q d]|] eqn:E; [|done]. injection Hcp as ->. by eapply Hn.
      - intros Hn c d E. apply Hn. exists c. by rewrite lookup_fmap, E. }
    destruct (ca_recs s !! p) as [r|]; cbn in Hr.
    + destruct Hr as (e & _ & _ & Hlive & _). split; [intros _|by eexists]. destruct Hlive as [Hin|Hn]; [left; apply fst_in; eauto|right].
      destruct (decide (map_Exists (fun _ q => q = p) (ca_conns s))) as [(c & q & Hcq & ->)|Hno]; [by exists c|]. exfalso. apply Hn, Hz.
      intros [c Hcp]. apply Hno. by exists c, p.
    + destruct Hr as [Hno Hz0]. split; [by intros []|]. intros [[e He]%fst_in|Hx]; [by apply Hno in He|]. by apply Hz in Hz0.
  - intros p r Hp. specialize (Hr p). rewrite Hp in Hr. destruct Hr as (e & _ & Hcnt & _). by rewrite Hcnt.
  - destruct Hb as [Hb|Hb]; [left; unfold zlen in *; by rewrite length_fmap|right]. intros p r [e Hin]%fst_in Hp.
    rewrite Forall_forall in Hb. specialize (Hb _ Hin). specialize (Hr p). rewrite Hp in Hr. destruct Hr as (e' & _ & Hcnt & _).
    rewrite Hcnt. unfold used in Hb. cbn in Hb. pose proof (refs_nonneg (lru_held a) p). destruct (Z.eqb_spec (refs (lru_held a) p) 0); [done|lia].
Qed.
End ops.

(** ** A run, computed *)

#[export] Instance enabled_dec s act : Decision (enabled s act).
Proof. destruct act as [| |? ? ? ? ? file|]; cbn; unfold is_time; try destruct file; apply _. Defined.

Fixpoint run_all malloc REVISION (acts : list action) (s : cache) : option (list (action * outcome) * cache) :=
  match acts with
  | [] => Some ([], s)
  | act :: acts =>
      if decide (enabled s act) then
        match run_action malloc REVISION act s with
        | Ok (out, s') => (fun '(tr, s'') => ((act, out) :: tr, s'')) <$> run_all malloc REVISION acts s'
        | Err _ => None
        end
      else None
  end.
Lemma run_all_run malloc REVISION acts tr0 s tr s' : cache_run malloc REVISION tr0 s -> run_all malloc REVISION acts s = Some (tr, s') ->
  cache_run malloc REVISION (tr0 ++ tr) s' /\ length tr = length acts.
Proof.
  revert tr0 s tr. induction acts as [|act acts IH]; intros tr0 s tr Hrun; cbn [run_all].
  - intros [= <- <-]. by rewrite app_nil_r.
  - destruct (decide (enabled s act)) as [He|]; [|done]. destruct (run_action malloc REVISION act s) as [[out s1]|] eqn:Hok; [|done].
    destruct (run_all malloc REVISION acts s1) as [[tr1 s2]|] eqn:E; [|done]. intros [= <- <-].
    destruct (IH (tr0 ++ [(act, out)]) s1 tr1) as [Hr Hl]; [by econstructor|done|]. rewrite <- app_assoc in Hr. cbn in Hr |- *. by rewrite Hl.
Qed.

(** A page is stored, served to a second connection, found unchanged after it
    expired, and another page is stored. *)
Definition page (size mtime : Z) : cresponse :=
  response_zero{{rs_content_length := size; rs_sendfile_path := Some (Static (bs "/www/a")); rs_sendfile_end := size; rs_last_modified := mtime}}.
Definition example_actions : list action := [
  AStoreBegin 5 1 (page 3 77) 3 (bs "/a"); AStoreEnd 5 1 (page 3 77) (bs "/a") 1000 (Some [1; 2; 3]);
  ATry 6 2 response_zero (bs "/a") 0 0; AFinish 7 1; AFinish 8 2;
  ATry 40000000 1 response_zero (bs "/a") 0 0; ATry 40000000 1 response_zero (bs "/a") 0 77;
  AStoreEnd 40000001 2 (page 2 78) (bs "/b") 2000 (Some [4; 5]); AFinish 40000002 1].
Definition example_run := run_all (fun _ => true) (bs "3.0") example_actions cache_init.

Lemma cache_refines_lru_witness :
  match example_run with
  | Some (tr, s) => (exists a, lru_run (fun _ => true) (bs "3.0") tr a /\ agrees (2 * zlen tr) s a) /\
      forall act, enabled s act -> exists out s', run_action (fun _ => true) (bs "3.0") act s = Ok (out, s')
  | None => False
  end.
Proof.
  destruct example_run as [[tr s]|] eqn:E; [|by vm_compute in E].
  destruct (run_all_run _ _ _ [] _ _ _ (cache_run_init _ _) E) as [Hr Hl]. apply (cache_refines_lru _ _ tr s Hr). unfold zlen. by rewrite Hl.
Defined.
Lemma cache_references_exact_witness :
  match example_run with
  | Some (tr, s) => exists q, dll (ca_recs s) (ca_head s) (ca_tail s) q /\ ah_size (ca_table s) = zlen q /\
    (forall p, is_Some (ca_recs s !! p) <-> p ∈ q \/ exists c, ca_conns s !! c = Some p) /\
    (forall p r, ca_recs s !! p = Some r -> cr_ref_count r = Z.of_nat (size (filter (fun kv => snd kv = p) (ca_conns s)))) /\
    (zlen q <= NXWEB_MAX_CACHED_ITEMS \/ forall p r, p ∈ q -> ca_recs s !! p = Some r -> 0 < cr_ref_count r)
  | None => False
  end.
Proof.
  destruct example_run as [[tr s]|] eqn:E; [|by vm_compute in E].
  destruct (run_all_run _ _ _ [] _ _ _ (cache_run_init _ _) E) as [Hr Hl]. apply (cache_references_exact _ _ tr s Hr). unfold zlen. by rewrite Hl.
Defined.

(** When the table cannot grow, the response is left with the content of the
    record that was freed. *)
Lemma store_failure_dangles :
  match store_end (fun _ => false) (bs "3.0") 5 1 (page 3 77) (bs "/a") 1000 (Some [1; 2; 3]) cache_init with
  | Ok ((res, resp), s) => res = NXWEB_OK /\ rs_content resp = Some (InRec 1000) /\ ca_recs s !! 1000 = None
  | Err _ => False
  end.
Proof. vm_compute. done. Qed.
