(* ===== verification/Timer.v ===== *)
(** The timers of the event loop (lib/nx_event.c, lines 95-154 and the waiting
    time of [nxe_run]): queues of timers with one timeout each, linked in the
    order they were set, so that only the first of a queue has to be looked at.

    A timer is a name; [tm_abs_time] is 0 while it is not set.  The data a timer
    passes to its class is its handler's, and [on_timeout] is a variable.
    Times are microseconds of a monotonic clock. *)
From S2P Require Import Prelude Dll.
Open Scope Z_scope.

Definition NXE_NUMBER_OF_TIMER_QUEUES : Z := 8.

Record nxe_timer := mk_timer { tm_abs_time : Z; tm_prev : option positive; tm_next : option positive }.
Record nxe_timer_queue := mk_tq { tq_timeout : Z; tq_first : option positive; tq_last : option positive }.
(** The part of [nxe_loop] that the timers use. *)
Record timers := mk_timers { t_now : Z; t_all : gmap positive nxe_timer; t_queues : list nxe_timer_queue }.

#[export] Instance timer_links : LinkNode positive nxe_timer := {
  prev_of := tm_prev;
  next_of := tm_next;
  set_prev p t := mk_timer (tm_abs_time t) p (tm_next t);
  set_next x t := mk_timer (tm_abs_time t) (tm_prev t) x;
  prev_set_prev _ _ := eq_refl;
  next_set_next _ _ := eq_refl;
  prev_set_next _ _ := eq_refl;
  next_set_prev _ _ := eq_refl;
}.

Definition set_abs_time (z : Z) (t : nxe_timer) : nxe_timer := mk_timer z (tm_prev t) (tm_next t).

(** ** Access *)

Definition get_timer (t : positive) : M timers nxe_timer := let! l := get in lift_opt BadPtr (t_all l !! t).
Definition set_all (m : gmap positive nxe_timer) : M timers unit := modify (fun l => mk_timers (t_now l) m (t_queues l)).
Definition upd_timer (t : positive) (f : nxe_timer -> nxe_timer) : M timers unit :=
  let! l := get in let! m := lift_opt BadPtr (upd t f (t_all l)) in set_all m.
Definition assert_idx (i : Z) : M timers unit := assert_ ((0 <=? i) && (i <? NXE_NUMBER_OF_TIMER_QUEUES)).
Definition get_tq (i : Z) : M timers nxe_timer_queue := let! l := get in lift_opt BadPtr (t_queues l !! Z.to_nat i).
Definition set_tq (i : Z) (tq : nxe_timer_queue) : M timers unit :=
  modify (fun l => mk_timers (t_now l) (t_all l) (<[Z.to_nat i := tq]> (t_queues l))).
(** Timers and queue [i] after an operation on its list. *)
Definition set_queue_links (i : Z) (r : gmap positive nxe_timer * option positive * option positive) : M timers unit :=
  let '(m, first, last) := r in
  let! tq := get_tq i in
  do! set_all m in
  set_tq i (mk_tq (tq_timeout tq) first last).

(** ** Operations *)

Definition timers_create (now : Z) : timers := mk_timers now ∅ (replicate (Z.to_nat NXE_NUMBER_OF_TIMER_QUEUES) (mk_tq 0 None None)).
(** A timer in a zeroed object. *)
Definition init_timer (t : positive) : M timers unit :=
  modify (fun l => mk_timers (t_now l) (<[t := mk_timer 0 None None]> (t_all l)) (t_queues l)).

Definition nxe_set_timer_queue_timeout (queue_idx usec_interval : Z) : M timers unit :=
  do! assert_idx queue_idx in
  let! tq := get_tq queue_idx in
  set_tq queue_idx (mk_tq usec_interval (tq_first tq) (tq_last tq)).

Definition nxe_set_timer (queue_idx : Z) (t : positive) : M timers unit :=
  do! assert_idx queue_idx in
  let! tm := get_timer t in
  do! assert_ ((tm_abs_time tm =? 0) && bool_decide (tm_next tm = None) && bool_decide (tm_prev tm = None)) in
  let! tq := get_tq queue_idx in
  let! l := get in
  do! upd_timer t (set_abs_time (wrapu 64 (t_now l + tq_timeout tq))) in
  let! l := get in
  let! r := lift_opt BadPtr (dll_push_back (t_all l) (tq_first tq) (tq_last tq) t) in
  set_queue_links queue_idx r.

Definition nxe_unset_timer (queue_idx : Z) (t : positive) : M timers unit :=
  let! tm := get_timer t in
  if tm_abs_time tm =? 0 then ret tt else
  do! assert_idx queue_idx in
  let! tq := get_tq queue_idx in
  let! l := get in
  let! r := lift_opt BadPtr (dll_unlink (t_all l) (tq_first tq) (tq_last tq) t) in
  do! set_queue_links queue_idx r in
  upd_timer t (set_abs_time 0).

(** [t->abs_time-250000 <= loop->current_time], in 64 bits. *)
Definition is_due (now : Z) (tm : nxe_timer) : bool := wrapu 64 (tm_abs_time tm - 250000) <=? now.

(** Takes the first timer out of its queue. *)
Definition pop_first (queue_idx : Z) (t : positive) (tm : nxe_timer) : M timers unit :=
  let! tq := get_tq queue_idx in
  let! l := get in
  let! m := lift_opt BadPtr (upd_opt (tm_next tm) (set_prev None) (t_all l)) in
  do! set_all m in
  do! set_tq queue_idx (mk_tq (tq_timeout tq) (tm_next tm) (match tm_next tm with Some _ => tq_last tq | None => None end)) in
  upd_timer t (fun _ => mk_timer 0 None None).

Section run.
Variable on_timeout : positive -> M timers unit.

(** The timers that were fired, in order. *)
Definition process_queue (queue_idx : Z) : M timers (list positive) :=
  let! l := get in
  loop (S (size (t_all l))) (fun fired =>
    let! tq := get_tq queue_idx in
    match tq_first tq with
    | None => ret (inr fired)
    | Some t =>
        let! tm := get_timer t in
        let! l := get in
        if is_due (t_now l) tm then
          do! pop_first queue_idx t tm in
          do! on_timeout t in
          ret (inl (fired ++ [t]))
        else ret (inr fired)
    end) [].

Fixpoint process_queues (n : nat) (queue_idx : Z) : M timers (list positive) :=
  match n with
  | O => ret []
  | S n =>
      let! fired := process_queue queue_idx in
      let! rest := process_queues n (queue_idx + 1) in
      ret (fired ++ rest)
  end.
Definition nxe_process_timers : M timers (list positive) := process_queues (Z.to_nat NXE_NUMBER_OF_TIMER_QUEUES) 0.
End run.

(** The first timer of a queue with its time. *)
Definition first_time (l : timers) (tq : nxe_timer_queue) : option Z :=
  match tq_first tq with Some t => tm_abs_time <$> t_all l !! t | None => None end.
(** The time of the first timer of the queue that [nxe_closest_tq] chooses. *)
Definition nxe_closest_tq (l : timers) : option Z :=
  fold_left (fun closest tq =>
    match first_time l tq, closest with
    | None, _ => closest
    | Some a, None => Some a
    | Some a, Some c => if a <? c then Some a else Some c
    end) (t_queues l) None.
(** How long [nxe_run] lets [epoll_wait] sleep, in milliseconds. *)
Definition time_to_wait (l : timers) : Z :=
  let w := match nxe_closest_tq l with Some a => wraps 32 (wrapu 64 (a - t_now l) / 1000) | None => 1000 end in
  let w := if 1000 <? w then 1000 else w in
  if w <? 0 then 0 else w.
(** The clock is read again after waiting. *)
Definition tick (now : Z) : M timers unit := modify (fun l => mk_timers now (t_all l) (t_queues l)).
