(* ===== verification/TimerProof.v ===== *)
(** The timers of [Timer] refine queues of timers with their times; every timer
    fires in the first round of the loop in which it is due. *)
From S2P Require Import Prelude Dll Timer.
Open Scope Z_scope.

(** ** The specification *)

(** For each queue the timers that are set with their times, the oldest first. *)
Abbreviation schedule := (list (list (positive * Z))).
Implicit Types (A : schedule) (q : list (positive * Z)).

Definition precision : Z := 250000.
Definition due (now a : Z) : Prop := a - precision <= now.
#[export] Instance due_dec now a : Decision (due now a).
Proof. unfold due. apply _. Defined.
Definition set_timers A : list positive := (concat A).*1.

Inductive timer_event := EvSet (i : nat) (t : positive) | EvUnset (t : positive) | EvFire (t : positive).

(** One change of the schedule at time [now]. *)
Inductive timer_step (now : Z) (timeouts : list Z) : schedule -> timer_event -> schedule -> Prop :=
| step_set A i q d t : A !! i = Some q -> timeouts !! i = Some d -> precision < d -> t ∉ set_timers A ->
    timer_step now timeouts A (EvSet i t) (<[i := q ++ [(t, now + d)]]> A)
| step_unset A i q1 t a q2 : A !! i = Some (q1 ++ (t, a) :: q2) ->
    timer_step now timeouts A (EvUnset t) (<[i := q1 ++ q2]> A)
| step_fire A i t a q : A !! i = Some ((t, a) :: q) -> due now a ->
    timer_step now timeouts A (EvFire t) (<[i := q]> A).
Inductive timer_run (now : Z) (timeouts : list Z) : schedule -> list timer_event -> schedule -> Prop :=
| timer_run_nil A : timer_run now timeouts A [] A
| timer_run_cons A e A1 es A2 : timer_step now timeouts A e A1 -> timer_run now timeouts A1 es A2 -> timer_run now timeouts A (e :: es) A2.

Definition fires (es : list timer_event) : list positive := omap (fun e => match e with EvFire t => Some t | _ => None end) es.

(** ** The relation *)

Definition timer_at (m : gmap positive nxe_timer) (ta : positive * Z) : Prop := tm_abs_time <$> m !! fst ta = Some (snd ta).
Fixpoint ascending (q : list (positive * Z)) : Prop :=
  match q with [] => True | x :: q => Forall (fun y => snd x <= snd y) q /\ ascending q end.

Definition queue_ok (m : gmap positive nxe_timer) (now : Z) (tq : nxe_timer_queue) q : Prop :=
  dll m (tq_first tq) (tq_last tq) q.*1 /\ Forall (timer_at m) q /\ ascending q /\
  Forall (fun ta => precision < snd ta <= now + tq_timeout tq) q.

Definition timeouts_of (l : timers) : list Z := tq_timeout <$> t_queues l.
Definition timers_ok (l : timers) A : Prop :=
  length A = Z.to_nat NXE_NUMBER_OF_TIMER_QUEUES /\ NoDup (set_timers A) /\
  Forall2 (queue_ok (t_all l) (t_now l)) (t_queues l) A /\
  (forall t tm, t_all l !! t = Some tm -> t ∉ set_timers A -> tm = mk_timer 0 None None) /\
  0 <= t_now l < 2 ^ 63 /\ Forall (fun d => 0 <= d < 2 ^ 40) (timeouts_of l).

(** ** Lists *)

Lemma ascending_app q1 q2 : ascending (q1 ++ q2) <-> ascending q1 /\ ascending q2 /\ forall x y, x ∈ q1 -> y ∈ q2 -> snd x <= snd y.
Proof.
  induction q1 as [|x q1 IH]; cbn; [set_solver|]. rewrite IH, Forall_app, !Forall_forall. split.
  - intros [[H1 H2] (H3 & H4 & H5)]. split_and!; try done. intros a b [->|Ha]%elem_of_cons Hb; auto.
  - intros [[H1 H3] [H4 H5]]. split_and!; try done; intros y Hy; [apply H5; set_solver|]. intros b Hb. apply H5; set_solver.
Qed.

(** The queues but one. *)
Definition others A (i : nat) : list (positive * Z) := concat (take i A) ++ concat (drop (S i) A).
Lemma concat_at A i q : A !! i = Some q -> concat A ≡ₚ q ++ others A i.
Proof.
  intros Hi. unfold others. rewrite <- (take_drop_middle A i q Hi) at 1. rewrite concat_app. cbn [concat].
  rewrite !app_assoc. f_equiv. apply Permutation_app_comm.
Qed.
Lemma concat_insert A i q q' : A !! i = Some q -> concat (<[i := q']> A) ≡ₚ q' ++ others A i.
Proof.
  intros Hi. rewrite (concat_at (<[i := q']> A) i q') by (apply list_lookup_insert_eq; by eapply lookup_lt_Some). unfold others.
  rewrite take_insert_ge by done. rewrite drop_insert_lt by lia. done.
Qed.
Lemma others_elem A i j q x : A !! j = Some q -> j <> i -> x ∈ q -> x ∈ others A i.
Proof.
  intros Hj Hne Hx. unfold others. apply elem_of_app. destruct (decide (j < i)%nat) as [Hlt|Hge].
  - left. apply list_elem_of_In, in_concat. exists q. split; [|by apply list_elem_of_In]. apply list_elem_of_In. eapply list_elem_of_lookup_2.
    rewrite lookup_take_lt; [exact Hj|done].
  - right. apply list_elem_of_In, in_concat. exists q. split; [|by apply list_elem_of_In]. apply list_elem_of_In.
    apply (list_elem_of_lookup_2 _ (j - S i)%nat). rewrite lookup_drop. rewrite <- Hj. f_equal. lia.
Qed.

(** Timers of one queue are not in another. *)
Lemma not_in_others A i q t : NoDup (set_timers A) -> A !! i = Some q -> t ∈ q.*1 -> t ∉ (others A i).*1.
Proof.
  unfold set_timers. intros Hn Hi Ht. rewrite (concat_at A i q Hi), fmap_app in Hn. apply NoDup_app in Hn as (_ & Hd & _). by apply Hd.
Qed.
Lemma set_timers_insert A i q q' : A !! i = Some q -> set_timers (<[i := q']> A) ≡ₚ q'.*1 ++ (others A i).*1.
Proof. intros Hi. unfold set_timers. by rewrite (concat_insert A i q q' Hi), fmap_app. Qed.
Lemma set_timers_at A i q : A !! i = Some q -> set_timers A ≡ₚ q.*1 ++ (others A i).*1.
Proof. intros Hi. unfold set_timers. by rewrite (concat_at A i q Hi), fmap_app. Qed.

(** ** Changing one queue *)

Lemma queue_ok_frame m m' now tq q : (forall t, t ∈ q.*1 -> m' !! t = m !! t) -> queue_ok m now tq q -> queue_ok m' now tq q.
Proof.
  intros Hm ((Hn & Hs & Hf & Hl) & Ht & Ha & Hb). split_and!; try done.
  - split_and!; try done. by eapply seg_ext.
  - rewrite Forall_forall in *. intros [t a] Hin. unfold timer_at in *. cbn. rewrite Hm; [by apply (Ht (t, a))|]. apply list_elem_of_fmap. by exists (t, a).
Qed.
Lemma timers_ok_update l A i q tq m' q' tq' : timers_ok l A -> A !! i = Some q -> t_queues l !! i = Some tq ->
  queue_ok m' (t_now l) tq' q' -> tq_timeout tq' = tq_timeout tq -> NoDup (set_timers (<[i := q']> A)) ->
  (forall t, t ∈ (others A i).*1 -> m' !! t = t_all l !! t) ->
  (forall t tm, m' !! t = Some tm -> t ∉ set_timers (<[i := q']> A) -> tm = mk_timer 0 None None) ->
  timers_ok (mk_timers (t_now l) m' (<[i := tq']> (t_queues l))) (<[i := q']> A) /\
  timeouts_of (mk_timers (t_now l) m' (<[i := tq']> (t_queues l))) = timeouts_of l.
Proof.
  intros (Hlen & Hnd & Hq & Hblank & Hnow & Hto) Hi Htq Hq' Htt Hnd' Hframe Hblank'.
  assert (Hts : timeouts_of (mk_timers (t_now l) m' (<[i := tq']> (t_queues l))) = timeouts_of l).
  { unfold timeouts_of. cbn. rewrite list_fmap_insert, Htt. apply list_insert_id. by rewrite list_lookup_fmap, Htq. }
  split; [|done]. split; [by rewrite length_insert|]. split; [done|]. split; [|split; [done|split; [done|by rewrite Hts]]]. cbn.
  apply Forall2_same_length_lookup. rewrite !length_insert. split; [by apply Forall2_length in Hq|].
  intros j tqj qj. destruct (decide (i = j)) as [<-|Hne].
  - rewrite !list_lookup_insert_eq by (by eapply lookup_lt_Some). by intros [= <-] [= <-].
  - rewrite !list_lookup_insert_ne by done. intros Hj1 Hj2. eapply queue_ok_frame; [|by eapply Forall2_lookup_lr].
    intros t ([t' a] & -> & Hin)%list_elem_of_fmap. apply Hframe. apply list_elem_of_fmap. exists (t', a). split; [done|]. by eapply others_elem.
Qed.

(** ** The operations *)

(** The clock, the timeouts and the timers there are stay. *)
Definition same_clock (l l' : timers) : Prop :=
  t_now l' = t_now l /\ timeouts_of l' = timeouts_of l /\ dom (t_all l') = dom (t_all l).
Lemma payload_dom (m m' : gmap positive nxe_timer) : payload tm_abs_time m m' -> dom m' = dom m.
Proof.
  intros Hp. apply set_eq. intros t. rewrite !elem_of_dom. specialize (Hp t). destruct (m !! t), (m' !! t); try done; by split; intros [].
Qed.
Lemma insert_dom (m : gmap positive nxe_timer) t tm tm' : m !! t = Some tm -> dom (<[t := tm']> m) = dom m.
Proof. intros Ht. rewrite dom_insert_L. apply elem_of_dom_2 in Ht. set_solver. Qed.

Lemma timers_queue l A i : timers_ok l A -> (i < Z.to_nat NXE_NUMBER_OF_TIMER_QUEUES)%nat ->
  exists tq q, t_queues l !! i = Some tq /\ A !! i = Some q /\ queue_ok (t_all l) (t_now l) tq q.
Proof.
  intros (Hlen & _ & Hq & _) Hi. destruct (lookup_lt_is_Some_2 A i) as [q Hqi]; [lia|].
  destruct (Forall2_lookup_r _ _ _ _ _ Hq Hqi) as (tq & Htq & Hok). eauto.
Qed.
Lemma wp_assert_idx i (Q : unit -> timers -> Prop) l : 0 <= i < NXE_NUMBER_OF_TIMER_QUEUES -> Q tt l -> wp (assert_idx i) Q l.
Proof. intros Hi HQ. apply wp_assert; [|done]. destruct (Z.leb_spec 0 i), (Z.ltb_spec i NXE_NUMBER_OF_TIMER_QUEUES); (done || lia). Qed.
Lemma wp_get_timer l t tm (Q : nxe_timer -> timers -> Prop) : t_all l !! t = Some tm -> Q tm l -> wp (get_timer t) Q l.
Proof. intros Ht HQ. unfold get_timer. apply wp_bind, wp_get. by rewrite Ht. Qed.
Lemma wp_get_tq l i tq (Q : nxe_timer_queue -> timers -> Prop) : t_queues l !! Z.to_nat i = Some tq -> Q tq l -> wp (get_tq i) Q l.
Proof. intros Ht HQ. unfold get_tq. apply wp_bind, wp_get. by rewrite Ht. Qed.
Lemma wp_upd_timer now m qs t f tm (Q : unit -> timers -> Prop) : m !! t = Some tm -> Q tt (mk_timers now (<[t := f tm]> m) qs) ->
  wp (upd_timer t f) Q (mk_timers now m qs).
Proof. intros Ht HQ. unfold upd_timer. apply wp_bind, wp_get. cbn. unfold upd. rewrite Ht. by apply wp_bind, wp_ret, wp_modify. Qed.
Lemma wp_set_queue_links now m qs i tq m' first last (Q : unit -> timers -> Prop) : qs !! Z.to_nat i = Some tq ->
  Q tt (mk_timers now m' (<[Z.to_nat i := mk_tq (tq_timeout tq) first last]> qs)) -> wp (set_queue_links i (m', first, last)) Q (mk_timers now m qs).
Proof. intros Hi HQ. unfold set_queue_links. apply wp_bind. eapply wp_get_tq; [exact Hi|]. apply wp_bind, wp_modify. by apply wp_modify. Qed.

Lemma timer_at_payload m m' q : payload tm_abs_time m m' -> Forall (timer_at m) q -> Forall (timer_at m') q.
Proof. intros Hp. rewrite !Forall_forall. intros H x Hx. unfold timer_at. rewrite Hp. by apply H. Qed.
Lemma abs_time_blind : link_blind (tm_abs_time : nxe_timer -> Z).
Proof. done. Qed.

Lemma wp_set_timer l A i t q d (Q : unit -> timers -> Prop) : timers_ok l A -> 0 <= i < NXE_NUMBER_OF_TIMER_QUEUES ->
  A !! Z.to_nat i = Some q -> timeouts_of l !! Z.to_nat i = Some d -> precision < d -> t ∉ set_timers A -> is_Some (t_all l !! t) ->
  (forall l', timers_ok l' (<[Z.to_nat i := q ++ [(t, t_now l + d)]]> A) -> same_clock l l' -> Q tt l') -> wp (nxe_set_timer i t) Q l.
Proof.
  intros Hok Hi Hq Hd Hp Ht [tm Htm] HQ. pose proof Hok as (Hlen & Hnd & Hqs & Hblank & Hnow & Hto).
  pose proof (Hblank t tm Htm Ht) as ->. destruct (Forall2_lookup_r _ _ _ _ _ Hqs Hq) as (tq & Htq & Hqok).
  assert (tq_timeout tq = d) as Etq by (unfold timeouts_of in Hd; rewrite list_lookup_fmap, Htq in Hd; by injection Hd).
  assert (0 <= d < 2 ^ 40) as Hdb by (rewrite Forall_forall in Hto; apply Hto; by eapply list_elem_of_lookup_2).
  destruct l as [now m qs]. cbn in Htm, Htq, Hqok, Hnow, Hblank. unfold nxe_set_timer. apply wp_bind, wp_assert_idx; [done|].
  apply wp_bind. eapply wp_get_timer; [exact Htm|]. apply wp_bind, wp_assert; [done|]. apply wp_bind. eapply wp_get_tq; [exact Htq|].
  apply wp_bind, wp_get, wp_bind. eapply wp_upd_timer; [exact Htm|]. apply wp_bind, wp_get. cbn [t_now t_all]. rewrite Etq.
  rewrite (wrapu_small 64 (now + d)) by lia. set (m1 := <[t := _]> m). destruct Hqok as (Hdll & Hat & Hasc & Hb).
  assert (Htq' : t ∉ q.*1) by (rewrite (set_timers_at A _ q Hq) in Ht; set_solver).
  assert (Hdll1 : dll m1 (tq_first tq) (tq_last tq) q.*1) by by apply dll_insert.
  destruct (push_back_ok m1 (tq_first tq) (tq_last tq) q.*1 t _ Hdll1 Htq' (lookup_insert_eq _ _ _)) as (m2 & E & Hdll2 & Hf & Hout).
  rewrite E. apply wp_bind, wp_ret. eapply wp_set_queue_links; [exact Htq|].
  assert (Hq1 : (q ++ [(t, now + d)]).*1 = q.*1 ++ [t]) by by rewrite fmap_app.
  assert (Hset : set_timers (<[Z.to_nat i := q ++ [(t, now + d)]]> A) ≡ₚ t :: set_timers A).
  { rewrite (set_timers_insert A _ q _ Hq), (set_timers_at A _ q Hq), Hq1, <- app_assoc. symmetry. apply Permutation_middle. }
  destruct (timers_ok_update (mk_timers now m qs) A (Z.to_nat i) q tq m2 (q ++ [(t, now + d)])
    (mk_tq (tq_timeout tq) (head (q.*1 ++ [t])) (Some t)) Hok Hq Htq) as [Hok' Hts]; [|done| | | |apply HQ; [done|split; [done|split; [done|]]; cbn; rewrite (payload_dom _ _ (Hf _ _ abs_time_blind)); unfold m1; by eapply insert_dom]].
  - split; [cbn; rewrite Hq1; exact Hdll2|]. pose proof (Hf _ _ abs_time_blind) as Hpay. split; [|split].
    + apply Forall_app. split; [|constructor; [|done]].
      * eapply timer_at_payload; [exact Hpay|]. rewrite Forall_forall in *. intros [t' a] Hin. specialize (Hat _ Hin).
        unfold timer_at in *. cbn in *. unfold m1. rewrite lookup_insert_ne; [done|]. intros ->. apply Htq', list_elem_of_fmap. by exists (t', a).
      * unfold timer_at. cbn. rewrite Hpay. unfold m1. by rewrite lookup_insert_eq.
    + apply ascending_app. split; [done|]. split; [by constructor|]. intros x y Hx Hy%list_elem_of_singleton. subst y. cbn.
      rewrite Forall_forall in Hb. specialize (Hb x Hx). lia.
    + apply Forall_app. cbn. split; [done|]. constructor; [|done]. cbn. lia.
  - rewrite Hset. by constructor.
  - intros t' Ht'. assert (t' <> t) by (intros ->; apply Ht; rewrite (set_timers_at A _ q Hq); set_solver).
    assert (t' ∉ q.*1) by (intros Hin; by apply (not_in_others A _ q t' Hnd Hq Hin)). cbn. rewrite Hout by set_solver.
    unfold m1. by rewrite lookup_insert_ne.
  - intros t' tm' Ht' Hn. rewrite Hset in Hn. apply not_elem_of_cons in Hn as [Hne Hn]. apply (Hblank t'); [|done].
    rewrite Hout in Ht'; [unfold m1 in Ht'; by rewrite lookup_insert_ne in Ht'|]. rewrite (set_timers_at A _ q Hq) in Hn. set_solver.
Qed.

Abbreviation unset_timer := (mk_timer 0 None None).

(** A timer leaves its queue. *)
Lemma timer_removed now m qs A i q1 t a q2 tq : timers_ok (mk_timers now m qs) A -> A !! i = Some (q1 ++ (t, a) :: q2) -> qs !! i = Some tq ->
  exists m' first last n, dll_unlink m (tq_first tq) (tq_last tq) t = Some (m', first, last) /\ m' !! t = Some n /\
    tm_prev n = None /\ tm_next n = None /\
    let l' := mk_timers now (<[t := unset_timer]> m') (<[i := mk_tq (tq_timeout tq) first last]> qs) in
    timers_ok l' (<[i := q1 ++ q2]> A) /\ same_clock (mk_timers now m qs) l'.
Proof.
  intros Hok Hq Htq. pose proof Hok as (Hlen & Hnd & Hqs & Hblank & Hnow & Hto). cbn in Hqs, Hblank.
  pose proof (Forall2_lookup_lr _ _ _ _ _ _ Hqs Htq Hq) as (Hdll & Hat & Hasc & Hb).
  assert (Hfst : (q1 ++ (t, a) :: q2).*1 = q1.*1 ++ t :: q2.*1) by by rewrite fmap_app.
  rewrite Hfst in Hdll. destruct (unlink_ok m (tq_first tq) (tq_last tq) q1.*1 t q2.*1 Hdll) as (m' & E & Hdll' & Hf & Hout & n & Hn & Hpn & Hxn).
  exists m', (head (q1.*1 ++ q2.*1)), (last (q1.*1 ++ q2.*1)), n. split; [exact E|]. split; [done|]. split; [done|]. split; [done|].
  assert (Hsub : Permutation (set_timers A) (t :: set_timers (<[i := q1 ++ q2]> A))).
  { rewrite (set_timers_at A i _ Hq), (set_timers_insert A i _ (q1 ++ q2) Hq), Hfst, fmap_app. by rewrite <- Permutation_middle. }
  assert (Htn : t ∉ set_timers (<[i := q1 ++ q2]> A)) by (rewrite Hsub in Hnd; by apply NoDup_cons in Hnd as [? _]).
  assert (Htq12 : t ∉ q1.*1 ++ q2.*1) by (rewrite (set_timers_insert A i _ (q1 ++ q2) Hq), fmap_app in Htn; set_solver).
  cbv zeta. unfold same_clock. cbn [t_now].
  destruct (timers_ok_update (mk_timers now m qs) A i (q1 ++ (t, a) :: q2) tq (<[t := unset_timer]> m') (q1 ++ q2)
    (mk_tq (tq_timeout tq) (head (q1.*1 ++ q2.*1)) (last (q1.*1 ++ q2.*1))) Hok Hq Htq) as [Hok' Hts];
    [|done| | | |split; [done|split; [done|split; [done|]]; cbn; by rewrite (insert_dom _ _ _ _ Hn), (payload_dom _ _ (Hf _ _ abs_time_blind))]].
  - split; [cbn; rewrite fmap_app; by apply dll_insert|]. split; [|split].
    + assert (Hat' : Forall (timer_at m') (q1 ++ q2)).
      { eapply timer_at_payload; [exact (Hf _ _ abs_time_blind)|]. apply Forall_app in Hat as [H1 [_ H2]%Forall_cons]. by apply Forall_app. }
      rewrite Forall_forall in *. intros [t' a'] Hin. specialize (Hat' _ Hin). unfold timer_at in *. cbn in *. rewrite lookup_insert_ne; [done|].
      intros ->. apply Htq12. rewrite <- fmap_app. apply list_elem_of_fmap. by exists (t', a').
    + apply ascending_app in Hasc as (H1 & [_ H2] & H3). apply ascending_app. split_and!; [done|done|]. intros x y Hx Hy. apply H3; [done|by right].
    + apply Forall_app in Hb as [H1 [_ H2]%Forall_cons]. by apply Forall_app.
  - rewrite Hsub in Hnd. by apply NoDup_cons in Hnd as [_ ?].
  - intros t' Ht'. assert (t' ∉ q1.*1 ++ t :: q2.*1) as Hno.
    { rewrite <- Hfst. intros Hin. by apply (not_in_others A i _ t' Hnd Hq Hin). }
    rewrite lookup_insert_ne by set_solver. by apply Hout.
  - intros t' tm' Ht' Hno. destruct (decide (t = t')) as [<-|Hne]; [rewrite lookup_insert_eq in Ht'; by injection Ht'|].
    rewrite lookup_insert_ne in Ht' by done. apply (Hblank t'); [|rewrite Hsub; set_solver]. rewrite Hout in Ht'; [done|].
    rewrite (set_timers_insert A i _ (q1 ++ q2) Hq), fmap_app in Hno. set_solver.
Qed.

Lemma timer_set_at l A i q1 t a q2 : timers_ok l A -> A !! i = Some (q1 ++ (t, a) :: q2) ->
  (i < Z.to_nat NXE_NUMBER_OF_TIMER_QUEUES)%nat /\ exists tm tq, t_all l !! t = Some tm /\ tm_abs_time tm = a /\ t_queues l !! i = Some tq /\
    queue_ok (t_all l) (t_now l) tq (q1 ++ (t, a) :: q2) /\ precision < a.
Proof.
  intros (Hlen & _ & Hq & _) Hi. split; [rewrite <- Hlen; by eapply lookup_lt_Some|].
  destruct (Forall2_lookup_r _ _ _ _ _ Hq Hi) as (tq & Htq & Hok). pose proof Hok as (_ & Hat & _ & Hb).
  rewrite Forall_app, Forall_cons in Hat, Hb. destruct Hat as (_ & Ht & _), Hb as (_ & Hp & _). unfold timer_at in Ht. cbn in Ht, Hp.
  destruct (t_all l !! t) as [tm|]; [|done]. injection Ht as Ht. exists tm, tq. split_and!; try done. lia.
Qed.

Lemma wp_unset_timer l A i q1 t a q2 (Q : unit -> timers -> Prop) : timers_ok l A -> 0 <= i -> A !! Z.to_nat i = Some (q1 ++ (t, a) :: q2) ->
  (forall l', timers_ok l' (<[Z.to_nat i := q1 ++ q2]> A) -> same_clock l l' -> Q tt l') -> wp (nxe_unset_timer i t) Q l.
Proof.
  intros Hok Hi Hq HQ. destruct (timer_set_at _ _ _ _ _ _ _ Hok Hq) as (Hlt & tm & tq & Htm & Ha & Htq & _ & Hpos). destruct l as [now m qs].
  destruct (timer_removed now m qs A _ q1 t a q2 tq Hok Hq Htq) as (m' & f & x & n & E & Hn & Hp & Hx & Hok' & Hcl).
  unfold nxe_unset_timer. apply wp_bind. eapply wp_get_timer; [exact Htm|]. unfold precision in Hpos. destruct (Z.eqb_spec (tm_abs_time tm) 0); [lia|].
  apply wp_bind, wp_assert_idx; [unfold NXE_NUMBER_OF_TIMER_QUEUES in *; lia|]. apply wp_bind. eapply wp_get_tq; [exact Htq|].
  apply wp_bind, wp_get. cbn [t_all]. rewrite E. apply wp_bind, wp_ret, wp_bind. eapply wp_set_queue_links; [exact Htq|].
  eapply wp_upd_timer; [exact Hn|]. assert (set_abs_time 0 n = unset_timer) as -> by (destruct n; cbn in *; by subst). by apply HQ.
Qed.
(** Unsetting a timer that is not set does nothing. *)
Lemma wp_unset_timer_unset l A i t (Q : unit -> timers -> Prop) : timers_ok l A -> t ∉ set_timers A -> is_Some (t_all l !! t) ->
  Q tt l -> wp (nxe_unset_timer i t) Q l.
Proof.
  intros (_ & _ & _ & Hblank & _) Ht [tm Htm] HQ. unfold nxe_unset_timer. apply wp_bind. eapply wp_get_timer; [exact Htm|].
  by rewrite (Hblank t tm Htm Ht).
Qed.

Lemma wp_pop_first l A i t a q tm (Q : unit -> timers -> Prop) : timers_ok l A -> A !! Z.to_nat i = Some ((t, a) :: q) -> t_all l !! t = Some tm ->
  (forall l', timers_ok l' (<[Z.to_nat i := q]> A) -> same_clock l l' -> Q tt l') -> wp (pop_first i t tm) Q l.
Proof.
  intros Hok Hq Htm HQ. destruct (timer_set_at l A (Z.to_nat i) [] t a q Hok Hq) as (Hlt & tm' & tq & Htm' & Ha & Htq & (Hdll & _) & _).
  rewrite Htm in Htm'. injection Htm' as <-. destruct l as [now m qs]. cbn in Htm, Htq, Hdll.
  destruct (timer_removed now m qs A (Z.to_nat i) [] t a q tq Hok Hq Htq) as (m' & f & x & n & E & Hn & Hp & Hx & Hok' & Hcl).
  assert (Hprev : tm_prev tm = None).
  { destruct Hdll as (_ & Hs & _). cbn [seg fmap list_fmap] in Hs. destruct Hs as [(n' & Hn' & Hpr & _) _]. cbn in Hn'. rewrite Htm in Hn'. by injection Hn' as <-. }
  unfold dll_unlink in E. rewrite Htm in E. cbn [prev_of next_of timer_links] in E. rewrite Hprev in E. cbn [upd_opt] in E.
  unfold pop_first. apply wp_bind. eapply wp_get_tq; [exact Htq|]. apply wp_bind, wp_get. cbn [t_all].
  destruct (upd_opt (tm_next tm) (set_prev None) m) as [m1|] eqn:E1; [|done]. apply wp_bind, wp_ret, wp_bind, wp_modify, wp_bind, wp_modify.
  cbn [t_now t_all t_queues]. unfold upd in E. destruct (m1 !! t) as [n1|] eqn:Hn1; [|done]. injection E as <- <- <-.
  eapply wp_upd_timer; [exact Hn1|]. rewrite insert_insert_eq in Hok', Hcl. by apply HQ.
Qed.

(** ** Due timers *)

Definition n_due (now : Z) A (i : nat) : nat :=
  match A !! i with Some q => length (filter (fun ta => due now (snd ta)) q) | None => O end.
Definition none_due (now : Z) A (i : nat) : Prop := forall q ta, A !! i = Some q -> ta ∈ q -> ~ due now (snd ta).

Lemma none_due_n now A i : none_due now A i <-> n_due now A i = O.
Proof.
  unfold none_due, n_due. destruct (A !! i) as [q|]; [|split; [done|by intros _ q ta [=]]]. split.
  - intros Hn. rewrite length_zero_iff_nil. destruct (filter _ q) as [|ta q'] eqn:E; [done|]. exfalso.
    assert (ta ∈ filter (fun ta => due now (snd ta)) q) as [Hd Hin]%list_elem_of_filter by (rewrite E; by left). by apply (Hn q ta).
  - intros Hz q' ta [= <-] Hta Hd. apply length_zero_iff_nil in Hz. assert (ta ∈ filter (fun ta => due now (snd ta)) q) as Hin by (by apply list_elem_of_filter).
    rewrite Hz in Hin. by apply elem_of_nil in Hin.
Qed.

(** Nothing but the clock makes a timer due. *)
Lemma timer_step_due now ts A e A' i : timer_step now ts A e A' -> (n_due now A' i <= n_due now A i)%nat.
Proof.
  assert (Hcase : forall j q q', A !! j = Some q -> (length (filter (fun ta => due now (snd ta)) q') <= length (filter (fun ta => due now (snd ta)) q))%nat ->
    (n_due now (<[j := q']> A) i <= n_due now A i)%nat).
  { intros j q q' Hj Hle. unfold n_due. destruct (decide (j = i)) as [->|Hne]; [|by rewrite list_lookup_insert_ne].
    rewrite list_lookup_insert_eq by (by eapply lookup_lt_Some). by rewrite Hj. }
  destruct 1 as [A j q d t Hj _ Hd _|A j q1 t a q2 Hj|A j t a q Hj _]; eapply Hcase; try exact Hj; rewrite ?filter_app, ?filter_cons, ?length_app; cbn [snd].
  - rewrite decide_False by (unfold due; lia). cbn. lia.
  - case_decide; cbn; lia.
  - case_decide; cbn; lia.
Qed.
Lemma timer_run_due now ts A es A' i : timer_run now ts A es A' -> (n_due now A' i <= n_due now A i)%nat.
Proof. induction 1 as [|A e A1 es A2 Hs _ IH]; [done|]. pose proof (timer_step_due _ _ _ _ _ i Hs). lia. Qed.
Lemma timer_run_app now ts A es A1 es' A2 : timer_run now ts A es A1 -> timer_run now ts A1 es' A2 -> timer_run now ts A (es ++ es') A2.
Proof. induction 1 as [|A e A0 es A1 Hs _ IH]; [done|]. intros H2. cbn. econstructor; [exact Hs|by apply IH]. Qed.
Lemma fires_app es es' : fires (es ++ es') = fires es ++ fires es'.
Proof. apply omap_app. Qed.

(** A timer leaves the schedule by firing or by being unset. *)
Lemma timer_run_gone now ts A es A' t a : timer_run now ts A es A' -> (t, a) ∈ concat A -> (t, a) ∉ concat A' -> t ∈ fires es \/ EvUnset t ∈ es.
Proof.
  induction 1 as [|A e A1 es A2 Hs _ IH]; [done|]. intros Hin Hout.
  destruct (decide ((t, a) ∈ concat A1)) as [H1|H1].
  - destruct (IH H1 Hout) as [Hf|Hu]; [left|right; by right]. change (e :: es) with ([e] ++ es). rewrite fires_app. set_solver.
  - clear IH. destruct Hs as [A i q d t' Hi _ _ _|A i q1 t' a' q2 Hi|A i t' a' q Hi _].
    + exfalso. apply H1. rewrite (concat_insert A i q _ Hi). rewrite (concat_at A i q Hi) in Hin. set_solver.
    + right. rewrite (concat_insert A i _ _ Hi) in H1. rewrite (concat_at A i _ Hi) in Hin. assert (t = t') as -> by set_solver. by left.
    + left. rewrite (concat_insert A i _ _ Hi) in H1. rewrite (concat_at A i _ Hi) in Hin. assert (t = t') as -> by set_solver. by left.
Qed.

Lemma is_due_spec l A i q t a tm : timers_ok l A -> A !! i = Some q -> (t, a) ∈ q -> t_all l !! t = Some tm ->
  is_due (t_now l) tm = true <-> due (t_now l) a.
Proof.
  intros Hok Hi Hin Htm. apply list_elem_of_split in Hin as (q1 & q2 & ->).
  destruct (timer_set_at l A i q1 t a q2 Hok Hi) as (_ & tm' & tq & Htm' & Ha & Htq & (_ & _ & _ & Hb) & Hpos).
  rewrite Htm in Htm'. injection Htm' as <-. destruct Hok as (_ & _ & _ & _ & Hnow & Hto).
  rewrite Forall_app, Forall_cons in Hb. destruct Hb as (_ & Hb & _). cbn in Hb.
  assert (0 <= tq_timeout tq < 2 ^ 40).
  { rewrite Forall_forall in Hto. apply Hto. unfold timeouts_of. apply list_elem_of_fmap. exists tq. split; [done|by eapply list_elem_of_lookup_2]. }
  unfold is_due, due, precision in *. rewrite Ha, wrapu_small by lia. apply Z.leb_le.
Qed.

(** ** Processing *)

Section process.
Variables (on_timeout : positive -> M timers unit) (D : gset positive) (timeouts : list Z) (J : schedule -> Prop).

(** What a handler may do: set timers that are not set, in a queue with a
    timeout above the precision, and unset timers in their queue.  [J] is what
    the program knows of its schedule, for example which queue a timer uses. *)
Definition handler_ok : Prop := forall t l A, timers_ok l A -> timeouts_of l = timeouts -> dom (t_all l) = D -> J A -> t ∈ D -> t ∉ set_timers A ->
  wp (on_timeout t) (fun _ l' => exists es A', timers_ok l' A' /\ same_clock l l' /\ J A' /\
    timer_run (t_now l) timeouts A es A' /\ fires es = []) l.
Hypothesis Hhandler : handler_ok.
Hypothesis J_fire : forall A i t a q, J A -> A !! i = Some ((t, a) :: q) -> J (<[i := q]> A).

Definition state_ok l A : Prop := timers_ok l A /\ timeouts_of l = timeouts /\ dom (t_all l) = D /\ J A.

(** What processing did, from [A]. *)
Definition processed l A (fired : list positive) l' A' : Prop :=
  exists es, state_ok l' A' /\ t_now l' = t_now l /\ timer_run (t_now l) timeouts A es A' /\ fires es = fired.

Lemma processed_refl l A : state_ok l A -> processed l A [] l A.
Proof. intros Hok. exists []. split; [done|]. split; [done|]. split; [constructor|done]. Qed.
Lemma processed_trans l A f1 l1 A1 f2 l2 A2 : processed l A f1 l1 A1 -> processed l1 A1 f2 l2 A2 -> processed l A (f1 ++ f2) l2 A2.
Proof.
  intros (es1 & Hok1 & Hc1 & Hr1 & <-) (es2 & Hok2 & Hc2 & Hr2 & <-). rewrite Hc1 in Hr2. exists (es1 ++ es2).
  split; [done|]. split; [congruence|]. split; [by eapply timer_run_app|apply fires_app].
Qed.
Lemma processed_due l A f l' A' i : processed l A f l' A' -> (n_due (t_now l) A' i <= n_due (t_now l) A i)%nat.
Proof. intros (es & _ & _ & Hr & _). by eapply timer_run_due. Qed.

Lemma wp_process_queue l A i (Q : list positive -> timers -> Prop) : state_ok l A -> 0 <= i < NXE_NUMBER_OF_TIMER_QUEUES ->
  (forall fired l' A', processed l A fired l' A' -> none_due (t_now l) A' (Z.to_nat i) -> Q fired l') -> wp (process_queue on_timeout i) Q l.
Proof.
  intros Hok Hi HQ. unfold process_queue. apply wp_bind, wp_get. pose proof Hok as [Hok0 _].
  assert (Hfuel : (n_due (t_now l) A (Z.to_nat i) < S (size (t_all l)))%nat).
  { destruct (timers_queue l A (Z.to_nat i) Hok0) as (tq & q & _ & Hq & (Hn & Hs & _ & _) & _); [unfold NXE_NUMBER_OF_TIMER_QUEUES in *; lia|].
    unfold n_due. rewrite Hq. pose proof (length_filter (fun ta => due (t_now l) (snd ta)) q).
    assert (Hsz : (length q.*1 <= size (t_all l))%nat).
    { rewrite <- (size_dom (D := gset positive) (t_all l)), <- (size_list_to_set (C := gset positive) q.*1 Hn). apply subseteq_size.
      intros t Ht%elem_of_list_to_set. apply elem_of_dom. by eapply seg_member. }
    rewrite length_fmap in Hsz. lia. }
  revert Hfuel. generalize (S (size (t_all l))). intros fuel Hfuel.
  assert (Hgen : forall fuel l1 A1 fired, processed l A fired l1 A1 -> (n_due (t_now l) A1 (Z.to_nat i) < fuel)%nat ->
    wp (loop fuel (fun fired => let! tq := get_tq i in
      match tq_first tq with
      | None => ret (inr fired)
      | Some t => let! tm := get_timer t in let! l := get in
          if is_due (t_now l) tm then do! pop_first i t tm in do! on_timeout t in ret (inl (fired ++ [t])) else ret (inr fired)
      end) fired) Q l1); [|apply (Hgen fuel l A []); [by apply processed_refl|done]].
  clear fuel Hfuel. intros fuel. induction fuel as [|fuel IH]; intros l1 A1 fired Hpr Hf; [lia|]. cbn [loop].
  pose proof Hpr as (es & (Hok1 & Hto1 & HD1 & HJ1) & Hc1 & Hr1 & Hfi).
  destruct (timers_queue l1 A1 (Z.to_nat i) Hok1) as (tq & q & Htq & Hq & Hqok); [unfold NXE_NUMBER_OF_TIMER_QUEUES in *; lia|].
  apply wp_bind, wp_bind. eapply wp_get_tq; [exact Htq|]. pose proof Hqok as ((_ & Hs & Hfst & _) & Hat & Hasc & _). rewrite Hfst.
  destruct q as [|[t a] q]; cbn [fmap list_fmap head fst].
  { apply wp_ret, wp_ret. eapply HQ; [exact Hpr|]. intros q' ta Hq' Hta. rewrite Hq in Hq'. injection Hq' as <-. by apply elem_of_nil in Hta. }
  destruct (timer_set_at l1 A1 _ [] t a q Hok1 Hq) as (_ & tm & _ & Htm & Ha & _).
  apply wp_bind. eapply wp_get_timer; [exact Htm|]. apply wp_bind, wp_get. pose proof (is_due_spec l1 A1 _ _ t a tm Hok1 Hq ltac:(by left) Htm) as Hdue.
  destruct (is_due (t_now l1) tm) eqn:Ed.
  - assert (Ht : t ∈ D) by (rewrite <- HD1; by eapply elem_of_dom_2).
    apply wp_bind. eapply wp_pop_first; [exact Hok1|exact Hq|exact Htm|]. intros l2 Hok2 (Hn2 & Hto2 & HD2).
    assert (Hstep : timer_step (t_now l1) timeouts A1 (EvFire t) (<[Z.to_nat i := q]> A1)) by (eapply step_fire; [exact Hq|by apply Hdue]).
    assert (HJ2 : J (<[Z.to_nat i := q]> A1)) by by eapply J_fire.
    assert (Hpr2 : processed l1 A1 [t] l2 (<[Z.to_nat i := q]> A1)).
    { exists [EvFire t]. split; [split_and!; try done; congruence|]. split; [done|]. split; [|done]. econstructor; [exact Hstep|constructor]. }
    apply wp_bind. eapply wp_mono; [apply (Hhandler t l2 _ Hok2); [congruence|congruence|done|done|]|].
    + pose proof Hok1 as (_ & Hnd & _). rewrite (set_timers_at A1 _ _ Hq) in Hnd. cbn in Hnd. apply NoDup_cons in Hnd as [Hnd _].
      by rewrite (set_timers_insert A1 _ _ q Hq).
    + intros [] l3 (es3 & A3 & Hok3 & (Hn3 & Hto3 & HD3) & HJ3 & Hr3 & Hf3). apply wp_ret. cbn beta iota.
      assert (Hpr3 : processed l1 A1 [t] l3 A3).
      { change [t] with ([t] ++ []). eapply processed_trans; [exact Hpr2|]. exists es3. split; [split_and!; try done; congruence|]. done. }
      apply (IH l3 A3); [by eapply processed_trans|].
      assert (Hlt : (n_due (t_now l) (<[Z.to_nat i := q]> A1) (Z.to_nat i) < n_due (t_now l) A1 (Z.to_nat i))%nat).
      { unfold n_due. rewrite list_lookup_insert_eq by (by eapply lookup_lt_Some). rewrite Hq, filter_cons, decide_True; [cbn; lia|]. rewrite <- Hc1. by apply Hdue. }
      pose proof (timer_run_due _ _ _ _ _ (Z.to_nat i) Hr3) as Hle. rewrite Hn2, Hc1 in Hle. lia.
  - apply wp_ret, wp_ret. eapply HQ; [exact Hpr|]. intros q' ta Hq' Hta Hd. rewrite Hq in Hq'. injection Hq' as <-.
    assert (~ due (t_now l1) a) as Hn by (intros Hd'; apply Hdue in Hd'; congruence). apply Hn. unfold due in *. rewrite Hc1.
    apply elem_of_cons in Hta as [->|Hta]; [done|]. cbn [ascending] in Hasc. destruct Hasc as [Hasc _]. rewrite Forall_forall in Hasc.
    specialize (Hasc _ Hta). cbn in Hasc. lia.
Qed.

Lemma wp_process_queues n l A i (Q : list positive -> timers -> Prop) : state_ok l A -> 0 <= i -> i + Z.of_nat n = NXE_NUMBER_OF_TIMER_QUEUES ->
  (forall j, (j < Z.to_nat i)%nat -> none_due (t_now l) A j) ->
  (forall fired l' A', processed l A fired l' A' -> (forall j, none_due (t_now l) A' j) -> Q fired l') -> wp (process_queues on_timeout n i) Q l.
Proof using Hhandler J_fire.
  revert l A i Q. induction n as [|n IH]; intros l A i Q Hok Hi Hn Hbefore HQ; cbn [process_queues].
  - apply wp_ret. eapply HQ; [by apply processed_refl|]. intros j. destruct (decide (j < Z.to_nat i)%nat) as [Hlt|Hge]; [by apply Hbefore|].
    intros q ta Hj. apply lookup_lt_Some in Hj. destruct Hok as ((Hlen & _) & _). unfold NXE_NUMBER_OF_TIMER_QUEUES in *. lia.
  - apply wp_bind, (wp_process_queue l A i); [done|lia|]. intros fired l1 A1 Hpr Hnone. pose proof Hpr as (es & Hok1 & Hc1 & Hr1 & Hf1).
    apply wp_bind, (IH l1 A1 (i + 1)); [done|lia|lia| |].
    + intros j Hj. rewrite Hc1. destruct (decide (j = Z.to_nat i)) as [->|Hne]; [done|]. apply none_due_n.
      pose proof (timer_run_due _ _ _ _ _ j Hr1). assert (n_due (t_now l) A j = O) by (apply none_due_n, Hbefore; lia). lia.
    + intros f2 l2 A2 Hpr2 Hall. apply wp_ret. rewrite Hc1 in Hall. eapply HQ; [by eapply processed_trans|done].
Qed.

End process.

(** ** Waiting *)

Lemma first_time_spec l A i tq q : timers_ok l A -> t_queues l !! i = Some tq -> A !! i = Some q -> first_time l tq = snd <$> head q.
Proof.
  intros (_ & _ & Hq & _) Htq Hi. pose proof (Forall2_lookup_lr _ _ _ _ _ _ Hq Htq Hi) as ((_ & _ & Hf & _) & Hat & _).
  unfold first_time. rewrite Hf. destruct q as [|[t a] q]; [done|]. cbn. apply Forall_cons in Hat as [Hat _]. exact Hat.
Qed.

(** The earliest of some times. *)
Definition earliest (o : option Z) (xs : list Z) : Prop :=
  match o with None => xs = [] | Some a => a ∈ xs /\ Forall (fun x => a <= x) xs end.
Lemma ascending_earliest q : ascending q -> earliest (snd <$> head q) (snd <$> q).
Proof.
  destruct q as [|x q]; [done|]. cbn. intros [Hf _]. split; [by left|]. constructor; [lia|]. by apply Forall_fmap.
Qed.
Lemma closest_earliest l A : timers_ok l A -> earliest (nxe_closest_tq l) (snd <$> concat A).
Proof.
  intros Hok. pose proof Hok as (_ & _ & Hq & _). unfold nxe_closest_tq.
  assert (Hgen : forall qs A0 o xs, Forall2 (fun tq q => first_time l tq = snd <$> head q /\ ascending q) qs A0 -> earliest o xs ->
    earliest (fold_left (fun closest tq => match first_time l tq, closest with None, _ => closest | Some a, None => Some a
      | Some a, Some c => if a <? c then Some a else Some c end) qs o) (xs ++ (snd <$> concat A0))).
  { intros qs A0 o xs H2. revert o xs. induction H2 as [|tq q qs A0 [Hfirst Hasc] _ IH]; intros o xs Ho; cbn [fold_left concat]; [by rewrite app_nil_r|].
    rewrite fmap_app, app_assoc. apply IH. rewrite Hfirst. pose proof (ascending_earliest q Hasc) as Hq1.
    destruct q as [|[t a] q]; cbn [head fmap option_fmap option_map snd] in *; [by rewrite app_nil_r|]. destruct Hq1 as [Hin Hall].
    destruct o as [c|]; cbn in Ho.
    - destruct Ho as [Hc Hxs]. destruct (Z.ltb_spec a c); (split; [apply elem_of_app; auto|]); apply Forall_app; (split; [|]);
        rewrite ?Forall_forall in *; intros y Hy; first [by apply Hxs|by apply Hall|specialize (Hxs y Hy); lia|specialize (Hall y Hy); lia].
    - subst xs. by split. }
  apply (Hgen (t_queues l) A None []); [|done]. apply Forall2_same_length_lookup. split; [by eapply Forall2_length|].
  intros i tq q Htq Hi. split; [by eapply first_time_spec|]. by pose proof (Forall2_lookup_lr _ _ _ _ _ _ Hq Htq Hi) as (_ & _ & ? & _).
Qed.

(** C17: after the timers were processed, [epoll_wait] is let to sleep for at
    most a second and never beyond the time of a timer; when it sleeps that
    long and less than a second, a timer is due afterwards, so the loop neither
    misses a timer nor turns idly. *)
Theorem loop_sleeps_until_timer l A : timers_ok l A -> (forall t a, (t, a) ∈ concat A -> t_now l + precision < a) ->
  0 <= time_to_wait l <= 1000 /\
  (forall t a, (t, a) ∈ concat A -> t_now l + 1000 * time_to_wait l <= a) /\
  (forall now', t_now l + 1000 * time_to_wait l <= now' -> time_to_wait l < 1000 -> exists t a, (t, a) ∈ concat A /\ due now' a).
Proof.
  intros Hok Hlater. pose proof (closest_earliest l A Hok) as He. unfold time_to_wait.
  destruct (nxe_closest_tq l) as [a|]; cbn [earliest] in He.
  - destruct He as [([t a'] & E & Hin)%list_elem_of_fmap Hall]. cbn in E. subst a'. pose proof (Hlater t a Hin) as Hpos. unfold precision in Hpos.
    assert (Hb : a - t_now l < 2 ^ 40 /\ 0 <= t_now l < 2 ^ 63).
    { pose proof Hok as (_ & _ & Hq & _ & Hnow & Hto). split; [|done]. apply list_elem_of_In, in_concat in Hin as (q & Hin & Hq').
      apply list_elem_of_In, list_elem_of_lookup in Hin as [i Hi]. apply list_elem_of_In in Hq'.
      destruct (Forall2_lookup_r _ _ _ _ _ Hq Hi) as (tq & Htq & (_ & _ & _ & Hbd)). rewrite Forall_forall in Hbd. rewrite Forall_forall in Hto. specialize (Hbd _ Hq'). cbn in Hbd.
      assert (0 <= tq_timeout tq < 2 ^ 40); [|lia]. apply Hto. unfold timeouts_of. apply list_elem_of_fmap. exists tq. split; [done|by eapply list_elem_of_lookup_2]. }
    rewrite (wrapu_small 64) by lia. set (w0 := (a - t_now l) / 1000).
    assert (Hw0 : 1000 * w0 <= a - t_now l < 1000 * w0 + 1000) by (unfold w0; pose proof (Z.div_mod (a - t_now l) 1000); pose proof (Z.mod_pos_bound (a - t_now l) 1000); lia).
    rewrite wraps_small by lia. assert (Hle : forall t a', (t, a') ∈ concat A -> a <= a').
    { intros t' a' Hin'. rewrite Forall_forall in Hall. apply Hall. apply list_elem_of_fmap. by exists (t', a'). }
    destruct (Z.ltb_spec 1000 w0); [change (1000 <? 0) with false; cbn iota|destruct (Z.ltb_spec w0 0); [lia|]].
    + split; [lia|]. split; [intros t' a' H'; specialize (Hle t' a' H'); lia|lia].
    + split; [lia|]. split; [intros t' a' H'; specialize (Hle t' a' H'); lia|]. intros now' Hn _. exists t, a. split; [done|]. unfold due, precision. lia.
  - assert ((1000 <? 1000) = false) as -> by done. cbn iota. assert ((1000 <? 0) = false) as -> by done. cbn iota. split; [lia|]. split; [|lia].
    intros t a Hin. assert (a ∈ snd <$> concat A) as Hx by (apply list_elem_of_fmap; by exists (t, a)). rewrite He in Hx. by apply elem_of_nil in Hx.
Qed.

(** ** The timers of the server *)

(** A handler that sets its timer again when it fires, in the queue of retries
    after a failed [accept]; the other timers only send a message. *)
Definition retry_timer : positive := 1.
Definition server_timeouts : list Z := [60000000; 30000000; 30000000; 2000000; 1500000; 500000; 0; 0].
Definition retry_handler (t : positive) : M timers unit := if bool_decide (t = retry_timer) then nxe_set_timer 5 t else ret tt.

Definition server_timers : timers :=
  mk_timers 29800000
    (list_to_map [(1%positive, mk_timer 500000 None None); (2%positive, mk_timer 30000000 None (Some 3%positive));
                  (3%positive, mk_timer 59000000 (Some 2%positive) None)])
    [mk_tq 60000000 None None; mk_tq 30000000 (Some 2%positive) (Some 3%positive); mk_tq 30000000 None None; mk_tq 2000000 None None;
     mk_tq 1500000 None None; mk_tq 500000 (Some 1%positive) (Some 1%positive); mk_tq 0 None None; mk_tq 0 None None].
Definition server_schedule : schedule := [[]; [(2%positive, 30000000); (3%positive, 59000000)]; []; []; []; [(1%positive, 500000)]; []; []].

Example server_timers_set :
  (do! init_timer 1 in do! init_timer 2 in do! init_timer 3 in
   do! nxe_set_timer_queue_timeout 0 60000000 in do! nxe_set_timer_queue_timeout 1 30000000 in
   do! nxe_set_timer_queue_timeout 2 30000000 in do! nxe_set_timer_queue_timeout 3 2000000 in
   do! nxe_set_timer_queue_timeout 4 1500000 in do! nxe_set_timer_queue_timeout 5 500000 in
   do! nxe_set_timer 1 2 in do! nxe_set_timer 5 1 in
   do! tick 29000000 in do! nxe_set_timer 1 3 in tick 29800000) (timers_create 0) = Ok (tt, server_timers).
Proof. run. Qed.

Lemma retry_handler_ok D : handler_ok retry_handler D server_timeouts (fun _ => True).
Proof.
  intros t l A Hok Hto HD _ Ht Hn. unfold retry_handler. case_bool_decide as E.
  - destruct (timers_queue l A 5 Hok) as (tq & q & Htq & Hq & _); [by vm_compute; lia|].
    eapply (wp_set_timer l A 5 t q 500000); [exact Hok|by vm_compute|exact Hq|by rewrite Hto|by vm_compute|exact Hn|by apply elem_of_dom; rewrite HD|].
    intros l' Hok' Hcl. exists [EvSet 5 t], (<[5%nat := q ++ [(t, t_now l + 500000)]]> A). split; [done|]. split; [done|]. split; [done|]. split; [|done].
    econstructor; [eapply step_set; [exact Hq|done|by vm_compute|exact Hn]|constructor].
  - apply wp_ret. exists [], A. split; [done|]. split; [done|]. split; [done|]. split; [constructor|done].
Qed.
Lemma server_timers_ok : timers_ok server_timers server_schedule.
Proof.
  split; [done|]. split; [apply (bool_decide_unpack _); by vm_compute|]. split; [|split; [|split]].
  - assert (Hempty : forall m now to, queue_ok m now (mk_tq to None None) []).
    { intros m now to. split; [split_and!; [constructor|done|done|done]|]. by split_and!; constructor. }
    unfold server_timers, server_schedule. cbn [t_all t_now t_queues]. repeat (apply Forall2_cons; split; [try apply Hempty|]); [| |constructor].
    + split; [split_and!; [apply (bool_decide_unpack _); by vm_compute| |done|done]|].
      * split; [by eexists|]. split; [by eexists|done].
      * split; [by repeat constructor|]. split; [cbn; repeat constructor; cbn; lia|]. repeat constructor; cbn; unfold precision; lia.
    + split; [split_and!; [apply (bool_decide_unpack _); by vm_compute| |done|done]|].
      * split; [by eexists|done].
      * split; [by repeat constructor|]. split; [cbn; repeat constructor|]. repeat constructor; cbn; unfold precision; lia.
  - intros t tm Ht Hn. exfalso. apply Hn. unfold server_timers in Ht. cbn [t_all] in Ht. apply elem_of_list_to_map_2 in Ht.
    set_unfold in Ht. cbn. set_unfold. destruct Ht as [Ht|[Ht|[Ht|[]]]]; injection Ht as -> _; tauto.
  - by vm_compute.
  - apply (bool_decide_unpack _). by vm_compute.
Qed.

Example server_timers_fired : fst <$> (match nxe_process_timers retry_handler server_timers with Ok x => Some x | Err _ => None end) = Some [2%positive; 1%positive].
Proof. run. Qed.

(** The timers that remain when those two have fired. *)
Definition waiting_timers : timers :=
  match nxe_process_timers retry_handler server_timers with Ok (_, l) => l | Err _ => server_timers end.
Lemma loop_sleeps_until_timer_witness : exists A, timers_ok waiting_timers A /\ 0 <= time_to_wait waiting_timers <= 1000 /\
  (forall t a, (t, a) ∈ concat A -> t_now waiting_timers + 1000 * time_to_wait waiting_timers <= a) /\
  (forall now', t_now waiting_timers + 1000 * time_to_wait waiting_timers <= now' -> time_to_wait waiting_timers < 1000 ->
     exists t a, (t, a) ∈ concat A /\ due now' a).
Proof.
  assert (Hok : state_ok {[1%positive; 2%positive; 3%positive]} server_timeouts (fun _ => True) server_timers server_schedule).
  { split; [exact server_timers_ok|]. split; [done|]. split; [|done]. apply (bool_decide_unpack _). by vm_compute. }
  assert (Hw : wp (nxe_process_timers retry_handler) (fun fired l' => exists A', timers_ok l' A' /\ forall t a, (t, a) ∈ concat A' -> t_now l' + precision < a) server_timers).
  { apply (wp_process_queues retry_handler {[1%positive; 2%positive; 3%positive]} server_timeouts (fun _ => True) (retry_handler_ok _) ltac:(done) _ _ server_schedule 0); [done|done|done|lia|].
    intros fired l' A' (es & (Hok' & _) & Hc & _) Hnone. exists A'. split; [done|].
    intros t a (q & Hin & Hq)%list_elem_of_In%in_concat. apply list_elem_of_In, list_elem_of_lookup in Hin as [j Hj]. apply list_elem_of_In in Hq.
    specialize (Hnone j q (t, a) Hj Hq). unfold due in Hnone. cbn in Hnone. rewrite Hc. cbn [t_now server_timers]. lia. }
  unfold waiting_timers. destruct (wp_elim _ _ _ Hw) as (fired & l' & -> & A' & Hok' & Hlater). exists A'. split; [exact Hok'|].
  by apply (loop_sleeps_until_timer l' A').
Defined.
