(* ===== verification/LoopServices.v ===== *)
(** What the event loop promises to the protocols that run on it: the streams,
    timers and messages of a loop as a client sees them ([view]), the operations
    with their effect on it ([LoopServices]), and the proof that the loop of
    Event.v with the timers of Timer.v keeps the promise. *)
From S2P Require Import Prelude Dll Event EventInv StreamBuffers RingBuffer InputBuffer Timer TimerProof.
Open Scope Z_scope.

(** * The interface *)

(** The streams with their readiness and pairs, the publishers and subscribers
    that exist, the queue a timer is set in, and the messages published so far,
    in order. *)
Record view := mk_view {
  v_is : gmap positive nxe_istream;
  v_os : gmap positive nxe_ostream;
  v_pubs : gset positive;
  v_timers : gmap positive (option Z);
  v_log : list (positive * Z);
}.
Definition v_set_is (i : positive) (ist : nxe_istream) (v : view) : view :=
  mk_view (<[i := ist]> (v_is v)) (v_os v) (v_pubs v) (v_timers v) (v_log v).
Definition v_set_os (o : positive) (ost : nxe_ostream) (v : view) : view :=
  mk_view (v_is v) (<[o := ost]> (v_os v)) (v_pubs v) (v_timers v) (v_log v).
Definition v_set_timer (t : positive) (q : option Z) (v : view) : view :=
  mk_view (v_is v) (v_os v) (v_pubs v) (<[t := q]> (v_timers v)) (v_log v).
Definition v_published (p : positive) (d : Z) (v : view) : view :=
  mk_view (v_is v) (v_os v) (v_pubs v) (v_timers v) (v_log v ++ [(p, d)]).

(** The operations that protocols use.  [sl_istream] and [sl_ostream] read the
    fields of a stream; [sl_mark_ready] stores into the flag of an ostream;
    [sl_unsubscribe] ends the subscription of a subscriber, if it has one,
    [sl_unsubscribe_all] those to a publisher. *)
Class LoopOps (L : Type) := {
  sl_istream : positive -> M L nxe_istream;
  sl_ostream : positive -> M L nxe_ostream;
  sl_init_istream : positive -> M L unit;
  sl_istream_set_ready : positive -> M L unit;
  sl_istream_unset_ready : positive -> M L unit;
  sl_mark_istream : positive -> M L unit;
  sl_ostream_set_ready : positive -> M L unit;
  sl_ostream_unset_ready : positive -> M L unit;
  sl_mark_ready : positive -> M L unit;
  sl_connect_streams : positive -> positive -> M L unit;
  sl_disconnect_streams : positive -> positive -> M L unit;
  sl_publish : positive -> Z -> M L unit;
  sl_unsubscribe : positive -> M L unit;
  sl_unsubscribe_all : positive -> M L unit;
  sl_set_timer : Z -> positive -> M L unit;
  sl_unset_timer : Z -> positive -> M L unit;
  sl_batch_write : Z -> M L unit;
}.

(** The timer queues that the server gives a timeout ([NXWEB_TIMER_KEEP_ALIVE]
    to [NXWEB_TIMER_ACCEPT_RETRY]). *)
Definition server_queues : Z := 6.
Definition free_istream (v : view) (i : positive) : Prop := forall ist, v_is v !! i = Some ist -> is_pair ist = None.

(** [rep l v]: the loop is consistent and looks like [v]. *)
Class LoopServices (L : Type) `{LoopOps L} := {
  rep : L -> view -> Prop;
  rep_pair : forall l v i o, rep l v ->
    (exists ist, v_is v !! i = Some ist /\ is_pair ist = Some o) <-> (exists ost, v_os v !! o = Some ost /\ os_pair ost = Some i);
  law_istream : forall l v i ist (Q : nxe_istream -> L -> Prop), rep l v -> v_is v !! i = Some ist -> Q ist l -> wp (sl_istream i) Q l;
  law_ostream : forall l v o ost (Q : nxe_ostream -> L -> Prop), rep l v -> v_os v !! o = Some ost -> Q ost l -> wp (sl_ostream o) Q l;
  law_init_istream : forall l v i (Q : unit -> L -> Prop), rep l v -> free_istream v i ->
    (forall l', rep l' (v_set_is i (mk_is false false None) v) -> Q tt l') -> wp (sl_init_istream i) Q l;
  law_istream_set_ready : forall l v i ist (Q : unit -> L -> Prop), rep l v -> v_is v !! i = Some ist ->
    (forall l', rep l' (v_set_is i (set_is_ready true ist) v) -> Q tt l') -> wp (sl_istream_set_ready i) Q l;
  law_istream_unset_ready : forall l v i ist (Q : unit -> L -> Prop), rep l v -> v_is v !! i = Some ist ->
    (forall l', rep l' (v_set_is i (set_is_ready false ist) v) -> Q tt l') -> wp (sl_istream_unset_ready i) Q l;
  law_mark_istream : forall l v i ist (Q : unit -> L -> Prop), rep l v -> v_is v !! i = Some ist ->
    (forall l', rep l' (v_set_is i (set_is_ready true ist) v) -> Q tt l') -> wp (sl_mark_istream i) Q l;
  law_ostream_set_ready : forall l v o ost (Q : unit -> L -> Prop), rep l v -> v_os v !! o = Some ost ->
    (forall l', rep l' (v_set_os o (set_os_ready true ost) v) -> Q tt l') -> wp (sl_ostream_set_ready o) Q l;
  law_ostream_unset_ready : forall l v o ost (Q : unit -> L -> Prop), rep l v -> v_os v !! o = Some ost ->
    (forall l', rep l' (v_set_os o (set_os_ready false ost) v) -> Q tt l') -> wp (sl_ostream_unset_ready o) Q l;
  law_mark_ready : forall l v o ost (Q : unit -> L -> Prop), rep l v -> v_os v !! o = Some ost ->
    (forall l', rep l' (v_set_os o (set_os_ready true ost) v) -> Q tt l') -> wp (sl_mark_ready o) Q l;
  law_connect_streams : forall l v i ist o ost (Q : unit -> L -> Prop), rep l v ->
    v_is v !! i = Some ist -> is_pair ist = None -> v_os v !! o = Some ost -> os_pair ost = None ->
    (forall l', rep l' (v_set_os o (mk_os true (os_ready ost) (Some i)) (v_set_is i (mk_is true (is_ready ist) (Some o)) v)) -> Q tt l') ->
    wp (sl_connect_streams i o) Q l;
  law_disconnect_streams : forall l v i ist o ost (Q : unit -> L -> Prop), rep l v ->
    v_is v !! i = Some ist -> is_pair ist = Some o -> v_os v !! o = Some ost ->
    (forall l', rep l' (v_set_os o (set_os_pair None ost) (v_set_is i (set_is_pair None ist) v)) -> Q tt l') ->
    wp (sl_disconnect_streams i o) Q l;
  law_publish : forall l v p d (Q : unit -> L -> Prop), rep l v -> p ∈ v_pubs v ->
    (forall l', rep l' (v_published p d v) -> Q tt l') -> wp (sl_publish p d) Q l;
  law_set_timer : forall l v q t (Q : unit -> L -> Prop), rep l v -> 0 <= q < server_queues -> v_timers v !! t = Some None ->
    (forall l', rep l' (v_set_timer t (Some q) v) -> Q tt l') -> wp (sl_set_timer q t) Q l;
  law_unset_timer : forall l v q t x (Q : unit -> L -> Prop), rep l v -> v_timers v !! t = Some x -> (x = None \/ x = Some q) ->
    (forall l', rep l' (v_set_timer t None v) -> Q tt l') -> wp (sl_unset_timer q t) Q l;
  law_batch_write : forall l v fd (Q : unit -> L -> Prop), rep l v -> (forall l', rep l' v -> Q tt l') -> wp (sl_batch_write fd) Q l;
}.

(** * The loop keeps the promise *)

(** The loop with its timers; [sl_log] is the history of what was published,
    which nothing reads. *)
Record server_loop := mk_sl { sl_loop : nxe_loop; sl_timers : timers; sl_log : list (positive * Z) }.

Definition on_events {A} (c : M nxe_loop A) : M server_loop A := fun s =>
  match c (sl_loop s) with Ok (a, l) => Ok (a, mk_sl l (sl_timers s) (sl_log s)) | Err e => Err e end.
Definition on_timers {A} (c : M timers A) : M server_loop A := fun s =>
  match c (sl_timers s) with Ok (a, t) => Ok (a, mk_sl (sl_loop s) t (sl_log s)) | Err e => Err e end.

(** [if (sub->pub) nxe_unsubscribe(sub->pub, sub);] *)
Definition unsubscribe (s : positive) : M nxe_loop unit :=
  let! sub := get_sub s in match sub_pub sub with Some p => nxe_unsubscribe p s | None => ret tt end.
(** [while (pub->sub) nxe_unsubscribe(pub, pub->sub);] *)
Definition unsubscribe_all (p : positive) : M nxe_loop unit :=
  let! l := get in
  loop (S (size (l_subscribers l))) (fun _ =>
    let! pub := get_pub p in
    match pub_sub pub with
    | Some s => do! nxe_unsubscribe p s in ret (inl tt)
    | None => ret (inr tt)
    end) tt.
(** The first write of a batch corks the socket. *)
Definition batch_write (fd : Z) : M nxe_loop unit :=
  let! l := get in if l_batch_write_fd l =? 0 then modify (set_batch_write_fd fd) else ret tt.

#[export] Instance server_loop_ops : LoopOps server_loop := {
  sl_istream i := on_events (get_is i);
  sl_ostream o := on_events (get_os o);
  sl_init_istream i := on_events (nxe_init_istream i);
  sl_istream_set_ready i := on_events (nxe_istream_set_ready i);
  sl_istream_unset_ready i := on_events (nxe_istream_unset_ready i);
  sl_mark_istream i := on_events (upd_is i (set_is_ready true));
  sl_ostream_set_ready o := on_events (nxe_ostream_set_ready o);
  sl_ostream_unset_ready o := on_events (nxe_ostream_unset_ready o);
  sl_mark_ready o := on_events (upd_os o (set_os_ready true));
  sl_connect_streams i o := on_events (nxe_connect_streams i o);
  sl_disconnect_streams i o := on_events (nxe_disconnect_streams i o);
  sl_publish p d := do! on_events (nxe_publish p d) in modify (fun s => mk_sl (sl_loop s) (sl_timers s) (sl_log s ++ [(p, d)]));
  sl_unsubscribe s := on_events (unsubscribe s);
  sl_unsubscribe_all p := on_events (unsubscribe_all p);
  sl_set_timer q t := on_timers (nxe_set_timer q t);
  sl_unset_timer q t := on_timers (nxe_unset_timer q t);
  sl_batch_write fd := on_events (batch_write fd);
}.

(** The queue each known timer is set in. *)
Definition timer_view (tm : timers) (A : schedule) (m : gmap positive (option Z)) : Prop :=
  dom m = dom (t_all tm) /\
  forall t x, m !! t = Some x ->
    match x with
    | Some q => 0 <= q < server_queues /\ exists a l, A !! Z.to_nat q = Some l /\ (t, a) ∈ l
    | None => t ∉ set_timers A
    end.
(** Every timeout the server sets is longer than the precision of the timers. *)
Definition timeouts_set (tm : timers) : Prop := forall i d, (i < Z.to_nat server_queues)%nat -> timeouts_of tm !! i = Some d -> precision < d.

Definition loop_rep (s : server_loop) (v : view) : Prop :=
  (exists q, loop_inv InProtocol q (sl_loop s)) /\
  l_istreams (sl_loop s) = v_is v /\ l_ostreams (sl_loop s) = v_os v /\ dom (l_publishers (sl_loop s)) = v_pubs v /\
  (exists A, timers_ok (sl_timers s) A /\ timer_view (sl_timers s) A (v_timers v)) /\ timeouts_set (sl_timers s) /\
  sl_log s = v_log v.

(** ** Effects on the streams *)

Lemma connect_streams_effect i o ist ost l l' :
  l_istreams l !! i = Some ist -> l_ostreams l !! o = Some ost -> nxe_connect_streams i o l = Ok (tt, l') ->
  l_istreams l' = <[i := mk_is true (is_ready ist) (Some o)]> (l_istreams l) /\
  l_ostreams l' = <[o := mk_os true (os_ready ost) (Some i)]> (l_ostreams l).
Proof.
  intros Hi Ho. unfold nxe_connect_streams, upd_is, upd_os, get_is, get_os, load, bind, get, put, lift_opt, ret, upd. rewrite Hi. cbn.
  rewrite Ho. cbn. rewrite lookup_insert_eq. cbn. rewrite lookup_insert_eq. cbn.
  destruct (is_ready ist && os_ready ost); [|by intros [= <-]]. by intros [-> ->]%emit_stream_streams.
Qed.
Lemma unlink_streams e l l' : nxe_unlink e l = Ok (tt, l') -> l_istreams l' = l_istreams l /\ l_ostreams l' = l_ostreams l.
Proof.
  unfold nxe_unlink, get_evt, upd_evt, bind, get, put, assert_, lift_opt, ret, fail.
  destruct (l_events l !! e) as [evt|]; [cbn|done]. destruct (evt_loop evt); [cbn|done].
  destruct (dll_unlink _ _ _ _) as [[[m f] la]|]; [cbn|done]. destruct (upd e _ m); [cbn|done]. by intros [= <-].
Qed.
Lemma disconnect_streams_effect i o ist ost l l' :
  l_istreams l !! i = Some ist -> l_ostreams l !! o = Some ost -> nxe_disconnect_streams i o l = Ok (tt, l') ->
  l_istreams l' = <[i := set_is_pair None ist]> (l_istreams l) /\ l_ostreams l' = <[o := set_os_pair None ost]> (l_ostreams l).
Proof.
  intros Hi Ho. unfold nxe_disconnect_streams, upd_is, upd_os, get_evt, bind, get, put, lift_opt, ret, fail, upd. rewrite Hi. cbn.
  rewrite Ho. cbn. destruct (l_events l !! Embedded i) as [evt|]; [cbn|done]. destruct (evt_loop evt); [|by intros [= <-]].
  by intros [-> ->]%unlink_streams.
Qed.

(** Operations that leave the publishers alone. *)
Definition keeps_pubs {A} (c : M nxe_loop A) : Prop := forall l a l', c l = Ok (a, l') -> l_publishers l' = l_publishers l.
Lemma kp_bind {A B} (c : M nxe_loop A) (k : A -> M nxe_loop B) : keeps_pubs c -> (forall a, keeps_pubs (k a)) -> keeps_pubs (bind c k).
Proof.
  intros Hc Hk l b l2. unfold bind. destruct (c l) as [[a l1]|] eqn:E; [|done]. intros E2. rewrite (Hk _ _ _ _ E2). exact (Hc _ _ _ E).
Qed.
Lemma kp_ret {A} (a : A) : keeps_pubs (ret a).
Proof. by intros l a' l' [= _ <-]. Qed.
Lemma kp_get : keeps_pubs get.
Proof. by intros l a l' [= _ <-]. Qed.
Lemma kp_lift {A} e (o : option A) : keeps_pubs (lift_opt e o).
Proof. destruct o; [apply kp_ret|done]. Qed.
Lemma kp_assert b : keeps_pubs (assert_ b).
Proof. destruct b; [apply kp_ret|done]. Qed.
Lemma kp_load {A} (sel : nxe_loop -> gmap positive A) k : keeps_pubs (load sel k).
Proof. apply kp_bind; [apply kp_get|intros l; apply kp_lift]. Qed.
Lemma kp_get_evt e : keeps_pubs (get_evt e).
Proof. apply kp_bind; [apply kp_get|intros l; apply kp_lift]. Qed.
Lemma kp_upd_is k f : keeps_pubs (upd_is k f).
Proof. intros l a l'. unfold upd_is, bind, get, lift_opt, put, ret, fail. destruct (upd _ _ _); [by intros [= _ <-]|done]. Qed.
Lemma kp_upd_os k f : keeps_pubs (upd_os k f).
Proof. intros l a l'. unfold upd_os, bind, get, lift_opt, put, ret, fail. destruct (upd _ _ _); [by intros [= _ <-]|done]. Qed.
Lemma kp_upd_sub k f : keeps_pubs (upd_sub k f).
Proof. intros l a l'. unfold upd_sub, bind, get, lift_opt, put, ret, fail. destruct (upd _ _ _); [by intros [= _ <-]|done]. Qed.
Lemma kp_upd_evt k f : keeps_pubs (upd_evt k f).
Proof. intros l a l'. unfold upd_evt, bind, get, lift_opt, put, ret, fail. destruct (upd _ _ _); [by intros [= _ <-]|done]. Qed.
Lemma kp_loop {X R} (body : X -> M nxe_loop (X + R)) fuel x : (forall x, keeps_pubs (body x)) -> keeps_pubs (loop fuel body x).
Proof.
  intros Hb. revert x. induction fuel as [|n IH]; intros x; [done|]. rewrite loop_S. apply kp_bind; [done|]. intros [x'|r]; [apply IH|apply kp_ret].
Qed.
Lemma kp_link e : keeps_pubs (nxe_link e).
Proof.
  intros l a l'. unfold nxe_link, get_evt, upd_evt, bind, get, put, assert_, lift_opt, ret, fail.
  destruct (l_events l !! e) as [evt|]; [cbn|done]. destruct (negb (bool_decide _)); [cbn|done]. destruct (negb (evt_loop evt)); [cbn|done].
  destruct (dll_push_back _ _ _ _) as [[[m f] la]|]; [cbn|done]. destruct (upd e _ m); [cbn|done]. by intros [= _ <-].
Qed.
Lemma kp_unlink e : keeps_pubs (nxe_unlink e).
Proof.
  intros l a l'. unfold nxe_unlink, get_evt, upd_evt, bind, get, put, assert_, lift_opt, ret, fail.
  destruct (l_events l !! e) as [evt|]; [cbn|done]. destruct (evt_loop evt); [cbn|done].
  destruct (dll_unlink _ _ _ _) as [[[m f] la]|]; [cbn|done]. destruct (upd e _ m); [cbn|done]. by intros [= _ <-].
Qed.
Ltac keeps_pubs_step :=
  first [apply kp_ret | apply kp_get | apply kp_lift | apply kp_load | apply kp_get_evt | apply kp_upd_is | apply kp_upd_os
        | apply kp_upd_sub | apply kp_upd_evt | apply kp_link | apply kp_unlink | apply kp_bind; [|intros ?] | case_match].
Lemma kp_istream_set_ready i : keeps_pubs (nxe_istream_set_ready i).
Proof. unfold nxe_istream_set_ready, emit_stream, get_is, get_os. repeat keeps_pubs_step. Qed.
Lemma kp_ostream_set_ready o : keeps_pubs (nxe_ostream_set_ready o).
Proof. unfold nxe_ostream_set_ready, emit_stream, get_is, get_os. repeat keeps_pubs_step. Qed.
Lemma kp_connect i o : keeps_pubs (nxe_connect_streams i o).
Proof. unfold nxe_connect_streams, emit_stream, get_is, get_os. repeat keeps_pubs_step. Qed.
Lemma kp_disconnect i o : keeps_pubs (nxe_disconnect_streams i o).
Proof. unfold nxe_disconnect_streams. repeat keeps_pubs_step. Qed.
Lemma kp_publish p d : keeps_pubs (nxe_publish p d).
Proof.
  unfold nxe_publish, get_pub. apply kp_bind; [apply kp_load|]. intros pub. destruct (negb _); [apply kp_ret|].
  apply kp_bind; [apply kp_get|]. intros l. apply kp_loop. intros [s|]; [|apply kp_ret].
  unfold publish_to, get_sub. apply kp_bind; [|intros []; repeat keeps_pubs_step].
  apply kp_bind; [by intros l0 a l' [= _ <-]|]. intros e. apply kp_bind; [apply kp_link|]. intros []. apply kp_bind; [apply kp_load|].
  intros sub. destruct (sub_evt sub); [|apply kp_upd_sub]. apply kp_bind; [|intros ?; apply kp_upd_evt].
  unfold last_active. apply kp_bind; [apply kp_get|]. intros l1. apply kp_loop. intros e1. repeat keeps_pubs_step.
Qed.

(** ** The laws *)

Lemma loop_rep_pub s v p : loop_rep s v -> p ∈ v_pubs v -> is_Some (l_publishers (sl_loop s) !! p).
Proof. intros (_ & _ & _ & <- & _). by rewrite elem_of_dom. Qed.

(** An operation of the event loop with a known effect on the streams. *)
Lemma wp_on_events {A} (c : M nxe_loop A) s v is' os' (Q : A -> server_loop -> Prop) :
  loop_rep s v -> keeps_pubs c ->
  (forall q, loop_inv InProtocol q (sl_loop s) -> wp c (fun _ l' => exists q', loop_inv InProtocol q' l') (sl_loop s)) ->
  (forall a l', c (sl_loop s) = Ok (a, l') -> l_istreams l' = is' /\ l_ostreams l' = os') ->
  (forall a s', loop_rep s' (mk_view is' os' (v_pubs v) (v_timers v) (v_log v)) -> sl_log s' = sl_log s -> Q a s') ->
  wp (on_events c) Q s.
Proof.
  intros ([q Hinv] & Hi & Ho & Hp & HA & Ht & Hl) Hk Hw He HQ. specialize (Hw q Hinv). unfold wp, on_events in *.
  destruct (c (sl_loop s)) as [[a l']|] eqn:E; [|done]. destruct (He a l' eq_refl) as [E1 E2]. apply HQ; [|done].
  split_and!; try done. cbn. by rewrite (Hk _ _ _ E).
Qed.

Lemma server_queue_at tm A q : timers_ok tm A -> 0 <= q < server_queues -> exists l d, A !! Z.to_nat q = Some l /\ timeouts_of tm !! Z.to_nat q = Some d.
Proof.
  intros Hok Hq. unfold server_queues in Hq. destruct (timers_queue tm A (Z.to_nat q) Hok) as (tq & l & H1 & H2 & _); [unfold NXE_NUMBER_OF_TIMER_QUEUES; lia|].
  exists l, (tq_timeout tq). split; [done|]. unfold timeouts_of. by rewrite list_lookup_fmap, H1.
Qed.
Lemma timer_view_dom tm A m t x : timer_view tm A m -> m !! t = Some x -> is_Some (t_all tm !! t).
Proof. intros [Hd _] Ht. apply elem_of_dom. rewrite <- Hd. by eapply elem_of_dom_2. Qed.
Lemma timeouts_same tm tm' : same_clock tm tm' -> timeouts_set tm -> timeouts_set tm'.
Proof. intros (_ & E & _) H i d. rewrite E. apply H. Qed.

(** Setting and unsetting a timer changes the queue of no other. *)
Lemma timer_view_set tm tm' A m q l t a :
  timer_view tm A m -> timers_ok tm A -> same_clock tm tm' -> A !! Z.to_nat q = Some l -> 0 <= q < server_queues -> m !! t = Some None ->
  timer_view tm' (<[Z.to_nat q := l ++ [(t, a)]]> A) (<[t := Some q]> m).
Proof.
  intros [Hd Hv] (_ & Hnd & _) (_ & _ & Hdom) Hl Hq Ht. split.
  - rewrite dom_insert_L, Hdom, <- Hd. apply elem_of_dom_2 in Ht. set_solver.
  - pose proof (lookup_lt_Some _ _ _ Hl) as Hlt. intros t' x. destruct (decide (t = t')) as [->|Hne].
    + rewrite lookup_insert_eq. intros [= <-]. split; [done|]. exists a, (l ++ [(t', a)]). rewrite list_lookup_insert_eq by done. set_solver.
    + rewrite lookup_insert_ne by done. intros Hx. specialize (Hv _ _ Hx). destruct x as [q'|].
      * destruct Hv as (Hq' & a' & l' & Hl' & Hin). split; [done|]. destruct (decide (Z.to_nat q = Z.to_nat q')) as [E|E].
        -- exists a', (l ++ [(t, a)]). rewrite E in *. rewrite list_lookup_insert_eq by done. split; [done|]. rewrite Hl in Hl'. injection Hl' as <-. set_solver.
        -- exists a', l'. by rewrite list_lookup_insert_ne by done.
      * rewrite (set_timers_insert A _ l) by done. rewrite (set_timers_at A _ l) in Hv by done. rewrite fmap_app. set_solver.
Qed.
Lemma timer_view_unset tm tm' A m q l1 l2 t a :
  timer_view tm A m -> timers_ok tm A -> same_clock tm tm' -> A !! Z.to_nat q = Some (l1 ++ (t, a) :: l2) -> is_Some (m !! t) ->
  timer_view tm' (<[Z.to_nat q := l1 ++ l2]> A) (<[t := None]> m).
Proof.
  intros [Hd Hv] (_ & Hnd & _) (_ & _ & Hdom) Hl [x0 Ht0]. pose proof (lookup_lt_Some _ _ _ Hl) as Hlt.
  pose proof Hnd as Hnd'. rewrite (set_timers_at A _ _ Hl) in Hnd'. rewrite fmap_app, fmap_cons in Hnd'.
  assert (Ht : t ∉ (l1 ++ l2).*1 ++ (others A (Z.to_nat q)).*1).
  { rewrite fmap_app. cbn in Hnd'. apply NoDup_app in Hnd' as (H1 & H2 & _). apply NoDup_app in H1 as (_ & H3 & H4). apply NoDup_cons in H4 as [H4 _].
    pose proof (H2 t). pose proof (H3 t). set_solver. }
  split; [rewrite dom_insert_L, Hdom, <- Hd; apply elem_of_dom_2 in Ht0; set_solver|].
  intros t' x. destruct (decide (t = t')) as [->|Hne].
  - rewrite lookup_insert_eq. intros [= <-]. by rewrite (set_timers_insert A _ _ _ Hl).
  - rewrite lookup_insert_ne by done. intros Hx. specialize (Hv _ _ Hx). destruct x as [q'|].
    + destruct Hv as (Hq' & a' & l' & Hl' & Hin). split; [done|]. destruct (decide (Z.to_nat q = Z.to_nat q')) as [E|E].
      * exists a', (l1 ++ l2). rewrite E in *. rewrite list_lookup_insert_eq by done. split; [done|]. rewrite Hl in Hl'. injection Hl' as <-. set_solver.
      * exists a', l'. by rewrite list_lookup_insert_ne by done.
    + rewrite (set_timers_insert A _ _ _ Hl). rewrite (set_timers_at A _ _ Hl), fmap_app, fmap_cons in Hv. rewrite fmap_app. set_solver.
Qed.
Lemma op_post_any q l : op_post InProtocol q l -> exists q', loop_inv InProtocol q' l.
Proof. intros (q' & H & _). by exists q'. Qed.

Lemma mark_istream_ok q l i ist : loop_inv InProtocol q l -> l_istreams l !! i = Some ist ->
  wp (upd_is i (set_is_ready true)) (fun _ l' => exists q', loop_inv InProtocol q' l') l.
Proof.
  intros Hinv Hi. pose proof Hinv as (Hq & Hs & _). eapply wp_upd_is; [exact Hi|]. apply (op_post_any q). eapply op_post_same; [exact Hinv|done|done|].
  eapply streams_ok_weaken; [|by apply streams_ok_is_ready]. intros i' o' _. by right.
Qed.
Lemma mark_ostream_ok q l o ost : loop_inv InProtocol q l -> l_ostreams l !! o = Some ost ->
  wp (upd_os o (set_os_ready true)) (fun _ l' => exists q', loop_inv InProtocol q' l') l.
Proof.
  intros Hinv Ho. pose proof Hinv as (Hq & Hs & _). eapply wp_upd_os; [exact Ho|]. apply (op_post_any q). eapply op_post_same; [exact Hinv|done|done|].
  eapply streams_ok_weaken; [|by apply streams_ok_os_ready]. intros i' o' _. by right.
Qed.


#[export] Program Instance server_loop_services : LoopServices server_loop := { rep := loop_rep }.
Next Obligation.
  intros l v i o ([q (_ & Hs & _)] & <- & <- & _). apply (s_pair _ _ _ Hs).
Qed.
Next Obligation.
  intros l v i ist Q (_ & Hi & _) Hv HQ. rewrite <- Hi in Hv. unfold wp. cbn. unfold on_events, get_is, load, bind, get, lift_opt. rewrite Hv. by destruct l.
Qed.
Next Obligation.
  intros l v o ost Q (_ & _ & Ho & _) Hv HQ. rewrite <- Ho in Hv. unfold wp. cbn. unfold on_events, get_os, load, bind, get, lift_opt. rewrite Hv. by destruct l.
Qed.
Next Obligation.
  intros l v i Q Hr Hf HQ. pose proof Hr as (_ & Hi & Ho & _). eapply wp_on_events; [exact Hr|by intros l0 a l' [= _ <-]| | |].
  - intros q Hinv. eapply wp_init_istream; [exact Hinv| |apply op_post_any]. intros ist. rewrite Hi. apply Hf.
  - by intros a l' [= _ <-].
  - intros [] s' Hs _. apply HQ. cbn in Hs. by rewrite ?Hi, ?Ho in Hs.
Qed.
Next Obligation.
  intros l v i ist Q Hr Hv HQ. pose proof Hr as (_ & Hi & Ho & _). rewrite <- Hi in Hv. eapply wp_on_events; [exact Hr|apply kp_istream_set_ready| | |].
  - intros q Hinv. eapply wp_istream_set_ready; [exact Hinv|by eexists|apply op_post_any].
  - intros [] l' E. apply (nxe_istream_set_ready_effect _ _ _ _ Hv E).
  - intros [] s' Hs _. apply HQ. by rewrite ?Hi, ?Ho in Hs.
Qed.
Next Obligation.
  intros l v i ist Q Hr Hv HQ. pose proof Hr as (_ & Hi & Ho & _). rewrite <- Hi in Hv. eapply wp_on_events; [exact Hr|apply kp_upd_is| | |].
  - intros q Hinv. eapply wp_istream_unset_ready; [exact Hinv|by eexists|apply op_post_any].
  - intros [] l' E. unfold nxe_istream_unset_ready, upd_is, bind, get, lift_opt, upd, put, ret in E. rewrite Hv in E. by injection E as <-.
  - intros [] s' Hs _. apply HQ. by rewrite ?Hi, ?Ho in Hs.
Qed.
Next Obligation.
  intros l v i ist Q Hr Hv HQ. pose proof Hr as (_ & Hi & Ho & _). rewrite <- Hi in Hv. eapply wp_on_events; [exact Hr|apply kp_upd_is| | |].
  - intros q Hinv. by eapply mark_istream_ok.
  - intros [] l' E. unfold upd_is, bind, get, lift_opt, upd, put, ret in E. rewrite Hv in E. by injection E as <-.
  - intros [] s' Hs _. apply HQ. by rewrite ?Hi, ?Ho in Hs.
Qed.
Next Obligation.
  intros l v o ost Q Hr Hv HQ. pose proof Hr as (_ & Hi & Ho & _). rewrite <- Ho in Hv. eapply wp_on_events; [exact Hr|apply kp_ostream_set_ready| | |].
  - intros q Hinv. eapply wp_ostream_set_ready; [exact Hinv|by eexists|apply op_post_any].
  - intros [] l' E. apply (nxe_ostream_set_ready_effect _ _ _ _ Hv E).
  - intros [] s' Hs _. apply HQ. by rewrite ?Hi, ?Ho in Hs.
Qed.
Next Obligation.
  intros l v o ost Q Hr Hv HQ. pose proof Hr as (_ & Hi & Ho & _). rewrite <- Ho in Hv. eapply wp_on_events; [exact Hr|apply kp_upd_os| | |].
  - intros q Hinv. eapply wp_ostream_unset_ready; [exact Hinv|by eexists|apply op_post_any].
  - intros [] l' E. unfold nxe_ostream_unset_ready, upd_os, bind, get, lift_opt, upd, put, ret in E. rewrite Hv in E. by injection E as <-.
  - intros [] s' Hs _. apply HQ. by rewrite ?Hi, ?Ho in Hs.
Qed.
Next Obligation.
  intros l v o ost Q Hr Hv HQ. pose proof Hr as (_ & Hi & Ho & _). rewrite <- Ho in Hv. eapply wp_on_events; [exact Hr|apply kp_upd_os| | |].
  - intros q Hinv. by eapply mark_ostream_ok.
  - intros [] l' E. unfold upd_os, bind, get, lift_opt, upd, put, ret in E. rewrite Hv in E. by injection E as <-.
  - intros [] s' Hs _. apply HQ. by rewrite ?Hi, ?Ho in Hs.
Qed.
Next Obligation.
  intros l v i ist o ost Q Hr Hv Hp Hv2 Hp2 HQ. pose proof Hr as (_ & Hi & Ho & _). rewrite <- Hi in Hv. rewrite <- Ho in Hv2.
  eapply wp_on_events; [exact Hr|apply kp_connect| | |].
  - intros q Hinv. eapply wp_connect; [exact Hinv|by exists ist, ost|apply op_post_any].
  - intros [] l' E. apply (connect_streams_effect _ _ _ _ _ _ Hv Hv2 E).
  - intros [] s' Hs _. apply HQ. by rewrite ?Hi, ?Ho in Hs.
Qed.
Next Obligation.
  intros l v i ist o ost Q Hr Hv Hp Hv2 HQ. pose proof Hr as (_ & Hi & Ho & _). rewrite <- Hi in Hv. rewrite <- Ho in Hv2.
  eapply wp_on_events; [exact Hr|apply kp_disconnect| | |].
  - intros q Hinv. eapply wp_disconnect; [exact Hinv|done|done|apply op_post_any].
  - intros [] l' E. apply (disconnect_streams_effect _ _ _ _ _ _ Hv Hv2 E).
  - intros [] s' Hs _. apply HQ. by rewrite ?Hi, ?Ho in Hs.
Qed.
Next Obligation.
  intros l v p d Q Hr Hp HQ. pose proof (loop_rep_pub _ _ _ Hr Hp) as [pub Hpub]. pose proof Hr as (_ & Hi & Ho & _).
  cbn. apply wp_bind. eapply wp_on_events; [exact Hr|apply kp_publish| | |].
  - intros q Hinv. pose proof Hinv as (_ & _ & Hs & _). destruct (u_pubs _ _ _ Hs p pub Hpub) as (sl & Hc & _).
    eapply wp_publish; [exact Hinv|exact Hpub|exact Hc|]. intros l' new H1 _. by eexists.
  - intros [] l' E. exact (keeps_publish p d _ tt l' E).
  - intros [] s' (H1 & H2 & H3 & H4 & H5 & H6 & H7) E. apply wp_modify, HQ. unfold loop_rep. cbn in *. rewrite <- Hi, <- Ho, <- H7. split_and!; done.
Qed.
Next Obligation.
  intros l v q t Q (Hinv & Hi & Ho & Hp & (A & HA & Hv) & Hts & Hl) Hq Ht HQ. cbn. unfold wp, on_timers.
  destruct (server_queue_at _ _ _ HA Hq) as (ql & d & Hql & Hd).
  assert (Hnt : t ∉ set_timers A) by (destruct Hv as [_ Hv]; exact (Hv _ _ Ht)).
  assert (Hw : wp (nxe_set_timer q t) (fun _ tm' => timers_ok tm' (<[Z.to_nat q := ql ++ [(t, t_now (sl_timers l) + d)]]> A) /\ same_clock (sl_timers l) tm') (sl_timers l)).
  { eapply wp_set_timer; [exact HA|unfold server_queues, NXE_NUMBER_OF_TIMER_QUEUES in *; lia|exact Hql|exact Hd| |exact Hnt|by eapply timer_view_dom|done].
    apply (Hts (Z.to_nat q)); [unfold server_queues in *; lia|done]. }
  unfold wp in Hw. destruct (nxe_set_timer q t (sl_timers l)) as [[[] tm']|]; [|done]. destruct Hw as [Hok Hcl].
  apply HQ. split_and!; try done.
  - eexists. split; [exact Hok|]. by eapply timer_view_set.
  - by eapply timeouts_same.
Qed.
Next Obligation.
  intros l v q t x Q (Hinv & Hi & Ho & Hp & (A & HA & Hv) & Hts & Hl) Ht Hx HQ. cbn. unfold wp, on_timers. pose proof Hv as [_ Hvt].
  specialize (Hvt _ _ Ht). destruct Hx as [->| ->].
  - assert (Hw : wp (nxe_unset_timer q t) (fun _ tm' => tm' = sl_timers l) (sl_timers l)).
    { eapply wp_unset_timer_unset; [exact HA|done|by eapply timer_view_dom|done]. }
    unfold wp in Hw. destruct (nxe_unset_timer q t (sl_timers l)) as [[[] tm']|]; [|done]. subst tm'.
    apply HQ. split_and!; try done. exists A. split; [done|]. cbn. by rewrite insert_id.
  - destruct Hvt as (Hq & a & ql & Hql & Hin). apply list_elem_of_split in Hin as (l1 & l2 & ->).
    assert (Hw : wp (nxe_unset_timer q t) (fun _ tm' => timers_ok tm' (<[Z.to_nat q := l1 ++ l2]> A) /\ same_clock (sl_timers l) tm') (sl_timers l)).
    { eapply wp_unset_timer; [exact HA|lia|exact Hql|done]. }
    unfold wp in Hw. destruct (nxe_unset_timer q t (sl_timers l)) as [[[] tm']|]; [|done]. destruct Hw as [Hok Hcl].
    apply HQ. split_and!; try done.
    + eexists. split; [exact Hok|]. eapply timer_view_unset; [done|done|done|done|by eexists].
    + by eapply timeouts_same.
Qed.
Next Obligation.
  intros l v fd Q ([q Hinv] & Hi & Ho & Hp & HA & Hts & Hl) HQ. cbn. unfold wp, on_events, batch_write, bind, get, modify, ret.
  destruct (l_batch_write_fd (sl_loop l) =? 0); apply HQ; (split; [exists q|split_and!; done]); [|exact Hinv].
  destruct Hinv as (H1 & [] & [] & H4). split_and!; [done|by split|by split|done].
Qed.
