(* ===== verification/Socket.v ===== *)
(** The plain socket (lib/nxd_socket.c): the methods of the two streams of a
    file descriptor on top of the system calls.

    The kernel is what the calls need of it: [k_in] are the results the coming
    [read]s have in store (data that does not fit stays), [accept n size] is the
    number of bytes that the [n]-th write or sendfile takes of [size], or -1
    for [EAGAIN] and another negative number for any other error, and [k_out]
    are the bytes taken so far.  [file fd] is what an open file holds. *)
From S2P Require Import Prelude Event LoopServices.
Open Scope Z_scope.

Inductive recv_result := RecvData (s : bytes) | RecvAgain | RecvFail.
Record kernel := mk_kernel {
  k_in : list recv_result;
  k_calls : nat;
  k_out : bytes;
  k_shutdown : bool;
  k_closed : list Z;
}.

(** What is written: memory, or a file from an offset. *)
Inductive wsrc := WMem (s : bytes) | WFile (fd offset : Z).

Definition NXE_RDCLOSED : Z := -5.
Definition NXE_WRITTEN_NONE : Z := -6.

(** [read(fd, ptr, size)] *)
Definition sys_read (size : Z) : M kernel recv_result := fun k =>
  let keep r rest := Ok (r, mk_kernel rest (k_calls k) (k_out k) (k_shutdown k) (k_closed k)) in
  match k_in k with
  | [] => Ok (RecvAgain, k)
  | RecvData s :: rest =>
      if zlen s <=? size then keep (RecvData s) rest
      else keep (RecvData (take (Z.to_nat size) s)) (RecvData (drop (Z.to_nat size) s) :: rest)
  | r :: rest => keep r rest
  end.

Section kernel.
Context (accept : nat -> Z -> Z) (file : Z -> bytes).

Definition src_bytes (src : wsrc) (size : Z) : bytes :=
  match src with
  | WMem s => take (Z.to_nat size) s
  | WFile fd offset => take (Z.to_nat size) (drop (Z.to_nat offset) (file fd))
  end.

(** [write] and [sendfile]. *)
Definition sys_write (src : wsrc) (size : Z) : M kernel Z := fun k =>
  let data := src_bytes src size in
  let n := Z.min (accept (k_calls k) size) (zlen data) in
  Ok (n, mk_kernel (k_in k) (S (k_calls k)) (k_out k ++ take (Z.to_nat n) data) (k_shutdown k) (k_closed k)).

Definition sys_shutdown : M kernel unit := modify (fun k => mk_kernel (k_in k) (k_calls k) (k_out k) true (k_closed k)).
Definition sys_close (fd : Z) : M kernel unit :=
  modify (fun k => mk_kernel (k_in k) (k_calls k) (k_out k) (k_shutdown k) (k_closed k ++ [fd])).

(** The streams and the error publisher of the descriptor. *)
Record nxe_fd_source := mk_fs { fs_fd : Z; fs_data_is : positive; fs_data_os : positive; fs_data_error : positive }.

Context {L : Type} `{LoopOps L} (fs : nxe_fd_source).

Definition on_kernel {A} (c : M kernel A) : M (L * kernel) A := fun s =>
  match c s.2 with Ok (a, k) => Ok (a, (s.1, k)) | Err e => Err e end.
Definition on_io {A} (c : M L A) : M (L * kernel) A := fun s =>
  match c s.1 with Ok (a, l) => Ok (a, (l, s.2)) | Err e => Err e end.

Definition sock_data_recv_read (size : Z) : M (L * kernel) bytes :=
  if size <=? 0 then ret [] else
  let! r := on_kernel (sys_read size) in
  match r with
  | RecvAgain => do! on_io (sl_istream_unset_ready (fs_data_is fs)) in ret []
  | RecvFail =>
      do! on_io (sl_istream_unset_ready (fs_data_is fs)) in
      do! on_io (sl_publish (fs_data_error fs) NXE_ERROR) in ret []
  | RecvData s =>
      if zlen s <? size then
        do! on_io (sl_istream_unset_ready (fs_data_is fs)) in
        if zlen s =? 0 then do! on_io (sl_publish (fs_data_error fs) NXE_RDCLOSED) in ret [] else ret s
      else ret s
  end.

(** [sfd] is not 0 for a file. *)
Definition sock_data_send_write (src : wsrc) (size : Z) : M (L * kernel) Z :=
  if size <=? 0 then ret 0 else
  do! on_io (sl_batch_write (fs_fd fs)) in
  let! bytes_sent := on_kernel (sys_write src size) in
  if bytes_sent <? 0 then
    do! on_io (sl_ostream_unset_ready (fs_data_os fs)) in
    if! negb (bytes_sent =? -1) then on_io (sl_publish (fs_data_error fs) NXE_ERROR) in
    ret 0
  else if bytes_sent <? size then
    do! on_io (sl_ostream_unset_ready (fs_data_os fs)) in
    if (bytes_sent =? 0) && (match src with WMem _ => true | WFile sfd _ => sfd =? 0 end) then
      do! on_io (sl_publish (fs_data_error fs) NXE_WRITTEN_NONE) in ret 0
    else ret bytes_sent
  else ret bytes_sent.

Definition sock_data_send_shutdown : M (L * kernel) unit := on_kernel sys_shutdown.
Definition socket_shutdown : M (L * kernel) unit := on_kernel sys_shutdown.
End kernel.
