(* ===== verification/HttpServerProto.v ===== *)
(** The server side of the HTTP protocol (lib/nxd_http_server_proto.c): the
    state machine of a connection between its socket, the consumer of request
    bodies and the producer of response bodies.

    A connection ([conn]) is the loop with its timers, seen through the
    interface of LoopServices.v, the socket of Socket.v and the fields of
    [nxd_http_server_proto].  The streams and timers embedded in the structure
    are names ([hsp_names]).  The request is what the parser makes of the block
    received; the fields of it that the protocol itself updates later
    ([sending_100_continue], [content_received], [chunked_content_complete],
    [cdstate]) are fields of the record, as are [cestate] and [bytes_sent] of
    the response.  Strings of responses are values, see HttpResponse.v, and so
    are the two pointers into them: [first_body_chunk] and [resp_headers_ptr]
    are the bytes from the pointer on.

    Parameters: the allocator; [pool_block n], the block that the pool of
    buffers gives for the [n]-th request, with its address; the kernel; the
    class methods of the consumer and of a producer outside the structure; the
    callbacks that [_nxweb_call_request_finalizers] runs.  Log messages are not
    modelled. *)
From S2P Require Import Prelude CString Buffer Uri Chunked HttpTime HttpRequest HttpResponse.
From S2P Require Import Dll Event EventInv StreamBuffers LoopServices Socket.
From coqutil Require Import Datatypes.RecordSetters.
Import DoubleBraceUpdate.
Open Scope Z_scope.

(** * Data *)

Inductive nxd_http_server_proto_state :=
  HSP_WAITING_FOR_REQUEST | HSP_RECEIVING_HEADERS | HSP_RECEIVING_BODY | HSP_HANDLING | HSP_SENDING_HEADERS | HSP_SENDING_BODY.
#[export] Instance hsp_state_eq_dec : EqDecision nxd_http_server_proto_state.
Proof. solve_decision. Defined.

Definition NXD_HSP_KEEP_ALIVE_TIMEOUT : Z := -27001.
Definition NXD_HSP_READ_TIMEOUT : Z := -27002.
Definition NXD_HSP_WRITE_TIMEOUT : Z := -27003.
Definition NXD_HSP_REQUEST_CHUNKED_ENCODING_ERROR : Z := -27004.
Definition NXD_HSP_REQUEST_RECEIVED : Z := 27101.
Definition NXD_HSP_REQUEST_BODY_RECEIVED : Z := 27102.
Definition NXD_HSP_REQUEST_COMPLETE : Z := 27109.

Definition NXWEB_TIMER_KEEP_ALIVE : Z := 0.
Definition NXWEB_TIMER_READ : Z := 1.
Definition NXWEB_TIMER_WRITE : Z := 2.

Definition NXWEB_MAX_REQUEST_HEADERS_SIZE : Z := 4096.
Definition NXWEB_CONN_NXB_SIZE : Z := NXWEB_MAX_REQUEST_HEADERS_SIZE + 1024.

Definition response_100_continue : bytes := bs "HTTP/1.1 100 Continue" ++ [13; 10; 13; 10].

Record hsp_names := mk_names {
  data_in : positive; data_out : positive; req_body_out : positive; resp_body_in : positive;
  ob_data_out : positive; fb_data_out : positive; events_pub : positive; data_error : positive;
  timer_keep_alive : positive; timer_read : positive; timer_write : positive;
}.

Record nxd_http_server_proto := mk_hsp {
  hsp_nxb : option nxb_buffer;
  hsp_state : nxd_http_server_proto_state;
  hsp_request_count : Z;
  hsp_headers_bytes_received : Z;
  hsp_req : HttpRequest.request;
  hsp_sending_100_continue : bool;
  hsp_content_received : Z;
  hsp_chunked_content_complete : bool;
  hsp_cdstate : nxweb_chunked_decoder_state;
  hsp_resp : option response;
  hsp_resp_nxb : option nxb_buffer;
  hsp_cestate : nxweb_chunked_encoder_state;
  hsp_bytes_sent : Z;
  hsp_first_body_chunk : option bytes;
  hsp_resp_headers_ptr : option bytes;
  hsp_ob : nxd_obuffer;
  hsp_fb : nxd_fbuffer;
}.
Definition set_nxb (x : option nxb_buffer) (h : nxd_http_server_proto) : nxd_http_server_proto :=
  mk_hsp x (hsp_state h) (hsp_request_count h) (hsp_headers_bytes_received h) (hsp_req h) (hsp_sending_100_continue h) (hsp_content_received h) (hsp_chunked_content_complete h) (hsp_cdstate h) (hsp_resp h) (hsp_resp_nxb h) (hsp_cestate h) (hsp_bytes_sent h) (hsp_first_body_chunk h) (hsp_resp_headers_ptr h) (hsp_ob h) (hsp_fb h).
Definition set_state (x : nxd_http_server_proto_state) (h : nxd_http_server_proto) : nxd_http_server_proto :=
  mk_hsp (hsp_nxb h) x (hsp_request_count h) (hsp_headers_bytes_received h) (hsp_req h) (hsp_sending_100_continue h) (hsp_content_received h) (hsp_chunked_content_complete h) (hsp_cdstate h) (hsp_resp h) (hsp_resp_nxb h) (hsp_cestate h) (hsp_bytes_sent h) (hsp_first_body_chunk h) (hsp_resp_headers_ptr h) (hsp_ob h) (hsp_fb h).
Definition set_request_count (x : Z) (h : nxd_http_server_proto) : nxd_http_server_proto :=
  mk_hsp (hsp_nxb h) (hsp_state h) x (hsp_headers_bytes_received h) (hsp_req h) (hsp_sending_100_continue h) (hsp_content_received h) (hsp_chunked_content_complete h) (hsp_cdstate h) (hsp_resp h) (hsp_resp_nxb h) (hsp_cestate h) (hsp_bytes_sent h) (hsp_first_body_chunk h) (hsp_resp_headers_ptr h) (hsp_ob h) (hsp_fb h).
Definition set_headers_bytes_received (x : Z) (h : nxd_http_server_proto) : nxd_http_server_proto :=
  mk_hsp (hsp_nxb h) (hsp_state h) (hsp_request_count h) x (hsp_req h) (hsp_sending_100_continue h) (hsp_content_received h) (hsp_chunked_content_complete h) (hsp_cdstate h) (hsp_resp h) (hsp_resp_nxb h) (hsp_cestate h) (hsp_bytes_sent h) (hsp_first_body_chunk h) (hsp_resp_headers_ptr h) (hsp_ob h) (hsp_fb h).
Definition set_req (x : HttpRequest.request) (h : nxd_http_server_proto) : nxd_http_server_proto :=
  mk_hsp (hsp_nxb h) (hsp_state h) (hsp_request_count h) (hsp_headers_bytes_received h) x (hsp_sending_100_continue h) (hsp_content_received h) (hsp_chunked_content_complete h) (hsp_cdstate h) (hsp_resp h) (hsp_resp_nxb h) (hsp_cestate h) (hsp_bytes_sent h) (hsp_first_body_chunk h) (hsp_resp_headers_ptr h) (hsp_ob h) (hsp_fb h).
Definition set_sending_100_continue (x : bool) (h : nxd_http_server_proto) : nxd_http_server_proto :=
  mk_hsp (hsp_nxb h) (hsp_state h) (hsp_request_count h) (hsp_headers_bytes_received h) (hsp_req h) x (hsp_content_received h) (hsp_chunked_content_complete h) (hsp_cdstate h) (hsp_resp h) (hsp_resp_nxb h) (hsp_cestate h) (hsp_bytes_sent h) (hsp_first_body_chunk h) (hsp_resp_headers_ptr h) (hsp_ob h) (hsp_fb h).
Definition set_content_received (x : Z) (h : nxd_http_server_proto) : nxd_http_server_proto :=
  mk_hsp (hsp_nxb h) (hsp_state h) (hsp_request_count h) (hsp_headers_bytes_received h) (hsp_req h) (hsp_sending_100_continue h) x (hsp_chunked_content_complete h) (hsp_cdstate h) (hsp_resp h) (hsp_resp_nxb h) (hsp_cestate h) (hsp_bytes_sent h) (hsp_first_body_chunk h) (hsp_resp_headers_ptr h) (hsp_ob h) (hsp_fb h).
Definition set_chunked_content_complete (x : bool) (h : nxd_http_server_proto) : nxd_http_server_proto :=
  mk_hsp (hsp_nxb h) (hsp_state h) (hsp_request_count h) (hsp_headers_bytes_received h) (hsp_req h) (hsp_sending_100_continue h) (hsp_content_received h) x (hsp_cdstate h) (hsp_resp h) (hsp_resp_nxb h) (hsp_cestate h) (hsp_bytes_sent h) (hsp_first_body_chunk h) (hsp_resp_headers_ptr h) (hsp_ob h) (hsp_fb h).
Definition set_cdstate (x : nxweb_chunked_decoder_state) (h : nxd_http_server_proto) : nxd_http_server_proto :=
  mk_hsp (hsp_nxb h) (hsp_state h) (hsp_request_count h) (hsp_headers_bytes_received h) (hsp_req h) (hsp_sending_100_continue h) (hsp_content_received h) (hsp_chunked_content_complete h) x (hsp_resp h) (hsp_resp_nxb h) (hsp_cestate h) (hsp_bytes_sent h) (hsp_first_body_chunk h) (hsp_resp_headers_ptr h) (hsp_ob h) (hsp_fb h).
Definition set_resp (x : option response) (h : nxd_http_server_proto) : nxd_http_server_proto :=
  mk_hsp (hsp_nxb h) (hsp_state h) (hsp_request_count h) (hsp_headers_bytes_received h) (hsp_req h) (hsp_sending_100_continue h) (hsp_content_received h) (hsp_chunked_content_complete h) (hsp_cdstate h) x (hsp_resp_nxb h) (hsp_cestate h) (hsp_bytes_sent h) (hsp_first_body_chunk h) (hsp_resp_headers_ptr h) (hsp_ob h) (hsp_fb h).
Definition set_resp_nxb (x : option nxb_buffer) (h : nxd_http_server_proto) : nxd_http_server_proto :=
  mk_hsp (hsp_nxb h) (hsp_state h) (hsp_request_count h) (hsp_headers_bytes_received h) (hsp_req h) (hsp_sending_100_continue h) (hsp_content_received h) (hsp_chunked_content_complete h) (hsp_cdstate h) (hsp_resp h) x (hsp_cestate h) (hsp_bytes_sent h) (hsp_first_body_chunk h) (hsp_resp_headers_ptr h) (hsp_ob h) (hsp_fb h).
Definition set_cestate (x : nxweb_chunked_encoder_state) (h : nxd_http_server_proto) : nxd_http_server_proto :=
  mk_hsp (hsp_nxb h) (hsp_state h) (hsp_request_count h) (hsp_headers_bytes_received h) (hsp_req h) (hsp_sending_100_continue h) (hsp_content_received h) (hsp_chunked_content_complete h) (hsp_cdstate h) (hsp_resp h) (hsp_resp_nxb h) x (hsp_bytes_sent h) (hsp_first_body_chunk h) (hsp_resp_headers_ptr h) (hsp_ob h) (hsp_fb h).
Definition set_bytes_sent (x : Z) (h : nxd_http_server_proto) : nxd_http_server_proto :=
  mk_hsp (hsp_nxb h) (hsp_state h) (hsp_request_count h) (hsp_headers_bytes_received h) (hsp_req h) (hsp_sending_100_continue h) (hsp_content_received h) (hsp_chunked_content_complete h) (hsp_cdstate h) (hsp_resp h) (hsp_resp_nxb h) (hsp_cestate h) x (hsp_first_body_chunk h) (hsp_resp_headers_ptr h) (hsp_ob h) (hsp_fb h).
Definition set_first_body_chunk (x : option bytes) (h : nxd_http_server_proto) : nxd_http_server_proto :=
  mk_hsp (hsp_nxb h) (hsp_state h) (hsp_request_count h) (hsp_headers_bytes_received h) (hsp_req h) (hsp_sending_100_continue h) (hsp_content_received h) (hsp_chunked_content_complete h) (hsp_cdstate h) (hsp_resp h) (hsp_resp_nxb h) (hsp_cestate h) (hsp_bytes_sent h) x (hsp_resp_headers_ptr h) (hsp_ob h) (hsp_fb h).
Definition set_resp_headers_ptr (x : option bytes) (h : nxd_http_server_proto) : nxd_http_server_proto :=
  mk_hsp (hsp_nxb h) (hsp_state h) (hsp_request_count h) (hsp_headers_bytes_received h) (hsp_req h) (hsp_sending_100_continue h) (hsp_content_received h) (hsp_chunked_content_complete h) (hsp_cdstate h) (hsp_resp h) (hsp_resp_nxb h) (hsp_cestate h) (hsp_bytes_sent h) (hsp_first_body_chunk h) x (hsp_ob h) (hsp_fb h).
Definition set_ob (x : nxd_obuffer) (h : nxd_http_server_proto) : nxd_http_server_proto :=
  mk_hsp (hsp_nxb h) (hsp_state h) (hsp_request_count h) (hsp_headers_bytes_received h) (hsp_req h) (hsp_sending_100_continue h) (hsp_content_received h) (hsp_chunked_content_complete h) (hsp_cdstate h) (hsp_resp h) (hsp_resp_nxb h) (hsp_cestate h) (hsp_bytes_sent h) (hsp_first_body_chunk h) (hsp_resp_headers_ptr h) x (hsp_fb h).
Definition set_fb (x : nxd_fbuffer) (h : nxd_http_server_proto) : nxd_http_server_proto :=
  mk_hsp (hsp_nxb h) (hsp_state h) (hsp_request_count h) (hsp_headers_bytes_received h) (hsp_req h) (hsp_sending_100_continue h) (hsp_content_received h) (hsp_chunked_content_complete h) (hsp_cdstate h) (hsp_resp h) (hsp_resp_nxb h) (hsp_cestate h) (hsp_bytes_sent h) (hsp_first_body_chunk h) (hsp_resp_headers_ptr h) (hsp_ob h) x.

Record conn (L : Type) := mk_conn { c_loop : L; c_kernel : kernel; c_hsp : nxd_http_server_proto }.
Arguments mk_conn {L}. Arguments c_loop {L}. Arguments c_kernel {L}. Arguments c_hsp {L}.

(** The stream a response gets its body from: a name, 0 is null. *)
Definition content_out (resp : response) : option positive := match rs_content_out resp with Zpos i => Some i | _ => None end.

(** * Operations *)

Section proto.
Context {L : Type} `{LoopOps L} `{Alloc}.
Context (N : hsp_names) (fs : nxe_fd_source).
Context (accept : nat -> Z -> Z) (file : Z -> bytes).
(** [open]: the descriptor of a path, or -1. *)
Context (open_file : bytes -> Z).
Context (REVISION date : bytes).
Context (pool_block : Z -> Z * list Z) (unique_id : Z -> Z).
Context (consumer_do_read : positive -> M (conn L) unit) (producer_do_write : positive -> M (conn L) unit).
Context (call_finalizers : M (conn L) unit).

Definition on_l {A} (c : M L A) : M (conn L) A := fun s =>
  match c (c_loop s) with Ok (a, l) => Ok (a, mk_conn l (c_kernel s) (c_hsp s)) | Err e => Err e end.
Definition on_sock {A} (c : M (L * kernel) A) : M (conn L) A := fun s =>
  match c (c_loop s, c_kernel s) with Ok (a, (l, k)) => Ok (a, mk_conn l k (c_hsp s)) | Err e => Err e end.
Definition on_k {A} (c : M kernel A) : M (conn L) A := fun s =>
  match c (c_kernel s) with Ok (a, k) => Ok (a, mk_conn (c_loop s) k (c_hsp s)) | Err e => Err e end.
Definition get_hsp : M (conn L) nxd_http_server_proto := fun s => Ok (c_hsp s, s).
Definition upd_hsp (f : nxd_http_server_proto -> nxd_http_server_proto) : M (conn L) unit :=
  modify (fun s => mk_conn (c_loop s) (c_kernel s) (f (c_hsp s))).

(** The buffer of the request; the pointer is null between requests. *)
Definition on_req_nxb {A} (c : M nxb_buffer A) : M (conn L) A :=
  let! h := get_hsp in
  match hsp_nxb h with
  | None => fail BadPtr
  | Some nxb => match c nxb with Ok (a, nxb') => do! upd_hsp (set_nxb (Some nxb')) in ret a | Err e => fail e end
  end.
(** [resp->nxb]: its own ([rn]) or, when that is null, the request's. *)
Definition on_resp_nxb {A} (rn : option nxb_buffer) (c : M nxb_buffer A) : M (conn L) (A * option nxb_buffer) :=
  match rn with
  | None => let! a := on_req_nxb c in ret (a, None)
  | Some nxb => match c nxb with Ok (a, nxb') => ret (a, Some nxb') | Err e => fail e end
  end.

Definition set_timer (q : Z) (t : positive) : M (conn L) unit := on_l (sl_set_timer q t).
Definition unset_timer (q : Z) (t : positive) : M (conn L) unit := on_l (sl_unset_timer q t).
Definition publish (d : Z) : M (conn L) unit := on_l (sl_publish (events_pub N) d).
Definition sock_read (size : Z) : M (conn L) bytes := on_sock (sock_data_recv_read fs size).
Definition sock_write (src : wsrc) (size : Z) : M (conn L) Z := on_sock (sock_data_send_write accept file fs src size).

(** ** The end of a request *)

(** [if (os->pair) nxe_disconnect_streams(os->pair, os);] *)
Definition disconnect_ostream (o : positive) : M (conn L) unit :=
  let! ost := on_l (sl_ostream o) in
  match os_pair ost with Some i => on_l (sl_disconnect_streams i o) | None => ret tt end.
(** [if (is->pair) nxe_disconnect_streams(is, is->pair);] *)
Definition disconnect_istream (i : positive) : M (conn L) unit :=
  let! ist := on_l (sl_istream i) in
  match is_pair ist with Some o => on_l (sl_disconnect_streams i o) | None => ret tt end.

Definition request_complete : M (conn L) unit :=
  do! on_l (sl_istream_unset_ready (data_out N)) in
  do! unset_timer NXWEB_TIMER_WRITE (timer_write N) in
  do! disconnect_ostream (resp_body_in N) in
  do! disconnect_istream (req_body_out N) in
  publish NXD_HSP_REQUEST_COMPLETE.

Definition _nxweb_call_request_finalizers : M (conn L) unit :=
  let! h := get_hsp in
  do! (match hsp_resp h with
       | Some resp => match content_out resp with Some i => disconnect_istream i | None => ret tt end
       | None => ret tt
       end) in
  call_finalizers.

(** [nxd_fbuffer_finalize(&hsp->fb)] *)
Definition finalize_fbuffer : M (conn L) unit :=
  do! disconnect_istream (fb_data_out N) in
  upd_hsp (fun h => set_fb (mk_fb (fb_data_out N) 0 (fb_offset (hsp_fb h)) (fb_end (hsp_fb h))) h).

Definition close_sendfile : M (conn L) unit :=
  let! h := get_hsp in
  match hsp_resp h with
  | Some resp => if negb (rs_sendfile_fd resp =? 0) then on_k (sys_close (rs_sendfile_fd resp)) else ret tt
  | None => ret tt
  end.

(** The buffer is emptied and given back to the pool. *)
Definition request_cleanup : M (conn L) unit :=
  do! _nxweb_call_request_finalizers in
  do! finalize_fbuffer in
  do! close_sendfile in
  do! on_req_nxb (modify nxb_empty) in
  do! upd_hsp (fun h => set_nxb None (set_request_count (hsp_request_count h + 1)
    (set_state HSP_WAITING_FOR_REQUEST (set_headers_bytes_received 0 h)))) in
  let! h := get_hsp in
  do! (if match hsp_resp h with Some resp => rs_keep_alive resp | None => false end then
         do! on_l (sl_ostream_set_ready (data_in N)) in
         set_timer NXWEB_TIMER_KEEP_ALIVE (timer_keep_alive N)
       else
         let! ist := on_l (sl_istream (data_out N)) in
         do! (match is_pair ist with Some _ => on_k sys_shutdown | None => ret tt end) in
         set_timer NXWEB_TIMER_KEEP_ALIVE (timer_keep_alive N)) in
  upd_hsp (fun h => set_req request_zero (set_sending_100_continue false (set_content_received 0 (set_chunked_content_complete false
    (set_cdstate (mk_cds CDS_SIZE false false 0) (set_resp None (set_resp_nxb None (set_bytes_sent 0 h)))))))).

Definition nxd_http_server_proto_finalize : M (conn L) unit :=
  do! _nxweb_call_request_finalizers in
  do! unset_timer NXWEB_TIMER_KEEP_ALIVE (timer_keep_alive N) in
  do! unset_timer NXWEB_TIMER_READ (timer_read N) in
  do! unset_timer NXWEB_TIMER_WRITE (timer_write N) in
  do! on_l (sl_unsubscribe (data_error N)) in
  do! on_l (sl_unsubscribe_all (events_pub N)) in
  do! disconnect_ostream (data_in N) in
  do! disconnect_istream (data_out N) in
  do! disconnect_ostream (resp_body_in N) in
  do! disconnect_istream (req_body_out N) in
  do! finalize_fbuffer in
  do! close_sendfile in
  let! h := get_hsp in
  match hsp_nxb h with Some _ => on_req_nxb (modify nxb_empty) | None => ret tt end.

(** ** Starting a response *)

Definition nxd_http_server_proto_finish_response (resp : response) (rn : option nxb_buffer) : M (conn L) (response * option nxb_buffer) :=
  on_resp_nxb rn (
    let! u := nxb_get_unfinished in
    if snd u =? 0 then ret resp else
    if bool_decide (rs_content resp = None) && bool_decide (rs_sendfile_path resp = None) && (rs_sendfile_fd resp =? 0) then
      let! content := on_chunk (read_bytes (l_off (fst u)) (snd u)) in
      let! r := nxb_finish_stream in
      ret (resp{{rs_content := Some content; rs_content_length := snd r}})
    else do! nxb_unfinish_stream in ret resp).

(** [nxd_fbuffer_init] with the assertions before it. *)
Definition setup_fbuffer (resp : response) : M (conn L) response :=
  do! assert_ (rs_sendfile_end resp - rs_sendfile_offset resp =? rs_content_length resp) in
  let! h := get_hsp in
  do! assert_ (fb_fd (hsp_fb h) =? 0) in
  do! assert_ (0 <? rs_sendfile_fd resp) in
  do! on_l (sl_init_istream (fb_data_out N)) in
  do! on_l (sl_mark_istream (fb_data_out N)) in
  do! upd_hsp (set_fb (mk_fb (fb_data_out N) (rs_sendfile_fd resp) (rs_sendfile_offset resp) (rs_sendfile_end resp))) in
  ret (resp{{rs_content_out := Zpos (fb_data_out N)}}).

(** The content length is converted to the [int] of an output buffer. *)
Definition nxd_http_server_proto_setup_content_out (resp : response) (rn : option nxb_buffer) : M (conn L) (response * option nxb_buffer) :=
  match content_out resp with
  | Some _ => ret (resp, rn)
  | None =>
      let! r := nxd_http_server_proto_finish_response resp rn in
      let '(resp, rn) := r in
      let! resp := (
        match rs_content resp with
        | Some content =>
            if 0 <? rs_content_length resp then
              do! on_l (sl_init_istream (ob_data_out N)) in
              do! on_l (sl_mark_istream (ob_data_out N)) in
              do! upd_hsp (set_ob (mk_ob (ob_data_out N) content (wraps 32 (rs_content_length resp)))) in
              ret (resp{{rs_content_out := Zpos (ob_data_out N)}})
            else ret resp
        | None =>
            if negb (rs_sendfile_fd resp =? 0) && (0 <? rs_content_length resp) then setup_fbuffer resp
            else match rs_sendfile_path resp with
                 | Some path =>
                     if 0 <? rs_content_length resp then
                       let resp := resp{{rs_sendfile_fd := open_file path}} in
                       if negb (rs_sendfile_fd resp =? -1) then setup_fbuffer resp else ret resp
                     else ret resp
                 | None => ret resp
                 end
        end) in
      ret (resp, rn)
  end.

Definition nxweb_reset_content_out (resp : response) : M (conn L) response :=
  if! negb (rs_sendfile_fd resp =? 0) then on_k (sys_close (rs_sendfile_fd resp)) in
  let! h := get_hsp in
  if! negb (fb_fd (hsp_fb h) =? 0) then finalize_fbuffer in
  ret (resp{{rs_content_out := 0; rs_content := None; rs_content_length := 0; rs_sendfile_path := None; rs_sendfile_fd := 0;
             rs_chunked_autoencode := false; rs_chunked_encoding := false; rs_gzip_encoded := false}}).

(** The states from which a response can be started. *)
Definition can_start (s : nxd_http_server_proto_state) : bool :=
  match s with HSP_RECEIVING_HEADERS | HSP_RECEIVING_BODY | HSP_HANDLING => true | _ => false end.

Definition response_not_modified (req : HttpRequest.request) (resp : response) : bool :=
  negb (rq_if_modified_since req =? 0) && negb (rs_last_modified resp =? 0) &&
  (rs_last_modified resp <=? rq_if_modified_since req) && negb (rs_status_code resp =? 304).

(** The printed headers become [resp->raw_headers]. *)
Definition prepare_raw_headers (resp : response) (rn : option nxb_buffer) : M (conn L) (response * option nxb_buffer) :=
  match rs_raw_headers resp with
  | Some _ => ret (resp, rn)
  | None =>
      on_resp_nxb rn (
        let! r := _nxweb_prepare_response_headers REVISION date resp in
        let! raw := on_chunk (read_str (l_off (fst r))) in
        ret (resp{{rs_raw_headers := Some raw}}))
  end.

Definition start_sending_response (resp : response) (rn : option nxb_buffer) : M (conn L) unit :=
  let! h := get_hsp in
  if negb (can_start (hsp_state h)) then ret tt else
  do! unset_timer NXWEB_TIMER_READ (timer_read N) in
  do! assert_ (negb (rs_chunked_autoencode resp) || (rs_content_length resp =? -1)) in
  let! resp := (if response_not_modified (hsp_req h) resp then
                  let! resp := nxweb_reset_content_out resp in
                  ret (resp{{rs_status_code := 304; rs_status := Some (bs "Not Modified")}})
                else ret resp) in
  if! rs_chunked_autoencode resp then upd_hsp (set_cestate _nxweb_encode_chunked_init) in
  let! r := nxd_http_server_proto_setup_content_out resp rn in
  let '(resp, rn) := r in
  do! (match content_out resp with Some i => on_l (sl_connect_streams i (resp_body_in N)) | None => ret tt end) in
  let! r := prepare_raw_headers resp rn in
  let '(resp, rn) := r in
  if! negb (hsp_sending_100_continue h) then
    (do! upd_hsp (set_resp_headers_ptr (rs_raw_headers resp)) in
     on_l (sl_istream_set_ready (data_out N))) in
  do! upd_hsp (fun h => set_resp (Some resp) (set_resp_nxb rn (set_state HSP_SENDING_HEADERS h))) in
  set_timer NXWEB_TIMER_WRITE (timer_write N).

(** ** The request body, on its way to the consumer *)

Definition is_request_body_complete (h : nxd_http_server_proto) : bool :=
  ((0 <? rq_content_length (hsp_req h)) && (rq_content_length (hsp_req h) <=? hsp_content_received h)) || hsp_chunked_content_complete h.

(** Decodes what was just stored in the consumer's memory, in place, and counts
    it; returns what is left of it. *)
Definition receive_body_bytes (s : bytes) : M (conn L) bytes :=
  let! h := get_hsp in
  let! s := (
    if rq_chunked_encoding (hsp_req h) then
      match _nxweb_decode_chunked_stream 0 (zlen s) (hsp_cdstate h) s with
      | Err e => fail e
      | Ok (r, m) =>
          do! upd_hsp (set_cdstate (dr_ds r)) in
          do! (if dr_rc r <? 0 then publish NXD_HSP_REQUEST_CHUNKED_ENCODING_ERROR
               else if 0 <? dr_rc r then upd_hsp (set_chunked_content_complete true) else ret tt) in
          ret (take (Z.to_nat (dr_len r)) m)
      end
    else ret s) in
  do! upd_hsp (fun h => set_content_received (hsp_content_received h + zlen s) h) in
  ret s.

(** The rest of the block the headers came in, at most [size] bytes of it. *)
Definition take_first_body_chunk (size : Z) : M (conn L) bytes :=
  let! h := get_hsp in
  match hsp_first_body_chunk h with
  | None => ret []
  | Some chunk =>
      if zlen chunk <=? size then do! upd_hsp (set_first_body_chunk None) in ret chunk
      else do! upd_hsp (set_first_body_chunk (Some (drop (Z.to_nat size) chunk))) in ret (take (Z.to_nat size) chunk)
  end.

Definition finish_request_body : M (conn L) unit :=
  do! publish NXD_HSP_REQUEST_BODY_RECEIVED in
  do! upd_hsp (set_state HSP_HANDLING) in
  do! on_l (sl_ostream_unset_ready (data_in N)) in
  on_l (sl_istream_unset_ready (req_body_out N)).

(** The part of the body that comes straight from the socket. *)
Definition read_body_from_socket (size : Z) : M (conn L) bytes :=
  let! ost := on_l (sl_ostream (data_in N)) in
  match os_pair ost with
  | None => do! on_l (sl_istream_unset_ready (req_body_out N)) in ret []
  | Some prev =>
      let! ist := on_l (sl_istream prev) in
      let! s := (if is_ready ist then sock_read size else ret []) in
      let! ist := on_l (sl_istream prev) in
      if! negb (is_ready ist) then
        (do! on_l (sl_istream_unset_ready (req_body_out N)) in on_l (sl_ostream_set_ready (data_in N))) in
      receive_body_bytes s
  end.

(** The bytes read, and whether the end of the body was flagged. *)
Definition req_body_out_read (size : Z) : M (conn L) (bytes * bool) :=
  let! h := get_hsp in
  match hsp_state h with
  | HSP_HANDLING => do! on_l (sl_istream_unset_ready (req_body_out N)) in ret ([], true)
  | HSP_RECEIVING_BODY =>
      do! unset_timer NXWEB_TIMER_READ (timer_read N) in
      let! s1 := (match hsp_first_body_chunk h with
                  | None => ret []
                  | Some _ => let! s := take_first_body_chunk size in receive_body_bytes s
                  end) in
      let! h1 := get_hsp in
      if bool_decide (is_Some (hsp_first_body_chunk h)) && is_request_body_complete h1 then do! finish_request_body in ret (s1, true) else
      let size := size - zlen s1 in
      let! s2 := (if 0 <? size then read_body_from_socket size else ret []) in
      let! h2 := get_hsp in
      let! ost := on_l (sl_ostream (data_in N)) in
      if (0 <? size) && bool_decide (is_Some (os_pair ost)) && is_request_body_complete h2 then
        do! finish_request_body in ret (s1 ++ s2, true)
      else
        do! set_timer NXWEB_TIMER_READ (timer_read N) in ret (s1 ++ s2, false)
  | _ =>
      do! on_l (sl_istream_unset_ready (req_body_out N)) in
      do! on_l (sl_ostream_set_ready (data_in N)) in
      ret ([], false)
  end.

(** ** Receiving from the socket *)

Definition begin_request : M (conn L) unit :=
  let! h := get_hsp in
  let '(addr, area) := pool_block (hsp_request_count h) in
  do! upd_hsp (set_nxb (Some (nxb_init addr area))) in
  let! _r := on_req_nxb (nxb_make_room NXWEB_MAX_REQUEST_HEADERS_SIZE) in
  do! unset_timer NXWEB_TIMER_KEEP_ALIVE (timer_keep_alive N) in
  do! set_timer NXWEB_TIMER_READ (timer_read N) in
  upd_hsp (set_state HSP_RECEIVING_HEADERS).

Definition bad_request : M (conn L) unit :=
  do! unset_timer NXWEB_TIMER_READ (timer_read N) in
  do! on_l (sl_ostream_unset_ready (data_in N)) in
  let resp := _nxweb_http_response_init response_zero None in
  let! r := on_req_nxb (nxweb_send_http_error REVISION resp 400 (bs "Bad Request")) in
  start_sending_response ((fst r){{rs_keep_alive := false}}) None.

(** What the response takes from the request. *)
Definition init_response (req : HttpRequest.request) : M (conn L) response :=
  let! host := on_req_nxb (on_chunk (match rq_host req with Some _ => let! s := deref (rq_host req) in ret (Some s) | None => ret None end)) in
  ret (_nxweb_http_response_init response_zero
    (Some (request_zero{{rq_host := host; rq_http11 := rq_http11 req; rq_keep_alive := rq_keep_alive req}}))).

(** The headers are complete: [buf] is the block of [n] bytes received, the
    headers end at [end_of_headers] and the body starts at [start_of_body]. *)
Definition headers_received (buf n end_of_headers start_of_body : Z) : M (conn L) unit :=
  let! _o := on_req_nxb nxb_finish_stream in
  let! h := get_hsp in
  let req := (hsp_req h){{rq_uid := unique_id (hsp_request_count h)}} in
  let! r := on_req_nxb (on_chunk (_nxweb_parse_http_request req buf (Some end_of_headers))) in
  let '(rc, req) := r in
  do! upd_hsp (set_req req) in
  if negb (rc =? 0) then bad_request else
  do! (if start_of_body <? buf + n then
         let! chunk := on_req_nxb (on_chunk (read_bytes start_of_body (buf + n - start_of_body))) in
         upd_hsp (set_first_body_chunk (Some chunk))
       else
         do! upd_hsp (set_first_body_chunk None) in
         if rq_expect_100_continue req then
           do! upd_hsp (fun h => set_sending_100_continue true (set_resp_headers_ptr (Some response_100_continue) h)) in
           on_l (sl_istream_set_ready (data_out N))
         else ret tt) in
  do! on_l (sl_ostream_unset_ready (data_in N)) in
  let! resp := init_response req in
  do! upd_hsp (set_resp (Some resp)) in
  do! publish NXD_HSP_REQUEST_RECEIVED in
  if negb (rq_content_length req =? 0) then
    do! upd_hsp (set_state HSP_RECEIVING_BODY) in
    on_l (sl_istream_set_ready (req_body_out N))
  else
    do! unset_timer NXWEB_TIMER_READ (timer_read N) in
    upd_hsp (set_state HSP_HANDLING).

Definition receive_headers : M (conn L) unit :=
  let! room := on_req_nxb nxb_get_room in
  let! s := sock_read (snd room) in
  if zlen s =? 0 then ret tt else
  do! on_req_nxb (do! on_chunk (write_bytes (l_off (fst room)) s) in nxb_blank_fast (zlen s)) in
  let! u := on_req_nxb nxb_get_unfinished in
  let '(buf, n) := (l_off (fst u), snd u) in
  do! upd_hsp (set_headers_bytes_received n) in
  let! e := on_req_nxb (on_chunk (_nxweb_find_end_of_http_headers buf n)) in
  match e with
  | Some (end_of_headers, start_of_body) => headers_received buf n end_of_headers start_of_body
  | None => if NXWEB_MAX_REQUEST_HEADERS_SIZE <=? n then bad_request else ret tt
  end.

Definition forward_body : M (conn L) unit :=
  let! ist := on_l (sl_istream (req_body_out N)) in
  match is_pair ist with
  | None => on_l (sl_ostream_unset_ready (data_in N))
  | Some next =>
      let! ost := on_l (sl_ostream next) in
      if! os_ready ost then consumer_do_read next in
      let! ost := on_l (sl_ostream next) in
      if os_ready ost then ret tt
      else do! on_l (sl_ostream_unset_ready (data_in N)) in on_l (sl_istream_set_ready (req_body_out N))
  end.

Definition data_in_do_read : M (conn L) unit :=
  let! h := get_hsp in
  if! bool_decide (hsp_state h = HSP_WAITING_FOR_REQUEST) then begin_request in
  let! h := get_hsp in
  match hsp_state h with
  | HSP_RECEIVING_HEADERS => receive_headers
  | HSP_RECEIVING_BODY => forward_body
  | _ => ret tt
  end.

(** ** Sending *)

Definition on_cestate (A : Type) (c : M nxweb_chunked_encoder_state A) : M (conn L) A := fun s =>
  match c (hsp_cestate (c_hsp s)) with
  | Ok (a, es) => Ok (a, mk_conn (c_loop s) (c_kernel s) (set_cestate es (c_hsp s)))
  | Err e => Err e
  end.

(** [resp_body_in_write_or_sendfile]: returns the number of bytes sent. *)
Definition resp_body_in_write (src : wsrc) (size : Z) (eof : bool) : M (conn L) Z :=
  let! h := get_hsp in
  if negb (bool_decide (hsp_state h = HSP_SENDING_BODY)) then
    do! on_l (sl_ostream_unset_ready (resp_body_in N)) in
    do! on_l (sl_istream_set_ready (data_out N)) in ret 0
  else
  match hsp_resp h with
  | None => fail BadPtr
  | Some resp =>
      do! unset_timer NXWEB_TIMER_WRITE (timer_write N) in
      let! bytes_sent := (
        if negb (size =? 0) || rs_chunked_autoencode resp then
          let! ist := on_l (sl_istream (data_out N)) in
          match is_pair ist with
          | None => do! on_l (sl_ostream_unset_ready (resp_body_in N)) in ret 0
          | Some next =>
              let! ost := on_l (sl_ostream next) in
              let! n := (
                if os_ready ost then
                  if rs_chunked_autoencode resp
                  then write_chunked on_cestate (fun s => sock_write (WMem s) (zlen s)) (sock_write src) size eof
                  else sock_write src size
                else ret 0) in
              let! ost := on_l (sl_ostream next) in
              if! negb (os_ready ost) then
                (do! on_l (sl_ostream_unset_ready (resp_body_in N)) in on_l (sl_istream_set_ready (data_out N))) in
              ret n
          end
        else ret 0) in
      do! upd_hsp (fun h => set_bytes_sent (hsp_bytes_sent h + bytes_sent) h) in
      let! h := get_hsp in
      if eof && (bytes_sent =? size) && (negb (rs_chunked_autoencode resp) || _nxweb_encode_chunked_is_complete (hsp_cestate h)) then
        do! request_complete in ret bytes_sent
      else
        do! set_timer NXWEB_TIMER_WRITE (timer_write N) in ret bytes_sent
  end.

(** [do_write] of the istream that a response gets its body from. *)
Definition ob_do_write : M (conn L) unit := fun s =>
  match obuffer_data_out_do_write (fun data eof => resp_body_in_write (WMem data) (zlen data) eof) (s, hsp_ob (c_hsp s)) with
  | Ok (a, (s, ob)) => Ok (a, mk_conn (c_loop s) (c_kernel s) (set_ob ob (c_hsp s)))
  | Err e => Err e
  end.
Definition fb_do_write : M (conn L) unit := fun s =>
  match fbuffer_data_out_do_write (fun fd offset size eof => resp_body_in_write (WFile fd offset) size eof) (s, hsp_fb (c_hsp s)) with
  | Ok (a, (s, fb)) => Ok (a, mk_conn (c_loop s) (c_kernel s) (set_fb fb (c_hsp s)))
  | Err e => Err e
  end.
Definition do_write (i : positive) : M (conn L) unit :=
  if bool_decide (i = ob_data_out N) then ob_do_write
  else if bool_decide (i = fb_data_out N) then fb_do_write
  else producer_do_write i.

(** Writes what is left at [resp_headers_ptr]; whether all of it was taken. *)
Definition send_header_bytes : M (conn L) bool :=
  let! h := get_hsp in
  match hsp_resp_headers_ptr h with
  | Some (c :: s) =>
      let! bytes_sent := sock_write (WMem (c :: s)) (zlen (c :: s)) in
      do! upd_hsp (set_resp_headers_ptr (Some (drop (Z.to_nat bytes_sent) (c :: s)))) in
      ret (bytes_sent =? zlen (c :: s))
  | _ => ret true
  end.
Definition has_header_bytes (h : nxd_http_server_proto) : bool :=
  match hsp_resp_headers_ptr h with Some (_ :: _) => true | _ => false end.

Definition send_body : M (conn L) unit :=
  let! ost := on_l (sl_ostream (resp_body_in N)) in
  match os_pair ost with
  | None => on_l (sl_istream_unset_ready (data_out N))
  | Some prev =>
      let! ist := on_l (sl_istream prev) in
      if! is_ready ist then (do! on_l (sl_mark_ready (resp_body_in N)) in do_write prev) in
      let! ist := on_l (sl_istream prev) in
      if is_ready ist then ret tt
      else do! on_l (sl_istream_unset_ready (data_out N)) in on_l (sl_ostream_set_ready (resp_body_in N))
  end.

(** After the interim response: the headers, then the body. *)
Definition send_response : M (conn L) unit :=
  do! unset_timer NXWEB_TIMER_WRITE (timer_write N) in
  do! set_timer NXWEB_TIMER_WRITE (timer_write N) in
  let! h := get_hsp in
  match hsp_state h with
  | HSP_SENDING_HEADERS =>
      let! all := send_header_bytes in
      if negb all then ret tt else
      if! has_header_bytes h then upd_hsp (set_resp_headers_ptr None) in
      match hsp_resp h with
      | None => fail BadPtr
      | Some resp =>
          if (rs_content_length resp =? 0) || rq_head_method (hsp_req h) then request_complete
          else do! upd_hsp (set_state HSP_SENDING_BODY) in send_body
      end
  | HSP_SENDING_BODY => send_body
  | _ => on_l (sl_istream_unset_ready (data_out N))
  end.

Definition data_out_do_write : M (conn L) unit :=
  let! h := get_hsp in
  if hsp_sending_100_continue h && has_header_bytes h then
    let! all := send_header_bytes in
    if negb all then ret tt else
    do! upd_hsp (set_sending_100_continue false) in
    match hsp_state h with
    | HSP_SENDING_HEADERS =>
        match hsp_resp h with
        | None => fail BadPtr
        | Some resp => do! upd_hsp (set_resp_headers_ptr (rs_raw_headers resp)) in send_response
        end
    | _ => on_l (sl_istream_unset_ready (data_out N))
    end
  else send_response.

(** ** The rest of the interface *)

Definition connect_request_body_out (o : positive) : M (conn L) unit := on_l (sl_connect_streams (req_body_out N) o).
Definition get_request_body_out_pair : M (conn L) (option positive) :=
  let! ist := on_l (sl_istream (req_body_out N)) in ret (is_pair ist).
Definition start_receiving_request_body : M (conn L) unit := on_l (sl_ostream_set_ready (data_in N)).

Definition data_error_on_message (data : Z) : M (conn L) unit := publish data.
Definition timer_keep_alive_on_timeout : M (conn L) unit := publish NXD_HSP_KEEP_ALIVE_TIMEOUT.
Definition timer_read_on_timeout : M (conn L) unit := publish NXD_HSP_READ_TIMEOUT.
Definition timer_write_on_timeout : M (conn L) unit := publish NXD_HSP_WRITE_TIMEOUT.

Definition nxd_http_server_proto_connect : M (conn L) unit :=
  do! upd_hsp (set_state HSP_WAITING_FOR_REQUEST) in
  set_timer NXWEB_TIMER_KEEP_ALIVE (timer_keep_alive N).
End proto.

(** The fields of a new protocol. *)
Definition hsp_init (N : hsp_names) : nxd_http_server_proto :=
  mk_hsp None HSP_WAITING_FOR_REQUEST 0 0 request_zero false 0 false (mk_cds CDS_SIZE false false 0) None None
    (mk_ces false false 0 0 []) 0 None None (mk_ob (ob_data_out N) [] 0) (mk_fb (fb_data_out N) 0 0 0).
