(* ===== verification/HttpServerView.v ===== *)
(** What the server protocol of HttpServerProto.v sees of the loop it runs on:
    the pairs of streams, the timers, the publishers, whether its output stream
    is ready and what it published ([core]), with the rules for the operations
    of the loop ([see_*]); lemmas on received bytes, on decoding a whole block
    and on the empty line that ends the headers of a request. *)
From S2P Require Import Prelude CString Buffer Uri Chunked HttpTime HttpRequest RequestSpec HttpParams HttpResponse ResponseText.
From S2P Require Import Dll Event StreamBuffers RingBuffer LoopServices Socket HttpServerProto.
From coqutil Require Import Datatypes.RecordSetters.
Import DoubleBraceUpdate.
Open Scope Z_scope.

(** * The connection as the invariant sees it *)

(** Pairs of streams, timers, publishers, whether [data_out] is ready, and what
    the protocol published. *)
Record core := mk_core {
  p_is : gmap positive (option positive);
  p_os : gmap positive (option positive);
  p_timers : gmap positive (option Z);
  p_pubs : gset positive;
  p_out : bool;
  p_events : list Z;
}.
Definition p_set_out (b : bool) (k : core) : core := mk_core (p_is k) (p_os k) (p_timers k) (p_pubs k) b (p_events k).
Definition p_set_timer (t : positive) (q : option Z) (k : core) : core :=
  mk_core (p_is k) (p_os k) (<[t := q]> (p_timers k)) (p_pubs k) (p_out k) (p_events k).
Definition p_set_pair (i o : positive) (x : option positive) (y : option positive) (k : core) : core :=
  mk_core (<[i := x]> (p_is k)) (<[o := y]> (p_os k)) (p_timers k) (p_pubs k) (p_out k) (p_events k).
Definition p_set_is (i : positive) (x : option positive) (k : core) : core :=
  mk_core (<[i := x]> (p_is k)) (p_os k) (p_timers k) (p_pubs k) (p_out k) (p_events k).
Definition p_publish (d : Z) (k : core) : core := mk_core (p_is k) (p_os k) (p_timers k) (p_pubs k) (p_out k) (p_events k ++ [d]).

Section core.
Context {L : Type} `{LO : LoopOps L} `{LS : !LoopServices L} (N : hsp_names).

Definition events_of (log : list (positive * Z)) : list Z := (filter (fun m => fst m = events_pub N) log).*2.
Lemma events_of_app l1 l2 : events_of (l1 ++ l2) = events_of l1 ++ events_of l2.
Proof. unfold events_of. by rewrite filter_app, fmap_app. Qed.

Definition sees (l : L) (k : core) : Prop := exists v, rep l v /\
  is_pair <$> v_is v = p_is k /\ os_pair <$> v_os v = p_os k /\ v_timers v = p_timers k /\ v_pubs v = p_pubs k /\
  is_ready <$> v_is v !! data_out N = Some (p_out k) /\ events_of (v_log v) = p_events k.

Lemma pair_insert {A} (f : A -> option positive) (m : gmap positive A) i x y : m !! i = Some x -> f y = f x -> f <$> <[i := y]> m = f <$> m.
Proof. intros Hi E. rewrite fmap_insert, E. apply insert_id. by rewrite lookup_fmap, Hi. Qed.
Lemma pair_lookup {A} (f : A -> option positive) (m : gmap positive A) p i x : f <$> m = p -> p !! i = Some x -> exists a, m !! i = Some a /\ f a = x.
Proof. intros <-. rewrite lookup_fmap. destruct (m !! i) as [a|]; [|done]. intros [= <-]. by exists a. Qed.

Lemma sees_pair l k i o : sees l k -> p_is k !! i = Some (Some o) <-> p_os k !! o = Some (Some i).
Proof.
  intros (v & Hr & <- & <- & _). rewrite !lookup_fmap. pose proof (rep_pair l v i o Hr) as Hp.
  destruct (v_is v !! i) as [ist|], (v_os v !! o) as [ost|]; cbn; split; try done; intros [= E].
  1: assert (exists ost0, Some ost = Some ost0 /\ os_pair ost0 = Some i) as (? & [= <-] & ->) by (apply Hp; by exists ist); done.
  1: assert (exists ist0, Some ist = Some ist0 /\ is_pair ist0 = Some o) as (? & [= <-] & ->) by (apply Hp; by exists ost); done.
  1: assert (exists ost0, None = Some ost0 /\ os_pair ost0 = Some i) as (? & [=] & _) by (apply Hp; by exists ist).
  assert (exists ist0, None = Some ist0 /\ is_pair ist0 = Some o) as (? & [=] & _) by (apply Hp; by exists ost).
Qed.

(** ** The operations of the loop *)

Lemma see_istream l k i p (Q : nxe_istream -> L -> Prop) : sees l k -> p_is k !! i = Some p ->
  (forall ist, is_pair ist = p -> (i = data_out N -> is_ready ist = p_out k) -> Q ist l) -> wp (sl_istream i) Q l.
Proof.
  intros (v & Hr & Hi & Ho & Ht & Hp & Hout & He) Hk HQ. destruct (pair_lookup _ _ _ _ _ Hi Hk) as (ist & Hist & Ep).
  eapply law_istream; [exact Hr|exact Hist|]. apply HQ; [done|]. intros ->. rewrite Hist in Hout. by injection Hout.
Qed.
Lemma see_ostream l k o p (Q : nxe_ostream -> L -> Prop) : sees l k -> p_os k !! o = Some p ->
  (forall ost, os_pair ost = p -> Q ost l) -> wp (sl_ostream o) Q l.
Proof.
  intros (v & Hr & Hi & Ho & Ht & Hp & Hout & He) Hk HQ. destruct (pair_lookup _ _ _ _ _ Ho Hk) as (ost & Host & Ep).
  eapply law_ostream; [exact Hr|exact Host|]. by apply HQ.
Qed.

(** Readiness of a stream other than [data_out] is not seen. *)
Lemma sees_is l k v i ist b : rep l (v_set_is i (set_is_ready b ist) v) -> v_is v !! i = Some ist -> i <> data_out N ->
  is_pair <$> v_is v = p_is k /\ os_pair <$> v_os v = p_os k /\ v_timers v = p_timers k /\ v_pubs v = p_pubs k /\
  is_ready <$> v_is v !! data_out N = Some (p_out k) /\ events_of (v_log v) = p_events k -> sees l k.
Proof.
  intros Hr Hist Hne (Hi & Ho & Ht & Hp & Hout & He). eexists. split; [exact Hr|]. split_and!; try done; cbn.
  - rewrite <- Hi. by eapply pair_insert.
  - by rewrite lookup_insert_ne.
Qed.
Lemma sees_os l k v o ost b : rep l (v_set_os o (set_os_ready b ost) v) -> v_os v !! o = Some ost ->
  is_pair <$> v_is v = p_is k /\ os_pair <$> v_os v = p_os k /\ v_timers v = p_timers k /\ v_pubs v = p_pubs k /\
  is_ready <$> v_is v !! data_out N = Some (p_out k) /\ events_of (v_log v) = p_events k -> sees l k.
Proof.
  intros Hr Host (Hi & Ho & Ht & Hp & Hout & He). eexists. split; [exact Hr|]. split_and!; try done; cbn.
  rewrite <- Ho. by eapply pair_insert.
Qed.

Lemma see_istream_ready (c : M L unit) b l k i p (Q : unit -> L -> Prop) :
  (forall l v ist (Q : unit -> L -> Prop), rep l v -> v_is v !! i = Some ist -> (forall l', rep l' (v_set_is i (set_is_ready b ist) v) -> Q tt l') -> wp c Q l) ->
  sees l k -> p_is k !! i = Some p -> i <> data_out N -> (forall l', sees l' k -> Q tt l') -> wp c Q l.
Proof.
  intros Hc (v & Hr & Hi & Hrest) Hk Hne HQ. destruct (pair_lookup _ _ _ _ _ Hi Hk) as (ist & Hist & _).
  eapply Hc; [exact Hr|exact Hist|]. intros l' Hr'. apply HQ. by eapply sees_is.
Qed.
Lemma see_istream_set_ready l k i p (Q : unit -> L -> Prop) :
  sees l k -> p_is k !! i = Some p -> i <> data_out N -> (forall l', sees l' k -> Q tt l') -> wp (sl_istream_set_ready i) Q l.
Proof. apply (see_istream_ready _ true). intros. by eapply law_istream_set_ready. Qed.
Lemma see_istream_unset_ready l k i p (Q : unit -> L -> Prop) :
  sees l k -> p_is k !! i = Some p -> i <> data_out N -> (forall l', sees l' k -> Q tt l') -> wp (sl_istream_unset_ready i) Q l.
Proof. apply (see_istream_ready _ false). intros. by eapply law_istream_unset_ready. Qed.
Lemma see_mark_istream l k i p (Q : unit -> L -> Prop) :
  sees l k -> p_is k !! i = Some p -> i <> data_out N -> (forall l', sees l' k -> Q tt l') -> wp (sl_mark_istream i) Q l.
Proof. apply (see_istream_ready _ true). intros. by eapply law_mark_istream. Qed.

Lemma see_data_out (c : M L unit) b l k (Q : unit -> L -> Prop) :
  (forall l v ist (Q : unit -> L -> Prop), rep l v -> v_is v !! data_out N = Some ist ->
     (forall l', rep l' (v_set_is (data_out N) (set_is_ready b ist) v) -> Q tt l') -> wp c Q l) ->
  sees l k -> (forall l', sees l' (p_set_out b k) -> Q tt l') -> wp c Q l.
Proof.
  intros Hc (v & Hr & Hi & Ho & Ht & Hp & Hout & He) HQ. destruct (v_is v !! data_out N) as [ist|] eqn:Hist; [|done].
  eapply Hc; [exact Hr|exact Hist|]. intros l' Hr'. apply HQ. eexists. split; [exact Hr'|]. split_and!; try done; cbn.
  - rewrite <- Hi. by eapply pair_insert.
  - by rewrite lookup_insert_eq.
Qed.
Lemma see_data_out_set l k (Q : unit -> L -> Prop) :
  sees l k -> (forall l', sees l' (p_set_out true k) -> Q tt l') -> wp (sl_istream_set_ready (data_out N)) Q l.
Proof. apply (see_data_out _ true). intros. by eapply law_istream_set_ready. Qed.
Lemma see_data_out_unset l k (Q : unit -> L -> Prop) :
  sees l k -> (forall l', sees l' (p_set_out false k) -> Q tt l') -> wp (sl_istream_unset_ready (data_out N)) Q l.
Proof. apply (see_data_out _ false). intros. by eapply law_istream_unset_ready. Qed.

Lemma see_ostream_ready (c : M L unit) b l k o p (Q : unit -> L -> Prop) :
  (forall l v ost (Q : unit -> L -> Prop), rep l v -> v_os v !! o = Some ost -> (forall l', rep l' (v_set_os o (set_os_ready b ost) v) -> Q tt l') -> wp c Q l) ->
  sees l k -> p_os k !! o = Some p -> (forall l', sees l' k -> Q tt l') -> wp c Q l.
Proof.
  intros Hc (v & Hr & Hi & Ho & Hrest) Hk HQ. destruct (pair_lookup _ _ _ _ _ Ho Hk) as (ost & Host & _).
  eapply Hc; [exact Hr|exact Host|]. intros l' Hr'. apply HQ. by eapply sees_os.
Qed.
Lemma see_ostream_set_ready l k o p (Q : unit -> L -> Prop) :
  sees l k -> p_os k !! o = Some p -> (forall l', sees l' k -> Q tt l') -> wp (sl_ostream_set_ready o) Q l.
Proof. apply (see_ostream_ready _ true). intros. by eapply law_ostream_set_ready. Qed.
Lemma see_ostream_unset_ready l k o p (Q : unit -> L -> Prop) :
  sees l k -> p_os k !! o = Some p -> (forall l', sees l' k -> Q tt l') -> wp (sl_ostream_unset_ready o) Q l.
Proof. apply (see_ostream_ready _ false). intros. by eapply law_ostream_unset_ready. Qed.
Lemma see_mark_ready l k o p (Q : unit -> L -> Prop) :
  sees l k -> p_os k !! o = Some p -> (forall l', sees l' k -> Q tt l') -> wp (sl_mark_ready o) Q l.
Proof. apply (see_ostream_ready _ true). intros. by eapply law_mark_ready. Qed.

Lemma see_publish l k d (Q : unit -> L -> Prop) : sees l k -> events_pub N ∈ p_pubs k ->
  (forall l', sees l' (p_publish d k) -> Q tt l') -> wp (sl_publish (events_pub N) d) Q l.
Proof.
  intros (v & Hr & Hi & Ho & Ht & Hp & Hout & He) Hk HQ. eapply law_publish; [exact Hr|by rewrite Hp|]. intros l' Hr'. apply HQ.
  exists (v_published (events_pub N) d v). split; [done|]. cbn [v_published v_log v_is v_os v_timers v_pubs]. rewrite events_of_app, He. split_and!; try done.
  cbn [p_publish p_events]. f_equal. unfold events_of. by rewrite filter_cons_True.
Qed.
Lemma see_publish_other l k p d (Q : unit -> L -> Prop) : sees l k -> p ∈ p_pubs k -> p <> events_pub N ->
  (forall l', sees l' k -> Q tt l') -> wp (sl_publish p d) Q l.
Proof.
  intros (v & Hr & Hi & Ho & Ht & Hp & Hout & He) Hk Hne HQ. eapply law_publish; [exact Hr|by rewrite Hp|]. intros l' Hr'. apply HQ.
  exists (v_published p d v). split; [done|]. cbn [v_published v_log v_is v_os v_timers v_pubs]. rewrite events_of_app, He. split_and!; try done.
  assert (events_of [(p, d)] = []) as -> by (unfold events_of; by rewrite filter_cons_False). by rewrite app_nil_r.
Qed.
Lemma see_set_timer l k q t (Q : unit -> L -> Prop) : sees l k -> 0 <= q < server_queues -> p_timers k !! t = Some None ->
  (forall l', sees l' (p_set_timer t (Some q) k) -> Q tt l') -> wp (sl_set_timer q t) Q l.
Proof.
  intros (v & Hr & Hi & Ho & Ht & Hp & Hout & He) Hq Hk HQ. eapply law_set_timer; [exact Hr|done|by rewrite Ht|]. intros l' Hr'. apply HQ.
  eexists. split; [exact Hr'|]. split_and!; try done. cbn. by rewrite Ht.
Qed.
Lemma see_unset_timer l k q t x (Q : unit -> L -> Prop) : sees l k -> p_timers k !! t = Some x -> x = None \/ x = Some q ->
  (forall l', sees l' (p_set_timer t None k) -> Q tt l') -> wp (sl_unset_timer q t) Q l.
Proof.
  intros (v & Hr & Hi & Ho & Ht & Hp & Hout & He) Hk Hx HQ. eapply law_unset_timer; [exact Hr|rewrite Ht; exact Hk|done|]. intros l' Hr'. apply HQ.
  eexists. split; [exact Hr'|]. split_and!; try done. cbn. by rewrite Ht.
Qed.
Lemma see_batch_write l k fd (Q : unit -> L -> Prop) : sees l k -> (forall l', sees l' k -> Q tt l') -> wp (sl_batch_write fd) Q l.
Proof. intros (v & Hr & Hrest) HQ. eapply law_batch_write; [exact Hr|]. intros l' Hr'. apply HQ. by exists v. Qed.
Lemma see_connect l k i o (Q : unit -> L -> Prop) : sees l k -> p_is k !! i = Some None -> p_os k !! o = Some None ->
  (forall l', sees l' (p_set_pair i o (Some o) (Some i) k) -> Q tt l') -> wp (sl_connect_streams i o) Q l.
Proof.
  intros (v & Hr & Hi & Ho & Ht & Hp & Hout & He) Hki Hko HQ. destruct (pair_lookup _ _ _ _ _ Hi Hki) as (ist & Hist & Ei).
  destruct (pair_lookup _ _ _ _ _ Ho Hko) as (ost & Host & Eo). eapply law_connect_streams; [exact Hr|exact Hist|exact Ei|exact Host|exact Eo|].
  intros l' Hr'. apply HQ. eexists. split; [exact Hr'|]. split_and!; try done; cbn.
  - by rewrite fmap_insert, Hi.
  - by rewrite fmap_insert, Ho.
  - destruct (decide (i = data_out N)) as [->|Hne]; [|by rewrite lookup_insert_ne]. rewrite lookup_insert_eq. rewrite Hist in Hout. cbn in *. congruence.
Qed.
Lemma see_disconnect l k i o (Q : unit -> L -> Prop) : sees l k -> p_is k !! i = Some (Some o) ->
  (forall l', sees l' (p_set_pair i o None None k) -> Q tt l') -> wp (sl_disconnect_streams i o) Q l.
Proof.
  intros Hs Hki HQ. pose proof (proj1 (sees_pair _ _ _ _ Hs) Hki) as Hko. destruct Hs as (v & Hr & Hi & Ho & Ht & Hp & Hout & He).
  destruct (pair_lookup _ _ _ _ _ Hi Hki) as (ist & Hist & Ei). destruct (pair_lookup _ _ _ _ _ Ho Hko) as (ost & Host & Eo).
  eapply law_disconnect_streams; [exact Hr|exact Hist|exact Ei|exact Host|].
  intros l' Hr'. apply HQ. eexists. split; [exact Hr'|]. split_and!; try done; cbn.
  - by rewrite fmap_insert, Hi.
  - by rewrite fmap_insert, Ho.
  - destruct (decide (i = data_out N)) as [->|Hne]; [|by rewrite lookup_insert_ne]. rewrite lookup_insert_eq. rewrite Hist in Hout. cbn in *. congruence.
Qed.
Lemma see_init_istream l k i (Q : unit -> L -> Prop) : sees l k -> (forall p, p_is k !! i = Some p -> p = None) -> i <> data_out N ->
  (forall l', sees l' (p_set_is i None k) -> Q tt l') -> wp (sl_init_istream i) Q l.
Proof.
  intros (v & Hr & Hi & Ho & Ht & Hp & Hout & He) Hk Hne HQ. eapply law_init_istream; [exact Hr| |].
  - intros ist Hist. apply Hk. by rewrite <- Hi, lookup_fmap, Hist.
  - intros l' Hr'. apply HQ. eexists. split; [exact Hr'|]. split_and!; try done; cbn; [by rewrite fmap_insert, Hi|by rewrite lookup_insert_ne].
Qed.
End core.

(** * Lemmas *)

(** The bytes that are on their way in. *)
Fixpoint in_bytes (rs : list recv_result) : bytes :=
  match rs with [] => [] | RecvData s :: rs => s ++ in_bytes rs | _ :: rs => in_bytes rs end.
(** The most that the next [read] returns. *)
Definition next_read (kn : kernel) : Z := match k_in kn with RecvData s :: _ => zlen s | _ => 0 end.

Lemma NoDup_3 (a b c : positive) : NoDup [a; b; c] -> a <> b /\ a <> c /\ b <> c.
Proof. intros Hn. repeat rewrite NoDup_cons in Hn. repeat rewrite not_elem_of_cons in Hn. tauto. Qed.
Lemma NoDup_5 (a b c d e : positive) : NoDup [a; b; c; d; e] ->
  (a <> b /\ a <> c /\ a <> d /\ a <> e) /\ (b <> c /\ b <> d /\ b <> e) /\ (c <> d /\ c <> e /\ d <> e).
Proof. intros Hn. repeat rewrite NoDup_cons in Hn. repeat rewrite not_elem_of_cons in Hn. tauto. Qed.

(** Decoding a whole block. *)
Lemma bytes_at_take (m : list Z) (o : bytes) : bytes_at m 0 o -> take (Z.to_nat (zlen o)) m = o.
Proof.
  intros Hb. unfold zlen. rewrite Nat2Z.id. apply list_eq. intros i. destruct (decide (i < length o)%nat) as [Hi|Hi].
  - rewrite lookup_take_lt by done. destruct (lookup_lt_is_Some_2 o i Hi) as [c Hc]. rewrite Hc. specialize (Hb i c Hc). unfold peek in Hb.
    rewrite (proj2 (Z.leb_le 0 (0 + Z.of_nat i))) in Hb by lia. by rewrite Z.add_0_l, Nat2Z.id in Hb.
  - rewrite (lookup_ge_None_2 o) by lia. apply lookup_ge_None_2. rewrite length_take. lia.
Qed.
Lemma decode_whole a s : a_ok a -> snd (arun a s) <> -2 /\ snd (arun a s) <> -1 ->
  exists r m, _nxweb_decode_chunked_stream 0 (zlen s) (ds_of false a) s = Ok (r, m) /\ dr_rc r = snd (arun a s) /\
    dr_ds r = ds_of false (fst (fst (arun a s))) /\ dr_len r = zlen (snd (fst (arun a s))) /\
    bytes_at m 0 (snd (fst (arun a s))) /\ zlen (snd (fst (arun a s))) <= zlen s.
Proof.
  intros Hok [Hno Hno1].
  assert (Hw : wp (_nxweb_decode_chunked_stream 0 (zlen s) (ds_of false a)) (dec_post s 0 a s false) s).
  { eapply wp_decode_chunked_stream; [lia|apply bytes_at_whole|lia|done|done|done]. }
  apply wp_elim in Hw as (r & m & Hr & Hp). exists r, m. unfold dec_post in Hp. destruct (arun a s) as [[a' o] rc] eqn:E. cbn in *.
  destruct Hp as (Hrc & Hso & _ & Hp). destruct (Hp Hno1) as (Hds & Hl & Hb). split_and!; try done.
  apply same_outside_zlen in Hso. destruct o as [|c o]; [rewrite zlen_nil; apply zlen_nonneg|].
  pose proof (bytes_at_bound m 0 (c :: o) ltac:(lia) Hb ltac:(done)). lia.
Qed.

(** The first empty line of [s] is its end. *)
Definition headers_end (s : bytes) : Prop := empty_line_at s 0 (zlen s - 1) /\ forall p, p < zlen s - 1 -> ~ empty_line_at s 0 p.
Definition no_empty_line (s : bytes) : Prop := forall p, ~ empty_line_at s 0 p.

Lemma peek_prefix m buf (s : bytes) i n : bytes_at m buf s -> 0 <= buf -> 0 <= i < n -> n <= zlen s -> peek (take (Z.to_nat n) s) i = peek m (buf + i).
Proof.
  intros Hb Hbuf Hi Hn. destruct (lookup_lt_is_Some_2 s (Z.to_nat i)) as [c Hc]; [unfold zlen in *; lia|].
  pose proof (Hb _ _ Hc) as Hp. rewrite Z2Nat.id in Hp by lia. rewrite Hp. unfold peek. rewrite (proj2 (Z.leb_le 0 i)) by lia.
  rewrite lookup_take_lt by lia. done.
Qed.
Lemma empty_line_prefix m buf (s : bytes) n p : bytes_at m buf s -> 0 <= buf -> n <= zlen s -> p < n ->
  empty_line_at (take (Z.to_nat n) s) 0 p <-> empty_line_at m buf (buf + p).
Proof.
  intros Hb Hbuf Hn Hp. unfold empty_line_at. destruct (Z.lt_ge_cases p 3) as [Hl|Hl]; [split; intros [? _]; lia|].
  rewrite !(peek_prefix m buf s _ n) by (done || lia). replace (buf + p - 1) with (buf + (p - 1)) by lia. replace (buf + p - 2) with (buf + (p - 2)) by lia.
  replace (buf + p - 3) with (buf + (p - 3)) by lia. split; intros (? & ?); (split; [lia|done]).
Qed.
Lemma found_headers m buf s r : bytes_at m buf s -> 0 <= buf -> end_found m buf (zlen s) r ->
  match r with Some (_, b) => headers_end (take (Z.to_nat (b - buf)) s) | None => no_empty_line s end.
Proof.
  intros Hb Hbuf. destruct r as [[e b]|]; cbn.
  - intros (Hl & He & Hno & _). pose proof He as (H3 & _). unfold headers_end. rewrite zlen_take by lia. replace (Z.min (b - buf) (zlen s)) with (b - buf) by lia. split.
    + apply (empty_line_prefix m buf); try done; try lia. by replace (buf + (b - buf - 1)) with (b - 1) by lia.
    + intros p Hp Hc. apply (empty_line_prefix m buf) in Hc; try done; try lia. eapply Hno; [|exact Hc]. lia.
  - intros Hno p Hc. assert (p < zlen s) by (destruct Hc as (_ & Hc%peek_Some & _); lia).
    rewrite <- (take_ge s (Z.to_nat (zlen s))) in Hc by (unfold zlen; lia). apply (empty_line_prefix m buf) in Hc; try done; try lia.
    eapply Hno; [|exact Hc]. lia.
Qed.
