(* ===== verification/HttpServerInv.v ===== *)
(** The server protocol of HttpServerProto.v keeps its state, its timers and the
    readiness of its streams in step, no operation fails, and the socket gets
    what was announced, in order.

    [conn_inv k c] is the invariant, with [k] what the protocol sees of its loop:
    [wired] (which streams are paired), [state_ok] (one clause per state: the
    timers that run, the buffer, the response) and [buffers_ok].  [pending] is
    what is left to be sent of what was announced; [keeps] says what an
    operation keeps.  Other components are programs that read and write through
    their own streams ([prog]).  [reach] are the states that operations lead to,
    each when it may happen ([enabled]).  Not covered: the end of a connection
    ([nxd_http_server_proto_finalize]), the timeouts, which only report, a body
    sent in chunks ([rs_chunked_autoencode]), and chunked bodies of requests that
    are malformed or whose first part exceeds what the consumer takes at once. *)
From S2P Require Import Prelude CString Buffer Uri Chunked HttpTime HttpRequest RequestSpec HttpParams HttpResponse ResponseText.
From S2P Require Import Dll Event StreamBuffers RingBuffer LoopServices Socket HttpServerProto HttpServerView.
From coqutil Require Import Datatypes.RecordSetters.
Import DoubleBraceUpdate.
Open Scope Z_scope.

Section proto.
Context {L : Type} `{LO : LoopOps L} `{LS : !LoopServices L} `{AL : Alloc}.
Context (N : hsp_names) (fs : nxe_fd_source).
Context (accept : nat -> Z -> Z) (file : Z -> bytes) (open_file : bytes -> Z).
Context (REVISION date : bytes).
Context (pool_block : Z -> Z * list Z) (unique_id : Z -> Z).
Context (foreign_is foreign_os : gset positive) (min_read : Z).
Context (accept_bound : forall n size, 0 <= size -> accept n size <= size).

Abbreviation sees := (sees N).
Abbreviation sock_write := (sock_write fs accept file).

(** ** Lifting *)

Lemma wp_on_l {A} (c : M L A) l kn h (Q : A -> conn L -> Prop) :
  wp c (fun a l' => Q a (mk_conn l' kn h)) l -> wp (on_l c) Q (mk_conn l kn h).
Proof using Type. unfold wp, on_l. cbn. by destruct (c l) as [[a l']|]. Qed.
Lemma wp_on_sock {A} (c : M (L * kernel) A) l kn h (Q : A -> conn L -> Prop) :
  wp c (fun a s => Q a (mk_conn s.1 s.2 h)) (l, kn) -> wp (on_sock c) Q (mk_conn l kn h).
Proof using Type. unfold wp, on_sock. cbn. by destruct (c (l, kn)) as [[a [l' kn']]|]. Qed.
Lemma wp_on_k {A} (c : M kernel A) l kn h (Q : A -> conn L -> Prop) :
  wp c (fun a kn' => Q a (mk_conn l kn' h)) kn -> wp (on_k c) Q (mk_conn l kn h).
Proof using Type. unfold wp, on_k. cbn. by destruct (c kn) as [[a kn']|]. Qed.
Lemma wp_get_hsp l kn h (Q : nxd_http_server_proto -> conn L -> Prop) : Q h (mk_conn l kn h) -> wp get_hsp Q (mk_conn l kn h).
Proof using Type. done. Qed.
Lemma wp_upd_hsp f l kn h (Q : unit -> conn L -> Prop) : Q tt (mk_conn l kn (f h)) -> wp (upd_hsp f) Q (mk_conn l kn h).
Proof using Type. done. Qed.
Lemma wp_on_req_nxb {A} (c : M nxb_buffer A) l kn h nxb (Q : A -> conn L -> Prop) : hsp_nxb h = Some nxb ->
  wp c (fun a nxb' => Q a (mk_conn l kn (set_nxb (Some nxb') h))) nxb -> wp (on_req_nxb c) Q (mk_conn l kn h).
Proof using Type. intros Hn Hw. unfold wp, on_req_nxb, bind, get_hsp. cbn. rewrite Hn. unfold wp in Hw. by destruct (c nxb) as [[a nxb']|]. Qed.

Lemma wp_on_io {A} (c : M L A) l kn (Q : A -> L * kernel -> Prop) : wp c (fun a l' => Q a (l', kn)) l -> wp (on_io c) Q (l, kn).
Proof using Type. unfold wp, on_io. cbn. by destruct (c l) as [[a l']|]. Qed.
Lemma wp_on_kernel {A} (c : M kernel A) (l : L) kn (Q : A -> L * kernel -> Prop) : wp c (fun a kn' => Q a (l, kn')) kn -> wp (on_kernel c) Q (l, kn).
Proof using Type. unfold wp, on_kernel. cbn. by destruct (c kn) as [[a kn']|]. Qed.

(** ** Connections *)

(** The streams of the socket are paired with the ones of the protocol, the
    other streams exist, those of other components ([foreign_is], [foreign_os])
    too, and the buffers of the protocol feed only its response. *)
Record wired (k : core) : Prop := {
  w_sock_in : p_is k !! fs_data_is fs = Some (Some (data_in N));
  w_sock_out : p_os k !! fs_data_os fs = Some (Some (data_out N));
  w_body_out : is_Some (p_is k !! req_body_out N);
  w_body_in : is_Some (p_os k !! resp_body_in N);
  w_ob : p_is k !! ob_data_out N = Some None \/ p_is k !! ob_data_out N = Some (Some (resp_body_in N));
  w_fb : p_is k !! fb_data_out N = Some None \/ p_is k !! fb_data_out N = Some (Some (resp_body_in N));
  w_events : events_pub N ∈ p_pubs k;
  w_error : fs_data_error fs ∈ p_pubs k;
  w_foreign_is : forall i, i ∈ foreign_is -> is_Some (p_is k !! i);
  w_foreign_os : forall o, o ∈ foreign_os -> is_Some (p_os k !! o);
}.

(** The names are distinct, and not those of other components. *)
Record names_ok : Prop := {
  n_is : NoDup [fs_data_is fs; data_out N; req_body_out N; ob_data_out N; fb_data_out N];
  n_os : NoDup [fs_data_os fs; data_in N; resp_body_in N];
  n_timers : NoDup [timer_keep_alive N; timer_read N; timer_write N];
  n_pubs : fs_data_error fs <> events_pub N;
  n_foreign_is : Forall (fun i => i ∉ foreign_is) [fs_data_is fs; data_out N; req_body_out N; ob_data_out N; fb_data_out N];
  n_foreign_os : Forall (fun o => o ∉ foreign_os) [fs_data_os fs; data_in N; resp_body_in N];
}.
Context (names : names_ok).

Lemma names_ne :
  (fs_data_is fs <> data_out N /\ fs_data_is fs <> req_body_out N /\ fs_data_is fs <> ob_data_out N /\ fs_data_is fs <> fb_data_out N) /\
  (data_out N <> req_body_out N /\ data_out N <> ob_data_out N /\ data_out N <> fb_data_out N) /\
  (req_body_out N <> ob_data_out N /\ req_body_out N <> fb_data_out N /\ ob_data_out N <> fb_data_out N) /\
  fs_data_os fs <> data_in N /\ fs_data_os fs <> resp_body_in N /\ data_in N <> resp_body_in N.
Proof using names.
  destruct (NoDup_5 _ _ _ _ _ (n_is names)) as (A & B & C). destruct (NoDup_3 _ _ _ (n_os names)) as (D & E & F). exact (conj A (conj B (conj C (conj D (conj E F))))).
Qed.

Definition timers_are (k : core) (ka rd wr : option Z) : Prop :=
  p_timers k !! timer_keep_alive N = Some ka /\ p_timers k !! timer_read N = Some rd /\ p_timers k !! timer_write N = Some wr.

Lemma timers_ne : timer_keep_alive N <> timer_read N /\ timer_keep_alive N <> timer_write N /\ timer_read N <> timer_write N.
Proof using names.
  exact (NoDup_3 _ _ _ (n_timers names)).
Qed.
Lemma timers_set_ka k ka rd wr q : timers_are k ka rd wr -> timers_are (p_set_timer (timer_keep_alive N) q k) q rd wr.
Proof using names. destruct timers_ne as (? & ? & ?). intros (A & B & C). unfold timers_are. cbn. by rewrite lookup_insert_eq, !lookup_insert_ne. Qed.
Lemma timers_set_rd k ka rd wr q : timers_are k ka rd wr -> timers_are (p_set_timer (timer_read N) q k) ka q wr.
Proof using names. destruct timers_ne as (? & ? & ?). intros (A & B & C). unfold timers_are. cbn. by rewrite lookup_insert_eq, !lookup_insert_ne. Qed.
Lemma timers_set_wr k ka rd wr q : timers_are k ka rd wr -> timers_are (p_set_timer (timer_write N) q k) ka rd q.
Proof using names. destruct timers_ne as (? & ? & ?). intros (A & B & C). unfold timers_are. cbn. by rewrite lookup_insert_eq, !lookup_insert_ne. Qed.

(** What matters of the core is not changed by the timers, the readiness of
    [data_out] and messages. *)
Definition same_pairs (k k' : core) : Prop := p_is k' = p_is k /\ p_os k' = p_os k /\ p_pubs k' = p_pubs k.
Lemma wired_same k k' : same_pairs k k' -> wired k -> wired k'.
Proof using Type. intros (E1 & E2 & E3) []. by split; rewrite ?E1, ?E2, ?E3. Qed.
Lemma wired_disconnect k i o : wired k -> p_is k !! i = Some (Some o) -> i <> fs_data_is fs -> o <> fs_data_os fs -> wired (p_set_pair i o None None k).
Proof using Type.
  intros [] Hi Hn1 Hn2. split; cbn; try done.
  - by rewrite lookup_insert_ne.
  - by rewrite lookup_insert_ne.
  - destruct (decide (i = req_body_out N)) as [->|]; [rewrite lookup_insert_eq; eauto|by rewrite lookup_insert_ne].
  - destruct (decide (o = resp_body_in N)) as [->|]; [rewrite lookup_insert_eq; eauto|by rewrite lookup_insert_ne].
  - destruct (decide (i = ob_data_out N)) as [->|]; [rewrite lookup_insert_eq; eauto|by rewrite lookup_insert_ne].
  - destruct (decide (i = fb_data_out N)) as [->|]; [rewrite lookup_insert_eq; eauto|by rewrite lookup_insert_ne].
  - intros x Hx. apply lookup_insert_is_Some'. right. by apply w_foreign_is0.
  - intros x Hx. apply lookup_insert_is_Some'. right. by apply w_foreign_os0.
Qed.

(** ** The socket *)

Lemma wp_sock_read l kn h k n (Q : bytes -> conn L -> Prop) :
  sees l k -> wired k -> 0 <= n ->
  (forall s l' kn', sees l' k -> zlen s <= n -> zlen s <= next_read kn -> in_bytes (k_in kn) = s ++ in_bytes (k_in kn') ->
     k_out kn' = k_out kn -> Q s (mk_conn l' kn' h)) ->
  wp (sock_read fs n) Q (mk_conn l kn h).
Proof using names.
  intros Hs Hw Hn HQ. assert (Hn1 : fs_data_is fs <> data_out N) by apply names_ne.
  assert (Hnx : 0 <= next_read kn) by (unfold next_read; destruct (k_in kn) as [|[s| |] rest]; [done|apply zlen_nonneg|done|done]).
  apply wp_on_sock. unfold sock_data_recv_read. destruct (Z.leb_spec n 0) as [Hz|Hz]; [apply wp_ret, HQ; [done|rewrite zlen_nil; lia|done|done|done]|].
  assert (Hunset : forall (c : M (L * kernel) bytes) kn',
     (forall l', sees l' k -> wp c (fun a s => Q a (mk_conn s.1 s.2 h)) (l', kn')) ->
     wp (do! on_io (sl_istream_unset_ready (fs_data_is fs)) in c) (fun a s => Q a (mk_conn s.1 s.2 h)) (l, kn')).
  { intros c kn' Hc. apply wp_bind, wp_on_io. eapply see_istream_unset_ready; [exact Hs|apply w_sock_in, Hw|done|]. intros l' Hs'. by apply Hc. }
  assert (Hpub : forall (c : M (L * kernel) bytes) d l1 kn', sees l1 k ->
     (forall l', sees l' k -> wp c (fun a s => Q a (mk_conn s.1 s.2 h)) (l', kn')) ->
     wp (do! on_io (sl_publish (fs_data_error fs) d) in c) (fun a s => Q a (mk_conn s.1 s.2 h)) (l1, kn')).
  { intros c d l1 kn' Hs1 Hc. apply wp_bind, wp_on_io. eapply see_publish_other; [exact Hs1|apply w_error, Hw|apply n_pubs, names|]. intros l' Hs'. by apply Hc. }
  assert (Hgot : forall s kn', zlen s <= n -> zlen s <= next_read kn -> in_bytes (k_in kn) = s ++ in_bytes (k_in kn') -> k_out kn' = k_out kn ->
     wp (if zlen s <? n then do! on_io (sl_istream_unset_ready (fs_data_is fs)) in
           if zlen s =? 0 then do! on_io (sl_publish (fs_data_error fs) NXE_RDCLOSED) in ret [] else ret s
         else ret s) (fun a s => Q a (mk_conn s.1 s.2 h)) (l, kn')).
  { intros s kn' H1 H0 H2 H3. destruct (zlen s <? n); [|apply wp_ret; by apply HQ]. apply Hunset. intros l1 Hs1.
    destruct (Z.eqb_spec (zlen s) 0) as [E|]; [|apply wp_ret; by apply HQ]. apply zlen_0_inv in E as ->. apply Hpub; [done|].
    intros l2 Hs2. apply wp_ret. by apply HQ. }
  apply wp_bind, wp_on_kernel. unfold wp, sys_read. destruct (k_in kn) as [|r rest] eqn:Ein.
  - apply (Hunset (ret [])). intros l1 Hs1. apply wp_ret. apply HQ; [done|rewrite zlen_nil; lia|done|cbn; by rewrite ?Ein|done].
  - destruct r as [s| |].
    + destruct (Z.leb_spec (zlen s) n).
      * apply Hgot; [done|unfold next_read; by rewrite Ein|cbn; by rewrite ?Ein|done].
      * apply Hgot; [rewrite zlen_take; lia|unfold next_read; rewrite Ein, zlen_take; lia|cbn; by rewrite app_assoc, take_drop|done].
    + apply (Hunset (ret [])). intros l1 Hs1. apply wp_ret. apply HQ; [done|rewrite zlen_nil; lia|done|cbn; by rewrite ?Ein|done].
    + apply Hunset. intros l1 Hs1. apply Hpub; [done|]. intros l2 Hs2. apply wp_ret. apply HQ; [done|rewrite zlen_nil; lia|done|cbn; by rewrite ?Ein|done].
Qed.

Lemma wp_sock_write l kn h k src size (Q : Z -> conn L -> Prop) :
  sees l k -> wired k -> 0 <= size ->
  (forall n l' kn', sees l' k -> 0 <= n <= size -> n <= zlen (src_bytes file src size) -> k_in kn' = k_in kn ->
     k_out kn' = k_out kn ++ take (Z.to_nat n) (src_bytes file src size) -> Q n (mk_conn l' kn' h)) ->
  wp (sock_write src size) Q (mk_conn l kn h).
Proof using accept_bound names.
  intros Hs Hw Hn HQ. pose proof (zlen_nonneg (src_bytes file src size)) as Hlen.
  apply wp_on_sock. unfold sock_data_send_write. destruct (Z.leb_spec size 0) as [Hz|Hz].
  { apply wp_ret, HQ; [done|lia|lia|done|]. cbn. by rewrite app_nil_r. }
  apply wp_bind, wp_on_io. eapply see_batch_write; [exact Hs|]. intros l1 Hs1. apply wp_bind, wp_on_kernel. unfold wp at 1, sys_write.
  set (n := Z.min (accept (k_calls kn) size) (zlen (src_bytes file src size))). specialize (accept_bound (k_calls kn) size Hn).
  set (kn' := mk_kernel _ _ _ _ _). assert (Hpub : forall d l2, sees l2 k -> wp (on_io (sl_publish (fs_data_error fs) d)) (fun _ s => sees s.1 k /\ s.2 = kn') (l2, kn')).
  { intros d l2 Hs2. apply wp_on_io. eapply see_publish_other; [exact Hs2|apply w_error, Hw|apply n_pubs, names|]. done. }
  assert (Hzero : forall l', sees l' k -> n <= 0 -> Q 0 (mk_conn l' kn' h)).
  { intros l' Hs' Hn0. apply HQ; [done|lia|lia|done|]. unfold kn'. cbn. by replace (Z.to_nat n) with O by lia. }
  destruct (Z.ltb_spec n 0) as [Hneg|Hpos].
  - apply wp_bind, wp_on_io. eapply see_ostream_unset_ready; [exact Hs1|apply w_sock_out, Hw|]. intros l2 Hs2.
    apply wp_bind. destruct (negb (n =? -1)).
    + eapply wp_mono; [by apply Hpub|]. intros [] [l3 kn3] [Hs3 E3]; cbn in Hs3, E3; rewrite E3. apply wp_ret. apply Hzero; [done|lia].
    + apply wp_ret, wp_ret. apply Hzero; [done|lia].
  - assert (Hall : forall l', sees l' k -> Q n (mk_conn l' kn' h)) by (intros l' Hs'; apply HQ; [done|lia|lia|done|done]).
    destruct (Z.ltb_spec n size).
    + apply wp_bind, wp_on_io. eapply see_ostream_unset_ready; [exact Hs1|apply w_sock_out, Hw|]. intros l2 Hs2.
      destruct (_ && _) eqn:E; [|apply wp_ret; by apply Hall]. apply wp_bind. eapply wp_mono; [by apply Hpub|]. intros [] [l3 kn3] [Hs3 E3]; cbn in Hs3, E3; rewrite E3.
      apply wp_ret, Hzero; [done|]. apply andb_true_iff in E as [E%Z.eqb_eq _]. lia.
    + apply wp_ret. by apply Hall.
Qed.

(** ** Taking streams apart *)

Definition drop_os (o : positive) (k : core) : core :=
  match p_os k !! o with Some (Some i) => p_set_pair i o None None k | _ => k end.
Definition drop_is (i : positive) (k : core) : core :=
  match p_is k !! i with Some (Some o) => p_set_pair i o None None k | _ => k end.

Lemma wp_disconnect_ostream l kn h k o (Q : unit -> conn L -> Prop) : sees l k -> is_Some (p_os k !! o) ->
  (forall l', sees l' (drop_os o k) -> Q tt (mk_conn l' kn h)) -> wp (disconnect_ostream o) Q (mk_conn l kn h).
Proof using Type.
  intros Hs [x Hx] HQ. unfold drop_os in HQ. rewrite Hx in HQ. apply wp_bind, wp_on_l. eapply see_ostream; [exact Hs|exact Hx|]. intros ost ->.
  destruct x as [i|]; [|by apply wp_ret, HQ]. apply wp_on_l. eapply see_disconnect; [exact Hs|by eapply sees_pair|]. intros l' Hs'. by apply HQ.
Qed.
Lemma wp_disconnect_istream l kn h k i (Q : unit -> conn L -> Prop) : sees l k -> is_Some (p_is k !! i) ->
  (forall l', sees l' (drop_is i k) -> Q tt (mk_conn l' kn h)) -> wp (disconnect_istream i) Q (mk_conn l kn h).
Proof using Type.
  intros Hs [x Hx] HQ. unfold drop_is in HQ. rewrite Hx in HQ. apply wp_bind, wp_on_l. eapply see_istream; [exact Hs|exact Hx|]. intros ist -> _.
  destruct x as [o|]; [|by apply wp_ret, HQ]. apply wp_on_l. eapply see_disconnect; [exact Hs|exact Hx|]. intros l' Hs'. by apply HQ.
Qed.

Lemma drop_os_none o k : is_Some (p_os k !! o) -> p_os (drop_os o k) !! o = Some None.
Proof using Type. intros [[i|] Hx]; unfold drop_os; rewrite Hx; cbn; [apply lookup_insert_eq|done]. Qed.
Lemma drop_is_none i k : is_Some (p_is k !! i) -> p_is (drop_is i k) !! i = Some None.
Proof using Type. intros [[o|] Hx]; unfold drop_is; rewrite Hx; cbn; [apply lookup_insert_eq|done]. Qed.
Lemma drop_is_keeps_os i k o : p_os k !! o = Some None -> p_os (drop_is i k) !! o = Some None.
Proof using Type.
  intros Ho. unfold drop_is. destruct (p_is k !! i) as [[o'|]|]; [|done..]. cbn. destruct (decide (o' = o)) as [->|]; [apply lookup_insert_eq|by rewrite lookup_insert_ne].
Qed.
Lemma drop_os_keeps_is o k i : p_is k !! i = Some None -> p_is (drop_os o k) !! i = Some None.
Proof using Type.
  intros Hi. unfold drop_os. destruct (p_os k !! o) as [[i'|]|]; [|done..]. cbn. destruct (decide (i' = i)) as [->|]; [apply lookup_insert_eq|by rewrite lookup_insert_ne].
Qed.
Lemma drop_is_rest i k : p_timers (drop_is i k) = p_timers k /\ p_pubs (drop_is i k) = p_pubs k /\ p_out (drop_is i k) = p_out k /\ p_events (drop_is i k) = p_events k.
Proof using Type. unfold drop_is. by destruct (p_is k !! i) as [[?|]|]. Qed.
Lemma drop_os_rest o k : p_timers (drop_os o k) = p_timers k /\ p_pubs (drop_os o k) = p_pubs k /\ p_out (drop_os o k) = p_out k /\ p_events (drop_os o k) = p_events k.
Proof using Type. unfold drop_os. by destruct (p_os k !! o) as [[?|]|]. Qed.

(** The streams whose pairs may be dropped: not the ones of the socket. *)
Lemma wired_drop_os l k o : sees l k -> wired k -> o <> data_in N -> o <> fs_data_os fs -> wired (drop_os o k).
Proof using Type.
  intros Hs Hw Hn1 Hn2. unfold drop_os. destruct (p_os k !! o) as [[i|]|] eqn:E; [|done..]. pose proof (proj2 (sees_pair _ _ _ i o Hs) E) as Hi.
  apply wired_disconnect; [done|done| |done]. intros ->. rewrite (w_sock_in _ Hw) in Hi. congruence.
Qed.
Lemma wired_drop_is l k i : sees l k -> wired k -> i <> fs_data_is fs -> i <> data_out N -> wired (drop_is i k).
Proof using Type.
  intros Hs Hw Hn1 Hn2. unfold drop_is. destruct (p_is k !! i) as [[o|]|] eqn:E; [|done..].
  apply wired_disconnect; [done|done|done|]. intros ->. pose proof (proj1 (sees_pair _ _ _ i _ Hs) E) as Ho. rewrite (w_sock_out _ Hw) in Ho. congruence.
Qed.

(** ** The end of a response *)

Definition complete_core (k : core) : core :=
  p_publish NXD_HSP_REQUEST_COMPLETE (drop_is (req_body_out N) (drop_os (resp_body_in N) (p_set_timer (timer_write N) None (p_set_out false k)))).

Lemma is_Some_drop_os o k i : is_Some (p_is k !! i) -> is_Some (p_is (drop_os o k) !! i).
Proof using Type.
  intros Hi. unfold drop_os. destruct (p_os k !! o) as [[j|]|]; [|done..]. cbn. destruct (decide (j = i)) as [->|]; [rewrite lookup_insert_eq; eauto|by rewrite lookup_insert_ne].
Qed.

Lemma complete_core_ok l k ka rd wr : sees l k -> wired k -> timers_are k ka rd wr ->
  wired (complete_core k) /\ timers_are (complete_core k) ka rd None /\ p_out (complete_core k) = false /\
  p_os (complete_core k) !! resp_body_in N = Some None /\ p_is (complete_core k) !! req_body_out N = Some None /\
  p_events (complete_core k) = p_events k ++ [NXD_HSP_REQUEST_COMPLETE].
Proof using names.
  intros Hs Hw Ht. destruct names_ne as ((A1 & A2 & A3 & A4) & (B1 & B2 & B3) & _ & (C1 & C2 & C3)).
  unfold complete_core. set (k1 := p_set_timer _ _ _). assert (Hk1 : timers_are k1 ka rd None) by (by apply (timers_set_wr (p_set_out false k) ka rd wr)).
  assert (Hw1 : wired k1) by (by apply (wired_same k)).
  assert (Hs1 : forall i o, p_is k1 !! i = Some (Some o) <-> p_os k1 !! o = Some (Some i)) by (intros i o; apply (sees_pair _ _ _ i o Hs)).
  assert (Hw2 : wired (drop_os (resp_body_in N) k1)).
  { unfold drop_os. destruct (p_os k1 !! resp_body_in N) as [[i|]|] eqn:E; [|done..]. apply Hs1 in E. apply wired_disconnect; [done|done| |done].
    intros ->. rewrite (w_sock_in _ Hw1) in E. congruence. }
  set (k2 := drop_os _ k1) in *. destruct (drop_os_rest (resp_body_in N) k1) as (R1 & R2 & R3 & R4). fold k2 in R1, R2, R3, R4.
  assert (Hw3 : wired (drop_is (req_body_out N) k2)).
  { unfold drop_is. destruct (p_is k2 !! req_body_out N) as [[o|]|] eqn:E; [|done..]. apply wired_disconnect; [done|done|done|]. intros ->.
    pose proof (w_sock_out _ Hw1) as Hso. apply Hs1 in Hso. unfold k2, drop_os in E. destruct (p_os k1 !! resp_body_in N) as [[i|]|].
    - cbn in E. destruct (decide (i = req_body_out N)) as [->|Hne]; [by rewrite lookup_insert_eq in E|]. rewrite lookup_insert_ne in E by done.
      apply Hs1 in E, Hso. congruence.
    - apply Hs1 in E, Hso. congruence.
    - apply Hs1 in E, Hso. congruence. }
  destruct (drop_is_rest (req_body_out N) k2) as (S1 & S2 & S3 & S4). split_and!.
  - by apply (wired_same (drop_is (req_body_out N) k2)).
  - unfold timers_are. cbn [p_publish p_timers]. by rewrite S1, R1.
  - cbn [p_publish p_out]. by rewrite S3, R3.
  - cbn [p_publish p_os]. apply drop_is_keeps_os, drop_os_none, (w_body_in _ Hw1).
  - cbn [p_publish p_is]. apply drop_is_none, is_Some_drop_os, (w_body_out _ Hw1).
  - cbn [p_publish p_events]. by rewrite S4, R4.
Qed.

Lemma wp_request_complete l kn h k ka rd wr (Q : unit -> conn L -> Prop) :
  sees l k -> wired k -> timers_are k ka rd wr -> wr = None \/ wr = Some NXWEB_TIMER_WRITE ->
  (forall l', sees l' (complete_core k) -> Q tt (mk_conn l' kn h)) -> wp (request_complete N) Q (mk_conn l kn h).
Proof using names.
  intros Hs Hw Ht Hwr HQ. pose proof (complete_core_ok l k ka rd wr Hs Hw Ht) as (Hwc & _). unfold request_complete.
  apply wp_bind, wp_on_l, see_data_out_unset with (k := k); [done|]. intros l1 Hs1.
  apply wp_bind, wp_on_l. eapply see_unset_timer; [exact Hs1|apply Ht|done|]. intros l2 Hs2.
  apply wp_bind. eapply wp_disconnect_ostream; [exact Hs2|apply (w_body_in k Hw)|]. intros l3 Hs3.
  apply wp_bind. eapply wp_disconnect_istream; [exact Hs3|apply is_Some_drop_os, (w_body_out k Hw)|]. intros l4 Hs4.
  apply wp_on_l. eapply see_publish; [exact Hs4| |].
  - destruct (drop_is_rest (req_body_out N) (drop_os (resp_body_in N) (p_set_timer (timer_write N) None (p_set_out false k)))) as (_ & -> & _).
    destruct (drop_os_rest (resp_body_in N) (p_set_timer (timer_write N) None (p_set_out false k))) as (_ & -> & _). apply (w_events k Hw).
  - intros l5 Hs5. by apply HQ.
Qed.

(** * The state of a connection *)

Definition unpaired_body (k : core) : Prop := p_os k !! resp_body_in N = Some None.

(** The streams that exist go on existing. *)
Definition core_le (k k' : core) : Prop :=
  (forall i, is_Some (p_is k !! i) -> is_Some (p_is k' !! i)) /\ (forall o, is_Some (p_os k !! o) -> is_Some (p_os k' !! o)).
Lemma core_le_refl k : core_le k k.
Proof using Type. done. Qed.
Lemma core_le_trans k1 k2 k3 : core_le k1 k2 -> core_le k2 k3 -> core_le k1 k3.
Proof using Type. intros [A B] [C D]. split; auto. Qed.
Lemma core_le_same k k' : same_pairs k k' -> core_le k k'.
Proof using Type. intros (E1 & E2 & _). by split; intros ?; rewrite ?E1, ?E2. Qed.
Lemma core_le_set_pair k i o x y : core_le k (p_set_pair i o x y k).
Proof using Type. split; intros j Hj; cbn; apply lookup_insert_is_Some'; by right. Qed.
Lemma core_le_drop_os k o : core_le k (drop_os o k).
Proof using Type. unfold drop_os. destruct (p_os k !! o) as [[i|]|]; [apply core_le_set_pair|apply core_le_refl..]. Qed.
Lemma core_le_drop_is k i : core_le k (drop_is i k).
Proof using Type. unfold drop_is. destruct (p_is k !! i) as [[o|]|]; [apply core_le_set_pair|apply core_le_refl..]. Qed.
Lemma core_le_complete k : core_le k (complete_core k).
Proof using Type.
  unfold complete_core. set (k1 := p_set_timer _ _ _). apply (core_le_trans _ k1); [by apply core_le_same|].
  apply (core_le_trans _ _ _ (core_le_drop_os k1 (resp_body_in N))). set (k2 := drop_os _ k1).
  apply (core_le_trans _ _ _ (core_le_drop_is k2 (req_body_out N))). by apply core_le_same.
Qed.

(** The buffer of a request while its headers come in: one block, with a zero
    byte at its end; later: any buffer that leaves room for the headers of the
    response. *)
Definition headers_nxb (nxb : nxb_buffer) : Prop := exists s,
  buffer_ok [] s nxb /\ nxb_end nxb = chunk_size (nxb_chunk_ nxb) /\ chunk_size (nxb_chunk_ nxb) <= NXWEB_CONN_NXB_SIZE /\
  peek (c_mem (nxb_chunk_ nxb)) (chunk_size (nxb_chunk_ nxb) - 1) = Some 0.
Definition nxb_ok (nxb : nxb_buffer) : Prop := exists s, buffer_ok [] s nxb /\ chunk_size (nxb_chunk_ nxb) + zlen s <= 2 ^ 25.

(** What is left to be sent of what was announced. *)
Definition responding (s : nxd_http_server_proto_state) : bool :=
  match s with HSP_SENDING_HEADERS | HSP_SENDING_BODY => true | _ => false end.
Definition no_body (h : nxd_http_server_proto) (resp : response) : bool := (rs_content_length resp =? 0) || rq_head_method (hsp_req h).
Definition head_rest (h : nxd_http_server_proto) : bytes :=
  if hsp_sending_100_continue h then
    default [] (hsp_resp_headers_ptr h) ++
      if responding (hsp_state h) then default [] (resp ← hsp_resp h; rs_raw_headers resp) else []
  else match hsp_state h with HSP_SENDING_HEADERS => default [] (hsp_resp_headers_ptr h) | _ => [] end.
Definition source_rest (h : nxd_http_server_proto) (i : positive) : bytes :=
  if bool_decide (i = ob_data_out N) then take (Z.to_nat (ob_data_size (hsp_ob h))) (ob_data (hsp_ob h))
  else if bool_decide (i = fb_data_out N) then
    src_bytes file (WFile (fb_fd (hsp_fb h)) (fb_offset (hsp_fb h))) (fb_end (hsp_fb h) - fb_offset (hsp_fb h))
  else [].
Definition body_rest (h : nxd_http_server_proto) : bytes :=
  match hsp_resp h with
  | Some resp => if no_body h resp then [] else match content_out resp with Some i => source_rest h i | None => [] end
  | None => []
  end.
Definition pending (h : nxd_http_server_proto) : bytes := head_rest h ++ if responding (hsp_state h) then body_rest h else [].

(** The body of the response, if any, comes from a buffer of the protocol. *)
Definition own_source (resp : response) : Prop :=
  match content_out resp with Some i => i = ob_data_out N \/ i = fb_data_out N | None => True end.
Definition source_known (resp : response) : Prop :=
  forall i, content_out resp = Some i -> i = ob_data_out N \/ i = fb_data_out N \/ i ∈ foreign_is.
Definition own_body (h : nxd_http_server_proto) : Prop := forall resp, hsp_resp h = Some resp -> own_source resp.

Definition handling (h : nxd_http_server_proto) (k : core) : Prop :=
  unpaired_body k /\ (p_out k = true -> hsp_sending_100_continue h = true) /\ fb_fd (hsp_fb h) = 0 /\
  (exists nxb, hsp_nxb h = Some nxb /\ nxb_ok nxb) /\ (exists resp, hsp_resp h = Some resp /\ rs_content_out resp = 0).
Definition before_request (h : nxd_http_server_proto) (k : core) : Prop :=
  unpaired_body k /\ p_out k = false /\ fb_fd (hsp_fb h) = 0 /\ hsp_resp h = None /\ hsp_req h = request_zero /\ hsp_sending_100_continue h = false /\
  hsp_content_received h = 0 /\ hsp_chunked_content_complete h = false /\ hsp_cdstate h = ds_of false a_start.
(** A response under way, or complete. *)
Definition sending (h : nxd_http_server_proto) (k : core) : Prop :=
  is_Some (hsp_nxb h) /\ exists resp p, hsp_resp h = Some resp /\ rs_chunked_autoencode resp = false /\
    p_os k !! resp_body_in N = Some p /\ (p = None \/ p = content_out resp) /\ source_known resp /\
    (hsp_state h = HSP_SENDING_BODY -> hsp_sending_100_continue h = false /\ no_body h resp = false) /\
    (timers_are k None None (Some NXWEB_TIMER_WRITE) \/
     timers_are k None None None /\ p = None /\ p_out k = false /\ (own_source resp -> pending h = [])).

Definition state_ok (h : nxd_http_server_proto) (k : core) : Prop :=
  match hsp_state h with
  | HSP_WAITING_FOR_REQUEST => timers_are k (Some NXWEB_TIMER_KEEP_ALIVE) None None /\ before_request h k /\ hsp_nxb h = None
  | HSP_RECEIVING_HEADERS => timers_are k None (Some NXWEB_TIMER_READ) None /\ before_request h k /\ (exists nxb, hsp_nxb h = Some nxb /\ headers_nxb nxb)
  | HSP_RECEIVING_BODY => timers_are k None (Some NXWEB_TIMER_READ) None /\ is_request_body_complete h = false /\ handling h k
  | HSP_HANDLING => timers_are k None None None /\ handling h k
  | HSP_SENDING_HEADERS | HSP_SENDING_BODY => sending h k
  end.
Definition buffers_ok (h : nxd_http_server_proto) : Prop :=
  0 <= ob_data_size (hsp_ob h) <= zlen (ob_data (hsp_ob h)) /\ 0 <= fb_offset (hsp_fb h) <= fb_end (hsp_fb h) /\ fb_end (hsp_fb h) < 2 ^ 63.
Definition hsp_inv (h : nxd_http_server_proto) (k : core) : Prop :=
  state_ok h k /\ (hsp_sending_100_continue h = true -> has_header_bytes h = true) /\ buffers_ok h.
Definition conn_inv (k : core) (c : conn L) : Prop := sees (c_loop c) k /\ wired k /\ hsp_inv (c_hsp c) k.

Definition completed (h : nxd_http_server_proto) (k : core) : Prop := responding (hsp_state h) = true /\ timers_are k None None None.

(** The bytes of a chunked body that have not been decoded yet are well formed,
    and those that came with the headers fit every read. *)
Definition body_bytes (c : conn L) : bytes := default [] (hsp_first_body_chunk (c_hsp c)) ++ in_bytes (k_in (c_kernel c)).
Definition decodes (h : nxd_http_server_proto) (s : bytes) : Prop :=
  rq_chunked_encoding (hsp_req h) = true -> exists a, hsp_cdstate h = ds_of false a /\ a_ok a /\ 0 <= snd (arun a s).
Definition body_fits (c : conn L) : Prop := hsp_state (c_hsp c) = HSP_RECEIVING_BODY ->
  decodes (c_hsp c) (body_bytes c) /\
  (rq_chunked_encoding (hsp_req (c_hsp c)) = true -> zlen (default [] (hsp_first_body_chunk (c_hsp c))) <= min_read).

Definition total (c : conn L) : bytes := k_out (c_kernel c) ++ pending (c_hsp c).

(** What an operation that was started on [c] with [k] keeps; [W] is what it
    announced. *)
Definition keeps (W : bytes) (k : core) (c c' : conn L) : Prop :=
  exists k', conn_inv k' c' /\ core_le k k' /\ (completed (c_hsp c) k -> completed (c_hsp c') k') /\
    (own_body (c_hsp c) -> own_body (c_hsp c') /\ total c' = total c ++ W) /\ (body_fits c -> body_fits c').

(** The same without an announcement, where the next core is known. *)
Abbreviation stays k0 c0 k1 c1 := (conn_inv k1 c1 /\ core_le k0 k1 /\ (completed (c_hsp c0) k0 -> completed (c_hsp c1) k1) /\
  (own_body (c_hsp c0) -> own_body (c_hsp c1) /\ total c1 = total c0) /\ (body_fits c0 -> body_fits c1)).

Lemma keeps_trans W k0 k1 c0 c1 c2 :
  stays k0 c0 k1 c1 -> keeps W k1 c1 c2 -> keeps W k0 c0 c2.
Proof using Type.
  intros (H1 & H2 & H3 & H4 & H5) (k2 & G1 & G2 & G3 & G4 & G5). exists k2. split_and!; [done|by eapply core_le_trans|auto| |auto].
  intros Hown. destruct (H4 Hown) as [Ho <-]. auto.
Qed.
Lemma keeps_open k0 c0 c1 : keeps [] k0 c0 c1 -> exists k1, stays k0 c0 k1 c1.
Proof using Type. intros (k1 & H). exists k1. by rewrite app_nil_r in H. Qed.
Lemma keeps_intro k0 c0 k1 c1 : stays k0 c0 k1 c1 -> keeps [] k0 c0 c1.
Proof using Type. intros H. exists k1. by rewrite app_nil_r. Qed.
Lemma stays_trans k0 k1 k2 c0 c1 c2 : stays k0 c0 k1 c1 -> stays k1 c1 k2 c2 -> stays k0 c0 k2 c2.
Proof using Type.
  intros (H1 & H2 & H3 & H4 & H5) (G1 & G2 & G3 & G4 & G5). split_and!; [done|by eapply core_le_trans|auto| |auto].
  intros Hown. destruct (H4 Hown) as [Ho <-]. auto.
Qed.

(** Only the loop changed, and of it only what is not seen. *)
Lemma stays_loop k l l' kn h : conn_inv k (mk_conn l kn h) -> sees l' k -> stays k (mk_conn l kn h) k (mk_conn l' kn h).
Proof using Type. intros (Hs & Hw & Hi) Hs'. split_and!; try done. Qed.
Lemma keeps_same_loop k l l' kn h : conn_inv k (mk_conn l kn h) -> sees l' k -> keeps [] k (mk_conn l kn h) (mk_conn l' kn h).
Proof using Type.
  intros (Hs & Hw & Hi) Hs'. exists k. split_and!; [done|apply core_le_refl|done| |done]. intros Ho. split; [done|]. by rewrite app_nil_r.
Qed.
Lemma keeps_refl k c : conn_inv k c -> keeps [] k c c.
Proof using Type. destruct c as [l kn h]. intros H. apply keeps_same_loop; [done|apply H]. Qed.

(** ** Loop operations on a connection *)

Lemma w_data_in l k : sees l k -> wired k -> p_os k !! data_in N = Some (Some (fs_data_is fs)).
Proof using Type. intros Hs Hw. by apply (sees_pair _ _ _ _ _ Hs), w_sock_in. Qed.
Lemma w_data_out l k : sees l k -> wired k -> p_is k !! data_out N = Some (Some (fs_data_os fs)).
Proof using Type. intros Hs Hw. by apply (sees_pair _ _ _ _ _ Hs), w_sock_out. Qed.

(** [quiet c k]: [c] changes nothing of the loop that is seen. *)
Definition quiet {A} (c : M L A) (k : core) : Prop := forall l (Q : A -> L -> Prop), sees l k -> (forall a l', sees l' k -> Q a l') -> wp c Q l.
Lemma quiet_is_set k i : is_Some (p_is k !! i) -> i <> data_out N -> quiet (sl_istream_set_ready i) k.
Proof using Type. intros [p Hp] Hn l Q Hs HQ. eapply see_istream_set_ready; [done..|]. by apply HQ. Qed.
Lemma quiet_is_unset k i : is_Some (p_is k !! i) -> i <> data_out N -> quiet (sl_istream_unset_ready i) k.
Proof using Type. intros [p Hp] Hn l Q Hs HQ. eapply see_istream_unset_ready; [done..|]. by apply HQ. Qed.
Lemma quiet_os_set k o : is_Some (p_os k !! o) -> quiet (sl_ostream_set_ready o) k.
Proof using Type. intros [p Hp] l Q Hs HQ. eapply see_ostream_set_ready; [done..|]. by apply HQ. Qed.
Lemma quiet_os_unset k o : is_Some (p_os k !! o) -> quiet (sl_ostream_unset_ready o) k.
Proof using Type. intros [p Hp] l Q Hs HQ. eapply see_ostream_unset_ready; [done..|]. by apply HQ. Qed.
Lemma quiet_mark k o : is_Some (p_os k !! o) -> quiet (sl_mark_ready o) k.
Proof using Type. intros [p Hp] l Q Hs HQ. eapply see_mark_ready; [done..|]. by apply HQ. Qed.

Lemma wp_quiet {A} (c : M L A) l kn h k (Q : A -> conn L -> Prop) : quiet c k -> sees l k ->
  (forall a l', sees l' k -> Q a (mk_conn l' kn h)) -> wp (on_l c) Q (mk_conn l kn h).
Proof using Type. intros Hc Hs HQ. apply wp_on_l. by apply Hc. Qed.
Lemma wp_then_quiet {A B} (c : M L A) (f : A -> M (conn L) B) l kn h k (Q : B -> conn L -> Prop) : quiet c k -> sees l k ->
  (forall a l', sees l' k -> wp (f a) Q (mk_conn l' kn h)) -> wp (bind (on_l c) f) Q (mk_conn l kn h).
Proof using Type. intros Hc Hs HQ. apply wp_bind. by eapply wp_quiet. Qed.

(** The streams of the protocol that are not [data_out]. *)
Lemma quiet_ok k : wired k ->
  (p_os k !! data_in N = Some (Some (fs_data_is fs)) ->
   quiet (sl_ostream_set_ready (data_in N)) k /\ quiet (sl_ostream_unset_ready (data_in N)) k) /\
  quiet (sl_istream_set_ready (req_body_out N)) k /\ quiet (sl_istream_unset_ready (req_body_out N)) k /\
  quiet (sl_ostream_set_ready (resp_body_in N)) k /\ quiet (sl_ostream_unset_ready (resp_body_in N)) k /\ quiet (sl_mark_ready (resp_body_in N)) k.
Proof using names.
  intros Hw. destruct names_ne as (_ & (B1 & _) & _). pose proof (w_body_out _ Hw). pose proof (w_body_in _ Hw).
  split_and!; [intros E; split; [apply quiet_os_set|apply quiet_os_unset]; by rewrite E|..]; auto using quiet_is_set, quiet_is_unset, quiet_os_set, quiet_os_unset, quiet_mark.
Qed.
Lemma quiet_data_in l k : sees l k -> wired k -> quiet (sl_ostream_set_ready (data_in N)) k /\ quiet (sl_ostream_unset_ready (data_in N)) k.
Proof using names. intros Hs Hw. apply (quiet_ok k Hw). by eapply w_data_in. Qed.

Lemma wp_publish_event l kn h k d (Q : unit -> conn L -> Prop) : sees l k -> wired k ->
  (forall l', sees l' (p_publish d k) -> Q tt (mk_conn l' kn h)) -> wp (publish N d) Q (mk_conn l kn h).
Proof using Type. intros Hs Hw HQ. apply wp_on_l. eapply see_publish; [done|apply w_events, Hw|]. done. Qed.
Lemma wp_set_timer_on l kn h k q t (Q : unit -> conn L -> Prop) : sees l k -> 0 <= q < server_queues -> p_timers k !! t = Some None ->
  (forall l', sees l' (p_set_timer t (Some q) k) -> Q tt (mk_conn l' kn h)) -> wp (set_timer q t) Q (mk_conn l kn h).
Proof using Type. intros Hs Hq Ht HQ. apply wp_on_l. by eapply see_set_timer. Qed.
Lemma wp_unset_timer_on l kn h k q t x (Q : unit -> conn L -> Prop) : sees l k -> p_timers k !! t = Some x -> x = None \/ x = Some q ->
  (forall l', sees l' (p_set_timer t None k) -> Q tt (mk_conn l' kn h)) -> wp (unset_timer q t) Q (mk_conn l kn h).
Proof using Type. intros Hs Ht Hx HQ. apply wp_on_l. by eapply see_unset_timer. Qed.

(** ** The request body *)

(** What [receive_body_bytes] makes of [s]. *)
Definition received (h : nxd_http_server_proto) (s : bytes) (h' : nxd_http_server_proto) (o : bytes) : Prop :=
  h' = set_content_received (hsp_content_received h + zlen o)
        (set_chunked_content_complete (hsp_chunked_content_complete h') (set_cdstate (hsp_cdstate h') h)) /\
  if rq_chunked_encoding (hsp_req h) then
    forall a, hsp_cdstate h = ds_of false a ->
    let '(a', d, rc) := arun a s in
    o = d /\ hsp_cdstate h' = ds_of false a' /\ hsp_chunked_content_complete h' = hsp_chunked_content_complete h || (0 <? rc)
  else o = s /\ hsp_cdstate h' = hsp_cdstate h /\ hsp_chunked_content_complete h' = hsp_chunked_content_complete h.

Lemma ds_of_inj a b : ds_of false a = ds_of false b -> a = b.
Proof using Type. destruct a, b. by intros [= -> -> ->]. Qed.

Lemma decodes_prefix h s rest : decodes h (s ++ rest) -> decodes h s.
Proof using Type.
  intros Hd Hc. destruct (Hd Hc) as (a & Ha & Hok & Hrc). exists a. split_and!; [done..|]. rewrite arun_app in Hrc.
  destruct (arun a s) as [[a1 o1] r1]. cbn. destruct (Z.eqb_spec r1 0); [lia|]. by cbn in Hrc.
Qed.
Lemma received_rest h s h' o rest : received h s h' o -> decodes h (s ++ rest) -> hsp_chunked_content_complete h' = false -> decodes h' rest.
Proof using Type.
  intros [He Hr] Hd Hcc Hc. assert (Hc0 : rq_chunked_encoding (hsp_req h) = true) by (rewrite He in Hc; done).
  rewrite Hc0 in Hr. destruct (Hd Hc0) as (a & Ha & Hok & Hrc). specialize (Hr a Ha). rewrite arun_app in Hrc.
  destruct (arun a s) as [[a1 o1] r1] eqn:E. destruct Hr as (-> & Hds & Hcm). rewrite Hcc in Hcm. symmetry in Hcm. apply orb_false_iff in Hcm as [_ Hr1].
  destruct (Z.eqb_spec r1 0) as [->|Hne].
  - exists a1. split_and!; [done|by eapply arun_ok|]. by destruct (arun a1 rest) as [[a2 o2] r2].
  - cbn in Hrc. apply Z.ltb_ge in Hr1. lia.
Qed.

Lemma wp_receive_body_bytes l kn h s (Q : bytes -> conn L -> Prop) : decodes h s ->
  (forall o h', received h s h' o -> zlen o <= zlen s -> Q o (mk_conn l kn h')) -> wp (receive_body_bytes N s) Q (mk_conn l kn h).
Proof using Type.
  intros Hd HQ. unfold receive_body_bytes. apply wp_bind, wp_get_hsp. unfold received, decodes in *.
  destruct (rq_chunked_encoding (hsp_req h)) eqn:Ec; apply wp_bind.
  - destruct (Hd eq_refl) as (a & Ha & Hok & Hrc). destruct (decode_whole a s Hok ltac:(lia)) as (r & m & He & Hrr & Hds & Hlen & Hm).
    rewrite Ha, He. apply wp_bind, wp_upd_hsp. rewrite Hrr.
    destruct (arun a s) as [[a' o] rc] eqn:Er. cbn [fst snd] in *. rewrite (proj2 (Z.ltb_ge rc 0)) by done.
    assert (Hfin : forall b, b = (0 <? rc) -> forall h1, h1 = set_content_received (hsp_content_received h + zlen o) (set_chunked_content_complete (hsp_chunked_content_complete h || b) (set_cdstate (dr_ds r) h)) -> Q o (mk_conn l kn h1)).
    { intros b Hb h1 Hh1. apply HQ; [|apply Hm]. rewrite Hh1. split; [done|]. intros a0 Ha0. rewrite Ha in Ha0. apply ds_of_inj in Ha0 as <-. rewrite Er. cbn.
      split_and!; [done|done|]. by rewrite Hb. }
    apply wp_bind. destruct Hm as [Hm Hl]. replace (take (Z.to_nat (dr_len r)) m) with o.
    2:{ rewrite Hlen. symmetry. by apply bytes_at_take. }
    destruct (0 <? rc) eqn:E1.
    + apply wp_upd_hsp, wp_ret, wp_bind, wp_upd_hsp, wp_ret. apply (Hfin true); [done|]. by rewrite orb_true_r.
    + apply wp_ret, wp_ret, wp_bind, wp_upd_hsp, wp_ret. apply (Hfin false); [done|]. rewrite orb_false_r. by destruct h.
  - apply wp_ret, wp_bind, wp_upd_hsp, wp_ret. apply HQ; [|done]. split; [by destruct h|done].
Qed.

Lemma wp_read_body_from_socket l kn h k size (Q : bytes -> conn L -> Prop) :
  sees l k -> wired k -> 0 <= size -> decodes h (in_bytes (k_in kn)) ->
  (forall s o l' kn' h', sees l' k -> in_bytes (k_in kn) = s ++ in_bytes (k_in kn') -> zlen o <= size -> k_out kn' = k_out kn ->
     received h s h' o -> Q o (mk_conn l' kn' h')) ->
  wp (read_body_from_socket N fs size) Q (mk_conn l kn h).
Proof using names.
  intros Hs Hw Hsz Hd HQ. unfold read_body_from_socket. apply wp_bind, wp_on_l. eapply see_ostream; [exact Hs|by eapply w_data_in|].
  intros ost ->. apply wp_bind, wp_on_l. eapply see_istream; [exact Hs|apply w_sock_in, Hw|]. intros ist _ _.
  assert (Hrest : forall s l1 kn1, sees l1 k -> in_bytes (k_in kn) = s ++ in_bytes (k_in kn1) -> zlen s <= size -> k_out kn1 = k_out kn ->
    wp (let! ist := on_l (sl_istream (fs_data_is fs)) in
        if! negb (is_ready ist) then
          (do! on_l (sl_istream_unset_ready (req_body_out N)) in on_l (sl_ostream_set_ready (data_in N))) in
        receive_body_bytes N s) Q (mk_conn l1 kn1 h)).
  { intros s l1 kn1 Hs1 Hin Hl Ho. apply wp_bind, wp_on_l. eapply see_istream; [exact Hs1|apply w_sock_in, Hw|]. intros ist1 _ _.
    destruct (quiet_ok k Hw) as (_ & _ & Hu & _). destruct (quiet_data_in _ k Hs1 Hw) as [Hset _].
    assert (Hrecv : forall l2, sees l2 k -> wp (receive_body_bytes N s) Q (mk_conn l2 kn1 h)).
    { intros l2 Hs2. apply wp_receive_body_bytes; [eapply decodes_prefix; by rewrite <- Hin|].
      intros o h' Hr Hol. eapply HQ; [exact Hs2|exact Hin|lia|exact Ho|exact Hr]. }
    apply wp_bind. destruct (negb (is_ready ist1)); [|by apply wp_ret, Hrecv].
    eapply wp_then_quiet; [exact Hu|exact Hs1|]. intros _ l2 Hs2. eapply wp_quiet; [exact Hset|exact Hs2|]. intros _ l3 Hs3. by apply Hrecv. }
  apply wp_bind. destruct (is_ready ist).
  - eapply wp_sock_read; [exact Hs|exact Hw|exact Hsz|]. intros s l1 kn1 Hs1 Hl _ Hin Ho. by apply Hrest.
  - apply wp_ret. apply Hrest; [done|done|by rewrite zlen_nil|done].
Qed.

Lemma wp_take_first_body_chunk l kn h size (Q : bytes -> conn L -> Prop) : 0 <= size ->
  (forall s rest, default [] (hsp_first_body_chunk h) = s ++ default [] rest -> zlen s <= size -> (rest = None \/ zlen s = size) ->
     (zlen (default [] (hsp_first_body_chunk h)) <= size -> rest = None) ->
     Q s (mk_conn l kn (set_first_body_chunk rest h))) ->
  wp (take_first_body_chunk size) Q (mk_conn l kn h).
Proof using Type.
  intros Hsz HQ. unfold take_first_body_chunk. apply wp_bind, wp_get_hsp. destruct (hsp_first_body_chunk h) as [chunk|] eqn:E; cbn [default from_option id] in *.
  - destruct (Z.leb_spec (zlen chunk) size) as [Hl|Hl]; apply wp_bind, wp_upd_hsp, wp_ret; apply HQ; cbn [default from_option id]; try done.
    + by rewrite app_nil_r.
    + by left.
    + by rewrite take_drop.
    + rewrite zlen_take; lia.
    + right. rewrite zlen_take; lia.
    + intros. lia.
  - apply wp_ret. specialize (HQ [] None eq_refl ltac:(rewrite zlen_nil; lia) ltac:(by left) ltac:(done)). by destruct h; cbn in *; subst.
Qed.

Lemma wp_finish_request_body l kn h k (Q : unit -> conn L -> Prop) : sees l k -> wired k ->
  (forall l', sees l' (p_publish NXD_HSP_REQUEST_BODY_RECEIVED k) -> Q tt (mk_conn l' kn (set_state HSP_HANDLING h))) ->
  wp (finish_request_body N) Q (mk_conn l kn h).
Proof using names.
  intros Hs Hw HQ. unfold finish_request_body. set (k1 := p_publish _ _) in *. apply wp_bind. eapply wp_publish_event; [exact Hs|exact Hw|].
  intros l1 Hs1. fold k1 in Hs1. assert (Hw1 : wired k1) by (by apply (wired_same k)). apply wp_bind, wp_upd_hsp.
  eapply wp_then_quiet; [apply (quiet_data_in _ _ Hs1 Hw1)|exact Hs1|]. intros _ l2 Hs2.
  eapply wp_quiet; [apply (quiet_ok k1 Hw1)|exact Hs2|]. intros [] l3 Hs3. by apply HQ.
Qed.

(** One call of the consumer: [raw] came off the wire, [o] was handed over. *)
Definition body_read (c : conn L) (size : Z) (o : bytes) (eof : bool) (c' : conn L) : Prop :=
  let h := c_hsp c in let h' := c_hsp c' in
  (exists raw, body_bytes c = raw ++ body_bytes c' /\
    if rq_chunked_encoding (hsp_req h)
    then forall a, hsp_cdstate h = ds_of false a -> let '(a', d, rc) := arun a raw in o = d /\ hsp_cdstate h' = ds_of false a'
    else o = raw) /\
  zlen o <= size /\ hsp_content_received h' = hsp_content_received h + zlen o /\
  eof = is_request_body_complete h' /\
  hsp_state h' = (if eof then HSP_HANDLING else HSP_RECEIVING_BODY).

(** The fields of the request body do not matter to the invariant. *)
Definition body_fields (x : Z) (b : bool) (d : nxweb_chunked_decoder_state) (f : option bytes) (h : nxd_http_server_proto) : nxd_http_server_proto :=
  set_content_received x (set_chunked_content_complete b (set_cdstate d (set_first_body_chunk f h))).

Lemma received_twice h f s1 h1 o1 s2 h2 o2 : received (set_first_body_chunk f h) s1 h1 o1 -> received h1 s2 h2 o2 ->
  hsp_chunked_content_complete h1 = false -> decodes h s1 ->
  exists x b d, h2 = body_fields x b d f h /\ hsp_content_received h2 = hsp_content_received h + zlen (o1 ++ o2) /\
   if rq_chunked_encoding (hsp_req h)
   then forall a, hsp_cdstate h = ds_of false a -> let '(a', d, rc) := arun a (s1 ++ s2) in o1 ++ o2 = d /\ hsp_cdstate h2 = ds_of false a'
   else o1 ++ o2 = s1 ++ s2.
Proof using Type.
  intros [E1 R1] [E2 R2] Hc Hd.
  exists (hsp_content_received h2), (hsp_chunked_content_complete h2), (hsp_cdstate h2).
  assert (Hreq : hsp_req h1 = hsp_req h) by (rewrite E1; done).
  assert (Hcr : hsp_content_received h1 = hsp_content_received h + zlen o1) by (rewrite E1; done).
  split_and!.
  - rewrite E2, E1. by destruct h.
  - rewrite E2. cbn [set_content_received hsp_content_received]. rewrite Hcr, zlen_app. lia.
  - rewrite Hreq in R2. cbn in R1. destruct (rq_chunked_encoding (hsp_req h)) eqn:Ec.
    + intros a Ha. specialize (R1 a Ha). rewrite arun_app. destruct (Hd Ec) as (a0 & Ha0 & Hok & Hrc).
      rewrite Ha in Ha0. apply ds_of_inj in Ha0 as <-. destruct (arun a s1) as [[a1 d1] r1] eqn:Ea1. cbn in Hrc. destruct R1 as (-> & Hds & Hcm).
      rewrite Hc in Hcm. symmetry in Hcm. apply orb_false_iff in Hcm as [_ Hr1%Z.ltb_ge]. assert (r1 = 0) as -> by lia. cbn [Z.eqb].
      specialize (R2 a1 Hds). destruct (arun a1 s2) as [[a2 d2] r2]. destruct R2 as (-> & ? & _). done.
    + destruct R1 as (-> & _), R2 as (-> & _). done.
Qed.

Lemma wp_first_chunk l kn h size (Q : bytes -> conn L -> Prop) : 0 <= size -> decodes h (default [] (hsp_first_body_chunk h)) ->
  (forall s f o h', default [] (hsp_first_body_chunk h) = s ++ default [] f -> zlen o <= zlen s <= size ->
     (f = None \/ zlen s = size) -> (zlen (default [] (hsp_first_body_chunk h)) <= size -> f = None) -> (hsp_first_body_chunk h = None -> h' = h) ->
     received (set_first_body_chunk f h) s h' o -> Q o (mk_conn l kn h')) ->
  wp (match hsp_first_body_chunk h with
      | None => ret []
      | Some _ => let! s := take_first_body_chunk size in receive_body_bytes N s
      end) Q (mk_conn l kn h).
Proof using Type.
  intros Hsz Hd HQ. destruct (hsp_first_body_chunk h) as [chunk|] eqn:E.
  - apply wp_bind, wp_take_first_body_chunk; [done|]. intros s f Hsf Hl Hlf Hf. rewrite E in Hsf, Hf. cbn [default from_option id] in *.
    apply wp_receive_body_bytes; [eapply (decodes_prefix _ s (default [] f)); by rewrite <- Hsf|].
    intros o h' Hr Hol. apply (HQ s f o h'); [done|lia|done..].
  - apply wp_ret, (HQ [] None [] h); [done|rewrite zlen_nil; lia|by left|done|done|]. split; [destruct h; cbn in *; subst; by rewrite Z.add_0_r|].
    cbn. destruct (rq_chunked_encoding (hsp_req h)); [|done]. intros a Ha. cbn. by rewrite orb_false_r.
Qed.

(** What was read so far: [raw] off the wire, [o] for the consumer. *)
Definition read_so_far (kn : kernel) (h : nxd_http_server_proto) (raw o : bytes) (kn2 : kernel) (h2 : nxd_http_server_proto) : Prop :=
  (exists x b d f, h2 = body_fields x b d f h) /\ k_out kn2 = k_out kn /\
  default [] (hsp_first_body_chunk h) ++ in_bytes (k_in kn) = raw ++ default [] (hsp_first_body_chunk h2) ++ in_bytes (k_in kn2) /\
  (if rq_chunked_encoding (hsp_req h)
   then forall a, hsp_cdstate h = ds_of false a -> let '(a', d, rc) := arun a raw in o = d /\ hsp_cdstate h2 = ds_of false a'
   else o = raw) /\
  hsp_content_received h2 = hsp_content_received h + zlen o.

Lemma read_ends l kn h k raw o size l' kn2 h2 k' (eof : bool) :
  conn_inv k (mk_conn l kn h) -> hsp_state h = HSP_RECEIVING_BODY -> read_so_far kn h raw o kn2 h2 -> zlen o <= size ->
  sees l' k' -> same_pairs k k' -> p_out k' = p_out k ->
  timers_are k' None (if eof then None else Some NXWEB_TIMER_READ) None ->
  eof = is_request_body_complete h2 -> (eof = false -> body_fits (mk_conn l' kn2 h2)) ->
  let c' := mk_conn l' kn2 (if eof then set_state HSP_HANDLING h2 else h2) in
  keeps [] k (mk_conn l kn h) c' /\ body_read (mk_conn l kn h) size o eof c'.
Proof using Type.
  intros (Hs & Hw & Hst & H100 & Hbuf) Hstate ((x & b & d & f & Eh2) & Hk & Hraw & Hdec & Hcr) Hlo Hs' Hsp Ho' Ht' Heof Hbf c'.
  cbn in Hs, Hst, H100, Hbuf. unfold state_ok in Hst. rewrite Hstate in Hst. destruct Hst as (_ & _ & G1 & G2 & G3 & G4 & G5).
  pose proof Hsp as (E1 & E2 & E3). assert (Hh2 : handling h2 k') by (unfold handling, unpaired_body in *; rewrite E2, Ho', Eh2; done).
  assert (Hst2 : hsp_state h2 = HSP_RECEIVING_BODY) by (by rewrite Eh2). split.
  - exists k'. split_and!.
    + split; [exact Hs'|split; [by eapply wired_same|]]. unfold c'. cbn [c_hsp]. destruct eof; (split; [|by rewrite Eh2]); unfold state_ok; cbn; [done|].
      by rewrite Hst2.
    + by apply core_le_same.
    + intros [Hr _]. cbn in Hr. by rewrite Hstate in Hr.
    + intros Ho. unfold c'. split; [by destruct eof; rewrite Eh2|]. rewrite app_nil_r. unfold total. cbn. rewrite Hk. f_equal.
      unfold pending, head_rest. destruct eof; rewrite Eh2; cbn; by rewrite Hstate.
    + intros _. unfold c'. destruct eof; [by intros [=]|]. by apply Hbf.
  - unfold c', body_read, body_bytes. cbn [c_hsp c_kernel]. split_and!; [exists raw|done|by destruct eof|by destruct eof|by destruct eof].
    split; by destruct eof.
Qed.

Lemma first_received kn h f s h' o : default [] (hsp_first_body_chunk h) = s ++ default [] f ->
  received (set_first_body_chunk f h) s h' o -> read_so_far kn h s o kn h'.
Proof using Type.
  intros Hs [E R]. assert (Ef : hsp_first_body_chunk h' = f) by (by rewrite E). split_and!.
  - exists (hsp_content_received h'), (hsp_chunked_content_complete h'), (hsp_cdstate h'), f. rewrite E. by destruct h.
  - done.
  - by rewrite Ef, Hs, app_assoc.
  - cbn in R. destruct (rq_chunked_encoding (hsp_req h)); [|by destruct R]. intros a Ha. specialize (R a Ha). destruct (arun a s) as [[a' d] rc]. by destruct R as (? & ? & _).
  - by rewrite E.
Qed.
Lemma both_received kn h f s1 h1 o1 s2 h2 o2 kn2 : default [] (hsp_first_body_chunk h) = s1 ++ default [] f ->
  received (set_first_body_chunk f h) s1 h1 o1 -> received h1 s2 h2 o2 -> k_out kn2 = k_out kn ->
  hsp_chunked_content_complete h1 = false -> decodes h s1 -> f = None -> in_bytes (k_in kn) = s2 ++ in_bytes (k_in kn2) ->
  read_so_far kn h (s1 ++ s2) (o1 ++ o2) kn2 h2.
Proof using Type.
  intros Hs R1 R2 Hk Hc Hd -> Hin. destruct (received_twice _ _ _ _ _ _ _ _ R1 R2 Hc Hd) as (x & b & d & E & Hcr & Hdec). split_and!; [by eauto|done| |done|done].
  rewrite E. cbn [body_fields set_content_received set_chunked_content_complete set_cdstate set_first_body_chunk hsp_first_body_chunk default from_option id app].
  rewrite Hs, Hin. cbn. by rewrite app_nil_r, app_assoc.
Qed.

Lemma wp_read_body l kn h k size (Q : bytes * bool -> conn L -> Prop) :
  conn_inv k (mk_conn l kn h) -> hsp_state h = HSP_RECEIVING_BODY -> 0 <= min_read <= size -> body_fits (mk_conn l kn h) ->
  (forall o eof c', keeps [] k (mk_conn l kn h) c' -> body_read (mk_conn l kn h) size o eof c' -> Q (o, eof) c') ->
  wp (req_body_out_read N fs size) Q (mk_conn l kn h).
Proof using names.
  intros Hinv Hstate Hsz Hfit HQ. pose proof Hinv as (Hs & Hw & Hst & _). cbn [c_loop c_hsp] in Hs, Hst. unfold state_ok in Hst. rewrite Hstate in Hst.
  destruct Hst as (Ht & Hnc & _). destruct (Hfit Hstate) as [Hd Hfirst]. unfold body_bytes in Hd. cbn [c_hsp c_kernel] in Hd, Hfirst.
  assert (Hc1 : hsp_chunked_content_complete h = false) by (by apply orb_false_iff in Hnc as [_ ?]).
  unfold req_body_out_read. apply wp_bind, wp_get_hsp. rewrite Hstate.
  apply wp_bind. eapply wp_unset_timer_on; [exact Hs|apply Ht|by right|]. set (k1 := p_set_timer _ _ _). intros l1 Hs1.
  assert (Hw1 : wired k1) by (by apply (wired_same k)). assert (Ht1 : timers_are k1 None None None) by (by apply timers_set_rd with (rd := Some NXWEB_TIMER_READ)).
  apply wp_bind, wp_first_chunk; [lia|by eapply decodes_prefix|]. intros s1 f o1 h1 Hfs Hl1 Hf1 Hf Hnone R1.
  rewrite Hfs, <- app_assoc in Hd. pose proof (decodes_prefix _ _ _ Hd) as Hd1. pose proof (first_received kn _ _ _ _ _ Hfs R1) as Hr1.
  apply wp_bind, wp_get_hsp. destruct (bool_decide _ && is_request_body_complete h1) eqn:Efin.
  { apply andb_true_iff in Efin as [_ Hcm]. apply wp_bind. eapply wp_finish_request_body; [exact Hs1|exact Hw1|]. intros l2 Hs2. apply wp_ret.
    destruct (read_ends l kn h k s1 o1 size l2 kn h1 (p_publish NXD_HSP_REQUEST_BODY_RECEIVED k1) true Hinv Hstate Hr1) as [G1 G2]; [lia|exact Hs2|done|done|exact Ht1|done|done|]. by apply HQ. }
  assert (Hnc1 : is_request_body_complete h1 = false).
  { apply andb_false_iff in Efin as [Hn|?]; [|done]. apply bool_decide_eq_false in Hn. rewrite <- eq_None_not_Some in Hn. by rewrite (Hnone Hn). }
  assert (Hcc1 : hsp_chunked_content_complete h1 = false) by (by apply orb_false_iff in Hnc1 as [_ ?]).
  pose proof (received_rest _ _ _ _ _ R1 Hd Hcc1) as Hd2.
  assert (Hfit1 : forall kn2 l2 h2 f2, decodes h2 (default [] f2 ++ in_bytes (k_in kn2)) -> hsp_first_body_chunk h2 = f2 ->
     (rq_chunked_encoding (hsp_req h2) = true -> zlen (default [] f2) <= min_read) -> body_fits (mk_conn l2 kn2 h2)).
  { intros kn2 l2 h2 f2 Hdd <- Hz _. by split. }
  pose proof R1 as [E1 _]. assert (Hf1' : hsp_first_body_chunk h1 = f) by (by rewrite E1). assert (Hrq1 : hsp_req h1 = hsp_req h) by (by rewrite E1).
  apply wp_bind. destruct (Z.ltb_spec 0 (size - zlen o1)) as [Hmore|Hmore].
  - assert (f = None) as ->.
    { destruct (rq_chunked_encoding (hsp_req h)) eqn:Ec; [apply Hf; specialize (Hfirst eq_refl); lia|].
      destruct Hf1 as [->|E]; [done|]. destruct R1 as [_ R1]. cbn in R1. rewrite Ec in R1. destruct R1 as (-> & _). lia. }
    eapply wp_read_body_from_socket; [exact Hs1|exact Hw1|lia|exact Hd2|]. intros s2 o2 l2 kn2 h2 Hs2 Hin Hl2 Hko R2.
    pose proof (both_received _ _ _ _ _ _ _ _ _ _ Hfs R1 R2 Hko Hcc1 Hd1 eq_refl Hin) as Hr2. pose proof (zlen_app o1 o2).
    apply wp_bind, wp_get_hsp, wp_bind, wp_on_l. eapply see_ostream; [exact Hs2|by eapply w_data_in|]. intros ost ->. cbn [andb].
    change (bool_decide (is_Some (Some (fs_data_is fs)))) with true. cbn [andb]. destruct (is_request_body_complete h2) eqn:Ecm.
    + apply wp_bind. eapply wp_finish_request_body; [exact Hs2|exact Hw1|]. intros l3 Hs3. apply wp_ret.
      destruct (read_ends l kn h k (s1 ++ s2) (o1 ++ o2) size l3 kn2 h2 (p_publish NXD_HSP_REQUEST_BODY_RECEIVED k1) true Hinv Hstate Hr2) as [G1 G2]; [lia|exact Hs3|done|done|exact Ht1|done|done|]. by apply HQ.
    + apply wp_bind. eapply wp_set_timer_on; [exact Hs2|by vm_compute|apply Ht1|]. intros l3 Hs3. apply wp_ret.
      destruct (read_ends l kn h k (s1 ++ s2) (o1 ++ o2) size l3 kn2 h2 (p_set_timer (timer_read N) (Some NXWEB_TIMER_READ) k1) false Hinv Hstate Hr2) as [G1 G2];
        [lia|exact Hs3|done|done|by apply timers_set_rd with (rd := None)|done| |by apply HQ].
      intros _. pose proof R2 as [E2 _]. apply (Hfit1 _ _ _ None); [|by rewrite E2|intros _; cbn; rewrite zlen_nil; lia].
      cbn [default from_option id app]. eapply (received_rest h1); [exact R2| |]; [cbn in Hd2; by rewrite <- Hin|]. by apply orb_false_iff in Ecm as [_ ?].
  - apply wp_ret, wp_bind, wp_get_hsp, wp_bind, wp_on_l. eapply see_ostream; [exact Hs1|by eapply w_data_in|]. intros ost _. cbn [andb]. rewrite app_nil_r.
    apply wp_bind. eapply wp_set_timer_on; [exact Hs1|by vm_compute|apply Ht1|]. intros l3 Hs3. apply wp_ret.
    destruct (read_ends l kn h k s1 o1 size l3 kn h1 (p_set_timer (timer_read N) (Some NXWEB_TIMER_READ) k1) false Hinv Hstate Hr1) as [G1 G2]; [lia|exact Hs3|done|done|by apply timers_set_rd with (rd := None)|done| |by apply HQ].
    intros _. apply (Hfit1 _ _ _ f); [exact Hd2|done|]. rewrite Hrq1. intros Hc. specialize (Hfirst Hc). rewrite Hfs, zlen_app in Hfirst. pose proof (zlen_nonneg s1). lia.
Qed.

Lemma wp_req_body_out_read l kn h k size (Q : bytes * bool -> conn L -> Prop) :
  conn_inv k (mk_conn l kn h) -> 0 <= min_read <= size -> body_fits (mk_conn l kn h) ->
  (forall r c', keeps [] k (mk_conn l kn h) c' -> Q r c') -> wp (req_body_out_read N fs size) Q (mk_conn l kn h).
Proof using names.
  intros Hinv Hsz Hfit HQ. pose proof Hinv as (Hs & Hw & _). cbn [c_loop] in Hs. destruct (quiet_ok k Hw) as (_ & _ & Hu & _).
  destruct (decide (hsp_state h = HSP_RECEIVING_BODY)) as [E|Hne]; [eapply wp_read_body; [done..|]; intros; by apply HQ|].
  unfold req_body_out_read. apply wp_bind, wp_get_hsp.
  assert (Hwrong : wp (do! on_l (sl_istream_unset_ready (req_body_out N)) in do! on_l (sl_ostream_set_ready (data_in N)) in ret ([], false)) Q (mk_conn l kn h)).
  { eapply wp_then_quiet; [exact Hu|exact Hs|]. intros _ l1 Hs1. eapply wp_then_quiet; [apply (quiet_data_in _ k Hs1 Hw)|exact Hs1|]. intros _ l2 Hs2.
    apply wp_ret, HQ. by apply keeps_same_loop. }
  destruct (hsp_state h); try done.
  eapply wp_then_quiet; [exact Hu|exact Hs|]. intros _ l1 Hs1. apply wp_ret, HQ. by apply keeps_same_loop.
Qed.

(** ** The response body *)

(** A write of the body, in the state for it. *)
Definition written (k : core) (kn : kernel) (src : wsrc) (size : Z) (eof : bool) (n : Z) (k' : core) (kn' : kernel) : Prop :=
  wired k' /\ core_le k k' /\ 0 <= n <= size /\ n <= zlen (src_bytes file src size) /\ k_in kn' = k_in kn /\
  k_out kn' = k_out kn ++ take (Z.to_nat n) (src_bytes file src size) /\
  if eof && (n =? size) then timers_are k' None None None /\ unpaired_body k' /\ p_out k' = false /\ p_events k' = p_events k ++ [NXD_HSP_REQUEST_COMPLETE]
  else timers_are k' None None (Some NXWEB_TIMER_WRITE) /\ p_os k' !! resp_body_in N = p_os k !! resp_body_in N /\ p_events k' = p_events k.

Lemma wp_write_body l kn h k wr resp src size eof (Q : Z -> conn L -> Prop) :
  sees l k -> wired k -> hsp_state h = HSP_SENDING_BODY -> hsp_resp h = Some resp -> rs_chunked_autoencode resp = false ->
  timers_are k None None wr -> wr = None \/ wr = Some NXWEB_TIMER_WRITE -> 0 <= size ->
  (forall n l' k' kn', sees l' k' -> written k kn src size eof n k' kn' -> Q n (mk_conn l' kn' (set_bytes_sent (hsp_bytes_sent h + n) h))) ->
  wp (resp_body_in_write N fs accept file src size eof) Q (mk_conn l kn h).
Proof using names accept_bound.
  intros Hs Hw Hst Hr Hch Ht Hwr Hsz HQ. unfold resp_body_in_write. apply wp_bind, wp_get_hsp. rewrite Hst, Hr, Hch. cbn [negb orb].
  change (bool_decide (HSP_SENDING_BODY = HSP_SENDING_BODY)) with true. cbn [negb].
  apply wp_bind. eapply wp_unset_timer_on; [exact Hs|apply Ht|exact Hwr|]. intros l1 Hs1. set (k1 := p_set_timer _ _ _) in *.
  assert (Hw1 : wired k1) by (by apply (wired_same k)). assert (Ht1 : timers_are k1 None None None) by (by apply timers_set_wr with (wr := wr)).
  (* after the bytes were sent *)
  assert (Hafter : forall n l2 k2 kn2, sees l2 k2 -> same_pairs k k2 -> p_timers k2 = p_timers k1 -> p_events k2 = p_events k -> 0 <= n <= size -> n <= zlen (src_bytes file src size) ->
    k_in kn2 = k_in kn -> k_out kn2 = k_out kn ++ take (Z.to_nat n) (src_bytes file src size) ->
    wp (do! upd_hsp (fun h => set_bytes_sent (hsp_bytes_sent h + n) h) in
        let! h := get_hsp in
        if eof && (n =? size) && (negb false || _nxweb_encode_chunked_is_complete (hsp_cestate h)) then do! request_complete N in ret n
        else do! set_timer NXWEB_TIMER_WRITE (timer_write N) in ret n) Q (mk_conn l2 kn2 h)).
  { intros n l2 k2 kn2 Hs2 Hsp Htm Hev Hn Hnl Hin Hout. pose proof Hsp as (E1 & E2 & E3). assert (Hw2 : wired k2) by (by eapply wired_same).
    assert (Ht2 : timers_are k2 None None None) by (unfold timers_are; by rewrite Htm). apply wp_bind, wp_upd_hsp, wp_bind, wp_get_hsp. cbn [negb orb]. rewrite andb_true_r.
    destruct (eof && (n =? size)) eqn:Efin; apply wp_bind.
    - pose proof (complete_core_ok _ _ _ _ _ Hs2 Hw2 Ht2) as (C1 & C2 & C3 & C4 & C5 & C6).
      eapply wp_request_complete; [exact Hs2|exact Hw2|exact Ht2|by left|]. intros l3 Hs3. apply wp_ret. apply (HQ n l3 (complete_core k2) kn2); [done|].
      unfold written. rewrite Efin. split_and!; try done; try lia; [|by rewrite C6, Hev]. eapply core_le_trans; [by apply core_le_same|apply core_le_complete].
    - eapply wp_set_timer_on; [exact Hs2|by vm_compute|apply Ht2|]. intros l3 Hs3. apply wp_ret. eapply (HQ n l3 _ kn2); [exact Hs3|].
      unfold written. rewrite Efin. split_and!; try done; try lia; [by apply (wired_same k2)|by apply core_le_same|by apply timers_set_wr with (wr := None)|cbn; by rewrite E2]. }
  apply wp_bind. destruct (Z.eqb_spec size 0) as [->|Hnz]; cbn [negb orb].
  { apply wp_ret. apply (Hafter 0 l1 k1 kn); try done. { apply zlen_nonneg. } cbn. by rewrite app_nil_r. }
  apply wp_bind, wp_on_l. eapply see_istream; [exact Hs1|by eapply w_data_out|]. intros ist -> _.
  apply wp_bind, wp_on_l. eapply see_ostream; [exact Hs1|apply w_sock_out, Hw1|]. intros ost _.
  assert (Hafter2 : forall n l2 kn2, sees l2 k1 -> 0 <= n <= size -> n <= zlen (src_bytes file src size) ->
    k_in kn2 = k_in kn -> k_out kn2 = k_out kn ++ take (Z.to_nat n) (src_bytes file src size) ->
    wp (let! ost := on_l (sl_ostream (fs_data_os fs)) in
        if! negb (os_ready ost) then (do! on_l (sl_ostream_unset_ready (resp_body_in N)) in on_l (sl_istream_set_ready (data_out N))) in ret n)
      (fun n c' => wp (do! upd_hsp (fun h => set_bytes_sent (hsp_bytes_sent h + n) h) in
        let! h := get_hsp in
        if eof && (n =? size) && (negb false || _nxweb_encode_chunked_is_complete (hsp_cestate h)) then do! request_complete N in ret n
        else do! set_timer NXWEB_TIMER_WRITE (timer_write N) in ret n) Q c') (mk_conn l2 kn2 h)).
  { intros n l2 kn2 Hs2 Hn Hnl Hin Hout. apply wp_bind, wp_on_l. eapply see_ostream; [exact Hs2|apply w_sock_out, Hw1|]. intros ost2 _. apply wp_bind.
    destruct (negb (os_ready ost2)); [|by apply wp_ret, wp_ret, (Hafter n l2 k1 kn2)].
    destruct (quiet_ok k1 Hw1) as (_ & _ & _ & _ & Hu & _). eapply wp_then_quiet; [exact Hu|exact Hs2|]. intros _ l3 Hs3. apply wp_on_l, (see_data_out_set _ _ k1); [done|].
    intros l4 Hs4. by apply wp_ret, (Hafter n l4 (p_set_out true k1) kn2). }
  apply wp_bind. destruct (os_ready ost).
  - eapply wp_sock_write; [exact Hs1|exact Hw1|lia|]. intros n l2 kn2 Hs2 Hn Hnl Hin Hout. by apply Hafter2.
  - apply wp_ret, Hafter2; [done|lia|apply zlen_nonneg|done|]. cbn. by rewrite app_nil_r.
Qed.

(** [i] feeds a response: which one, and that it is under way. *)
Lemma paired_sending l kn h k i : conn_inv k (mk_conn l kn h) -> p_os k !! resp_body_in N = Some (Some i) ->
  responding (hsp_state h) = true /\ is_Some (hsp_nxb h) /\ exists resp, hsp_resp h = Some resp /\ rs_chunked_autoencode resp = false /\ content_out resp = Some i /\ source_known resp /\
    (hsp_state h = HSP_SENDING_BODY -> hsp_sending_100_continue h = false /\ no_body h resp = false) /\ timers_are k None None (Some NXWEB_TIMER_WRITE).
Proof using Type.
  intros (_ & _ & Hst & _) Hp. cbn [c_hsp] in Hst. unfold state_ok, before_request, handling, unpaired_body in Hst.
  assert (Hsend : sending h k -> is_Some (hsp_nxb h) /\ exists resp, hsp_resp h = Some resp /\ rs_chunked_autoencode resp = false /\ content_out resp = Some i /\ source_known resp /\
    (hsp_state h = HSP_SENDING_BODY -> hsp_sending_100_continue h = false /\ no_body h resp = false) /\ timers_are k None None (Some NXWEB_TIMER_WRITE)).
  { intros (Hn & resp & p & Hr & Hc & Hp' & Hpo & Hkn & Hb & Ht). split; [done|]. exists resp. rewrite Hp in Hp'. injection Hp' as <-. destruct Hpo as [|Hpo]; [done|].
    destruct Ht as [Ht|(_ & ? & _)]; [|done]. done. }
  destruct (hsp_state h); try (exfalso; clear -Hst Hp; naive_solver); (split; [reflexivity|exact (Hsend Hst)]).
Qed.

Lemma body_sent l kn h k i src size eof n k' kn' l' h' x ob fb :
  conn_inv k (mk_conn l kn h) -> hsp_state h = HSP_SENDING_BODY -> p_os k !! resp_body_in N = Some (Some i) ->
  written k kn src size eof n k' kn' -> sees l' k' -> h' = set_bytes_sent x (set_fb fb (set_ob ob h)) -> buffers_ok h' ->
  (i = ob_data_out N \/ i = fb_data_out N -> source_rest h i = take (Z.to_nat n) (src_bytes file src size) ++ source_rest h' i /\
     (eof && (n =? size) = true -> source_rest h' i = [])) ->
  keeps [] k (mk_conn l kn h) (mk_conn l' kn' h').
Proof using Type.
  intros Hinv Hst Hp (Hw' & Hle & Hn & Hnl & Hin & Hout & Hfin) Hs' Eh' Hbuf Hsrc.
  destruct (paired_sending _ _ _ _ _ Hinv Hp) as (Hre & Hnxb & resp & Hr & Hch & Hco & Hkn & Hbody & Ht). destruct (Hbody Hst) as [H100 Hnb].
  assert (Hrest : forall h0, hsp_state h0 = HSP_SENDING_BODY -> hsp_resp h0 = Some resp -> hsp_sending_100_continue h0 = false -> hsp_req h0 = hsp_req h -> pending h0 = source_rest h0 i).
  { intros h0 E1 E2 E3 E4. unfold pending, head_rest, body_rest, no_body in *. rewrite E1, E2, E3, E4. cbn [responding]. by rewrite Hnb, Hco. }
  assert (Hown : own_body h -> i = ob_data_out N \/ i = fb_data_out N).
  { intros Ho. specialize (Ho resp Hr). unfold own_source in Ho. by rewrite Hco in Ho. }
  assert (F1 : hsp_state h' = HSP_SENDING_BODY) by (by rewrite Eh'). assert (F2 : hsp_resp h' = Some resp) by (by rewrite Eh').
  assert (F3 : hsp_sending_100_continue h' = false) by (by rewrite Eh'). assert (F4 : hsp_req h' = hsp_req h) by (by rewrite Eh').
  assert (F5 : hsp_nxb h' = hsp_nxb h) by (by rewrite Eh').
  exists k'. split_and!; [|done| |..].
  - split; [exact Hs'|split; [exact Hw'|split]]; cbn [c_hsp]; [|split; [congruence|done]]. unfold state_ok. rewrite F1.
    split; [by rewrite F5|]. assert (Hb' : hsp_state h' = HSP_SENDING_BODY -> hsp_sending_100_continue h' = false /\ no_body h' resp = false) by (intros _; unfold no_body in *; by rewrite F4).
    destruct (eof && (n =? size)) eqn:Ef.
    + destruct Hfin as (Ht' & Hu & Ho & _). exists resp, None. split_and!; [done|done|done|by left|exact Hkn|exact Hb'|]. right. split_and!; [done|done|done|].
      intros Ho'. rewrite (Hrest h') by done. apply Hsrc; [|done]. unfold own_source in Ho'. by rewrite Hco in Ho'.
    + destruct Hfin as (Ht' & Hu & _). exists resp, (Some i). split_and!; [done|done|by rewrite Hu|by right|exact Hkn|exact Hb'|by left].
  - intros [_ Hd]. destruct Ht as (_ & _ & Ht), Hd as (_ & _ & Hd). cbn in Hd. congruence.
  - intros Ho. split; [intros r; cbn; rewrite F2; rewrite <- Hr; apply Ho|]. rewrite app_nil_r. unfold total. cbn [c_kernel c_hsp]. rewrite Hout, (Hrest h), (Hrest h') by done.
    destruct (Hsrc (Hown Ho)) as [-> _]. by rewrite <- app_assoc.
  - intros _ Hs. cbn in Hs. congruence.
Qed.

(** A write in the wrong state only asks to be called again. *)
Lemma wp_write_early l kn h k i src size eof (Q : Z -> conn L -> Prop) :
  conn_inv k (mk_conn l kn h) -> p_os k !! resp_body_in N = Some (Some i) -> hsp_state h <> HSP_SENDING_BODY ->
  (forall l' k', sees l' k' -> keeps [] k (mk_conn l kn h) (mk_conn l' kn h) -> Q 0 (mk_conn l' kn h)) -> wp (resp_body_in_write N fs accept file src size eof) Q (mk_conn l kn h).
Proof using names.
  intros Hinv Hp Hne HQ. destruct (paired_sending _ _ _ _ _ Hinv Hp) as (Hre & Hnxb & resp & Hr & Hch & Hco & Hkn & Hbody & Ht).
  pose proof Hinv as (Hs & Hw & Hst & Hx). cbn [c_loop c_hsp] in Hs, Hst, Hx. unfold resp_body_in_write. apply wp_bind, wp_get_hsp. rewrite bool_decide_false by done. cbn [negb].
  destruct (quiet_ok k Hw) as (_ & _ & _ & _ & Hu & _). eapply wp_then_quiet; [exact Hu|exact Hs|]. intros _ l1 Hs1.
  apply wp_bind, wp_on_l, (see_data_out_set _ _ k); [done|]. intros l2 Hs2. apply wp_ret. eapply HQ; [exact Hs2|].
  exists (p_set_out true k). split_and!; [|by apply core_le_same|done| |done].
  - split; [exact Hs2|split; [by apply (wired_same k)|split; [|exact Hx]]]. cbn [c_hsp].
    assert (Hsd : sending h (p_set_out true k)).
    { split; [done|]. exists resp, (Some i). split_and!; [done|done|done|by right|done|done|by left]. }
    unfold state_ok. by destruct (hsp_state h).
  - intros Ho. split; [done|]. by rewrite app_nil_r.
Qed.

Lemma wp_foreign_write l kn h k i src size eof (Q : Z -> conn L -> Prop) :
  conn_inv k (mk_conn l kn h) -> p_os k !! resp_body_in N = Some (Some i) -> i ∈ foreign_is -> 0 <= size ->
  (forall n c', keeps [] k (mk_conn l kn h) c' -> Q n c') -> wp (resp_body_in_write N fs accept file src size eof) Q (mk_conn l kn h).
Proof using names accept_bound.
  intros Hinv Hp Hi Hsz HQ. destruct (decide (hsp_state h = HSP_SENDING_BODY)) as [E|Hne].
  - destruct (paired_sending _ _ _ _ _ Hinv Hp) as (Hre & Hnxb & resp & Hr & Hch & Hco & Hkn & Hbody & Ht). pose proof Hinv as (Hs & Hw & _ & _ & Hbuf).
    eapply wp_write_body; [exact Hs|exact Hw|exact E|exact Hr|exact Hch|exact Ht|by right|done|]. intros n l' k' kn' Hs' Hwr. apply HQ.
    eapply (body_sent l kn h k i src size eof n k' kn' l' _ _ (hsp_ob h) (hsp_fb h)); [exact Hinv|exact E|exact Hp|exact Hwr|exact Hs'|by destruct h|exact Hbuf|].
    pose proof (n_foreign_is names) as Hf. rewrite !Forall_cons in Hf. destruct Hf as (_ & _ & _ & Hf1 & Hf2 & _). intros [->| ->]; done.
  - eapply wp_write_early; [done..|]. intros l' k' _ Hk. by apply HQ.
Qed.

Lemma wp_ob_lift (Q : unit -> conn L -> Prop) c :
  wp (obuffer_data_out_do_write (fun data eof => resp_body_in_write N fs accept file (WMem data) (zlen data) eof))
    (fun a p => Q a (mk_conn (c_loop p.1) (c_kernel p.1) (set_ob p.2 (c_hsp p.1)))) (c, hsp_ob (c_hsp c)) ->
  wp (ob_do_write N fs accept file) Q c.
Proof using Type. unfold wp, ob_do_write. by destruct (obuffer_data_out_do_write _ _) as [[a [s ob]]|]. Qed.
Lemma wp_fb_lift (Q : unit -> conn L -> Prop) c :
  wp (fbuffer_data_out_do_write (fun fd offset size eof => resp_body_in_write N fs accept file (WFile fd offset) size eof))
    (fun a p => Q a (mk_conn (c_loop p.1) (c_kernel p.1) (set_fb p.2 (c_hsp p.1)))) (c, hsp_fb (c_hsp c)) ->
  wp (fb_do_write N fs accept file) Q c.
Proof using Type. unfold wp, fb_do_write. by destruct (fbuffer_data_out_do_write _ _) as [[a [s fb]]|]. Qed.

Lemma set_ob_same h : set_ob (hsp_ob h) h = h.
Proof using Type. by destruct h. Qed.
Lemma set_fb_same h : set_fb (hsp_fb h) h = h.
Proof using Type. by destruct h. Qed.

Lemma wp_ob_do_write l kn h k (Q : unit -> conn L -> Prop) :
  conn_inv k (mk_conn l kn h) -> p_os k !! resp_body_in N = Some (Some (ob_data_out N)) ->
  (forall c', keeps [] k (mk_conn l kn h) c' -> Q tt c') -> wp (ob_do_write N fs accept file) Q (mk_conn l kn h).
Proof using names accept_bound.
  intros Hinv Hp HQ. apply wp_ob_lift. cbn [c_hsp]. unfold obuffer_data_out_do_write. apply wp_bind, wp_on_buf, wp_get.
  pose proof Hinv as (Hs & Hw & _ & _ & (Hob1 & Hob2) & Hfb1 & Hfb2). cbn [c_loop c_hsp] in *.
  destruct (paired_sending _ _ _ _ _ Hinv Hp) as (Hre & Hnxb & resp & Hr & Hch & Hco & Hkn & Hbody & Ht). set (ob := hsp_ob h) in *.
  destruct (decide (hsp_state h = HSP_SENDING_BODY)) as [E|Hne].
  - assert (Hstep : forall data n l' k' kn' ob', data = take (Z.to_nat (ob_data_size ob)) (ob_data ob) ->
      written k kn (WMem data) (zlen data) true n k' kn' -> sees l' k' ->
      ob' = mk_ob (StreamBuffers.ob_data_out ob) (drop (Z.to_nat n) (ob_data ob)) (ob_data_size ob - n) ->
      keeps [] k (mk_conn l kn h) (mk_conn l' kn' (set_ob ob' (set_bytes_sent (hsp_bytes_sent h + n) h)))).
    { intros data n l' k' kn' ob' Hdata Hwr Hs' Hob'. assert (Hdl : zlen data = ob_data_size ob) by (rewrite Hdata, zlen_take; lia).
      pose proof Hwr as (_ & _ & Hn & _). assert (Hsz : src_bytes file (WMem data) (zlen data) = data) by (cbn; apply take_ge; unfold zlen; lia).
      eapply (body_sent l kn h k (ob_data_out N) (WMem data) (zlen data) true n k' kn' l' _ _ ob' (hsp_fb h)); [exact Hinv|exact E|exact Hp|exact Hwr|exact Hs'|by destruct h| |].
      - rewrite Hob'. split; [|by cbn]. cbn. rewrite zlen_drop by lia. lia.
      - intros _. unfold source_rest. rewrite bool_decide_true by done. cbn [set_ob set_bytes_sent hsp_ob]. fold ob. rewrite Hob'. cbn [ob_data ob_data_size]. rewrite Hsz, Hdata. split.
        + rewrite <- (take_drop (Z.to_nat n) (take (Z.to_nat (ob_data_size ob)) (ob_data ob))) at 1. f_equal. rewrite skipn_firstn_comm. f_equal. lia.
        + cbn [andb]. rewrite <- Hdata. intros Hnn%Z.eqb_eq. by replace (Z.to_nat (ob_data_size ob - n)) with O by lia. }
    destruct (Z.eqb_spec (ob_data_size ob) 0) as [Hz|Hz]; apply wp_bind, wp_on_loop.
    + eapply wp_write_body; [exact Hs|exact Hw|exact E|exact Hr|exact Hch|exact Ht|by right|apply zlen_nonneg|].
      intros n l' k' kn' Hs' Hwr. apply wp_ret. cbn [fst snd c_loop c_kernel c_hsp]. apply HQ.
      pose proof Hwr as (_ & _ & Hn & _). change (zlen []) with 0 in Hn. assert (n = 0) as -> by lia.
      eapply Hstep; [|exact Hwr|exact Hs'|]; [by rewrite Hz|]. rewrite Z.sub_0_r. fold ob. destruct ob; done.
    + eapply wp_write_body; [exact Hs|exact Hw|exact E|exact Hr|exact Hch|exact Ht|by right|apply zlen_nonneg|].
      intros n l' k' kn' Hs' Hwr. destruct (Z.ltb_spec 0 n) as [Hpos|Hpos].
      * apply wp_on_buf, wp_put. cbn [fst snd c_loop c_kernel c_hsp]. apply HQ. by eapply Hstep.
      * apply wp_ret. cbn [fst snd c_loop c_kernel c_hsp]. apply HQ. pose proof Hwr as (_ & _ & Hn & _). assert (n = 0) as -> by lia.
        eapply Hstep; [done|exact Hwr|exact Hs'|]. rewrite Z.sub_0_r. fold ob. destruct ob; done.
  - assert (Hearly : forall data, wp (resp_body_in_write N fs accept file (WMem data) (zlen data) true)
      (fun n c' => n = 0 /\ Q tt (mk_conn (c_loop c') (c_kernel c') (set_ob (hsp_ob h) (c_hsp c')))) (mk_conn l kn h)).
    { intros data. eapply wp_write_early; [exact Hinv|exact Hp|done|]. intros l' k' _ Hk. split; [done|]. cbn [c_loop c_kernel c_hsp]. rewrite set_ob_same. by apply HQ. }
    destruct (ob_data_size ob =? 0); apply wp_bind, wp_on_loop; (eapply wp_mono; [apply Hearly|]); intros n c' [-> Hc]; [by apply wp_ret|]. by apply wp_ret.
Qed.

Lemma wp_fb_do_write l kn h k (Q : unit -> conn L -> Prop) :
  conn_inv k (mk_conn l kn h) -> p_os k !! resp_body_in N = Some (Some (fb_data_out N)) ->
  (forall c', keeps [] k (mk_conn l kn h) c' -> Q tt c') -> wp (fb_do_write N fs accept file) Q (mk_conn l kn h).
Proof using names accept_bound.
  intros Hinv Hp HQ. apply wp_fb_lift. cbn [c_hsp]. unfold fbuffer_data_out_do_write. apply wp_bind, wp_on_buf, wp_get.
  pose proof Hinv as (Hs & Hw & _ & _ & Hob & (Hfb0 & Hfb1) & Hfb2). cbn [c_loop c_hsp] in *.
  destruct (paired_sending _ _ _ _ _ Hinv Hp) as (Hre & Hnxb & resp & Hr & Hch & Hco & Hkn & Hbody & Ht). set (fb := hsp_fb h) in *. cbv zeta.
  rewrite wrapu_small by lia. set (size := fb_end fb - fb_offset fb). destruct names_ne as (_ & _ & (_ & _ & Hne) & _).
  destruct (decide (hsp_state h = HSP_SENDING_BODY)) as [E|Hns].
  - assert (Hstep : forall n l' k' kn' fb', written k kn (WFile (fb_fd fb) (fb_offset fb)) size true n k' kn' -> sees l' k' ->
      fb' = mk_fb (StreamBuffers.fb_data_out fb) (fb_fd fb) (fb_offset fb + n) (fb_end fb) ->
      keeps [] k (mk_conn l kn h) (mk_conn l' kn' (set_fb fb' (set_bytes_sent (hsp_bytes_sent h + n) h)))).
    { intros n l' k' kn' fb' Hwr Hs' Hfb'. pose proof Hwr as (_ & _ & Hn & _).
      eapply (body_sent l kn h k (fb_data_out N) (WFile (fb_fd fb) (fb_offset fb)) size true n k' kn' l' _ _ (hsp_ob h) fb'); [exact Hinv|exact E|exact Hp|exact Hwr|exact Hs'|by destruct h| |].
      - rewrite Hfb'. split; [exact Hob|]. cbn. lia.
      - intros _. unfold source_rest. rewrite bool_decide_false by done. rewrite bool_decide_true by done. cbn [set_fb set_bytes_sent hsp_fb]. fold fb. rewrite Hfb'. cbn [fb_fd fb_offset fb_end src_bytes].
        fold size. split.
        + rewrite <- (take_drop (Z.to_nat n) (take (Z.to_nat size) (drop (Z.to_nat (fb_offset fb)) (file (fb_fd fb))))) at 1. f_equal.
          rewrite skipn_firstn_comm, drop_drop. f_equal; [unfold size; lia|f_equal; lia].
        + cbn [andb]. intros Hnn%Z.eqb_eq. by replace (Z.to_nat (fb_end fb - (fb_offset fb + n))) with O by (unfold size in *; lia). }
    assert (Hsame : mk_fb (StreamBuffers.fb_data_out fb) (fb_fd fb) (fb_offset fb + 0) (fb_end fb) = fb) by (rewrite Z.add_0_r; by destruct fb).
    destruct (Z.eqb_spec size 0) as [Hz|Hz]; apply wp_bind, wp_on_loop.
    + eapply wp_write_body; [exact Hs|exact Hw|exact E|exact Hr|exact Hch|exact Ht|by right|done|].
      intros n l' k' kn' Hs' Hwr. apply wp_ret. cbn [fst snd c_loop c_kernel c_hsp]. apply HQ.
      pose proof Hwr as (_ & _ & Hn & _). assert (n = 0) as -> by lia. eapply Hstep; [by rewrite Hz|exact Hs'|by rewrite Hsame].
    + eapply wp_write_body; [exact Hs|exact Hw|exact E|exact Hr|exact Hch|exact Ht|by right|unfold size; lia|].
      intros n l' k' kn' Hs' Hwr. destruct (Z.ltb_spec 0 n) as [Hpos|Hpos].
      * apply wp_on_buf, wp_put. cbn [fst snd c_loop c_kernel c_hsp]. apply HQ. by eapply Hstep.
      * apply wp_ret. cbn [fst snd c_loop c_kernel c_hsp]. apply HQ. pose proof Hwr as (_ & _ & Hn & _). assert (n = 0) as -> by lia.
        eapply Hstep; [exact Hwr|exact Hs'|by rewrite Hsame].
  - assert (Hearly : forall sz, wp (resp_body_in_write N fs accept file (WFile (fb_fd fb) (fb_offset fb)) sz true)
      (fun n c' => n = 0 /\ Q tt (mk_conn (c_loop c') (c_kernel c') (set_fb (hsp_fb h) (c_hsp c')))) (mk_conn l kn h)).
    { intros sz. eapply wp_write_early; [exact Hinv|exact Hp|done|]. intros l' k' _ Hk. split; [done|]. cbn [c_loop c_kernel c_hsp]. rewrite set_fb_same. by apply HQ. }
    destruct (size =? 0); apply wp_bind, wp_on_loop; (eapply wp_mono; [apply Hearly|]); intros n c' [-> Hc]; by apply wp_ret.
Qed.

(** ** Other components *)

(** What a component outside the protocol does in one of its methods: it reads
    the request body or writes the response body through its own stream, when
    that is connected to the protocol, and stores into the readiness of its
    streams; what it does next may depend on the answers. *)
Inductive prog :=
| PDone
| PRead (o : positive) (size : Z) (next : bytes * bool -> prog)
| PWrite (i : positive) (src : wsrc) (size : Z) (eof : bool) (next : Z -> prog)
| PSetIs (i : positive) (ready : bool) (next : prog)
| PSetOs (o : positive) (ready : bool) (next : prog).

Fixpoint run (p : prog) : M (conn L) unit :=
  match p with
  | PDone => ret tt
  | PRead o size next =>
      let! ost := on_l (sl_ostream o) in
      if bool_decide (os_pair ost = Some (req_body_out N))
      then let! r := req_body_out_read N fs size in run (next r) else run (next ([], false))
  | PWrite i src size eof next =>
      let! ist := on_l (sl_istream i) in
      if bool_decide (is_pair ist = Some (resp_body_in N))
      then let! n := resp_body_in_write N fs accept file src size eof in run (next n) else run (next 0)
  | PSetIs i b next => do! on_l (if b then sl_istream_set_ready i else sl_istream_unset_ready i) in run next
  | PSetOs o b next => do! on_l (if b then sl_ostream_set_ready o else sl_ostream_unset_ready o) in run next
  end.

(** The component uses its own streams, and reads offer enough room. *)
Fixpoint legal (p : prog) : Prop :=
  match p with
  | PDone => True
  | PRead o size next => o ∈ foreign_os /\ 0 <= min_read <= size /\ forall r, legal (next r)
  | PWrite i src size eof next => i ∈ foreign_is /\ 0 <= size /\ forall n, legal (next n)
  | PSetIs i _ next => i ∈ foreign_is /\ legal next
  | PSetOs o _ next => o ∈ foreign_os /\ legal next
  end.

Lemma foreign_ne i : i ∈ foreign_is -> i <> data_out N /\ i <> ob_data_out N /\ i <> fb_data_out N /\ i <> req_body_out N /\ i <> fs_data_is fs.
Proof using names.
  intros Hi. pose proof (n_foreign_is names) as Hf. rewrite !Forall_cons in Hf. destruct Hf as (H1 & H2 & H3 & H4 & H5 & _). split_and!; by intros ->.
Qed.

Lemma wp_run_prog p c k (Q : unit -> conn L -> Prop) : legal p -> conn_inv k c -> body_fits c ->
  (forall c', keeps [] k c c' -> Q tt c') -> wp (run p) Q c.
Proof using names accept_bound.
  revert c k Q. induction p as [|o size next IH|i src size eof next IH|i b next IH|o b next IH]; intros [l kn h] k Q Hl Hinv Hfit HQ; cbn [run legal] in *;
    pose proof Hinv as (Hs & Hw & _); cbn [c_loop] in Hs.
  - apply wp_ret, HQ. by apply keeps_refl.
  - destruct Hl as (Ho & Hsz & Hn). destruct (w_foreign_os _ Hw o Ho) as [x Hx]. apply wp_bind, wp_on_l. eapply see_ostream; [exact Hs|exact Hx|]. intros ost _.
    destruct (bool_decide _); [|by eapply IH]. apply wp_bind. eapply wp_req_body_out_read; [exact Hinv|exact Hsz|exact Hfit|]. intros r c1 Hk1.
    apply keeps_open in Hk1 as (k1 & H1). eapply IH; [apply Hn|apply H1|by apply H1|]. intros c2 Hk2. apply HQ. by eapply keeps_trans.
  - destruct Hl as (Hi & Hsz & Hn). destruct (w_foreign_is _ Hw i Hi) as [x Hx]. apply wp_bind, wp_on_l. eapply see_istream; [exact Hs|exact Hx|]. intros ist Ex _.
    destruct (bool_decide _) eqn:E; [|by eapply IH]. apply bool_decide_eq_true in E. rewrite Ex in E. rewrite E in Hx. apply (sees_pair _ _ _ _ _ Hs) in Hx.
    apply wp_bind. eapply wp_foreign_write; [exact Hinv|exact Hx|exact Hi|exact Hsz|]. intros n c1 Hk1.
    apply keeps_open in Hk1 as (k1 & H1). eapply IH; [apply Hn|apply H1|by apply H1|]. intros c2 Hk2. apply HQ. by eapply keeps_trans.
  - destruct Hl as (Hi & Hn). destruct (foreign_ne i Hi) as (Hne & _). pose proof (w_foreign_is _ Hw i Hi).
    assert (Hq : quiet (if b then sl_istream_set_ready i else sl_istream_unset_ready i) k) by (destruct b; auto using quiet_is_set, quiet_is_unset).
    eapply wp_then_quiet; [exact Hq|exact Hs|]. intros _ l1 Hs1. eapply IH; [done| |exact Hfit|exact HQ]. by destruct Hinv as (_ & ?).
  - destruct Hl as (Ho & Hn). pose proof (w_foreign_os _ Hw o Ho).
    assert (Hq : quiet (if b then sl_ostream_set_ready o else sl_ostream_unset_ready o) k) by (destruct b; auto using quiet_os_set, quiet_os_unset).
    eapply wp_then_quiet; [exact Hq|exact Hs|]. intros _ l1 Hs1. eapply IH; [done| |exact Hfit|exact HQ]. by destruct Hinv as (_ & ?).
Qed.

Context (consumer producer : positive -> prog) (finalizers : prog).
Context (consumer_legal : forall o, legal (consumer o)) (producer_legal : forall i, legal (producer i)) (finalizers_legal : legal finalizers).

Lemma wp_do_write l kn h k i (Q : unit -> conn L -> Prop) :
  conn_inv k (mk_conn l kn h) -> body_fits (mk_conn l kn h) -> p_os k !! resp_body_in N = Some (Some i) ->
  (forall c', keeps [] k (mk_conn l kn h) c' -> Q tt c') -> wp (do_write N fs accept file (fun i => run (producer i)) i) Q (mk_conn l kn h).
Proof using names accept_bound producer_legal.
  intros Hinv Hfit Hp HQ. unfold do_write. case_bool_decide as E1; [subst; by eapply wp_ob_do_write|].
  case_bool_decide as E2; [subst; by eapply wp_fb_do_write|]. by eapply wp_run_prog.
Qed.

Lemma wp_unset_data_out l kn h k (Q : unit -> conn L -> Prop) : conn_inv k (mk_conn l kn h) ->
  (forall l', stays k (mk_conn l kn h) (p_set_out false k) (mk_conn l' kn h) -> Q tt (mk_conn l' kn h)) ->
  wp (on_l (sl_istream_unset_ready (data_out N))) Q (mk_conn l kn h).
Proof using Type.
  intros (Hs & Hw & Hst & Hx) HQ. cbn [c_loop c_hsp] in *. apply wp_on_l, (see_data_out_unset _ _ k); [done|]. intros l' Hs'.
  apply HQ. split_and!; [|by apply core_le_same|done|done|done].
  split; [exact Hs'|split; [by apply (wired_same k)|split; [|exact Hx]]]. cbn [c_hsp]. unfold state_ok in *.
  assert (Hsd : sending h k -> sending h (p_set_out false k)).
  { intros (G1 & resp & p & G2 & G3 & G4 & G5 & G6 & G7 & G8). split; [done|]. exists resp, p. split_and!; try done. destruct G8 as [?|(? & ? & ? & ?)]; [by left|by right]. }
  assert (Hhd : handling h k -> handling h (p_set_out false k)) by (intros (G1 & G2 & G3); split_and!; try done; apply G3).
  assert (Hbr : before_request h k -> before_request h (p_set_out false k)) by (intros (G1 & G2 & G3); split_and!; try done; apply G3).
  destruct (hsp_state h); [destruct Hst as (? & ? & ?)..|destruct Hst as (? & ?)| |]; auto.
Qed.

Lemma wp_send_body l kn h k (Q : unit -> conn L -> Prop) : conn_inv k (mk_conn l kn h) -> body_fits (mk_conn l kn h) ->
  (forall c', keeps [] k (mk_conn l kn h) c' -> Q tt c') -> wp (send_body N fs accept file (fun i => run (producer i))) Q (mk_conn l kn h).
Proof using names accept_bound producer_legal.
  intros Hinv Hfit HQ. pose proof Hinv as (Hs & Hw & _). cbn [c_loop] in Hs. destruct (w_body_in _ Hw) as [p Hp].
  unfold send_body. apply wp_bind, wp_on_l. eapply see_ostream; [exact Hs|exact Hp|]. intros ost ->. destruct p as [i|].
  - pose proof (proj2 (sees_pair _ _ _ _ _ Hs) Hp) as Hi. apply wp_bind, wp_on_l. eapply see_istream; [exact Hs|exact Hi|]. intros ist _ _.
    assert (Hrest : forall c1, keeps [] k (mk_conn l kn h) c1 ->
      wp (let! ist := on_l (sl_istream i) in
          if is_ready ist then ret tt
          else do! on_l (sl_istream_unset_ready (data_out N)) in on_l (sl_ostream_set_ready (resp_body_in N))) Q c1).
    { intros [l1 kn1 h1] Hk1. apply keeps_open in Hk1 as (k1 & H1). pose proof H1 as ((Hs1 & Hw1 & _) & Hle & _). cbn [c_loop] in Hs1.
      destruct (proj1 Hle i ltac:(by rewrite Hi)) as [x Hx]. apply wp_bind, wp_on_l. eapply see_istream; [exact Hs1|exact Hx|]. intros ist1 _ _.
      destruct (is_ready ist1); [by apply wp_ret, HQ, (keeps_intro _ _ k1)|].
      apply wp_bind. eapply wp_unset_data_out; [apply H1|]. intros l2 H2. pose proof H2 as (Hinv2 & _). pose proof Hinv2 as (Hs2 & Hw2 & _).
      eapply wp_quiet; [apply (quiet_ok _ Hw2)|exact Hs2|]. intros [] l3 Hs3. apply HQ, (keeps_intro _ _ (p_set_out false k1)).
      eapply stays_trans; [exact H1|]. eapply stays_trans; [exact H2|]. by apply stays_loop. }
    apply wp_bind. destruct (is_ready ist); [|by apply wp_ret, Hrest, keeps_refl].
    eapply wp_then_quiet; [apply (quiet_ok _ Hw)|exact Hs|]. intros _ l1 Hs1.
    assert (H1 : stays k (mk_conn l kn h) k (mk_conn l1 kn h)) by (by apply stays_loop).
    eapply wp_do_write; [apply H1|done|exact Hp|]. intros c2 Hk2. apply Hrest. by eapply keeps_trans.
  - eapply wp_unset_data_out; [exact Hinv|]. intros l' Hk. apply HQ. by eapply keeps_intro.
Qed.

(** ** Sending *)

Lemma not_completed h k : timers_are k None None (Some NXWEB_TIMER_WRITE) -> ~ completed h k.
Proof using Type. intros (_ & _ & H1) [_ (_ & _ & H2)]. congruence. Qed.

(** From one state of a response under way to another. *)
Lemma stays_sending l kn h k l' kn' h' k' resp :
  hsp_resp h = Some resp -> timers_are k None None (Some NXWEB_TIMER_WRITE) ->
  sees l' k' -> wired k' -> core_le k k' -> sending h' k' -> responding (hsp_state h') = true -> hsp_resp h' = Some resp ->
  (hsp_sending_100_continue h' = true -> has_header_bytes h' = true) -> buffers_ok h' ->
  (own_source resp -> k_out kn' ++ pending h' = k_out kn ++ pending h) ->
  stays k (mk_conn l kn h) k' (mk_conn l' kn' h').
Proof using Type.
  intros Hr Ht Hs' Hw' Hle Hsd Hre Hr' H100 Hbuf Htot. split_and!; [|done|by intros ?%not_completed|..].
  - split; [exact Hs'|split; [exact Hw'|split; [|done]]]. cbn [c_hsp]. unfold state_ok. by destruct (hsp_state h').
  - intros Ho. split; [intros r Hr2; cbn in Hr2; rewrite Hr', <- Hr in Hr2; by apply Ho|]. by apply Htot, Ho.
  - intros _ Hs. cbn in Hs. by rewrite Hs in Hre.
Qed.

Lemma wp_send_header_bytes l kn h k (Q : bool -> conn L -> Prop) : sees l k -> wired k ->
  (forall n p l' kn', sees l' k -> k_in kn' = k_in kn -> k_out kn' = k_out kn ++ take (Z.to_nat n) (default [] (hsp_resp_headers_ptr h)) ->
     0 <= n <= zlen (default [] (hsp_resp_headers_ptr h)) -> default [] p = drop (Z.to_nat n) (default [] (hsp_resp_headers_ptr h)) ->
     Q (n =? zlen (default [] (hsp_resp_headers_ptr h))) (mk_conn l' kn' (set_resp_headers_ptr p h))) ->
  wp (send_header_bytes fs accept file) Q (mk_conn l kn h).
Proof using names accept_bound.
  intros Hs Hw HQ. unfold send_header_bytes. apply wp_bind, wp_get_hsp.
  assert (Hnone : default [] (hsp_resp_headers_ptr h) = [] -> wp (ret true) Q (mk_conn l kn h)).
  { intros E. specialize (HQ 0 (hsp_resp_headers_ptr h) l kn). rewrite E in HQ. apply wp_ret. replace h with (set_resp_headers_ptr (hsp_resp_headers_ptr h) h) by (by destruct h).
    apply HQ; [done|done|cbn; by rewrite app_nil_r|by cbn|done]. }
  destruct (hsp_resp_headers_ptr h) as [[|c s]|]; [by apply Hnone| |by apply Hnone]. cbn [default from_option id] in HQ.
  pose proof (zlen_nonneg s). apply wp_bind. eapply wp_sock_write; [exact Hs|exact Hw|apply zlen_nonneg|].
  assert (Hsrc : src_bytes file (WMem (c :: s)) (zlen (c :: s)) = c :: s) by (cbn [src_bytes]; apply take_ge; unfold zlen; lia).
  intros n l1 kn1 Hs1 Hn _ Hin Hout. rewrite Hsrc in Hout. apply wp_bind, wp_upd_hsp, wp_ret. by apply HQ.
Qed.

Lemma take_drop_pending (out s : bytes) n rest : (out ++ take n s) ++ drop n s ++ rest = out ++ s ++ rest.
Proof using Type. rewrite <- app_assoc. f_equal. by rewrite app_assoc, take_drop. Qed.

Lemma sending_live l kn h k : conn_inv k (mk_conn l kn h) -> responding (hsp_state h) = true -> p_out k = true ->
  is_Some (hsp_nxb h) /\ exists resp p, hsp_resp h = Some resp /\ rs_chunked_autoencode resp = false /\
    p_os k !! resp_body_in N = Some p /\ (p = None \/ p = content_out resp) /\ source_known resp /\
    (hsp_state h = HSP_SENDING_BODY -> hsp_sending_100_continue h = false /\ no_body h resp = false) /\
    timers_are k None None (Some NXWEB_TIMER_WRITE).
Proof using Type.
  intros (_ & _ & Hst & _) Hre Hout. cbn in Hst. assert (Hsd : sending h k) by (unfold state_ok in Hst; by destruct (hsp_state h)).
  destruct Hsd as (Hn & resp & p & Hr & Hc & Hp & Hpo & Hkn & Hb & Ht). split; [done|]. exists resp, p. split_and!; try done.
  destruct Ht as [?|(_ & _ & ? & _)]; [done|congruence].
Qed.

Lemma wp_send_response l kn h k (Q : unit -> conn L -> Prop) : conn_inv k (mk_conn l kn h) ->
  responding (hsp_state h) = true -> hsp_sending_100_continue h = false -> p_out k = true ->
  (forall c', keeps [] k (mk_conn l kn h) c' -> Q tt c') -> wp (send_response N fs accept file (fun i => run (producer i))) Q (mk_conn l kn h).
Proof using names accept_bound producer_legal.
  intros Hinv Hre H100 Hout HQ. pose proof Hinv as (Hs & Hw & _ & _ & Hbuf). cbn [c_loop c_hsp] in Hs, Hbuf.
  destruct (sending_live _ _ _ _ Hinv Hre Hout) as (Hnxb & resp & p & Hr & Hch & Hp & Hpo & Hkn & Hbody & Ht).
  unfold send_response. apply wp_bind. eapply wp_unset_timer_on; [exact Hs|apply Ht|by right|]. intros l1 Hs1. set (k1 := p_set_timer _ _ _) in *.
  assert (Ht1 : timers_are k1 None None None) by (by apply timers_set_wr with (wr := Some NXWEB_TIMER_WRITE)).
  apply wp_bind. eapply wp_set_timer_on; [exact Hs1|by vm_compute|apply Ht1|]. intros l2 Hs2. set (k2 := p_set_timer _ _ k1) in *.
  assert (Ht2 : timers_are k2 None None (Some NXWEB_TIMER_WRITE)) by (by apply timers_set_wr with (wr := None)).
  assert (Hw2 : wired k2) by (by apply (wired_same k)). assert (Hle2 : core_le k k2) by (by apply core_le_same).
  assert (Hsend : forall h', hsp_nxb h' = hsp_nxb h -> hsp_resp h' = Some resp ->
    (hsp_state h' = HSP_SENDING_BODY -> hsp_sending_100_continue h' = false /\ no_body h' resp = false) -> sending h' k2).
  { intros h' E1 E2 E3. split; [by rewrite E1|]. exists resp, p. split_and!; try done. by left. }
  apply wp_bind, wp_get_hsp. destruct (hsp_state h) eqn:Est; try done.
  - apply wp_bind. eapply wp_send_header_bytes; [exact Hs2|exact Hw2|]. intros n ptr l3 kn3 Hs3 Hin Hko Hn Hptr. set (head := default [] (hsp_resp_headers_ptr h)) in *.
    assert (Hpend : forall h', hsp_state h' = HSP_SENDING_HEADERS -> hsp_sending_100_continue h' = false -> hsp_resp h' = hsp_resp h -> hsp_req h' = hsp_req h -> hsp_ob h' = hsp_ob h -> hsp_fb h' = hsp_fb h ->
      pending h' = default [] (hsp_resp_headers_ptr h') ++ body_rest h).
    { intros h' E1 E2 E3 E4 E5 E6. unfold pending, head_rest, body_rest, source_rest, no_body. by rewrite E1, E2, E3, E4, E5, E6. }
    destruct (Z.eqb_spec n (zlen head)) as [Hall|Hpart]; cbn [negb].
    2:{ apply wp_ret, HQ, (keeps_intro _ _ k2). eapply (stays_sending _ _ _ _ _ _ _ _ resp); try done; [apply Hsend; [done|done|cbn; by rewrite Est]|cbn; by rewrite Est|cbn; by rewrite H100|].
        intros _. rewrite (Hpend h), (Hpend (set_resp_headers_ptr ptr h)) by done. cbn [hsp_resp_headers_ptr set_resp_headers_ptr]. rewrite Hko, Hptr. apply take_drop_pending. }
    rewrite Hall in Hko, Hptr. assert (Hd0 : drop (Z.to_nat (zlen head)) head = []) by (apply drop_ge; unfold zlen; lia). rewrite Hd0 in Hptr.
    rewrite (take_ge head) in Hko by (unfold zlen; lia).
    assert (Hnext : forall ptr', default [] ptr' = [] -> wp (match hsp_resp h with
      | None => fail BadPtr
      | Some resp => if (rs_content_length resp =? 0) || rq_head_method (hsp_req h) then request_complete N
                     else do! upd_hsp (set_state HSP_SENDING_BODY) in send_body N fs accept file (fun i => run (producer i))
      end) Q (mk_conn l3 kn3 (set_resp_headers_ptr ptr' h))).
    { intros ptr' Hp'. rewrite Hr. fold (no_body h resp). destruct (no_body h resp) eqn:Enb.
      - pose proof (complete_core_ok _ _ _ _ _ Hs3 Hw2 Ht2) as (C1 & C2 & C3 & C4 & C5 & C6).
        eapply wp_request_complete; [exact Hs3|exact Hw2|exact Ht2|by right|]. intros l4 Hs4. apply HQ, (keeps_intro _ _ (complete_core k2)).
        assert (Hp0 : pending (set_resp_headers_ptr ptr' h) = []).
        { rewrite Hpend by done. cbn [hsp_resp_headers_ptr set_resp_headers_ptr]. rewrite Hp'. unfold body_rest. by rewrite Hr, Enb. }
        eapply (stays_sending _ _ _ _ _ _ _ _ resp); try done; [| |cbn; by rewrite Est|cbn; by rewrite H100|].
        + eapply core_le_trans; [exact Hle2|apply core_le_complete].
        + split; [done|]. exists resp, None. split_and!; [done|done|done|by left|done|cbn; by rewrite Est|]. right. done.
        + intros _. rewrite Hp0, Hko, app_nil_r, (Hpend h) by done. unfold body_rest. by rewrite Hr, Enb, app_nil_r.
      - apply wp_bind, wp_upd_hsp. assert (H3 : stays k (mk_conn l kn h) k2 (mk_conn l3 kn3 (set_state HSP_SENDING_BODY (set_resp_headers_ptr ptr' h)))).
        { eapply (stays_sending _ _ _ _ _ _ _ _ resp); try done; [by apply Hsend|cbn; by rewrite H100|]. intros _. rewrite Hko, (Hpend h), <- app_assoc by done.
          f_equal. unfold pending, head_rest. cbn. by rewrite H100. }
        eapply wp_send_body; [apply H3|by intros ?|]. intros c4 Hk4. apply HQ. by eapply keeps_trans. }
    apply wp_bind. destruct (has_header_bytes h); [apply wp_upd_hsp; by apply (Hnext None)|apply wp_ret; by apply Hnext].
  - assert (H3 : stays k (mk_conn l kn h) k2 (mk_conn l2 kn h)).
    { eapply (stays_sending _ _ _ _ _ _ _ _ resp); try done; [apply Hsend; [done|done|by rewrite Est]|by rewrite Est|by rewrite H100]. }
    eapply wp_send_body; [apply H3|intros Hb; cbn in Hb; congruence|]. intros c4 Hk4. apply HQ. by eapply keeps_trans.
Qed.

(** The interim response is sent in any state after the headers. *)
Lemma stays_interim l kn h k l' kn' h' k' b ptr :
  conn_inv k (mk_conn l kn h) -> hsp_sending_100_continue h = true -> p_out k = true ->
  h' = set_sending_100_continue b (set_resp_headers_ptr ptr h) -> (b = true -> has_header_bytes h' = true) ->
  k' = k /\ b = true \/ k' = p_set_out false k /\ responding (hsp_state h) = false ->
  sees l' k' -> k_in kn' = k_in kn -> k_out kn' ++ pending h' = k_out kn ++ pending h ->
  stays k (mk_conn l kn h) k' (mk_conn l' kn' h').
Proof using Type.
  intros (Hs & Hw & Hst & H100 & Hbuf) E100 Hout Eh' Hb Hk Hs' Hin Htot. cbn [c_loop c_hsp] in *.
  assert (Hsp : same_pairs k k' /\ p_timers k' = p_timers k) by (by destruct Hk as [[-> _]|[-> _]]). destruct Hsp as [Hsp Htm].
  assert (Ho : p_out k' = true -> b = true /\ k' = k) by (destruct Hk as [[-> ->]|[-> _]]; done). pose proof Hsp as (E1 & E2 & E3).
  split_and!; [|by apply core_le_same| |..].
  - split; [exact Hs'|split; [by eapply wired_same|split; [|split]]]; cbn [c_hsp]; [|rewrite Eh' at 1; exact Hb|by rewrite Eh'].
    unfold state_ok, timers_are, before_request, handling, sending, unpaired_body, no_body in *. rewrite Htm, E2. rewrite Eh' in *. cbn in *.
    destruct (hsp_state h) eqn:Est; cbn in *.
    + destruct Hst as (_ & (_ & ? & _) & _). congruence.
    + destruct Hst as (_ & (_ & ? & _) & _). congruence.
    + destruct Hst as (G1 & G2 & G3 & G4 & G5). split; [exact G1|split; [exact G2|split; [exact G3|split; [|exact G5]]]]. intros Hp. by destruct (Ho Hp).
    + destruct Hst as (G1 & G3 & G4 & G5). split; [exact G1|split; [exact G3|split; [|exact G5]]]. intros Hp. by destruct (Ho Hp).
    + destruct Hk as [[-> ->]|[_ ?]]; [|done]. destruct Hst as (G1 & resp & p & G2 & G3 & G4 & G5 & G6 & G7 & G8). split; [done|]. exists resp, p. split_and!; try done.
      destruct G8 as [?|(_ & _ & ? & _)]; [by left|congruence].
    + destruct Hst as (G1 & resp & p & G2 & G3 & G4 & G5 & G6 & G7 & G8). destruct (G7 eq_refl). congruence.
  - intros [Hre (T1 & T2 & T3)]. split; [cbn; by rewrite Eh'|]. unfold timers_are. by rewrite Htm.
  - intros Hown. split; [intros r Hr; cbn in Hr; rewrite Eh' in Hr; by apply Hown|done].
  - intros Hf Hs2. cbn in Hs2. rewrite Eh' in Hs2. destruct (Hf Hs2) as [F1 F2]. unfold decodes, body_bytes in *. cbn [c_hsp c_kernel] in *. rewrite Hin, Eh'. done.
Qed.

Lemma wp_data_out_do_write l kn h k (Q : unit -> conn L -> Prop) : conn_inv k (mk_conn l kn h) -> p_out k = true ->
  (forall c', keeps [] k (mk_conn l kn h) c' -> Q tt c') -> wp (data_out_do_write N fs accept file (fun i => run (producer i))) Q (mk_conn l kn h).
Proof using names accept_bound producer_legal.
  intros Hinv Hout HQ. pose proof Hinv as (Hs & Hw & Hst & H100 & Hbuf). cbn [c_loop c_hsp] in *.
  unfold data_out_do_write. apply wp_bind, wp_get_hsp. destruct (hsp_sending_100_continue h) eqn:E100; cbn [andb].
  2:{ eapply wp_send_response; [exact Hinv| |done|done|done]. unfold state_ok, before_request, handling in Hst. destruct (hsp_state h); try done; exfalso.
      - destruct Hst as (_ & (_ & ? & _) & _). congruence.
      - destruct Hst as (_ & (_ & ? & _) & _). congruence.
      - destruct Hst as (_ & _ & _ & Hc & _). specialize (Hc Hout). congruence.
      - destruct Hst as (_ & _ & Hc & _). specialize (Hc Hout). congruence. }
  rewrite (H100 eq_refl). set (head := default [] (hsp_resp_headers_ptr h)).
  apply wp_bind. eapply wp_send_header_bytes; [exact Hs|exact Hw|]. intros n ptr l1 kn1 Hs1 Hin Hko Hn Hptr. fold head in Hko, Hn, Hptr |- *.
  assert (Hpend : forall h0, hsp_sending_100_continue h0 = true -> hsp_state h0 = hsp_state h -> hsp_resp h0 = hsp_resp h -> hsp_req h0 = hsp_req h -> hsp_ob h0 = hsp_ob h -> hsp_fb h0 = hsp_fb h ->
    pending h0 = default [] (hsp_resp_headers_ptr h0) ++ (if responding (hsp_state h) then default [] (resp ← hsp_resp h; rs_raw_headers resp) else []) ++ if responding (hsp_state h) then body_rest h else []).
  { intros h0 E1 E2 E3 E4 E5 E6. unfold pending, head_rest, body_rest, source_rest, no_body. rewrite E1, E2, E3, E4, E5, E6. by rewrite <- app_assoc. }
  destruct (Z.eqb_spec n (zlen head)) as [Hall|Hpart]; cbn [negb].
  - apply wp_bind, wp_upd_hsp. rewrite Hall, (take_ge head) in Hko by (unfold zlen; lia).
    destruct (responding (hsp_state h)) eqn:Hre.
    + destruct (sending_live _ _ _ _ Hinv Hre Hout) as (Hnxb & resp & p & Hr & Hch & Hp & Hpo & Hkn & Hbody & Ht).
      destruct (hsp_state h) eqn:Est; try done; [|destruct (Hbody eq_refl); congruence]. rewrite Hr. apply wp_bind, wp_upd_hsp.
      set (h1 := set_resp_headers_ptr _ _). assert (H1 : stays k (mk_conn l kn h) k (mk_conn l1 kn1 h1)).
      { eapply (stays_sending _ _ _ _ _ _ _ _ resp); try done.
        - split; [done|]. exists resp, p. split_and!; try done; [unfold h1; cbn; by rewrite Est|by left].
        - by unfold h1; cbn; rewrite Est.
        - intros _. rewrite Hko, (Hpend h), <- app_assoc by done. f_equal. unfold pending, head_rest. unfold h1 at 1. cbn [set_resp_headers_ptr set_sending_100_continue hsp_sending_100_continue].
          unfold h1. cbn. by rewrite Est, Hr. }
      eapply wp_send_response; [apply H1|unfold h1; cbn; by rewrite Est|done|done|]. intros c2 Hk2. apply HQ. by eapply keeps_trans.
    + assert (Hdone : wp (on_l (sl_istream_unset_ready (data_out N))) Q (mk_conn l1 kn1 (set_sending_100_continue false (set_resp_headers_ptr ptr h)))).
      { apply wp_on_l, (see_data_out_unset _ _ k); [done|]. intros l2 Hs2. apply HQ, (keeps_intro _ _ (p_set_out false k)).
        eapply (stays_interim _ _ _ _ _ _ _ _ false ptr); [exact Hinv|exact E100|exact Hout|done|done|by right|exact Hs2|exact Hin|].
        rewrite Hko, (Hpend h), <- app_assoc by done. f_equal. unfold pending, head_rest. cbn. rewrite Hre, app_nil_r. by destruct (hsp_state h). }
      destruct (hsp_state h); done.
  - apply wp_ret, HQ, (keeps_intro _ _ k). eapply (stays_interim _ _ _ _ _ _ _ _ true ptr); [exact Hinv|exact E100|exact Hout|by destruct h; cbn in *; subst| |by left|exact Hs1|exact Hin|].
    + intros _. unfold has_header_bytes. assert (Hl : zlen (default [] ptr) <> 0) by (rewrite Hptr, zlen_drop; lia). by destruct ptr as [[|? ?]|].
    + rewrite (Hpend h), (Hpend (set_resp_headers_ptr ptr h)) by done. cbn [hsp_resp_headers_ptr set_resp_headers_ptr]. rewrite Hko, Hptr. apply take_drop_pending.
Qed.

(** ** Starting a response *)

(** The response that is sent: what [start_sending_response] makes of the
    handler's, with [s] the stream left unfinished in the buffer. *)
Definition reset_response (resp : response) : response :=
  resp{{rs_content_out := 0; rs_content := None; rs_content_length := 0; rs_sendfile_path := None; rs_sendfile_fd := 0;
        rs_chunked_autoencode := false; rs_chunked_encoding := false; rs_gzip_encoded := false}}.
Definition modified_response (req : HttpRequest.request) (resp : response) : response :=
  if response_not_modified req resp
  then (reset_response resp){{rs_status_code := 304; rs_status := Some (bs "Not Modified")}} else resp.
Definition finished_response (s : bytes) (resp : response) : response :=
  if zlen s =? 0 then resp
  else if bool_decide (rs_content resp = None) && bool_decide (rs_sendfile_path resp = None) && (rs_sendfile_fd resp =? 0)
  then resp{{rs_content := Some s; rs_content_length := zlen s}} else resp.
Definition with_source (resp : response) : response :=
  match rs_content resp with
  | Some _ => if 0 <? rs_content_length resp then resp{{rs_content_out := Zpos (ob_data_out N)}} else resp
  | None =>
      if negb (rs_sendfile_fd resp =? 0) && (0 <? rs_content_length resp) then resp{{rs_content_out := Zpos (fb_data_out N)}}
      else match rs_sendfile_path resp with
           | Some path =>
               if 0 <? rs_content_length resp then
                 let resp := resp{{rs_sendfile_fd := open_file path}} in
                 if negb (rs_sendfile_fd resp =? -1) then resp{{rs_content_out := Zpos (fb_data_out N)}} else resp
               else resp
           | None => resp
           end
  end.
Definition final_response (req : HttpRequest.request) (s : bytes) (resp : response) : response :=
  let resp := modified_response req resp in
  match content_out resp with Some _ => resp | None => with_source (finished_response s resp) end.

Definition raw_headers_of (resp : response) : bytes :=
  match rs_raw_headers resp with Some raw => raw | None => cut0 (removelast (response_text REVISION date resp)) end.
Definition response_body (resp : response) (i : positive) : bytes :=
  if bool_decide (i = ob_data_out N) then take (Z.to_nat (rs_content_length resp)) (default [] (rs_content resp))
  else if bool_decide (i = fb_data_out N) then
    src_bytes file (WFile (rs_sendfile_fd resp) (rs_sendfile_offset resp)) (rs_sendfile_end resp - rs_sendfile_offset resp)
  else [].
(** Headers and body of a final response to [req]. *)
Definition response_bytes (req : HttpRequest.request) (resp : response) : bytes :=
  raw_headers_of resp ++
  if (rs_content_length resp =? 0) || rq_head_method req then [] else
  match content_out resp with Some i => response_body resp i | None => [] end.

(** What a handler may ask to be sent. *)
Definition files_ok (resp : response) : Prop :=
  0 <= rs_sendfile_fd resp /\
  (rs_content resp = None -> rs_sendfile_fd resp <> 0 \/ rs_sendfile_path resp <> None -> 0 < rs_content_length resp ->
   rs_sendfile_end resp - rs_sendfile_offset resp = rs_content_length resp /\ 0 <= rs_sendfile_offset resp /\ rs_sendfile_end resp < 2 ^ 63).
Definition content_ok (resp : response) : Prop :=
  forall c, rs_content resp = Some c -> 0 < rs_content_length resp -> rs_content_length resp <= zlen c /\ rs_content_length resp < 2 ^ 31.
Record response_ok (k : core) (resp : response) : Prop := {
  ro_plain : rs_chunked_autoencode resp = false;
  ro_source : forall i, content_out resp = Some i -> i ∈ foreign_is /\ p_is k !! i = Some None;
  ro_content : content_ok resp;
  ro_files : files_ok resp;
  ro_headers : headers_given resp;
}.
Context (open_file_fd : forall path, open_file path = -1 \/ 0 < open_file path).
Context (revision_short : zlen REVISION <= 80) (date_short : zlen date <= 31).
Context (alloc_total : forall n, 0 < n < 2 ^ 31 -> is_Some (nx_alloc n)).

(** The buffer a response is printed into. *)
Definition resp_nxb_of (rn : option nxb_buffer) (h : nxd_http_server_proto) : option nxb_buffer := match rn with Some b => Some b | None => hsp_nxb h end.
Definition put_rn (b : nxb_buffer) (rn : option nxb_buffer) : option nxb_buffer := match rn with Some _ => Some b | None => None end.
Definition put_nxb (b : nxb_buffer) (rn : option nxb_buffer) (h : nxd_http_server_proto) : nxd_http_server_proto :=
  match rn with Some _ => h | None => set_nxb (Some b) h end.
Lemma wp_on_resp_nxb {A} (c : M nxb_buffer A) l kn h rn b (Q : A * option nxb_buffer -> conn L -> Prop) : resp_nxb_of rn h = Some b ->
  wp c (fun a b' => Q (a, put_rn b' rn) (mk_conn l kn (put_nxb b' rn h))) b -> wp (on_resp_nxb rn c) Q (mk_conn l kn h).
Proof using Type.
  intros Hb Hw. unfold on_resp_nxb, resp_nxb_of, put_rn, put_nxb in *. destruct rn as [b0|].
  - injection Hb as ->. unfold wp in *. destruct (c b) as [[a b']|]; [|done]. exact Hw.
  - apply wp_bind. eapply wp_on_req_nxb; [exact Hb|]. eapply wp_mono; [exact Hw|]. intros a b' HQ. by apply wp_ret.
Qed.

Lemma wp_finish_response l kn h rn b s resp (Q : response * option nxb_buffer -> conn L -> Prop) :
  resp_nxb_of rn h = Some b -> buffer_ok [] s b ->
  (forall b' s', buffer_ok [] s' b' -> chunk_size (nxb_chunk_ b') = chunk_size (nxb_chunk_ b) -> zlen s' <= zlen s ->
     Q (finished_response s resp, put_rn b' rn) (mk_conn l kn (put_nxb b' rn h))) ->
  wp (nxd_http_server_proto_finish_response resp rn) Q (mk_conn l kn h).
Proof using Type.
  intros Hb Hok HQ. unfold nxd_http_server_proto_finish_response. eapply wp_on_resp_nxb; [exact Hb|].
  destruct Hok as (Hwf & [Hu Hp] & HL). pose proof (zlen_nonneg s) as Hsn. pose proof Hwf as (Hbp & Hpe & Hids & Hid). unfold chunk_size in Hpe.
  unfold nxb_get_unfinished. apply wp_bind, wp_bind, wp_get, wp_ret. cbn [fst snd l_off]. replace (nxb_ptr b - nxb_base b) with (zlen s) by lia.
  assert (Hempty : forall b', nxb_wf b' -> nxb_ptr b' = nxb_base b' -> buffer_ok [] [] b').
  { intros b' Hw' E. split; [done|]. split; [|by constructor]. split; [apply bytes_at_nil|]. change (zlen []) with 0. lia. }
  unfold finished_response in HQ. destruct (Z.eqb_spec (zlen s) 0) as [Hz|Hz]; [apply wp_ret; by eapply HQ|].
  destruct (bool_decide (rs_content resp = None) && bool_decide (rs_sendfile_path resp = None) && (rs_sendfile_fd resp =? 0)).
  - apply wp_bind, wp_on_chunk, wp_read_bytes; [lia|lia|lia|]. intros s2 Hs2 Hl2. assert (s2 = s) as -> by (eapply bytes_at_inj; done).
    replace (set_chunk_mem (c_mem (nxb_chunk_ b)) b) with b by (by destruct b as [? ? ? [] ? ?]).
    unfold nxb_finish_stream. apply wp_bind, wp_bind, wp_get, wp_bind, wp_modify, wp_ret, wp_ret. cbn [snd]. replace (nxb_ptr b - nxb_base b) with (zlen s) by lia.
    apply (HQ _ []); [|done|done]. apply Hempty; [|done]. unfold nxb_wf, chunk_size in *. cbn. split_and!; try done; lia.
  - apply wp_bind, wp_modify, wp_ret. apply (HQ _ []); [|done|done]. apply Hempty; [|done]. unfold nxb_wf, chunk_size in *. cbn. split_and!; try done; lia.
Qed.

Lemma wp_prepare_raw l kn h rn b s resp (Q : response * option nxb_buffer -> conn L -> Prop) :
  resp_nxb_of rn h = Some b -> buffer_ok [] s b -> headers_given resp ->
  chunk_size (nxb_chunk_ b) + zlen (response_text REVISION date resp) + 256 <= 2 ^ 27 ->
  (forall b', Q (resp{{rs_raw_headers := Some (raw_headers_of resp)}}, put_rn b' rn) (mk_conn l kn (put_nxb b' rn h))) ->
  wp (prepare_raw_headers REVISION date resp rn) Q (mk_conn l kn h).
Proof using alloc_total revision_short date_short.
  intros Hb Hok Hh Hbig HQ. unfold prepare_raw_headers, raw_headers_of in *. destruct (rs_raw_headers resp) as [raw|] eqn:E.
  - apply wp_ret. specialize (HQ b). replace (put_rn b rn) with rn in HQ.
    2:{ destruct rn; [|done]. cbn in Hb. by injection Hb as ->. }
    replace (put_nxb b rn h) with h in HQ.
    2:{ destruct rn; [done|]. cbn in Hb |- *. rewrite <- Hb. by destruct h. }
    replace (resp{{rs_raw_headers := Some raw}}) with resp in HQ by (destruct resp; cbn in *; by subst). done.
  - eapply wp_on_resp_nxb; [exact Hb|]. apply wp_bind. eapply (wp_prepare_response_headers alloc_total); [exact Hok|exact Hbig|done|done|exact Hh|].
    intros loc b' (Hwf & _ & HL) Hcid. inversion HL as [|? ? Hlive _]; subst. destruct (live_current _ _ _ Hwf Hlive Hcid) as [H0 Hba].
    cbn [fst]. set (text := response_text REVISION date resp) in *.
    assert (Ht : text = removelast text ++ [0]).
    { unfold text, response_text. repeat rewrite app_assoc. by rewrite removelast_last. }
    rewrite Ht in Hba. apply bytes_at_cut0 in Hba; [|done]. apply wp_bind, wp_on_chunk. eapply wp_read_str; [exact Hba|]. apply wp_ret.
    replace (set_chunk_mem (c_mem (nxb_chunk_ b')) b') with b' by (by destruct b' as [? ? ? [] ? ?]). apply HQ.
Qed.

(** Setting up the source of a body: a stream of the protocol starts anew. *)
Definition readied (k k' : core) : Prop :=
  wired k' /\ core_le k k' /\ unpaired_body k' /\ p_timers k' = p_timers k /\ p_out k' = p_out k /\ p_events k' = p_events k.
Lemma readied_refl k : wired k -> unpaired_body k -> readied k k.
Proof using Type. intros Hw Hu. split_and!; try done. Qed.

Lemma wired_set_is k i : wired k -> i <> fs_data_is fs -> wired (p_set_is i None k).
Proof using Type.
  intros [] Hn. split; cbn; try done.
  - by rewrite lookup_insert_ne.
  - apply lookup_insert_is_Some'. by right.
  - destruct (decide (i = ob_data_out N)) as [->|]; [rewrite lookup_insert_eq; by left|by rewrite lookup_insert_ne].
  - destruct (decide (i = fb_data_out N)) as [->|]; [rewrite lookup_insert_eq; by left|by rewrite lookup_insert_ne].
  - intros x Hx. apply lookup_insert_is_Some'. right. by apply w_foreign_is0.
Qed.

Lemma wp_ready_stream {B} i (f : unit -> M (conn L) B) l kn h k (Q : B -> conn L -> Prop) :
  sees l k -> wired k -> unpaired_body k -> i = ob_data_out N \/ i = fb_data_out N ->
  (forall l' k', sees l' k' -> readied k k' -> p_is k' !! i = Some None -> wp (f tt) Q (mk_conn l' kn h)) ->
  wp (do! on_l (sl_init_istream i) in bind (on_l (sl_mark_istream i)) f) Q (mk_conn l kn h).
Proof using names.
  intros Hs Hw Hu Hi HQ. destruct names_ne as ((A1 & A2 & A3 & A4) & (B1 & B2 & B3) & _).
  assert (Hne : i <> data_out N /\ i <> fs_data_is fs) by (destruct Hi as [->| ->]; done). destruct Hne as [Hne1 Hne2].
  assert (Hfree : forall p, p_is k !! i = Some p -> p = None).
  { intros p Hp. assert (p = None \/ p = Some (resp_body_in N)) as [?| ->]; [|done|].
    - destruct Hi as [->| ->]; [destruct (w_ob _ Hw) as [E|E]|destruct (w_fb _ Hw) as [E|E]]; rewrite Hp in E; injection E as ->; auto.
    - apply (sees_pair _ _ _ _ _ Hs) in Hp. unfold unpaired_body in Hu. congruence. }
  apply wp_bind, wp_on_l. eapply see_init_istream; [exact Hs|exact Hfree|done|]. intros l1 Hs1. set (k1 := p_set_is _ _ _) in *.
  assert (Hk1 : p_is k1 !! i = Some None) by apply lookup_insert_eq.
  apply wp_bind, wp_on_l. eapply see_mark_istream; [exact Hs1|exact Hk1|done|]. intros l2 Hs2. apply (HQ _ k1); [done| |done].
  split_and!; try done; [by apply wired_set_is|]. split; intros j Hj; cbn; [|done]. apply lookup_insert_is_Some'. by right.
Qed.

(** The connection once the source of the body is set up. *)
Definition set_up (rn rn' : option nxb_buffer) (h h' : nxd_http_server_proto) (b : nxb_buffer) : Prop :=
  exists nxb' ob' fb', h' = set_nxb nxb' (set_ob ob' (set_fb fb' h)) /\ buffers_ok h' /\ is_Some nxb' /\
    exists b' s', resp_nxb_of rn' h' = Some b' /\ buffer_ok [] s' b' /\ chunk_size (nxb_chunk_ b') = chunk_size (nxb_chunk_ b).

Lemma set_up_put rn b b' s' h : buffers_ok h -> is_Some (hsp_nxb h) -> resp_nxb_of rn h = Some b -> buffer_ok [] s' b' -> chunk_size (nxb_chunk_ b') = chunk_size (nxb_chunk_ b) ->
  set_up rn (put_rn b' rn) h (put_nxb b' rn h) b.
Proof using Type.
  intros Hbuf Hn Hb Hok Hcs. destruct rn as [b0|]; cbn [put_rn put_nxb].
  - exists (hsp_nxb h), (hsp_ob h), (hsp_fb h). split_and!; [by destruct h|apply Hbuf..|done|]. by exists b', s'.
  - exists (Some b'), (hsp_ob h), (hsp_fb h). split_and!; [by destruct h|apply Hbuf..|done|]. by exists b', s'.
Qed.
Lemma set_up_ob rn rn' h h' b ob : set_up rn rn' h h' b -> 0 <= ob_data_size ob <= zlen (ob_data ob) -> set_up rn rn' h (set_ob ob h') b.
Proof using Type.
  intros (n & o & f & E & Hbuf & Hn & b' & s' & Hb & Hok) Hob. exists n, ob, f. rewrite E in *. destruct Hbuf as (_ & Hbuf). split; [done|split; [by split|split; [done|]]]. exists b', s'. done.
Qed.
Lemma set_up_fb rn rn' h h' b fb : set_up rn rn' h h' b -> 0 <= fb_offset fb <= fb_end fb -> fb_end fb < 2 ^ 63 -> set_up rn rn' h (set_fb fb h') b.
Proof using Type.
  intros (n & o & f & E & Hbuf & Hn & b' & s' & Hb & Hok) Hfb Hfe. exists n, o, fb. rewrite E in *. destruct Hbuf as (Hbuf & _). split; [done|split; [by split|split; [done|]]]. exists b', s'. done.
Qed.

(** The response with its source, which holds the body. *)
Definition sourced (k : core) (h : nxd_http_server_proto) (resp : response) : Prop :=
  source_known resp /\ forall i, content_out resp = Some i -> p_is k !! i = Some None /\ (i = ob_data_out N \/ i = fb_data_out N -> source_rest h i = response_body resp i).

Lemma response_body_out resp x i : response_body (resp{{rs_content_out := x}}) i = response_body resp i.
Proof using Type. by destruct resp. Qed.

(** The unfinished stream of the buffer becomes the content. *)
Lemma finished_ok s resp : zlen s < 2 ^ 31 -> content_ok resp -> files_ok resp -> content_out resp = None ->
  content_ok (finished_response s resp) /\ files_ok (finished_response s resp) /\ content_out (finished_response s resp) = None.
Proof using Type.
  intros Hs Hc Hf Ho. unfold finished_response. destruct (zlen s =? 0); [done|]. destruct (_ && _) eqn:E; [|done]. destruct resp. cbn in *. split_and!.
  - intros c [= <-] _. cbn. unfold constant. lia.
  - split; [apply Hf|intros [=]].
  - done.
Qed.

Lemma wp_setup_fbuffer l kn h k resp b rn rn' h0 (Q : response -> conn L -> Prop) :
  sees l k -> wired k -> unpaired_body k -> set_up rn rn' h0 h b -> fb_fd (hsp_fb h) = 0 -> 0 < rs_sendfile_fd resp ->
  rs_sendfile_end resp - rs_sendfile_offset resp = rs_content_length resp -> 0 <= rs_sendfile_offset resp -> 0 < rs_content_length resp -> rs_sendfile_end resp < 2 ^ 63 ->
  (forall l' k' h', sees l' k' -> readied k k' -> set_up rn rn' h0 h' b -> sourced k' h' (resp{{rs_content_out := Zpos (fb_data_out N)}}) ->
     Q (resp{{rs_content_out := Zpos (fb_data_out N)}}) (mk_conn l' kn h')) ->
  wp (setup_fbuffer N resp) Q (mk_conn l kn h).
Proof using names.
  intros Hs Hw Hu Hset Hfd Hpos Hlen Hoff Hcl Hend HQ. unfold setup_fbuffer. apply wp_bind, wp_assert; [by apply Z.eqb_eq|].
  apply wp_bind, wp_get_hsp, wp_bind, wp_assert; [by rewrite Hfd|]. apply wp_bind, wp_assert; [by apply Z.ltb_lt|].
  eapply wp_ready_stream; [exact Hs|exact Hw|exact Hu|by right|]. intros l1 k1 Hs1 Hk1 Hi. apply wp_bind, wp_upd_hsp, wp_ret.
  apply HQ with (k' := k1); [done|done|apply set_up_fb; cbn; [done|lia|lia]|].
  destruct names_ne as (_ & _ & (_ & _ & Hne) & _). split.
  - intros i [= <-]. by right; left.
  - intros i [= <-]. split; [done|]. intros _. rewrite response_body_out. unfold source_rest, response_body. by rewrite !(bool_decide_false (fb_data_out N = ob_data_out N)), !bool_decide_true by done.
Qed.

Lemma wp_setup_content_out l kn h k resp b s rn (Q : response * option nxb_buffer -> conn L -> Prop) :
  sees l k -> wired k -> unpaired_body k -> resp_nxb_of rn h = Some b -> buffer_ok [] s b -> zlen s < 2 ^ 31 -> is_Some (hsp_nxb h) -> buffers_ok h -> fb_fd (hsp_fb h) = 0 ->
  content_ok resp -> files_ok resp -> (forall i, content_out resp = Some i -> i ∈ foreign_is /\ p_is k !! i = Some None) ->
  let resp' := match content_out resp with Some _ => resp | None => with_source (finished_response s resp) end in
  (forall rn' l' k' h', sees l' k' -> readied k k' -> set_up rn rn' h h' b -> sourced k' h' resp' -> Q (resp', rn') (mk_conn l' kn h')) ->
  wp (nxd_http_server_proto_setup_content_out N open_file resp rn) Q (mk_conn l kn h).
Proof using names open_file_fd.
  intros Hs Hw Hu Hb Hok Hsl Hn Hbuf Hfd Hc Hf Hfor resp' HQ. unfold nxd_http_server_proto_setup_content_out. unfold resp' in *. clear resp'.
  destruct (content_out resp) as [i|] eqn:Eco.
  { apply wp_ret. apply (HQ rn l k); [done|by apply readied_refl| |].
    - exists (hsp_nxb h), (hsp_ob h), (hsp_fb h). split_and!; [by destruct h|apply Hbuf..|done|]. by exists b, s.
    - destruct (Hfor i eq_refl) as [Hi Hk]. split; [intros j Hj; rewrite Eco in Hj; injection Hj as <-; by right; right|].
      intros j Hj. rewrite Eco in Hj. injection Hj as <-. split; [done|]. destruct (foreign_ne i Hi) as (_ & F1 & F2 & _). by intros [?|?]. }
  apply wp_bind. eapply wp_finish_response; [exact Hb|exact Hok|]. intros b' s' Hok' Hcs' _.
  assert (Hset : set_up rn (put_rn b' rn) h (put_nxb b' rn h) b) by (by eapply set_up_put).
  set (rn' := put_rn b' rn) in *. set (h1 := put_nxb b' rn h) in *. assert (Hfd1 : fb_fd (hsp_fb h1) = 0) by (unfold h1; by destruct rn).
  set (r := finished_response s resp) in *.
  destruct (finished_ok s resp Hsl Hc Hf Eco) as (Hcr & Hfr & Hcor). fold r in Hcr, Hfr, Hcor.
  assert (Hplain : forall r1, with_source r = r1 -> content_out r1 = None -> Q (r1, rn') (mk_conn l kn h1)).
  { intros r1 Ews E. eapply HQ with (l' := l) (k' := k) in Hset; [by rewrite Ews in Hset|done|by apply readied_refl|]. rewrite Ews. split; intros j Hj; congruence. }
  assert (Hfile : forall r1, rs_sendfile_offset r1 = rs_sendfile_offset r -> rs_sendfile_end r1 = rs_sendfile_end r -> rs_content_length r1 = rs_content_length r ->
      rs_content r = None -> rs_sendfile_fd r <> 0 \/ rs_sendfile_path r <> None -> 0 < rs_content_length r -> 0 < rs_sendfile_fd r1 ->
      with_source r = r1{{rs_content_out := Zpos (fb_data_out N)}} ->
      wp (setup_fbuffer N r1) (fun a c => wp (ret (a, rn')) Q c) (mk_conn l kn h1)).
  { intros r1 E1 E2 E3 Hcn Hsrc Hcl Hfd' Ews. destruct Hfr as [_ Hfr]. destruct (Hfr Hcn Hsrc Hcl) as (F1 & F2 & F3).
    eapply wp_setup_fbuffer; [exact Hs|exact Hw|exact Hu|exact Hset|exact Hfd1|done|congruence|congruence|lia|lia|]. intros l2 k2 h2 Hs2 Hk2 Hset2 Hsrc2. apply wp_ret.
    rewrite <- Ews in Hsrc2 |- *. by eapply HQ. }
  assert (Hob : forall content l1 k1, rs_content r = Some content -> 0 < rs_content_length r -> sees l1 k1 -> readied k k1 -> p_is k1 !! ob_data_out N = Some None ->
      with_source r = r{{rs_content_out := Zpos (ob_data_out N)}} ->
      Q (r{{rs_content_out := Zpos (ob_data_out N)}}, rn') (mk_conn l1 kn (set_ob (mk_ob (ob_data_out N) content (wraps 32 (rs_content_length r))) h1))).
  { intros content l1 k1 Ec Hpos Hs1 Hk1 Hi Ews. destruct (Hcr content Ec Hpos) as [Hcl1 Hcl2]. rewrite wraps_small by lia. rewrite <- Ews.
    eapply HQ; [exact Hs1|exact Hk1|apply set_up_ob; [exact Hset|cbn; lia]|]. rewrite Ews.
    split; [intros j [= <-]; by left|]. intros j [= <-]. split; [done|]. intros _. rewrite response_body_out. unfold source_rest, response_body. rewrite !bool_decide_true by done. cbn. by rewrite Ec. }
  clear HQ. destruct Hfr as [Hfr0 _]. apply wp_bind. unfold with_source in *.
  destruct (rs_content r) as [content|] eqn:Ec.
  - destruct (0 <? rs_content_length r) eqn:Hpos; [|by apply wp_ret, wp_ret, Hplain]. apply Z.ltb_lt in Hpos.
    eapply wp_ready_stream; [exact Hs|exact Hw|exact Hu|by left|]. intros l1 k1 Hs1 Hk1 Hi. apply wp_bind, wp_upd_hsp, wp_ret, wp_ret. by eapply Hob.
  - destruct (negb (rs_sendfile_fd r =? 0) && (0 <? rs_content_length r)) eqn:E1.
    + apply andb_true_iff in E1 as [E1%negb_true_iff E2%Z.ltb_lt]. apply Z.eqb_neq in E1. apply Hfile; try done; [by left|lia].
    + destruct (rs_sendfile_path r) as [path|] eqn:Ep; [|by apply wp_ret, wp_ret, Hplain].
      destruct (0 <? rs_content_length r) eqn:Hpos; [|by apply wp_ret, wp_ret, Hplain]. apply Z.ltb_lt in Hpos.
      cbv zeta in *. set (r1 := r{{rs_sendfile_fd := open_file path}}) in *. assert (E2 : rs_sendfile_fd r1 = open_file path) by (unfold r1; by destruct r).
      destruct (rs_sendfile_fd r1 =? -1) eqn:Em; cbn [negb] in *.
      * apply wp_ret, wp_ret, Hplain; [done|]. unfold r1. by destruct r.
      * apply Z.eqb_neq in Em. apply Hfile; [by unfold r1; destruct r..|done|by right|done| |done]. destruct (open_file_fd path) as [?|?]; [congruence|lia].
Qed.

(** ** Starting a response *)

(** The states a response is started from: nothing of a response is under way. *)
Definition startable (h : nxd_http_server_proto) (k : core) : Prop :=
  can_start (hsp_state h) = true /\ unpaired_body k /\ (p_out k = true -> hsp_sending_100_continue h = true) /\
  (hsp_sending_100_continue h = true -> has_header_bytes h = true) /\ buffers_ok h /\ fb_fd (hsp_fb h) = 0 /\ is_Some (hsp_nxb h).

Lemma pending_before h : can_start (hsp_state h) = true -> pending h = if hsp_sending_100_continue h then default [] (hsp_resp_headers_ptr h) else [].
Proof using Type.
  intros Hc. unfold pending, head_rest. destruct (hsp_state h); try done; cbn; destruct (hsp_sending_100_continue h); by rewrite ?app_nil_r.
Qed.

Lemma wired_connect k i : wired k -> i = ob_data_out N \/ i = fb_data_out N \/ i ∈ foreign_is -> wired (p_set_pair i (resp_body_in N) (Some (resp_body_in N)) (Some i) k).
Proof using names.
  intros [] Hi. destruct names_ne as ((A1 & A2 & A3 & A4) & _ & _ & C1 & C2 & C3).
  assert (Hne : i <> fs_data_is fs) by (destruct Hi as [->|[->|Hi]]; [done|done|apply (foreign_ne _ Hi)]). split; cbn; try done.
  - by rewrite lookup_insert_ne.
  - by rewrite lookup_insert_ne.
  - apply lookup_insert_is_Some'. by right.
  - rewrite lookup_insert_eq. eauto.
  - destruct (decide (i = ob_data_out N)) as [->|]; [rewrite lookup_insert_eq; by right|by rewrite lookup_insert_ne].
  - destruct (decide (i = fb_data_out N)) as [->|]; [rewrite lookup_insert_eq; by right|by rewrite lookup_insert_ne].
  - intros x Hx. apply lookup_insert_is_Some'. right. by apply w_foreign_is0.
  - intros x Hx. apply lookup_insert_is_Some'. right. by apply w_foreign_os0.
Qed.

(** Connecting the source. *)
Definition fed (p : option positive) (k : core) : core :=
  match p with Some i => p_set_pair i (resp_body_in N) (Some (resp_body_in N)) (Some i) k | None => k end.
Lemma wp_connect_source l kn h k resp (Q : unit -> conn L -> Prop) :
  sees l k -> unpaired_body k -> sourced k h resp ->
  (forall l', sees l' (fed (content_out resp) k) -> Q tt (mk_conn l' kn h)) ->
  wp (match content_out resp with Some i => on_l (sl_connect_streams i (resp_body_in N)) | None => ret tt end) Q (mk_conn l kn h).
Proof using Type.
  intros Hs Hu [_ Hsrc] HQ. destruct (content_out resp) as [i|]; [|by apply wp_ret, HQ]. apply wp_on_l. eapply see_connect; [exact Hs|by apply Hsrc|done|]. done.
Qed.
Lemma fed_ok k h resp : wired k -> unpaired_body k -> sourced k h resp ->
  wired (fed (content_out resp) k) /\ core_le k (fed (content_out resp) k) /\ p_os (fed (content_out resp) k) !! resp_body_in N = Some (content_out resp) /\
  p_timers (fed (content_out resp) k) = p_timers k /\ p_out (fed (content_out resp) k) = p_out k /\ p_events (fed (content_out resp) k) = p_events k.
Proof using names.
  intros Hw Hu [Hkn Hsrc]. destruct (content_out resp) as [i|] eqn:E; cbn [fed]; [|by split_and!]. split_and!; [|apply core_le_set_pair|cbn; apply lookup_insert_eq|done..].
  apply wired_connect; [done|by apply Hkn].
Qed.

Definition with_headers (resp : response) : response := resp{{rs_raw_headers := Some (raw_headers_of resp)}}.
Lemma with_headers_same resp : content_out (with_headers resp) = content_out resp /\ rs_content_length (with_headers resp) = rs_content_length resp /\
  rs_raw_headers (with_headers resp) = Some (raw_headers_of resp) /\ rs_chunked_autoencode (with_headers resp) = rs_chunked_autoencode resp.
Proof using Type. by destruct resp. Qed.

(** What is left to be sent once the response is under way. *)
Lemma pending_started h resp req : hsp_state h = HSP_SENDING_HEADERS -> hsp_resp h = Some (with_headers resp) -> hsp_req h = req ->
  own_source resp -> (forall i, content_out resp = Some i -> i = ob_data_out N \/ i = fb_data_out N -> source_rest h i = response_body resp i) ->
  (hsp_sending_100_continue h = false -> hsp_resp_headers_ptr h = Some (raw_headers_of resp)) ->
  pending h = (if hsp_sending_100_continue h then default [] (hsp_resp_headers_ptr h) else []) ++ response_bytes req resp.
Proof using Type.
  intros Hst Hr <- Hown Hsrc Hptr. unfold pending, head_rest, body_rest, response_bytes, no_body, own_source in *. rewrite Hst, Hr. cbn [responding].
  destruct (with_headers_same resp) as (E1 & E2 & E3 & _). rewrite E1, E2.
  assert (Hb : match content_out resp with Some i => source_rest h i | None => [] end = match content_out resp with Some i => response_body resp i | None => [] end).
  { destruct (content_out resp) as [i|]; [|done]. by apply Hsrc. }
  rewrite Hb. cbn [mbind option_bind default from_option id]. destruct (hsp_sending_100_continue h); [|rewrite Hptr by done; cbn; done].
  rewrite E3. cbn [default from_option id]. by rewrite <- app_assoc.
Qed.

(** A response was started: [req] is answered with [resp]. *)
Definition started (k : core) (c : conn L) (resp : response) (c' : conn L) : Prop :=
  exists k', conn_inv k' c' /\ core_le k k' /\ hsp_state (c_hsp c') = HSP_SENDING_HEADERS /\ ~ completed (c_hsp c') k' /\
    (own_source resp -> own_body (c_hsp c') /\ total c' = total c ++ response_bytes (hsp_req (c_hsp c')) resp).

Definition launch (b100 : bool) (resp : response) (rn : option nxb_buffer) : M (conn L) unit :=
  do! (match content_out resp with Some i => on_l (sl_connect_streams i (resp_body_in N)) | None => ret tt end) in
  let! r := prepare_raw_headers REVISION date resp rn in
  let '(resp, rn) := r in
  if! negb b100 then
    (do! upd_hsp (set_resp_headers_ptr (rs_raw_headers resp)) in
     on_l (sl_istream_set_ready (data_out N))) in
  do! upd_hsp (fun h => set_resp (Some resp) (set_resp_nxb rn (set_state HSP_SENDING_HEADERS h))) in
  set_timer NXWEB_TIMER_WRITE (timer_write N).

(** What is left of the connection when the response is under way. *)
Lemma launched l kn0 kn h0 k0 k l' k' h' resp rn rn' rnx h b nxbx ptr :
  startable h0 k0 -> set_up rn rn' h0 h b -> is_Some nxbx ->
  sourced k h resp -> rs_chunked_autoencode resp = false ->
  h' = set_resp (Some (with_headers resp)) (set_resp_nxb rnx (set_state HSP_SENDING_HEADERS (set_resp_headers_ptr ptr (set_nxb nxbx h)))) ->
  ptr = (if hsp_sending_100_continue h0 then hsp_resp_headers_ptr h0 else Some (raw_headers_of resp)) ->
  sees l' k' -> wired k' -> core_le k0 k' -> p_os k' !! resp_body_in N = Some (content_out resp) -> timers_are k' None None (Some NXWEB_TIMER_WRITE) ->
  k_out kn = k_out kn0 ->
  started k0 (mk_conn l kn0 h0) resp (mk_conn l' kn h').
Proof using Type.
  intros (Hcs & Hu & Hout & H100 & Hbuf & Hfd & Hn) (n & ob & fb & Eh & Hbuf' & _) Hnx [Hkn Hsrc] Hch Eh' Eptr Hs' Hw' Hle Hp Ht Hko.
  destruct (with_headers_same resp) as (Hco & _ & _ & Hch').
  exists k'. cbn [c_loop c_kernel c_hsp]. split_and!; [|done|by rewrite Eh'|by apply not_completed|].
  - split; [exact Hs'|split; [exact Hw'|split; [|split]]]; cbn [c_hsp].
    + unfold state_ok. assert (Est : hsp_state h' = HSP_SENDING_HEADERS) by (by rewrite Eh'). rewrite Est. split; [by rewrite Eh'|].
      exists (with_headers resp), (content_out resp). split_and!; [by rewrite Eh'|by rewrite Hch'|done|by right| |by rewrite Eh'|by left].
      intros i. rewrite Hco. apply Hkn.
    + rewrite Eh', Eh. unfold has_header_bytes. cbn. rewrite Eptr. intros E. rewrite E. by apply H100.
    + rewrite Eh'. apply Hbuf'.
  - intros Hown. split.
    + intros r Hr. cbn [c_hsp] in Hr. assert (Er : hsp_resp h' = Some (with_headers resp)) by (by rewrite Eh'). assert (r = with_headers resp) as -> by congruence. unfold own_source. by rewrite Hco.
    + unfold total. cbn [c_kernel c_hsp]. rewrite Hko, <- app_assoc. f_equal. rewrite (pending_before h0) by done.
      rewrite (pending_started h' resp (hsp_req h')); [|by rewrite Eh'|by rewrite Eh'|done|done| |].
      * rewrite Eh', Eh. cbn. rewrite Eptr. by destruct (hsp_sending_100_continue h0).
      * intros i Hi Hi'. destruct (Hsrc i Hi) as [_ Hsi]. rewrite Eh'. exact (Hsi Hi').
      * rewrite Eh', Eh. cbn. rewrite Eptr. by intros ->.
Qed.

Lemma wp_launch l0 kn0 h0 k0 l kn h k resp rn rn' b (Q : unit -> conn L -> Prop) :
  startable h0 k0 -> set_up rn rn' h0 h b -> sourced k h resp -> rs_chunked_autoencode resp = false ->
  sees l k -> wired k -> core_le k0 k -> unpaired_body k -> timers_are k None None None -> k_out kn = k_out kn0 ->
  headers_given resp -> chunk_size (nxb_chunk_ b) + zlen (response_text REVISION date resp) + 256 <= 2 ^ 27 ->
  (forall c', started k0 (mk_conn l0 kn0 h0) resp c' -> Q tt c') ->
  wp (launch (hsp_sending_100_continue h0) resp rn') Q (mk_conn l kn h).
Proof using names alloc_total revision_short date_short.
  intros Hst Hset Hsrc Hch Hs Hw Hle Hu Ht Hko Hh Hbig HQ. unfold launch.
  destruct (fed_ok k h resp Hw Hu Hsrc) as (Hw1 & Hle1 & Hp1 & Ht1 & Ho1 & He1). set (k1 := fed _ k) in *.
  apply wp_bind. eapply wp_connect_source; [exact Hs|exact Hu|exact Hsrc|]. intros l1 Hs1. fold k1 in Hs1.
  pose proof Hset as (n & ob & fb & Eh & Hbuf & Hn & b' & s' & Hb' & Hok' & Hcs'). rewrite <- Hcs' in Hbig.
  apply wp_bind. eapply wp_prepare_raw; [exact Hb'|exact Hok'|exact Hh|exact Hbig|]. intros b2. fold (with_headers resp). set (resp2 := with_headers resp).
  assert (Hraw : rs_raw_headers resp2 = Some (raw_headers_of resp)) by (by apply with_headers_same).
  assert (Hnx : exists nxbx, put_nxb b2 rn' h = set_nxb nxbx h /\ is_Some nxbx).
  { destruct rn'; [exists (hsp_nxb h)|by exists (Some b2)]. split; [by destruct h|]. by rewrite Eh. }
  destruct Hnx as (nxbx & Enx & Hsome). rewrite Enx.
  assert (Htimer : forall k2, p_timers k2 = p_timers k1 -> timers_are k2 None None None) by (intros k2 E; unfold timers_are in *; by rewrite E, Ht1).
  assert (Hdone : forall l2 k2 h2 ptr, sees l2 k2 -> same_pairs k1 k2 -> p_timers k2 = p_timers k1 ->
     ptr = (if hsp_sending_100_continue h0 then hsp_resp_headers_ptr h0 else Some (raw_headers_of resp)) -> h2 = set_resp_headers_ptr ptr (set_nxb nxbx h) ->
     wp (do! upd_hsp (fun h => set_resp (Some resp2) (set_resp_nxb (put_rn b2 rn') (set_state HSP_SENDING_HEADERS h))) in set_timer NXWEB_TIMER_WRITE (timer_write N)) Q (mk_conn l2 kn h2)).
  { intros l2 k2 h2 ptr Hs2 Hsp Etm Eptr Eh2. apply wp_bind, wp_upd_hsp. eapply wp_set_timer_on; [exact Hs2|by vm_compute|apply (Htimer k2), Etm|].
    intros l3 Hs3. apply HQ. eapply launched; [exact Hst|exact Hset|exact Hsome|exact Hsrc|exact Hch|rewrite Eh2; reflexivity|exact Eptr|exact Hs3|..].
    - by apply (wired_same k1).
    - eapply core_le_trans; [exact Hle|]. eapply core_le_trans; [exact Hle1|]. by apply core_le_same.
    - cbn. destruct Hsp as (_ & -> & _). exact Hp1.
    - apply timers_set_wr with (wr := None). by apply Htimer.
    - done. }
  apply wp_bind. destruct (hsp_sending_100_continue h0); cbn [negb].
  - apply wp_ret. eapply Hdone; [exact Hs1|done|done|done|]. rewrite Eh. by destruct h0.
  - apply wp_bind, wp_upd_hsp, wp_on_l, (see_data_out_set _ _ k1); [done|]. intros l2 Hs2. eapply Hdone; [exact Hs2|done|done|done|]. by rewrite Hraw.
Qed.

Lemma modified_ok k req resp : response_ok k resp -> response_ok k (modified_response req resp).
Proof using Type.
  intros [A B C D E]. unfold modified_response. destruct (response_not_modified req resp); [|done]. split.
  - by destruct resp.
  - intros i. by destruct resp.
  - intros c Hc. by destruct resp.
  - split; [by destruct resp|]. intros _ [Hf|Hp]; by destruct resp.
  - unfold headers_given in *. by destruct resp.
Qed.
Lemma final_ok s resp : rs_chunked_autoencode resp = false -> headers_given resp ->
  let resp' := match content_out resp with Some _ => resp | None => with_source (finished_response s resp) end in
  rs_chunked_autoencode resp' = false /\ headers_given resp'.
Proof using Type.
  intros Hc Hh. cbv zeta. assert (Hf : rs_chunked_autoencode (finished_response s resp) = false /\ headers_given (finished_response s resp)).
  { unfold finished_response. destruct (zlen s =? 0); [done|]. destruct (_ && _); [|done]. unfold headers_given in *. by destruct resp. }
  destruct (content_out resp); [done|]. destruct Hf as [H1 H2]. set (r := finished_response s resp) in *. unfold with_source, headers_given in *. clearbody r.
  destruct r as []. cbn in *. repeat case_match; cbn in *; done.
Qed.

(** [start_sending_response]: the answer is on its way. *)
Lemma wp_start_sending l kn h k resp rn b s rd (Q : unit -> conn L -> Prop) :
  sees l k -> wired k -> timers_are k None rd None -> rd = None \/ rd = Some NXWEB_TIMER_READ -> startable h k ->
  resp_nxb_of rn h = Some b -> buffer_ok [] s b -> zlen s < 2 ^ 31 -> response_ok k resp ->
  chunk_size (nxb_chunk_ b) + zlen (response_text REVISION date (final_response (hsp_req h) s resp)) + 256 <= 2 ^ 27 ->
  (forall c', started k (mk_conn l kn h) (final_response (hsp_req h) s resp) c' -> Q tt c') ->
  wp (start_sending_response N open_file REVISION date resp rn) Q (mk_conn l kn h).
Proof using names alloc_total revision_short date_short open_file_fd.
  intros Hs Hw Ht Hrd Hst Hb Hok Hsl Hro Hbig HQ. pose proof Hst as (Hcs & Hu & Hout & H100 & Hbuf & Hfd & Hn).
  unfold start_sending_response. apply wp_bind, wp_get_hsp. rewrite Hcs. cbn [negb].
  apply wp_bind. eapply wp_unset_timer_on; [exact Hs|apply Ht|exact Hrd|]. intros l1 Hs1. set (k1 := p_set_timer _ _ _) in *.
  assert (Ht1 : timers_are k1 None None None) by (by apply timers_set_rd with (rd := rd)). assert (Hw1 : wired k1) by (by apply (wired_same k)).
  apply wp_bind, wp_assert; [by rewrite (ro_plain _ _ Hro)|]. set (mresp := modified_response (hsp_req h) resp) in *.
  pose proof (modified_ok k (hsp_req h) resp Hro) as [M1 M2 M3 M4 M5]. fold mresp in M1, M2, M3, M4, M5.
  destruct (final_ok s mresp M1 M5) as [F1 F2]. change (match content_out mresp with Some _ => mresp | None => with_source (finished_response s mresp) end)
    with (final_response (hsp_req h) s resp) in F1, F2.
  assert (Hrest : forall kn1, k_out kn1 = k_out kn ->
    wp (if! rs_chunked_autoencode mresp then upd_hsp (set_cestate _nxweb_encode_chunked_init) in
        let! r := nxd_http_server_proto_setup_content_out N open_file mresp rn in
        let '(resp, rn) := r in launch (hsp_sending_100_continue h) resp rn) Q (mk_conn l1 kn1 h)).
  { intros kn1 Hko. rewrite M1. apply wp_bind, wp_ret, wp_bind.
    eapply wp_setup_content_out; [exact Hs1|exact Hw1|exact Hu|exact Hb|exact Hok|exact Hsl|exact Hn|exact Hbuf|exact Hfd|exact M3|exact M4|exact M2|].
    intros rn' l2 k2 h2 Hs2 (Hw2 & Hle2 & Hu2 & Ht2 & Ho2 & He2) Hset Hsrc. assert (Hle : core_le k k2) by (eapply core_le_trans; [|exact Hle2]; by apply core_le_same).
    assert (Ht3 : timers_are k2 None None None) by (unfold timers_are in *; by rewrite Ht2). by eapply (wp_launch l kn h k). }
  apply wp_bind. unfold mresp, modified_response in Hrest. destruct (response_not_modified (hsp_req h) resp).
  - apply wp_bind. unfold nxweb_reset_content_out. apply wp_bind.
    assert (Hreset : forall kn1, k_out kn1 = k_out kn ->
      wp (let! h := get_hsp in if! negb (fb_fd (hsp_fb h) =? 0) then finalize_fbuffer N in ret (reset_response resp))
         (fun a c => wp (ret (a{{rs_status_code := 304; rs_status := Some (bs "Not Modified")}})) (fun a c => wp
           (if! rs_chunked_autoencode a then upd_hsp (set_cestate _nxweb_encode_chunked_init) in
            let! r := nxd_http_server_proto_setup_content_out N open_file a rn in
            let '(resp, rn) := r in launch (hsp_sending_100_continue h) resp rn) Q c) c) (mk_conn l1 kn1 h)).
    { intros kn1 Hko. apply wp_bind, wp_get_hsp. rewrite Hfd. cbn [Z.eqb negb]. apply wp_bind, wp_ret, wp_ret, wp_ret. by apply Hrest. }
    destruct (negb (rs_sendfile_fd resp =? 0)); [apply wp_on_k; by apply Hreset|apply wp_ret; by apply Hreset].
  - apply wp_ret. by apply Hrest.
Qed.

(** ** The answer to a request that cannot be read *)

Definition bad_response : response :=
  (no_sendfile ((nxweb_set_response_status (_nxweb_http_response_init response_zero None) 400 (Some (bs "Bad Request"))){{
     rs_content := Some (error_text REVISION (bs "Bad Request")); rs_content_length := zlen (error_text REVISION (bs "Bad Request"));
     rs_content_type := Some (bs "text/html")}})){{rs_keep_alive := false}}.

Lemma error_text_length : 0 < zlen (error_text REVISION (bs "Bad Request")) <= 1000.
Proof using revision_short.
  unfold error_text, response_body1, response_body2, response_body3. repeat rewrite zlen_app.
  pose proof (zlen_nonneg REVISION). room.
Qed.
Definition bad_final : response := bad_response{{rs_content_out := Zpos (ob_data_out N)}}.
Lemma final_bad req : final_response req [] bad_response = bad_final.
Proof using revision_short.
  assert (Hm : modified_response req bad_response = bad_response).
  { unfold modified_response, response_not_modified. change (rs_last_modified bad_response =? 0) with true. cbn [negb]. by rewrite andb_false_r. }
  unfold final_response. cbv zeta. rewrite Hm. change (content_out bad_response) with (@None positive). change (finished_response [] bad_response) with bad_response.
  unfold with_source. change (rs_content bad_response) with (Some (error_text REVISION (bs "Bad Request"))).
  change (rs_content_length bad_response) with (zlen (error_text REVISION (bs "Bad Request"))). pose proof error_text_length. rewrite (proj2 (Z.ltb_lt _ _)) by lia. done.
Qed.
Lemma bad_text_short : zlen (response_text REVISION date bad_final) <= 2 ^ 20.
Proof using revision_short date_short.
  pose proof error_text_length as Hl. unfold bad_final, bad_response. set (t := error_text REVISION (bs "Bad Request")) in *. clearbody t.
  unfold response_text, entity_headers, content_headers, length_headers, cache_headers, general_headers, time_header, opt_header, status_line, lines, framing.
  cbn -[dec]. unfold constant. destruct (Z.eqb_spec (zlen t) 0); [lia|]. rewrite (proj2 (Z.leb_le 0 (zlen t))) by lia. cbn -[dec]. unfold constant.
  repeat rewrite ?zlen_cons, ?zlen_app, ?zlen_nil. room.
Qed.

(** While the headers come in. *)
Definition heading (h : nxd_http_server_proto) (k : core) : Prop :=
  hsp_state h = HSP_RECEIVING_HEADERS /\ timers_are k None (Some NXWEB_TIMER_READ) None /\ unpaired_body k /\ p_out k = false /\
  fb_fd (hsp_fb h) = 0 /\ hsp_sending_100_continue h = false /\ buffers_ok h.

Lemma started_from k k0 l l0 kn kn0 h h0 resp c' :
  core_le k0 k -> total (mk_conn l kn h) = total (mk_conn l0 kn0 h0) ->
  started k (mk_conn l kn h) resp c' -> started k0 (mk_conn l0 kn0 h0) resp c'.
Proof using Type.
  intros Hle Htot (k' & H1 & H2 & H3 & H4 & H6). exists k'. cbn [c_hsp c_kernel] in *. rewrite <- Htot. split_and!; try done.
  by eapply core_le_trans.
Qed.

Lemma wp_bad_request l kn h k nxb s (Q : unit -> conn L -> Prop) :
  sees l k -> wired k -> heading h k -> hsp_nxb h = Some nxb -> buffer_ok [] s nxb -> chunk_size (nxb_chunk_ nxb) <= NXWEB_CONN_NXB_SIZE ->
  (forall c', started k (mk_conn l kn h) bad_final c' -> Q tt c') ->
  wp (bad_request N open_file REVISION date) Q (mk_conn l kn h).
Proof using names alloc_total revision_short date_short open_file_fd.
  intros Hs Hw (Hst & Ht & Hu & Hout & Hfd & H100 & Hbuf) Hn Hok Hcs HQ. unfold bad_request. cbv zeta.
  apply wp_bind. eapply wp_unset_timer_on; [exact Hs|apply Ht|by right|]. intros l1 Hs1. set (k1 := p_set_timer _ _ _) in *.
  assert (Hw1 : wired k1) by (by apply (wired_same k)). assert (Ht1 : timers_are k1 None None None) by (by apply timers_set_rd with (rd := Some NXWEB_TIMER_READ)).
  eapply wp_then_quiet; [apply (quiet_data_in _ k1 Hs1 Hw1)|exact Hs1|]. intros _ l2 Hs2.
  pose proof error_text_length as Hlen. change NXWEB_CONN_NXB_SIZE with 5120 in Hcs.
  apply wp_bind. eapply wp_on_req_nxb; [exact Hn|]. eapply (wp_send_http_error alloc_total); [exact Hok|lia|]. intros loc nxb' (Hwf & Hun & _) Hcs'. cbn [fst].
  change (_{{rs_keep_alive := false}}) with bad_response. set (h1 := set_nxb (Some nxb') h).
  assert (Hok' : buffer_ok [] [] nxb') by (split; [done|split; [done|by constructor]]).
  pose proof bad_text_short as Hts.
  eapply wp_start_sending; [exact Hs2|exact Hw1|exact Ht1|by left| |reflexivity|exact Hok'|by rewrite zlen_nil| |rewrite final_bad; lia|].
  - unfold startable, h1. cbn. rewrite Hst, H100. split_and!; try done; congruence.
  - split; [done|done| |split; [done|done]|split; [by constructor|done]].
    intros c [= <-] _. change (rs_content_length bad_response) with (zlen (error_text REVISION (bs "Bad Request"))). lia.
  - rewrite final_bad. intros c' Hc'. apply HQ. eapply started_from; [| |exact Hc']; done.
Qed.

(** ** The headers *)

(** The headers of a request are read, up to the answer to [Expect]. *)
Definition arrived (h : nxd_http_server_proto) (k : core) : Prop :=
  hsp_state h = HSP_RECEIVING_HEADERS /\ timers_are k None (Some NXWEB_TIMER_READ) None /\ unpaired_body k /\
  (p_out k = true -> hsp_sending_100_continue h = true) /\ fb_fd (hsp_fb h) = 0 /\ buffers_ok h /\
  (hsp_sending_100_continue h = true -> hsp_resp_headers_ptr h = Some response_100_continue) /\
  hsp_content_received h = 0 /\ hsp_chunked_content_complete h = false.
Definition host_read (h : nxd_http_server_proto) (nxb : nxb_buffer) : Prop :=
  exists ph t, rq_host (hsp_req h) = Some (At ph) /\ cstr (c_mem (nxb_chunk_ nxb)) ph t.

Definition interim (h : nxd_http_server_proto) : bytes := if hsp_sending_100_continue h then response_100_continue else [].
(** A request was accepted. *)
Definition accepted (k : core) (c c' : conn L) : Prop :=
  exists k', conn_inv k' c' /\ core_le k k' /\ ~ completed (c_hsp c') k' /\
    hsp_req (c_hsp c') = hsp_req (c_hsp c) /\ hsp_state (c_hsp c') = (if rq_content_length (hsp_req (c_hsp c)) =? 0 then HSP_HANDLING else HSP_RECEIVING_BODY) /\
    hsp_first_body_chunk (c_hsp c') = hsp_first_body_chunk (c_hsp c) /\ c_kernel c' = c_kernel c /\ p_events k' = p_events k ++ [NXD_HSP_REQUEST_RECEIVED] /\
    own_body (c_hsp c') /\ pending (c_hsp c') = interim (c_hsp c) /\ hsp_sending_100_continue (c_hsp c') = hsp_sending_100_continue (c_hsp c).

Lemma wp_accept l kn h k nxb (Q : unit -> conn L -> Prop) :
  sees l k -> wired k -> arrived h k -> hsp_nxb h = Some nxb -> nxb_ok nxb -> host_read h nxb ->
  (forall c', accepted k (mk_conn l kn h) c' -> Q tt c') ->
  wp (do! on_l (sl_ostream_unset_ready (data_in N)) in
      let! resp := init_response (hsp_req h) in
      do! upd_hsp (set_resp (Some resp)) in
      do! publish N NXD_HSP_REQUEST_RECEIVED in
      if negb (rq_content_length (hsp_req h) =? 0) then
        do! upd_hsp (set_state HSP_RECEIVING_BODY) in
        on_l (sl_istream_set_ready (req_body_out N))
      else
        do! unset_timer NXWEB_TIMER_READ (timer_read N) in
        upd_hsp (set_state HSP_HANDLING)) Q (mk_conn l kn h).
Proof using names.
  intros Hs Hw (Hst & Ht & Hu & Hout & Hfd & Hbuf & H100 & Hcr & Hcc) Hn Hok (ph & t & Hhost & Hstr) HQ.
  eapply wp_then_quiet; [apply (quiet_data_in _ k Hs Hw)|exact Hs|]. intros _ l1 Hs1.
  apply wp_bind. unfold init_response. apply wp_bind. eapply wp_on_req_nxb; [exact Hn|]. apply wp_on_chunk. rewrite Hhost. cbn [deref].
  apply wp_bind. eapply wp_read_str; [exact Hstr|]. apply wp_ret, wp_ret. set (resp := _nxweb_http_response_init _ _).
  replace (set_chunk_mem (c_mem (nxb_chunk_ nxb)) nxb) with nxb by (by destruct nxb as [? ? ? [] ? ?]).
  replace (set_nxb (Some nxb) h) with h by (destruct h; cbn in *; by subst).
  apply wp_bind, wp_upd_hsp, wp_bind. eapply wp_publish_event; [exact Hs1|exact Hw|]. intros l2 Hs2. set (k2 := p_publish _ k) in *.
  assert (Hw2 : wired k2) by (by apply (wired_same k)). set (h1 := set_resp (Some resp) h) in *.
  assert (Hco : rs_content_out resp = 0) by done.
  assert (Hdone : forall st l3 k3, st = (if rq_content_length (hsp_req h) =? 0 then HSP_HANDLING else HSP_RECEIVING_BODY) -> sees l3 k3 -> same_pairs k2 k3 -> p_out k3 = p_out k2 -> p_events k3 = p_events k2 ->
     timers_are k3 None (if rq_content_length (hsp_req h) =? 0 then None else Some NXWEB_TIMER_READ) None -> Q tt (mk_conn l3 kn (set_state st h1))).
  { intros st l3 k3 Est Hs3 Hsp Eo Ee Ht3. pose proof Hsp as (E1 & E2 & E3). apply HQ.
    assert (Hh : handling (set_state st h1) k3).
    { unfold handling, unpaired_body. rewrite E2, Eo. split_and!; try done; [by exists nxb|]. by exists resp. }
    exists k3. cbn [c_hsp c_kernel]. split_and!; try done.
    - split; [exact Hs3|split; [by apply (wired_same k2)|split; [|split; [|exact Hbuf]]]]; cbn [c_hsp].
      + unfold state_ok. cbn [set_state hsp_state]. destruct (rq_content_length (hsp_req h) =? 0) eqn:E; rewrite Est; [done|]. split; [done|split; [|by rewrite <- Est]].
        unfold is_request_body_complete, h1. cbn. rewrite Hcr, Hcc, orb_false_r. apply andb_false_iff. destruct (Z.ltb_spec 0 (rq_content_length (hsp_req h))); [right; lia|by left].
      + cbn. unfold has_header_bytes. cbn. intros E. by rewrite H100.
    - apply (core_le_same k). split_and!; [by rewrite E1|by rewrite E2|by rewrite E3].
    - intros [Hre _]. cbn in Hre. destruct (rq_content_length (hsp_req h) =? 0); by rewrite Est in Hre.
    - intros r [= <-]. unfold own_source, content_out. by rewrite Hco.
    - rewrite pending_before by (rewrite Est; by destruct (_ =? 0)). unfold interim. cbn. destruct (hsp_sending_100_continue h); [by rewrite H100|done]. }
  destruct (Z.eqb_spec (rq_content_length (hsp_req h)) 0) as [E|E]; cbn [negb].
  - apply wp_bind. eapply wp_unset_timer_on; [exact Hs2|apply Ht|by right|]. intros l3 Hs3. apply wp_upd_hsp. eapply Hdone; [done|exact Hs3|done|done|done|].
    by apply timers_set_rd with (rd := Some NXWEB_TIMER_READ).
  - apply wp_bind, wp_upd_hsp. eapply wp_quiet; [apply (quiet_ok _ Hw2)|exact Hs2|]. intros [] l3 Hs3. by eapply Hdone.
Qed.

(** A request was read: [body] is what came after its headers. *)
Definition request_read (k : core) (c : conn L) (body : bytes) (c' : conn L) : Prop :=
  exists k', conn_inv k' c' /\ core_le k k' /\ ~ completed (c_hsp c') k' /\
    hsp_state (c_hsp c') = (if rq_content_length (hsp_req (c_hsp c')) =? 0 then HSP_HANDLING else HSP_RECEIVING_BODY) /\
    hsp_first_body_chunk (c_hsp c') = (if bool_decide (body = []) then None else Some body) /\ k_in (c_kernel c') = k_in (c_kernel c) /\
    p_events k' = p_events k ++ [NXD_HSP_REQUEST_RECEIVED] /\ own_body (c_hsp c') /\ total c' = total c ++ interim (c_hsp c') /\
    hsp_sending_100_continue (c_hsp c') = bool_decide (body = []) && rq_expect_100_continue (hsp_req (c_hsp c')).

Lemma heading_pending h k : heading h k -> pending h = [].
Proof using Type. intros (Hst & _ & _ & _ & _ & H100 & _). by rewrite pending_before, H100 by (by rewrite Hst). Qed.

Lemma wp_headers_received l kn h k nxb s e b (Q : unit -> conn L -> Prop) :
  sees l k -> wired k -> heading h k -> hsp_req h = request_zero -> hsp_content_received h = 0 -> hsp_chunked_content_complete h = false ->
  hsp_nxb h = Some nxb -> buffer_ok [] s nxb -> chunk_size (nxb_chunk_ nxb) <= NXWEB_CONN_NXB_SIZE ->
  peek (c_mem (nxb_chunk_ nxb)) (chunk_size (nxb_chunk_ nxb) - 1) = Some 0 -> nxb_ptr nxb <= chunk_size (nxb_chunk_ nxb) - 2 ->
  end_found (c_mem (nxb_chunk_ nxb)) (nxb_base nxb) (zlen s) (Some (e, b)) ->
  (forall c', started k (mk_conn l kn h) bad_final c' \/ request_read k (mk_conn l kn h) (drop (Z.to_nat (b - nxb_base nxb)) s) c' -> Q tt c') ->
  wp (headers_received N open_file REVISION date unique_id (nxb_base nxb) (zlen s) e b) Q (mk_conn l kn h).
Proof using names alloc_total revision_short date_short open_file_fd.
  intros Hs Hw Hh Hreq0 Hcr0 Hcc0 Hn Hok Hcs Hz Hroom (Hb & (Hb3 & _) & _ & He) HQ. pose proof Hok as ((Hbp & Hpe & Hids & Hid) & [Hu Hp] & _).
  pose proof (heading_pending _ _ Hh) as Hpend. assert (Heb : nxb_base nxb <= e <= b - 2) by (rewrite He; case_bool_decide; lia).
  unfold headers_received. apply wp_bind. eapply wp_on_req_nxb; [exact Hn|]. unfold nxb_finish_stream. apply wp_bind, wp_get, wp_bind, wp_modify, wp_ret.
  set (nxb1 := set_dirty _). assert (Hm1 : nxb_chunk_ nxb1 = mk_chunk (c_id (nxb_chunk_ nxb)) (c_mem (nxb_chunk_ nxb)) (c_should_free (nxb_chunk_ nxb)) true) by done.
  apply wp_bind, wp_get_hsp. cbn [set_nxb hsp_req hsp_request_count]. rewrite Hreq0.
  apply wp_bind. eapply wp_on_req_nxb; [reflexivity|]. apply wp_on_chunk. rewrite Hm1. cbn [c_mem].
  eapply (wp_parse_http_request_any _ _ _ _ (chunk_size (nxb_chunk_ nxb) - 1)); [lia|lia|exact Hz|]. intros rc req m' Hrc Hso Hval.
  set (nxb2 := set_chunk_mem m' nxb1). pose proof (same_outside_zlen _ _ _ _ Hso) as Hlen.
  assert (Hwf2 : nxb_wf nxb2) by (unfold nxb_wf, nxb2, chunk_size in *; cbn; rewrite Hlen; split_and!; try done; lia).
  assert (Hok2 : buffer_ok [] [] nxb2) by (split; [done|split; [split; [apply bytes_at_nil|cbn; change (zlen []) with 0; lia]|by constructor]]).
  assert (Hcs2 : chunk_size (nxb_chunk_ nxb2) <= NXWEB_CONN_NXB_SIZE) by (unfold chunk_size in *; cbn; by rewrite Hlen).
  apply wp_bind, wp_upd_hsp. set (h2 := set_req req (set_nxb (Some nxb2) (set_nxb (Some nxb1) h))). destruct Hh as (Hst & Ht & Hub & Hout & Hfd & H100 & Hbuf).
  destruct (Z.eqb_spec rc 0) as [->|Hne]; cbn [negb].
  2:{ eapply (wp_bad_request _ _ h2 k nxb2 []); [exact Hs|exact Hw|by split_and!|done|exact Hok2|exact Hcs2|]. intros c' Hc'. apply HQ. left.
      eapply started_from; [| |exact Hc']; [done|]. unfold total. f_equal. cbn [c_hsp]. rewrite Hpend. rewrite pending_before by (cbn; by rewrite Hst). cbn. by rewrite H100. }
  destruct (Hval eq_refl) as (_ & _ & _ & (ph & t & Hhost & Hstr & _) & _).
  assert (Hnok : nxb_ok nxb2) by (exists []; split; [done|]; change (zlen []) with 0; change NXWEB_CONN_NXB_SIZE with 5120 in *; lia).
  assert (Hbody : bytes_at m' b (drop (Z.to_nat (b - nxb_base nxb)) s)).
  { eapply same_outside_bytes_at; [exact Hso| |right; lia].
    pose proof Hu as Hu'. rewrite <- (take_drop (Z.to_nat (b - nxb_base nxb)) s) in Hu'. apply bytes_at_app in Hu' as [_ Hu'].
    by replace (nxb_base nxb + zlen (take (Z.to_nat (b - nxb_base nxb)) s)) with b in Hu' by (rewrite zlen_take; lia). }
  assert (Hbl : zlen (drop (Z.to_nat (b - nxb_base nxb)) s) = nxb_base nxb + zlen s - b) by (rewrite zlen_drop; lia). set (body := drop _ s) in *.
  assert (Hfin : forall l3 h3 k3, sees l3 k3 -> wired k3 -> core_le k k3 -> arrived h3 k3 -> p_events k3 = p_events k -> hsp_nxb h3 = Some nxb2 -> hsp_req h3 = req ->
     hsp_first_body_chunk h3 = (if bool_decide (body = []) then None else Some body) -> hsp_sending_100_continue h3 = bool_decide (body = []) && rq_expect_100_continue req ->
     wp (do! on_l (sl_ostream_unset_ready (data_in N)) in
      let! resp := init_response req in
      do! upd_hsp (set_resp (Some resp)) in
      do! publish N NXD_HSP_REQUEST_RECEIVED in
      if negb (rq_content_length req =? 0) then
        do! upd_hsp (set_state HSP_RECEIVING_BODY) in
        on_l (sl_istream_set_ready (req_body_out N))
      else
        do! unset_timer NXWEB_TIMER_READ (timer_read N) in
        upd_hsp (set_state HSP_HANDLING)) Q (mk_conn l3 kn h3)).
  { intros l3 h3 k3 Hs3 Hw3 Hle3 Har Hev E1 <- E3 E4. eapply wp_accept; [exact Hs3|exact Hw3|exact Har|exact E1|exact Hnok| |].
    - exists ph, t. split; [by rewrite Hhost|]. done.
    - intros c' (k' & G1 & G2 & G3 & G4 & G5 & G6 & G7 & G8 & G9 & G10 & G11). apply HQ. right. exists k'. cbn [c_hsp c_kernel] in *.
      rewrite G4. split_and!; try done; [by eapply core_le_trans|congruence|by rewrite G7|by rewrite G8, Hev| |congruence].
      unfold total. rewrite G7, G10. cbn [c_kernel c_hsp]. rewrite Hpend, app_nil_r. unfold interim. by rewrite G11. }
  assert (Har : forall f, arrived (set_first_body_chunk f h2) k) by (intros f; unfold arrived; cbn; rewrite H100, Hout; by split_and!).
  apply wp_bind. destruct (Z.ltb_spec b (nxb_base nxb + zlen s)) as [Hmore|Hmore].
  - apply wp_bind. eapply wp_on_req_nxb; [reflexivity|]. apply wp_on_chunk, wp_read_bytes; [lia|lia|cbn; rewrite Hlen; unfold chunk_size in *; lia|]. intros bd Hbd Hbdl.
    assert (bd = body) as -> by (eapply bytes_at_inj; [exact Hbd|exact Hbody|lia]). apply wp_upd_hsp.
    assert (Hne : bool_decide (body = []) = false) by (apply bool_decide_eq_false; intros E; rewrite E in Hbl; change (zlen []) with 0 in Hbl; lia).
    eapply Hfin; [exact Hs|exact Hw|done|apply Har|done|done|done|by rewrite Hne|by rewrite Hne; cbn].
  - assert (Hnil : bool_decide (body = []) = true) by (apply bool_decide_eq_true, zlen_0_inv; pose proof (zlen_nonneg body); lia).
    apply wp_bind, wp_upd_hsp. destruct (rq_expect_100_continue req) eqn:Eex.
    + apply wp_bind, wp_upd_hsp, wp_on_l, (see_data_out_set _ _ k); [done|]. intros l3 Hs3. eapply (Hfin l3 _ (p_set_out true k)); [exact Hs3|by apply (wired_same k)|by apply core_le_same| |done|done|done|by rewrite Hnil|by rewrite Hnil].
      unfold arrived. cbn. split_and!; done.
    + apply wp_ret. eapply Hfin; [exact Hs|exact Hw|done|apply Har|done|done|done|by rewrite Hnil|by rewrite Hnil; cbn].
Qed.

(** What is kept of a request before its headers are complete. *)
Definition block (h : nxd_http_server_proto) (s : bytes) : Prop :=
  match hsp_nxb h with Some nxb => unfinished_is nxb s | None => s = [] end.
Definition new_block (h : nxd_http_server_proto) : nxb_buffer := nxb_init (fst (pool_block (hsp_request_count h))) (snd (pool_block (hsp_request_count h))).
(** The next read leaves two bytes of the block free. *)
Definition read_fits (c : conn L) : Prop :=
  next_read (c_kernel c) + 2 <= match hsp_nxb (c_hsp c) with Some nxb => nxb_end nxb - nxb_ptr nxb | None => nxb_end (new_block (c_hsp c)) end.

(** The outcomes of receiving: the headers are not complete, the request cannot
    be read, or it was read and its body begins after the first empty line. *)
Definition more_headers (k : core) (c c' : conn L) : Prop :=
  keeps [] k c c' /\ hsp_state (c_hsp c') = HSP_RECEIVING_HEADERS /\
  exists s s', block (c_hsp c) s /\ block (c_hsp c') s' /\ s ++ in_bytes (k_in (c_kernel c)) = s' ++ in_bytes (k_in (c_kernel c')).
Definition new_request (k : core) (c c' : conn L) : Prop :=
  exists k', conn_inv k' c' /\ core_le k k' /\ ~ completed (c_hsp c') k' /\
    hsp_state (c_hsp c') = (if rq_content_length (hsp_req (c_hsp c')) =? 0 then HSP_HANDLING else HSP_RECEIVING_BODY) /\
    p_events k' = p_events k ++ [NXD_HSP_REQUEST_RECEIVED] /\ own_body (c_hsp c') /\ total c' = total c ++ interim (c_hsp c') /\
    exists s head, block (c_hsp c) s /\ headers_end head /\ s ++ in_bytes (k_in (c_kernel c)) = head ++ body_bytes c'.
Definition headers_outcome (k : core) (c c' : conn L) : Prop :=
  more_headers k c c' \/ started k c bad_final c' \/ new_request k c c'.

Lemma headers_keep l kn h k l' kn' h' : 
  conn_inv k (mk_conn l kn h) -> hsp_state h = HSP_RECEIVING_HEADERS -> sees l' k -> k_out kn' = k_out kn ->
  (h' = h \/ exists n nxb', h' = set_headers_bytes_received n (set_nxb (Some nxb') h) /\ headers_nxb nxb') ->
  keeps [] k (mk_conn l kn h) (mk_conn l' kn' h').
Proof using Type.
  intros (Hs & Hw & Hst & H100 & Hbuf) E Hs' Hko Hh. cbn [c_loop c_hsp] in *. unfold state_ok in Hst. rewrite E in Hst. destruct Hst as (G1 & G2 & G3).
  assert (Est : hsp_state h' = HSP_RECEIVING_HEADERS) by (by destruct Hh as [->|(n & b & -> & _)]).
  exists k. split_and!; [|done|by intros [Hre _]; cbn in Hre; rewrite E in Hre| |by intros _ Hb; cbn in Hb; rewrite Est in Hb].
  - split; [exact Hs'|split; [exact Hw|]]. cbn [c_hsp]. destruct Hh as [->|(n & b & -> & Hb)].
    + split; [|done]. unfold state_ok. by rewrite E.
    + split; [|done]. unfold state_ok. cbn [set_headers_bytes_received set_nxb hsp_state]. rewrite E. split; [done|split; [exact G2|by exists b]].
  - intros Ho. split; [by destruct Hh as [->|(n & b & -> & _)]|]. rewrite app_nil_r. unfold total. cbn [c_kernel c_hsp]. rewrite Hko. f_equal.
    by destruct Hh as [->|(n & b & -> & _)].
Qed.

Lemma wp_receive_headers l kn h k (Q : unit -> conn L -> Prop) :
  conn_inv k (mk_conn l kn h) -> hsp_state h = HSP_RECEIVING_HEADERS -> read_fits (mk_conn l kn h) ->
  (forall c', headers_outcome k (mk_conn l kn h) c' -> Q tt c') ->
  wp (receive_headers N fs open_file REVISION date unique_id) Q (mk_conn l kn h).
Proof using names alloc_total revision_short date_short open_file_fd.
  intros Hinv Est Hfit HQ. pose proof Hinv as (Hs & Hw & Hst & _ & Hbuf). cbn [c_loop c_hsp] in Hs, Hst, Hbuf. unfold state_ok in Hst. rewrite Est in Hst.
  destruct Hst as (Ht & (Hu & Hout & Hfd & Hresp & Hreq & H100 & Hcr & Hcc & Hcd) & nxb & Hn & s & Hok & Hend & Hcs & Hz).
  unfold read_fits in Hfit. cbn [c_hsp c_kernel] in Hfit. rewrite Hn in Hfit. pose proof Hok as ((Hbp & Hpe & Hids & Hid) & [Hun Hp] & _).
  assert (Hblk : block h s) by (unfold block; rewrite Hn; done).
  unfold receive_headers. apply wp_bind. eapply wp_on_req_nxb; [exact Hn|]. unfold nxb_get_room. apply wp_bind, wp_get, wp_ret. cbn [fst snd l_off].
  assert (Hsame : set_nxb (Some nxb) h = h) by (destruct h; cbn in *; by subst). rewrite Hsame.
  apply wp_bind. eapply wp_sock_read; [exact Hs|exact Hw|lia|]. intros d l1 kn1 Hs1 Hdl Hdn Hin Hko.
  destruct (Z.eqb_spec (zlen d) 0) as [Hd0|Hd0].
  { apply zlen_0_inv in Hd0 as ->. apply wp_ret, HQ. left. split; [|split; [done|by exists s, s; cbn [c_kernel]; rewrite Hin]]. apply headers_keep; try done. by left. }
  pose proof (zlen_nonneg d). set (e := nxb_end nxb) in *. set (p := nxb_ptr nxb) in *.
  apply wp_bind. eapply wp_on_req_nxb; [exact Hn|]. apply wp_bind, wp_on_chunk. unfold chunk_size in *. apply wp_write_bytes; [lia|lia|]. intros m1 Hm1 Hso.
  unfold nxb_blank_fast. apply wp_modify. set (nxb1 := set_ptr _ (set_chunk_mem m1 nxb)). pose proof (same_outside_zlen _ _ _ _ Hso) as Hlen.
  assert (Hok1 : buffer_ok [] (s ++ d) nxb1).
  { split; [|split; [split|by constructor]].
    - unfold nxb_wf, chunk_size. cbn. rewrite Hlen. split_and!; try done; fold p e; lia.
    - cbn. apply bytes_at_app. split; [eapply same_outside_bytes_at; [exact Hso|exact Hun|left; lia]|]. by rewrite <- Hp.
    - cbn. fold p. rewrite zlen_app. lia. }
  assert (Hp1 : nxb_ptr nxb1 = p + zlen d) by done. assert (Hb1 : nxb_base nxb1 = nxb_base nxb) by done. assert (Hmem : c_mem (nxb_chunk_ nxb1) = m1) by done.
  apply wp_bind. eapply wp_on_req_nxb; [reflexivity|]. unfold nxb_get_unfinished. apply wp_bind, wp_get, wp_ret. cbn [fst snd l_off]. rewrite Hb1, Hp1.
  replace (p + zlen d - nxb_base nxb) with (zlen (s ++ d)) by (rewrite zlen_app; lia).
  apply wp_bind, wp_upd_hsp. apply wp_bind. eapply wp_on_req_nxb; [reflexivity|]. apply wp_on_chunk. rewrite Hmem.
  assert (Hbs : bytes_at m1 (nxb_base nxb) (s ++ d)) by (destruct Hok1 as (_ & [Hx _] & _); exact Hx).
  eapply wp_find_end; [lia|rewrite Hlen, zlen_app; lia|]. intros r Hr. pose proof (found_headers _ _ _ _ Hbs ltac:(lia) Hr) as Hfound.
  replace (set_chunk_mem m1 nxb1) with nxb1 by done. set (h1 := set_nxb (Some nxb1) _).
  assert (Eh1 : h1 = set_headers_bytes_received (zlen (s ++ d)) (set_nxb (Some nxb1) h)) by done.
  assert (Hh1 : heading h1 k) by (unfold heading; cbn; by split_and!).
  assert (Hz1 : peek m1 (zlen m1 - 1) = Some 0) by (destruct Hso as [_ Hso]; rewrite Hlen, Hso; [done|right; lia]).
  assert (Htot : total (mk_conn l1 kn1 h1) = total (mk_conn l kn h)) by (unfold total; cbn [c_kernel c_hsp]; rewrite Hko; f_equal).
  destruct r as [[eoh sob]|].
  - rewrite <- Hb1. eapply wp_headers_received; [exact Hs1|exact Hw|exact Hh1|done|done|done|reflexivity|exact Hok1|unfold chunk_size; by rewrite Hmem, Hlen| | |by rewrite Hmem, Hb1|].
    + unfold chunk_size. by rewrite Hmem.
    + unfold chunk_size. rewrite Hmem, Hp1, Hlen. lia.
    + rewrite Hb1. intros c' Hc'. apply HQ. right. destruct Hc' as [Hc'|(k' & F1 & F2 & F3 & F4 & F5 & F6 & F7 & F8 & F9 & F10)]; [left|right].
      * by eapply started_from.
      * exists k'. rewrite <- Htot. split_and!; try done. exists s, (take (Z.to_nat (sob - nxb_base nxb)) (s ++ d)). split_and!; [done|done|].
        cbn [c_kernel] in *. rewrite Hin. unfold body_bytes. rewrite F5, F6, app_assoc, app_assoc. f_equal.
        rewrite <- (take_drop (Z.to_nat (sob - nxb_base nxb)) (s ++ d)) at 1. f_equal. by case_bool_decide.
  - destruct (Z.leb_spec NXWEB_MAX_REQUEST_HEADERS_SIZE (zlen (s ++ d))).
    + eapply wp_bad_request; [exact Hs1|exact Hw|exact Hh1|reflexivity|exact Hok1|unfold chunk_size; by rewrite Hmem, Hlen|]. intros c' Hc'. apply HQ. right; left. by eapply started_from.
    + apply wp_ret, HQ. left. split; [|split; [done|]].
      * apply headers_keep; try done. right. exists (zlen (s ++ d)), nxb1. split; [done|]. exists (s ++ d). unfold chunk_size. rewrite Hmem. split_and!; [done| |by rewrite Hlen|done]. by rewrite Hlen.
      * exists s, (s ++ d). split_and!; [done|by apply Hok1|]. cbn [c_kernel]. by rewrite Hin, app_assoc.
Qed.

(** ** A block for a new request *)

(** A block of the pool; its last byte is zero. *)
Context (pool_ok : forall n, 0 <= fst (pool_block n) /\ zlen (snd (pool_block n)) = NXWEB_CONN_NXB_SIZE /\ last (snd (pool_block n)) = Some 0).

Lemma new_block_ok h : let nxb := new_block h in
  buffer_ok [] [] nxb /\ nxb_ptr nxb = 0 /\ nxb_end nxb = chunk_size (nxb_chunk_ nxb) /\ NXWEB_MAX_REQUEST_HEADERS_SIZE <= nxb_end nxb /\
  chunk_size (nxb_chunk_ nxb) <= NXWEB_CONN_NXB_SIZE /\ peek (c_mem (nxb_chunk_ nxb)) (chunk_size (nxb_chunk_ nxb) - 1) = Some 0.
Proof using pool_ok.
  cbv zeta. destruct (pool_ok (hsp_request_count h)) as (Ha & Hl & Hlast). unfold new_block. destruct (pool_block _) as [addr area]. cbn [fst snd] in *.
  change NXWEB_CONN_NXB_SIZE with 5120 in *. split; [apply nxb_init_ok; lia|]. unfold nxb_init. cbv zeta. cbn [nxb_ptr nxb_end nxb_chunk_ c_mem].
  pose proof (align_up_bounds (addr + sizeof_nxb_buffer) ltac:(unfold sizeof_nxb_buffer; lia)) as Hal. unfold sizeof_nxb_buffer, offsetof_buf in *.
  set (off := align_up (addr + 32) - addr + 17) in *. assert (Hoff : 49 <= off <= 64) by (unfold off; lia).
  unfold chunk_size. cbn [c_mem]. rewrite zlen_drop by lia. rewrite Hl. split_and!; [done|done|unfold NXWEB_MAX_REQUEST_HEADERS_SIZE; lia|lia|].
  unfold peek. rewrite (proj2 (Z.leb_le 0 _)) by lia. rewrite lookup_drop. rewrite last_lookup in Hlast. rewrite <- Hlast. f_equal. unfold zlen in Hl. lia.
Qed.

(** From the first byte of a request on. *)
Definition begun (k : core) (h : nxd_http_server_proto) (k' : core) (h' : nxd_http_server_proto) : Prop :=
  k' = p_set_timer (timer_read N) (Some NXWEB_TIMER_READ) (p_set_timer (timer_keep_alive N) None k) /\
  h' = set_state HSP_RECEIVING_HEADERS (set_nxb (Some (new_block h)) h).

Lemma wp_begin_request l kn h k (Q : unit -> conn L -> Prop) :
  conn_inv k (mk_conn l kn h) -> hsp_state h = HSP_WAITING_FOR_REQUEST ->
  (forall l' k' h', begun k h k' h' -> conn_inv k' (mk_conn l' kn h') -> hsp_state h' = HSP_RECEIVING_HEADERS -> core_le k k' -> Q tt (mk_conn l' kn h')) ->
  wp (begin_request N pool_block) Q (mk_conn l kn h).
Proof using names pool_ok.
  intros (Hs & Hw & Hst & H100 & Hbuf) Est HQ. cbn [c_loop c_hsp] in *. unfold state_ok in Hst. rewrite Est in Hst. destruct Hst as (Ht & Hbr & Hn).
  destruct (new_block_ok h) as (Hok & Hp & He & Hmin & Hcs & Hz). unfold begin_request. apply wp_bind, wp_get_hsp.
  unfold new_block in *. destruct (pool_block (hsp_request_count h)) as [addr area] eqn:Epool. cbn [fst snd] in *. set (nxb := nxb_init addr area) in *.
  apply wp_bind, wp_upd_hsp, wp_bind. eapply wp_on_req_nxb; [reflexivity|]. unfold nxb_make_room. apply wp_bind, wp_get. rewrite Hp.
  destruct (Z.ltb_spec (nxb_end nxb - 0) NXWEB_MAX_REQUEST_HEADERS_SIZE); [lia|]. apply wp_ret.
  apply wp_bind. eapply wp_unset_timer_on; [exact Hs|apply Ht|by right|]. intros l1 Hs1. set (k1 := p_set_timer _ _ _) in *.
  assert (Ht1 : timers_are k1 None None None) by (by apply timers_set_ka with (ka := Some NXWEB_TIMER_KEEP_ALIVE)).
  apply wp_bind. eapply wp_set_timer_on; [exact Hs1|by vm_compute|apply Ht1|]. intros l2 Hs2. set (k2 := p_set_timer _ _ k1) in *.
  assert (Ht2 : timers_are k2 None (Some NXWEB_TIMER_READ) None) by (by apply timers_set_rd with (rd := None)). apply wp_upd_hsp. apply (HQ _ k2).
  - split; [done|]. unfold new_block. by rewrite Epool.
  - split; [exact Hs2|split; [by apply (wired_same k)|split; [|split; [|exact Hbuf]]]]; cbn [c_hsp].
    + unfold state_ok. cbn [set_state hsp_state]. split; [done|split; [exact Hbr|]]. exists nxb. split; [done|]. by exists [].
    + by destruct Hbr as (_ & _ & _ & _ & _ & E & _); cbn; rewrite E.
  - done.
  - by apply core_le_same.
Qed.

(** ** Reading from the socket *)

Lemma wp_forward_body l kn h k (Q : unit -> conn L -> Prop) : conn_inv k (mk_conn l kn h) -> body_fits (mk_conn l kn h) ->
  (forall c', keeps [] k (mk_conn l kn h) c' -> Q tt c') -> wp (forward_body N (fun o => run (consumer o))) Q (mk_conn l kn h).
Proof using names accept_bound consumer_legal.
  intros Hinv Hfit HQ. pose proof Hinv as (Hs & Hw & _). cbn [c_loop] in Hs. destruct (w_body_out _ Hw) as [p Hp].
  unfold forward_body. apply wp_bind, wp_on_l. eapply see_istream; [exact Hs|exact Hp|]. intros ist -> _. destruct p as [o|].
  2:{ eapply wp_quiet; [apply (quiet_data_in _ k Hs Hw)|exact Hs|]. intros [] l1 Hs1. apply HQ. by apply keeps_same_loop. }
  pose proof (proj1 (sees_pair _ _ _ _ _ Hs) Hp) as Ho. apply wp_bind, wp_on_l. eapply see_ostream; [exact Hs|exact Ho|]. intros ost _.
  assert (Hrest : forall c1, keeps [] k (mk_conn l kn h) c1 ->
    wp (let! ost := on_l (sl_ostream o) in
        if os_ready ost then ret tt
        else do! on_l (sl_ostream_unset_ready (data_in N)) in on_l (sl_istream_set_ready (req_body_out N))) Q c1).
  { intros [l1 kn1 h1] Hk1. apply keeps_open in Hk1 as (k1 & H1). pose proof H1 as ((Hs1 & Hw1 & _) & Hle & _). cbn [c_loop] in Hs1.
    destruct (proj2 Hle o ltac:(by rewrite Ho)) as [x Hx]. apply wp_bind, wp_on_l. eapply see_ostream; [exact Hs1|exact Hx|]. intros ost1 _.
    destruct (os_ready ost1); [by apply wp_ret, HQ, (keeps_intro _ _ k1)|].
    eapply wp_then_quiet; [apply (quiet_data_in _ k1 Hs1 Hw1)|exact Hs1|]. intros _ l2 Hs2.
    eapply wp_quiet; [apply (quiet_ok _ Hw1)|exact Hs2|]. intros [] l3 Hs3. apply HQ, (keeps_intro _ _ k1). eapply stays_trans; [exact H1|]. apply stays_loop; [apply H1|done]. }
  apply wp_bind. destruct (os_ready ost); [|by apply wp_ret, Hrest, keeps_refl]. eapply wp_run_prog; [apply consumer_legal|exact Hinv|exact Hfit|]. exact Hrest.
Qed.

(** What [data_in_do_read] may do. *)
Lemma outcome_from k0 c0 k c c' : core_le k0 k -> total c = total c0 -> k_in (c_kernel c) = k_in (c_kernel c0) -> p_events k = p_events k0 ->
  (completed (c_hsp c0) k0 -> False) -> hsp_state (c_hsp c0) <> HSP_RECEIVING_BODY -> own_body (c_hsp c0) = own_body (c_hsp c) ->
  (forall s, block (c_hsp c) s -> block (c_hsp c0) s) -> hsp_state (c_hsp c) = HSP_RECEIVING_HEADERS -> headers_outcome k c c' -> headers_outcome k0 c0 c'.
Proof using Type.
  intros Hle Htot Hin Hev Hnc Hst Hown Hblk Hst1 [H1|[H1|H1]]; [left|right; left|right; right].
  - destruct H1 as ((k' & G1 & G2 & G3 & G4 & G5) & H2 & s & s' & F1 & F2 & F3). split; [|split; [done|]].
    + exists k'. split_and!; [done|by eapply core_le_trans|done| |by intros _ E; rewrite H2 in E]. rewrite Hown, <- Htot. done.
    + exists s, s'. rewrite <- Hin. auto.
  - destruct H1 as (k' & G1 & G2 & G3 & G4 & G5). exists k'. rewrite <- Htot. split_and!; try done. by eapply core_le_trans.
  - destruct H1 as (k' & G1 & G2 & G3 & G4 & G5 & G6 & G7 & s & hd & F1 & F2 & F3). exists k'. rewrite <- Htot, <- Hev, <- Hin. split_and!; try done; [by eapply core_le_trans|].
    exists s, hd. auto.
Qed.

Definition receiving_headers (h : nxd_http_server_proto) : Prop := hsp_state h = HSP_WAITING_FOR_REQUEST \/ hsp_state h = HSP_RECEIVING_HEADERS.
Definition read_outcome (k : core) (c c' : conn L) : Prop :=
  (receiving_headers (c_hsp c) /\ headers_outcome k c c') \/ (~ receiving_headers (c_hsp c) /\ keeps [] k c c').

Lemma wp_data_in_do_read l kn h k (Q : unit -> conn L -> Prop) : conn_inv k (mk_conn l kn h) -> body_fits (mk_conn l kn h) ->
  (receiving_headers h -> read_fits (mk_conn l kn h)) -> (forall c', read_outcome k (mk_conn l kn h) c' -> Q tt c') ->
  wp (data_in_do_read N fs open_file REVISION date pool_block unique_id (fun o => run (consumer o))) Q (mk_conn l kn h).
Proof using names accept_bound consumer_legal alloc_total revision_short date_short open_file_fd pool_ok.
  intros Hinv Hfit Hroom HQ. unfold data_in_do_read. apply wp_bind, wp_get_hsp.
  assert (Hh : forall l1 h1 k1, conn_inv k1 (mk_conn l1 kn h1) -> hsp_state h1 = HSP_RECEIVING_HEADERS -> read_fits (mk_conn l1 kn h1) -> receiving_headers h ->
     (forall c', headers_outcome k1 (mk_conn l1 kn h1) c' -> headers_outcome k (mk_conn l kn h) c') ->
     wp (let! h := get_hsp in match hsp_state h with
         | HSP_RECEIVING_HEADERS => receive_headers N fs open_file REVISION date unique_id
         | HSP_RECEIVING_BODY => forward_body N (fun o => run (consumer o))
         | _ => ret tt end) Q (mk_conn l1 kn h1)).
  { intros l1 h1 k1 Hi1 E1 Hr1 Hrh Hout. apply wp_bind, wp_get_hsp. rewrite E1. eapply wp_receive_headers; [exact Hi1|exact E1|exact Hr1|].
    intros c' Hc'. apply HQ. left. split; [done|by apply Hout]. }
  apply wp_bind. case_bool_decide as E.
  - eapply wp_begin_request; [exact Hinv|exact E|]. intros l1 k1 h1 (Ek & Eh) Hi1 E1 Hle1. assert (Hrh : receiving_headers h) by (by left).
    pose proof Hinv as (_ & _ & Hst & _). cbn [c_hsp] in Hst. unfold state_ok in Hst. rewrite E in Hst. destruct Hst as (_ & (_ & _ & _ & _ & _ & H100 & _) & Hn).
    destruct (new_block_ok h) as (_ & Hp & _).
    eapply Hh; [exact Hi1|exact E1| |exact Hrh|].
    + specialize (Hroom Hrh). unfold read_fits in *. cbn [c_kernel c_hsp] in *. rewrite Hn in Hroom. rewrite Eh. cbn [set_state set_nxb hsp_nxb]. rewrite Hp. lia.
    + intros c'. apply outcome_from; cbn [c_hsp c_kernel]; [done| |done|by rewrite Ek|by intros [Hre _]; rewrite E in Hre|by rewrite E|by rewrite Eh| |done].
      * unfold total. cbn [c_kernel c_hsp]. f_equal. rewrite Eh. unfold pending, head_rest. cbn. rewrite H100, E. done.
      * intros s. unfold block. rewrite Eh, Hn. cbn. destruct (new_block_ok h) as (_ & Hp0 & _). intros [_ Hs0]. apply zlen_0_inv. change (nxb_base (new_block h)) with (nxb_base (nxb_init (fst (pool_block (hsp_request_count h))) (snd (pool_block (hsp_request_count h))))) in Hs0. cbn [nxb_init nxb_base] in Hs0. lia.
  - apply wp_ret. destruct (decide (hsp_state h = HSP_RECEIVING_HEADERS)) as [E1|E1].
    + assert (Hrh : receiving_headers h) by (by right). eapply Hh; [exact Hinv|exact E1|by apply Hroom|exact Hrh|done].
    + assert (Hnr : ~ receiving_headers h) by (by intros [?|?]). apply wp_bind, wp_get_hsp.
      destruct (hsp_state h) eqn:Est; try done; try (by apply wp_ret, HQ; right; split; [done|apply keeps_refl]).
      eapply wp_forward_body; [exact Hinv|exact Hfit|]. intros c' Hc'. apply HQ. by right.
Qed.

(** ** Between requests *)

Lemma completed_core h k : conn_inv k h -> completed (c_hsp h) k ->
  is_Some (hsp_nxb (c_hsp h)) /\ unpaired_body k /\ p_out k = false /\
  exists resp, hsp_resp (c_hsp h) = Some resp /\ source_known resp /\ (own_source resp -> pending (c_hsp h) = []).
Proof using Type.
  intros (_ & _ & Hst & _) [Hre Ht]. assert (Hsd : sending (c_hsp h) k) by (unfold state_ok in Hst; by destruct (hsp_state (c_hsp h))).
  destruct Hsd as (Hn & resp & p & Hr & Hch & Hp & _ & Hkn & _ & [Ht'|(_ & -> & Ho & Hpd)]).
  - destruct Ht as (_ & _ & E), Ht' as (_ & _ & E'). congruence.
  - split_and!; try done. by exists resp.
Qed.

(** Dropping the pair of the response's source once it is complete. *)
Lemma completed_drop l kn h k i l' : conn_inv k (mk_conn l kn h) -> completed h k -> sees l' (drop_is i k) ->
  i = ob_data_out N \/ i = fb_data_out N \/ i ∈ foreign_is -> stays k (mk_conn l kn h) (drop_is i k) (mk_conn l' kn h).
Proof using names.
  intros Hinv Hcm Hs' Hi. pose proof Hinv as (Hs & Hw & Hst & Hx). cbn [c_loop c_hsp] in *. destruct names_ne as ((A1 & A2 & A3 & A4) & (B1 & B2 & B3) & _).
  assert (Hne : i <> data_out N /\ i <> fs_data_is fs) by (destruct Hi as [->|[->|Hi]]; [done|done|split; apply (foreign_ne _ Hi)]). destruct Hne as [Hne1 Hne2].
  destruct (drop_is_rest i k) as (R1 & R2 & R3 & R4). destruct Hcm as [Hre Ht].
  assert (Hsd : sending h k -> sending h (drop_is i k)).
  { intros (Hn & resp & p & Hr & Hch & Hp & Hpo & Hkn & Hb & Hd). split; [done|]. exists resp, None. split_and!; [done|done| |by left|done|done|].
    - destruct Hd as [Ht'|(_ & -> & _)]; [destruct Ht as (_ & _ & E), Ht' as (_ & _ & E'); congruence|by apply drop_is_keeps_os].
    - destruct Hd as [Ht'|(_ & -> & Ho & Hpd)]; [destruct Ht as (_ & _ & E), Ht' as (_ & _ & E'); congruence|]. right.
      unfold timers_are in *. rewrite R1, R3. split; [exact Ht|done]. }
  split_and!; [|apply core_le_drop_is|intros _; split; [done|unfold timers_are; by rewrite R1]|done|done].
  split; [exact Hs'|split; [by eapply wired_drop_is|split; [|exact Hx]]]. cbn [c_hsp]. unfold state_ok in *. destruct (hsp_state h); try done; by apply Hsd.
Qed.

Lemma wp_call_finalizers l kn h k (Q : unit -> conn L -> Prop) : conn_inv k (mk_conn l kn h) -> completed h k ->
  (forall c', keeps [] k (mk_conn l kn h) c' -> Q tt c') -> wp (_nxweb_call_request_finalizers (run finalizers)) Q (mk_conn l kn h).
Proof using names accept_bound finalizers_legal.
  intros Hinv Hcm HQ. destruct (completed_core _ _ Hinv Hcm) as (Hn & Hu & Ho & resp & Hr & Hkn & Hpd). cbn [c_hsp] in *.
  assert (Hnb : forall l1, body_fits (mk_conn l1 kn h)) by (intros l1 E; cbn in E; destruct Hcm as [Hre _]; by rewrite E in Hre).
  pose proof Hinv as (Hs & Hw & _). cbn [c_loop] in Hs.
  unfold _nxweb_call_request_finalizers. apply wp_bind, wp_get_hsp. rewrite Hr. apply wp_bind. destruct (content_out resp) as [i|] eqn:Eco.
  - assert (Hi : is_Some (p_is k !! i)).
    { destruct (Hkn i Eco) as [->|[->|Hf]]; [destruct (w_ob _ Hw) as [->| ->]; eauto|destruct (w_fb _ Hw) as [->| ->]; eauto|by apply w_foreign_is]. }
    eapply wp_disconnect_istream; [exact Hs|exact Hi|]. intros l1 Hs1. assert (H1 := completed_drop _ _ _ _ _ _ Hinv Hcm Hs1 (Hkn i Eco)).
    eapply wp_run_prog; [exact finalizers_legal|apply H1|apply Hnb|]. intros c2 Hk2. apply HQ. by eapply keeps_trans.
  - apply wp_ret. eapply wp_run_prog; [exact finalizers_legal|exact Hinv|apply Hnb|done].
Qed.

(** [request_cleanup], when the response is complete. *)
Definition cleaned (k : core) (c c' : conn L) : Prop :=
  exists k', conn_inv k' c' /\ core_le k k' /\ hsp_state (c_hsp c') = HSP_WAITING_FOR_REQUEST /\ own_body (c_hsp c') /\
    (own_body (c_hsp c) -> total c' = total c).

Lemma wp_request_cleanup l kn h k (Q : unit -> conn L -> Prop) : conn_inv k (mk_conn l kn h) -> completed h k ->
  (forall c', cleaned k (mk_conn l kn h) c' -> Q tt c') -> wp (request_cleanup N (run finalizers)) Q (mk_conn l kn h).
Proof using names accept_bound finalizers_legal.
  intros Hinv Hcm HQ. unfold request_cleanup. apply wp_bind, (wp_call_finalizers _ _ _ k); [done|done|]. intros [l1 kn1 h1] Hk1.
  apply keeps_open in Hk1 as (k1 & Hi1 & Hle1 & Hc1 & Hown1 & _). cbn [c_hsp] in Hc1, Hown1. specialize (Hc1 Hcm).
  destruct (completed_core _ _ Hi1 Hc1) as (Hn & Hu & Ho & resp & Hr & Hkn & Hpd). cbn [c_hsp] in *. destruct Hc1 as [_ Ht1]. pose proof Hi1 as (Hs1 & Hw1 & _ & _ & Hob & _). cbn [c_loop c_hsp] in *.
  destruct names_ne as ((A1 & A2 & A3 & A4) & (B1 & B2 & B3) & _).
  assert (Hfb : is_Some (p_is k1 !! fb_data_out N)) by (destruct (w_fb _ Hw1) as [->| ->]; eauto).
  apply wp_bind. unfold finalize_fbuffer. apply wp_bind. eapply wp_disconnect_istream; [exact Hs1|exact Hfb|]. intros l2 Hs2. set (k2 := drop_is _ k1) in *.
  destruct (drop_is_rest (fb_data_out N) k1) as (R1 & R2 & R3 & R4). fold k2 in R1, R2, R3, R4.
  assert (Hw2 : wired k2) by (by eapply wired_drop_is). assert (Hu2 : unpaired_body k2) by (by apply drop_is_keeps_os).
  assert (Ht2 : timers_are k2 None None None) by (unfold timers_are in *; by rewrite R1).
  apply wp_upd_hsp. apply wp_bind. unfold close_sendfile. apply wp_bind, wp_get_hsp. cbn [set_fb hsp_resp]. rewrite Hr.
  set (h2 := set_fb _ h1).
  assert (Hrest : forall kn2, k_out kn2 = k_out kn1 ->
    wp (do! on_req_nxb (modify nxb_empty) in
        do! upd_hsp (fun h => set_nxb None (set_request_count (hsp_request_count h + 1)
          (set_state HSP_WAITING_FOR_REQUEST (set_headers_bytes_received 0 h)))) in
        let! h := get_hsp in
        do! (if match hsp_resp h with Some resp => rs_keep_alive resp | None => false end then
               do! on_l (sl_ostream_set_ready (data_in N)) in
               set_timer NXWEB_TIMER_KEEP_ALIVE (timer_keep_alive N)
             else
               let! ist := on_l (sl_istream (data_out N)) in
               do! (match is_pair ist with Some _ => on_k sys_shutdown | None => ret tt end) in
               set_timer NXWEB_TIMER_KEEP_ALIVE (timer_keep_alive N)) in
        upd_hsp (fun h => set_req request_zero (set_sending_100_continue false (set_content_received 0 (set_chunked_content_complete false
          (set_cdstate (mk_cds CDS_SIZE false false 0) (set_resp None (set_resp_nxb None (set_bytes_sent 0 h)))))))))
      Q (mk_conn l2 kn2 h2)).
  { intros kn2 Hko2. destruct Hn as [nxb Hn]. apply wp_bind. eapply wp_on_req_nxb; [exact Hn|]. apply wp_modify. apply wp_bind, wp_upd_hsp, wp_bind, wp_get_hsp.
    cbn [hsp_resp set_nxb set_request_count set_state set_headers_bytes_received set_fb h2]. rewrite Hr. set (h3 := set_nxb None _).
    assert (Hdone : forall l4 kn4, sees l4 k2 -> k_out kn4 = k_out kn1 ->
      wp (set_timer NXWEB_TIMER_KEEP_ALIVE (timer_keep_alive N)) (fun _ c => wp (upd_hsp (fun h => set_req request_zero (set_sending_100_continue false (set_content_received 0 (set_chunked_content_complete false
          (set_cdstate (mk_cds CDS_SIZE false false 0) (set_resp None (set_resp_nxb None (set_bytes_sent 0 h))))))))) Q c) (mk_conn l4 kn4 h3)).
    { intros l4 kn4 Hs4 Hko4. eapply wp_set_timer_on; [exact Hs4|by vm_compute|apply Ht2|]. intros l5 Hs5. apply wp_upd_hsp, HQ. set (k5 := p_set_timer _ _ k2) in *.
      exists k5. cbn [c_hsp]. split_and!; [|eapply core_le_trans; [exact Hle1|]; eapply core_le_trans; [apply (core_le_drop_is k1 (fb_data_out N))|by apply core_le_same]|done|done|].
      - split; [exact Hs5|split; [by apply (wired_same k2)|split; [|split; [done|]]]]; cbn [c_hsp].
        + unfold state_ok. cbn. split; [by apply timers_set_ka with (ka := None)|]. split; [|done]. unfold before_request. cbn. rewrite R3. split_and!; try done.
        + destruct Hi1 as (_ & _ & _ & _ & Hbuf). exact Hbuf.
      - intros Hown. destruct (Hown1 Hown) as [Hown' <-]. unfold total. cbn [c_kernel c_hsp]. rewrite Hko4. f_equal.
        rewrite (Hpd (Hown' resp Hr)). done. }
    destruct (rs_keep_alive resp).
    - eapply wp_bind, wp_then_quiet; [apply (quiet_data_in _ k2 Hs2 Hw2)|exact Hs2|]. intros _ l4 Hs4. by apply Hdone.
    - apply wp_bind, wp_bind, wp_on_l. eapply see_istream; [exact Hs2|by eapply w_data_out|]. intros ist -> _. apply wp_bind, wp_on_k, wp_modify. by apply Hdone. }
  destruct (negb (rs_sendfile_fd resp =? 0)); [apply wp_on_k, wp_modify; by apply Hrest|apply wp_ret; by apply Hrest].
Qed.

(** * The operations, one after another *)

(** What happens to a connection: the loop calls the methods of the streams
    ([DoRead], [DoWrite]), another component acts through its streams
    ([Component]), the handler prints into the buffer of the request ([Print]),
    connects a consumer, asks for more of the body and answers, the server
    starts the next request ([Cleanup]), the socket reports an error, and the
    kernel says that it can be read or written. *)
Inductive server_op :=
| DoRead | DoWrite | Component (p : prog) | Print (nxb : nxb_buffer) | ConnectBody (o : positive) | StartReceiving
| Answer (resp : response) (rn : option nxb_buffer) | Cleanup | DataError (d : Z) | Readable | Writable.

Definition exec (x : server_op) : M (conn L) unit :=
  match x with
  | DoRead => data_in_do_read N fs open_file REVISION date pool_block unique_id (fun o => run (consumer o))
  | DoWrite => data_out_do_write N fs accept file (fun i => run (producer i))
  | Component p => run p
  | Print nxb => upd_hsp (set_nxb (Some nxb))
  | ConnectBody o => connect_request_body_out N o
  | StartReceiving => start_receiving_request_body N
  | Answer resp rn => start_sending_response N open_file REVISION date resp rn
  | Cleanup => request_cleanup N (run finalizers)
  | DataError d => data_error_on_message N d
  | Readable => on_l (sl_istream_set_ready (fs_data_is fs))
  | Writable => on_l (sl_ostream_set_ready (fs_data_os fs))
  end.

(** The unfinished stream of a buffer. *)
Definition stream_of (nxb : nxb_buffer) : bytes := take (Z.to_nat (nxb_ptr nxb - nxb_base nxb)) (drop (Z.to_nat (nxb_base nxb)) (c_mem (nxb_chunk_ nxb))).
Definition answer_of (h : nxd_http_server_proto) (resp : response) (rn : option nxb_buffer) : response :=
  final_response (hsp_req h) (from_option stream_of [] (resp_nxb_of rn h)) resp.

(** A handler answers with a response that is in order, printed into a buffer
    that has room for its headers. *)
Definition answer_ok (k : core) (h : nxd_http_server_proto) (resp : response) (rn : option nxb_buffer) : Prop :=
  response_ok k resp /\ exists b, resp_nxb_of rn h = Some b /\ buffer_ok [] (stream_of b) b /\
    chunk_size (nxb_chunk_ b) + zlen (stream_of b) + zlen (response_text REVISION date (answer_of h resp rn)) + 256 <= 2 ^ 27.
Definition handled (h : nxd_http_server_proto) : Prop := hsp_state h = HSP_RECEIVING_BODY \/ hsp_state h = HSP_HANDLING.

(** When an operation may happen. *)
Definition enabled (x : server_op) (k : core) (c : conn L) : Prop :=
  match x with
  | DoRead => body_fits c /\ (receiving_headers (c_hsp c) -> read_fits c)
  | DoWrite => p_out k = true
  | Component p => legal p /\ body_fits c
  | Print nxb => handled (c_hsp c) /\ nxb_ok nxb
  | ConnectBody o => o ∈ foreign_os /\ p_os k !! o = Some None /\ p_is k !! req_body_out N = Some None
  | StartReceiving => True
  | Answer resp rn => ~ receiving_headers (c_hsp c) /\ (handled (c_hsp c) -> answer_ok k (c_hsp c) resp rn)
  | Cleanup => completed (c_hsp c) k
  | DataError _ | Readable | Writable => True
  end.

(** The bytes that an operation adds to what the client is to receive. *)
Definition announced (x : server_op) (c c' : conn L) : bytes :=
  match x with
  | DoRead =>
      if bool_decide (receiving_headers (c_hsp c)) then
        match hsp_state (c_hsp c') with
        | HSP_SENDING_HEADERS => response_bytes (hsp_req (c_hsp c')) bad_final
        | HSP_RECEIVING_BODY | HSP_HANDLING => interim (c_hsp c')
        | _ => []
        end
      else []
  | Answer resp rn => if can_start (hsp_state (c_hsp c)) then response_bytes (hsp_req (c_hsp c')) (answer_of (c_hsp c) resp rn) else []
  | _ => []
  end.
(** The response, if one is started, has its body in the protocol. *)
Definition own_answer (x : server_op) (c : conn L) : Prop :=
  match x with Answer resp rn => own_source (answer_of (c_hsp c) resp rn) | _ => True end.

Definition step_kept (x : server_op) (k : core) (c c' : conn L) : Prop :=
  exists k', conn_inv k' c' /\ core_le k k' /\
    (own_body (c_hsp c) -> own_answer x c -> own_body (c_hsp c') /\ total c' = total c ++ announced x c c').

Lemma kept_keeps x k c c' : keeps [] k c c' -> announced x c c' = [] -> step_kept x k c c'.
Proof using Type.
  intros (k' & H1 & H2 & H3 & H4 & H5) E. exists k'. split_and!; [done..|]. intros Ho _. rewrite E. by apply H4.
Qed.

Lemma stream_of_is b s : buffer_ok [] s b -> stream_of b = s.
Proof using Type.
  intros ((Hbp & Hpe & _) & [Hb Hp] & _). unfold stream_of. replace (nxb_ptr b - nxb_base b) with (zlen s) by lia.
  apply bytes_at_take. intros i c Hi. specialize (Hb i c Hi). unfold peek in *. destruct Hbp. pose proof (lookup_lt_Some _ _ _ Hi).
  rewrite (proj2 (Z.leb_le 0 _)) in Hb by lia. rewrite (proj2 (Z.leb_le 0 _)) by lia. rewrite lookup_drop. rewrite <- Hb. f_equal. lia.
Qed.

Lemma kept_read k c c' : read_outcome k c c' -> step_kept DoRead k c c'.
Proof using Type.
  intros [[Hrh [(Hk & Hst & _)|[(k' & H1 & H2 & H3 & H4 & H5)|(k' & H1 & H2 & H3 & H4 & H5 & H6 & H7 & _)]]]|[Hrh Hk]].
  - apply kept_keeps; [done|]. cbn. rewrite bool_decide_true by done. by rewrite Hst.
  - exists k'. split_and!; [done..|]. intros _ _. cbn. rewrite bool_decide_true, H3 by done. apply H5. by left.
  - exists k'. split_and!; [done..|]. intros _ _. split; [done|]. cbn. rewrite bool_decide_true, H4 by done. by destruct (_ =? 0).
  - apply kept_keeps; [done|]. cbn. by rewrite bool_decide_false.
Qed.

Lemma handled_startable l kn h k : conn_inv k (mk_conn l kn h) -> handled h -> startable h k /\ exists rd, timers_are k None rd None /\ (rd = None \/ rd = Some NXWEB_TIMER_READ).
Proof using Type.
  intros (_ & _ & Hst & H100 & Hbuf) Hh. cbn [c_hsp] in *. unfold state_ok in Hst.
  assert (Hs : handling h k -> can_start (hsp_state h) = true -> startable h k).
  { intros (G1 & G2 & G3 & (b & G4 & _) & _) Hcs. unfold startable. split; [done|split; [done|split; [done|split; [done|split; [done|split; [done|by exists b]]]]]]. }
  destruct Hh as [E|E]; rewrite E in Hst.
  - destruct Hst as (Ht & _ & Hh). split; [apply Hs; [done|by rewrite E]|]. eexists. split; [exact Ht|by right].
  - destruct Hst as (Ht & Hh). split; [apply Hs; [done|by rewrite E]|]. eexists. split; [exact Ht|by left].
Qed.

Lemma wp_answer l kn h k resp rn (Q : unit -> conn L -> Prop) : conn_inv k (mk_conn l kn h) -> enabled (Answer resp rn) k (mk_conn l kn h) ->
  (forall c', step_kept (Answer resp rn) k (mk_conn l kn h) c' -> Q tt c') -> wp (start_sending_response N open_file REVISION date resp rn) Q (mk_conn l kn h).
Proof using names alloc_total revision_short date_short open_file_fd.
  intros Hinv [Hnr Hans] HQ. cbn [c_hsp] in *. destruct (can_start (hsp_state h)) eqn:Ecs.
  - assert (Hh : handled h) by (unfold handled, receiving_headers in *; destruct (hsp_state h); auto; try done; exfalso; auto).
    destruct (handled_startable _ _ _ _ Hinv Hh) as (Hst & rd & Ht & Hrd). destruct (Hans Hh) as (Hro & b & Hb & Hok & Hbig). pose proof Hinv as (Hs & Hw & _). cbn [c_loop] in Hs.
    pose proof (zlen_nonneg (response_text REVISION date (answer_of h resp rn))). pose proof (zlen_nonneg (stream_of b)). pose proof (zlen_nonneg (c_mem (nxb_chunk_ b))). unfold chunk_size in *.
    unfold answer_of in *. rewrite Hb in *. cbn [from_option] in *.
    eapply wp_start_sending; [exact Hs|exact Hw|exact Ht|exact Hrd|exact Hst|exact Hb|exact Hok|lia|exact Hro|unfold chunk_size; lia|]. intros c' (k' & G1 & G2 & G3 & G4 & G5). apply HQ.
    exists k'. split_and!; [done..|]. intros _ Hown. unfold own_answer, announced, answer_of in *. cbn [c_hsp] in *. rewrite Ecs, Hb in *. cbn [from_option] in *. by apply G5.
  - unfold start_sending_response. apply wp_bind, wp_get_hsp. rewrite Ecs. cbn [negb]. apply wp_ret, HQ, kept_keeps; [by apply keeps_refl|]. cbn. by rewrite Ecs.
Qed.

Lemma wp_connect_body l kn h k o (Q : unit -> conn L -> Prop) : conn_inv k (mk_conn l kn h) -> enabled (ConnectBody o) k (mk_conn l kn h) ->
  (forall c', keeps [] k (mk_conn l kn h) c' -> Q tt c') -> wp (connect_request_body_out N o) Q (mk_conn l kn h).
Proof using names.
  intros (Hs & Hw & Hst & Hx) (Ho & Hpo & Hpi) HQ. cbn [c_loop c_hsp] in *. unfold connect_request_body_out. apply wp_on_l. eapply see_connect; [exact Hs|exact Hpi|exact Hpo|].
  intros l' Hs'. apply HQ. set (k' := p_set_pair _ _ _ _ k) in *. destruct names_ne as ((A1 & A2 & A3 & A4) & (B1 & B2 & B3) & (D1 & D2 & _) & C1 & C2 & C3).
  pose proof (n_foreign_os names) as Hf. rewrite !Forall_cons in Hf. destruct Hf as (F1 & F2 & F3 & _).
  assert (Hne : o <> fs_data_os fs /\ o <> data_in N /\ o <> resp_body_in N) by (split_and!; by intros ->). destruct Hne as (E1 & E2 & E3).
  assert (Hw' : wired k').
  { destruct Hw. split; cbn; try done.
    - by rewrite lookup_insert_ne.
    - by rewrite lookup_insert_ne.
    - rewrite lookup_insert_eq. eauto.
    - by rewrite lookup_insert_ne.
    - by rewrite lookup_insert_ne.
    - by rewrite lookup_insert_ne.
    - intros x Hi. apply lookup_insert_is_Some'. right. by apply w_foreign_is0.
    - intros x Hi. apply lookup_insert_is_Some'. right. by apply w_foreign_os0. }
  assert (Hp : p_os k' !! resp_body_in N = p_os k !! resp_body_in N) by (cbn; by rewrite lookup_insert_ne).
  exists k'. split_and!; [|apply core_le_set_pair|done| |done].
  - split; [exact Hs'|split; [exact Hw'|split; [|exact Hx]]]. cbn [c_hsp]. unfold state_ok, before_request, handling, sending, unpaired_body in *. rewrite Hp. exact Hst.
  - intros Ho'. split; [done|]. by rewrite app_nil_r.
Qed.

Lemma wp_print_into l kn h k nxb (Q : unit -> conn L -> Prop) : conn_inv k (mk_conn l kn h) -> handled h -> nxb_ok nxb ->
  (forall c', keeps [] k (mk_conn l kn h) c' -> Q tt c') -> wp (upd_hsp (set_nxb (Some nxb))) Q (mk_conn l kn h).
Proof using Type.
  intros (Hs & Hw & Hst & Hx) Hh Hok HQ. cbn [c_loop c_hsp] in *. apply wp_upd_hsp, HQ. exists k. split_and!; [|done|done| |done].
  - split; [exact Hs|split; [exact Hw|split; [|exact Hx]]]. cbn [c_hsp]. unfold state_ok in *. cbn [set_nxb hsp_state].
    assert (Hhd : handling h k -> handling (set_nxb (Some nxb) h) k).
    { intros (G1 & G2 & G3 & _ & G5). split; [done|split; [done|split; [done|split; [by exists nxb|done]]]]. }
    destruct Hh as [E|E]; rewrite E in *; [destruct Hst as (G1 & G2 & G3); split; [done|split; [exact G2|by apply Hhd]]|destruct Hst as (G1 & G2); split; [done|by apply Hhd]].
  - intros Ho. split; [done|]. by rewrite app_nil_r.
Qed.

Lemma wp_data_error l kn h k d (Q : unit -> conn L -> Prop) : conn_inv k (mk_conn l kn h) ->
  (forall c', keeps [] k (mk_conn l kn h) c' -> Q tt c') -> wp (data_error_on_message N d) Q (mk_conn l kn h).
Proof using Type.
  intros (Hs & Hw & Hst & Hx) HQ. cbn [c_loop c_hsp] in *. unfold data_error_on_message. eapply wp_publish_event; [exact Hs|exact Hw|]. intros l' Hs'. apply HQ. exists (p_publish d k).
  split_and!; [|by apply core_le_same|done| |done].
  - split; [exact Hs'|split; [by apply (wired_same k)|split; [exact Hst|exact Hx]]].
  - intros Ho. split; [done|]. by rewrite app_nil_r.
Qed.

(** Every operation that may happen returns, and keeps the connection in order. *)
Lemma wp_exec x k c (Q : unit -> conn L -> Prop) : conn_inv k c -> enabled x k c -> (forall c', step_kept x k c c' -> Q tt c') -> wp (exec x) Q c.
Proof using names accept_bound consumer_legal producer_legal finalizers_legal alloc_total revision_short date_short open_file_fd pool_ok.
  destruct c as [l kn h]. intros Hinv Hok HQ. pose proof Hinv as (Hs & Hw & _). cbn [c_loop] in Hs. destruct x; cbn [exec enabled c_hsp] in *.
  - destruct Hok as [Hf Hr]. eapply wp_data_in_do_read; [exact Hinv|exact Hf|exact Hr|]. intros c' Hc'. by apply HQ, kept_read.
  - eapply wp_data_out_do_write; [exact Hinv|exact Hok|]. intros c' Hc'. by apply HQ, kept_keeps.
  - destruct Hok as [Hl Hf]. eapply wp_run_prog; [exact Hl|exact Hinv|exact Hf|]. intros c' Hc'. by apply HQ, kept_keeps.
  - destruct Hok as [Hh Hb]. eapply wp_print_into; [exact Hinv|exact Hh|exact Hb|]. intros c' Hc'. by apply HQ, kept_keeps.
  - eapply wp_connect_body; [exact Hinv|exact Hok|]. intros c' Hc'. by apply HQ, kept_keeps.
  - eapply wp_quiet; [apply (quiet_data_in _ k Hs Hw)|exact Hs|]. intros [] l' Hs'. apply HQ, kept_keeps; [by apply keeps_same_loop|done].
  - by eapply wp_answer.
  - eapply wp_request_cleanup; [exact Hinv|exact Hok|]. intros c' (k' & H1 & H2 & H3 & H4 & H5). apply HQ. exists k'. split_and!; [done..|].
    intros Ho _. split; [done|]. cbn. rewrite app_nil_r. by apply H5.
  - eapply wp_data_error; [exact Hinv|]. intros c' Hc'. by apply HQ, kept_keeps.
  - assert (Hq : quiet (sl_istream_set_ready (fs_data_is fs)) k) by (apply quiet_is_set; [by rewrite (w_sock_in _ Hw)|apply names_ne]).
    eapply wp_quiet; [exact Hq|exact Hs|]. intros [] l' Hs'. apply HQ, kept_keeps; [by apply keeps_same_loop|done].
  - assert (Hq : quiet (sl_ostream_set_ready (fs_data_os fs)) k) by (apply quiet_os_set; by rewrite (w_sock_out _ Hw)).
    eapply wp_quiet; [exact Hq|exact Hs|]. intros [] l' Hs'. apply HQ, kept_keeps; [by apply keeps_same_loop|done].
Qed.

(** ** Runs *)

(** A new protocol on a socket whose streams are connected to it. *)
Definition fresh (k : core) (c : conn L) : Prop :=
  sees (c_loop c) k /\ wired k /\ timers_are k None None None /\ unpaired_body k /\ p_out k = false /\ c_hsp c = hsp_init N.

Lemma wp_proto_connect k c (Q : unit -> conn L -> Prop) : fresh k c ->
  (forall k' c', conn_inv k' c' -> own_body (c_hsp c') -> total c' = k_out (c_kernel c) -> Q tt c') -> wp (nxd_http_server_proto_connect N) Q c.
Proof using names.
  destruct c as [l kn h]. intros (Hs & Hw & Ht & Hu & Ho & Eh) HQ. cbn [c_loop c_hsp c_kernel] in *. unfold nxd_http_server_proto_connect.
  apply wp_bind, wp_upd_hsp. eapply wp_set_timer_on; [exact Hs|by vm_compute|apply Ht|]. intros l1 Hs1. set (k1 := p_set_timer _ _ k) in *.
  assert (Ht1 : timers_are k1 (Some NXWEB_TIMER_KEEP_ALIVE) None None) by (by apply timers_set_ka with (ka := None)).
  rewrite Eh. apply (HQ k1); [|by intros r [=]|unfold total; cbn; by rewrite app_nil_r].
  split; [exact Hs1|split; [by apply (wired_same k)|split; [|split; [done|]]]]; cbn [c_hsp]; [|by unfold buffers_ok; cbn; split_and!].
  unfold state_ok. cbn. split; [done|]. split; [|done]. unfold before_request. by cbn; split_and!.
Qed.

(** An operation may happen when it may in every view of the loop. *)
Definition permitted (x : server_op) (c : conn L) : Prop := forall k, sees (c_loop c) k -> enabled x k c.

(** [reach P c0 c W]: operations that satisfy [P] lead from [c0] to [c] and
    announce [W]. *)
Inductive reach (P : server_op -> conn L -> Prop) (c0 : conn L) : conn L -> bytes -> Prop :=
| reach_start : reach P c0 c0 []
| reach_step c W x c' : reach P c0 c W -> permitted x c -> P x c -> exec x c = Ok (tt, c') -> reach P c0 c' (W ++ announced x c c').

Lemma step_result x k c c' : conn_inv k c -> permitted x c -> exec x c = Ok (tt, c') -> step_kept x k c c'.
Proof using names accept_bound consumer_legal producer_legal finalizers_legal alloc_total revision_short date_short open_file_fd pool_ok.
  intros Hinv Hp E. assert (Hw : wp (exec x) (fun _ c' => step_kept x k c c') c) by (eapply wp_exec; [exact Hinv|apply Hp, Hinv|done]).
  unfold wp in Hw. by rewrite E in Hw.
Qed.

(** What holds in every state that is reached. *)
Lemma reach_kept P k0 c0 c W : conn_inv k0 c0 -> own_body (c_hsp c0) -> reach P c0 c W ->
  exists k, conn_inv k c /\ ((forall x c, P x c -> own_answer x c) -> own_body (c_hsp c) /\ total c = total c0 ++ W).
Proof using names accept_bound consumer_legal producer_legal finalizers_legal alloc_total revision_short date_short open_file_fd pool_ok.
  intros Hinv Hown Hr. induction Hr as [|c W x c' Hr (k & Hk & IH) Hp HP E].
  - exists k0. split; [done|]. intros _. by rewrite app_nil_r.
  - destruct (step_result x k c c' Hk Hp E) as (k' & H1 & _ & H2). exists k'. split; [done|]. intros HPO. destruct (IH HPO) as [Ho Ht].
    destruct (H2 Ho (HPO x c HP)) as [Ho' ->]. split; [done|]. by rewrite Ht, app_assoc.
Qed.




End proto.
