(* ===== verification/HttpServerRun.v ===== *)
(** A connection of the server protocol on the loop of Event.v with the timers
    of Timer.v: a request comes in two parts, its handler answers and the answer
    is written.  The theorems of HttpServerInv.v are applied to it. *)
From S2P Require Import Prelude CString Buffer Uri Chunked HttpTime HttpRequest RequestSpec HttpParams HttpResponse ResponseText.
From S2P Require Import Dll Event EventInv EventDelivery StreamBuffers RingBuffer Timer TimerProof LoopServices Socket HttpServerProto HttpServerView HttpServerInv.
From coqutil Require Import Datatypes.RecordSetters.
Import DoubleBraceUpdate.
Open Scope Z_scope.

(** * The setting *)

Definition sample_names : hsp_names := mk_names 2 2 3 3 4 5 1 3 1 2 3.
Definition sample_fs : nxe_fd_source := mk_fs 7 1 1 2.
Definition sample_is : gset positive := {[6%positive]}.
Definition sample_os : gset positive := {[4%positive]}.
(** The socket takes seven bytes of the first write, and all of the others. *)
Definition sample_accept (n : nat) (size : Z) : Z := if (n =? 0)%nat then Z.min 7 size else size.
Definition sample_file (fd : Z) : bytes := [].
Definition sample_open (path : bytes) : Z := -1.
Definition sample_pool (n : Z) : Z * list Z := (0, replicate (Z.to_nat NXWEB_CONN_NXB_SIZE) 0).
Definition sample_uid (n : Z) : Z := n.
Definition idle (i : positive) : prog := PDone.

Lemma sample_accept_bound n size : 0 <= size -> sample_accept n size <= size.
Proof. unfold sample_accept. destruct (n =? 0)%nat; lia. Qed.
Lemma sample_names_ok : names_ok sample_names sample_fs sample_is sample_os.
Proof. split; try (apply (bool_decide_unpack _); by vm_compute); done. Qed.
Lemma sample_open_fd path : sample_open path = -1 \/ 0 < sample_open path.
Proof. by left. Qed.
Lemma sample_pool_ok n : 0 <= fst (sample_pool n) /\ zlen (snd (sample_pool n)) = NXWEB_CONN_NXB_SIZE /\ last (snd (sample_pool n)) = Some 0.
Proof. split_and!; by vm_compute. Qed.

Definition stream_ops : list loop_op :=
  [InitIstream 1; InitIstream 2; InitIstream 3; InitIstream 4; InitIstream 5; InitIstream 6;
   InitOstream 1; InitOstream 2; InitOstream 3; InitOstream 4; InitPublisher 1; InitPublisher 2; Connect 1 2; Connect 2 1]%positive.
Definition stream_loop : nxe_loop :=
  Eval vm_compute in fold_left (fun l op => match run_op op l with Ok (_, l') => l' | Err _ => l end) stream_ops nxe_create.
Lemma stream_loop_inv : exists q, loop_inv InProtocol q stream_loop.
Proof.
  destruct (reachable_inv (HO := sample_handlers_ok) stream_loop) as (q & Hq & Hst & Hsub & _).
  - apply (ops_reach stream_ops). vm_compute. repeat (eexists || split).
  - exists q. split; [done|split; [|done]]. eapply streams_ok_weaken; [|exact Hst]. intros i o _. by right.
Qed.

Definition idle_timers : timers :=
  mk_timers 1000000 (list_to_map [(1%positive, mk_timer 0 None None); (2%positive, mk_timer 0 None None); (3%positive, mk_timer 0 None None)])
    (map (fun d => mk_tq d None None) [60000000; 30000000; 30000000; 2000000; 1500000; 500000; 0; 0]).
Definition idle_schedule : schedule := replicate 8 [].
Lemma idle_timers_ok : timers_ok idle_timers idle_schedule.
Proof.
  split; [done|]. split; [apply (bool_decide_unpack _); by vm_compute|]. split; [|split; [|split]].
  - assert (Hempty : forall m now to, queue_ok m now (mk_tq to None None) []).
    { intros m now to. split; [split_and!; [constructor|done|done|done]|]. by split_and!; constructor. }
    unfold idle_timers, idle_schedule. cbn [t_all t_now t_queues map replicate]. repeat (apply Forall2_cons; split; [apply Hempty|]). constructor.
  - intros t tm Ht _. unfold idle_timers in Ht. cbn [t_all] in Ht. apply elem_of_list_to_map_2 in Ht. set_unfold in Ht. naive_solver.
  - by vm_compute.
  - apply (bool_decide_unpack _). by vm_compute.
Qed.

(** The loop with the streams of a connection. *)
Definition server_start : server_loop := mk_sl stream_loop idle_timers [].
Definition start_view : view :=
  mk_view (l_istreams stream_loop) (l_ostreams stream_loop) (dom (l_publishers stream_loop)) (list_to_map [(1%positive, None); (2%positive, None); (3%positive, None)]) [].
Lemma server_start_rep : loop_rep server_start start_view.
Proof.
  split; [exact stream_loop_inv|]. split; [done|]. split; [done|]. split; [done|]. split; [|split; [|done]].
  - exists idle_schedule. split; [exact idle_timers_ok|]. split; [apply (bool_decide_unpack _); by vm_compute|].
    intros t x Ht. apply elem_of_list_to_map_2 in Ht. set_unfold in Ht. assert (x = None) as -> by naive_solver. vm_compute. by intros ?%elem_of_nil.
  - intros i d Hi Hd. unfold server_queues in Hi. do 6 (destruct i as [|i]; [by injection Hd as <-|]). lia.
Qed.
Definition start_core : core :=
  mk_core (is_pair <$> v_is start_view) (os_pair <$> v_os start_view) (v_timers start_view) (v_pubs start_view) false [].
Definition sample_input : list recv_result :=
  [RecvData (bs "POST /a HTTP/1.1"); RecvData ([13; 10] ++ bs "Host: b" ++ [13; 10] ++ bs "Content-Length: 5" ++ [13; 10; 13; 10] ++ bs "abc"); RecvData (bs "de")].
Definition start_conn : conn server_loop := mk_conn server_start (mk_kernel sample_input 0 [] false []) (hsp_init sample_names).

Lemma start_fresh : fresh sample_names sample_fs sample_is sample_os start_core start_conn.
Proof.
  split; [exists start_view; split; [exact server_start_rep|done]|]. split; [|split; [done|done]].
  split; try done; try (by eexists); try (by left); try (apply (bool_decide_unpack _); by vm_compute).
Qed.

(** * A run *)

#[local] Existing Instance zero_alloc.
Definition sample_revision : bytes := bs "3.3".
Definition sample_exec : server_op -> M (conn server_loop) unit :=
  exec sample_names sample_fs sample_accept sample_file sample_open sample_revision sample_date sample_pool sample_uid idle idle PDone.
Definition sample_reach : (server_op -> conn server_loop -> Prop) -> conn server_loop -> conn server_loop -> bytes -> Prop :=
  reach sample_names sample_fs sample_accept sample_file sample_open sample_revision sample_date sample_pool sample_uid sample_is sample_os 1 idle idle PDone.
Definition after (x : server_op) (c : conn server_loop) : conn server_loop := match sample_exec x c with Ok (_, c') => c' | Err _ => c end.
Definition works (x : server_op) (c : conn server_loop) : bool := match sample_exec x c with Ok _ => true | Err _ => false end.
Lemma works_after x c : works x c = true -> sample_exec x c = Ok (tt, after x c).
Proof. unfold works, after. by destruct (sample_exec x c) as [[[] c']|]. Qed.

Definition sample_answer : response := response_zero{{rs_http11 := true; rs_content := Some (bs "hello"); rs_content_length := 5}}.
Definition conn1 : conn server_loop := match nxd_http_server_proto_connect sample_names start_conn with Ok (_, c) => c | Err _ => start_conn end.
Definition conn2 : conn server_loop := after DoRead conn1.
Definition conn3 : conn server_loop := after DoRead conn2.
Definition conn4 : conn server_loop := after (Answer sample_answer None) conn3.
Definition conn5 : conn server_loop := after DoWrite conn4.
Definition conn6 : conn server_loop := after DoWrite (after Writable conn5).
Definition conn7 : conn server_loop := after Cleanup conn6.

Example run_states : map (fun c => hsp_state (c_hsp c)) [conn1; conn2; conn3; conn4; conn5; conn6; conn7] =
  [HSP_WAITING_FOR_REQUEST; HSP_RECEIVING_HEADERS; HSP_RECEIVING_BODY; HSP_SENDING_HEADERS; HSP_SENDING_HEADERS; HSP_SENDING_BODY; HSP_WAITING_FOR_REQUEST].
Proof. run. Qed.
Example run_first : k_out (c_kernel conn5) = bs "HTTP/1.".
Proof. run. Qed.
Example run_sent : k_out (c_kernel conn6) =
  bs "HTTP/1.1 200 OK" ++ [13; 10] ++ bs "Server: nxweb/3.3" ++ [13; 10] ++ bs "Date: Sun, 06 Nov 1994 08:49:37 GMT" ++ [13; 10] ++ bs "Connection: close" ++ [13; 10] ++
  bs "Content-Type: text/html" ++ [13; 10] ++ bs "Content-Length: 5" ++ [13; 10; 13; 10] ++ bs "hello".
Proof. run. Qed.
Example run_works : works DoRead conn1 && works DoRead conn2 && works (Answer sample_answer None) conn3 && works DoWrite conn4 && works Writable conn5 && works DoWrite (after Writable conn5) && works Cleanup conn6 = true.
Proof. run. Qed.
Example run_events : map snd (sl_log (c_loop conn6)) = [NXD_HSP_REQUEST_RECEIVED; NXD_HSP_REQUEST_COMPLETE].
Proof. run. Qed.

(** What the loop shows is what it holds. *)
Lemma seen_out l k b : sees sample_names l k -> is_ready <$> l_istreams (sl_loop l) !! 2%positive = Some b -> p_out k = b.
Proof. intros (v & (_ & Hi & _) & _ & _ & _ & _ & Ho & _) E. change (data_out sample_names) with 2%positive in Ho. rewrite <- Hi in Ho. rewrite Ho in E. by injection E. Qed.
Lemma seen_timer l k t : sees sample_names l k -> Forall (fun tq => tq_first tq = None) (t_queues (sl_timers l)) -> is_Some (t_all (sl_timers l) !! t) -> p_timers k !! t = Some None.
Proof.
  intros (v & (_ & _ & _ & _ & (A & HA & Hd & Hv) & _) & _ & _ & <- & _) Hq Ht.
  assert (is_Some (v_timers v !! t)) as [x Hx] by (apply elem_of_dom; rewrite Hd; by apply elem_of_dom). rewrite Hx. f_equal. specialize (Hv t x Hx).
  destruct x as [q|]; [|done]. destruct Hv as (_ & a & ql & Hql & Hin). destruct HA as (_ & _ & Hqs & _).
  destruct (Forall2_lookup_r _ _ _ _ _ Hqs Hql) as (tq & Htq & Hdll & _). pose proof (Forall_lookup_1 _ _ _ _ Hq Htq) as Hf. cbn in Hf.
  destruct Hdll as (_ & _ & Hfirst & _). rewrite Hf in Hfirst. destruct ql as [|[]]; [by apply elem_of_nil in Hin|done].
Qed.

(** ** The steps may happen *)

Definition sample_permitted : server_op -> conn server_loop -> Prop :=
  permitted sample_names sample_open sample_revision sample_date sample_pool sample_is sample_os 1.
Definition sample_inv : core -> conn server_loop -> Prop := conn_inv sample_names sample_fs sample_file sample_is sample_os.

Lemma read_permitted c : receiving_headers (c_hsp c) -> read_fits sample_pool c -> sample_permitted DoRead c.
Proof. intros Hr Hf k _. split; [|done]. intros E. destruct Hr as [H|H]; congruence. Qed.
Lemma write_permitted c : is_ready <$> l_istreams (sl_loop (c_loop c)) !! 2%positive = Some true -> sample_permitted DoWrite c.
Proof. intros E k Hs. by eapply seen_out. Qed.
Lemma sample_answer_ok k : response_ok sample_is k sample_answer.
Proof. split; [done|done| |split; [done|done]|split; [by constructor|done]]. intros c [= <-] _. by vm_compute. Qed.
Lemma answer_permitted k c : sample_inv k c -> hsp_state (c_hsp c) = HSP_RECEIVING_BODY ->
  zlen (response_text sample_revision sample_date (answer_of sample_names sample_open (c_hsp c) sample_answer None)) <= 2 ^ 20 -> sample_permitted (Answer sample_answer None) c.
Proof.
  intros (_ & _ & Hst & _) E Hl k' _. unfold state_ok in Hst. rewrite E in Hst. destruct Hst as (_ & _ & _ & _ & _ & (b & Hb & s & Hok & Hsz) & _).
  split; [intros [H|H]; congruence|]. intros _. split; [apply sample_answer_ok|]. exists b. split; [done|]. pose proof (stream_of_is _ _ Hok) as ->. split; [done|]. lia.
Qed.
Lemma cleanup_permitted c : responding (hsp_state (c_hsp c)) = true -> Forall (fun tq => tq_first tq = None) (t_queues (sl_timers (c_loop c))) ->
  Forall (fun t => is_Some (t_all (sl_timers (c_loop c)) !! t)) [1; 2; 3]%positive -> sample_permitted Cleanup c.
Proof.
  intros Hr Hq Ht k Hs. rewrite !Forall_cons in Ht. destruct Ht as (H1 & H2 & H3 & _). split; [done|]. split_and!; by apply (seen_timer (c_loop c)).
Qed.

Lemma idle_legal i : legal sample_is sample_os 1 (idle i).
Proof. done. Qed.
Lemma conn1_inv : exists k, sample_inv k conn1 /\ own_body sample_names (c_hsp conn1).
Proof.
  assert (Hw : wp (nxd_http_server_proto_connect sample_names) (fun _ c => exists k, sample_inv k c /\ own_body sample_names (c_hsp c)) start_conn).
  { eapply (HttpServerInv.wp_proto_connect sample_names sample_fs sample_file sample_is sample_os); [exact sample_names_ok|exact start_fresh|]. intros k c Hk Ho _. by exists k. }
  unfold wp in Hw. unfold conn1. by destruct (nxd_http_server_proto_connect sample_names start_conn) as [[[] c]|].
Qed.
Lemma sample_reach_inv P c W : sample_reach P conn1 c W -> exists k, sample_inv k c.
Proof.
  destruct conn1_inv as (k & Hk & Ho). intros Hr.
  destruct (reach_kept _ _ _ _ _ sample_revision sample_date _ _ _ _ 1 sample_accept_bound sample_names_ok _ _ PDone idle_legal idle_legal I sample_open_fd ltac:(by vm_compute) ltac:(by vm_compute) zero_alloc_total sample_pool_ok _ _ _ _ _ Hk Ho Hr) as (k' & Hk' & _).
  by exists k'.
Qed.
Definition sample_says : server_op -> conn server_loop -> conn server_loop -> bytes := announced sample_names sample_file sample_open sample_revision sample_date.
Lemma sample_step P c W x : sample_reach P conn1 c W -> sample_permitted x c -> P x c -> works x c = true -> sample_reach P conn1 (after x c) (W ++ sample_says x c (after x c)).
Proof. intros Hr Hp HP Hw. apply reach_step; [done|done|done|by apply works_after]. Qed.

(** A state reached, with a checked computation of what was announced. *)
Lemma sample_step_to P c W x W' : sample_reach P conn1 c W -> sample_permitted x c -> P x c -> works x c = true ->
  bool_decide (W ++ sample_says x c (after x c) = W') = true -> sample_reach P conn1 (after x c) W'.
Proof. intros Hr Hp HP Hw E%bool_decide_eq_true. rewrite <- E. by apply sample_step. Qed.

Definition all_ops (x : server_op) (c : conn server_loop) : Prop := True.
Definition own_ops : server_op -> conn server_loop -> Prop := own_answer sample_names sample_open.
Lemma reach_all P c W : sample_reach P conn1 c W -> sample_reach all_ops conn1 c W.
Proof. intros Hr. induction Hr; econstructor; eauto. done. Qed.

Lemma conn2_reached : sample_reach own_ops conn1 conn2 [].
Proof.
  eapply sample_step_to; [apply reach_start|apply read_permitted; [by left|by vm_compute]|done|by vm_compute|by vm_compute].
Qed.
Lemma conn3_reached : sample_reach own_ops conn1 conn3 [].
Proof.
  eapply sample_step_to; [apply conn2_reached|apply read_permitted; [by right; vm_compute|by vm_compute]|done|by vm_compute|by vm_compute].
Qed.
Definition answer_sent : bytes := Eval vm_compute in k_out (c_kernel conn6).
Lemma conn6_reached : sample_reach own_ops conn1 conn6 answer_sent.
Proof.
  assert (H4 : sample_reach own_ops conn1 conn4 answer_sent).
  { destruct (sample_reach_inv _ _ _ conn3_reached) as [k Hk].
    eapply sample_step_to; [apply conn3_reached|eapply answer_permitted; [exact Hk|by vm_compute|by vm_compute]|vm_compute; by left|by vm_compute|by vm_compute]. }
  assert (H5 : sample_reach own_ops conn1 conn5 answer_sent).
  { eapply sample_step_to; [exact H4|apply write_permitted; by vm_compute|done|by vm_compute|by vm_compute]. }
  assert (H6 : sample_reach own_ops conn1 (after Writable conn5) answer_sent).
  { eapply sample_step_to; [exact H5|done|done|by vm_compute|by vm_compute]. }
  eapply sample_step_to; [exact H6|apply write_permitted; by vm_compute|done|by vm_compute|by vm_compute].
Qed.


Example cleanup_may_happen : sample_permitted Cleanup conn6.
Proof. apply cleanup_permitted; [by vm_compute|by vm_compute; repeat constructor|by vm_compute; repeat (constructor || eexists)]. Qed.

(** The rest of the body is there. *)
Definition conn_body : conn server_loop := after Readable conn3.
Lemma conn_body_reached : sample_reach own_ops conn1 conn_body [].
Proof. eapply sample_step_to; [apply conn3_reached|done|done|by vm_compute|by vm_compute]. Qed.
Example body_read_sample : (match req_body_out_read sample_names sample_fs 10 conn_body with Ok (r, c') => Some (r, hsp_state (c_hsp c')) | Err _ => None end) =
  Some (bs "abcde", true, HSP_HANDLING).
Proof. run. Qed.

